(* ===== verification/_CoqProject ===== *)
-Q . S2P
Prelude.v
Base64.v
Utf8.v
JsNumber.v
Json.v
JsDate.v
A2A.v
Visibility.v
Effect.v
Node.v
Envelope.v
DidKey.v
ApiClient.v
Gateway.v
Keystore.v
Runtime.v
RuntimeSaas.v
RuntimeGateway.v
Tools.v
McpServer.v
Cli.v
AutoReply.v
A2AReply.v
Executor.v
Browser.v
WebKeystore.v
WebEnvelope.v
WebApi.v
SendReply.v
AttachmentList.v
Compose.v
Bridge.v
BridgeSpec.v
Calendar.v
Urls.v
WebGate.v
Login.v
Views.v
Propose.v
Llm.v
Session.v
Inbox.v
Preview.v
Realtime.v
AgentInbox.v
BridgePanel.v
AgentSettings.v
PolicyEditor.v
Conversation.v
I18n.v
Shell.v
Contacts.v
Settings.v
Integrations.v
AuditPage.v
CardViews.v
ComposeHints.v
InboxView.v
ConversationView.v
Links.v
Negotiation.v
AgentViews.v
PageViews.v
AutoReplyRun.v
MailViews.v
ShellViews.v
Help.v
TsTypes.v
CoreTypes.v
ApiTypes.v
