(* ===== verification/Prelude.v ===== *)
(** * NexusInbox: a verification of the TypeScript code

    NexusInbox is an end-to-end encrypted mailbox for AI agents and the people
    they act for.  Its server stores sealed messages and routes them; everything
    that must be trusted with plaintext or with a private key runs at the ends:
    the core SDK (src/packages), the MCP server an agent's model talks to
    (src/packages/mcp-server), and the web application (src/apps/web).  This
    library models those three in Rocq, from the source, and proves what makes
    them correct.  The services in Rust are another program: what they answer is
    an argument here.

    ** How the parts work together

    A message is a text with an optional protocol block (a2a.ts).  The sender
    draws a content key, encrypts subject and body with it, wraps the key for the
    recipient's encryption key, and signs the whole (core/src/index.ts for
    agents, apps/web/lib/crypto for people).  The recipient unwraps and decrypts
    with keys from a keystore: a file for the MCP server, IndexedDB for a browser,
    or the Signer Daemon a browser is paired with (apps/web/lib/bridge).  The MCP
    server exposes six tools over one of two runtimes, Standard (it holds the keys
    and speaks to the API) and Isolated (a gateway does).  The web application
    shows mail in threads, composes and answers, and lets an agent's policy answer
    protocol messages by itself (apps/web/lib/protocol).

    ** The files

    The language and its platform:
      Prelude    strings as UTF-16 code units, byte buffers, list lemmas, tactics
      Base64     btoa, atob, Buffer's encodings and the base64url helpers
      Utf8       TextEncoder, TextDecoder and code points
      JsNumber   doubles as exact rationals with binary64 rounding, String(n)
      Json       JavaScript values, property reads, JSON.stringify, JSON.parse
      JsDate     Date.parse and toISOString on the interchange format
      Effect     the state and error monad [eff], traces and event counting
      Node       the world of the packages: Web Crypto, clock, network, files
      Browser    the world of a page: Web Storage, IndexedDB, key rings

    The core packages (src/packages/core, crypto):
      A2A          a2a.ts: validators, guards, parser, serialiser, UUIDv7
      Visibility   visibility.ts
      Envelope     packages/crypto, the envelopes of index.ts, mcp-server decrypt.ts
      DidKey       did:key identifiers and their base 58
      ApiClient    tokens, DPoP proofs, the API client with attachments
      Gateway      the gateway's line protocol

    The MCP server (src/packages/mcp-server/src):
      Keystore        keystore.ts: records, activation, atomic writes
      Runtime         audit.ts and types.ts; the interface [RuntimeContract]
      RuntimeSaas     runtime-saas.ts     (an instance of [RuntimeContract])
      RuntimeGateway  runtime-gateway.ts  (an instance of [RuntimeContract])
      Tools           tools.ts: the catalog and its argument check
      McpServer       server.ts: filtering and the call handler, proved against
                      [RuntimeContract]
      Cli             cli.ts, the start-up of server.ts, the manifest of index.ts

    The web application's libraries (src/apps/web/lib, middleware.ts, app/api):
      WebKeystore  crypto/keystore.ts and the two key rings
      WebEnvelope  crypto/keywrap.ts, signature.ts, envelope.ts, attachment.ts
      WebApi       api/client.ts;  Session  api/hooks.ts, log-out, session watch
      AutoReply, A2AReply, Executor  protocol/: policy, replies, executor
      SendReply    sendProtocolReply.ts and parseProtocolBody.ts
      Bridge       bridge/: pairing tokens and daemon calls;  BridgeSpec  the
                   abstract pairing store they refine
      Calendar     calendar/: Google authorisation and the free slot search
      Urls         url/: redirect and identifier guards;  Views  grouping, modes
      Llm          llm/: the stored model key and the draft request
      I18n         i18n/: keys, interpolation, the chosen language
      WebGate      middleware.ts and the route handlers under app/api

    The pages (src/apps/web/app), each a state with one definition per handler
    and effect:
      Login          login/ and login/idkit/, with the messages between them
      Compose        compose/page.tsx: files, readiness, submission, reply, draft
      ComposeHints   compose/page.tsx: sender, key, recipient hint, the memo
      Propose        compose/propose/ and the handlers of the protocol cards
      CardViews      what the protocol cards show
      AttachmentList, Conversation, ConversationView  ConversationThread.tsx
      Inbox, Preview, InboxView  page.tsx: lists and bulk actions, the preview
                     workers, what the rows, toolbar and reader show
      AgentInbox     agent/[did]/: the list, the address, when the executor starts
      Realtime       RealtimeSubscriber.tsx
      BridgePanel, AgentSettings    settings/agents/ and settings/agents/new/
      PolicyEditor   AutoReplyPolicyPanel.tsx
      Shell          useTwoColumnResize.ts, AppShell.tsx, agent/page.tsx
      Contacts, Settings, Integrations, AuditPage   the remaining pages with state
      Links          what the pages' links carry and the pages they lead to read
      Negotiation    the answer to a proposal, from card to card, with the form
                     of a counter-proposal and the proposal page's view
      AutoReplyRun   agent/[did]/: the executor with the page's collaborators
      MailViews      what the agent inbox and the compose page show
      AgentViews     what settings/agents/ shows;  PageViews  what the smaller
                     pages show, with the controls of the policy form
      ShellViews     the frame, the first steps and toolbar of the inbox, the
                     copy and restore buttons and the downloads
      Help           help/: emphasis, the tutorial's links, the cards by session

    Types:
      TsTypes        the language of TypeScript's types and what has a type
      CoreTypes      the types of packages/core, and what its validators ensure
      ApiTypes       api/types.ts, and that what the pages send has these types

    ** What is proved

    - Confidential delivery.  An envelope built by any client opens to what was
      written at its recipient ([Envelope], [Compose], [SendReply], [RuntimeSaas]);
      a proposal is followed from its form to its card ([ConversationView]) and an
      answer from its button, or from the executor's policy, to the proposer's
      card ([Negotiation], [AutoReplyRun]); uploaded attachments download
      unchanged; the conversation view shows exactly the thread and the inbox a
      line of every message.
    - Keys.  Keystore files and browser key rings give back the key that was
      stored, migrate old formats, and survive every failure half way; a new
      agent's keys work from its creation to its first message.
    - Authority.  Without a confirmation no write leaves the MCP server, over
      either runtime; the allowlist bounds what a model sees; every write is
      audited; each request carries one DPoP proof bound to it and refreshes its
      token at most once ([request_refreshes_once]).  The session gate and the redirect guard are exact.
    - Automation.  The policy evaluator decides what a declarative specification
      says, the editor saves policies that decide what the form shows, the
      executor sends only what was decided and reports every message.
    - The bridge.  The token store refines an abstract store of pairings; a token
      at rest is sealed; pairing makes the restore work; logging out clears it.
    - Types.  What the account pages, the inboxes and the policy form send is a
      declared call with a body of its declared type ([ApiTypes]), and a policy
      received under its type can be opened, edited and saved under its type; a
      protocol block the validators accept has the declared type of its action,
      but for one array nothing looks into ([CoreTypes]).
    - State machines.  Preview workers end under every schedule; a session keeps
      one live connection; the inbox's address follows what it shows; sign-in
      happens only after verification; a submission always settles.
    - The wire format.  Validators accept exactly the specification, serialising
      and parsing are inverse, guarded parsing returns well-formed blocks only,
      UUIDv7 order is creation order, and valid blocks always render.

    ** How the code is modelled

    Values.  A string is its list of UTF-16 code units.  Untrusted JSON is [jval]
    and is read with the source's own guards; a read of a property of undefined
    or null throws a TypeError.  Objects are association lists; the order in
    which integer-like keys come first is not modelled: none of the code's own
    objects has such keys, and JSON from outside keeps the order of its text.  Members an object literal inherits from its prototype
    ([toString] and the like) are modelled where a key that comes from outside
    reaches them.  Array.prototype.sort is a stable sort.

    Effects.  [eff S A] is a computation over a state that returns or throws and
    keeps the state of the throw.  The world carries a trace of what was done, the
    network and the clock answer as functions of that trace, and every storage
    operation may fail where the platform lets it.  Promise.all and allSettled run
    their branches in order.  Writes of IndexedDB the code does not await finish
    in the order they were made.  A timeout is a fetch that rejects.  A gateway
    socket that closes without a line ends with an error, and a Google script that
    never calls back is not modelled.  process.exit is an error nothing catches.
    The status of an ApiError and the code of a draft error are kept in the
    error's name.  The audit sink is the default one.

    Cryptography.  [WebCrypto] is a class of functions; [WebCryptoLaws] says that
    decryption inverts encryption, that agreement is symmetric, that signatures
    verify, and that exported keys import: documented facts, with the instance
    [toy_crypto] that satisfies them and on which the witnesses run.  Nothing is assumed
    about secrecy; the theorems that a value is sealed say what is written where.
    Web Crypto is present.

    React.  A page is a record of its state.  A handler takes the page of the
    render it closes over and updates the current one, so stale closures are
    modelled; effects are functions of the dependencies they list, and where their
    order or cancellation matters they are transition systems (Preview, Realtime,
    AgentInbox, ComposeHints, Contacts).  useMemo is its function, except in
    ComposeHints, where its dependencies leave something out.  TanStack Query is
    the class [QueryClient] with its documented laws; what its cache holds when is
    not modelled, a query's data are arguments.  Next.js, the IDKit widget and the
    World ID signature are arguments.  Collaborators a caller injects are
    functions that may throw where the code catches, and do not where it does not.
    Texts of the interface are their keys.

    The host.  Date.parse outside the interchange format and the decoding of
    malformed base64 are the class [Host]; collation and the time zone are
    [Locale], with offsets of whole minutes; case mapping is the class [CaseMap]
    where it is applied to any text, and its ASCII part where the result is only
    compared with ASCII.

    ** Fuel

    Recursion that is not structural takes fuel, fixed at each use: JSON text of
    length n is parsed with 2 n + 2 (enough for whatever more accepts,
    [parse_value_fuel]); decimal digits with the binary logarithm, base 58 with
    the carry itself, both proved sufficient by their values; number printing
    with 16 digits and 400 exponents, the bounds of binary64; templates with their
    length ([replace_fuel]); the effects of a render with four rounds
    ([settle_ends]).  The preview workers need none: their steps are a relation
    and [previews_settle] is well-foundedness.

    ** Not modelled

    Elements, styles and focus: a view is what it shows and what may be pressed;
    the pages that are only texts (terms, privacy,
    concept, error pages); the samples of code in the help; the dictionaries; the SDK transports, the
    Google and IDKit scripts and the calendar popup; the Rust services, the
    scripts and templates, the promotional video, build and test
    configuration. *)
From stdpp Require Export base decidable list option strings gmap sorting.
From Stdlib Require Export ZArith Lia.
#[global] Open Scope Z_scope.

(** * JavaScript strings

    A string is the list of its UTF-16 code units, each a [Z] in [0, 65536).
    Literals are written [js "text"]: the literal's UTF-8 bytes decoded to
    code units (the literals of the source stay in the Basic Multilingual
    Plane). *)
Abbreviation jstr := (list Z).
(** Byte buffers ([Uint8Array]): each element in [0, 256). *)
Abbreviation bytes := (list Z).

Definition ch (a : Ascii.ascii) : Z := Z.of_N (Ascii.N_of_ascii a).

Fixpoint literal_bytes (s : string) : bytes :=
  match s with
  | EmptyString => []
  | String a r => ch a :: literal_bytes r
  end.

Fixpoint literal_units (bs : bytes) : jstr :=
  match bs with
  | [] => []
  | b0 :: r0 =>
    if b0 <? 128 then b0 :: literal_units r0 else
    match r0 with
    | [] => [b0]
    | b1 :: r1 =>
      if b0 <? 224 then ((b0 - 192) * 64 + (b1 - 128)) :: literal_units r1 else
      match r1 with
      | [] => [b0; b1]
      | b2 :: r2 =>
        ((b0 - 224) * 4096 + (b1 - 128) * 64 + (b2 - 128)) :: literal_units r2
      end
    end
  end.

Definition js (s : string) : jstr := literal_units (literal_bytes s).
Arguments js : simpl never.

Definition jeqb (s t : jstr) : bool := bool_decide (s = t).

Lemma jeqb_spec s t : reflect (s = t) (jeqb s t).
Proof. unfold jeqb. case_bool_decide; by constructor. Qed.

Lemma jeqb_true s t : jeqb s t = true <-> s = t.
Proof. unfold jeqb. apply bool_decide_eq_true. Qed.

Lemma jeqb_false s t : jeqb s t = false <-> s <> t.
Proof. unfold jeqb. apply bool_decide_eq_false. Qed.

Lemma jeqb_refl s : jeqb s s = true.
Proof. by apply jeqb_true. Qed.

(** Truthiness of a string: [!s] holds of the empty string only. *)
Definition truthy_str (s : jstr) : bool := match s with [] => false | _ => true end.

(** Truthiness of [string | null | undefined]. *)
Definition truthy_ostr (s : option jstr) : bool :=
  match s with Some s => truthy_str s | None => false end.

Fixpoint starts_with (p s : jstr) : bool :=
  match p, s with
  | [], _ => true
  | c :: p', d :: s' => (c =? d) && starts_with p' s'
  | _ :: _, [] => false
  end.

Lemma starts_with_spec p s : starts_with p s = true <-> exists t, s = p ++ t.
Proof.
  revert s; induction p as [|c p IH]; intros s; simpl.
  - split; [by exists s | done].
  - destruct s as [|d s]; simpl.
    + split; [done | intros [t Ht]; done].
    + rewrite andb_true_iff, Z.eqb_eq, IH. split.
      * intros [-> [t ->]]. by exists t.
      * intros [t [= -> ->]]. eauto.
Qed.

(** [s.includes(p)]. *)
Fixpoint includes (s p : jstr) : bool :=
  starts_with p s || match s with [] => false | _ :: r => includes r p end.

(** [s.split(c)] for a one-unit separator: always at least one part. *)
Fixpoint split_on (c : Z) (s : jstr) : list jstr :=
  match s with
  | [] => [[]]
  | x :: r =>
    if x =? c then [] :: split_on c r
    else match split_on c r with
         | p :: ps => (x :: p) :: ps
         | [] => [[x]]
         end
  end.

(** [parts.join(sep)]. *)
Fixpoint join_with (sep : jstr) (l : list jstr) : jstr :=
  match l with
  | [] => []
  | [x] => x
  | x :: r => x ++ sep ++ join_with sep r
  end.

(** [s.replace(/c/g, d)] for single units. *)
Definition replace_unit (c d : Z) (s : jstr) : jstr :=
  map (fun x => if x =? c then d else x) s.

(** [s.replace("v", "")] with a one-unit string pattern: first occurrence. *)
Fixpoint remove_first (c : Z) (s : jstr) : jstr :=
  match s with
  | [] => []
  | x :: r => if x =? c then r else x :: remove_first c r
  end.

Fixpoint drop_while (p : Z -> bool) (s : jstr) : jstr :=
  match s with
  | [] => []
  | x :: r => if p x then drop_while p r else s
  end.

(** [s.replace(/c+$/, "")]: the longest suffix of [c]s removed. *)
Definition strip_suffix (p : Z -> bool) (s : jstr) : jstr :=
  reverse (drop_while p (reverse s)).

(** The units [String.prototype.trim] removes: WhiteSpace and LineTerminator. *)
Definition is_js_space (c : Z) : bool :=
  ((9 <=? c) && (c <=? 13)) || (c =? 32) || (c =? 160) || (c =? 5760) ||
  ((8192 <=? c) && (c <=? 8202)) || (c =? 8232) || (c =? 8233) ||
  (c =? 8239) || (c =? 8287) || (c =? 12288) || (c =? 65279).

Definition trim (s : jstr) : jstr := strip_suffix is_js_space (drop_while is_js_space s).

(** [toLowerCase], exact on ASCII and on the two non-ASCII units whose lower
    case contains ASCII (U+212A KELVIN SIGN and U+0130); every other unit is
    left unchanged.  The source only compares the result with ASCII text, and
    the lower case of any remaining unit has no ASCII unit in it. *)
Definition lower_unit (c : Z) : jstr :=
  if (65 <=? c) && (c <=? 90) then [c + 32]
  else if c =? 8490 then [107]
  else if c =? 304 then [105; 775]
  else [c].

Definition to_lower (s : jstr) : jstr := flat_map lower_unit s.

Definition to_upper_ascii (s : jstr) : jstr :=
  map (fun c => if (97 <=? c) && (c <=? 122) then c - 32 else c) s.

(** ** Results

    A call either returns a value or throws an [Error] with a name and a
    message. *)
Record jserror := JsError { err_name : jstr; err_message : jstr }.

Inductive res (A : Type) : Type :=
| Ok (a : A)
| Throw (e : jserror).
Arguments Ok {A} a.
Arguments Throw {A} e.

#[global] Instance res_ret : MRet res := fun A a => Ok a.
#[global] Instance res_bind : MBind res :=
  fun A B f m => match m with Ok a => f a | Throw e => Throw e end.

Definition Error_ (msg : jstr) : jserror := JsError (js "Error") msg.
Definition TypeError_ (msg : jstr) : jserror := JsError (js "TypeError") msg.
Definition SyntaxError_ (msg : jstr) : jserror := JsError (js "SyntaxError") msg.

Definition is_ok {A} (r : res A) : bool := match r with Ok _ => true | Throw _ => false end.

(** [if (bad) throw e]. *)
Definition throw_if (bad : bool) (e : jserror) : res unit := if bad then Throw e else Ok tt.

Lemma res_bind_ok {A B} (m : res A) (f : A -> res B) b :
  (m ≫= f) = Ok b <-> exists a, m = Ok a /\ f a = Ok b.
Proof.
  destruct m as [a|e]; simpl; unfold mbind, res_bind; split.
  - intros H. by exists a.
  - by intros (a' & [= ->] & H).
  - done.
  - by intros (a' & H & _).
Qed.

Lemma throw_if_ok bad e u : throw_if bad e = Ok u <-> bad = false.
Proof. destruct bad, u; simpl; split; congruence. Qed.

(** [for (x of l) f(x)] where [f] may throw. *)
Fixpoint res_iter {A} (f : A -> res unit) (l : list A) : res unit :=
  match l with
  | [] => Ok tt
  | x :: r => f x ;; res_iter f r
  end.

(** [l.forEach((x, i) => f(i, x))] where [f] may throw. *)
Fixpoint res_iteri {A} (f : nat -> A -> res unit) (i : nat) (l : list A) : res unit :=
  match l with
  | [] => Ok tt
  | x :: r => f i x ;; res_iteri f (S i) r
  end.

Lemma res_iteri_ok {A} (f : nat -> A -> res unit) i l :
  res_iteri f i l = Ok tt <-> forall j x, l !! j = Some x -> f (i + j)%nat x = Ok tt.
Proof.
  revert i; induction l as [|x l IH]; intros i; simpl.
  - split; [intros _ j y H; by rewrite lookup_nil in H | done].
  - rewrite res_bind_ok. split.
    + intros ([] & Hx & Hl) [|j] y; simpl.
      * intros [= <-]. by rewrite Nat.add_0_r.
      * intros Hy. rewrite <- Nat.add_succ_comm. by apply (proj1 (IH (S i)) Hl).
    + intros H. exists tt. split.
      * specialize (H 0%nat x eq_refl). by rewrite Nat.add_0_r in H.
      * apply IH. intros j y Hy. rewrite Nat.add_succ_comm. by apply H.
Qed.

(** Take a successful call apart: every bind and guard it went through. *)
Ltac res_inv :=
  repeat match goal with
  | H : (_ ≫= _) = Ok _ |- _ => apply res_bind_ok in H as (? & ? & H); cbv beta zeta in H
  | H : throw_if _ _ = Ok _ |- _ => apply throw_if_ok in H
  | u : unit |- _ => destruct u
  end.

Lemma res_bind_intro {A B} (m : res A) (f : A -> res B) a b : m = Ok a -> f a = Ok b -> (m ≫= f) = Ok b.
Proof. by intros ->. Qed.

Lemma throw_if_intro bad e : bad = false -> throw_if bad e = Ok tt.
Proof. by intros ->. Qed.

(** [throws P m]: any error [m] throws satisfies [P]. *)
Definition throws {A} (P : jserror -> Prop) (m : res A) : Prop := forall e, m = Throw e -> P e.

Lemma throws_bind {A B} P (m : res A) (f : A -> res B) :
  throws P m -> (forall a, throws P (f a)) -> throws P (m ≫= f).
Proof. intros Hm Hf e. destruct m as [a|e']; [apply Hf|]. intros [= ->]. by apply Hm. Qed.

Lemma throws_throw {A} (P : jserror -> Prop) e : P e -> throws P (@Throw A e).
Proof. by intros He e' [= <-]. Qed.

Lemma throws_ok {A} (P : jserror -> Prop) (a : A) : throws P (Ok a).
Proof. by intros e. Qed.

Lemma throws_if (P : jserror -> Prop) bad e : P e -> throws P (throw_if bad e).
Proof. intros He. destruct bad; [by apply throws_throw|apply throws_ok]. Qed.

Lemma throws_iteri {A} P (f : nat -> A -> res unit) i l :
  (forall j x, throws P (f j x)) -> throws P (res_iteri f i l).
Proof.
  intros Hf. revert i. induction l as [|x l IH]; intros i; cbn [res_iteri]; [apply throws_ok|].
  apply throws_bind; [done|]. intros _. apply IH.
Qed.

(** Case analysis on the innermost [if]/[match] of a hypothesis or the goal. *)
Ltac break_match_in H :=
  match type of H with
  | context [match ?x with _ => _ end] =>
    lazymatch x with
    | context [match _ with _ => _ end] => fail
    | _ => destruct x eqn:?
    end
  end.
Ltac break_match :=
  match goal with
  | |- context [match ?x with _ => _ end] =>
    lazymatch x with
    | context [match _ with _ => _ end] => fail
    | _ => destruct x eqn:?
    end
  end.

(** Turn boolean facts in the context into propositions. *)
Ltac bool_to_prop :=
  repeat match goal with
  | H : _ && _ = true |- _ => apply andb_true_iff in H; destruct H
  | H : _ || _ = false |- _ => apply orb_false_iff in H; destruct H
  | H : negb _ = true |- _ => apply negb_true_iff in H
  | H : negb _ = false |- _ => apply negb_false_iff in H
  | H : (_ =? _) = true |- _ => apply Z.eqb_eq in H
  | H : (_ =? _) = false |- _ => apply Z.eqb_neq in H
  | H : (_ <=? _) = true |- _ => apply Z.leb_le in H
  | H : (_ <=? _) = false |- _ => apply Z.leb_gt in H
  | H : (_ <? _) = true |- _ => apply Z.ltb_lt in H
  | H : (_ <? _) = false |- _ => apply Z.ltb_ge in H
  | H : jeqb _ _ = true |- _ => apply jeqb_true in H
  | H : jeqb _ _ = false |- _ => apply jeqb_false in H
  | H : bool_decide _ = true |- _ => apply bool_decide_eq_true in H
  | H : bool_decide _ = false |- _ => apply bool_decide_eq_false in H
  end.

(** Reduce a monadic bind whose first argument is a value. *)
Ltac mred := cbv beta iota delta [mbind option_bind res_bind].

(** [lia] after introducing the quotient and remainder equations. *)
Ltac zdiv := Z.to_euclidean_division_equations; lia.

(** Range predicates for buffers and strings. *)
Definition byte_ok (b : Z) : Prop := 0 <= b < 256.
Definition bytes_ok (bs : bytes) : Prop := Forall byte_ok bs.
Definition unit_ok (u : Z) : Prop := 0 <= u < 65536.

Lemma literal_units_ascii bs :
  Forall (fun b => b < 128) bs -> literal_units bs = bs.
Proof.
  induction 1 as [|b bs Hb _ IH]; [done|]. simpl.
  destruct (Z.ltb_spec b 128); [by rewrite IH | lia].
Qed.

(** ** Generic lemmas on strings *)

Lemma replace_unit_app c d s t : replace_unit c d (s ++ t) = replace_unit c d s ++ replace_unit c d t.
Proof. apply map_app. Qed.

Lemma split_on_nonempty c s : split_on c s <> [].
Proof. destruct s; simpl; [done|]. repeat case_match; done. Qed.

Lemma split_on_no_sep c s : c ∉ s -> split_on c s = [s].
Proof.
  induction s as [|x s IH]; [done|]. rewrite not_elem_of_cons. intros [Hx Hs]. simpl.
  destruct (Z.eqb_spec x c) as [->|_]; [done|]. by rewrite IH.
Qed.

Lemma split_on_app c s t :
  c ∉ s -> split_on c (s ++ c :: t) = s :: split_on c t.
Proof.
  induction s as [|x s IH]; simpl.
  - intros _. by rewrite Z.eqb_refl.
  - rewrite not_elem_of_cons. intros [Hx Hs].
    destruct (Z.eqb_spec x c) as [->|_]; [done|]. by rewrite IH.
Qed.

(** Splitting on the separator inverts joining, when no part contains it. *)
Lemma split_on_join c l :
  l <> [] -> Forall (fun p => c ∉ p) l -> split_on c (join_with [c] l) = l.
Proof.
  induction l as [|x l IH]; [done|]. intros _ Hl. inversion Hl as [|? ? Hx Hl']; subst.
  destruct l as [|y l]; simpl; [by apply split_on_no_sep|].
  rewrite split_on_app by done. f_equal. by apply IH.
Qed.

Lemma drop_while_head p s : match drop_while p s with [] => True | c :: _ => p c = false end.
Proof. induction s as [|x s IH]; simpl; [done|]. by destruct (p x) eqn:E. Qed.

Lemma drop_while_none p s : match s with [] => True | c :: _ => p c = false end -> drop_while p s = s.
Proof. destruct s as [|x s]; simpl; [done|]. by intros ->. Qed.

Lemma drop_while_app_all p s t : Forall (fun c => p c = true) s -> drop_while p (s ++ t) = drop_while p t.
Proof. induction 1 as [|x s Hx _ IH]; simpl; [done|]. by rewrite Hx. Qed.

Lemma drop_while_id_forall p s : Forall (fun c => p c = false) s -> drop_while p s = s.
Proof. destruct 1 as [|x s Hx]; simpl; [done|]. by rewrite Hx. Qed.

Lemma strip_suffix_app p s t :
  Forall (fun c => p c = false) s -> Forall (fun c => p c = true) t -> strip_suffix p (s ++ t) = s.
Proof.
  intros Hs Ht. unfold strip_suffix. rewrite reverse_app, drop_while_app_all by by apply Forall_reverse.
  rewrite drop_while_id_forall by by apply Forall_reverse. apply reverse_involutive.
Qed.

Lemma strip_suffix_id p s : Forall (fun c => p c = false) s -> strip_suffix p s = s.
Proof. intros Hs. rewrite <- (app_nil_r s) at 1. apply strip_suffix_app; [done|constructor]. Qed.

Lemma drop_while_nil p s : drop_while p s = [] -> Forall (fun c => p c = true) s.
Proof. induction s as [|c s IH]; cbn; [done|]. destruct (p c) eqn:E; [|done]. intros H. constructor; auto. Qed.
Lemma strip_suffix_nil p s : strip_suffix p s = [] -> Forall (fun c => p c = true) s.
Proof.
  unfold strip_suffix. intros H%(f_equal reverse). rewrite reverse_involutive in H.
  apply drop_while_nil in H. by apply Forall_reverse.
Qed.
(** Text that is trimmed and not empty stays so when it is trimmed again. *)
Lemma trim_trim_nonempty s : trim s <> [] -> trim (trim s) <> [].
Proof.
  intros Hn H. unfold trim at 1 in H. apply strip_suffix_nil in H.
  assert (Forall (fun c => is_js_space c = true) (trim s)) as Hall.
  { pose proof (drop_while_head is_js_space (trim s)) as Hh. destruct (drop_while is_js_space (trim s)) as [|c r] eqn:E.
    - by apply drop_while_nil.
    - apply Forall_cons in H as [H _]. congruence. }
  pose proof (drop_while_head is_js_space (reverse (drop_while is_js_space s))) as Hh.
  unfold trim, strip_suffix in Hn, Hall.
  destruct (drop_while is_js_space (reverse (drop_while is_js_space s))) as [|c r]; [by apply Hn|].
  apply Forall_reverse in Hall. rewrite reverse_involutive in Hall. apply Forall_cons in Hall as [Hc _]. congruence.
Qed.
Lemma trim_id s : Forall (fun c => is_js_space c = false) s -> trim s = s.
Proof.
  intros H. unfold trim. rewrite drop_while_id_forall by done. by apply strip_suffix_id.
Qed.

Lemma map_replicate {A B} (f : A -> B) n x : map f (replicate n x) = replicate n (f x).
Proof. induction n as [|n IH]; simpl; [done|]. by rewrite IH. Qed.

Create HintDb jsdb.
Create Rewrite HintDb jsdb.
#[export] Hint Resolve jeqb_refl throws_bind throws_throw throws_ok throws_if throws_iteri : jsdb.
#[export] Hint Rewrite jeqb_refl @length_app @length_map : jsdb.

(** ** Host behaviour the language leaves open

    Two built-ins have inputs on which the specification defers to the
    implementation: [Buffer.from(s, "base64")] on text that is not base64, and
    [Date.parse] on text outside the interchange format.  Both are fields of
    [Host]; a definition that uses them is a function of the host. *)
Class Host := {
  host_base64_lenient : jstr -> bytes;
  host_date_parse : jstr -> option Z
}.
