(* ===== verification/Base64.v ===== *)
(** Base64 and base64url.

    The built-ins ([btoa], [atob], [Buffer] with encodings "base64" and
    "base64url"), the copies of [toBase64Url]/[fromBase64Url] the packages
    define on top of them, and their round trips. *)
From S2P Require Import Prelude.

(** ** The alphabet and the grouping of bytes in sextets *)

Definition b64_char (v : Z) : Z :=
  if v <? 26 then 65 + v
  else if v <? 52 then 71 + v
  else if v <? 62 then v - 4
  else if v =? 62 then 43 else 47.

Definition b64_val (c : Z) : option Z :=
  if (65 <=? c) && (c <=? 90) then Some (c - 65)
  else if (97 <=? c) && (c <=? 122) then Some (c - 71)
  else if (48 <=? c) && (c <=? 57) then Some (c + 4)
  else if c =? 43 then Some 62
  else if c =? 47 then Some 63
  else None.

Fixpoint sextets (bs : bytes) : list Z :=
  match bs with
  | [] => []
  | [a] => [a / 4; a mod 4 * 16]
  | [a; b] => [a / 4; a mod 4 * 16 + b / 16; b mod 16 * 4]
  | a :: b :: c :: r =>
    a / 4 :: a mod 4 * 16 + b / 16 :: b mod 16 * 4 + c / 64 :: c mod 64 :: sextets r
  end.

(** The bytes of a sextet list; left-over bits are dropped. *)
Fixpoint unsextets (vs : list Z) : bytes :=
  match vs with
  | a :: b :: c :: d :: r =>
    a * 4 + b / 16 :: b mod 16 * 16 + c / 4 :: c mod 4 * 64 + d :: unsextets r
  | [a; b; c] => [a * 4 + b / 16; b mod 16 * 16 + c / 4]
  | [a; b] => [a * 4 + b / 16]
  | _ => []
  end.

Fixpoint sextets_of_chars (s : jstr) : option (list Z) :=
  match s with
  | [] => Some []
  | c :: r => v ← b64_val c; vs ← sextets_of_chars r; Some (v :: vs)
  end.

Definition b64_pad (n : nat) : jstr := replicate n 61.

(** Number of [=] that complete a text of [n] characters to a multiple of 4. *)
Definition pad_count (n : nat) : nat := Z.to_nat ((4 - Z.of_nat n mod 4) mod 4).

(** [btoa(s)] on a binary string, and [Buffer.from(bs).toString("base64")]. *)
Definition base64_encode (bs : bytes) : jstr :=
  let cs := map b64_char (sextets bs) in cs ++ b64_pad (pad_count (length cs)).

Definition is_ascii_space (c : Z) : bool :=
  (c =? 9) || (c =? 10) || (c =? 12) || (c =? 13) || (c =? 32).

Definition drop_pad1 (s : jstr) : jstr :=
  match last s with
  | Some 61 => take (length s - 1) s
  | _ => s
  end.

Definition InvalidCharacterError : jserror :=
  JsError (js "InvalidCharacterError") (js "The string to be decoded is not correctly encoded.").

(** [atob(s)]: the forgiving-base64 decode of the Infra standard. *)
Definition atob (s : jstr) : res bytes :=
  let s1 := filter (fun c => is_ascii_space c = false) s in
  let s2 := if Z.of_nat (length s1) mod 4 =? 0 then drop_pad1 (drop_pad1 s1) else s1 in
  if Z.of_nat (length s2) mod 4 =? 1 then Throw InvalidCharacterError else
  match sextets_of_chars s2 with
  | Some vs => Ok (unsextets vs)
  | None => Throw InvalidCharacterError
  end.

(** [Buffer.from(s, "base64")] and [Buffer.from(s, "base64url")]: text in
    either alphabet with optional padding is decoded; on anything else the
    decoder is lenient in a way that depends on the host. *)
Definition buffer_from_base64 `{Host} (s : jstr) : bytes :=
  let t := drop_pad1 (drop_pad1 (replace_unit 95 47 (replace_unit 45 43 s))) in
  match sextets_of_chars t with
  | Some vs => if Z.of_nat (length vs) mod 4 =? 1 then host_base64_lenient s else unsextets vs
  | None => host_base64_lenient s
  end.

(** The alphabet of base64url text. *)
Definition b64url_char_ok (c : Z) : Prop :=
  65 <= c <= 90 \/ 97 <= c <= 122 \/ 48 <= c <= 57 \/ c = 45 \/ c = 95.

(** ** packages/core/src/index.ts: through Node's [Buffer] *)
Module CoreB64.

Definition toBase64Url (bs : bytes) : jstr :=
  strip_suffix (fun c => c =? 61) (replace_unit 47 95 (replace_unit 43 45 (base64_encode bs))).

Definition fromBase64Url `{Host} (text : jstr) : bytes :=
  let b64 := replace_unit 95 47 (replace_unit 45 43 text) in
  let padded := b64 ++ b64_pad (pad_count (length b64)) in
  buffer_from_base64 padded.

Definition isValidX25519PublicKeyB64Url `{Host} (publicKeyB64Url : jstr) : bool :=
  (length (fromBase64Url publicKeyB64Url) =? 32)%nat.

Definition isValidEd25519PublicKeyB64Url `{Host} (publicKeyB64Url : jstr) : bool :=
  (length (fromBase64Url publicKeyB64Url) =? 32)%nat.

End CoreB64.

(** ** packages/crypto/src/index.ts: through [btoa] and [atob] *)
Module CryptoB64.

Definition toBase64Url (bs : bytes) : jstr :=
  let b64 := base64_encode bs in
  strip_suffix (fun c => c =? 61) (replace_unit 47 95 (replace_unit 43 45 b64)).

Definition fromBase64Url (text : jstr) : res bytes :=
  let b64 := replace_unit 95 47 (replace_unit 45 43 text) in
  let padded := b64 ++ b64_pad (pad_count (length b64)) in
  atob padded.

End CryptoB64.

(** ** packages/mcp-server/src: [Buffer] with encoding "base64url" *)
Module McpB64.

Definition b64url (bs : bytes) : jstr :=
  replace_unit 47 95 (replace_unit 43 45 (map b64_char (sextets bs))).

Definition fromB64url `{Host} (s : jstr) : bytes := buffer_from_base64 s.

End McpB64.

(** ** Lemmas *)

Lemma list_ind3 {A} (P : list A -> Prop) :
  P [] -> (forall a, P [a]) -> (forall a b, P [a; b]) ->
  (forall a b c l, P l -> P (a :: b :: c :: l)) -> forall l, P l.
Proof.
  intros H0 H1 H2 H3. refine (fix F l := _).
  destruct l as [|a [|b [|c l]]]; [done..|]. apply H3, F.
Qed.

Lemma b64_val_char v : 0 <= v < 64 -> b64_val (b64_char v) = Some v.
Proof.
  intros Hv. unfold b64_char.
  destruct (Z.ltb_spec v 26); [|destruct (Z.ltb_spec v 52); [|destruct (Z.ltb_spec v 62);
    [|destruct (Z.eqb_spec v 62)]]]; unfold b64_val;
    repeat match goal with
    | |- context [?a <=? ?b] => destruct (Z.leb_spec a b)
    | |- context [?a =? ?b] => destruct (Z.eqb_spec a b)
    end; simpl; try (f_equal; lia); lia.
Qed.

Lemma sextets_range bs : bytes_ok bs -> Forall (fun v => 0 <= v < 64) (sextets bs).
Proof.
  induction bs as [|a|a b|a b c l IH] using list_ind3; intros Hb; simpl;
    unfold bytes_ok, byte_ok in *; decompose_Forall; repeat constructor; try zdiv.
  apply IH. unfold bytes_ok, byte_ok. done.
Qed.

Lemma unsextets_sextets bs : bytes_ok bs -> unsextets (sextets bs) = bs.
Proof.
  induction bs as [|a|a b|a b c l IH] using list_ind3; intros Hb; simpl;
    unfold bytes_ok, byte_ok in *; decompose_Forall; [done| | |].
  - f_equal. zdiv.
  - f_equal; [zdiv | f_equal; zdiv].
  - f_equal; [zdiv | f_equal; [zdiv | f_equal; [zdiv | by apply IH]]].
Qed.

Lemma sextets_of_chars_map vs :
  Forall (fun v => 0 <= v < 64) vs -> sextets_of_chars (map b64_char vs) = Some vs.
Proof.
  induction 1 as [|v vs Hv _ IH]; simpl; [done|]. by rewrite b64_val_char, IH.
Qed.

Lemma length_sextets_mod bs : Z.of_nat (length (sextets bs)) mod 4 <> 1.
Proof.
  induction bs as [|a|a b|a b c l IH] using list_ind3; simpl; [done..|]. zdiv.
Qed.

(** Characters of the two alphabets. *)
Definition to_url_char (c : Z) : Z := if c =? 43 then 45 else if c =? 47 then 95 else c.

Lemma to_url_chars s : replace_unit 47 95 (replace_unit 43 45 s) = map to_url_char s.
Proof.
  unfold replace_unit. rewrite map_map. apply map_ext. intros c. unfold to_url_char.
  destruct (Z.eqb_spec c 43) as [->|]; [done|]. by destruct (c =? 47).
Qed.

Lemma b64_char_url_ok v : 0 <= v < 64 -> b64url_char_ok (to_url_char (b64_char v)).
Proof.
  intros Hv. unfold b64_char, to_url_char, b64url_char_ok.
  repeat case_match; bool_to_prop; lia.
Qed.

Lemma url_chars_not_pad l :
  Forall (fun v => 0 <= v < 64) l ->
  Forall (fun c => (c =? 61) = false) (map to_url_char (map b64_char l)).
Proof.
  intros Hl. rewrite map_map. apply Forall_map. eapply Forall_impl; [exact Hl|].
  intros v Hv. apply Z.eqb_neq. pose proof (b64_char_url_ok v Hv) as H.
  unfold b64url_char_ok in H. lia.
Qed.

(** [toBase64Url] is the sextet characters in the URL alphabet. *)
Lemma toBase64Url_chars bs :
  bytes_ok bs -> CoreB64.toBase64Url bs = map to_url_char (map b64_char (sextets bs)).
Proof.
  intros Hb. unfold CoreB64.toBase64Url, base64_encode. rewrite to_url_chars, map_app.
  apply strip_suffix_app.
  - by apply url_chars_not_pad, sextets_range.
  - unfold b64_pad. rewrite map_replicate. apply Forall_replicate. done.
Qed.

Lemma crypto_toBase64Url_eq bs : CryptoB64.toBase64Url bs = CoreB64.toBase64Url bs.
Proof. done. Qed.

Lemma mcp_b64url_eq bs : bytes_ok bs -> McpB64.b64url bs = CoreB64.toBase64Url bs.
Proof. intros Hb. rewrite toBase64Url_chars by done. unfold McpB64.b64url. apply to_url_chars. Qed.

Lemma toBase64Url_ok bs : bytes_ok bs -> Forall b64url_char_ok (CoreB64.toBase64Url bs).
Proof.
  intros Hb. rewrite toBase64Url_chars, map_map by done. apply Forall_map.
  eapply Forall_impl; [by apply sextets_range|]. apply b64_char_url_ok.
Qed.

Lemma b64url_no_unit c s :
  ~ b64url_char_ok c -> Forall b64url_char_ok s -> c ∉ s.
Proof. intros Hc Hs Hin. rewrite Forall_forall in Hs. by apply Hc, Hs. Qed.

Lemma b64_char_plain v :
  0 <= v < 64 -> b64_char v <> 45 /\ b64_char v <> 95 /\ b64_char v <> 61 /\ 43 <= b64_char v <= 122.
Proof. intros Hv. unfold b64_char. repeat case_match; bool_to_prop; lia. Qed.

Lemma of_url_chars l :
  Forall (fun v => 0 <= v < 64) l ->
  replace_unit 95 47 (replace_unit 45 43 (map to_url_char (map b64_char l))) = map b64_char l.
Proof.
  intros Hl. unfold replace_unit. rewrite !map_map. apply map_ext_Forall.
  eapply Forall_impl; [exact Hl|]. intros v Hv. cbv beta.
  destruct (b64_char_plain v Hv) as (H1 & H2 & _). revert H1 H2.
  generalize (b64_char v) as c. intros c H1 H2. unfold to_url_char.
  destruct (Z.eqb_spec c 43) as [->|]; [done|].
  destruct (Z.eqb_spec c 47) as [->|]; [done|].
  destruct (Z.eqb_spec c 45); [lia|]. by destruct (Z.eqb_spec c 95).
Qed.

Lemma drop_pad1_snoc s : drop_pad1 (s ++ [61]) = s.
Proof.
  unfold drop_pad1. rewrite last_snoc, length_app, Nat.add_sub. apply take_app_length.
Qed.

Lemma drop_pad1_none s : Forall (fun c => c <> 61) s -> drop_pad1 s = s.
Proof.
  intros Hs. unfold drop_pad1. destruct (last s) as [c|] eqn:E; [|done].
  assert (c ∈ s) as Hin by by apply last_Some_elem_of.
  rewrite Forall_forall in Hs. specialize (Hs c Hin).
  repeat (case_match; try done).
Qed.

(** Dropping at most two [=] undoes the padding of text whose length is not
    1 modulo 4. *)
Lemma drop_pad_padded s :
  Forall (fun c => c <> 61) s -> Z.of_nat (length s) mod 4 <> 1 ->
  drop_pad1 (drop_pad1 (s ++ b64_pad (pad_count (length s)))) = s.
Proof.
  intros Hs Hm. unfold pad_count.
  assert (0 <= Z.of_nat (length s) mod 4 < 4) as Hr by (apply Z.mod_pos_bound; lia).
  set (m := Z.of_nat (length s) mod 4) in *.
  assert (m = 0 \/ m = 2 \/ m = 3) as [E | [E | E]] by lia; rewrite E.
  - change (b64_pad _) with (@nil Z). rewrite app_nil_r. by rewrite !(drop_pad1_none s).
  - change (b64_pad _) with ([61] ++ [61]). by rewrite app_assoc, !drop_pad1_snoc.
  - change (b64_pad _) with [61]. rewrite drop_pad1_snoc. by apply drop_pad1_none.
Qed.

Lemma b64_chars_not_pad l :
  Forall (fun v => 0 <= v < 64) l -> Forall (fun c => c <> 61) (map b64_char l).
Proof.
  intros Hl. apply Forall_map. eapply Forall_impl; [exact Hl|]. intros v Hv.
  by apply b64_char_plain in Hv as (_ & _ & ? & _).
Qed.

Lemma b64_chars_plain l :
  Forall (fun v => 0 <= v < 64) l ->
  Forall (fun c => c <> 45 /\ c <> 95 /\ is_ascii_space c = false) (map b64_char l).
Proof.
  intros Hl. apply Forall_map. eapply Forall_impl; [exact Hl|]. intros v Hv. simpl.
  unfold is_ascii_space. destruct (b64_char_plain v Hv) as (H2 & H3 & _ & H1). split; [done|]. split; [done|].
  repeat match goal with |- context [?a =? ?b] => destruct (Z.eqb_spec a b); [lia|] end. done.
Qed.

Lemma replace_unit_id c d s : Forall (fun x => x <> c) s -> replace_unit c d s = s.
Proof.
  induction 1 as [|x s Hx _ IH]; simpl; [done|].
  destruct (Z.eqb_spec x c); [done|]. by rewrite IH.
Qed.

Lemma filter_all {A} (P : A -> Prop) `{!forall x, Decision (P x)} l :
  Forall P l -> filter P l = l.
Proof.
  induction 1 as [|x l Hx _ IH]; [done|]. rewrite filter_cons_True by done. by rewrite IH.
Qed.

(** What the three decoders make of encoder output. *)
Section Decode.
Context (bs : bytes) (Hbs : bytes_ok bs).
Let cs := map b64_char (sextets bs).
Let padded := cs ++ b64_pad (pad_count (length cs)).

Lemma chars_mod : Z.of_nat (length cs) mod 4 <> 1.
Proof using. unfold cs. rewrite length_map. apply length_sextets_mod. Qed.

Lemma chars_decode : sextets_of_chars cs = Some (sextets bs).
Proof using Hbs. by apply sextets_of_chars_map, sextets_range. Qed.

Lemma padded_plain : Forall (fun c => c <> 45 /\ c <> 95 /\ is_ascii_space c = false) padded.
Proof using Hbs.
  apply Forall_app. split; [by apply b64_chars_plain, sextets_range|].
  apply Forall_replicate. done.
Qed.

Lemma padded_drop : drop_pad1 (drop_pad1 padded) = cs.
Proof using Hbs. apply drop_pad_padded; [by apply b64_chars_not_pad, sextets_range|apply chars_mod]. Qed.

Lemma padded_length_mod : Z.of_nat (length padded) mod 4 = 0.
Proof using.
  unfold padded, b64_pad, pad_count. rewrite length_app, length_replicate.
  rewrite Nat2Z.inj_add, Z2Nat.id by (apply Z.mod_pos_bound; lia). zdiv.
Qed.

Lemma buffer_padded `{Host} : buffer_from_base64 padded = bs.
Proof using Hbs.
  unfold buffer_from_base64.
  rewrite (replace_unit_id 45 43), (replace_unit_id 95 47), padded_drop, chars_decode
    by (eapply Forall_impl; [exact padded_plain|]; intros ? (? & ? & ?); done).
  destruct (Z.eqb_spec (Z.of_nat (length (sextets bs)) mod 4) 1) as [E|_].
  - exfalso. by apply (length_sextets_mod bs).
  - by apply unsextets_sextets.
Qed.

Lemma atob_padded : atob padded = Ok bs.
Proof using Hbs.
  unfold atob.
  rewrite filter_all by (eapply Forall_impl; [exact padded_plain|]; intros ? (? & ? & ?); done).
  rewrite padded_length_mod. simpl. rewrite padded_drop.
  destruct (Z.eqb_spec (Z.of_nat (length cs) mod 4) 1) as [E|_].
  - exfalso. by apply chars_mod.
  - rewrite chars_decode. by rewrite unsextets_sextets.
Qed.
End Decode.

Lemma url_decode_prepare bs :
  bytes_ok bs ->
  replace_unit 95 47 (replace_unit 45 43 (CoreB64.toBase64Url bs)) = map b64_char (sextets bs).
Proof. intros Hb. rewrite toBase64Url_chars by done. by apply of_url_chars, sextets_range. Qed.

(** Every decoder inverts [toBase64Url]. *)
Lemma core_b64_roundtrip `{Host} bs :
  bytes_ok bs -> CoreB64.fromBase64Url (CoreB64.toBase64Url bs) = bs.
Proof.
  intros Hb. unfold CoreB64.fromBase64Url. rewrite url_decode_prepare by done.
  by apply buffer_padded.
Qed.

Lemma crypto_b64_roundtrip bs :
  bytes_ok bs -> CryptoB64.fromBase64Url (CoreB64.toBase64Url bs) = Ok bs.
Proof.
  intros Hb. unfold CryptoB64.fromBase64Url. rewrite url_decode_prepare by done.
  by apply atob_padded.
Qed.

Lemma mcp_b64_roundtrip `{Host} bs :
  bytes_ok bs -> McpB64.fromB64url (CoreB64.toBase64Url bs) = bs.
Proof.
  intros Hb. unfold McpB64.fromB64url, buffer_from_base64. rewrite url_decode_prepare by done.
  rewrite !(drop_pad1_none (map _ _)) by by apply b64_chars_not_pad, sextets_range.
  rewrite sextets_of_chars_map by by apply sextets_range.
  destruct (Z.eqb_spec (Z.of_nat (length (sextets bs)) mod 4) 1) as [E|_].
  - exfalso. by apply (length_sextets_mod bs).
  - by apply unsextets_sextets.
Qed.

Lemma toBase64Url_length bs :
  bytes_ok bs -> length (CoreB64.toBase64Url bs) = length (sextets bs).
Proof. intros Hb. rewrite toBase64Url_chars by done. by rewrite !length_map. Qed.

Lemma toBase64Url_inj `{Host} b1 b2 :
  bytes_ok b1 -> bytes_ok b2 -> CoreB64.toBase64Url b1 = CoreB64.toBase64Url b2 -> b1 = b2.
Proof.
  intros H1 H2 E. rewrite <- (core_b64_roundtrip b1 H1), <- (core_b64_roundtrip b2 H2). by rewrite E.
Qed.

Lemma toBase64Url_nonempty bs : bytes_ok bs -> bs <> [] -> CoreB64.toBase64Url bs <> [].
Proof.
  intros Hb Hne. rewrite toBase64Url_chars by done.
  destruct bs as [|a [|b [|c r]]]; simpl; done.
Qed.

#[export] Hint Resolve toBase64Url_ok : jsdb.
