(* ===== verification/Utf8.v ===== *)
(** UTF-16 strings, UTF-8 bytes: [TextEncoder], [TextDecoder] and
    [Buffer.toString("utf8")], with the round trip of text through bytes. *)
From S2P Require Import Prelude.

Definition is_high (u : Z) : bool := (55296 <=? u) && (u <=? 56319).
Definition is_low (u : Z) : bool := (56320 <=? u) && (u <=? 57343).
Definition replacement : Z := 65533.

(** The scalar values of a string; a lone surrogate reads as U+FFFD. *)
Fixpoint code_points (s : jstr) : list Z :=
  match s with
  | [] => []
  | h :: t =>
    if is_high h then
      match t with
      | l :: r => if is_low l then 65536 + (h - 55296) * 1024 + (l - 56320) :: code_points r
                  else replacement :: code_points t
      | [] => [replacement]
      end
    else if is_low h then replacement :: code_points t
    else h :: code_points t
  end.

(** [s.isWellFormed()]. *)
Fixpoint is_well_formed (s : jstr) : bool :=
  match s with
  | [] => true
  | h :: t =>
    if is_high h then
      match t with
      | l :: r => is_low l && is_well_formed r
      | [] => false
      end
    else negb (is_low h) && is_well_formed t
  end.

Definition units_of_cp (c : Z) : jstr :=
  if c <? 65536 then [c]
  else [55296 + (c - 65536) / 1024; 56320 + (c - 65536) mod 1024].

Definition utf8_of_cp (c : Z) : bytes :=
  if c <? 128 then [c]
  else if c <? 2048 then [192 + c / 64; 128 + c mod 64]
  else if c <? 65536 then [224 + c / 4096; 128 + c / 64 mod 64; 128 + c mod 64]
  else [240 + c / 262144; 128 + c / 4096 mod 64; 128 + c / 64 mod 64; 128 + c mod 64].

(** [new TextEncoder().encode(s)], also [Buffer.from(s, "utf8")]. *)
Definition utf8_encode (s : jstr) : bytes := flat_map utf8_of_cp (code_points s).

(** The decoder's state inside a multi-byte sequence: continuation bytes still
    needed, bits so far, and the range allowed for the next byte. *)
Record pending := Pending { p_needed : Z; p_bits : Z; p_lower : Z; p_upper : Z }.

(** The Encoding Standard's UTF-8 decoder on a byte that starts a sequence:
    what is emitted and the next state. *)
Definition utf8_start (b : Z) : list Z * option pending :=
  if b <? 128 then ([b], None)
  else if (194 <=? b) && (b <=? 223) then ([], Some (Pending 1 (b - 192) 128 191))
  else if (224 <=? b) && (b <=? 239) then
    ([], Some (Pending 2 (b - 224) (if b =? 224 then 160 else 128) (if b =? 237 then 159 else 191)))
  else if (240 <=? b) && (b <=? 244) then
    ([], Some (Pending 3 (b - 240) (if b =? 240 then 144 else 128) (if b =? 244 then 143 else 191)))
  else ([replacement], None).

Fixpoint utf8_decode_from (st : option pending) (bs : bytes) : list Z :=
  match bs with
  | [] => match st with None => [] | Some _ => [replacement] end
  | b :: r =>
    match st with
    | Some (Pending n cp lo hi) =>
      if (lo <=? b) && (b <=? hi) then
        let cp' := cp * 64 + (b - 128) in
        if n =? 1 then cp' :: utf8_decode_from None r
        else utf8_decode_from (Some (Pending (n - 1) cp' 128 191)) r
      else
        let '(em, st') := utf8_start b in replacement :: em ++ utf8_decode_from st' r
    | None => let '(em, st') := utf8_start b in em ++ utf8_decode_from st' r
    end
  end.

(** [buffer.toString("utf8")]: no byte-order-mark handling. *)
Definition buffer_to_utf8 (bs : bytes) : jstr := flat_map units_of_cp (utf8_decode_from None bs).

(** [new TextDecoder().decode(bs)]: a leading byte-order mark is dropped. *)
Definition text_decode (bs : bytes) : jstr :=
  match bs with
  | 239 :: 187 :: 191 :: r => buffer_to_utf8 r
  | _ => buffer_to_utf8 bs
  end.

(** Unicode scalar values. *)
Definition scalar_ok (c : Z) : Prop := 0 <= c < 55296 \/ 57344 <= c < 1114112.

(** ** Lemmas *)

Lemma is_high_spec u : is_high u = true <-> 55296 <= u <= 56319.
Proof. unfold is_high. rewrite andb_true_iff, !Z.leb_le. done. Qed.
Lemma is_low_spec u : is_low u = true <-> 56320 <= u <= 57343.
Proof. unfold is_low. rewrite andb_true_iff, !Z.leb_le. done. Qed.
Lemma is_high_false u : is_high u = false <-> ~ 55296 <= u <= 56319.
Proof. rewrite <- is_high_spec. by destruct (is_high u). Qed.
Lemma is_low_false u : is_low u = false <-> ~ 56320 <= u <= 57343.
Proof. rewrite <- is_low_spec. by destruct (is_low u). Qed.

(** Induction that follows [code_points]. *)
Lemma str_ind2 (P : jstr -> Prop) :
  P [] -> (forall h, P [h]) ->
  (forall h l r, P r -> P (l :: r) -> P (h :: l :: r)) -> forall s, P s.
Proof.
  intros H0 H1 H2 s. assert (P s /\ forall h, P (h :: s)) as [? _]; [|done].
  induction s as [|x s [IH1 IH2]]; [done|]. split; [apply IH2|].
  intros h. apply H2; [done|apply IH2].
Qed.

Lemma code_points_cons2 h l r :
  code_points (h :: l :: r) =
  if is_high h then if is_low l then 65536 + (h - 55296) * 1024 + (l - 56320) :: code_points r
                    else replacement :: code_points (l :: r)
  else if is_low h then replacement :: code_points (l :: r) else h :: code_points (l :: r).
Proof. done. Qed.

Lemma is_well_formed_cons2 h l r :
  is_well_formed (h :: l :: r) =
  if is_high h then is_low l && is_well_formed r
  else negb (is_low h) && is_well_formed (l :: r).
Proof. done. Qed.

Lemma code_points_ok s : Forall unit_ok s -> Forall scalar_ok (code_points s).
Proof.
  induction s as [|h|h l r IH1 IH2] using str_ind2; intros Hs.
  - constructor.
  - simpl. inversion Hs as [|? ? Hh _]; subst. unfold unit_ok in Hh.
    destruct (is_high h) eqn:Eh; [|destruct (is_low h) eqn:El]; apply Forall_singleton;
      unfold scalar_ok, replacement; try lia.
    apply is_low_false in El. apply is_high_false in Eh. lia.
  - inversion Hs as [|? ? Hh Hs']; subst. inversion Hs' as [|? ? Hl Hr]; subst.
    unfold unit_ok in Hh, Hl. rewrite code_points_cons2.
    destruct (is_high h) eqn:Eh; [destruct (is_low l) eqn:El|destruct (is_low h) eqn:Eh'].
    + apply is_high_spec in Eh. apply is_low_spec in El. constructor; [unfold scalar_ok; lia | by apply IH1].
    + constructor; [unfold scalar_ok, replacement; lia | by apply IH2].
    + constructor; [unfold scalar_ok, replacement; lia | by apply IH2].
    + apply is_high_false in Eh. apply is_low_false in Eh'.
      constructor; [unfold scalar_ok; lia | by apply IH2].
Qed.

Lemma units_code_points s :
  Forall unit_ok s -> is_well_formed s = true -> flat_map units_of_cp (code_points s) = s.
Proof.
  induction s as [|h|h l r IH1 IH2] using str_ind2; intros Hs Hw; [done| |].
  - simpl in *. inversion_clear Hs as [|? ? Hh]. unfold unit_ok in Hh.
    destruct (is_high h); [done|]. destruct (is_low h); [done|]. simpl. unfold units_of_cp.
    destruct (Z.ltb_spec h 65536); [done|lia].
  - inversion Hs as [|? ? Hh Hs']; subst. inversion Hs' as [|? ? Hl Hr]; subst.
    unfold unit_ok in Hh, Hl.
    rewrite is_well_formed_cons2 in Hw. rewrite code_points_cons2.
    destruct (is_high h) eqn:Eh.
    + apply andb_true_iff in Hw as [El Hw]. rewrite El.
      apply is_high_spec in Eh. apply is_low_spec in El.
      cbn [flat_map]. rewrite IH1 by done. unfold units_of_cp.
      destruct (Z.ltb_spec (65536 + (h - 55296) * 1024 + (l - 56320)) 65536); [lia|].
      simpl. f_equal; [zdiv|f_equal; zdiv].
    + apply andb_true_iff in Hw as [El Hw]. apply negb_true_iff in El. rewrite El.
      cbn [flat_map]. rewrite IH2 by done. unfold units_of_cp.
      destruct (Z.ltb_spec h 65536); [done|lia].
Qed.

Lemma utf8_of_cp_bytes c : scalar_ok c -> bytes_ok (utf8_of_cp c).
Proof.
  intros Hc. unfold scalar_ok in Hc. unfold utf8_of_cp, bytes_ok, byte_ok.
  repeat (case_match; bool_to_prop); repeat constructor; zdiv.
Qed.

Lemma utf8_encode_bytes s : Forall unit_ok s -> bytes_ok (utf8_encode s).
Proof.
  intros Hs. apply code_points_ok in Hs. unfold utf8_encode.
  induction Hs as [|c cs Hc _ IH]; simpl; [constructor|].
  apply Forall_app. split; [by apply utf8_of_cp_bytes|done].
Qed.

Lemma decode_pending n cp lo hi b r :
  lo <= b <= hi ->
  utf8_decode_from (Some (Pending n cp lo hi)) (b :: r) =
  if n =? 1 then cp * 64 + (b - 128) :: utf8_decode_from None r
  else utf8_decode_from (Some (Pending (n - 1) (cp * 64 + (b - 128)) 128 191)) r.
Proof.
  intros H. simpl. destruct (Z.leb_spec lo b); [|lia]. by destruct (Z.leb_spec b hi); [|lia].
Qed.

Lemma decode_none b r :
  utf8_decode_from None (b :: r) = let '(em, st) := utf8_start b in em ++ utf8_decode_from st r.
Proof. done. Qed.

(** Decoding one encoded scalar value, one lemma per length. *)
Ltac start_byte b :=
  rewrite decode_none; unfold utf8_start;
  repeat match goal with
  | |- context [b <? ?k] => destruct (Z.ltb_spec b k); [try lia|try lia]
  | |- context [?k <=? b] => destruct (Z.leb_spec k b); [try lia|try lia]
  | |- context [b <=? ?k] => destruct (Z.leb_spec b k); [try lia|try lia]
  end; cbn [andb]; cbv beta iota; cbn [app].

Lemma decode_cp2 c r : 128 <= c < 2048 ->
  utf8_decode_from None (192 + c / 64 :: 128 + c mod 64 :: r) = c :: utf8_decode_from None r.
Proof.
  intros Hc. assert (194 <= 192 + c / 64 <= 223) as Hb by zdiv.
  assert (128 <= 128 + c mod 64 <= 191) as Hb2 by zdiv.
  assert ((192 + c / 64 - 192) * 64 + (128 + c mod 64 - 128) = c) as Hv by zdiv.
  revert Hb Hb2 Hv. generalize (192 + c / 64) as b0, (128 + c mod 64) as b1. intros b0 b1 Hb Hb2 Hv.
  start_byte b0. rewrite decode_pending by lia. simpl. by rewrite Hv.
Qed.

Lemma decode_cp3 c r : 2048 <= c < 65536 -> scalar_ok c ->
  utf8_decode_from None (224 + c / 4096 :: 128 + c / 64 mod 64 :: 128 + c mod 64 :: r)
  = c :: utf8_decode_from None r.
Proof.
  intros Hc Hs. unfold scalar_ok in Hs.
  assert (224 <= 224 + c / 4096 <= 239) as Hb by zdiv.
  assert (128 <= 128 + c / 64 mod 64 <= 191) as Hb1 by zdiv.
  assert (128 <= 128 + c mod 64 <= 191) as Hb2 by zdiv.
  assert (224 + c / 4096 = 224 -> 160 <= 128 + c / 64 mod 64) as Hlo by zdiv.
  assert (224 + c / 4096 = 237 -> 128 + c / 64 mod 64 <= 159) as Hhi by zdiv.
  assert (((224 + c / 4096 - 224) * 64 + (128 + c / 64 mod 64 - 128)) * 64 + (128 + c mod 64 - 128) = c)
    as Hv by zdiv.
  revert Hb Hb1 Hb2 Hlo Hhi Hv.
  generalize (224 + c / 4096) as b0, (128 + c / 64 mod 64) as b1, (128 + c mod 64) as b2.
  intros b0 b1 b2 Hb Hb1 Hb2 Hlo Hhi Hv. start_byte b0.
  rewrite decode_pending by (repeat case_match; bool_to_prop; lia).
  change (2 =? 1) with false. cbv iota. rewrite decode_pending by lia.
  change (2 - 1 =? 1) with true. cbv iota. by rewrite Hv.
Qed.

Lemma decode_cp4 c r : 65536 <= c < 1114112 ->
  utf8_decode_from None
    (240 + c / 262144 :: 128 + c / 4096 mod 64 :: 128 + c / 64 mod 64 :: 128 + c mod 64 :: r)
  = c :: utf8_decode_from None r.
Proof.
  intros Hc.
  assert (240 <= 240 + c / 262144 <= 244) as Hb by zdiv.
  assert (128 <= 128 + c / 4096 mod 64 <= 191) as Hb1 by zdiv.
  assert (128 <= 128 + c / 64 mod 64 <= 191) as Hb2 by zdiv.
  assert (128 <= 128 + c mod 64 <= 191) as Hb3 by zdiv.
  assert (240 + c / 262144 = 240 -> 144 <= 128 + c / 4096 mod 64) as Hlo by zdiv.
  assert (240 + c / 262144 = 244 -> 128 + c / 4096 mod 64 <= 143) as Hhi by zdiv.
  assert ((((240 + c / 262144 - 240) * 64 + (128 + c / 4096 mod 64 - 128)) * 64
            + (128 + c / 64 mod 64 - 128)) * 64 + (128 + c mod 64 - 128) = c) as Hv by zdiv.
  revert Hb Hb1 Hb2 Hb3 Hlo Hhi Hv.
  generalize (240 + c / 262144) as b0, (128 + c / 4096 mod 64) as b1,
    (128 + c / 64 mod 64) as b2, (128 + c mod 64) as b3.
  intros b0 b1 b2 b3 Hb Hb1 Hb2 Hb3 Hlo Hhi Hv. start_byte b0.
  rewrite decode_pending by (repeat case_match; bool_to_prop; lia).
  change (3 =? 1) with false. cbv iota. rewrite decode_pending by lia.
  change (3 - 1 =? 1) with false. cbv iota. rewrite decode_pending by lia.
  change (3 - 1 - 1 =? 1) with true. cbv iota. by rewrite Hv.
Qed.

Lemma decode_cp c r :
  scalar_ok c -> utf8_decode_from None (utf8_of_cp c ++ r) = c :: utf8_decode_from None r.
Proof.
  intros Hc. pose proof Hc as Hc'. unfold scalar_ok in Hc'. unfold utf8_of_cp.
  destruct (Z.ltb_spec c 128).
  { cbn [app]. rewrite decode_none. unfold utf8_start. by destruct (Z.ltb_spec c 128); [|lia]. }
  destruct (Z.ltb_spec c 2048); [by apply decode_cp2|].
  destruct (Z.ltb_spec c 65536); [by apply decode_cp3|]. apply decode_cp4. lia.
Qed.

Lemma decode_cps cs r :
  Forall scalar_ok cs ->
  utf8_decode_from None (flat_map utf8_of_cp cs ++ r) = cs ++ utf8_decode_from None r.
Proof.
  induction 1 as [|c cs Hc _ IH]; [done|]. cbn [flat_map app].
  rewrite <- app_assoc, decode_cp by done. by rewrite IH.
Qed.

(** Well-formed text survives UTF-8. *)
Lemma buffer_utf8_roundtrip s :
  Forall unit_ok s -> is_well_formed s = true -> buffer_to_utf8 (utf8_encode s) = s.
Proof.
  intros Hs Hw. unfold buffer_to_utf8, utf8_encode.
  rewrite <- (app_nil_r (flat_map utf8_of_cp _)), decode_cps by by apply code_points_ok.
  cbn [utf8_decode_from]. rewrite app_nil_r. by apply units_code_points.
Qed.

(** Text that [TextDecoder] gives back unchanged: well formed and without a
    leading U+FEFF. *)
Definition text_ok (s : jstr) : Prop :=
  Forall unit_ok s /\ is_well_formed s = true /\ head s <> Some 65279.

#[global] Instance text_ok_dec s : Decision (text_ok s).
Proof.
  unfold text_ok, unit_ok. apply _.
Defined.

Lemma first_cp_head s :
  Forall unit_ok s -> head (code_points s) = Some 65279 -> head s = Some 65279.
Proof.
  destruct s as [|h t]; [done|]. intros Hs. inversion Hs as [|? ? Hh Ht]; subst. simpl.
  destruct (is_high h) eqn:Eh.
  - destruct t as [|l t]; [done|]. inversion Ht as [|? ? Hl _]; subst.
    destruct (is_low l) eqn:El; [|done].
    apply is_high_spec in Eh. apply is_low_spec in El. intros [= E]. lia.
  - by destruct (is_low h).
Qed.

Lemma bom_first_cp c r b : scalar_ok c ->
  utf8_of_cp c ++ r = 239 :: 187 :: 191 :: b -> c = 65279.
Proof.
  intros Hc E. apply (f_equal (utf8_decode_from None)) in E. rewrite decode_cp in E by done.
  change (utf8_decode_from None (239 :: 187 :: 191 :: b))
    with (65279 :: utf8_decode_from None b) in E. congruence.
Qed.

Lemma text_roundtrip s : text_ok s -> text_decode (utf8_encode s) = s.
Proof.
  intros (Hs & Hw & Hbom). rewrite <- (buffer_utf8_roundtrip s Hs Hw) at 2.
  assert (forall b, utf8_encode s <> 239 :: 187 :: 191 :: b) as Hne.
  { intros b E. apply Hbom, first_cp_head; [done|]. apply code_points_ok in Hs.
    unfold utf8_encode in E. destruct (code_points s) as [|c cs]; [done|].
    inversion Hs; subst. simpl. f_equal. by eapply bom_first_cp. }
  unfold text_decode. repeat (case_match; subst; try done). by edestruct Hne.
Qed.

(** Encoding is injective on well-formed text. *)
Lemma utf8_encode_inj s t :
  Forall unit_ok s -> Forall unit_ok t -> is_well_formed s = true -> is_well_formed t = true ->
  utf8_encode s = utf8_encode t -> s = t.
Proof.
  intros Hs Ht Ws Wt E. rewrite <- (buffer_utf8_roundtrip s), <- (buffer_utf8_roundtrip t) by done.
  by rewrite E.
Qed.

(** ASCII text is its own encoding. *)
Definition ascii_text (s : jstr) : Prop := Forall (fun u => 0 <= u < 128) s.

Lemma ascii_units s : ascii_text s -> Forall unit_ok s.
Proof. intros H. eapply Forall_impl; [exact H|]. intros u Hu. unfold unit_ok. simpl in Hu. lia. Qed.

Lemma ascii_code_points s : ascii_text s -> code_points s = s.
Proof.
  induction 1 as [|u s Hu _ IH]; [done|]. simpl in *.
  assert (is_high u = false) as -> by (apply is_high_false; lia).
  assert (is_low u = false) as -> by (apply is_low_false; lia). by rewrite IH.
Qed.

Lemma ascii_well_formed s : ascii_text s -> is_well_formed s = true.
Proof.
  induction 1 as [|u s Hu _ IH]; [done|]. simpl in *.
  assert (is_high u = false) as -> by (apply is_high_false; lia).
  assert (is_low u = false) as -> by (apply is_low_false; lia). done.
Qed.

Lemma ascii_text_ok s : ascii_text s -> text_ok s.
Proof.
  intros H. split; [by apply ascii_units|]. split; [by apply ascii_well_formed|].
  destruct H as [|u s Hu]; [done|]. simpl in *. intros [= ->]. lia.
Qed.

#[export] Hint Resolve ascii_text_ok ascii_units ascii_well_formed : jsdb.
