(* ===== verification/JsNumber.v ===== *)
(** JavaScript numbers.

    A number is NaN, an infinity, or a finite double represented by its exact
    rational value in lowest terms.  The sign of zero is not represented: no
    operation of the modelled code observes it.  [round64] is
    round-to-nearest-even into binary64; decimal text and quotients go through
    it. *)
From Stdlib Require Export QArith.QArith.
From S2P Require Import Prelude.
#[global] Open Scope Z_scope.

Inductive jnum :=
| NaN
| Inf (neg : bool)
| Fin (q : Q).

(** An integer literal. *)
Definition num (z : Z) : jnum := Fin (z # 1).

(** [a === b] on numbers. *)
Definition num_eqb (a b : jnum) : bool :=
  match a, b with
  | Fin p, Fin q => Qeq_bool p q
  | Inf s, Inf t => Bool.eqb s t
  | _, _ => false
  end.

(** [a < b]: false when either side is NaN. *)
Definition num_ltb (a b : jnum) : bool :=
  match a, b with
  | NaN, _ | _, NaN => false
  | Inf true, Inf true => false
  | Inf true, _ => true
  | _, Inf false => match a with Inf false => false | _ => true end
  | Fin p, Fin q => negb (Qle_bool q p)
  | _, _ => false
  end.

Definition num_is_finite (a : jnum) : bool := match a with Fin _ => true | _ => false end.

Definition num_truthy (a : jnum) : bool :=
  match a with NaN => false | Inf _ => true | Fin q => negb (Qeq_bool q 0) end.

(** ** Rounding to binary64 *)

Definition round_half_even (n d : Z) : Z :=
  let q := n / d in
  match 2 * (n mod d) ?= d with
  | Lt => q
  | Gt => q + 1
  | Eq => if Z.even q then q else q + 1
  end.

(** Floor of the base-2 logarithm of [n / d], for positive [n] and [d]. *)
Definition log2_quot (n d : Z) : Z :=
  let e := Z.log2 n - Z.log2 d in
  if n * 2 ^ Z.max 0 (- e) <? d * 2 ^ Z.max 0 e then e - 1 else e.

Definition round64 (q : Q) : jnum :=
  let n := Z.abs (Qnum q) in
  let d := Zpos (Qden q) in
  let s := Z.sgn (Qnum q) in
  if n =? 0 then Fin 0
  else
    let e := Z.max (log2_quot n d - 52) (-1074) in
    let m := round_half_even (n * 2 ^ Z.max 0 (- e)) (d * 2 ^ Z.max 0 e) in
    let v := Qred ((s * m * 2 ^ Z.max 0 e) # Z.to_pos (2 ^ Z.max 0 (- e))) in
    if 2 ^ 1024 <=? m * 2 ^ Z.max 0 e / 2 ^ Z.max 0 (- e) then Inf (s <? 0) else Fin v.

(** ** Decimal digits *)

Definition is_digit (c : Z) : bool := (48 <=? c) && (c <=? 57).

Fixpoint span (p : Z -> bool) (s : jstr) : jstr * jstr :=
  match s with
  | [] => ([], [])
  | c :: r => if p c then let '(a, b) := span p r in (c :: a, b) else ([], s)
  end.

Fixpoint digits_value (acc : Z) (s : jstr) : Z :=
  match s with
  | [] => acc
  | c :: r => digits_value (acc * 10 + (c - 48)) r
  end.

Fixpoint dec_digits (fuel : nat) (n : Z) (acc : jstr) : jstr :=
  match fuel with
  | O => acc
  | S f =>
    let acc' := 48 + n mod 10 :: acc in
    if n <? 10 then acc' else dec_digits f (n / 10) acc'
  end.

(** The decimal digits of a natural number. *)
Definition dec_of_nonneg (n : Z) : jstr := dec_digits (S (Z.to_nat (Z.log2 n))) n [].

Definition dec_of_Z (n : Z) : jstr :=
  if n <? 0 then 45 :: dec_of_nonneg (- n) else dec_of_nonneg n.

(** Decimal text: sign, digits before the point, digits after it, exponent. *)
Record decimal := Decimal { d_neg : bool; d_int : jstr; d_frac : jstr; d_exp : Z }.

Definition decimal_value (d : decimal) : jnum :=
  let v := digits_value 0 (d_int d ++ d_frac d) in
  let v := if d_neg d then - v else v in
  let e := d_exp d - Z.of_nat (length (d_frac d)) in
  round64 (if 0 <=? e then v * 10 ^ e # 1 else v # Z.to_pos (10 ^ (- e))).

(** An exponent part, [e+dd]: its value and what follows; no exponent part is
    exponent 0.  [None] when an [e] is not followed by digits. *)
Definition scan_exponent (s : jstr) : option (Z * jstr) :=
  match s with
  | c :: r =>
    if (c =? 101) || (c =? 69) then
      let '(neg, r1) := match r with
                        | 45 :: r' => (true, r')
                        | 43 :: r' => (false, r')
                        | _ => (false, r)
                        end in
      match span is_digit r1 with
      | ([], _) => None
      | (ds, rest) => Some ((if neg : bool then - digits_value 0 ds else digits_value 0 ds), rest)
      end
    else Some (0, s)
  | [] => Some (0, [])
  end.

(** ** [Number(s)] on strings *)

Definition hex_val (c : Z) : option Z :=
  if is_digit c then Some (c - 48)
  else if (97 <=? c) && (c <=? 102) then Some (c - 87)
  else if (65 <=? c) && (c <=? 70) then Some (c - 55)
  else None.

Fixpoint radix_value (radix acc : Z) (s : jstr) : option Z :=
  match s with
  | [] => Some acc
  | c :: r =>
    match hex_val c with
    | Some v => if v <? radix then radix_value radix (acc * radix + v) r else None
    | None => None
    end
  end.

Definition radix_literal (radix : Z) (s : jstr) : jnum :=
  match s with
  | [] => NaN
  | _ => match radix_value radix 0 s with Some v => round64 (v # 1) | None => NaN end
  end.

(** StrUnsignedDecimalLiteral, after the sign. *)
Definition unsigned_decimal (neg : bool) (s : jstr) : jnum :=
  if jeqb s (js "Infinity") then Inf neg else
  let '(ip, r1) := span is_digit s in
  let '(fp, r2, dot) := match r1 with
                        | 46 :: r => let '(fp, r') := span is_digit r in (fp, r', true)
                        | _ => ([], r1, false)
                        end in
  match ip ++ fp with
  | [] => NaN
  | _ => match scan_exponent r2 with
         | Some (e, []) => decimal_value (Decimal neg ip fp e)
         | _ => NaN
         end
  end.

Definition number_of_string (s : jstr) : jnum :=
  match trim s with
  | [] => num 0
  | 48 :: c :: r =>
    if (c =? 120) || (c =? 88) then radix_literal 16 r
    else if (c =? 111) || (c =? 79) then radix_literal 8 r
    else if (c =? 98) || (c =? 66) then radix_literal 2 r
    else unsigned_decimal false (48 :: c :: r)
  | 45 :: r => unsigned_decimal true r
  | 43 :: r => unsigned_decimal false r
  | t => unsigned_decimal false t
  end.

(** ** [String(n)] *)

(** Decimal exponent [n] of positive [x]: 10^(n-1) <= x < 10^n. *)
Fixpoint small_exponent (fuel : nat) (x : Q) (n : Z) : Z :=
  match fuel with
  | O => n
  | S f => if Qle_bool 1 (x * 10) then n else small_exponent f (x * 10) (n - 1)
  end.

Definition decimal_exponent (x : Q) : Z :=
  let ip := Qnum x / Zpos (Qden x) in
  if 1 <=? ip then Z.of_nat (length (dec_of_nonneg ip)) else small_exponent 400 x 0.

(** The shortest digits that round back to [x], tried from one digit up. *)
Fixpoint shortest_digits (fuel : nat) (x : Q) (n k : Z) : Z * Z :=
  let e := n - k in
  let s := if 0 <=? e then round_half_even (Qnum x) (Zpos (Qden x) * 10 ^ e)
           else round_half_even (Qnum x * 10 ^ (- e)) (Zpos (Qden x)) in
  let back := if 0 <=? e then s * 10 ^ e # 1 else s # Z.to_pos (10 ^ (- e)) in
  match fuel with
  | O => (s, k)
  | S f => if num_eqb (round64 back) (Fin x) then (s, k) else shortest_digits f x n (k + 1)
  end.

Definition num_to_string_general (x : Q) : jstr :=
  let '(s, k0) := shortest_digits 16 x (decimal_exponent x) 1 in
  let ds := dec_of_nonneg s in
  let k := Z.of_nat (length ds) in
  let n := decimal_exponent x + (k - k0) in
  if (k <=? n) && (n <=? 21) then ds ++ replicate (Z.to_nat (n - k)) 48
  else if (0 <? n) && (n <=? 21) then take (Z.to_nat n) ds ++ 46 :: drop (Z.to_nat n) ds
  else if (-6 <? n) && (n <=? 0) then js "0." ++ replicate (Z.to_nat (- n)) 48 ++ ds
  else
    let e := n - 1 in
    let es := (if e <? 0 then 45 else 43) :: dec_of_nonneg (Z.abs e) in
    match ds with
    | [d] => d :: 101 :: es
    | d :: r => d :: 46 :: r ++ 101 :: es
    | [] => []
    end.

(** Integers up to 2^53 print as their digits; the general algorithm is used
    for every other finite number. *)
Definition num_to_string (a : jnum) : jstr :=
  match a with
  | NaN => js "NaN"
  | Inf neg => if neg then js "-Infinity" else js "Infinity"
  | Fin q =>
    if (Zpos (Qden q) =? 1) && (Z.abs (Qnum q) <=? 2 ^ 53) then dec_of_Z (Qnum q)
    else if Qnum q <? 0 then 45 :: num_to_string_general (- q) else num_to_string_general q
  end.

(** ** Lemmas *)

Definition safe_int (z : Z) : Prop := Z.abs z < 2 ^ 53.

Lemma num_eqb_int a b : num_eqb (num a) (num b) = (a =? b).
Proof. unfold num, num_eqb, Qeq_bool. simpl. f_equal; lia. Qed.

Lemma num_ltb_int a b : num_ltb (num a) (num b) = (a <? b).
Proof. unfold num, num_ltb, Qle_bool. simpl. rewrite !Z.mul_1_r. apply eq_sym, Z.ltb_antisym. Qed.

Lemma num_ltb_fin p q : num_ltb (Fin p) (Fin q) = true <-> (p < q)%Q.
Proof.
  simpl. rewrite negb_true_iff. split.
  - intros H. apply Qnot_le_lt. intros Hle. apply Qle_bool_iff in Hle. congruence.
  - intros H. destruct (Qle_bool q p) eqn:E; [|done]. apply Qle_bool_iff in E.
    exfalso. by apply (Qlt_not_le p q).
Qed.

Lemma num_ltb_fin_false p q : num_ltb (Fin p) (Fin q) = false <-> (q <= p)%Q.
Proof.
  rewrite <- not_true_iff_false, num_ltb_fin. split; [apply Qnot_lt_le|].
  intros H1 H2. by apply (Qlt_not_le p q).
Qed.

Lemma log2_quot_1 n : 0 < n -> log2_quot n 1 = Z.log2 n.
Proof.
  intros Hn. unfold log2_quot. simpl (Z.log2 1). rewrite Z.sub_0_r.
  pose proof (Z.log2_nonneg n). pose proof (Z.log2_spec n Hn).
  rewrite Z.max_l, Z.max_r by lia.
  destruct (Z.ltb_spec (n * 2 ^ 0) (1 * 2 ^ Z.log2 n)); lia.
Qed.

(** Safe integers are doubles. *)
Lemma round64_int z : safe_int z -> round64 (z # 1) = num z.
Proof.
  unfold safe_int. intros Hz. unfold round64. simpl Qnum. simpl Qden.
  destruct (Z.eqb_spec (Z.abs z) 0) as [E|E]; [by assert (z = 0) as -> by lia|].
  assert (0 < Z.abs z) as Hpos by lia.
  rewrite log2_quot_1 by done.
  pose proof (Z.log2_nonneg (Z.abs z)).
  assert (Z.log2 (Z.abs z) < 53) by (apply Z.log2_lt_pow2; lia).
  set (e := Z.max (Z.log2 (Z.abs z) - 52) (-1074)).
  assert (e <= 0 /\ -1074 <= e) as [He1 He2] by lia.
  rewrite (Z.max_l 0 e), (Z.max_r 0 (- e)) by lia.
  set (p := 2 ^ (- e)). assert (0 < p) as Hp by (apply Z.pow_pos_nonneg; lia).
  assert (round_half_even (Z.abs z * p) (1 * 2 ^ 0) = Z.abs z * p) as ->.
  { unfold round_half_even. simpl (1 * 2 ^ 0). by rewrite Z.mod_1_r, Z.div_1_r. }
  rewrite Z.pow_0_r, Z.mul_1_r, Z.div_mul by lia.
  destruct (Z.leb_spec (2 ^ 1024) (Z.abs z)) as [Hbig|_].
  { exfalso. assert (2 ^ 53 <= 2 ^ 1024) by (apply Z.pow_le_mono_r; lia). lia. }
  unfold num. f_equal. rewrite Z.mul_assoc, (Z.mul_comm (Z.sgn z)), Z.abs_sgn, Z.mul_1_r.
  transitivity (Qred (z # 1)).
  - apply Qred_complete. unfold Qeq. simpl. rewrite Z2Pos.id by lia. lia.
  - unfold Qred. pose proof (Z.ggcd_gcd z 1) as Hg. pose proof (Z.ggcd_correct_divisors z 1) as Hd.
    destruct (Z.ggcd z 1) as [g [a b]]. simpl in *. destruct Hd as [Ha Hb].
    rewrite Z.gcd_1_r in Hg. subst g. rewrite Z.mul_1_l in Ha, Hb. subst a.
    assert (b = 1) as -> by lia. done.
Qed.

Lemma dec_digits_value fuel n acc :
  (0 < fuel)%nat -> 0 <= n < 2 ^ Z.of_nat fuel ->
  digits_value 0 (dec_digits fuel n acc) = digits_value n acc.
Proof.
  revert n acc; induction fuel as [|f IH]; intros n acc Hf Hn; [lia|]. simpl.
  rewrite Nat2Z.inj_succ, Z.pow_succ_r in Hn by lia.
  destruct (Z.ltb_spec n 10) as [Hlt|Hge].
  - simpl. f_equal. zdiv.
  - assert (0 < f)%nat as Hf'.
    { destruct f; [simpl in Hn; lia | lia]. }
    rewrite IH by (try lia; split; zdiv). simpl. f_equal. zdiv.
Qed.

Lemma log2_fuel n : 0 <= n -> 0 <= n < 2 ^ Z.of_nat (S (Z.to_nat (Z.log2 n))).
Proof.
  intros Hn. split; [done|]. rewrite Nat2Z.inj_succ, Z2Nat.id by apply Z.log2_nonneg.
  destruct (Z.eq_dec n 0) as [->|Hne]; [done|]. apply Z.log2_spec. lia.
Qed.

Lemma dec_of_nonneg_value n : 0 <= n -> digits_value 0 (dec_of_nonneg n) = n.
Proof. intros Hn. unfold dec_of_nonneg. rewrite dec_digits_value by (try apply log2_fuel; lia). done. Qed.

Lemma dec_digits_all fuel n acc :
  0 <= n -> Forall (fun c => is_digit c = true) acc ->
  Forall (fun c => is_digit c = true) (dec_digits fuel n acc).
Proof.
  revert n acc; induction fuel as [|f IH]; intros n acc Hn Hacc; simpl; [done|].
  assert (Forall (fun c => is_digit c = true) (48 + n mod 10 :: acc)) as H.
  { constructor; [|done]. unfold is_digit. apply andb_true_iff. rewrite !Z.leb_le. zdiv. }
  destruct (n <? 10); [done|]. apply IH; [zdiv|done].
Qed.

Lemma dec_of_nonneg_digits n : 0 <= n -> Forall (fun c => is_digit c = true) (dec_of_nonneg n).
Proof. intros Hn. by apply dec_digits_all. Qed.

(** No leading zero, except for zero itself. *)
Lemma dec_digits_head fuel n acc :
  (0 < fuel)%nat -> 0 < n < 2 ^ Z.of_nat fuel ->
  exists c r, dec_digits fuel n acc = c :: r /\ 49 <= c <= 57.
Proof.
  revert n acc; induction fuel as [|f IH]; intros n acc Hf Hn; [lia|]. simpl.
  rewrite Nat2Z.inj_succ, Z.pow_succ_r in Hn by lia.
  destruct (Z.ltb_spec n 10) as [Hlt|Hge].
  - eexists _, _. split; [done|]. zdiv.
  - apply IH; [|split; zdiv]. destruct f; [simpl in Hn; lia | lia].
Qed.

Lemma dec_of_nonneg_head n : 0 < n -> exists c r, dec_of_nonneg n = c :: r /\ 49 <= c <= 57.
Proof. intros Hn. apply dec_digits_head; [lia|]. pose proof (log2_fuel n). lia. Qed.

Lemma dec_of_nonneg_0 : dec_of_nonneg 0 = [48].
Proof. done. Qed.

Lemma span_all p s t :
  Forall (fun c => p c = true) s -> match t with [] => True | c :: _ => p c = false end ->
  span p (s ++ t) = (s, t).
Proof.
  intros Hs Ht. induction Hs as [|c s Hc _ IH]; simpl.
  - destruct t as [|c t]; [done|]. simpl. by rewrite Ht.
  - by rewrite Hc, IH.
Qed.

Lemma span_all_nil p s : Forall (fun c => p c = true) s -> span p s = (s, []).
Proof. intros H. rewrite <- (app_nil_r s) at 1. by apply span_all. Qed.

Lemma digits_ascii s : Forall (fun c => is_digit c = true) s -> Forall (fun c => 48 <= c <= 57) s.
Proof. intros H. eapply Forall_impl; [exact H|]. unfold is_digit. intros c Hc. bool_to_prop. lia. Qed.

Lemma decimal_value_int neg ds n :
  digits_value 0 ds = n -> safe_int n ->
  decimal_value (Decimal neg ds [] 0) = num (if neg then - n else n).
Proof.
  intros Hv Hn. unfold decimal_value. cbn [d_neg d_int d_frac d_exp]. rewrite app_nil_r, Hv.
  simpl. rewrite Z.mul_1_r. apply round64_int. unfold safe_int in *. destruct neg; lia.
Qed.

Lemma digits_not_space s :
  Forall (fun c => is_digit c = true) s -> Forall (fun c => is_js_space c = false) s.
Proof.
  intros H. eapply Forall_impl; [by apply digits_ascii|]. intros c Hc. simpl in Hc.
  unfold is_js_space.
  repeat match goal with
  | |- context [?a =? ?b] => destruct (Z.eqb_spec a b); [lia|]
  | |- context [?a <=? ?b] => destruct (Z.leb_spec a b); try lia
  end; done.
Qed.

(** [Number] reads back the digits of a safe natural number. *)
Lemma number_of_string_dec n :
  0 <= n -> safe_int n -> number_of_string (dec_of_nonneg n) = num n.
Proof.
  intros Hn Hs. unfold number_of_string.
  assert (Forall (fun c => is_digit c = true) (dec_of_nonneg n)) as Hd by by apply dec_of_nonneg_digits.
  rewrite trim_id by by apply digits_not_space.
  destruct (Z.eq_dec n 0) as [->|Hne]; [done|].
  destruct (dec_of_nonneg_head n) as (c & r & E & Hc); [lia|].
  assert (unsigned_decimal false (dec_of_nonneg n) = num n) as Hu.
  { unfold unsigned_decimal.
    assert (jeqb (dec_of_nonneg n) (js "Infinity") = false) as ->.
    { apply jeqb_false. rewrite E. change (js "Infinity") with (73 :: js "nfinity"). intros [= ? ?]. lia. }
    rewrite span_all_nil by done. rewrite app_nil_r, E. cbn [scan_exponent]. rewrite <- E.
    rewrite (decimal_value_int false _ n); [done|by apply dec_of_nonneg_value|done]. }
  rewrite E in *. repeat (case_match; subst; try lia; try exact Hu).
Qed.

Lemma num_to_string_int z : safe_int z -> num_to_string (num z) = dec_of_Z z.
Proof.
  unfold safe_int. intros Hz. unfold num_to_string, num. simpl Qden. simpl Qnum.
  destruct (Z.leb_spec (Z.abs z) (2 ^ 53)); [done|lia].
Qed.

Lemma num_to_string_nonneg z : 0 <= z -> safe_int z -> num_to_string (num z) = dec_of_nonneg z.
Proof.
  intros H0 Hz. rewrite num_to_string_int by done. unfold dec_of_Z.
  destruct (Z.ltb_spec z 0); [lia|done].
Qed.

(** Sample conversions. *)
Example number_120000 : number_of_string (js "120000") = num 120000.
Proof. by vm_compute. Qed.
Example number_exp : number_of_string (js " 1.2e5 ") = num 120000.
Proof. by vm_compute. Qed.
Example number_empty : number_of_string [] = num 0.
Proof. done. Qed.
Example number_bad : number_of_string (js "12x") = NaN.
Proof. by vm_compute. Qed.
Example number_tenth : num_to_string (number_of_string (js "0.1")) = js "0.1".
Proof. by vm_compute. Qed.
Example number_e21 : num_to_string (number_of_string (js "1e21")) = js "1e+21".
Proof. by vm_compute. Qed.
Example number_big : num_to_string (number_of_string (js "12345678901234567890")) = js "12345678901234567000".
Proof. by vm_compute. Qed.
Example number_small : num_to_string (number_of_string (js "0.00000123")) = js "0.00000123".
Proof. by vm_compute. Qed.

(** ** UUID text *)

Definition is_hex (c : Z) : bool := match hex_val c with Some _ => true | None => false end.

(** Runs of hex digits of the given lengths, separated by hyphens. *)
Fixpoint hex_groups (ns : list nat) (s : jstr) : bool :=
  match ns with
  | [] => false
  | [n] => (length s =? n)%nat && forallb is_hex s
  | n :: ns' =>
    forallb is_hex (take n s) &&
    match drop n s with c :: r => (c =? 45) && hex_groups ns' r | [] => false end
  end.

(** [/^[0-9a-f]{8}-[0-9a-f]{4}-[0-9a-f]{4}-[0-9a-f]{4}-[0-9a-f]{12}$/i]. *)
Definition uuid_test (s : jstr) : bool := hex_groups [8; 4; 4; 4; 12]%nat s.

Lemma uuid_test_length s : uuid_test s = true -> length s = 36%nat.
Proof.
  unfold uuid_test. intros H. cbn [hex_groups] in H.
  do 4 (apply andb_true_iff in H as [_ H]; 
        match type of H with match ?d with _ => _ end = true => destruct d eqn:?; [done|] end;
        apply andb_true_iff in H as [_ H]).
  apply andb_true_iff in H as [H _]. apply Nat.eqb_eq in H.
  repeat match goal with E : drop ?n ?s = _ :: _ |- _ =>
    apply (f_equal length) in E; rewrite length_drop in E; simpl in E end. lia.
Qed.

Lemma uuid_test_units s : uuid_test s = true -> Forall (fun c => is_hex c = true \/ c = 45) s.
Proof.
  unfold uuid_test. generalize [8; 4; 4; 4; 12]%nat. intros ns. revert s.
  induction ns as [|n [|m ns] IH]; intros s; [done| |].
  - cbn [hex_groups]. rewrite andb_true_iff, forallb_forall. intros [_ H]. apply Forall_forall.
    intros c Hc. left. by apply H, list_elem_of_In.
  - change (forallb is_hex (take n s) && match drop n s with c :: r => (c =? 45) && hex_groups (m :: ns) r | [] => false end = true
      -> Forall (fun c => is_hex c = true \/ c = 45) s).
    rewrite andb_true_iff, forallb_forall. intros [H1 H2]. rewrite <- (take_drop n s). apply Forall_app. split.
    + apply Forall_forall. intros c Hc. left. by apply H1, list_elem_of_In.
    + destruct (drop n s) as [|c r]; [done|]. apply andb_true_iff in H2 as [H2 H3]. apply Z.eqb_eq in H2.
      constructor; [by right|]. by apply IH.
Qed.

(** [s < t] on strings: the order of code units. *)
Fixpoint str_ltb (s t : jstr) : bool :=
  match s, t with
  | _, [] => false
  | [], _ :: _ => true
  | a :: s', b :: t' => (a <? b) || ((a =? b) && str_ltb s' t')
  end.

Lemma str_ltb_app s t u v : length s = length t -> str_ltb s t = true -> str_ltb (s ++ u) (t ++ v) = true.
Proof.
  revert t. induction s as [|a s IH]; intros [|b t]; simpl; try done. intros [= Hl].
  destruct (a <? b); [done|]. simpl. destruct (a =? b); [|done]. by apply IH.
Qed.

Lemma str_ltb_prefix s t u : str_ltb t u = true -> str_ltb (s ++ t) (s ++ u) = true.
Proof. intros H. induction s as [|a s IH]; simpl; [done|]. by rewrite Z.ltb_irrefl, Z.eqb_refl. Qed.
