(* ===== verification/Json.v ===== *)
(** JavaScript values and JSON.

    [jval] is the universe of values JSON text denotes, with [undefined];
    objects are association lists in creation order with distinct keys.
    [json_stringify] and [json_parse] are the built-ins; [json_roundtrip] says
    the second inverts the first. *)
From S2P Require Import Prelude Utf8 JsNumber.

Unset Elimination Schemes.
Inductive jval :=
| JUndef
| JNull
| JBool (b : bool)
| JNum (n : jnum)
| JStr (s : jstr)
| JArr (l : list jval)
| JObj (o : list (jstr * jval)).
Set Elimination Schemes.

Definition jval_ind (P : jval -> Prop)
  (Hu : P JUndef) (Hn : P JNull) (Hb : forall b, P (JBool b)) (Hm : forall n, P (JNum n))
  (Hs : forall s, P (JStr s)) (Ha : forall l, Forall P l -> P (JArr l))
  (Ho : forall o, Forall (fun kv => P kv.2) o -> P (JObj o)) : forall v, P v :=
  fix F (v : jval) : P v :=
    match v with
    | JUndef => Hu
    | JNull => Hn
    | JBool b => Hb b
    | JNum n => Hm n
    | JStr s => Hs s
    | JArr l => Ha l ((fix G (l : list jval) : Forall P l :=
                         match l with
                         | [] => Forall_nil_2 _
                         | x :: r => Forall_cons_2 _ _ _ (F x) (G r)
                         end) l)
    | JObj o => Ho o ((fix G (o : list (jstr * jval)) : Forall (fun kv => P kv.2) o :=
                         match o with
                         | [] => Forall_nil_2 _
                         | kv :: r => Forall_cons_2 _ _ _ (F kv.2) (G r)
                         end) o)
    end.

(** ** Property access *)

Fixpoint obj_get (k : jstr) (o : list (jstr * jval)) : option jval :=
  match o with
  | [] => None
  | (k', v) :: r => if jeqb k k' then Some v else obj_get k r
  end.

(** [o[k] = v]: an existing key keeps its place. *)
Fixpoint obj_set (k : jstr) (v : jval) (o : list (jstr * jval)) : list (jstr * jval) :=
  match o with
  | [] => [(k, v)]
  | (k', v') :: r => if jeqb k k' then (k', v) :: r else (k', v') :: obj_set k v r
  end.

(** [v.k] for a key that no prototype of the value defines: [undefined] when
    there is no own property, a [TypeError] on [undefined] and [null]. *)
Definition jprop (v : jval) (k : jstr) : res jval :=
  match v with
  | JUndef => Throw (TypeError_ (js "Cannot read properties of undefined"))
  | JNull => Throw (TypeError_ (js "Cannot read properties of null"))
  | JObj o => Ok (match obj_get k o with Some x => x | None => JUndef end)
  | _ => Ok JUndef
  end.

Definition jtruthy (v : jval) : bool :=
  match v with
  | JUndef | JNull => false
  | JBool b => b
  | JNum n => num_truthy n
  | JStr s => truthy_str s
  | JArr _ | JObj _ => true
  end.

(** [v && typeof v === "object"]. *)
Definition is_object (v : jval) : bool :=
  match v with JArr _ | JObj _ => true | _ => false end.

Definition is_undefined (v : jval) : bool := match v with JUndef => true | _ => false end.
Definition is_string (v : jval) : bool := match v with JStr _ => true | _ => false end.

(** [v === s] against a string literal. *)
Definition jis (v : jval) (s : jstr) : bool :=
  match v with JStr t => jeqb t s | _ => false end.

(** ** JSON.stringify *)

Definition hex_digit (v : Z) : Z := if v <? 10 then 48 + v else 87 + v.

Definition unicode_escape (c : Z) : jstr :=
  [92; 117; hex_digit (c / 4096); hex_digit (c / 256 mod 16);
   hex_digit (c / 16 mod 16); hex_digit (c mod 16)].

Definition quote_unit (c : Z) : jstr :=
  if c =? 8 then [92; 98]
  else if c =? 9 then [92; 116]
  else if c =? 10 then [92; 110]
  else if c =? 12 then [92; 102]
  else if c =? 13 then [92; 114]
  else if c =? 34 then [92; 34]
  else if c =? 92 then [92; 92]
  else if c <? 32 then unicode_escape c
  else [c].

(** Escapes the units of a string; lone surrogates are written as [\uXXXX]. *)
Fixpoint quote_units (s : jstr) : jstr :=
  match s with
  | [] => []
  | h :: t =>
    if is_high h then
      match t with
      | l :: r => if is_low l then h :: l :: quote_units r else unicode_escape h ++ quote_units t
      | [] => unicode_escape h
      end
    else if is_low h then unicode_escape h ++ quote_units t
    else quote_unit h ++ quote_units t
  end.

Definition json_quote (s : jstr) : jstr := 34 :: quote_units s ++ [34].

(** The layout of an array or object: [gap] is the indentation unit (empty for
    the compact form) and [ind] the current indentation. *)
Definition json_block (gap ind : jstr) (o c : Z) (parts : list jstr) : jstr :=
  match parts with
  | [] => [o; c]
  | _ =>
    let nl (i : jstr) := match gap with [] => [] | _ => 10 :: i end in
    o :: nl (ind ++ gap) ++ join_with (44 :: nl (ind ++ gap)) parts ++ nl ind ++ [c]
  end.

Definition json_colon (gap : jstr) : jstr := match gap with [] => [58] | _ => [58; 32] end.

(** SerializeJSONProperty: [None] is JavaScript's [undefined]. *)
Fixpoint json_ser (gap ind : jstr) (v : jval) : option jstr :=
  match v with
  | JUndef => None
  | JNull => Some (js "null")
  | JBool b => Some (if b then js "true" else js "false")
  | JNum n => Some (if num_is_finite n then num_to_string n else js "null")
  | JStr s => Some (json_quote s)
  | JArr l =>
    Some (json_block gap ind 91 93
      (map (fun x => match json_ser gap (ind ++ gap) x with Some t => t | None => js "null" end) l))
  | JObj o =>
    Some (json_block gap ind 123 125
      (flat_map (fun kv => match json_ser gap (ind ++ gap) kv.2 with
                           | Some t => [json_quote kv.1 ++ json_colon gap ++ t]
                           | None => []
                           end) o))
  end.

(** [JSON.stringify(v)] and [JSON.stringify(v, null, n)]; the text of
    [undefined] is not a string and reads here as the empty one. *)
Definition json_stringify (v : jval) : jstr := default [] (json_ser [] [] v).
Definition json_stringify_indent (n : nat) (v : jval) : jstr := default [] (json_ser (replicate n 32) [] v).

(** ** JSON.parse *)

Definition is_json_space (c : Z) : bool := (c =? 9) || (c =? 10) || (c =? 13) || (c =? 32).
Definition skip_ws (s : jstr) : jstr := drop_while is_json_space s.

Definition simple_escape (c : Z) : option Z :=
  if c =? 34 then Some 34
  else if c =? 92 then Some 92
  else if c =? 47 then Some 47
  else if c =? 98 then Some 8
  else if c =? 102 then Some 12
  else if c =? 110 then Some 10
  else if c =? 114 then Some 13
  else if c =? 116 then Some 9
  else None.

Definition hex4 (a b c d : Z) : option Z :=
  va ← hex_val a; vb ← hex_val b; vc ← hex_val c; vd ← hex_val d;
  Some (((va * 16 + vb) * 16 + vc) * 16 + vd).

(** The rest of a string literal after its opening quote. *)
Fixpoint parse_string (s : jstr) : option (jstr * jstr) :=
  match s with
  | [] => None
  | c :: r =>
    if c =? 34 then Some ([], r)
    else if c =? 92 then
      match r with
      | [] => None
      | e :: r1 =>
        if e =? 117 then
          match r1 with
          | h1 :: h2 :: h3 :: h4 :: r2 =>
            u ← hex4 h1 h2 h3 h4; '(t, rest) ← parse_string r2; Some (u :: t, rest)
          | _ => None
          end
        else u ← simple_escape e; '(t, rest) ← parse_string r1; Some (u :: t, rest)
      end
    else if c <? 32 then None
    else '(t, rest) ← parse_string r; Some (c :: t, rest)
  end.

Definition strip_minus (s : jstr) : bool * jstr :=
  match s with
  | c :: r => if c =? 45 then (true, r) else (false, s)
  | [] => (false, [])
  end.

(** A fraction part: [Some ([], s)] when there is none. *)
Definition scan_fraction (s : jstr) : option (jstr * jstr) :=
  match s with
  | c :: r =>
    if c =? 46 then
      match span is_digit r with ([], _) => None | (fp, r') => Some (fp, r') end
    else Some ([], s)
  | [] => Some ([], [])
  end.

Definition int_part_ok (ip : jstr) : bool :=
  match ip with
  | [] => false
  | c :: r => if c =? 48 then match r with [] => true | _ => false end else true
  end.

Definition parse_number (s : jstr) : option (jval * jstr) :=
  let '(neg, r) := strip_minus s in
  let '(ip, r1) := span is_digit r in
  if int_part_ok ip then
    '(fp, r2) ← scan_fraction r1;
    '(e, r3) ← scan_exponent r2;
    Some (JNum (decimal_value (Decimal neg ip fp e)), r3)
  else None.

(** The text after the keyword [p], if [s] starts with it. *)
Definition strip_prefix (p s : jstr) : option jstr :=
  if starts_with p s then Some (drop (length p) s) else None.

Definition parse_literal (s : jstr) : option (jval * jstr) :=
  match strip_prefix (js "null") s with
  | Some r => Some (JNull, r)
  | None =>
    match strip_prefix (js "true") s with
    | Some r => Some (JBool true, r)
    | None =>
      match strip_prefix (js "false") s with
      | Some r => Some (JBool false, r)
      | None => parse_number s
      end
    end
  end.

Fixpoint parse_value (fuel : nat) (s : jstr) : option (jval * jstr) :=
  match fuel with
  | O => None
  | S f =>
    match skip_ws s with
    | [] => None
    | c :: r =>
      if c =? 34 then '(t, rest) ← parse_string r; Some (JStr t, rest)
      else if c =? 91 then
        match skip_ws r with
        | [] => None
        | c' :: r' => if c' =? 93 then Some (JArr [], r') else parse_elements f (c' :: r') []
        end
      else if c =? 123 then
        match skip_ws r with
        | [] => None
        | c' :: r' => if c' =? 125 then Some (JObj [], r') else parse_members f (c' :: r') []
        end
      else parse_literal (c :: r)
    end
  end
with parse_elements (fuel : nat) (s : jstr) (acc : list jval) : option (jval * jstr) :=
  match fuel with
  | O => None
  | S f =>
    '(v, r) ← parse_value f s;
    match skip_ws r with
    | [] => None
    | c :: r' =>
      if c =? 44 then parse_elements f r' (acc ++ [v])
      else if c =? 93 then Some (JArr (acc ++ [v]), r')
      else None
    end
  end
with parse_members (fuel : nat) (s : jstr) (acc : list (jstr * jval)) : option (jval * jstr) :=
  match fuel with
  | O => None
  | S f =>
    match skip_ws s with
    | [] => None
    | q :: r0 =>
      if q =? 34 then
        '(k, r1) ← parse_string r0;
        match skip_ws r1 with
        | [] => None
        | c1 :: r2 =>
          if c1 =? 58 then
            '(v, r3) ← parse_value f r2;
            match skip_ws r3 with
            | [] => None
            | c :: r4 =>
              if c =? 44 then parse_members f r4 (obj_set k v acc)
              else if c =? 125 then Some (JObj (obj_set k v acc), r4)
              else None
            end
          else None
        end
      else None
    end
  end.

(** Two calls consume at least one unit of the text, so this fuel is enough
    for every text ([parse_value_fuel]). *)
Definition json_fuel (s : jstr) : nat := 2 * length s + 2.

Definition json_parse (s : jstr) : res jval :=
  match parse_value (json_fuel s) s with
  | Some (v, r) => match skip_ws r with [] => Ok v | _ => Throw (SyntaxError_ (js "Unexpected token in JSON")) end
  | None => Throw (SyntaxError_ (js "Unexpected token in JSON"))
  end.

(** ** Values JSON carries exactly: no [undefined], safe integers, strings of
    16-bit units, distinct keys. *)
Definition unit_okb (u : Z) : bool := (0 <=? u) && (u <? 65536).

Definition num_okb (n : jnum) : bool :=
  match n with Fin q => (Zpos (Qden q) =? 1) && (Z.abs (Qnum q) <? 2 ^ 53) | _ => false end.

Fixpoint json_okb (v : jval) : bool :=
  match v with
  | JUndef => false
  | JNull | JBool _ => true
  | JNum n => num_okb n
  | JStr s => forallb unit_okb s
  | JArr l => forallb json_okb l
  | JObj o => bool_decide (NoDup o.*1) && forallb (fun kv => forallb unit_okb kv.1 && json_okb kv.2) o
  end.

(** ** Objects as association lists *)

Lemma obj_get_set_eq k v o : obj_get k (obj_set k v o) = Some v.
Proof.
  induction o as [|[k' v'] o IH]; simpl; [by rewrite jeqb_refl|].
  destruct (jeqb k k') eqn:E; simpl; by rewrite E.
Qed.

Lemma obj_get_set_ne k k' v o : k <> k' -> obj_get k (obj_set k' v o) = obj_get k o.
Proof.
  intros Hne. induction o as [|[k1 v1] o IH]; simpl.
  - by apply jeqb_false in Hne as ->.
  - destruct (jeqb k' k1) eqn:E; simpl.
    + apply jeqb_true in E as ->. by apply jeqb_false in Hne as ->.
    + by rewrite IH.
Qed.

Lemma obj_set_fresh k v o : k ∉ o.*1 -> obj_set k v o = o ++ [(k, v)].
Proof.
  induction o as [|[k' v'] o IH]; [done|]. cbn [fmap list_fmap fst obj_set].
  rewrite not_elem_of_cons. intros [Hne Hin]. apply jeqb_false in Hne as ->. by rewrite IH.
Qed.

Lemma obj_get_elem k v o : obj_get k o = Some v -> (k, v) ∈ o.
Proof.
  induction o as [|[k' v'] o IH]; simpl; [done|].
  destruct (jeqb_spec k k') as [->|_]; [intros [= ->]; left | right; by apply IH].
Qed.

(** ** String literals *)

Lemma hex_val_digit v : 0 <= v < 16 -> hex_val (hex_digit v) = Some v.
Proof.
  intros Hv. unfold hex_digit, hex_val, is_digit.
  destruct (Z.ltb_spec v 10).
  - destruct (Z.leb_spec 48 (48 + v)), (Z.leb_spec (48 + v) 57); simpl; try lia. f_equal; lia.
  - destruct (Z.leb_spec 48 (87 + v)), (Z.leb_spec (87 + v) 57),
      (Z.leb_spec 97 (87 + v)), (Z.leb_spec (87 + v) 102); simpl; try lia. f_equal; lia.
Qed.

Lemma hex4_digits c : unit_ok c ->
  hex4 (hex_digit (c / 4096)) (hex_digit (c / 256 mod 16)) (hex_digit (c / 16 mod 16)) (hex_digit (c mod 16))
  = Some c.
Proof.
  unfold unit_ok. intros Hc. unfold hex4.
  rewrite !hex_val_digit by zdiv. simpl. f_equal. zdiv.
Qed.

(** [parse_string] after one more unit. *)
Definition cons_unit (c : Z) (p : option (jstr * jstr)) : option (jstr * jstr) :=
  '(t, rest) ← p; Some (c :: t, rest).

Lemma parse_unicode_escape c r :
  unit_ok c -> parse_string (unicode_escape c ++ r) = cons_unit c (parse_string r).
Proof.
  intros Hc. unfold unicode_escape. cbn [app parse_string].
  change (92 =? 34) with false. change (92 =? 92) with true. change (117 =? 117) with true.
  cbv iota. rewrite hex4_digits by done. done.
Qed.

Lemma parse_plain c r :
  c <> 34 -> c <> 92 -> 32 <= c -> parse_string (c :: r) = cons_unit c (parse_string r).
Proof.
  intros H1 H2 H3. cbn [parse_string].
  destruct (Z.eqb_spec c 34); [done|]. destruct (Z.eqb_spec c 92); [done|].
  destruct (Z.ltb_spec c 32); [lia|done].
Qed.

Lemma parse_quote_unit c r :
  unit_ok c -> parse_string (quote_unit c ++ r) = cons_unit c (parse_string r).
Proof.
  intros Hc. unfold quote_unit.
  repeat (match goal with |- context [c =? ?k] => destruct (Z.eqb_spec c k) as [->|] end; [done|]).
  destruct (Z.ltb_spec c 32); [by apply parse_unicode_escape|]. by apply parse_plain.
Qed.

Lemma quote_units_cons2 h l r :
  quote_units (h :: l :: r) =
  if is_high h then if is_low l then h :: l :: quote_units r else unicode_escape h ++ quote_units (l :: r)
  else if is_low h then unicode_escape h ++ quote_units (l :: r) else quote_unit h ++ quote_units (l :: r).
Proof. done. Qed.

Lemma parse_string_quote s r :
  Forall unit_ok s -> parse_string (quote_units s ++ 34 :: r) = Some (s, r).
Proof.
  induction s as [|h|h l s IH1 IH2] using str_ind2; intros Hs; [done| |].
  - inversion Hs as [|? ? Hh _]; subst. cbn [quote_units].
    assert (forall t, parse_string (t ++ 34 :: r) = cons_unit h (parse_string (34 :: r)) ->
              parse_string (t ++ 34 :: r) = Some ([h], r)) as Hfin by (by intros t ->).
    destruct (is_high h); [|destruct (is_low h)].
    + apply Hfin. by apply parse_unicode_escape.
    + rewrite app_nil_r. apply Hfin. by apply parse_unicode_escape.
    + rewrite app_nil_r. apply Hfin. by apply parse_quote_unit.
  - inversion Hs as [|? ? Hh Hs']; subst. inversion Hs' as [|? ? Hl Hr]; subst.
    rewrite quote_units_cons2.
    destruct (is_high h) eqn:Eh; [destruct (is_low l) eqn:El|destruct (is_low h) eqn:El].
    + apply is_high_spec in Eh. apply is_low_spec in El. cbn [app].
      rewrite !parse_plain, IH1 by (done || lia). done.
    + rewrite <- app_assoc, parse_unicode_escape, IH2 by done. done.
    + rewrite <- app_assoc, parse_unicode_escape, IH2 by done. done.
    + rewrite <- app_assoc, parse_quote_unit, IH2 by done. done.
Qed.

(** ** Numbers *)

(** Text that cannot extend a number. *)
Definition number_ends (s : jstr) : Prop :=
  match s with
  | [] => True
  | c :: _ => is_digit c = false /\ c <> 46 /\ c <> 101 /\ c <> 69
  end.

Lemma scan_fraction_ends s : number_ends s -> scan_fraction s = Some ([], s).
Proof.
  destruct s as [|c s]; [done|]. intros (_ & H & _). simpl. by destruct (Z.eqb_spec c 46).
Qed.

Lemma scan_exponent_ends s : number_ends s -> scan_exponent s = Some (0, s).
Proof.
  destruct s as [|c s]; [done|]. intros (_ & _ & H1 & H2). unfold scan_exponent.
  destruct (Z.eqb_spec c 101); [done|]. by destruct (Z.eqb_spec c 69).
Qed.

Lemma parse_number_digits neg n r :
  0 <= n -> safe_int n -> number_ends r ->
  parse_number ((if neg : bool then [45] else []) ++ dec_of_nonneg n ++ r)
  = Some (JNum (num (if neg then - n else n)), r).
Proof.
  intros Hn Hs Hr. unfold parse_number.
  assert (exists c d, dec_of_nonneg n = c :: d /\ 48 <= c <= 57 /\ int_part_ok (c :: d) = true)
    as (c & d & E & Hc & Hip).
  { destruct (Z.eq_dec n 0) as [->|Hne]; [exists 48, []; done|].
    destruct (dec_of_nonneg_head n) as (c & d & E & Hc); [lia|]. exists c, d. split; [done|].
    split; [lia|]. simpl. destruct (Z.eqb_spec c 48); [lia|done]. }
  assert (strip_minus ((if neg then [45] else []) ++ dec_of_nonneg n ++ r) = (neg, dec_of_nonneg n ++ r)) as ->.
  { destruct neg; [done|]. rewrite E. simpl. destruct (Z.eqb_spec c 45); [lia|done]. }
  rewrite span_all; [|by apply dec_of_nonneg_digits|destruct r as [|c' r']; [done|by destruct Hr]].
  rewrite E in *. rewrite Hip, scan_fraction_ends, <- E by done.
  cbv iota beta delta [mbind option_bind]. rewrite scan_exponent_ends by done.
  by rewrite (decimal_value_int neg _ n) by (try apply dec_of_nonneg_value; done).
Qed.

Lemma parse_number_int z r :
  safe_int z -> number_ends r -> parse_number (dec_of_Z z ++ r) = Some (JNum (num z), r).
Proof.
  intros Hz Hr. unfold dec_of_Z. unfold safe_int in Hz. destruct (Z.ltb_spec z 0).
  - change (45 :: dec_of_nonneg (- z)) with ([45] ++ dec_of_nonneg (- z)). rewrite <- app_assoc.
    rewrite (parse_number_digits true) by (done || unfold safe_int; lia). by rewrite Z.opp_involutive.
  - apply (parse_number_digits false); [done..|done].
Qed.

(** First unit of the text of an integer. *)
Lemma dec_of_Z_head z : exists c r, dec_of_Z z = c :: r /\ (c = 45 \/ 48 <= c <= 57).
Proof.
  unfold dec_of_Z. destruct (Z.ltb_spec z 0); [eauto|].
  destruct (Z.eq_dec z 0) as [->|Hne]; [exists 48, []; split; [done|lia]|].
  destruct (dec_of_nonneg_head z) as (c & r & E & Hc); [lia|]. exists c, r. split; [done|lia].
Qed.

Lemma strip_prefix_head p s c :
  head s = Some c -> head p <> Some c -> p <> [] -> strip_prefix p s = None.
Proof.
  destruct s as [|d s]; [done|]. destruct p as [|e p]; [done|]. intros [= ->] Hp _.
  unfold strip_prefix. simpl. destruct (Z.eqb_spec e c) as [->|]; [done|done].
Qed.

Lemma strip_prefix_app p r : strip_prefix p (p ++ r) = Some r.
Proof.
  unfold strip_prefix. assert (starts_with p (p ++ r) = true) as -> by (apply starts_with_spec; eauto).
  by rewrite drop_app_length.
Qed.

Lemma parse_literal_int z r :
  safe_int z -> number_ends r -> parse_literal (dec_of_Z z ++ r) = Some (JNum (num z), r).
Proof.
  intros Hz Hr. unfold parse_literal. destruct (dec_of_Z_head z) as (c & d & E & Hc).
  assert (head (dec_of_Z z ++ r) = Some c) as Hh by by rewrite E.
  rewrite !(fun p => strip_prefix_head p _ c Hh) by
    (first [ by vm_compute | intros [= Hx]; vm_compute in Hx; lia ]).
  by apply parse_number_int.
Qed.

(** ** Round trip *)

Definition spaces (w : jstr) : Prop := Forall (fun c => is_json_space c = true) w.

Lemma skip_ws_spaces w s : spaces w -> skip_ws (w ++ s) = skip_ws s.
Proof. apply drop_while_app_all. Qed.

Lemma skip_ws_cons c s : is_json_space c = false -> skip_ws (c :: s) = c :: s.
Proof. intros H. unfold skip_ws. simpl. by rewrite H. Qed.

Lemma parse_value_spaces f w s : spaces w -> parse_value f (w ++ s) = parse_value f s.
Proof. intros Hw. destruct f as [|f]; [done|]. cbn [parse_value]. by rewrite skip_ws_spaces. Qed.

Lemma list_sum_cons x l : list_sum (x :: l) = (x + list_sum l)%nat.
Proof. done. Qed.

(** Fuel one value needs. *)
Fixpoint jcost (v : jval) : nat :=
  match v with
  | JArr l => S (list_sum (map (fun x => S (jcost x)) l))
  | JObj o => S (list_sum (map (fun kv => S (jcost kv.2)) o))
  | _ => 1
  end.

(** The shape of a non-empty block: opening unit, white space, the parts
    separated by commas and white space, white space, closing unit. *)
Lemma json_block_shape gap ind o c parts :
  spaces gap -> spaces ind -> parts <> [] ->
  exists w1 w2, spaces w1 /\ spaces w2 /\
    json_block gap ind o c parts = o :: w1 ++ join_with (44 :: w1) parts ++ w2 ++ [c].
Proof.
  intros Hg Hi Hne. destruct parts as [|p ps]; [done|]. unfold json_block.
  destruct gap as [|g gap].
  - exists [], []. repeat split; constructor.
  - exists (10 :: ind ++ g :: gap), (10 :: ind). unfold spaces in *.
    split; [constructor; [done|by apply Forall_app]|]. split; [by constructor|done].
Qed.

Lemma json_colon_shape gap : exists w, spaces w /\ json_colon gap = 58 :: w.
Proof.
  destruct gap; [exists []|exists [32]]; (split; [repeat constructor|done]).
Qed.

(** The first unit of serialised text. *)
Lemma json_ser_head gap ind v t :
  json_okb v = true -> json_ser gap ind v = Some t ->
  exists c r, t = c :: r /\ is_json_space c = false /\ c <> 93 /\ c <> 125 /\ c < 128.
Proof.
  assert (forall o c parts, exists r, json_block gap ind o c parts = o :: r) as Hb.
  { intros o c [|p ps]; simpl; eauto. }
  destruct v as [| |[]|n|s|l|o]; simpl; intros Hok [= <-].
  - by eexists _, _.
  - by eexists _, _.
  - by eexists _, _.
  - destruct n as [| |q]; [done..|]. unfold num_okb in Hok. bool_to_prop.
    change (num_to_string (Fin q)) with (num_to_string (Fin q)).
    unfold num_to_string. simpl num_is_finite. cbv iota.
    destruct (Z.leb_spec (Z.abs (Qnum q)) (2 ^ 53)); [|lia].
    assert ((Z.pos (Qden q) =? 1) = true) as -> by by apply Z.eqb_eq. simpl.
    destruct (dec_of_Z_head (Qnum q)) as (c & r & -> & Hc). exists c, r.
    split; [done|]. unfold is_json_space.
    repeat match goal with |- context [?a =? ?b] => destruct (Z.eqb_spec a b); [lia|] end.
    simpl. split; [done|lia].
  - by eexists _, _.
  - edestruct Hb as [r ->]. by eexists _, _.
  - edestruct Hb as [r ->]. by eexists _, _.
Qed.

Lemma json_ser_some gap ind v : json_okb v = true -> exists t, json_ser gap ind v = Some t.
Proof. destruct v; simpl; eauto. done. Qed.

(** Serialised text followed by [rest] parses back, for one value. *)
Definition reads_back (gap : jstr) (v : jval) : Prop :=
  forall ind t rest fuel,
    spaces ind -> json_ser gap ind v = Some t -> number_ends rest -> (jcost v <= fuel)%nat ->
    parse_value fuel (t ++ rest) = Some (v, rest).

Definition ser_or_null (gap ind : jstr) (x : jval) : jstr :=
  match json_ser gap ind x with Some t => t | None => js "null" end.

Lemma json_ser_arr gap ind l :
  json_ser gap ind (JArr l) = Some (json_block gap ind 91 93 (map (ser_or_null gap (ind ++ gap)) l)).
Proof. done. Qed.

Lemma spaces_ends w c r :
  spaces w -> c = 44 \/ c = 93 \/ c = 125 -> number_ends (w ++ c :: r).
Proof.
  intros Hw Hc. destruct Hw as [|x w Hx _]; simpl.
  - unfold is_digit. destruct Hc as [->|[-> | ->]]; simpl; repeat split; lia.
  - unfold is_json_space in Hx. unfold is_digit.
    assert (x = 9 \/ x = 10 \/ x = 13 \/ x = 32) as [->|[-> |[-> | ->]]]; [|simpl; repeat split; lia..].
    repeat match goal with H : _ || _ = true |- _ => apply orb_true_iff in H as [H|H] end;
      apply Z.eqb_eq in Hx; lia.
Qed.

Lemma parse_elements_back gap ind w1 w2 l acc rest fuel :
  spaces ind -> spaces w1 -> spaces w2 -> l <> [] ->
  Forall (fun v => json_okb v = true) l -> Forall (reads_back gap) l ->
  (list_sum (map (fun x => S (jcost x)) l) <= fuel)%nat ->
  parse_elements fuel (join_with (44 :: w1) (map (ser_or_null gap ind) l) ++ w2 ++ 93 :: rest) acc
  = Some (JArr (acc ++ l), rest).
Proof.
  intros Hi H1 H2. revert acc fuel. induction l as [|x l IH]; intros acc fuel Hne Hok Hback Hf; [done|].
  inversion Hok as [|? ? Hx Hok']; subst. inversion Hback as [|? ? Bx Hback']; subst.
  destruct (json_ser_some gap ind x Hx) as [t Ht]. rewrite map_cons, list_sum_cons in Hf.
  destruct fuel as [|f]; [lia|]. cbn [parse_elements map].
  unfold ser_or_null at 1. rewrite Ht.
  destruct l as [|y l].
  - cbn [join_with map]. rewrite (Bx ind) by (done || (apply spaces_ends; eauto) || lia).
    simpl. rewrite skip_ws_spaces by done. done.
  - change (join_with (44 :: w1) (t :: map (ser_or_null gap ind) (y :: l)))
      with (t ++ (44 :: w1) ++ join_with (44 :: w1) (map (ser_or_null gap ind) (y :: l))).
    rewrite <- !app_assoc. cbn [app].
    rewrite (Bx ind) by (done || (apply (spaces_ends []); [constructor|eauto]) || lia).
    mred. rewrite skip_ws_cons by done. change (44 =? 44) with true. cbv iota.
    rewrite map_cons, list_sum_cons in Hf. destruct f as [|f]; [lia|].
    assert (list_sum (map (fun x0 => S (jcost x0)) (y :: l)) <= S f)%nat as Hf' by (rewrite map_cons, list_sum_cons; lia).
    transitivity (parse_elements (S f)
      (join_with (44 :: w1) (map (ser_or_null gap ind) (y :: l)) ++ w2 ++ 93 :: rest) (acc ++ [x])).
    + cbn [parse_elements]. by rewrite parse_value_spaces.
    + rewrite IH; [by rewrite <- app_assoc|done..|]. lia.
Qed.

(** The text of one member. *)
Definition ser_member (gap ind : jstr) (kv : jstr * jval) : list jstr :=
  match json_ser gap ind kv.2 with
  | Some t => [json_quote kv.1 ++ json_colon gap ++ t]
  | None => []
  end.

Lemma json_ser_obj gap ind o :
  json_ser gap ind (JObj o) = Some (json_block gap ind 123 125 (flat_map (ser_member gap (ind ++ gap)) o)).
Proof. done. Qed.

Definition member_ok (kv : jstr * jval) : Prop := Forall unit_ok kv.1 /\ json_okb kv.2 = true.

Lemma ser_member_some gap ind kv :
  member_ok kv -> exists t, json_ser gap ind kv.2 = Some t /\
    ser_member gap ind kv = [json_quote kv.1 ++ json_colon gap ++ t].
Proof.
  intros [_ Hv]. destruct (json_ser_some gap ind kv.2 Hv) as [t Ht]. exists t.
  unfold ser_member. by rewrite Ht.
Qed.

Lemma parse_members_spaces f w s acc : spaces w -> parse_members f (w ++ s) acc = parse_members f s acc.
Proof. intros Hw. destruct f as [|f]; [done|]. cbn [parse_members]. by rewrite skip_ws_spaces. Qed.

(** One member: its key, colon and value are consumed. *)
Lemma parse_member_step gap ind k v t s f acc :
  spaces gap -> spaces ind -> Forall unit_ok k -> reads_back gap v ->
  json_ser gap ind v = Some t -> number_ends s -> (jcost v <= f)%nat ->
  parse_members (S f) ((json_quote k ++ json_colon gap ++ t) ++ s) acc =
  match skip_ws s with
  | [] => None
  | c :: r =>
    if c =? 44 then parse_members f r (obj_set k v acc)
    else if c =? 125 then Some (JObj (obj_set k v acc), r)
    else None
  end.
Proof.
  intros Hg Hi Hk Hv Ht Hs Hf. unfold json_quote. destruct (json_colon_shape gap) as (w & Hw & ->).
  cbn [parse_members app]. rewrite <- !app_assoc. rewrite skip_ws_cons by done.
  change (34 =? 34) with true. cbv iota. cbn [app].
  rewrite parse_string_quote by done. mred. rewrite skip_ws_cons by done.
  change (58 =? 58) with true. cbv iota. rewrite <- app_assoc, parse_value_spaces by done.
  by rewrite (Hv ind) by done.
Qed.

Lemma parse_members_back gap ind w1 w2 o acc rest fuel :
  spaces gap -> spaces ind -> spaces w1 -> spaces w2 -> o <> [] ->
  Forall member_ok o -> Forall (fun kv => reads_back gap kv.2) o -> NoDup (acc.*1 ++ o.*1) ->
  (list_sum (map (fun kv => S (jcost kv.2)) o) <= fuel)%nat ->
  parse_members fuel (join_with (44 :: w1) (flat_map (ser_member gap ind) o) ++ w2 ++ 125 :: rest) acc
  = Some (JObj (acc ++ o), rest).
Proof.
  intros Hg Hi H1 H2. revert acc fuel. induction o as [|[k v] o IH]; intros acc fuel Hne Hok Hback Hnd Hf; [done|].
  inversion Hok as [|? ? Hx Hok']; subst. inversion Hback as [|? ? Bx Hback']; subst.
  destruct (ser_member_some gap ind (k, v) Hx) as (t & Ht & Hm). destruct Hx as [Hk Hv]. cbn [fst snd] in *.
  rewrite map_cons, list_sum_cons in Hf. cbn [snd] in Hf. destruct fuel as [|f]; [lia|].
  assert (obj_set k v acc = acc ++ [(k, v)]) as Hset.
  { apply obj_set_fresh. cbn [fmap list_fmap fst] in Hnd. apply NoDup_app in Hnd as (_ & Hd & _).
    intros Hin. apply (Hd k Hin). left. }
  cbn [flat_map]. rewrite Hm. cbn [app]. destruct o as [|kv' o].
  - cbn [flat_map join_with].
    rewrite (parse_member_step gap ind k v t) by
      (done || (apply spaces_ends; eauto) || lia).
    rewrite skip_ws_spaces, skip_ws_cons by done. change (125 =? 44) with false.
    change (125 =? 125) with true. cbv iota. by rewrite Hset.
  - inversion Hok' as [|? ? Hx' _]; subst. destruct (ser_member_some gap ind kv' Hx') as (t' & _ & Hm').
    assert (exists p ps, flat_map (ser_member gap ind) (kv' :: o) = p :: ps) as (p & ps & Ep).
    { cbn [flat_map]. rewrite Hm'. by eexists _, _. }
    rewrite Ep.
    change (join_with (44 :: w1) ((json_quote k ++ json_colon gap ++ t) :: p :: ps))
      with ((json_quote k ++ json_colon gap ++ t) ++ (44 :: w1) ++ join_with (44 :: w1) (p :: ps)).
    rewrite <- Ep. rewrite <- app_assoc.
    rewrite (parse_member_step gap ind k v t) by
      (done || (apply (spaces_ends []); [constructor|eauto]) || lia).
    cbn [app]. rewrite skip_ws_cons by done. change (44 =? 44) with true. cbv iota.
    rewrite <- app_assoc, parse_members_spaces by done. rewrite Hset.
    rewrite IH; [by rewrite <- app_assoc|done..| |].
    + rewrite fmap_app. cbn [fmap list_fmap fst]. by rewrite <- app_assoc.
    + lia.
Qed.

Lemma forallb_units s : forallb unit_okb s = true <-> Forall unit_ok s.
Proof.
  rewrite forallb_forall, Forall_forall. unfold unit_okb, unit_ok.
  split; intros H x Hx; specialize (H x); rewrite list_elem_of_In in *; specialize (H Hx);
    rewrite ?andb_true_iff, ?Z.leb_le, ?Z.ltb_lt in *; lia.
Qed.

Lemma forallb_Forall' {A} (f : A -> bool) l : forallb f l = true <-> Forall (fun x => f x = true) l.
Proof.
  rewrite forallb_forall, Forall_forall. split; intros H x Hx; apply H; by apply list_elem_of_In.
Qed.

Lemma num_okb_int q : num_okb (Fin q) = true -> Fin q = num (Qnum q) /\ safe_int (Qnum q).
Proof.
  unfold num_okb. intros H. bool_to_prop. unfold safe_int, num. split; [|done].
  destruct q as [n d]. simpl in *. f_equal. f_equal. lia.
Qed.

Lemma reads_back_all gap v : spaces gap -> json_okb v = true -> reads_back gap v.
Proof.
  intros Hg. induction v as [| |b|n|s|l IH|o IH] using jval_ind; intros Hok ind t rest fuel Hi Ht Hr Hf;
    try done; (destruct fuel as [|f]; [simpl in Hf; lia|]).
  - injection Ht as <-. done.
  - injection Ht as <-. by destruct b.
  - destruct n as [| |q]; [done..|].
    assert (t = num_to_string (Fin q)) as -> by by (injection Ht as <-).
    apply num_okb_int in Hok as [Eq Hs]. rewrite Eq, (num_to_string_int (Qnum q)) by done.
    destruct (dec_of_Z_head (Qnum q)) as (c & d & E & Hc).
    cbn [parse_value]. rewrite E. cbn [app]. rewrite skip_ws_cons.
    2: { unfold is_json_space.
         repeat match goal with |- context [?a =? ?b] => destruct (Z.eqb_spec a b); [lia|] end. done. }
    destruct (Z.eqb_spec c 34); [lia|]. destruct (Z.eqb_spec c 91); [lia|].
    destruct (Z.eqb_spec c 123); [lia|]. change (c :: d ++ rest) with ((c :: d) ++ rest).
    rewrite <- E. by apply parse_literal_int.
  - injection Ht as <-. unfold json_quote. cbn [parse_value app]. rewrite skip_ws_cons by done.
    change (34 =? 34) with true. cbv iota. rewrite <- app_assoc. cbn [app].
    simpl in Hok. by rewrite parse_string_quote by by apply forallb_units.
  - rewrite json_ser_arr in Ht. injection Ht as <-. simpl in Hok. apply forallb_Forall' in Hok.
    destruct l as [|x l]; [done|].
    assert (spaces (ind ++ gap)) as Hi' by by apply Forall_app.
    destruct (json_block_shape gap ind 91 93 (map (ser_or_null gap (ind ++ gap)) (x :: l)))
      as (w1 & w2 & Hw1 & Hw2 & E); [done..|].
    rewrite E. cbn [app parse_value].
    rewrite skip_ws_cons by done. change (91 =? 34) with false. change (91 =? 91) with true. cbv iota.
    rewrite <- !app_assoc. rewrite skip_ws_spaces by done. cbn [app].
    set (body := join_with (44 :: w1) (map (ser_or_null gap (ind ++ gap)) (x :: l)) ++ w2 ++ 93 :: rest).
    assert (exists c r, body = c :: r /\ is_json_space c = false /\ c <> 93) as (c & r & Eb & Hc & Hne).
    { inversion Hok as [|? ? Hx _]; subst.
      destruct (json_ser_some gap (ind ++ gap) x Hx) as [t Ht].
      destruct (json_ser_head _ _ _ _ Hx Ht) as (c & r & -> & H1 & H2 & _).
      unfold body. cbn [map]. unfold ser_or_null at 1. rewrite Ht. exists c.
      destruct l; cbn [map join_with app]; eauto. }
    rewrite Eb, skip_ws_cons by done. destruct (Z.eqb_spec c 93); [done|]. rewrite <- Eb.
    unfold body. rewrite (parse_elements_back gap (ind ++ gap)); [done|done..| | |].
    + done.
    + rewrite Forall_forall in *. intros v Hv. apply IH; [done|]. by apply Hok.
    + simpl in Hf |- *. lia.
  - rewrite json_ser_obj in Ht. injection Ht as <-. simpl in Hok. apply andb_true_iff in Hok as [Hnd Hok].
    apply bool_decide_eq_true in Hnd. apply forallb_Forall' in Hok.
    assert (Forall member_ok o) as Hm.
    { eapply Forall_impl; [exact Hok|]. intros kv Hkv. cbv beta in Hkv. apply andb_true_iff in Hkv as [Hk Hv].
      split; [by apply forallb_units|done]. }
    destruct o as [|kv o]; [done|].
    assert (spaces (ind ++ gap)) as Hi' by by apply Forall_app.
    inversion Hm as [|? ? Hx _]; subst.
    destruct (ser_member_some gap (ind ++ gap) kv Hx) as (t1 & _ & Em).
    assert (exists p ps, flat_map (ser_member gap (ind ++ gap)) (kv :: o) = (34 :: p) :: ps) as (p & ps & Ep).
    { cbn [flat_map]. rewrite Em. unfold json_quote. cbn [app]. by eexists _, _. }
    destruct (json_block_shape gap ind 123 125 (flat_map (ser_member gap (ind ++ gap)) (kv :: o)))
      as (w1 & w2 & Hw1 & Hw2 & E); [done|done|by rewrite Ep|].
    rewrite E. cbn [app parse_value].
    rewrite skip_ws_cons by done. change (123 =? 34) with false. change (123 =? 91) with false.
    change (123 =? 123) with true. cbv iota.
    rewrite <- !app_assoc. rewrite skip_ws_spaces by done. cbn [app].
    set (body := join_with (44 :: w1) (flat_map (ser_member gap (ind ++ gap)) (kv :: o)) ++ w2 ++ 125 :: rest).
    assert (exists r, body = 34 :: r) as (r & Eb).
    { unfold body. rewrite Ep. destruct ps; cbn [join_with app]; by eexists. }
    rewrite Eb, skip_ws_cons by done. change (34 =? 125) with false. cbv iota. rewrite <- Eb.
    unfold body. rewrite (parse_members_back gap (ind ++ gap)); [done|done..| | | |].
    + done.
    + rewrite Forall_forall in *. intros v Hv. apply IH; [done|]. by apply Hm.
    + done.
    + simpl in Hf |- *. lia.
Qed.

(** The text of a block is longer than its parts. *)
Lemma join_with_length sep l : (list_sum (map length l) <= length (join_with sep l))%nat.
Proof.
  induction l as [|x [|y l] IH]; [done|simpl; lia|].
  change (join_with sep (x :: y :: l)) with (x ++ sep ++ join_with sep (y :: l)).
  rewrite !length_app, map_cons, list_sum_cons. lia.
Qed.

Lemma join_with_length_comma w l :
  l <> [] -> (list_sum (map length l) + length l <= length (join_with (44%Z :: w) l) + 1)%nat.
Proof.
  intros Hne. induction l as [|x [|y l] IH]; [done|simpl; lia|].
  change (join_with (44 :: w) (x :: y :: l)) with (x ++ (44 :: w) ++ join_with (44 :: w) (y :: l)).
  rewrite !length_app, map_cons, list_sum_cons. specialize (IH ltac:(done)). simpl length in *. lia.
Qed.

Lemma json_block_length gap ind o c parts :
  spaces gap -> spaces ind ->
  (list_sum (map length parts) + length parts + 1 <= length (json_block gap ind o c parts))%nat.
Proof.
  intros Hg Hi. destruct parts as [|p ps]; [simpl; lia|].
  destruct (json_block_shape gap ind o c (p :: ps)) as (w1 & w2 & _ & _ & ->); [done..|].
  simpl length at 3. rewrite !length_app.
  pose proof (join_with_length_comma w1 (p :: ps) ltac:(done)). simpl length in *. lia.
Qed.

Lemma list_sum_le {A} (f g : A -> nat) l :
  Forall (fun x => f x <= g x)%nat l -> (list_sum (map f l) <= list_sum (map g l))%nat.
Proof. induction 1; [done|]. rewrite !map_cons, !list_sum_cons. lia. Qed.

Lemma list_sum_S {A} (f : A -> nat) l : list_sum (map (fun x => S (f x)) l) = (list_sum (map f l) + length l)%nat.
Proof. induction l; [done|]. rewrite !map_cons, !list_sum_cons. simpl. lia. Qed.

Lemma list_sum_double {A} (f : A -> nat) l : list_sum (map (fun x => 2 * f x)%nat l) = (2 * list_sum (map f l))%nat.
Proof. induction l; [done|]. rewrite !map_cons, !list_sum_cons. lia. Qed.

Lemma jcost_length gap v : spaces gap -> forall ind t,
  json_okb v = true -> spaces ind -> json_ser gap ind v = Some t -> (jcost v <= 2 * length t)%nat.
Proof.
  intros Hg. induction v as [| |b|n|s|l IH|o IH] using jval_ind; intros ind t Hok Hi Ht; [done|..].
  1-4: destruct (json_ser_head gap ind _ t Hok Ht) as (c & r & -> & _); cbn [jcost length]; lia.
  - rewrite json_ser_arr in Ht. injection Ht as <-. simpl in Hok. apply forallb_Forall' in Hok.
    assert (spaces (ind ++ gap)) as Hi' by by apply Forall_app.
    pose proof (json_block_length gap ind 91 93 (map (ser_or_null gap (ind ++ gap)) l) Hg Hi) as Hb.
    rewrite map_map, length_map in Hb. cbn [jcost]. rewrite list_sum_S.
    assert (list_sum (map jcost l) <= 2 * list_sum (map (fun x => length (ser_or_null gap (ind ++ gap) x)) l))%nat; [|lia].
    rewrite <- list_sum_double. apply list_sum_le. rewrite Forall_forall in *. intros x Hx.
    destruct (json_ser_some gap (ind ++ gap) x) as [t Ht]; [by apply Hok|].
    unfold ser_or_null. rewrite Ht. eapply (IH x Hx); eauto.
  - rewrite json_ser_obj in Ht. injection Ht as <-. simpl in Hok. apply andb_true_iff in Hok as [_ Hok].
    apply forallb_Forall' in Hok. assert (spaces (ind ++ gap)) as Hi' by by apply Forall_app.
    pose proof (json_block_length gap ind 123 125 (flat_map (ser_member gap (ind ++ gap)) o) Hg Hi) as Hb.
    cbn [jcost]. rewrite list_sum_S.
    assert (2 * list_sum (map length (flat_map (ser_member gap (ind ++ gap)) o)) >= list_sum (map (fun kv => jcost kv.2) o)
            /\ length (flat_map (ser_member gap (ind ++ gap)) o) = length o)%nat as [H1 H2]; [clear Hb|lia].
    induction o as [|kv o IHo]; [simpl; lia|].
    inversion IH as [|? ? Hv IH']; subst. inversion Hok as [|? ? Hkv Hok']; subst. cbv beta in Hkv.
    apply andb_true_iff in Hkv as [Hk Hkv].
    destruct (ser_member_some gap (ind ++ gap) kv) as (t & Ht & Hm); [by split; [apply forallb_units|]|].
    cbn [flat_map]. rewrite Hm. cbn [app]. rewrite !map_cons, !list_sum_cons. simpl length at 3.
    destruct (IHo IH' Hok') as [H1 H2]. specialize (Hv _ _ Hkv Hi' Ht). rewrite !length_app. simpl. lia.
Qed.

Lemma json_parse_ser gap v t :
  spaces gap -> json_okb v = true -> json_ser gap [] v = Some t -> json_parse t = Ok v.
Proof.
  intros Hg Hok Ht. unfold json_parse, json_fuel.
  pose proof (jcost_length gap v Hg [] t Hok ltac:(constructor) Ht) as Hc.
  rewrite <- (app_nil_r t) at 2.
  rewrite (reads_back_all gap v Hg Hok [] t) by (done || constructor || lia). done.
Qed.

Lemma json_stringify_roundtrip v : json_okb v = true -> json_parse (json_stringify v) = Ok v.
Proof.
  intros Hok. destruct (json_ser_some [] [] v Hok) as [t Ht]. unfold json_stringify. rewrite Ht.
  by apply (json_parse_ser [] v); [constructor|..].
Qed.

Lemma json_indent_roundtrip n v : json_okb v = true -> json_parse (json_stringify_indent n v) = Ok v.
Proof.
  intros Hok. destruct (json_ser_some (replicate n 32) [] v Hok) as [t Ht].
  unfold json_stringify_indent. rewrite Ht.
  apply (json_parse_ser (replicate n 32) v); [|done..].
  apply Forall_forall. intros c Hc. by apply elem_of_replicate in Hc as [-> _].
Qed.

(** ** The parser's fuel *)

Lemma drop_while_length f s : (length (drop_while f s) <= length s)%nat.
Proof. induction s as [|c s IH]; simpl; [lia|]. destruct (f c); simpl; lia. Qed.

Lemma parse_string_length s t r : parse_string s = Some (t, r) -> (length r < length s)%nat.
Proof.
  remember (length s) as n eqn:Hn. revert s t r Hn.
  induction (lt_wf n) as [n _ IH]. intros s t r ->. destruct s as [|c s]; [done|].
  assert (forall u s' t r, (length s' < length (c :: s))%nat ->
            cons_unit u (parse_string s') = Some (t, r) -> (length r < length (c :: s))%nat) as Hstep.
  { intros u s' t' r' Hl. unfold cons_unit. destruct (parse_string s') as [[t1 r1]|] eqn:E; [|done].
    intros [= _ <-]. pose proof (IH _ Hl s' t1 r1 eq_refl E). lia. }
  cbn [parse_string]. destruct (c =? 34); [intros [= <- <-]; simpl; lia|].
  destruct (c =? 92).
  - destruct s as [|e r1]; [done|]. destruct (e =? 117).
    + destruct r1 as [|h1 [|h2 [|h3 [|h4 r2]]]]; [done..|].
      destruct (hex4 h1 h2 h3 h4) as [u|]; [|done]. apply (Hstep u). simpl; lia.
    + destruct (simple_escape e) as [u|]; [|done]. apply (Hstep u). simpl; lia.
  - destruct (c <? 32); [done|]. apply (Hstep c). simpl; lia.
Qed.

Lemma span_length p s a b : span p s = (a, b) -> length s = (length a + length b)%nat.
Proof.
  revert a b. induction s as [|c s IH]; intros a b; simpl; [intros [= <- <-]; done|].
  destruct (p c); [|intros [= <- <-]; done]. destruct (span p s) as [a' b'] eqn:E. intros [= <- <-].
  rewrite (IH a' b') by done. simpl. lia.
Qed.

Lemma scan_fraction_length s f r : scan_fraction s = Some (f, r) -> (length r <= length s)%nat.
Proof.
  destruct s as [|c s]; simpl; [intros [= _ <-]; done|]. destruct (c =? 46); [|intros [= _ <-]; done].
  destruct (span is_digit s) as [[|d a] b] eqn:E; [done|]. intros [= _ <-].
  apply span_length in E. simpl in E. lia.
Qed.

Lemma scan_exponent_length s e r : scan_exponent s = Some (e, r) -> (length r <= length s)%nat.
Proof.
  destruct s as [|c s]; cbn [scan_exponent]; [intros [= _ <-]; done|].
  destruct ((c =? 101) || (c =? 69)); [|intros [= _ <-]; done].
  set (p := match s with 45 :: r' => (true, r') | 43 :: r' => (false, r') | _ => (false, s) end).
  assert (length p.2 <= length s)%nat as Hp by (subst p; repeat break_match; simpl; lia).
  destruct p as [neg r1]. cbn [snd] in Hp. destruct (span is_digit r1) as [[|d a] b] eqn:E; [done|].
  intros [= _ <-]. apply span_length in E. simpl in *. lia.
Qed.

Lemma parse_literal_length s v r : parse_literal s = Some (v, r) -> (length r < length s)%nat.
Proof.
  assert (forall p, (0 < length p)%nat -> strip_prefix p s = Some r -> (length r < length s)%nat) as Hp.
  { intros p Hlp. unfold strip_prefix. destruct (starts_with p s) eqn:E; [|done].
    intros [= <-]. apply starts_with_spec in E as [q ->]. rewrite drop_app_length, length_app. lia. }
  unfold parse_literal.
  destruct (strip_prefix (js "null") s) eqn:E1; [intros [= _ ->]; by apply (Hp (js "null")); [vm_compute; lia|]|].
  destruct (strip_prefix (js "true") s) eqn:E2; [intros [= _ ->]; by apply (Hp (js "true")); [vm_compute; lia|]|].
  destruct (strip_prefix (js "false") s) eqn:E3; [intros [= _ ->]; by apply (Hp (js "false")); [vm_compute; lia|]|].
  unfold parse_number. destruct (strip_minus s) as [neg r0] eqn:Em.
  assert (length r0 <= length s)%nat 
    by (destruct s as [|z s]; simpl in Em; [|destruct (z =? 45)]; injection Em as <- <-; simpl; lia).
  destruct (span is_digit r0) as [ip r1] eqn:Es. apply span_length in Es.
  destruct ip as [|c ip]; [done|]. destruct (int_part_ok (c :: ip)); [|done].
  destruct (scan_fraction r1) as [[fp r2]|] eqn:Ef; [|done]. mred.
  destruct (scan_exponent r2) as [[e r3]|] eqn:Ee; [|done]. mred. intros [= _ <-].
  apply scan_fraction_length in Ef. apply scan_exponent_length in Ee. simpl in *. lia.
Qed.

Lemma skip_ws_length s : (length (skip_ws s) <= length s)%nat.
Proof. apply drop_while_length. Qed.

(** Every parser consumes text. *)
Lemma parse_consumes f :
  (forall s v r, parse_value f s = Some (v, r) -> (length r < length s)%nat) /\
  (forall s acc v r, parse_elements f s acc = Some (v, r) -> (length r < length s)%nat) /\
  (forall s acc v r, parse_members f s acc = Some (v, r) -> (length r < length s)%nat).
Proof.
  induction f as [|f (IHv & IHe & IHm)]; [done|]. split_and!.
  - intros s v r. cbn [parse_value]. pose proof (skip_ws_length s) as Hs.
    destruct (skip_ws s) as [|c s1] eqn:E1; [done|]. simpl in Hs. pose proof (skip_ws_length s1) as Hs1.
    destruct (c =? 34).
    { destruct (parse_string s1) as [[t r1]|] eqn:E; [|done]. intros [= _ <-].
      apply parse_string_length in E. lia. }
    destruct (c =? 91).
    { destruct (skip_ws s1) as [|c' s2]; [done|]. destruct (c' =? 93); [intros [= _ <-]; simpl in *; lia|].
      intros H%IHe. simpl in *. lia. }
    destruct (c =? 123).
    { destruct (skip_ws s1) as [|c' s2]; [done|]. destruct (c' =? 125); [intros [= _ <-]; simpl in *; lia|].
      intros H%IHm. simpl in *. lia. }
    intros H%parse_literal_length. simpl in *. lia.
  - intros s acc v r. cbn [parse_elements]. destruct (parse_value f s) as [[x r1]|] eqn:E; [|done].
    apply IHv in E. mred. pose proof (skip_ws_length r1) as Hr. destruct (skip_ws r1) as [|c r2]; [done|].
    simpl in Hr. destruct (c =? 44); [intros H%IHe; lia|]. destruct (c =? 93); [intros [= _ <-]; lia|done].
  - intros s acc v r. cbn [parse_members]. pose proof (skip_ws_length s) as Hs.
    destruct (skip_ws s) as [|q r0]; [done|]. simpl in Hs. destruct (q =? 34); [|done].
    destruct (parse_string r0) as [[k r1]|] eqn:Ek; [|done]. apply parse_string_length in Ek. mred.
    pose proof (skip_ws_length r1) as Hr1. destruct (skip_ws r1) as [|c1 r2]; [done|]. simpl in Hr1.
    destruct (c1 =? 58); [|done]. destruct (parse_value f r2) as [[x r3]|] eqn:E; [|done].
    apply IHv in E. mred. pose proof (skip_ws_length r3) as Hr3. destruct (skip_ws r3) as [|c r4]; [done|].
    simpl in Hr3. destruct (c =? 44); [intros H%IHm; lia|]. destruct (c =? 125); [intros [= _ <-]; lia|done].
Qed.

(** More fuel than twice the text changes nothing. *)
Lemma parse_stable n :
  (forall f s, (2 * length s < n -> n <= f -> parse_value f s = parse_value n s)%nat) /\
  (forall f s acc, (2 * length s + 1 < n -> n <= f -> parse_elements f s acc = parse_elements n s acc)%nat) /\
  (forall f s acc, (2 * length s + 1 < n -> n <= f -> parse_members f s acc = parse_members n s acc)%nat).
Proof.
  induction n as [|n (IHv & IHe & IHm)]; [split_and!; intros; lia|]. split_and!.
  - intros [|f] s Hl Hf; [lia|]. cbn [parse_value]. pose proof (skip_ws_length s) as Hs.
    destruct (skip_ws s) as [|c s1] eqn:E1; [done|]. simpl in Hs. pose proof (skip_ws_length s1) as Hs1.
    destruct (c =? 34); [done|]. destruct (c =? 91).
    { destruct (skip_ws s1) as [|c' s2]; [done|]. destruct (c' =? 93); [done|]. simpl in Hs1.
      apply IHe; simpl; lia. }
    destruct (c =? 123); [|done].
    destruct (skip_ws s1) as [|c' s2]; [done|]. destruct (c' =? 125); [done|]. simpl in Hs1.
    apply IHm; simpl; lia.
  - intros [|f] s acc Hl Hf; [lia|]. cbn [parse_elements]. rewrite (IHv f s) by lia.
    destruct (parse_value n s) as [[x r1]|] eqn:E; [|done]. apply parse_consumes in E. mred.
    pose proof (skip_ws_length r1) as Hr. destruct (skip_ws r1) as [|c r2]; [done|]. simpl in Hr.
    destruct (c =? 44); [|done]. apply IHe; lia.
  - intros [|f] s acc Hl Hf; [lia|]. cbn [parse_members].
    pose proof (skip_ws_length s) as Hs.
    destruct (skip_ws s) as [|q r0]; [done|]. simpl in Hs. destruct (q =? 34); [|done].
    destruct (parse_string r0) as [[k r1]|] eqn:Ek; [|done]. apply parse_string_length in Ek. mred.
    pose proof (skip_ws_length r1) as Hr1. destruct (skip_ws r1) as [|c1 r2]; [done|]. simpl in Hr1.
    destruct (c1 =? 58); [|done]. rewrite (IHv f r2) by lia.
    destruct (parse_value n r2) as [[x r3]|] eqn:E; [|done]. apply parse_consumes in E. mred.
    pose proof (skip_ws_length r3) as Hr3. destruct (skip_ws r3) as [|c r4]; [done|]. simpl in Hr3.
    destruct (c =? 44); [|done]. apply IHm; lia.
Qed.

Lemma parse_value_fuel f s : (json_fuel s <= f)%nat -> parse_value f s = parse_value (json_fuel s) s.
Proof.
  unfold json_fuel. intros Hf. by apply parse_stable; [lia|].
Qed.

(** ** The text is well-formed UTF-16 *)

(** Strings of 16-bit units without lone surrogates. *)
Definition wf_text (s : jstr) : Prop := Forall unit_ok s /\ is_well_formed s = true.

Lemma wf_app s t : wf_text s -> wf_text t -> wf_text (s ++ t).
Proof.
  intros [Us Ws] [Ut Wt]. split; [by apply Forall_app|]. clear Us Ut.
  induction s as [|h|h l s IH1 IH2] using str_ind2; [done| |].
  - simpl in Ws. cbn [app]. destruct t as [|x t]; [done|]. rewrite is_well_formed_cons2.
    destruct (is_high h); [done|]. by destruct (is_low h).
  - cbn [app]. rewrite is_well_formed_cons2 in *.
    destruct (is_high h); [destruct (is_low l); [by apply IH1|done]|].
    destruct (is_low h); [done|]. by apply IH2.
Qed.

Lemma wf_ascii s : Forall (fun c => 0 <= c < 128) s -> wf_text s.
Proof. intros Hs. split; [by apply ascii_units|by apply ascii_well_formed]. Qed.

Lemma wf_literal s : forallb (fun c => (0 <=? c) && (c <? 128)) s = true -> wf_text s.
Proof.
  intros Hs. apply wf_ascii. apply forallb_Forall' in Hs. eapply Forall_impl; [exact Hs|].
  intros c Hc. cbv beta in Hc. apply andb_true_iff in Hc. rewrite Z.leb_le, Z.ltb_lt in Hc. lia.
Qed.

Lemma hex_digit_ascii v : 0 <= v < 16 -> 0 <= hex_digit v < 128.
Proof. unfold hex_digit. destruct (Z.ltb_spec v 10); lia. Qed.

Lemma wf_unicode_escape c : unit_ok c -> wf_text (unicode_escape c).
Proof.
  unfold unit_ok. intros Hc. apply wf_ascii. unfold unicode_escape.
  repeat (apply Forall_cons_2; [first [lia|apply hex_digit_ascii; zdiv]|]). constructor.
Qed.

Lemma wf_quote_unit c : unit_ok c -> is_high c = false -> is_low c = false -> wf_text (quote_unit c).
Proof.
  intros Hc Hh Hl. unfold quote_unit.
  repeat (match goal with |- context [if ?b then _ else _] => destruct b end; [by apply wf_literal|]).
  destruct (c <? 32); [by apply wf_unicode_escape|]. split; [by constructor|]. simpl. by rewrite Hh, Hl.
Qed.

Lemma wf_quote_units s : Forall unit_ok s -> wf_text (quote_units s).
Proof.
  induction s as [|h|h l s IH1 IH2] using str_ind2; intros Hs; [by apply wf_literal| |].
  - inversion Hs as [|? ? Hh _]; subst. cbn [quote_units].
    destruct (is_high h) eqn:Eh; [by apply wf_unicode_escape|].
    destruct (is_low h) eqn:El; rewrite app_nil_r; [by apply wf_unicode_escape|by apply wf_quote_unit].
  - inversion Hs as [|? ? Hh Hs']; subst. inversion Hs' as [|? ? Hl Hr]; subst. rewrite quote_units_cons2.
    destruct (is_high h) eqn:Eh; [destruct (is_low l) eqn:El|destruct (is_low h) eqn:El].
    + destruct (IH1 Hr) as [U W]. split.
      { apply Forall_cons_2; [done|]. by apply Forall_cons_2. }
      by rewrite is_well_formed_cons2, Eh, El.
    + apply wf_app; [by apply wf_unicode_escape|by apply IH2].
    + apply wf_app; [by apply wf_unicode_escape|by apply IH2].
    + apply wf_app; [by apply wf_quote_unit|by apply IH2].
Qed.

Lemma wf_json_quote s : Forall unit_ok s -> wf_text (json_quote s).
Proof.
  intros Hs. unfold json_quote. apply (wf_app [34]); [by apply wf_literal|].
  apply wf_app; [by apply wf_quote_units|by apply wf_literal].
Qed.

Lemma wf_join sep l : wf_text sep -> Forall wf_text l -> wf_text (join_with sep l).
Proof.
  intros Hsep. induction 1 as [|x l Hx Hl IH]; [by apply wf_literal|].
  destruct l as [|y l]; [done|].
  change (join_with sep (x :: y :: l)) with (x ++ sep ++ join_with sep (y :: l)).
  apply wf_app; [done|]. by apply wf_app.
Qed.

Lemma wf_spaces w : spaces w -> wf_text w.
Proof.
  intros Hw. apply wf_ascii. eapply Forall_impl; [exact Hw|]. intros c. unfold is_json_space.
  rewrite !orb_true_iff, !Z.eqb_eq. lia.
Qed.

Lemma wf_block gap ind o c parts :
  spaces gap -> spaces ind -> 0 <= o < 128 -> 0 <= c < 128 -> Forall wf_text parts ->
  wf_text (json_block gap ind o c parts).
Proof.
  intros Hg Hi Ho Hc Hp. destruct parts as [|p ps].
  - apply wf_ascii. apply Forall_cons_2; [done|]. by apply Forall_cons_2.
  - destruct (json_block_shape gap ind o c (p :: ps)) as (w1 & w2 & H1 & H2 & ->); [done..|].
    apply (wf_app [o]); [apply wf_ascii; by apply Forall_cons_2|]. apply wf_app; [by apply wf_spaces|].
    apply wf_app; [apply wf_join; [apply (wf_app [44]); [by apply wf_literal|by apply wf_spaces]|done]|].
    apply wf_app; [by apply wf_spaces|]. apply wf_ascii. by apply Forall_cons_2.
Qed.

Lemma dec_of_Z_ascii z : Forall (fun c => 0 <= c < 128) (dec_of_Z z).
Proof.
  assert (forall n, 0 <= n -> Forall (fun c => 0 <= c < 128) (dec_of_nonneg n)) as Hd.
  { intros n Hn. eapply Forall_impl; [by apply digits_ascii, dec_of_nonneg_digits|]. simpl. lia. }
  unfold dec_of_Z. destruct (Z.ltb_spec z 0); [constructor; [lia|apply Hd; lia]|by apply Hd].
Qed.

Lemma wf_ser gap v : spaces gap -> forall ind t,
  json_okb v = true -> spaces ind -> json_ser gap ind v = Some t -> wf_text t.
Proof.
  intros Hg. induction v as [| |b|n|s|l IH|o IH] using jval_ind; intros ind t Hok Hi Ht; [done|..].
  - injection Ht as <-. by apply wf_literal.
  - injection Ht as <-. destruct b; by apply wf_literal.
  - destruct n as [| |q]; [done..|]. assert (t = num_to_string (Fin q)) as -> by by (injection Ht as <-).
    apply num_okb_int in Hok as [Eq Hs]. rewrite Eq, num_to_string_int by done. apply wf_ascii, dec_of_Z_ascii.
  - injection Ht as <-. apply wf_json_quote. by apply forallb_units.
  - rewrite json_ser_arr in Ht. injection Ht as <-. simpl in Hok. apply forallb_Forall' in Hok.
    assert (spaces (ind ++ gap)) as Hi' by by apply Forall_app.
    apply wf_block; [done..|lia|lia|]. apply Forall_map. rewrite Forall_forall in *. intros x Hx.
    destruct (json_ser_some gap (ind ++ gap) x) as [t Ht]; [by apply Hok|].
    unfold ser_or_null. rewrite Ht. eapply (IH x Hx); eauto.
  - rewrite json_ser_obj in Ht. injection Ht as <-. simpl in Hok. apply andb_true_iff in Hok as [_ Hok].
    apply forallb_Forall' in Hok. assert (spaces (ind ++ gap)) as Hi' by by apply Forall_app.
    apply wf_block; [done..|lia|lia|].
    induction o as [|kv o IHo]; [constructor|].
    inversion IH as [|? ? Hv IH']; subst. inversion Hok as [|? ? Hkv Hok']; subst. cbv beta in Hkv.
    apply andb_true_iff in Hkv as [Hk Hkv]. apply forallb_units in Hk.
    destruct (ser_member_some gap (ind ++ gap) kv) as (t & Ht & Hm); [done|].
    cbn [flat_map]. rewrite Hm. apply Forall_app. split; [|by apply IHo]. constructor; [|constructor].
    apply wf_app; [by apply wf_json_quote|]. apply wf_app; [|by eapply Hv].
    destruct (json_colon_shape gap) as (w & Hw & ->). apply (wf_app [58]); [by apply wf_literal|by apply wf_spaces].
Qed.

(** JSON text survives a trip through UTF-8. *)
Lemma json_text_ok v : json_okb v = true -> text_ok (json_stringify v).
Proof.
  intros Hok. destruct (json_ser_some [] [] v Hok) as [t Ht]. unfold json_stringify. rewrite Ht.
  destruct (wf_ser [] v (Forall_nil_2 _) [] t Hok (Forall_nil_2 _) Ht) as [U W]. split_and!; [done..|].
  destruct (json_ser_head [] [] v t Hok Ht) as (c & r & -> & _ & _ & _ & Hc). simpl. intros [= ->]. lia.
Qed.
