(* ===== verification/JsDate.v ===== *)
(** Dates: ISO 8601 date-times with an explicit offset, [Date.parse] and
    [toISOString].

    A time value is [option Z], milliseconds since the epoch or [NaN].  Text
    that is not the ECMAScript interchange format with legal element values is
    implementation-defined and goes to [host_date_parse]. *)
From S2P Require Import Prelude JsNumber.

(** ** The proleptic Gregorian calendar *)

Definition day_from_year (y : Z) : Z :=
  365 * (y - 1970) + (y - 1969) / 4 - (y - 1901) / 100 + (y - 1601) / 400.

Definition is_leap (y : Z) : bool :=
  ((y mod 4 =? 0) && negb (y mod 100 =? 0)) || (y mod 400 =? 0).

Definition leap_day (y : Z) : Z := if is_leap y then 1 else 0.

(** First day of month [m] (1 to 13) in the year. *)
Definition month_start (y m : Z) : Z :=
  match m with
  | 1 => 0 | 2 => 31
  | 3 => 59 + leap_day y | 4 => 90 + leap_day y | 5 => 120 + leap_day y | 6 => 151 + leap_day y
  | 7 => 181 + leap_day y | 8 => 212 + leap_day y | 9 => 243 + leap_day y | 10 => 273 + leap_day y
  | 11 => 304 + leap_day y | 12 => 334 + leap_day y | _ => 365 + leap_day y
  end.

Definition days_in_month (y m : Z) : Z := month_start y (m + 1) - month_start y m.

Definition ms_per_day : Z := 86400000.

(** ** The date-time text *)

Record iso_fields := IsoFields {
  iso_year : Z; iso_month : Z; iso_day : Z;
  iso_hour : Z; iso_minute : Z; iso_second : Z;
  iso_fraction : jstr;          (** the digits after the point, [] without one *)
  iso_offset : Z;               (** [1] or [-1] *)
  iso_off_hour : Z; iso_off_minute : Z
}.

Fixpoint eat_digits (n : nat) (acc : Z) (s : jstr) : option (Z * jstr) :=
  match n, s with
  | O, _ => Some (acc, s)
  | S n', c :: r => if is_digit c then eat_digits n' (acc * 10 + (c - 48)) r else None
  | S _, [] => None
  end.

Definition eat (c : Z) (s : jstr) : option jstr :=
  match s with d :: r => if c =? d then Some r else None | [] => None end.

Definition eat_fraction (s : jstr) : option (jstr * jstr) :=
  match eat 46 s with
  | None => Some ([], s)
  | Some r => match span is_digit r with ([], _) => None | (fp, r') => Some (fp, r') end
  end.

Definition eat_offset (s : jstr) : option (Z * Z * Z) :=
  match s with
  | [90] => Some (1, 0, 0)
  | c :: r =>
    if (c =? 43) || (c =? 45) then
      '(h, r) ← eat_digits 2 0 r;
      r ← eat 58 r;
      '(m, r) ← eat_digits 2 0 r;
      match r with [] => Some (if c =? 45 then -1 else 1, h, m) | _ => None end
    else None
  | [] => None
  end.

Definition parse_iso (s : jstr) : option iso_fields :=
  '(y, s) ← eat_digits 4 0 s; s ← eat 45 s;
  '(mo, s) ← eat_digits 2 0 s; s ← eat 45 s;
  '(d, s) ← eat_digits 2 0 s; s ← eat 84 s;
  '(h, s) ← eat_digits 2 0 s; s ← eat 58 s;
  '(mi, s) ← eat_digits 2 0 s; s ← eat 58 s;
  '(se, s) ← eat_digits 2 0 s;
  '(fr, s) ← eat_fraction s;
  '(sg, oh, om) ← eat_offset s;
  Some (IsoFields y mo d h mi se fr sg oh om).

(** [/^\d{4}-\d{2}-\d{2}T\d{2}:\d{2}:\d{2}(?:\.\d+)?(?:Z|[+-]\d{2}:\d{2})$/]. *)
Definition ISO8601_WITH_TZ (s : jstr) : bool := match parse_iso s with Some _ => true | None => false end.

(** Legal element values, with no fraction or one of three digits. *)
Definition iso_legal (f : iso_fields) : bool :=
  (1 <=? iso_month f) && (iso_month f <=? 12)
  && (1 <=? iso_day f) && (iso_day f <=? days_in_month (iso_year f) (iso_month f))
  && (iso_hour f <=? 23) && (iso_minute f <=? 59) && (iso_second f <=? 59)
  && (iso_off_hour f <=? 23) && (iso_off_minute f <=? 59)
  && match length (iso_fraction f) with 0%nat | 3%nat => true | _ => false end.

Definition iso_time (f : iso_fields) : Z :=
  (day_from_year (iso_year f) + month_start (iso_year f) (iso_month f) + (iso_day f - 1)) * ms_per_day
  + iso_hour f * 3600000 + iso_minute f * 60000 + iso_second f * 1000
  + digits_value 0 (iso_fraction f)
  - iso_offset f * (iso_off_hour f * 3600000 + iso_off_minute f * 60000).

Definition date_parse `{Host} (s : jstr) : option Z :=
  match parse_iso s with
  | Some f => if iso_legal f then Some (iso_time f) else host_date_parse s
  | None => host_date_parse s
  end.

(** ** [new Date(ms).toISOString()] *)

Definition year_of_day (d : Z) : Z :=
  let y := 1970 + d * 400 / 146097 in
  if d <? day_from_year y then y - 1 else if day_from_year (y + 1) <=? d then y + 1 else y.

(** The month containing day [d] of year [y]. *)
Definition month_of_day (y d : Z) : Z :=
  if d <? month_start y 2 then 1 else if d <? month_start y 3 then 2
  else if d <? month_start y 4 then 3 else if d <? month_start y 5 then 4
  else if d <? month_start y 6 then 5 else if d <? month_start y 7 then 6
  else if d <? month_start y 8 then 7 else if d <? month_start y 9 then 8
  else if d <? month_start y 10 then 9 else if d <? month_start y 11 then 10
  else if d <? month_start y 12 then 11 else 12.

Definition pad2 (n : Z) : jstr := [48 + n / 10; 48 + n mod 10].
Definition pad3 (n : Z) : jstr := [48 + n / 100; 48 + n / 10 mod 10; 48 + n mod 10].
Definition pad4 (n : Z) : jstr :=
  [48 + n / 1000; 48 + n / 100 mod 10; 48 + n / 10 mod 10; 48 + n mod 10].

(** Years outside 0 to 9999 have a sign and six digits. *)
Definition year_text (y : Z) : jstr :=
  if (0 <=? y) && (y <=? 9999) then pad4 y
  else (if y <? 0 then [45] else [43]) ++ pad3 (Z.abs y / 1000) ++ pad3 (Z.abs y mod 1000).

Definition to_iso_string (ms : Z) : jstr :=
  let d := ms / ms_per_day in
  let t := ms mod ms_per_day in
  let y := year_of_day d in
  let doy := d - day_from_year y in
  let m := month_of_day y doy in
  year_text y ++ [45] ++ pad2 m ++ [45] ++ pad2 (doy - month_start y m + 1) ++ [84]
  ++ pad2 (t / 3600000) ++ [58] ++ pad2 (t / 60000 mod 60) ++ [58] ++ pad2 (t / 1000 mod 60)
  ++ [46] ++ pad3 (t mod 1000) ++ [90].

(** First and last millisecond of the years 0 to 9999. *)
Definition iso_range (ms : Z) : Prop := day_from_year 0 * ms_per_day <= ms < day_from_year 10000 * ms_per_day.

(** ** Calendar facts *)

Lemma leap_day_spec y :
  leap_day y = (y / 4 - (y - 1) / 4) - (y / 100 - (y - 1) / 100) + (y / 400 - (y - 1) / 400).
Proof.
  unfold leap_day, is_leap.
  destruct (Z.eqb_spec (y mod 4) 0), (Z.eqb_spec (y mod 100) 0), (Z.eqb_spec (y mod 400) 0);
    simpl; zdiv.
Qed.

Lemma day_from_year_succ y : day_from_year (y + 1) = day_from_year y + 365 + leap_day y.
Proof. rewrite leap_day_spec. unfold day_from_year. zdiv. Qed.

Lemma year_of_day_spec d :
  day_from_year 0 <= d < day_from_year 10000 ->
  let y := year_of_day d in day_from_year y <= d < day_from_year (y + 1) /\ 0 <= y <= 9999.
Proof.
  change (day_from_year 0) with (-719528). change (day_from_year 10000) with 2932897.
  intros Hd. unfold year_of_day.
  remember (1970 + d * 400 / 146097) as y eqn:Ey.
  destruct (Z.ltb_spec d (day_from_year y)); [|destruct (Z.leb_spec (day_from_year (y + 1)) d)];
    unfold day_from_year in *; cbv zeta; zdiv.
Qed.

Lemma month_of_day_spec y d :
  0 <= d < 365 + leap_day y ->
  let m := month_of_day y d in month_start y m <= d < month_start y (m + 1) /\ 1 <= m <= 12.
Proof.
  intros Hd. unfold month_of_day.
  repeat match goal with |- context [?a <? ?b] => destruct (Z.ltb_spec a b) end;
    cbv zeta; simpl in *; lia.
Qed.

(** ** [Date.parse] inverts [toISOString] *)

Lemma is_digit_unit v : 0 <= v <= 9 -> is_digit (48 + v) = true.
Proof.
  intros Hv. unfold is_digit. destruct (Z.leb_spec 48 (48 + v)), (Z.leb_spec (48 + v) 57); done || lia.
Qed.

Lemma eat_digits_cons n acc v s :
  0 <= v <= 9 -> eat_digits (S n) acc (48 + v :: s) = eat_digits n (acc * 10 + v) s.
Proof.
  intros Hv. cbn [eat_digits]. rewrite is_digit_unit by done. f_equal. lia.
Qed.

Lemma eat_pad2 n s : 0 <= n <= 99 -> eat_digits 2 0 (pad2 n ++ s) = Some (n, s).
Proof.
  intros Hn. unfold pad2. cbn [app]. rewrite !eat_digits_cons by zdiv. simpl. repeat f_equal. zdiv.
Qed.

Lemma eat_pad4 n s : 0 <= n <= 9999 -> eat_digits 4 0 (pad4 n ++ s) = Some (n, s).
Proof.
  intros Hn. unfold pad4. cbn [app]. rewrite !eat_digits_cons by zdiv. simpl. repeat f_equal. zdiv.
Qed.

Lemma year_text_pad4 y : 0 <= y <= 9999 -> year_text y = pad4 y.
Proof. intros Hy. unfold year_text. by destruct (Z.leb_spec 0 y), (Z.leb_spec y 9999); [|lia..]. Qed.

Lemma eat_here c s : eat c ([c] ++ s) = Some s.
Proof. simpl. by rewrite Z.eqb_refl. Qed.

Lemma eat_fraction_pad3 n : 0 <= n <= 999 -> eat_fraction ([46] ++ pad3 n ++ [90]) = Some (pad3 n, [90]).
Proof.
  intros Hn. unfold eat_fraction. rewrite eat_here, span_all; [done| |done].
  unfold pad3. repeat apply Forall_cons_2; [apply is_digit_unit; zdiv..|constructor].
Qed.

Lemma pad3_value n : 0 <= n <= 999 -> digits_value 0 (pad3 n) = n.
Proof. intros Hn. unfold pad3. simpl. zdiv. Qed.

Lemma parse_iso_parts y mo d h mi se ms :
  0 <= y <= 9999 -> 0 <= mo <= 99 -> 0 <= d <= 99 -> 0 <= h <= 99 -> 0 <= mi <= 99 -> 0 <= se <= 99 ->
  0 <= ms <= 999 ->
  parse_iso (pad4 y ++ [45] ++ pad2 mo ++ [45] ++ pad2 d ++ [84] ++ pad2 h ++ [58] ++ pad2 mi ++ [58]
             ++ pad2 se ++ [46] ++ pad3 ms ++ [90])
  = Some (IsoFields y mo d h mi se (pad3 ms) 1 0 0).
Proof.
  intros. unfold parse_iso. rewrite eat_pad4 by done. mred.
  do 5 (rewrite eat_here; mred; rewrite eat_pad2 by done; mred).
  rewrite eat_fraction_pad3 by done. done.
Qed.

Lemma date_parse_iso_string `{Host} ms : iso_range ms -> date_parse (to_iso_string ms) = Some ms.
Proof.
  unfold iso_range, date_parse, to_iso_string. cbv zeta. intros Hms. unfold ms_per_day in *.
  set (d := ms / 86400000). set (t := ms mod 86400000).
  assert (ms = d * 86400000 + t /\ 0 <= t < 86400000) as [Ems Ht] by (subst d t; zdiv).
  assert (day_from_year 0 <= d < day_from_year 10000) as Hd.
  { change (day_from_year 0) with (-719528) in *. change (day_from_year 10000) with 2932897 in *. lia. }
  clearbody d t. destruct (year_of_day_spec d Hd) as [Hy Hyr]. rewrite day_from_year_succ in Hy.
  set (y := year_of_day d) in *. clearbody y. set (doy := d - day_from_year y).
  destruct (month_of_day_spec y doy) as [Hm Hmr]; [subst doy; lia|].
  set (m := month_of_day y doy) in *. clearbody m.
  assert (1 <= doy - month_start y m + 1 <= days_in_month y m) as Hdom by (unfold days_in_month; lia).
  assert (days_in_month y m <= 31) as H31.
  { unfold days_in_month, month_start, leap_day. destruct (is_leap y);
      assert (m = 1 \/ m = 2 \/ m = 3 \/ m = 4 \/ m = 5 \/ m = 6 \/ m = 7 \/ m = 8 \/ m = 9 \/ m = 10
              \/ m = 11 \/ m = 12) as Hc by lia; repeat destruct Hc as [->|Hc]; subst; simpl; lia. }
  rewrite year_text_pad4, parse_iso_parts by (done || zdiv).
  assert (iso_legal (IsoFields y m (doy - month_start y m + 1) (t / 3600000) (t / 60000 mod 60)
            (t / 1000 mod 60) (pad3 (t mod 1000)) 1 0 0) = true) as ->.
  { unfold iso_legal. cbn [iso_year iso_month iso_day iso_hour iso_minute iso_second iso_off_hour
      iso_off_minute iso_fraction pad3 length].
    rewrite !andb_true_iff, !Z.leb_le. repeat split; zdiv. }
  f_equal. unfold iso_time. cbn [iso_year iso_month iso_day iso_hour iso_minute iso_second iso_off_hour
    iso_off_minute iso_fraction iso_offset]. rewrite pad3_value by zdiv.
  unfold ms_per_day. subst doy. zdiv.
Qed.

Lemma iso_string_matches ms : iso_range ms -> ISO8601_WITH_TZ (to_iso_string ms) = true.
Proof.
  intros Hms. pose (h := {| host_base64_lenient := fun _ => []; host_date_parse := fun _ => None |} : Host).
  pose proof (date_parse_iso_string (H := h) ms Hms) as Hp. unfold date_parse in Hp.
  unfold ISO8601_WITH_TZ. by destruct (parse_iso (to_iso_string ms)).
Qed.

Lemma pad_ascii n : 0 <= n <= 9999 -> Forall (fun c => 0 <= c < 128) (pad4 n).
Proof. intros Hn. unfold pad4. repeat (apply Forall_cons_2; [zdiv|]). constructor. Qed.

Lemma pad2_ascii n : 0 <= n <= 99 -> Forall (fun c => 0 <= c < 128) (pad2 n).
Proof. intros Hn. unfold pad2. repeat (apply Forall_cons_2; [zdiv|]). constructor. Qed.

Lemma pad3_ascii n : 0 <= n <= 999 -> Forall (fun c => 0 <= c < 128) (pad3 n).
Proof. intros Hn. unfold pad3. repeat (apply Forall_cons_2; [zdiv|]). constructor. Qed.

Lemma iso_string_ascii ms : iso_range ms -> Forall (fun c => 0 <= c < 128) (to_iso_string ms).
Proof.
  unfold iso_range, to_iso_string. cbv zeta. intros Hms. unfold ms_per_day in *.
  set (d := ms / 86400000). set (t := ms mod 86400000).
  assert (0 <= t < 86400000) as Ht by (subst t; zdiv).
  assert (day_from_year 0 <= d < day_from_year 10000) as Hd.
  { change (day_from_year 0) with (-719528) in *. change (day_from_year 10000) with 2932897 in *. subst d. zdiv. }
  clearbody d t. destruct (year_of_day_spec d Hd) as [Hy Hyr]. rewrite day_from_year_succ in Hy.
  set (y := year_of_day d) in *. clearbody y. set (doy := d - day_from_year y).
  destruct (month_of_day_spec y doy) as [Hm Hmr]; [subst doy; lia|].
  set (m := month_of_day y doy) in *. clearbody m.
  assert (0 <= doy - month_start y m + 1 <= 99) as Hdom.
  { clear - Hm Hmr. unfold month_start, leap_day in *.
    assert (m = 1 \/ m = 2 \/ m = 3 \/ m = 4 \/ m = 5 \/ m = 6 \/ m = 7 \/ m = 8 \/ m = 9 \/ m = 10
            \/ m = 11 \/ m = 12) as Hc by lia.
    destruct (is_leap y); repeat destruct Hc as [->|Hc]; subst; simpl in *; lia. }
  rewrite year_text_pad4 by done. repeat (apply Forall_app; split);
    first [apply pad_ascii; lia | apply pad2_ascii; first [lia|zdiv] | apply pad3_ascii; zdiv
          | apply Forall_cons_2; [lia|constructor]].
Qed.
