(* ===== verification/A2A.v ===== *)
(** The agent-to-agent protocol: packages/core/src/a2a.ts.

    Payloads are untrusted JSON, so the validators and type guards run on
    [jval]; a property read of [undefined] or [null] throws a [TypeError] as it
    does at run time.  A protocol block that has passed the guards is the
    record [A2AProtocolBlock]. *)
From S2P Require Import Prelude Utf8 JsNumber Json JsDate.

Definition A2A_CONTENT_TYPE : jstr := js "application/vnd.nexusinbox.a2a+json; v=1".
Definition A2A_CURRENT_VERSION : Z := 1.
Definition SCHEDULE_MAX_CANDIDATES : nat := 20.
Definition SCHEDULE_MAX_CANDIDATE_DURATION_HOURS : Z := 24.

Definition MAX_TASK_TITLE_LEN : nat := 200.
Definition MAX_TASK_DESCRIPTION_LEN : nat := 4000.
Definition MAX_TASK_RESULT_LEN : nat := 4000.
Definition MAX_TASK_NOTE_LEN : nat := 2000.
Definition VALID_TASK_PRIORITIES : list jstr := [js "high"; js "normal"; js "low"].

(** ** Data *)

Inductive A2AProtocolType := schedule_negotiation | task_delegation.
Inductive A2AProtocolAction := propose | accept | decline | counter | delegate | complete.

#[global] Instance type_eq_dec : EqDecision A2AProtocolType.
Proof. solve_decision. Defined.
#[global] Instance action_eq_dec : EqDecision A2AProtocolAction.
Proof. solve_decision. Defined.

Definition type_name (t : A2AProtocolType) : jstr :=
  match t with
  | schedule_negotiation => js "schedule_negotiation"
  | task_delegation => js "task_delegation"
  end.

Definition action_name (a : A2AProtocolAction) : jstr :=
  match a with
  | propose => js "propose" | accept => js "accept" | decline => js "decline"
  | counter => js "counter" | delegate => js "delegate" | complete => js "complete"
  end.

Record A2AProtocolBlock := ProtocolBlock {
  block_id : jstr;
  block_type : A2AProtocolType;
  block_action : A2AProtocolAction;
  block_reply_to : option jstr;
  block_payload : jval
}.

Record ParsedMessageBody := ParsedBody {
  body : jstr;
  protocol : option jval;
  parse_error : bool
}.

Definition A2AValidationError (message : jstr) : jserror :=
  JsError (js "A2AValidationError") message.

(** ** Timestamps *)

Section host.
Context `{Host}.

Definition isValidIso8601WithTimezone (value : jval) : bool :=
  match value with
  | JStr s => ISO8601_WITH_TZ s && match date_parse s with Some _ => true | None => false end
  | _ => false
  end.

(** [Date.parse(v)] where [v] has been checked to be a string. *)
Definition date_parse_val (v : jval) : option Z :=
  match v with JStr s => date_parse s | _ => None end.

(** [a < b] on time values; false when either is [NaN]. *)
Definition time_ltb (a b : option Z) : bool :=
  match a, b with Some a, Some b => a <? b | _, _ => false end.

(** [b - a > limit] on time values. *)
Definition time_span_gt (a b : option Z) (limit : Z) : bool :=
  match a, b with Some a, Some b => limit <? b - a | _, _ => false end.

(** ** schedule_negotiation validators *)

Definition candidate_label (idx : nat) : jstr :=
  js "candidate[" ++ dec_of_nonneg (Z.of_nat idx) ++ js "]".

Definition assertValidCandidate (idx : nat) (c : jval) : res unit :=
  start ← jprop c (js "start");
  throw_if (negb (isValidIso8601WithTimezone start))
    (A2AValidationError (candidate_label idx ++ js ".start must be ISO 8601 with timezone (Z or ±HH:MM)")) ;;
  end_ ← jprop c (js "end");
  throw_if (negb (isValidIso8601WithTimezone end_))
    (A2AValidationError (candidate_label idx ++ js ".end must be ISO 8601 with timezone (Z or ±HH:MM)")) ;;
  let startMs := date_parse_val start in
  let endMs := date_parse_val end_ in
  throw_if (negb (time_ltb startMs endMs))
    (A2AValidationError (candidate_label idx ++ js ".end must be strictly after start")) ;;
  let maxDurationMs := SCHEDULE_MAX_CANDIDATE_DURATION_HOURS * 3600 * 1000 in
  throw_if (time_span_gt startMs endMs maxDurationMs)
    (A2AValidationError (candidate_label idx ++ js " exceeds "
       ++ dec_of_nonneg SCHEDULE_MAX_CANDIDATE_DURATION_HOURS ++ js "h duration limit")).

Definition assertValidCandidateList (candidates : jval) (label : jstr) : res unit :=
  match candidates with
  | JArr l =>
    throw_if (length l <? 1)%nat (A2AValidationError (label ++ js " must contain at least one candidate")) ;;
    throw_if (SCHEDULE_MAX_CANDIDATES <? length l)%nat
      (A2AValidationError (label ++ js " may contain at most "
         ++ dec_of_nonneg (Z.of_nat SCHEDULE_MAX_CANDIDATES) ++ js " candidates")) ;;
    res_iteri assertValidCandidate 0 l
  | _ => Throw (A2AValidationError (label ++ js " must be an array"))
  end.

(** [typeof v !== "string" || v.trim().length === 0]. *)
Definition blank_or_not_string (v : jval) : bool :=
  match v with JStr s => negb (truthy_str (trim s)) | _ => true end.

Definition is_array (v : jval) : bool := match v with JArr _ => true | _ => false end.

Definition assertValidProposePayload (p : jval) : res unit :=
  event_title ← jprop p (js "event_title");
  throw_if (blank_or_not_string event_title) (A2AValidationError (js "propose.event_title is required")) ;;
  candidates ← jprop p (js "candidates");
  assertValidCandidateList candidates (js "propose.candidates") ;;
  required_participants ← jprop p (js "required_participants");
  throw_if (negb (is_array required_participants))
    (A2AValidationError (js "propose.required_participants must be an array")) ;;
  response_deadline ← jprop p (js "response_deadline");
  throw_if (negb (is_undefined response_deadline) && negb (isValidIso8601WithTimezone response_deadline))
    (A2AValidationError (js "propose.response_deadline must be ISO 8601 with timezone when present")).

Definition assertValidScheduleAcceptPayload (p : jval) : res unit :=
  if negb (is_object p) then Throw (A2AValidationError (js "accept.selected_candidate is required"))
  else
    selected_candidate ← jprop p (js "selected_candidate");
    throw_if (negb (jtruthy selected_candidate))
      (A2AValidationError (js "accept.selected_candidate is required")) ;;
    assertValidCandidate 0 selected_candidate.

Definition assertValidReasonOnlyPayload (p : jval) (label : jstr) : res unit :=
  if jtruthy p then
    reason ← jprop p (js "reason");
    throw_if (negb (is_undefined reason) && negb (is_string reason))
      (A2AValidationError (label ++ js ".reason must be a string when present"))
  else Ok tt.

Definition assertValidCounterPayload (p : jval) : res unit :=
  candidates ← jprop p (js "candidates");
  assertValidCandidateList candidates (js "counter.candidates") ;;
  reason ← jprop p (js "reason");
  throw_if (negb (is_undefined reason) && negb (is_string reason))
    (A2AValidationError (js "counter.reason must be a string when present")).

(** ** task_delegation validators *)

(** An optional string of at most [max] units. *)
Definition assertOptionalText (v : jval) (label : jstr) (max : nat) : res unit :=
  match v with
  | JUndef => Ok tt
  | JStr s =>
    throw_if (max <? length s)%nat
      (A2AValidationError (label ++ js " must be ≤ " ++ dec_of_nonneg (Z.of_nat max) ++ js " characters"))
  | _ => Throw (A2AValidationError (label ++ js " must be a string when present"))
  end.

Definition assertValidDelegatePayload (p : jval) : res unit :=
  title ← jprop p (js "title");
  throw_if (blank_or_not_string title) (A2AValidationError (js "delegate.title is required")) ;;
  throw_if (match title with JStr s => (MAX_TASK_TITLE_LEN <? length s)%nat | _ => false end)
    (A2AValidationError (js "delegate.title must be ≤ "
       ++ dec_of_nonneg (Z.of_nat MAX_TASK_TITLE_LEN) ++ js " characters")) ;;
  description ← jprop p (js "description");
  assertOptionalText description (js "delegate.description") MAX_TASK_DESCRIPTION_LEN ;;
  due_date ← jprop p (js "due_date");
  throw_if (negb (is_undefined due_date) && negb (isValidIso8601WithTimezone due_date))
    (A2AValidationError (js "delegate.due_date must be ISO 8601 with timezone when present")) ;;
  priority ← jprop p (js "priority");
  throw_if (negb (is_undefined priority) && negb (existsb (jis priority) VALID_TASK_PRIORITIES))
    (A2AValidationError (js "delegate.priority must be one of " ++ join_with (js ", ") VALID_TASK_PRIORITIES)).

Definition assertValidTaskAcceptPayload (p : jval) : res unit :=
  if jtruthy p then
    note ← jprop p (js "note");
    assertOptionalText note (js "accept.note") MAX_TASK_NOTE_LEN
  else Ok tt.

Definition assertValidCompletePayload (p : jval) : res unit :=
  if jtruthy p then
    result ← jprop p (js "result");
    assertOptionalText result (js "complete.result") MAX_TASK_RESULT_LEN
  else Ok tt.

(** ** Dispatch *)

Definition assertValidScheduleNegotiationPayload (action : A2AProtocolAction) (payload : jval) : res unit :=
  match action with
  | propose => assertValidProposePayload payload
  | accept => assertValidScheduleAcceptPayload payload
  | decline => assertValidReasonOnlyPayload payload (js "schedule decline")
  | counter => assertValidCounterPayload payload
  | delegate | complete =>
    Throw (A2AValidationError (js "action " ++ [34] ++ action_name action ++ [34]
                               ++ js " is not valid for schedule_negotiation"))
  end.

Definition assertValidTaskDelegationPayload (action : A2AProtocolAction) (payload : jval) : res unit :=
  match action with
  | delegate => assertValidDelegatePayload payload
  | accept => assertValidTaskAcceptPayload payload
  | decline => assertValidReasonOnlyPayload payload (js "task decline")
  | complete => assertValidCompletePayload payload
  | propose | counter =>
    Throw (A2AValidationError (js "action " ++ [34] ++ action_name action ++ [34]
                               ++ js " is not valid for task_delegation"))
  end.

Definition assertValidA2APayload (block : A2AProtocolBlock) : res unit :=
  match block_type block with
  | schedule_negotiation => assertValidScheduleNegotiationPayload (block_action block) (block_payload block)
  | task_delegation => assertValidTaskDelegationPayload (block_action block) (block_payload block)
  end.

(** ** Deadlines *)

(** [response_deadline] is the payload's optional string; [now] is
    [now.getTime()]. *)
Definition isProposeExpired (response_deadline : option jstr) (now : Z) : bool :=
  match response_deadline with
  | None => false
  | Some d =>
    if truthy_str d then
      match date_parse d with Some deadlineMs => deadlineMs <? now | None => false end
    else false
  end.

End host.

(** ** Type guards *)

(** [obj.k] on a value that is neither [undefined] nor [null]. *)
Definition jget (v : jval) (k : jstr) : jval :=
  match jprop v k with Ok x => x | Throw _ => JUndef end.

Definition isKnownAction (v : jval) : bool :=
  jis v (js "propose") || jis v (js "accept") || jis v (js "decline")
  || jis v (js "counter") || jis v (js "delegate") || jis v (js "complete").

Definition isActionValidForType (type action : jval) : bool :=
  if jis type (js "schedule_negotiation") then
    jis action (js "propose") || jis action (js "accept") || jis action (js "decline")
    || jis action (js "counter")
  else
    jis action (js "delegate") || jis action (js "accept") || jis action (js "decline")
    || jis action (js "complete").

Definition is_null (v : jval) : bool := match v with JNull => true | _ => false end.

Definition isA2AProtocolBlock (v : jval) : bool :=
  if negb (is_object v) then false
  else if match jget v (js "id") with JStr s => negb (truthy_str s) | _ => true end then false
  else if negb (jis (jget v (js "type")) (js "schedule_negotiation"))
          && negb (jis (jget v (js "type")) (js "task_delegation")) then false
  else if negb (isKnownAction (jget v (js "action"))) then false
  else if negb (isActionValidForType (jget v (js "type")) (jget v (js "action"))) then false
  else if negb (is_null (jget v (js "reply_to"))) && negb (is_string (jget v (js "reply_to"))) then false
  else is_object (jget v (js "payload")).

Definition isA2AMessagePayload (v : jval) : bool :=
  if negb (is_object v) then false
  else if negb (match jget v (js "v") with JNum n => num_eqb n (num A2A_CURRENT_VERSION) | _ => false end)
       then false
  else if negb (is_string (jget v (js "body"))) then false
  else if negb (is_undefined (jget v (js "protocol"))) && negb (isA2AProtocolBlock (jget v (js "protocol")))
       then false
  else true.

(** ** Parsing and serialisation *)

Definition isA2AContentType (contentType : option jstr) : bool :=
  match contentType with
  | None => false
  | Some ct =>
    if truthy_str ct then starts_with (js "application/vnd.nexusinbox.a2a+json") (to_lower ct)
    else false
  end.

Definition parseA2APayload (raw : jstr) (contentType : option jstr) : ParsedMessageBody :=
  if negb (isA2AContentType contentType) then ParsedBody raw None false
  else
    match json_parse raw with
    | Throw _ => ParsedBody raw None true
    | Ok parsed =>
      if negb (isA2AMessagePayload parsed) then ParsedBody raw None true
      else
        let p := jget parsed (js "protocol") in
        let protocolBlock := if jtruthy p && isA2AProtocolBlock p then Some p else None in
        ParsedBody (match jget parsed (js "body") with JStr s => s | _ => [] end) protocolBlock false
    end.

Definition serializeA2APayload (payload : jval) : jstr := json_stringify payload.

(** ** UUIDv7 *)

(** [b.toString(16).padStart(2, "0")] for a byte. *)
Definition hex_byte (b : Z) : jstr := [hex_digit (b / 16); hex_digit (b mod 16)].

(** [rng] is what [crypto.getRandomValues] fills the array with; [None] when
    the environment has no [crypto]. *)
Definition ensureCryptoRandom (rng : option bytes) : res bytes :=
  match rng with
  | Some rand => Ok rand
  | None => Throw (Error_ (js "crypto.getRandomValues is not available in this environment"))
  end.

(** The 16 bytes: six of the clock, ten random ones with version and variant. *)
Definition uuidv7_bytes (ms : Z) (rand : bytes) : bytes :=
  let bytes0 := [Z.land (Z.shiftr ms 40) 255; Z.land (Z.shiftr ms 32) 255; Z.land (Z.shiftr ms 24) 255;
                 Z.land (Z.shiftr ms 16) 255; Z.land (Z.shiftr ms 8) 255; Z.land ms 255] in
  let bytes1 := bytes0 ++ rand in
  let b6 := Z.lor (Z.land (nth 6 bytes1 0) 15) 112 in
  let b8 := Z.lor (Z.land (nth 8 bytes1 0) 63) 128 in
  <[8%nat := b8]> (<[6%nat := b6]> bytes1).

(** [hex.slice(a, b)]. *)
Definition slice (a b : nat) (s : jstr) : jstr := take (b - a) (drop a s).

Definition uuid_format (bytes : bytes) : jstr :=
  let hex := flat_map hex_byte bytes in
  slice 0 8 hex ++ [45] ++ slice 8 12 hex ++ [45] ++ slice 12 16 hex ++ [45] ++ slice 16 20 hex
  ++ [45] ++ drop 20 hex.

Definition uuidv7 (now : Z) (rng : option bytes) : res jstr :=
  rand ← ensureCryptoRandom rng;
  Ok (uuid_format (uuidv7_bytes now rand)).

(** * What the validators accept *)

Section spec.
Context `{Host}.

Definition max_candidate_ms : Z := 86400000.

(** Two ISO date-times with offsets, in order and at most a day apart. *)
Definition valid_candidate (c : jval) : Prop :=
  exists s e a b,
    jget c (js "start") = JStr s /\ jget c (js "end") = JStr e /\
    ISO8601_WITH_TZ s = true /\ ISO8601_WITH_TZ e = true /\
    date_parse s = Some a /\ date_parse e = Some b /\ a < b <= a + max_candidate_ms.

Definition valid_candidates (v : jval) : Prop :=
  exists l, v = JArr l /\ (1 <= length l <= 20)%nat /\ Forall valid_candidate l.

Definition valid_timestamp (v : jval) : Prop :=
  exists s a, v = JStr s /\ ISO8601_WITH_TZ s = true /\ date_parse s = Some a.

Definition optional (P : jval -> Prop) (v : jval) : Prop := v = JUndef \/ P v.

Definition a_string (v : jval) : Prop := exists s, v = JStr s.
Definition string_upto (n : nat) (v : jval) : Prop := exists s, v = JStr s /\ (length s <= n)%nat.
Definition nonblank (v : jval) : Prop := exists s, v = JStr s /\ trim s <> [].

Definition one_of (l : list jstr) (v : jval) : Prop := exists s, v = JStr s /\ s ∈ l.

(** The payload each action of each protocol type carries. *)
Definition valid_payload (t : A2AProtocolType) (a : A2AProtocolAction) (p : jval) : Prop :=
  match t, a with
  | schedule_negotiation, propose =>
    nonblank (jget p (js "event_title")) /\ valid_candidates (jget p (js "candidates")) /\
    (exists l, jget p (js "required_participants") = JArr l) /\
    optional valid_timestamp (jget p (js "response_deadline"))
  | schedule_negotiation, accept => valid_candidate (jget p (js "selected_candidate"))
  | schedule_negotiation, counter =>
    valid_candidates (jget p (js "candidates")) /\ optional a_string (jget p (js "reason"))
  | _, decline => optional a_string (jget p (js "reason"))
  | task_delegation, delegate =>
    nonblank (jget p (js "title")) /\ string_upto 200 (jget p (js "title")) /\
    optional (string_upto 4000) (jget p (js "description")) /\
    optional valid_timestamp (jget p (js "due_date")) /\
    optional (one_of [js "high"; js "normal"; js "low"]) (jget p (js "priority"))
  | task_delegation, accept => optional (string_upto 2000) (jget p (js "note"))
  | task_delegation, complete => optional (string_upto 4000) (jget p (js "result"))
  | _, _ => False
  end.

(** ** Reflection lemmas for the building blocks *)

Lemma jprop_ok v k x : jprop v k = Ok x <-> v <> JUndef /\ v <> JNull /\ x = jget v k.
Proof.
  unfold jget. destruct v; simpl; (split; [|intros (? & ? & ->); done]); intros [= <-] || intros [=]; done.
Qed.

Lemma jget_nothing v k : jtruthy v = false -> jget v k = JUndef.
Proof. by destruct v. Qed.

(** A property that is not [undefined] was read from an object. *)
Lemma jget_object v k : jget v k <> JUndef -> is_object v = true /\ jtruthy v = true.
Proof. by destruct v. Qed.

Lemma iso_valid_spec v : isValidIso8601WithTimezone v = true <-> valid_timestamp v.
Proof.
  unfold isValidIso8601WithTimezone, valid_timestamp. split.
  - destruct v as [| | | |s| |]; try done. intros Hv. destruct (date_parse s) as [a|] eqn:E.
    + rewrite andb_true_r in Hv. eauto.
    + by rewrite andb_false_r in Hv.
  - intros (s & a & -> & -> & ->). done.
Qed.

Lemma iso_optional_spec v :
  negb (is_undefined v) && negb (isValidIso8601WithTimezone v) = false <-> optional valid_timestamp v.
Proof.
  unfold optional. rewrite <- iso_valid_spec, andb_false_iff, !negb_false_iff.
  assert (is_undefined v = true <-> v = JUndef) as -> by by destruct v. done.
Qed.

Lemma string_optional_spec v :
  negb (is_undefined v) && negb (is_string v) = false <-> optional a_string v.
Proof.
  unfold optional, a_string.
  destruct v; simpl; try (split; [done|by intros [|[? ?]]]); split; eauto.
Qed.

Lemma optional_text_spec v label n : assertOptionalText v label n = Ok tt <-> optional (string_upto n) v.
Proof.
  unfold optional, string_upto. destruct v; simpl; try (split; [done|intros [|(? & ? & ?)]; congruence]).
  - split; eauto.
  - rewrite throw_if_ok, Nat.ltb_ge. split; [eauto|]. intros [|(t & [= ->] & ?)]; done.
Qed.

Lemma nonblank_spec v : blank_or_not_string v = false <-> nonblank v.
Proof.
  unfold nonblank. destruct v; simpl; try (split; [done|intros (? & ? & ?); congruence]).
  rewrite negb_false_iff. split.
  - intros Ht. eexists. split; [done|]. by intros E; rewrite E in Ht.
  - intros (t & [= ->] & Hne). by destruct (trim t).
Qed.

Lemma jprop_defined v k : jget v k <> JUndef -> jprop v k = Ok (jget v k).
Proof. by destruct v. Qed.

Lemma candidate_spec i c : assertValidCandidate i c = Ok tt <-> valid_candidate c.
Proof.
  unfold assertValidCandidate. split.
  - intros Hv. res_inv.
    repeat match goal with H : jprop _ _ = Ok _ |- _ => apply jprop_ok in H as (_ & _ & ->) end.
    bool_to_prop.
    match goal with H : isValidIso8601WithTimezone (jget c (js "start")) = true |- _ =>
      apply iso_valid_spec in H as (s & a & Es & Is & Ds) end.
    match goal with H : isValidIso8601WithTimezone (jget c (js "end")) = true |- _ =>
      apply iso_valid_spec in H as (e & b & Ee & Ie & De) end.
    exists s, e, a, b. rewrite Es, Ee in *.
    unfold time_ltb, time_span_gt, date_parse_val in *. rewrite Ds, De in *.
    bool_to_prop. unfold SCHEDULE_MAX_CANDIDATE_DURATION_HOURS, max_candidate_ms in *.
    split_and!; done || lia.
  - intros (s & e & a & b & Es & Ee & Is & Ie & Ds & De & Hab).
    eapply res_bind_intro; [apply jprop_defined; by rewrite Es|]. rewrite Es.
    eapply res_bind_intro; [apply throw_if_intro, negb_false_iff, iso_valid_spec; by exists s, a|].
    eapply res_bind_intro; [apply jprop_defined; by rewrite Ee|]. rewrite Ee.
    eapply res_bind_intro; [apply throw_if_intro, negb_false_iff, iso_valid_spec; by exists e, b|].
    unfold time_ltb, time_span_gt, date_parse_val, max_candidate_ms in *. rewrite Ds, De.
    unfold SCHEDULE_MAX_CANDIDATE_DURATION_HOURS.
    eapply res_bind_intro; apply throw_if_intro; [rewrite negb_false_iff, Z.ltb_lt|rewrite Z.ltb_ge]; lia.
Qed.

Lemma candidate_list_spec v label : assertValidCandidateList v label = Ok tt <-> valid_candidates v.
Proof.
  unfold valid_candidates.
  destruct v as [| | | | |l|]; simpl; try (split; [done|intros (? & ? & ?); congruence]). split.
  - intros Hv. res_inv. match goal with H : res_iteri _ _ _ = _ |- _ => rename H into Hall end.
    rewrite Nat.ltb_ge in *. exists l. split; [done|]. split; [done|].
    apply Forall_lookup. intros j x Hx. eapply candidate_spec.
    by apply (proj1 (res_iteri_ok _ _ _) Hall).
  - intros (l' & [= <-] & Hl & Hall).
    do 2 (eapply res_bind_intro; [apply throw_if_intro, Nat.ltb_ge; unfold SCHEDULE_MAX_CANDIDATES; lia|]).
    apply res_iteri_ok. intros j x Hx. apply candidate_spec. by apply (Forall_lookup_1 _ _ _ _ Hall Hx).
Qed.

(** ** Each action's validator *)

Lemma title_length_spec n v :
  a_string v -> match v with JStr s => (n <? length s)%nat | _ => false end = false <-> string_upto n v.
Proof.
  intros [s ->]. rewrite Nat.ltb_ge. unfold string_upto. split; [eauto|]. by intros (t & [= ->] & ?).
Qed.

Lemma nonblank_string v : nonblank v -> a_string v.
Proof. intros (s & -> & _). by exists s. Qed.

Lemma priority_spec l v : existsb (jis v) l = true <-> one_of l v.
Proof.
  unfold one_of. rewrite existsb_exists. split.
  - intros (s & Hin & Hs). destruct v as [| | | |t| |]; try done. simpl in Hs. apply jeqb_true in Hs as ->.
    exists s. by rewrite list_elem_of_In.
  - intros (s & -> & Hin). exists s. rewrite <- list_elem_of_In. split; [done|apply jeqb_refl].
Qed.

Lemma priority_optional_spec l v :
  negb (is_undefined v) && negb (existsb (jis v) l) = false <-> optional (one_of l) v.
Proof.
  unfold optional. rewrite <- priority_spec, andb_false_iff, !negb_false_iff.
  assert (is_undefined v = true <-> v = JUndef) as -> by by destruct v. done.
Qed.

(** Split a successful validator into what each of its steps established. *)
Ltac validated Hv :=
  intros Hv; res_inv;
  repeat match goal with H : jprop _ _ = Ok _ |- _ => apply jprop_ok in H as (_ & _ & ->) end;
  rewrite ?nonblank_spec, ?candidate_list_spec, ?iso_optional_spec, ?string_optional_spec,
    ?optional_text_spec, ?candidate_spec, ?priority_optional_spec in *.

(** Establish one step of a validator. *)
Ltac validate :=
  repeat first
    [ eapply res_bind_intro; [apply jprop_ok; split_and!; done|]
    | eapply res_bind_intro; [apply throw_if_intro; by apply nonblank_spec|]
    | eapply res_bind_intro; [by apply candidate_list_spec|]
    | eapply res_bind_intro; [by apply optional_text_spec|]
    | eapply res_bind_intro; [apply throw_if_intro; by apply iso_optional_spec|]
    | eapply res_bind_intro; [apply throw_if_intro, title_length_spec; [by apply nonblank_string|done]|]
    | apply throw_if_intro; by apply iso_optional_spec
    | apply throw_if_intro; by apply string_optional_spec
    | apply throw_if_intro; by apply priority_optional_spec
    | by apply optional_text_spec ].

Lemma not_nullish p k : jget p k <> JUndef -> p <> JUndef /\ p <> JNull.
Proof. by destruct p. Qed.

Lemma propose_spec p : assertValidProposePayload p = Ok tt <-> valid_payload schedule_negotiation propose p.
Proof.
  unfold assertValidProposePayload. cbn [valid_payload]. split.
  - validated Hv. destruct (jget p (js "required_participants")) eqn:E; try done. split_and!; eauto.
  - intros (H1 & H2 & [l H3] & H4).
    destruct (not_nullish p (js "required_participants")) as [Hu Hn]; [by rewrite H3|]. validate.
    eapply res_bind_intro; [by apply throw_if_intro|]. validate.
Qed.

Lemma counter_spec p : assertValidCounterPayload p = Ok tt <-> valid_payload schedule_negotiation counter p.
Proof.
  unfold assertValidCounterPayload. cbn [valid_payload]. split.
  - validated Hv. done.
  - intros [H1 H2]. destruct (not_nullish p (js "candidates")) as [Hu Hn]; [by destruct H1 as (l & -> & _)|].
    validate.
Qed.

Lemma schedule_accept_spec p :
  assertValidScheduleAcceptPayload p = Ok tt <-> valid_payload schedule_negotiation accept p.
Proof.
  unfold assertValidScheduleAcceptPayload. cbn [valid_payload]. split.
  - destruct (is_object p); [|done]. cbn [negb]. validated Hv. done.
  - intros Hc. assert (jget p (js "selected_candidate") <> JUndef) as Hd.
    { destruct Hc as (s & ? & ? & ? & Hs & _). by intros E; rewrite E in Hs. }
    destruct (not_nullish _ _ Hd) as [Hu Hn]. apply jget_object in Hd as [-> _]. cbn [negb].
    validate. eapply res_bind_intro; [|by apply candidate_spec].
    apply throw_if_intro, negb_false_iff.
    destruct Hc as (s & ? & ? & ? & Hs & _). apply (jget_object _ (js "start")). by rewrite Hs.
Qed.

Lemma delegate_spec p : assertValidDelegatePayload p = Ok tt <-> valid_payload task_delegation delegate p.
Proof.
  unfold assertValidDelegatePayload. cbn [valid_payload]. split.
  - validated Hv. split_and!; try done.
    match goal with H : nonblank (jget p (js "title")) |- _ => apply nonblank_string in H end.
    by apply (title_length_spec MAX_TASK_TITLE_LEN).
  - intros (H1 & H2 & H3 & H4 & H5).
    destruct (not_nullish p (js "title")) as [Hu Hn]; [by destruct H1 as (l & -> & _)|].
    validate.
Qed.

(** A field read only when the payload is truthy. *)
Lemma guarded_field (P : jval -> Prop) p k (m : jval -> res unit) :
  P JUndef -> (forall v, m v = Ok tt <-> P v) ->
  (if jtruthy p then jprop p k ≫= m else Ok tt) = Ok tt <-> P (jget p k).
Proof.
  intros Hu Hm. destruct (jtruthy p) eqn:E.
  - rewrite res_bind_ok. setoid_rewrite jprop_ok. split.
    + intros (v & (_ & _ & ->) & H0). by apply Hm.
    + intros HP. exists (jget p k). split; [by destruct p|by apply Hm].
  - by rewrite jget_nothing.
Qed.

Lemma reason_spec p label : assertValidReasonOnlyPayload p label = Ok tt <-> optional a_string (jget p (js "reason")).
Proof.
  apply (guarded_field (optional a_string)); [by left|]. intros v. by rewrite throw_if_ok, string_optional_spec.
Qed.

Lemma task_accept_spec p : assertValidTaskAcceptPayload p = Ok tt <-> valid_payload task_delegation accept p.
Proof. apply (guarded_field (optional (string_upto 2000))); [by left|]. intros v. apply optional_text_spec. Qed.

Lemma task_complete_spec p : assertValidCompletePayload p = Ok tt <-> valid_payload task_delegation complete p.
Proof. apply (guarded_field (optional (string_upto 4000))); [by left|]. intros v. apply optional_text_spec. Qed.

Lemma payload_spec b :
  assertValidA2APayload b = Ok tt <-> valid_payload (block_type b) (block_action b) (block_payload b).
Proof.
  destruct b as [id [] [] r p]; cbn [block_type block_action block_payload assertValidA2APayload
    assertValidScheduleNegotiationPayload assertValidTaskDelegationPayload];
    try (by cbn [valid_payload]).
  - apply propose_spec.
  - apply schedule_accept_spec.
  - apply reason_spec.
  - apply counter_spec.
  - apply task_accept_spec.
  - apply reason_spec.
  - apply delegate_spec.
  - apply task_complete_spec.
Qed.

(** Validators throw [A2AValidationError] or the [TypeError] of a [null] read. *)
Definition validation_error (e : jserror) : Prop :=
  err_name e = js "A2AValidationError" \/ err_name e = js "TypeError".

Lemma validation_error_a2a msg : validation_error (A2AValidationError msg).
Proof. by left. Qed.

Lemma validation_error_type msg : validation_error (TypeError_ msg).
Proof. by right. Qed.

#[local] Hint Resolve validation_error_a2a validation_error_type : jsdb.

Lemma jprop_throws v k : throws validation_error (jprop v k).
Proof. destruct v; simpl; auto with jsdb. Qed.

#[local] Hint Resolve jprop_throws : jsdb.

Lemma candidate_throws i c : throws validation_error (assertValidCandidate i c).
Proof. unfold assertValidCandidate. auto 20 with jsdb. Qed.

#[local] Hint Resolve candidate_throws : jsdb.

Lemma candidate_list_throws v label : throws validation_error (assertValidCandidateList v label).
Proof. destruct v; simpl; auto 20 with jsdb. Qed.

Lemma optional_text_throws v label n : throws validation_error (assertOptionalText v label n).
Proof. destruct v; simpl; auto 20 with jsdb. Qed.

#[local] Hint Resolve candidate_list_throws optional_text_throws : jsdb.

Lemma assertValidA2APayload_throws b : throws validation_error (assertValidA2APayload b).
Proof.
  destruct b as [i [] [] r p]; cbn [assertValidA2APayload assertValidScheduleNegotiationPayload
    assertValidTaskDelegationPayload block_type block_action block_payload];
    unfold assertValidProposePayload, assertValidScheduleAcceptPayload, assertValidReasonOnlyPayload,
      assertValidCounterPayload, assertValidDelegatePayload, assertValidTaskAcceptPayload,
      assertValidCompletePayload; repeat case_match; auto 30 with jsdb.
Qed.

End spec.

(** * Typed protocol blocks *)

Definition type_of_val (v : jval) : option A2AProtocolType :=
  if jis v (js "schedule_negotiation") then Some schedule_negotiation
  else if jis v (js "task_delegation") then Some task_delegation else None.

Definition action_of_val (v : jval) : option A2AProtocolAction :=
  if jis v (js "propose") then Some propose
  else if jis v (js "accept") then Some accept
  else if jis v (js "decline") then Some decline
  else if jis v (js "counter") then Some counter
  else if jis v (js "delegate") then Some delegate
  else if jis v (js "complete") then Some complete else None.

Definition reply_to_of_val (v : jval) : option (option jstr) :=
  match v with JNull => Some None | JStr s => Some (Some s) | _ => None end.

(** The typed reading of a block value. *)
Definition block_of_val (v : jval) : option A2AProtocolBlock :=
  id ← match jget v (js "id") with JStr s => Some s | _ => None end;
  t ← type_of_val (jget v (js "type"));
  a ← action_of_val (jget v (js "action"));
  r ← reply_to_of_val (jget v (js "reply_to"));
  Some (ProtocolBlock id t a r (jget v (js "payload"))).

(** The object literal of a typed block, in the order the interface declares. *)
Definition block_to_val (b : A2AProtocolBlock) : jval :=
  JObj [(js "id", JStr (block_id b)); (js "type", JStr (type_name (block_type b)));
        (js "action", JStr (action_name (block_action b)));
        (js "reply_to", match block_reply_to b with Some s => JStr s | None => JNull end);
        (js "payload", block_payload b)].

Definition message_to_val (body : jstr) (protocol : option A2AProtocolBlock) : jval :=
  JObj ([(js "v", JNum (num A2A_CURRENT_VERSION)); (js "body", JStr body)]
        ++ match protocol with Some b => [(js "protocol", block_to_val b)] | None => [] end).

(** The actions of each protocol type. *)
Definition action_of_type (t : A2AProtocolType) (a : A2AProtocolAction) : bool :=
  match t, a with
  | schedule_negotiation, (propose | accept | decline | counter) => true
  | task_delegation, (delegate | accept | decline | complete) => true
  | _, _ => false
  end.

Definition block_ok (b : A2AProtocolBlock) : Prop :=
  block_id b <> [] /\ action_of_type (block_type b) (block_action b) = true /\
  is_object (block_payload b) = true.

(** [jis] against two different literals. *)
Lemma jis_true v s : jis v s = true <-> v = JStr s.
Proof.
  destruct v; simpl; try (split; congruence). rewrite jeqb_true. split; congruence.
Qed.

Lemma jis_str s t : jis (JStr s) t = jeqb s t.
Proof. done. Qed.

Lemma type_of_val_spec v t : type_of_val v = Some t <-> v = JStr (type_name t).
Proof.
  unfold type_of_val. split.
  - repeat case_match; intros [= <-];
      repeat match goal with H : jis _ _ = true |- _ => apply jis_true in H end; done.
  - intros ->. by destruct t.
Qed.

Lemma action_of_val_spec v a : action_of_val v = Some a <-> v = JStr (action_name a).
Proof.
  unfold action_of_val. split.
  - repeat case_match; intros [= <-];
      repeat match goal with H : jis _ _ = true |- _ => apply jis_true in H end; done.
  - intros ->. by destruct a.
Qed.

Lemma known_action_spec v : isKnownAction v = true <-> exists a, v = JStr (action_name a).
Proof.
  unfold isKnownAction. split.
  - rewrite !orb_true_iff, !jis_true.
    intros [[[[[-> | ->] | ->] | ->] | ->] | ->];
      [exists propose|exists accept|exists decline|exists counter|exists delegate|exists complete]; done.
  - intros [[] ->]; done.
Qed.

Lemma action_for_type t a :
  isActionValidForType (JStr (type_name t)) (JStr (action_name a)) = action_of_type t a.
Proof. destruct t, a; done. Qed.

(** The block guard accepts exactly the well-formed blocks. *)
Lemma block_guard_spec v :
  isA2AProtocolBlock v = true <-> exists b, block_of_val v = Some b /\ block_ok b.
Proof.
  unfold isA2AProtocolBlock, block_of_val, block_ok. split.
  - destruct (is_object v); [|done]. cbn [negb].
    destruct (jget v (js "id")) as [| | | |i| |]; try done.
    destruct (truthy_str i) eqn:Hi; [|done]. cbn [negb].
    destruct (negb (jis (jget v (js "type")) (js "schedule_negotiation"))
              && negb (jis (jget v (js "type")) (js "task_delegation"))) eqn:Ht; [done|].
    assert (exists t, jget v (js "type") = JStr (type_name t)) as [t Et].
    { rewrite andb_false_iff, !negb_false_iff, !jis_true in Ht.
      destruct Ht; [by exists schedule_negotiation|by exists task_delegation]. }
    destruct (isKnownAction (jget v (js "action"))) eqn:Ha; [|done].
    apply known_action_spec in Ha as [a Ea]. rewrite Et, Ea. cbn [negb].
    rewrite action_for_type. destruct (action_of_type t a) eqn:Eat; [|done]. cbn [negb].
    rewrite (proj2 (type_of_val_spec _ t) eq_refl), (proj2 (action_of_val_spec _ a) eq_refl).
    mred. intros Hr.
    assert (exists r, reply_to_of_val (jget v (js "reply_to")) = Some r) as [r ->].
    { destruct (jget v (js "reply_to")); simpl in *; try done; eauto. }
    eexists. split; [done|]. cbn [block_id block_type block_action block_payload].
    split_and!; [by destruct i|done|].
    destruct (negb (is_null _) && negb (is_string _)); done.
  - intros (b & Hb & Hid & Hat & Hp).
    destruct (jget v (js "id")) as [| | | |i| |] eqn:Ei; try done.
    assert (is_object v = true) as -> by (apply (jget_object v (js "id")); by rewrite Ei).
    cbn [negb]. cbv beta iota delta [mbind option_bind] in Hb.
    destruct (type_of_val _) as [t|] eqn:Et; [|done]. destruct (action_of_val _) as [a|] eqn:Ea; [|done].
    destruct (reply_to_of_val _) as [r|] eqn:Er; [|done]. injection Hb as <-. simpl in Hid, Hat, Hp.
    apply type_of_val_spec in Et. apply action_of_val_spec in Ea. rewrite Et, Ea.
    assert (truthy_str i = true) as -> by by destruct i. cbn [negb].
    assert (isKnownAction (JStr (action_name a)) = true) as -> by (apply known_action_spec; eauto).
    rewrite action_for_type, Hat. cbn [negb].
    assert (negb (jis (JStr (type_name t)) (js "schedule_negotiation"))
            && negb (jis (JStr (type_name t)) (js "task_delegation")) = false) as -> by by destruct t.
    destruct (jget v (js "reply_to")); done.
Qed.

Lemma block_val_ok b : block_of_val (block_to_val b) = Some b.
Proof. destruct b as [i [] [] [r|] p]; done. Qed.

Lemma obj_get_member k v : jget (JObj [(k, v)]) k = v.
Proof. unfold jget. simpl. by rewrite jeqb_refl. Qed.

Lemma message_guard body p :
  match p with Some b => block_ok b | None => True end ->
  isA2AMessagePayload (message_to_val body p) = true.
Proof.
  intros Hp. destruct p as [b|]; [|done].
  change (isA2AMessagePayload (message_to_val body (Some b)))
    with (if negb (isA2AProtocolBlock (block_to_val b)) then false else true).
  assert (isA2AProtocolBlock (block_to_val b) = true) as ->; [|done].
  apply block_guard_spec. exists b. split; [apply block_val_ok|done].
Qed.

(** ** Serialisation *)

Definition optional_units (s : option jstr) : Prop := match s with Some s => Forall unit_ok s | None => True end.

(** Strings of 16-bit units and a payload JSON carries exactly. *)
Definition block_json_ok (b : A2AProtocolBlock) : Prop :=
  Forall unit_ok (block_id b) /\ optional_units (block_reply_to b) /\ json_okb (block_payload b) = true.

Lemma block_to_val_json b : block_json_ok b -> json_okb (block_to_val b) = true.
Proof.
  destruct b as [i t a r p]. intros (Hi & Hr & Hp). cbn [block_id block_reply_to block_payload] in *.
  cbn [json_okb block_to_val block_id block_type block_action block_reply_to block_payload forallb fst snd].
  apply forallb_units in Hi. rewrite Hi, Hp.
  assert (json_okb match r with Some s => JStr s | None => JNull end = true) as ->.
  { destruct r as [r|]; [|done]. cbn [json_okb]. by apply forallb_units. }
  destruct t, a; vm_compute; done.
Qed.

Lemma message_to_val_json body p :
  Forall unit_ok body -> match p with Some b => block_json_ok b | None => True end ->
  json_okb (message_to_val body p) = true.
Proof.
  intros Hb Hp. unfold message_to_val. apply forallb_units in Hb.
  destruct p as [b|]; cbn [app json_okb forallb fst snd]; rewrite Hb.
  - rewrite block_to_val_json by done. vm_compute. done.
  - vm_compute. done.
Qed.

Lemma message_roundtrip body p ct :
  isA2AContentType (Some ct) = true ->
  Forall unit_ok body ->
  match p with Some b => block_ok b /\ block_json_ok b | None => True end ->
  parseA2APayload (serializeA2APayload (message_to_val body p)) (Some ct)
  = ParsedBody body (option_map block_to_val p) false.
Proof.
  intros Hct Hb Hp. unfold parseA2APayload, serializeA2APayload. rewrite Hct. cbn [negb].
  rewrite json_stringify_roundtrip by (apply message_to_val_json; [done|by destruct p; destruct Hp]).
  rewrite message_guard by by destruct p; destruct Hp. cbn [negb].
  destruct p as [b|]; [|done]. destruct Hp as [Hp _].
  change (jget (message_to_val body (Some b)) (js "protocol")) with (block_to_val b).
  assert (isA2AProtocolBlock (block_to_val b) = true) as ->; [|done].
  apply block_guard_spec. exists b. split; [apply block_val_ok|done].
Qed.

(** * UUIDv7 *)

Definition hexn : nat -> Z -> jstr :=
  fix hexn n v := match n with O => [] | S n' => hexn n' (v / 16) ++ [hex_digit (v mod 16)] end.

Lemma hexn_length n v : length (hexn n v) = n.
Proof. revert v. induction n as [|n IH]; intros v; simpl; [done|]. rewrite length_app, IH. simpl. lia. Qed.

Lemma hex_digit_lt a b : 0 <= a < b -> b < 16 -> hex_digit a < hex_digit b.
Proof. unfold hex_digit. intros. destruct (Z.ltb_spec a 10), (Z.ltb_spec b 10); lia. Qed.

Lemma hexn_lt n v w : 0 <= v < w -> w < 16 ^ Z.of_nat n -> str_ltb (hexn n v) (hexn n w) = true.
Proof.
  revert v w. induction n as [|n IH]; intros v w Hv Hw; [simpl in Hw; lia|].
  rewrite Nat2Z.inj_succ, Z.pow_succ_r in Hw by lia. cbn [hexn].
  assert (0 <= v / 16 < w / 16 \/ v / 16 = w / 16 /\ v mod 16 < w mod 16) as [Hq|[-> Hr]] by zdiv.
  - apply str_ltb_app; [by rewrite !hexn_length|]. apply IH; [done|].
    apply Z.div_lt_upper_bound; lia.
  - apply str_ltb_prefix. cbn [str_ltb].
    pose proof (hex_digit_lt (v mod 16) (w mod 16)) as Hd.
    destruct (Z.ltb_spec (hex_digit (v mod 16)) (hex_digit (w mod 16))); [done|]. zdiv.
Qed.

Lemma byte_shift ms k : 0 <= k -> Z.land (Z.shiftr ms k) 255 = ms / 2 ^ k mod 256.
Proof.
  intros Hk. rewrite Z.shiftr_div_pow2 by lia. change 255 with (Z.ones 8). by rewrite Z.land_ones.
Qed.

(** The first two groups are the clock, in hexadecimal. *)
Lemma uuid_clock ms rand :
  0 <= ms < 2 ^ 48 -> length rand = 10%nat ->
  exists t, uuid_format (uuidv7_bytes ms rand)
            = hexn 8 (ms / 65536) ++ [45] ++ hexn 4 (ms mod 65536) ++ [45] ++ t.
Proof.
  intros Hms Hl. do 10 (destruct rand as [|? rand]; [done|]). destruct rand; [|done].
  unfold uuidv7_bytes. cbn [app nth].
  rewrite (byte_shift ms 40), (byte_shift ms 32), (byte_shift ms 24), (byte_shift ms 16), (byte_shift ms 8) by lia.
  replace (Z.land ms 255) with (ms mod 256) by (change 255 with (Z.ones 8); by rewrite Z.land_ones).
  cbn [insert list_insert]. unfold uuid_format, slice.
  cbn [flat_map hex_byte app drop take Nat.sub]. eexists.
  cbn [hexn app]. change (2 ^ 40) with 1099511627776. change (2 ^ 32) with 4294967296.
  change (2 ^ 24) with 16777216. change (2 ^ 16) with 65536. change (2 ^ 8) with 256.
  change (2 ^ 48) with 281474976710656 in Hms.
  repeat match goal with
  | |- 45 :: _ = 45 :: _ => apply (f_equal (cons 45))
  | |- hex_digit _ :: _ = hex_digit _ :: _ => apply (f_equal2 cons); [f_equal; zdiv|]
  end.
  reflexivity.
Qed.

Lemma hex_digit_is_hex v : 0 <= v < 16 -> is_hex (hex_digit v) = true.
Proof. intros Hv. unfold is_hex. by rewrite hex_val_digit. Qed.

Lemma lor_byte a b : byte_ok a -> byte_ok b -> byte_ok (Z.lor a b).
Proof.
  unfold byte_ok. intros Ha Hb. assert (0 <= Z.lor a b) by (apply Z.lor_nonneg; lia). split; [done|].
  destruct (Z.eq_dec (Z.lor a b) 0) as [->|]; [lia|].
  apply (Z.log2_lt_cancel _ 256). rewrite Z.log2_lor by lia. change (Z.log2 256) with 8.
  assert (forall x, 0 <= x < 256 -> Z.log2 x < 8) as Hx.
  { intros x Hx. destruct (Z.eq_dec x 0) as [->|]; [simpl; lia|]. apply Z.log2_lt_pow2; lia. }
  apply Z.max_lub_lt; by apply Hx.
Qed.

Lemma uuid_bytes_ok ms rand :
  length rand = 10%nat -> bytes_ok rand ->
  length (uuidv7_bytes ms rand) = 16%nat /\ bytes_ok (uuidv7_bytes ms rand).
Proof.
  intros Hl Hr. unfold uuidv7_bytes. rewrite !length_insert, length_app, Hl. split; [done|].
  assert (forall x, byte_ok (Z.land x 255)) as H255.
  { intros x. change 255 with (Z.ones 8). rewrite Z.land_ones by lia. unfold byte_ok. change (2 ^ 8) with 256. zdiv. }
  unfold bytes_ok. apply Forall_insert; [apply Forall_insert|].
  - apply Forall_app. split; [|done]. repeat apply Forall_cons_2; [apply H255..|constructor].
  - apply lor_byte; [|unfold byte_ok; lia]. change 15 with (Z.ones 4). rewrite Z.land_ones by lia.
    unfold byte_ok. change (2 ^ 4) with 16. zdiv.
  - apply lor_byte; [|unfold byte_ok; lia]. change 63 with (Z.ones 6). rewrite Z.land_ones by lia.
    unfold byte_ok. change (2 ^ 6) with 64. zdiv.
Qed.

(** Sixteen bytes print as five groups of hex digits. *)
Lemma uuid_format_test bs : length bs = 16%nat -> bytes_ok bs -> uuid_test (uuid_format bs) = true.
Proof.
  intros Hl Hb. do 16 (destruct bs as [|? bs]; [done|]). destruct bs; [|done].
  unfold bytes_ok in Hb. rewrite !Forall_cons in Hb. unfold byte_ok in Hb.
  unfold uuid_test, uuid_format, slice. cbn [flat_map hex_byte app drop take Nat.sub hex_groups length forallb].
  repeat (rewrite hex_digit_is_hex by zdiv). done.
Qed.

Lemma lor_high a b n : 0 <= n -> Z.lor a b / 2 ^ n = Z.lor (a / 2 ^ n) (b / 2 ^ n).
Proof. intros Hn. by rewrite <- !Z.shiftr_div_pow2, Z.shiftr_lor. Qed.

(** The version nibble is 7 and the variant is one of 8, 9, a, b. *)
Lemma uuid_format_units bs : bytes_ok bs -> Forall unit_ok (uuid_format bs).
Proof.
  intros Hb. assert (Forall unit_ok (flat_map hex_byte bs)) as Hh.
  { induction Hb as [|b bs Hb _ IH]; [done|]. cbn [flat_map hex_byte app]. unfold byte_ok in Hb.
    repeat apply Forall_cons_2; [..|done]; unfold hex_digit, unit_ok; case_match; zdiv. }
  unfold uuid_format, slice. assert (Forall unit_ok [45]) as Hd by (apply Forall_singleton; unfold unit_ok; lia).
  rewrite !Forall_app. split_and!; try done; auto using Forall_take, Forall_drop.
Qed.

Lemma uuid_version_variant ms rand :
  length rand = 10%nat ->
  nth 14 (uuid_format (uuidv7_bytes ms rand)) 0 = 55 /\
  In (nth 19 (uuid_format (uuidv7_bytes ms rand)) 0) (js "89ab").
Proof.
  intros Hl. do 10 (destruct rand as [|? rand]; [done|]). destruct rand; [|done].
  unfold uuidv7_bytes. cbn [app nth insert list_insert]. unfold uuid_format, slice.
  cbn [flat_map hex_byte app drop take Nat.sub nth].
  pose proof (lor_high (Z.land z 15) 112 4 ltac:(lia)) as H7. pose proof (lor_high (Z.land z1 63) 128 4 ltac:(lia)) as H8.
  change (2 ^ 4) with 16 in H7, H8. rewrite H7, H8. clear H7 H8. change 15 with (Z.ones 4). change 63 with (Z.ones 6).
  rewrite !Z.land_ones by lia. change (2 ^ 4) with 16. change (2 ^ 6) with 64. change (112 / 16) with 7.
  change (128 / 16) with 8. split.
  - replace (z mod 16 / 16) with 0 by zdiv. done.
  - assert (z1 mod 64 / 16 = 0 \/ z1 mod 64 / 16 = 1 \/ z1 mod 64 / 16 = 2 \/ z1 mod 64 / 16 = 3)
      as [-> | [-> | [-> | ->]]] by zdiv; vm_compute; tauto.
Qed.

(** * Properties *)

(** C27: [assertValidA2APayload] accepts exactly the payloads the protocol
    allows: the action belongs to the block's type, a candidate list has 1 to
    20 entries, every candidate is a pair of ISO date-times with offsets, in
    order and at most 24 hours apart, titles are non-blank and text fields
    within their limits.  On any other payload it throws, an
    [A2AValidationError] or the [TypeError] of reading a property of [null]. *)
Theorem assertValidA2APayload_exact `{Host} (b : A2AProtocolBlock) :
  (assertValidA2APayload b = Ok tt <-> valid_payload (block_type b) (block_action b) (block_payload b)) /\
  (~ valid_payload (block_type b) (block_action b) (block_payload b) ->
   exists e, assertValidA2APayload b = Throw e /\
     (err_name e = js "A2AValidationError" \/ err_name e = js "TypeError")).
Proof.
  split; [apply payload_spec|]. rewrite <- payload_spec. intros Hb.
  destruct (assertValidA2APayload b) as [[]|e] eqn:E; [done|]. exists e. split; [done|].
  by apply (assertValidA2APayload_throws b).
Qed.

Example assertValidA2APayload_exact_witness :
  let h := {| host_base64_lenient := fun _ => []; host_date_parse := fun _ => None |} : Host in
  let b := ProtocolBlock (js "id-1") task_delegation propose None JNull in
  exists e, assertValidA2APayload b = Throw e /\
    (err_name e = js "A2AValidationError" \/ err_name e = js "TypeError").
Proof. intros h b. apply (assertValidA2APayload_exact b). by intros H. Defined.

(** C28: what [serializeA2APayload] writes, [parseA2APayload] reads back: under
    an A2A content type the body and the whole protocol block, payload
    included, are recovered with no parse error, and the recovered value is
    again a well-formed block. *)
Theorem serialize_parse_roundtrip (text ct : jstr) (p : option A2AProtocolBlock) :
  isA2AContentType (Some ct) = true ->
  Forall unit_ok text ->
  match p with Some b => block_ok b /\ block_json_ok b | None => True end ->
  let m := parseA2APayload (serializeA2APayload (message_to_val text p)) (Some ct) in
  body m = text /\ parse_error m = false /\
  (protocol m ≫= block_of_val) = p.
Proof.
  intros Hct Hb Hp m. subst m. rewrite message_roundtrip by done. split_and!; [done..|].
  destruct p as [b|]; [|done]. apply block_val_ok.
Qed.

Definition sample_block : A2AProtocolBlock :=
  ProtocolBlock (js "id-1") schedule_negotiation accept (Some (js "id-0"))
    (JObj [(js "selected_candidate",
            JObj [(js "start", JStr (js "2026-06-01T15:00:00+09:00"));
                  (js "end", JStr (js "2026-06-01T16:00:00+09:00"))])]).

Example serialize_parse_roundtrip_witness :
  let m := parseA2APayload (serializeA2APayload (message_to_val (js "See you") (Some sample_block)))
             (Some A2A_CONTENT_TYPE) in
  body m = js "See you" /\ parse_error m = false /\ (protocol m ≫= block_of_val) = Some sample_block.
Proof.
  apply (serialize_parse_roundtrip (js "See you") A2A_CONTENT_TYPE (Some sample_block)).
  - by vm_compute.
  - apply forallb_units. by vm_compute.
  - split; [split_and!; by vm_compute|].
    split_and!; [apply forallb_units; by vm_compute..|by vm_compute].
Defined.

(** [parseA2APayload] never lets an ill-formed protocol block through.  A
    block it returns comes only from text under an A2A content type, has a
    non-empty id, an action that belongs to its type, a [reply_to] that is a
    string or [null] and an object payload; text it cannot read is returned
    verbatim with no protocol; any other content type is never parsed. *)
Theorem parseA2APayload_guarded (raw : jstr) (ct : option jstr) :
  let m := parseA2APayload raw ct in
  (forall v, protocol m = Some v ->
     isA2AContentType ct = true /\ parse_error m = false /\
     exists b, block_of_val v = Some b /\ block_ok b) /\
  (parse_error m = true -> body m = raw /\ protocol m = None /\ isA2AContentType ct = true) /\
  (isA2AContentType ct = false -> m = ParsedBody raw None false).
Proof.
  unfold parseA2APayload. cbv zeta. destruct (isA2AContentType ct); cbn [negb]; [|done].
  destruct (json_parse raw) as [x|e]; [|done].
  destruct (isA2AMessagePayload x); cbn [negb]; [|done]. split_and!; [|done..].
  intros v Hv. cbn [protocol] in Hv. destruct (isA2AProtocolBlock (jget x (js "protocol"))) eqn:E.
  - apply block_guard_spec in E. rewrite andb_true_r in Hv.
    destruct (jtruthy _); [injection Hv as <-; eauto|done].
  - by rewrite andb_false_r in Hv.
Qed.

(** C40: a generated id is a UUID with version 7 and the RFC 9562 variant, and
    ids sort by creation time: an earlier clock gives a smaller string
    whatever the random bytes, for clocks below 2^48 ms. *)
Theorem uuidv7_ordered (ms ms' : Z) (rand rand' : bytes) :
  0 <= ms < ms' -> ms' < 2 ^ 48 ->
  length rand = 10%nat -> bytes_ok rand -> length rand' = 10%nat -> bytes_ok rand' ->
  exists u u', uuidv7 ms (Some rand) = Ok u /\ uuidv7 ms' (Some rand') = Ok u' /\
    uuid_test u = true /\ nth 14 u 0 = 55 /\ In (nth 19 u 0) (js "89ab") /\ str_ltb u u' = true.
Proof.
  intros Hms Hms' Hl Hr Hl' Hr'. eexists _, _. split_and!; [reflexivity..| | | |].
  - destruct (uuid_bytes_ok ms rand Hl Hr). by apply uuid_format_test.
  - by apply uuid_version_variant.
  - by apply uuid_version_variant.
  - destruct (uuid_clock ms rand) as [t ->]; [lia|done|].
    destruct (uuid_clock ms' rand') as [t' ->]; [lia|done|].
    assert (ms / 65536 < ms' / 65536 \/ ms / 65536 = ms' / 65536 /\ ms mod 65536 < ms' mod 65536)
      as [Hq|[-> Hr0]] by zdiv.
    + apply str_ltb_app; [by rewrite !hexn_length|]. apply hexn_lt; [zdiv|].
      change (16 ^ Z.of_nat 8) with 4294967296. change (2 ^ 48) with 281474976710656 in Hms'. zdiv.
    + do 2 apply str_ltb_prefix. apply str_ltb_app; [by rewrite !hexn_length|]. apply hexn_lt; [zdiv|].
      change (16 ^ Z.of_nat 4) with 65536. zdiv.
Qed.

Example uuidv7_ordered_witness :
  exists u u', uuidv7 1780293600000 (Some (replicate 10 255)) = Ok u /\
    uuidv7 1780293600001 (Some (replicate 10 0)) = Ok u' /\
    uuid_test u = true /\ nth 14 u 0 = 55 /\ In (nth 19 u 0) (js "89ab") /\ str_ltb u u' = true.
Proof.
  apply uuidv7_ordered; try done; unfold bytes_ok, byte_ok; repeat (apply Forall_cons_2; [lia|]); constructor.
Defined.
