(* ===== verification/Visibility.v ===== *)
(** Message visibility: packages/core/src/visibility.ts.

    [deriveMessageState] projects where the key lives, whether this device has
    it and how the last decryption went into the state the user sees. *)
From S2P Require Import Prelude.

Inductive AgentKeyHolder := web_keystore | signer_daemon | unknown.
Inductive MessageVisibilityState := decrypting | readable | unavailable_on_this_device | decrypt_failed.
Inductive DecryptOutcome := pending | ok | error | no_key.

Record DeriveMessageStateArgs := {
  recipientKeyHolder : AgentKeyHolder;
  localHasPrivateKey : bool;
  decryptOutcome : DecryptOutcome
}.

#[global] Instance key_holder_eq_dec : EqDecision AgentKeyHolder.
Proof. solve_decision. Defined.

Definition deriveMessageState (args : DeriveMessageStateArgs) : MessageVisibilityState :=
  match decryptOutcome args with
  | pending => decrypting
  | ok => readable
  | no_key => unavailable_on_this_device
  | error =>
    if bool_decide (recipientKeyHolder args = signer_daemon) && negb (localHasPrivateKey args)
    then unavailable_on_this_device
    else decrypt_failed
  end.

(** The four states partition the signals: plaintext is shown exactly when
    decryption succeeded, a spinner exactly while it is pending, "unavailable
    on this device" exactly when there is no key or a daemon-held key failed
    here, and a failure is reported exactly for an error this device should
    have been able to decrypt.  An unknown key holder behaves as the browser
    keystore. *)
Theorem deriveMessageState_classifies (a : DeriveMessageStateArgs) :
  (deriveMessageState a = readable <-> decryptOutcome a = ok) /\
  (deriveMessageState a = decrypting <-> decryptOutcome a = pending) /\
  (deriveMessageState a = unavailable_on_this_device <->
     decryptOutcome a = no_key \/
     (decryptOutcome a = error /\ recipientKeyHolder a = signer_daemon /\ localHasPrivateKey a = false)) /\
  (deriveMessageState a = decrypt_failed <->
     decryptOutcome a = error /\ (recipientKeyHolder a <> signer_daemon \/ localHasPrivateKey a = true)) /\
  deriveMessageState {| recipientKeyHolder := unknown; localHasPrivateKey := localHasPrivateKey a;
                        decryptOutcome := decryptOutcome a |}
  = deriveMessageState {| recipientKeyHolder := web_keystore; localHasPrivateKey := localHasPrivateKey a;
                          decryptOutcome := decryptOutcome a |}.
Proof. destruct a as [[] [] []]; vm_compute; intuition congruence. Qed.
