(* ===== verification/Effect.v ===== *)
(** Effectful code: a state and error monad, and counting what it does.

    [eff S A] is a computation over a state [S] that returns or throws; the
    state keeps every change made before a throw, as JavaScript does.  A state
    with a trace ([Traced]) records the observable events, newest first.
    [at_most p n m] says [m] only appends to the trace and that at most [n] of
    the events it appends satisfy [p]; the lemmas compute such bounds along
    the structure of a program. *)
From S2P Require Import Prelude.

Definition eff (S A : Type) : Type := S -> res A * S.

#[global] Instance eff_ret {S} : MRet (eff S) := fun A a s => (Ok a, s).
#[global] Instance eff_bind {S} : MBind (eff S) :=
  fun A B f m s => match m s with (Ok a, s') => f a s' | (Throw e, s') => (Throw e, s') end.

Section eff.
Context {S : Type}.

Definition raise {A} (e : jserror) : eff S A := fun s => (Throw e, s).
Definition lift {A} (r : res A) : eff S A := fun s => (r, s).
Definition raise_if (bad : bool) (e : jserror) : eff S unit := lift (throw_if bad e).

(** [try { m } catch (e) { h(e) }]. *)
Definition try_catch {A} (m : eff S A) (h : jserror -> eff S A) : eff S A :=
  fun s => match m s with (Ok a, s') => (Ok a, s') | (Throw e, s') => h e s' end.

Definition get_state : eff S S := fun s => (Ok s, s).
Definition put_state (s' : S) : eff S unit := fun _ => (Ok tt, s').

Fixpoint eff_iter {A} (f : A -> eff S unit) (l : list A) : eff S unit :=
  match l with
  | [] => mret tt
  | x :: r => f x ;; eff_iter f r
  end.

Fixpoint eff_map {A B} (f : A -> eff S B) (l : list A) : eff S (list B) :=
  match l with
  | [] => mret []
  | x :: r => y ← f x; ys ← eff_map f r; mret (y :: ys)
  end.

(** ** Equations *)

Lemma bind_ok {A B} (m : eff S A) (f : A -> eff S B) s a s' :
  m s = (Ok a, s') -> (m ≫= f) s = f a s'.
Proof. intros Hm. unfold mbind, eff_bind. by rewrite Hm. Qed.

Lemma bind_throw {A B} (m : eff S A) (f : A -> eff S B) s e s' :
  m s = (Throw e, s') -> (m ≫= f) s = (Throw e, s').
Proof. intros Hm. unfold mbind, eff_bind. by rewrite Hm. Qed.

Lemma bind_inv {A B} (m : eff S A) (f : A -> eff S B) s b s' :
  (m ≫= f) s = (Ok b, s') -> exists a s1, m s = (Ok a, s1) /\ f a s1 = (Ok b, s').
Proof. unfold mbind, eff_bind. destruct (m s) as [[a|e] s1]; [eauto|done]. Qed.

Lemma lift_inv {A} (r : res A) s a s' : lift r s = (Ok a, s') -> r = Ok a /\ s' = s.
Proof. unfold lift. by intros [= -> ->]. Qed.

Lemma raise_if_inv bad e s u s' : raise_if bad e s = (Ok u, s') -> bad = false /\ s' = s.
Proof. unfold raise_if. intros [H ->]%lift_inv. by apply throw_if_ok in H. Qed.

(** ** Relations every run respects *)

Definition respects {A} (R : S -> S -> Prop) (m : eff S A) : Prop := forall s, R s (m s).2.

Context (R : S -> S -> Prop) `{!PreOrder R}.

Lemma respects_ret {A} (a : A) : respects R (mret a).
Proof. by intros s. Qed.

Lemma respects_lift {A} (r : res A) : respects R (lift r).
Proof. by intros s. Qed.

Lemma respects_bind {A B} (m : eff S A) (f : A -> eff S B) :
  respects R m -> (forall a, respects R (f a)) -> respects R (m ≫= f).
Proof.
  intros Hm Hf s. specialize (Hm s). unfold mbind, eff_bind. destruct (m s) as [[a|e] s1]; [|done].
  etrans; [exact Hm|]. apply Hf.
Qed.

Lemma respects_catch {A} (m : eff S A) h :
  respects R m -> (forall e, respects R (h e)) -> respects R (try_catch m h).
Proof.
  intros Hm Hh s. specialize (Hm s). unfold try_catch. destruct (m s) as [[a|e] s1]; [done|].
  etrans; [exact Hm|]. apply Hh.
Qed.

Lemma respects_iter {A} (f : A -> eff S unit) l : (forall x, respects R (f x)) -> respects R (eff_iter f l).
Proof.
  intros Hf. induction l as [|x l IH]; [apply respects_ret|]. cbn [eff_iter].
  apply respects_bind; [done|]. by intros _.
Qed.

Lemma respects_map {A B} (f : A -> eff S B) l : (forall x, respects R (f x)) -> respects R (eff_map f l).
Proof.
  intros Hf. induction l as [|x l IH]; [apply respects_ret|]. cbn [eff_map].
  apply respects_bind; [done|]. intros y. apply respects_bind; [done|]. intros ys. apply respects_ret.
Qed.

(** A run that returns respects [R]; one that throws may not. *)
Definition returns_within {A} (m : eff S A) : Prop := forall s a s', m s = (Ok a, s') -> R s s'.

Lemma returns_respects {A} (m : eff S A) : respects R m -> returns_within m.
Proof. intros Hm s a s' E. specialize (Hm s). by rewrite E in Hm. Qed.

Lemma returns_bind {A B} (m : eff S A) (f : A -> eff S B) :
  returns_within m -> (forall a, returns_within (f a)) -> returns_within (m ≫= f).
Proof. intros Hm Hf s b s' (a & s1 & E1 & E2)%bind_inv. etrans; [by eapply Hm|by eapply Hf]. Qed.

Lemma returns_map {A B} (f : A -> eff S B) l : (forall x, returns_within (f x)) -> returns_within (eff_map f l).
Proof.
  intros Hf. induction l as [|x l IH]; [apply returns_respects, respects_ret|]. cbn [eff_map].
  apply returns_bind; [done|]. intros y. apply returns_bind; [done|]. intros ys. apply returns_respects, respects_ret.
Qed.

(** A run that throws respects [R]; one that returns may not. *)
Definition fails_clean {A} (m : eff S A) : Prop := forall s e s', m s = (Throw e, s') -> R s s'.

Lemma fails_clean_respects {A} (m : eff S A) : respects R m -> fails_clean m.
Proof. intros Hm s e s' E. specialize (Hm s). by rewrite E in Hm. Qed.

Lemma fails_clean_bind {A B} (m : eff S A) (f : A -> eff S B) :
  respects R m -> (forall a, fails_clean (f a)) -> fails_clean (m ≫= f).
Proof.
  intros Hm Hf s e s'. specialize (Hm s). unfold mbind, eff_bind. destruct (m s) as [[a|e1] s1].
  - intros E%Hf. by etrans.
  - by intros [= _ <-].
Qed.

(** The last step may change anything when nothing after it throws. *)
Lemma fails_clean_last {A B} (m : eff S A) (g : A -> B) :
  fails_clean m -> fails_clean (m ≫= fun a => mret (g a)).
Proof.
  intros Hm s e s'. unfold mbind, eff_bind. destruct (m s) as [[a|e1] s1] eqn:E; [done|].
  intros [= -> <-]. by eapply Hm.
Qed.

End eff.

Create HintDb effdb.
#[export] Hint Resolve respects_ret respects_lift respects_bind respects_catch respects_iter respects_map : effdb.

(** ** Traces *)

Class Traced (S E : Type) := the_trace : S -> list E.

Section traced.
Context {S E : Type} `{!Traced S E}.

Definition count (p : E -> bool) (l : list E) : nat := length (filter (fun e => p e = true) l).

Lemma count_app p l k : count p (l ++ k) = (count p l + count p k)%nat.
Proof. unfold count. by rewrite filter_app, length_app. Qed.

Lemma count_cons p e l : count p (e :: l) = ((if p e then 1 else 0) + count p l)%nat.
Proof.
  unfold count. rewrite filter_cons. destruct (p e); [by rewrite decide_True|by rewrite decide_False by done].
Qed.

(** [s'] extends the trace of [s] with at most [n] events satisfying [p]. *)
Definition extends (p : E -> bool) (n : nat) (s s' : S) : Prop :=
  exists l, the_trace s' = l ++ the_trace s /\ (count p l <= n)%nat.

Definition at_most {A} (p : E -> bool) (n : nat) (m : eff S A) : Prop := forall s, extends p n s (m s).2.

Lemma extends_refl p n s : extends p n s s.
Proof. exists []. split; [done|]. unfold count. simpl. lia. Qed.

Lemma extends_trans p n k s1 s2 s3 : extends p n s1 s2 -> extends p k s2 s3 -> extends p (n + k) s1 s3.
Proof.
  intros (l1 & E1 & H1) (l2 & E2 & H2). exists (l2 ++ l1). rewrite E2, E1, app_assoc, count_app.
  split; [done|lia].
Qed.

Lemma extends_weaken p n k s s' : extends p n s s' -> (n <= k)%nat -> extends p k s s'.
Proof. intros (l & El & Hl) Hn. exists l. split; [done|lia]. Qed.

Lemma at_most_weaken {A} p n k (m : eff S A) : at_most p n m -> (n <= k)%nat -> at_most p k m.
Proof. intros Hm Hn s. by eapply extends_weaken. Qed.

Lemma at_most_ret {A} p (a : A) : at_most p 0 (mret a).
Proof. intros s. apply extends_refl. Qed.

Lemma at_most_lift {A} p (r : res A) : at_most p 0 (lift r).
Proof. intros s. apply extends_refl. Qed.

Lemma at_most_raise {A} p e : at_most p 0 (@raise S A e).
Proof. intros s. apply extends_refl. Qed.

Lemma at_most_raise_if p b e : at_most p 0 (raise_if b e).
Proof. apply at_most_lift. Qed.

Lemma at_most_get p : at_most p 0 get_state.
Proof. intros s. apply extends_refl. Qed.

Lemma at_most_bind {A B} p n k (m : eff S A) (f : A -> eff S B) :
  at_most p n m -> (forall a, at_most p k (f a)) -> at_most p (n + k) (m ≫= f).
Proof.
  intros Hm Hf s. specialize (Hm s). unfold mbind, eff_bind. destruct (m s) as [[a|e] s1].
  - eapply extends_trans; [exact Hm|apply Hf].
  - eapply extends_weaken; [exact Hm|lia].
Qed.

(** The common case: nothing that satisfies [p] on either side. *)
Lemma at_most_bind0 {A B} p (m : eff S A) (f : A -> eff S B) :
  at_most p 0 m -> (forall a, at_most p 0 (f a)) -> at_most p 0 (m ≫= f).
Proof. intros Hm Hf. by apply (at_most_bind p 0 0). Qed.

Lemma at_most_catch {A} p n k (m : eff S A) h :
  at_most p n m -> (forall e, at_most p k (h e)) -> at_most p (n + k) (try_catch m h).
Proof.
  intros Hm Hh s. specialize (Hm s). unfold try_catch. destruct (m s) as [[a|e] s1].
  - eapply extends_weaken; [exact Hm|lia].
  - eapply extends_trans; [exact Hm|apply Hh].
Qed.

Lemma at_most_catch0 {A} p (m : eff S A) h :
  at_most p 0 m -> (forall e, at_most p 0 (h e)) -> at_most p 0 (try_catch m h).
Proof. intros Hm Hh. by apply (at_most_catch p 0 0). Qed.

Lemma at_most_iter0 {A} p (f : A -> eff S unit) l : (forall x, at_most p 0 (f x)) -> at_most p 0 (eff_iter f l).
Proof.
  intros Hf. induction l as [|x l IH]; [apply at_most_ret|]. cbn [eff_iter].
  apply at_most_bind0; [done|]. by intros _.
Qed.

Lemma at_most_map0 {A B} p (f : A -> eff S B) l : (forall x, at_most p 0 (f x)) -> at_most p 0 (eff_map f l).
Proof.
  intros Hf. induction l as [|x l IH]; [apply at_most_ret|]. cbn [eff_map].
  apply at_most_bind0; [done|]. intros y. apply at_most_bind0; [done|]. intros ys. apply at_most_ret.
Qed.

(** The trace of [s'] extends the trace of [s]. *)
Definition longer (s s' : S) : Prop := exists l, the_trace s' = l ++ the_trace s.

#[global] Instance longer_preorder : PreOrder longer.
Proof.
  split; [by exists []|]. intros s1 s2 s3 [l1 E1] [l2 E2]. exists (l2 ++ l1). by rewrite E2, E1, app_assoc.
Qed.

Lemma longer_elem e s s' : longer s s' -> e ∈ the_trace s -> e ∈ the_trace s'.
Proof. intros [l ->] He. apply elem_of_app. by right. Qed.

End traced.

#[export] Hint Resolve at_most_ret at_most_lift at_most_raise at_most_raise_if at_most_get at_most_bind0
  at_most_catch0 at_most_iter0 at_most_map0 : effdb.

(** Take a successful run apart, step by step. *)
Ltac eff_inv :=
  repeat match goal with
  | H : (_ ≫= _) _ = (Ok _, _) |- _ =>
    let H' := fresh "Hstep" in apply bind_inv in H as (? & ? & H' & H); cbv beta zeta in H
  | H : lift _ _ = (Ok _, _) |- _ => apply lift_inv in H as [H ->]
  | H : raise_if _ _ _ = (Ok _, _) |- _ => apply raise_if_inv in H as [H ->]
  | H : mret _ _ = (Ok _, _) |- _ => injection H as <- <-
  | H : raise _ _ = (Ok _, _) |- _ => discriminate H
  | u : unit |- _ => destruct u
  end.
