(* ===== verification/Node.v ===== *)
(** The platform the packages run on.

    [WebCrypto] is the cryptography ([crypto.subtle], [node:crypto] and the
    argon2 package): functions the development does not define, with the
    documented facts the code relies on as [WebCryptoLaws].  [Env] is
    everything else outside the program: randomness, the clock, the network,
    the gateway socket and file-system errors, each a function of the trace so
    far, so that any stateful environment is covered.  [World] is the state the
    code runs in. *)
From S2P Require Import Prelude Base64 Utf8 JsNumber Json Effect.

Inductive KeyAlg := Ed25519 | X25519.

#[global] Instance key_alg_eq_dec : EqDecision KeyAlg.
Proof. solve_decision. Defined.

Class WebCrypto := {
  aes_gcm_encrypt : bytes -> bytes -> bytes -> bytes;         (** key, iv, plaintext *)
  aes_gcm_decrypt : bytes -> bytes -> bytes -> option bytes;  (** key, iv, ciphertext with tag *)
  pbkdf2_sha256 : bytes -> bytes -> Z -> option bytes;        (** password, salt, iterations *)
  hkdf_sha256 : bytes -> bytes -> bytes -> bytes;             (** secret, salt, info *)
  argon2id : bytes -> bytes -> jnum -> jnum -> jnum -> option bytes; (** password, salt, memory, time, lanes *)
  sha256 : bytes -> bytes;
  key_public : KeyAlg -> bytes -> bytes;                      (** raw public half of a private key *)
  x25519_shared : bytes -> bytes -> option bytes;             (** private key, raw public key *)
  ed25519_sign : bytes -> bytes -> bytes;
  ed25519_verify : bytes -> bytes -> bytes -> bool;           (** raw public key, message, signature *)
  pkcs8_export : KeyAlg -> bytes -> bytes;
  pkcs8_import : KeyAlg -> bytes -> option bytes
}.

(** Facts documented for the primitives: AES-GCM decryption inverts encryption
    (SP 800-38D), both ends of an X25519 exchange agree and generated keys give
    a non-zero secret (RFC 7748), signatures verify (RFC 8032), PKCS#8 import
    inverts export, PBKDF2 accepts iteration counts that fit 32 bits, Argon2
    accepts the parameters the keystore writes, and outputs are byte strings of
    the documented length. *)
Class WebCryptoLaws `{WebCrypto} : Prop := {
  aes_gcm_inverse key iv pt : bytes_ok pt -> aes_gcm_decrypt key iv (aes_gcm_encrypt key iv pt) = Some pt;
  aes_gcm_bytes key iv pt : bytes_ok (aes_gcm_encrypt key iv pt);
  aes_gcm_nonempty key iv pt : aes_gcm_encrypt key iv pt <> [];
  x25519_agree a b : x25519_shared a (key_public X25519 b) = x25519_shared b (key_public X25519 a);
  x25519_some a b : is_Some (x25519_shared a (key_public X25519 b));
  key_public_length alg k : length (key_public alg k) = 32%nat;
  key_public_bytes alg k : bytes_ok (key_public alg k);
  pbkdf2_some pw salt n : 1 <= n < 2 ^ 32 -> is_Some (pbkdf2_sha256 pw salt n);
  argon2id_some pw salt : is_Some (argon2id pw salt (num 65536) (num 3) (num 1));
  sha256_bytes m : bytes_ok (sha256 m);
  sha256_length m : length (sha256 m) = 32%nat;
  ed25519_bytes k m : bytes_ok (ed25519_sign k m);
  ed25519_correct k m : ed25519_verify (key_public Ed25519 k) m (ed25519_sign k m) = true;
  pkcs8_inverse alg k : bytes_ok k -> pkcs8_import alg (pkcs8_export alg k) = Some k;
  pkcs8_bytes alg k : bytes_ok (pkcs8_export alg k)
}.

(** ** Messages to the outside *)

Inductive ReqBody := NoBody | TextBody (text : jstr) | ByteBody (bs : bytes).

Record Request := HttpRequest {
  rq_method : jstr; rq_url : jstr; rq_headers : list (jstr * jstr); rq_body : ReqBody
}.
Record Response := HttpResponse { rs_status : Z; rs_text : jstr }.

(** [response.ok]. *)
Definition rs_ok (r : Response) : bool := (200 <=? rs_status r) && (rs_status r <=? 299).

Inductive FsOp :=
| FsMkdir (dir : jstr) (mode : Z)
| FsWriteFile (path data : jstr) (mode : Z)
| FsRename (from to : jstr)
| FsChmod (path : jstr) (mode : Z)
| FsAccess (path : jstr)
| FsReadFile (path : jstr).

(** The browser's [localStorage] and [sessionStorage], and its IndexedDB
    object stores. *)
Inductive StorageArea := LocalStorage | SessionStorage.

Inductive StorageOp :=
| StKeys (area : StorageArea)
| StGet (area : StorageArea) (key : jstr)
| StSet (area : StorageArea) (key value : jstr)
| StRemove (area : StorageArea) (key : jstr).

Inductive IdbOp :=
| IdbGet (store id : jstr)
| IdbPut (store id : jstr)
| IdbDelete (store id : jstr)
| IdbGetAll (store : jstr).

Inductive Event :=
| EvRandom (n : nat)
| EvKeygen (alg : KeyAlg)
| EvNow
| EvUuid
| EvFetch (rq : Request)
| EvSocket (path line : jstr)
| EvTransport (method : jstr) (params : jval)
| EvAudit (entry : jval)
| EvWrite (stderr : bool) (text : jstr)
| EvFs (op : FsOp)
| EvStorage (op : StorageOp)
| EvIdb (op : IdbOp).

Class Env := {
  env_random : list Event -> nat -> bytes;
  env_keygen : list Event -> KeyAlg -> bytes;
  env_now : list Event -> Z;
  env_uuid : list Event -> jstr;
  env_fetch : list Event -> Request -> res Response;
  (** The chunks a gateway socket delivers for a request line, and the error
      that ends the connection if no line was complete by then. *)
  env_socket : list Event -> jstr -> jstr -> list bytes * jserror;
  env_transport : list Event -> jstr -> jval -> res jval;
  env_fs_error : list Event -> FsOp -> option jserror;
  env_pid : Z;
  env_home : jstr;
  env_var : jstr -> option jstr;
  (** The pathname of a URL the WHATWG parser accepts. *)
  env_url_pathname : jstr -> res jstr
}.

Class EnvLaws `{Env} : Prop := {
  random_length h n : length (env_random h n) = n;
  random_bytes h n : bytes_ok (env_random h n);
  keygen_bytes h alg : bytes_ok (env_keygen h alg);
  now_range h : 0 <= env_now h < 253402300800000;   (** before the year 10000 *)
  uuid_units h : Forall unit_ok (env_uuid h);
  pathname_units u p : env_url_pathname u = Ok p -> Forall unit_ok p
}.

Record DpopKeyPair := Dpop { dpop_private : bytes; dpop_jwk : jval }.

(** The mutable fields of the API client: [accessToken] as the server's JSON
    gave it, and the DPoP key. *)
Record ClientState := { cs_accessToken : jval; cs_dpop : DpopKeyPair }.

Record World := {
  w_trace : list Event;
  w_files : gmap jstr jstr;
  w_client : ClientState
}.

#[global] Instance world_traced : Traced World Event := w_trace.

Abbreviation M := (eff World).

Section effects.
Context `{Env}.

Definition emit (e : Event) : M unit :=
  fun w => (Ok tt, {| w_trace := e :: w_trace w; w_files := w_files w; w_client := w_client w |}).

(** One outside call: the response is computed from the trace before it. *)
Definition ask {A} (e : Event) (answer : list Event -> A) : M A :=
  fun w => (Ok (answer (w_trace w)),
            {| w_trace := e :: w_trace w; w_files := w_files w; w_client := w_client w |}).

Definition get_random (n : nat) : M bytes := ask (EvRandom n) (fun h => env_random h n).
Definition generate_key (alg : KeyAlg) : M bytes := ask (EvKeygen alg) (fun h => env_keygen h alg).
Definition now_ms : M Z := ask EvNow env_now.
Definition random_uuid : M jstr := ask EvUuid env_uuid.

Definition fetch (rq : Request) : M Response :=
  r ← ask (EvFetch rq) (fun h => env_fetch h rq); lift r.

Definition set_client (c : ClientState) : M unit :=
  fun w => (Ok tt, {| w_trace := w_trace w; w_files := w_files w; w_client := c |}).

Definition set_files (f : gmap jstr jstr) : M unit :=
  fun w => (Ok tt, {| w_trace := w_trace w; w_files := f; w_client := w_client w |}).

(** A file operation that the file system may refuse. *)
Definition fs_call (op : FsOp) : M unit :=
  r ← ask (EvFs op) (fun h => env_fs_error h op);
  match r with Some e => raise e | None => mret tt end.

Definition ENOENT : jserror := Error_ (js "ENOENT: no such file or directory").

Definition fs_mkdir (dir : jstr) : M unit := fs_call (FsMkdir dir 448).

Definition fs_write_file (path data : jstr) (mode : Z) : M unit :=
  fs_call (FsWriteFile path data mode) ;;
  w ← get_state; set_files (<[path := data]> (w_files w)).

Definition fs_rename (from to : jstr) : M unit :=
  fs_call (FsRename from to) ;;
  w ← get_state;
  match w_files w !! from with
  | Some data => set_files (<[to := data]> (delete from (w_files w)))
  | None => raise ENOENT
  end.

Definition fs_chmod (path : jstr) (mode : Z) : M unit := fs_call (FsChmod path mode).

Definition fs_access (path : jstr) : M unit :=
  fs_call (FsAccess path) ;;
  w ← get_state;
  match w_files w !! path with Some _ => mret tt | None => raise ENOENT end.

Definition fs_read_file (path : jstr) : M jstr :=
  fs_call (FsReadFile path) ;;
  w ← get_state;
  match w_files w !! path with Some data => mret data | None => raise ENOENT end.

(** ** What each primitive adds to the trace *)

Lemma at_most_ask {A} p e (f : list Event -> A) : p e = false -> at_most p 0 (ask e f).
Proof. intros Hp w. exists [e]. split; [done|]. rewrite count_cons, Hp. unfold count. simpl. lia. Qed.

Lemma at_most_ask1 {A} p e (f : list Event -> A) : at_most p 1 (ask e f).
Proof. intros w. exists [e]. split; [done|]. rewrite count_cons. unfold count. simpl. destruct (p e); lia. Qed.

Lemma at_most_emit p e : p e = false -> at_most p 0 (emit e).
Proof. intros Hp w. exists [e]. split; [done|]. rewrite count_cons, Hp. unfold count. simpl. lia. Qed.

Lemma at_most_set_client p c : at_most p 0 (set_client c).
Proof. intros w. exists []. split; [done|]. unfold count. simpl. lia. Qed.

Lemma at_most_set_files p f : at_most p 0 (set_files f).
Proof. intros w. exists []. split; [done|]. unfold count. simpl. lia. Qed.

Lemma at_most_fetch1 p rq : at_most p 1 (fetch rq).
Proof. apply (at_most_bind p 1 0); [apply at_most_ask1|]. intros r. apply at_most_lift. Qed.

Lemma at_most_fetch0 p rq : p (EvFetch rq) = false -> at_most p 0 (fetch rq).
Proof. intros Hp. apply at_most_bind0; [by apply at_most_ask|]. intros r. apply at_most_lift. Qed.

Lemma at_most_fs_call p op : p (EvFs op) = false -> at_most p 0 (fs_call op).
Proof.
  intros Hp. apply at_most_bind0; [by apply at_most_ask|]. intros [e|]; [apply at_most_raise|apply at_most_ret].
Qed.

Lemma longer_ask {A} e (f : list Event -> A) : respects longer (ask e f).
Proof. intros w. by exists [e]. Qed.

End effects.

#[export] Hint Resolve at_most_ask at_most_emit at_most_set_client at_most_set_files at_most_fetch0
  at_most_fs_call : effdb.
#[export] Hint Resolve longer_ask : effdb.

(** Events of each kind. *)
Definition is_fetch (e : Event) : bool := match e with EvFetch _ => true | _ => false end.
Definition is_audit (e : Event) : bool := match e with EvAudit _ => true | _ => false end.
Definition is_fs (e : Event) : bool := match e with EvFs _ => true | _ => false end.
Definition fetches_with (method : jstr) (e : Event) : bool :=
  match e with EvFetch rq => jeqb (rq_method rq) method | _ => false end.

(** ** String conversions of JSON values *)

(** An element of [Array.prototype.join]. *)
Fixpoint join_part (v : jval) : jstr :=
  match v with
  | JUndef | JNull => []
  | JBool b => if b then js "true" else js "false"
  | JNum n => num_to_string n
  | JStr s => s
  | JArr l => join_with (js ",") (map join_part l)
  | JObj _ => js "[object Object]"
  end.

(** [String(v)], as in a template literal. *)
Definition js_string (v : jval) : jstr :=
  match v with JUndef => js "undefined" | JNull => js "null" | _ => join_part v end.

(** ** A toy cryptography, showing the laws can hold

    Encryption appends a tag that depends on the key; a key is its own public
    half. *)
Definition to_bytes (k : bytes) : bytes := map (fun b => b mod 256) k.
Definition pad32 (k : bytes) : bytes := take 32 (to_bytes k ++ replicate 32 0).
Definition key_tag (k : bytes) : Z := foldr Z.add 0 k mod 256.
Definition zip_sum (a b : bytes) : bytes := zip_with (fun x y => (x + y) mod 256) a b.

#[global] Instance toy_crypto : WebCrypto := {|
  aes_gcm_encrypt := fun k _ pt => key_tag k :: to_bytes pt;
  aes_gcm_decrypt := fun k _ ct =>
    match ct with t :: r => if t =? key_tag k then Some r else None | [] => None end;
  pbkdf2_sha256 := fun pw salt n => if (1 <=? n) && (n <? 2 ^ 32) then Some pw else None;
  hkdf_sha256 := fun s _ _ => s;
  argon2id := fun pw _ _ _ _ => Some pw;
  sha256 := pad32;
  key_public := fun _ k => pad32 k;
  x25519_shared := fun a b => Some (zip_sum (pad32 a) (pad32 b));
  ed25519_sign := fun k m => pad32 k ++ to_bytes m;
  ed25519_verify := fun pub m s => bool_decide (s = pub ++ to_bytes m);
  pkcs8_export := fun _ k => to_bytes k;
  pkcs8_import := fun _ k => Some k
|}.

Lemma to_bytes_ok k : bytes_ok (to_bytes k).
Proof.
  unfold bytes_ok, to_bytes. apply Forall_forall. intros b Hb. apply list_elem_of_fmap in Hb as (x & -> & _).
  unfold byte_ok. zdiv.
Qed.

Lemma to_bytes_id k : bytes_ok k -> to_bytes k = k.
Proof.
  unfold bytes_ok, byte_ok. induction 1 as [|b k Hb _ IH]; [done|]. unfold to_bytes in *. simpl. rewrite IH.
  f_equal. zdiv.
Qed.

Lemma pad32_length k : length (pad32 k) = 32%nat.
Proof. unfold pad32. rewrite length_take, length_app, length_replicate. lia. Qed.

Lemma pad32_bytes k : bytes_ok (pad32 k).
Proof.
  unfold pad32. apply Forall_take, Forall_app. split; [apply to_bytes_ok|]. apply Forall_replicate.
  unfold byte_ok. lia.
Qed.

Lemma pad32_idem k : pad32 (pad32 k) = pad32 k.
Proof.
  unfold pad32 at 1. rewrite to_bytes_id by apply pad32_bytes.
  rewrite take_app_le by (rewrite pad32_length; lia). apply take_ge. rewrite pad32_length. lia.
Qed.

Lemma zip_sum_comm a b : zip_sum a b = zip_sum b a.
Proof.
  unfold zip_sum. revert b. induction a as [|x a IH]; intros [|y b]; simpl; [done..|].
  rewrite IH. do 2 f_equal. lia.
Qed.

#[global] Instance toy_laws : WebCryptoLaws.
Proof.
  split; cbn [aes_gcm_encrypt aes_gcm_decrypt pbkdf2_sha256 hkdf_sha256 argon2id sha256 key_public
    x25519_shared ed25519_sign ed25519_verify pkcs8_export pkcs8_import toy_crypto]; intros.
  - rewrite Z.eqb_refl. f_equal. by apply to_bytes_id.
  - apply Forall_cons_2; [unfold byte_ok, key_tag; zdiv|apply to_bytes_ok].
  - done.
  - rewrite !pad32_idem. f_equal. apply zip_sum_comm.
  - eauto.
  - apply pad32_length.
  - apply pad32_bytes.
  - destruct (Z.leb_spec 1 n); [|lia]. destruct (Z.ltb_spec n (2 ^ 32)); [|lia]. eauto.
  - eauto.
  - apply pad32_bytes.
  - apply pad32_length.
  - apply Forall_app. split; [apply pad32_bytes|apply to_bytes_ok].
  - by apply bool_decide_eq_true.
  - f_equal. by apply to_bytes_id.
  - apply to_bytes_ok.
Qed.

(** An environment with the given network and gateway, no randomness to speak
    of and a file system that never refuses. *)
Definition answering_env (http : list Event -> Request -> res Response)
    (transport : list Event -> jstr -> jval -> res jval) : Env := {|
  env_random := fun h n => replicate n (Z.of_nat (length h) mod 256);
  env_keygen := fun h _ => replicate 32 (Z.of_nat (length h) mod 256);
  env_now := fun _ => 1780293600000;
  env_uuid := fun _ => js "00000000-0000-4000-8000-000000000000";
  env_fetch := http;
  env_socket := fun _ _ _ => ([], Error_ (js "ECONNRESET"));
  env_transport := transport;
  env_fs_error := fun _ _ => None;
  env_pid := 1;
  env_home := js "/home/agent";
  env_var := fun _ => None;
  env_url_pathname := fun _ => Ok (js "/messages")
|}.

#[global] Instance answering_laws http transport : EnvLaws (H := answering_env http transport).
Proof.
  split; cbn [env_random env_keygen env_now env_uuid env_url_pathname answering_env]; intros.
  - apply length_replicate.
  - apply Forall_replicate. unfold byte_ok. zdiv.
  - apply Forall_replicate. unfold byte_ok. zdiv.
  - lia.
  - apply forallb_units. by vm_compute.
  - match goal with H : Ok _ = Ok _ |- _ => injection H as <- end. apply forallb_units. by vm_compute.
Qed.

(** Every request answered with [text]. *)
Definition reply_env (text : jstr) : Env :=
  answering_env (fun _ _ => Ok (HttpResponse 200 text)) (fun _ _ _ => Ok JUndef).

#[global] Instance reply_laws text : EnvLaws (H := reply_env text) := answering_laws _ _.

Definition quiet_env : Env := reply_env (js "{}").

#[global] Instance quiet_laws : EnvLaws (H := quiet_env) := answering_laws _ _.
