(* ===== verification/Envelope.v ===== *)
(** End-to-end envelopes: packages/crypto/src/index.ts, the envelope half of
    packages/core/src/index.ts and packages/mcp-server/src/decrypt.ts.

    [CryptoPkg] and [Core] hold the two copies of the text encryption;
    [Decrypt] is the recipient's side.  Web Crypto is taken to be present, so
    [ensureCrypto] does not appear. *)
From S2P Require Import Prelude Base64 Utf8 JsNumber Json JsDate A2A Effect Node.

(** A DOMException of the cryptography layer. *)
Definition OperationError : jserror := JsError (js "OperationError") (js "The operation failed").
Definition DataError : jserror := JsError (js "DataError") (js "Invalid key data").

Definition or_throw {A} (o : option A) (e : jserror) : res A :=
  match o with Some a => Ok a | None => Throw e end.

(** WebIDL [EnforceRange] unsigned long: the integer part, or a [TypeError]. *)
Definition enforce_u32 (n : jnum) : res Z :=
  match n with
  | Fin q =>
    let z := Z.quot (Qnum q) (Zpos (Qden q)) in
    if (0 <=? z) && (z <? 2 ^ 32) then Ok z else Throw (TypeError_ (js "value is out of range"))
  | _ => Throw (TypeError_ (js "value is out of range"))
  end.

(** The string a WebIDL [USVString] argument with default "" receives. *)
Definition text_arg (v : jval) : jstr := match v with JUndef => [] | _ => js_string v end.

Record EncryptedPayload := EncPayload {
  v : jnum; alg : jstr; kdf : jstr; iter : jnum; salt : jstr; iv : jstr; ct : jstr
}.

(** ** packages/crypto *)
Module CryptoPkg.

Definition envelopeVersion : Z := 1.
Definition PBKDF2_ITERATIONS : Z := 120000.
Definition SALT_BYTES : nat := 16.
Definition IV_BYTES : nat := 12.

Section crypto.
Context `{WebCrypto, Env}.

Definition deriveAesKey (passphrase : jstr) (salt : bytes) (iterations : jnum) : res bytes :=
  n ← enforce_u32 iterations;
  or_throw (pbkdf2_sha256 (utf8_encode passphrase) salt n) OperationError.

Definition encryptText (plainText : jval) (passphrase : jstr) : M EncryptedPayload :=
  salt ← get_random SALT_BYTES;
  iv ← get_random IV_BYTES;
  key ← lift (deriveAesKey passphrase salt (num PBKDF2_ITERATIONS));
  let ciphertext := aes_gcm_encrypt key iv (utf8_encode (text_arg plainText)) in
  mret (EncPayload (num envelopeVersion) (js "AES-GCM-256") (js "PBKDF2-SHA256") (num PBKDF2_ITERATIONS)
          (CryptoB64.toBase64Url salt) (CryptoB64.toBase64Url iv) (CryptoB64.toBase64Url ciphertext)).

Definition decryptText (payload : EncryptedPayload) (passphrase : jstr) : res jstr :=
  throw_if (negb (num_eqb (v payload) (num envelopeVersion))) (Error_ (js "unsupported envelope version")) ;;
  throw_if (negb (jeqb (alg payload) (js "AES-GCM-256")) || negb (jeqb (kdf payload) (js "PBKDF2-SHA256")))
    (Error_ (js "unsupported algorithm")) ;;
  salt_bytes ← CryptoB64.fromBase64Url (salt payload);
  key ← deriveAesKey passphrase salt_bytes (iter payload);
  iv_bytes ← CryptoB64.fromBase64Url (iv payload);
  ct_bytes ← CryptoB64.fromBase64Url (ct payload);
  plaintext ← or_throw (aes_gcm_decrypt key iv_bytes ct_bytes) OperationError;
  Ok (text_decode plaintext).

End crypto.

Definition serializeEncryptedPayload (p : EncryptedPayload) : jstr :=
  js "enc:v" ++ num_to_string (v p) ++ js ":" ++ kdf p ++ js ":" ++ alg p ++ js ":"
  ++ num_to_string (iter p) ++ js ":" ++ salt p ++ js ":" ++ iv p ++ js ":" ++ ct p.

Definition parseEncryptedPayload (text : jstr) : option EncryptedPayload :=
  if negb (starts_with (js "enc:v") text) then None
  else
    match split_on 58 text with
    | [_; p1; p2; p3; p4; p5; p6; p7] =>
      let version := number_of_string (remove_first 118 p1) in
      let iter := number_of_string p4 in
      if negb (num_is_finite version) || negb (num_is_finite iter) then None
      else if num_ltb iter (num 100000) || num_ltb (num 1000000) iter then None
      else Some (EncPayload version p3 p2 iter p5 p6 p7)
    | _ => None
    end.

End CryptoPkg.

(** ** packages/core: the sender *)

Record SendEnvelope := Envelope {
  encrypted_content : jstr; encrypted_key : jstr; nonce : jstr; signature : option jstr;
  subject_encrypted : jstr; thread_id : jval; content_type : jstr; has_attachments : bool
}.

(** The JSON object of an envelope. *)
Definition envelope_to_val (e : SendEnvelope) : jval :=
  JObj ([(js "encrypted_content", JStr (encrypted_content e)); (js "encrypted_key", JStr (encrypted_key e));
         (js "nonce", JStr (nonce e))]
        ++ match signature e with Some s => [(js "signature", JStr s)] | None => [] end
        ++ [(js "metadata",
             JObj [(js "subject_encrypted", JStr (subject_encrypted e)); (js "thread_id", thread_id e);
                   (js "content_type", JStr (content_type e));
                   (js "has_attachments", JBool (has_attachments e))])]).

(** Fields filled from server JSON or tool arguments stay [jval]. *)
Record SendTextMessageInput := TextMessage {
  senderDid : jval; recipientDid : jval; recipientEncryptionPublicKey : jval;
  senderSigningPrivateKey : bytes; subject : jval; text_body : jval; priority : jval; threadId : jval
}.

Module Core.

Definition PBKDF2_ITERATIONS : Z := 120000.

Section core.
Context `{Host, WebCrypto, Env}.

Definition toBase64UrlJson (value : jval) : jstr :=
  CoreB64.toBase64Url (utf8_encode (json_stringify value)).

Definition deriveAesKey (passphrase : jstr) (salt : bytes) (iterations : jnum) : res bytes :=
  n ← enforce_u32 iterations;
  or_throw (pbkdf2_sha256 (utf8_encode passphrase) salt n) OperationError.

Definition encryptText (plainText : jval) (passphrase : jstr) : M EncryptedPayload :=
  salt ← get_random 16;
  iv ← get_random 12;
  key ← lift (deriveAesKey passphrase salt (num PBKDF2_ITERATIONS));
  let ciphertext := aes_gcm_encrypt key iv (utf8_encode (text_arg plainText)) in
  mret (EncPayload (num 1) (js "AES-GCM-256") (js "PBKDF2-SHA256") (num PBKDF2_ITERATIONS)
          (CoreB64.toBase64Url salt) (CoreB64.toBase64Url iv) (CoreB64.toBase64Url ciphertext)).

Definition serializeEncryptedPayload (p : EncryptedPayload) : jstr :=
  js "enc:v" ++ num_to_string (v p) ++ js ":" ++ kdf p ++ js ":" ++ alg p ++ js ":"
  ++ num_to_string (iter p) ++ js ":" ++ salt p ++ js ":" ++ iv p ++ js ":" ++ ct p.

Definition sha256Base64Url (text : jstr) : jstr := CoreB64.toBase64Url (sha256 (utf8_encode text)).

Definition generateContentKey : M jstr := k ← get_random 32; mret (CoreB64.toBase64Url k).

Definition deriveWrapKey (sharedSecret salt : bytes) : bytes :=
  hkdf_sha256 sharedSecret salt (utf8_encode (js "nexusinbox/x25519-wrap/v1")).

(** [isValidX25519PublicKeyB64Url] of a value that may not be a string: the
    [replace] call throws and the guard answers [false]. *)
Definition valid_x25519_val (key : jval) : bool :=
  match key with JStr s => CoreB64.isValidX25519PublicKeyB64Url s | _ => false end.

Definition key_bytes (key : jval) : bytes :=
  match key with JStr s => CoreB64.fromBase64Url s | _ => [] end.

Definition wrapContentKeyForRecipient (contentKey : jstr) (recipientPublicKeyB64Url : jval) : M jstr :=
  raise_if (negb (valid_x25519_val recipientPublicKeyB64Url))
    (Error_ (js "invalid x25519 public key format")) ;;
  ephemeral ← generate_key X25519;
  sharedBits ← lift (or_throw (x25519_shared ephemeral (key_bytes recipientPublicKeyB64Url)) OperationError);
  salt ← get_random 16;
  iv ← get_random 12;
  let wrapKey := deriveWrapKey sharedBits salt in
  let ciphertext := aes_gcm_encrypt wrapKey iv (utf8_encode contentKey) in
  let ephemeralRaw := key_public X25519 ephemeral in
  mret (js "x25519v1:" ++ CoreB64.toBase64Url ephemeralRaw ++ js ":" ++ CoreB64.toBase64Url salt
        ++ js ":" ++ CoreB64.toBase64Url iv ++ js ":" ++ CoreB64.toBase64Url ciphertext).

(** The text that is signed. *)
Definition signed_payload (senderDid recipientDid : jval)
    (subjectEncrypted encryptedContent encryptedKey nonce : jstr) : jstr :=
  join_with [10] [join_part senderDid; join_part recipientDid; subjectEncrypted; encryptedContent;
                  encryptedKey; nonce].

Definition signEnvelopePayload (signingPrivateKey : bytes) (senderDid recipientDid : jval)
    (subjectEncrypted encryptedContent encryptedKey nonce : jstr) : jstr :=
  let payload := signed_payload senderDid recipientDid subjectEncrypted encryptedContent encryptedKey nonce in
  CoreB64.toBase64Url (ed25519_sign signingPrivateKey (utf8_encode payload)).

Definition buildEncryptedTextEnvelope (input : SendTextMessageInput) : M SendEnvelope :=
  contentKey ← generateContentKey;
  encryptedSubject ← encryptText (subject input) contentKey;
  encryptedBody ← encryptText (text_body input) contentKey;
  let subjectEncrypted := serializeEncryptedPayload encryptedSubject in
  let encryptedContent := serializeEncryptedPayload encryptedBody in
  encryptedKey ← wrapContentKeyForRecipient contentKey (recipientEncryptionPublicKey input);
  let signature := signEnvelopePayload (senderSigningPrivateKey input) (senderDid input)
    (recipientDid input) subjectEncrypted encryptedContent encryptedKey (iv encryptedBody) in
  mret (Envelope encryptedContent encryptedKey (iv encryptedBody) (Some signature) subjectEncrypted
          (threadId input) (js "text/plain") false).

(** [input.body] of a [SendA2AMessageInput] is a string. *)
Definition buildA2AEnvelope (input : SendTextMessageInput) (body : jstr) (protocol : option A2AProtocolBlock)
    : M SendEnvelope :=
  match protocol with Some p => lift (assertValidA2APayload p) | None => mret tt end ;;
  let serialised := serializeA2APayload (message_to_val body protocol) in
  contentKey ← generateContentKey;
  encryptedSubject ← encryptText (subject input) contentKey;
  encryptedBody ← encryptText (JStr serialised) contentKey;
  let subjectEncrypted := serializeEncryptedPayload encryptedSubject in
  let encryptedContent := serializeEncryptedPayload encryptedBody in
  encryptedKey ← wrapContentKeyForRecipient contentKey (recipientEncryptionPublicKey input);
  let signature := signEnvelopePayload (senderSigningPrivateKey input) (senderDid input)
    (recipientDid input) subjectEncrypted encryptedContent encryptedKey (iv encryptedBody) in
  mret (Envelope encryptedContent encryptedKey (iv encryptedBody) (Some signature) subjectEncrypted
          (threadId input) (match protocol with Some _ => A2A_CONTENT_TYPE | None => js "text/plain" end) false).

End core.
End Core.

(** ** packages/mcp-server/src/decrypt.ts: the recipient *)
Module Decrypt.

Definition WRAP_PREFIX : jstr := js "x25519v1:".

Section decrypt.
Context `{Host, WebCrypto}.

Definition deriveWrapKey (sharedSecret salt : bytes) : bytes :=
  hkdf_sha256 sharedSecret salt (utf8_encode (js "nexusinbox/x25519-wrap/v1")).

(** [importKey("raw", ...)] of an X25519 public key. *)
Definition import_x25519_raw (raw : bytes) : res bytes :=
  if (length raw =? 32)%nat then Ok raw else Throw DataError.

Definition unwrapContentKey (wrappedKey : jstr) (recipientPrivateKey : bytes) : res jstr :=
  throw_if (negb (starts_with WRAP_PREFIX wrappedKey)) (Error_ (js "unsupported wrapped key format")) ;;
  let raw := drop (length WRAP_PREFIX) wrappedKey in
  let parts := split_on 58 raw in
  let ephemeralPublicKeyB64 := nth 0 parts [] in
  let saltB64 := nth 1 parts [] in
  let ivB64 := nth 2 parts [] in
  let ciphertextB64 := nth 3 parts [] in
  throw_if (negb (truthy_str ephemeralPublicKeyB64) || negb (truthy_str saltB64) || negb (truthy_str ivB64)
            || negb (truthy_str ciphertextB64)) (Error_ (js "invalid wrapped key format")) ;;
  ephemeralPublicKey ← import_x25519_raw (McpB64.fromB64url ephemeralPublicKeyB64);
  sharedBits ← or_throw (x25519_shared recipientPrivateKey ephemeralPublicKey) OperationError;
  let wrapKey := deriveWrapKey sharedBits (McpB64.fromB64url saltB64) in
  plaintext ← or_throw (aes_gcm_decrypt wrapKey (McpB64.fromB64url ivB64) (McpB64.fromB64url ciphertextB64))
                OperationError;
  Ok (text_decode plaintext).

Definition decryptSafely (serialized contentKey : jstr) : jstr :=
  match CryptoPkg.parseEncryptedPayload serialized with
  | None => serialized
  | Some parsed =>
    match CryptoPkg.decryptText parsed contentKey with
    | Ok text => text
    | Throw _ => js "(decryption failed)"
    end
  end.

(** Returns the subject and the body. *)
Definition decryptEnvelopeTextWithContentKey (encrypted_content subject_encrypted contentKey : jstr)
    : jstr * jstr :=
  let body := decryptSafely encrypted_content contentKey in
  let subject := if truthy_str subject_encrypted then decryptSafely subject_encrypted contentKey else [] in
  (subject, body).

Definition decryptEnvelopeTextForRecipient (encrypted_content encrypted_key subject_encrypted : jstr)
    (recipientPrivateKey : bytes) : res (jstr * jstr) :=
  contentKey ← unwrapContentKey encrypted_key recipientPrivateKey;
  Ok (decryptEnvelopeTextWithContentKey encrypted_content subject_encrypted contentKey).

End decrypt.
End Decrypt.

(** * Lemmas *)

Lemma text_arg_str s : text_arg (JStr s) = s.
Proof. done. Qed.

(** ** The text form of a payload *)

Definition payload_fields (p : EncryptedPayload) : list jstr := [kdf p; alg p; salt p; iv p; ct p].

(** Payloads with integer version and iteration count and colon-free fields. *)
Definition plain_payload (p : EncryptedPayload) : Prop :=
  exists n k, v p = num n /\ iter p = num k /\ 0 <= n < 2 ^ 53 /\ 100000 <= k <= 1000000 /\
    Forall (fun f => 58 ∉ f) (payload_fields p).

Lemma digits_no_colon n : 0 <= n -> 58 ∉ dec_of_nonneg n.
Proof.
  intros Hn Hin. pose proof (dec_of_nonneg_digits n Hn) as Hd. rewrite Forall_forall in Hd.
  specialize (Hd _ Hin). done.
Qed.

Lemma serialize_parts p n k :
  v p = num n -> iter p = num k -> 0 <= n < 2 ^ 53 -> 0 <= k < 2 ^ 53 ->
  CryptoPkg.serializeEncryptedPayload p
  = join_with [58] [js "enc"; 118 :: dec_of_nonneg n; kdf p; alg p; dec_of_nonneg k; salt p; iv p; ct p].
Proof.
  intros Hv Hk Hn Hk'. unfold CryptoPkg.serializeEncryptedPayload. rewrite Hv, Hk.
  rewrite (num_to_string_nonneg n), (num_to_string_nonneg k) by (unfold safe_int; lia).
  cbn [join_with]. change (js "enc:v") with (js "enc" ++ [58; 118]). change (js ":") with [58].
  by rewrite <- !app_assoc.
Qed.

Lemma parse_serialize p : plain_payload p ->
  CryptoPkg.parseEncryptedPayload (CryptoPkg.serializeEncryptedPayload p) = Some p.
Proof.
  intros (n & k & Hv & Hk & Hn & Hk' & Hf). unfold payload_fields in Hf.
  rewrite !Forall_cons in Hf. destruct Hf as (F1 & F2 & F3 & F4 & F5 & _).
  unfold CryptoPkg.parseEncryptedPayload.
  rewrite (serialize_parts p n k) by (done || lia).
  assert (starts_with (js "enc:v") (join_with [58] [js "enc"; 118 :: dec_of_nonneg n; kdf p; alg p;
            dec_of_nonneg k; salt p; iv p; ct p]) = true) as -> by (apply starts_with_spec; by eexists).
  cbn [negb]. rewrite split_on_join; [|done|].
  - cbn [remove_first]. change (118 =? 118) with true. cbv iota.
    rewrite !number_of_string_dec by (unfold safe_int; lia). cbn [num_is_finite num negb orb].
    change (Fin (k # 1)) with (num k). rewrite !num_ltb_int.
    destruct (Z.ltb_spec k 100000); [lia|]. destruct (Z.ltb_spec 1000000 k); [lia|]. cbn [orb].
    change (Fin (n # 1)) with (num n). rewrite <- Hv, <- Hk. by destruct p.
  - rewrite !Forall_cons. split_and!; try done.
    + apply (bool_decide_eq_true_1 (58 ∉ js "enc")). by vm_compute.
    + apply not_elem_of_cons. split; [lia|]. by apply digits_no_colon; lia.
    + apply digits_no_colon; lia.
Qed.

Lemma parse_iter text p : CryptoPkg.parseEncryptedPayload text = Some p ->
  exists q, iter p = Fin q /\ (100000 # 1 <= q)%Q /\ (q <= 1000000 # 1)%Q.
Proof.
  unfold CryptoPkg.parseEncryptedPayload. destruct (negb (starts_with _ _)); [done|].
  destruct (split_on 58 text) as [|p0 [|p1 [|p2 [|p3 [|p4 [|p5 [|p6 [|p7 [|]]]]]]]]]; try done.
  destruct (negb (num_is_finite (number_of_string (remove_first 118 p1)))
            || negb (num_is_finite (number_of_string p4))) eqn:E1; [done|].
  destruct (num_ltb (number_of_string p4) (num 100000)
            || num_ltb (num 1000000) (number_of_string p4)) eqn:E2; [done|].
  intros [= <-]. cbn [iter]. bool_to_prop.
  destruct (number_of_string p4) as [| |q]; try done. exists q. split; [done|].
  split; apply num_ltb_fin_false; done.
Qed.

Lemma iter_enforce q : (100000 # 1 <= q)%Q -> (q <= 1000000 # 1)%Q ->
  exists n, enforce_u32 (Fin q) = Ok n /\ 100000 <= n <= 1000000.
Proof.
  destruct q as [n d]. unfold Qle. simpl. intros H1 H2. exists (Z.quot n (Z.pos d)).
  assert (100000 <= Z.quot n (Z.pos d) <= 1000000) as Hn.
  { split; [apply Z.quot_le_lower_bound; lia|apply Z.quot_le_upper_bound; lia]. }
  split; [|done]. unfold enforce_u32. cbn [Qnum Qden].
  destruct (Z.leb_spec 0 (Z.quot n (Z.pos d))); [|lia].
  destruct (Z.ltb_spec (Z.quot n (Z.pos d)) (2 ^ 32)); [done|lia].
Qed.

(** ** Text encryption *)

(** Payloads as [encryptText] writes them. *)
Definition written_payload (p : EncryptedPayload) : Prop :=
  v p = num 1 /\ alg p = js "AES-GCM-256" /\ kdf p = js "PBKDF2-SHA256" /\ iter p = num 120000 /\
  Forall (Forall b64url_char_ok) [salt p; iv p; ct p].

Lemma b64_no_colon s : Forall b64url_char_ok s -> 58 ∉ s.
Proof. apply b64url_no_unit. unfold b64url_char_ok. lia. Qed.

Lemma written_plain p : written_payload p -> plain_payload p.
Proof.
  intros (Hv & Ha & Hk & Hi & Hf). exists 1, 120000. split_and!; [done..|lia|lia|lia|lia|].
  unfold payload_fields. rewrite Ha, Hk. rewrite !Forall_cons in *. destruct Hf as (H1 & H2 & H3 & _).
  split_and!; try (by apply b64_no_colon); [| |done];
    apply (bool_decide_eq_true_1 (_ ∉ _)); by vm_compute.
Qed.

Section text.
Context `{Host, WebCrypto, !WebCryptoLaws, Env, !EnvLaws}.

Lemma derive_key_some pw salt : exists k, CryptoPkg.deriveAesKey pw salt (num 120000) = Ok k.
Proof.
  unfold CryptoPkg.deriveAesKey. change (enforce_u32 (num 120000)) with (Ok 120000). mred.
  destruct (pbkdf2_some (utf8_encode pw) salt 120000) as [k ->]; [lia|]. by exists k.
Qed.

(** [encryptText] always returns, and with the passphrase the payload decrypts. *)
Lemma encryptText_spec plain pw w :
  Forall unit_ok (text_arg plain) ->
  exists p w', CryptoPkg.encryptText plain pw w = (Ok p, w') /\ written_payload p /\
    (text_ok (text_arg plain) -> CryptoPkg.decryptText p pw = Ok (text_arg plain)).
Proof.
  intros Hu. unfold CryptoPkg.encryptText. unfold get_random.
  erewrite bind_ok by reflexivity. erewrite bind_ok by reflexivity.
  set (salt_b := env_random _ _). set (iv_b := env_random _ _).
  assert (bytes_ok salt_b) as Hs by apply random_bytes. assert (bytes_ok iv_b) as Hi by apply random_bytes.
  destruct (derive_key_some pw salt_b) as [k Hk]. change CryptoPkg.PBKDF2_ITERATIONS with 120000.
  erewrite bind_ok by (rewrite Hk; reflexivity). eexists _, _. split; [reflexivity|].
  set (c := aes_gcm_encrypt k iv_b (utf8_encode (text_arg plain))).
  assert (bytes_ok c) as Hc by apply aes_gcm_bytes. split.
  - split_and!; try done. cbn [salt iv ct]. rewrite !crypto_toBase64Url_eq, !Forall_cons.
    split_and!; auto using toBase64Url_ok.
  - intros Ht. unfold CryptoPkg.decryptText. cbn [v alg kdf iter salt iv ct].
    rewrite !crypto_toBase64Url_eq, !crypto_b64_roundtrip by done.
    rewrite !jeqb_refl. change (num_eqb (num CryptoPkg.envelopeVersion) (num CryptoPkg.envelopeVersion)) with true.
    cbn [negb orb throw_if]. mred. change CryptoPkg.PBKDF2_ITERATIONS with 120000. rewrite Hk. subst c.
    rewrite aes_gcm_inverse by by apply utf8_encode_bytes. cbn [or_throw]. by rewrite text_roundtrip.
Qed.

Lemma core_encryptText_eq plain pw : Core.encryptText plain pw = CryptoPkg.encryptText plain pw.
Proof. done. Qed.

Lemma core_serialize_eq p : Core.serializeEncryptedPayload p = CryptoPkg.serializeEncryptedPayload p.
Proof. done. Qed.

(** ** The content key *)

Lemma b64_ascii s : Forall b64url_char_ok s -> ascii_text s.
Proof. intros Hs. eapply Forall_impl; [exact Hs|]. intros c. unfold b64url_char_ok. lia. Qed.

Lemma nonempty_length {A} (l : list A) n : length l = S n -> l <> [].
Proof. by destruct l. Qed.

Lemma generateContentKey_spec w :
  exists k w', Core.generateContentKey w = (Ok k, w') /\ ascii_text k /\ k <> [].
Proof.
  eexists _, _. split; [reflexivity|]. split; [by apply b64_ascii, toBase64Url_ok, random_bytes|].
  apply toBase64Url_nonempty; [apply random_bytes|]. by eapply nonempty_length, random_length.
Qed.

Lemma valid_key_export k : Core.valid_x25519_val (JStr (CoreB64.toBase64Url (key_public X25519 k))) = true.
Proof.
  simpl. unfold CoreB64.isValidX25519PublicKeyB64Url. rewrite core_b64_roundtrip by apply key_public_bytes.
  by rewrite key_public_length.
Qed.

Lemma b64_nonempty_truthy bs : bytes_ok bs -> bs <> [] -> truthy_str (CoreB64.toBase64Url bs) = true.
Proof. intros Hb Hne. pose proof (toBase64Url_nonempty bs Hb Hne). by destruct (CoreB64.toBase64Url bs). Qed.

(** The text [t] wraps [content] for the private key [priv]: what every copy
    of the key wrapping writes and reads. *)
Definition wraps (t content : jstr) (priv : bytes) : Prop :=
  exists pub salt_b iv_b ct_b sh,
    t = js "x25519v1:" ++ join_with [58] [CoreB64.toBase64Url pub; CoreB64.toBase64Url salt_b;
                                         CoreB64.toBase64Url iv_b; CoreB64.toBase64Url ct_b] /\
    Forall bytes_ok [pub; salt_b; iv_b; ct_b] /\ length pub = 32%nat /\ salt_b <> [] /\ iv_b <> [] /\ ct_b <> [] /\
    x25519_shared priv pub = Some sh /\
    aes_gcm_decrypt (hkdf_sha256 sh salt_b (utf8_encode (js "nexusinbox/x25519-wrap/v1"))) iv_b ct_b
    = Some (utf8_encode content).

(** The text built from an ephemeral key and fresh salt and nonce wraps. *)
Lemma wraps_intro content priv eph salt_b iv_b sh :
  ascii_text content -> bytes_ok salt_b -> length salt_b = 16%nat -> bytes_ok iv_b -> length iv_b = 12%nat ->
  x25519_shared eph (key_public X25519 priv) = Some sh ->
  wraps (js "x25519v1:" ++ CoreB64.toBase64Url (key_public X25519 eph) ++ js ":" ++ CoreB64.toBase64Url salt_b
         ++ js ":" ++ CoreB64.toBase64Url iv_b ++ js ":"
         ++ CoreB64.toBase64Url (aes_gcm_encrypt
              (hkdf_sha256 sh salt_b (utf8_encode (js "nexusinbox/x25519-wrap/v1"))) iv_b (utf8_encode content)))
    content priv.
Proof.
  intros Hc Hs Hsl Hi Hil Hsh. eexists (key_public X25519 eph), salt_b, iv_b, _, sh. split; [reflexivity|].
  split; [rewrite !Forall_cons; split_and!; try done; [apply key_public_bytes|apply aes_gcm_bytes]|].
  split_and!; [apply key_public_length|by destruct salt_b|by destruct iv_b|apply aes_gcm_nonempty|by rewrite x25519_agree|].
  by apply aes_gcm_inverse, utf8_encode_bytes, ascii_units.
Qed.

Lemma mcp_unwraps t content priv : wraps t content priv -> text_ok content -> Decrypt.unwrapContentKey t priv = Ok content.
Proof.
  intros (pub & salt_b & iv_b & ct_b & sh & -> & Hb & Hpl & Hs & Hi & Hct & Hsh & Hdec) Hc.
  rewrite !Forall_cons in Hb. destruct Hb as (Bp & Bs & Bi & Bc & _).
  unfold Decrypt.unwrapContentKey. change (js "x25519v1:") with Decrypt.WRAP_PREFIX.
  assert (forall x, starts_with Decrypt.WRAP_PREFIX (Decrypt.WRAP_PREFIX ++ x) = true) as ->
    by (intros x; apply starts_with_spec; by eexists).
  cbn [negb throw_if]. mred. rewrite drop_app_length.
  rewrite split_on_join; [|done|rewrite !Forall_cons; split_and!; try done; apply b64_no_colon; by apply toBase64Url_ok].
  cbn [nth]. rewrite !b64_nonempty_truthy by (done || by eapply nonempty_length).
  cbn [negb orb throw_if]. rewrite !mcp_b64_roundtrip by done.
  unfold Decrypt.import_x25519_raw. rewrite Hpl. cbn [Nat.eqb]. rewrite Hsh. cbn [or_throw].
  unfold Decrypt.deriveWrapKey. rewrite Hdec. cbn [or_throw]. mred. by rewrite text_roundtrip.
Qed.

Lemma wraps_wire t content priv : wraps t content priv -> ascii_text t /\ 10 ∉ t.
Proof.
  intros (pub & salt_b & iv_b & ct_b & sh & -> & Hb & _). rewrite !Forall_cons in Hb. destruct Hb as (Bp & Bs & Bi & Bc & _).
  assert (forall bs, bytes_ok bs -> ascii_text (CoreB64.toBase64Url bs)) as Ha
    by (intros bs Hb; by apply b64_ascii, toBase64Url_ok).
  assert (forall bs, bytes_ok bs -> 10 ∉ CoreB64.toBase64Url bs) as Hnl.
  { intros bs Hb. apply (b64url_no_unit 10); [unfold b64url_char_ok; lia|by apply toBase64Url_ok]. }
  assert (ascii_text (js "x25519v1:") /\ ascii_text [58]) as [A1 A2]
    by (split; apply (bool_decide_eq_true_1 (ascii_text _)); by vm_compute).
  assert (10 ∉ js "x25519v1:") by (apply (bool_decide_eq_true_1 (_ ∉ _)); by vm_compute).
  pose proof (Hnl _ Bp). pose proof (Hnl _ Bs). pose proof (Hnl _ Bi). pose proof (Hnl _ Bc).
  cbn [join_with]. split.
  - unfold ascii_text in *. rewrite !Forall_app. by split_and!; auto.
  - rewrite !elem_of_app, !list_elem_of_singleton. intuition lia.
Qed.

(** Wrapping for a key pair's public half always returns. *)
Lemma core_wraps content priv w :
  ascii_text content ->
  exists t w', Core.wrapContentKeyForRecipient content (JStr (CoreB64.toBase64Url (key_public X25519 priv))) w
               = (Ok t, w') /\ wraps t content priv.
Proof.
  intros Hc. unfold Core.wrapContentKeyForRecipient. rewrite valid_key_export. cbn [negb Core.key_bytes].
  rewrite core_b64_roundtrip by apply key_public_bytes.
  erewrite bind_ok by reflexivity. unfold generate_key. erewrite bind_ok by reflexivity.
  set (eph := env_keygen _ _). destruct (x25519_some eph priv) as [sh Hsh].
  rewrite Hsh. erewrite bind_ok by reflexivity. unfold get_random.
  erewrite bind_ok by reflexivity. erewrite bind_ok by reflexivity.
  eexists _, _. split; [reflexivity|].
  apply wraps_intro; [done|apply random_bytes|apply random_length|apply random_bytes|apply random_length|done].
Qed.

End text.

(** ** Whole envelopes *)

Lemma serialize_truthy p : truthy_str (CryptoPkg.serializeEncryptedPayload p) = true.
Proof. done. Qed.

Lemma decryptSafely_ok `{WebCrypto} p k t :
  written_payload p -> CryptoPkg.decryptText p k = Ok t ->
  Decrypt.decryptSafely (CryptoPkg.serializeEncryptedPayload p) k = t.
Proof.
  intros Hp Ht. unfold Decrypt.decryptSafely. rewrite parse_serialize by by apply written_plain.
  by rewrite Ht.
Qed.

Lemma b64_no_newline s : Forall b64url_char_ok s -> 10 ∉ s.
Proof. apply b64url_no_unit. unfold b64url_char_ok. lia. Qed.

Lemma written_ascii p : written_payload p -> ascii_text (CryptoPkg.serializeEncryptedPayload p).
Proof.
  intros (Hv & Ha & Hk & Hi & Hf). unfold CryptoPkg.serializeEncryptedPayload. rewrite Hv, Ha, Hk, Hi.
  rewrite !Forall_cons in Hf. destruct Hf as (H1%b64_ascii & H2%b64_ascii & H3%b64_ascii & _).
  assert (ascii_text (js "enc:v" ++ num_to_string (num 1) ++ js ":" ++ js "PBKDF2-SHA256" ++ js ":" ++ js "AES-GCM-256"
    ++ js ":" ++ num_to_string (num 120000) ++ js ":")) as H0
    by (apply (bool_decide_eq_true_1 (ascii_text _)); by vm_compute).
  assert (ascii_text (js ":")) as Hc by (apply (bool_decide_eq_true_1 (ascii_text _)); by vm_compute).
  unfold ascii_text in *. rewrite !Forall_app in *. tauto.
Qed.

Lemma written_no_newline p : written_payload p -> 10 ∉ CryptoPkg.serializeEncryptedPayload p.
Proof.
  intros (Hv & Ha & Hk & Hi & Hf). unfold CryptoPkg.serializeEncryptedPayload. rewrite Hv, Ha, Hk, Hi.
  rewrite !Forall_cons in Hf. destruct Hf as (H1%b64_no_newline & H2%b64_no_newline & H3%b64_no_newline & _).
  assert (10 ∉ js "enc:v" ++ num_to_string (num 1) ++ js ":" ++ js "PBKDF2-SHA256" ++ js ":" ++ js "AES-GCM-256"
    ++ js ":" ++ num_to_string (num 120000) ++ js ":") as H0
    by (apply (bool_decide_eq_true_1 (_ ∉ _)); by vm_compute).
  assert (10 ∉ js ":") as Hc by (apply (bool_decide_eq_true_1 (_ ∉ _)); by vm_compute).
  rewrite !elem_of_app in *. tauto.
Qed.

(** ASCII on one line. *)
Definition wire_text (s : jstr) : Prop := ascii_text s /\ 10 ∉ s.

Lemma written_wire p : written_payload p -> wire_text (CryptoPkg.serializeEncryptedPayload p).
Proof. split; [by apply written_ascii|by apply written_no_newline]. Qed.

Section seal.
Context `{Host, WebCrypto, !WebCryptoLaws, Env, !EnvLaws}.

(** The public half, as the server hands it out. *)
Definition public_key_val (priv : bytes) : jval := JStr (CoreB64.toBase64Url (key_public X25519 priv)).

(** [c] is the text [t] encrypted under the content key [k]. *)
Definition sealed_text (k t c : jstr) : Prop :=
  exists p, c = CryptoPkg.serializeEncryptedPayload p /\ written_payload p /\
    (text_ok t -> CryptoPkg.decryptText p k = Ok t).

(** What sealing a subject and a body for a key pair gives: both under a
    content key that the wrapped key holds. *)
Definition sealed (subj body : jstr) (priv : bytes) (ec ek se : jstr) : Prop :=
  exists k, wraps ek k priv /\ ascii_text k /\ k <> [] /\ sealed_text k body ec /\ sealed_text k subj se.

Lemma sealed_text_wire k t c : sealed_text k t c -> wire_text c.
Proof. intros (p & -> & Hp & _). by apply written_wire. Qed.

Lemma sealed_text_opens k t c : sealed_text k t c -> text_ok t -> Decrypt.decryptSafely c k = t.
Proof. intros (p & -> & Hp & Hd) Ht. apply decryptSafely_ok; auto. Qed.

(** The recipient of the MCP server opens what was sealed. *)
Lemma sealed_opens subj body priv ec ek se :
  sealed subj body priv ec ek se ->
  wire_text ec /\ wire_text ek /\ wire_text se /\
  (text_ok subj -> text_ok body -> Decrypt.decryptEnvelopeTextForRecipient ec ek se priv = Ok (subj, body)).
Proof.
  intros (k & Hw & Hk & _ & Hc & Hs). split_and!; try by eapply sealed_text_wire. 1: by eapply wraps_wire.
  intros Hsub Hbody. unfold Decrypt.decryptEnvelopeTextForRecipient.
  rewrite (mcp_unwraps _ _ _ Hw) by by apply ascii_text_ok. mred. unfold Decrypt.decryptEnvelopeTextWithContentKey.
  assert (truthy_str se = true) as -> by (destruct Hs as (p & -> & _); apply serialize_truthy).
  by rewrite (sealed_text_opens k body ec), (sealed_text_opens k subj se).
Qed.

Lemma build_text_envelope input priv w :
  recipientEncryptionPublicKey input = public_key_val priv ->
  Forall unit_ok (text_arg (subject input)) -> Forall unit_ok (text_arg (text_body input)) ->
  exists e w', Core.buildEncryptedTextEnvelope input w = (Ok e, w') /\
    sealed (text_arg (subject input)) (text_arg (text_body input)) priv
      (encrypted_content e) (encrypted_key e) (subject_encrypted e) /\
    wire_text (nonce e) /\
    signature e = Some (Core.signEnvelopePayload (senderSigningPrivateKey input) (senderDid input)
      (recipientDid input) (subject_encrypted e) (encrypted_content e) (encrypted_key e) (nonce e)) /\
    content_type e = js "text/plain" /\ thread_id e = threadId input /\ has_attachments e = false.
Proof.
  intros Hk Hs Hb. unfold Core.buildEncryptedTextEnvelope.
  destruct (generateContentKey_spec w) as (k & w1 & E1 & Hka & Hkn). erewrite bind_ok by exact E1.
  destruct (encryptText_spec (subject input) k w1 Hs) as (s & w2 & E2 & Ws & Ds).
  erewrite bind_ok by (rewrite core_encryptText_eq; exact E2).
  destruct (encryptText_spec (text_body input) k w2 Hb) as (b & w3 & E3 & Wb & Db).
  erewrite bind_ok by (rewrite core_encryptText_eq; exact E3).
  destruct (core_wraps k priv w3 Hka) as (t & w4 & E4 & Hw).
  rewrite Hk. erewrite bind_ok by exact E4. eexists _, _. split; [reflexivity|].
  cbn [encrypted_content encrypted_key subject_encrypted nonce signature content_type thread_id has_attachments].
  rewrite !core_serialize_eq. split; [exists k; split_and!; try done; by eexists|]. split; [|done].
  destruct Wb as (_ & _ & _ & _ & Hf). rewrite !Forall_cons in Hf.
  destruct Hf as (_ & Hiv & _). split; [by apply b64_ascii|by apply b64_no_newline].
Qed.

Lemma build_a2a_envelope input text protocol priv w :
  recipientEncryptionPublicKey input = public_key_val priv ->
  Forall unit_ok (text_arg (subject input)) ->
  Forall unit_ok (serializeA2APayload (message_to_val text protocol)) ->
  match protocol with Some p => assertValidA2APayload p = Ok tt | None => True end ->
  exists e w', Core.buildA2AEnvelope input text protocol w = (Ok e, w') /\
    sealed (text_arg (subject input)) (serializeA2APayload (message_to_val text protocol)) priv
      (encrypted_content e) (encrypted_key e) (subject_encrypted e) /\
    content_type e = match protocol with Some _ => A2A_CONTENT_TYPE | None => js "text/plain" end.
Proof.
  intros Hk Hs Hb Hp. unfold Core.buildA2AEnvelope.
  assert (match protocol with Some p => lift (assertValidA2APayload p) | None => mret tt end w = (Ok tt, w)) as E0.
  { destruct protocol as [p|]; [|done]. unfold lift. by rewrite Hp. }
  erewrite bind_ok by exact E0. cbv zeta.
  destruct (generateContentKey_spec w) as (k & w1 & E1 & Hka & Hkn). erewrite bind_ok by exact E1.
  destruct (encryptText_spec (subject input) k w1 Hs) as (s & w2 & E2 & Ws & Ds).
  erewrite bind_ok by (rewrite core_encryptText_eq; exact E2).
  destruct (encryptText_spec (JStr (serializeA2APayload (message_to_val text protocol))) k w2 Hb)
    as (b & w3 & E3 & Wb & Db).
  erewrite bind_ok by (rewrite core_encryptText_eq; exact E3).
  destruct (core_wraps k priv w3 Hka) as (t & w4 & E4 & Hw).
  rewrite Hk. erewrite bind_ok by exact E4. eexists _, _. split; [reflexivity|].
  cbn [encrypted_content encrypted_key subject_encrypted content_type].
  rewrite !core_serialize_eq. split; [exists k; split_and!; try done; by eexists|done].
Qed.

(** The signed text determines the signed fields, when none has a newline. *)
Lemma signed_payload_inj s r se ec ek n s' r' se' ec' ek' n' :
  Forall (fun f => 10 ∉ f) [join_part s; join_part r; se; ec; ek; n] ->
  Forall (fun f => 10 ∉ f) [join_part s'; join_part r'; se'; ec'; ek'; n'] ->
  Core.signed_payload s r se ec ek n = Core.signed_payload s' r' se' ec' ek' n' ->
  join_part s = join_part s' /\ join_part r = join_part r' /\ se = se' /\ ec = ec' /\ ek = ek' /\ n = n'.
Proof.
  unfold Core.signed_payload. intros Hf Hf' E. apply (f_equal (split_on 10)) in E.
  rewrite !split_on_join in E by done. by injection E as -> -> -> -> -> ->.
Qed.

End seal.

(** * Properties *)

(** C3: text end to end.  Whatever the randomness and the world, building an
    envelope for a recipient's public key returns; the recipient's private key
    recovers exactly the subject and the body; the signature verifies under
    the sender's public key over the dids, the two ciphertexts, the wrapped
    key and the nonce; and no other newline-free choice of those six fields
    gives the same signed text. *)
Theorem text_envelope_end_to_end `{Host, WebCrypto, !WebCryptoLaws, Env, !EnvLaws}
    (input : SendTextMessageInput) (priv : bytes) (w : World) :
  recipientEncryptionPublicKey input = public_key_val priv ->
  text_ok (text_arg (subject input)) -> text_ok (text_arg (text_body input)) ->
  10 ∉ join_part (senderDid input) -> 10 ∉ join_part (recipientDid input) ->
  exists e w' sig, Core.buildEncryptedTextEnvelope input w = (Ok e, w') /\
    Decrypt.decryptEnvelopeTextForRecipient (encrypted_content e) (encrypted_key e) (subject_encrypted e) priv
    = Ok (text_arg (subject input), text_arg (text_body input)) /\
    signature e = Some (CoreB64.toBase64Url sig) /\
    ed25519_verify (key_public Ed25519 (senderSigningPrivateKey input))
      (utf8_encode (Core.signed_payload (senderDid input) (recipientDid input) (subject_encrypted e)
                      (encrypted_content e) (encrypted_key e) (nonce e))) sig = true /\
    (forall s r se ec ek n, Forall (fun f => 10 ∉ f) [join_part s; join_part r; se; ec; ek; n] ->
       Core.signed_payload (senderDid input) (recipientDid input) (subject_encrypted e)
         (encrypted_content e) (encrypted_key e) (nonce e) = Core.signed_payload s r se ec ek n ->
       join_part s = join_part (senderDid input) /\ join_part r = join_part (recipientDid input) /\
       se = subject_encrypted e /\ ec = encrypted_content e /\ ek = encrypted_key e /\ n = nonce e).
Proof.
  intros Hk Hs Hb Hsd Hrd.
  destruct (build_text_envelope input priv w Hk (proj1 Hs) (proj1 Hb))
    as (e & w' & E & ([_ Nc] & [_ Nk] & [_ Ns] & Hd)%sealed_opens & [_ Hn] & Hsig & _).
  eexists e, w', _. split_and!; [exact E|by apply Hd|exact Hsig|apply ed25519_correct|].
  intros s r se ec ek n Hf Heq.
  edestruct signed_payload_inj as (? & ? & ? & ? & ? & ?); [|exact Hf|exact Heq|split_and!; congruence].
  by rewrite !Forall_cons.
Qed.

Definition sample_input : SendTextMessageInput :=
  TextMessage (JStr (js "did:key:zA")) (JStr (js "did:key:zB")) (public_key_val (replicate 32 9)) (replicate 32 5)
    (JStr (js "Hello")) (JStr (js "See you at 3 — ok?")) JUndef JUndef.

Definition plain_host : Host := {| host_base64_lenient := fun _ => []; host_date_parse := fun _ => None |}.

Definition empty_world : World :=
  {| w_trace := []; w_files := ∅; w_client := {| cs_accessToken := JNull; cs_dpop := Dpop [] JNull |} |}.

Example text_envelope_end_to_end_witness :
  let _ := plain_host in let _ := quiet_env in
  exists e w', Core.buildEncryptedTextEnvelope sample_input empty_world = (Ok e, w') /\
    Decrypt.decryptEnvelopeTextForRecipient (encrypted_content e) (encrypted_key e) (subject_encrypted e)
      (replicate 32 9) = Ok (js "Hello", js "See you at 3 — ok?").
Proof.
  intros ho en.
  destruct (text_envelope_end_to_end sample_input (replicate 32 9) empty_world)
    as (e & w' & _ & E & D & _).
  - reflexivity.
  - apply (bool_decide_eq_true_1 (text_ok _)). by vm_compute.
  - apply (bool_decide_eq_true_1 (text_ok _)). by vm_compute.
  - apply (bool_decide_eq_true_1 (_ ∉ _)). by vm_compute.
  - apply (bool_decide_eq_true_1 (_ ∉ _)). by vm_compute.
  - exists e, w'. split; [exact E|exact D].
Defined.

(** A2A end to end.  A block that fails validation throws before anything
    else happens (no randomness is drawn); otherwise the envelope is built,
    its content type dispatches the receiver to the A2A parser, and the
    receiver's decryption and parse give back the body and the same typed
    block. *)
Theorem a2a_envelope_end_to_end `{Host, WebCrypto, !WebCryptoLaws, Env, !EnvLaws}
    (input : SendTextMessageInput) (text : jstr) (b : A2AProtocolBlock) (priv : bytes) (w : World) :
  recipientEncryptionPublicKey input = public_key_val priv ->
  text_ok (text_arg (subject input)) -> Forall unit_ok text -> block_ok b -> block_json_ok b ->
  (~ valid_payload (block_type b) (block_action b) (block_payload b) ->
   exists e, Core.buildA2AEnvelope input text (Some b) w = (Throw e, w)) /\
  (valid_payload (block_type b) (block_action b) (block_payload b) ->
   exists e w' subj raw, Core.buildA2AEnvelope input text (Some b) w = (Ok e, w') /\
     Decrypt.decryptEnvelopeTextForRecipient (encrypted_content e) (encrypted_key e) (subject_encrypted e) priv
     = Ok (subj, raw) /\ subj = text_arg (subject input) /\
     let m := parseA2APayload raw (Some (content_type e)) in
     body m = text /\ parse_error m = false /\ (protocol m ≫= block_of_val) = Some b).
Proof.
  intros Hk Hs Ht Hb Hj. rewrite <- payload_spec.
  assert (text_ok (serializeA2APayload (message_to_val text (Some b)))) as Hser
    by by apply json_text_ok, message_to_val_json.
  split.
  - intros Hv. destruct (assertValidA2APayload b) as [[]|e] eqn:E; [done|]. exists e.
    unfold Core.buildA2AEnvelope. apply bind_throw. unfold lift. by rewrite E.
  - intros Hv. destruct (build_a2a_envelope input text (Some b) priv w Hk (proj1 Hs) (proj1 Hser) Hv)
      as (e & w' & E & (_ & _ & _ & Hd)%sealed_opens & Hct).
    eexists e, w', _, _. split_and!; [exact E|by apply Hd|done|]. rewrite Hct.
    rewrite message_roundtrip by done. cbn [body protocol parse_error option_map]. split_and!; [done..|].
    apply block_val_ok.
Qed.

Example a2a_envelope_end_to_end_witness :
  let _ := plain_host in let _ := quiet_env in
  exists e w' subj raw, Core.buildA2AEnvelope sample_input (js "Sounds good") (Some sample_block) empty_world = (Ok e, w') /\
    Decrypt.decryptEnvelopeTextForRecipient (encrypted_content e) (encrypted_key e) (subject_encrypted e)
      (replicate 32 9) = Ok (subj, raw) /\ subj = js "Hello" /\
    let m := parseA2APayload raw (Some (content_type e)) in
    body m = js "Sounds good" /\ parse_error m = false /\ (protocol m ≫= block_of_val) = Some sample_block.
Proof.
  intros ho en.
  destruct (a2a_envelope_end_to_end sample_input (js "Sounds good") sample_block (replicate 32 9) empty_world)
    as [_ Hv].
  - reflexivity.
  - apply (bool_decide_eq_true_1 (text_ok _)). by vm_compute.
  - apply forallb_units. by vm_compute.
  - split_and!; by vm_compute.
  - split_and!; [apply forallb_units; by vm_compute..|by vm_compute].
  - apply Hv. apply payload_spec. by vm_compute.
Defined.

(** A payload read from untrusted text always asks for an iteration count
    PBKDF2 accepts between 100 000 and 1 000 000, whatever the sender wrote,
    and with an honest cipher the derivation succeeds. *)
Theorem parseEncryptedPayload_bounded `{WebCrypto, !WebCryptoLaws} (text pw : jstr) (salt_b : bytes)
    (p : EncryptedPayload) :
  CryptoPkg.parseEncryptedPayload text = Some p ->
  exists n, enforce_u32 (iter p) = Ok n /\ 100000 <= n <= 1000000 /\
    is_ok (CryptoPkg.deriveAesKey pw salt_b (iter p)) = true.
Proof.
  intros Hp. apply parse_iter in Hp as (q & -> & Hlo & Hhi).
  destruct (iter_enforce q Hlo Hhi) as (n & En & Hn). exists n. split; [done|]. split; [done|].
  unfold CryptoPkg.deriveAesKey. rewrite En. mred.
  destruct (pbkdf2_some (utf8_encode pw) salt_b n) as [k ->]; [lia|done].
Qed.

Example parseEncryptedPayload_bounded_witness :
  exists n, enforce_u32 (num 250000) = Ok n /\ 100000 <= n <= 1000000 /\
    is_ok (CryptoPkg.deriveAesKey (js "pw") [] (num 250000)) = true.
Proof.
  apply (parseEncryptedPayload_bounded (js "enc:v1:PBKDF2-SHA256:AES-GCM-256:250000:a:b:c") (js "pw") []
           (EncPayload (num 1) (js "AES-GCM-256") (js "PBKDF2-SHA256") (num 250000) (js "a") (js "b") (js "c"))).
  by vm_compute.
Defined.

(** [parseEncryptedPayload] inverts [serializeEncryptedPayload] on every
    payload with an integer version, an iteration count in the accepted band
    and colon-free fields, the ones [encryptText] writes among them. *)
Theorem payload_text_roundtrip (p : EncryptedPayload) :
  plain_payload p -> CryptoPkg.parseEncryptedPayload (CryptoPkg.serializeEncryptedPayload p) = Some p.
Proof. apply parse_serialize. Qed.

Example payload_text_roundtrip_witness :
  let p := EncPayload (num 1) (js "AES-GCM-256") (js "PBKDF2-SHA256") (num 120000) (js "c2FsdA") (js "aXY") (js "Y3Q") in
  CryptoPkg.parseEncryptedPayload (CryptoPkg.serializeEncryptedPayload p) = Some p.
Proof.
  apply payload_text_roundtrip. exists 1, 120000. split_and!; try done; try lia.
  repeat apply Forall_cons_2; try apply Forall_nil_2;
    apply (bool_decide_eq_true_1 (_ ∉ _)); by vm_compute.
Defined.
