(* ===== verification/DidKey.v ===== *)
(** did:key identifiers: [base58Encode] and [deriveDidKeyFromPublicKey] of
    packages/core/src/index.ts.

    The encoder keeps base-58 digits little-endian and folds the bytes in one
    at a time; [eval58] reads the digits back as a number, the invariant the
    proofs use. *)
From S2P Require Import Prelude Node.

Definition base58_alphabet : jstr := js "123456789ABCDEFGHJKLMNPQRSTUVWXYZabcdefghijkmnopqrstuvwxyz".

(** [alphabet[d]]. *)
Definition symbol (d : Z) : Z := nth (Z.to_nat d) base58_alphabet 0.

(** [while (carry > 0)]: the digits still to push. *)
Fixpoint push_carry (fuel : nat) (carry : Z) : list Z :=
  match fuel with
  | O => []
  | S f => if 0 <? carry then carry mod 58 :: push_carry f (carry / 58) else []
  end.

(** One byte: every digit times 256 plus the carry, low digit first. *)
Fixpoint mul_add (digits : list Z) (carry : Z) : list Z :=
  match digits with
  | [] => push_carry (Z.to_nat carry) carry
  | d :: r => (d * 256 + carry) mod 58 :: mul_add r ((d * 256 + carry) / 58)
  end.

Fixpoint leading_zeros (bs : bytes) : nat :=
  match bs with b :: r => if b =? 0 then S (leading_zeros r) else O | [] => O end.

Definition base58_digits (bs : bytes) : list Z := fold_left mul_add bs [0].

Definition base58Encode (bs : bytes) : jstr :=
  match bs with
  | [] => []
  | _ =>
    replicate (leading_zeros bs) 49
    ++ map symbol (reverse (base58_digits bs))
  end.

Section did.
Context `{WebCrypto}.

(** The argument is the raw public key [exportKey] returns. *)
Definition deriveDidKeyFromPublicKey (raw : bytes) : jstr :=
  let multicodec := 237 :: 1 :: raw in
  js "did:key:z" ++ base58Encode multicodec.

End did.

(** ** Digits as a number *)

Fixpoint eval58 (ds : list Z) : Z := match ds with [] => 0 | d :: r => d + 58 * eval58 r end.

Definition digits_ok (ds : list Z) : Prop := Forall (fun d => 0 <= d < 58) ds.

(** No leading zero: the last digit is not 0. *)
Definition canonical (ds : list Z) : Prop := match last ds with Some d => 0 < d | None => True end.

Definition be_value (bs : bytes) : Z := fold_left (fun n b => n * 256 + b) bs 0.

Lemma push_carry_spec fuel c :
  0 <= c <= Z.of_nat fuel ->
  eval58 (push_carry fuel c) = c /\ digits_ok (push_carry fuel c) /\ canonical (push_carry fuel c) /\
  (0 < c -> push_carry fuel c <> []).
Proof.
  revert c. induction fuel as [|f IH]; intros c Hc; cbn [push_carry].
  - split_and!; [simpl; lia|constructor|done|lia].
  - destruct (Z.ltb_spec 0 c); [|split_and!; [simpl; lia|constructor|done|lia]].
    destruct (IH (c / 58)) as (He & Hd & Hcan & Hne); [zdiv|]. split_and!; [|constructor; [zdiv|done]| |done].
    + cbn [eval58]. rewrite He. zdiv.
    + unfold canonical in *. destruct (push_carry f (c / 58)) as [|d r] eqn:E; [|done].
      simpl. destruct (Z.ltb_spec 0 (c / 58)) as [Hp|Hp]; [by apply Hne in Hp|zdiv].
Qed.

Lemma mul_add_spec ds c :
  digits_ok ds -> 0 <= c < 256 ->
  eval58 (mul_add ds c) = 256 * eval58 ds + c /\ digits_ok (mul_add ds c).
Proof.
  intros Hds. revert c. induction Hds as [|d ds Hd _ IH]; intros c Hc; cbn [mul_add eval58].
  - destruct (push_carry_spec (Z.to_nat c) c) as (He & Hok & _); [lia|]. split; [lia|done].
  - destruct (IH ((d * 256 + c) / 58)) as [He Hok]; [zdiv|]. rewrite He. split; [zdiv|].
    constructor; [zdiv|done].
Qed.

(** Canonical digits stay canonical; [0] stays one digit or becomes canonical. *)
Lemma mul_add_canonical ds c :
  digits_ok ds -> 0 <= c < 256 -> ds <> [] -> canonical ds -> canonical (mul_add ds c).
Proof.
  intros Hds. revert c. induction Hds as [|d ds Hd Hds' IH]; intros c Hc Hne Hcan; [done|].
  cbn [mul_add]. destruct ds as [|d' ds].
  - unfold canonical in Hcan. simpl in Hcan. cbn [mul_add].
    set (q := (d * 256 + c) / 58). destruct (push_carry_spec (Z.to_nat q) q) as (_ & _ & Hc' & Hn); [subst q; zdiv|].
    unfold canonical in *. destruct (push_carry (Z.to_nat q) q) as [|x r] eqn:E; [|done].
    destruct (Z.ltb_spec 0 q) as [Hp|Hp]; [by apply Hn in Hp|]. subst q. simpl. zdiv.
  - assert (canonical (mul_add (d' :: ds) ((d * 256 + c) / 58))) as H0 by (apply IH; [zdiv|done|done]).
    unfold canonical in *. by cbn [mul_add last] in *.
Qed.

Lemma mul_add_first d c : 0 < c < 256 -> d = 0 -> canonical (mul_add [d] c).
Proof.
  intros Hc ->. cbn [mul_add]. set (q := (0 * 256 + c) / 58).
  destruct (push_carry_spec (Z.to_nat q) q) as (_ & _ & Hc' & Hn); [subst q; zdiv|].
  unfold canonical in *. destruct (push_carry (Z.to_nat q) q) as [|x r] eqn:E; [|done].
  destruct (Z.ltb_spec 0 q) as [Hp|Hp]; [by apply Hn in Hp|]. subst q. simpl. zdiv.
Qed.

Lemma mul_add_nonempty ds c : ds <> [] -> mul_add ds c <> [].
Proof. by destruct ds. Qed.

Lemma fold_mul_add bs ds :
  bytes_ok bs -> digits_ok ds -> ds <> [] -> canonical ds ->
  let r := fold_left mul_add bs ds in
  eval58 r = fold_left (fun n b => n * 256 + b) bs (eval58 ds) /\ digits_ok r /\ canonical r /\ r <> [].
Proof.
  intros Hb. revert ds. induction Hb as [|b bs Hb _ IH]; intros ds Hds Hne Hcan; [done|].
  cbn [fold_left]. unfold byte_ok in Hb. destruct (mul_add_spec ds b Hds Hb) as [He Hok].
  destruct (IH (mul_add ds b)) as (E & R); [done|by apply mul_add_nonempty|by apply mul_add_canonical|].
  cbv zeta in *. rewrite E, He. split; [|done]. f_equal. lia.
Qed.

(** The digits of bytes that do not start with 0. *)
Lemma base58_digits_spec b bs :
  0 < b < 256 -> bytes_ok bs ->
  let r := base58_digits (b :: bs) in
  eval58 r = be_value (b :: bs) /\ digits_ok r /\ canonical r /\ r <> [].
Proof.
  intros Hb Hbs. unfold base58_digits, be_value. cbn [fold_left].
  destruct (mul_add_spec [0] b) as [He Hok]; [repeat constructor; lia|lia|].
  destruct (fold_mul_add bs (mul_add [0] b) Hbs Hok) as (E & R); [done|by apply mul_add_first|].
  cbv zeta. rewrite E, He. split; [|done]. by simpl eval58.
Qed.

(** ** Uniqueness of digits *)

Lemma eval58_bounds ds : digits_ok ds -> 0 <= eval58 ds < 58 ^ Z.of_nat (length ds).
Proof.
  induction 1 as [|d ds Hd _ IH]; [simpl; lia|]. cbn [eval58 length].
  rewrite Nat2Z.inj_succ, Z.pow_succ_r by lia. lia.
Qed.

Lemma eval58_app a b : eval58 (a ++ b) = eval58 a + 58 ^ Z.of_nat (length a) * eval58 b.
Proof.
  induction a as [|x a IH]; [simpl; lia|]. cbn [app eval58 length]. rewrite IH, Nat2Z.inj_succ, Z.pow_succ_r by lia.
  lia.
Qed.

Lemma eval58_lower ds :
  digits_ok ds -> ds <> [] -> canonical ds -> 58 ^ (Z.of_nat (length ds) - 1) <= eval58 ds.
Proof.
  intros Hds Hne Hcan. destruct (exists_last Hne) as (a & d & ->). unfold canonical in Hcan.
  rewrite last_snoc in Hcan. apply Forall_app in Hds as [Ha Hd].
  rewrite eval58_app. cbn [eval58]. pose proof (eval58_bounds a Ha). rewrite length_app. simpl length.
  replace (Z.of_nat (length a + 1) - 1) with (Z.of_nat (length a)) by lia. nia.
Qed.

Lemma eval58_inj a b : digits_ok a -> digits_ok b -> length a = length b -> eval58 a = eval58 b -> a = b.
Proof.
  intros Ha. revert b. induction Ha as [|x a Hx _ IH]; intros [|y b] Hb; [done..|].
  intros [= Hl] He. inversion Hb as [|? ? Hy Hb']; subst. cbn [eval58] in He.
  assert (x = y) by lia. subst y. f_equal. apply IH; [done..|lia].
Qed.

Lemma digit_count ds n :
  digits_ok ds -> ds <> [] -> canonical ds -> 58 ^ n <= eval58 ds < 58 ^ (n + 1) -> 0 <= n ->
  Z.of_nat (length ds) = n + 1.
Proof.
  intros Hds Hne Hcan He Hn. pose proof (eval58_bounds ds Hds). pose proof (eval58_lower ds Hds Hne Hcan).
  assert (0 < Z.of_nat (length ds)) by (destruct ds; [done|simpl; lia]).
  assert (58 ^ n < 58 ^ Z.of_nat (length ds)) as Hlo by lia.
  assert (58 ^ (Z.of_nat (length ds) - 1) < 58 ^ (n + 1)) as Hhi by lia.
  apply Z.pow_lt_mono_r_iff in Hlo; [|lia..]. apply Z.pow_lt_mono_r_iff in Hhi; lia.
Qed.

(** ** Bytes as a number *)

Lemma fold_value bs n : fold_left (fun n b => n * 256 + b) bs n = n * 256 ^ Z.of_nat (length bs) + be_value bs.
Proof.
  unfold be_value. revert n. induction bs as [|b bs IH]; intros n; [simpl; lia|].
  cbn [fold_left length]. rewrite (IH (n * 256 + b)), (IH (0 * 256 + b)), Nat2Z.inj_succ, Z.pow_succ_r by lia. lia.
Qed.

Lemma be_value_cons b bs : be_value (b :: bs) = b * 256 ^ Z.of_nat (length bs) + be_value bs.
Proof. unfold be_value at 1. cbn [fold_left]. rewrite fold_value. lia. Qed.

Lemma be_value_bounds bs : bytes_ok bs -> 0 <= be_value bs < 256 ^ Z.of_nat (length bs).
Proof.
  induction 1 as [|b bs Hb _ IH]; [by vm_compute|]. rewrite be_value_cons. cbn [length]. unfold byte_ok in Hb.
  rewrite Nat2Z.inj_succ, Z.pow_succ_r by lia. nia.
Qed.

Lemma be_value_inj a b : bytes_ok a -> bytes_ok b -> length a = length b -> be_value a = be_value b -> a = b.
Proof.
  intros Ha. revert b. induction Ha as [|x a Hx Ha' IH]; intros [|y b] Hb; [done..|].
  intros [= Hl] He. inversion Hb as [|? ? Hy Hb']; subst. rewrite !be_value_cons, Hl in He.
  pose proof (be_value_bounds a Ha') as B1. pose proof (be_value_bounds b Hb') as B2. rewrite Hl in B1.
  unfold byte_ok in *. assert (x = y) by nia. subst y. f_equal. apply IH; [done..|lia].
Qed.

(** ** Identifiers *)

Lemma alphabet_nodup : NoDup base58_alphabet.
Proof. apply (bool_decide_unpack _). vm_compute. exact I. Qed.

Lemma alphabet_length : length base58_alphabet = 58%nat.
Proof. vm_compute. reflexivity. Qed.

#[local] Opaque base58_alphabet.

Lemma nth_to_nat_inj (l : jstr) n a b :
  NoDup l -> length l = n -> 0 <= a < Z.of_nat n -> 0 <= b < Z.of_nat n ->
  nth (Z.to_nat a) l 0 = nth (Z.to_nat b) l 0 -> a = b.
Proof.
  intros Hnd Hl Ha Hb E. assert (Z.to_nat a = Z.to_nat b); [|lia].
  apply NoDup_ListNoDup in Hnd. rewrite List.NoDup_nth in Hnd. apply Hnd; [lia..|exact E].
Qed.

Lemma symbol_inj a b : 0 <= a < 58 -> 0 <= b < 58 -> symbol a = symbol b -> a = b.
Proof.
  unfold symbol. intros Ha Hb E. exact (nth_to_nat_inj base58_alphabet 58 a b alphabet_nodup alphabet_length Ha Hb E).
Qed.

Arguments symbol : simpl never.
#[local] Opaque symbol.

Lemma map_symbol_inj a b : digits_ok a -> digits_ok b -> map symbol a = map symbol b -> a = b.
Proof.
  intros Ha. revert b. induction Ha as [|x a Hx _ IH]; intros [|y b] Hb; [done..|].
  inversion Hb as [|? ? Hy Hb']; subst. rewrite !map_cons. intros E. apply (f_equal (fun l => (head l, tail l))) in E.
  cbn [head tail] in E. injection E as E1 E2. f_equal; [exact (symbol_inj _ _ Hx Hy E1)|exact (IH _ Hb' E2)].
Qed.

Lemma base58Encode_nonzero b bs : 0 < b ->
  base58Encode (b :: bs) = map symbol (reverse (base58_digits (b :: bs))).
Proof. intros Hb. unfold base58Encode. cbn [leading_zeros]. destruct (Z.eqb_spec b 0); [lia|reflexivity]. Qed.

(** The number a 32-byte Ed25519 key with its multicodec prefix denotes. *)
Lemma multicodec_value raw :
  length raw = 32%nat -> bytes_ok raw ->
  237 * 256 ^ 33 + 256 ^ 32 <= be_value (237 :: 1 :: raw) < 237 * 256 ^ 33 + 2 * 256 ^ 32.
Proof.
  intros Hl Hb. rewrite !be_value_cons. cbn [length]. rewrite Hl. pose proof (be_value_bounds raw Hb) as B.
  rewrite Hl in B. change (Z.of_nat 33) with 33. change (Z.of_nat 32) with 32 in *. lia.
Qed.

Lemma multicodec_digits raw :
  length raw = 32%nat -> bytes_ok raw ->
  let ds := base58_digits (237 :: 1 :: raw) in
  eval58 ds = be_value (237 :: 1 :: raw) /\ digits_ok ds /\ length ds = 47%nat.
Proof.
  intros Hl Hb. destruct (base58_digits_spec 237 (1 :: raw)) as (He & Hd & Hc & Hne); [lia| |].
  { apply Forall_cons_2; [unfold byte_ok; lia|done]. }
  cbv zeta in *. split; [done|]. split; [done|].
  pose proof (multicodec_value raw Hl Hb) as Hv. rewrite <- He in Hv.
  pose proof (digit_count _ 46 Hd Hne Hc) as Hcount.
  assert (58 ^ 46 <= 237 * 256 ^ 33 + 256 ^ 32 /\ 237 * 256 ^ 33 + 2 * 256 ^ 32 <= 58 ^ (46 + 1)) by by vm_compute.
  lia.
Qed.

(** The three most significant digits. *)
Lemma top_digits ds :
  digits_ok ds -> length ds = 47%nat ->
  237 * 256 ^ 33 + 256 ^ 32 <= eval58 ds < 237 * 256 ^ 33 + 2 * 256 ^ 32 ->
  exists low, ds = low ++ [43; 20; 5].
Proof.
  intros Hd Hl He. exists (take 44 ds). rewrite <- (take_drop 44 ds) at 1. f_equal.
  pose proof (eval58_bounds (take 44 ds)) as B. rewrite <- (take_drop 44 ds), eval58_app in He.
  assert (length (take 44 ds) = 44%nat) as Ht by (rewrite length_take; lia). rewrite Ht in *.
  assert (length (drop 44 ds) = 3%nat) as Hl3 by (rewrite length_drop; lia).
  assert (digits_ok (drop 44 ds)) as Hd3 by by apply Forall_drop.
  specialize (B ltac:(by apply Forall_take)).
  apply eval58_inj; [done|repeat constructor; lia|done|].
  change (eval58 [43; 20; 5]) with 18023. change (Z.of_nat 44) with 44 in *.
  assert (58 ^ 44 * 18023 <= 237 * 256 ^ 33 + 256 ^ 32 /\ 237 * 256 ^ 33 + 2 * 256 ^ 32 <= 58 ^ 44 * 18024) by by vm_compute.
  nia.
Qed.

(** [deriveDidKeyFromPublicKey] is a faithful identifier.  Every 32-byte
    Ed25519 public key gets a 56-unit did that starts with "did:key:z6Mk",
    and two keys with the same did are the same key; the base-58 digits spell
    exactly the number the multicodec bytes denote. *)
Theorem deriveDidKey_faithful `{WebCrypto} (raw raw' : bytes) :
  length raw = 32%nat -> bytes_ok raw -> length raw' = 32%nat -> bytes_ok raw' ->
  starts_with (js "did:key:z6Mk") (deriveDidKeyFromPublicKey raw) = true /\
  length (deriveDidKeyFromPublicKey raw) = 56%nat /\
  eval58 (base58_digits (237 :: 1 :: raw)) = be_value (237 :: 1 :: raw) /\
  (deriveDidKeyFromPublicKey raw = deriveDidKeyFromPublicKey raw' -> raw = raw').
Proof.
  intros Hl Hb Hl' Hb'. unfold deriveDidKeyFromPublicKey. rewrite !base58Encode_nonzero by lia.
  destruct (multicodec_digits raw Hl Hb) as (He & Hd & Hn). cbv zeta in *.
  destruct (multicodec_digits raw' Hl' Hb') as (He' & Hd' & Hn'). cbv zeta in *.
  split_and!; [| |done|].
  - pose proof (multicodec_value raw Hl Hb) as Hv. rewrite <- He in Hv.
    destruct (top_digits _ Hd Hn Hv) as [low ->]. rewrite reverse_app, map_app. apply starts_with_spec.
    by eexists.
  - rewrite length_app, length_map, length_reverse, Hn. by vm_compute.
  - intros [_ Hm]%app_inj_1; [|done].
    apply map_symbol_inj in Hm; [|by apply Forall_reverse..]. apply (inj reverse) in Hm.
    rewrite Hm, He' in He.
    apply be_value_inj in He; [by injection He| | |simpl; by rewrite Hl, Hl'];
      repeat (apply Forall_cons_2; [unfold byte_ok; lia|]); done.
Qed.

Example deriveDidKey_faithful_witness :
  starts_with (js "did:key:z6Mk") (deriveDidKeyFromPublicKey (replicate 32 7)) = true.
Proof.
  apply (deriveDidKey_faithful (replicate 32 7) (replicate 32 7)); try done;
    apply Forall_replicate; unfold byte_ok; lia.
Defined.

(** A single zero byte encodes as two symbols, not one. *)
Example base58Encode_zero : base58Encode [0] = js "11".
Proof. reflexivity. Qed.

Example base58Encode_hello : base58Encode (js "Hello World!") = js "2NEpo7TZRRrLZSi2U".
Proof. vm_compute. reflexivity. Qed.
