(* ===== verification/ApiClient.v ===== *)
(** The API client: packages/core/src/index.ts from the key helpers to
    [NexusInboxApiClient].

    The client's mutable fields, [accessToken] and [dpop], are [w_client] of
    the world; the immutable ones are the record [ApiClient].  Server JSON is
    a [jval] throughout: the code trusts its declared types without checking
    them, so a missing field reads as [undefined].  [Promise.all] over the key
    wraps is run in list order. *)
From S2P Require Import Prelude Base64 Utf8 JsNumber Json JsDate A2A Effect Node Envelope DidKey.

(** [new URL] and string coercions *)

Definition is_unreserved (c : Z) : bool :=
  ((48 <=? c) && (c <=? 57)) || ((65 <=? c) && (c <=? 90)) || ((97 <=? c) && (c <=? 122)).

Definition hex_upper (v : Z) : Z := if v <? 10 then 48 + v else 55 + v.
Definition percent (b : Z) : jstr := [37; hex_upper (b / 16); hex_upper (b mod 16)].

(** [encodeURIComponent]: a lone surrogate is a [URIError]. *)
Definition encodeURIComponent (s : jstr) : res jstr :=
  if is_well_formed s then
    Ok (flat_map (fun b => if is_unreserved b || bool_decide (b ∈ js "-_.!~*'()") then [b] else percent b)
          (utf8_encode s))
  else Throw (JsError (js "URIError") (js "URI malformed")).

(** One component in application/x-www-form-urlencoded. *)
Definition form_encode (s : jstr) : jstr :=
  flat_map (fun b => if is_unreserved b || bool_decide (b ∈ js "*-._") then [b]
                     else if b =? 32 then [43] else percent b) (utf8_encode s).

(** [new URLSearchParams(pairs).toString()]. *)
Definition url_search_params (l : list (jstr * jstr)) : jstr :=
  join_with (js "&") (map (fun kv => form_encode kv.1 ++ js "=" ++ form_encode kv.2) l).

(** [a ?? b]. *)
Definition nullish_or (a b : jval) : jval := match a with JUndef | JNull => b | _ => a end.

(** [s.replace(/\/+$/, "")]. *)
Definition strip_slashes (s : jstr) : jstr := strip_suffix (fun c => c =? 47) s.

(** [typeof v === "string"], or the [TypeError] of using [v] as one. *)
Definition as_string (v : jval) : res jstr :=
  match v with JStr s => Ok s | _ => Throw (TypeError_ (js "argument must be of type string")) end.

Section client.
Context `{Host, WebCrypto, Env}.

(** ** Keys and tokens *)

Record CryptoKeyPair := KeyPair { privateKey : bytes; publicKey : bytes }.

Definition createEd25519KeyPair : M CryptoKeyPair :=
  k ← generate_key Ed25519; mret (KeyPair k (key_public Ed25519 k)).

Definition createX25519KeyPair : M CryptoKeyPair :=
  k ← generate_key X25519; mret (KeyPair k (key_public X25519 k)).

Definition exportRawPublicKeyBase64Url (publicKey : bytes) : jstr := CoreB64.toBase64Url publicKey.

Definition signCompactJws (privateKey : bytes) (header payload : jval) : jstr :=
  let signingInput := Core.toBase64UrlJson header ++ js "." ++ Core.toBase64UrlJson payload in
  let signature := ed25519_sign privateKey (utf8_encode signingInput) in
  signingInput ++ js "." ++ CoreB64.toBase64Url signature.

(** [Math.floor(Date.now() / 1000)]. *)
Definition now_seconds : M Z := ms ← now_ms; mret (ms / 1000).

Definition jws_header : jval := JObj [(js "alg", JStr (js "EdDSA")); (js "typ", JStr (js "JWT"))].

Definition buildEnrollmentProof (credentialId : jstr) (signingPrivateKey : bytes) (now : option Z) : M jstr :=
  iat ← match now with Some n => mret n | None => now_seconds end;
  mret (signCompactJws signingPrivateKey jws_header
          (JObj [(js "credential_id", JStr credentialId); (js "iat", JNum (num iat))])).

Definition buildAgentAssertion (aid credentialId : jstr) (signingPrivateKey : bytes) (audience : jstr)
    (scopes : option (list jstr)) (now expiresInSeconds : option Z) : M jstr :=
  now ← match now with Some n => mret n | None => now_seconds end;
  jti ← random_uuid;
  mret (signCompactJws signingPrivateKey jws_header
          (JObj [(js "iss", JStr aid); (js "sub", JStr credentialId); (js "aud", JStr audience);
                 (js "jti", JStr jti); (js "iat", JNum (num now));
                 (js "exp", JNum (num (now + default 60 expiresInSeconds)));
                 (js "scope", JStr (join_with (js " ") (default [js "messages.read"; js "messages.send"] scopes)))])).

Definition createDpopKeyPair : M DpopKeyPair :=
  pair ← createEd25519KeyPair;
  mret (Dpop (privateKey pair)
          (JObj [(js "kty", JStr (js "OKP")); (js "crv", JStr (js "Ed25519"));
                 (js "x", JStr (CoreB64.toBase64Url (publicKey pair)))])).

(** ** Requests *)

Definition json_headers : list (jstr * jstr) := [(js "Content-Type", js "application/json")].

Definition parseJsonResponse (response : Response) : res jval :=
  let text := rs_text response in
  data ← (if truthy_str text then json_parse text else Ok (JObj []));
  throw_if (negb (rs_ok response))
    (Error_ (js "API returned " ++ dec_of_Z (rs_status response) ++ js ": " ++ text)) ;;
  Ok data.

(** [keyHolder] is left out of the body when it is empty or absent. *)
Definition activateAgentCredential (baseUrl credentialId enrollmentSecret : jstr)
    (signingKeyPair encryptionKeyPair : CryptoKeyPair) (keyHolder : option jstr) : M jval :=
  let signingPublicKey := exportRawPublicKeyBase64Url (publicKey signingKeyPair) in
  let encryptionPublicKey := exportRawPublicKeyBase64Url (publicKey encryptionKeyPair) in
  enrollmentProof ← buildEnrollmentProof credentialId (privateKey signingKeyPair) None;
  response ← fetch (HttpRequest (js "POST")
    (strip_slashes baseUrl ++ js "/agent-credentials/" ++ credentialId ++ js "/activate") json_headers
    (TextBody (json_stringify (JObj
      ([(js "enrollment_secret", JStr enrollmentSecret); (js "signing_public_key", JStr signingPublicKey);
        (js "encryption_public_key", JStr encryptionPublicKey);
        (js "enrollment_proof", JStr enrollmentProof)]
       ++ match keyHolder with
          | Some h => if truthy_str h then [(js "key_holder", JStr h)] else []
          | None => []
          end)))));
  lift (parseJsonResponse response).

(** Returns the token response and the DPoP pair. *)
Definition exchangeAgentToken (baseUrl aid credentialId : jstr) (signingPrivateKey : bytes)
    (scopes : option (list jstr)) (audience : option jstr) (dpop : option DpopKeyPair)
    : M (jval * DpopKeyPair) :=
  dpop ← match dpop with Some d => mret d | None => createDpopKeyPair end;
  let baseUrl := strip_slashes baseUrl in
  assertion ← buildAgentAssertion aid credentialId signingPrivateKey
    (default (baseUrl ++ js "/agent-auth/token") audience) scopes None None;
  response ← fetch (HttpRequest (js "POST") (baseUrl ++ js "/agent-auth/token") json_headers
    (TextBody (json_stringify (JObj [(js "assertion", JStr assertion); (js "dpop_jwk", dpop_jwk dpop)]))));
  tokens ← lift (parseJsonResponse response);
  mret (tokens, dpop).

Definition dpop_payload (method path : jstr) (iat : Z) (jti accessToken : jstr) : jval :=
  JObj [(js "htm", JStr (to_upper_ascii method)); (js "htu", JStr path); (js "iat", JNum (num iat));
        (js "jti", JStr jti); (js "ath", JStr (Core.sha256Base64Url accessToken))].

Definition dpop_header (publicJwk : jval) : jval :=
  JObj [(js "typ", JStr (js "dpop+jwt")); (js "alg", JStr (js "EdDSA")); (js "jwk", publicJwk)].

Definition buildDpopProof (privateKey : bytes) (publicJwk : jval) (method url : jstr) (accessToken : jval)
    : M jstr :=
  pathname ← lift (env_url_pathname url);
  iat ← now_seconds;
  jti ← random_uuid;
  token ← lift (as_string accessToken);
  let signingInput := CoreB64.toBase64Url (utf8_encode (json_stringify (dpop_header publicJwk))) ++ js "."
    ++ CoreB64.toBase64Url (utf8_encode (json_stringify (dpop_payload method pathname iat jti token))) in
  let signature := ed25519_sign privateKey (utf8_encode signingInput) in
  mret (signingInput ++ js "." ++ CoreB64.toBase64Url signature).

(** ** NexusInboxApiClient *)

(** [onUnauthorized] returns the fresh access token and DPoP pair. *)
Record ApiClient := NexusInboxApiClient {
  baseUrl : jstr;
  onUnauthorized : option (M (jval * DpopKeyPair))
}.

(** The constructor: it sets the client fields of the world. *)
Definition new_client (baseUrl : jstr) (accessToken : jval) (dpop : DpopKeyPair)
    (onUnauthorized : option (M (jval * DpopKeyPair))) : M ApiClient :=
  set_client {| cs_accessToken := accessToken; cs_dpop := dpop |} ;;
  mret (NexusInboxApiClient (strip_slashes baseUrl) onUnauthorized).

Definition createAuthenticatedApiClient (baseUrl aid credentialId : jstr) (signingPrivateKey : bytes)
    (scopes : option (list jstr)) (audience : option jstr) (dpop : option DpopKeyPair)
    : M (ApiClient * jval * DpopKeyPair) :=
  '(tokens, dpop) ← exchangeAgentToken baseUrl aid credentialId signingPrivateKey scopes audience dpop;
  client ← new_client baseUrl (jget tokens (js "access_token")) dpop None;
  mret (client, tokens, dpop).

Definition auth_headers (token : jval) (proof : jstr) : list (jstr * jstr) :=
  [(js "Authorization", js "DPoP " ++ js_string token); (js "DPoP", proof);
   (js "Content-Type", js "application/json")].

(** [JSON.stringify(body)], or no body for [undefined]. *)
Definition json_body (body : jval) : ReqBody :=
  match body with JUndef => NoBody | _ => TextBody (json_stringify body) end.

Definition dispatch (method url : jstr) (body : jval) : M Response :=
  w ← get_state;
  let c := w_client w in
  dpop ← buildDpopProof (dpop_private (cs_dpop c)) (dpop_jwk (cs_dpop c)) method url (cs_accessToken c);
  fetch (HttpRequest method url (auth_headers (cs_accessToken c) dpop) (json_body body)).

Definition request (this : ApiClient) (method path : jstr) (body : jval) : M jval :=
  let url := baseUrl this ++ path in
  response ← dispatch method url body;
  response ←
    match onUnauthorized this with
    | Some refresh =>
      if rs_status response =? 401 then
        '(accessToken, dpop) ← refresh;
        set_client {| cs_accessToken := accessToken; cs_dpop := dpop |} ;;
        dispatch method url body
      else mret response
    | None => mret response
    end;
  lift (parseJsonResponse response).

Definition resolveRecipient (this : ApiClient) (identifier : jval) : M jval :=
  id ← lift (encodeURIComponent (js_string identifier));
  request this (js "GET") (js "/recipients/resolve?identifier=" ++ id) JUndef.

Definition listMessages (this : ApiClient) (agentDid folder status : jval) : M jval :=
  let query := url_search_params
    [(js "agent_did", js_string agentDid);
     (js "folder", js_string (nullish_or folder (JStr (js "inbox"))));
     (js "status", js_string (nullish_or status (JStr (js "all"))))] in
  request this (js "GET") (js "/messages?" ++ query) JUndef.

Definition readMessage (this : ApiClient) (messageId : jval) : M jval :=
  id ← lift (encodeURIComponent (js_string messageId));
  request this (js "GET") (js "/messages/" ++ id ++ js "/content") JUndef.

Record AttachmentRef := Attachment {
  attachmentId : jval; metadataEncrypted : jstr; metadataNonce : jstr
}.

Definition attachment_to_val (a : AttachmentRef) : jval :=
  JObj [(js "attachment_id", attachmentId a); (js "metadata_encrypted", JStr (metadataEncrypted a));
        (js "metadata_nonce", JStr (metadataNonce a))].

Definition sendMessage (this : ApiClient) (senderDid recipientDid : jval) (envelope : SendEnvelope)
    (priority : jval) (attachments : list AttachmentRef) : M jval :=
  let body := JObj
    ([(js "sender_did", senderDid); (js "recipient_did", recipientDid);
      (js "envelope", envelope_to_val envelope);
      (js "priority", nullish_or priority (JStr (js "normal")))]
     ++ match attachments with
        | [] => []
        | _ => [(js "attachments", JArr (map attachment_to_val attachments))]
        end) in
  request this (js "POST") (js "/messages") body.

Definition with_attachments (e : SendEnvelope) : SendEnvelope :=
  Envelope (encrypted_content e) (encrypted_key e) (nonce e) (signature e) (subject_encrypted e)
    (thread_id e) (content_type e) true.

Definition sendTextMessage (this : ApiClient) (input : SendTextMessageInput)
    (attachments : list AttachmentRef) : M jval :=
  envelope ← Core.buildEncryptedTextEnvelope input;
  let envelope := match attachments with [] => envelope | _ => with_attachments envelope end in
  sendMessage this (senderDid input) (recipientDid input) envelope (priority input) attachments.

(** ** Attachments *)

Definition createAttachmentIntent (this : ApiClient) (senderDid draftId : jval) (ciphertextSizeBytes : Z)
    : M jval :=
  request this (js "POST") (js "/attachments/intents")
    (JObj [(js "sender_did", senderDid); (js "draft_id", draftId);
           (js "ciphertext_size_bytes", JNum (num ciphertextSizeBytes))]).

(** Request headers from a JSON object of strings. *)
Definition headers_of (v : jval) : res (list (jstr * jstr)) :=
  match v with
  | JUndef => Ok []
  | JObj o => Ok (map (fun kv => (kv.1, js_string kv.2)) o)
  | _ => Throw (TypeError_ (js "invalid headers"))
  end.

Definition uploadAttachmentCiphertext (intent : jval) (ciphertext : bytes) : M unit :=
  upload_url ← lift (jprop intent (js "upload_url"));
  upload_method ← lift (jprop intent (js "upload_method"));
  required_headers ← lift (jprop intent (js "required_headers"));
  headers ← lift (headers_of required_headers);
  response ← fetch (HttpRequest
    (match upload_method with JUndef => js "GET" | m => js_string m end)
    (js_string upload_url) headers (ByteBody ciphertext));
  raise_if (negb (rs_ok response))
    (Error_ (js "attachment ciphertext upload failed: " ++ dec_of_Z (rs_status response) ++ js " "
             ++ rs_text response)).

Definition completeAttachment (this : ApiClient) (attachmentId : jval) (ciphertextSizeBytes : Z) : M jval :=
  id ← lift (encodeURIComponent (js_string attachmentId));
  request this (js "POST") (js "/attachments/" ++ id ++ js "/complete")
    (JObj [(js "ciphertext_size_bytes", JNum (num ciphertextSizeBytes))]).

(** The plaintext metadata of an attachment. *)
Definition attachment_metadata (filename mimeType : jstr) (size : Z) (cipherNonce sha : bytes)
    (wraps : list (jstr * jstr)) : jval :=
  JObj [(js "filename", JStr filename); (js "mime", JStr mimeType);
        (js "plaintext_size_bytes", JNum (num size)); (js "cipher_algorithm", JStr (js "aes-gcm-256"));
        (js "cipher_nonce", JStr (CoreB64.toBase64Url cipherNonce));
        (js "sha256_plaintext", JStr (CoreB64.toBase64Url sha));
        (js "attachment_key_wraps",
         JArr (map (fun kv => JObj [(js "recipient_did", JStr kv.1); (js "wrapped_key", JStr kv.2)]) wraps))].

(** Returns the reference and the size of the uploaded blob; the targets are
    pairs of a did and an encryption key. *)
Definition encryptAndUploadAttachment (this : ApiClient) (plaintext : bytes) (filename mimeType : jstr)
    (senderDid draftId : jval) (keyWrapTargets : list (jstr * jstr)) : M (AttachmentRef * Z) :=
  contentKeyBytes ← get_random 32;
  cipherNonce ← get_random 12;
  let contentKeyB64 := CoreB64.toBase64Url contentKeyBytes in
  let ciphertext := aes_gcm_encrypt contentKeyBytes cipherNonce plaintext in
  let blob := cipherNonce ++ ciphertext in
  wraps ← eff_map (fun target =>
    wrapped_key ← Core.wrapContentKeyForRecipient contentKeyB64 (JStr target.2);
    mret (target.1, wrapped_key)) keyWrapTargets;
  let sha := sha256 plaintext in
  let metadata := attachment_metadata filename mimeType (Z.of_nat (length plaintext)) cipherNonce sha wraps in
  metaNonce ← get_random 12;
  let metaCiphertext := aes_gcm_encrypt contentKeyBytes metaNonce (utf8_encode (json_stringify metadata)) in
  let size := Z.of_nat (length blob) in
  intent ← createAttachmentIntent this senderDid draftId size;
  uploadAttachmentCiphertext intent blob ;;
  attachment_id ← lift (jprop intent (js "attachment_id"));
  completeAttachment this attachment_id size ;;
  mret (Attachment attachment_id (CoreB64.toBase64Url metaCiphertext) (CoreB64.toBase64Url metaNonce), size).

End client.

(** * Lemmas *)

(** The claims of a compact JWS, as a verifier reads them. *)
Definition jws_claims `{Host} (jws : jstr) : option jval :=
  match split_on 46 jws with
  | [_; p; _] => match json_parse (text_decode (CoreB64.fromBase64Url p)) with Ok v => Some v | Throw _ => None end
  | _ => None
  end.

(** The signature check of a compact JWS under a raw public key. *)
Definition jws_verify `{Host, WebCrypto} (pub : bytes) (jws : jstr) : bool :=
  match split_on 46 jws with
  | [h; p; s] => ed25519_verify pub (utf8_encode (h ++ [46] ++ p)) (CoreB64.fromBase64Url s)
  | _ => false
  end.

Section facts.
Context `{Host, WebCrypto, !WebCryptoLaws, Env, !EnvLaws}.

Lemma b64_no_dot s : Forall b64url_char_ok s -> 46 ∉ s.
Proof. apply b64url_no_unit. unfold b64url_char_ok. lia. Qed.

Lemma json_bytes v : json_okb v = true -> bytes_ok (utf8_encode (json_stringify v)).
Proof. intros Hv. apply utf8_encode_bytes. by apply json_text_ok. Qed.

(** A compact JWS over JSON reads back and verifies. *)
Lemma jws_readable k h p :
  json_okb h = true -> json_okb p = true ->
  let jws := signCompactJws k h p in
  jws_claims jws = Some p /\ jws_verify (key_public Ed25519 k) jws = true.
Proof.
  intros Hh Hp jws. subst jws. unfold signCompactJws, Core.toBase64UrlJson.
  pose proof (json_bytes h Hh) as Bh. pose proof (json_bytes p Hp) as Bp.
  set (hb := CoreB64.toBase64Url (utf8_encode (json_stringify h))).
  set (pb := CoreB64.toBase64Url (utf8_encode (json_stringify p))). change (js ".") with [46].
  set (sg := ed25519_sign k (utf8_encode (hb ++ [46] ++ pb))).
  assert (bytes_ok sg) as Bs by apply ed25519_bytes.
  assert (split_on 46 ((hb ++ [46] ++ pb) ++ [46] ++ CoreB64.toBase64Url sg) = [hb; pb; CoreB64.toBase64Url sg]) as Hsplit.
  { rewrite <- app_assoc. apply (split_on_join 46 [hb; pb; CoreB64.toBase64Url sg]); [done|].
    rewrite !Forall_cons. split_and!; try done; by apply b64_no_dot, toBase64Url_ok. }
  unfold jws_claims, jws_verify. rewrite Hsplit. unfold pb.
  rewrite (core_b64_roundtrip _ Bp), (core_b64_roundtrip _ Bs).
  rewrite text_roundtrip by by apply json_text_ok. rewrite json_stringify_roundtrip by done.
  split; [done|apply ed25519_correct].
Qed.

Lemma ascii_json s : Forall (fun c => 0 <= c < 128) s -> json_okb (JStr s) = true.
Proof. intros Hs. simpl. by apply forallb_units, ascii_units. Qed.

Lemma b64_json bs : bytes_ok bs -> json_okb (JStr (CoreB64.toBase64Url bs)) = true.
Proof.
  intros Hb. apply ascii_json. eapply Forall_impl; [by apply toBase64Url_ok|]. intros c.
  unfold b64url_char_ok. lia.
Qed.

Lemma num_ok z : 0 <= z < 2 ^ 53 -> json_okb (JNum (num z)) = true.
Proof. intros Hz. simpl. destruct (Z.ltb_spec (Z.abs z) (2 ^ 53)); [done|lia]. Qed.

Lemma upper_units s : Forall unit_ok s -> Forall unit_ok (to_upper_ascii s).
Proof.
  intros Hs. unfold to_upper_ascii. apply Forall_map. eapply Forall_impl; [exact Hs|]. intros c. unfold unit_ok.
  destruct ((97 <=? c) && (c <=? 122)) eqn:E; [bool_to_prop; lia|done].
Qed.

Lemma dpop_payload_json method path iat jti token :
  Forall unit_ok method -> Forall unit_ok path -> 0 <= iat < 2 ^ 53 -> Forall unit_ok jti ->
  json_okb (dpop_payload method path iat jti token) = true.
Proof.
  intros Hm Hp Hi Hj. unfold dpop_payload.
  assert (json_okb (JStr (Core.sha256Base64Url token)) = true) as Ha by apply b64_json, sha256_bytes.
  apply num_ok in Hi. apply upper_units, forallb_units in Hm. apply forallb_units in Hp, Hj.
  change (json_okb (JStr (to_upper_ascii method)) = true) in Hm.
  change (json_okb (JStr path) = true) in Hp. change (json_okb (JStr jti) = true) in Hj.
  revert Hm Hp Hi Hj Ha.
  generalize (JStr (to_upper_ascii method)) (JStr path) (JNum (num iat)) (JStr jti)
    (JStr (Core.sha256Base64Url token)). intros v1 v2 v3 v4 v5 H1' H2' H3' H4' H5'.
  cbn [json_okb forallb fst snd]. rewrite H1', H2', H3', H4', H5'. by vm_compute.
Qed.

Lemma dpop_header_json jwk : json_okb jwk = true -> json_okb (dpop_header jwk) = true.
Proof. intros Hj. cbn [json_okb dpop_header forallb fst snd]. rewrite Hj. by vm_compute. Qed.

(** What a dispatch that returns has done. *)
Lemma dispatch_spec method url body w r w' :
  Forall unit_ok method -> json_okb (dpop_jwk (cs_dpop (w_client w))) = true ->
  dispatch method url body w = (Ok r, w') ->
  exists token path iat jti proof,
    cs_accessToken (w_client w) = JStr token /\ env_url_pathname url = Ok path /\
    w_trace w' = EvFetch (HttpRequest method url (auth_headers (JStr token) proof) (json_body body))
                   :: EvUuid :: EvNow :: w_trace w /\
    w_client w' = w_client w /\ w_files w' = w_files w /\
    jws_claims proof = Some (dpop_payload method path iat jti token) /\
    jws_verify (key_public Ed25519 (dpop_private (cs_dpop (w_client w)))) proof = true.
Proof.
  intros Hm Hj. unfold dispatch, buildDpopProof, now_seconds, now_ms, random_uuid. intros Hd. eff_inv.
  repeat match goal with
  | H : get_state _ = (Ok _, _) |- _ => injection H as <- <-
  | H : ask _ _ _ = (Ok _, _) |- _ => injection H as <- <-
  end.
  destruct (cs_accessToken (w_client w)) as [| | | |token| |] eqn:Et; try done.
  match goal with H : as_string (JStr _) = Ok _ |- _ => injection H as <- end.
  unfold fetch in Hd. eff_inv.
  repeat match goal with H : ask _ _ _ = (Ok _, _) |- _ => injection H as <- <- end.
  match goal with H : env_url_pathname url = Ok ?p |- _ => rename H into Hp; rename p into path end.
  set (iat := env_now (w_trace w) / 1000). set (jti := env_uuid (EvNow :: w_trace w)).
  exists token, path, iat, jti, (signCompactJws (dpop_private (cs_dpop (w_client w)))
    (dpop_header (dpop_jwk (cs_dpop (w_client w)))) (dpop_payload method path iat jti token)).
  cbn [w_trace w_client w_files].
  assert (json_okb (dpop_payload method path iat jti token) = true) as Hpay.
  { apply dpop_payload_json; [done|by eapply pathname_units| |apply uuid_units].
    pose proof (now_range (w_trace w)). subst iat. zdiv. }
  pose proof (jws_readable (dpop_private (cs_dpop (w_client w))) _ _ (dpop_header_json _ Hj) Hpay) as [Hc Hv].
  split_and!; [done|done|reflexivity|done|done|exact Hc|exact Hv].
Qed.

(** [to_url u] is a request to [u]. *)
Definition to_url (u : jstr) (e : Event) : bool := match e with EvFetch rq => jeqb (rq_url rq) u | _ => false end.

Lemma proof_at_most p k jwk method url token :
  p EvNow = false -> p EvUuid = false -> at_most p 0 (buildDpopProof k jwk method url token).
Proof. intros Hn Hu. unfold buildDpopProof, now_seconds, now_ms, random_uuid. auto 20 with effdb. Qed.

Lemma dispatch_at_most p method url body :
  p EvNow = false -> p EvUuid = false -> at_most p 1 (dispatch method url body).
Proof.
  intros Hn Hu. unfold dispatch. apply (at_most_bind p 0 1); [apply at_most_get|]. intros w.
  apply (at_most_bind p 0 1); [by apply proof_at_most|]. intros j. apply at_most_fetch1.
Qed.

Lemma request_at_most p c method path body n :
  p EvNow = false -> p EvUuid = false ->
  match onUnauthorized c with Some refresh => at_most p n refresh | None => True end ->
  at_most p (1 + match onUnauthorized c with Some _ => n + 1 | None => 0 end) (request c method path body).
Proof.
  intros Hn Hu Hr. unfold request. apply at_most_bind; [by apply dispatch_at_most|]. intros r.
  destruct (onUnauthorized c) as [refresh|]; cycle 1.
  { apply at_most_bind0; [apply at_most_ret|]. intros r'. apply at_most_lift. }
  rewrite <- (Nat.add_0_r (n + 1)). apply at_most_bind; [|intros r'; apply at_most_lift].
  destruct (rs_status r =? 401); [|eapply at_most_weaken; [apply at_most_ret|lia]].
  apply at_most_bind; [done|]. intros [tok d]. apply (at_most_bind p 0 1); [apply at_most_set_client|].
  intros _. by apply dispatch_at_most.
Qed.

End facts.

(** * Properties *)


(** The world of a client with a bearer token. *)
Definition sample_dpop : DpopKeyPair :=
  Dpop (replicate 32 3) (JObj [(js "kty", JStr (js "OKP")); (js "crv", JStr (js "Ed25519")); (js "x", JStr (js "AwMD"))]).

Definition client_world : World :=
  {| w_trace := []; w_files := ∅;
     w_client := {| cs_accessToken := JStr (js "token-0"); cs_dpop := sample_dpop |} |}.


(** a request refreshes its credentials at most once.  A response other
    than 401, or a client with no refresh callback, is final; on a 401 the
    callback runs once, its credentials replace the client's, the request is
    sent again with them and whatever comes back is final, a second 401
    included.  So a request to one URL is sent at most twice, whatever the
    server answers and even when something throws, provided the callback does
    not itself call that URL. *)
Theorem request_refreshes_once `{Host, WebCrypto, Env} (c : ApiClient) (method path : jstr)
    (payload : jval) (w w1 : World) (r1 : Response) :
  let url := baseUrl c ++ path in
  dispatch method url payload w = (Ok r1, w1) ->
  (rs_status r1 <> 401 \/ onUnauthorized c = None ->
   request c method path payload w = (parseJsonResponse r1, w1)) /\
  (forall refresh, rs_status r1 = 401 -> onUnauthorized c = Some refresh ->
   match refresh w1 with
   | (Throw e, w2) => request c method path payload w = (Throw e, w2)
   | (Ok (token, d), w2) =>
     match dispatch method url payload
             {| w_trace := w_trace w2; w_files := w_files w2;
                w_client := {| cs_accessToken := token; cs_dpop := d |} |} with
     | (Ok r2, w3) => request c method path payload w = (parseJsonResponse r2, w3)
     | (Throw e, w3) => request c method path payload w = (Throw e, w3)
     end
   end) /\
  (match onUnauthorized c with Some refresh => at_most (to_url url) 0 refresh | None => True end ->
   at_most (to_url url) 2 (request c method path payload)).
Proof.
  intros url Hd. unfold request. split_and!.
  - intros Hf. erewrite bind_ok by exact Hd. destruct (onUnauthorized c) as [refresh|]; [|done].
    destruct (Z.eqb_spec (rs_status r1) 401); [|done]. by destruct Hf.
  - intros refresh H401 Hcb. erewrite bind_ok by exact Hd. rewrite Hcb, H401, Z.eqb_refl.
    destruct (refresh w1) as [[[token d]|e] w2] eqn:Er.
    + set (w2' := {| w_trace := _ |}). destruct (dispatch method url payload w2') as [[r2|e] w3] eqn:E2.
      * erewrite bind_ok; [reflexivity|]. erewrite bind_ok by exact Er. cbv beta iota.
        erewrite bind_ok by reflexivity. exact E2.
      * apply bind_throw. erewrite bind_ok by exact Er. cbv beta iota.
        erewrite bind_ok by reflexivity. exact E2.
    + apply bind_throw. by apply bind_throw.
  - intros Hr. eapply at_most_weaken.
    + apply (request_at_most (to_url url) c method path payload 0); done.
    + destruct (onUnauthorized c); lia.
Qed.

(** A server that refuses the first token and accepts the second. *)
Definition refusing_env : Env :=
  answering_env
    (fun _ rq =>
       if bool_decide (lookup 0%nat (rq_headers rq) = Some (js "Authorization", js "DPoP token-0"))
       then Ok (HttpResponse 401 []) else Ok (HttpResponse 200 (js "[1]")))
    (fun _ _ _ => Ok JUndef).

Example request_refreshes_once_witness :
  let _ := plain_host in let _ := refusing_env in
  let c := NexusInboxApiClient (js "https://api") (Some (mret (JStr (js "token-1"), sample_dpop))) in
  (request c (js "GET") (js "/messages") JUndef client_world).1 = Ok (JArr [JNum (num 1)]) /\
  at_most (to_url (js "https://api/messages")) 2 (request c (js "GET") (js "/messages") JUndef).
Proof.
  intros ho en c.
  assert ((dispatch (js "GET") (js "https://api/messages") JUndef client_world).1 = Ok (HttpResponse 401 [])) as E
    by (vm_compute; reflexivity).
  assert ((request c (js "GET") (js "/messages") JUndef client_world).1 = Ok (JArr [JNum (num 1)])) as Eq
    by (vm_compute; reflexivity).
  destruct (dispatch (js "GET") (js "https://api/messages") JUndef client_world) as [r w1] eqn:Ed.
  cbn [fst] in E. rewrite E in Ed.
  destruct (request_refreshes_once c (js "GET") (js "/messages") JUndef client_world w1 (HttpResponse 401 []) Ed)
    as (_ & Hr & Hb).
  specialize (Hr (mret (JStr (js "token-1"), sample_dpop)) eq_refl eq_refl).
  split; [exact Eq|apply Hb, at_most_ret].
Defined.
