(* ===== verification/Gateway.v ===== *)
(** The gateway client: [NexusInboxGatewayClient] of packages/core/src/index.ts.

    One call opens a socket, writes one JSON line and reads the reply line.
    [on_chunks] is the "data" handler run over the chunks the socket delivers.
    A socket that closes cleanly before a full line leaves the promise pending
    for ever; the environment of the model ends such a connection with an
    error. *)
From S2P Require Import Prelude Utf8 JsNumber Json A2A Effect Node Envelope ApiClient.

(** [buffer.indexOf("\n")]: the text before the first newline, if there is one. *)
Fixpoint first_line (s : jstr) : option jstr :=
  match s with
  | [] => None
  | c :: r => if c =? 10 then Some [] else option_map (cons c) (first_line r)
  end.

(** The reply line: its [error.message], or its [result]. *)
Definition rpc_reply (line : jstr) : res jval :=
  response ← json_parse line;
  error ← jprop response (js "error");
  if jtruthy error then
    message ← jprop error (js "message");
    Throw (Error_ (match message with JUndef => [] | m => js_string m end))
  else jprop response (js "result").

(** [socket.on("data")] until the promise settles; [closing] is the socket's
    "error" event. *)
Fixpoint on_chunks (buffer : jstr) (chunks : list bytes) (closing : jserror) : res jval :=
  match chunks with
  | [] => Throw closing
  | chunk :: rest =>
    let buffer := buffer ++ buffer_to_utf8 chunk in
    match first_line buffer with
    | None => on_chunks buffer rest closing
    | Some line => rpc_reply (trim line)
    end
  end.

Record GatewayClient := NexusInboxGatewayClient {
  socketPath : jstr;
  rpcTransport : bool      (** whether a transport function was injected *)
}.

Definition new_gateway_client (socketPath : option jstr) (rpcTransport : bool) : GatewayClient :=
  NexusInboxGatewayClient (default (js "/tmp/nexusinbox-gateway.sock") socketPath) rpcTransport.

Section gateway.
Context `{Env}.

Definition call (this : GatewayClient) (method : jstr) (params : jval) : M jval :=
  if rpcTransport this then
    r ← ask (EvTransport method params) (fun h => env_transport h method params); lift r
  else
    let line := json_stringify (JObj [(js "id", JNum (num 1)); (js "method", JStr method); (js "params", params)])
                ++ [10] in
    r ← ask (EvSocket (socketPath this) line)
          (fun h => let '(chunks, closing) := env_socket h (socketPath this) line in on_chunks [] chunks closing);
    lift r.

Definition whoami (this : GatewayClient) : M jval := call this (js "whoami") (JObj []).

Definition resolveRecipient (this : GatewayClient) (identifier : jval) : M jval :=
  call this (js "resolve_recipient") (JObj [(js "identifier", identifier)]).

Definition listInbox (this : GatewayClient) (folder status : jval) : M jval :=
  call this (js "list_inbox")
    (JObj [(js "folder", nullish_or folder (JStr (js "inbox"))); (js "status", nullish_or status (JStr (js "all")))]).

Definition readMessage (this : GatewayClient) (messageId : jval) : M jval :=
  call this (js "read_message") (JObj [(js "message_id", messageId)]).

Definition sendMessage (this : GatewayClient) (recipientDid : jval) (envelope : SendEnvelope) : M jval :=
  call this (js "send_message")
    (JObj [(js "recipient_did", recipientDid); (js "envelope", envelope_to_val envelope)]).

Definition unwrapContentKey (this : GatewayClient) (encryptedKey : jval) : M jval :=
  result ← call this (js "unwrap_content_key") (JObj [(js "encrypted_key", encryptedKey)]);
  lift (jprop result (js "content_key")).

End gateway.

(** ** Framing *)

Lemma first_line_app_none s t : first_line s = None -> first_line (s ++ t) = option_map (app s) (first_line t).
Proof.
  induction s as [|c s IH]; simpl.
  - intros _. by destruct (first_line t).
  - destruct (c =? 10); [done|]. destruct (first_line s); [done|]. intros _. rewrite IH by done.
    by destruct (first_line t).
Qed.

Lemma first_line_app_some s t l : first_line s = Some l -> first_line (s ++ t) = Some l.
Proof.
  revert l. induction s as [|c s IH]; intros l; simpl; [done|]. destruct (c =? 10); [done|].
  destruct (first_line s) as [l'|]; [|done]. intros [= <-]. by rewrite (IH l').
Qed.

Lemma on_chunks_text buffer ss closing :
  Forall wf_text ss -> first_line buffer = None ->
  on_chunks buffer (map utf8_encode ss) closing =
  match first_line (buffer ++ concat ss) with
  | Some line => rpc_reply (trim line)
  | None => Throw closing
  end.
Proof.
  intros Hss. revert buffer. induction Hss as [|s ss [Us Ws] _ IH]; intros buffer Hb; cbn [map on_chunks concat].
  - by rewrite app_nil_r, Hb.
  - rewrite buffer_utf8_roundtrip by done. rewrite app_assoc.
    destruct (first_line (buffer ++ s)) as [line|] eqn:E; [by rewrite (first_line_app_some _ _ line)|].
    by apply IH.
Qed.

(** The reply does not depend on how it was cut into chunks.  When no
    character is split between chunks, the call settles with the meaning of
    the first line of the concatenated text, however many chunks it arrived
    in and whatever follows it; with no complete line it rejects with the
    socket's error. *)
Theorem gateway_framing (ss : list jstr) (closing : jserror) :
  Forall wf_text ss ->
  on_chunks [] (map utf8_encode ss) closing =
  match first_line (concat ss) with
  | Some line => rpc_reply (trim line)
  | None => Throw closing
  end.
Proof. intros Hss. by rewrite on_chunks_text. Qed.

Example gateway_framing_witness :
  on_chunks [] (map utf8_encode [js "{"; [34] ++ js "result" ++ [34]; js ":[1"; js "]}" ++ [10]; js "junk"]) (Error_ [])
  = Ok (JArr [JNum (num 1)]).
Proof.
  rewrite gateway_framing.
  - by vm_compute.
  - repeat apply Forall_cons_2; try apply Forall_nil_2; apply wf_literal; by vm_compute.
Defined.

(** A character split between two chunks is replaced: each chunk is decoded on
    its own, so the two halves of U+00E9 become two replacement characters. *)
Lemma gateway_split_character :
  let text := js "{" ++ [34] ++ js "result" ++ [34] ++ js ":" ++ [34; 233; 34] ++ js "}" ++ [10] in
  let bs := utf8_encode text in
  on_chunks [] [bs] (Error_ []) = Ok (JStr [233]) /\
  on_chunks [] [take 12 bs; drop 12 bs] (Error_ []) = Ok (JStr [65533; 65533]).
Proof. vm_compute. split; reflexivity. Qed.
