(* ===== verification/Keystore.v ===== *)
(** The local keystore: packages/mcp-server/src/keystore.ts.

    A record read from disk is untrusted JSON ([jval]); the record written is
    [KeystoreRecord].  Passphrases are optional strings, absent or empty
    meaning plaintext keys.  Private keys are their raw bytes; PKCS#8 is the
    [pkcs8_export]/[pkcs8_import] pair of the platform. *)
From S2P Require Import Prelude Base64 Utf8 JsNumber Json JsDate A2A Effect Node Envelope DidKey ApiClient.

Definition ARGON2_MEMORY_COST_KIB : Z := 64 * 1024.
Definition ARGON2_TIME_COST : Z := 3.
Definition ARGON2_PARALLELISM : Z := 1.

(** ** Paths (node:path, posix) *)

Definition path_step (absolute : bool) (acc : list jstr) (part : jstr) : list jstr :=
  if jeqb part [] || jeqb part (js ".") then acc
  else if jeqb part (js "..") then
    match last acc with
    | Some p => if jeqb p (js "..") then acc ++ [part] else removelast acc
    | None => if absolute then acc else acc ++ [part]
    end
  else acc ++ [part].

Definition path_normalize (p : jstr) : jstr :=
  let absolute := starts_with (js "/") p in
  let trailing := match last p with Some c => c =? 47 | None => false end in
  let body := join_with (js "/") (fold_left (path_step absolute) (split_on 47 p) []) in
  let body := match body with [] => if absolute then [] else js "." | _ => if trailing then body ++ js "/" else body end in
  if absolute then js "/" ++ body else body.

Definition path_join (a b : jstr) : jstr :=
  path_normalize (join_with (js "/") (filter (fun s => s <> []) [a; b])).

(** [path.dirname] of a path that does not end in a slash. *)
Definition path_dirname (p : jstr) : jstr :=
  match removelast (split_on 47 p) with
  | [] => js "."
  | [[]] => js "/"
  | parts => join_with (js "/") parts
  end.

Section keystore.
Context `{Host, WebCrypto, Env}.

Record LoadOrActivateInput := LoadOrActivate {
  in_baseUrl : jstr; in_aid : jstr; in_credentialId : jstr;
  enrollmentSecret : option jstr; passphrase : option jstr; keystoreDir : option jstr
}.

Inductive CredentialSource := loaded | activated.

Record LoadedCredential := Credential {
  signing : CryptoKeyPair; encryption : CryptoKeyPair;
  aid : jval; did : jval; activatedAt : jval;
  source : CredentialSource; keystorePath : jstr
}.

(** A private key on disk: plain, or an [EncryptedBlob]. *)
Inductive StoredKey :=
| PlainKey (b64 : jstr)
| EncryptedBlob (iv_b64url ciphertext_b64url : jstr).

Record KeystoreRecord := Record_ {
  rec_credential_id : jstr; rec_aid : jval; rec_did : jval; rec_activated_at : jstr;
  signing_public_key : jstr; encryption_public_key : jstr;
  kdf_salt : option jstr;      (** [Some salt] for kdf "argon2id" *)
  signing_private_key : StoredKey; encryption_private_key : StoredKey
}.

Definition stored_to_val (k : StoredKey) : jval :=
  match k with
  | PlainKey b => JStr b
  | EncryptedBlob iv ct => JObj [(js "iv_b64url", JStr iv); (js "ciphertext_b64url", JStr ct)]
  end.

Definition record_to_val (r : KeystoreRecord) : jval :=
  JObj [(js "version", JNum (num 1)); (js "credential_id", JStr (rec_credential_id r));
        (js "aid", rec_aid r); (js "did", rec_did r); (js "activated_at", JStr (rec_activated_at r));
        (js "signing_public_key", JStr (signing_public_key r));
        (js "encryption_public_key", JStr (encryption_public_key r));
        (js "kdf", match kdf_salt r with Some _ => JStr (js "argon2id") | None => JNull end);
        (js "kdf_params",
         match kdf_salt r with
         | Some salt => JObj [(js "memory_cost_kib", JNum (num ARGON2_MEMORY_COST_KIB));
                              (js "time_cost", JNum (num ARGON2_TIME_COST));
                              (js "parallelism", JNum (num ARGON2_PARALLELISM));
                              (js "salt_b64url", JStr salt)]
         | None => JNull
         end);
        (js "signing_private_key", stored_to_val (signing_private_key r));
        (js "encryption_private_key", stored_to_val (encryption_private_key r))].

Definition is_number (v : jval) : bool := match v with JNum _ => true | _ => false end.

Definition isArgon2Params (v : jval) : bool :=
  is_object v && is_number (jget v (js "memory_cost_kib")) && is_number (jget v (js "time_cost"))
  && is_number (jget v (js "parallelism")) && is_string (jget v (js "salt_b64url")).

Definition isPbkdf2Params (v : jval) : bool :=
  is_object v && is_number (jget v (js "iterations")) && is_string (jget v (js "salt_b64url")).

Definition num_of (v : jval) : jnum := match v with JNum n => n | _ => NaN end.
Definition str_of (v : jval) : jstr := match v with JStr s => s | _ => [] end.

Definition defaultKeystoreDir : jstr :=
  match env_var (js "AGENT_KEYSTORE_DIR") with
  | Some d => d
  | None => path_join env_home (js ".nexusinbox")
  end.

Definition keystore_path (dir credentialId : jstr) : jstr := path_join dir (credentialId ++ js ".json").

Definition exportPrivatePkcs8 (alg : KeyAlg) (privateKey : bytes) : jstr :=
  McpB64.b64url (pkcs8_export alg privateKey).

(** A field that is not a string makes [Buffer.from] throw. *)
Definition importPrivatePkcs8 (b64 : jval) (alg : KeyAlg) : res bytes :=
  s ← as_string b64;
  or_throw (pkcs8_import alg (McpB64.fromB64url s)) DataError.

(** [importKey("raw", ...)] of a public key of either curve. *)
Definition import_raw_public (v : jval) : res bytes :=
  s ← as_string v; Decrypt.import_x25519_raw (McpB64.fromB64url s).

Definition deriveKekArgon2id (passphrase : jstr) (saltBytes : bytes) (memory time lanes : jnum) : res bytes :=
  or_throw (argon2id (utf8_encode passphrase) saltBytes memory time lanes) (Error_ (js "argon2 failure")).

Definition deriveKekPbkdf2 (passphrase : jstr) (saltBytes : bytes) (iterations : jnum) : res bytes :=
  n ← enforce_u32 iterations;
  or_throw (pbkdf2_sha256 (utf8_encode passphrase) saltBytes n) OperationError.

Definition encryptBytes (plaintextB64Url : jstr) (kek : bytes) : M StoredKey :=
  iv ← get_random 12;
  let pt := McpB64.fromB64url plaintextB64Url in
  let ct := aes_gcm_encrypt kek iv pt in
  mret (EncryptedBlob (McpB64.b64url iv) (McpB64.b64url ct)).

Definition decryptBytes (blob : jval) (kek : bytes) : res jstr :=
  iv_b64 ← jprop blob (js "iv_b64url");
  iv ← as_string iv_b64;
  ct_b64 ← jprop blob (js "ciphertext_b64url");
  ct ← as_string ct_b64;
  pt ← or_throw (aes_gcm_decrypt kek (McpB64.fromB64url iv) (McpB64.fromB64url ct)) OperationError;
  Ok (McpB64.b64url pt).

Definition tmp_path (filePath : jstr) (now : Z) : jstr :=
  filePath ++ js "." ++ dec_of_Z env_pid ++ js "." ++ dec_of_Z now ++ js ".tmp".

Definition atomicWrite (filePath data : jstr) : M unit :=
  fs_mkdir (path_dirname filePath) ;;
  now ← now_ms;
  let tmp := tmp_path filePath now in
  fs_write_file tmp data 384 ;;
  fs_rename tmp filePath ;;
  try_catch (fs_chmod filePath 384) (fun _ => mret tt).

Definition readIfExists (filePath : jstr) : M jval :=
  exists_ ← try_catch (fs_access filePath ;; mret true) (fun _ => mret false);
  if exists_ : bool then raw ← fs_read_file filePath; lift (json_parse raw) else mret JNull.

(** The key-encryption key of an encrypted record. *)
Definition record_kek (record : jval) (passphrase : jstr) : res bytes :=
  let kdf := jget record (js "kdf") in
  let params := jget record (js "kdf_params") in
  throw_if (negb (jtruthy params)) (Error_ (js "keystore has kdf=" ++ js_string kdf ++ js " but no kdf_params")) ;;
  let salt := McpB64.fromB64url (str_of (jget params (js "salt_b64url"))) in
  if jis kdf (js "argon2id") && isArgon2Params params then
    deriveKekArgon2id passphrase salt (num_of (jget params (js "memory_cost_kib")))
      (num_of (jget params (js "time_cost"))) (num_of (jget params (js "parallelism")))
  else if jis kdf (js "pbkdf2-sha256") && isPbkdf2Params params then
    deriveKekPbkdf2 passphrase salt (num_of (jget params (js "iterations")))
  else Throw (Error_ (js "unsupported keystore kdf: " ++ js_string kdf)).

Definition decrypt_pair (record : jval) (kek : bytes) : res (jval * jval) :=
  s ← decryptBytes (jget record (js "signing_private_key")) kek;
  e ← decryptBytes (jget record (js "encryption_private_key")) kek;
  Ok (JStr s, JStr e).

(** [record] is an object: the caller has read its [aid]. *)
Definition recordToKeyPairs (record : jval) (passphrase : option jstr) : res (CryptoKeyPair * CryptoKeyPair) :=
  let isEncrypted := jtruthy (jget record (js "kdf")) in
  throw_if (isEncrypted && negb (truthy_ostr passphrase))
    (Error_ (js "keystore file " ++ js_string (jget record (js "credential_id"))
             ++ js " is passphrase-encrypted; set AGENT_KEYSTORE_PASSPHRASE to load it.")) ;;
  keys ←
    (if isEncrypted then
       kek ← record_kek record (default [] passphrase);
       match decrypt_pair record kek with
       | Ok p => Ok p
       | Throw _ => Throw (Error_ (js "failed to decrypt keystore — wrong AGENT_KEYSTORE_PASSPHRASE?"))
       end
     else Ok (jget record (js "signing_private_key"), jget record (js "encryption_private_key")));
  let '(signingPrivB64, encryptionPrivB64) := keys in
  signingPriv ← importPrivatePkcs8 signingPrivB64 Ed25519;
  signingPub ← import_raw_public (jget record (js "signing_public_key"));
  encryptionPriv ← importPrivatePkcs8 encryptionPrivB64 X25519;
  encryptionPub ← import_raw_public (jget record (js "encryption_public_key"));
  Ok (KeyPair signingPriv signingPub, KeyPair encryptionPriv encryptionPub).

Definition buildKeystoreRecord (credentialId : jstr) (aid did : jval) (signing encryption : CryptoKeyPair)
    (passphrase : option jstr) : M KeystoreRecord :=
  let signingPrivPlain := exportPrivatePkcs8 Ed25519 (privateKey signing) in
  let encryptionPrivPlain := exportPrivatePkcs8 X25519 (privateKey encryption) in
  now ← now_ms;
  let base salt sk ek :=
    Record_ credentialId aid did (to_iso_string now) (McpB64.b64url (publicKey signing))
      (McpB64.b64url (publicKey encryption)) salt sk ek in
  if truthy_ostr passphrase then
    salt ← get_random 16;
    kek ← lift (deriveKekArgon2id (default [] passphrase) salt (num ARGON2_MEMORY_COST_KIB)
                  (num ARGON2_TIME_COST) (num ARGON2_PARALLELISM));
    sk ← encryptBytes signingPrivPlain kek;
    ek ← encryptBytes encryptionPrivPlain kek;
    mret (base (Some (McpB64.b64url salt)) sk ek)
  else mret (base None (PlainKey signingPrivPlain) (PlainKey encryptionPrivPlain)).

(** The first run: new keys, activation, then the record on disk. *)
Definition activate_credential (input : LoadOrActivateInput) (filePath secret : jstr) : M LoadedCredential :=
  signing ← createEd25519KeyPair;
  encryption ← createX25519KeyPair;
  activated_ ← activateAgentCredential (in_baseUrl input) (in_credentialId input) secret signing encryption None;
  activated_aid ← lift (jprop activated_ (js "aid"));
  raise_if (negb (jis activated_aid (in_aid input)))
    (Error_ (js "activate returned aid=" ++ js_string activated_aid ++ js ", expected " ++ in_aid input
             ++ js ". Aborting before writing keystore to avoid a confused-deputy record.")) ;;
  activated_did ← lift (jprop activated_ (js "did"));
  record ← buildKeystoreRecord (in_credentialId input) activated_aid activated_did signing encryption
             (passphrase input);
  atomicWrite filePath (json_stringify_indent 2 (record_to_val record)) ;;
  mret (Credential signing encryption activated_aid activated_did (JStr (rec_activated_at record)) activated filePath).

Definition loadOrActivateCredential (input : LoadOrActivateInput) : M LoadedCredential :=
  raise_if (negb (truthy_str (in_credentialId input))) (Error_ (js "credentialId is required")) ;;
  let dir := match keystoreDir input with Some d => d | None => defaultKeystoreDir end in
  let filePath := keystore_path dir (in_credentialId input) in
  existing ← readIfExists filePath;
  if jtruthy existing then
    existing_aid ← lift (jprop existing (js "aid"));
    raise_if (negb (jis existing_aid (in_aid input)))
      (Error_ (js "keystore for credential " ++ in_credentialId input ++ js " holds aid="
               ++ js_string existing_aid ++ js " but current run was asked for aid=" ++ in_aid input
               ++ js ". Refusing to reuse.")) ;;
    keys ← lift (recordToKeyPairs existing (passphrase input));
    mret (Credential keys.1 keys.2 existing_aid (jget existing (js "did")) (jget existing (js "activated_at"))
            loaded filePath)
  else
    match enrollmentSecret input with
    | Some secret =>
      if truthy_str secret then activate_credential input filePath secret
      else raise (Error_ (js "No keystore at " ++ filePath ++ js " and no enrollmentSecret provided. Pass the one-shot ens_… from the credential you just created (env: AGENT_ENROLLMENT_SECRET)."))
    | None =>
      raise (Error_ (js "No keystore at " ++ filePath ++ js " and no enrollmentSecret provided. Pass the one-shot ens_… from the credential you just created (env: AGENT_ENROLLMENT_SECRET)."))
    end.

End keystore.

(** * Lemmas *)

(** [w'] has the trace of [w] extended with events none of which satisfies [p],
    and the same files. *)
Section files.
Context `{Host, WebCrypto, Env}.

Definition same_files (w w' : World) : Prop := w_files w' = w_files w.

#[global] Instance same_files_preorder : PreOrder same_files.
Proof. split; [by intros w|]. intros a b c Hab Hbc. unfold same_files in *. congruence. Qed.

Lemma same_files_ask {A} e (f : list Event -> A) : respects same_files (ask e f).
Proof. by intros w. Qed.

Lemma same_files_get : respects same_files get_state.
Proof. by intros w. Qed.

Lemma same_files_raise {A} e : respects same_files (@raise World A e).
Proof. by intros w. Qed.

Lemma same_files_raise_if b e : respects same_files (raise_if b e).
Proof. by intros w. Qed.

Lemma same_files_client c : respects same_files (set_client c).
Proof. by intros w. Qed.

Hint Resolve same_files_ask same_files_get same_files_raise same_files_raise_if same_files_client : effdb.

Lemma same_files_fs_call op : respects same_files (fs_call op).
Proof. unfold fs_call. apply respects_bind; [apply _|auto with effdb|]. intros [e|]; auto with effdb. Qed.

End files.

Lemma append_ne (s t : jstr) : t <> [] -> s ++ t <> s.
Proof. intros Ht E. apply Ht. apply (f_equal length) in E. rewrite length_app in E. destruct t; [done|simpl in E; lia]. Qed.

(** Case on the file system refusing the next operation. *)
Ltac next_fs_error :=
  match goal with |- context [env_fs_error ?h ?op] => destruct (env_fs_error h op) as [e|] eqn:? end;
  cbn [w_files w_trace w_client].

(** [atomicWrite] either replaces the file or leaves it as it was. *)
Lemma atomicWrite_spec `{Env} path data w :
  let '(r, w') := atomicWrite path data w in
  (r = Ok tt /\ w_files w' !! path = Some data) \/
  (exists e, r = Throw e /\ w_files w' !! path = w_files w !! path).
Proof.
  unfold atomicWrite, fs_mkdir, fs_write_file, fs_rename, fs_chmod, fs_call, now_ms.
  cbv beta iota delta [mbind eff_bind ask get_state set_files try_catch mret eff_ret raise].
  next_fs_error; [right; by eexists|].
  next_fs_error; [right; by eexists|].
  set (tmp := tmp_path path _) in *.
  assert (tmp <> path) as Hne by (unfold tmp, tmp_path; by apply append_ne).
  next_fs_error; [right; eexists; split; [reflexivity|]; by rewrite lookup_insert_ne by congruence|].
  rewrite lookup_insert_eq. cbn [w_files w_trace w_client].
  next_fs_error; left; (split; [reflexivity|by rewrite lookup_insert_eq]).
Qed.

Section records.
Context `{Host, WebCrypto, !WebCryptoLaws, Env, !EnvLaws}.

Lemma b64url_back bs : bytes_ok bs -> McpB64.fromB64url (McpB64.b64url bs) = bs.
Proof. intros Hb. rewrite mcp_b64url_eq by done. by apply mcp_b64_roundtrip. Qed.

Lemma b64url_json bs : bytes_ok bs -> json_okb (JStr (McpB64.b64url bs)) = true.
Proof. intros Hb. rewrite mcp_b64url_eq by done. by apply b64_json. Qed.

(** Key pairs as the platform generates them. *)
Definition generated (alg : KeyAlg) (k : CryptoKeyPair) : Prop :=
  bytes_ok (privateKey k) /\ publicKey k = key_public alg (privateKey k).

Lemma import_private alg k : bytes_ok k -> importPrivatePkcs8 (JStr (exportPrivatePkcs8 alg k)) alg = Ok k.
Proof.
  intros Hk. unfold importPrivatePkcs8, exportPrivatePkcs8. cbn [as_string]. mred.
  rewrite b64url_back by apply pkcs8_bytes. by rewrite pkcs8_inverse.
Qed.

Lemma import_public alg k : generated alg k -> import_raw_public (JStr (McpB64.b64url (publicKey k))) = Ok (publicKey k).
Proof.
  intros [_ ->]. unfold import_raw_public. cbn [as_string]. mred. rewrite b64url_back by apply key_public_bytes.
  unfold Decrypt.import_x25519_raw. by rewrite key_public_length.
Qed.

(** A key stored under [kek], or in the clear, reads back. *)
Lemma encryptBytes_spec plain kek w :
  bytes_ok plain ->
  exists b w', encryptBytes (McpB64.b64url plain) kek w = (Ok b, w') /\
    decryptBytes (stored_to_val b) kek = Ok (McpB64.b64url plain) /\ json_okb (stored_to_val b) = true /\
    (exists iv ct, b = EncryptedBlob iv ct) /\ w_files w' = w_files w.
Proof.
  intros Hp. unfold encryptBytes. unfold get_random. erewrite bind_ok by reflexivity.
  set (iv := env_random _ _). assert (bytes_ok iv) as Hi by apply random_bytes.
  rewrite b64url_back by done. set (ct := aes_gcm_encrypt kek iv plain).
  assert (bytes_ok ct) as Hc by apply aes_gcm_bytes.
  eexists _, _. split; [reflexivity|]. split_and!; [|cbn [stored_to_val]|by eexists _, _|done].
  - unfold decryptBytes. cbn [stored_to_val].
    change (jprop _ (js "iv_b64url")) with (@Ok jval (JStr (McpB64.b64url iv))). mred. cbn [as_string]. mred.
    change (jprop _ (js "ciphertext_b64url")) with (@Ok jval (JStr (McpB64.b64url ct))). mred. cbn [as_string]. mred.
    rewrite !b64url_back by done. subst ct. by rewrite aes_gcm_inverse.
  - pose proof (b64url_json iv Hi) as H1'. pose proof (b64url_json ct Hc) as H2'. revert H1' H2'.
    generalize (JStr (McpB64.b64url iv)) (JStr (McpB64.b64url ct)). intros v1 v2 E1 E2.
    cbn [json_okb forallb fst snd]. rewrite E1, E2. by vm_compute.
Qed.

Lemma to_iso_ascii ms : 0 <= ms < 253402300800000 -> json_okb (JStr (to_iso_string ms)) = true.
Proof.
  intros Hms. assert (iso_range ms) as Hr.
  { unfold iso_range, ms_per_day. change (day_from_year 0) with (-719528). change (day_from_year 10000) with 2932897. lia. }
  apply ascii_json. apply iso_string_ascii. done.
Qed.

(** What a built record promises: JSON carries it, and the same passphrase
    gets the same key pairs out of it. *)
Definition record_good (r : KeystoreRecord) (id : jstr) (aid did : jval) (sg en : CryptoKeyPair)
    (pw : option jstr) : Prop :=
  rec_credential_id r = id /\ rec_aid r = aid /\ rec_did r = did /\
  json_okb (record_to_val r) = true /\
  recordToKeyPairs (record_to_val r) pw = Ok (sg, en) /\
  (truthy_ostr pw = true -> exists iv ct iv' ct',
     signing_private_key r = EncryptedBlob iv ct /\ encryption_private_key r = EncryptedBlob iv' ct').

Lemma record_json r :
  json_okb (JStr (rec_credential_id r)) = true -> json_okb (rec_aid r) = true -> json_okb (rec_did r) = true ->
  json_okb (JStr (rec_activated_at r)) = true -> json_okb (JStr (signing_public_key r)) = true ->
  json_okb (JStr (encryption_public_key r)) = true ->
  match kdf_salt r with Some s => json_okb (JStr s) = true | None => True end ->
  json_okb (stored_to_val (signing_private_key r)) = true ->
  json_okb (stored_to_val (encryption_private_key r)) = true ->
  json_okb (record_to_val r) = true.
Proof.
  destruct r as [id a d at_ sp ep salt sk ek]. cbn [rec_credential_id rec_aid rec_did rec_activated_at
    signing_public_key encryption_public_key kdf_salt signing_private_key encryption_private_key].
  intros V1 V2 V3 V4 V5 V6 V7 V8 V9. unfold record_to_val. cbn [rec_credential_id rec_aid rec_did rec_activated_at
    signing_public_key encryption_public_key kdf_salt signing_private_key encryption_private_key].
  revert V1 V2 V3 V4 V5 V6 V8 V9.
  generalize (JStr id) a d (JStr at_) (JStr sp) (JStr ep) (stored_to_val sk) (stored_to_val ek).
  intros v1 v2 v3 v4 v5 v6 v8 v9 V1 V2 V3 V4 V5 V6 V8 V9.
  destruct salt as [s|].
  - revert V7. generalize (JStr s). intros v7 V7. cbn [json_okb forallb fst snd].
    rewrite V1, V2, V3, V4, V5, V6, V7, V8, V9. by vm_compute.
  - cbn [json_okb forallb fst snd]. rewrite V1, V2, V3, V4, V5, V6, V8, V9. by vm_compute.
Qed.

(** Loading a record whose keys are in the clear. *)
Lemma load_plain r sg en pw :
  generated Ed25519 sg -> generated X25519 en -> kdf_salt r = None ->
  signing_public_key r = McpB64.b64url (publicKey sg) ->
  encryption_public_key r = McpB64.b64url (publicKey en) ->
  signing_private_key r = PlainKey (exportPrivatePkcs8 Ed25519 (privateKey sg)) ->
  encryption_private_key r = PlainKey (exportPrivatePkcs8 X25519 (privateKey en)) ->
  recordToKeyPairs (record_to_val r) pw = Ok (sg, en).
Proof.
  intros Hsg Hen Hs Hsp Hep Hsk Hek. unfold recordToKeyPairs.
  change (jget (record_to_val r) (js "kdf")) with (match kdf_salt r with Some _ => JStr (js "argon2id") | None => JNull end).
  change (jget (record_to_val r) (js "signing_private_key")) with (stored_to_val (signing_private_key r)).
  change (jget (record_to_val r) (js "encryption_private_key")) with (stored_to_val (encryption_private_key r)).
  change (jget (record_to_val r) (js "signing_public_key")) with (JStr (signing_public_key r)).
  change (jget (record_to_val r) (js "encryption_public_key")) with (JStr (encryption_public_key r)).
  rewrite Hs, Hsp, Hep, Hsk, Hek. cbn [jtruthy andb throw_if stored_to_val]. mred.
  rewrite (import_private Ed25519) by apply Hsg. rewrite (import_public Ed25519) by done. mred.
  rewrite (import_private X25519) by apply Hen. rewrite (import_public X25519) by done. by destruct sg, en.
Qed.

(** Loading a record whose keys are under the Argon2id key of [pw]. *)
Lemma load_encrypted r sg en pw salt kek :
  generated Ed25519 sg -> generated X25519 en -> truthy_ostr pw = true -> bytes_ok salt ->
  kdf_salt r = Some (McpB64.b64url salt) ->
  deriveKekArgon2id (default [] pw) salt (num ARGON2_MEMORY_COST_KIB) (num ARGON2_TIME_COST)
    (num ARGON2_PARALLELISM) = Ok kek ->
  signing_public_key r = McpB64.b64url (publicKey sg) ->
  encryption_public_key r = McpB64.b64url (publicKey en) ->
  decryptBytes (stored_to_val (signing_private_key r)) kek = Ok (exportPrivatePkcs8 Ed25519 (privateKey sg)) ->
  decryptBytes (stored_to_val (encryption_private_key r)) kek = Ok (exportPrivatePkcs8 X25519 (privateKey en)) ->
  recordToKeyPairs (record_to_val r) pw = Ok (sg, en).
Proof.
  intros Hsg Hen Hpw Hb Hs Dk Hsp Hep Hsk Hek. unfold recordToKeyPairs, record_kek, decrypt_pair.
  change (jget (record_to_val r) (js "kdf")) with (match kdf_salt r with Some _ => JStr (js "argon2id") | None => JNull end).
  change (jget (record_to_val r) (js "kdf_params")) with
    (match kdf_salt r with
     | Some salt => JObj [(js "memory_cost_kib", JNum (num ARGON2_MEMORY_COST_KIB)); (js "time_cost", JNum (num ARGON2_TIME_COST));
                          (js "parallelism", JNum (num ARGON2_PARALLELISM)); (js "salt_b64url", JStr salt)]
     | None => JNull end).
  change (jget (record_to_val r) (js "signing_private_key")) with (stored_to_val (signing_private_key r)).
  change (jget (record_to_val r) (js "encryption_private_key")) with (stored_to_val (encryption_private_key r)).
  change (jget (record_to_val r) (js "signing_public_key")) with (JStr (signing_public_key r)).
  change (jget (record_to_val r) (js "encryption_public_key")) with (JStr (encryption_public_key r)).
  rewrite Hs, Hsp, Hep, Hpw. change (jtruthy (JStr (js "argon2id"))) with true. cbn [andb negb throw_if]. mred.
  set (params := JObj _). change (jtruthy params) with true. cbn [negb throw_if]. mred.
  change (jget params (js "salt_b64url")) with (JStr (McpB64.b64url salt)).
  change (jget params (js "memory_cost_kib")) with (JNum (num ARGON2_MEMORY_COST_KIB)).
  change (jget params (js "time_cost")) with (JNum (num ARGON2_TIME_COST)).
  change (jget params (js "parallelism")) with (JNum (num ARGON2_PARALLELISM)).
  change (jis (JStr (js "argon2id")) (js "argon2id") && isArgon2Params params) with true. cbv iota.
  cbn [str_of num_of]. rewrite b64url_back, Dk by done. mred. rewrite Hsk. mred. rewrite Hek. mred.
  rewrite (import_private Ed25519) by apply Hsg. rewrite (import_public Ed25519) by done. mred.
  rewrite (import_private X25519) by apply Hen. rewrite (import_public X25519) by done. by destruct sg, en.
Qed.

Lemma derive_kek_some pw salt :
  exists kek, deriveKekArgon2id pw salt (num ARGON2_MEMORY_COST_KIB) (num ARGON2_TIME_COST)
                (num ARGON2_PARALLELISM) = Ok kek.
Proof.
  destruct (argon2id_some (utf8_encode pw) salt) as [kek Hkek]. exists kek. unfold deriveKekArgon2id.
  change (num ARGON2_MEMORY_COST_KIB) with (num 65536). change (num ARGON2_TIME_COST) with (num 3).
  change (num ARGON2_PARALLELISM) with (num 1). by rewrite Hkek.
Qed.

Lemma buildKeystoreRecord_spec id aid did sg en pw w :
  generated Ed25519 sg -> generated X25519 en -> Forall unit_ok id ->
  json_okb aid = true -> json_okb did = true ->
  exists r w', buildKeystoreRecord id aid did sg en pw w = (Ok r, w') /\
    record_good r id aid did sg en pw /\ w_files w' = w_files w.
Proof.
  intros Hsg Hen Hid Ha Hd. unfold buildKeystoreRecord, now_ms. erewrite bind_ok by reflexivity. cbv zeta.
  pose proof (to_iso_ascii _ (now_range (w_trace w))) as Jat. set (now := env_now (w_trace w)) in *.
  assert (json_okb (JStr (McpB64.b64url (publicKey sg))) = true) as Jsp
    by (destruct Hsg as [_ ->]; apply b64url_json, key_public_bytes).
  assert (json_okb (JStr (McpB64.b64url (publicKey en))) = true) as Jep
    by (destruct Hen as [_ ->]; apply b64url_json, key_public_bytes).
  assert (json_okb (JStr id) = true) as Jid by by apply forallb_units.
  pose proof (pkcs8_bytes Ed25519 (privateKey sg)) as Bs. pose proof (pkcs8_bytes X25519 (privateKey en)) as Be.
  destruct (truthy_ostr pw) eqn:Hpw.
  - set (w1 := {| w_trace := EvRandom 16 :: EvNow :: w_trace w; w_files := w_files w; w_client := w_client w |}).
    set (salt := env_random (EvNow :: w_trace w) 16). assert (bytes_ok salt) as Hsalt by apply random_bytes.
    rewrite (bind_ok (get_random 16) _ _ salt w1) by reflexivity.
    destruct (derive_kek_some (default [] pw) salt) as [kek Dk]. erewrite bind_ok by (rewrite Dk; reflexivity).
    destruct (encryptBytes_spec (pkcs8_export Ed25519 (privateKey sg)) kek w1 Bs) as (bs & w2 & E1 & D1 & J1 & S1 & F1).
    erewrite bind_ok by exact E1.
    destruct (encryptBytes_spec (pkcs8_export X25519 (privateKey en)) kek w2 Be) as (be & w3 & E2 & D2 & J2 & S2 & F2).
    erewrite bind_ok by exact E2. eexists _, _. split; [reflexivity|]. split; [|by rewrite F2, F1].
    split_and!; [done..| | |].
    + apply record_json; try done. cbn [kdf_salt]. by apply b64url_json.
    + by eapply load_encrypted.
    + intros _. destruct S1 as (iv & ct & ->). destruct S2 as (iv' & ct' & ->). by eexists _, _, _, _.
  - eexists _, _. split; [reflexivity|]. split; [|done]. split_and!; [done..| |by apply load_plain|congruence].
    apply record_json; try done; by apply b64url_json.
Qed.

End records.

Section loading.
Context `{Host, WebCrypto, !WebCryptoLaws, Env, !EnvLaws}.

Definition input_path (i : LoadOrActivateInput) : jstr :=
  keystore_path (match keystoreDir i with Some d => d | None => defaultKeystoreDir end) (in_credentialId i).

(** The file system lets an existing file be read. *)
Definition readable_files : Prop :=
  forall h p, env_fs_error h (FsAccess p) = None /\ env_fs_error h (FsReadFile p) = None.

Definition after_read (path : jstr) (w : World) : World :=
  {| w_trace := EvFs (FsReadFile path) :: EvFs (FsAccess path) :: w_trace w;
     w_files := w_files w; w_client := w_client w |}.

Lemma readIfExists_found path data w :
  readable_files -> w_files w !! path = Some data ->
  readIfExists path w = (json_parse data, after_read path w).
Proof.
  intros Hr Hf. unfold readIfExists, fs_access, fs_read_file, fs_call, try_catch.
  cbv beta iota delta [mbind eff_bind ask get_state mret eff_ret].
  rewrite (proj1 (Hr _ _)). cbn [w_files w_trace w_client]. rewrite Hf, (proj2 (Hr _ _)).
  cbn [w_files w_trace w_client]. by rewrite Hf.
Qed.

Lemma create_generated alg w k w' :
  (k ← generate_key alg; mret (KeyPair k (key_public alg k))) w = (Ok k, w') -> generated alg k.
Proof. unfold generate_key. intros Hk. eff_inv. injection Hstep as <- <-. split; [apply keygen_bytes|done]. Qed.

Lemma jis_eq v s : jis v s = true -> v = JStr s.
Proof. destruct v; simpl; try done. by intros ->%jeqb_true. Qed.

(** Loading a good record. *)
Lemma load_good input r sg en did w :
  readable_files -> in_credentialId input <> [] ->
  record_good r (in_credentialId input) (JStr (in_aid input)) did sg en (passphrase input) ->
  w_files w !! input_path input = Some (json_stringify_indent 2 (record_to_val r)) ->
  loadOrActivateCredential input w =
  (Ok (Credential sg en (JStr (in_aid input)) did (JStr (rec_activated_at r)) loaded (input_path input)),
   after_read (input_path input) w).
Proof.
  intros Hrd Hid (E1 & E2 & E3 & Hj & Hk & _) Hf. unfold loadOrActivateCredential.
  assert (truthy_str (in_credentialId input) = true) as Ht by by destruct (in_credentialId input).
  rewrite Ht. cbn [negb]. erewrite bind_ok by reflexivity. cbv zeta.
  fold (input_path input).
  erewrite bind_ok by (rewrite (readIfExists_found _ _ _ Hrd Hf), json_indent_roundtrip by done; reflexivity).
  change (jtruthy (record_to_val r)) with true. cbv iota.
  change (jprop (record_to_val r) (js "aid")) with (Ok (rec_aid r)). rewrite E2.
  erewrite bind_ok by reflexivity. change (jis (JStr (in_aid input)) (in_aid input)) with (jeqb (in_aid input) (in_aid input)).
  rewrite jeqb_refl. cbn [negb]. erewrite bind_ok by reflexivity.
  erewrite bind_ok by (unfold lift; rewrite Hk; reflexivity).
  change (jget (record_to_val r) (js "did")) with (rec_did r).
  change (jget (record_to_val r) (js "activated_at")) with (JStr (rec_activated_at r)). by rewrite E3.
Qed.

(** What a completed activation has left on disk. *)
Lemma activated_spec input path secret w c w' :
  Forall unit_ok (in_credentialId input) -> Forall unit_ok (in_aid input) ->
  activate_credential input path secret w = (Ok c, w') -> json_okb (did c) = true ->
  exists r, record_good r (in_credentialId input) (JStr (in_aid input)) (did c) (signing c) (encryption c)
              (passphrase input) /\
    aid c = JStr (in_aid input) /\ source c = activated /\ keystorePath c = path /\
    w_files w' !! path = Some (json_stringify_indent 2 (record_to_val r)).
Proof.
  intros Hid Ha. unfold activate_credential, createEd25519KeyPair, createX25519KeyPair. intros Hc Hd.
  unfold generate_key in Hc. eff_inv.
  repeat match goal with H : ask _ _ _ = (Ok _, _) |- _ => injection H as <- <- end.
  match goal with H : negb (jis _ _) = false |- _ => apply negb_false_iff, jis_eq in H; subst end.
  cbn [did signing encryption aid source keystorePath] in *.
  match goal with H : buildKeystoreRecord _ ?a ?d ?sg ?en ?pw ?w0 = (Ok ?r, _) |- _ =>
    destruct (buildKeystoreRecord_spec (in_credentialId input) a d sg en pw w0) as (r' & w1 & E & G & _);
      [split; [apply keygen_bytes|done]|split; [apply keygen_bytes|done]|done|by apply forallb_units|done|];
    rewrite E in H; injection H as -> ->; exists r end.
  split_and!; [done..|].
  match goal with H : atomicWrite ?p ?d ?w0 = _ |- _ =>
    pose proof (atomicWrite_spec p d w0) as A; rewrite H in A; destruct A as [[_ A]|(e & A & _)]; [exact A|done] end.
Qed.

Lemma same_files_fetch rq : respects same_files (fetch rq).
Proof. apply respects_bind; [apply _|apply same_files_ask|]. intros r. apply respects_lift, _. Qed.

Lemma same_files_activate b id secret sg en kh : respects same_files (activateAgentCredential b id secret sg en kh).
Proof.
  unfold activateAgentCredential, buildEnrollmentProof, now_seconds, now_ms.
  repeat first [apply respects_bind; [apply _| |intros ?]|apply same_files_fetch|apply same_files_ask
               |apply respects_lift, _|apply respects_ret, _].
Qed.

Lemma same_files_encrypt p k : respects same_files (encryptBytes p k).
Proof. apply respects_bind; [apply _|apply same_files_ask|intros iv; apply respects_ret, _]. Qed.

Lemma same_files_record id a d sg en pw : respects same_files (buildKeystoreRecord id a d sg en pw).
Proof.
  unfold buildKeystoreRecord, now_ms, get_random.
  apply respects_bind; [apply _|apply same_files_ask|]. intros n. cbv zeta.
  destruct (truthy_ostr pw); [|apply respects_ret, _].
  repeat first [apply respects_bind; [apply _| |intros ?]|apply same_files_encrypt|apply same_files_ask
               |apply respects_lift, _|apply respects_ret, _].
Qed.

Lemma same_files_read path : respects same_files (readIfExists path).
Proof.
  unfold readIfExists, fs_access, fs_read_file.
  repeat first [apply respects_bind; [apply _| |intros ?]|apply respects_catch; [apply _| |intros ?]
               |apply same_files_fs_call|apply same_files_get|apply respects_lift, _|apply respects_ret, _
               |apply same_files_raise|case_match].
Qed.

(** The keystore file of one path is as before. *)
Definition same_file (path : jstr) (w w' : World) : Prop := w_files w' !! path = w_files w !! path.

#[global] Instance same_file_preorder path : PreOrder (same_file path).
Proof. split; [by intros w|]. intros a b c Hab Hbc. unfold same_file in *. congruence. Qed.

Lemma same_files_file {A} path (m : M A) : respects same_files m -> respects (same_file path) m.
Proof. intros Hm w. specialize (Hm w). unfold same_file, same_files in *. by rewrite Hm. Qed.

Lemma activate_fails_clean input path secret : fails_clean (same_file path) (activate_credential input path secret).
Proof.
  unfold activate_credential, createEd25519KeyPair, createX25519KeyPair, generate_key.
  do 7 (apply (fails_clean_bind (same_file path));
    [apply same_files_file;
     first [apply same_files_activate|apply same_files_record|apply respects_lift, _|apply same_files_raise_if
           |apply respects_bind; [apply _|apply same_files_ask|intros ?; apply respects_ret, _]]
    |intros ?]).
  apply (fails_clean_last (same_file path) _ (fun _ => _)). intros w e w' E.
  match type of E with atomicWrite ?p ?d _ = _ => pose proof (atomicWrite_spec p d w) as A end. rewrite E in A.
  destruct A as [[A _]|(e' & _ & A)]; [done|exact A].
Qed.

Lemma load_fails_clean input : fails_clean (same_file (input_path input)) (loadOrActivateCredential input).
Proof.
  unfold loadOrActivateCredential. fold (input_path input).
  apply (fails_clean_bind (same_file _)); [apply same_files_file, same_files_raise_if|]. intros []. cbv zeta.
  fold (input_path input).
  apply (fails_clean_bind (same_file _)); [apply same_files_file, same_files_read|]. intros v.
  assert (forall e, fails_clean (same_file (input_path input)) (@raise World LoadedCredential e)) as Hr.
  { intros e. apply fails_clean_respects, same_files_file, same_files_raise. }
  destruct (jtruthy v).
  - apply fails_clean_respects, same_files_file.
    repeat first [apply respects_bind; [apply _| |intros ?]|apply same_files_raise_if|apply respects_lift, _
                 |apply respects_ret, _].
  - destruct (enrollmentSecret input) as [secret|]; [|done].
    destruct (truthy_str secret); [apply activate_fails_clean|done].
Qed.

End loading.

(** * Properties *)

(** C8: what activation stores, the next start loads.  After a run that
    activated, any later world that still holds the file, whatever happened in
    between, gives back the same two key pairs, aid and did for the same
    credential and passphrase, reads only that file, makes no request and
    writes nothing; with a passphrase both private keys are on disk only as
    AES-GCM blobs. *)
Theorem keystore_roundtrip `{Host, WebCrypto, !WebCryptoLaws, Env, !EnvLaws}
    (input : LoadOrActivateInput) (w w1 w2 : World) (c : LoadedCredential) (secret : option jstr) :
  readable_files -> in_credentialId input <> [] ->
  Forall unit_ok (in_credentialId input) -> Forall unit_ok (in_aid input) ->
  loadOrActivateCredential input w = (Ok c, w1) -> source c = activated -> json_okb (did c) = true ->
  w_files w2 !! keystorePath c = w_files w1 !! keystorePath c ->
  (exists r, w_files w1 !! keystorePath c = Some (json_stringify_indent 2 (record_to_val r)) /\
     (truthy_ostr (passphrase input) = true -> exists iv ct iv' ct',
        signing_private_key r = EncryptedBlob iv ct /\ encryption_private_key r = EncryptedBlob iv' ct')) /\
  exists at_,
    loadOrActivateCredential
      (LoadOrActivate (in_baseUrl input) (in_aid input) (in_credentialId input) secret (passphrase input)
         (keystoreDir input)) w2
    = (Ok (Credential (signing c) (encryption c) (aid c) (did c) at_ loaded (keystorePath c)),
       after_read (keystorePath c) w2).
Proof.
  intros Hrd Hne Hid Ha Hl Hs Hd Hf. unfold loadOrActivateCredential in Hl. fold (input_path input) in Hl. eff_inv.
  destruct (jtruthy _) eqn:Et.
  { eff_inv. done. }
  assert (exists s0 w0, activate_credential input (input_path input) s0 w0 = (Ok c, w1)) as (s0 & w0 & Hact).
  { destruct (enrollmentSecret input) as [s0|]; [|done]. destruct (truthy_str s0); [by eexists _, _|done]. }
  destruct (activated_spec input _ s0 _ c w1 Hid Ha Hact Hd) as (r & G & Ea & _ & Ep & Hw1).
  rewrite Ep in *. split.
  - exists r. split; [done|]. by destruct G as (_ & _ & _ & _ & _ & G).
  - exists (JStr (rec_activated_at r)). rewrite Ea.
    apply (load_good (LoadOrActivate _ _ _ secret _ _) r); [done|done|exact G|]. by rewrite <- Hw1.
Qed.

Definition sample_run (secret : option jstr) : LoadOrActivateInput :=
  LoadOrActivate (js "https://api") (js "agent-1") (js "cred-1") secret (Some (js "open sesame")) (Some (js "/keys")).

(** The server of the witnesses: it activates any credential as agent-1. *)
Definition activating_env : Env :=
  reply_env ([123; 34] ++ js "aid" ++ [34; 58; 34] ++ js "agent-1" ++ [34; 44; 34] ++ js "did" ++ [34; 58; 34]
             ++ js "did:key:z1" ++ [34; 125]).

(** Another file, in another directory, written between the two runs. *)
Example keystore_roundtrip_witness :
  let _ := plain_host in let _ := activating_env in
  exists c w1, loadOrActivateCredential (sample_run (Some (js "ens_1"))) empty_world = (Ok c, w1) /\
    let w2 := {| w_trace := []; w_files := <[js "/other" := []]> (w_files w1); w_client := w_client w1 |} in
    exists at_, loadOrActivateCredential (sample_run None) w2
      = (Ok (Credential (signing c) (encryption c) (aid c) (did c) at_ loaded (js "/keys/cred-1.json")),
         after_read (js "/keys/cred-1.json") w2).
Proof.
  intros ho en.
  assert (match loadOrActivateCredential (sample_run (Some (js "ens_1"))) empty_world with
          | (Ok c, _) => source c = activated /\ did c = JStr (js "did:key:z1") /\ keystorePath c = js "/keys/cred-1.json"
          | _ => False end) as E by by vm_compute.
  destruct (loadOrActivateCredential (sample_run (Some (js "ens_1"))) empty_world) as [[c|] w1] eqn:Ec; [|destruct E].
  destruct E as (Es & Ed & Ep). exists c, w1. split; [reflexivity|]. intros w2.
  destruct (keystore_roundtrip (sample_run (Some (js "ens_1"))) empty_world w1 w2 c None) as (_ & at_ & E).
  - intros h p. split; reflexivity.
  - discriminate.
  - apply forallb_units. vm_compute. reflexivity.
  - apply forallb_units. vm_compute. reflexivity.
  - exact Ec.
  - exact Es.
  - rewrite Ed. vm_compute. reflexivity.
  - rewrite Ep. subst w2. cbn [w_files]. apply lookup_insert_ne. discriminate.
  - exists at_. rewrite Ep in E. exact E.
Defined.

(** C26: the keystore is all or nothing.  A run that throws, at any step and for
    any reason (a refused request, an aid that is not the expected one, a
    failing disk), leaves the credential's file exactly as it was; and a file
    that belongs to another aid is refused before anything but that read
    happens. *)
Theorem keystore_untouched_on_failure `{Host, WebCrypto, Env} (input : LoadOrActivateInput) (w : World) :
  (forall e w', loadOrActivateCredential input w = (Throw e, w') ->
     w_files w' !! input_path input = w_files w !! input_path input) /\
  (forall data v, readable_files -> in_credentialId input <> [] ->
     w_files w !! input_path input = Some data -> json_parse data = Ok v -> jtruthy v = true ->
     jget v (js "aid") <> JStr (in_aid input) ->
     exists e, loadOrActivateCredential input w = (Throw e, after_read (input_path input) w)).
Proof.
  split.
  - intros e w'. apply load_fails_clean.
  - intros data v Hrd Hid Hf Hp Ht Hne. unfold loadOrActivateCredential.
    assert (truthy_str (in_credentialId input) = true) as -> by by destruct (in_credentialId input).
    cbn [negb]. erewrite bind_ok by reflexivity. cbv zeta. fold (input_path input).
    erewrite bind_ok by (rewrite (readIfExists_found _ _ _ Hrd Hf), Hp; reflexivity). rewrite Ht.
    assert (jprop v (js "aid") = Ok (jget v (js "aid"))) as Ej by by destruct v.
    erewrite bind_ok by (rewrite Ej; reflexivity).
    assert (jis (jget v (js "aid")) (in_aid input) = false) as ->.
    { destruct (jis _ _) eqn:E; [|done]. by apply jis_eq in E. }
    eexists. by apply bind_throw.
Qed.

(** The API is down: the run fails and an existing file of the credential
    would be left alone; and the file of agent-2 is refused outright. *)
Example keystore_untouched_on_failure_witness :
  let _ := plain_host in let _ := reply_env (js "down") in
  let foreign := {| w_trace := []; w_client := w_client empty_world;
                    w_files := {[ js "/keys/cred-1.json" := [123; 34] ++ js "aid" ++ [34; 58; 34] ++ js "agent-2" ++ [34; 125] ]} |} in
  (exists e w', loadOrActivateCredential (sample_run (Some (js "ens_1"))) empty_world = (Throw e, w') /\
     w_files w' !! js "/keys/cred-1.json" = None) /\
  exists e, loadOrActivateCredential (sample_run (Some (js "ens_1"))) foreign
    = (Throw e, after_read (js "/keys/cred-1.json") foreign).
Proof.
  intros ho en foreign. split.
  - assert (is_ok (loadOrActivateCredential (sample_run (Some (js "ens_1"))) empty_world).1 = false) as E by by vm_compute.
    destruct (loadOrActivateCredential (sample_run (Some (js "ens_1"))) empty_world) as [[c|e] w'] eqn:Ec; [discriminate E|].
    exists e, w'. split; [reflexivity|].
    destruct (keystore_untouched_on_failure (sample_run (Some (js "ens_1"))) empty_world) as [Hk _].
    exact (Hk e w' Ec).
  - destruct (keystore_untouched_on_failure (sample_run (Some (js "ens_1"))) foreign) as [_ Hk].
    eapply Hk.
    + intros h p. split; reflexivity.
    + discriminate.
    + reflexivity.
    + vm_compute. reflexivity.
    + reflexivity.
    + discriminate.
Defined.
