(* ===== verification/Runtime.v ===== *)
(** What the two MCP runtimes share: packages/mcp-server/src/audit.ts, and the
    interface of packages/mcp-server/src/types.ts with the contract both
    runtimes promise to the stdio server.

    Tool arguments and results are JSON objects ([jval]); an audit entry is
    recorded as the event [EvAudit] (one JSON line on stderr). *)
From S2P Require Import Prelude Base64 Utf8 JsNumber Json JsDate A2A Effect Node Envelope ApiClient.

(** [a === b]; two objects that came from different JSON texts are distinct. *)
Definition strict_eq (a b : jval) : bool :=
  match a, b with
  | JUndef, JUndef | JNull, JNull => true
  | JBool x, JBool y => Bool.eqb x y
  | JNum x, JNum y => num_eqb x y
  | JStr x, JStr y => jeqb x y
  | _, _ => false
  end.

(** [response.messages.map(f)] on a value that may not be an array. *)
Definition array_of (v : jval) : res (list jval) :=
  match v with
  | JArr l => Ok l
  | JUndef => Throw (TypeError_ (js "Cannot read properties of undefined"))
  | JNull => Throw (TypeError_ (js "Cannot read properties of null"))
  | _ => Throw (TypeError_ (js "map is not a function"))
  end.

(** ** audit.ts *)
Section audit.
Context `{WebCrypto, Env}.

(** [createHash] refuses anything but a string (or a buffer). *)
Definition sha256Hex (input : jval) : res jstr :=
  s ← as_string input;
  Ok (flat_map (fun b => [hex_digit (b / 16); hex_digit (b mod 16)]) (sha256 (utf8_encode s))).

Record Auditor := AuditorOf { au_aid : jval; au_did : jval; au_credential_id : jval }.

Definition audit_entry (a : Auditor) (timestamp : jstr) (partial : list (jstr * jval)) : jval :=
  JObj ([(js "timestamp", JStr timestamp); (js "source", JStr (js "mcp-server"));
         (js "aid", au_aid a); (js "did", au_did a); (js "credential_id", au_credential_id a)] ++ partial).

(** One call of the function [createAuditor] returns, with the default sink. *)
Definition audit (a : Auditor) (partial : list (jstr * jval)) : M unit :=
  now ← now_ms;
  emit (EvAudit (audit_entry a (to_iso_string now) partial)).

End audit.

(** ** NexusInboxMcpRuntime *)

Record NexusInboxMcpRuntime := McpRuntime {
  listMyAgents : M jval;
  listInbox : jval -> M jval;
  readMessage : jval -> M jval;
  resolveRecipient : jval -> M jval;
  sendTextMessage : jval -> M jval;
  replyToMessage : jval -> M jval
}.

(** [input.mode ?? "draft"]. *)
Definition mode_of (input : jval) : jval := nullish_or (jget input (js "mode")) (JStr (js "draft")).
Definition is_draft (input : jval) : bool := jis (mode_of input) (js "draft").

(** [input.confirmed_by_user === true]. *)
Definition confirmed (input : jval) : bool :=
  match jget input (js "confirmed_by_user") with JBool true => true | _ => false end.

(** The policy of the write tools: something leaves only when the caller asked
    for more than a draft and passed the confirmation flag. *)
Definition may_send (input : jval) : bool := negb (is_draft input) && confirmed input.

(** How a write tool accounts for itself: exactly one audit entry, its last
    event, when it returns; none when it throws.  The entry and the result
    carry the hash of the same body, and a send says that it was confirmed. *)
Definition accounted `{WebCrypto, Env} (tool : jstr) (input : jval) (w : World) (r : res jval) (w' : World) : Prop :=
  match r with
  | Throw _ => extends is_audit 0 w w'
  | Ok result =>
    exists w1 entry hash, extends is_audit 0 w w1 /\ w_trace w' = EvAudit entry :: EvNow :: w_trace w1 /\
      jget entry (js "tool_name") = JStr tool /\
      sha256Hex (jget input (js "body_markdown")) = Ok hash /\
      jget entry (js "draft_body_hash") = JStr hash /\ jget result (js "draft_body_hash") = JStr hash /\
      let mode := JStr (if is_draft input then js "draft" else js "send") in
      jget entry (js "mode") = mode /\ jget result (js "mode") = mode /\
      (is_draft input = false ->
       jget entry (js "confirmed_by_user") = JBool true /\ confirmed input = true /\
       jget entry (js "message_id") = jget result (js "message_id"))
  end.

(** The contract of a runtime whose sending events are [sends]: reading never
    sends, writing sends only when it may and at most [bound] times, and every
    write is accounted for. *)
Class RuntimeContract `{WebCrypto, Env} (rt : NexusInboxMcpRuntime) (sends : Event -> bool) (bound : nat) : Prop := {
  agents_no_send : at_most sends 0 (listMyAgents rt);
  inbox_no_send input : at_most sends 0 (listInbox rt input);
  read_no_send input : at_most sends 0 (readMessage rt input);
  resolve_no_send input : at_most sends 0 (resolveRecipient rt input);
  send_gate input : may_send input = false -> at_most sends 0 (sendTextMessage rt input);
  reply_gate input : may_send input = false -> at_most sends 0 (replyToMessage rt input);
  send_bound input : at_most sends bound (sendTextMessage rt input);
  reply_bound input : at_most sends bound (replyToMessage rt input);
  send_accounted input w r w' :
    sendTextMessage rt input w = (r, w') -> accounted (js "send_text_message") input w r w';
  reply_accounted input w r w' :
    replyToMessage rt input w = (r, w') -> accounted (js "reply_to_message") input w r w'
}.

(** ** Lemmas *)

Section lemmas.
Context `{WebCrypto, Env}.

Lemma audit_run a partial w :
  audit a partial w =
  (Ok tt, {| w_trace := EvAudit (audit_entry a (to_iso_string (env_now (w_trace w))) partial) :: EvNow :: w_trace w;
             w_files := w_files w; w_client := w_client w |}).
Proof. reflexivity. Qed.

Lemma audit_none p a partial : (forall e, p (EvAudit e) = false) -> p EvNow = false -> at_most p 0 (audit a partial).
Proof. intros Ha Hn. unfold audit, now_ms. apply at_most_bind0; auto with effdb. Qed.

(** A program whose last steps are an audit and a return, after a part that
    audits nothing. *)
Lemma accounted_throw tool input w e w' : extends is_audit 0 w w' -> accounted tool input w (Throw e) w'.
Proof. done. Qed.

(** Run a prefix that audits nothing before an accounted rest. *)
Lemma accounted_bind {A} tool input (m : M A) (f : A -> M jval) w r w' :
  at_most is_audit 0 m ->
  (forall a w1 r1 w2, m w = (Ok a, w1) -> f a w1 = (r1, w2) -> accounted tool input w1 r1 w2) ->
  (m ≫= f) w = (r, w') -> accounted tool input w r w'.
Proof.
  intros Hm Hf E. specialize (Hm w). unfold mbind, eff_bind in E. destruct (m w) as [[a|e] w1] eqn:Em.
  - specialize (Hf a w1 r w' eq_refl E). cbn [snd] in Hm. destruct r as [v|e].
    + destruct Hf as (w2 & entry & hash & Hx & Hr). exists w2, entry, hash. split; [|exact Hr].
      by apply (extends_trans is_audit 0 0 _ w1).
    + by apply (extends_trans is_audit 0 0 _ w1).
  - injection E as <- <-. exact Hm.
Qed.

End lemmas.

(** The events of a request: one that [p] never counts. *)
Lemma fetch_none `{Env} p rq : p (EvFetch rq) = false -> at_most p 0 (fetch rq).
Proof. apply at_most_fetch0. Qed.

Section requests.
Context `{Host, WebCrypto, Env}.

Lemma dispatch_none p method url body :
  p EvNow = false -> p EvUuid = false -> (forall h b, p (EvFetch (HttpRequest method url h b)) = false) ->
  at_most p 0 (dispatch method url body).
Proof.
  intros Hn Hu Hf. unfold dispatch. apply at_most_bind0; [apply at_most_get|]. intros w.
  apply at_most_bind0; [by apply proof_at_most|]. intros j. by apply at_most_fetch0.
Qed.

(** A request whose URL and method [p] does not count, with a refresh that
    does nothing [p] counts. *)
Lemma request_none p c method path body :
  p EvNow = false -> p EvUuid = false ->
  (forall h b, p (EvFetch (HttpRequest method (baseUrl c ++ path) h b)) = false) ->
  match onUnauthorized c with Some refresh => at_most p 0 refresh | None => True end ->
  at_most p 0 (request c method path body).
Proof.
  intros Hn Hu Hf Hr. unfold request. apply at_most_bind0; [by apply dispatch_none|]. intros r.
  apply at_most_bind0; [|intros r'; apply at_most_lift].
  destruct (onUnauthorized c) as [refresh|]; [|apply at_most_ret].
  destruct (rs_status r =? 401); [|apply at_most_ret].
  apply at_most_bind0; [done|]. intros [tok d]. apply at_most_bind0; [apply at_most_set_client|].
  intros _. by apply dispatch_none.
Qed.

End requests.

(** ** Programs that do nothing [p] counts *)

(** [p] counts no clock, randomness or key event. *)
Definition counts_no_local (p : Event -> bool) : Prop :=
  p EvNow = false /\ p EvUuid = false /\ (forall n, p (EvRandom n) = false) /\ (forall a, p (EvKeygen a) = false).

(** Walk down a chain of binds. *)
Ltac no_event :=
  repeat first
    [ progress cbv beta iota zeta
    | match goal with x : (_ * _)%type |- _ => destruct x end
    | match goal with u : unit |- _ => destruct u end
    | apply at_most_lift | apply at_most_ret | apply at_most_raise | apply at_most_raise_if | apply at_most_get
    | apply at_most_set_client
    | match goal with |- at_most _ _ (_ ≫= _) => apply at_most_bind0; [|intros ?] end ].

Section none.
Context `{Host, WebCrypto, Env}.

Lemma text_none p plain pass : counts_no_local p -> at_most p 0 (Core.encryptText plain pass).
Proof. intros (_ & _ & Hr & _). unfold Core.encryptText, get_random. no_event; by apply at_most_ask. Qed.

Lemma crypto_text_none p plain pass : counts_no_local p -> at_most p 0 (CryptoPkg.encryptText plain pass).
Proof. intros (_ & _ & Hr & _). unfold CryptoPkg.encryptText, get_random. no_event; by apply at_most_ask. Qed.

Lemma content_key_none p : counts_no_local p -> at_most p 0 Core.generateContentKey.
Proof. intros (_ & _ & Hr & _). unfold Core.generateContentKey, get_random. no_event. by apply at_most_ask. Qed.

Lemma wrap_none p key pub : counts_no_local p -> at_most p 0 (Core.wrapContentKeyForRecipient key pub).
Proof.
  intros (_ & _ & Hr & Hk). unfold Core.wrapContentKeyForRecipient, generate_key, get_random.
  no_event; by apply at_most_ask.
Qed.

Lemma envelope_none p input : counts_no_local p -> at_most p 0 (Core.buildEncryptedTextEnvelope input).
Proof.
  intros Hp. unfold Core.buildEncryptedTextEnvelope.
  no_event; first [by apply content_key_none|by apply text_none|by apply wrap_none].
Qed.

Lemma assertion_none p aid id k aud sc now ex : counts_no_local p -> at_most p 0 (buildAgentAssertion aid id k aud sc now ex).
Proof.
  intros (Hn & Hu & _ & _). unfold buildAgentAssertion, now_seconds, now_ms, random_uuid.
  destruct now; no_event; by apply at_most_ask.
Qed.

Lemma exchange_none p base aid id k sc aud d :
  counts_no_local p ->
  (forall h b, p (EvFetch (HttpRequest (js "POST") (strip_slashes base ++ js "/agent-auth/token") h b)) = false) ->
  at_most p 0 (exchangeAgentToken base aid id k sc aud d).
Proof.
  intros Hp Hf. unfold exchangeAgentToken.
  apply at_most_bind0.
  { destruct d; [apply at_most_ret|]. unfold createDpopKeyPair, createEd25519KeyPair, generate_key. no_event.
    apply at_most_ask. apply Hp. }
  intros d'. cbv zeta. apply at_most_bind0; [by apply assertion_none|]. intros a.
  apply at_most_bind0; [by apply at_most_fetch0|]. intros r. no_event.
Qed.

End none.

(** The last steps of a write tool: the audit entry and the result. *)
Lemma accounted_finish `{WebCrypto, Env} tool input a partial result hash w :
  sha256Hex (jget input (js "body_markdown")) = Ok hash ->
  (forall ts, let entry := audit_entry a ts partial in let mode := JStr (if is_draft input then js "draft" else js "send") in
     jget entry (js "tool_name") = JStr tool /\ jget entry (js "draft_body_hash") = JStr hash /\
     jget result (js "draft_body_hash") = JStr hash /\ jget entry (js "mode") = mode /\ jget result (js "mode") = mode /\
     (is_draft input = false -> jget entry (js "confirmed_by_user") = JBool true /\ confirmed input = true /\
        jget entry (js "message_id") = jget result (js "message_id"))) ->
  forall r w', (audit a partial ;; mret result) w = (r, w') -> accounted tool input w r w'.
Proof.
  intros Hh Hf r w'. erewrite bind_ok by apply audit_run. intros [= <- <-].
  destruct (Hf (to_iso_string (env_now (w_trace w)))) as (F1 & F2 & F3 & F4 & F5 & F6).
  exists w, (audit_entry a (to_iso_string (env_now (w_trace w))) partial), hash.
  split; [apply extends_refl|]. by split_and!.
Qed.
