(* ===== verification/RuntimeSaas.v ===== *)
(** The Standard-mode runtime: packages/mcp-server/src/runtime-saas.ts.

    The API client's token and DPoP key live in [w_client]; [issueTokens] is
    the refresh callback.  The runtime satisfies [RuntimeContract] for the
    event "POST <base>/messages", at most two of them per call (the second
    after a 401). *)
From S2P Require Import Prelude Base64 Utf8 JsNumber Json JsDate A2A Effect Node Envelope ApiClient Keystore Runtime.

Section saas.
Context `{Host, WebCrypto, Env}.

Record SaasRuntimeConfig := SaasConfig {
  sc_baseUrl : jstr; sc_aid : jstr; sc_credentialId : jstr;
  sc_enrollmentSecret : option jstr; sc_passphrase : option jstr; sc_keystoreDir : option jstr
}.

Definition requireConfirmation (flag : jval) (toolName : jstr) : res unit :=
  throw_if (match flag with JBool true => false | _ => true end)
    (Error_ (toolName ++ js ": mode='send' requires confirmed_by_user=true. The LLM host must surface a confirmation prompt to the human before flipping this flag.")).

(** [/^re:\s*/i] of a string. *)
Definition re_prefixed (s : jstr) : bool :=
  match s with
  | c1 :: c2 :: c3 :: _ => ((c1 =? 114) || (c1 =? 82)) && ((c2 =? 101) || (c2 =? 69)) && (c3 =? 58)
  | _ => false
  end.

Definition prefixReSubject (subject : jstr) : jstr :=
  let trimmed := trim subject in
  if negb (truthy_str trimmed) then js "Re: "
  else if re_prefixed trimmed then trimmed
  else js "Re: " ++ trimmed.

(** [input.subject?.trim()]. *)
Definition trim_opt (v : jval) : res jstr :=
  match v with
  | JUndef | JNull => Ok []
  | JStr s => Ok (trim s)
  | _ => Throw (TypeError_ (js "trim is not a function"))
  end.

(** [v ?? null] and [v ? { did: v } : undefined]. *)
Definition or_null (v : jval) : jval := nullish_or v JNull.
Definition party (did : jval) : jval := if jtruthy did then JObj [(js "did", did)] else JUndef.

(** The recipient's decryption of message fields that may not be strings. *)
Definition decrypt_fields (content : jval) (contentKey : jstr) : res (jstr * jstr) :=
  encrypted_content ← jprop content (js "encrypted_content");
  subject_encrypted ← jprop content (js "subject_encrypted");
  c ← as_string encrypted_content;
  s ← (let v := nullish_or subject_encrypted (JStr []) in if jtruthy v then as_string v else Ok []);
  Ok (Decrypt.decryptEnvelopeTextWithContentKey c s contentKey).

(** The content, the subject and the body. *)
Definition decryptIncoming (client : ApiClient) (credential : LoadedCredential) (messageId : jval)
    : M (jval * jstr * jstr) :=
  content ← ApiClient.readMessage client messageId;
  encrypted_key ← lift (jprop content (js "encrypted_key"));
  wrapped ← lift (as_string encrypted_key);
  contentKey ← lift (Decrypt.unwrapContentKey wrapped (privateKey (encryption credential)));
  fields ← lift (decrypt_fields content contentKey);
  mret (content, fields.1, fields.2).

(** Returns the message id and the status. *)
Definition sendViaClient (client : ApiClient) (credential : LoadedCredential) (recipient subject body threadId : jval)
    : M (jval * jval) :=
  encryptionPublicKey ← lift (jprop recipient (js "encryption_public_key"));
  raise_if (negb (jtruthy encryptionPublicKey))
    (Error_ (js "recipient has no registered encryption_public_key — cannot build E2E envelope")) ;;
  response ← ApiClient.sendTextMessage client
    (TextMessage (did credential) (jget recipient (js "did")) encryptionPublicKey
       (privateKey (signing credential)) subject body JUndef threadId) [];
  message_id ← lift (jprop response (js "message_id"));
  mret (message_id, jget response (js "status")).

Definition encrypted_notice : jval := JStr (js "(encrypted — call read_message to decrypt)").

Definition summarize (m : jval) : res jval :=
  id ← jprop m (js "id");
  Ok (JObj [(js "message_id", id); (js "sender_did", jget m (js "sender_did")); (js "subject", encrypted_notice);
            (js "created_at", jget m (js "created_at")); (js "status", jget m (js "status"));
            (js "folder", jget m (js "folder"))]).

Fixpoint summaries (l : list jval) : res (list jval) :=
  match l with
  | [] => Ok []
  | m :: r => s ← summarize m; ss ← summaries r; Ok (s :: ss)
  end.

Definition inbox_result (response : jval) : res jval :=
  messages ← jprop response (js "messages");
  l ← array_of messages;
  ss ← summaries l;
  Ok (JObj [(js "messages", JArr ss); (js "total", jget response (js "total"));
            (js "page", jget response (js "page")); (js "per_page", jget response (js "per_page"))]).

Definition saas_listMyAgents (client : ApiClient) (config : SaasRuntimeConfig) : M jval :=
  me ← ApiClient.resolveRecipient client (JStr (sc_aid config));
  aid ← lift (jprop me (js "aid"));
  mret (JObj [(js "agents", JArr [JObj [(js "aid", aid); (js "did", jget me (js "did"));
                                        (js "label", or_null (jget me (js "label")))]])]).

Definition saas_listInbox (client : ApiClient) (input : jval) : M jval :=
  response ← ApiClient.listMessages client (jget input (js "agent_aid"))
    (nullish_or (jget input (js "folder")) (JStr (js "inbox")))
    (nullish_or (jget input (js "status")) (JStr (js "all")));
  lift (inbox_result response).

Definition message_result (message_id content : jval) (subject body : jstr) : jval :=
  JObj [(js "message_id", message_id); (js "sender", party (jget content (js "sender_did")));
        (js "recipient", party (jget content (js "recipient_did"))); (js "subject", JStr subject);
        (js "body", JStr body); (js "attachments", JArr [])].

Definition saas_readMessage (client : ApiClient) (credential : LoadedCredential) (a : Auditor) (input : jval) : M jval :=
  '(content, subject, body) ← decryptIncoming client credential (jget input (js "message_id"));
  audit a [(js "tool_name", JStr (js "read_message")); (js "mode", JStr (js "read"));
           (js "message_id", jget input (js "message_id"))] ;;
  mret (message_result (jget input (js "message_id")) content subject body).

Definition recipient_result (resolved : jval) : res jval :=
  aid ← jprop resolved (js "aid");
  Ok (JObj [(js "aid", aid); (js "did", jget resolved (js "did")); (js "label", or_null (jget resolved (js "label")));
            (js "encryption_public_key", nullish_or (jget resolved (js "encryption_public_key")) (JStr []))]).

Definition saas_resolveRecipient (client : ApiClient) (input : jval) : M jval :=
  resolved ← ApiClient.resolveRecipient client (jget input (js "identifier"));
  lift (recipient_result resolved).

Definition draft_result (sender_aid recipient subject body thread_id : jval) (body_hash : jstr) : jval :=
  JObj [(js "mode", JStr (js "draft")); (js "sender_aid", sender_aid);
        (js "recipient_aid", jget recipient (js "aid")); (js "recipient_did", jget recipient (js "did"));
        (js "subject", subject); (js "body_markdown", body); (js "thread_id", thread_id);
        (js "draft_body_hash", JStr body_hash)].

Definition sent_result (message_id status thread_id : jval) (body_hash : jstr) : jval :=
  JObj [(js "mode", JStr (js "send")); (js "message_id", message_id); (js "status", status);
        (js "thread_id", thread_id); (js "draft_body_hash", JStr body_hash)].

Definition saas_sendTextMessage (client : ApiClient) (credential : LoadedCredential) (a : Auditor) (input : jval) : M jval :=
  body_hash ← lift (sha256Hex (jget input (js "body_markdown")));
  recipient ← ApiClient.resolveRecipient client (jget input (js "to"));
  if is_draft input then
    recipient_aid ← lift (jprop recipient (js "aid"));
    audit a [(js "tool_name", JStr (js "send_text_message")); (js "mode", JStr (js "draft"));
             (js "draft_body_hash", JStr body_hash); (js "recipient_aid", recipient_aid);
             (js "recipient_did", jget recipient (js "did"));
             (js "provider_hint", jget input (js "provider_hint"))] ;;
    mret (draft_result (jget input (js "from_agent")) recipient (jget input (js "subject"))
            (jget input (js "body_markdown")) JNull body_hash)
  else
    lift (requireConfirmation (jget input (js "confirmed_by_user")) (js "send_text_message")) ;;
    '(message_id, status) ← sendViaClient client credential recipient (jget input (js "subject"))
      (jget input (js "body_markdown")) JUndef;
    audit a [(js "tool_name", JStr (js "send_text_message")); (js "mode", JStr (js "send"));
             (js "confirmed_by_user", JBool true); (js "draft_body_hash", JStr body_hash);
             (js "recipient_aid", jget recipient (js "aid")); (js "recipient_did", jget recipient (js "did"));
             (js "message_id", message_id); (js "provider_hint", jget input (js "provider_hint"))] ;;
    mret (sent_result message_id status JNull body_hash).

Definition saas_replyToMessage (client : ApiClient) (credential : LoadedCredential) (config : SaasRuntimeConfig)
    (a : Auditor) (input : jval) : M jval :=
  '(content, plain_subject, _) ← decryptIncoming client credential (jget input (js "incoming_message_id"));
  let sender_did := jget content (js "sender_did") in
  raise_if (negb (jtruthy sender_did)) (Error_ (js "incoming message has no sender_did — cannot draft a reply")) ;;
  recipient ← ApiClient.resolveRecipient client sender_did;
  trimmed ← lift (trim_opt (jget input (js "subject")));
  let subject := JStr (if truthy_str trimmed then trimmed else prefixReSubject plain_subject) in
  let threadId := or_null (jget content (js "thread_id")) in
  body_hash ← lift (sha256Hex (jget input (js "body_markdown")));
  if is_draft input then
    recipient_aid ← lift (jprop recipient (js "aid"));
    audit a [(js "tool_name", JStr (js "reply_to_message")); (js "mode", JStr (js "draft"));
             (js "draft_body_hash", JStr body_hash); (js "message_id", jget input (js "incoming_message_id"));
             (js "recipient_aid", recipient_aid); (js "recipient_did", jget recipient (js "did"));
             (js "thread_id", threadId); (js "provider_hint", jget input (js "provider_hint"))] ;;
    mret (draft_result (JStr (sc_aid config)) recipient subject (jget input (js "body_markdown")) threadId body_hash)
  else
    lift (requireConfirmation (jget input (js "confirmed_by_user")) (js "reply_to_message")) ;;
    '(message_id, status) ← sendViaClient client credential recipient subject
      (jget input (js "body_markdown")) (nullish_or threadId JUndef);
    audit a [(js "tool_name", JStr (js "reply_to_message")); (js "mode", JStr (js "send"));
             (js "confirmed_by_user", JBool true); (js "draft_body_hash", JStr body_hash);
             (js "message_id", message_id); (js "recipient_aid", jget recipient (js "aid"));
             (js "recipient_did", jget recipient (js "did")); (js "thread_id", threadId);
             (js "provider_hint", jget input (js "provider_hint"))] ;;
    mret (sent_result message_id status threadId body_hash).

Definition buildRuntime (client : ApiClient) (credential : LoadedCredential) (config : SaasRuntimeConfig)
    (a : Auditor) : NexusInboxMcpRuntime :=
  McpRuntime (saas_listMyAgents client config) (saas_listInbox client) (saas_readMessage client credential a)
    (saas_resolveRecipient client) (saas_sendTextMessage client credential a)
    (saas_replyToMessage client credential config a).

(** The refresh callback of the client. *)
Definition issueTokens (config : SaasRuntimeConfig) (credential : LoadedCredential) : M (jval * DpopKeyPair) :=
  '(fresh, dpop) ← exchangeAgentToken (sc_baseUrl config) (sc_aid config) (sc_credentialId config)
    (privateKey (signing credential)) None None None;
  mret (jget fresh (js "access_token"), dpop).

Definition createSaasRuntime (config : SaasRuntimeConfig) : M (NexusInboxMcpRuntime * LoadedCredential) :=
  credential ← loadOrActivateCredential
    (LoadOrActivate (sc_baseUrl config) (sc_aid config) (sc_credentialId config) (sc_enrollmentSecret config)
       (sc_passphrase config) (sc_keystoreDir config));
  '(accessToken, dpop) ← issueTokens config credential;
  client ← new_client (sc_baseUrl config) accessToken dpop (Some (issueTokens config credential));
  let a := AuditorOf (aid credential) (did credential) (JStr (sc_credentialId config)) in
  mret (buildRuntime client credential config a, credential).

End saas.

(** * Lemmas *)

(** A message leaving: "POST url". *)
Definition posts_to (url : jstr) (e : Event) : bool :=
  match e with EvFetch rq => jeqb (rq_method rq) (js "POST") && jeqb (rq_url rq) url | _ => false end.

Lemma posts_to_local url : counts_no_local (posts_to url).
Proof. by split_and!. Qed.

Lemma audit_local : counts_no_local is_audit.
Proof. by split_and!. Qed.

Lemma strip_other (a b c : jstr) : b <> c -> jeqb (a ++ b) (a ++ c) = false.
Proof. intros Hbc. apply jeqb_false. by intros E%app_inv_head. Qed.

Section contract.
Context `{Host, WebCrypto, Env}.
Context (client : ApiClient) (credential : LoadedCredential) (config : SaasRuntimeConfig) (a : Auditor).

(** The client [createSaasRuntime] builds. *)
Definition saas_client : Prop :=
  baseUrl client = strip_slashes (sc_baseUrl config) /\ onUnauthorized client = Some (issueTokens config credential).
Context (Hclient : saas_client).

Abbreviation send_url := (baseUrl client ++ js "/messages").
Abbreviation sends := (posts_to send_url).

Lemma issue_none p :
  counts_no_local p ->
  (forall h b, p (EvFetch (HttpRequest (js "POST") (baseUrl client ++ js "/agent-auth/token") h b)) = false) ->
  match onUnauthorized client with Some refresh => at_most p 0 refresh | None => True end.
Proof.
  destruct Hclient as [Hb ->]. intros Hp Hf. unfold issueTokens.
  apply at_most_bind0; [apply exchange_none; [done|by rewrite <- Hb]|]. intros [fresh d]. apply at_most_ret.
Qed.

(** Requests of the client that [p] does not count. *)
Lemma client_request_none p method path payload :
  counts_no_local p ->
  (forall h b, p (EvFetch (HttpRequest (js "POST") (baseUrl client ++ js "/agent-auth/token") h b)) = false) ->
  (forall h b, p (EvFetch (HttpRequest method (baseUrl client ++ path) h b)) = false) ->
  at_most p 0 (request client method path payload).
Proof. intros Hp Ht Hf. pose proof Hp as (Hn & Hu & _). apply request_none; [done..|by apply issue_none]. Qed.

Lemma token_not_send h b : sends (EvFetch (HttpRequest (js "POST") (baseUrl client ++ js "/agent-auth/token") h b)) = false.
Proof. cbn [posts_to rq_method rq_url]. rewrite strip_other by done. apply andb_false_r. Qed.

(** The two predicates of the contract. *)
Inductive counted : (Event -> bool) -> Prop := counted_send : counted sends | counted_audit : counted is_audit.

Lemma counted_local p : counted p -> counts_no_local p.
Proof. intros []; [apply posts_to_local|apply audit_local]. Qed.

Lemma counted_token p h b :
  counted p -> p (EvFetch (HttpRequest (js "POST") (baseUrl client ++ js "/agent-auth/token") h b)) = false.
Proof. intros []; [apply token_not_send|done]. Qed.

(** Reading requests: GET. *)
Lemma get_none p path : counted p -> at_most p 0 (request client (js "GET") path JUndef).
Proof.
  intros Hp. apply client_request_none; [by apply counted_local|by intros; apply counted_token|].
  by destruct Hp.
Qed.

Lemma resolve_none p id : counted p -> at_most p 0 (ApiClient.resolveRecipient client id).
Proof. intros Hp. unfold ApiClient.resolveRecipient. no_event. by apply get_none. Qed.

Lemma incoming_none p id : counted p -> at_most p 0 (decryptIncoming client credential id).
Proof.
  intros Hp. unfold decryptIncoming. apply at_most_bind0; [|intros c; no_event].
  unfold ApiClient.readMessage. no_event. by apply get_none.
Qed.

Lemma post_none path payload :
  path <> js "/messages" -> at_most sends 0 (request client (js "POST") path payload).
Proof.
  intros Hp. apply client_request_none; [apply posts_to_local|apply token_not_send|].
  intros h b. cbn [posts_to rq_method rq_url]. rewrite strip_other by done. apply andb_false_r.
Qed.

Lemma via_client_none recipient subject body thread :
  at_most is_audit 0 (sendViaClient client credential recipient subject body thread).
Proof.
  unfold sendViaClient. no_event. unfold ApiClient.sendTextMessage, ApiClient.sendMessage. no_event.
  - apply envelope_none, audit_local.
  - apply client_request_none; [apply audit_local|done..].
Qed.

Lemma via_client_bound recipient subject body thread :
  at_most sends 2 (sendViaClient client credential recipient subject body thread).
Proof.
  unfold sendViaClient. apply (at_most_bind _ 0 2); [apply at_most_lift|]. intros k.
  apply (at_most_bind _ 0 2); [apply at_most_raise_if|]. intros [].
  apply (at_most_bind _ 2 0); [|intros r; no_event].
  unfold ApiClient.sendTextMessage. apply (at_most_bind _ 0 2); [apply envelope_none, posts_to_local|].
  intros e. unfold ApiClient.sendMessage.
  eapply at_most_weaken; [apply (request_at_most sends client _ _ _ 0)|]; [done|done| |].
  - apply issue_none; [apply posts_to_local|apply token_not_send].
  - destruct (onUnauthorized client); lia.
Qed.

Lemma audit_sends_none partial : at_most sends 0 (audit a partial).
Proof. by apply audit_none. Qed.

Lemma confirmation_required input tool :
  may_send input = false -> is_draft input = false ->
  exists e, requireConfirmation (jget input (js "confirmed_by_user")) tool = Throw e.
Proof.
  unfold may_send, confirmed, requireConfirmation. intros Hm Hd. rewrite Hd in Hm. cbn [negb andb] in Hm.
  destruct (jget input (js "confirmed_by_user")) as [| |[]| | | |]; try done; by eexists.
Qed.

Lemma confirmation_given input tool u :
  requireConfirmation (jget input (js "confirmed_by_user")) tool = Ok u -> confirmed input = true.
Proof.
  unfold confirmed, requireConfirmation.
  by destruct (jget input (js "confirmed_by_user")) as [| |[]| | | |].
Qed.

End contract.

(** Read the fields of an entry and a result with literal keys. *)
Ltac read_fields :=
  intros ts; split_and!; first [reflexivity|by intros [=]|intros _; split_and!; first [reflexivity|assumption]].

Section accounting.
Context `{Host, WebCrypto, Env}.
Context (client : ApiClient) (credential : LoadedCredential) (config : SaasRuntimeConfig) (a : Auditor).
Context (Hclient : saas_client client credential config).

Abbreviation send_url := (baseUrl client ++ js "/messages").
Abbreviation sends := (posts_to send_url).

Lemma saas_send_gate input :
  may_send input = false -> at_most sends 0 (saas_sendTextMessage client credential a input).
Proof.
  intros Hm. unfold saas_sendTextMessage. destruct (is_draft input) eqn:Hd.
  - no_event; [eapply resolve_none; [done|constructor]|by apply audit_sends_none].
  - destruct (confirmation_required input (js "send_text_message") Hm Hd) as [e ->].
    apply at_most_bind0; [apply at_most_lift|]. intros hash.
    apply at_most_bind0; [eapply resolve_none; [done|constructor]|]. intros recipient w. apply extends_refl.
Qed.

Lemma saas_reply_gate input :
  may_send input = false -> at_most sends 0 (saas_replyToMessage client credential config a input).
Proof.
  intros Hm. unfold saas_replyToMessage. apply at_most_bind0; [eapply incoming_none; [done|constructor]|].
  intros [[content subject] body]. cbv zeta.
  apply at_most_bind0; [apply at_most_raise_if|]. intros [].
  apply at_most_bind0; [eapply resolve_none; [done|constructor]|]. intros recipient.
  apply at_most_bind0; [apply at_most_lift|]. intros trimmed.
  apply at_most_bind0; [apply at_most_lift|]. intros hash.
  destruct (is_draft input) eqn:Hd; [no_event; by apply audit_sends_none|].
  destruct (confirmation_required input (js "reply_to_message") Hm Hd) as [e ->]. intros w. apply extends_refl.
Qed.

Lemma saas_send_bound input : at_most sends 2 (saas_sendTextMessage client credential a input).
Proof.
  unfold saas_sendTextMessage. apply (at_most_bind _ 0 2); [apply at_most_lift|]. intros hash.
  apply (at_most_bind _ 0 2); [eapply resolve_none; [done|constructor]|]. intros recipient.
  destruct (is_draft input).
  - eapply at_most_weaken; [|apply Nat.le_0_l]. no_event. by apply audit_sends_none.
  - apply (at_most_bind _ 0 2); [apply at_most_lift|]. intros [].
    apply (at_most_bind _ 2 0); [by eapply via_client_bound|]. intros [id st]. no_event. by apply audit_sends_none.
Qed.

Lemma saas_reply_bound input : at_most sends 2 (saas_replyToMessage client credential config a input).
Proof.
  unfold saas_replyToMessage.
  apply (at_most_bind _ 0 2); [eapply incoming_none; [done|constructor]|]. intros [[content subject] body]. cbv zeta.
  apply (at_most_bind _ 0 2); [apply at_most_raise_if|]. intros [].
  apply (at_most_bind _ 0 2); [eapply resolve_none; [done|constructor]|]. intros recipient.
  apply (at_most_bind _ 0 2); [apply at_most_lift|]. intros trimmed.
  apply (at_most_bind _ 0 2); [apply at_most_lift|]. intros hash.
  destruct (is_draft input).
  - eapply at_most_weaken; [|apply Nat.le_0_l]. no_event. by apply audit_sends_none.
  - apply (at_most_bind _ 0 2); [apply at_most_lift|]. intros [].
    apply (at_most_bind _ 2 0); [by eapply via_client_bound|]. intros [id st]. no_event. by apply audit_sends_none.
Qed.

Lemma saas_send_accounted input w r w' :
  saas_sendTextMessage client credential a input w = (r, w') -> accounted (js "send_text_message") input w r w'.
Proof.
  apply accounted_bind; [apply at_most_lift|]. intros hash w1 r1 w2 [Hh ->]%lift_inv.
  apply accounted_bind; [eapply resolve_none; [done|constructor]|]. intros recipient w3 r3 w4 _.
  destruct (is_draft input) eqn:Hd.
  - apply accounted_bind; [apply at_most_lift|]. intros aid' w5 r5 w6 _.
    apply (accounted_finish _ _ _ _ _ hash); [exact Hh|]. rewrite Hd. read_fields.
  - apply accounted_bind; [apply at_most_lift|]. intros u w5 r5 w6 [Hc%confirmation_given _]%lift_inv.
    apply accounted_bind; [by eapply via_client_none|]. intros [id st] w7 r7 w8 _.
    apply (accounted_finish _ _ _ _ _ hash); [exact Hh|]. rewrite Hd. read_fields.
Qed.

Lemma saas_reply_accounted input w r w' :
  saas_replyToMessage client credential config a input w = (r, w') -> accounted (js "reply_to_message") input w r w'.
Proof.
  apply accounted_bind; [eapply incoming_none; [done|constructor]|]. intros [[content subject] body] w1 r1 w2 _.
  apply accounted_bind; [apply at_most_raise_if|]. intros u w3 r3 w4 _.
  apply accounted_bind; [eapply resolve_none; [done|constructor]|]. intros recipient w5 r5 w6 _.
  apply accounted_bind; [apply at_most_lift|]. intros trimmed w7 r7 w8 _.
  apply accounted_bind; [apply at_most_lift|]. intros hash w9 r9 w10 [Hh _]%lift_inv.
  destruct (is_draft input) eqn:Hd.
  - apply accounted_bind; [apply at_most_lift|]. intros aid' w11 r11 w12 _.
    apply (accounted_finish _ _ _ _ _ hash); [exact Hh|]. rewrite Hd. read_fields.
  - apply accounted_bind; [apply at_most_lift|]. intros u' w11 r11 w12 [Hc%confirmation_given _]%lift_inv.
    apply accounted_bind; [by eapply via_client_none|]. intros [id st] w13 r13 w14 _.
    apply (accounted_finish _ _ _ _ _ hash); [exact Hh|]. rewrite Hd. read_fields.
Qed.

(** The Standard-mode runtime keeps the contract. *)
Lemma saas_contract : RuntimeContract (buildRuntime client credential config a) sends 2.
Proof.
  split; cbn [listMyAgents listInbox readMessage resolveRecipient sendTextMessage replyToMessage buildRuntime].
  - unfold saas_listMyAgents. no_event. eapply resolve_none; [done|constructor].
  - intros input. unfold saas_listInbox, ApiClient.listMessages. no_event. eapply get_none; [done|constructor].
  - intros input. unfold saas_readMessage. no_event; [eapply incoming_none; [done|constructor]|by apply audit_sends_none].
  - intros input. unfold saas_resolveRecipient. no_event. eapply resolve_none; [done|constructor].
  - apply saas_send_gate.
  - apply saas_reply_gate.
  - apply saas_send_bound.
  - apply saas_reply_bound.
  - apply saas_send_accounted.
  - apply saas_reply_accounted.
Qed.

End accounting.

(** The runtime that start-up returns keeps the contract. *)
Lemma createSaasRuntime_contract `{Host, WebCrypto, Env} (config : SaasRuntimeConfig) w rt c w' :
  createSaasRuntime config w = (Ok (rt, c), w') ->
  RuntimeContract rt (posts_to (strip_slashes (sc_baseUrl config) ++ js "/messages")) 2.
Proof.
  unfold createSaasRuntime. intros E. apply bind_inv in E as (cr & w1 & _ & E).
  apply bind_inv in E as ([tok d] & w2 & _ & E). cbv beta iota in E.
  apply bind_inv in E as (client & w3 & Ec & E). unfold new_client in Ec.
  apply bind_inv in Ec as (u & w4 & _ & Ec). injection Ec as <- <-. injection E as <- <- <-.
  set (cl := NexusInboxApiClient _ _). by apply (saas_contract cl cr config).
Qed.

(** ** Delivery *)

Section delivery.
Context `{Host, WebCrypto, Env}.

Lemma in_trace_extends {A} p n (m : M A) e w r w' :
  at_most p n m -> m w = (r, w') -> e ∈ w_trace w -> e ∈ w_trace w'.
Proof.
  intros Hm E He. specialize (Hm w). rewrite E in Hm. destruct Hm as (l & El & _). cbn [snd] in El.
  change (w_trace w' = l ++ w_trace w) in El. rewrite El. apply elem_of_app. by right.
Qed.

Lemma dispatch_sent method url payload w r w' :
  dispatch method url payload w = (Ok r, w') ->
  exists h, EvFetch (HttpRequest method url h (json_body payload)) ∈ w_trace w'.
Proof.
  unfold dispatch. intros E. apply bind_inv in E as (w1 & w2 & _ & E). cbv zeta in E.
  apply bind_inv in E as (proof & w3 & _ & E). unfold fetch in E.
  apply bind_inv in E as (x & w4 & E4 & E). injection E4 as <- <-. apply lift_inv in E as [_ ->].
  eexists. by left.
Qed.

(** A request that returns has gone out. *)
Lemma request_sent client config credential method path payload w v w' :
  saas_client client credential config -> request client method path payload w = (Ok v, w') ->
  exists h, EvFetch (HttpRequest method (baseUrl client ++ path) h (json_body payload)) ∈ w_trace w'.
Proof.
  intros Hc E. unfold request in E. apply bind_inv in E as (r & w1 & E1 & E).
  destruct (dispatch_sent _ _ _ _ _ _ E1) as [h Hin]. exists h.
  eapply (in_trace_extends (fun _ => false) 0); [|exact E|exact Hin].
  pose proof (issue_none client credential config Hc (fun _ => false)) as Hn.
  apply at_most_bind0; [|intros r'; apply at_most_lift].
  destruct (onUnauthorized client) as [refresh|]; [|apply at_most_ret].
  destruct (rs_status r =? 401); [|apply at_most_ret].
  apply at_most_bind0; [apply Hn; by try split_and!|]. intros [tok d]. apply at_most_bind0; [apply at_most_set_client|].
  intros _. by apply dispatch_none.
Qed.

(** The body of a text message on the wire: [undefined] members are gone. *)
Definition wire_body (sender_did recipient_did : jval) (e : SendEnvelope) (sig : jstr) : jval :=
  JObj [(js "sender_did", sender_did); (js "recipient_did", recipient_did);
        (js "envelope",
         JObj [(js "encrypted_content", JStr (encrypted_content e)); (js "encrypted_key", JStr (encrypted_key e));
               (js "nonce", JStr (nonce e)); (js "signature", JStr sig);
               (js "metadata", JObj [(js "subject_encrypted", JStr (subject_encrypted e));
                                     (js "content_type", JStr (content_type e));
                                     (js "has_attachments", JBool (has_attachments e))])]);
        (js "priority", JStr (js "normal"))].

Lemma wire_text_eq sd rd e sig :
  signature e = Some sig -> thread_id e = JUndef ->
  json_stringify (JObj [(js "sender_did", sd); (js "recipient_did", rd); (js "envelope", envelope_to_val e);
                        (js "priority", JStr (js "normal"))])
  = json_stringify (wire_body sd rd e sig).
Proof.
  intros Hs Ht. unfold envelope_to_val, wire_body. rewrite Hs, Ht. unfold json_stringify. reflexivity.
Qed.

Lemma wire_body_json sd rd e sig :
  json_okb sd = true -> json_okb rd = true ->
  Forall wire_text [encrypted_content e; encrypted_key e; nonce e; subject_encrypted e; content_type e] ->
  ascii_text sig -> json_okb (wire_body sd rd e sig) = true.
Proof.
  intros Hsd Hrd Hf Hs. rewrite !Forall_cons in Hf. destruct Hf as ([H1' _] & [H2' _] & [H3' _] & [H4' _] & [H5' _] & _).
  unfold ascii_text in *. apply ascii_json in H1', H2', H3', H4', H5', Hs. unfold wire_body.
  assert (json_okb (JStr (js "normal")) = true) as Hn by by vm_compute.
  assert (json_okb (JBool (has_attachments e)) = true) as Hb by done.
  revert H1' H2' H3' H4' H5' Hs Hn Hb. generalize (JStr (encrypted_content e)) (JStr (encrypted_key e)) (JStr (nonce e))
    (JStr (subject_encrypted e)) (JStr (content_type e)) (JStr sig) (JStr (js "normal")) (JBool (has_attachments e)).
  intros v1 v2 v3 v4 v5 v6 v7 v8 E1 E2 E3 E4 E5 E6 E7 E8.
  cbn [json_okb forallb fst snd]. rewrite Hsd, Hrd, E1, E2, E3, E4, E5, E6, E7, E8. by vm_compute.
Qed.

End delivery.

Section delivered.
Context `{Host, WebCrypto, !WebCryptoLaws, Env, !EnvLaws}.

(** What a text message of the client leaves in the trace. *)
Lemma sendTextMessage_sent client config credential (input : SendTextMessageInput) priv w v w' :
  saas_client client credential config ->
  recipientEncryptionPublicKey input = public_key_val priv -> threadId input = JUndef -> priority input = JUndef ->
  text_ok (text_arg (subject input)) -> text_ok (text_arg (text_body input)) ->
  json_okb (senderDid input) = true -> json_okb (recipientDid input) = true ->
  ApiClient.sendTextMessage client input [] w = (Ok v, w') ->
  exists headers text e sig,
    EvFetch (HttpRequest (js "POST") (baseUrl client ++ js "/messages") headers (TextBody text)) ∈ w_trace w' /\
    json_parse text = Ok (wire_body (senderDid input) (recipientDid input) e (CoreB64.toBase64Url sig)) /\
    Decrypt.decryptEnvelopeTextForRecipient (encrypted_content e) (encrypted_key e) (subject_encrypted e) priv
    = Ok (text_arg (subject input), text_arg (text_body input)) /\
    ed25519_verify (key_public Ed25519 (senderSigningPrivateKey input))
      (utf8_encode (Core.signed_payload (senderDid input) (recipientDid input) (subject_encrypted e)
                      (encrypted_content e) (encrypted_key e) (nonce e))) sig = true.
Proof.
  intros Hc Hk Ht Hp Hs Hb Jsd Jrd E. unfold ApiClient.sendTextMessage in E.
  destruct (build_text_envelope input priv w Hk (proj1 Hs) (proj1 Hb))
    as (e & w1 & Ee & (Nc & Nk & Ns & Hd)%sealed_opens & Hn & Hsig & Hct & Hth & _).
  rewrite (bind_ok _ _ _ _ _ Ee) in E. cbv zeta in E. unfold ApiClient.sendMessage in E.
  cbv zeta in E. rewrite Hp in E. cbn [nullish_or] in E. rewrite app_nil_r in E.
  destruct (request_sent client config credential _ _ _ _ _ _ Hc E) as [h Hin]. cbn [json_body] in Hin.
  rewrite (wire_text_eq _ _ e _ Hsig) in Hin by by rewrite Hth.
  set (sg := ed25519_sign (senderSigningPrivateKey input)
        (utf8_encode (Core.signed_payload (senderDid input) (recipientDid input) (subject_encrypted e)
           (encrypted_content e) (encrypted_key e) (nonce e)))).
  eexists h, _, e, sg. split; [exact Hin|]. split; [|split; [by apply Hd|apply ed25519_correct]].
  apply json_stringify_roundtrip, wire_body_json; [done|done| |apply b64_ascii, toBase64Url_ok, ed25519_bytes].
  rewrite !Forall_cons. split_and!; try done. rewrite Hct.
  split; [apply (bool_decide_eq_true_1 (ascii_text _))|apply (bool_decide_eq_true_1 (_ ∉ _))]; by vm_compute.
Qed.

End delivered.

(** * Properties *)

(** C2: a send that reports success has really gone out, sealed.  When
    [send_text_message] returns in send mode and the directory gave the public
    half of a key pair for the recipient, the trace holds the POST of a JSON
    body whose envelope the private half opens to exactly the subject and the
    body of the arguments, addressed from the credential's did to the resolved
    did, with a signature that verifies under the credential's key over all
    six signed fields. *)
Theorem saas_send_delivers `{Host, WebCrypto, !WebCryptoLaws, Env, !EnvLaws}
    (client : ApiClient) (credential : LoadedCredential) (config : SaasRuntimeConfig) (a : Auditor)
    (input recipient result : jval) (priv : bytes) (w w1 w' : World) :
  saas_client client credential config -> is_draft input = false ->
  ApiClient.resolveRecipient client (jget input (js "to")) w = (Ok recipient, w1) ->
  jget recipient (js "encryption_public_key") = public_key_val priv ->
  text_ok (text_arg (jget input (js "subject"))) -> text_ok (text_arg (jget input (js "body_markdown"))) ->
  json_okb (did credential) = true -> json_okb (jget recipient (js "did")) = true ->
  saas_sendTextMessage client credential a input w = (Ok result, w') ->
  exists headers text e sig,
    EvFetch (HttpRequest (js "POST") (baseUrl client ++ js "/messages") headers (TextBody text)) ∈ w_trace w' /\
    json_parse text = Ok (wire_body (did credential) (jget recipient (js "did")) e (CoreB64.toBase64Url sig)) /\
    Decrypt.decryptEnvelopeTextForRecipient (encrypted_content e) (encrypted_key e) (subject_encrypted e) priv
    = Ok (text_arg (jget input (js "subject")), text_arg (jget input (js "body_markdown"))) /\
    ed25519_verify (key_public Ed25519 (privateKey (signing credential)))
      (utf8_encode (Core.signed_payload (did credential) (jget recipient (js "did")) (subject_encrypted e)
                      (encrypted_content e) (encrypted_key e) (nonce e))) sig = true.
Proof.
  intros Hc Hd Hr Hk Hs Hb Jsd Jrd E. unfold saas_sendTextMessage in E.
  apply bind_inv in E as (hash & w2 & E2 & E). apply lift_inv in E2 as [_ ->].
  rewrite (bind_ok _ _ _ _ _ Hr) in E. rewrite Hd in E.
  apply bind_inv in E as (u & w3 & E3 & E). apply lift_inv in E3 as [_ ->].
  apply bind_inv in E as ([id st] & w4 & E4 & E). cbv beta iota in E.
  unfold sendViaClient in E4. apply bind_inv in E4 as (k & w5 & E5 & E4). apply lift_inv in E5 as [E5 ->].
  assert (k = public_key_val priv) as -> by (rewrite <- Hk; unfold jget; by rewrite E5).
  apply bind_inv in E4 as (u' & w6 & E6 & E4). apply raise_if_inv in E6 as [_ ->].
  apply bind_inv in E4 as (resp & w7 & E7 & E4). apply bind_inv in E4 as (mid & w8 & E8 & E4).
  apply lift_inv in E8 as [_ ->]. injection E4 as <- <- <-.
  edestruct (sendTextMessage_sent client config credential) as (h & text & e & sg & Hin & Hp & Hdec & Hv);
    [exact Hc| | | | | | | |exact E7|]; try done.
  exists h, text, e, sg. split_and!; [|exact Hp|exact Hdec|exact Hv].
  erewrite bind_ok in E by apply audit_run. injection E as _ <-. cbn [w_trace]. right. by right.
Qed.

(** The credential and server of the witness: agent-2's directory entry holds
    the public half of the key of 32 nines. *)
Definition sample_credential : LoadedCredential :=
  Credential (KeyPair (replicate 32 5) (pad32 (replicate 32 5))) (KeyPair (replicate 32 6) (pad32 (replicate 32 6)))
    (JStr (js "agent-1")) (JStr (js "did:key:z1")) (JStr (js "2026-06-01T06:00:00.000Z")) loaded (js "/keys/cred-1.json").

Definition sample_config : SaasRuntimeConfig :=
  SaasConfig (js "https://api") (js "agent-1") (js "cred-1") None None None.

Definition sample_recipient : jval :=
  JObj [(js "aid", JStr (js "agent-2")); (js "did", JStr (js "did:key:z2"));
        (js "encryption_public_key", public_key_val (replicate 32 9))].

Definition directory_server : Env := reply_env (json_stringify sample_recipient).

Definition send_input : jval :=
  JObj [(js "to", JStr (js "agent-2")); (js "subject", JStr (js "Hi")); (js "body_markdown", JStr (js "See you at 3"));
        (js "mode", JStr (js "send")); (js "confirmed_by_user", JBool true)].

Example saas_send_delivers_witness :
  let _ := plain_host in let _ := directory_server in
  let client := NexusInboxApiClient (js "https://api") (Some (issueTokens sample_config sample_credential)) in
  exists result w' headers text e sig,
    saas_sendTextMessage client sample_credential (AuditorOf JNull JNull JNull) send_input client_world = (Ok result, w') /\
    EvFetch (HttpRequest (js "POST") (js "https://api/messages") headers (TextBody text)) ∈ w_trace w' /\
    json_parse text = Ok (wire_body (JStr (js "did:key:z1")) (JStr (js "did:key:z2")) e (CoreB64.toBase64Url sig)) /\
    Decrypt.decryptEnvelopeTextForRecipient (encrypted_content e) (encrypted_key e) (subject_encrypted e) (replicate 32 9)
    = Ok (js "Hi", js "See you at 3").
Proof.
  intros ho en client.
  assert (match saas_sendTextMessage client sample_credential (AuditorOf JNull JNull JNull) send_input client_world with
          | (Ok _, _) => True | _ => False end) as E by (vm_compute; exact I).
  assert ((ApiClient.resolveRecipient client (jget send_input (js "to")) client_world).1 = Ok sample_recipient) as Er
    by (vm_compute; reflexivity).
  destruct (saas_sendTextMessage client sample_credential (AuditorOf JNull JNull JNull) send_input client_world)
    as [[result|] w'] eqn:Es; [clear E|destruct E].
  destruct (ApiClient.resolveRecipient client (jget send_input (js "to")) client_world) as [r w1] eqn:Ed.
  cbn [fst] in Er. rewrite Er in Ed.
  destruct (saas_send_delivers client sample_credential sample_config (AuditorOf JNull JNull JNull) send_input
              sample_recipient result (replicate 32 9) client_world w1 w')
    as (headers & text & e & sg & Hin & Hp & Hdec & _).
  - split; reflexivity.
  - reflexivity.
  - exact Ed.
  - reflexivity.
  - apply (bool_decide_eq_true_1 (text_ok _)). vm_compute. reflexivity.
  - apply (bool_decide_eq_true_1 (text_ok _)). vm_compute. reflexivity.
  - vm_compute. reflexivity.
  - vm_compute. reflexivity.
  - exact Es.
  - exists result, w', headers, text, e, sg. split; [reflexivity|]. split; [exact Hin|]. split; [exact Hp|exact Hdec].
Defined.
