(* ===== verification/RuntimeGateway.v ===== *)
(** The Isolated-mode runtime: packages/mcp-server/src/runtime-gateway.ts.

    Every outside call is a Gateway RPC.  The runtime satisfies
    [RuntimeContract] for the RPC "send_message", at most one per call.  The
    helpers the source repeats from the other runtime ([prefixReSubject],
    [requireConfirmation]) and the shapes of the results are those of
    RuntimeSaas. *)
From S2P Require Import Prelude Base64 Utf8 JsNumber Json JsDate A2A Effect Node Envelope ApiClient Gateway Keystore Runtime RuntimeSaas.

Definition MODE_A_SUPPORTED_TOOLS : list jstr :=
  [js "list_my_agents"; js "list_inbox"; js "resolve_recipient"; js "read_message"; js "send_text_message";
   js "reply_to_message"].

Section gateway_runtime.
Context `{Host, WebCrypto, Env}.

Record GatewayRuntimeConfig := GatewayConfig { gc_socketPath : option jstr; gc_rpcTransport : bool }.

Definition prefixReSubject (subject : jstr) : jstr :=
  let trimmed := trim subject in
  if negb (truthy_str trimmed) then js "Re: "
  else if re_prefixed trimmed then trimmed
  else js "Re: " ++ trimmed.

Definition requireConfirmation (flag : jval) (toolName : jstr) : res unit :=
  throw_if (match flag with JBool true => false | _ => true end)
    (Error_ (toolName ++ js ": mode='send' requires confirmed_by_user=true. The LLM host must surface a confirmation prompt to the human before flipping this flag.")).

Definition buildUnsignedEnvelope (subject body recipientEncPubKey threadId : jval) : M SendEnvelope :=
  contentKey ← Core.generateContentKey;
  encSubject ← CryptoPkg.encryptText subject contentKey;
  encBody ← CryptoPkg.encryptText body contentKey;
  encKey ← Core.wrapContentKeyForRecipient contentKey recipientEncPubKey;
  mret (Envelope (CryptoPkg.serializeEncryptedPayload encBody) encKey (iv encBody) None
          (CryptoPkg.serializeEncryptedPayload encSubject) (nullish_or threadId JNull) (js "text/plain") false).

(** The content, the subject and the body. *)
Definition decryptIncomingViaGateway (gw : GatewayClient) (messageId : jval) : M (jval * jstr * jstr) :=
  content ← Gateway.readMessage gw messageId;
  encrypted_key ← lift (jprop content (js "encrypted_key"));
  contentKey ← unwrapContentKey gw encrypted_key;
  fields ← lift (decrypt_fields content (text_arg contentKey));
  mret (content, fields.1, fields.2).

(** [whoami] is an object: [createGatewayRuntime] has read its [aid]. *)
Definition gw_listMyAgents (whoami : jval) : M jval :=
  mret (JObj [(js "agents", JArr [JObj [(js "aid", jget whoami (js "aid")); (js "did", jget whoami (js "did"));
                                        (js "label", or_null (jget whoami (js "agent_ref")))]])]).

Definition gw_listInbox (gw : GatewayClient) (whoami input : jval) : M jval :=
  let agent_aid := jget input (js "agent_aid") in
  raise_if (jtruthy agent_aid && negb (strict_eq agent_aid (jget whoami (js "aid"))))
    (Error_ (js "Isolated mode Gateway is bound to aid=" ++ js_string (jget whoami (js "aid"))
             ++ js "; cannot list inbox for " ++ js_string agent_aid
             ++ js ". Start a separate Gateway (or use Standard mode) for a different aid.")) ;;
  response ← Gateway.listInbox gw (nullish_or (jget input (js "folder")) (JStr (js "inbox")))
    (nullish_or (jget input (js "status")) (JStr (js "all")));
  lift (inbox_result response).

Definition gw_readMessage (gw : GatewayClient) (input : jval) : M jval :=
  '(content, subject, body) ← decryptIncomingViaGateway gw (jget input (js "message_id"));
  mret (message_result (jget input (js "message_id")) content subject body).

Definition gw_resolveRecipient (gw : GatewayClient) (input : jval) : M jval :=
  resolved ← Gateway.resolveRecipient gw (jget input (js "identifier"));
  lift (recipient_result resolved).

(** The send steps the two write tools repeat: the recipient's key, the
    envelope, the RPC.  Returns the message id and the status. *)
Definition gw_send (gw : GatewayClient) (recipient subject body threadId : jval) : M (jval * jval) :=
  recipientPublicKey ← lift (jprop recipient (js "encryption_public_key"));
  raise_if (negb (jtruthy recipientPublicKey))
    (Error_ (js "recipient has no registered encryption_public_key — cannot build E2E envelope")) ;;
  envelope ← buildUnsignedEnvelope subject body recipientPublicKey threadId;
  result ← Gateway.sendMessage gw (jget recipient (js "did")) envelope;
  message_id ← lift (jprop result (js "message_id"));
  mret (message_id, jget result (js "status")).

Definition gw_sendTextMessage (gw : GatewayClient) (a : Auditor) (input : jval) : M jval :=
  body_hash ← lift (sha256Hex (jget input (js "body_markdown")));
  recipient ← Gateway.resolveRecipient gw (jget input (js "to"));
  if is_draft input then
    recipient_aid ← lift (jprop recipient (js "aid"));
    audit a [(js "tool_name", JStr (js "send_text_message")); (js "mode", JStr (js "draft"));
             (js "draft_body_hash", JStr body_hash); (js "recipient_aid", recipient_aid);
             (js "recipient_did", jget recipient (js "did"));
             (js "provider_hint", jget input (js "provider_hint"))] ;;
    mret (draft_result (jget input (js "from_agent")) recipient (jget input (js "subject"))
            (jget input (js "body_markdown")) JNull body_hash)
  else
    lift (requireConfirmation (jget input (js "confirmed_by_user")) (js "send_text_message")) ;;
    '(message_id, status) ← gw_send gw recipient (jget input (js "subject")) (jget input (js "body_markdown")) JUndef;
    audit a [(js "tool_name", JStr (js "send_text_message")); (js "mode", JStr (js "send"));
             (js "confirmed_by_user", JBool true); (js "draft_body_hash", JStr body_hash);
             (js "recipient_aid", jget recipient (js "aid")); (js "recipient_did", jget recipient (js "did"));
             (js "message_id", message_id); (js "provider_hint", jget input (js "provider_hint"))] ;;
    mret (sent_result message_id status JNull body_hash).

Definition gw_replyToMessage (gw : GatewayClient) (whoami : jval) (a : Auditor) (input : jval) : M jval :=
  '(content, plain_subject, _) ← decryptIncomingViaGateway gw (jget input (js "incoming_message_id"));
  let sender_did := jget content (js "sender_did") in
  raise_if (negb (jtruthy sender_did)) (Error_ (js "incoming message has no sender_did — cannot draft a reply")) ;;
  recipient ← Gateway.resolveRecipient gw sender_did;
  trimmed ← lift (trim_opt (jget input (js "subject")));
  let subject := JStr (if truthy_str trimmed then trimmed else prefixReSubject plain_subject) in
  let threadId := or_null (jget content (js "thread_id")) in
  body_hash ← lift (sha256Hex (jget input (js "body_markdown")));
  if is_draft input then
    recipient_aid ← lift (jprop recipient (js "aid"));
    audit a [(js "tool_name", JStr (js "reply_to_message")); (js "mode", JStr (js "draft"));
             (js "draft_body_hash", JStr body_hash); (js "message_id", jget input (js "incoming_message_id"));
             (js "recipient_aid", recipient_aid); (js "recipient_did", jget recipient (js "did"));
             (js "thread_id", threadId); (js "provider_hint", jget input (js "provider_hint"))] ;;
    mret (draft_result (jget whoami (js "aid")) recipient subject (jget input (js "body_markdown")) threadId body_hash)
  else
    lift (requireConfirmation (jget input (js "confirmed_by_user")) (js "reply_to_message")) ;;
    '(message_id, status) ← gw_send gw recipient subject (jget input (js "body_markdown")) threadId;
    audit a [(js "tool_name", JStr (js "reply_to_message")); (js "mode", JStr (js "send"));
             (js "confirmed_by_user", JBool true); (js "draft_body_hash", JStr body_hash);
             (js "recipient_aid", jget recipient (js "aid")); (js "recipient_did", jget recipient (js "did"));
             (js "message_id", message_id); (js "thread_id", threadId);
             (js "provider_hint", jget input (js "provider_hint"))] ;;
    mret (sent_result message_id status threadId body_hash).

Definition buildGatewayRuntime (gw : GatewayClient) (whoami : jval) (a : Auditor) : NexusInboxMcpRuntime :=
  McpRuntime (gw_listMyAgents whoami) (gw_listInbox gw whoami) (gw_readMessage gw) (gw_resolveRecipient gw)
    (gw_sendTextMessage gw a) (gw_replyToMessage gw whoami a).

(** Returns the runtime, the identity and the supported tools. *)
Definition createGatewayRuntime (config : GatewayRuntimeConfig) : M (NexusInboxMcpRuntime * jval * list jstr) :=
  let gw := new_gateway_client (gc_socketPath config) (gc_rpcTransport config) in
  who ← whoami gw;
  aid ← lift (jprop who (js "aid"));
  let a := AuditorOf aid (jget who (js "did")) (JStr (js "(gateway-bound)")) in
  mret (buildGatewayRuntime gw who a, who, MODE_A_SUPPORTED_TOOLS).

End gateway_runtime.

(** * Lemmas *)

(** The line of a call starts with its id and its method. *)
Definition rpc_prefix (method : jstr) : jstr :=
  [123; 34] ++ js "id" ++ [34; 58; 49; 44; 34] ++ js "method" ++ [34; 58] ++ json_quote method.

(** The RPC [method] going out, on either transport. *)
Definition is_rpc (method : jstr) (e : Event) : bool :=
  match e with
  | EvTransport m _ => jeqb m method
  | EvSocket _ line => starts_with (rpc_prefix method) line
  | _ => false
  end.

(** Equality of two concatenations. *)
Ltac by_app := repeat (cbn [app]; rewrite <- ?app_assoc); reflexivity.

Lemma rpc_line method params :
  exists rest, json_stringify (JObj [(js "id", JNum (num 1)); (js "method", JStr method); (js "params", params)])
    = rpc_prefix method ++ rest.
Proof.
  assert (forall p rest, [123] ++ (json_quote (js "id") ++ [58] ++ [49]) ++ [44] ++
            (json_quote (js "method") ++ [58] ++ json_quote method) ++ rest = p -> p = rpc_prefix method ++ rest) as Hp.
  { intros p rest <-. unfold rpc_prefix. rewrite <- !app_assoc. reflexivity. }
  unfold json_stringify. cbn [json_ser flat_map fst snd app].
  change (json_ser [] [] (JStr method)) with (Some (json_quote method)).
  destruct (json_ser [] [] params) as [p|].
  - exists ([44] ++ (json_quote (js "params") ++ [58] ++ p) ++ [125]). apply Hp.
    cbn [default json_block join_with json_colon]. by_app.
  - exists [125]. apply Hp.
    cbn [default json_block join_with json_colon]. by_app.
Qed.

Section gateway_contract.
Context `{Host, WebCrypto, Env}.
Context (gw : GatewayClient) (who : jval) (a : Auditor).

Abbreviation sends := (is_rpc (js "send_message")).

Lemma rpc_local m : counts_no_local (is_rpc m).
Proof. by split_and!. Qed.

Lemma call_none p method params :
  (forall ps, p (EvTransport method ps) = false) ->
  (forall path rest, p (EvSocket path (rpc_prefix method ++ rest)) = false) ->
  at_most p 0 (call gw method params).
Proof.
  intros Ht Hs. unfold call. destruct (rpcTransport gw).
  - no_event. by apply at_most_ask.
  - cbv zeta. destruct (rpc_line method params) as [rest ->]. no_event. apply at_most_ask. by rewrite <- app_assoc.
Qed.

(** The calls other than "send_message". *)
Lemma other_call_none p method params :
  p = sends \/ p = is_audit -> method ∈ [js "whoami"; js "resolve_recipient"; js "list_inbox"; js "read_message";
                                         js "unwrap_content_key"] ->
  at_most p 0 (call gw method params).
Proof.
  intros Hp Hm. apply call_none; [intros ps|intros path rest]; destruct Hp as [-> | ->]; try reflexivity;
    rewrite !elem_of_cons in Hm; destruct Hm as [-> | [-> | [-> | [-> | [-> | []%elem_of_nil]]]]]; reflexivity.
Qed.

Ltac read_call := apply other_call_none; [auto|rewrite !elem_of_cons; tauto].

Lemma gw_incoming_none p id : p = sends \/ p = is_audit -> at_most p 0 (decryptIncomingViaGateway gw id).
Proof.
  intros Hp. unfold decryptIncomingViaGateway, Gateway.readMessage, unwrapContentKey. no_event; read_call.
Qed.

Lemma gw_resolve_none p id : p = sends \/ p = is_audit -> at_most p 0 (Gateway.resolveRecipient gw id).
Proof. intros Hp. unfold Gateway.resolveRecipient. read_call. Qed.

Lemma unsigned_none p s b k t : counts_no_local p -> at_most p 0 (buildUnsignedEnvelope s b k t).
Proof.
  intros Hp. unfold buildUnsignedEnvelope.
  no_event; first [by apply content_key_none|by apply crypto_text_none|by apply wrap_none].
Qed.

Lemma gw_send_audit_none recipient s b t : at_most is_audit 0 (gw_send gw recipient s b t).
Proof.
  unfold gw_send. no_event; [by apply unsigned_none|]. unfold Gateway.sendMessage. by apply call_none.
Qed.

Lemma gw_send_call_bound recipient s b t : at_most sends 1 (gw_send gw recipient s b t).
Proof.
  unfold gw_send. apply (at_most_bind _ 0 1); [apply at_most_lift|]. intros k.
  apply (at_most_bind _ 0 1); [apply at_most_raise_if|]. intros [].
  apply (at_most_bind _ 0 1); [apply unsigned_none, rpc_local|]. intros e.
  apply (at_most_bind _ 1 0); [|intros r; no_event].
  unfold Gateway.sendMessage, call.
  destruct (rpcTransport gw); cbv zeta; apply (at_most_bind _ 1 0); try apply at_most_ask1; intros r; apply at_most_lift.
Qed.

Lemma gw_audit_none partial : at_most sends 0 (audit a partial).
Proof. by apply audit_none. Qed.

Lemma gw_confirmation_required input tool :
  may_send input = false -> is_draft input = false ->
  exists e, requireConfirmation (jget input (js "confirmed_by_user")) tool = Throw e.
Proof. apply RuntimeSaas.confirmation_required. Qed.

Lemma gw_confirmation_given input tool u :
  requireConfirmation (jget input (js "confirmed_by_user")) tool = Ok u -> confirmed input = true.
Proof. apply RuntimeSaas.confirmation_given. Qed.

Lemma gw_send_gate input : may_send input = false -> at_most sends 0 (gw_sendTextMessage gw a input).
Proof.
  intros Hm. unfold gw_sendTextMessage. destruct (is_draft input) eqn:Hd.
  - no_event; [by apply gw_resolve_none; left|by apply gw_audit_none].
  - destruct (gw_confirmation_required input (js "send_text_message") Hm Hd) as [e ->].
    apply at_most_bind0; [apply at_most_lift|]. intros hash.
    apply at_most_bind0; [by apply gw_resolve_none; left|]. intros recipient w. apply extends_refl.
Qed.

Lemma gw_reply_gate input : may_send input = false -> at_most sends 0 (gw_replyToMessage gw who a input).
Proof.
  intros Hm. unfold gw_replyToMessage. apply at_most_bind0; [by apply gw_incoming_none; left|].
  intros [[content subject] body]. cbv zeta.
  apply at_most_bind0; [apply at_most_raise_if|]. intros [].
  apply at_most_bind0; [by apply gw_resolve_none; left|]. intros recipient.
  apply at_most_bind0; [apply at_most_lift|]. intros trimmed.
  apply at_most_bind0; [apply at_most_lift|]. intros hash.
  destruct (is_draft input) eqn:Hd; [no_event; by apply gw_audit_none|].
  destruct (gw_confirmation_required input (js "reply_to_message") Hm Hd) as [e ->]. intros w. apply extends_refl.
Qed.

Lemma gw_send_bound input : at_most sends 1 (gw_sendTextMessage gw a input).
Proof.
  unfold gw_sendTextMessage. apply (at_most_bind _ 0 1); [apply at_most_lift|]. intros hash.
  apply (at_most_bind _ 0 1); [by apply gw_resolve_none; left|]. intros recipient.
  destruct (is_draft input).
  - eapply at_most_weaken; [|apply Nat.le_0_l]. no_event. by apply gw_audit_none.
  - apply (at_most_bind _ 0 1); [apply at_most_lift|]. intros [].
    apply (at_most_bind _ 1 0); [by apply gw_send_call_bound|]. intros [id st]. no_event. by apply gw_audit_none.
Qed.

Lemma gw_reply_bound input : at_most sends 1 (gw_replyToMessage gw who a input).
Proof.
  unfold gw_replyToMessage.
  apply (at_most_bind _ 0 1); [by apply gw_incoming_none; left|]. intros [[content subject] body]. cbv zeta.
  apply (at_most_bind _ 0 1); [apply at_most_raise_if|]. intros [].
  apply (at_most_bind _ 0 1); [by apply gw_resolve_none; left|]. intros recipient.
  apply (at_most_bind _ 0 1); [apply at_most_lift|]. intros trimmed.
  apply (at_most_bind _ 0 1); [apply at_most_lift|]. intros hash.
  destruct (is_draft input).
  - eapply at_most_weaken; [|apply Nat.le_0_l]. no_event. by apply gw_audit_none.
  - apply (at_most_bind _ 0 1); [apply at_most_lift|]. intros [].
    apply (at_most_bind _ 1 0); [by apply gw_send_call_bound|]. intros [id st]. no_event. by apply gw_audit_none.
Qed.

Lemma gw_send_accounted input w r w' :
  gw_sendTextMessage gw a input w = (r, w') -> accounted (js "send_text_message") input w r w'.
Proof.
  apply accounted_bind; [apply at_most_lift|]. intros hash w1 r1 w2 [Hh ->]%lift_inv.
  apply accounted_bind; [by apply gw_resolve_none; right|]. intros recipient w3 r3 w4 _.
  destruct (is_draft input) eqn:Hd.
  - apply accounted_bind; [apply at_most_lift|]. intros aid' w5 r5 w6 _.
    apply (accounted_finish _ _ _ _ _ hash); [exact Hh|]. rewrite Hd. read_fields.
  - apply accounted_bind; [apply at_most_lift|]. intros u w5 r5 w6 [Hc%gw_confirmation_given _]%lift_inv.
    apply accounted_bind; [apply gw_send_audit_none|]. intros [id st] w7 r7 w8 _.
    apply (accounted_finish _ _ _ _ _ hash); [exact Hh|]. rewrite Hd. read_fields.
Qed.

Lemma gw_reply_accounted input w r w' :
  gw_replyToMessage gw who a input w = (r, w') -> accounted (js "reply_to_message") input w r w'.
Proof.
  apply accounted_bind; [by apply gw_incoming_none; right|]. intros [[content subject] body] w1 r1 w2 _.
  apply accounted_bind; [apply at_most_raise_if|]. intros u w3 r3 w4 _.
  apply accounted_bind; [by apply gw_resolve_none; right|]. intros recipient w5 r5 w6 _.
  apply accounted_bind; [apply at_most_lift|]. intros trimmed w7 r7 w8 _.
  apply accounted_bind; [apply at_most_lift|]. intros hash w9 r9 w10 [Hh _]%lift_inv.
  destruct (is_draft input) eqn:Hd.
  - apply accounted_bind; [apply at_most_lift|]. intros aid' w11 r11 w12 _.
    apply (accounted_finish _ _ _ _ _ hash); [exact Hh|]. rewrite Hd. read_fields.
  - apply accounted_bind; [apply at_most_lift|]. intros u' w11 r11 w12 [Hc%gw_confirmation_given _]%lift_inv.
    apply accounted_bind; [apply gw_send_audit_none|]. intros [id st] w13 r13 w14 _.
    apply (accounted_finish _ _ _ _ _ hash); [exact Hh|]. rewrite Hd. read_fields.
Qed.

(** The Isolated-mode runtime keeps the contract. *)
Lemma gateway_contract : RuntimeContract (buildGatewayRuntime gw who a) sends 1.
Proof.
  split; cbn [listMyAgents listInbox readMessage resolveRecipient sendTextMessage replyToMessage buildGatewayRuntime].
  - unfold gw_listMyAgents. no_event.
  - intros input. unfold gw_listInbox, Gateway.listInbox. no_event.
    apply other_call_none; [auto|rewrite !elem_of_cons; tauto].
  - intros input. unfold gw_readMessage. no_event. by apply gw_incoming_none; left.
  - intros input. unfold gw_resolveRecipient. no_event. by apply gw_resolve_none; left.
  - apply gw_send_gate.
  - apply gw_reply_gate.
  - apply gw_send_bound.
  - apply gw_reply_bound.
  - apply gw_send_accounted.
  - apply gw_reply_accounted.
Qed.

End gateway_contract.

(** The runtime that start-up returns keeps the contract. *)
Lemma createGatewayRuntime_contract `{Host, WebCrypto, Env} (config : GatewayRuntimeConfig) w rt who tools w' :
  createGatewayRuntime config w = (Ok (rt, who, tools), w') ->
  RuntimeContract rt (is_rpc (js "send_message")) 1 /\ tools = MODE_A_SUPPORTED_TOOLS.
Proof.
  unfold createGatewayRuntime. cbv zeta. intros E. apply bind_inv in E as (v & w1 & _ & E).
  apply bind_inv in E as (aid & w2 & _ & E). injection E as <- <- <- <-. split; [apply gateway_contract|done].
Qed.
