(* ===== verification/Tools.v ===== *)
(** The tool catalog and its argument check: packages/mcp-server/src/tools.ts.

    A tool's [inputSchema] is the JSON object the catalog declares.  The
    only [pattern] of the catalog is [UUID_PATTERN], so [regexp_test] covers
    that pattern alone ([catalog_patterns]). *)
From S2P Require Import Prelude JsNumber Json A2A Effect Node.

Definition UUID_PATTERN : jstr :=
  js "^[0-9a-fA-F]{8}-[0-9a-fA-F]{4}-[0-9a-fA-F]{4}-[0-9a-fA-F]{4}-[0-9a-fA-F]{12}$".

(** [new RegExp(pattern).test(s)]. *)
Definition regexp_test (pattern s : jstr) : bool := jeqb pattern UUID_PATTERN && uuid_test s.

Inductive ToolPhase := phase1a | phase1b | phase2.
Inductive ToolRisk := low | medium | high.

#[global] Instance phase_eq_dec : EqDecision ToolPhase.
Proof. solve_decision. Defined.

Record ToolDefinition := Tool {
  tool_name : jstr; description : jstr; phase : ToolPhase; risk : ToolRisk;
  requiresConfirmation : bool; inputSchema : jval
}.

(** ** Schemas *)

Definition str_schema : jval := JObj [(js "type", JStr (js "string"))].
Definition uuid_schema : jval := JObj [(js "type", JStr (js "string")); (js "pattern", JStr UUID_PATTERN)].
Definition bool_schema : jval := JObj [(js "type", JStr (js "boolean"))].
Definition mode_schema : jval :=
  JObj [(js "type", JStr (js "string")); (js "enum", JArr [JStr (js "draft"); JStr (js "send")]);
        (js "default", JStr (js "draft"))].
Definition hint_schema : jval := JObj [(js "type", JStr (js "string")); (js "maxLength", JNum (num 128))].

Definition object_schema (required : list jstr) (properties : list (jstr * jval)) : jval :=
  JObj ([(js "type", JStr (js "object")); (js "additionalProperties", JBool false)]
        ++ match required with [] => [] | _ => [(js "required", JArr (map JStr required))] end
        ++ [(js "properties", JObj properties)]).

Definition TOOL_CATALOG : list ToolDefinition := [
  Tool (js "list_my_agents") (js "Return the caller's usable agents as stable aid + current did pairs.")
    phase1a low false (object_schema [] []);
  Tool (js "list_inbox") (js "List inbox messages for an agent aid with optional folder / status filters.")
    phase1a low false
    (object_schema [js "agent_aid"]
       [(js "agent_aid", str_schema); (js "folder", str_schema); (js "status", str_schema);
        (js "page", JObj [(js "type", JStr (js "integer")); (js "minimum", JNum (num 1))]);
        (js "per_page", JObj [(js "type", JStr (js "integer")); (js "minimum", JNum (num 1));
                              (js "maximum", JNum (num 100))])]);
  Tool (js "read_message") (js "Read and decrypt one message so the assistant can reason over its plaintext.")
    phase1a medium false
    (object_schema [js "message_id"] [(js "message_id", uuid_schema)]);
  Tool (js "resolve_recipient") (js "Resolve an aid or did into the current recipient did and encryption key.")
    phase1a low false
    (object_schema [js "identifier"] [(js "identifier", str_schema)]);
  Tool (js "send_text_message")
    (js "Compose a plaintext message envelope for NexusInbox. Default mode='draft' returns the resolved envelope + draft_body_hash without sending. mode='send' requires confirmed_by_user=true; the assistant must surface a confirmation prompt to the human before setting it. Pass provider_hint for audit visibility.")
    phase1b high true
    (object_schema [js "from_agent"; js "to"; js "subject"; js "body_markdown"]
       [(js "from_agent", str_schema); (js "to", str_schema); (js "subject", str_schema);
        (js "body_markdown", str_schema); (js "mode", mode_schema);
        (js "confirmed_by_user", bool_schema); (js "provider_hint", hint_schema)]);
  Tool (js "reply_to_message")
    (js "Reply to an existing message by id. Subject auto-prefills as 'Re: <decrypted subject>' unless overridden. Default mode='draft' returns the reply envelope; mode='send' requires confirmed_by_user=true.")
    phase1b high true
    (object_schema [js "incoming_message_id"; js "body_markdown"]
       [(js "incoming_message_id", uuid_schema); (js "body_markdown", str_schema);
        (js "subject", str_schema); (js "mode", mode_schema);
        (js "confirmed_by_user", bool_schema); (js "provider_hint", hint_schema)])
].

(** ** validateToolArguments *)

(** [Object.entries]. *)
Definition entries_of (v : jval) : list (jstr * jval) := match v with JObj o => o | _ => [] end.

Definition validate_property (args : jval) (entry : jstr * jval) : res unit :=
  let '(key, schema) := entry in
  match jget schema (js "pattern") with
  | JStr pattern =>
    if negb (truthy_str pattern) then Ok tt
    else
      match jget args key with
      | JUndef => Ok tt
      | JStr value =>
        throw_if (negb (regexp_test pattern value)) (Error_ (key ++ js " must match " ++ pattern))
      | _ => Throw (Error_ (key ++ js " must match " ++ pattern))
      end
  | _ => Ok tt
  end.

Definition validateToolArguments (tool : ToolDefinition) (args : jval) : res unit :=
  res_iter (validate_property args) (entries_of (jget (inputSchema tool) (js "properties"))).

Definition phase1aTools : list ToolDefinition := filter (fun t => phase t = phase1a) TOOL_CATALOG.
Definition phase1bTools : list ToolDefinition := filter (fun t => phase t = phase1b) TOOL_CATALOG.

(** ** Lemmas *)

(** Every pattern of the catalog is the one [regexp_test] knows. *)
Lemma catalog_patterns :
  forallb (fun t => forallb (fun kv => match jget kv.2 (js "pattern") with
                                       | JStr p => jeqb p UUID_PATTERN | JUndef => true | _ => false end)
                      (entries_of (jget (inputSchema t) (js "properties")))) TOOL_CATALOG = true.
Proof. by vm_compute. Qed.

(** The value under [key] is absent or a UUID. *)
Definition uuid_arg (args : jval) (key : jstr) : bool :=
  match jget args key with JUndef => true | JStr s => uuid_test s | _ => false end.

(** The keys a tool's schema constrains. *)
Definition uuid_keys (t : ToolDefinition) : list jstr :=
  map fst (filter (fun kv => jis (jget kv.2 (js "pattern")) UUID_PATTERN = true)
             (entries_of (jget (inputSchema t) (js "properties")))).

Lemma validate_property_spec args kv :
  match jget kv.2 (js "pattern") with JStr p => jeqb p UUID_PATTERN | JUndef => true | _ => false end = true ->
  is_ok (validate_property args kv)
  = if jis (jget kv.2 (js "pattern")) UUID_PATTERN then uuid_arg args kv.1 else true.
Proof.
  destruct kv as [key schema]. cbn [fst snd]. unfold validate_property, uuid_arg.
  destruct (jget schema (js "pattern")) as [| | | |p| |]; try done. intros ->%jeqb_true. cbn [jis].
  rewrite jeqb_refl. change (negb (truthy_str UUID_PATTERN)) with false. cbv iota.
  destruct (jget args key) as [| | | |s| |]; try done. unfold regexp_test. rewrite jeqb_refl. cbn [andb].
  by destruct (uuid_test s).
Qed.

(** On the catalog, validation accepts exactly the arguments whose constrained
    keys are absent or UUIDs. *)
Lemma validate_spec t args :
  t ∈ TOOL_CATALOG -> is_ok (validateToolArguments t args) = forallb (uuid_arg args) (uuid_keys t).
Proof.
  intros Ht. pose proof catalog_patterns as Hc. rewrite forallb_forall in Hc.
  specialize (Hc t (proj1 (list_elem_of_In _ _) Ht)). cbv beta in Hc. unfold validateToolArguments, uuid_keys.
  clear Ht. induction (entries_of (jget (inputSchema t) (js "properties"))) as [|kv l IH]; [done|].
  cbn [forallb] in Hc. apply andb_true_iff in Hc as [Hk Hl]. specialize (IH Hl).
  pose proof (validate_property_spec args kv Hk) as Hp. rewrite filter_cons. cbn [res_iter].
  destruct (jis (jget kv.2 (js "pattern")) UUID_PATTERN); [rewrite decide_True by done|rewrite decide_False by done].
  - cbn [map forallb]. rewrite <- IH, <- Hp. by destruct (validate_property args kv) as [[]|].
  - rewrite <- IH. by destruct (validate_property args kv) as [[]|].
Qed.
