(* ===== verification/McpServer.v ===== *)
(** The MCP server: packages/mcp-server/src/server.ts.

    [call_tool] is the CallTool handler over any runtime; its theorems use the
    interface [RuntimeContract] alone and hold of both runtimes.  The stdio
    transport and the protocol framing belong to the MCP SDK. *)
From S2P Require Import Prelude Base64 Utf8 JsNumber Json JsDate A2A Effect Node Envelope ApiClient Gateway Keystore Runtime RuntimeSaas RuntimeGateway Tools.

Definition filterTools (all : list ToolDefinition) (enabled : option (list jstr)) : list ToolDefinition :=
  match enabled with
  | None | Some [] => all
  | Some names => filter (fun t => tool_name t ∈ names) all
  end.

Section server.
Context `{Host, WebCrypto, Env}.

Definition dispatch (runtime : NexusInboxMcpRuntime) (tool : ToolDefinition) (args : jval) : M jval :=
  lift (validateToolArguments tool args) ;;
  let name := tool_name tool in
  if jeqb name (js "list_my_agents") then listMyAgents runtime
  else if jeqb name (js "list_inbox") then listInbox runtime args
  else if jeqb name (js "read_message") then readMessage runtime args
  else if jeqb name (js "resolve_recipient") then resolveRecipient runtime args
  else if jeqb name (js "send_text_message") then sendTextMessage runtime args
  else if jeqb name (js "reply_to_message") then replyToMessage runtime args
  else raise (Error_ (js "tool " ++ name ++ js " is not dispatchable yet")).

Definition text_content (text : jstr) : jval :=
  JArr [JObj [(js "type", JStr (js "text")); (js "text", JStr text)]].

Definition errorResponse (message : jstr) : jval :=
  JObj [(js "isError", JBool true); (js "content", text_content message)].

Definition resultResponse (result : jval) : jval :=
  JObj [(js "content", text_content (json_stringify_indent 2 result))].

(** The ListTools handler. *)
Definition list_tools (tools : list ToolDefinition) : jval :=
  JObj [(js "tools", JArr (map (fun t => JObj [(js "name", JStr (tool_name t)); (js "description", JStr (description t));
                                               (js "inputSchema", inputSchema t)]) tools))].

(** The CallTool handler; the SDK has checked that [arguments] is an object
    or absent. *)
Definition call_tool (runtime : NexusInboxMcpRuntime) (tools : list ToolDefinition) (name : jstr) (arguments : jval)
    : M jval :=
  let args := nullish_or arguments (JObj []) in
  match List.find (fun t => jeqb (tool_name t) name) tools with
  | None => mret (errorResponse (js "unknown tool: " ++ name))
  | Some tool =>
    try_catch (result ← dispatch runtime tool args; mret (resultResponse result))
      (fun error => mret (errorResponse (err_message error)))
  end.

End server.

(** * Lemmas *)

Lemma find_tool name tools t :
  List.find (fun t => jeqb (tool_name t) name) tools = Some t -> t ∈ tools /\ tool_name t = name.
Proof. intros [Hin Hn%jeqb_true]%List.find_some. split; [by apply list_elem_of_In|done]. Qed.

Lemma filterTools_subset enabled t : t ∈ filterTools TOOL_CATALOG enabled -> t ∈ TOOL_CATALOG.
Proof. destruct enabled as [[|n ns]|]; cbn [filterTools]; try done. rewrite list_elem_of_filter. by intros [_ ?]. Qed.

(** A catalog tool is determined by its name. *)
Lemma catalog_names_unique : NoDup (map tool_name TOOL_CATALOG).
Proof. apply (bool_decide_eq_true_1 (NoDup _)). by vm_compute. Qed.

(** The write tools. *)
Definition writes (name : jstr) : bool := jeqb name (js "send_text_message") || jeqb name (js "reply_to_message").

Section gate.
Context `{Host, WebCrypto, Env} (rt : NexusInboxMcpRuntime) (sends : Event -> bool) (bound : nat)
  (Hrt : RuntimeContract rt sends bound).

Lemma dispatch_gate tool args :
  writes (tool_name tool) && may_send args = false -> at_most sends 0 (dispatch rt tool args).
Proof.
  unfold writes, dispatch. intros Hw. apply at_most_bind0; [apply at_most_lift|]. intros [].
  cbv zeta. destruct (jeqb _ (js "list_my_agents")); [by eapply agents_no_send|].
  destruct (jeqb _ (js "list_inbox")); [by eapply inbox_no_send|].
  destruct (jeqb _ (js "read_message")); [by eapply read_no_send|].
  destruct (jeqb _ (js "resolve_recipient")); [by eapply resolve_no_send|].
  destruct (jeqb _ (js "send_text_message")); [by eapply send_gate|].
  destruct (jeqb _ (js "reply_to_message")); [by eapply reply_gate|apply at_most_raise].
Qed.

Lemma dispatch_bound tool args : at_most sends bound (dispatch rt tool args).
Proof.
  unfold dispatch. apply (at_most_bind _ 0 bound); [apply at_most_lift|]. intros [].
  cbv zeta. destruct (jeqb _ (js "send_text_message")) eqn:Es; [|destruct (jeqb _ (js "reply_to_message")) eqn:Er].
  - apply jeqb_true in Es as ->. by eapply send_bound.
  - apply jeqb_true in Er as ->. by eapply reply_bound.
  - eapply at_most_weaken; [|apply Nat.le_0_l]. repeat case_match;
      [by eapply agents_no_send|by eapply inbox_no_send|by eapply read_no_send|by eapply resolve_no_send
      |apply at_most_raise].
Qed.

Lemma handler_at_most p n tool args :
  at_most p n (dispatch rt tool args) ->
  at_most p n (try_catch (result ← dispatch rt tool args; mret (resultResponse result))
                 (fun error => mret (errorResponse (err_message error)))).
Proof.
  intros Hd. rewrite <- (Nat.add_0_r n). apply at_most_catch; [|intros e; apply at_most_ret].
  rewrite <- (Nat.add_0_r n). apply at_most_bind; [done|]. intros v. apply at_most_ret.
Qed.

Lemma catch_total {S A} (m : eff S A) (f : A -> jval) (h : jserror -> jval) s :
  exists s', try_catch (a ← m; mret (f a)) (fun e => mret (h e)) s
             = (Ok (match (m s).1 with Ok a => f a | Throw e => h e end), s') /\ s' = (m s).2.
Proof. unfold try_catch, mbind, eff_bind. destruct (m s) as [[a|e] s']; by eexists. Qed.

End gate.

(** The gate of the properties, as the booleans of the code. *)
Lemma not_gated (enabled : Prop) name args :
  enabled ->
  ~ (enabled /\ (name = js "send_text_message" \/ name = js "reply_to_message") /\
     mode_of args <> JStr (js "draft") /\ jget args (js "confirmed_by_user") = JBool true) ->
  writes name && may_send args = false.
Proof.
  intros He Hno. apply not_true_is_false. intros [Hw Hm]%andb_true_iff. apply Hno. split; [done|].
  unfold may_send, confirmed in Hm. apply andb_true_iff in Hm as [Hd Hc]. split_and!.
  - unfold writes in Hw. apply orb_true_iff in Hw as [Hw | Hw]; apply jeqb_true in Hw; auto.
  - intros Hm. unfold is_draft in Hd. rewrite Hm in Hd. cbn [jis] in Hd. by rewrite jeqb_refl in Hd.
  - by destruct (jget args (js "confirmed_by_user")) as [| |[]| | | |].
Qed.

(** The confirmation gate over any runtime that keeps the contract. *)
Lemma call_tool_gate `{Host, WebCrypto, Env} (rt : NexusInboxMcpRuntime) (sends : Event -> bool)
    (bound : nat) (tools : list ToolDefinition) (name : jstr) (arguments : jval) :
  RuntimeContract rt sends bound ->
  let args := nullish_or arguments (JObj []) in
  let call := call_tool rt tools name arguments in
  (forall w, is_ok (call w).1 = true) /\
  (~ ((exists t, t ∈ tools /\ tool_name t = name) /\
      (name = js "send_text_message" \/ name = js "reply_to_message") /\
      mode_of args <> JStr (js "draft") /\ jget args (js "confirmed_by_user") = JBool true) ->
   at_most sends 0 call) /\
  at_most sends bound call.
Proof.
  intros Hrt args call. subst call. unfold call_tool. fold args.
  destruct (List.find (fun t => jeqb (tool_name t) name) tools) as [t|] eqn:Ef; cycle 1.
  { split_and!; [done|intros _; apply at_most_ret|eapply at_most_weaken; [apply at_most_ret|lia]]. }
  apply find_tool in Ef as [Hin Hn]. split_and!.
  - intros w. destruct (catch_total (dispatch rt t args) resultResponse (fun e => errorResponse (err_message e)) w)
      as (s' & -> & _). done.
  - intros Hno. apply handler_at_most, (dispatch_gate rt sends bound Hrt). rewrite Hn.
    eapply not_gated; [|exact Hno]. by exists t.
  - apply handler_at_most, (dispatch_bound rt sends bound Hrt).
Qed.

(** * Properties *)

(** A runtime on the injected transport, for the witnesses. *)
Definition sample_runtime `{Host, WebCrypto, Env} : NexusInboxMcpRuntime :=
  buildGatewayRuntime (NexusInboxGatewayClient [] true) (JObj [(js "aid", JStr (js "agent-1"))])
    (AuditorOf (JStr (js "agent-1")) (JStr (js "did:key:z1")) (JStr (js "(gateway-bound)"))).

(** The operation behind each tool name. *)
Definition operation (rt : NexusInboxMcpRuntime) (name : jstr) (args : jval) : M jval :=
  if jeqb name (js "list_my_agents") then listMyAgents rt
  else if jeqb name (js "list_inbox") then listInbox rt args
  else if jeqb name (js "read_message") then readMessage rt args
  else if jeqb name (js "resolve_recipient") then resolveRecipient rt args
  else if jeqb name (js "send_text_message") then sendTextMessage rt args
  else replyToMessage rt args.

Lemma catalog_operation rt t args w :
  t ∈ TOOL_CATALOG -> is_ok (validateToolArguments t args) = true ->
  dispatch rt t args w = operation rt (tool_name t) args w.
Proof.
  intros Ht Hv. unfold dispatch. destruct (validateToolArguments t args) as [[]|] eqn:E; [|done].
  erewrite bind_ok by reflexivity. clear E Hv. cbv zeta. unfold operation.
  unfold TOOL_CATALOG in Ht. rewrite !elem_of_cons in Ht.
  destruct Ht as [-> | [-> | [-> | [-> | [-> | [-> | []%elem_of_nil]]]]]]; reflexivity.
Qed.

Lemma find_tool_unique enabled t :
  t ∈ filterTools TOOL_CATALOG enabled ->
  List.find (fun x => jeqb (tool_name x) (tool_name t)) (filterTools TOOL_CATALOG enabled) = Some t.
Proof.
  intros Hin. destruct (List.find _ _) as [u|] eqn:E.
  - apply find_tool in E as [Hu Hn]. f_equal.
    pose proof (filterTools_subset enabled t Hin) as Ht. pose proof (filterTools_subset enabled u Hu) as Hu'.
    unfold TOOL_CATALOG in Ht, Hu'. rewrite !elem_of_cons in Ht, Hu'. revert Hn.
    destruct Ht as [-> | [-> | [-> | [-> | [-> | [-> | []%elem_of_nil]]]]]];
      destruct Hu' as [-> | [-> | [-> | [-> | [-> | [-> | []%elem_of_nil]]]]]]; first [reflexivity|discriminate].
  - pose proof (List.find_none _ _ E t (proj1 (list_elem_of_In _ _) Hin)) as Hf. cbv beta in Hf.
    by rewrite jeqb_refl in Hf.
Qed.

(** What the CallTool handler does, on every branch.  A name that is not
    an enabled tool, and an argument that the tool's schema says is a UUID but
    is not one, answer with an error before anything happens; otherwise the
    runtime operation of that name runs exactly once on the arguments, and the
    response is its result as JSON text or its error message. *)
Theorem call_tool_functional `{Host, WebCrypto, Env} (rt : NexusInboxMcpRuntime) (enabled : option (list jstr))
    (name : jstr) (arguments : jval) (w : World) :
  let tools := filterTools TOOL_CATALOG enabled in
  let args := nullish_or arguments (JObj []) in
  ((forall t, t ∈ tools -> tool_name t <> name) ->
   call_tool rt tools name arguments w = (Ok (errorResponse (js "unknown tool: " ++ name)), w)) /\
  (forall t, t ∈ tools -> tool_name t = name ->
   (forallb (uuid_arg args) (uuid_keys t) = false ->
    exists msg, call_tool rt tools name arguments w = (Ok (errorResponse msg), w)) /\
   (forallb (uuid_arg args) (uuid_keys t) = true ->
    call_tool rt tools name arguments w =
    (Ok (match (operation rt name args w).1 with
         | Ok v => resultResponse v
         | Throw e => errorResponse (err_message e)
         end), (operation rt name args w).2))).
Proof.
  intros tools args. unfold call_tool. fold args. split.
  - intros Hno. destruct (List.find _ tools) as [t|] eqn:E; [|done]. apply find_tool in E as [Hin Hn].
    by destruct (Hno t Hin).
  - intros t Hin <-. subst tools. rewrite find_tool_unique by done.
    pose proof (filterTools_subset enabled t Hin) as Hc. rewrite <- (validate_spec t args Hc).
    destruct (catch_total (dispatch rt t args) resultResponse (fun e => errorResponse (err_message e)) w)
      as (w' & -> & ->). split.
    + intros Hv. unfold dispatch. destruct (validateToolArguments t args) as [|e]; [done|]. by eexists.
    + intros Hv. by rewrite (catalog_operation rt t args w Hc Hv).
Qed.

(** The keys the schemas constrain. *)
Example catalog_uuid_keys :
  map (fun t => (tool_name t, uuid_keys t)) TOOL_CATALOG =
  [(js "list_my_agents", []); (js "list_inbox", []); (js "read_message", [js "message_id"]);
   (js "resolve_recipient", []); (js "send_text_message", []);
   (js "reply_to_message", [js "incoming_message_id"])].
Proof. by vm_compute. Qed.


Definition draft_args : jval :=
  JObj [(js "to", JStr (js "agent-2")); (js "subject", JStr (js "Hi")); (js "body_markdown", JStr (js "Hello"))].

(** A gateway that knows agent-2. *)
Definition directory_env : Env :=
  answering_env (fun _ _ => Throw (Error_ (js "offline")))
    (fun _ _ _ => Ok (JObj [(js "aid", JStr (js "agent-2")); (js "did", JStr (js "did:key:z2"))])).

