(* ===== verification/Cli.v ===== *)
(** The command line: packages/mcp-server/src/cli.ts, the stdio start-up of
    server.ts and the manifest of index.ts.

    [process.exit] ends the program: it is an error no handler of this file
    catches.  A started server is its runtime and its tool list. *)
From S2P Require Import Prelude Base64 Utf8 JsNumber Json JsDate A2A Effect Node Envelope ApiClient Gateway Keystore Runtime RuntimeSaas RuntimeGateway Tools McpServer.

Inductive DeploymentMode := mode_a_gateway_daemon | mode_b_saas_keystore.

#[global] Instance mode_eq_dec : EqDecision DeploymentMode.
Proof. solve_decision. Defined.

Definition mode_text (m : DeploymentMode) : jstr :=
  match m with
  | mode_a_gateway_daemon => js "mode_a_gateway_daemon"
  | mode_b_saas_keystore => js "mode_b_saas_keystore"
  end.

(** ** index.ts *)

Definition tool_to_val (t : ToolDefinition) : jval :=
  JObj ([(js "name", JStr (tool_name t)); (js "description", JStr (description t));
         (js "phase", JStr (match phase t with phase1a => js "phase1a" | phase1b => js "phase1b" | phase2 => js "phase2" end));
         (js "risk", JStr (match risk t with low => js "low" | medium => js "medium" | high => js "high" end))]
        ++ (if requiresConfirmation t then [(js "requiresConfirmation", JBool true)] else [])
        ++ [(js "inputSchema", inputSchema t)]).

Definition buildManifest (active_mode : option DeploymentMode) : jval :=
  JObj ([(js "name", JStr (js "@nexusinbox/mcp-server")); (js "version", JStr (js "0.1.0"));
         (js "deployment_modes", JArr [JStr (js "mode_a_gateway_daemon"); JStr (js "mode_b_saas_keystore")])]
        ++ match active_mode with Some m => [(js "active_mode", JStr (mode_text m))] | None => [] end
        ++ [(js "tools", JArr (map tool_to_val TOOL_CATALOG))]).

Section cli.
Context `{Host, WebCrypto, Env}.

Definition createScaffoldRuntime : NexusInboxMcpRuntime :=
  let notConfigured : M jval :=
    raise (Error_ (js "NexusInbox MCP runtime is not configured yet. This scaffold defines the tool surface only.")) in
  McpRuntime notConfigured (fun _ => notConfigured) (fun _ => notConfigured) (fun _ => notConfigured)
    (fun _ => notConfigured) (fun _ => notConfigured).

(** ** server.ts: startStdioServer *)

Record StdioServer := Stdio { sv_runtime : NexusInboxMcpRuntime; sv_mode : DeploymentMode; sv_tools : list ToolDefinition }.

Definition startStdioServer (runtime : NexusInboxMcpRuntime) (activeMode : DeploymentMode)
    (enabledTools : option (list jstr)) : M StdioServer :=
  let tools := filterTools TOOL_CATALOG enabledTools in
  emit (EvWrite true (js "[nexusinbox-mcp] connected (mode=" ++ mode_text activeMode ++ js ", tools="
                      ++ dec_of_Z (Z.of_nat (length tools)) ++ js ")" ++ [10])) ;;
  mret (Stdio runtime activeMode tools).

(** ** cli.ts *)

Definition ProcessExit : jserror := JsError (js "process.exit") (js "1").
Definition process_exit {A} : M A := raise ProcessExit.

(** A variable that is set and not blank, trimmed. *)
Definition optionalEnv (name : jstr) : option jstr :=
  match env_var name with
  | Some v => if truthy_str v && truthy_str (trim v) then Some (trim v) else None
  | None => None
  end.

Definition requireEnv (name : jstr) : M jstr :=
  match env_var name with
  | Some v =>
    if negb (truthy_str v) || negb (truthy_str (trim v)) then
      emit (EvWrite true (js "[nexusinbox-mcp] missing required env: " ++ name ++ [10])) ;; process_exit
    else mret (trim v)
  | None => emit (EvWrite true (js "[nexusinbox-mcp] missing required env: " ++ name ++ [10])) ;; process_exit
  end.

Definition parseToolsAllowlist : option (list jstr) :=
  match optionalEnv (js "AGENT_INBOX_MCP_TOOLS") with
  | Some raw => Some (filter (fun s => truthy_str s = true) (map trim (split_on 44 raw)))
  | None => None
  end.

Definition default_base_url : jstr := js "https://api.nexusinbox.ai".

(** Start from the environment, with or without the enrollment secret. *)
Definition saas_config (requireSecret : bool) : M SaasRuntimeConfig :=
  let baseUrl := default default_base_url (optionalEnv (js "AGENT_INBOX_BASE_URL")) in
  aid ← requireEnv (js "AGENT_AID");
  credentialId ← requireEnv (js "AGENT_CREDENTIAL_ID");
  enrollmentSecret ← (if requireSecret then s ← requireEnv (js "AGENT_ENROLLMENT_SECRET"); mret (Some s)
                      else mret (optionalEnv (js "AGENT_ENROLLMENT_SECRET")));
  mret (SaasConfig baseUrl aid credentialId enrollmentSecret (optionalEnv (js "AGENT_KEYSTORE_PASSPHRASE"))
          (optionalEnv (js "AGENT_KEYSTORE_DIR"))).

Definition runInit : M unit :=
  config ← saas_config true;
  '(_, credential) ← createSaasRuntime config;
  emit (EvWrite false (json_stringify_indent 2
    (JObj [(js "ok", JBool true);
           (js "source", JStr (match source credential with loaded => js "loaded" | activated => js "activated" end));
           (js "keystore", JStr (keystorePath credential)); (js "aid", aid credential); (js "did", did credential);
           (js "activated_at", activatedAt credential)]) ++ [10])).

Definition pickMode : M DeploymentMode :=
  match option_map to_lower (optionalEnv (js "AGENT_INBOX_MCP_MODE")) with
  | None => mret mode_b_saas_keystore
  | Some raw =>
    if negb (truthy_str raw) || jeqb raw (js "mode_b") || jeqb raw (js "mode_b_saas_keystore") || jeqb raw (js "saas") then
      mret mode_b_saas_keystore
    else if jeqb raw (js "mode_a") || jeqb raw (js "mode_a_gateway_daemon") || jeqb raw (js "gateway") then
      mret mode_a_gateway_daemon
    else
      emit (EvWrite true (js "[nexusinbox-mcp] unknown AGENT_INBOX_MCP_MODE=" ++ raw
                          ++ js "; falling back to mode_b_saas_keystore" ++ [10])) ;;
      mret mode_b_saas_keystore
  end.

Definition runStdioModeB : M StdioServer :=
  config ← saas_config false;
  '(runtime, _) ← createSaasRuntime config;
  startStdioServer runtime mode_b_saas_keystore parseToolsAllowlist.

(** [requested ? supportedTools.filter(...) : supportedTools]. *)
Definition modeA_tools (supportedTools : list jstr) (requested : option (list jstr)) : list jstr :=
  match requested with
  | Some names => filter (fun t => t ∈ names) supportedTools
  | None => supportedTools
  end.

Definition runStdioModeA : M StdioServer :=
  '(runtime, _, supportedTools) ←
    createGatewayRuntime (GatewayConfig (optionalEnv (js "AGENT_INBOX_GATEWAY_SOCKET")) false);
  startStdioServer runtime mode_a_gateway_daemon (Some (modeA_tools supportedTools parseToolsAllowlist)).

Definition runStdio : M StdioServer :=
  mode ← pickMode;
  match mode with
  | mode_a_gateway_daemon => runStdioModeA
  | mode_b_saas_keystore => runStdioModeB
  end.

Inductive Outcome := Done | Serving (server : StdioServer).

(** [printHelp] writes [help] to stdout. *)
Definition main (help : jstr) (arg : option jstr) : M Outcome :=
  match arg with
  | None => s ← runStdio; mret (Serving s)
  | Some arg =>
    if jeqb arg (js "--help") || jeqb arg (js "-h") then emit (EvWrite false help) ;; mret Done
    else if jeqb arg (js "--print-manifest") then
      emit (EvWrite false (json_stringify_indent 2 (buildManifest None) ++ [10])) ;; mret Done
    else if jeqb arg (js "--init") then runInit ;; mret Done
    else if jeqb arg (js "--stdio") then s ← runStdio; mret (Serving s)
    else
      emit (EvWrite true (js "[nexusinbox-mcp] unknown argument: " ++ arg ++ [10])) ;;
      emit (EvWrite false help) ;; process_exit
  end.

(** [main().catch(...)]: an exit goes through, any other error is reported and
    becomes one. *)
Definition run_main (help : jstr) (arg : option jstr) : M Outcome :=
  try_catch (main help arg)
    (fun error =>
       if jeqb (err_name error) (js "process.exit") then raise error
       else emit (EvWrite true (js "[nexusinbox-mcp] fatal: " ++ err_message error ++ [10])) ;; process_exit).

End cli.

(** * Lemmas *)

Section started.
Context `{Host, WebCrypto, Env}.

(** The sending event of a mode, and how often one call may cause it. *)
Definition sending_event (m : DeploymentMode) : Event -> bool :=
  match m with
  | mode_a_gateway_daemon => is_rpc (js "send_message")
  | mode_b_saas_keystore =>
    posts_to (strip_slashes (default default_base_url (optionalEnv (js "AGENT_INBOX_BASE_URL"))) ++ js "/messages")
  end.
Definition sending_bound (m : DeploymentMode) : nat :=
  match m with mode_a_gateway_daemon => 1 | mode_b_saas_keystore => 2 end.

(** The tool names the server of a mode is started with. *)
Definition enabled_names (m : DeploymentMode) : option (list jstr) :=
  match m with
  | mode_a_gateway_daemon => Some (modeA_tools MODE_A_SUPPORTED_TOOLS parseToolsAllowlist)
  | mode_b_saas_keystore => parseToolsAllowlist
  end.

Lemma start_inv rt m names w s w' :
  startStdioServer rt m names w = (Ok s, w') -> s = Stdio rt m (filterTools TOOL_CATALOG names).
Proof. unfold startStdioServer. intros E. eff_inv. done. Qed.

Lemma saas_config_base b w c w' :
  saas_config b w = (Ok c, w') -> sc_baseUrl c = default default_base_url (optionalEnv (js "AGENT_INBOX_BASE_URL")).
Proof.
  unfold saas_config. cbv zeta. intros E. apply bind_inv in E as (a & w1 & _ & E).
  apply bind_inv in E as (i & w2 & _ & E). apply bind_inv in E as (s & w3 & _ & E). by injection E as <- <-.
Qed.

(** What a started server is. *)
Lemma runStdio_spec w s w' :
  runStdio w = (Ok s, w') ->
  RuntimeContract (sv_runtime s) (sending_event (sv_mode s)) (sending_bound (sv_mode s)) /\
  sv_tools s = filterTools TOOL_CATALOG (enabled_names (sv_mode s)).
Proof.
  unfold runStdio. intros E. apply bind_inv in E as (m & w1 & _ & E). destruct m.
  - unfold runStdioModeA in E. apply bind_inv in E as ([[rt who] tools] & w2 & Ec & E). cbv beta iota in E.
    destruct (createGatewayRuntime_contract _ _ _ _ _ _ Ec) as [Hc ->]. apply start_inv in E as ->. by split.
  - unfold runStdioModeB in E. apply bind_inv in E as (c & w2 & Ec & E). apply bind_inv in E as ([rt cr] & w3 & Er & E).
    cbv beta iota in E. apply start_inv in E as ->. cbn [sv_runtime sv_mode sv_tools]. split; [|done].
    cbn [sending_event sending_bound]. rewrite <- (saas_config_base _ _ _ _ Ec).
    by eapply createSaasRuntime_contract.
Qed.

Lemma run_main_serving help arg w s w' :
  run_main help arg w = (Ok (Serving s), w') -> exists w1 w2, runStdio w1 = (Ok s, w2).
Proof.
  unfold run_main, try_catch. destruct (main help arg w) as [[o|e] w1] eqn:Em; cycle 1.
  { destruct (jeqb _ _); [done|]. intros E. by apply bind_inv in E as (u & w2 & _ & E). }
  intros [= -> <-]. unfold main in Em.
  destruct arg as [arg|]; cycle 1.
  { apply bind_inv in Em as (s' & w2 & E & Em). injection Em as -> ->. eauto. }
  repeat match type of Em with (if ?b then _ else _) _ = _ => destruct b end;
    repeat (apply bind_inv in Em as (? & ? & ? & Em)); try discriminate Em.
  injection Em as -> ->. eauto.
Qed.

End started.

Lemma catalog_supported t : t ∈ TOOL_CATALOG -> tool_name t ∈ MODE_A_SUPPORTED_TOOLS.
Proof.
  intros Ht. unfold TOOL_CATALOG in Ht. rewrite !elem_of_cons in Ht.
  destruct Ht as [-> | [-> | [-> | [-> | [-> | [-> | []%elem_of_nil]]]]]];
    apply (bool_decide_eq_true_1 (_ ∈ MODE_A_SUPPORTED_TOOLS)); by vm_compute.
Qed.

Lemma filterTools_elem names t :
  t ∈ filterTools TOOL_CATALOG (Some names) <-> t ∈ TOOL_CATALOG /\ (tool_name t ∈ names \/ names = []).
Proof.
  destruct names as [|n ns]; cbn [filterTools]; [intuition done|]. rewrite list_elem_of_filter.
  intuition done.
Qed.

Lemma modeA_exposure names t :
  t ∈ TOOL_CATALOG /\ (tool_name t ∈ modeA_tools MODE_A_SUPPORTED_TOOLS (Some names)
                       \/ modeA_tools MODE_A_SUPPORTED_TOOLS (Some names) = []) <->
  t ∈ TOOL_CATALOG /\ (tool_name t ∈ names \/ forall n, n ∈ names -> n ∉ MODE_A_SUPPORTED_TOOLS).
Proof.
  cbn [modeA_tools]. split; intros [Ht Hx]; (split; [done|]); destruct Hx as [Hx | Hx].
  - apply list_elem_of_filter in Hx. left. apply Hx.
  - right. intros n Hn Hs. apply (not_elem_of_nil n). rewrite <- Hx. by apply list_elem_of_filter.
  - left. apply list_elem_of_filter. split; [done|]. by apply catalog_supported.
  - right. destruct (filter _ _) as [|n l] eqn:E; [done|]. exfalso.
    assert (n ∈ filter (fun t => t ∈ names) MODE_A_SUPPORTED_TOOLS) as Hin by (rewrite E; by left).
    apply list_elem_of_filter in Hin as [Hn Hs]. by apply (Hx n).
Qed.

(** * Properties *)

(** C1: the whole program.  Whatever the environment variables, the gateway,
    the API and the file system answer, a server that the command line starts
    sends a message during a tool call only if that tool is one of its enabled
    write tools and the arguments ask for more than a draft with
    confirmed_by_user exactly [true]; a call sends at most once in Isolated
    mode and at most twice (a retry after a 401) in Standard mode; and no call
    makes the server throw. *)
Theorem program_confirmation_gate `{Host, WebCrypto, Env} (help : jstr) (arg : option jstr) (w w' : World)
    (s : StdioServer) (name : jstr) (arguments : jval) :
  run_main help arg w = (Ok (Serving s), w') ->
  let args := nullish_or arguments (JObj []) in
  let call := call_tool (sv_runtime s) (sv_tools s) name arguments in
  (forall w1, is_ok (call w1).1 = true) /\
  (~ ((exists t, t ∈ sv_tools s /\ tool_name t = name) /\
      (name = js "send_text_message" \/ name = js "reply_to_message") /\
      mode_of args <> JStr (js "draft") /\ jget args (js "confirmed_by_user") = JBool true) ->
   at_most (sending_event (sv_mode s)) 0 call) /\
  at_most (sending_event (sv_mode s)) (sending_bound (sv_mode s)) call.
Proof.
  intros Hm args call. destruct (run_main_serving _ _ _ _ _ Hm) as (w1 & w2 & Hs).
  destruct (runStdio_spec w1 s w2 Hs) as [Hc _]. by apply (call_tool_gate _ _ _ (sv_tools s) name arguments).
Qed.

(** A machine in Isolated mode with a read-only allowlist; the gateway answers
    every line with agent-1's identity, cut into two chunks. *)
Definition sidecar_env (allowlist : jstr) : Env := {|
  env_random := fun _ n => replicate n 1; env_keygen := fun _ _ => replicate 32 1; env_now := fun _ => 1780293600000;
  env_uuid := fun _ => js "id"; env_fetch := fun _ _ => Throw (Error_ (js "offline"));
  env_socket := fun _ _ _ => ([[123; 34] ++ js "result" ++ [34; 58; 123; 34] ++ js "ai";
                               js "d" ++ [34; 58; 34] ++ js "agent-1" ++ [34; 125; 125; 10]], Error_ []);
  env_transport := fun _ _ _ => Ok JUndef; env_fs_error := fun _ _ => None; env_pid := 1; env_home := js "/home/agent";
  env_var := fun v => if jeqb v (js "AGENT_INBOX_MCP_MODE") then Some (js " Gateway ")
                      else if jeqb v (js "AGENT_INBOX_MCP_TOOLS") then Some allowlist else None;
  env_url_pathname := fun _ => Ok (js "/")
|}.

Definition send_args (confirmation : jval) : jval :=
  JObj [(js "to", JStr (js "agent-2")); (js "subject", JStr (js "Hi")); (js "body_markdown", JStr (js "Hello"));
        (js "mode", JStr (js "send")); (js "confirmed_by_user", confirmation)].

(** Even a send that claims confirmation by the string "true" stays inside. *)
Example program_confirmation_gate_witness :
  let _ := plain_host in let _ := sidecar_env (js "send_text_message") in
  exists s w', run_main [] None empty_world = (Ok (Serving s), w') /\
    at_most (is_rpc (js "send_message")) 0
      (call_tool (sv_runtime s) (sv_tools s) (js "send_text_message") (send_args (JStr (js "true")))).
Proof.
  intros ho en.
  assert (match run_main [] None empty_world with
          | (Ok (Serving s), _) => sv_mode s = mode_a_gateway_daemon | _ => False end) as E by (vm_compute; reflexivity).
  destruct (run_main [] None empty_world) as [[[|s]|] w'] eqn:Er; [destruct E| |destruct E].
  exists s, w'. split; [reflexivity|].
  destruct (program_confirmation_gate [] None empty_world w' s (js "send_text_message") (send_args (JStr (js "true"))) Er)
    as (_ & Hg & _). rewrite E in Hg. apply Hg. intros (_ & _ & _ & Hc). discriminate Hc.
Defined.

(** C30: which tools a started server exposes, exactly.  Without an allowlist,
    the whole catalog.  With one, the catalog tools it names, except that an
    allowlist left with no name at all (in Isolated mode: with no name the
    mode supports, so also one with only misspelt names) is taken for no
    allowlist and exposes everything, the write tools included.  So an
    allowlist that names a tool and no write tool makes a server that cannot
    send, whatever it is asked. *)
Theorem allowlist_exposure `{Host, WebCrypto, Env} (help : jstr) (arg : option jstr) (w w' : World) (s : StdioServer) :
  run_main help arg w = (Ok (Serving s), w') ->
  match parseToolsAllowlist with
  | None => forall t, t ∈ sv_tools s <-> t ∈ TOOL_CATALOG
  | Some names =>
    (forall t, t ∈ sv_tools s <->
       t ∈ TOOL_CATALOG /\
       (tool_name t ∈ names \/
        match sv_mode s with
        | mode_b_saas_keystore => names = []
        | mode_a_gateway_daemon => forall n, n ∈ names -> n ∉ MODE_A_SUPPORTED_TOOLS
        end)) /\
    ((exists n, n ∈ names /\ n ∈ MODE_A_SUPPORTED_TOOLS) ->
     js "send_text_message" ∉ names -> js "reply_to_message" ∉ names ->
     forall name arguments, at_most (sending_event (sv_mode s)) 0 (call_tool (sv_runtime s) (sv_tools s) name arguments))
  end.
Proof.
  intros Hm. destruct (run_main_serving _ _ _ _ _ Hm) as (w1 & w2 & Hs).
  destruct (runStdio_spec w1 s w2 Hs) as [Hc Ht].
  destruct parseToolsAllowlist as [names|] eqn:Ea; cycle 1.
  { intros t. rewrite Ht. unfold enabled_names. rewrite Ea. destruct (sv_mode s); [|done].
    rewrite filterTools_elem. cbn [modeA_tools]. split; [by intros [? _]|]. intros Hin. split; [done|].
    left. by apply catalog_supported. }
  assert (forall t, t ∈ sv_tools s <-> t ∈ TOOL_CATALOG /\
       (tool_name t ∈ names \/
        match sv_mode s with
        | mode_b_saas_keystore => names = []
        | mode_a_gateway_daemon => forall n, n ∈ names -> n ∉ MODE_A_SUPPORTED_TOOLS
        end)) as Hexp.
  { intros t. rewrite Ht. unfold enabled_names. rewrite Ea. destruct (sv_mode s); rewrite filterTools_elem; [|done].
    apply modeA_exposure. }
  split; [done|]. intros (n & Hn & Hsup) Hns Hnr name arguments.
  destruct (call_tool_gate _ _ _ (sv_tools s) name arguments Hc) as (_ & Hg & _). apply Hg.
  intros ((t & Hin & <-) & Hw & _). apply Hexp in Hin as [_ [Hin | Hin]].
  - by destruct Hw as [E | E]; rewrite E in Hin.
  - revert Hin. destruct (sv_mode s); [intros Hin; by apply (Hin n)|]. intros ->. by apply elem_of_nil in Hn.
Qed.

(** A read-only sidecar cannot send, even on a confirmed request. *)
Example allowlist_exposure_witness :
  let _ := plain_host in let _ := sidecar_env (js "list_inbox, read_message") in
  exists s w', run_main [] None empty_world = (Ok (Serving s), w') /\
    at_most (is_rpc (js "send_message")) 0
      (call_tool (sv_runtime s) (sv_tools s) (js "send_text_message") (send_args (JBool true))).
Proof.
  intros ho en.
  assert (match run_main [] None empty_world with
          | (Ok (Serving s), _) => sv_mode s = mode_a_gateway_daemon | _ => False end) as E by (vm_compute; reflexivity).
  destruct (run_main [] None empty_world) as [[[|s]|] w'] eqn:Er; [destruct E| |destruct E].
  exists s, w'. split; [reflexivity|].
  pose proof (allowlist_exposure [] None empty_world w' s Er) as Hx.
  assert (parseToolsAllowlist = Some [js "list_inbox"; js "read_message"]) as Ea by (vm_compute; reflexivity).
  rewrite Ea, E in Hx. destruct Hx as [_ Hx]. apply Hx.
  - exists (js "list_inbox"). split; apply (bool_decide_eq_true_1 (_ ∈ _)); vm_compute; reflexivity.
  - apply (bool_decide_eq_true_1 (_ ∉ _)). vm_compute. reflexivity.
  - apply (bool_decide_eq_true_1 (_ ∉ _)). vm_compute. reflexivity.
Defined.

(** The fall-back at work: one misspelt name exposes all six tools. *)
Example misspelt_allowlist_exposes_all :
  let _ := plain_host in let _ := sidecar_env (js "read_mesage") in
  match run_main [] None empty_world with
  | (Ok (Serving s), _) => sv_tools s = TOOL_CATALOG
  | _ => False
  end.
Proof. by vm_compute. Qed.
