(* ===== verification/AutoReply.v ===== *)
(** The client-side auto-reply evaluator:
    apps/web/lib/protocol/autoReplyClientEvaluator.ts.

    The policy is untrusted JSON.  [permits] says declaratively when a policy
    lets an action go ahead; [evaluate_exact] proves the evaluator decides
    exactly that. *)
From S2P Require Import Prelude JsNumber Json A2A.

Inductive AutoReplyAction := queue_for_human | auto_accept | auto_decline | auto_accept_if_free | delegate_to_llm.

#[global] Instance auto_reply_eq_dec : EqDecision AutoReplyAction.
Proof. solve_decision. Defined.

Definition auto_action_name (a : AutoReplyAction) : jstr :=
  match a with
  | queue_for_human => js "queue_for_human" | auto_accept => js "auto_accept" | auto_decline => js "auto_decline"
  | auto_accept_if_free => js "auto_accept_if_free" | delegate_to_llm => js "delegate_to_llm"
  end.

(** The key of a protocol override. *)
Record ProtocolKey := Key { key_type : A2AProtocolType; key_action : jstr }.

Record EvaluationContext := EvalContext {
  masterAutoReplyEnabled : bool; priority : jstr; trustScore : jnum; senderDid : jstr; isContact : bool;
  ctx_protocol : option ProtocolKey
}.

Inductive EvaluatorMode := server_metadata_v1 | client_protocol_v1.

Record Decision := Decide {
  action : AutoReplyAction; reason : jstr; matchedRulePath : jstr; fallbackReason : option jstr;
  evaluatorMode : EvaluatorMode
}.

(** What an object literal used as a dictionary finds under a key of
    [Object.prototype]: a function or an object, whose text the host decides.
    [inherited_gt k k'] is [k's value > k''s value]. *)
Class ObjectPrototype := { inherited_gt : jstr -> jstr -> bool }.

Definition object_prototype_keys : list jstr :=
  [js "constructor"; js "__defineGetter__"; js "__defineSetter__"; js "hasOwnProperty"; js "__lookupGetter__";
   js "__lookupSetter__"; js "isPrototypeOf"; js "propertyIsEnumerable"; js "toString"; js "valueOf"; js "__proto__";
   js "toLocaleString"].

Inductive Rank := RankOf (n : Z) | InheritedRank (key : jstr).

Definition priorityRank (p : jstr) : option Rank :=
  if jeqb p (js "background") then Some (RankOf 0)
  else if jeqb p (js "low") then Some (RankOf 1)
  else if jeqb p (js "normal") then Some (RankOf 2)
  else if jeqb p (js "high") then Some (RankOf 3)
  else if bool_decide (p ∈ object_prototype_keys) then Some (InheritedRank p)
  else None.

(** [VALID_ACTIONS] as a function: [isValidAction] and the action it found. *)
Definition action_of (v : jval) : option AutoReplyAction :=
  List.find (fun a => jis v (auto_action_name a))
    [queue_for_human; auto_accept; auto_decline; auto_accept_if_free; delegate_to_llm].

Section evaluator.
Context `{ObjectPrototype}.

(** [msgRank > capRank]: a number against a function or object is [NaN]. *)
Definition rank_gtb (a b : Rank) : bool :=
  match a, b with
  | RankOf x, RankOf y => y <? x
  | InheritedRank k, InheritedRank k' => inherited_gt k k'
  | _, _ => false
  end.

Definition queue (reason matchedRulePath : jstr) (fallbackReason : option jstr) : Decision :=
  Decide queue_for_human reason matchedRulePath fallbackReason client_protocol_v1.

(** The four checks of [resolveConditionViolation], each with its reason. *)
Definition priority_check (obj : jval) (ctx : EvaluationContext) : option jstr :=
  match jget obj (js "priority_at_most") with
  | JStr pam =>
    match priorityRank (priority ctx), priorityRank pam with
    | Some msgRank, Some capRank => if rank_gtb msgRank capRank then Some (js "priority_exceeds_policy") else None
    | _, _ => Some (js "invalid_policy")
    end
  | _ => None
  end.

Definition trust_check (obj : jval) (ctx : EvaluationContext) : option jstr :=
  match jget obj (js "min_trust_score") with
  | JNum mts => if num_ltb (trustScore ctx) mts then Some (js "trust_below_threshold") else None
  | _ => None
  end.

Definition contact_check (obj : jval) (ctx : EvaluationContext) : option jstr :=
  match jget obj (js "require_contact") with
  | JBool true => if negb (isContact ctx) then Some (js "not_a_contact") else None
  | _ => None
  end.

Definition allowlist_check (obj : jval) (ctx : EvaluationContext) : option jstr :=
  match jget obj (js "sender_in_allowlist") with
  | JArr sia => if existsb (fun v => jis v (senderDid ctx)) sia then None else Some (js "sender_not_in_allowlist")
  | _ => None
  end.

(** The first check that fails, in this order. *)
Definition resolveConditionViolation (conditions : jval) (ctx : EvaluationContext) : option jstr :=
  if negb (is_object conditions) then None
  else
    match priority_check conditions ctx with
    | Some v => Some v
    | None =>
      match trust_check conditions ctx with
      | Some v => Some v
      | None =>
        match contact_check conditions ctx with
        | Some v => Some v
        | None => allowlist_check conditions ctx
        end
      end
    end.

Definition finaliseActionOrFallback (a : AutoReplyAction) (path : jstr) : Decision :=
  match a with
  | delegate_to_llm => queue (js "llm_unavailable") path (Some (js "llm_unavailable"))
  | _ =>
    Decide a (if jeqb path (js "default") then js "default_match" else js "protocol_override_match") path None
      client_protocol_v1
  end.

(** The override [protocols.<type>.<action>] with a valid action, if any. *)
Definition override_of (policy : jval) (k : ProtocolKey) : option (AutoReplyAction * jval) :=
  let protocols := jget policy (js "protocols") in
  if negb (is_object protocols) then None
  else
    let typeBlock := jget protocols (type_name (key_type k)) in
    if negb (is_object typeBlock) then None
    else
      let actionBlock := jget typeBlock (key_action k) in
      if negb (is_object actionBlock) then None
      else
        match action_of (jget actionBlock (js "action")) with
        | Some a => Some (a, jget actionBlock (js "conditions"))
        | None => None
        end.

Definition is_empty_object (v : jval) : bool := match v with JObj [] | JArr [] => true | _ => false end.

Definition evaluateAutoReplyPolicyClient (policy : jval) (ctx : EvaluationContext) : Decision :=
  if negb (masterAutoReplyEnabled ctx) then
    Decide queue_for_human (js "master_off") (js "master") None client_protocol_v1
  else if negb (is_object policy) || is_empty_object policy then queue (js "no_policy") (js "default") None
  else if negb (match jget policy (js "v") with JNum n => num_eqb n (num 1) | _ => false end) then
    queue (js "unsupported_schema") (js "default") None
  else
    match action_of (jget policy (js "default_action")) with
    | None => queue (js "no_policy") (js "default") None
    | Some default_action =>
      let '(chosenAction, matchedRulePath, conditions, isProtocolOverride) :=
        match ctx_protocol ctx with
        | Some k =>
          match override_of policy k with
          | Some (a, conds) =>
            (a, js "protocols." ++ type_name (key_type k) ++ js "." ++ key_action k, conds, true)
          | None => (default_action, js "default", jget policy (js "default_conditions"), false)
          end
        | None => (default_action, js "default", jget policy (js "default_conditions"), false)
        end in
      match resolveConditionViolation conditions ctx with
      | Some violation => queue violation matchedRulePath None
      | None =>
        let decision := finaliseActionOrFallback chosenAction matchedRulePath in
        if isProtocolOverride && negb (bool_decide (action decision = queue_for_human))
           && jeqb (reason decision) (js "default_match")
        then Decide (action decision) (js "protocol_override_match") matchedRulePath (fallbackReason decision)
               (evaluatorMode decision)
        else decision
      end
    end.

(** [server] is the cached decision's action and reason. *)
Definition mergeDecisions (server : option (AutoReplyAction * jstr)) (client : Decision) : Decision :=
  match server with
  | Some (_, r) =>
    if jeqb r (js "master_off") then
      Decide queue_for_human (js "master_off") (js "master") None (evaluatorMode client)
    else client
  | None => client
  end.

(** * Specification *)

(** A condition object is satisfied; anything that is not an object asks for
    nothing. *)
Definition satisfied (conditions : jval) (ctx : EvaluationContext) : Prop :=
  is_object conditions = true ->
  (forall cap, jget conditions (js "priority_at_most") = JStr cap ->
     exists m c, priorityRank (priority ctx) = Some m /\ priorityRank cap = Some c /\ rank_gtb m c = false) /\
  (forall t, jget conditions (js "min_trust_score") = JNum t -> num_ltb (trustScore ctx) t = false) /\
  (jget conditions (js "require_contact") = JBool true -> isContact ctx = true) /\
  (forall l, jget conditions (js "sender_in_allowlist") = JArr l -> JStr (senderDid ctx) ∈ l).

(** The rule that applies: the override of the message's protocol, which
    replaces the default conditions entirely, or the default. *)
Definition rule_of (policy : jval) (ctx : EvaluationContext) : option (AutoReplyAction * jval) :=
  match action_of (jget policy (js "default_action")) with
  | None => None
  | Some d =>
    match ctx_protocol ctx ≫= override_of policy with
    | Some r => Some r
    | None => Some (d, jget policy (js "default_conditions"))
    end
  end.

Definition policy_v1 (policy : jval) : Prop :=
  exists n, jget policy (js "v") = JNum n /\ num_eqb n (num 1) = true.

(** The policy lets [a] go ahead without a human. *)
Definition permits (policy : jval) (ctx : EvaluationContext) (a : AutoReplyAction) : Prop :=
  masterAutoReplyEnabled ctx = true /\ policy_v1 policy /\
  exists conditions, rule_of policy ctx = Some (a, conditions) /\ satisfied conditions ctx.

(** * Lemmas *)

Lemma allowlist_spec l s : existsb (fun v => jis v s) l = true <-> JStr s ∈ l.
Proof.
  rewrite existsb_exists. split.
  - intros (v & Hv & E%jis_true). subst v. by apply list_elem_of_In.
  - intros Hv. exists (JStr s). split; [by apply list_elem_of_In|]. simpl. apply jeqb_refl.
Qed.

Lemma priority_check_spec obj ctx :
  priority_check obj ctx = None <->
  forall cap, jget obj (js "priority_at_most") = JStr cap ->
    exists m c, priorityRank (priority ctx) = Some m /\ priorityRank cap = Some c /\ rank_gtb m c = false.
Proof.
  unfold priority_check. destruct (jget obj (js "priority_at_most")) as [| | | |pam| |]; try by split.
  split.
  - intros Hp cap [= <-]. destruct (priorityRank (priority ctx)) as [m|]; [|done].
    destruct (priorityRank pam) as [c|]; [|done]. exists m, c. by destruct (rank_gtb m c).
  - intros Hp. by destruct (Hp pam eq_refl) as (m & c & -> & -> & ->).
Qed.

Lemma trust_check_spec obj ctx :
  trust_check obj ctx = None <->
  forall t, jget obj (js "min_trust_score") = JNum t -> num_ltb (trustScore ctx) t = false.
Proof.
  unfold trust_check. destruct (jget obj (js "min_trust_score")) as [| | |t| | |]; try by split.
  split; [intros Ht t' [= <-]; by destruct (num_ltb _ _)|]. intros Ht. by rewrite (Ht t eq_refl).
Qed.

Lemma contact_check_spec obj ctx :
  contact_check obj ctx = None <-> (jget obj (js "require_contact") = JBool true -> isContact ctx = true).
Proof.
  unfold contact_check. destruct (jget obj (js "require_contact")) as [| |[]| | | |]; try by split.
  destruct (isContact ctx); cbn [negb]; split; try done. by intros Hc; specialize (Hc eq_refl).
Qed.

Lemma allowlist_check_spec obj ctx :
  allowlist_check obj ctx = None <->
  forall l, jget obj (js "sender_in_allowlist") = JArr l -> JStr (senderDid ctx) ∈ l.
Proof.
  unfold allowlist_check. destruct (jget obj (js "sender_in_allowlist")) as [| | | | |l|]; try by split.
  split.
  - intros Hl l' [= <-]. destruct (existsb _ _) eqn:E; [by apply allowlist_spec|done].
  - intros Hl. by rewrite (proj2 (allowlist_spec _ _) (Hl l eq_refl)).
Qed.

Lemma violation_spec conditions ctx : resolveConditionViolation conditions ctx = None <-> satisfied conditions ctx.
Proof.
  unfold resolveConditionViolation, satisfied. destruct (is_object conditions); cbn [negb]; [|by split].
  rewrite <- priority_check_spec, <- trust_check_spec, <- contact_check_spec, <- allowlist_check_spec.
  destruct (priority_check conditions ctx), (trust_check conditions ctx), (contact_check conditions ctx);
    intuition done.
Qed.

(** The path of an override is never "default". *)
Lemma override_path_ne t (a : jstr) : jeqb (js "protocols." ++ t ++ js "." ++ a) (js "default") = false.
Proof. by apply jeqb_false. Qed.

(** The decision for a policy of version 1 with a rule. *)
Lemma evaluate_rule policy ctx a conditions :
  masterAutoReplyEnabled ctx = true -> policy_v1 policy -> rule_of policy ctx = Some (a, conditions) ->
  exists path, evaluateAutoReplyPolicyClient policy ctx =
    match resolveConditionViolation conditions ctx with
    | Some violation => queue violation path None
    | None => finaliseActionOrFallback a path
    end.
Proof.
  intros Hm (n & Hv & Hn) Hr. unfold evaluateAutoReplyPolicyClient. rewrite Hm, Hv, Hn. cbn [negb].
  assert (negb (is_object policy) || is_empty_object policy = false) as ->.
  { destruct policy as [| | | | |[]|[]]; try done. }
  unfold rule_of in Hr. destruct (action_of _) as [d|]; [|done].
  destruct (ctx_protocol ctx) as [k|]; cbn [mbind option_bind] in Hr;
    [destruct (override_of policy k) as [[a' c']|]|]; injection Hr as <- <-.
  - eexists. destruct (resolveConditionViolation c' ctx); [reflexivity|].
    destruct a'; cbn [finaliseActionOrFallback action reason queue]; rewrite ?override_path_ne;
      cbn [andb negb bool_decide]; try reflexivity.
  - exists (js "default"). by destruct (resolveConditionViolation _ ctx).
  - exists (js "default"). by destruct (resolveConditionViolation _ ctx).
Qed.

Lemma finalise_action a path :
  action (finaliseActionOrFallback a path) = if decide (a = delegate_to_llm) then queue_for_human else a.
Proof. by destruct a. Qed.

(** Without a rule the decision is to queue. *)
Lemma evaluate_no_rule policy ctx :
  action (evaluateAutoReplyPolicyClient policy ctx) <> queue_for_human ->
  masterAutoReplyEnabled ctx = true /\ policy_v1 policy /\ exists r, rule_of policy ctx = Some r.
Proof.
  unfold evaluateAutoReplyPolicyClient. destruct (masterAutoReplyEnabled ctx); cbn [negb]; [|done].
  destruct (negb (is_object policy) || is_empty_object policy); [done|].
  destruct (jget policy (js "v")) as [| | |n| | |] eqn:Ev; try done.
  destruct (num_eqb n (num 1)) eqn:En; cbn [negb]; [|done].
  unfold rule_of. destruct (action_of (jget policy (js "default_action"))) as [d|]; [|done].
  intros _. split; [done|]. split; [by exists n|]. destruct (ctx_protocol ctx ≫= override_of policy); eauto.
Qed.

Lemma evaluate_permits policy ctx a :
  a <> queue_for_human -> a <> delegate_to_llm ->
  action (evaluateAutoReplyPolicyClient policy ctx) = a <-> permits policy ctx a.
Proof.
  intros Hq Hd. split.
  - intros Ha. destruct (evaluate_no_rule policy ctx) as (Hm & Hv & [b conds] & Hr); [congruence|].
    split; [done|]. split; [done|]. exists conds.
    destruct (evaluate_rule policy ctx b conds Hm Hv Hr) as [path E]. rewrite E in Ha.
    destruct (resolveConditionViolation conds ctx) eqn:Ec; [by cbn in Ha|].
    split; [|by apply violation_spec]. rewrite finalise_action in Ha. case_decide; congruence.
  - intros (Hm & Hv & conds & Hr & Hs). destruct (evaluate_rule policy ctx a conds Hm Hv Hr) as [path ->].
    apply violation_spec in Hs as ->. rewrite finalise_action. by rewrite decide_False.
Qed.

(** The merged decision. *)
Lemma merged_permits (policy : jval) (ctx : EvaluationContext) (server : option (AutoReplyAction * jstr)) :
  let d := mergeDecisions server (evaluateAutoReplyPolicyClient policy ctx) in
  action d <> delegate_to_llm /\
  forall a, a = auto_accept \/ a = auto_decline \/ a = auto_accept_if_free ->
    (action d = a <->
     (forall a' r, server = Some (a', r) -> r <> js "master_off") /\ permits policy ctx a).
Proof.
  assert (action (evaluateAutoReplyPolicyClient policy ctx) <> delegate_to_llm) as Hnd.
  { intros E. destruct (evaluate_no_rule policy ctx) as (Hm & Hv & [b conds] & Hr); [congruence|].
    destruct (evaluate_rule policy ctx b conds Hm Hv Hr) as [path E']. rewrite E' in E.
    destruct (resolveConditionViolation conds ctx); [done|]. rewrite finalise_action in E. by case_decide. }
  intros d. subst d. unfold mergeDecisions. destruct server as [[sa r]|]; [destruct (jeqb_spec r (js "master_off")) as [-> |Hr]|].
  - split; [done|]. intros a Ha. split; [cbn; intros <-; by destruct Ha as [|[|]]|].
    intros [Hs _]. by destruct (Hs sa (js "master_off")).
  - split; [done|]. intros a Ha. rewrite evaluate_permits by (destruct Ha as [|[|]]; congruence).
    split; [intros Hp; split; [by intros a' r' [= <- <-]|done]|by intros [_ Hp]].
  - split; [done|]. intros a Ha. rewrite evaluate_permits by (destruct Ha as [|[|]]; congruence).
    split; [by intros Hp|by intros [_ Hp]].
Qed.

(** * Properties *)


(** A priority that names a member of [Object.prototype] passes any numeric
    cap; an unknown one does not. *)
Lemma inherited_priority_passes_cap :
  let policy := JObj [(js "v", JNum (num 1)); (js "default_action", JStr (js "auto_accept"));
                      (js "default_conditions", JObj [(js "priority_at_most", JStr (js "background"))])] in
  let ctx p := EvalContext true p (num 0) (js "did:key:z1") false None in
  action (evaluateAutoReplyPolicyClient policy (ctx (js "constructor"))) = auto_accept /\
  action (evaluateAutoReplyPolicyClient policy (ctx (js "urgent"))) = queue_for_human.
Proof. split; vm_compute; reflexivity. Qed.

End evaluator.
