(* ===== verification/A2AReply.v ===== *)
(** Replies to protocol messages: apps/web/lib/protocol/a2aReply.ts.

    [reply] is the union [A2ARespondPayload]: an action and the members that
    are present.  The payloads that are built meet the protocol specification
    of A2A ([valid_payload]). *)
From S2P Require Import Prelude Utf8 JsNumber Json JsDate A2A Effect Node.

Inductive ReplyAction := RAccept | RDecline | RCounter | RComplete.

Definition reply_action (a : ReplyAction) : A2AProtocolAction :=
  match a with RAccept => accept | RDecline => decline | RCounter => counter | RComplete => complete end.

(** [None]: the member is absent (or [undefined], for the optional texts). *)
Record A2ARespondPayload := Reply {
  rp_action : ReplyAction;
  selected_candidate : option jval;
  rp_candidates : option (list jval);
  rp_reason : option jstr;
  rp_note : option jstr;
  rp_result : option jstr
}.

Definition opt_member (k : jstr) (v : option jstr) : list (jstr * jval) :=
  match v with Some s => [(k, JStr s)] | None => [] end.

(** [{ start: c.start, end: c.end }]. *)
Definition copy_candidate (c : jval) : res jval :=
  start ← jprop c (js "start");
  Ok (JObj [(js "start", start); (js "end", jget c (js "end"))]).

Fixpoint copy_candidates (l : list jval) : res (list jval) :=
  match l with
  | [] => Ok []
  | c :: r => c' ← copy_candidate c; r' ← copy_candidates r; Ok (c' :: r')
  end.

Definition buildScheduleReplyPayload (reply : A2ARespondPayload) : res jval :=
  match rp_action reply with
  | RAccept =>
    match selected_candidate reply with
    | None => Throw (Error_ (js "schedule_negotiation accept reply requires selected_candidate"))
    | Some c => c' ← copy_candidate c; Ok (JObj [(js "selected_candidate", c')])
    end
  | RDecline => Ok (JObj (opt_member (js "reason") (rp_reason reply)))
  | RCounter =>
    match rp_candidates reply with
    | None => Throw (Error_ (js "schedule_negotiation counter reply requires candidates"))
    | Some l => l' ← copy_candidates l; Ok (JObj ((js "candidates", JArr l') :: opt_member (js "reason") (rp_reason reply)))
    end
  | RComplete => Throw (Error_ (js "schedule_negotiation has no `complete` action — use task_delegation"))
  end.

Definition buildTaskReplyPayload (reply : A2ARespondPayload) : res jval :=
  match rp_action reply with
  | RAccept => Ok (JObj (opt_member (js "note") (rp_note reply)))
  | RDecline => Ok (JObj (opt_member (js "reason") (rp_reason reply)))
  | RComplete => Ok (JObj (opt_member (js "result") (rp_result reply)))
  | RCounter => Throw (Error_ (js "task_delegation has no `counter` action"))
  end.

Definition buildReplyPayload (protocolType : A2AProtocolType) (reply : A2ARespondPayload) : res jval :=
  match protocolType with
  | schedule_negotiation => buildScheduleReplyPayload reply
  | task_delegation => buildTaskReplyPayload reply
  end.

Section host.
Context `{Host}.

(** [now] is [Date.now()]; the payload has not been validated. *)
Definition canRespondToProtocol (folder : jstr) (protocol : A2AProtocolBlock) (now : Z) : bool :=
  if jeqb folder (js "sent") then false
  else
    match block_type protocol with
    | schedule_negotiation =>
      if negb (bool_decide (block_action protocol = propose)) then false
      else
        let deadline := jget (block_payload protocol) (js "response_deadline") in
        negb (isProposeExpired (if jtruthy deadline then Some (js_string deadline) else None) now)
    | task_delegation => bool_decide (block_action protocol = delegate)
    end.

(** A reply whose members the protocol allows for the type. *)
Definition reply_ok (t : A2AProtocolType) (r : A2ARespondPayload) : Prop :=
  match t, rp_action r with
  | schedule_negotiation, RAccept => exists c, selected_candidate r = Some c /\ valid_candidate c
  | schedule_negotiation, RCounter => exists l, rp_candidates r = Some l /\ (1 <= length l <= 20)%nat /\ Forall valid_candidate l
  | _, RDecline => True
  | task_delegation, RAccept => forall n, rp_note r = Some n -> (length n <= 2000)%nat
  | task_delegation, RComplete => forall n, rp_result r = Some n -> (length n <= 4000)%nat
  | _, _ => False
  end.

(** ** Lemmas *)

Lemma copy_candidate_spec c : valid_candidate c ->
  exists c', copy_candidate c = Ok c' /\ valid_candidate c' /\
    jget c' (js "start") = jget c (js "start") /\ jget c' (js "end") = jget c (js "end").
Proof.
  intros (s & e & a & b & Hs & He & Is & Ie & Ds & De & Hab). unfold copy_candidate.
  assert (jprop c (js "start") = Ok (JStr s)) as ->.
  { apply jprop_ok. split_and!; [by intros ->|by intros ->|done]. }
  mred. eexists. split; [reflexivity|]. rewrite Hs, He.
  assert (jget (JObj [(js "start", JStr s); (js "end", JStr e)]) (js "start") = JStr s) as Es by reflexivity.
  assert (jget (JObj [(js "start", JStr s); (js "end", JStr e)]) (js "end") = JStr e) as Ee by reflexivity.
  split_and!; [|done..]. by exists s, e, a, b.
Qed.

Lemma copy_candidates_spec l : Forall valid_candidate l ->
  exists l', copy_candidates l = Ok l' /\ length l' = length l /\ Forall valid_candidate l'.
Proof.
  induction 1 as [|c l Hc _ IH]; [by exists []|].
  destruct (copy_candidate_spec c Hc) as (c' & Ec & Hc' & _). destruct IH as (l' & El & Hl & Hf).
  exists (c' :: l'). cbn [copy_candidates]. rewrite Ec. mred. rewrite El. mred. cbn [length].
  split_and!; [done|congruence|by constructor].
Qed.

Lemma opt_member_get k v : jget (JObj (opt_member k v)) k = match v with Some s => JStr s | None => JUndef end.
Proof. destruct v as [s|]; cbn; [|done]. by rewrite jeqb_refl. Qed.

(** The accept, decline and complete payloads of a task. *)
Lemma task_member_ok n k (v : option jstr) :
  (forall s, v = Some s -> (length s <= n)%nat) -> optional (string_upto n) (jget (JObj (opt_member k v)) k).
Proof.
  intros Hv. rewrite opt_member_get. destruct v as [s|]; [right; exists s; split; [done|by apply Hv]|by left].
Qed.

Lemma reason_member_ok (l : list (jstr * jval)) v :
  l = opt_member (js "reason") v -> optional a_string (jget (JObj l) (js "reason")).
Proof. intros ->. rewrite opt_member_get. destruct v as [s|]; [right; by exists s|by left]. Qed.

Lemma reply_payload_spec (t : A2AProtocolType) (r : A2ARespondPayload) :
  (reply_ok t r ->
   exists p, buildReplyPayload t r = Ok p /\ valid_payload t (reply_action (rp_action r)) p /\
     (t = schedule_negotiation -> rp_action r = RAccept ->
      exists c, selected_candidate r = Some c /\
        jget (jget p (js "selected_candidate")) (js "start") = jget c (js "start") /\
        jget (jget p (js "selected_candidate")) (js "end") = jget c (js "end"))) /\
  (match t, rp_action r with
   | schedule_negotiation, RComplete | task_delegation, RCounter => True
   | schedule_negotiation, RAccept => selected_candidate r = None
   | schedule_negotiation, RCounter => rp_candidates r = None
   | _, _ => False
   end -> exists e, buildReplyPayload t r = Throw e).
Proof.
  unfold reply_ok, buildReplyPayload, buildScheduleReplyPayload, buildTaskReplyPayload.
  destruct r as [a sc cs rs nt rl]. cbn [rp_action selected_candidate rp_candidates rp_reason rp_note rp_result].
  destruct t, a; cbn [reply_action]; (split; [intros Hr; try done|intros Hr; subst; try done; by eexists]).
  - destruct Hr as (c & -> & Hc). destruct (copy_candidate_spec c Hc) as (c' & -> & Hc' & Hs & He).
    mred. eexists. split; [reflexivity|].
    assert (jget (JObj [(js "selected_candidate", c')]) (js "selected_candidate") = c') as E by reflexivity.
    cbn [valid_payload]. rewrite E. split; [done|]. intros _ _. by exists c.
  - eexists. split; [reflexivity|]. split; [by eapply reason_member_ok|done].
  - destruct Hr as (l & -> & Hl & Hf). destruct (copy_candidates_spec l Hf) as (l' & -> & Hl' & Hf'). mred.
    eexists. split; [reflexivity|]. split; [|done]. cbn [valid_payload]. split.
    + exists l'. split; [reflexivity|]. split; [lia|done].
    + change (jget (JObj ((js "candidates", JArr l') :: opt_member (js "reason") rs)) (js "reason"))
        with (jget (JObj (opt_member (js "reason") rs)) (js "reason")). by eapply reason_member_ok.
  - eexists. split; [reflexivity|]. split; [by apply task_member_ok|done].
  - eexists. split; [reflexivity|]. split; [by eapply reason_member_ok|done].
  - eexists. split; [reflexivity|]. split; [by apply task_member_ok|done].
Qed.

(** The payload of a reply is an object. *)
Lemma reply_payload_object t r p : buildReplyPayload t r = Ok p -> is_object p = true.
Proof.
  unfold buildReplyPayload, buildScheduleReplyPayload, buildTaskReplyPayload.
  destruct t, (rp_action r); try done; try by intros [= <-].
  - destruct (selected_candidate r) as [c|]; [|done]. destruct (copy_candidate c); [|done]. by intros [= <-].
  - destruct (rp_candidates r) as [l|]; [|done]. destruct (copy_candidates l); [|done]. by intros [= <-].
Qed.

Lemma reply_action_type t r p :
  buildReplyPayload t r = Ok p -> action_of_type t (reply_action (rp_action r)) = true.
Proof.
  unfold buildReplyPayload, buildScheduleReplyPayload, buildTaskReplyPayload. by destruct t, (rp_action r).
Qed.

(** A reply that is built meets the protocol.  For a reply whose members
    the protocol allows, building succeeds and the payload passes the
    protocol's specification for the reply's action, echoing the selected
    candidate's exact start and end; a reply that does not fit its type (a
    schedule complete, a task counter, an accept with no candidate, a counter
    with no list) is an error. *)
Theorem reply_payload_valid (t : A2AProtocolType) (r : A2ARespondPayload) :
  (reply_ok t r ->
   exists p, buildReplyPayload t r = Ok p /\ valid_payload t (reply_action (rp_action r)) p /\
     (t = schedule_negotiation -> rp_action r = RAccept ->
      exists c, selected_candidate r = Some c /\
        jget (jget p (js "selected_candidate")) (js "start") = jget c (js "start") /\
        jget (jget p (js "selected_candidate")) (js "end") = jget c (js "end"))) /\
  (match t, rp_action r with
   | schedule_negotiation, RComplete | task_delegation, RCounter => True
   | schedule_negotiation, RAccept => selected_candidate r = None
   | schedule_negotiation, RCounter => rp_candidates r = None
   | _, _ => False
   end -> exists e, buildReplyPayload t r = Throw e).
Proof. apply reply_payload_spec. Qed.


End host.
