(* ===== verification/Executor.v ===== *)
(** The auto-reply executor: apps/web/lib/protocol/autoReplyExecutor.ts.

    The collaborators the caller injects are the class [Collaborators]: each
    answers as a function of the trace so far, and may throw.  The state of a
    run is the trace of what the executor asked for ([XEvent], newest first).
    The caller's [onProgress] and [isContact] do not throw. *)
From S2P Require Import Prelude Utf8 JsNumber Json JsDate A2A Effect Node AutoReply A2AReply.

Definition AUTO_REPLY_ORIGIN_CLIENT : jstr := js "client_protocol_v1".
Definition DEFAULT_DECLINE_REASON : jstr := js "ポリシーに基づき自動で辞退しました".

(** The columns of [MessageIndexEntry] the executor reads. *)
Record MessageIndexEntry := IndexEntry {
  m_id : jstr; m_sender_did : jstr; m_thread_id : option jstr; m_priority : jstr; m_trust_score : jnum;
  auto_reply_decision : option AutoReplyAction; auto_reply_reason : option jstr; auto_reply_sent_at : option jstr
}.

Record MessageContent := Content { mc_content_type : option jstr; mc_encrypted_content : jstr; mc_encrypted_key : jstr }.

Record ProtocolReplyInput := ReplyInput {
  ri_protocolType : A2AProtocolType; ri_reply : A2ARespondPayload; ri_threadId : jstr; ri_originalProtocolId : jstr;
  ri_subject : jstr; ri_bodySummary : jstr; ri_viewerAgentDid : jstr; ri_proposerDid : jstr; ri_autoReplyOrigin : jstr
}.

Inductive ExecutorEvent :=
| Skipped (messageId reason : jstr)
| SentReply (messageId : jstr) (action : AutoReplyAction)
| Failed (messageId : jstr) (error : jserror).

Inductive XEvent :=
| XContent (id : jstr)
| XDecrypt (ciphertext encryptedKey recipientDid : jstr)
| XFreebusy (candidates : jval)
| XSend (input : ProtocolReplyInput)
| XMark (id : jstr) (replyMessageId : option jstr)
| XProgress (event : ExecutorEvent).

Class Collaborators := {
  getMessageContent : list XEvent -> jstr -> res MessageContent;
  decrypt : list XEvent -> jstr -> jstr -> jstr -> res jstr;
  (** [None] when the user has not connected a calendar; the answer is a
      candidate or something falsy. *)
  calendarFreebusy : option (list XEvent -> jval -> res jval);
  (** The result, and the id handed to [replyMessageIdSink]. *)
  sendProtocolReply : list XEvent -> ProtocolReplyInput -> res unit * option jstr;
  markAutoReplySent : list XEvent -> jstr -> option jstr -> res unit;
  is_contact : jstr -> bool
}.

#[global] Instance xtrace : Traced (list XEvent) XEvent := fun t => t.

Abbreviation X := (eff (list XEvent)).

Section executor.
Context `{ObjectPrototype, Collaborators}.

Definition xask {A} (e : XEvent) (answer : list XEvent -> res A) : X A := fun t => (answer t, e :: t).
Definition progress (e : ExecutorEvent) : X unit := fun t => (Ok tt, XProgress e :: t).

Definition get_content (id : jstr) : X MessageContent := xask (XContent id) (fun t => getMessageContent t id).
Definition decrypt_content (c k d : jstr) : X jstr := xask (XDecrypt c k d) (fun t => decrypt t c k d).
Definition mark_sent (id : jstr) (reply : option jstr) : X unit :=
  xask (XMark id reply) (fun t => markAutoReplySent t id reply).
Definition mark_quietly (id : jstr) : X unit := try_catch (mark_sent id None) (fun _ => mret tt).

(** Returns the reply's message id, if the sink was called. *)
Definition send_reply (input : ProtocolReplyInput) : X (option jstr) :=
  xask (XSend input) (fun t => match sendProtocolReply t input with
                               | (Ok _, id) => Ok id
                               | (Throw e, _) => Throw e
                               end).

Record ExecutorInput := RunInput {
  viewerAgentDid : jstr; viewerHasSigningKey : bool; policy : jval; master : bool
}.

Definition eligible (m : MessageIndexEntry) : bool :=
  match auto_reply_decision m with
  | None => false
  | Some d =>
    if truthy_ostr (auto_reply_sent_at m) then false
    else
      match d with
      | auto_accept | auto_decline => true
      | queue_for_human =>
        match auto_reply_reason m with Some r => jeqb r (js "calendar_unavailable") | None => false end
      | _ => false
      end
  end.

Definition eligibleMessages (messages : list MessageIndexEntry) : list MessageIndexEntry :=
  List.filter eligible messages.

(** [v[0]] for a value read from JSON. *)
Definition first_of (v : jval) : res jval :=
  match v with
  | JUndef | JNull => Throw (TypeError_ (js "Cannot read properties of undefined"))
  | JArr (x :: _) => Ok x
  | JStr (c :: _) => Ok (JStr [c])
  | JObj o => Ok (jget v (js "0"))
  | _ => Ok JUndef
  end.

Definition pickScheduleCandidate (payload : jval) : res jval :=
  candidates ← jprop payload (js "candidates");
  first ← first_of candidates;
  Ok (match first with JUndef => JNull | x => x end).

Definition decline_reply : A2ARespondPayload := Reply RDecline None None (Some DEFAULT_DECLINE_REASON) None None.

(** [accepts] is [action === "auto_accept"]; [None] is the code's [null]. *)
Definition scheduleReplyPayload (accepts : bool) (payload : jval) (explicitCandidate : option jval)
    : res (option A2ARespondPayload) :=
  if negb accepts then Ok (Some decline_reply)
  else
    candidate ← match explicitCandidate with
                | Some c => Ok c
                | None => if jtruthy payload then pickScheduleCandidate payload else Ok JNull
                end;
    Ok (if jtruthy candidate then Some (Reply RAccept (Some candidate) None None None None) else None).

Definition taskReplyPayload (accepts : bool) : A2ARespondPayload :=
  if accepts then Reply RAccept None None None None None else decline_reply.

(** The calendar step: the candidate to accept, or [None] when the entry is
    done with. *)
Definition resolve_calendar (entry : MessageIndexEntry) (block : A2AProtocolBlock) : X (option jval) :=
  match block_type block with
  | task_delegation =>
    progress (Skipped (m_id entry) (js "calendar_wrong_protocol")) ;; mark_quietly (m_id entry) ;; mret None
  | schedule_negotiation =>
    match calendarFreebusy with
    | None => progress (Skipped (m_id entry) (js "calendar_unavailable")) ;; mark_quietly (m_id entry) ;; mret None
    | Some freebusy =>
      let candidates := match jget (block_payload block) (js "candidates") with JUndef | JNull => JArr [] | c => c end in
      try_catch
        (free ← xask (XFreebusy candidates) (fun t => freebusy t candidates);
         if negb (jtruthy free) then
           progress (Skipped (m_id entry) (js "calendar_all_busy")) ;; mark_quietly (m_id entry) ;; mret None
         else mret (Some (JObj [(js "start", jget free (js "start")); (js "end", jget free (js "end"))])))
        (fun _ => progress (Skipped (m_id entry) (js "calendar_api_error")) ;; mret None)
    end
  end.

(** What is sent for an entry and the block it carried. *)
Definition reply_input (input : ExecutorInput) (entry : MessageIndexEntry) (block : A2AProtocolBlock)
    (reply : A2ARespondPayload) : ProtocolReplyInput :=
  ReplyInput (block_type block) reply (default (m_id entry) (m_thread_id entry)) (block_id block)
    (js "Re: (auto-reply)") [] (viewerAgentDid input) (m_sender_did entry) AUTO_REPLY_ORIGIN_CLIENT.

(** From the resolved action ([auto_accept] or [auto_decline]) to the mark. *)
Definition dispatch_reply (input : ExecutorInput) (entry : MessageIndexEntry) (block : A2AProtocolBlock)
    (resolved : AutoReplyAction) (candidate : option jval) : X unit :=
  let accepts := bool_decide (resolved = auto_accept) in
  replyPayload ← lift (match block_type block with
                       | schedule_negotiation => scheduleReplyPayload accepts (block_payload block) candidate
                       | task_delegation => Ok (Some (taskReplyPayload accepts))
                       end);
  match replyPayload with
  | None => progress (Skipped (m_id entry) (js "reply_payload_unavailable"))
  | Some reply =>
    replyMessageId ← send_reply (reply_input input entry block reply);
    mark_sent (m_id entry) replyMessageId ;;
    progress (SentReply (m_id entry) resolved)
  end.

Definition entry_context (input : ExecutorInput) (entry : MessageIndexEntry) (block : A2AProtocolBlock)
    : EvaluationContext :=
  EvalContext (master input) (m_priority entry) (m_trust_score entry) (m_sender_did entry)
    (is_contact (m_sender_did entry)) (Some (Key (block_type block) (action_name (block_action block)))).

Definition server_decision (entry : MessageIndexEntry) : option (AutoReplyAction * jstr) :=
  match auto_reply_decision entry, auto_reply_reason entry with
  | Some d, Some r => if truthy_str r then Some (d, r) else None
  | _, _ => None
  end.

Definition final_decision (input : ExecutorInput) (entry : MessageIndexEntry) (block : A2AProtocolBlock) : Decision :=
  mergeDecisions (server_decision entry)
    (evaluateAutoReplyPolicyClient (policy input) (entry_context input entry block)).

(** Decide and act on a decoded message. *)
Definition act_on (input : ExecutorInput) (entry : MessageIndexEntry) (block : A2AProtocolBlock) : X unit :=
  let finalDecision := final_decision input entry block in
  match action finalDecision with
  | auto_accept_if_free =>
    free ← resolve_calendar entry block;
    match free with
    | None => mret tt
    | Some c => dispatch_reply input entry block auto_accept (Some c)
    end
  | auto_accept => dispatch_reply input entry block auto_accept None
  | auto_decline => dispatch_reply input entry block auto_decline None
  | other =>
    progress (Skipped (m_id entry) (js "decision_" ++ auto_action_name other ++ js "_" ++ reason finalDecision))
  end.

(** The protocol block of a decrypted body. *)
Definition parsed_block (plaintext : jstr) : option A2AProtocolBlock :=
  protocol (parseA2APayload plaintext (Some A2A_CONTENT_TYPE)) ≫= block_of_val.

Definition process_entry (input : ExecutorInput) (entry : MessageIndexEntry) : X unit :=
  try_catch
    (content ← get_content (m_id entry);
     if negb (bool_decide (mc_content_type content = Some A2A_CONTENT_TYPE)) then
       progress (Skipped (m_id entry) (js "not_a2a"))
     else
       plaintext ← decrypt_content (mc_encrypted_content content) (mc_encrypted_key content) (viewerAgentDid input);
       match parsed_block plaintext with
       | None => progress (Skipped (m_id entry) (js "not_a2a"))
       | Some block => act_on input entry block
       end)
    (fun error => progress (Failed (m_id entry) error)).

Definition runAutoReplyExecutor (input : ExecutorInput) (messages : list MessageIndexEntry) : X unit :=
  if negb (viewerHasSigningKey input) then mret tt
  else eff_iter (process_entry input) (eligibleMessages messages).

(** * Specification *)

Definition progress_id (e : XEvent) : option jstr :=
  match e with
  | XProgress (Skipped id _) | XProgress (SentReply id _) | XProgress (Failed id _) => Some id
  | _ => None
  end.

Definition is_xsend (e : XEvent) : bool := match e with XSend _ => true | _ => false end.

(** The reply that stands for a decision on a block. *)
Definition reply_choice (block : A2AProtocolBlock) (accepts : bool) (candidate : option jval) (reply : A2ARespondPayload) : Prop :=
  match block_type block with
  | schedule_negotiation => scheduleReplyPayload accepts (block_payload block) candidate = Ok (Some reply)
  | task_delegation => reply = taskReplyPayload accepts
  end.

(** [si] is a reply the executor may send for [entry] when its step starts at
    the trace [t]: the message decrypts to an A2A block, the merged decision
    lets an action go ahead, and the reply is the one for that action, to the
    sender of the message, about that block; with [auto_accept_if_free] the
    calendar named the accepted slot. *)
Definition authorised (input : ExecutorInput) (entry : MessageIndexEntry) (t : list XEvent) (si : ProtocolReplyInput) : Prop :=
  exists content plaintext block reply,
    getMessageContent t (m_id entry) = Ok content /\ mc_content_type content = Some A2A_CONTENT_TYPE /\
    decrypt (XContent (m_id entry) :: t) (mc_encrypted_content content) (mc_encrypted_key content)
      (viewerAgentDid input) = Ok plaintext /\
    parsed_block plaintext = Some block /\ si = reply_input input entry block reply /\
    (forall d r, server_decision entry = Some (d, r) -> r <> js "master_off") /\
    let ctx := entry_context input entry block in
    ((permits (policy input) ctx auto_decline /\ reply = decline_reply) \/
     (permits (policy input) ctx auto_accept /\ reply_choice block true None reply) \/
     (permits (policy input) ctx auto_accept_if_free /\ block_type block = schedule_negotiation /\
      exists freebusy h candidates free, calendarFreebusy = Some freebusy /\ freebusy h candidates = Ok free /\
        jtruthy free = true /\
        reply = Reply RAccept (Some (JObj [(js "start", jget free (js "start")); (js "end", jget free (js "end"))]))
                  None None None None)).

(** * Lemmas *)

(** What one step of the run adds to the trace. *)
Record step_ok (input : ExecutorInput) (entry : MessageIndexEntry) (t evs : list XEvent) : Prop := {
  step_reported : omap progress_id evs = [m_id entry];
  step_authorised si : XSend si ∈ evs -> authorised input entry t si;
  step_once : (count is_xsend evs <= 1)%nat
}.

(** The traces of [dispatch_reply]. *)
Definition dispatched (input : ExecutorInput) (entry : MessageIndexEntry) (block : A2AProtocolBlock) (a : AutoReplyAction)
    (candidate : option jval) (r : res unit) (evs : list XEvent) : Prop :=
  match r with
  | Ok _ =>
    evs = [XProgress (Skipped (m_id entry) (js "reply_payload_unavailable"))] \/
    exists reply rid, reply_choice block (bool_decide (a = auto_accept)) candidate reply /\
      evs = [XProgress (SentReply (m_id entry) a); XMark (m_id entry) rid; XSend (reply_input input entry block reply)]
  | Throw e =>
    evs = [] \/
    exists reply, reply_choice block (bool_decide (a = auto_accept)) candidate reply /\
      (evs = [XSend (reply_input input entry block reply)] \/
       exists rid, evs = [XMark (m_id entry) rid; XSend (reply_input input entry block reply)])
  end.

Lemma dispatch_reply_spec input entry block a candidate t :
  exists r evs, dispatch_reply input entry block a candidate t = (r, evs ++ t) /\
    dispatched input entry block a candidate r evs.
Proof.
  unfold dispatch_reply.
  set (choice := match block_type block with
                 | schedule_negotiation => scheduleReplyPayload (bool_decide (a = auto_accept)) (block_payload block) candidate
                 | task_delegation => Ok (Some (taskReplyPayload (bool_decide (a = auto_accept)))) end).
  destruct choice as [[reply|]|e] eqn:Ec; cycle 1.
  { eexists _, [_]. split; [reflexivity|]. by left. }
  { eexists _, []. split; [reflexivity|]. by left. }
  assert (reply_choice block (bool_decide (a = auto_accept)) candidate reply) as Hc.
  { unfold reply_choice. subst choice. destruct (block_type block); [done|]. by injection Ec as <-. }
  erewrite bind_ok by reflexivity. cbv beta iota.
  set (si := reply_input input entry block reply).
  destruct (send_reply si t) as [[rid|e] t1] eqn:Es; assert (t1 = XSend si :: t) as -> by (by injection Es); cycle 1.
  { erewrite bind_throw by exact Es. eexists _, [_]. split; [reflexivity|]. right. exists reply. split; [done|by left]. }
  erewrite bind_ok by exact Es.
  destruct (mark_sent (m_id entry) rid (XSend si :: t)) as [[[]|e] t2] eqn:Em;
    assert (t2 = XMark (m_id entry) rid :: XSend si :: t) as -> by (by injection Em).
  - erewrite bind_ok by exact Em.
    eexists _, [_; _; _]. split; [reflexivity|]. right. by exists reply, rid.
  - erewrite bind_throw by exact Em. eexists _, [_; _]. split; [reflexivity|]. right. exists reply. split; [done|]. right. by exists rid.
Qed.

Lemma mark_quietly_run id t : mark_quietly id t = (Ok tt, XMark id None :: t).
Proof. unfold mark_quietly, try_catch, mark_sent, xask. by destruct (markAutoReplySent t id None) as [[]|]. Qed.

(** The traces of the calendar step: it reports when it gives up. *)
Definition calendar_outcome (entry : MessageIndexEntry) (block : A2AProtocolBlock) (t : list XEvent)
    (free : option jval) (evs : list XEvent) : Prop :=
  count is_xsend evs = 0%nat /\
  match free with
  | None => omap progress_id evs = [m_id entry]
  | Some c =>
    omap progress_id evs = [] /\ block_type block = schedule_negotiation /\
    exists freebusy h candidates v, calendarFreebusy = Some freebusy /\ freebusy h candidates = Ok v /\ jtruthy v = true /\
      c = JObj [(js "start", jget v (js "start")); (js "end", jget v (js "end"))]
  end.

Lemma calendar_spec entry block t :
  exists free evs, resolve_calendar entry block t = (Ok free, evs ++ t) /\ calendar_outcome entry block t free evs.
Proof.
  unfold resolve_calendar. destruct (block_type block) eqn:Et.
  - destruct calendarFreebusy as [fb|] eqn:Ef.
    + set (cands := match jget _ _ with JUndef | JNull => JArr [] | c => c end). cbv zeta. unfold try_catch.
      destruct (fb t cands) as [v|e] eqn:Ev; cycle 1.
      { rewrite (bind_throw _ _ _ e (XFreebusy cands :: t)) by (unfold xask; by rewrite Ev).
        eexists None, [_; _]. split; [reflexivity|]. by split. }
      rewrite (bind_ok _ _ _ v (XFreebusy cands :: t)) by (unfold xask; by rewrite Ev).
      destruct (jtruthy v) eqn:Hv; cbn [negb].
      * eexists (Some _), [_]. split; [reflexivity|]. split; [done|]. split; [done|]. split; [done|].
        exists fb, t, cands, v. split_and!; first [assumption|reflexivity].
      * eexists None, [_; _; _]. split; [erewrite bind_ok by reflexivity; erewrite bind_ok by apply mark_quietly_run; reflexivity|by split].
    + eexists None, [_; _]. split; [erewrite bind_ok by reflexivity; erewrite bind_ok by apply mark_quietly_run; reflexivity|by split].
  - eexists None, [_; _]. split; [erewrite bind_ok by reflexivity; erewrite bind_ok by apply mark_quietly_run; reflexivity|by split].
Qed.

(** The step from a decoded block on. *)
Definition acted (input : ExecutorInput) (entry : MessageIndexEntry) (block : A2AProtocolBlock) (r : res unit)
    (evs : list XEvent) : Prop :=
  omap progress_id evs = (if is_ok r then [m_id entry] else []) /\
  (count is_xsend evs <= 1)%nat /\
  forall si, XSend si ∈ evs -> exists reply, si = reply_input input entry block reply /\
    (forall d x, server_decision entry = Some (d, x) -> x <> js "master_off") /\
    let ctx := entry_context input entry block in
    ((permits (policy input) ctx auto_decline /\ reply = decline_reply) \/
     (permits (policy input) ctx auto_accept /\ reply_choice block true None reply) \/
     (permits (policy input) ctx auto_accept_if_free /\ block_type block = schedule_negotiation /\
      exists freebusy h candidates free, calendarFreebusy = Some freebusy /\ freebusy h candidates = Ok free /\
        jtruthy free = true /\
        reply = Reply RAccept (Some (JObj [(js "start", jget free (js "start")); (js "end", jget free (js "end"))]))
                  None None None None)).

Lemma decline_choice block candidate reply : reply_choice block false candidate reply -> reply = decline_reply.
Proof. unfold reply_choice. destruct (block_type block); [by intros [= <-]|done]. Qed.

Lemma explicit_choice block c reply :
  block_type block = schedule_negotiation -> jtruthy c = true -> reply_choice block true (Some c) reply ->
  reply = Reply RAccept (Some c) None None None None.
Proof.
  unfold reply_choice, scheduleReplyPayload. intros -> Hc. cbn [negb]. mred. rewrite Hc. by intros [= <-].
Qed.

(** What a dispatched action adds, as [acted]. *)
Lemma dispatched_acted input entry block a candidate r evs :
  dispatched input entry block a candidate r evs ->
  omap progress_id evs = (if is_ok r then [m_id entry] else []) /\ (count is_xsend evs <= 1)%nat /\
  forall si, XSend si ∈ evs ->
    exists reply, si = reply_input input entry block reply /\ reply_choice block (bool_decide (a = auto_accept)) candidate reply.
Proof.
  unfold dispatched. destruct r as [u|e].
  - intros [-> | (reply & rid & Hc & ->)].
    + split; [done|]. split; [vm_compute; lia|]. intros si Hin. by apply list_elem_of_singleton in Hin.
    + split; [done|]. split; [vm_compute; lia|]. intros si Hin. rewrite !elem_of_cons in Hin.
      destruct Hin as [|[|[[= ->]|[]%elem_of_nil]]]; try done. by exists reply.
  - intros [-> | (reply & Hc & [-> | (rid & ->)])].
    + split; [done|]. split; [vm_compute; lia|]. by intros si []%elem_of_nil.
    + split; [done|]. split; [vm_compute; lia|]. intros si [= ->]%list_elem_of_singleton. by exists reply.
    + split; [done|]. split; [vm_compute; lia|]. intros si Hin. rewrite !elem_of_cons in Hin.
      destruct Hin as [|[[= ->]|[]%elem_of_nil]]; [done|]. by exists reply.
Qed.

Lemma no_send_elem evs si : count is_xsend evs = 0%nat -> XSend si ∉ evs.
Proof.
  induction evs as [|e evs IH]; [by intros _ Hin%elem_of_nil|]. rewrite count_cons.
  intros Hc [<- | Hin]%elem_of_cons; [by simpl in Hc|]. apply IH; [lia|done].
Qed.

Lemma act_on_spec input entry block t :
  exists r evs, act_on input entry block t = (r, evs ++ t) /\ acted input entry block r evs.
Proof.
  unfold act_on, acted. cbv zeta.
  destruct (merged_permits (policy input) (entry_context input entry block) (server_decision entry)) as [_ Hp].
  fold (final_decision input entry block) in Hp. cbv zeta in Hp.
  destruct (action (final_decision input entry block)) eqn:Ea.
  - eexists _, [_]. split; [reflexivity|]. split; [done|]. split; [vm_compute; lia|].
    by intros si Hin%list_elem_of_singleton.
  - destruct (dispatch_reply_spec input entry block auto_accept None t) as (r & evs & E & D). exists r, evs.
    split; [exact E|]. destruct (dispatched_acted _ _ _ _ _ _ _ D) as (Ho & Hc & Hs). split; [done|]. split; [done|].
    intros si (reply & -> & Hr)%Hs. exists reply. split; [done|].
    destruct (proj1 (Hp auto_accept ltac:(auto)) eq_refl) as [Hm Hperm]. split; [exact Hm|]. right. left. by split.
  - destruct (dispatch_reply_spec input entry block auto_decline None t) as (r & evs & E & D). exists r, evs.
    split; [exact E|]. destruct (dispatched_acted _ _ _ _ _ _ _ D) as (Ho & Hc & Hs). split; [done|]. split; [done|].
    intros si (reply & -> & Hr)%Hs. exists reply. split; [done|].
    destruct (proj1 (Hp auto_decline ltac:(auto)) eq_refl) as [Hm Hperm]. split; [exact Hm|]. left.
    split; [done|]. by eapply decline_choice.
  - destruct (calendar_spec entry block t) as (free & evs1 & E1 & Hn & H1'). erewrite bind_ok by exact E1.
    destruct free as [c|]; cycle 1.
    { eexists _, evs1. split; [reflexivity|]. split; [done|]. split; [lia|]. intros si Hin. by apply no_send_elem in Hin. }
    destruct H1' as (Ho1 & Ht & fb & h & cs & v & Ef & Ev & Hv & ->).
    set (c := JObj _) in *.
    destruct (dispatch_reply_spec input entry block auto_accept (Some c) (evs1 ++ t)) as (r & evs & E & D).
    exists r, (evs ++ evs1). split; [rewrite <- app_assoc; exact E|].
    destruct (dispatched_acted _ _ _ _ _ _ _ D) as (Ho & Hc & Hs). split; [by rewrite omap_app, Ho, Ho1, app_nil_r|].
    split; [rewrite count_app; lia|].
    intros si [Hin | Hin]%elem_of_app; [|by apply no_send_elem in Hin].
    apply Hs in Hin as (reply & -> & Hr). exists reply. split; [done|].
    destruct (proj1 (Hp auto_accept_if_free ltac:(auto)) eq_refl) as [Hm Hperm]. split; [exact Hm|]. right. right.
    split; [done|]. split; [done|]. exists fb, h, cs, v. split_and!; [exact Ef|exact Ev|exact Hv|].
    by apply (explicit_choice block c).
  - eexists _, [_]. split; [reflexivity|]. split; [done|]. split; [vm_compute; lia|].
    by intros si Hin%list_elem_of_singleton.
Qed.

(** One entry: it always completes, whatever throws. *)
Lemma process_spec input entry t :
  exists evs, process_entry input entry t = (Ok tt, evs ++ t) /\ step_ok input entry t evs.
Proof.
  unfold process_entry, try_catch.
  destruct (get_content (m_id entry) t) as [[content|e] t1] eqn:Ec;
    assert (t1 = XContent (m_id entry) :: t) as -> by (by injection Ec); cycle 1.
  { erewrite bind_throw by exact Ec. eexists [_; _]. split; [reflexivity|]. split; [done| |vm_compute; lia].
    intros si Hin. rewrite !elem_of_cons in Hin. by destruct Hin as [|[|[]%elem_of_nil]]. }
  assert (getMessageContent t (m_id entry) = Ok content) as Hc by (by injection Ec).
  erewrite bind_ok by exact Ec. case_bool_decide as Hct; cbn [negb]; cycle 1.
  { eexists [_; _]. split; [reflexivity|]. split; [done| |vm_compute; lia].
    intros si Hin. rewrite !elem_of_cons in Hin. by destruct Hin as [|[|[]%elem_of_nil]]. }
  set (t1 := XContent (m_id entry) :: t) in *.
  destruct (decrypt_content (mc_encrypted_content content) (mc_encrypted_key content) (viewerAgentDid input) t1)
    as [[plaintext|e] t2] eqn:Ed;
    assert (t2 = XDecrypt (mc_encrypted_content content) (mc_encrypted_key content) (viewerAgentDid input) :: t1) as ->
      by (by injection Ed); cycle 1.
  { erewrite bind_throw by exact Ed. eexists [_; _; _]. split; [reflexivity|]. split; [done| |vm_compute; lia].
    intros si Hin. rewrite !elem_of_cons in Hin. by destruct Hin as [|[|[|[]%elem_of_nil]]]. }
  assert (decrypt t1 (mc_encrypted_content content) (mc_encrypted_key content) (viewerAgentDid input) = Ok plaintext)
    as Hd by (by injection Ed).
  erewrite bind_ok by exact Ed. set (d := XDecrypt _ _ _) in *.
  destruct (parsed_block plaintext) as [block|] eqn:Ep; cycle 1.
  { eexists [_; _; _]. split; [reflexivity|]. split; [done| |vm_compute; lia].
    intros si Hin. rewrite !elem_of_cons in Hin. by destruct Hin as [|[|[|[]%elem_of_nil]]]. }
  destruct (act_on_spec input entry block (d :: t1)) as (r & evs & E & Ho & Hn & Hs). rewrite E.
  assert (forall si, XSend si ∈ evs -> authorised input entry t si) as Ha.
  { intros si (reply & -> & Hm & Hx)%Hs. exists content, plaintext, block, reply. by split_and!. }
  destruct r as [[]|e]; cbn [is_ok] in Ho.
  - exists (evs ++ [d; XContent (m_id entry)]). split; [by rewrite <- app_assoc|]. split.
    + by rewrite omap_app, Ho.
    + intros si [Hin | Hin]%elem_of_app; [by apply Ha|]. rewrite !elem_of_cons in Hin.
      by destruct Hin as [|[|[]%elem_of_nil]].
    + rewrite count_app. change (count is_xsend [d; XContent (m_id entry)]) with 0%nat. lia.
  - exists (XProgress (Failed (m_id entry) e) :: evs ++ [d; XContent (m_id entry)]).
    split; [cbn [app]; by rewrite <- app_assoc|]. split.
    + cbn [omap list_omap progress_id]. by rewrite omap_app, Ho.
    + intros si [[=]|[Hin | Hin]%elem_of_app]%elem_of_cons; [by apply Ha|]. rewrite !elem_of_cons in Hin.
      by destruct Hin as [|[|[]%elem_of_nil]].
    + rewrite count_cons, count_app. change (count is_xsend [d; XContent (m_id entry)]) with 0%nat. simpl. lia.
Qed.

Lemma omap_reverse {A B} (f : A -> option B) l : omap f (reverse l) = reverse (omap f l).
Proof.
  induction l as [|x l IH]; [done|]. rewrite reverse_cons, omap_app, IH. cbn [omap list_omap].
  destruct (f x); [by rewrite reverse_cons|by rewrite app_nil_r].
Qed.

(** The whole queue: the steps one after the other. *)
Lemma queue_spec input entries t :
  exists evs, eff_iter (process_entry input) entries t = (Ok tt, evs ++ t) /\
    omap progress_id (reverse evs) = map m_id entries /\ (count is_xsend evs <= length entries)%nat /\
    forall si, XSend si ∈ evs -> exists entry t0, entry ∈ entries /\ authorised input entry t0 si.
Proof.
  revert t. induction entries as [|entry entries IH]; intros t; cbn [eff_iter].
  { exists []. split; [done|]. split; [done|]. split; [done|]. by intros si []%elem_of_nil. }
  destruct (process_spec input entry t) as (evs1 & E1 & [Ho1 Ha1 Hn1]).
  destruct (IH (evs1 ++ t)) as (evs2 & E2 & Ho2 & Hn2 & Ha2).
  exists (evs2 ++ evs1). erewrite bind_ok by exact E1. rewrite E2, app_assoc. split; [done|].
  rewrite reverse_app, omap_app, Ho2. cbn [map length]. split; [|split].
  - f_equal. rewrite omap_reverse, Ho1. done.
  - rewrite count_app. lia.
  - intros si [Hin | Hin]%elem_of_app.
    + destruct (Ha2 si Hin) as (m & t0 & Hm & Ha). exists m, t0. split; [by right|done].
    + exists entry, t. split; [by left|by apply Ha1].
Qed.

(** * Properties *)

(** C31: the executor handles its queue completely and only it.  Whatever the
    collaborators answer or throw, the run completes; without a signing key it
    does nothing at all; otherwise it reports on every eligible message (server
    decision to act, or calendar the only obstacle, and no reply recorded yet)
    exactly once, in inbox order, so a message that fails never keeps the next
    ones from being handled. *)
Theorem executor_reports_all (input : ExecutorInput) (messages : list MessageIndexEntry) (t : list XEvent) :
  exists evs, runAutoReplyExecutor input messages t = (Ok tt, evs ++ t) /\
    (viewerHasSigningKey input = false -> evs = []) /\
    (viewerHasSigningKey input = true ->
     omap progress_id (reverse evs) =
     map m_id (List.filter (fun m =>
       match auto_reply_decision m with
       | Some auto_accept | Some auto_decline => negb (truthy_ostr (auto_reply_sent_at m))
       | Some queue_for_human => negb (truthy_ostr (auto_reply_sent_at m))
                                 && bool_decide (auto_reply_reason m = Some (js "calendar_unavailable"))
       | _ => false
       end) messages)).
Proof.
  unfold runAutoReplyExecutor. destruct (viewerHasSigningKey input); cbn [negb]; [|by exists []].
  destruct (queue_spec input (eligibleMessages messages) t) as (evs & E & Ho & _).
  exists evs. split; [done|]. split; [done|]. intros _. rewrite Ho. unfold eligibleMessages. f_equal.
  apply List.filter_ext. intros m. unfold eligible. destruct (auto_reply_decision m) as [[]|]; try done;
    destruct (truthy_ostr (auto_reply_sent_at m)); try done. cbn [negb andb].
  destruct (auto_reply_reason m) as [r|]; [|done]. unfold jeqb. apply bool_decide_ext. naive_solver.
Qed.


End executor.

(** A run over one message, answered by collaborators that always succeed. *)
#[global] Instance sample_prototype : ObjectPrototype := {| inherited_gt := fun _ _ => false |}.

Definition sample_collaborators (block : A2AProtocolBlock) (mark : res unit) : Collaborators := {|
  getMessageContent := fun _ _ => Ok (Content (Some A2A_CONTENT_TYPE) (js "enc") (js "key"));
  decrypt := fun _ _ _ _ => Ok (json_stringify (message_to_val (js "hello") (Some block)));
  calendarFreebusy := None;
  sendProtocolReply := fun _ _ => (Ok tt, Some (js "reply-1"));
  markAutoReplySent := fun _ _ _ => mark;
  is_contact := fun _ => true
|}.

Definition sample_entry : MessageIndexEntry :=
  IndexEntry (js "m-1") (js "did:key:zB") None (js "normal") (num 1) (Some auto_accept) (Some (js "default_match")) None.

Definition accepting_input : ExecutorInput :=
  RunInput (js "did:key:zA") true
    (JObj [(js "v", JNum (num 1)); (js "default_action", JStr (js "auto_accept"))]) true.

Definition delegate_block : A2AProtocolBlock :=
  ProtocolBlock (js "p-1") task_delegation delegate None (JObj [(js "title", JStr (js "Review the draft"))]).


(** When the reply went out but recording it failed, the entry is still
    eligible: a second run over the same inbox sends a second reply. *)
Lemma failed_mark_sends_again :
  let _ := sample_collaborators delegate_block (Throw (Error_ (js "503"))) in
  let run2 := runAutoReplyExecutor accepting_input [sample_entry] ;; runAutoReplyExecutor accepting_input [sample_entry] in
  count is_xsend (run2 []).2 = 2%nat.
Proof. vm_compute. reflexivity. Qed.

(** The executor does not ask whether the block is a request: it answers the
    other side's "accept" with an accept, which [canRespondToProtocol] would
    not offer. *)
Lemma executor_answers_an_answer `{Host} :
  let block := ProtocolBlock (js "p-1") task_delegation accept (Some (js "p-0")) (JObj []) in
  let _ := sample_collaborators block (Ok tt) in
  count is_xsend (runAutoReplyExecutor accepting_input [sample_entry] []).2 = 1%nat /\
  forall now, canRespondToProtocol (js "inbox") block now = false.
Proof. split; [vm_compute; reflexivity|done]. Qed.
