(* ===== verification/Browser.v ===== *)
(** The browser the web application runs in.

    [Browser] is the state of a page: the platform state of [Node] (its trace
    included), the two Web Storage areas, the object stores of the IndexedDB
    keystore, and the module-level variables of the key rings.  A
    [CryptoKey] is opaque to the program; here it holds the key material.
    [BrowserEnv] says when the browser refuses a storage operation. *)
From S2P Require Import Prelude Utf8 JsNumber Json Base64 Effect Node.

(** A [CryptoKey]: an asymmetric private key or an AES-GCM key. *)
Inductive CryptoKey := PrivateKey (alg : KeyAlg) (raw : bytes) | AesKey (raw : bytes).

(** A record of the store "private-keys", as the code writes it now, or in the
    wrapped form of an earlier version. *)
Inductive StoredKey := KeyRecord (key : CryptoKey) | LegacyWrappedKeyRecord (wrapped iv : bytes).

(** The module-level variables of a key ring. *)
Record Keyring := Ring { kr_memory : gmap jstr CryptoKey; kr_migrated : bool }.

Inductive RingName := RecipientRing | SigningRing.

Record Browser := {
  b_node : World;
  b_local : gmap jstr jstr;
  b_session : gmap jstr jstr;
  b_private : gmap jstr StoredKey;      (** the store "private-keys" *)
  b_master : option CryptoKey;          (** "master" in the store "wrap-keys" *)
  b_wrapKey : option CryptoKey;         (** the settled [wrapKeyPromise] *)
  b_recipient : Keyring;
  b_signing : Keyring
}.

#[global] Instance browser_traced : Traced Browser Event := fun b => w_trace (b_node b).

Abbreviation BM := (eff Browser).

Class BrowserEnv := {
  env_window : bool;                    (** [typeof window !== "undefined"] *)
  env_indexedDB : bool;
  env_storage_error : list Event -> StorageOp -> option jserror;
  env_idb_error : list Event -> IdbOp -> option jserror;
  env_status_text : list Event -> Request -> jstr;  (** [response.statusText] *)
  env_array_buffer : list Event -> Request -> bytes (** [await response.arrayBuffer()] *)
}.

(** ** State updates *)

Definition with_node (n : World) (b : Browser) : Browser :=
  {| b_node := n; b_local := b_local b; b_session := b_session b; b_private := b_private b;
     b_master := b_master b; b_wrapKey := b_wrapKey b; b_recipient := b_recipient b; b_signing := b_signing b |}.

Definition with_area (a : StorageArea) (s : gmap jstr jstr) (b : Browser) : Browser :=
  {| b_node := b_node b;
     b_local := match a with LocalStorage => s | SessionStorage => b_local b end;
     b_session := match a with LocalStorage => b_session b | SessionStorage => s end;
     b_private := b_private b; b_master := b_master b; b_wrapKey := b_wrapKey b;
     b_recipient := b_recipient b; b_signing := b_signing b |}.

Definition with_private (p : gmap jstr StoredKey) (b : Browser) : Browser :=
  {| b_node := b_node b; b_local := b_local b; b_session := b_session b; b_private := p;
     b_master := b_master b; b_wrapKey := b_wrapKey b; b_recipient := b_recipient b; b_signing := b_signing b |}.

Definition with_master (k : option CryptoKey) (b : Browser) : Browser :=
  {| b_node := b_node b; b_local := b_local b; b_session := b_session b; b_private := b_private b;
     b_master := k; b_wrapKey := b_wrapKey b; b_recipient := b_recipient b; b_signing := b_signing b |}.

Definition with_wrapKey (k : option CryptoKey) (b : Browser) : Browser :=
  {| b_node := b_node b; b_local := b_local b; b_session := b_session b; b_private := b_private b;
     b_master := b_master b; b_wrapKey := k; b_recipient := b_recipient b; b_signing := b_signing b |}.

Definition ring (r : RingName) (b : Browser) : Keyring :=
  match r with RecipientRing => b_recipient b | SigningRing => b_signing b end.

Definition with_ring (r : RingName) (k : Keyring) (b : Browser) : Browser :=
  {| b_node := b_node b; b_local := b_local b; b_session := b_session b; b_private := b_private b;
     b_master := b_master b; b_wrapKey := b_wrapKey b;
     b_recipient := match r with RecipientRing => k | SigningRing => b_recipient b end;
     b_signing := match r with RecipientRing => b_signing b | SigningRing => k end |}.

Definition area (a : StorageArea) (b : Browser) : gmap jstr jstr :=
  match a with LocalStorage => b_local b | SessionStorage => b_session b end.

Definition update (f : Browser -> Browser) : BM unit := fun b => (Ok tt, f b).

(** A computation of the platform, run in the page. *)
Definition host {A} (m : M A) : BM A :=
  fun b => let '(r, n) := m (b_node b) in (r, with_node n b).

Section storage.
Context `{BrowserEnv}.

Definition isBrowser : bool := env_window && env_indexedDB.

Definition refusable (e : Event) (refusal : list Event -> option jserror) : BM unit :=
  r ← host (ask e refusal);
  match r with Some err => raise err | None => mret tt end.

Definition storage_call (op : StorageOp) : BM unit := refusable (EvStorage op) (fun h => env_storage_error h op).
Definition idb_call (op : IdbOp) : BM unit := refusable (EvIdb op) (fun h => env_idb_error h op).

(** The keys of a storage area, in an order the browser chooses. *)
Definition storage_keys (a : StorageArea) : BM (list jstr) :=
  storage_call (StKeys a) ;; b ← get_state; mret (map_to_list (area a b)).*1.

Definition storage_getItem (a : StorageArea) (key : jstr) : BM (option jstr) :=
  storage_call (StGet a key) ;; b ← get_state; mret (area a b !! key).

Definition storage_setItem (a : StorageArea) (key value : jstr) : BM unit :=
  storage_call (StSet a key value) ;; update (fun b => with_area a (<[key := value]> (area a b)) b).

Definition storage_removeItem (a : StorageArea) (key : jstr) : BM unit :=
  storage_call (StRemove a key) ;; update (fun b => with_area a (delete key (area a b)) b).

(** The probe of [isStorageAvailable] and [isSessionStorageAvailable]. *)
Definition storage_available (a : StorageArea) : BM bool :=
  if negb env_window then mret false
  else
    try_catch
      (storage_setItem a (js "__nexusinbox_probe__") (js "1") ;;
       storage_removeItem a (js "__nexusinbox_probe__") ;; mret true)
      (fun _ => mret false).

End storage.

(** ** The network

    A response as the browser's [fetch] gives it: cookies, caching and
    cross-origin checks are the browser's and are not represented. *)
Record WebResponse := WResponse { wr_response : Response; wr_statusText : jstr; wr_arrayBuffer : bytes }.

Definition wr_ok (r : WebResponse) : bool := rs_ok (wr_response r).
Definition wr_status (r : WebResponse) : Z := rs_status (wr_response r).

(** [await response.json()]. *)
Definition wr_json `{Host} (r : WebResponse) : res jval := json_parse (rs_text (wr_response r)).

Definition web_fetch `{Env, BrowserEnv} (rq : Request) : BM WebResponse :=
  r ← host (ask (EvFetch rq) (fun h =>
              match env_fetch h rq with
              | Ok response => Ok (WResponse response (env_status_text h rq) (env_array_buffer h rq))
              | Throw e => Throw e
              end));
  lift r.

Lemma longer_host {A} (m : M A) : respects longer m -> respects longer (host m).
Proof. intros Hm b. specialize (Hm (b_node b)). unfold host. by destruct (m (b_node b)). Qed.

Lemma longer_web_fetch `{Env, BrowserEnv} rq : respects longer (web_fetch rq).
Proof. apply respects_bind; [apply _|apply longer_host, longer_ask|]. intros r. apply respects_lift, _. Qed.

Lemma web_fetch_logged `{Env, BrowserEnv} rq b r b' :
  web_fetch rq b = (r, b') -> EvFetch rq ∈ w_trace (b_node b').
Proof.
  unfold web_fetch, host, ask, lift, mbind, eff_bind. intros [= _ <-]. cbn. by left.
Qed.

Lemma host_ok {A} (m : M A) b a w' : m (b_node b) = (Ok a, w') -> host m b = (Ok a, with_node w' b).
Proof. intros E. unfold host. by rewrite E. Qed.

Lemma web_fetch_answer `{Host, Env, BrowserEnv} rq answer b :
  (forall h, env_fetch h rq = Ok answer) ->
  exists w b', web_fetch rq b = (Ok w, b') /\ wr_response w = answer /\ EvFetch rq ∈ w_trace (b_node b').
Proof.
  intros Hf. unfold web_fetch. erewrite bind_ok by (apply host_ok; reflexivity). rewrite Hf.
  eexists _, _. split; [reflexivity|]. split; [done|]. cbn. by left.
Qed.

#[export] Hint Resolve longer_host longer_web_fetch : effdb.

(** Nothing is refused. *)
Class NeverRefuses `{BrowserEnv} : Prop := {
  storage_accepts h op : env_storage_error h op = None;
  idb_accepts h op : env_idb_error h op = None;
  in_browser : isBrowser = true
}.

(** A new page in the same browser: the module variables start afresh. *)
Definition fresh_ring : Keyring := Ring ∅ false.
Definition reload (b : Browser) : Browser :=
  with_wrapKey None (with_ring RecipientRing fresh_ring (with_ring SigningRing fresh_ring b)).

(** A browser that refuses the operations of [st] and [idb], and a new profile. *)
Definition refusing_browser (st : StorageOp -> option jserror) (idb : IdbOp -> option jserror) : BrowserEnv := {|
  env_window := true;
  env_indexedDB := true;
  env_storage_error := fun _ => st;
  env_idb_error := fun _ => idb;
  env_status_text := fun _ _ => [];
  env_array_buffer := fun _ _ => []
|}.

Definition open_browser : BrowserEnv := refusing_browser (fun _ => None) (fun _ => None).

#[global] Instance open_browser_accepts : NeverRefuses (H := open_browser).
Proof. by split. Qed.

Definition new_profile : Browser := {|
  b_node := {| w_trace := []; w_files := ∅; w_client := {| cs_accessToken := JNull; cs_dpop := Dpop [] JNull |} |};
  b_local := ∅; b_session := ∅; b_private := ∅; b_master := None; b_wrapKey := None;
  b_recipient := fresh_ring; b_signing := fresh_ring
|}.
