(* ===== verification/WebKeystore.v ===== *)
(** The browser's key store and key rings: apps/web/lib/crypto/keystore.ts,
    recipient-keyring.ts and signing-keyring.ts.

    The two key rings are one text up to a prefix and an algorithm; [Ring]
    holds it, and the modules at the end name the operations of each file.
    Promises are awaited where the code awaits them; the writes the code does
    not await ([saveRecipientPrivateKey]) finish before the next operation,
    as IndexedDB orders transactions on a store. *)
From S2P Require Import Prelude Base64 Utf8 JsNumber Json Effect Node Envelope Browser.

Definition STORE_WRAP_KEYS : jstr := js "wrap-keys".
Definition STORE_PRIVATE_KEYS : jstr := js "private-keys".
Definition MASTER_KEY_ID : jstr := js "master".

(** Base64url in the browser: the text of packages/crypto. *)
Definition toBase64Url (bs : bytes) : jstr := CryptoB64.toBase64Url bs.
Definition fromBase64Url (text : jstr) : res bytes := CryptoB64.fromBase64Url text.

(** [importKey("pkcs8", ...)]. *)
Definition import_pkcs8 `{WebCrypto} (alg : KeyAlg) (data : bytes) : res CryptoKey :=
  match pkcs8_import alg data with Some k => Ok (PrivateKey alg k) | None => Throw DataError end.

(** What a legacy localStorage value holds. *)
Definition legacy_key `{WebCrypto} (alg : KeyAlg) (value : jstr) : res CryptoKey :=
  data ← fromBase64Url value; import_pkcs8 alg data.

Section keystore.
Context `{WebCrypto, Env, BrowserEnv}.

Definition isKeystoreAvailable : bool := isBrowser.

Definition secureStoreKey (id : jstr) (key : CryptoKey) : BM unit :=
  idb_call (IdbPut STORE_PRIVATE_KEYS id) ;;
  update (fun b => with_private (<[id := KeyRecord key]> (b_private b)) b).

Definition secureLoadKey (id : jstr) : BM (option CryptoKey) :=
  idb_call (IdbGet STORE_PRIVATE_KEYS id) ;;
  b ← get_state;
  mret match b_private b !! id with Some (KeyRecord key) => Some key | _ => None end.

(** [generateKey] of a 256-bit AES-GCM key. *)
Definition generate_aes_key : BM CryptoKey := k ← host (get_random 32); mret (AesKey k).

Definition getOrCreateWrapKey : BM CryptoKey :=
  b ← get_state;
  match b_wrapKey b with
  | Some key => mret key
  | None =>
    key ← (idb_call (IdbGet STORE_WRAP_KEYS MASTER_KEY_ID) ;;
           b ← get_state;
           match b_master b with
           | Some key => mret key
           | None =>
             key ← generate_aes_key;
             idb_call (IdbPut STORE_WRAP_KEYS MASTER_KEY_ID) ;;
             update (with_master (Some key)) ;;
             mret key
           end);
    update (with_wrapKey (Some key)) ;;
    mret key
  end.

Definition decryptLegacyRecord (wrapped iv : bytes) : BM (option bytes) :=
  wrapKey ← getOrCreateWrapKey;
  mret match wrapKey with AesKey k => aes_gcm_decrypt k iv wrapped | PrivateKey _ _ => None end.

(** The legacy entries of [localStorage], with their values. *)
Definition keys_to_migrate (prefix : jstr) : BM (list (jstr * jstr)) :=
  keys ← storage_keys LocalStorage;
  found ← eff_map (fun lsKey => value ← storage_getItem LocalStorage lsKey;
                                mret match value with
                                     | Some v => if truthy_str v then [(lsKey, v)] else []
                                     | None => []
                                     end)
            (filter (fun k => starts_with prefix k = true) keys);
  mret (concat found).

Definition migrate_entry (alg : KeyAlg) (entry : jstr * jstr) : BM unit :=
  let '(lsKey, value) := entry in
  existing ← secureLoadKey lsKey;
  match existing with
  | Some _ => mret tt
  | None =>
    try_catch (imported ← lift (legacy_key alg value); secureStoreKey lsKey imported) (fun _ => mret tt)
  end ;;
  try_catch (storage_removeItem LocalStorage lsKey) (fun _ => mret tt).

(** [store.getAll()]: the records in the order of their ids. *)
Definition all_records : BM (list (jstr * StoredKey)) :=
  idb_call (IdbGetAll STORE_PRIVATE_KEYS) ;;
  b ← get_state;
  mret (merge_sort (fun x y => bool_decide (x.1 = y.1 \/ str_ltb x.1 y.1 = true)) (map_to_list (b_private b))).

Definition migrate_record (alg : KeyAlg) (record : jstr * StoredKey) : BM unit :=
  match record with
  | (id, LegacyWrappedKeyRecord wrapped iv) =>
    decrypted ← decryptLegacyRecord wrapped iv;
    match decrypted with
    | None => mret tt
    | Some data =>
      try_catch (imported ← lift (import_pkcs8 alg data); secureStoreKey id imported) (fun _ => mret tt)
    end
  | (_, KeyRecord _) => mret tt
  end.

Definition migrateFromLocalStorage (prefix : jstr) (alg : KeyAlg) : BM unit :=
  if negb isBrowser then mret tt
  else
    entries ← try_catch (l ← keys_to_migrate prefix; mret (Some l)) (fun _ => mret None);
    match entries with
    | None => mret tt
    | Some l =>
      eff_iter (migrate_entry alg) l ;;
      records ← all_records;
      eff_iter (migrate_record alg) records
    end.

End keystore.

(** ** The key rings *)

Definition ring_prefix (r : RingName) : jstr :=
  match r with
  | RecipientRing => js "nexusinbox:recipient-key:"
  | SigningRing => js "nexusinbox:signing-key:"
  end.

Definition ring_alg (r : RingName) : KeyAlg := match r with RecipientRing => X25519 | SigningRing => Ed25519 end.

Module Ring.
Section ring.
Context `{WebCrypto, Env, BrowserEnv}.
Variable r : RingName.

Definition storageKey (did : jstr) : jstr := ring_prefix r ++ did.

Definition set_migrated : BM unit := update (fun b => with_ring r (Ring (kr_memory (ring r b)) true) b).

Definition remember (did : jstr) (key : CryptoKey) : BM unit :=
  update (fun b => with_ring r (Ring (<[did := key]> (kr_memory (ring r b))) (kr_migrated (ring r b))) b).

Definition ensureMigration : BM unit :=
  b ← get_state;
  if kr_migrated (ring r b) then mret tt
  else if negb isKeystoreAvailable then set_migrated
  else
    try_catch (migrateFromLocalStorage (ring_prefix r) (ring_alg r)) (fun _ => mret tt) ;;
    set_migrated.

Definition generateKeyPairMaterial : BM (jstr * CryptoKey) :=
  key ← host (generate_key (ring_alg r));
  mret (toBase64Url (key_public (ring_alg r) key), PrivateKey (ring_alg r) key).

Definition savePrivateKey (did : jstr) (privateKey : CryptoKey) : BM unit :=
  if negb (truthy_str did) then mret tt
  else
    remember did privateKey ;;
    if isKeystoreAvailable then try_catch (secureStoreKey (storageKey did) privateKey) (fun _ => mret tt)
    else mret tt.

Definition getPrivateKey (did : jstr) : BM (option CryptoKey) :=
  ensureMigration ;;
  b ← get_state;
  match kr_memory (ring r b) !! did with
  | Some cached => mret (Some cached)
  | None =>
    if negb isKeystoreAvailable then mret None
    else
      key ← secureLoadKey (storageKey did);
      match key with
      | Some k => remember did k ;; mret (Some k)
      | None => mret None
      end
  end.

Definition hasPrivateKey (did : jstr) : BM bool :=
  if negb (truthy_str did) then mret false
  else key ← getPrivateKey did; mret match key with Some _ => true | None => false end.

End ring.
End Ring.

(** apps/web/lib/crypto/recipient-keyring.ts *)
Module RecipientKeyring.
Section recipient.
Context `{WebCrypto, Env, BrowserEnv}.
Definition generateX25519KeyPairMaterial : BM (jstr * CryptoKey) := Ring.generateKeyPairMaterial RecipientRing.
Definition saveRecipientPrivateKey : jstr -> CryptoKey -> BM unit := Ring.savePrivateKey RecipientRing.
Definition getRecipientPrivateKey : jstr -> BM (option CryptoKey) := Ring.getPrivateKey RecipientRing.
Definition hasRecipientPrivateKey : jstr -> BM bool := Ring.hasPrivateKey RecipientRing.
End recipient.
End RecipientKeyring.

(** apps/web/lib/crypto/signing-keyring.ts *)
Module SigningKeyring.
Section signing.
Context `{WebCrypto, Env, BrowserEnv}.
Definition generateEd25519SigningKeyPairMaterial : BM (jstr * CryptoKey) := Ring.generateKeyPairMaterial SigningRing.
Definition saveSigningPrivateKey : jstr -> CryptoKey -> BM unit := Ring.savePrivateKey SigningRing.
Definition getSigningPrivateKey : jstr -> BM (option CryptoKey) := Ring.getPrivateKey SigningRing.
Definition hasSigningPrivateKeyMaterial : jstr -> BM bool := Ring.hasPrivateKey SigningRing.
End signing.
End SigningKeyring.

(** * Lemmas *)

(** The key a page can load under an id. *)
Definition stored_key (b : Browser) (id : jstr) : option CryptoKey :=
  match b_private b !! id with Some (KeyRecord key) => Some key | _ => None end.

(** What running a storage operation adds to the trace. *)
Definition noted (e : Event) (b : Browser) : Browser :=
  with_node {| w_trace := e :: w_trace (b_node b); w_files := w_files (b_node b); w_client := w_client (b_node b) |} b.

Section runs.
Context `{WebCrypto, Env, BrowserEnv}.

Lemma refusable_run e refusal b :
  refusable e refusal b
  = (match refusal (w_trace (b_node b)) with Some err => Throw err | None => Ok tt end, noted e b).
Proof. unfold refusable. erewrite bind_ok by reflexivity. by destruct (refusal _). Qed.

Lemma secureLoadKey_run id b :
  secureLoadKey id b
  = (match env_idb_error (w_trace (b_node b)) (IdbGet STORE_PRIVATE_KEYS id) with
     | Some err => Throw err | None => Ok (stored_key b id) end, noted (EvIdb (IdbGet STORE_PRIVATE_KEYS id)) b).
Proof.
  unfold secureLoadKey, idb_call. destruct (env_idb_error _ _) eqn:E.
  - apply bind_throw. by rewrite refusable_run, E.
  - erewrite bind_ok by (by rewrite refusable_run, E). done.
Qed.

Lemma secureStoreKey_run id key b :
  secureStoreKey id key b
  = (let b1 := noted (EvIdb (IdbPut STORE_PRIVATE_KEYS id)) b in
     match env_idb_error (w_trace (b_node b)) (IdbPut STORE_PRIVATE_KEYS id) with
     | Some err => (Throw err, b1)
     | None => (Ok tt, with_private (<[id := KeyRecord key]> (b_private b)) b1) end).
Proof.
  unfold secureStoreKey, idb_call. destruct (env_idb_error _ _) eqn:E.
  - apply bind_throw. by rewrite refusable_run, E.
  - erewrite bind_ok by (by rewrite refusable_run, E). done.
Qed.

Lemma removeItem_run a key b :
  storage_removeItem a key b
  = (let b1 := noted (EvStorage (StRemove a key)) b in
     match env_storage_error (w_trace (b_node b)) (StRemove a key) with
     | Some err => (Throw err, b1)
     | None => (Ok tt, with_area a (delete key (area a b)) b1) end).
Proof.
  unfold storage_removeItem, storage_call. destruct (env_storage_error _ _) eqn:E.
  - apply bind_throw. by rewrite refusable_run, E.
  - erewrite bind_ok by (by rewrite refusable_run, E). by destruct a.
Qed.

End runs.

(** *** What no run of the migration loses

    [keeps b b']: every key that could be loaded still can, [localStorage] only
    shrank, and the rings and the session are as they were. *)
Definition keeps (b b' : Browser) : Prop :=
  (forall id key, stored_key b id = Some key -> stored_key b' id = Some key) /\
  b_local b' ⊆ b_local b /\ b_session b' = b_session b /\
  b_recipient b' = b_recipient b /\ b_signing b' = b_signing b.

#[global] Instance keeps_preorder : PreOrder keeps.
Proof.
  split.
  - intros b. by split_and!.
  - intros b1 b2 b3 (K1 & L1 & S1 & R1 & G1) (K2 & L2 & S2 & R2 & G2). split_and!; [eauto| |congruence..].
    by etrans.
Qed.

(** [frame b b']: only the platform state and the wrap key changed. *)
Definition frame (b b' : Browser) : Prop :=
  b_local b' = b_local b /\ b_session b' = b_session b /\ b_private b' = b_private b /\
  b_recipient b' = b_recipient b /\ b_signing b' = b_signing b.

#[global] Instance frame_preorder : PreOrder frame.
Proof.
  split; [by intros b; split_and!|].
  intros b1 b2 b3 (A1 & A2 & A3 & A4 & A5) (B1 & B2 & B3 & B4 & B5). split_and!; congruence.
Qed.

Lemma frame_stored b b' id : frame b b' -> stored_key b' id = stored_key b id.
Proof. unfold stored_key. by intros (_ & _ & -> & _). Qed.

Lemma frame_keeps b b' : frame b b' -> keeps b b'.
Proof.
  intros F. pose proof F as (L & S & P & R & G). split_and!; try congruence; [|by rewrite L].
  intros id key. by rewrite (frame_stored b b' id F).
Qed.

(** [reads b b']: only the platform state (its trace) changed. *)
Definition reads (b b' : Browser) : Prop := exists n, b' = with_node n b.

#[global] Instance reads_preorder : PreOrder reads.
Proof.
  split; [intros b; exists (b_node b); by destruct b|].
  intros b1 b2 b3 [n ->] [n' ->]. by exists n'.
Qed.

Lemma reads_frame b b' : reads b b' -> frame b b'.
Proof. by intros [n ->]. Qed.

Section frame.
Context `{WebCrypto, Env, BrowserEnv}.

Lemma frame_host {A} (m : M A) : respects frame (host m).
Proof. intros b. unfold host. destruct (m (b_node b)). by split_and!. Qed.

Lemma frame_refusable e refusal : respects frame (refusable e refusal).
Proof. intros b. rewrite refusable_run. by split_and!. Qed.

Lemma frame_get : respects frame get_state.
Proof. by intros b. Qed.

Lemma frame_wrapKey : respects frame getOrCreateWrapKey.
Proof.
  unfold getOrCreateWrapKey, idb_call, generate_aes_key.
  apply respects_bind; [apply _|apply frame_get|]. intros b1. destruct (b_wrapKey b1); [by intros b|].
  apply respects_bind; [apply _| |intros key; apply respects_bind; [apply _|by intros b|by intros _ b]].
  apply respects_bind; [apply _|apply frame_refusable|]. intros _.
  apply respects_bind; [apply _|apply frame_get|]. intros b2. destruct (b_master b2); [by intros b|].
  apply respects_bind; [apply _| |].
  - apply respects_bind; [apply _|apply frame_host|]. by intros k b.
  - intros key. apply respects_bind; [apply _|apply frame_refusable|]. intros _.
    apply respects_bind; [apply _|by intros b|by intros _ b].
Qed.

Lemma frame_keys prefix : respects frame (keys_to_migrate prefix).
Proof.
  unfold keys_to_migrate, storage_keys, storage_getItem, storage_call.
  apply respects_bind; [apply _| |].
  - apply respects_bind; [apply _|apply frame_refusable|]. intros _. by intros b.
  - intros keys. apply respects_bind; [apply _| |by intros l b]. apply respects_map; [apply _|]. intros k.
    apply respects_bind; [apply _| |by intros l b].
    apply respects_bind; [apply _|apply frame_refusable|]. intros _. by intros b.
Qed.

End frame.

(** The trace only grows. *)
Ltac trace_grows :=
  repeat first
  [ apply respects_bind; [apply _| |intros ?]
  | apply respects_catch; [apply _| |intros ?]
  | apply respects_iter; [apply _|intros ?]
  | apply respects_map; [apply _|intros ?]
  | apply longer_host, longer_ask
  | apply respects_ret, _ | apply respects_lift, _
  | match goal with |- respects _ (match ?x with _ => _ end) => destruct x end ];
  try (intros b; exists []; by repeat case_match).

Lemma longer_getPrivateKey `{WebCrypto, Env, BrowserEnv} r did : respects longer (Ring.getPrivateKey r did).
Proof.
  unfold Ring.getPrivateKey, Ring.ensureMigration, migrateFromLocalStorage, secureLoadKey, secureStoreKey, keys_to_migrate,
    migrate_entry, migrate_record, all_records, decryptLegacyRecord, getOrCreateWrapKey, storage_keys, storage_getItem,
    storage_setItem, storage_removeItem, storage_call, idb_call, refusable, generate_aes_key, get_random.
  trace_grows.
Qed.

Section keeps.
Context `{WebCrypto, Env, BrowserEnv}.

(** A step from one state, sequenced and caught. *)
Lemma keeps_bind {A B} (m : BM A) (f : A -> BM B) b :
  keeps b (m b).2 -> (forall a b1, m b = (Ok a, b1) -> keeps b1 (f a b1).2) -> keeps b ((m ≫= f) b).2.
Proof.
  intros Hm Hf. unfold mbind, eff_bind. destruct (m b) as [[a|e] b1] eqn:E; [|done].
  etrans; [exact Hm|]. by apply Hf.
Qed.

Lemma keeps_catch {A} (m : BM A) (f : jserror -> BM A) b :
  keeps b (m b).2 -> (forall e b1, keeps b1 (f e b1).2) -> keeps b (try_catch m f b).2.
Proof.
  intros Hm Hf. unfold try_catch. destruct (m b) as [[a|e] b1] eqn:E; [done|].
  etrans; [exact Hm|apply Hf].
Qed.

Lemma keeps_noted e b : keeps b (noted e b).
Proof. by split_and!. Qed.

Lemma keeps_node n b : keeps b (with_node n b).
Proof. by split_and!. Qed.

Lemma keeps_host {A} (m : M A) b : keeps b (host m b).2.
Proof. unfold host. destruct (m (b_node b)). apply keeps_node. Qed.

Lemma keeps_refusable e refusal b : keeps b (refusable e refusal b).2.
Proof. rewrite refusable_run. apply keeps_noted. Qed.

Lemma keeps_load id b : keeps b (secureLoadKey id b).2.
Proof. rewrite secureLoadKey_run. apply keeps_noted. Qed.

Lemma keeps_store id key b : stored_key b id = None -> keeps b (secureStoreKey id key b).2.
Proof.
  intros Hn. rewrite secureStoreKey_run. cbv zeta. destruct (env_idb_error _ _); [apply keeps_noted|].
  split_and!; try done. intros id' key' Hk. unfold stored_key in *. cbn.
  destruct (decide (id = id')) as [-> | Hne]; [congruence|]. by rewrite lookup_insert_ne.
Qed.

Lemma keeps_remove key b : keeps b (storage_removeItem LocalStorage key b).2.
Proof.
  rewrite removeItem_run. cbv zeta. destruct (env_storage_error _ _); [apply keeps_noted|].
  split_and!; try done. apply delete_subseteq.
Qed.

Lemma migrate_entry_keeps alg e b : keeps b (migrate_entry alg e b).2.
Proof.
  destruct e as [lsKey value]. unfold migrate_entry. apply keeps_bind; [apply keeps_load|].
  intros existing b1 E. rewrite secureLoadKey_run in E. destruct (env_idb_error _ _); [done|].
  injection E as <- <-. apply keeps_bind.
  - destruct (stored_key b lsKey) as [k|] eqn:Hs; [done|]. apply keeps_catch; [|done].
    apply keeps_bind; [done|]. intros key b2 E2. apply lift_inv in E2 as [_ ->]. by apply keeps_store.
  - intros [] b2 _. apply keeps_catch; [apply keeps_remove|done].
Qed.

(** Records are upgraded one id at a time; the other ids are untouched. *)
Lemma migrate_record_keeps alg id rec b :
  b_private b !! id = Some rec ->
  keeps b (migrate_record alg (id, rec) b).2 /\
  forall id', id' <> id -> b_private (migrate_record alg (id, rec) b).2 !! id' = b_private b !! id'.
Proof.
  intros Hid. destruct rec as [key|wrapped iv]; [done|].
  unfold migrate_record, decryptLegacyRecord, mbind, eff_bind.
  pose proof (frame_wrapKey b) as F. destruct (getOrCreateWrapKey b) as [[wk|e] b1] eqn:E; cbn [fst snd] in *.
  2: { split; [by apply frame_keeps|]. cbn. by destruct F as (_ & _ & -> & _). }
  cbn. destruct (match wk with AesKey k => aes_gcm_decrypt k iv wrapped | PrivateKey _ _ => None end) as [data|].
  2: { split; [by apply frame_keeps|]. cbn. by destruct F as (_ & _ & -> & _). }
  assert (stored_key b1 id = None) as Hn.
  { rewrite (frame_stored _ _ _ F). unfold stored_key. by rewrite Hid. }
  assert (b_private b1 = b_private b) as HP by (by destruct F as (_ & _ & -> & _)).
  unfold try_catch, lift, mbind, eff_bind. destruct (import_pkcs8 alg data) as [key|e].
  2: { split; [by apply frame_keeps|]. cbn. by rewrite HP. }
  pose proof (keeps_store id key b1 Hn) as K. rewrite secureStoreKey_run in *. cbv zeta in *.
  destruct (env_idb_error _ _); cbn [fst snd] in *.
  - split; [by etrans; [apply frame_keeps|]|]. cbn. by rewrite HP.
  - split; [by etrans; [apply frame_keeps|]|]. intros id' Hne. cbn. rewrite HP. by rewrite lookup_insert_ne.
Qed.

Lemma migrate_records_keeps alg l b :
  NoDup l.*1 -> Forall (fun r => b_private b !! r.1 = Some r.2) l ->
  keeps b (eff_iter (migrate_record alg) l b).2.
Proof.
  revert b. induction l as [|[id rec] l IH]; intros b Hd Hl; [done|].
  inversion_clear Hd as [|?? Hni Hd']. inversion_clear Hl as [|?? Hr Hl']. cbn [fst snd] in *.
  destruct (migrate_record_keeps alg id rec b Hr) as [K U]. cbn [eff_iter]. apply keeps_bind; [done|].
  intros [] b1 E. rewrite E in K, U. cbn [snd] in *. apply IH; [done|].
  rewrite Forall_forall in *. intros [id' rec'] Hin. cbn. rewrite U; [by apply (Hl' (id', rec'))|].
  intros ->. apply Hni. apply list_elem_of_fmap. by exists (id, rec').
Qed.

Lemma all_records_run b b' l :
  all_records b = (Ok l, b') ->
  reads b b' /\ NoDup l.*1 /\ Forall (fun r => b_private b' !! r.1 = Some r.2) l /\
  forall id rec, b_private b' !! id = Some rec -> (id, rec) ∈ l.
Proof.
  intros E. apply bind_inv in E as ([] & b1 & E1 & E2). cbn in E2. injection E2 as <- <-.
  unfold idb_call in E1. rewrite refusable_run in E1. injection E1 as _ <-. split; [by eexists|].
  match goal with |- context [merge_sort ?R ?l] => pose proof (merge_sort_Permutation R l) as P end.
  split_and!.
  - rewrite P. apply NoDup_fst_map_to_list.
  - rewrite Forall_forall. intros [id rec]. rewrite P. apply elem_of_map_to_list.
  - intros id rec Hl. rewrite P. by apply elem_of_map_to_list.
Qed.

Lemma migrate_keeps prefix alg b : keeps b (migrateFromLocalStorage prefix alg b).2.
Proof.
  unfold migrateFromLocalStorage. destruct (negb isBrowser); [done|]. apply keeps_bind.
  - apply frame_keeps. apply respects_catch; [apply _| |by intros e b']. apply respects_bind; [apply _|apply frame_keys|].
    by intros l b'.
  - intros entries b1 _. destruct entries as [l|]; [|done]. apply keeps_bind.
    + apply (respects_iter keeps). intros x b'. apply migrate_entry_keeps.
    + intros [] b2 _. unfold mbind, eff_bind. destruct (all_records b2) as [[records|e] b3] eqn:E.
      * apply all_records_run in E as (F & Hd & Hl & _). etrans; [by apply frame_keeps, reads_frame|]. by apply migrate_records_keeps.
      * unfold all_records, idb_call, mbind, eff_bind in E. rewrite refusable_run in E.
        destruct (env_idb_error _ _); [|done]. injection E as _ <-. apply keeps_noted.
Qed.

End keeps.

(** *** What an unrefused migration does *)

(** One legacy entry adopted into the store. *)
Definition adopt `{WebCrypto} (alg : KeyAlg) (p : gmap jstr StoredKey) (entry : jstr * jstr) : gmap jstr StoredKey :=
  match p !! entry.1, legacy_key alg entry.2 with
  | Some (KeyRecord _), _ | _, Throw _ => p
  | _, Ok key => <[entry.1 := KeyRecord key]> p
  end.

(** The key that unwraps legacy records, when there is one already. *)
Definition wrap_key (b : Browser) : option CryptoKey :=
  match b_wrapKey b with Some key => Some key | None => b_master b end.

Section adopt.
Context `{WebCrypto}.

Lemma adopt_other alg p e k : k <> e.1 -> adopt alg p e !! k = p !! k.
Proof.
  intros Hne. unfold adopt. destruct (p !! e.1) as [[]|], (legacy_key alg e.2); try done;
    by rewrite lookup_insert_ne.
Qed.

Lemma adopt_all_other alg l p k : k ∉ l.*1 -> foldl (adopt alg) p l !! k = p !! k.
Proof.
  revert p. induction l as [|e l IH]; intros p Hk; [done|]. cbn in *. apply not_elem_of_cons in Hk as [Hne Hk].
  rewrite IH by done. by apply adopt_other.
Qed.

Lemma adopt_all_in alg l p k v : NoDup l.*1 -> (k, v) ∈ l -> foldl (adopt alg) p l !! k = adopt alg p (k, v) !! k.
Proof.
  revert p. induction l as [|[k0 v0] l IH]; intros p Hd Hin; [by apply not_elem_of_nil in Hin|].
  inversion_clear Hd as [|?? Hni Hd']. cbn [foldl]. apply elem_of_cons in Hin as [[= -> ->]|Hin].
  - by apply adopt_all_other.
  - assert (k <> k0) as Hne.
    { intros ->. apply Hni. apply list_elem_of_fmap. by exists (k0, v). }
    rewrite IH by done. unfold adopt. cbn [fst snd]. destruct (p !! k0) as [[]|], (legacy_key alg v0);
      rewrite ?lookup_insert_ne by done; try done; destruct (p !! k) as [[]|] eqn:Ek, (legacy_key alg v);
      by rewrite ?lookup_insert_eq, ?lookup_insert_ne, ?Ek by done.
Qed.

End adopt.

Lemma delete_all_lookup (l : list (jstr * jstr)) (m : gmap jstr jstr) k :
  foldl (fun m e => delete e.1 m) m l !! k = (if decide (k ∈ l.*1) then None else m !! k).
Proof.
  revert m. induction l as [|e l IH]; intros m; [by rewrite decide_False by apply not_elem_of_nil|].
  cbn [foldl fmap list_fmap]. rewrite IH. destruct (decide (k ∈ l.*1)) as [Hin|Hni].
  - rewrite decide_True; [done|]. by apply elem_of_cons; right.
  - destruct (decide (k = e.1)) as [->|Hne].
    + rewrite decide_True by (apply elem_of_cons; by left). by apply lookup_delete_eq.
    + rewrite decide_False by (by rewrite elem_of_cons; intros [?|?]). by apply lookup_delete_ne.
Qed.

(** The entries [keys_to_migrate] collects from [keys]. *)
Definition legacy_values (m : gmap jstr jstr) (keys : list jstr) : list (jstr * jstr) :=
  concat (map (fun k => match m !! k with Some v => if truthy_str v then [(k, v)] else [] | None => [] end) keys).

Lemma legacy_values_in m keys k v :
  (k, v) ∈ legacy_values m keys <-> k ∈ keys /\ m !! k = Some v /\ truthy_str v = true.
Proof.
  unfold legacy_values. rewrite list_elem_of_In, in_concat. setoid_rewrite in_map_iff. split.
  - intros (l & (k' & <- & Hk') & Hin). destruct (m !! k') as [v'|] eqn:E; [|done].
    destruct (truthy_str v') eqn:Ht; [|done]. destruct Hin as [[= <- <-]|[]]. by rewrite list_elem_of_In.
  - intros (Hk & Hm & Ht). exists [(k, v)]. split; [|by left]. exists k. rewrite Hm, Ht.
    by rewrite <- list_elem_of_In.
Qed.

Lemma legacy_values_sub m keys : sublist (legacy_values m keys).*1 keys.
Proof.
  unfold legacy_values. induction keys as [|k keys IH]; [done|]. cbn [map concat].
  destruct (m !! k) as [v|]; [destruct (truthy_str v)|]; cbn; by constructor.
Qed.

Section accepted.
Context `{WebCrypto, Env, BrowserEnv, !NeverRefuses}.

Lemma storage_call_ok op b : storage_call op b = (Ok tt, noted (EvStorage op) b).
Proof. unfold storage_call. by rewrite refusable_run, storage_accepts. Qed.

Lemma idb_call_ok op b : idb_call op b = (Ok tt, noted (EvIdb op) b).
Proof. unfold idb_call. by rewrite refusable_run, idb_accepts. Qed.

Lemma keys_to_migrate_ok prefix b :
  exists l b', keys_to_migrate prefix b = (Ok l, b') /\ reads b b' /\ NoDup l.*1 /\
    forall k v, (k, v) ∈ l <-> b_local b !! k = Some v /\ starts_with prefix k = true /\ truthy_str v = true.
Proof.
  unfold keys_to_migrate, storage_keys, storage_getItem.
  erewrite bind_ok by (erewrite bind_ok by apply storage_call_ok; reflexivity).
  set (b1 := noted _ b). assert (reads b b1) as F1 by by eexists.
  match goal with |- context [eff_map ?f ?l] => set (keys := l); set (get := f) end.
  assert (forall ks b2, reads b b2 -> exists b3, eff_map get ks b2
    = (Ok (map (fun k => match b_local b !! k with Some v => if truthy_str v then [(k, v)] else [] | None => [] end) ks), b3)
    /\ reads b b3) as Hmap.
  { induction ks as [|k ks IH]; intros b2 F2; [by eexists|]. cbn [eff_map map].
    erewrite bind_ok by (unfold get; erewrite bind_ok by (erewrite bind_ok by apply storage_call_ok; reflexivity); reflexivity).
    destruct (IH (noted (EvStorage (StGet LocalStorage k)) b2)) as (b3 & E3 & F3); [by etrans; [|eexists]|].
    erewrite bind_ok by exact E3. exists b3. split; [|done].
    assert (b_local b2 = b_local b) as Hl by (by destruct F2 as [n ->]). cbn. by rewrite Hl. }
  destruct (Hmap keys b1 F1) as (b3 & E3 & F3). erewrite bind_ok by exact E3.
  exists (legacy_values (b_local b) keys), b3. split_and!; [done|done| |].
  - eapply sublist_NoDup; [|apply legacy_values_sub]. apply NoDup_filter, NoDup_fst_map_to_list.
  - intros k v. rewrite legacy_values_in. unfold keys. rewrite list_elem_of_filter, list_elem_of_fmap.
    split; [by intros [[? ?] [? ?]]|]. intros (Hk & Hp & Ht). split_and!; try done. exists (k, v). split; [done|].
    by apply elem_of_map_to_list.
Qed.

Lemma migrate_entry_ok alg e b :
  exists b', migrate_entry alg e b = (Ok tt, b') /\ b_private b' = adopt alg (b_private b) e /\
    b_local b' = delete e.1 (b_local b) /\ wrap_key b' = wrap_key b.
Proof.
  destruct e as [k v]. unfold migrate_entry.
  erewrite bind_ok by (by rewrite secureLoadKey_run, idb_accepts). unfold stored_key, adopt. cbn [fst snd].
  assert (forall b1, exists b', try_catch (storage_removeItem LocalStorage k) (fun _ => mret tt) b1 = (Ok tt, b') /\
    b_private b' = b_private b1 /\ b_local b' = delete k (b_local b1) /\ wrap_key b' = wrap_key b1) as Hrm.
  { intros b1. unfold try_catch. rewrite removeItem_run, storage_accepts. cbv zeta. by eexists. }
  set (b1 := noted (EvIdb (IdbGet STORE_PRIVATE_KEYS k)) b).
  assert (exists b', (try_catch (imported ← lift (legacy_key alg v); secureStoreKey k imported) (fun _ => mret tt) ;;
      try_catch (storage_removeItem LocalStorage k) (fun _ => mret tt)) b1 = (Ok tt, b') /\
    b_private b' = match legacy_key alg v with Ok key => <[k := KeyRecord key]> (b_private b) | Throw _ => b_private b end /\
    b_local b' = delete k (b_local b) /\ wrap_key b' = wrap_key b) as (b' & E & P & L & W).
  { destruct (legacy_key alg v) as [key|err]; [|apply (Hrm b1)].
    destruct (Hrm (with_private (<[k := KeyRecord key]> (b_private b))
      (noted (EvIdb (IdbPut STORE_PRIVATE_KEYS k)) b1))) as (b' & E & P & L & W).
    exists b'. split; [|by split_and!]. erewrite bind_ok; [exact E|].
    unfold try_catch, lift, mbind, eff_bind. by rewrite secureStoreKey_run, idb_accepts. }
  destruct (b_private b !! k) as [[key|w iv]|]; [apply (Hrm b1)| |];
    exists b'; (split; [exact E|]); rewrite P, L, W; by destruct (legacy_key alg v).
Qed.

Lemma migrate_entries_ok alg l b :
  exists b', eff_iter (migrate_entry alg) l b = (Ok tt, b') /\ b_private b' = foldl (adopt alg) (b_private b) l /\
    b_local b' = foldl (fun m e => delete e.1 m) (b_local b) l /\ wrap_key b' = wrap_key b.
Proof.
  revert b. induction l as [|e l IH]; intros b; [by eexists|]. cbn [eff_iter foldl].
  destruct (migrate_entry_ok alg e b) as (b1 & E1 & P1 & L1 & W1). erewrite bind_ok by exact E1.
  destruct (IH b1) as (b2 & E2 & P2 & L2 & W2). exists b2. by rewrite E2, P2, P1, L2, L1, W2, W1.
Qed.

Lemma wrapKey_ok b :
  exists k b', getOrCreateWrapKey b = (Ok k, b') /\ b_local b' = b_local b /\ wrap_key b' = Some k /\ forall k0, wrap_key b = Some k0 -> k = k0.
Proof.
  unfold getOrCreateWrapKey, wrap_key. erewrite bind_ok by reflexivity.
  destruct (b_wrapKey b) as [k|] eqn:Ek.
  { exists k, b. rewrite Ek. split_and!; [done..|by intros k0 [= ->]]. }
  destruct (b_master b) as [k|] eqn:Em.
  - erewrite bind_ok.
    2: { erewrite bind_ok by apply idb_call_ok. erewrite bind_ok by reflexivity. cbn. rewrite Em. reflexivity. }
    eexists k, _. split_and!; [reflexivity|done|done|by intros k0 [= ->]].
  - erewrite bind_ok.
    2: { erewrite bind_ok by apply idb_call_ok. erewrite bind_ok by reflexivity. cbn. rewrite Em.
         erewrite bind_ok by (unfold generate_aes_key; erewrite bind_ok by reflexivity; reflexivity).
         erewrite bind_ok by apply idb_call_ok. erewrite bind_ok by reflexivity. reflexivity. }
    eexists _, _. by split_and!.
Qed.

(** What a record becomes. *)
Lemma migrate_record_ok alg id rec b :
  exists b', migrate_record alg (id, rec) b = (Ok tt, b') /\ b_local b' = b_local b /\
    (forall k0, wrap_key b = Some k0 -> wrap_key b' = Some k0) /\
    forall wrapped iv mk data key, rec = LegacyWrappedKeyRecord wrapped iv -> wrap_key b = Some (AesKey mk) ->
      aes_gcm_decrypt mk iv wrapped = Some data -> import_pkcs8 alg data = Ok key -> stored_key b' id = Some key.
Proof.
  destruct rec as [key|wrapped iv]; [by eexists|].
  unfold migrate_record, decryptLegacyRecord. destruct (wrapKey_ok b) as (k & b1 & E1 & L1 & W1 & U1).
  erewrite bind_ok by (erewrite bind_ok by exact E1; reflexivity).
  destruct (match k with AesKey k => aes_gcm_decrypt k iv wrapped | PrivateKey _ _ => None end) as [data|] eqn:Ed.
  2: { exists b1. split_and!; [done|done|naive_solver|]. intros ? ? ? ? ? [= <- <-] Hw%U1 Hd. subst k. congruence. }
  unfold try_catch, lift, mbind, eff_bind. destruct (import_pkcs8 alg data) as [key|e] eqn:Ei.
  - rewrite secureStoreKey_run, idb_accepts. cbv zeta. eexists. split_and!; [done|done|naive_solver|].
    intros ? ? ? ? ? [= <- <-] Hw%U1 Hd Hi. subst k. unfold stored_key. cbn. rewrite lookup_insert_eq. congruence.
  - exists b1. split_and!; [done|done|naive_solver|]. intros ? ? ? ? ? [= <- <-] Hw%U1 Hd. subst k. congruence.
Qed.

Lemma migrate_records_ok alg l b :
  NoDup l.*1 -> Forall (fun r => b_private b !! r.1 = Some r.2) l ->
  exists b', eff_iter (migrate_record alg) l b = (Ok tt, b') /\ keeps b b' /\ b_local b' = b_local b /\
    forall id wrapped iv mk data key, (id, LegacyWrappedKeyRecord wrapped iv) ∈ l -> wrap_key b = Some (AesKey mk) ->
      aes_gcm_decrypt mk iv wrapped = Some data -> import_pkcs8 alg data = Ok key -> stored_key b' id = Some key.
Proof.
  revert b. induction l as [|[id rec] l IH]; intros b Hd Hl.
  { exists b. split_and!; [done..|]. by intros ? ? ? ? ? ? ?%not_elem_of_nil. }
  inversion_clear Hd as [|?? Hni Hd']. inversion_clear Hl as [|?? Hr Hl']. cbn [fst snd] in *.
  destruct (migrate_record_ok alg id rec b) as (b1 & E1 & L1 & W1 & S1).
  destruct (migrate_record_keeps alg id rec b Hr) as [K U]. rewrite E1 in K, U. cbn [snd] in *.
  assert (Forall (fun r => b_private b1 !! r.1 = Some r.2) l) as Hl1.
  { rewrite Forall_forall in *. intros [id' rec'] Hin. cbn. rewrite U; [by apply (Hl' (id', rec'))|].
    intros ->. apply Hni. apply list_elem_of_fmap. by exists (id, rec'). }
  destruct (IH b1 Hd' Hl1) as (b2 & E2 & K2 & L2 & S2). exists b2. cbn [eff_iter]. erewrite bind_ok by exact E1.
  split_and!; [done|by etrans|congruence|]. intros id' wrapped iv mk data key [[= -> <-]|Hin]%elem_of_cons Hw Hdec Hi.
  - destruct K2 as [K2 _]. apply K2. by eapply S1.
  - by eapply S2; eauto.
Qed.

Lemma migrate_ok prefix alg b :
  exists b', migrateFromLocalStorage prefix alg b = (Ok tt, b') /\
    (forall k, b_local b' !! k = match b_local b !! k with
                                 | Some v => if starts_with prefix k && truthy_str v then None else Some v
                                 | None => None end) /\
    (forall k v key, b_local b !! k = Some v -> starts_with prefix k = true -> truthy_str v = true ->
       legacy_key alg v = Ok key -> stored_key b k = None -> stored_key b' k = Some key) /\
    (forall id wrapped iv mk data key, b_private b !! id = Some (LegacyWrappedKeyRecord wrapped iv) ->
       b_local b !! id = None -> wrap_key b = Some (AesKey mk) ->
       aes_gcm_decrypt mk iv wrapped = Some data -> import_pkcs8 alg data = Ok key -> stored_key b' id = Some key).
Proof.
  unfold migrateFromLocalStorage. rewrite in_browser. cbn [negb].
  destruct (keys_to_migrate_ok prefix b) as (l & b1 & E1 & F1 & Hd & Hl).
  erewrite bind_ok by (unfold try_catch; erewrite bind_ok by exact E1; reflexivity).
  destruct (migrate_entries_ok alg l b1) as (b2 & E2 & P2 & L2 & W2). erewrite bind_ok by exact E2.
  destruct (all_records b2) as [[records|e] b3] eqn:E3.
  2: { unfold all_records in E3. erewrite bind_ok in E3 by apply idb_call_ok. done. }
  erewrite bind_ok by exact E3. apply all_records_run in E3 as (F3 & Hd3 & Hr3 & Hc3).
  destruct (migrate_records_ok alg records b3 Hd3 Hr3) as (b4 & E4 & [K4 _] & L4 & S4).
  destruct F1 as [n1 ->], F3 as [n3 ->]. exists b4. cbn in P2, L2, L4, Hc3, S4.
  split_and!; [done| | |].
  - intros k. rewrite L4, L2, delete_all_lookup. specialize (Hl k).
    destruct (b_local b !! k) as [v|] eqn:Ek; [|by destruct (decide _)].
    destruct (starts_with prefix k && truthy_str v) eqn:Ep.
    + rewrite decide_True; [done|]. apply list_elem_of_fmap. exists (k, v). split; [done|]. apply Hl.
      by apply andb_true_iff in Ep.
    + rewrite decide_False; [done|]. intros ([k' v'] & -> & Hin)%list_elem_of_fmap. cbn in *.
      apply Hl in Hin as (Hv & Hp & Ht). injection Hv as <-. by rewrite Hp, Ht in Ep.
  - intros k v key Hk Hp Ht Hkey Hn. apply K4. unfold stored_key in *. cbn. rewrite P2.
    rewrite (adopt_all_in alg l _ k v Hd) by (by apply Hl). unfold adopt. cbn. rewrite Hkey.
    by destruct (b_private b !! k) as [[]|]; rewrite ?lookup_insert_eq.
  - intros id wrapped iv mk data key Hid Hn Hw. apply (S4 id wrapped iv mk data key).
    + apply Hc3. rewrite P2, adopt_all_other; [done|]. intros ([k v] & -> & Hin)%list_elem_of_fmap.
      apply Hl in Hin as [Hk _]. cbn in *. congruence.
    + rewrite <- Hw. exact W2.
Qed.

End accepted.

(** *** Loading a key *)

Section rings.
Context `{WebCrypto, Env, BrowserEnv, !NeverRefuses}.
Variable r : RingName.

Lemma stored_ring k b id : stored_key (with_ring r k b) id = stored_key b id.
Proof. done. Qed.

Lemma ring_with k b : ring r (with_ring r k b) = k.
Proof. by destruct r. Qed.

(** The key a get returns: the remembered one, else the stored one after the
    migration. *)
Lemma ensureMigration_ok b :
  exists b', Ring.ensureMigration r b = (Ok tt, b') /\ kr_memory (ring r b') = kr_memory (ring r b) /\
    (forall id key, stored_key b id = Some key -> stored_key b' id = Some key) /\
    (kr_migrated (ring r b) = false -> forall k v key, b_local b !! k = Some v ->
       starts_with (ring_prefix r) k = true -> truthy_str v = true -> legacy_key (ring_alg r) v = Ok key ->
       stored_key b k = None -> stored_key b' k = Some key /\ b_local b' !! k = None).
Proof.
  unfold Ring.ensureMigration. erewrite bind_ok by reflexivity.
  destruct (kr_migrated (ring r b)); [by exists b|]. unfold isKeystoreAvailable. rewrite in_browser. cbn [negb].
  destruct (migrate_ok (ring_prefix r) (ring_alg r) b) as (b1 & E1 & L1 & S1 & _).
  pose proof (migrate_keeps (ring_prefix r) (ring_alg r) b) as (K1 & _ & _ & R1 & G1). rewrite E1 in *. cbn [snd] in *.
  erewrite bind_ok by (unfold try_catch; rewrite E1; reflexivity).
  eexists. split; [reflexivity|]. split; [rewrite ring_with; by destruct r; cbn; rewrite ?R1, ?G1|].
  split; [exact K1|]. intros _ k v key Hk Hp Ht Hkey Hn. split; [by apply (S1 k v key)|].
  cbn. by rewrite L1, Hk, Hp, Ht.
Qed.

Lemma getPrivateKey_ok did b b1 key :
  Ring.ensureMigration r b = (Ok tt, b1) ->
  (kr_memory (ring r b1) !! did = Some key \/
   kr_memory (ring r b1) !! did = None /\ stored_key b1 (Ring.storageKey r did) = Some key) ->
  exists b2, Ring.getPrivateKey r did b = (Ok (Some key), b2) /\ kr_memory (ring r b2) !! did = Some key /\
    b_local b2 = b_local b1.
Proof.
  intros E1 Hm. unfold Ring.getPrivateKey. erewrite bind_ok by exact E1. erewrite bind_ok by reflexivity.
  destruct Hm as [Hm|[Hm Hs]]; rewrite Hm; [by exists b1|].
  unfold isKeystoreAvailable. rewrite in_browser. cbn [negb].
  erewrite bind_ok by (by rewrite secureLoadKey_run, idb_accepts). rewrite Hs.
  erewrite bind_ok by reflexivity. eexists. split; [reflexivity|]. rewrite ring_with. split; [by apply lookup_insert_eq|].
  done.
Qed.

End rings.

Section again.
Context `{WebCrypto, Env, BrowserEnv}.
Variable r : RingName.

Lemma ensureMigration_total b :
  exists b', Ring.ensureMigration r b = (Ok tt, b') /\ kr_migrated (ring r b') = true.
Proof.
  unfold Ring.ensureMigration. erewrite bind_ok by reflexivity.
  destruct (kr_migrated (ring r b)) eqn:Em; [by exists b|]. destruct (negb isKeystoreAvailable).
  { eexists. split; [reflexivity|]. by rewrite ring_with. }
  unfold try_catch at 1, mbind, eff_bind. destruct (migrateFromLocalStorage _ _ b) as [[[]|e] b1];
    (eexists; split; [reflexivity|]; by rewrite ring_with).
Qed.

Lemma ensureMigration_done b : kr_migrated (ring r b) = true -> Ring.ensureMigration r b = (Ok tt, b).
Proof. intros Hm. unfold Ring.ensureMigration. erewrite bind_ok by reflexivity. by rewrite Hm. Qed.

(** A key once found is remembered. *)
Lemma getPrivateKey_again did key b b' :
  Ring.getPrivateKey r did b = (Ok (Some key), b') -> Ring.getPrivateKey r did b' = (Ok (Some key), b').
Proof.
  unfold Ring.getPrivateKey at 1. destruct (ensureMigration_total b) as (b1 & E1 & M1).
  rewrite (bind_ok _ _ _ _ _ E1). rewrite (bind_ok get_state _ b1 b1 b1) by done.
  assert (kr_migrated (ring r b') = true -> kr_memory (ring r b') !! did = Some key ->
    Ring.getPrivateKey r did b' = (Ok (Some key), b')) as Hdone.
  { intros Hm Hk. unfold Ring.getPrivateKey. erewrite bind_ok by by apply ensureMigration_done.
    erewrite bind_ok by reflexivity. by rewrite Hk. }
  destruct (kr_memory (ring r b1) !! did) as [k|] eqn:Ek.
  { intros [= -> ->]. by apply Hdone. }
  destruct (negb isKeystoreAvailable); [done|]. intros E. apply bind_inv in E as (k & b2 & E2 & E3).
  rewrite secureLoadKey_run in E2. destruct (env_idb_error _ _); [done|]. injection E2 as Ek2 <-.
  destruct k as [k|]; [|done]. cbn in E3. injection E3 as -> Eb. rewrite <- Eb in *.
  apply Hdone; rewrite ring_with; cbn [kr_migrated kr_memory]; [destruct r; exact M1|apply lookup_insert_eq].
Qed.

End again.

(** * Properties *)



(** What is saved is what is loaded.  After [saveRecipientPrivateKey] (or the
    signing ring's) the same page gets the same key back, and so does a new
    page of the same browser, whatever legacy entries it has to migrate
    first. *)
Theorem keyring_roundtrip `{WebCrypto, Env, BrowserEnv, !NeverRefuses}
    (r : RingName) (did : jstr) (key : CryptoKey) (b : Browser) :
  truthy_str did = true ->
  exists b1, Ring.savePrivateKey r did key b = (Ok tt, b1) /\
    (exists b2, Ring.getPrivateKey r did b1 = (Ok (Some key), b2)) /\
    (exists b2, Ring.getPrivateKey r did (reload b1) = (Ok (Some key), b2)).
Proof.
  intros Ht. unfold Ring.savePrivateKey. rewrite Ht. cbn [negb]. erewrite bind_ok by reflexivity.
  unfold isKeystoreAvailable. rewrite in_browser. unfold try_catch. rewrite secureStoreKey_run, idb_accepts.
  cbv zeta. eexists. split; [reflexivity|].
  match goal with |- (exists b2, Ring.getPrivateKey r did ?x = _) /\ _ => set (b1 := x) end.
  assert (kr_memory (ring r b1) !! did = Some key) as Hm by (destruct r; apply lookup_insert_eq).
  assert (stored_key b1 (Ring.storageKey r did) = Some key) as Hs by (unfold stored_key; cbn; by rewrite lookup_insert_eq).
  split.
  - destruct (ensureMigration_ok r b1) as (b2 & E2 & M2 & _).
    destruct (getPrivateKey_ok r did b1 b2 key E2) as (b3 & E3 & _); [left; by rewrite M2|eauto].
  - destruct (ensureMigration_ok r (reload b1)) as (b2 & E2 & M2 & S2 & _).
    destruct (getPrivateKey_ok r did (reload b1) b2 key E2) as (b3 & E3 & _); [|eauto].
    right. split; [rewrite M2; by destruct r|]. by apply S2.
Qed.

Example keyring_roundtrip_witness :
  let _ := quiet_env in let _ := open_browser in
  exists b1, Ring.savePrivateKey SigningRing (js "did:key:zA") (PrivateKey Ed25519 (replicate 32 5)) new_profile = (Ok tt, b1) /\
    (exists b2, Ring.getPrivateKey SigningRing (js "did:key:zA") b1 = (Ok (Some (PrivateKey Ed25519 (replicate 32 5))), b2)) /\
    (exists b2, Ring.getPrivateKey SigningRing (js "did:key:zA") (reload b1)
                = (Ok (Some (PrivateKey Ed25519 (replicate 32 5))), b2)).
Proof. intros en br. apply keyring_roundtrip. reflexivity. Defined.

(** Whatever the browser refuses and wherever it fails, a request for a key
    loses no stored key: every key that could be loaded from the store before
    can be loaded after, and [localStorage] gains nothing. *)
Theorem keyring_get_loses_nothing `{WebCrypto, Env, BrowserEnv} (r : RingName) (did : jstr) (b : Browser) :
  let b' := (Ring.getPrivateKey r did b).2 in
  (forall id key, stored_key b id = Some key -> stored_key b' id = Some key) /\
  b_local b' ⊆ b_local b /\ b_session b' = b_session b.
Proof.
  set (R := fun b b' => (forall id key, stored_key b id = Some key -> stored_key b' id = Some key) /\
    b_local b' ⊆ b_local b /\ b_session b' = b_session b).
  assert (PreOrder R) as HR.
  { split; [by intros x; split_and!|]. intros x y z (A1 & A2 & A3) (B1 & B2 & B3).
    split_and!; [auto|by etrans|congruence]. }
  assert (forall {A} (m : BM A), (forall b, keeps b (m b).2) -> respects R m) as Hkeep.
  { intros A m Hm x. by destruct (Hm x) as (? & ? & ? & _). }
  assert (forall f, (forall b, stored_key (f b) = stored_key b /\ b_local (f b) = b_local b /\ b_session (f b) = b_session b) ->
    respects R (update f)) as Hupd.
  { intros f Hf x. destruct (Hf x) as (F1 & F2 & F3). cbn. unfold R. by rewrite F1, F2, F3. }
  apply (respects_bind R).
  - unfold Ring.ensureMigration, Ring.set_migrated. apply (respects_bind R); [by intros x|]. intros x.
    destruct (kr_migrated (ring r x)); [by intros y|].
    destruct (negb isKeystoreAvailable); [by apply Hupd|]. apply (respects_bind R); [|intros _; by apply Hupd].
    apply Hkeep. intros y. apply keeps_catch; [apply migrate_keeps|done].
  - intros _. apply (respects_bind R); [by intros x|]. intros x. destruct (kr_memory (ring r x) !! did); [by intros y|].
    destruct (negb isKeystoreAvailable); [by intros y|]. apply (respects_bind R).
    + apply Hkeep. intros y. apply keeps_load.
    + intros [key|]; [|by intros y]. apply (respects_bind R); [by apply Hupd|by intros _ y].
Qed.

(** A key whose write to IndexedDB is refused is lost: the legacy entry, its
    only copy, is removed all the same. *)
Lemma refused_write_loses_legacy_key :
  let _ := quiet_env in
  let _ := refusing_browser (fun _ => None)
             (fun op => match op with IdbPut _ _ => Some (JsError (js "QuotaExceededError") []) | _ => None end) in
  let id := Ring.storageKey RecipientRing (js "did:key:zA") in
  let b := with_area LocalStorage {[id := toBase64Url (replicate 32 7)]} new_profile in
  let '(key, b') := Ring.getPrivateKey RecipientRing (js "did:key:zA") b in
  key = Ok None /\ b_local b' !! id = None /\ b_private b' !! id = None.
Proof. vm_compute. split_and!; reflexivity. Qed.
