(* ===== verification/WebEnvelope.v ===== *)
(** The browser's end-to-end cryptography: apps/web/lib/crypto/keywrap.ts,
    signature.ts, envelope.ts and attachment.ts.

    Every file carries its own base64url helpers, with the text of
    packages/crypto ([CryptoB64]); here they are [toBase64Url] and
    [fromBase64Url] of [WebKeystore]. *)
From S2P Require Import Prelude Base64 Utf8 JsNumber Json Effect Node Envelope Browser WebKeystore.

Definition InvalidAccessError : jserror :=
  JsError (js "InvalidAccessError") (js "key.algorithm does not match that of operation").

(** ** keywrap.ts *)
Module KeyWrap.

Record WrapResult := Wrapped {
  wrappedKey : jstr; ephemeralPublicKey : jstr; wr_iv : jstr; wr_salt : jstr; ciphertext : jstr
}.

Definition WRAP_PREFIX : jstr := js "x25519v1:".
Definition IV_BYTES : nat := 12.
Definition SALT_BYTES : nat := 16.

(** The key comes from server JSON. *)
Definition isValidX25519PublicKeyB64Url (publicKeyB64Url : jval) : bool :=
  match publicKeyB64Url with
  | JStr s =>
    truthy_str s && match fromBase64Url s with Ok raw => (length raw =? 32)%nat | Throw _ => false end
  | _ => false
  end.

Section keywrap.
Context `{WebCrypto, Env}.

Definition deriveWrapKey (sharedSecret salt : bytes) : bytes :=
  hkdf_sha256 sharedSecret salt (utf8_encode (js "nexusinbox/x25519-wrap/v1")).

Definition importX25519PublicKey (publicKeyB64Url : jval) : res bytes :=
  throw_if (negb (isValidX25519PublicKeyB64Url publicKeyB64Url)) (Error_ (js "invalid x25519 public key format")) ;;
  match publicKeyB64Url with JStr s => fromBase64Url s | _ => Throw DataError end.

Definition wrapContentKeyForRecipient (contentKey : jstr) (recipientPublicKeyB64Url : jval) : M WrapResult :=
  recipientPublicKey ← lift (importX25519PublicKey recipientPublicKeyB64Url);
  ephemeral ← generate_key X25519;
  sharedSecret ← lift (or_throw (x25519_shared ephemeral recipientPublicKey) OperationError);
  iv ← get_random IV_BYTES;
  salt ← get_random SALT_BYTES;
  let wrapKey := deriveWrapKey sharedSecret salt in
  let ct := aes_gcm_encrypt wrapKey iv (utf8_encode contentKey) in
  let ephemeralRaw := key_public X25519 ephemeral in
  mret (Wrapped
    (WRAP_PREFIX ++ toBase64Url ephemeralRaw ++ js ":" ++ toBase64Url salt ++ js ":" ++ toBase64Url iv
     ++ js ":" ++ toBase64Url ct)
    (toBase64Url ephemeralRaw) (toBase64Url iv) (toBase64Url salt) (toBase64Url ct)).

Definition unwrapContentKeyWithRecipientPrivateKey (wrappedKey : jstr) (recipientPrivateKey : CryptoKey) : res jstr :=
  throw_if (negb (starts_with WRAP_PREFIX wrappedKey)) (Error_ (js "unsupported wrapped key format")) ;;
  let raw := drop (length WRAP_PREFIX) wrappedKey in
  let parts := split_on 58 raw in
  let ephemeralPublicKeyB64 := nth 0 parts [] in
  let saltB64 := nth 1 parts [] in
  let ivB64 := nth 2 parts [] in
  let ciphertextB64 := nth 3 parts [] in
  throw_if (negb (truthy_str ephemeralPublicKeyB64) || negb (truthy_str saltB64) || negb (truthy_str ivB64)
            || negb (truthy_str ciphertextB64)) (Error_ (js "invalid wrapped key format")) ;;
  ephemeralRaw ← fromBase64Url ephemeralPublicKeyB64;
  ephemeralPublicKey ← Decrypt.import_x25519_raw ephemeralRaw;
  sharedSecret ← match recipientPrivateKey with
                 | PrivateKey X25519 k => or_throw (x25519_shared k ephemeralPublicKey) OperationError
                 | _ => Throw InvalidAccessError
                 end;
  salt ← fromBase64Url saltB64;
  iv ← fromBase64Url ivB64;
  ct ← fromBase64Url ciphertextB64;
  let wrapKey := deriveWrapKey sharedSecret salt in
  plaintext ← or_throw (aes_gcm_decrypt wrapKey iv ct) OperationError;
  Ok (text_decode plaintext).

End keywrap.
End KeyWrap.

(** ** signature.ts *)
Module Signature.

Definition isValidEd25519PublicKeyB64Url (publicKey : jstr) : bool :=
  match fromBase64Url publicKey with Ok raw => (length raw =? 32)%nat | Throw _ => false end.

Section signature.
Context `{WebCrypto}.

Definition signEnvelopePayload (signingPrivateKey : CryptoKey) (senderDid recipientDid : jval)
    (subjectEncrypted encryptedContent encryptedKey nonce : jstr) : res jstr :=
  let payload := join_with [10] [join_part senderDid; join_part recipientDid; subjectEncrypted; encryptedContent;
                                 encryptedKey; nonce] in
  match signingPrivateKey with
  | PrivateKey Ed25519 k => Ok (toBase64Url (ed25519_sign k (utf8_encode payload)))
  | _ => Throw InvalidAccessError
  end.

End signature.
End Signature.

(** ** envelope.ts *)
Module WebText.

Definition ENCRYPTED_PLACEHOLDER : jstr := js "__ENCRYPTED_PLACEHOLDER__".

Inductive DecryptState := passthrough | readable | outcome_ok | error | no_key.

#[global] Instance state_eq_dec : EqDecision DecryptState.
Proof. solve_decision. Defined.

Record DecryptEnvelopeResult := Decrypted { state : DecryptState; text : jstr }.

Record EncryptedText := Encrypted { serialized : jstr; et_nonce : jstr; encryptedKey : jstr }.

Section envelope.
Context `{WebCrypto, Env}.

Definition generateContentKey : M jstr := k ← get_random 32; mret (toBase64Url k).

(** [plaintext] may come from a form or JSON; [options] is the content key. *)
Definition encryptEnvelopeText (plaintext : jstr) (options : option jstr) : M EncryptedText :=
  contentKey ← match options with Some k => mret k | None => generateContentKey end;
  payload ← CryptoPkg.encryptText (JStr plaintext) contentKey;
  mret (Encrypted (CryptoPkg.serializeEncryptedPayload payload) (iv payload) []).

Definition decryptEnvelopeTextWithContentKey (maybeEncrypted contentKey : jstr) : DecryptEnvelopeResult :=
  match CryptoPkg.parseEncryptedPayload maybeEncrypted with
  | None => Decrypted passthrough maybeEncrypted
  | Some parsed =>
    match CryptoPkg.decryptText parsed contentKey with
    | Ok plaintext => Decrypted readable plaintext
    | Throw _ => Decrypted error ENCRYPTED_PLACEHOLDER
    end
  end.

Context `{BrowserEnv}.

Definition decodeWrappedContentKey (encryptedKey : jstr) (recipientDid : option jstr) : BM (option jstr) :=
  if negb (starts_with (js "x25519v1:") encryptedKey) then mret None
  else
    match recipientDid with
    | None | Some [] => mret None
    | Some did =>
      privateKey ← RecipientKeyring.getRecipientPrivateKey did;
      mret match privateKey with
           | None => None
           | Some k =>
             match KeyWrap.unwrapContentKeyWithRecipientPrivateKey encryptedKey k with
             | Ok contentKey => Some contentKey
             | Throw _ => None
             end
           end
    end.

Definition decryptEnvelopeTextWithState (maybeEncrypted : jstr) (encryptedKey recipientDid : option jstr)
    : BM DecryptEnvelopeResult :=
  match CryptoPkg.parseEncryptedPayload maybeEncrypted with
  | None => mret (Decrypted passthrough maybeEncrypted)
  | Some parsed =>
    resolvedContentKey ← match encryptedKey with
                         | None | Some [] => mret None
                         | Some k => decodeWrappedContentKey k recipientDid
                         end;
    mret match resolvedContentKey with
         | None | Some [] => Decrypted no_key ENCRYPTED_PLACEHOLDER
         | Some contentKey =>
           match CryptoPkg.decryptText parsed contentKey with
           | Ok plaintext => Decrypted readable plaintext
           | Throw _ => Decrypted error ENCRYPTED_PLACEHOLDER
           end
         end
  end.

Definition decryptEnvelopeText (maybeEncrypted : jstr) (encryptedKey recipientDid : option jstr) : BM jstr :=
  result ← decryptEnvelopeTextWithState maybeEncrypted encryptedKey recipientDid;
  mret (if bool_decide (state result = readable) then text result else ENCRYPTED_PLACEHOLDER).

End envelope.
End WebText.

(** ** attachment.ts *)
Module WebAttachment.

Definition IV_BYTES : nat := 12.
Definition KEY_BYTES : nat := 32.

Section attachment.
Context `{WebCrypto, Env}.

Definition generateAttachmentKey : M bytes := get_random KEY_BYTES.

Definition encodeAttachmentKey (key : bytes) : jstr := toBase64Url key.

Definition decodeAttachmentKey (b64url : jstr) : res bytes :=
  raw ← fromBase64Url b64url;
  throw_if (negb (length raw =? KEY_BYTES)%nat) (Error_ (js "invalid attachment key length")) ;;
  Ok raw.

Definition importAesGcmKey (rawKey : bytes) : res bytes :=
  throw_if (negb (length rawKey =? KEY_BYTES)%nat) (Error_ (js "attachment key must be 32 bytes")) ;;
  Ok rawKey.

(** Returns the ciphertext and the nonce. *)
Definition encryptAttachment (plaintext rawKey : bytes) : M (bytes * jstr) :=
  key ← lift (importAesGcmKey rawKey);
  nonce ← get_random IV_BYTES;
  mret (aes_gcm_encrypt key nonce plaintext, toBase64Url nonce).

Definition decryptAttachment (ciphertext rawKey : bytes) (nonceB64Url : jstr) : res bytes :=
  key ← importAesGcmKey rawKey;
  nonce ← fromBase64Url nonceB64Url;
  or_throw (aes_gcm_decrypt key nonce ciphertext) OperationError.

Definition sha256OfBytes (data : bytes) : jstr := toBase64Url (sha256 data).

End attachment.
End WebAttachment.

(** * Lemmas *)

Lemma web_toBase64Url bs : toBase64Url bs = CoreB64.toBase64Url bs.
Proof. apply crypto_toBase64Url_eq. Qed.

Lemma web_b64_roundtrip bs : bytes_ok bs -> fromBase64Url (CoreB64.toBase64Url bs) = Ok bs.
Proof. apply crypto_b64_roundtrip. Qed.

Section interop.
Context `{Host, WebCrypto, !WebCryptoLaws, Env, !EnvLaws}.

(** The browser opens what any copy of the key wrapping wrote. *)
Lemma browser_unwraps t content priv :
  wraps t content priv -> text_ok content ->
  KeyWrap.unwrapContentKeyWithRecipientPrivateKey t (PrivateKey X25519 priv) = Ok content.
Proof.
  intros (pub & salt_b & iv_b & ct_b & sh & -> & Hb & Hpl & Hs & Hi & Hct & Hsh & Hdec) Hc.
  rewrite !Forall_cons in Hb. destruct Hb as (Bp & Bs & Bi & Bc & _).
  unfold KeyWrap.unwrapContentKeyWithRecipientPrivateKey. change (js "x25519v1:") with KeyWrap.WRAP_PREFIX.
  assert (forall x, starts_with KeyWrap.WRAP_PREFIX (KeyWrap.WRAP_PREFIX ++ x) = true) as ->
    by (intros x; apply starts_with_spec; by eexists).
  cbn [negb throw_if]. mred. rewrite drop_app_length.
  rewrite split_on_join; [|done|rewrite !Forall_cons; split_and!; try done; apply b64_no_colon; by apply toBase64Url_ok].
  cbn [nth]. rewrite !b64_nonempty_truthy by (done || by eapply nonempty_length).
  cbn [negb orb throw_if]. rewrite !web_b64_roundtrip by done. mred.
  unfold Decrypt.import_x25519_raw. rewrite Hpl. cbn [Nat.eqb]. rewrite Hsh. cbn [or_throw]. mred.
  unfold KeyWrap.deriveWrapKey. rewrite Hdec. cbn [or_throw]. mred. by rewrite text_roundtrip.
Qed.

Lemma web_valid_export k : KeyWrap.isValidX25519PublicKeyB64Url (public_key_val k) = true.
Proof.
  cbn [KeyWrap.isValidX25519PublicKeyB64Url public_key_val].
  rewrite b64_nonempty_truthy by (apply key_public_bytes || eapply nonempty_length, key_public_length).
  rewrite web_b64_roundtrip by apply key_public_bytes. by rewrite key_public_length.
Qed.

(** What the browser wraps for a public key holds for the private key. *)
Lemma browser_wraps content priv w :
  ascii_text content ->
  exists r w', KeyWrap.wrapContentKeyForRecipient content (public_key_val priv) w = (Ok r, w') /\
    wraps (KeyWrap.wrappedKey r) content priv.
Proof.
  intros Hc. unfold KeyWrap.wrapContentKeyForRecipient, KeyWrap.importX25519PublicKey. rewrite web_valid_export.
  cbn [negb throw_if public_key_val].
  erewrite bind_ok by (unfold lift; mred; by rewrite web_b64_roundtrip by apply key_public_bytes).
  unfold generate_key. erewrite bind_ok by reflexivity.
  set (eph := env_keygen _ _). destruct (x25519_some eph priv) as [sh Hsh].
  rewrite Hsh. erewrite bind_ok by reflexivity. unfold get_random.
  erewrite bind_ok by reflexivity. erewrite bind_ok by reflexivity.
  eexists _, _. split; [reflexivity|]. cbn [KeyWrap.wrappedKey]. rewrite !web_toBase64Url.
  apply wraps_intro; [done|apply random_bytes|apply random_length|apply random_bytes|apply random_length|done].
Qed.

Lemma web_content_key w :
  exists k w', WebText.generateContentKey w = (Ok k, w') /\ ascii_text k /\ k <> [].
Proof.
  destruct (generateContentKey_spec w) as (k & w' & E & Hk). exists k, w'. split; [|done].
  rewrite <- E. unfold WebText.generateContentKey, Core.generateContentKey, mbind, eff_bind.
  destruct (get_random 32 w) as [[b|e] w1]; [|done]. by rewrite web_toBase64Url.
Qed.

(** Encrypting under a given key seals the text. *)
Lemma web_encrypts plain k w :
  Forall unit_ok plain ->
  exists c w', WebText.encryptEnvelopeText plain (Some k) w = (Ok c, w') /\
    sealed_text k plain (WebText.serialized c) /\ wire_text (WebText.et_nonce c).
Proof.
  intros Hu. destruct (encryptText_spec (JStr plain) k w Hu) as (p & w' & E & Wp & Dp).
  unfold WebText.encryptEnvelopeText. erewrite bind_ok by reflexivity. erewrite bind_ok by exact E.
  eexists _, _. split; [reflexivity|]. split; [by exists p|]. cbn [WebText.et_nonce].
  destruct Wp as (_ & _ & _ & _ & Hf). rewrite !Forall_cons in Hf. destruct Hf as (_ & Hiv & _).
  split; [by apply b64_ascii|by apply b64_no_newline].
Qed.

Lemma web_sign k s r se ec ek n :
  Signature.signEnvelopePayload (PrivateKey Ed25519 k) s r se ec ek n
  = Ok (CoreB64.toBase64Url (ed25519_sign k (utf8_encode (Core.signed_payload s r se ec ek n)))).
Proof. unfold Signature.signEnvelopePayload. by rewrite web_toBase64Url. Qed.

Context `{BrowserEnv}.

(** A page whose key ring yields the private key opens a sealed text. *)
Lemma browser_opens k t c ek did priv b b' :
  wraps ek k priv -> ascii_text k -> k <> [] -> sealed_text k t c -> text_ok t -> truthy_str did = true ->
  RecipientKeyring.getRecipientPrivateKey did b = (Ok (Some (PrivateKey X25519 priv)), b') ->
  WebText.decryptEnvelopeTextWithState c (Some ek) (Some did) b = (Ok (WebText.Decrypted WebText.readable t), b').
Proof.
  intros Hw Hk Hkn (p & -> & Wp & Dp) Ht Hdid Hring. unfold WebText.decryptEnvelopeTextWithState.
  rewrite parse_serialize by by apply written_plain.
  assert (starts_with (js "x25519v1:") ek = true) as Hpre
    by (destruct Hw as (? & ? & ? & ? & ? & -> & _); apply starts_with_spec; by eexists).
  destruct ek as [|u ek]; [done|]. unfold WebText.decodeWrappedContentKey. rewrite Hpre. cbn [negb].
  destruct did as [|d did]; [done|]. erewrite bind_ok by (erewrite bind_ok by exact Hring; reflexivity).
  rewrite (browser_unwraps _ k priv) by (done || by apply ascii_text_ok). destruct k as [|x k]; [done|].
  by rewrite Dp.
Qed.

End interop.

(** * Properties *)

(** A message sealed by the SDK or the MCP server (packages/core) is readable
    in the browser.  Whatever the randomness, on a page whose key ring yields
    the recipient's private key both texts of the envelope decrypt, in
    sequence, to the subject and the body. *)
Theorem browser_reads_sdk_message `{Host, WebCrypto, !WebCryptoLaws, Env, !EnvLaws, BrowserEnv}
    (input : SendTextMessageInput) (priv : bytes) (w : World) (did : jstr) (b b' : Browser) :
  recipientEncryptionPublicKey input = public_key_val priv ->
  text_ok (text_arg (subject input)) -> text_ok (text_arg (text_body input)) -> truthy_str did = true ->
  RecipientKeyring.getRecipientPrivateKey did b = (Ok (Some (PrivateKey X25519 priv)), b') ->
  exists e w', Core.buildEncryptedTextEnvelope input w = (Ok e, w') /\
    WebText.decryptEnvelopeTextWithState (encrypted_content e) (Some (encrypted_key e)) (Some did) b
    = (Ok (WebText.Decrypted WebText.readable (text_arg (text_body input))), b') /\
    WebText.decryptEnvelopeTextWithState (subject_encrypted e) (Some (encrypted_key e)) (Some did) b'
    = (Ok (WebText.Decrypted WebText.readable (text_arg (subject input))), b').
Proof.
  intros Hk Hs Hb Hdid Hring.
  destruct (build_text_envelope input priv w Hk (proj1 Hs) (proj1 Hb)) as (e & w' & E & (k & Hw & Ha & Hn & Hc & Hsu) & _).
  exists e, w'. split_and!; [done|by eapply browser_opens|].
  eapply browser_opens; try done. by eapply (getPrivateKey_again RecipientRing).
Qed.

Example browser_reads_sdk_message_witness :
  let _ := plain_host in let _ := quiet_env in let _ := open_browser in
  let priv := replicate 32 9 in
  let b := with_ring RecipientRing (Ring {[js "did:key:zB" := PrivateKey X25519 priv]} true) new_profile in
  exists e w', Core.buildEncryptedTextEnvelope sample_input empty_world = (Ok e, w') /\
    WebText.decryptEnvelopeTextWithState (encrypted_content e) (Some (encrypted_key e)) (Some (js "did:key:zB")) b
    = (Ok (WebText.Decrypted WebText.readable (js "See you at 3 — ok?")), b) /\
    WebText.decryptEnvelopeTextWithState (subject_encrypted e) (Some (encrypted_key e)) (Some (js "did:key:zB")) b
    = (Ok (WebText.Decrypted WebText.readable (js "Hello")), b).
Proof.
  intros ho en br priv b. apply (browser_reads_sdk_message sample_input priv empty_world (js "did:key:zB") b b).
  - reflexivity.
  - apply (bool_decide_eq_true_1 (text_ok _)). by vm_compute.
  - apply (bool_decide_eq_true_1 (text_ok _)). by vm_compute.
  - reflexivity.
  - reflexivity.
Defined.
