(* ===== verification/WebApi.v ===== *)
(** The web application's API client: apps/web/lib/api/client.ts.

    Requests carry the session cookie the browser attaches; [bearerToken] is
    empty for the client the pages use.  Payloads and responses are JSON values
    with the declared types of types.ts, which nothing checks. *)
From S2P Require Import Prelude Base64 Utf8 JsNumber Json A2A Effect Node Envelope ApiClient Browser.

Module WebApi.

(** An [ApiError]: its name here is the class with the [status] field. *)
Definition ApiError (message : jstr) (status : Z) : jserror := JsError (js "ApiError " ++ dec_of_Z status) message.

Definition DEFAULT_BASE_URL `{Env} : jstr := default (js "/api") (env_var (js "NEXT_PUBLIC_API_BASE_URL")).

Record Client := NexusInboxApiClient { baseUrl : jstr; bearerToken : jstr }.

Record MessageListQuery := ListQuery {
  agentDid : jstr; q_status : option jstr; q_priority : option jstr; q_folder : option jstr;
  q_threadId : option jstr; q_page : option jnum; q_perPage : option jnum
}.

(** [if (value) params.set(name, value)]. *)
Definition set_param (name : jstr) (value : option jstr) : list (jstr * jstr) :=
  match value with Some v => if truthy_str v then [(name, v)] else [] | None => [] end.

Definition num_param (name : jstr) (value : option jnum) : list (jstr * jstr) :=
  match value with Some n => if jtruthy (JNum n) then [(name, num_to_string n)] else [] | None => [] end.

Definition toSearchParams (query : MessageListQuery) : list (jstr * jstr) :=
  [(js "agent_did", agentDid query)] ++ set_param (js "status") (q_status query)
  ++ set_param (js "priority") (q_priority query) ++ set_param (js "folder") (q_folder query)
  ++ set_param (js "thread_id") (q_threadId query) ++ num_param (js "page") (q_page query)
  ++ num_param (js "per_page") (q_perPage query).

(** A reference to an uploaded attachment ([OutboundAttachmentRef]). *)
Record OutboundAttachmentRef := OutboundRef { oa_id : jval; oa_metadata_encrypted : jstr; oa_metadata_nonce : jstr }.

Definition outbound_to_val (a : OutboundAttachmentRef) : jval :=
  JObj [(js "attachment_id", oa_id a); (js "metadata_encrypted", JStr (oa_metadata_encrypted a));
        (js "metadata_nonce", JStr (oa_metadata_nonce a))].

(** The argument of [seedMessage]; identifiers that come from server JSON are
    values. *)
Record SeedMessage := Seed {
  sm_senderDid : jval; sm_recipientDid : jval; sm_subjectEncrypted : jstr; sm_encryptedContent : jstr;
  sm_encryptedKey : jstr; sm_nonce : jstr; sm_signature : jstr; sm_threadId : jval;
  sm_attachments : list OutboundAttachmentRef; sm_contentType : option jstr; sm_autoReplyOrigin : option jstr
}.

Section client.
Context `{Host, Env, BrowserEnv}.
Variable this : Client.

Definition bearer_header (token : jstr) : list (jstr * jstr) :=
  if truthy_str token then [(js "Authorization", js "Bearer " ++ token)] else [].

Definition resolveBearerToken : jstr := bearerToken this.

(** [payload.message ?? statusText] of an error response, a body that is not
    JSON (or is [null]) counting as no message. *)
Definition error_message (response : WebResponse) : jval :=
  let message := JStr (wr_statusText response) in
  match wr_json response with
  | Ok payload => match jprop payload (js "message") with Ok m => nullish_or m message | Throw _ => message end
  | Throw _ => message
  end.

Definition or_text (v : jval) (fallback : jstr) : jstr := if jtruthy v then js_string v else fallback.

(** [method] is [None] when the call leaves it to [fetch]. *)
Definition request (path : jstr) (method : option jstr) (body : option jval) (auth : bool) : BM jval :=
  let headers := [(js "Content-Type", js "application/json")]
    ++ (if auth then bearer_header (trim resolveBearerToken) else []) in
  response ← web_fetch (HttpRequest (default (js "GET") method) (baseUrl this ++ path) headers
                          (match body with Some b => TextBody (json_stringify b) | None => NoBody end));
  if negb (wr_ok response) then
    lift (Throw (ApiError (or_text (error_message response) (js "request failed")) (wr_status response)))
  else lift (wr_json response).

(** The calls whose success has no body. *)
Definition request_void (path method : jstr) (content_type : bool) (message : WebResponse -> jstr) : BM unit :=
  let headers := (if content_type then [(js "Content-Type", js "application/json")] else [])
    ++ bearer_header (trim (bearerToken this)) in
  response ← web_fetch (HttpRequest method (baseUrl this ++ path) headers NoBody);
  lift (throw_if (negb (wr_ok response)) (ApiError (message response) (wr_status response))).

Definition status_or (fallback : jstr) (response : WebResponse) : jstr :=
  if truthy_str (wr_statusText response) then wr_statusText response else fallback.

Definition get (path : jstr) : BM jval := request path None None true.
Definition post (path : jstr) (body : jval) : BM jval := request path (Some (js "POST")) (Some body) true.
Definition patch (path : jstr) (body : jval) : BM jval := request path (Some (js "PATCH")) (Some body) true.

(** ** Messages *)

Definition listMessages (query : MessageListQuery) : BM jval :=
  get (js "/messages?" ++ url_search_params (toSearchParams query)).

Definition getMessageContent (id : jstr) : BM jval :=
  eid ← lift (encodeURIComponent id); get (js "/messages/" ++ eid ++ js "/content").

Definition updateMessageStatus (id status : jstr) : BM jval :=
  eid ← lift (encodeURIComponent id); patch (js "/messages/" ++ eid) (JObj [(js "status", JStr status)]).

Definition updateMessageFlags (id : jstr) (flags : jval) : BM jval :=
  eid ← lift (encodeURIComponent id); patch (js "/messages/" ++ eid ++ js "/flags") flags.

Definition approveMessage (id : jstr) : BM jval := updateMessageStatus id (js "read").
Definition rejectMessage (id : jstr) : BM jval := updateMessageStatus id (js "archived").

Definition deleteMessage (id : jstr) : BM unit :=
  eid ← lift (encodeURIComponent id);
  request_void (js "/messages/" ++ eid) (js "DELETE") false
    (fun response => or_text (error_message response) (js "delete failed")).

Definition markAutoReplySent (id : jstr) (replyMessageId : option jstr) : BM jval :=
  eid ← lift (encodeURIComponent id);
  patch (js "/messages/" ++ eid ++ js "/auto-reply-sent")
    (JObj match replyMessageId with
          | Some r => if truthy_str r then [(js "reply_message_id", JStr r)] else []
          | None => []
          end).

Definition seed_metadata (params : SeedMessage) : jval :=
  JObj ([(js "subject_encrypted", JStr (sm_subjectEncrypted params));
         (js "content_type", JStr (default (js "text/plain") (sm_contentType params)));
         (js "has_attachments", JBool (negb (bool_decide (length (sm_attachments params) = 0%nat))))]
        ++ (if jtruthy (sm_threadId params) then [(js "thread_id", sm_threadId params)] else [])
        ++ match sm_autoReplyOrigin params with
           | Some o => if truthy_str o then [(js "auto_reply_origin", JStr o)] else []
           | None => []
           end).

Definition seed_body (params : SeedMessage) : jval :=
  JObj ([(js "sender_did", sm_senderDid params); (js "recipient_did", sm_recipientDid params);
         (js "envelope",
          JObj [(js "encrypted_content", JStr (sm_encryptedContent params));
                (js "encrypted_key", JStr (sm_encryptedKey params)); (js "nonce", JStr (sm_nonce params));
                (js "signature", JStr (sm_signature params)); (js "metadata", seed_metadata params)])]
        ++ match sm_attachments params with
           | [] => []
           | l => [(js "attachment_ids", JArr (map oa_id l)); (js "attachments", JArr (map outbound_to_val l))]
           end).

Definition seedMessage (params : SeedMessage) : BM jval := post (js "/messages") (seed_body params).

(** ** Agents and credentials *)

Definition listAgents : BM jval := get (js "/agents").
Definition createAgent (payload : jval) : BM jval := post (js "/agents") payload.

Definition updateAgent (id : jstr) (payload : jval) : BM jval :=
  eid ← lift (encodeURIComponent id); patch (js "/agents/" ++ eid) payload.

Definition deleteAgent (id : jstr) : BM unit :=
  eid ← lift (encodeURIComponent id);
  request_void (js "/agents/" ++ eid) (js "DELETE") true (status_or (js "delete agent failed")).

Definition listAgentCredentials : BM jval := get (js "/agent-credentials").
Definition createAgentCredential (payload : jval) : BM jval := post (js "/agent-credentials") payload.

Definition revokeAgentCredential (id : jstr) : BM unit :=
  eid ← lift (encodeURIComponent id);
  request_void (js "/agent-credentials/" ++ eid) (js "DELETE") true (status_or (js "revoke credential failed")).

(** [body?.message || body?.error || the fallback], by truthiness. *)
Definition purge_message (response : WebResponse) : jstr :=
  let message := status_or (js "purge credential failed") response in
  match wr_json response with
  | Ok (JUndef | JNull) | Throw _ => message
  | Ok body =>
    if jtruthy (jget body (js "message")) then js_string (jget body (js "message"))
    else or_text (jget body (js "error")) message
  end.

Definition purgeAgentCredential (id : jstr) : BM unit :=
  eid ← lift (encodeURIComponent id);
  request_void (js "/agent-credentials/" ++ eid ++ js "/purge") (js "POST") true purge_message.

Definition refreshAgentToken (refreshToken : jstr) : BM jval :=
  request (js "/agent-auth/refresh") (Some (js "POST")) (Some (JObj [(js "refresh_token", JStr refreshToken)])) false.

(** The parameters of the audit log query, in their order. *)
Definition audit_params (credential_id aid event event_prefix : option jstr) (limit offset : option jnum)
    : list (jstr * jstr) :=
  set_param (js "credential_id") credential_id ++ set_param (js "aid") aid ++ set_param (js "event") event
  ++ set_param (js "event_prefix") event_prefix ++ num_param (js "limit") limit ++ num_param (js "offset") offset.

Definition listAuditLog (credential_id aid event event_prefix : option jstr) (limit offset : option jnum) : BM jval :=
  let qs := url_search_params (audit_params credential_id aid event event_prefix limit offset) in
  get (js "/agent-audit-log" ++ if truthy_str qs then js "?" ++ qs else []).

Definition emergencyShutdown (agentId : jstr) : BM jval :=
  eid ← lift (encodeURIComponent agentId); post (js "/agents/" ++ eid ++ js "/emergency-shutdown") (JObj []).

Definition getAutoReplyPolicy (agentId : jstr) : BM jval :=
  eid ← lift (encodeURIComponent agentId); get (js "/agents/" ++ eid ++ js "/auto-reply-policy").

Definition putAutoReplyPolicy (agentId : jstr) (payload : jval) : BM jval :=
  eid ← lift (encodeURIComponent agentId);
  request (js "/agents/" ++ eid ++ js "/auto-reply-policy") (Some (js "PUT")) (Some payload) true.

Definition deleteAutoReplyPolicy (agentId : jstr) : BM unit :=
  eid ← lift (encodeURIComponent agentId);
  request_void (js "/agents/" ++ eid ++ js "/auto-reply-policy") (js "DELETE") true
    (status_or (js "delete auto-reply policy failed")).

(** ** Attachments *)

Definition createAttachmentIntent (payload : jval) : BM jval := post (js "/attachments/intents") payload.

Definition completeAttachment (attachmentId : jstr) (ciphertextSizeBytes : Z) : BM jval :=
  eid ← lift (encodeURIComponent attachmentId);
  post (js "/attachments/" ++ eid ++ js "/complete")
    (JObj [(js "ciphertext_size_bytes", JNum (num ciphertextSizeBytes))]).

Definition deleteAttachment (attachmentId : jstr) : BM unit :=
  eid ← lift (encodeURIComponent attachmentId);
  request (js "/attachments/" ++ eid) (Some (js "DELETE")) None true ;; mret tt.

Definition listMessageAttachments (messageId : jstr) : BM jval :=
  eid ← lift (encodeURIComponent messageId); get (js "/messages/" ++ eid ++ js "/attachments").

Definition getAttachmentDownloadUrl (messageId attachmentId : jstr) : BM jval :=
  mid ← lift (encodeURIComponent messageId);
  aid ← lift (encodeURIComponent attachmentId);
  post (js "/messages/" ++ mid ++ js "/attachments/" ++ aid ++ js "/download") (JObj []).

(** ** Blocks, contacts and recipients *)

Definition listBlocks : BM jval := get (js "/blocks").
Definition createBlock (payload : jval) : BM jval := post (js "/blocks") payload.

Definition blockFromMessage (messageId : jstr) (payload : jval) : BM jval :=
  eid ← lift (encodeURIComponent messageId); post (js "/blocks/from-message/" ++ eid) payload.

Definition deleteBlock (id : jstr) : BM unit :=
  eid ← lift (encodeURIComponent id);
  request_void (js "/blocks/" ++ eid) (js "DELETE") true (status_or (js "delete block failed")).

Definition listContacts : BM jval := get (js "/contacts").

Definition resolveRecipient (identifier : jstr) : BM jval :=
  get (js "/recipients/resolve?" ++ url_search_params [(js "identifier", identifier)]).

Definition createContact (payload : jval) : BM jval := post (js "/contacts") payload.

Definition updateContact (id : jstr) (payload : jval) : BM jval :=
  eid ← lift (encodeURIComponent id); patch (js "/contacts/" ++ eid) payload.

Definition deleteContact (id : jstr) : BM unit :=
  eid ← lift (encodeURIComponent id);
  request_void (js "/contacts/" ++ eid) (js "DELETE") true (status_or (js "delete contact failed")).

(** ** The session *)

Definition verifyAuth (payload : jval) : BM jval :=
  request (js "/auth/verify") (Some (js "POST")) (Some payload) false.

Definition getStatus : BM jval := request (js "/status") (Some (js "GET")) None false.

Definition getAuthSession : BM jval :=
  response ← web_fetch (HttpRequest (js "GET") (baseUrl this ++ js "/auth/session")
                          [(js "Content-Type", js "application/json")] NoBody);
  if (wr_status response =? 401) || (wr_status response =? 403) then
    mret (JObj [(js "authenticated", JBool false)])
  else if negb (wr_ok response) then
    lift (Throw (ApiError (status_or (js "auth session failed") response) (wr_status response)))
  else lift (wr_json response).

Definition updateAuthProfile (payload : jval) : BM jval :=
  request (js "/auth/session") (Some (js "PATCH")) (Some payload) false.

Definition logoutAuth : BM jval := request (js "/auth/logout") (Some (js "POST")) (Some (JObj [])) false.

End client.

Lemma longer_request `{Host, Env, BrowserEnv} c path method body auth : respects longer (request c path method body auth).
Proof.
  unfold request. apply respects_bind; [apply _|auto with effdb|]. intros r.
  case_match; apply respects_lift, _.
Qed.

(** A call issues its request, whatever comes of it. *)
Lemma request_logged `{Host, Env, BrowserEnv} c path method body r b b' :
  bearerToken c = [] -> request c path (Some method) body true b = (r, b') ->
  EvFetch (HttpRequest method (baseUrl c ++ path) [(js "Content-Type", js "application/json")]
             (match body with Some v => TextBody (json_stringify v) | None => NoBody end)) ∈ w_trace (b_node b').
Proof.
  intros Hc. unfold request, resolveBearerToken. rewrite Hc. cbn [default]. change (bearer_header (trim [])) with (@nil (jstr * jstr)).
  rewrite app_nil_r. unfold mbind, eff_bind. destruct (web_fetch _ b) as [[w|e] b1] eqn:E; apply web_fetch_logged in E.
  - unfold lift. destruct (negb (wr_ok w)); by intros [= _ <-].
  - by intros [= _ <-].
Qed.

#[export] Hint Resolve longer_request : effdb.

(** [deleteAttachment] parses the body of its answer: the empty body of a 204
    makes it reject although the attachment is gone. *)
Lemma deleteAttachment_rejects_no_content `{Host, Env, BrowserEnv} c id eid response b b1 :
  encodeURIComponent id = Ok eid -> bearerToken c = [] ->
  web_fetch (HttpRequest (js "DELETE") (baseUrl c ++ js "/attachments/" ++ eid)
    [(js "Content-Type", js "application/json")] NoBody) b = (Ok response, b1) ->
  wr_response response = HttpResponse 204 [] ->
  exists e, deleteAttachment c id b = (Throw e, b1).
Proof.
  intros He Hc Hf Hr. unfold deleteAttachment, request, resolveBearerToken. rewrite He, Hc.
  erewrite bind_ok by reflexivity. eexists. apply bind_throw. erewrite bind_ok by exact Hf.
  unfold wr_ok, wr_json. by rewrite Hr.
Qed.

Definition defaultApiClient `{Env} : Client := NexusInboxApiClient DEFAULT_BASE_URL [].

(** ** Labels *)

Definition short_did (did : jstr) : jstr :=
  if (length did <=? 18)%nat then did
  else take 12 did ++ js "…" ++ drop (length did - 4) did.

Definition formatParticipant (label : option jstr) (did : jstr) : jstr :=
  let trimmed := trim (default [] label) in
  if truthy_str trimmed then trimmed
  else if negb (truthy_str did) then js "(不明な相手)"
  else short_did did.

Definition mapPriorityLabel (priority : jstr) : jstr :=
  if jeqb priority (js "high") then js "優先度 高"
  else if jeqb priority (js "normal") then js "優先度 標準"
  else if jeqb priority (js "low") then js "優先度 低"
  else if jeqb priority (js "background") then js "要確認"
  else js "優先度 標準".

End WebApi.
