(* ===== verification/SendReply.v ===== *)
(** Sending a protocol reply from the browser:
    apps/web/app/_components/protocol/sendProtocolReply.ts and
    parseProtocolBody.ts.

    The injected [sendMessage] is an argument; the pages pass
    [WebApi.seedMessage] of the default client. *)
From S2P Require Import Prelude Base64 Utf8 JsNumber Json JsDate A2A Effect Node Envelope A2AReply ApiClient Browser WebKeystore WebEnvelope WebApi.

Definition parseProtocolBody `{Host} (decryptedBody : jstr) (contentType : option jstr) : ParsedMessageBody :=
  parseA2APayload decryptedBody contentType.

Record SendProtocolReplyInput := SendInput {
  si_protocolType : A2AProtocolType; si_reply : A2ARespondPayload; si_threadId : jval; si_originalProtocolId : jstr;
  si_subject : jstr; si_bodySummary : jstr; si_viewerAgentDid : jstr; si_proposerDid : jstr;
  si_autoReplyOrigin : option jstr
}.

Section send.
Context `{Host, WebCrypto, Env, BrowserEnv}.

(** [a?.k]. *)
Definition optional_prop (v : jval) (k : jstr) : jval :=
  match v with JUndef | JNull => JUndef | _ => jget v k end.

(** [uuidv7()] of @nexusinbox/core/a2a in the browser. *)
Definition browser_uuidv7 : BM jstr :=
  now ← host now_ms;
  rand ← host (get_random 10);
  lift (uuidv7 now (Some rand)).

Definition sendProtocolReply (input : SendProtocolReplyInput) (sendMessage : WebApi.SeedMessage -> BM unit) : BM unit :=
  resolved ← WebApi.resolveRecipient WebApi.defaultApiClient (si_proposerDid input);
  let recipientDid := nullish_or (optional_prop resolved (js "did")) (JStr (si_proposerDid input)) in
  let recipientEncryptionKey := optional_prop resolved (js "encryption_public_key") in
  raise_if (negb (jtruthy recipientEncryptionKey))
    (Error_ (js "Unable to resolve recipient encryption key for this protocol reply.")) ;;
  signingPrivateKey ← SigningKeyring.getSigningPrivateKey (si_viewerAgentDid input);
  signingPrivateKey ← lift (or_throw signingPrivateKey
    (Error_ (js "Local signing key for this agent is not available on this device.")));
  id ← browser_uuidv7;
  payload ← lift (buildReplyPayload (si_protocolType input) (si_reply input));
  let protocolBlock := ProtocolBlock id (si_protocolType input) (reply_action (rp_action (si_reply input)))
    (Some (si_originalProtocolId input)) payload in
  let serialised := json_stringify (message_to_val (si_bodySummary input) (Some protocolBlock)) in
  contentKey ← host WebText.generateContentKey;
  encryptedSubject ← host (WebText.encryptEnvelopeText (si_subject input) (Some contentKey));
  encryptedBody ← host (WebText.encryptEnvelopeText serialised (Some contentKey));
  wrapped ← host (KeyWrap.wrapContentKeyForRecipient contentKey recipientEncryptionKey);
  signature ← lift (Signature.signEnvelopePayload signingPrivateKey (JStr (si_viewerAgentDid input)) recipientDid
                      (WebText.serialized encryptedSubject) (WebText.serialized encryptedBody)
                      (KeyWrap.wrappedKey wrapped) (WebText.et_nonce encryptedBody));
  sendMessage (WebApi.Seed (JStr (si_viewerAgentDid input)) recipientDid (WebText.serialized encryptedSubject)
    (WebText.serialized encryptedBody) (KeyWrap.wrappedKey wrapped) (WebText.et_nonce encryptedBody) signature
    (si_threadId input) [] (Some A2A_CONTENT_TYPE) (si_autoReplyOrigin input)).

End send.

(** * Lemmas *)

Lemma uuid_test_nonempty s : uuid_test s = true -> s <> [].
Proof. intros H%uuid_test_length ->. done. Qed.

Section sent.
Context `{Host, WebCrypto, !WebCryptoLaws, Env, !EnvLaws, BrowserEnv}.

Lemma browser_uuidv7_ok b :
  exists id b', browser_uuidv7 b = (Ok id, b') /\ uuid_test id = true /\ Forall unit_ok id.
Proof.
  unfold browser_uuidv7. erewrite bind_ok by (by apply host_ok). erewrite bind_ok by (by apply host_ok).
  set (rand := env_random _ 10).
  assert (length rand = 10%nat /\ bytes_ok rand) as [Hl Hr] by (split; [apply random_length|apply random_bytes]).
  destruct (uuid_bytes_ok (env_now (w_trace (b_node b))) rand Hl Hr) as [Hlen Hb].
  eexists _, _. split; [reflexivity|]. split; [by apply uuid_format_test|by apply uuid_format_units].
Qed.

(** What the recipient gets from a seeded message: both texts sealed for its
    key, which opens them; the body parses to the summary and the block. *)
Definition delivers (m : WebApi.SeedMessage) (priv : bytes) (subj summary : jstr) (block : A2AProtocolBlock) : Prop :=
  exists raw,
    sealed subj raw priv (WebApi.sm_encryptedContent m) (WebApi.sm_encryptedKey m) (WebApi.sm_subjectEncrypted m) /\
    text_ok raw /\
    Decrypt.decryptEnvelopeTextForRecipient (WebApi.sm_encryptedContent m) (WebApi.sm_encryptedKey m)
      (WebApi.sm_subjectEncrypted m) priv = Ok (subj, raw) /\
    parseProtocolBody raw (WebApi.sm_contentType m) = ParsedBody summary (Some (block_to_val block)) false.

(** The fields [seedMessage] posts, and a signature over the signed ones. *)
Definition signed_by (m : WebApi.SeedMessage) (key : bytes) : Prop :=
  exists sig, WebApi.sm_signature m = CoreB64.toBase64Url sig /\
    ed25519_verify (key_public Ed25519 key)
      (utf8_encode (Core.signed_payload (WebApi.sm_senderDid m) (WebApi.sm_recipientDid m)
         (WebApi.sm_subjectEncrypted m) (WebApi.sm_encryptedContent m) (WebApi.sm_encryptedKey m) (WebApi.sm_nonce m)))
      sig = true.

Lemma seal_message {A} k subj body priv signing sender recipient tid ct origin b (send : WebApi.SeedMessage -> BM A) :
  ascii_text k -> k <> [] -> text_ok subj -> text_ok body ->
  exists m b', (encryptedSubject ← host (WebText.encryptEnvelopeText subj (Some k));
    encryptedBody ← host (WebText.encryptEnvelopeText body (Some k));
    wrapped ← host (KeyWrap.wrapContentKeyForRecipient k (public_key_val priv));
    signature ← lift (Signature.signEnvelopePayload (PrivateKey Ed25519 signing) sender recipient
                        (WebText.serialized encryptedSubject) (WebText.serialized encryptedBody)
                        (KeyWrap.wrappedKey wrapped) (WebText.et_nonce encryptedBody));
    send (WebApi.Seed sender recipient (WebText.serialized encryptedSubject)
      (WebText.serialized encryptedBody) (KeyWrap.wrappedKey wrapped) (WebText.et_nonce encryptedBody) signature
      tid [] ct origin)) b = send m b' /\
    sealed subj body priv (WebApi.sm_encryptedContent m) (WebApi.sm_encryptedKey m) (WebApi.sm_subjectEncrypted m) /\
    Decrypt.decryptEnvelopeTextForRecipient (WebApi.sm_encryptedContent m) (WebApi.sm_encryptedKey m)
      (WebApi.sm_subjectEncrypted m) priv = Ok (subj, body) /\
    signed_by m signing /\ WebApi.sm_senderDid m = sender /\ WebApi.sm_recipientDid m = recipient /\
    WebApi.sm_threadId m = tid /\ WebApi.sm_contentType m = ct /\ WebApi.sm_autoReplyOrigin m = origin.
Proof.
  intros Hk Hkn Hs Hb. destruct (web_encrypts subj k (b_node b) (proj1 Hs)) as (cs & w1 & E1 & S1 & _).
  erewrite bind_ok by (apply host_ok; exact E1).
  destruct (web_encrypts body k w1 (proj1 Hb)) as (cb & w2 & E2 & S2 & N2).
  erewrite bind_ok by (apply host_ok; exact E2).
  destruct (browser_wraps k priv w2 Hk) as (r & w3 & E3 & W3). erewrite bind_ok by (apply host_ok; exact E3).
  erewrite bind_ok by (by rewrite web_sign). eexists _, _. split; [reflexivity|].
  cbn [WebApi.sm_encryptedContent WebApi.sm_encryptedKey WebApi.sm_subjectEncrypted].
  assert (sealed subj body priv (WebText.serialized cb) (KeyWrap.wrappedKey r) (WebText.serialized cs)) as Hse by by exists k.
  split; [exact Hse|]. split.
  - by apply (sealed_opens subj body priv).
  - split; [|done]. eexists. split; [reflexivity|]. apply ed25519_correct.
Qed.

End sent.

(** * Properties *)

(** A protocol reply reaches the proposer intact.  When the directory gives
    the public half of a key pair, the page holds the agent's signing key and
    the reply can be built, sending hands [sendMessage] exactly one message:
    from the agent to the resolved did, in the given thread, under the A2A
    content type and the executor's origin tag.  The proposer's private key
    opens it to the subject and to a body that parses to the summary and to a
    block of the reply's type and action, in answer to the original protocol
    id; the signature verifies over the message's own fields. *)
Theorem protocol_reply_delivered `{Host, WebCrypto, !WebCryptoLaws, Env, !EnvLaws, BrowserEnv}
    (input : SendProtocolReplyInput) (send : WebApi.SeedMessage -> BM unit) (resolved : list (jstr * jval))
    (did : jstr) (priv signing : bytes) (payload : jval) (b b1 b2 : Browser) :
  WebApi.resolveRecipient WebApi.defaultApiClient (si_proposerDid input) b = (Ok (JObj resolved), b1) ->
  jget (JObj resolved) (js "did") = JStr did ->
  jget (JObj resolved) (js "encryption_public_key") = public_key_val priv ->
  SigningKeyring.getSigningPrivateKey (si_viewerAgentDid input) b1 = (Ok (Some (PrivateKey Ed25519 signing)), b2) ->
  buildReplyPayload (si_protocolType input) (si_reply input) = Ok payload -> json_okb payload = true ->
  text_ok (si_subject input) -> Forall unit_ok (si_bodySummary input) -> Forall unit_ok (si_originalProtocolId input) ->
  exists m b3 block, sendProtocolReply input send b = send m b3 /\
    delivers m priv (si_subject input) (si_bodySummary input) block /\ signed_by m signing /\
    block_type block = si_protocolType input /\ block_action block = reply_action (rp_action (si_reply input)) /\
    block_reply_to block = Some (si_originalProtocolId input) /\ block_payload block = payload /\
    uuid_test (block_id block) = true /\
    WebApi.sm_senderDid m = JStr (si_viewerAgentDid input) /\ WebApi.sm_recipientDid m = JStr did /\
    WebApi.sm_threadId m = si_threadId input /\ WebApi.sm_contentType m = Some A2A_CONTENT_TYPE /\
    WebApi.sm_autoReplyOrigin m = si_autoReplyOrigin input.
Proof.
  intros Hr Hdid Hkey Hsign Hp Hj Hs Hsum Horig. unfold sendProtocolReply.
  erewrite bind_ok by exact Hr. cbn [optional_prop]. rewrite Hdid, Hkey. cbn [nullish_or]. cbv zeta.
  assert (jtruthy (public_key_val priv) = true) as Ht.
  { apply b64_nonempty_truthy; [apply key_public_bytes|eapply nonempty_length, key_public_length]. }
  rewrite Ht. cbn [negb]. erewrite bind_ok by reflexivity. erewrite bind_ok by exact Hsign.
  cbn [or_throw]. erewrite bind_ok by reflexivity.
  destruct (browser_uuidv7_ok b2) as (id & b3 & E3 & Hid & Hidu). erewrite bind_ok by exact E3.
  rewrite Hp. erewrite bind_ok by reflexivity.
  set (block := ProtocolBlock id _ _ _ payload).
  assert (block_ok block /\ block_json_ok block) as Hb.
  { split; [|by split_and!]. split; [by apply uuid_test_nonempty|].
    split; [by eapply reply_action_type|by eapply reply_payload_object]. }
  assert (text_ok (json_stringify (message_to_val (si_bodySummary input) (Some block)))) as Hraw
    by (apply json_text_ok, message_to_val_json; [done|apply Hb]).
  destruct (web_content_key (b_node b3)) as (k & w4 & E4 & Hk & Hkn). erewrite bind_ok by (apply host_ok; exact E4).
  edestruct (seal_message (A:=unit) k (si_subject input) (json_stringify (message_to_val (si_bodySummary input) (Some block)))
    priv signing) as (m & b5 & E5 & L5 & D5 & S5 & F1 & F2 & F3 & F4 & F5); [done|done|done|exact Hraw|].
  exists m, b5, block. split; [exact E5|]. split_and!; try done.
  eexists. split; [exact L5|]. split; [exact Hraw|]. split; [exact D5|]. rewrite F4. by apply (message_roundtrip (si_bodySummary input) (Some block)).
Qed.

Definition sample_directory : list (jstr * jval) :=
  [(js "did", JStr (js "did:key:zP")); (js "encryption_public_key", public_key_val (replicate 32 9))].

Definition sample_reply : SendProtocolReplyInput :=
  SendInput task_delegation (Reply RAccept None None None (Some (js "on it")) None) (JStr (js "t1")) (js "p1")
    (js "Re: report") (js "Accepted") (js "did:key:zV") (js "did:key:zP") None.

Example protocol_reply_delivered_witness :
  let _ := plain_host in let _ := reply_env (json_stringify (JObj sample_directory)) in let _ := open_browser in
  let b := with_ring SigningRing (Ring {[js "did:key:zV" := PrivateKey Ed25519 (replicate 32 5)]} true) new_profile in
  let send := fun m => WebApi.seedMessage WebApi.defaultApiClient m ;; mret tt in
  exists m b3 block, sendProtocolReply sample_reply send b = send m b3 /\
    delivers m (replicate 32 9) (js "Re: report") (js "Accepted") block /\ signed_by m (replicate 32 5) /\
    block_reply_to block = Some (js "p1").
Proof.
  intros ho en br b send.
  destruct (WebApi.resolveRecipient WebApi.defaultApiClient (si_proposerDid sample_reply) b) as [r b1] eqn:E.
  assert (r = Ok (JObj sample_directory) /\
    SigningKeyring.getSigningPrivateKey (si_viewerAgentDid sample_reply) b1
    = (Ok (Some (PrivateKey Ed25519 (replicate 32 5))), b1)) as [-> E2].
  { vm_compute in E. injection E as <- <-. split; reflexivity. }
  destruct (protocol_reply_delivered sample_reply send sample_directory (js "did:key:zP") (replicate 32 9)
    (replicate 32 5) (JObj [(js "note", JStr (js "on it"))]) b b1 b1 E) as (m & b3 & block & F).
  - reflexivity.
  - reflexivity.
  - exact E2.
  - reflexivity.
  - reflexivity.
  - apply (bool_decide_eq_true_1 (text_ok _)). by vm_compute.
  - apply forallb_units. by vm_compute.
  - apply forallb_units. by vm_compute.
  - exists m, b3, block. destruct F as (F1 & F2 & F3 & _ & _ & F4 & _). split; [exact F1|]. split; [exact F2|].
    split; [exact F3|exact F4].
Defined.
