(* ===== verification/AttachmentList.v ===== *)
(** Reading attachments: [AttachmentList] of
    apps/web/app/_components/ConversationThread.tsx.

    The decrypted metadata is JSON another client wrote ([jval]).  The
    component's state is what its two handlers compute: the list of decrypted
    rows, and the outcome of a download (the message key shown, or the file
    handed to the browser).  React's cancellation of a stale effect and the
    progress messages are not represented. *)
From S2P Require Import Prelude Base64 Utf8 JsNumber Json A2A Effect Node Envelope ApiClient Browser WebKeystore WebEnvelope WebApi.

Record AttachmentSummary := Summary { as_id : jstr; as_metadata_encrypted : jstr; as_size : jnum }.

Record DecryptedAttachment := Decrypted {
  da_id : jstr; da_size : jnum; da_metadata : option jval; da_error : option jstr
}.

(** What the user gets. *)
Inductive DownloadOutcome :=
| Downloaded (filename mime : jval) (data : bytes)
| IntegrityFailed
| DecryptFailed.

Section list.
Context `{Host, WebCrypto, Env, BrowserEnv}.

(** The body of the loop over the rows. *)
Definition decrypt_row (encryptedKey recipientDid : jstr) (row : AttachmentSummary) : BM DecryptedAttachment :=
  text ← WebText.decryptEnvelopeText (as_metadata_encrypted row) (Some encryptedKey) (Some recipientDid);
  let failed := Decrypted (as_id row) (as_size row) None (Some (js "inbox.attachmentDecryptFailed")) in
  mret (if jeqb text WebText.ENCRYPTED_PLACEHOLDER then failed
        else match json_parse text with
             | Ok parsed => Decrypted (as_id row) (as_size row) (Some parsed) None
             | Throw _ => failed
             end).

Definition decrypt_rows (encryptedKey recipientDid : jstr) (rows : list AttachmentSummary)
    : BM (list DecryptedAttachment) :=
  eff_map (decrypt_row encryptedKey recipientDid) rows.

(** The wraps of the metadata; anything but an array is not iterable. *)
Definition wraps_of (metadata : jval) : res (list jval) :=
  match jget metadata (js "attachment_key_wraps") with
  | JArr l => Ok l
  | _ => Throw (TypeError_ (js "attachment_key_wraps is not iterable"))
  end.

(** The first wrap that a key of this page opens. *)
Fixpoint find_raw_key (wraps : list jval) : BM (option jstr) :=
  match wraps with
  | [] => mret None
  | entry :: rest =>
    did ← lift (jprop entry (js "recipient_did"));
    privateKey ← RecipientKeyring.getRecipientPrivateKey (js_string did);
    match privateKey with
    | None => find_raw_key rest
    | Some k =>
      match jget entry (js "wrapped_key") with
      | JStr w =>
        match KeyWrap.unwrapContentKeyWithRecipientPrivateKey w k with
        | Ok rawKeyStr => mret (Some rawKeyStr)
        | Throw _ => find_raw_key rest
        end
      | _ => find_raw_key rest
      end
    end
  end.

Definition integrity_failed : jserror := Error_ (js "integrity-failed").

(** The guarded body of [handleDownload]. *)
Definition download (messageId attachmentId : jstr) (metadata : jval) : BM DownloadOutcome :=
  wraps ← lift (wraps_of metadata);
  rawKeyStr ← find_raw_key wraps;
  rawKeyStr ← lift match rawKeyStr with
                   | None | Some [] => Throw (Error_ (js "no-unwrappable-key"))
                   | Some s => Ok s
                   end;
  rawKey ← lift (WebAttachment.decodeAttachmentKey rawKeyStr);
  urlResp ← WebApi.getAttachmentDownloadUrl WebApi.defaultApiClient messageId attachmentId;
  url ← lift (jprop urlResp (js "download_url"));
  blobResp ← web_fetch (HttpRequest (js "GET") (js_string url) [] NoBody);
  raise_if (negb (wr_ok blobResp)) (Error_ (js "download-failed")) ;;
  nonce ← lift (as_string (jget metadata (js "cipher_nonce")));
  plaintext ← lift (WebAttachment.decryptAttachment (wr_arrayBuffer blobResp) rawKey nonce);
  raise_if (negb (jis (jget metadata (js "sha256_plaintext")) (WebAttachment.sha256OfBytes plaintext))) integrity_failed ;;
  mret (Downloaded (jget metadata (js "filename")) (jget metadata (js "mime")) plaintext).

Definition handleDownload (messageId : jstr) (att : DecryptedAttachment) : BM (option DownloadOutcome) :=
  match da_metadata att with
  | None => mret None
  | Some metadata =>
    if negb (jtruthy metadata) then mret None
    else
      try_catch (o ← download messageId (da_id att) metadata; mret (Some o))
        (fun err => mret (Some (if jeqb (err_message err) (js "integrity-failed") then IntegrityFailed else DecryptFailed)))
  end.

End list.

(** * Lemmas *)

Section opens.
Context `{Host, WebCrypto, !WebCryptoLaws, Env, !EnvLaws, BrowserEnv}.

(** The metadata of an attachment whose key is wrapped for the two parties. *)
Definition metadata_val (name mime : jstr) (size : Z) (nonce recipient rwrap sender swrap sha : jstr) : jval :=
  JObj [(js "filename", JStr name); (js "mime", JStr mime); (js "plaintext_size_bytes", JNum (num size));
        (js "cipher_algorithm", JStr (js "aes-gcm-256")); (js "cipher_nonce", JStr nonce);
        (js "attachment_key_wraps",
         JArr [JObj [(js "recipient_did", JStr recipient); (js "wrapped_key", JStr rwrap)];
               JObj [(js "recipient_did", JStr sender); (js "wrapped_key", JStr swrap)]]);
        (js "sha256_plaintext", JStr sha)].

(** A page that holds the key of one of the parties finds the attachment key:
    the recipient's, or the sender's when it has no key for the recipient. *)
Lemma find_raw_key_ok key recipient rwrap rpriv sender swrap spriv b b1 b2 :
  wraps rwrap key rpriv -> wraps swrap key spriv -> ascii_text key ->
  (RecipientKeyring.getRecipientPrivateKey recipient b = (Ok (Some (PrivateKey X25519 rpriv)), b2) \/
   RecipientKeyring.getRecipientPrivateKey recipient b = (Ok None, b1) /\
   RecipientKeyring.getRecipientPrivateKey sender b1 = (Ok (Some (PrivateKey X25519 spriv)), b2)) ->
  find_raw_key [JObj [(js "recipient_did", JStr recipient); (js "wrapped_key", JStr rwrap)];
                JObj [(js "recipient_did", JStr sender); (js "wrapped_key", JStr swrap)]] b = (Ok (Some key), b2).
Proof.
  intros Wr Ws Hk Hring.
  set (e1 := JObj [(js "recipient_did", JStr recipient); (js "wrapped_key", JStr rwrap)]).
  set (e2 := JObj [(js "recipient_did", JStr sender); (js "wrapped_key", JStr swrap)]).
  assert (jprop e1 (js "recipient_did") = Ok (JStr recipient)) as D1 by reflexivity.
  assert (jprop e2 (js "recipient_did") = Ok (JStr sender)) as D2 by reflexivity.
  assert (jget e1 (js "wrapped_key") = JStr rwrap) as K1 by reflexivity.
  assert (jget e2 (js "wrapped_key") = JStr swrap) as K2 by reflexivity. clearbody e1 e2.
  cbn [find_raw_key]. rewrite D1, D2, K1, K2.
  erewrite bind_ok by reflexivity. cbn [js_string join_part].
  destruct Hring as [E|[E1 E2]].
  - erewrite bind_ok by exact E. cbv iota. by rewrite (browser_unwraps _ key rpriv) by (done || by apply ascii_text_ok).
  - erewrite bind_ok by exact E1. cbv iota. erewrite bind_ok by reflexivity. cbn [js_string join_part].
    erewrite bind_ok by exact E2. cbv iota. by rewrite (browser_unwraps _ key spriv) by (done || by apply ascii_text_ok).
Qed.

Lemma decodeAttachmentKey_ok key :
  bytes_ok key -> length key = 32%nat -> WebAttachment.decodeAttachmentKey (CoreB64.toBase64Url key) = Ok key.
Proof. intros Hb Hl. unfold WebAttachment.decodeAttachmentKey. rewrite web_b64_roundtrip by done. mred. by rewrite Hl. Qed.

Lemma decryptAttachment_ok key nonce_b data :
  length key = 32%nat -> bytes_ok nonce_b -> bytes_ok data ->
  WebAttachment.decryptAttachment (aes_gcm_encrypt key nonce_b data) key (CoreB64.toBase64Url nonce_b) = Ok data.
Proof.
  intros Hl Hn Hd. unfold WebAttachment.decryptAttachment, WebAttachment.importAesGcmKey.
  rewrite Hl, web_b64_roundtrip by done. cbn. by rewrite aes_gcm_inverse.
Qed.

Lemma web_jis_refl s : jis (JStr s) s = true.
Proof. apply jeqb_refl. Qed.

(** Downloading what [encryptAttachment] produced. *)
Lemma download_ok mid aid rawKey nonce_b data name mime size recipient rwrap rpriv sender swrap spriv
    b b1 b2 b3 b4 urlResp url blob :
  let key := WebAttachment.encodeAttachmentKey rawKey in
  bytes_ok rawKey -> length rawKey = 32%nat -> bytes_ok nonce_b -> bytes_ok data ->
  wraps rwrap key rpriv -> wraps swrap key spriv ->
  (RecipientKeyring.getRecipientPrivateKey recipient b = (Ok (Some (PrivateKey X25519 rpriv)), b2) \/
   RecipientKeyring.getRecipientPrivateKey recipient b = (Ok None, b1) /\
   RecipientKeyring.getRecipientPrivateKey sender b1 = (Ok (Some (PrivateKey X25519 spriv)), b2)) ->
  WebApi.getAttachmentDownloadUrl WebApi.defaultApiClient mid aid b2 = (Ok (JObj urlResp), b3) ->
  jget (JObj urlResp) (js "download_url") = JStr url ->
  web_fetch (HttpRequest (js "GET") url [] NoBody) b3 = (Ok blob, b4) ->
  wr_ok blob = true -> wr_arrayBuffer blob = aes_gcm_encrypt rawKey nonce_b data ->
  download mid aid (metadata_val name mime size (toBase64Url nonce_b) recipient rwrap sender swrap
                      (WebAttachment.sha256OfBytes data)) b = (Ok (Downloaded (JStr name) (JStr mime) data), b4).
Proof.
  intros key Hkb Hkl Hnb Hdb Wr Ws Hring Hurl Hu Hblob Hok Hbuf. unfold download.
  erewrite bind_ok by reflexivity. subst key. unfold WebAttachment.encodeAttachmentKey in *.
  rewrite web_toBase64Url in *.
  erewrite bind_ok by (eapply find_raw_key_ok; try done; by apply b64_ascii, toBase64Url_ok).
  assert (CoreB64.toBase64Url rawKey <> []) as Hne by by apply toBase64Url_nonempty; [|destruct rawKey].
  destruct (CoreB64.toBase64Url rawKey) as [|c r] eqn:Ek; [done|]. erewrite bind_ok by reflexivity.
  rewrite <- Ek, decodeAttachmentKey_ok by done. erewrite bind_ok by reflexivity. erewrite bind_ok by exact Hurl.
  assert (jprop (JObj urlResp) (js "download_url") = Ok (JStr url)) as ->.
  { unfold jget in Hu. cbn in *. by rewrite Hu. }
  erewrite bind_ok by reflexivity. cbn [js_string join_part]. erewrite bind_ok by exact Hblob. rewrite Hok.
  erewrite bind_ok by reflexivity.
  change (jget (metadata_val name mime size (CoreB64.toBase64Url nonce_b) recipient rwrap sender swrap _) (js "cipher_nonce"))
    with (JStr (CoreB64.toBase64Url nonce_b)).
  erewrite bind_ok by reflexivity. rewrite Hbuf, decryptAttachment_ok by done.
  erewrite bind_ok by reflexivity.
  change (jget (metadata_val name mime size (CoreB64.toBase64Url nonce_b) recipient rwrap sender swrap
    (WebAttachment.sha256OfBytes data)) (js "sha256_plaintext")) with (JStr (WebAttachment.sha256OfBytes data)).
  rewrite web_jis_refl. by erewrite bind_ok by reflexivity.
Qed.

End opens.

(** ** Rows *)

Section rows.
Context `{Host, WebCrypto, !WebCryptoLaws, Env, !EnvLaws, BrowserEnv}.

(** The row of metadata sealed under the message key, for a page that holds
    the key the message key is wrapped for. *)
Lemma decrypt_row_ok ck metadata sealed_metadata ek did priv id size b b' :
  wraps ek ck priv -> ascii_text ck -> ck <> [] -> json_okb metadata = true ->
  jeqb (json_stringify metadata) WebText.ENCRYPTED_PLACEHOLDER = false ->
  sealed_text ck (json_stringify metadata) sealed_metadata -> truthy_str did = true ->
  RecipientKeyring.getRecipientPrivateKey did b = (Ok (Some (PrivateKey X25519 priv)), b') ->
  decrypt_row ek did (Summary id sealed_metadata size) b = (Ok (Decrypted id size (Some metadata) None), b').
Proof.
  intros Hw Hk Hkn Hj Hph Hs Hdid Hring. unfold decrypt_row, WebText.decryptEnvelopeText. cbn [as_metadata_encrypted as_id as_size].
  erewrite bind_ok.
  2: { erewrite bind_ok by (eapply browser_opens; try done; by apply json_text_ok). reflexivity. }
  rewrite bool_decide_eq_true_2 by done. cbn [WebText.text]. by rewrite Hph, json_stringify_roundtrip.
Qed.

(** Without it, the row cannot be read. *)
Lemma decrypt_row_no_key ek did row b b' :
  RecipientKeyring.getRecipientPrivateKey did b = (Ok None, b') ->
  exists b'', decrypt_row ek did row b
    = (Ok (Decrypted (as_id row) (as_size row) None (Some (js "inbox.attachmentDecryptFailed"))), b'').
Proof.
  intros Hring. unfold decrypt_row, WebText.decryptEnvelopeText, WebText.decryptEnvelopeTextWithState.
  destruct (CryptoPkg.parseEncryptedPayload _) as [parsed|]; [|by eexists]. destruct ek as [|u ek]; [by eexists|].
  unfold WebText.decodeWrappedContentKey. destruct (starts_with _ (u :: ek)); cbn [negb]; [|by eexists].
  destruct did as [|d did]; [by eexists|]. exists b'. unfold mbind, eff_bind, mret, eff_ret. by rewrite Hring.
Qed.

End rows.

(** * Properties *)

(** An attachment is readable on the recipient's devices only.  On a page
    that has no key for the message's recipient - a sender looking at what it
    sent - every row of [AttachmentList] is undecryptable and a click on it
    downloads nothing, although [handleSubmit] of the compose page wraps the
    attachment key for the sender as well. *)
Theorem sender_cannot_download `{Host, WebCrypto, Env, BrowserEnv}
    (encryptedKey recipientDid messageId : jstr) (row : AttachmentSummary) (b b' : Browser) :
  RecipientKeyring.getRecipientPrivateKey recipientDid b = (Ok None, b') ->
  exists att b'', decrypt_row encryptedKey recipientDid row b = (Ok att, b'') /\ da_metadata att = None /\
    forall b1, handleDownload messageId att b1 = (Ok None, b1).
Proof.
  intros Hring. destruct (decrypt_row_no_key encryptedKey recipientDid row b b' Hring) as [b'' E].
  eexists _, b''. split; [exact E|]. done.
Qed.

Example sender_cannot_download_witness :
  let _ := plain_host in let _ := quiet_env in let _ := open_browser in
  let b := with_ring RecipientRing (Ring {[js "did:key:zSender" := PrivateKey X25519 (replicate 32 9)]} true) new_profile in
  exists b' att b'', RecipientKeyring.getRecipientPrivateKey (js "did:key:zRecipient") b = (Ok None, b') /\
    decrypt_row (js "x25519v1:a:b:c:d") (js "did:key:zRecipient") (Summary (js "a1") (js "enc:v1:x") (num 3)) b = (Ok att, b'') /\
    da_metadata att = None.
Proof.
  intros ho en br b.
  destruct (RecipientKeyring.getRecipientPrivateKey (js "did:key:zRecipient") b) as [r b'] eqn:E.
  assert (r = Ok None) as -> by (vm_compute in E; injection E as <- _; reflexivity).
  destruct (sender_cannot_download (js "x25519v1:a:b:c:d") (js "did:key:zRecipient") (js "m1")
    (Summary (js "a1") (js "enc:v1:x") (num 3)) b b' E) as (att & b'' & E' & Hn & _).
  exists b', att, b''. split; [reflexivity|]. split; [exact E'|exact Hn].
Defined.
