(* ===== verification/Compose.v ===== *)
(** Composing a message: apps/web/app/compose/page.tsx.

    [Page] is the state of the compose page that its handlers change: the
    browser, the attachment drafts, the status line, the body, and the list of
    upload intents of the submission in progress.  What the queries and the
    form give is the argument [Form].  Messages are their translation keys.
    Handlers read the drafts of the render they belong to, as the closures of
    the component do, and update the current state.  What the page shows is in
    MailViews.v. *)
From S2P Require Import Prelude Base64 Utf8 JsNumber Json A2A Effect Node Envelope ApiClient Browser WebKeystore WebEnvelope WebApi SendReply AttachmentList.

Definition MAX_ATTACHMENT_PER_FILE_BYTES : Z := 5 * 1024 * 1024.
Definition MAX_ATTACHMENT_TOTAL_BYTES : Z := 25 * 1024 * 1024.
Definition MAX_ATTACHMENT_COUNT : nat := 5.

Inductive AttachmentStatus := ready | uploading | uploaded | failed.

#[global] Instance attachment_status_eq_dec : EqDecision AttachmentStatus.
Proof. solve_decision. Defined.

Record AttachmentDraft := Draft {
  d_id : jstr; d_bytes : bytes; d_name : jstr; d_size : Z; d_mime : jstr; d_status : AttachmentStatus;
  d_remoteId : jval
}.

Inductive StatusKind := info | error | success.
Record Status := StatusOf { st_kind : StatusKind; st_message : jstr }.

(** A file the user picked; [None]: reading it fails. *)
Record File := FileOf { f_name : jstr; f_size : Z; f_type : jstr; f_content : option bytes }.

(** The columns of [Agent] the page reads. *)
Record Agent := AgentOf { ag_did : jstr; ag_label : jstr; ag_public_key : option jstr; ag_encryption_key : option jstr }.
Record Contact := ContactOf { co_did : jstr; co_person_name : jstr; co_agent_label : option jstr }.

Inductive ComposeMode := new_message | reply | forward.

#[global] Instance compose_mode_eq_dec : EqDecision ComposeMode.
Proof. solve_decision. Defined.

Record Form := FormOf {
  apiAgents : list Agent; senderDid : jstr; recipientDid : jstr; subject : jstr; f_body : jstr;
  hasSenderPrivateKey : bool; composeMode : ComposeMode; replyToId : option jstr;
  originalThreadId : option jstr       (** [originalMessageQuery.data?.thread_id] *)
}.

Record Page := PageOf {
  p_browser : Browser; p_attachments : list AttachmentDraft; p_status : option Status; p_body : jstr;
  p_intents : list jval
}.

Abbreviation PM := (eff Page).

Definition browser {A} (m : BM A) : PM A :=
  fun p => let '(r, b) := m (p_browser p) in
           (r, PageOf b (p_attachments p) (p_status p) (p_body p) (p_intents p)).

Definition setStatus (kind : StatusKind) (message : jstr) : PM unit :=
  fun p => (Ok tt, PageOf (p_browser p) (p_attachments p) (Some (StatusOf kind message)) (p_body p) (p_intents p)).
Definition setAttachments (f : list AttachmentDraft -> list AttachmentDraft) : PM unit :=
  fun p => (Ok tt, PageOf (p_browser p) (f (p_attachments p)) (p_status p) (p_body p) (p_intents p)).
Definition setBody (text : jstr) : PM unit :=
  fun p => (Ok tt, PageOf (p_browser p) (p_attachments p) (p_status p) text (p_intents p)).
Definition setIntents (f : list jval -> list jval) : PM unit :=
  fun p => (Ok tt, PageOf (p_browser p) (p_attachments p) (p_status p) (p_body p) (f (p_intents p))).

Definition with_status (s : AttachmentStatus) (d : AttachmentDraft) : AttachmentDraft :=
  Draft (d_id d) (d_bytes d) (d_name d) (d_size d) (d_mime d) s (d_remoteId d).
Definition with_remote (remote : jval) (d : AttachmentDraft) : AttachmentDraft :=
  Draft (d_id d) (d_bytes d) (d_name d) (d_size d) (d_mime d) uploaded remote.

(** [prev.map((a) => (a.id === id ? f(a) : a))]. *)
Definition map_draft (id : jstr) (f : AttachmentDraft -> AttachmentDraft) (l : list AttachmentDraft) : list AttachmentDraft :=
  map (fun a => if jeqb (d_id a) id then f a else a) l.

Definition isAidIdentifier (value : jstr) : bool := starts_with (js "aid:ai:") value.

(** ** What the page derives *)

(** The recipient picker: the agents, then the contacts, each did once. *)
Fixpoint add_options (seen : gset jstr) (l : list (jstr * jstr)) : list (jstr * jstr) :=
  match l with
  | [] => []
  | (did, label) :: r =>
    if decide (did ∈ seen) then add_options seen r else (did, label) :: add_options ({[did]} ∪ seen) r
  end.

Definition contact_label (c : Contact) : jstr :=
  match co_agent_label c with
  | Some label => if truthy_str label then co_person_name c ++ js "(" ++ label ++ js ")" else co_person_name c
  | None => co_person_name c
  end.

Definition recipientOptions (agents : list Agent) (contacts : list Contact) : list (jstr * jstr) :=
  add_options ∅ (map (fun a => (ag_did a, ag_label a)) agents ++ map (fun c => (co_did c, contact_label c)) contacts).

Definition find_agent (agents : list Agent) (did : jstr) : option Agent :=
  find (fun a => jeqb (ag_did a) did) agents.

Definition selectedSender (f : Form) : option Agent := find_agent (apiAgents f) (senderDid f).
Definition selectedRecipient (f : Form) : option Agent := find_agent (apiAgents f) (recipientDid f).

Definition attachmentsTotalSize (l : list AttachmentDraft) : Z := foldr (fun a sum => d_size a + sum) 0 l.

(** A present, non-empty field. *)
Definition present (v : option jstr) : option jstr :=
  match v with Some s => if truthy_str s then Some s else None | None => None end.

(** The reason the form cannot be sent; [None] when it can. *)
Definition readinessMessage (f : Form) (attachments : list AttachmentDraft) : option jstr :=
  let recipientKey := selectedRecipient f ≫= fun a => present (ag_encryption_key a) in
  if bool_decide (length (apiAgents f) = 0%nat) then Some (js "compose.validationNoAgent")
  else if negb (truthy_str (senderDid f)) then Some (js "compose.validationSelectFrom")
  else match selectedSender f ≫= fun a => present (ag_public_key a) with
  | None => Some (js "compose.validationNoSigningKey")
  | Some public_key =>
    if negb (Signature.isValidEd25519PublicKeyB64Url public_key) then Some (js "compose.validationBrokenKey")
    else if negb (hasSenderPrivateKey f) then Some (js "compose.validationNoPrivateKey")
    else if negb (truthy_str (trim (recipientDid f))) then Some (js "compose.validationEnterTo")
    else if negb (isAidIdentifier (recipientDid f)) && negb (bool_decide (is_Some (selectedRecipient f)))
    then Some (js "compose.validationToNotFound")
    else if negb (isAidIdentifier (recipientDid f)) && negb (bool_decide (is_Some recipientKey))
    then Some (js "compose.validationNoEncKey")
    else if negb (isAidIdentifier (recipientDid f))
            && match recipientKey with
               | Some k => negb (KeyWrap.isValidX25519PublicKeyB64Url (JStr k))
               | None => false
               end
    then Some (js "compose.validationBadEncKey")
    else if negb (truthy_str (trim (subject f))) then Some (js "compose.validationSubject")
    else if negb (truthy_str (trim (f_body f))) then Some (js "compose.validationBody")
    else if MAX_ATTACHMENT_TOTAL_BYTES <? attachmentsTotalSize attachments then Some (js "compose.validationAttachSize")
    else if existsb (fun a => bool_decide (d_status a = uploading)) attachments
    then Some (js "compose.statusUploadingAttachments")
    else None
  end.

(** ** Choosing files *)

Section choose.
Context `{Env}.

(** The loop over the chosen files; [break] ends it. *)
Fixpoint choose_loop (files : list File) (runningTotal : Z) : PM (list AttachmentDraft) :=
  match files with
  | [] => mret []
  | file :: rest =>
    if MAX_ATTACHMENT_PER_FILE_BYTES <? f_size file then
      setStatus error (js "compose.validationAttachPerFile") ;; choose_loop rest runningTotal
    else if MAX_ATTACHMENT_TOTAL_BYTES <? runningTotal + f_size file then
      setStatus error (js "compose.validationAttachMax") ;; mret []
    else
      match f_content file with
      | Some content =>
        id ← browser (host random_uuid);
        rest ← choose_loop rest (runningTotal + f_size file);
        mret (Draft id content (f_name file) (f_size file)
                (if truthy_str (f_type file) then f_type file else js "application/octet-stream") ready JUndef :: rest)
      | None =>
        setStatus error (js "compose.validationAttachRead") ;; choose_loop rest (runningTotal + f_size file)
      end
  end.

(** [attachments] are the drafts of the render the handler belongs to. *)
Definition handleFilesChosen (attachments : list AttachmentDraft) (files : list File) : PM unit :=
  match files with
  | [] => mret tt
  | _ =>
    if (MAX_ATTACHMENT_COUNT <? length attachments + length files)%nat then
      setStatus error (js "compose.validationAttachCount")
    else
      added ← choose_loop files (attachmentsTotalSize attachments);
      match added with [] => mret tt | _ => setAttachments (fun prev => prev ++ added) end
  end.

Definition removeAttachment (id : jstr) : PM unit :=
  setAttachments (filter (fun a => jeqb (d_id a) id = false)).

End choose.

(** ** Sending *)

Section submit.
Context `{Host, WebCrypto, Env, BrowserEnv}.

Definition attachment_metadata (att : AttachmentDraft) (nonceB64Url : jstr) (recipientAddress : jval)
    (recipientWrap senderDid senderWrap sha256Plain : jstr) : jval :=
  JObj [(js "filename", JStr (d_name att)); (js "mime", JStr (d_mime att));
        (js "plaintext_size_bytes", JNum (num (d_size att))); (js "cipher_algorithm", JStr (js "aes-gcm-256"));
        (js "cipher_nonce", JStr nonceB64Url);
        (js "attachment_key_wraps",
         JArr [JObj [(js "recipient_did", recipientAddress); (js "wrapped_key", JStr recipientWrap)];
               JObj [(js "recipient_did", JStr senderDid); (js "wrapped_key", JStr senderWrap)]]);
        (js "sha256_plaintext", JStr sha256Plain)].

(** The headers [fetch] accepts: an object of header values, or none. *)
Definition headers_of (v : jval) : res (list (jstr * jstr)) :=
  match v with
  | JObj l => Ok (map (fun kv => (kv.1, js_string kv.2)) l)
  | JUndef => Ok []
  | _ => Throw (TypeError_ (js "headers is not a HeadersInit"))
  end.

(** The body of the loop over the attachments, up to the reference it pushes. *)
Definition upload_attachment (senderDid : jstr) (senderEncryptionKey : jstr) (recipientAddress recipientEncryptionKey : jval)
    (contentKey : jstr) (att : AttachmentDraft) : PM WebApi.OutboundAttachmentRef :=
  setAttachments (map_draft (d_id att) (with_status uploading)) ;;
  rawAttachmentKey ← browser (host WebAttachment.generateAttachmentKey);
  encrypted ← browser (host (WebAttachment.encryptAttachment (d_bytes att) rawAttachmentKey));
  let '(ciphertext, nonceB64Url) := encrypted in
  let byteLength := Z.of_nat (length ciphertext) in
  let sha256Plain := WebAttachment.sha256OfBytes (d_bytes att) in
  intent ← browser (WebApi.createAttachmentIntent WebApi.defaultApiClient
    (JObj [(js "sender_did", JStr senderDid); (js "ciphertext_size_bytes", JNum (num byteLength))]));
  attachment_id ← lift (jprop intent (js "attachment_id"));
  setIntents (fun ids => ids ++ [attachment_id]) ;;
  headers ← lift (headers_of (jget intent (js "required_headers")));
  putResp ← browser (web_fetch (HttpRequest (js "PUT") (js_string (jget intent (js "upload_url"))) headers
                                  (ByteBody ciphertext)));
  raise_if (negb (wr_ok putResp)) (Error_ (js "R2 upload failed: " ++ dec_of_Z (wr_status putResp))) ;;
  browser (WebApi.completeAttachment WebApi.defaultApiClient (js_string attachment_id) byteLength) ;;
  let attachmentKeyStr := WebAttachment.encodeAttachmentKey rawAttachmentKey in
  recipientWrap ← browser (host (KeyWrap.wrapContentKeyForRecipient attachmentKeyStr recipientEncryptionKey));
  senderWrap ← browser (host (KeyWrap.wrapContentKeyForRecipient attachmentKeyStr (JStr senderEncryptionKey)));
  let metadataPlain := attachment_metadata att nonceB64Url recipientAddress (KeyWrap.wrappedKey recipientWrap)
                         senderDid (KeyWrap.wrappedKey senderWrap) sha256Plain in
  encryptedMeta ← browser (host (WebText.encryptEnvelopeText (json_stringify metadataPlain) (Some contentKey)));
  setAttachments (map_draft (d_id att) (with_remote attachment_id)) ;;
  mret (WebApi.OutboundRef attachment_id (WebText.serialized encryptedMeta) (WebText.et_nonce encryptedMeta)).

(** [a || b] on the thread of a reply. *)
Definition reply_thread (f : Form) : jval :=
  match composeMode f, present (replyToId f) with
  | reply, Some id => JStr (default id (present (originalThreadId f)))
  | _, _ => JUndef
  end.

(** The guarded body of [handleSubmit].  A returned [false] is an early
    [return]. *)
Definition submit (f : Form) (attachments : list AttachmentDraft) (senderEncryptionKey : jstr) : PM bool :=
  let recipientInput := trim (recipientDid f) in
  resolvedRecipient ← (if isAidIdentifier recipientInput then
      setStatus info (js "compose.statusResolvingRecipient") ;;
      browser (WebApi.resolveRecipient WebApi.defaultApiClient recipientInput)
    else mret JNull);
  let recipientAddress := nullish_or (optional_prop resolvedRecipient (js "did")) (JStr recipientInput) in
  let recipientEncryptionKey := nullish_or (optional_prop resolvedRecipient (js "encryption_public_key"))
    (match selectedRecipient f ≫= ag_encryption_key with Some k => JStr k | None => JUndef end) in
  if negb (jtruthy recipientEncryptionKey) then
    setStatus error (js "compose.validationNoEncKey") ;; mret false
  else if negb (KeyWrap.isValidX25519PublicKeyB64Url recipientEncryptionKey) then
    setStatus error (js "compose.validationBadEncKey") ;; mret false
  else
    setStatus info (js "compose.statusEncrypting") ;;
    contentKey ← browser (host WebText.generateContentKey);
    encryptedSubject ← browser (host (WebText.encryptEnvelopeText (subject f) (Some contentKey)));
    encryptedBody ← browser (host (WebText.encryptEnvelopeText (f_body f) (Some contentKey)));
    wrapped ← browser (host (KeyWrap.wrapContentKeyForRecipient contentKey recipientEncryptionKey));
    outboundAttachments ←
      (match attachments with
       | [] => mret []
       | _ =>
         setStatus info (js "compose.statusUploadingAttachments") ;;
         eff_map (upload_attachment (senderDid f) senderEncryptionKey recipientAddress recipientEncryptionKey contentKey)
           attachments
       end);
    signingPrivateKey ← browser (SigningKeyring.getSigningPrivateKey (senderDid f));
    match signingPrivateKey with
    | None => setStatus error (js "compose.statusKeyLoadFailed") ;; mret false
    | Some signingPrivateKey =>
      signature ← lift (Signature.signEnvelopePayload signingPrivateKey (JStr (senderDid f)) recipientAddress
        (WebText.serialized encryptedSubject) (WebText.serialized encryptedBody) (KeyWrap.wrappedKey wrapped)
        (WebText.et_nonce encryptedBody));
      setStatus info (js "compose.statusSending") ;;
      browser (WebApi.seedMessage WebApi.defaultApiClient
        (WebApi.Seed (JStr (senderDid f)) (JStr recipientInput) (WebText.serialized encryptedSubject)
           (WebText.serialized encryptedBody) (KeyWrap.wrappedKey wrapped) (WebText.et_nonce encryptedBody) signature
           (reply_thread f) outboundAttachments None None)) ;;
      setStatus success (js "compose.statusSent") ;; setBody [] ;; setAttachments (fun _ => []) ;; mret true
    end.

(** [defaultApiClient.deleteAttachment(id).catch(() => {})]. *)
Definition discard_intent (id : jval) : PM unit :=
  try_catch (browser (WebApi.deleteAttachment WebApi.defaultApiClient (js_string id))) (fun _ => mret tt).

Definition fail_uploading (d : AttachmentDraft) : AttachmentDraft :=
  if decide (d_status d = uploading) then with_status failed d else d.

Definition on_submit_error (err : jserror) : PM bool :=
  setAttachments (map fail_uploading) ;;
  p ← get_state;
  eff_iter discard_intent (p_intents p) ;;
  setStatus error (if includes (err_message err) (js "R2") then js "compose.statusAttachmentUploadFailed"
                   else js "compose.statusSendFailed") ;;
  mret false.

(** [true]: the message was sent. *)
Definition handleSubmit (f : Form) (attachments : list AttachmentDraft) : PM bool :=
  match readinessMessage f attachments with
  | Some message => setStatus error message ;; mret false
  | None =>
    match selectedSender f ≫= fun a => present (ag_encryption_key a) with
    | None => setStatus error (js "compose.validationNoEncKey") ;; mret false
    | Some senderEncryptionKey =>
      setStatus info (js "compose.statusEncrypting") ;;
      setIntents (fun _ => []) ;;
      try_catch (submit f attachments senderEncryptionKey) on_submit_error
    end
  end.

End submit.

(** * Lemmas *)

Lemma browser_run {A} (m : BM A) p r b :
  m (p_browser p) = (r, b) ->
  browser m p = (r, PageOf b (p_attachments p) (p_status p) (p_body p) (p_intents p)).
Proof. intros E. unfold browser. by rewrite E. Qed.

Lemma browser_inv {A} (m : BM A) p a p' :
  browser m p = (Ok a, p') -> m (p_browser p) = (Ok a, p_browser p') /\ p_attachments p' = p_attachments p.
Proof. unfold browser. destruct (m (p_browser p)) as [r b]. by intros [= -> <-]. Qed.

Lemma host_inv {A} (m : M A) b a b' : host m b = (Ok a, b') -> exists w', m (b_node b) = (Ok a, w').
Proof. unfold host. destruct (m (b_node b)) as [r w]. intros [= -> _]. by exists w. Qed.

(** Take a successful run of a handler apart. *)
Ltac page_inv :=
  repeat (eff_inv; match goal with
  | H : browser _ _ = (Ok _, _) |- _ => apply browser_inv in H as [H ?]
  | H : (_, _) = (Ok _, _) |- _ => injection H as ? ?; subst
  | H : host _ _ = (Ok _, _) |- _ => let E := fresh "Hhost" in pose proof (host_inv _ _ _ _ H) as [? E]; clear H
  end).

Section longer.
Context `{Host, WebCrypto, Env, BrowserEnv}.

Lemma longer_wrap content key : respects longer (KeyWrap.wrapContentKeyForRecipient content key).
Proof.
  unfold KeyWrap.wrapContentKeyForRecipient, generate_key, get_random.
  repeat (apply respects_bind; [apply _|apply longer_ask || apply respects_lift, _|intros ?]). apply respects_ret, _.
Qed.

Lemma longer_encrypt plain key : respects longer (WebText.encryptEnvelopeText plain (Some key)).
Proof.
  unfold WebText.encryptEnvelopeText, CryptoPkg.encryptText, get_random.
  repeat (apply respects_bind; [apply _| |intros ?]); auto using respects_ret, respects_lift, longer_ask with typeclass_instances.
Qed.

End longer.

Lemma longer_seedMessage `{Host, Env, BrowserEnv} m : respects longer (WebApi.seedMessage WebApi.defaultApiClient m).
Proof. apply WebApi.longer_request. Qed.

(** The trace of a page only grows. *)
Definition page_longer (p p' : Page) : Prop := longer (p_browser p) (p_browser p').

#[global] Instance page_longer_preorder : PreOrder page_longer.
Proof. split; [by exists []|]. intros p1 p2 p3. apply (transitivity (R := @longer Browser Event _)). Qed.

Section uploads.
Context `{Host, WebCrypto, !WebCryptoLaws, Env, !EnvLaws, BrowserEnv}.

(** [ref] carries the attachment, its key wrapped for both parties and its
    metadata sealed under the message key; its bytes were uploaded encrypted. *)
Definition carries (ck recipientAddress : jstr) (rpriv : bytes) (senderDid : jstr) (spriv : bytes)
    (att : AttachmentDraft) (ref : WebApi.OutboundAttachmentRef) (p : Page) : Prop :=
  exists rawKey nonce rwrap swrap url headers,
    bytes_ok rawKey /\ length rawKey = 32%nat /\ bytes_ok nonce /\
    wraps rwrap (WebAttachment.encodeAttachmentKey rawKey) rpriv /\
    wraps swrap (WebAttachment.encodeAttachmentKey rawKey) spriv /\
    sealed_text ck (json_stringify (metadata_val (d_name att) (d_mime att) (d_size att) (toBase64Url nonce)
      recipientAddress rwrap senderDid swrap (WebAttachment.sha256OfBytes (d_bytes att)))) (WebApi.oa_metadata_encrypted ref) /\
    EvFetch (HttpRequest (js "PUT") url headers (ByteBody (aes_gcm_encrypt rawKey nonce (d_bytes att))))
      ∈ w_trace (b_node (p_browser p)).

Definition draft_ok (att : AttachmentDraft) : Prop :=
  bytes_ok (d_bytes att) /\ Forall unit_ok (d_name att) /\ Forall unit_ok (d_mime att) /\ safe_int (d_size att).

(** The steps of an upload. *)
Lemma gen_key_inv p k p' :
  browser (host WebAttachment.generateAttachmentKey) p = (Ok k, p') -> bytes_ok k /\ length k = 32%nat.
Proof. intros Hg. page_inv. injection Hhost as <- _. split; [apply random_bytes|apply random_length]. Qed.

Lemma encryptAttachment_inv data k p c n p' :
  length k = 32%nat -> browser (host (WebAttachment.encryptAttachment data k)) p = (Ok (c, n), p') ->
  exists nonce, bytes_ok nonce /\ c = aes_gcm_encrypt k nonce data /\ n = toBase64Url nonce.
Proof.
  intros Hk Hg. page_inv. unfold WebAttachment.encryptAttachment, WebAttachment.importAesGcmKey in Hhost. rewrite Hk in Hhost.
  injection Hhost as <- <- _. eexists. split; [|done]. apply random_bytes.
Qed.

Lemma wrap_inv content priv p r p' :
  ascii_text content ->
  browser (host (KeyWrap.wrapContentKeyForRecipient content (public_key_val priv))) p = (Ok r, p') ->
  wraps (KeyWrap.wrappedKey r) content priv.
Proof.
  intros Hc Hg. page_inv. destruct (browser_wraps content priv (b_node (p_browser p)) Hc) as (r' & w' & E & W).
  rewrite E in Hhost. by injection Hhost as <- _.
Qed.

Lemma encrypt_inv plain k p r p' :
  Forall unit_ok plain -> browser (host (WebText.encryptEnvelopeText plain (Some k))) p = (Ok r, p') ->
  sealed_text k plain (WebText.serialized r) /\ wire_text (WebText.et_nonce r).
Proof.
  intros Hu Hg. page_inv. destruct (web_encrypts plain k (b_node (p_browser p)) Hu) as (r' & w' & E & W).
  rewrite E in Hhost. by injection Hhost as <- _.
Qed.

Lemma longer_complete id n : respects longer (WebApi.completeAttachment WebApi.defaultApiClient id n).
Proof.
  unfold WebApi.completeAttachment. apply respects_bind; [apply _|apply respects_lift, _|]. intros ?. apply WebApi.longer_request.
Qed.

Lemma longer_browser {A} (m : BM A) : respects longer m -> respects page_longer (browser m).
Proof. intros Hm p. specialize (Hm (p_browser p)). unfold browser, page_longer. by destruct (m (p_browser p)). Qed.

Lemma longer_run {A} (m : PM A) p r p' : respects page_longer m -> m p = (r, p') -> page_longer p p'.
Proof. intros Hm E. specialize (Hm p). by rewrite E in Hm. Qed.

Lemma put_logged rq p r p' : browser (web_fetch rq) p = (Ok r, p') -> EvFetch rq ∈ w_trace (b_node (p_browser p')).
Proof. intros Hg. page_inv. by eapply web_fetch_logged. Qed.

Lemma metadata_json name mime size nonce raddr rwrap sd swrap sha :
  Forall (Forall unit_ok) [name; mime; nonce; raddr; rwrap; sd; swrap; sha] -> safe_int size ->
  json_okb (metadata_val name mime size nonce raddr rwrap sd swrap sha) = true.
Proof.
  intros Hu Hs. rewrite !Forall_cons, <- !forallb_units in Hu. destruct Hu as (U1 & U2 & U3 & U4 & U5 & U6 & U7 & U8 & _).
  assert (num_okb (num size) = true) as Hn by (unfold num_okb, num, safe_int in *; cbn; bool_to_prop; lia).
  cbn [json_okb metadata_val forallb fmap list_fmap fst snd].
  rewrite U1, U2, U3, U4, U5, U6, U7, U8, Hn. by vm_compute.
Qed.

Lemma upload_carries sd spriv raddr rpriv ck att p ref p' :
  draft_ok att -> Forall unit_ok sd -> Forall unit_ok raddr ->
  upload_attachment sd (CoreB64.toBase64Url (key_public X25519 spriv)) (JStr raddr) (public_key_val rpriv) ck att p = (Ok ref, p') ->
  carries ck raddr rpriv sd spriv att ref p'.
Proof.
  intros (Hd & Hn & Hm & Hsz) Hsd Hra Hrun. unfold upload_attachment in Hrun.
  eff_inv. apply gen_key_inv in Hstep0 as [Hkb Hkl]. destruct x3 as [c n].
  apply encryptAttachment_inv in Hstep1 as (nonce & Hnb & -> & ->); [|done].
  eff_inv.
  assert (ascii_text (WebAttachment.encodeAttachmentKey x1)) as Hkey.
  { unfold WebAttachment.encodeAttachmentKey. rewrite web_toBase64Url. by apply b64_ascii, toBase64Url_ok. }
  pose proof (put_logged _ _ _ _ Hstep4) as Hput.
  apply longer_run in Hstep6; [|apply longer_browser, longer_complete].
  pose proof (longer_run _ _ _ _ (longer_browser _ (longer_host _ (longer_wrap _ _))) Hstep7) as L1.
  pose proof (longer_run _ _ _ _ (longer_browser _ (longer_host _ (longer_wrap _ _))) Hstep8) as L2.
  pose proof (longer_run _ _ _ _ (longer_browser _ (longer_host _ (longer_encrypt _ _))) Hstep9) as L3.
  injection Hstep10 as <-.
  apply wrap_inv in Hstep7; [|done]. apply (wrap_inv _ spriv) in Hstep8; [|done].
  change (attachment_metadata _ _ _ _ _ _ _) with (metadata_val (d_name att) (d_mime att) (d_size att) (toBase64Url nonce)
    raddr (KeyWrap.wrappedKey x17) sd (KeyWrap.wrappedKey x19) (WebAttachment.sha256OfBytes (d_bytes att))) in Hstep9.
  apply encrypt_inv in Hstep9 as [Hmeta _].
  2: { apply json_text_ok, metadata_json; [|done]. unfold WebAttachment.sha256OfBytes. rewrite !web_toBase64Url.
       rewrite !Forall_cons. split_and!; try done; try (eapply ascii_units, wraps_wire; done);
         apply ascii_units, b64_ascii, toBase64Url_ok; done || apply sha256_bytes. }
  assert (page_longer x12 x22) as L by (etrans; [exact Hstep6|etrans; [exact L1|etrans; [exact L2|exact L3]]]).
  apply (longer_elem _ _ _ L) in Hput.
  exists x1, nonce, (KeyWrap.wrappedKey x17), (KeyWrap.wrappedKey x19). eexists _, _. by split_and!.
Qed.

Lemma carries_later ck raddr rpriv sd spriv att ref p p' :
  page_longer p p' -> carries ck raddr rpriv sd spriv att ref p -> carries ck raddr rpriv sd spriv att ref p'.
Proof.
  intros L (key & nonce & rw & sw & url & hs & F1 & F2 & F3 & F4 & F5 & F6 & F7).
  exists key, nonce, rw, sw, url, hs. split_and!; try done. by apply (longer_elem _ _ _ L).
Qed.

Lemma longer_upload sd skey raddr rkey ck att : respects page_longer (upload_attachment sd skey raddr rkey ck att).
Proof.
  unfold upload_attachment.
  assert (forall f, respects page_longer (setAttachments f)) as HA by (intros f q; by exists []).
  assert (forall f, respects page_longer (setIntents f)) as HI by (intros f q; by exists []).
  assert (forall A (r : res A), respects page_longer (lift r)) as HL by (intros; apply respects_lift, _).
  repeat match goal with
  | |- respects _ (_ ≫= _) => apply respects_bind; [apply _| |intros ?]
  | |- respects _ (let '(_, _) := ?x in _) => destruct x
  end; try apply HA; try apply HI; try apply HL; try apply (respects_ret page_longer).
  all: apply longer_browser; auto using longer_host, longer_wrap, longer_encrypt, longer_complete, longer_web_fetch with effdb.
  - apply longer_host, longer_ask.
  - apply longer_host. unfold WebAttachment.encryptAttachment.
    apply respects_bind; [apply _|apply respects_lift, _|intros ?]. apply respects_bind; [apply _|apply longer_ask|intros ?].
    apply respects_ret, _.
  - apply WebApi.longer_request.
Qed.

Lemma uploads_carry sd spriv raddr rpriv ck atts p refs p' :
  Forall draft_ok atts -> Forall unit_ok sd -> Forall unit_ok raddr ->
  eff_map (upload_attachment sd (CoreB64.toBase64Url (key_public X25519 spriv)) (JStr raddr) (public_key_val rpriv) ck) atts p
  = (Ok refs, p') ->
  Forall2 (fun att ref => carries ck raddr rpriv sd spriv att ref p') atts refs /\ page_longer p p'.
Proof.
  intros Hatts Hsd Hra. revert p refs. induction Hatts as [|att atts Hatt Hatts IH]; intros p refs Hrun; cbn [eff_map] in Hrun; eff_inv.
  { split; [constructor|by exists []]. }
  pose proof (longer_run _ _ _ _ (longer_upload _ _ _ _ _ _) Hstep) as L1.
  apply upload_carries in Hstep; [|done..]. destruct (IH _ _ Hstep0) as [Hrest L2].
  split; [|by etrans]. constructor; [|exact Hrest]. by eapply carries_later.
Qed.

End uploads.

(** ** What a submission sends *)

(** The address and the key [handleSubmit] uses: the directory's for an AID, the
    agent's otherwise. *)
Definition resolves `{Host, WebCrypto, Env, BrowserEnv} (f : Form) (raddr : jstr) (rpriv : bytes) : Prop :=
  let input := trim (recipientDid f) in
  if isAidIdentifier input then
    forall b r b', WebApi.resolveRecipient WebApi.defaultApiClient input b = (Ok r, b') ->
      nullish_or (optional_prop r (js "did")) (JStr input) = JStr raddr /\
      optional_prop r (js "encryption_public_key") = public_key_val rpriv
  else raddr = input /\ selectedRecipient f ≫= ag_encryption_key = Some (CoreB64.toBase64Url (key_public X25519 rpriv)).

(** A signature over the fields of a message as [submit] signs them. *)
Definition signed_for `{WebCrypto} (m : WebApi.SeedMessage) (recipientAddress : jstr) (key : bytes) : Prop :=
  exists sig, WebApi.sm_signature m = CoreB64.toBase64Url sig /\
    ed25519_verify (key_public Ed25519 key)
      (utf8_encode (Core.signed_payload (WebApi.sm_senderDid m) (JStr recipientAddress)
         (WebApi.sm_subjectEncrypted m) (WebApi.sm_encryptedContent m) (WebApi.sm_encryptedKey m) (WebApi.sm_nonce m)))
      sig = true.

Section sends.
Context `{Host, WebCrypto, !WebCryptoLaws, Env, !EnvLaws, BrowserEnv}.

Lemma content_key_inv p k p' :
  browser (host WebText.generateContentKey) p = (Ok k, p') -> ascii_text k /\ k <> [].
Proof.
  intros Hg. page_inv. destruct (web_content_key (b_node (p_browser p))) as (k' & w' & E & W).
  rewrite E in Hhost. by injection Hhost as <- _.
Qed.

Lemma uploads_inv sd spriv raddr rpriv ck atts p refs p' :
  Forall draft_ok atts -> Forall unit_ok sd -> Forall unit_ok raddr ->
  (match atts with
   | [] => mret []
   | _ => setStatus info (js "compose.statusUploadingAttachments") ;;
     eff_map (upload_attachment sd (CoreB64.toBase64Url (key_public X25519 spriv)) (JStr raddr) (public_key_val rpriv) ck) atts
   end) p = (Ok refs, p') ->
  Forall2 (fun att ref => carries ck raddr rpriv sd spriv att ref p') atts refs.
Proof.
  intros Ha Hsd Hra. destruct atts as [|att atts]; intros Hrun.
  - eff_inv. constructor.
  - apply bind_inv in Hrun as (u & p1 & _ & Hrun). by apply uploads_carry in Hrun as [Hc _].
Qed.

Lemma signing_inv k sd raddr se ec ek n sig :
  Signature.signEnvelopePayload k (JStr sd) (JStr raddr) se ec ek n = Ok sig ->
  exists key, k = PrivateKey Ed25519 key /\ sig = CoreB64.toBase64Url (ed25519_sign key
    (utf8_encode (Core.signed_payload (JStr sd) (JStr raddr) se ec ek n))).
Proof.
  destruct k as [[] raw|raw]; [|done..]. rewrite web_sign. intros [= <-]. by eexists.
Qed.

End sends.

Lemma present_some v s : present v = Some s -> v = Some s.
Proof. destruct v as [[|]|]; cbn; congruence. Qed.

Lemma find_agent_some agents did a : find_agent agents did = Some a -> a ∈ agents /\ ag_did a = did.
Proof. unfold find_agent. intros [Ha Hd]%find_some. split; [by apply list_elem_of_In|by apply jeqb_true]. Qed.

(** ** The caps on attachments *)

Definition within_caps (l : list AttachmentDraft) : Prop :=
  (length l <= MAX_ATTACHMENT_COUNT)%nat /\ attachmentsTotalSize l <= MAX_ATTACHMENT_TOTAL_BYTES /\
  Forall (fun a => d_size a <= MAX_ATTACHMENT_PER_FILE_BYTES) l.

Definition files_size (files : list File) : Z := foldr (fun f sum => f_size f + sum) 0 files.

(** The draft shows the file. *)
Definition drafted (f : File) (a : AttachmentDraft) : Prop :=
  f_content f = Some (d_bytes a) /\ d_name a = f_name f /\ d_size a = f_size f /\ d_status a = ready.

Lemma attachmentsTotalSize_app l k : attachmentsTotalSize (l ++ k) = attachmentsTotalSize l + attachmentsTotalSize k.
Proof. unfold attachmentsTotalSize. induction l as [|a l IH]; cbn; lia. Qed.

Lemma attachmentsTotalSize_cons a l : attachmentsTotalSize (a :: l) = d_size a + attachmentsTotalSize l.
Proof. done. Qed.

Lemma files_size_cons f l : files_size (f :: l) = f_size f + files_size l.
Proof. done. Qed.

Lemma files_size_nonneg l : Forall (fun f => 0 <= f_size f) l -> 0 <= files_size l.
Proof. induction 1; rewrite ?files_size_cons; [done|lia]. Qed.

Lemma choose_loop_caps `{Env} files total p :
  Forall (fun f => 0 <= f_size f) files -> total <= MAX_ATTACHMENT_TOTAL_BYTES ->
  exists added p', choose_loop files total p = (Ok added, p') /\ p_attachments p' = p_attachments p /\
    (length added <= length files)%nat /\ total + attachmentsTotalSize added <= MAX_ATTACHMENT_TOTAL_BYTES /\
    Forall (fun a => d_size a <= MAX_ATTACHMENT_PER_FILE_BYTES) added /\
    (Forall (fun f => f_size f <= MAX_ATTACHMENT_PER_FILE_BYTES /\ is_Some (f_content f)) files ->
     total + files_size files <= MAX_ATTACHMENT_TOTAL_BYTES -> Forall2 drafted files added).
Proof.
  revert total p. induction files as [|f files IH]; intros total p Hpos Ht.
  { exists [], p. split_and!; [done|done|done|cbn; lia|done|done]. }
  inversion_clear Hpos as [|? ? Hf Hpos']. cbn [choose_loop].
  destruct (Z.ltb_spec MAX_ATTACHMENT_PER_FILE_BYTES (f_size f)) as [Hbig|Hsmall].
  { unfold setStatus. erewrite bind_ok by reflexivity.
    edestruct (IH total) as (added & p' & E & Ea & Hl & Hsum & Hall & _); [done..|]. exists added, p'.
    split_and!; [exact E|exact Ea|cbn; lia|done|done|]. intros Hfit. inversion_clear Hfit. lia. }
  destruct (Z.ltb_spec MAX_ATTACHMENT_TOTAL_BYTES (total + f_size f)) as [Hover|Hroom].
  { eexists [], _. split_and!; [reflexivity|done|cbn; lia|cbn; lia|done|].
    intros _ Hsz. rewrite files_size_cons in Hsz. apply files_size_nonneg in Hpos'. lia. }
  destruct (f_content f) as [content|] eqn:Ec.
  - erewrite bind_ok by (apply browser_run, host_ok; reflexivity).
    edestruct (IH (total + f_size f)) as (added & p' & E & Ea & Hl & Hsum & Hall & Hfull); [done..|].
    erewrite bind_ok by exact E. eexists _, p'. split; [reflexivity|]. split_and!; [exact Ea|cbn; lia|rewrite attachmentsTotalSize_cons; cbn; lia| |].
    + by constructor.
    + intros Hfit Hsz. inversion_clear Hfit as [|? ? ? Hrest]. constructor; [done|]. apply Hfull; [done|].
      rewrite files_size_cons in Hsz. lia.
  - unfold setStatus. erewrite bind_ok by reflexivity.
    edestruct (IH (total + f_size f)) as (added & p' & E & Ea & Hl & Hsum & Hall & _); [done..|]. exists added, p'.
    split_and!; [exact E|exact Ea|cbn; lia|lia|done|]. intros Hfit. inversion_clear Hfit as [|? ? Hf' ?].
    destruct Hf' as [_ [? Hs]]. congruence.
Qed.

(** ** What a submission leaves behind *)

(** No draft is shown as uploading. *)
Definition idle (p : Page) : Prop := Forall (fun a => d_status a <> uploading) (p_attachments p).

Section settles.
Context `{Host, WebCrypto, Env, BrowserEnv}.

Lemma upload_drafts sd skey raddr rkey ck att p ref p' :
  upload_attachment sd skey raddr rkey ck att p = (Ok ref, p') ->
  exists remote, p_attachments p' = map_draft (d_id att) (with_remote remote)
                   (map_draft (d_id att) (with_status uploading) (p_attachments p)).
Proof.
  intros Hrun. unfold upload_attachment in Hrun. eff_inv. destruct x3 as [c n]. eff_inv.
  repeat match goal with E : browser _ _ = (Ok _, _) |- _ => apply browser_inv in E as [_ E] end.
  repeat match goal with
  | E : setAttachments _ _ = (Ok _, _) |- _ => injection E as <-
  | E : setIntents _ _ = (Ok _, _) |- _ => injection E as <-
  end. cbn [p_attachments] in *. eexists. repeat match goal with E : p_attachments _ = _ |- _ => rewrite E; clear E end. done.
Qed.

Definition stays_idle (p p' : Page) : Prop := idle p -> idle p'.

#[local] Instance stays_idle_preorder : PreOrder stays_idle.
Proof. split; unfold stays_idle; [by intros p|]. intros p1 p2 p3 ? ? ?. auto. Qed.

Lemma stays_browser {A} (m : BM A) : respects stays_idle (browser m).
Proof. intros p Hp. unfold browser. destruct (m (p_browser p)). exact Hp. Qed.

Lemma stays_status kind message : respects stays_idle (setStatus kind message).
Proof. intros p Hp. exact Hp. Qed.

#[local] Hint Resolve stays_browser stays_status : effdb.

Lemma upload_idle sd skey raddr rkey ck att :
  returns_within stays_idle (upload_attachment sd skey raddr rkey ck att).
Proof.
  intros p ref p' [remote E]%upload_drafts Hp. unfold idle, map_draft in *. rewrite E. rewrite !Forall_map.
  eapply Forall_impl; [exact Hp|]. intros a Ha. cbn. destruct (jeqb (d_id a) (d_id att)) eqn:Eid; cbn; by rewrite Eid.
Qed.

Ltac stays :=
  repeat (apply returns_bind; [apply _| |intros ?]);
  try (apply returns_respects; auto with effdb typeclass_instances; fail).

Lemma submit_idle f atts skey : returns_within stays_idle (submit f atts skey).
Proof.
  unfold submit. stays.
  - apply returns_respects. case_match; [|apply respects_ret, _].
    apply respects_bind; [apply _|apply stays_status|]. intros _. apply stays_browser.
  - generalize (nullish_or (optional_prop a (js "encryption_public_key"))
      (match selectedRecipient f ≫= ag_encryption_key with Some k => JStr k | None => JUndef end)) as rkey. intros rkey.
    destruct (negb (jtruthy rkey)); [stays|]. destruct (negb (KeyWrap.isValidX25519PublicKeyB64Url rkey)); [stays|].
    stays.
    + destruct atts as [|att0 atts]; [stays|]. apply returns_bind; [apply _|stays|intros _]. apply returns_map; [apply _|].
      intros att. apply upload_idle.
    + case_match; stays; intros p u p' [= _ <-] Hp; [exact Hp|apply Forall_nil_2].
Qed.

(** Discarding never fails, leaves the page's lists alone and asks the server
    to delete each intent. *)
Lemma discard_ok id p :
  exists p', discard_intent id p = (Ok tt, p') /\ p_attachments p' = p_attachments p /\ p_intents p' = p_intents p /\
    page_longer p p' /\
    forall eid, encodeURIComponent (js_string id) = Ok eid ->
      EvFetch (HttpRequest (js "DELETE") (WebApi.DEFAULT_BASE_URL ++ js "/attachments/" ++ eid)
                 [(js "Content-Type", js "application/json")] NoBody) ∈ w_trace (b_node (p_browser p')).
Proof.
  unfold discard_intent, try_catch, browser.
  destruct (WebApi.deleteAttachment _ _ (p_browser p)) as [r b] eqn:E.
  assert (longer (p_browser p) b) as Hl.
  { assert (respects longer (WebApi.deleteAttachment WebApi.defaultApiClient (js_string id))) as Hr.
    { unfold WebApi.deleteAttachment. apply respects_bind; [apply _|apply respects_lift, _|intros ?].
      apply respects_bind; [apply _|apply WebApi.longer_request|intros ?]. apply respects_ret, _. }
    specialize (Hr (p_browser p)). by rewrite E in Hr. }
  exists (PageOf b (p_attachments p) (p_status p) (p_body p) (p_intents p)).
  split; [by destruct r as [[]|]|]. split_and!; [done|done|exact Hl|]. intros eid Heid.
  unfold WebApi.deleteAttachment in E. rewrite Heid in E. erewrite bind_ok in E by reflexivity.
  unfold mbind, eff_bind in E. destruct (WebApi.request _ _ _ _ _ _) as [r1 b1] eqn:E1.
  apply WebApi.request_logged in E1; [|done]. destruct r1; by injection E as _ <-.
Qed.

Lemma discard_all ids p :
  exists p', eff_iter discard_intent ids p = (Ok tt, p') /\ p_attachments p' = p_attachments p /\
    p_intents p' = p_intents p /\ page_longer p p' /\
    forall id eid, id ∈ ids -> encodeURIComponent (js_string id) = Ok eid ->
      EvFetch (HttpRequest (js "DELETE") (WebApi.DEFAULT_BASE_URL ++ js "/attachments/" ++ eid)
                 [(js "Content-Type", js "application/json")] NoBody) ∈ w_trace (b_node (p_browser p')).
Proof.
  revert p. induction ids as [|id ids IH]; intros p.
  { exists p. split_and!; [done|done|done|by exists []|]. intros id eid Hid. by apply elem_of_nil in Hid. }
  destruct (discard_ok id p) as (p1 & E1 & A1 & I1 & L1 & D1). destruct (IH p1) as (p2 & E2 & A2 & I2 & L2 & D2).
  exists p2. cbn [eff_iter]. erewrite bind_ok by exact E1. rewrite A2, I2. split_and!; [done..|by etrans|].
  intros id' eid [-> | Hid]%elem_of_cons He; [|by eapply D2].
  apply (longer_elem _ _ _ L2). by apply D1.
Qed.

End settles.

(** * Properties *)


(** C10: what the compose page uploads, the recipient downloads.  When the upload
    of an attachment succeeds, for keys whose public halves were given, a page
    that holds the recipient's key reads its row in the message and, given a
    download URL that serves the bytes the PUT carried, [handleDownload] hands
    over the file's name, type and exact bytes: the integrity check passes. *)
Theorem uploaded_attachment_downloads `{Host, WebCrypto, !WebCryptoLaws, Env, !EnvLaws, BrowserEnv}
    (sd raddr ck ek mid aid u : jstr) (spriv rpriv : bytes) (att : AttachmentDraft) (ref : WebApi.OutboundAttachmentRef)
    (p p' : Page) (size : jnum) (b b0 : Browser) :
  draft_ok att -> Forall unit_ok sd -> Forall unit_ok raddr -> truthy_str raddr = true ->
  upload_attachment sd (CoreB64.toBase64Url (key_public X25519 spriv)) (JStr raddr) (public_key_val rpriv) ck att p = (Ok ref, p') ->
  wraps ek ck rpriv -> ascii_text ck -> ck <> [] ->
  RecipientKeyring.getRecipientPrivateKey raddr b = (Ok (Some (PrivateKey X25519 rpriv)), b0) ->
  exists row url headers blob,
    decrypt_row ek raddr (Summary aid (WebApi.oa_metadata_encrypted ref) size) b = (Ok row, b0) /\
    EvFetch (HttpRequest (js "PUT") url headers (ByteBody blob)) ∈ w_trace (b_node (p_browser p')) /\
    forall urlResp answer b1 b2,
      WebApi.getAttachmentDownloadUrl WebApi.defaultApiClient mid aid b0 = (Ok (JObj urlResp), b1) ->
      jget (JObj urlResp) (js "download_url") = JStr u ->
      web_fetch (HttpRequest (js "GET") u [] NoBody) b1 = (Ok answer, b2) ->
      wr_ok answer = true -> wr_arrayBuffer answer = blob ->
      handleDownload mid row b0 = (Ok (Some (Downloaded (JStr (d_name att)) (JStr (d_mime att)) (d_bytes att))), b2).
Proof.
  intros Hatt Hsd Hra Hrt Hup Hek Hck Hckn Hring. pose proof Hatt as (Hd & Hn & Hm & Hsz).
  destruct (upload_carries _ _ _ _ _ _ _ _ _ Hatt Hsd Hra Hup)
    as (key & nonce & rwrap & swrap & url & headers & Hkb & Hkl & Hnb & Wr & Ws & Hmeta & Hput).
  set (md := metadata_val _ _ _ _ _ _ _ _ _) in Hmeta.
  assert (json_okb md = true) as Hj.
  { apply metadata_json; [|done]. unfold WebAttachment.sha256OfBytes. rewrite !web_toBase64Url, !Forall_cons.
    split_and!; try done; try (eapply ascii_units, wraps_wire; done);
      apply ascii_units, b64_ascii, toBase64Url_ok; done || apply sha256_bytes. }
  eexists _, url, headers, _. split_and!; [|exact Hput|].
  { by eapply decrypt_row_ok. }
  intros urlResp answer b1 b2 Hurl Hu Hget Hok Hbuf. unfold handleDownload. cbn [da_metadata da_id]. cbn [jtruthy md metadata_val negb].
  unfold try_catch. erewrite bind_ok; [reflexivity|].
  eapply (download_ok mid aid key nonce (d_bytes att) _ _ _ raddr rwrap rpriv sd swrap spriv b0 b0 b0); try done.
  left. by eapply (getPrivateKey_again RecipientRing).
Qed.

(** A service that answers every call with the same object, and object storage
    that returns the bytes of the last PUT. *)
Definition intent_reply : list (jstr * jval) :=
  [(js "attachment_id", JStr (js "att-1")); (js "upload_url", JStr (js "https://r2.example/u"));
   (js "download_url", JStr (js "https://r2.example/u")); (js "required_headers", JObj [(js "x-amz-meta", JStr (js "1"))])].

Fixpoint last_put (h : list Event) : bytes :=
  match h with
  | EvFetch (HttpRequest _ _ _ (ByteBody bs)) :: _ => bs
  | _ :: r => last_put r
  | [] => []
  end.

Definition storing_browser : BrowserEnv := {|
  env_window := true; env_indexedDB := true; env_storage_error := fun _ _ => None; env_idb_error := fun _ _ => None;
  env_status_text := fun _ _ => []; env_array_buffer := fun h _ => last_put h
|}.

Definition sample_draft : AttachmentDraft :=
  Draft (js "d1") [104; 105; 0; 255] (js "notes.txt") 4 (js "text/plain") ready JUndef.

Definition page_in (b : Browser) (atts : list AttachmentDraft) : Page := PageOf b atts None [] [].

Example uploaded_attachment_downloads_witness :
  let _ := plain_host in let _ := reply_env (json_stringify (JObj intent_reply)) in let _ := storing_browser in
  let ck := js "Y2s" in let spriv := replicate 32 4 in let rpriv := replicate 32 9 in
  let p := page_in new_profile [sample_draft] in
  let up := upload_attachment (js "did:key:zS") (CoreB64.toBase64Url (key_public X25519 spriv)) (JStr (js "did:key:zR"))
              (public_key_val rpriv) ck sample_draft p in
  exists ref ek row b b0 b2, up.1 = Ok ref /\ p_browser up.2 = b /\
    decrypt_row ek (js "did:key:zR") (Summary (js "att-1") (WebApi.oa_metadata_encrypted ref) (num 20)) b0 = (Ok row, b0) /\
    handleDownload (js "m1") row b0
    = (Ok (Some (Downloaded (JStr (js "notes.txt")) (JStr (js "text/plain")) [104; 105; 0; 255])), b2).
Proof.
  intros ho en br ck spriv rpriv p up.
  destruct up as [r p'] eqn:Eup. subst up. assert (exists ref, r = Ok ref) as [ref ->].
  { vm_compute in Eup. injection Eup as <- _. eexists. reflexivity. }
  assert (ascii_text ck) as Hck by (apply (bool_decide_eq_true_1 (ascii_text _)); by vm_compute).
  destruct (browser_wraps ck rpriv (b_node new_profile) Hck) as (wr & w' & _ & Hw).
  set (b := with_ring RecipientRing (Ring {[js "did:key:zR" := PrivateKey X25519 rpriv]} true) (p_browser p')).
  assert (RecipientKeyring.getRecipientPrivateKey (js "did:key:zR") b = (Ok (Some (PrivateKey X25519 rpriv)), b)) as Hring
    by (subst b; unfold p_browser; destruct p'; reflexivity).
  destruct (uploaded_attachment_downloads (js "did:key:zS") (js "did:key:zR") ck (KeyWrap.wrappedKey wr) (js "m1") (js "att-1")
    (js "https://r2.example/u") spriv rpriv sample_draft ref p p' (num 20) b b) as (row & url & hs & blob & R1 & R2 & R3).
  - split_and!; [by apply (bool_decide_eq_true_1 (bytes_ok _)); vm_compute|apply forallb_units; by vm_compute..|].
    unfold safe_int. cbn. lia.
  - apply forallb_units. by vm_compute.
  - apply forallb_units. by vm_compute.
  - reflexivity.
  - exact Eup.
  - exact Hw.
  - exact Hck.
  - discriminate.
  - exact Hring.
  - exists ref, (KeyWrap.wrappedKey wr), row, (p_browser p'), b. eexists. split; [reflexivity|]. split; [reflexivity|].
    split; [exact R1|]. clear R1 Hring. vm_compute in Eup. injection Eup as _ Ep. subst p'. subst b.
    cbn [p_browser b_node w_trace] in R2.
    repeat (apply elem_of_cons in R2 as [R2|R2]; [try discriminate R2|]); [|by apply elem_of_nil in R2].
    injection R2 as _ _ ->. eapply R3; [vm_compute; reflexivity..].
Defined.

(** The caps on attachments are invariant, and nothing that fits is refused.
    Choosing files in the current render always completes and leaves at most
    five drafts of at most 5 MiB each and 25 MiB in total, the earlier drafts
    first; when every file is readable and all fit, every one becomes a ready
    draft with its bytes, in order. *)
Theorem attachment_caps_invariant `{Env} (files : list File) (p : Page) :
  Forall (fun f => 0 <= f_size f) files -> within_caps (p_attachments p) ->
  exists added p', handleFilesChosen (p_attachments p) files p = (Ok tt, p') /\
    p_attachments p' = p_attachments p ++ added /\ within_caps (p_attachments p') /\
    ((length (p_attachments p) + length files <= MAX_ATTACHMENT_COUNT)%nat ->
     Forall (fun f => f_size f <= MAX_ATTACHMENT_PER_FILE_BYTES /\ is_Some (f_content f)) files ->
     attachmentsTotalSize (p_attachments p) + files_size files <= MAX_ATTACHMENT_TOTAL_BYTES ->
     Forall2 drafted files added).
Proof.
  intros Hpos (Hn & Ht & Ha). unfold handleFilesChosen. destruct files as [|f files].
  { exists [], p. rewrite app_nil_r. by split_and!. }
  destruct (Nat.ltb_spec MAX_ATTACHMENT_COUNT (length (p_attachments p) + length (f :: files))) as [Hc|Hc].
  { eexists [], _. split; [reflexivity|]. rewrite app_nil_r. split; [done|]. split; [done|]. intros ?. exfalso. lia. }
  destruct (choose_loop_caps (f :: files) (attachmentsTotalSize (p_attachments p)) p Hpos Ht)
    as (added & p1 & E & Ea & Hl & Hsum & Hall & Hfull).
  exists added. erewrite bind_ok by exact E.
  exists (PageOf (p_browser p1) (p_attachments p ++ added) (p_status p1) (p_body p1) (p_intents p1)). split; [|split].
  - destruct added as [|a added]; [|unfold setAttachments; by rewrite Ea]. rewrite app_nil_r, <- Ea. by destruct p1.
  - done.
  - split; [|by intros _]. split_and!; cbn [p_attachments].
    + rewrite length_app. lia.
    + rewrite attachmentsTotalSize_app. lia.
    + by apply Forall_app.
Qed.

Example attachment_caps_invariant_witness :
  let _ := quiet_env in
  let file := fun n => FileOf (js "f") n (js "text/plain") (Some [1; 2]) in
  let p := page_in new_profile [sample_draft] in
  exists added p', handleFilesChosen [sample_draft] [file 5242880; file 5242881; file 7] p = (Ok tt, p') /\
    p_attachments p' = sample_draft :: added /\ within_caps (p_attachments p') /\ length added = 2%nat.
Proof.
  intros en file p. destruct (attachment_caps_invariant [file 5242880; file 5242881; file 7] p) as (added & p' & E & Ea & Hw & _).
  - repeat constructor; cbn; lia.
  - split_and!; [cbn; unfold MAX_ATTACHMENT_COUNT; lia|cbn; unfold MAX_ATTACHMENT_TOTAL_BYTES; lia|].
    repeat constructor. cbn. unfold MAX_ATTACHMENT_PER_FILE_BYTES. lia.
  - exists added, p'. split; [exact E|]. split; [exact Ea|]. split; [exact Hw|].
    vm_compute in E. injection E as <-. by injection Ea as <-.
Defined.

(** The page as [handleSubmit] enters its guarded body. *)
Definition submitting (p : Page) : Page :=
  PageOf (p_browser p) (p_attachments p) (Some (StatusOf info (js "compose.statusEncrypting"))) (p_body p) [].


Definition own_agent (did : jstr) (key : Z) : Agent :=
  let pub := CoreB64.toBase64Url (replicate 32 key) in AgentOf did (js "Agent") (Some pub) (Some pub).

Definition sample_form : Form :=
  FormOf [own_agent (js "did:key:zS") 4; own_agent (js "did:key:zR") 9] (js "did:key:zS") (js "did:key:zR")
    (js "Notes") (js "As promised.") true new_message None None.

(** Object storage that is down. *)
Definition no_storage_env : Env :=
  answering_env (fun _ rq => if jeqb (rq_method rq) (js "PUT") then Ok (HttpResponse 503 [])
                             else Ok (HttpResponse 200 (json_stringify (JObj intent_reply)))) (fun _ _ _ => Ok JUndef).


(** Without the signing key, the early return keeps the intents: the uploaded
    objects stay on the server. *)
Example missing_signing_key_keeps_intents :
  let _ := plain_host in let _ := reply_env (json_stringify (JObj intent_reply)) in let _ := open_browser in
  let '(r, p') := handleSubmit sample_form [sample_draft] (page_in new_profile [sample_draft]) in
  r = Ok false /\ p_intents p' = [JStr (js "att-1")] /\
  count (fetches_with (js "DELETE")) (w_trace (b_node (p_browser p'))) = 0%nat.
Proof. by vm_compute. Qed.

(** Two choices of files in the same render do not see each other: the count
    passes the cap, and nothing checks it on sending. *)
Example overlapping_choices_pass_the_cap :
  let _ := quiet_env in
  let file := FileOf (js "f") 10 (js "text/plain") (Some [1; 2]) in
  let '(_, p') := (handleFilesChosen [] [file; file; file] ;; handleFilesChosen [] [file; file; file]) (page_in new_profile []) in
  length (p_attachments p') = 6%nat /\ readinessMessage sample_form (p_attachments p') = None.
Proof. by vm_compute. Qed.


(** Which forms can be sent.  A form that [readinessMessage] lets through
    has a sender that is one of the user's agents with a valid signing key
    whose private half is at hand, a subject and a body, attachments within the
    total, none of them uploading; and its recipient is an AID or one of the
    user's own agents.  So a contact the picker offers, or the external sender
    a reply is addressed to, is refused unless it is written as an AID. *)
Theorem ready_recipient_is_aid_or_own (f : Form) (attachments : list AttachmentDraft) :
  readinessMessage f attachments = None ->
  (exists a key, a ∈ apiAgents f /\ ag_did a = senderDid f /\ ag_public_key a = Some key /\
     Signature.isValidEd25519PublicKeyB64Url key = true) /\ hasSenderPrivateKey f = true /\
  trim (subject f) <> [] /\ trim (f_body f) <> [] /\
  attachmentsTotalSize attachments <= MAX_ATTACHMENT_TOTAL_BYTES /\ Forall (fun a => d_status a <> uploading) attachments /\
  (isAidIdentifier (recipientDid f) = true \/
   exists a key, a ∈ apiAgents f /\ ag_did a = recipientDid f /\ ag_encryption_key a = Some key /\
     KeyWrap.isValidX25519PublicKeyB64Url (JStr key) = true).
Proof.
  unfold readinessMessage. intros Hr. cbv zeta in Hr.
  destruct (bool_decide (length (apiAgents f) = 0%nat)); [done|]. destruct (negb (truthy_str (senderDid f))); [done|].
  destruct (selectedSender f) as [s|] eqn:Es; [|done]. cbn [mbind option_bind] in Hr.
  destruct (present (ag_public_key s)) as [key|] eqn:Ek; [|done].
  do 3 match type of Hr with (if negb ?x then _ else _) = _ => destruct x eqn:?; [|done]; cbn [negb] in Hr end.
  match type of Hr with (if ?x then _ else _) = _ => destruct x eqn:Hfound; [done|] end.
  match type of Hr with (if ?x then _ else _) = _ => destruct x eqn:Henc; [done|] end.
  match type of Hr with (if ?x then _ else _) = _ => destruct x eqn:Hvalid; [done|] end.
  do 2 match type of Hr with (if negb ?x then _ else _) = _ => destruct x eqn:?; [|done]; cbn [negb] in Hr end.
  destruct (Z.ltb_spec MAX_ATTACHMENT_TOTAL_BYTES (attachmentsTotalSize attachments)); [done|].
  match type of Hr with (if ?x then _ else _) = _ => destruct x eqn:Hup; [done|] end. clear Hr.
  assert (forall t, truthy_str t = true -> t <> []) as Htr by (by intros [|]).
  apply present_some in Ek. apply find_agent_some in Es as [Hs Hd].
  split; [by exists s, key|]. split; [done|]. split; [by apply Htr|]. split; [by apply Htr|]. split; [done|]. split.
  { apply Forall_forall. intros a Ha Hst. apply not_true_iff_false in Hup. apply Hup, existsb_exists.
    exists a. split; [by apply list_elem_of_In|by apply bool_decide_eq_true]. }
  destruct (isAidIdentifier (recipientDid f)); [by left|right]. cbn [negb andb] in *.
  destruct (selectedRecipient f) as [a|] eqn:Ea; [|done]. cbn [mbind option_bind] in *.
  destruct (present (ag_encryption_key a)) as [k|] eqn:Eka; [|done]. apply present_some in Eka.
  apply find_agent_some in Ea as [Ha Had]. exists a, k. by apply negb_false_iff in Hvalid.
Qed.

Example ready_recipient_is_aid_or_own_witness :
  let f := FormOf (apiAgents sample_form) (js "did:key:zS") (js "aid:ai:acme/bot") (js "Notes") (js "As promised.") true
             reply (Some (js "m1")) None in
  readinessMessage f [sample_draft] = None /\ isAidIdentifier (recipientDid f) = true /\
  attachmentsTotalSize [sample_draft] <= MAX_ATTACHMENT_TOTAL_BYTES.
Proof.
  intros f. assert (readinessMessage f [sample_draft] = None) as H by (by vm_compute).
  destruct (ready_recipient_is_aid_or_own f [sample_draft] H) as (_ & _ & _ & _ & Hs & _).
  split; [exact H|]. split; [reflexivity|exact Hs].
Defined.

(** The recipient picker offers a contact the form then refuses. *)
Example offered_contact_is_refused :
  let did := js "did:key:zContact" in
  let f := FormOf (apiAgents sample_form) (js "did:key:zS") did (js "Notes") (js "As promised.") true new_message None None in
  recipientOptions (apiAgents f) [ContactOf did (js "Ada") None]
  = [(js "did:key:zS", js "Agent"); (js "did:key:zR", js "Agent"); (did, js "Ada")] /\
  readinessMessage f [] = Some (js "compose.validationToNotFound").
Proof. by vm_compute. Qed.
