(* ===== verification/Bridge.v ===== *)
(** The client of the Signer Daemon's local bridge: apps/web/lib/bridge
    (at-rest.ts, token-store.ts, client.ts) and the restore button of
    apps/web/app/_components/ConversationThread.tsx.

    Values read back from storage or from the daemon are JSON values.  The
    fire-and-forget save of a legacy record runs to completion before the load
    returns.  The timeout of a request is a [fetch] that rejects with
    [AbortError]. *)
From S2P Require Import Prelude Base64 Utf8 JsNumber Json JsDate A2A Effect Node Envelope ApiClient Browser WebKeystore WebEnvelope WebApi SendReply.

(** ** at-rest.ts *)
Module AtRest.

Definition KEK_ID : jstr := js "nexusinbox:bridge-kek".

Definition BridgeSecureStorageUnavailableError (message : jstr) : jserror :=
  JsError (js "BridgeSecureStorageUnavailableError") message.

Section at_rest.
Context `{Host, WebCrypto, Env, BrowserEnv}.

Definition loadOrCreateKek : BM CryptoKey :=
  if negb isKeystoreAvailable then
    raise (BridgeSecureStorageUnavailableError
             (js "IndexedDB keystore is unavailable (SSR or unsupported browser context)"))
  else
    existing ← secureLoadKey KEK_ID;
    match existing with
    | Some key => mret key
    | None =>
      try_catch (key ← generate_aes_key; secureStoreKey KEK_ID key ;; mret key)
        (fun cause => raise (BridgeSecureStorageUnavailableError
                               (js "failed to materialise bridge KEK: " ++ err_message cause)))
    end.

Definition isWrapped (value : jval) : bool :=
  match value with
  | JObj o =>
    match obj_get (js "v") o, obj_get (js "iv") o, obj_get (js "ct") o with
    | Some (JNum n), Some _, Some _ => num_eqb n (num 1)
    | _, _, _ => false
    end
  | _ => false
  end.

(** The stored text of a bearer: [JSON.stringify] of a [WrappedToken]. *)
Definition wrapped_text (iv ct : bytes) : jstr :=
  json_stringify (JObj [(js "v", JNum (num 1)); (js "iv", JStr (toBase64Url iv)); (js "ct", JStr (toBase64Url ct))]).

Definition encrypt_with (kek : CryptoKey) (iv data : bytes) : res bytes :=
  match kek with AesKey k => Ok (aes_gcm_encrypt k iv data) | PrivateKey _ _ => Throw InvalidAccessError end.

Definition decrypt_with (kek : CryptoKey) (iv data : bytes) : res bytes :=
  match kek with
  | AesKey k => or_throw (aes_gcm_decrypt k iv data) OperationError
  | PrivateKey _ _ => Throw InvalidAccessError
  end.

(** [new TextEncoder().encode(token)] converts its argument to a string. *)
Definition wrapBridgeToken (token : jval) : BM jstr :=
  kek ← loadOrCreateKek;
  iv ← host (get_random 12);
  ct ← lift (encrypt_with kek iv (utf8_encode (js_string token)));
  mret (wrapped_text iv ct).

Definition decrypt_wrapped (parsed : jval) (kek : CryptoKey) : res jstr :=
  iv ← (s ← as_string (jget parsed (js "iv")); fromBase64Url s);
  ct ← (s ← as_string (jget parsed (js "ct")); fromBase64Url s);
  plaintext ← decrypt_with kek iv ct;
  Ok (text_decode plaintext).

(** [None] is the [null] that forces a new pairing. *)
Definition unwrapBridgeToken (stored : jval) : BM (option jval) :=
  match json_parse (js_string stored) with
  | Throw _ => mret (Some stored)
  | Ok parsed =>
    if negb (isWrapped parsed) then mret (Some stored)
    else
      kek ← try_catch (k ← loadOrCreateKek; mret (Some k)) (fun _ => mret None);
      mret match kek with
           | None => None
           | Some k => match decrypt_wrapped parsed k with Ok t => Some (JStr t) | Throw _ => None end
           end
  end.

Definition isWrappedBridgeToken (stored : jval) : bool :=
  match json_parse (js_string stored) with Ok parsed => isWrapped parsed | Throw _ => false end.

End at_rest.
End AtRest.

(** ** token-store.ts *)
Module TokenStore.

Definition STORAGE_PREFIX : jstr := js "nexusinbox:bridge-token:".
Definition SESSION_NONCE_PREFIX : jstr := js "nexusinbox:bridge-session-nonce:".
Definition DEFAULT_BASE : jstr := js "http://127.0.0.1:43417".

Record BridgeTokenRecord := TokenRecord { aid : jval; base_url : jval; token : jval; stored_at : jval }.

Section token_store.
Context `{Host, WebCrypto, Env, BrowserEnv}.

Definition isStorageAvailable : BM bool := storage_available LocalStorage.
Definition isSessionStorageAvailable : BM bool := storage_available SessionStorage.

Definition storageKey (aid : jval) : jstr := STORAGE_PREFIX ++ js_string aid.
Definition nonceKey (aid : jstr) : jstr := SESSION_NONCE_PREFIX ++ aid.

(** [new Date().toISOString()]. *)
Definition now_iso : BM jstr := now ← host now_ms; mret (to_iso_string now).

Definition stored_record (aid base_url : jval) (token stored_at : jstr) : jval :=
  JObj [(js "aid", aid); (js "base_url", base_url); (js "token", JStr token); (js "stored_at", JStr stored_at)].

Definition saveBridgeToken (aid base_url token : jval) : BM unit :=
  if negb (jtruthy aid) || negb (jtruthy token) then mret tt
  else
    available ← isStorageAvailable;
    if negb available then mret tt
    else
      wrapped ← AtRest.wrapBridgeToken token;
      stored_at ← now_iso;
      storage_setItem LocalStorage (storageKey aid)
        (json_stringify (stored_record aid (nullish_or base_url (JStr DEFAULT_BASE)) wrapped stored_at)).

Definition loadBridgeToken (aid_ : jstr) : BM (option BridgeTokenRecord) :=
  if negb (truthy_str aid_) then mret None
  else
    available ← isStorageAvailable;
    if negb available then mret None
    else
      raw ← storage_getItem LocalStorage (storageKey (JStr aid_));
      match raw with
      | None | Some [] => mret None
      | Some raw =>
        match json_parse raw with
        | Throw _ => storage_removeItem LocalStorage (storageKey (JStr aid_)) ;; mret None
        | Ok parsed =>
          parsed_aid ← lift (jprop parsed (js "aid"));
          let parsed_token := jget parsed (js "token") in
          if negb (jtruthy parsed_aid) || negb (jtruthy parsed_token) then mret None
          else
            unwrapped ← AtRest.unwrapBridgeToken parsed_token;
            match unwrapped with
            | None => storage_removeItem LocalStorage (storageKey (JStr aid_)) ;; mret None
            | Some unwrapped =>
              let base := nullish_or (jget parsed (js "base_url")) (JStr DEFAULT_BASE) in
              (if negb (AtRest.isWrappedBridgeToken parsed_token)
               then try_catch (saveBridgeToken parsed_aid base unwrapped) (fun _ => mret tt)
               else mret tt) ;;
              stored_at ← match jget parsed (js "stored_at") with
                          | JUndef | JNull => s ← now_iso; mret (JStr s)
                          | s => mret s
                          end;
              mret (Some (TokenRecord parsed_aid base unwrapped stored_at))
            end
        end
      end.

Definition clearBridgeToken (aid : jstr) : BM unit :=
  if negb (truthy_str aid) then mret tt
  else
    available ← isStorageAvailable;
    if negb available then mret tt else storage_removeItem LocalStorage (storageKey (JStr aid)).

(** ** The session nonce *)

Definition generateBridgeSessionNonce : BM jstr := bs ← host (get_random 32); mret (toBase64Url bs).

Definition loadBridgeSessionNonce (aid : jstr) : BM (option jstr) :=
  if negb (truthy_str aid) then mret None
  else
    available ← isSessionStorageAvailable;
    if negb available then mret None else storage_getItem SessionStorage (nonceKey aid).

Definition saveBridgeSessionNonce (aid nonce : jstr) : BM unit :=
  if negb (truthy_str aid) || negb (truthy_str nonce) then mret tt
  else
    available ← isSessionStorageAvailable;
    if negb available then mret tt else storage_setItem SessionStorage (nonceKey aid) nonce.

Definition clearBridgeSessionNonce (aid : jstr) : BM unit :=
  if negb (truthy_str aid) then mret tt
  else
    available ← isSessionStorageAvailable;
    if negb available then mret tt else storage_removeItem SessionStorage (nonceKey aid).

(** Every prefix is non-empty, so a key that starts with one is truthy. *)
Definition removeKeysWithPrefix (storage : StorageArea) (prefix : jstr) : BM unit :=
  keys ← storage_keys storage;
  eff_iter (storage_removeItem storage) (filter (fun k => truthy_str k && starts_with prefix k = true) keys).

Definition clearAllBridgeTokens : BM unit :=
  available ← isStorageAvailable;
  (if available : bool then removeKeysWithPrefix LocalStorage STORAGE_PREFIX else mret tt) ;;
  available ← isSessionStorageAvailable;
  if available : bool then removeKeysWithPrefix SessionStorage SESSION_NONCE_PREFIX else mret tt.

End token_store.
End TokenStore.

(** ** client.ts *)
Module BridgeClient.

Definition DEFAULT_PORT : Z := 43417.
Definition defaultBaseUrl : jstr := js "http://127.0.0.1:" ++ dec_of_Z DEFAULT_PORT.

Inductive BridgeStatus :=
| Available (aid did encryption_public_key version : jval) (paired_sessions : list jval) (policy : jval)
| StatusOffline
| StatusUnauthorized
| StatusForbiddenOrigin.

Inductive BridgeUnwrapResult :=
| Unwrapped (content_key : jval)
| UnwrapOffline
| UnwrapUnauthorized
| UnwrapForbiddenOrigin
| UnwrapBadRequest (message : jstr)
| UnwrapRateLimited (message : jstr)
| UnwrapDaemonError (message : jstr).

Inductive BridgePairResult :=
| Paired (token device_label created_at : jval)
| PairOffline
| PairForbiddenOrigin
| PairRejected (message : jstr)
| PairBadRequest (message : jstr)
| PairDaemonError (message : jstr).

Inductive BridgeRevokeResult :=
| Revoked (revoked : jval)
| RevokeOffline
| RevokeUnauthorized
| RevokeForbiddenOrigin
| RevokeDaemonError (message : jstr).

(** The constructor's fields; [fetchImpl] is the browser's. *)
Record Client := BridgeClientOf { baseUrl : jval; token : jval; sessionNonce : option jstr }.

Definition make (base tok : jval) (nonce : option jstr) : Client :=
  BridgeClientOf (nullish_or base (JStr defaultBaseUrl)) (nullish_or tok JNull) nonce.

Definition isNetworkError (err : jserror) : bool :=
  jeqb (err_name err) (js "AbortError") || jeqb (err_name err) (js "TypeError").

Section client.
Context `{Host, Env, BrowserEnv}.

Definition safeJson (response : WebResponse) : jval :=
  match wr_json response with Ok v => v | Throw _ => JNull end.

(** [await response.text()], or the fallback for an empty one. *)
Definition text_or (response : WebResponse) (fallback : jstr) : jstr :=
  let text := rs_text (wr_response response) in if truthy_str text then text else fallback.

Definition daemon_error (response : WebResponse) : jstr :=
  text_or response (js "daemon error " ++ dec_of_Z (wr_status response)).

Variable this : Client.

Definition privilegedHeaders : list (jstr * jstr) :=
  [(js "X-NexusInbox-Bridge", js_string (nullish_or (token this) (JStr [])))]
  ++ match sessionNonce this with
     | Some n => if truthy_str n then [(js "X-NexusInbox-Bridge-Nonce", n)] else []
     | None => []
     end.

(** A request; [None] when it fails as the network does. *)
Definition call (method path : jstr) (headers : list (jstr * jstr)) (body : ReqBody) : BM (option WebResponse) :=
  try_catch
    (r ← web_fetch (HttpRequest method (js_string (baseUrl this) ++ path) headers body); mret (Some r))
    (fun err => if isNetworkError err then mret None else raise err).

Definition status_of (body : jval) : BridgeStatus :=
  if negb (jtruthy body) then StatusOffline
  else match jget body (js "ok") with
  | JBool true =>
    if negb (jtruthy (jget body (js "aid"))) || negb (jtruthy (jget body (js "did"))) then StatusOffline
    else Available (jget body (js "aid")) (jget body (js "did"))
           (nullish_or (jget body (js "encryption_public_key")) JNull) (nullish_or (jget body (js "version")) (JStr []))
           (match jget body (js "paired_sessions") with JArr l => l | _ => [] end)
           (nullish_or (jget body (js "policy")) JNull)
  | _ => StatusOffline
  end.

Definition detect : BM BridgeStatus :=
  if negb (jtruthy (token this)) then mret StatusUnauthorized
  else
    response ← call (js "GET") (js "/v1/status") privilegedHeaders NoBody;
    mret match response with
         | None => StatusOffline
         | Some r =>
           if wr_status r =? 401 then StatusUnauthorized
           else if wr_status r =? 403 then StatusForbiddenOrigin
           else if negb (wr_ok r) then StatusOffline
           else status_of (safeJson r)
         end.

Definition pair_body (pairingCode : jstr) (deviceLabel sessionNonce : option jstr) : jval :=
  let or_null := fun o : option jstr => match o with Some s => JStr s | None => JNull end in
  JObj [(js "pairing_code", JStr pairingCode); (js "device_label", or_null deviceLabel);
        (js "session_nonce", or_null sessionNonce)].

Definition pair (pairingCode : jstr) (deviceLabel sessionNonce : option jstr) : BM BridgePairResult :=
  response ← call (js "POST") (js "/v1/pair") [(js "Content-Type", js "application/json")]
    (TextBody (json_stringify (pair_body pairingCode deviceLabel sessionNonce)));
  match response with
  | None => mret PairOffline
  | Some r =>
    if wr_status r =? 403 then mret PairForbiddenOrigin
    else if wr_status r =? 401 then mret (PairRejected (text_or r (js "pairing code rejected")))
    else if wr_status r =? 400 then mret (PairBadRequest (text_or r (js "bad request")))
    else if negb (wr_ok r) then mret (PairDaemonError (daemon_error r))
    else
      let body := safeJson r in
      if negb (jtruthy (jget body (js "token"))) then mret (PairDaemonError (js "daemon returned no token"))
      else
        created_at ← match jget body (js "created_at") with
                     | JUndef | JNull => s ← TokenStore.now_iso; mret (JStr s)
                     | v => mret v
                     end;
        mret (Paired (jget body (js "token")) (nullish_or (jget body (js "device_label")) (JStr [])) created_at)
  end.

Definition deleteRevoke (path : jstr) : BM BridgeRevokeResult :=
  if negb (jtruthy (token this)) then mret RevokeUnauthorized
  else
    response ← call (js "DELETE") path privilegedHeaders NoBody;
    mret match response with
         | None => RevokeOffline
         | Some r =>
           if wr_status r =? 401 then RevokeUnauthorized
           else if wr_status r =? 403 then RevokeForbiddenOrigin
           else if negb (wr_ok r) then RevokeDaemonError (daemon_error r)
           else Revoked (nullish_or (jget (safeJson r) (js "revoked")) (JNum (num 0)))
         end.

Definition revokeSession : BM BridgeRevokeResult := deleteRevoke (js "/v1/session").
Definition revokeAllSessions : BM BridgeRevokeResult := deleteRevoke (js "/v1/sessions").

Definition unwrap (encryptedKey : jstr) : BM BridgeUnwrapResult :=
  if negb (jtruthy (token this)) then mret UnwrapUnauthorized
  else
    response ← call (js "POST") (js "/v1/unwrap") ([(js "Content-Type", js "application/json")] ++ privilegedHeaders)
      (TextBody (json_stringify (JObj [(js "encrypted_key", JStr encryptedKey)])));
    mret match response with
         | None => UnwrapOffline
         | Some r =>
           if wr_status r =? 401 then UnwrapUnauthorized
           else if wr_status r =? 403 then UnwrapForbiddenOrigin
           else if wr_status r =? 400 then UnwrapBadRequest (text_or r (js "bad request"))
           else if wr_status r =? 429 then UnwrapRateLimited (text_or r (js "bridge-decrypt rate cap reached"))
           else if negb (wr_ok r) then UnwrapDaemonError (daemon_error r)
           else
             let key := jget (safeJson r) (js "content_key") in
             if jtruthy key then Unwrapped key else UnwrapDaemonError (js "daemon returned no content_key")
         end.

End client.
End BridgeClient.

(** ** The restore button of ConversationThread.tsx

    [confirmed] is the answer of [window.confirm]; messages are translation
    keys. *)
Module Restore.

Definition BRIDGED_PLAINTEXT_TTL_MS : Z := 5 * 60 * 1000.

Inductive Outcome :=
| NothingDone
| RestoreError (message : jstr)
| Plaintext (subject body : jstr) (expiresAt : Z).

Definition mapBridgeError (r : BridgeClient.BridgeUnwrapResult) : jstr :=
  match r with
  | BridgeClient.UnwrapOffline => js "inbox.bridgedRestoreErrorOffline"
  | BridgeClient.UnwrapUnauthorized => js "inbox.bridgedRestoreErrorUnauthorized"
  | BridgeClient.UnwrapForbiddenOrigin => js "inbox.bridgedRestoreErrorForbiddenOrigin"
  | BridgeClient.UnwrapBadRequest _ => js "inbox.bridgedRestoreErrorBadRequest"
  | BridgeClient.UnwrapRateLimited _ => js "inbox.bridgedRestoreErrorRateLimited"
  | _ => js "inbox.bridgedRestoreErrorDaemon"
  end.

Definition restore_error (r : BridgeClient.BridgeUnwrapResult) (sessionNonce : option jstr) : jstr :=
  match r with
  | BridgeClient.UnwrapUnauthorized =>
    if truthy_ostr sessionNonce then mapBridgeError r else js "inbox.bridgedRestoreErrorSessionMissing"
  | _ => mapBridgeError r
  end.

Section restore.
Context `{Host, WebCrypto, Env, BrowserEnv}.

Definition runRestore (aid : option jstr) (encryptedContent encryptedKey subjectEncrypted : jstr) (confirmed : bool)
    : BM Outcome :=
  match aid with
  | None | Some [] => mret NothingDone
  | Some aid =>
    stored ← TokenStore.loadBridgeToken aid;
    match stored with
    | None => mret (RestoreError (js "inbox.bridgedRestoreNoToken"))
    | Some stored =>
      sessionNonce ← TokenStore.loadBridgeSessionNonce aid;
      if env_window && negb confirmed then mret NothingDone
      else
        result ← BridgeClient.unwrap
          (BridgeClient.make (TokenStore.base_url stored) (TokenStore.token stored) sessionNonce) encryptedKey;
        match result with
        | BridgeClient.Unwrapped content_key =>
          let key := js_string content_key in
          let bodyRes := WebText.decryptEnvelopeTextWithContentKey encryptedContent key in
          let subjectRes := if truthy_str subjectEncrypted
                            then WebText.decryptEnvelopeTextWithContentKey subjectEncrypted key
                            else WebText.Decrypted WebText.readable [] in
          if negb (bool_decide (WebText.state bodyRes = WebText.readable)) then
            mret (RestoreError (js "inbox.bridgedRestoreDecryptFailed"))
          else
            now ← host now_ms;
            mret (Plaintext (if bool_decide (WebText.state subjectRes = WebText.readable) then WebText.text subjectRes else [])
                    (WebText.text bodyRes) (now + BRIDGED_PLAINTEXT_TTL_MS))
        | _ => mret (RestoreError (restore_error result sessionNonce))
        end
    end
  end.

End restore.
End Restore.
