(* ===== verification/BridgeSpec.v ===== *)
(** What the bridge token store promises: an abstract pairing store, and the
    refinement of [Bridge.TokenStore] to it in a browser that refuses nothing;
    what happens when the browser refuses; the bridged restore end to end. *)
From S2P Require Import Prelude Base64 Utf8 JsNumber Json JsDate A2A Effect Node Envelope ApiClient Browser WebKeystore WebEnvelope WebApi SendReply Bridge.

#[global] Instance area_eq_dec : EqDecision StorageArea.
Proof. solve_decision. Defined.

Definition probe_key : jstr := js "__nexusinbox_probe__".

(** Nothing changed but the trace and the probe's entry. *)
Definition same_store (b b' : Browser) : Prop :=
  b_private b' = b_private b /\ forall a k, k <> probe_key -> area a b' !! k = area a b !! k.

#[global] Instance same_store_preorder : PreOrder same_store.
Proof.
  split; [by intros b|]. intros b1 b2 b3 [P1 A1] [P2 A2]. split; [congruence|].
  intros a k Hk. by rewrite A2, A1.
Qed.

(** The stored text of a bearer under a key. *)
Definition wraps_token `{WebCrypto} (k : bytes) (tok wrapped : jstr) : Prop :=
  exists iv, bytes_ok iv /\ wrapped = AtRest.wrapped_text iv (aes_gcm_encrypt k iv (utf8_encode tok)).

Definition kek (b : Browser) : option CryptoKey := stored_key b AtRest.KEK_ID.

(** The store holds no key encryption key yet, or an AES key. *)
Definition kek_usable (b : Browser) : Prop := forall key, kek b = Some key -> exists k, key = AesKey k.

Section wrapped.
Context `{Host, WebCrypto, !WebCryptoLaws, Env, !EnvLaws, BrowserEnv, !NeverRefuses}.

Lemma noted_same e b : same_store b (noted e b).
Proof. split; [done|]. by intros [] k. Qed.

Lemma setItem_ok a k v b :
  exists b', storage_setItem a k v b = (Ok tt, b') /\ b_private b' = b_private b /\
    area a b' = <[k := v]> (area a b) /\ (forall a', a' <> a -> area a' b' = area a' b).
Proof.
  unfold storage_setItem. erewrite bind_ok by apply storage_call_ok. eexists. split; [reflexivity|]. split; [by destruct a|].
  split; [by destruct a|]. intros a' Ha. by destruct a, a'.
Qed.

Lemma removeItem_ok a k b :
  exists b', storage_removeItem a k b = (Ok tt, b') /\ b_private b' = b_private b /\
    area a b' = delete k (area a b) /\ (forall a', a' <> a -> area a' b' = area a' b).
Proof.
  unfold storage_removeItem. erewrite bind_ok by apply storage_call_ok. eexists. split; [reflexivity|]. split; [by destruct a|].
  split; [by destruct a|]. intros a' Ha. by destruct a, a'.
Qed.

Lemma getItem_ok a k b : storage_getItem a k b = (Ok (area a b !! k), noted (EvStorage (StGet a k)) b).
Proof. unfold storage_getItem. erewrite bind_ok by apply storage_call_ok. by destruct a. Qed.

Lemma available_ok a b : exists b', storage_available a b = (Ok true, b') /\ same_store b b'.
Proof.
  unfold storage_available. pose proof in_browser as Hb. unfold isBrowser in Hb. apply andb_true_iff in Hb as [-> _].
  cbn [negb]. unfold try_catch.
  destruct (setItem_ok a probe_key (js "1") b) as (b1 & E1 & P1 & I1 & A1). erewrite bind_ok by exact E1.
  destruct (removeItem_ok a probe_key b1) as (b2 & E2 & P2 & I2 & A2). erewrite bind_ok by exact E2.
  exists b2. split; [done|]. split; [congruence|]. intros a' k Hk.
  destruct (decide (a' = a)) as [-> | Hne]; [|by rewrite A2, A1].
  by rewrite I2, I1, lookup_delete_ne, lookup_insert_ne.
Qed.

Lemma kek_ok b :
  kek_usable b ->
  exists k b', AtRest.loadOrCreateKek b = (Ok (AesKey k), b') /\ kek b' = Some (AesKey k) /\
    (forall k0, kek b = Some k0 -> k0 = AesKey k) /\ forall a, area a b' = area a b.
Proof.
  intros Hu. unfold AtRest.loadOrCreateKek, isKeystoreAvailable. rewrite in_browser. cbn [negb].
  erewrite bind_ok by (by rewrite secureLoadKey_run, idb_accepts). fold (kek b).
  destruct (kek b) as [key|] eqn:Ek.
  - destruct (Hu key Ek) as [k ->]. eexists k, _. split; [reflexivity|]. split; [done|]. split; [congruence|]. by intros [].
  - unfold try_catch, generate_aes_key. erewrite bind_ok by (erewrite bind_ok by (apply host_ok; reflexivity); reflexivity).
    eexists _, _. split; [|split; [|split; [done|]]].
    + erewrite bind_ok by (rewrite secureStoreKey_run, idb_accepts; reflexivity). reflexivity.
    + unfold kek, stored_key. cbn. by rewrite lookup_insert_eq.
    + by intros [].
Qed.

Lemma wrapped_json iv ct :
  bytes_ok iv -> bytes_ok ct ->
  json_okb (JObj [(js "v", JNum (num 1)); (js "iv", JStr (toBase64Url iv)); (js "ct", JStr (toBase64Url ct))]) = true.
Proof.
  intros Hi Hc. rewrite !web_toBase64Url.
  assert (forall bs, bytes_ok bs -> forallb unit_okb (CoreB64.toBase64Url bs) = true) as Hu
    by (intros bs Hbs; by apply forallb_units, ascii_units, b64_ascii, toBase64Url_ok).
  cbn [json_okb forallb fmap list_fmap fst snd]. by rewrite !Hu.
Qed.

Lemma wrap_ok tok b :
  kek_usable b ->
  exists w k b', AtRest.wrapBridgeToken (JStr tok) b = (Ok w, b') /\ wraps_token k tok w /\
    kek b' = Some (AesKey k) /\ (forall k0, kek b = Some k0 -> k0 = AesKey k) /\ forall a, area a b' = area a b.
Proof.
  intros Hu. destruct (kek_ok b Hu) as (k & b1 & E1 & K1 & U1 & A1). unfold AtRest.wrapBridgeToken.
  erewrite bind_ok by exact E1. erewrite bind_ok by (apply host_ok; reflexivity). erewrite bind_ok by reflexivity.
  eexists _, k, _. split; [reflexivity|]. split.
  - eexists. split; [|reflexivity]. apply random_bytes.
  - split_and!; [done|done|]. intros a. rewrite <- A1. by destruct a.
Qed.

Lemma unwrap_ok k tok w b :
  wraps_token k tok w -> text_ok tok -> kek b = Some (AesKey k) ->
  exists b', AtRest.unwrapBridgeToken (JStr w) b = (Ok (Some (JStr tok)), b') /\ same_store b b' /\
    AtRest.isWrappedBridgeToken (JStr w) = true.
Proof.
  intros (iv & Hiv & ->) Ht Hk. unfold AtRest.unwrapBridgeToken, AtRest.isWrappedBridgeToken, AtRest.wrapped_text. cbn [js_string join_part].
  rewrite json_stringify_roundtrip by (apply wrapped_json; [done|apply aes_gcm_bytes]).
  set (parsed := JObj _). change (AtRest.isWrapped parsed) with true. cbn [negb].
  unfold AtRest.loadOrCreateKek, isKeystoreAvailable. rewrite in_browser. cbn [negb].
  erewrite bind_ok.
  2: { unfold try_catch. erewrite bind_ok; [reflexivity|]. erewrite bind_ok by (by rewrite secureLoadKey_run, idb_accepts).
       fold (kek b). by rewrite Hk. }
  cbv iota. eexists. split; [|split; [apply noted_same|done]].
  unfold AtRest.decrypt_wrapped.
  change (jget parsed (js "iv")) with (JStr (toBase64Url iv)).
  change (jget parsed (js "ct")) with (JStr (toBase64Url (aes_gcm_encrypt k iv (utf8_encode tok)))).
  rewrite (web_toBase64Url iv), web_toBase64Url. cbn [as_string]. mred.
  rewrite (web_b64_roundtrip iv) by done. mred. rewrite web_b64_roundtrip by apply aes_gcm_bytes. mred.
  cbn [AtRest.decrypt_with]. rewrite aes_gcm_inverse by (apply utf8_encode_bytes, Ht). cbn [or_throw]. mred.
  by rewrite text_roundtrip.
Qed.

End wrapped.

(** ** The abstract pairing store *)

(** What is paired: a base URL and a bearer per agent, and the session nonces
    of this tab. *)
Record Pairings := PairingsOf { tokens : gmap jstr (jstr * jstr); nonces : gmap jstr jstr }.

Inductive Op :=
| SaveToken (aid base tok : jstr)
| LoadToken (aid : jstr)
| ClearToken (aid : jstr)
| SaveNonce (aid nonce : jstr)
| LoadNonce (aid : jstr)
| ClearNonce (aid : jstr)
| ClearAll                    (** logout *)
| Reload                      (** the page is loaded again in its tab *)
| NewTab.                     (** the application opened in another tab *)

(** What an operation tells its caller. *)
Inductive Answer := Done | TokenAnswer (t : option (jval * jval * jval)) | NonceAnswer (n : option jstr).

Definition spec_step (op : Op) (s : Pairings) : Answer * Pairings :=
  match op with
  | SaveToken aid base tok =>
    (Done, if truthy_str aid && truthy_str tok then PairingsOf (<[aid := (base, tok)]> (tokens s)) (nonces s) else s)
  | LoadToken aid =>
    (TokenAnswer (if truthy_str aid then '(base, tok) ← tokens s !! aid; Some (JStr aid, JStr base, JStr tok) else None), s)
  | ClearToken aid => (Done, if truthy_str aid then PairingsOf (delete aid (tokens s)) (nonces s) else s)
  | SaveNonce aid n =>
    (Done, if truthy_str aid && truthy_str n then PairingsOf (tokens s) (<[aid := n]> (nonces s)) else s)
  | LoadNonce aid => (NonceAnswer (if truthy_str aid then nonces s !! aid else None), s)
  | ClearNonce aid => (Done, if truthy_str aid then PairingsOf (tokens s) (delete aid (nonces s)) else s)
  | ClearAll => (Done, PairingsOf ∅ ∅)
  | Reload => (Done, s)
  | NewTab => (Done, PairingsOf (tokens s) ∅)
  end.

Section impl.
Context `{Host, WebCrypto, Env, BrowserEnv}.

Definition token_answer (r : option TokenStore.BridgeTokenRecord) : Answer :=
  TokenAnswer (match r with
               | Some r => Some (TokenStore.aid r, TokenStore.base_url r, TokenStore.token r)
               | None => None
               end).

(** The same operations of the program. *)
Definition impl_step (op : Op) : BM Answer :=
  match op with
  | SaveToken aid base tok => TokenStore.saveBridgeToken (JStr aid) (JStr base) (JStr tok) ;; mret Done
  | LoadToken aid => r ← TokenStore.loadBridgeToken aid; mret (token_answer r)
  | ClearToken aid => TokenStore.clearBridgeToken aid ;; mret Done
  | SaveNonce aid n => TokenStore.saveBridgeSessionNonce aid n ;; mret Done
  | LoadNonce aid => n ← TokenStore.loadBridgeSessionNonce aid; mret (NonceAnswer n)
  | ClearNonce aid => TokenStore.clearBridgeSessionNonce aid ;; mret Done
  | ClearAll => TokenStore.clearAllBridgeTokens ;; mret Done
  | Reload => update reload ;; mret Done
  | NewTab => update (fun b => with_area SessionStorage ∅ (reload b)) ;; mret Done
  end.

Fixpoint spec_run (ops : list Op) (s : Pairings) : list Answer * Pairings :=
  match ops with
  | [] => ([], s)
  | op :: r => let '(a, s1) := spec_step op s in let '(l, s2) := spec_run r s1 in (a :: l, s2)
  end.

Definition impl_run (ops : list Op) : BM (list Answer) := eff_map impl_step ops.

Definition op_ok (op : Op) : Prop :=
  match op with
  | SaveToken aid base tok => Forall unit_ok aid /\ Forall unit_ok base /\ text_ok tok
  | _ => True
  end.

(** The stored form of a pairing. *)
Definition stored_as (b : Browser) (aid base tok : jstr) (raw : jstr) : Prop :=
  exists k w t, raw = json_stringify (TokenStore.stored_record (JStr aid) (JStr base) w t) /\
    wraps_token k tok w /\ kek b = Some (AesKey k) /\ Forall unit_ok t /\
    Forall unit_ok aid /\ Forall unit_ok base /\ text_ok tok /\ tok <> [].

(** The browser holds the pairings: every bearer in [localStorage] is the
    ciphertext of the abstract one, and nothing else is stored for an agent. *)
Definition refines (s : Pairings) (b : Browser) : Prop :=
  kek_usable b /\
  (forall aid, aid <> [] ->
     match tokens s !! aid with
     | Some (base, tok) => exists raw, b_local b !! TokenStore.storageKey (JStr aid) = Some raw /\ stored_as b aid base tok raw
     | None => b_local b !! TokenStore.storageKey (JStr aid) = None
     end) /\
  (forall aid, aid <> [] -> b_session b !! TokenStore.nonceKey aid = nonces s !! aid).

End impl.

Section sim.
Context `{Host, WebCrypto, !WebCryptoLaws, Env, !EnvLaws, BrowserEnv, !NeverRefuses}.

Lemma storage_not_probe aid : TokenStore.storageKey aid <> probe_key.
Proof. done. Qed.

Lemma nonce_not_probe aid : TokenStore.nonceKey aid <> probe_key.
Proof. done. Qed.

Lemma refines_later s b b' :
  refines s b -> kek_usable b' -> (forall k, kek b = Some k -> kek b' = Some k) ->
  (forall a k, k <> probe_key -> area a b' !! k = area a b !! k) -> refines s b'.
Proof.
  intros (Hk & Ht & Hn) Hk' Ek A. split; [done|]. split.
  - intros aid Ha. specialize (Ht aid Ha). specialize (A LocalStorage (TokenStore.storageKey (JStr aid)) (storage_not_probe _)).
    cbn [area] in A. destruct (tokens s !! aid) as [[base tok]|]; [|congruence].
    destruct Ht as (raw & Hr & k & w & t & F1 & F2 & F3 & F4). exists raw. split; [congruence|]. exists k, w, t.
    split_and!; try done; try apply F4. by apply Ek.
  - intros aid Ha. specialize (A SessionStorage (TokenStore.nonceKey aid) (nonce_not_probe _)). cbn [area] in A.
    rewrite A. by apply Hn.
Qed.

Lemma refines_same s b b' : same_store b b' -> refines s b -> refines s b'.
Proof.
  intros [P A] HR. assert (kek b' = kek b) as Ek by (unfold kek, stored_key; by rewrite P).
  apply (refines_later s b); [done| |by rewrite Ek|done]. intros key. rewrite Ek. apply HR.
Qed.

Lemma storage_key_inj aid aid' : TokenStore.storageKey (JStr aid) = TokenStore.storageKey (JStr aid') -> aid = aid'.
Proof. unfold TokenStore.storageKey. cbn [js_string join_part]. generalize TokenStore.STORAGE_PREFIX. intros p E. by apply app_inv_head in E. Qed.

Lemma nonce_key_inj aid aid' : TokenStore.nonceKey aid = TokenStore.nonceKey aid' -> aid = aid'.
Proof. unfold TokenStore.nonceKey. generalize TokenStore.SESSION_NONCE_PREFIX. intros p E. by apply app_inv_head in E. Qed.

Lemma now_iso_ok b : exists t b', TokenStore.now_iso b = (Ok t, b') /\ Forall unit_ok t /\ same_store b b'.
Proof.
  unfold TokenStore.now_iso. erewrite bind_ok by (apply host_ok; reflexivity). eexists _, _. split; [reflexivity|].
  split; [|split; [done|by intros [] k]]. apply ascii_units, iso_string_ascii.
  pose proof (now_range (w_trace (b_node b))) as Hr. unfold iso_range, ms_per_day.
  change (day_from_year 0) with (-719528). change (day_from_year 10000) with 2932897. lia.
Qed.

Lemma wraps_token_units k tok w : wraps_token k tok w -> Forall unit_ok w.
Proof. intros (iv & Hiv & ->). apply json_text_ok, wrapped_json; [done|apply aes_gcm_bytes]. Qed.

Lemma wraps_token_nonempty k tok w : wraps_token k tok w -> truthy_str w = true.
Proof.
  intros (iv & Hiv & ->). unfold AtRest.wrapped_text. set (v := JObj _).
  assert (json_parse (json_stringify v) = Ok v) as E by (apply json_stringify_roundtrip, wrapped_json; [done|apply aes_gcm_bytes]).
  by destruct (json_stringify v).
Qed.

Lemma stored_record_json aid base w t :
  Forall unit_ok aid -> Forall unit_ok base -> Forall unit_ok w -> Forall unit_ok t ->
  json_okb (TokenStore.stored_record (JStr aid) (JStr base) w t) = true.
Proof.
  intros Ha%forallb_units Hb%forallb_units Hw%forallb_units Ht%forallb_units.
  cbn [json_okb TokenStore.stored_record forallb fmap list_fmap fst snd]. by rewrite Ha, Hb, Hw, Ht.
Qed.

(** Writing a record for one agent; the others' are as they were. *)
Lemma refines_insert s b b' aid base tok raw :
  refines s b -> aid <> [] -> kek_usable b' -> (forall k, kek b = Some k -> kek b' = Some k) ->
  b_session b' = b_session b -> b_local b' = <[TokenStore.storageKey (JStr aid) := raw]> (b_local b) ->
  stored_as b' aid base tok raw ->
  refines (PairingsOf (<[aid := (base, tok)]> (tokens s)) (nonces s)) b'.
Proof.
  intros (_ & Ht & Hn) Ha Hk Hkk Hs Hl Hraw. split; [done|]. split.
  - intros aid' Ha'. cbn [tokens]. rewrite Hl. destruct (decide (aid = aid')) as [<-|Hne].
    + rewrite !lookup_insert_eq. by exists raw.
    + rewrite !lookup_insert_ne; [|by intros ?%storage_key_inj|done]. specialize (Ht aid' Ha').
      destruct (tokens s !! aid') as [[base' tok']|]; [|done].
      destruct Ht as (raw' & Hr' & k & w & t & F1 & F2 & F3 & F4). exists raw'. split; [done|]. exists k, w, t.
      split_and!; try done; try apply F4. by apply Hkk.
  - intros aid' Ha'. cbn [nonces]. rewrite Hs. by apply Hn.
Qed.

Lemma refines_delete s b b' aid :
  refines s b -> aid <> [] -> b_private b' = b_private b -> b_session b' = b_session b ->
  b_local b' = delete (TokenStore.storageKey (JStr aid)) (b_local b) ->
  refines (PairingsOf (delete aid (tokens s)) (nonces s)) b'.
Proof.
  intros (Hk & Ht & Hn) Ha Hp Hs Hl. assert (kek b' = kek b) as Ek by (unfold kek, stored_key; by rewrite Hp).
  split; [intros key; rewrite Ek; apply Hk|]. split.
  - intros aid' Ha'. cbn [tokens]. rewrite Hl. destruct (decide (aid = aid')) as [<-|Hne].
    + by rewrite !lookup_delete_eq.
    + rewrite !lookup_delete_ne; [|by intros ?%storage_key_inj|done]. specialize (Ht aid' Ha').
      destruct (tokens s !! aid') as [[base' tok']|]; [|done].
      destruct Ht as (raw' & Hr' & k & w & t & F). exists raw'. split; [done|]. exists k, w, t. by rewrite Ek.
  - intros aid' Ha'. cbn [nonces]. rewrite Hs. by apply Hn.
Qed.

Lemma save_sim s b aid base tok :
  refines s b -> Forall unit_ok aid -> Forall unit_ok base -> text_ok tok ->
  exists b', TokenStore.saveBridgeToken (JStr aid) (JStr base) (JStr tok) b = (Ok tt, b') /\
    refines (if truthy_str aid && truthy_str tok then PairingsOf (<[aid := (base, tok)]> (tokens s)) (nonces s) else s) b'.
Proof.
  intros HR Hua Hub Htok. unfold TokenStore.saveBridgeToken. cbn [jtruthy].
  destruct (truthy_str aid) eqn:Ea; cbn [negb orb andb]; [|by exists b].
  destruct (truthy_str tok) eqn:Et; cbn [negb]; [|by exists b].
  destruct (available_ok LocalStorage b) as (b1 & E1 & S1). unfold TokenStore.isStorageAvailable.
  erewrite bind_ok by exact E1. cbn [negb]. apply (refines_same s b b1 S1) in HR.
  destruct (wrap_ok tok b1) as (w & k & b2 & E2 & Hw & K2 & U2 & A2); [apply HR|]. erewrite bind_ok by exact E2.
  destruct (now_iso_ok b2) as (t & b3 & E3 & Hut & [P3 A3]). erewrite bind_ok by exact E3. cbn [nullish_or].
  match goal with |- context [storage_setItem _ ?key ?v] => destruct (setItem_ok LocalStorage key v b3) as (b4 & E4 & P4 & I4 & A4) end.
  exists b4. split; [exact E4|].
  assert (kek_usable b2) as Hk2 by (intros key; rewrite K2; intros [= <-]; by exists k).
  assert (refines s b3) as HR3.
  { apply (refines_same s b2); [by split|]. apply (refines_later s b1); [done|done| |].
    - intros k0 Hk0. rewrite K2. f_equal. symmetry. by apply U2.
    - intros a key _. by rewrite A2. }
  assert (kek b4 = Some (AesKey k)) as K4 by (unfold kek, stored_key in *; by rewrite P4, P3).
  eapply (refines_insert s b3 b4); [done|by destruct aid| | |by apply (A4 SessionStorage)|exact I4|].
  - intros key. rewrite K4. intros [= <-]. by exists k.
  - intros key. unfold kek, stored_key. by rewrite P4.
  - exists k, w, t. split_and!; try done; try apply Htok. by destruct tok.
Qed.

Lemma load_sim s b aid :
  refines s b ->
  exists r b', TokenStore.loadBridgeToken aid b = (Ok r, b') /\ refines s b' /\
    token_answer r = TokenAnswer (if truthy_str aid then '(base, tok) ← tokens s !! aid; Some (JStr aid, JStr base, JStr tok) else None).
Proof.
  intros HR. unfold TokenStore.loadBridgeToken. destruct (truthy_str aid) eqn:Ea; cbn [negb]; [|by exists None, b].
  destruct (available_ok LocalStorage b) as (b1 & E1 & S1). unfold TokenStore.isStorageAvailable.
  erewrite bind_ok by exact E1. cbn [negb]. apply (refines_same s b b1 S1) in HR.
  erewrite bind_ok by apply getItem_ok. set (b2 := noted _ b1).
  assert (refines s b2) as HR2 by (by eapply refines_same; [apply noted_same|]).
  pose proof (proj1 (proj2 HR2) aid) as Ht. assert (aid <> []) as Hne by by destruct aid. specialize (Ht Hne).
  change (area LocalStorage b1) with (b_local b2). destruct (tokens s !! aid) as [[base tok]|].
  2: { rewrite Ht. by exists None, b2. }
  destruct Ht as (raw & Hraw & k & w & t & Er & Hw & Hk & Hut & Hua & Hub & Htok & Htn). rewrite Hraw.
  assert (json_parse raw = Ok (TokenStore.stored_record (JStr aid) (JStr base) w t)) as Hp.
  { rewrite Er. apply json_stringify_roundtrip, stored_record_json; try done. by eapply wraps_token_units. }
  destruct raw as [|u raw]; [done|]. rewrite Hp. set (parsed := TokenStore.stored_record _ _ _ _).
  erewrite bind_ok by reflexivity. change (jget parsed (js "token")) with (JStr w).
  change (match obj_get _ _ with Some x => x | None => JUndef end) with (JStr aid).
  cbn [jtruthy]. rewrite Ea, (wraps_token_nonempty k tok w Hw). cbn [negb orb].
  destruct (unwrap_ok k tok w b2 Hw Htok Hk) as (b3 & E3 & S3 & W3). erewrite bind_ok by exact E3. rewrite W3. cbn [negb].
  erewrite bind_ok by reflexivity. change (jget parsed (js "stored_at")) with (JStr t). erewrite bind_ok by reflexivity.
  eexists _, b3. split; [reflexivity|]. split; [by eapply refines_same|]. done.
Qed.

(** Only the session entry of one agent changes. *)
Lemma refines_session (s : Pairings) (b b' : Browser) (n : gmap jstr jstr) :
  refines s b -> b_private b' = b_private b -> b_local b' = b_local b ->
  (forall aid, aid <> [] -> b_session b' !! TokenStore.nonceKey aid = n !! aid) -> refines (PairingsOf (tokens s) n) b'.
Proof.
  intros (Hk & Ht & Hn) P L A. assert (kek b' = kek b) as Ek by (unfold kek, stored_key; by rewrite P).
  split; [intros key; rewrite Ek; apply Hk|]. split; [|exact A]. intros aid Ha. specialize (Ht aid Ha). cbn [tokens]. rewrite L.
  destruct (tokens s !! aid) as [[base tok]|]; [|done]. destruct Ht as (raw & Hr & k & w & t & F). exists raw. split; [done|].
  exists k, w, t. by rewrite Ek.
Qed.

Lemma clear_sim s b aid :
  refines s b ->
  exists b', TokenStore.clearBridgeToken aid b = (Ok tt, b') /\
    refines (if truthy_str aid then PairingsOf (delete aid (tokens s)) (nonces s) else s) b'.
Proof.
  intros HR. unfold TokenStore.clearBridgeToken. destruct (truthy_str aid) eqn:Ea; cbn [negb]; [|by exists b].
  destruct (available_ok LocalStorage b) as (b1 & E1 & S1). unfold TokenStore.isStorageAvailable. erewrite bind_ok by exact E1.
  cbn [negb]. destruct (removeItem_ok LocalStorage (TokenStore.storageKey (JStr aid)) b1) as (b2 & E2 & P2 & I2 & A2).
  exists b2. split; [exact E2|]. apply (refines_same s b b1 S1) in HR.
  eapply refines_delete; [done|by destruct aid|done|by apply (A2 SessionStorage)|exact I2].
Qed.

Lemma save_nonce_sim s b aid n :
  refines s b ->
  exists b', TokenStore.saveBridgeSessionNonce aid n b = (Ok tt, b') /\
    refines (if truthy_str aid && truthy_str n then PairingsOf (tokens s) (<[aid := n]> (nonces s)) else s) b'.
Proof.
  intros HR. unfold TokenStore.saveBridgeSessionNonce. destruct (truthy_str aid) eqn:Ea; cbn [negb orb andb]; [|by exists b].
  destruct (truthy_str n); cbn [negb]; [|by exists b].
  destruct (available_ok SessionStorage b) as (b1 & E1 & S1). unfold TokenStore.isSessionStorageAvailable. erewrite bind_ok by exact E1.
  cbn [negb]. destruct (setItem_ok SessionStorage (TokenStore.nonceKey aid) n b1) as (b2 & E2 & P2 & I2 & A2).
  exists b2. split; [exact E2|]. apply (refines_same s b b1 S1) in HR.
  apply (refines_session s b1 b2); [done|done|by apply (A2 LocalStorage)|].
  intros aid' Ha'. cbn [area] in I2. rewrite I2. cbn.
  destruct (decide (aid = aid')) as [<-|Hne]; [by rewrite !lookup_insert_eq|].
  rewrite !lookup_insert_ne; [by apply HR|done|by intros ?%nonce_key_inj].
Qed.

Lemma clear_nonce_sim s b aid :
  refines s b ->
  exists b', TokenStore.clearBridgeSessionNonce aid b = (Ok tt, b') /\
    refines (if truthy_str aid then PairingsOf (tokens s) (delete aid (nonces s)) else s) b'.
Proof.
  intros HR. unfold TokenStore.clearBridgeSessionNonce. destruct (truthy_str aid) eqn:Ea; cbn [negb]; [|by exists b].
  destruct (available_ok SessionStorage b) as (b1 & E1 & S1). unfold TokenStore.isSessionStorageAvailable. erewrite bind_ok by exact E1.
  cbn [negb]. destruct (removeItem_ok SessionStorage (TokenStore.nonceKey aid) b1) as (b2 & E2 & P2 & I2 & A2).
  exists b2. split; [exact E2|]. apply (refines_same s b b1 S1) in HR.
  apply (refines_session s b1 b2); [done|done|by apply (A2 LocalStorage)|].
  intros aid' Ha'. cbn [area] in I2. rewrite I2. cbn.
  destruct (decide (aid = aid')) as [<-|Hne]; [by rewrite !lookup_delete_eq|].
  rewrite !lookup_delete_ne; [by apply HR|done|by intros ?%nonce_key_inj].
Qed.

Lemma load_nonce_sim s b aid :
  refines s b ->
  exists b', TokenStore.loadBridgeSessionNonce aid b = (Ok (if truthy_str aid then nonces s !! aid else None), b') /\ refines s b'.
Proof.
  intros HR. unfold TokenStore.loadBridgeSessionNonce. destruct (truthy_str aid) eqn:Ea; cbn [negb]; [|by exists b].
  destruct (available_ok SessionStorage b) as (b1 & E1 & S1). unfold TokenStore.isSessionStorageAvailable. erewrite bind_ok by exact E1.
  cbn [negb]. apply (refines_same s b b1 S1) in HR. rewrite getItem_ok. eexists. split; [|by eapply refines_same; [apply noted_same|]].
  do 2 f_equal. apply HR. by destruct aid.
Qed.

Lemma remove_all_ok a l b :
  exists b', eff_iter (storage_removeItem a) l b = (Ok tt, b') /\ b_private b' = b_private b /\
    (forall k, area a b' !! k = if decide (k ∈ l) then None else area a b !! k) /\
    (forall a', a' <> a -> area a' b' = area a' b).
Proof.
  revert b. induction l as [|x l IH]; intros b.
  { exists b. split_and!; [done|done|by intros k|done]. }
  destruct (removeItem_ok a x b) as (b1 & E1 & P1 & I1 & A1). destruct (IH b1) as (b2 & E2 & P2 & I2 & A2).
  exists b2. cbn [eff_iter]. erewrite bind_ok by exact E1. split_and!; [exact E2|congruence| |].
  - intros k. rewrite I2, I1. destruct (decide (k = x)) as [-> | Hne].
    + rewrite lookup_delete_eq. rewrite (decide_True (P := x ∈ x :: l)) by by left. by destruct (decide (x ∈ l)).
    + rewrite lookup_delete_ne by done. destruct (decide (k ∈ l)) as [Hin|Hin].
      * by rewrite decide_True by by right.
      * rewrite decide_False; [done|]. by intros [?|?]%elem_of_cons.
  - intros a' Ha. by rewrite A2, A1.
Qed.

Lemma remove_prefix_ok a prefix b :
  exists b', TokenStore.removeKeysWithPrefix a prefix b = (Ok tt, b') /\ b_private b' = b_private b /\
    (forall k, area a b' !! k = if truthy_str k && starts_with prefix k then None else area a b !! k) /\
    (forall a', a' <> a -> area a' b' = area a' b).
Proof.
  unfold TokenStore.removeKeysWithPrefix, storage_keys.
  erewrite bind_ok by (erewrite bind_ok by apply storage_call_ok; reflexivity). set (b1 := noted _ b).
  assert (forall a', area a' b1 = area a' b) as A1 by by intros [].
  match goal with |- context [eff_iter _ ?l] => destruct (remove_all_ok a l b1) as (b2 & E2 & P2 & I2 & A2) end.
  exists b2. split; [exact E2|]. split; [exact P2|]. split; [|intros a' Ha; by rewrite A2, A1].
  intros k. rewrite I2, A1. destruct (truthy_str k && starts_with prefix k) eqn:Ek.
  - destruct (area a b !! k) as [v|] eqn:Ev; [|by case_decide]. rewrite decide_True; [done|].
    apply list_elem_of_filter. split; [done|]. apply list_elem_of_fmap. exists (k, v). split; [done|].
    apply elem_of_map_to_list. by rewrite ?A1.
  - rewrite decide_False; [done|]. intros [Hk _]%list_elem_of_filter. congruence.
Qed.

Lemma storage_key_prefix aid :
  truthy_str (TokenStore.storageKey (JStr aid)) && starts_with TokenStore.STORAGE_PREFIX (TokenStore.storageKey (JStr aid)) = true.
Proof. apply andb_true_iff. split; [done|]. apply starts_with_spec. by eexists. Qed.

Lemma nonce_key_prefix aid :
  truthy_str (TokenStore.nonceKey aid) && starts_with TokenStore.SESSION_NONCE_PREFIX (TokenStore.nonceKey aid) = true.
Proof. apply andb_true_iff. split; [done|]. apply starts_with_spec. by eexists. Qed.

Lemma clear_all_sim s b :
  refines s b -> exists b', TokenStore.clearAllBridgeTokens b = (Ok tt, b') /\ refines (PairingsOf ∅ ∅) b'.
Proof.
  intros (Hk & _). unfold TokenStore.clearAllBridgeTokens, TokenStore.isStorageAvailable, TokenStore.isSessionStorageAvailable.
  destruct (available_ok LocalStorage b) as (b1 & E1 & P1 & _). erewrite bind_ok by exact E1.
  destruct (remove_prefix_ok LocalStorage TokenStore.STORAGE_PREFIX b1) as (b2 & E2 & P2 & I2 & _). erewrite bind_ok by exact E2.
  destruct (available_ok SessionStorage b2) as (b3 & E3 & P3 & A3). erewrite bind_ok by exact E3.
  destruct (remove_prefix_ok SessionStorage TokenStore.SESSION_NONCE_PREFIX b3) as (b4 & E4 & P4 & I4 & A4).
  exists b4. split; [exact E4|]. split; [|split].
  - intros key. unfold kek, stored_key. rewrite P4, P3, P2, P1. apply Hk.
  - intros aid _. cbn [tokens]. rewrite lookup_empty. pose proof (A4 LocalStorage) as B. cbn [area] in B. rewrite B by done.
    pose proof (A3 LocalStorage (TokenStore.storageKey (JStr aid)) (storage_not_probe _)) as C. cbn [area] in C. rewrite C.
    cbn [area] in I2. by rewrite I2, storage_key_prefix.
  - intros aid _. cbn [nonces]. rewrite lookup_empty. cbn [area] in I4. by rewrite I4, nonce_key_prefix.
Qed.

Lemma step_sim op s b :
  op_ok op -> refines s b ->
  exists b', impl_step op b = (Ok (spec_step op s).1, b') /\ refines (spec_step op s).2 b'.
Proof.
  intros Hop HR. destruct op as [aid base tok|aid|aid|aid n|aid|aid| | |]; cbn [impl_step spec_step fst snd].
  - destruct Hop as (Ha & Hb & Ht). destruct (save_sim s b aid base tok HR Ha Hb Ht) as (b' & E & R).
    exists b'. by erewrite bind_ok by exact E.
  - destruct (load_sim s b aid HR) as (r & b' & E & R & A). exists b'. erewrite bind_ok by exact E. by rewrite <- A.
  - destruct (clear_sim s b aid HR) as (b' & E & R). exists b'. by erewrite bind_ok by exact E.
  - destruct (save_nonce_sim s b aid n HR) as (b' & E & R). exists b'. by erewrite bind_ok by exact E.
  - destruct (load_nonce_sim s b aid HR) as (b' & E & R). exists b'. by erewrite bind_ok by exact E.
  - destruct (clear_nonce_sim s b aid HR) as (b' & E & R). exists b'. by erewrite bind_ok by exact E.
  - destruct (clear_all_sim s b HR) as (b' & E & R). exists b'. by erewrite bind_ok by exact E.
  - eexists. split; [reflexivity|]. eapply refines_same; [|exact HR]. split; [done|by intros []].
  - eexists. split; [reflexivity|]. eapply refines_session; [exact HR|done|done|]. intros aid Ha. apply lookup_empty.
Qed.

End sim.

(** ** Whatever the browser refuses *)

(** An entry of [localStorage] that holds a bearer only as ciphertext. *)
Definition sealed_entry `{WebCrypto} (raw : jstr) : Prop :=
  exists aid base t k tok w, raw = json_stringify (TokenStore.stored_record aid base w t) /\ wraps_token k tok w.

(** Entries are kept, removed, or written as ciphertext. *)
Definition sealed_change `{WebCrypto} (b b' : Browser) : Prop :=
  forall key, key <> probe_key ->
    b_local b' !! key = b_local b !! key \/ b_local b' !! key = None \/
    exists raw, b_local b' !! key = Some raw /\ sealed_entry raw.

#[global] Instance sealed_change_preorder `{WebCrypto} : PreOrder sealed_change.
Proof.
  split; [by left|]. intros b1 b2 b3 A B key Hk. destruct (B key Hk) as [-> | HB]; [by apply A|by right].
Qed.

(** The entries of [localStorage] are as they were. *)
Definition same_local (b b' : Browser) : Prop := forall key, key <> probe_key -> b_local b' !! key = b_local b !! key.

#[global] Instance same_local_preorder : PreOrder same_local.
Proof. split; [done|]. intros b1 b2 b3 A B key Hk. by rewrite B, A. Qed.

Section refused.
Context `{Host, WebCrypto, Env, !EnvLaws, BrowserEnv}.

Lemma same_sealed b b' : same_local b b' -> sealed_change b b'.
Proof. intros A key Hk. left. by apply A. Qed.

Lemma respects_sealed {A} (m : BM A) : respects same_local m -> respects sealed_change m.
Proof. intros Hm b. apply same_sealed, Hm. Qed.

Lemma local_host {A} (m : M A) : respects same_local (host m).
Proof. intros b key _. unfold host. by destruct (m (b_node b)). Qed.

Lemma local_refusable e refusal : respects same_local (refusable e refusal).
Proof. intros b key _. by rewrite refusable_run. Qed.

Lemma local_getItem a key : respects same_local (storage_getItem a key).
Proof.
  apply respects_bind; [apply _|apply local_refusable|]. intros _. apply respects_bind; [apply _|by intros b|].
  intros b. apply respects_ret, _.
Qed.

Lemma local_available a : respects same_local (storage_available a).
Proof.
  intros b key Hk. unfold storage_available. destruct (negb env_window); [done|].
  unfold try_catch, storage_setItem, storage_removeItem, storage_call, mbind, eff_bind. rewrite refusable_run.
  destruct (env_storage_error _ _); [done|]. cbn [update fst snd]. rewrite refusable_run.
  destruct (env_storage_error _ _); destruct a; cbn; try done; rewrite ?lookup_delete_ne, ?lookup_insert_ne; done.
Qed.

Lemma local_load id : respects same_local (secureLoadKey id).
Proof. intros b key _. by rewrite secureLoadKey_run. Qed.

Lemma local_store id k : respects same_local (secureStoreKey id k).
Proof. intros b key _. rewrite secureStoreKey_run. cbv zeta. by destruct (env_idb_error _ _). Qed.

Lemma local_kek : respects same_local AtRest.loadOrCreateKek.
Proof.
  unfold AtRest.loadOrCreateKek. destruct (negb isKeystoreAvailable); [by intros b|].
  apply respects_bind; [apply _|apply local_load|]. intros [key|]; [by intros b|].
  apply respects_catch; [apply _| |by intros e b]. unfold generate_aes_key.
  apply respects_bind; [apply _| |].
  - apply respects_bind; [apply _|apply local_host|]. by intros k b.
  - intros key. apply respects_bind; [apply _|apply local_store|]. by intros [] b.
Qed.

Lemma local_wrap tok : respects same_local (AtRest.wrapBridgeToken tok).
Proof.
  unfold AtRest.wrapBridgeToken. apply respects_bind; [apply _|apply local_kek|]. intros k.
  apply respects_bind; [apply _|apply local_host|]. intros iv. apply respects_bind; [apply _|apply respects_lift, _|].
  intros ct. apply respects_ret, _.
Qed.

Lemma local_unwrap stored : respects same_local (AtRest.unwrapBridgeToken stored).
Proof.
  unfold AtRest.unwrapBridgeToken. destruct (json_parse _) as [v|]; [|by intros b]. destruct (negb _); [by intros b|].
  apply respects_bind; [apply _| |by intros k b]. apply respects_catch; [apply _| |by intros e b].
  apply respects_bind; [apply _|apply local_kek|]. by intros k b.
Qed.

Lemma local_now : respects same_local TokenStore.now_iso.
Proof. unfold TokenStore.now_iso. apply respects_bind; [apply _|apply local_host|]. by intros t b. Qed.

(** A failed write changes nothing; a successful one changes one entry. *)
Lemma setItem_run a key v b :
  storage_setItem a key v b
  = (let b1 := noted (EvStorage (StSet a key v)) b in
     match env_storage_error (w_trace (b_node b)) (StSet a key v) with
     | Some err => (Throw err, b1)
     | None => (Ok tt, with_area a (<[key := v]> (area a b)) b1) end).
Proof.
  unfold storage_setItem, storage_call. destruct (env_storage_error _ _) eqn:E.
  - apply bind_throw. by rewrite refusable_run, E.
  - erewrite bind_ok by (by rewrite refusable_run, E). by destruct a.
Qed.

Lemma wrapped_sealed tok b w b' : AtRest.wrapBridgeToken tok b = (Ok w, b') -> exists k, wraps_token k (js_string tok) w.
Proof.
  intros E. unfold AtRest.wrapBridgeToken in E. eff_inv. unfold AtRest.encrypt_with in *.
  destruct x as [|k]; [done|]. exists k. injection Hstep1 as <-. unfold host in Hstep0. cbn in Hstep0. injection Hstep0 as <- _.
  eexists. split; [|reflexivity]. apply random_bytes.
Qed.

(** Saving either fails and leaves the entries alone, or seals one. *)
Lemma save_run aid base tok b :
  let '(r, b') := TokenStore.saveBridgeToken aid base tok b in
  sealed_change b b' /\ (r <> Ok tt -> same_local b b').
Proof.
  destruct (TokenStore.saveBridgeToken aid base tok b) as [r b'] eqn:E. unfold TokenStore.saveBridgeToken in E.
  destruct (negb (jtruthy aid) || negb (jtruthy tok)); [by injection E as <- <-|].
  unfold mbind, eff_bind in E. pose proof (local_available LocalStorage b) as L1.
  unfold TokenStore.isStorageAvailable in E. destruct (storage_available LocalStorage b) as [[[]|e] b1]; cbn [snd negb] in *;
    [|by injection E as <- <-; split; [apply same_sealed|]..].
  pose proof (local_wrap tok b1) as L2. pose proof (wrapped_sealed tok b1) as W.
  destruct (AtRest.wrapBridgeToken tok b1) as [[w|e] b2]; cbn [snd] in *.
  2: { injection E as <- <-. assert (same_local b b2) by (by etrans). by split; [apply same_sealed|]. }
  destruct (W w b2 eq_refl) as [k Hw]. pose proof (local_now b2) as L3.
  destruct (TokenStore.now_iso b2) as [[t|e] b3]; cbn [snd] in *.
  2: { injection E as <- <-. assert (same_local b b3) by (by etrans; [|etrans]). by split; [apply same_sealed|]. }
  assert (same_local b b3) as L by (by etrans; [|etrans]). rewrite setItem_run in E. cbv zeta in E.
  destruct (env_storage_error _ _); injection E as <- <-; [by split; [apply same_sealed|]|]. split; [|done].
  intros key Hk. cbn. destruct (decide (key = TokenStore.storageKey aid)) as [-> | Hne].
  - right. right. rewrite lookup_insert_eq. eexists. split; [done|]. by exists aid, (nullish_or base (JStr TokenStore.DEFAULT_BASE)), t, k, (js_string tok), w.
  - left. rewrite lookup_insert_ne by done. by apply L.
Qed.

Lemma sealed_save aid base tok : respects sealed_change (TokenStore.saveBridgeToken aid base tok).
Proof. intros b. pose proof (save_run aid base tok b) as Hs. destruct (TokenStore.saveBridgeToken _ _ _ b). apply Hs. Qed.

Lemma sealed_remove a key : respects sealed_change (storage_removeItem a key).
Proof.
  intros b k Hk. rewrite removeItem_run. cbv zeta. destruct (env_storage_error _ _); [by left|].
  destruct a; cbn; [|by left]. destruct (decide (key = k)) as [-> | Hne]; [right; left; apply lookup_delete_eq|left].
  by rewrite lookup_delete_ne.
Qed.

Lemma sealed_set_session key v : respects sealed_change (storage_setItem SessionStorage key v).
Proof. intros b k Hk. rewrite setItem_run. cbv zeta. by destruct (env_storage_error _ _); left. Qed.

Lemma sealed_available a : respects sealed_change (storage_available a).
Proof. apply respects_sealed, local_available. Qed.

Lemma sealed_get a key : respects sealed_change (storage_getItem a key).
Proof. apply respects_sealed, local_getItem. Qed.

Lemma sealed_unwrap stored : respects sealed_change (AtRest.unwrapBridgeToken stored).
Proof. apply respects_sealed, local_unwrap. Qed.

Lemma sealed_now : respects sealed_change TokenStore.now_iso.
Proof. apply respects_sealed, local_now. Qed.

Lemma sealed_keys a : respects sealed_change (storage_keys a).
Proof.
  apply respects_sealed. apply respects_bind; [apply _|apply local_refusable|]. intros _.
  apply respects_bind; [apply _|by intros b|]. intros b. apply respects_ret, _.
Qed.

Lemma sealed_update f : (forall b, b_local (f b) = b_local b) -> respects sealed_change (update f).
Proof. intros Hf b key _. left. cbn. by rewrite Hf. Qed.

(** Sequence, choose and catch what keeps entries sealed. *)
Ltac sealed :=
  repeat first
  [ apply sealed_available | apply sealed_get | apply sealed_unwrap | apply sealed_now | apply sealed_keys
  | apply sealed_save | apply sealed_remove | apply sealed_set_session
  | apply respects_ret, _ | apply respects_lift, _
  | apply respects_catch; [apply _| |intros ?]
  | apply respects_iter; [apply _|intros ?]
  | apply respects_bind; [apply _| |intros ?]
  | match goal with |- respects _ (match ?x with _ => _ end) => destruct x end ].

Lemma sealed_step op : respects sealed_change (impl_step op).
Proof.
  destruct op; cbn [impl_step]; apply respects_bind; try apply _; try (intros ?; apply respects_ret, _);
    try (apply sealed_update; by intros b);
    unfold TokenStore.loadBridgeToken, TokenStore.clearBridgeToken, TokenStore.saveBridgeSessionNonce,
      TokenStore.loadBridgeSessionNonce, TokenStore.clearBridgeSessionNonce, TokenStore.clearAllBridgeTokens,
      TokenStore.isStorageAvailable, TokenStore.isSessionStorageAvailable, TokenStore.removeKeysWithPrefix; sealed.
Qed.

End refused.

(** * Properties *)

(** C14: the bridge token store implements the pairing store.  In a browser that
    refuses nothing, any sequence of saves, loads and clears, of logouts, page
    loads and new tabs gives exactly the answers of the abstract store - a
    saved bearer is found again until it is cleared, a session nonce is lost
    with its tab, a logout forgets everything - while the browser keeps holding
    every bearer as the ciphertext of the abstract one under the stored key,
    and nothing else for an agent. *)
Theorem bridge_tokens_refine `{Host, WebCrypto, !WebCryptoLaws, Env, !EnvLaws, BrowserEnv, !NeverRefuses}
    (ops : list Op) (s : Pairings) (b : Browser) :
  Forall op_ok ops -> refines s b ->
  exists b', impl_run ops b = (Ok (spec_run ops s).1, b') /\ refines (spec_run ops s).2 b'.
Proof.
  intros Hops. revert s b. induction Hops as [|op ops Hop Hops IH]; intros s b HR; [by exists b|].
  destruct (step_sim op s b Hop HR) as (b1 & E1 & R1). cbn [spec_run]. destruct (spec_step op s) as [a s1].
  destruct (IH s1 b1 R1) as (b2 & E2 & R2). destruct (spec_run ops s1) as [l s2].
  exists b2. split; [|exact R2]. unfold impl_run in *. cbn [eff_map]. erewrite bind_ok by exact E1.
  by erewrite bind_ok by exact E2.
Qed.

Example bridge_tokens_refine_witness :
  let _ := plain_host in let _ := quiet_env in let _ := open_browser in
  let a := js "aid:ai:acme/bot" in
  let ops := [SaveToken a (js "http://127.0.0.1:43417") (js "tok-1"); SaveNonce a (js "n1"); Reload; LoadToken a; LoadNonce a;
              NewTab; LoadToken a; LoadNonce a; ClearAll; LoadToken a] in
  let found := TokenAnswer (Some (JStr a, JStr (js "http://127.0.0.1:43417"), JStr (js "tok-1"))) in
  exists b', impl_run ops new_profile
    = (Ok [Done; Done; Done; found; NonceAnswer (Some (js "n1")); Done; found; NonceAnswer None; Done; TokenAnswer None], b') /\
    refines (PairingsOf ∅ ∅) b'.
Proof.
  intros ho en br a ops found. destruct (bridge_tokens_refine ops (PairingsOf ∅ ∅) new_profile) as (b' & E & R).
  - apply Forall_cons_2; [|by repeat (apply Forall_cons_2; [exact I|]); apply Forall_nil_2].
    split; [apply forallb_units; by vm_compute|]. split; [apply forallb_units; by vm_compute|].
    apply (bool_decide_eq_true_1 (text_ok _)). by vm_compute.
  - split; [done|]. split; intros aid _; by rewrite ?lookup_empty.
  - exists b'. split; [|exact R]. by rewrite E.
Defined.



(** The documented error is not the one a page sees when the database cannot
    be opened: the lookup of the key is outside the guarded part. *)
Example closed_database_error_escapes :
  let _ := plain_host in let _ := quiet_env in
  let _ := refusing_browser (fun _ => None) (fun _ => Some (JsError (js "InvalidStateError") (js "database closed"))) in
  (TokenStore.saveBridgeToken (JStr (js "a1")) JUndef (JStr (js "tok")) new_profile).1
  = Throw (JsError (js "InvalidStateError") (js "database closed")).
Proof. by vm_compute. Qed.

(** ** The bridged restore *)

Definition unwrap_request (base tok nonce ek : jstr) : Request :=
  HttpRequest (js "POST") (base ++ js "/v1/unwrap")
    [(js "Content-Type", js "application/json"); (js "X-NexusInbox-Bridge", tok); (js "X-NexusInbox-Bridge-Nonce", nonce)]
    (TextBody (json_stringify (JObj [(js "encrypted_key", JStr ek)]))).

Section unwraps.
Context `{Host, WebCrypto, !WebCryptoLaws, Env, !EnvLaws, BrowserEnv}.

Lemma content_key_json ck : ascii_text ck -> json_okb (JObj [(js "content_key", JStr ck)]) = true.
Proof. intros Hck%ascii_units%forallb_units. cbn [json_okb forallb fmap list_fmap fst snd]. by rewrite Hck. Qed.

Lemma unwrap_granted base tok nonce ek ck b :
  tok <> [] -> nonce <> [] -> ascii_text ck -> ck <> [] ->
  (forall h, env_fetch h (unwrap_request base tok nonce ek)
             = Ok (HttpResponse 200 (json_stringify (JObj [(js "content_key", JStr ck)])))) ->
  exists b', BridgeClient.unwrap (BridgeClient.make (JStr base) (JStr tok) (Some nonce)) ek b
    = (Ok (BridgeClient.Unwrapped (JStr ck)), b') /\ EvFetch (unwrap_request base tok nonce ek) ∈ w_trace (b_node b').
Proof.
  intros Ht Hn Hck Hckn Hf. unfold BridgeClient.unwrap, BridgeClient.make. cbn [BridgeClient.token jtruthy nullish_or].
  assert (truthy_str tok = true) as -> by by destruct tok. cbn [negb].
  unfold BridgeClient.call, BridgeClient.privilegedHeaders.
  cbn [BridgeClient.token BridgeClient.baseUrl BridgeClient.sessionNonce nullish_or js_string join_part].
  assert (truthy_str nonce = true) as -> by by destruct nonce.
  change (HttpRequest _ _ _ _) with (unwrap_request base tok nonce ek). unfold try_catch.
  destruct (web_fetch_answer (unwrap_request base tok nonce ek) _ b Hf) as (w & b1 & E & Hw & Hlog).
  erewrite bind_ok by (by erewrite bind_ok by exact E).
  exists b1. split; [|exact Hlog]. unfold wr_status, wr_ok, BridgeClient.safeJson, wr_json. rewrite Hw. cbn [rs_status rs_text rs_ok].
  rewrite json_stringify_roundtrip by by apply content_key_json.
  change (jget _ (js "content_key")) with (JStr ck). cbn [jtruthy].
  assert (truthy_str ck = true) as -> by by destruct ck. done.
Qed.

Lemma content_key_opens k t c :
  sealed_text k t c -> text_ok t -> WebText.decryptEnvelopeTextWithContentKey c k = WebText.Decrypted WebText.readable t.
Proof.
  intros (p & -> & Wp & Dp) Ht. unfold WebText.decryptEnvelopeTextWithContentKey.
  rewrite parse_serialize by by apply written_plain. by rewrite Dp.
Qed.

End unwraps.

(** The bridged restore shows the message.  For an agent that is paired in
    this tab, whose daemon answers the unwrap request - which carries the
    stored bearer and the session nonce, and nothing but the wrapped key - with
    the content key, a confirmed restore shows exactly the sealed subject and
    body, to expire five minutes later. *)
Lemma restore_shows `{Host, WebCrypto, !WebCryptoLaws, Env, !EnvLaws, BrowserEnv, !NeverRefuses}
    (s : Pairings) (b : Browser) (aid base tok nonce ec ek se subj body ck : jstr) :
  refines s b -> aid <> [] -> tokens s !! aid = Some (base, tok) -> nonces s !! aid = Some nonce -> nonce <> [] ->
  sealed_text ck body ec -> sealed_text ck subj se -> ascii_text ck -> ck <> [] -> text_ok subj -> text_ok body ->
  (forall h, env_fetch h (unwrap_request base tok nonce ek)
             = Ok (HttpResponse 200 (json_stringify (JObj [(js "content_key", JStr ck)])))) ->
  exists now b', Restore.runRestore (Some aid) ec ek se true b
    = (Ok (Restore.Plaintext subj body (now + Restore.BRIDGED_PLAINTEXT_TTL_MS)), b') /\
    EvFetch (unwrap_request base tok nonce ek) ∈ w_trace (b_node b').
Proof.
  intros HR Ha Ht Hn Hnn Hec Hse Hck Hckn Hsubj Hbody Hfetch. unfold Restore.runRestore.
  assert (truthy_str aid = true) as Hta by by destruct aid.
  destruct (load_sim s b aid HR) as (r & b1 & E1 & HR1 & A). rewrite Hta, Ht in A.
  destruct (load_nonce_sim s b1 aid HR1) as (b2 & E2 & HR2). rewrite Hta, Hn in E2.
  destruct aid as [|u aid]; [done|]. erewrite bind_ok by exact E1.
  destruct r as [r|]; [|done]. injection A as _ Eb Et. erewrite bind_ok by exact E2. rewrite andb_false_r, Eb, Et.
  assert (tok <> []) as Htn.
  { pose proof (proj1 (proj2 HR) _ Ha) as Hs. rewrite Ht in Hs. destruct Hs as (raw & _ & k & w & t & F). apply F. }
  destruct (unwrap_granted base tok nonce ek ck b2) as (b3 & E3 & L3); [done..|]. erewrite bind_ok by exact E3.
  cbv zeta. cbn [js_string join_part]. rewrite (content_key_opens ck body ec) by done.
  assert (truthy_str se = true) as -> by (destruct Hse as (p & -> & _); apply serialize_truthy).
  rewrite (content_key_opens ck subj se) by done. cbn [WebText.state WebText.text].
  rewrite !bool_decide_eq_true_2 by done. cbn [negb].
  erewrite bind_ok by (apply host_ok; reflexivity). eexists _, _. split; [reflexivity|]. cbn. by right.
Qed.
