(* ===== verification/Calendar.v ===== *)
(** The calendar integration: apps/web/lib/calendar/gcalFreebusy.ts and
    gcalAuth.ts.

    Candidates and the service's answer are JSON values.  Google Identity
    Services is not part of the sources: [Gis] says whether its script loads,
    whether it exposes the OAuth client, and what the client answers. *)
From S2P Require Import Prelude Utf8 JsNumber Json JsDate A2A Effect Node Envelope ApiClient Browser WebKeystore WebEnvelope WebApi SendReply.

(** ** gcalFreebusy.ts *)
Module Freebusy.

Record IsoInterval := Interval { start : jstr; end_ : jstr }.

Definition FREEBUSY_URL : jstr := js "https://www.googleapis.com/calendar/v3/freebusy".

Section freebusy.
Context `{Host}.

(** [Date.parse(c.k)] for a value read from JSON. *)
Definition time_of (c : jval) (k : jstr) : res (option Z) :=
  t ← jprop c k; Ok (date_parse (js_string t)).

(** A busy interval with a time that does not parse excludes nothing. *)
Definition overlaps (candidateStart candidateEnd : Z) (b : IsoInterval) : bool :=
  match date_parse (start b), date_parse (end_ b) with
  | Some bStart, Some bEnd => (candidateStart <? bEnd) && (bStart <? candidateEnd)
  | _, _ => false
  end.

Definition isCandidateFree (candidate : jval) (busy : list IsoInterval) : res bool :=
  candidateStart ← time_of candidate (js "start");
  candidateEnd ← time_of candidate (js "end");
  Ok (match candidateStart, candidateEnd with
      | Some s, Some e => if e <=? s then false else forallb (fun b => negb (overlaps s e b)) busy
      | _, _ => false
      end).

Fixpoint pickFirstFreeCandidate (candidates : list jval) (busy : list IsoInterval) : res jval :=
  match candidates with
  | [] => Ok JNull
  | c :: r => free ← isCandidateFree c busy; if free : bool then Ok c else pickFirstFreeCandidate r busy
  end.

(** The finite times of the candidates, in order. *)
Fixpoint candidate_times (candidates : list jval) : res (list Z) :=
  match candidates with
  | [] => Ok []
  | c :: r =>
    s ← time_of c (js "start");
    e ← time_of c (js "end");
    times ← candidate_times r;
    Ok (option_list s ++ option_list e ++ times)
  end.

Definition busy_entry (entry : jval) : list IsoInterval :=
  match jget entry (js "start"), jget entry (js "end") with
  | JStr s, JStr e => [Interval s e]
  | _, _ => []
  end.

Definition extractPrimaryBusy (parsed : jval) : list IsoInterval :=
  match jget (jget (jget parsed (js "calendars")) (js "primary")) (js "busy") with
  | JArr entries => flat_map busy_entry entries
  | _ => []
  end.

Definition min_of (t : Z) (times : list Z) : Z := foldr Z.min t times.
Definition max_of (t : Z) (times : list Z) : Z := foldr Z.max t times.

Definition freebusy_request (accessToken : jstr) (timeMin timeMax : Z) : Request :=
  HttpRequest (js "POST") FREEBUSY_URL
    [(js "Authorization", js "Bearer " ++ accessToken); (js "Content-Type", js "application/json")]
    (TextBody (json_stringify
       (JObj [(js "timeMin", JStr (to_iso_string timeMin)); (js "timeMax", JStr (to_iso_string timeMax));
              (js "items", JArr [JObj [(js "id", JStr (js "primary"))]])]))).

Context `{Env, BrowserEnv}.

Definition findFirstFreeCandidate (candidates : list jval) (accessToken : jstr) : BM jval :=
  match candidates with
  | [] => mret JNull
  | _ =>
    times ← lift (candidate_times candidates);
    match times with
    | [] => raise (Error_ (js "all candidate timestamps unparseable"))
    | t :: rest =>
      result ← web_fetch (freebusy_request accessToken (min_of t rest) (max_of t rest));
      let body := rs_text (wr_response result) in
      raise_if (negb (wr_ok result))
        (Error_ (js "freebusy HTTP " ++ dec_of_Z (wr_status result) ++ js ": " ++ take 200 body)) ;;
      parsed ← lift match json_parse body with
                    | Ok v => Ok v
                    | Throw _ => Throw (Error_ (js "freebusy response was not JSON"))
                    end;
      lift (pickFirstFreeCandidate candidates (extractPrimaryBusy parsed))
    end
  end.

End freebusy.
End Freebusy.

(** ** gcalAuth.ts *)
Module GcalAuth.

Definition CALENDAR_SCOPE : jstr := js "https://www.googleapis.com/auth/calendar.freebusy".
Definition REFRESH_MARGIN_MS : Z := 60000.
Definition STORE : jstr := js "tokens".
Definition TOKEN_KEY : jstr := js "primary".

Record StoredCalendarToken := CalendarToken {
  access_token : jstr; expires_at : Z; scope : jstr; user_email : option jstr
}.

Record TokenResponse := Response {
  r_access_token : jstr; r_expires_in : Z; r_scope : jstr; r_error : option jstr
}.

Class Gis := {
  gis_load_error : list Event -> bool;                    (** the script fails to load *)
  gis_exposes : bool;                                     (** it defines accounts.oauth2 *)
  gis_answer : list Event -> option jstr -> TokenResponse (** the callback's argument, by prompt *)
}.

(** The page, the record of the database "nexusinbox-gcal", whether the script
    was loaded, and the tokens handed to [revoke], newest first. *)
Record Calendar := CalendarOf {
  c_browser : Browser; c_token : option StoredCalendarToken; c_loaded : bool; c_revoked : list jstr
}.

Abbreviation CM := (eff Calendar).

Definition in_browser_ {A} (m : BM A) : CM A :=
  fun c => let '(r, b) := m (c_browser c) in (r, CalendarOf b (c_token c) (c_loaded c) (c_revoked c)).

Definition update (f : Calendar -> Calendar) : CM unit := fun c => (Ok tt, f c).

Section gcal.
Context `{Host, Env, BrowserEnv, Gis}.

Definition now_of : CM Z := in_browser_ (host now_ms).
Definition history : CM (list Event) := c ← get_state; mret (w_trace (b_node (c_browser c))).

Definition calendarClientId : option jstr :=
  match env_var (js "NEXT_PUBLIC_GOOGLE_OAUTH_CLIENT_ID") with
  | Some v => if truthy_str v then Some v else None
  | None => None
  end.

Definition dbGet : CM (option StoredCalendarToken) :=
  in_browser_ (idb_call (IdbGet STORE TOKEN_KEY)) ;; c ← get_state; mret (c_token c).
Definition dbPut (token : StoredCalendarToken) : CM unit :=
  in_browser_ (idb_call (IdbPut STORE TOKEN_KEY)) ;;
  update (fun c => CalendarOf (c_browser c) (Some token) (c_loaded c) (c_revoked c)).
Definition dbDelete : CM unit :=
  in_browser_ (idb_call (IdbDelete STORE TOKEN_KEY)) ;;
  update (fun c => CalendarOf (c_browser c) None (c_loaded c) (c_revoked c)).

(** The script is loaded once; a failed load is tried again by the next call. *)
Definition loadGisSdk : CM unit :=
  if negb env_window then raise (Error_ (js "GIS SDK requires a browser"))
  else
    c ← get_state;
    if c_loaded c then mret tt
    else
      h ← history;
      if gis_load_error h then raise (Error_ (js "failed to load Google Identity Services"))
      else update (fun c => CalendarOf (c_browser c) (c_token c) true (c_revoked c)).

(** [window.google?.accounts?.oauth2]. *)
Definition google_oauth2 : CM bool := c ← get_state; mret (c_loaded c && gis_exposes).

Definition tokenIsLive (token : option StoredCalendarToken) : CM bool :=
  match token with
  | None => mret false
  | Some t => now ← now_of; mret (now <? expires_at t - REFRESH_MARGIN_MS)
  end.

(** The record a callback makes of the response. *)
Definition issued (response : TokenResponse) (email : option jstr) : CM StoredCalendarToken :=
  now ← now_of;
  mret (CalendarToken (r_access_token response) (now + r_expires_in response * 1000) (r_scope response) email).

Definition requestCalendarToken : CM StoredCalendarToken :=
  match calendarClientId with
  | None =>
    raise (Error_ (js "NEXT_PUBLIC_GOOGLE_OAUTH_CLIENT_ID is not configured; add it to .env.local to enable Calendar integration."))
  | Some _ =>
    loadGisSdk ;;
    google ← google_oauth2;
    raise_if (negb google) (Error_ (js "GIS SDK did not expose accounts.oauth2")) ;;
    h ← history;
    let response := gis_answer h None in
    match r_error response with
    | Some (_ :: _ as e) => raise (Error_ (js "Calendar consent declined: " ++ e))
    | _ => token ← issued response None; dbPut token ;; mret token
    end
  end.

Definition getCalendarToken : CM (option StoredCalendarToken) :=
  if negb isBrowser then mret None
  else
    stored ← try_catch (t ← dbGet; mret (Some t)) (fun _ => mret None);
    match stored with
    | None | Some None => mret None
    | Some (Some token) =>
      live ← tokenIsLive (Some token);
      if live : bool then mret (Some token)
      else
        match calendarClientId with
        | None => mret None
        | Some _ =>
          loaded ← try_catch (loadGisSdk ;; mret true) (fun _ => mret false);
          google ← google_oauth2;
          if negb loaded || negb google then mret None
          else
            h ← history;
            let response := gis_answer h (Some (js "none")) in
            if truthy_ostr (r_error response) || negb (truthy_str (r_access_token response)) then mret None
            else
              fresh ← issued response (user_email token);
              try_catch (dbPut fresh ;; mret (Some fresh)) (fun _ => mret None)
        end
    end.

Definition isCalendarConnected : CM bool :=
  if negb isBrowser then mret false
  else try_catch (token ← dbGet; tokenIsLive token) (fun _ => mret false).

Definition revoke (token : jstr) : CM unit :=
  update (fun c => CalendarOf (c_browser c) (c_token c) (c_loaded c) (token :: c_revoked c)).

Definition disconnectCalendar : CM unit :=
  if negb isBrowser then mret tt
  else
    try_catch
      (existing ← dbGet;
       match existing with
       | Some t =>
         if truthy_str (access_token t) then
           try_catch loadGisSdk (fun _ => mret tt) ;;
           google ← google_oauth2;
           if google : bool then revoke (access_token t) else mret tt
         else mret tt
       | None => mret tt
       end)
      (fun _ => mret tt) ;;
    dbDelete.

End gcal.
End GcalAuth.

(** * Lemmas *)

Section free.
Context `{Host}.

(** The candidate's times. *)
Definition spans (c : jval) (s e : Z) : Prop :=
  Freebusy.time_of c (js "start") = Ok (Some s) /\ Freebusy.time_of c (js "end") = Ok (Some e).

(** The interval [s, e) and a busy interval share an instant. *)
Definition collides (s e : Z) (b : Freebusy.IsoInterval) : Prop :=
  exists bs be t, date_parse (Freebusy.start b) = Some bs /\ date_parse (Freebusy.end_ b) = Some be /\
    s <= t < e /\ bs <= t < be.

(** A proper slot that shares no instant with a busy one. *)
Definition is_free (busy : list Freebusy.IsoInterval) (c : jval) : Prop :=
  exists s e, spans c s e /\ s < e /\ Forall (fun b => ~ collides s e b) busy.

(** The busy intervals whose times parse end after they start. *)
Definition proper_busy (busy : list Freebusy.IsoInterval) : Prop :=
  Forall (fun b => forall bs be, date_parse (Freebusy.start b) = Some bs -> date_parse (Freebusy.end_ b) = Some be -> bs < be) busy.

Lemma overlaps_spec s e b :
  s < e -> (forall bs be, date_parse (Freebusy.start b) = Some bs -> date_parse (Freebusy.end_ b) = Some be -> bs < be) ->
  Freebusy.overlaps s e b = true <-> collides s e b.
Proof.
  intros Hse Hb. unfold Freebusy.overlaps, collides.
  destruct (date_parse (Freebusy.start b)) as [bs|]; [|naive_solver].
  destruct (date_parse (Freebusy.end_ b)) as [be|]; [|naive_solver]. specialize (Hb bs be eq_refl eq_refl).
  rewrite andb_true_iff, !Z.ltb_lt. split.
  - intros [H1 H2]. exists bs, be, (Z.max s bs). split_and!; (done || lia).
  - intros (bs' & be' & t & [= <-] & [= <-] & H1 & H2). lia.
Qed.

Lemma time_of_object o k : exists t, Freebusy.time_of (JObj o) k = Ok t.
Proof. unfold Freebusy.time_of. eexists. reflexivity. Qed.

Lemma isCandidateFree_spec o busy :
  proper_busy busy -> exists free, Freebusy.isCandidateFree (JObj o) busy = Ok free /\ (free = true <-> is_free busy (JObj o)).
Proof.
  intros Hb. unfold Freebusy.isCandidateFree, is_free, spans.
  destruct (time_of_object o (js "start")) as [s Es], (time_of_object o (js "end")) as [e Ee].
  rewrite Es, Ee. eexists. split; [reflexivity|].
  destruct s as [s|]; [|naive_solver]. destruct e as [e|]; [|naive_solver].
  destruct (Z.leb_spec e s) as [Hse|Hse].
  { split; [done|]. intros (s' & e' & [[= <-] [= <-]] & Hlt & _). lia. }
  rewrite forallb_forall. setoid_rewrite <- list_elem_of_In. split.
  - intros Hall. exists s, e. split; [done|]. split; [done|]. apply Forall_forall. intros b Hin Hc.
    unfold proper_busy in Hb. rewrite Forall_forall in Hb.
    apply (overlaps_spec s e b Hse (Hb b Hin)) in Hc. specialize (Hall b Hin). by rewrite Hc in Hall.
  - intros (s' & e' & [[= <-] [= <-]] & _ & Hall) b Hin. unfold proper_busy in Hb. rewrite Forall_forall in Hb, Hall.
    apply negb_true_iff, not_true_iff_false. intros Ho. apply (Hall b Hin). by apply (overlaps_spec s e b Hse (Hb b Hin)).
Qed.

(** The first free candidate, or that there is none. *)
Definition first_free (busy : list Freebusy.IsoInterval) (candidates : list jval) (r : jval) : Prop :=
  (r = JNull /\ Forall (fun c => ~ is_free busy c) candidates) \/
  exists before after, candidates = before ++ r :: after /\ is_free busy r /\ Forall (fun c => ~ is_free busy c) before.

Lemma pick_spec candidates busy :
  proper_busy busy -> Forall (fun c => exists o, c = JObj o) candidates ->
  exists r, Freebusy.pickFirstFreeCandidate candidates busy = Ok r /\ first_free busy candidates r.
Proof.
  intros Hb Hobj. induction Hobj as [|c candidates [o ->] Hobj IH].
  { exists JNull. split; [done|]. left. split; [done|constructor]. }
  cbn [Freebusy.pickFirstFreeCandidate]. destruct (isCandidateFree_spec o busy Hb) as ([] & E & Hf); rewrite E.
  - exists (JObj o). split; [done|]. right. exists [], candidates. split_and!; [done|by apply Hf|constructor].
  - destruct IH as (r & Er & Hr). exists r. split; [exact Er|].
    assert (~ is_free busy (JObj o)) as Hn by (by intros ?%Hf). destruct Hr as [[-> Hall]|(before & after & -> & Hr & Hall)].
    + left. split; [done|by constructor].
    + right. exists (JObj o :: before), after. split_and!; [done|done|by constructor].
Qed.

Lemma candidate_times_all candidates times :
  Freebusy.candidate_times candidates = Ok times ->
  forall c s e, c ∈ candidates -> spans c s e -> s ∈ times /\ e ∈ times.
Proof.
  revert times. induction candidates as [|c r IH]; intros times E c0 s e Hin [Hs He]; [by apply elem_of_nil in Hin|].
  cbn [Freebusy.candidate_times] in E. apply res_bind_ok in E as (s1 & E1 & E). apply res_bind_ok in E as (e1 & E2 & E).
  apply res_bind_ok in E as (l & E3 & E). injection E as <-. apply elem_of_cons in Hin as [-> | Hin].
  - rewrite Hs in E1. rewrite He in E2. injection E1 as <-. injection E2 as <-. cbn. set_solver.
  - destruct (IH l E3 c0 s e Hin (conj Hs He)). set_solver.
Qed.

Lemma min_of_le t rest x : x ∈ t :: rest -> Freebusy.min_of t rest <= x.
Proof.
  unfold Freebusy.min_of. intros [-> | Hin]%elem_of_cons; induction rest as [|y rest IH]; cbn [foldr]; try lia.
  - by apply elem_of_nil in Hin.
  - apply elem_of_cons in Hin as [-> | Hin]; [lia|]. specialize (IH Hin). lia.
Qed.

Lemma max_of_ge t rest x : x ∈ t :: rest -> x <= Freebusy.max_of t rest.
Proof.
  unfold Freebusy.max_of. intros [-> | Hin]%elem_of_cons; induction rest as [|y rest IH]; cbn [foldr]; try lia.
  - by apply elem_of_nil in Hin.
  - apply elem_of_cons in Hin as [-> | Hin]; [lia|]. specialize (IH Hin). lia.
Qed.

(** What the two JSON readers see in the service's answer. *)
Definition answer_of (answer : jval) : Response := HttpResponse 200 (json_stringify answer).

Lemma free_busy_run `{Env, BrowserEnv} candidates token t rest answer b :
  candidates <> [] -> Forall (fun c => exists o, c = JObj o) candidates ->
  Freebusy.candidate_times candidates = Ok (t :: rest) ->
  json_okb answer = true -> proper_busy (Freebusy.extractPrimaryBusy answer) ->
  let rq := Freebusy.freebusy_request token (Freebusy.min_of t rest) (Freebusy.max_of t rest) in
  (forall h, env_fetch h rq = Ok (answer_of answer)) ->
  exists r b', Freebusy.findFirstFreeCandidate candidates token b = (Ok r, b') /\
    first_free (Freebusy.extractPrimaryBusy answer) candidates r /\ EvFetch rq ∈ w_trace (b_node b').
Proof.
  intros Hne Hobj Ht Hok Hbusy rq Hf. destruct candidates as [|c r]; [done|].
  destruct (pick_spec _ _ Hbusy Hobj) as (v & Ev & Hv).
  destruct (web_fetch_answer rq _ b Hf) as (w & b1 & E & Hw & Hlog).
  exists v, b1. split; [|done]. unfold Freebusy.findFirstFreeCandidate. rewrite Ht.
  unfold mbind, eff_bind, lift. cbv beta iota. fold rq. rewrite E. unfold wr_ok. rewrite Hw.
  cbn [answer_of rs_ok rs_text rs_status]. rewrite json_stringify_roundtrip by done.
  change (negb ((200 <=? 200) && (200 <=? 299))) with false. unfold raise_if, mret, eff_ret. by rewrite Ev.
Qed.

End free.


(** ** The token *)

Definition record_of (response : GcalAuth.TokenResponse) (now : Z) (email : option jstr) : GcalAuth.StoredCalendarToken :=
  GcalAuth.CalendarToken (GcalAuth.r_access_token response) (now + GcalAuth.r_expires_in response * 1000)
    (GcalAuth.r_scope response) email.

(** What a call may return for the stored record, and what it leaves stored. *)
Definition token_outcome `{Env, GcalAuth.Gis} (stored : option GcalAuth.StoredCalendarToken)
    (r stored' : option GcalAuth.StoredCalendarToken) : Prop :=
  (r = None /\ stored' = stored) \/
  (exists t h, r = Some t /\ stored = Some t /\ stored' = stored /\ env_now h < GcalAuth.expires_at t - GcalAuth.REFRESH_MARGIN_MS) \/
  (exists t stale h h' h'', r = Some t /\ stored = Some stale /\ stored' = Some t /\
     GcalAuth.expires_at stale - GcalAuth.REFRESH_MARGIN_MS <= env_now h /\
     t = record_of (GcalAuth.gis_answer h' (Some (js "none"))) (env_now h'') (GcalAuth.user_email stale)).

Lemma in_browser_run {A} (m : BM A) c :
  exists b, GcalAuth.in_browser_ m c
    = (fst (m (GcalAuth.c_browser c)), GcalAuth.CalendarOf b (GcalAuth.c_token c) (GcalAuth.c_loaded c) (GcalAuth.c_revoked c)).
Proof. unfold GcalAuth.in_browser_. destruct (m _) as [r b]. by exists b. Qed.

Section token.
Context `{Host, Env, BrowserEnv, GcalAuth.Gis}.

Lemma dbGet_run c : exists r c', GcalAuth.dbGet c = (r, c') /\ GcalAuth.c_token c' = GcalAuth.c_token c /\
  (r = Ok (GcalAuth.c_token c) \/ exists e, r = Throw e).
Proof.
  unfold GcalAuth.dbGet, mbind, eff_bind, get_state. destruct (in_browser_run (idb_call (IdbGet GcalAuth.STORE GcalAuth.TOKEN_KEY)) c) as [b ->].
  destruct (fst _) as [u|e]; eexists _, _; (split; [reflexivity|]); split; [done|by left|done|by right; exists e].
Qed.

Lemma dbPut_run t c : exists r c', GcalAuth.dbPut t c = (r, c') /\
  ((r = Ok tt /\ GcalAuth.c_token c' = Some t) \/ ((exists e, r = Throw e) /\ GcalAuth.c_token c' = GcalAuth.c_token c)).
Proof.
  unfold GcalAuth.dbPut, mbind, eff_bind. destruct (in_browser_run (idb_call (IdbPut GcalAuth.STORE GcalAuth.TOKEN_KEY)) c) as [b ->].
  destruct (fst _) as [u|e]; eexists _, _; (split; [reflexivity|]); [by left|]. right. split; [by exists e|done].
Qed.

Lemma now_of_run c : exists h c', GcalAuth.now_of c = (Ok (env_now h), c') /\ GcalAuth.c_token c' = GcalAuth.c_token c.
Proof.
  unfold GcalAuth.now_of. destruct (in_browser_run (host now_ms) c) as [b ->].
  exists (w_trace (b_node (GcalAuth.c_browser c))). eexists. by split.
Qed.

Lemma loadGisSdk_run c : exists r c', GcalAuth.loadGisSdk c = (r, c') /\ GcalAuth.c_token c' = GcalAuth.c_token c.
Proof.
  unfold GcalAuth.loadGisSdk. destruct (negb env_window); [by eexists _, _|].
  unfold mbind, eff_bind, get_state. destruct (GcalAuth.c_loaded c); [by eexists _, _|].
  unfold GcalAuth.history, mbind, eff_bind, get_state, mret, eff_ret. destruct (GcalAuth.gis_load_error _); by eexists _, _.
Qed.

Lemma issued_run response email c : exists h c',
  GcalAuth.issued response email c = (Ok (record_of response (env_now h) email), c') /\ GcalAuth.c_token c' = GcalAuth.c_token c.
Proof.
  unfold GcalAuth.issued, mbind, eff_bind. destruct (now_of_run c) as (h & c' & -> & E). by eexists _, _.
Qed.

(** The renewal of a stale token, once the client's script is there. *)
Lemma renewal_run stale response c : exists r c',
  (fresh ← GcalAuth.issued response (GcalAuth.user_email stale);
   try_catch (GcalAuth.dbPut fresh ;; mret (Some fresh)) (fun _ => mret None)) c = (Ok r, c') /\
  ((r = None /\ GcalAuth.c_token c' = GcalAuth.c_token c) \/
   exists h, r = Some (record_of response (env_now h) (GcalAuth.user_email stale)) /\ GcalAuth.c_token c' = r).
Proof.
  destruct (issued_run response (GcalAuth.user_email stale) c) as (h & c1 & E1 & T1).
  erewrite bind_ok by exact E1. unfold try_catch, mbind, eff_bind.
  destruct (dbPut_run (record_of response (env_now h) (GcalAuth.user_email stale)) c1) as (r & c2 & -> & [[-> T2]|[[e ->] T2]]).
  - eexists _, _. split; [reflexivity|]. right. by exists h.
  - eexists _, _. split; [reflexivity|]. left. split; [done|]. by rewrite T2.
Qed.

Lemma getCalendarToken_run c : exists r c',
  GcalAuth.getCalendarToken c = (Ok r, c') /\ token_outcome (GcalAuth.c_token c) r (GcalAuth.c_token c').
Proof.
  unfold GcalAuth.getCalendarToken. destruct (negb isBrowser); [eexists _, _; split; [reflexivity|by left]|].
  destruct (dbGet_run c) as (r & c1 & E1 & T1 & Hr).
  assert (forall r', r' = None -> token_outcome (GcalAuth.c_token c) r' (GcalAuth.c_token c)) as Hnone by (by left).
  destruct Hr as [-> | [e ->]].
  2: { erewrite bind_ok by (unfold try_catch, mbind, eff_bind; rewrite E1; reflexivity).
       eexists _, _. split; [reflexivity|]. rewrite T1. by apply Hnone. }
  erewrite bind_ok by (unfold try_catch, mbind, eff_bind; rewrite E1; reflexivity).
  destruct (GcalAuth.c_token c) as [token|] eqn:Et; [|eexists _, _; split; [reflexivity|]; rewrite T1; by apply Hnone].
  destruct (now_of_run c1) as (h & c2 & E2 & T2). unfold GcalAuth.tokenIsLive.
  erewrite bind_ok by (erewrite bind_ok by exact E2; reflexivity).
  destruct (Z.ltb_spec (env_now h) (GcalAuth.expires_at token - GcalAuth.REFRESH_MARGIN_MS)) as [Hl|Hl].
  { eexists _, _. split; [reflexivity|]. rewrite T2, T1. right. left. by exists token, h. }
  destruct GcalAuth.calendarClientId; [|eexists _, _; split; [reflexivity|]; rewrite T2, T1; by apply Hnone].
  destruct (loadGisSdk_run c2) as (rl & c3 & E3 & T3).
  assert (exists loaded, (try_catch (GcalAuth.loadGisSdk ;; mret true) (fun _ => mret false)) c2 = (Ok loaded, c3)) as [loaded E3'].
  { unfold try_catch, mbind, eff_bind. rewrite E3. destruct rl; by eexists. }
  erewrite bind_ok by exact E3'. erewrite bind_ok by reflexivity.
  destruct (negb loaded || _); [eexists _, _; split; [reflexivity|]; rewrite T3, T2, T1; by apply Hnone|].
  erewrite bind_ok by reflexivity.
  match goal with |- context [GcalAuth.gis_answer ?h _] => set (h' := h) end.
  destruct (truthy_ostr _ || _); [eexists _, _; split; [reflexivity|]; rewrite T3, T2, T1; by apply Hnone|].
  destruct (renewal_run token (GcalAuth.gis_answer h' (Some (js "none"))) c3) as (r & c4 & -> & Hr).
  eexists _, _. split; [reflexivity|]. destruct Hr as [[-> T4]|(h2 & -> & T4)].
  - rewrite T4, T3, T2, T1. by apply Hnone.
  - right. right. eexists _, token, h, h', h2. by split_and!; [reflexivity|done|exact T4|exact Hl|].
Qed.

End token.

(** A busy morning: the first of three slots overlaps it, the second ends as it starts. *)
Definition slot (s e : string) : jval := JObj [(js "start", JStr (js s)); (js "end", JStr (js e))].
Definition busy_answer : jval :=
  JObj [(js "calendars", JObj [(js "primary", JObj [(js "busy", JArr [slot "2026-05-04T09:00:00Z" "2026-05-04T12:00:00Z"])])])].


(** The calendar token.  Looking the token up never rejects, whatever the
    browser, the script and Google refuse.  It returns the stored token if that
    is live for another minute, or a token just issued without a prompt, which
    is stored before it is returned; in every other case it returns null and
    leaves the stored record in place. *)
Theorem calendar_token_settles `{Host, Env, BrowserEnv, GcalAuth.Gis} (c : GcalAuth.Calendar) :
  exists r c', GcalAuth.getCalendarToken c = (Ok r, c') /\
    token_outcome (GcalAuth.c_token c) r (GcalAuth.c_token c').
Proof. apply getCalendarToken_run. Qed.
