(* ===== verification/Urls.v ===== *)
(** URLs in the web application: the standard's query strings and relative
    references as far as the code uses them, and the two guards
    apps/web/lib/url/next-path.ts and uuid-param.ts. *)
From S2P Require Import Prelude Utf8 JsNumber ApiClient.

(** ** Query strings (URL standard) *)

Fixpoint percent_decode (s : jstr) : jstr :=
  match s with
  | [] => []
  | c :: r =>
    match r with
    | a :: b :: r' =>
      match c =? 37, hex_val a, hex_val b with
      | true, Some x, Some y => 16 * x + y :: percent_decode r'
      | _, _, _ => c :: percent_decode r
      end
    | _ => c :: percent_decode r
    end
  end.

Definition form_decode (s : jstr) : jstr := buffer_to_utf8 (percent_decode (utf8_encode (replace_unit 43 32 s))).

(** The text up to the first [c], and the rest after it. *)
Fixpoint split_first (c : Z) (s : jstr) : jstr * jstr :=
  match s with
  | [] => ([], [])
  | x :: r => if x =? c then ([], r) else let '(a, b) := split_first c r in (x :: a, b)
  end.

(** [new URLSearchParams(search)] as a list of pairs, and its [get]. *)
Definition parse_params (search : jstr) : list (jstr * jstr) :=
  let query := match search with 63 :: r => r | _ => search end in
  map (fun piece => let '(k, v) := split_first 61 piece in (form_decode k, form_decode v))
    (filter (fun piece => piece <> []) (split_on 38 query)).

Fixpoint params_get (key : jstr) (params : list (jstr * jstr)) : option jstr :=
  match params with
  | [] => None
  | (k, v) :: r => if jeqb k key then Some v else params_get key r
  end.

(** A byte of a query as the URL parser writes it. *)
Definition query_byte (b : Z) : jstr :=
  if (b <=? 32) || (126 <? b) || bool_decide (b ∈ [34; 35; 39; 60; 62]) then percent b else [b].

(** [location.search] at a relative reference. *)
Definition location_search (reference : jstr) : jstr :=
  let '(before_hash, _) := split_first 35 reference in
  match split_first 63 before_hash with
  | (_, []) => []
  | (_, query) => 63 :: flat_map query_byte (utf8_encode query)
  end.

(** A reference that starts with a slash leads off the site when it names an
    authority: the parser strips control characters and spaces at the ends and
    tabs and newlines everywhere, and takes a backslash for a slash. *)
Definition is_c0_or_space (c : Z) : bool := c <=? 32.
Definition is_tab_or_newline (c : Z) : bool := (c =? 9) || (c =? 10) || (c =? 13).
Definition is_slash (c : Z) : bool := (c =? 47) || (c =? 92).

Definition url_input (s : jstr) : jstr :=
  filter (fun c => is_tab_or_newline c = false) (strip_suffix is_c0_or_space (drop_while is_c0_or_space s)).

Definition leaves_site (reference : jstr) : bool :=
  match url_input reference with
  | a :: b :: _ => is_slash a && is_slash b
  | _ => false
  end.

(** ** next-path.ts *)

(** [/^\/[^/\\]/.test(raw)]. *)
Definition next_path_ok (raw : jstr) : bool :=
  match raw with 47 :: c :: _ => negb (is_slash c) | _ => false end.

Definition sanitiseNextPath (raw : option jstr) : jstr :=
  match raw with
  | None | Some [] => js "/"
  | Some raw => if next_path_ok raw then raw else js "/"
  end.

(** ** uuid-param.ts *)

Definition sanitiseUuidParam (raw : option jstr) : option jstr :=
  match raw with
  | None | Some [] => None
  | Some raw => if uuid_test raw then Some raw else None
  end.

(** ** Lemmas *)

(** An encoder of bytes that the form decoder reads back and that writes
    nothing a query string gives a meaning to. *)
Definition enc_ok (enc : Z -> jstr) (b : Z) : bool :=
  forallb (fun c => (0 <=? c) && (c <? 128) && negb (bool_decide (c ∈ [35; 38; 61; 63]))) (enc b) &&
  match replace_unit 43 32 (enc b) with
  | [c] => (c =? b) && negb (c =? 37)
  | [p; x; y] => (p =? 37) && match hex_val x, hex_val y with Some h, Some l => 16 * h + l =? b | _, _ => false end
  | _ => false
  end.

Definition reads_bytes (enc : Z -> jstr) : Prop := forall b, byte_ok b -> enc_ok enc b = true.

Lemma forall_bytes (p : Z -> bool) : forallb p (map Z.of_nat (seq 0 256)) = true -> forall b, byte_ok b -> p b = true.
Proof.
  rewrite forallb_forall. intros H b [H1 H2]. apply H, in_map_iff. exists (Z.to_nat b).
  split; [lia|]. apply in_seq. lia.
Qed.

Definition form_byte (b : Z) : jstr :=
  if is_unreserved b || bool_decide (b ∈ js "*-._") then [b] else if b =? 32 then [43] else percent b.
Definition component_byte (b : Z) : jstr :=
  if is_unreserved b || bool_decide (b ∈ js "-_.!~*'()") then [b] else percent b.

Lemma form_byte_reads : reads_bytes form_byte.
Proof. unfold reads_bytes. apply forall_bytes. by vm_compute. Qed.

Lemma component_byte_reads : reads_bytes component_byte.
Proof. unfold reads_bytes. apply forall_bytes. by vm_compute. Qed.

Lemma form_query_reads : reads_bytes (fun b => flat_map query_byte (form_byte b)).
Proof. unfold reads_bytes. apply forall_bytes. by vm_compute. Qed.

Lemma component_query_reads : reads_bytes (fun b => flat_map query_byte (component_byte b)).
Proof. unfold reads_bytes. apply forall_bytes. by vm_compute. Qed.

Lemma percent_decode_byte enc b r :
  enc_ok enc b = true -> percent_decode (replace_unit 43 32 (enc b) ++ r) = b :: percent_decode r.
Proof.
  unfold enc_ok. rewrite andb_true_iff. intros [_ H].
  destruct (replace_unit 43 32 (enc b)) as [|c [|x [|y [|]]]]; try done.
  - apply andb_true_iff in H as [->%Z.eqb_eq Hc]. apply negb_true_iff in Hc. cbn [app percent_decode].
    rewrite Hc. by destruct r as [|? [|? ?]].
  - apply andb_true_iff in H as [->%Z.eqb_eq H]. cbn [app percent_decode]. rewrite Z.eqb_refl.
    destruct (hex_val x), (hex_val y); try done. by apply Z.eqb_eq in H as ->.
Qed.

Lemma decode_encoded enc bs :
  reads_bytes enc -> bytes_ok bs -> percent_decode (replace_unit 43 32 (flat_map enc bs)) = bs.
Proof.
  intros He. induction 1 as [|b bs Hb _ IH]; [done|]. cbn [flat_map].
  unfold replace_unit in *. rewrite map_app.
  change (map _ (enc b)) with (replace_unit 43 32 (enc b)). rewrite percent_decode_byte by by apply He. by rewrite IH.
Qed.

Definition query_safe (c : Z) : Prop := 0 <= c < 128 /\ c ∉ [35; 38; 61; 63].

Lemma encoded_safe enc bs : reads_bytes enc -> bytes_ok bs -> Forall query_safe (flat_map enc bs).
Proof.
  intros He. induction 1 as [|b bs Hb _ IH]; [constructor|]. cbn [flat_map]. apply Forall_app. split; [|done].
  specialize (He b Hb). unfold enc_ok in He. apply andb_true_iff in He as [He _]. rewrite forallb_forall in He.
  apply Forall_forall. intros c Hc. apply list_elem_of_In in Hc. apply He in Hc.
  rewrite !andb_true_iff, Z.leb_le, Z.ltb_lt, negb_true_iff, bool_decide_eq_false in Hc. unfold query_safe. tauto.
Qed.

Lemma safe_ascii s : Forall query_safe s -> ascii_text s.
Proof. intros H. eapply Forall_impl; [exact H|]. by intros c [Hc _]. Qed.

Lemma replace_plus_ascii s : ascii_text s -> ascii_text (replace_unit 43 32 s).
Proof. unfold ascii_text, replace_unit. rewrite Forall_map. intros H. eapply Forall_impl; [exact H|]. intros c Hc. cbn in *. destruct (c =? 43); lia. Qed.

Lemma ascii_utf8 s : ascii_text s -> utf8_encode s = s.
Proof.
  intros Hs. unfold utf8_encode. rewrite ascii_code_points by done. induction Hs as [|c s Hc _ IH]; [done|].
  cbn [flat_map]. rewrite IH. unfold utf8_of_cp. cbn in Hc. assert ((c <? 128) = true) as -> by (apply Z.ltb_lt; lia). done.
Qed.

Lemma form_decode_encoded enc s :
  reads_bytes enc -> Forall unit_ok s -> is_well_formed s = true -> form_decode (flat_map enc (utf8_encode s)) = s.
Proof.
  intros He Hs Hw. pose proof (utf8_encode_bytes s Hs) as Hb. unfold form_decode.
  rewrite ascii_utf8 by (apply replace_plus_ascii, safe_ascii; by apply encoded_safe).
  rewrite decode_encoded by done. by apply buffer_utf8_roundtrip.
Qed.

Lemma split_first_app c a b : c ∉ a -> split_first c (a ++ c :: b) = (a, b).
Proof.
  induction a as [|x a IH]; intros Hn; cbn [app split_first]; [by rewrite Z.eqb_refl|].
  apply not_elem_of_cons in Hn as [Hx Ha]. rewrite (proj2 (Z.eqb_neq x c)) by done. by rewrite IH.
Qed.

Lemma split_first_none c a : c ∉ a -> split_first c a = (a, []).
Proof.
  induction a as [|x a IH]; intros Hn; cbn [split_first]; [done|].
  apply not_elem_of_cons in Hn as [Hx Ha]. rewrite (proj2 (Z.eqb_neq x c)) by done. by rewrite IH.
Qed.

Lemma safe_without s c : c ∈ [35; 38; 61; 63] -> Forall query_safe s -> c ∉ s.
Proof. intros Hc Hs Hin. rewrite Forall_forall in Hs. by destruct (Hs c Hin) as [_ ?]. Qed.

(** A unit with a meaning does not occur in safe text. *)
Ltac without := apply safe_without; [set_solver|assumption].

(** A query of one encoded pair is read back. *)
Lemma single_param enc key s :
  reads_bytes enc -> Forall query_safe key -> key <> [] -> Forall unit_ok s -> is_well_formed s = true ->
  parse_params (63 :: key ++ 61 :: flat_map enc (utf8_encode s)) = [(form_decode key, s)].
Proof.
  intros He Hk Hne Hs Hw. unfold parse_params.
  assert (Forall query_safe (flat_map enc (utf8_encode s))) as Hsafe by by apply encoded_safe, utf8_encode_bytes.
  rewrite split_on_no_sep.
  2: { rewrite elem_of_app, elem_of_cons. intros [H|[H|H]]; [|done|]; revert H; without. }
  rewrite filter_cons_True, filter_nil by by destruct key. cbn [map].
  rewrite split_first_app by without. by rewrite form_decode_encoded.
Qed.

Lemma flat_map_flat_map {A B C} (f : A -> list B) (g : B -> list C) l :
  flat_map g (flat_map f l) = flat_map (fun a => flat_map g (f a)) l.
Proof. induction l as [|a l IH]; [done|]. cbn [flat_map]. by rewrite flat_map_app, IH. Qed.

(** The pair a page reads from a reference that another page or the server
    built with either encoder. *)
Lemma next_of_reference enc path s :
  reads_bytes enc -> reads_bytes (fun b => flat_map query_byte (enc b)) -> Forall query_safe path ->
  Forall unit_ok s -> is_well_formed s = true -> s <> [] ->
  params_get (js "next")
    (parse_params (location_search (path ++ js "?next=" ++ flat_map enc (utf8_encode s)))) = Some s.
Proof.
  intros He Hq Hp Hs Hw Hne. pose proof (utf8_encode_bytes s Hs) as Hb. unfold location_search.
  assert (Forall query_safe (flat_map enc (utf8_encode s))) as Hsafe by by apply encoded_safe.
  pose (value := flat_map enc (utf8_encode s)). fold value. fold value in Hsafe.
  rewrite (split_first_none 35).
  2: { rewrite !elem_of_app. intros [H|[H|H]]; [revert H; without| |revert H; without]. vm_compute in H. set_solver. }
  change (js "?next=" ++ value) with (63 :: js "next=" ++ value). rewrite split_first_app by without.
  assert (ascii_text (js "next=" ++ value)) as Ha.
  { apply Forall_app. split; [by apply (bool_decide_eq_true_1 (ascii_text _)); vm_compute|by apply safe_ascii]. }
  rewrite (ascii_utf8 _ Ha), flat_map_app. unfold value. rewrite flat_map_flat_map.
  change (match js "next=" ++ ?v with [] => _ | _ => ?r end) with r.
  change (flat_map query_byte (js "next=")) with (js "next" ++ [61]). rewrite <- app_assoc.
  change (_ ++ [61] ++ ?v) with (js "next" ++ 61 :: v).
  rewrite single_param; try done. apply (bool_decide_eq_true_1 (Forall query_safe _)); by vm_compute.
Qed.

Lemma drop_while_spec p s : exists a, s = a ++ drop_while p s /\ Forall (fun c => p c = true) a.
Proof.
  induction s as [|x s (a & E & Ha)]; [by exists []|]. cbn [drop_while]. destruct (p x) eqn:Hx.
  - exists (x :: a). split; [by rewrite E at 1|by constructor].
  - by exists [].
Qed.

Lemma drop_while_keeps p a c r : p c = false -> exists a', drop_while p (a ++ c :: r) = a' ++ c :: r.
Proof.
  intros Hc. induction a as [|x a IH]; cbn [app drop_while]; [rewrite Hc; by exists []|].
  destruct (p x); [exact IH|by exists (x :: a)].
Qed.

(** What is stripped is a suffix, and nothing before a unit that stays is. *)
Lemma strip_suffix_prefix p s : exists t, s = strip_suffix p s ++ t.
Proof.
  unfold strip_suffix. destruct (drop_while_spec p (reverse s)) as (a & E & _). exists (reverse a).
  rewrite <- reverse_app, <- E. by rewrite reverse_involutive.
Qed.

Lemma strip_suffix_keeps p a c r : p c = false -> exists t, strip_suffix p (a ++ c :: r) = a ++ c :: t.
Proof.
  intros Hc. unfold strip_suffix. rewrite reverse_app, reverse_cons, <- app_assoc.
  destruct (drop_while_keeps p (reverse r) c (reverse a) Hc) as [d E]. exists (reverse d).
  cbn [app]. by rewrite E, reverse_app, reverse_cons, reverse_involutive, <- app_assoc.
Qed.

(** The first unit that a filter keeps. *)
Lemma filter_first (P : Z -> Prop) `{!forall x, Decision (P x)} s b l :
  filter P s = b :: l -> exists ws r, s = ws ++ b :: r /\ Forall (fun c => ~ P c) ws /\ P b.
Proof.
  induction s as [|x s IH]; [done|]. rewrite filter_cons. case_decide as Hx.
  - intros [= -> _]. by exists [], s.
  - intros E. destruct (IH E) as (ws & r & -> & Hws & Hb). exists (x :: ws), r. split_and!; [done|by constructor|done].
Qed.

Lemma filter_none (P : Z -> Prop) `{!forall x, Decision (P x)} s : Forall (fun c => ~ P c) s -> filter P s = [].
Proof. induction 1 as [|x s Hx _ IH]; [done|]. by rewrite filter_cons_False. Qed.

(** A slash, tabs or newlines, and another slash. *)
Definition disguised_authority (raw : jstr) : Prop :=
  exists ws c r, raw = 47 :: ws ++ c :: r /\ ws <> [] /\ Forall (fun w => is_tab_or_newline w = true) ws /\ is_slash c = true.

Lemma leaves_site_slash t :
  leaves_site (47 :: t) = true <->
  exists ws c r, t = ws ++ c :: r /\ Forall (fun w => is_tab_or_newline w = true) ws /\ is_slash c = true.
Proof.
  unfold leaves_site, url_input. change (drop_while is_c0_or_space (47 :: t)) with (47 :: t). split.
  - destruct (strip_suffix_prefix is_c0_or_space (47 :: t)) as [k E].
    destruct (filter _ (strip_suffix _ _)) as [|a [|b l]] eqn:F; [done..|]. intros [_ Hb]%andb_true_iff.
    apply (f_equal (filter (fun c => is_tab_or_newline c = false))) in E. rewrite filter_app, F in E.
    rewrite filter_cons_True in E by done. injection E as _ E. cbn [app] in E.
    apply filter_first in E as (ws & r & -> & Hws & _). exists ws, b, r. split_and!; [done| |done].
    eapply Forall_impl; [exact Hws|]. intros w Hw. by apply not_false_iff_true.
  - intros (ws & c & r & -> & Hws & Hc).
    assert (is_tab_or_newline c = false /\ is_c0_or_space c = false) as [Hc1 Hc2]
      by (unfold is_slash in Hc; apply orb_true_iff in Hc as [->%Z.eqb_eq | ->%Z.eqb_eq]; done).
    destruct (strip_suffix_keeps is_c0_or_space (47 :: ws) c r Hc2) as [k E]. cbn [app] in E. rewrite E.
    rewrite filter_cons_True, filter_app, filter_cons_True by done.
    rewrite (filter_none _ ws); [cbn [app]; by rewrite Hc|]. eapply Forall_impl; [exact Hws|]. intros w Hw. cbn in Hw. by rewrite Hw.
Qed.

Lemma sanitised_slash raw : exists t, sanitiseNextPath raw = 47 :: t.
Proof.
  destruct raw as [[|c [|d r]]|]; try (by exists []); cbn [sanitiseNextPath].
  - destruct (next_path_ok [c]) eqn:E; [|by exists []]. cbn in E. by repeat case_match.
  - destruct (next_path_ok (c :: d :: r)) eqn:E; [|by exists []]. exists (d :: r). cbn in E. repeat case_match; try done.
Qed.

Lemma next_path_safe raw :
  leaves_site (sanitiseNextPath raw) = true <-> exists s, raw = Some s /\ disguised_authority s.
Proof.
  split.
  - destruct raw as [[|u s]|]; [done| |done]. cbn [sanitiseNextPath]. destruct (next_path_ok (u :: s)) eqn:E; [|done].
    destruct s as [|d s]; [cbn in E; by repeat case_match|].
    assert (u = 47 /\ is_slash d = false) as [-> Hd].
    { destruct (Z.eq_dec u 47) as [-> |Hu]; [split; [done|by apply negb_true_iff]|]. exfalso. cbn in E. by repeat case_match. }
    intros (ws & c & r & Es & Hws & Hc)%leaves_site_slash. exists (47 :: d :: s). split; [done|].
    exists ws, c, r. split_and!; [by rewrite Es| |done|done]. intros ->. injection Es as -> _. by rewrite Hd in Hc.
  - intros (s & -> & ws & c & r & -> & Hne & Hws & Hc). destruct ws as [|w ws]; [done|].
    cbn [app sanitiseNextPath next_path_ok]. apply Forall_cons in Hws as [Hw Hws].
    assert (is_slash w = false) as ->
      by (unfold is_tab_or_newline in Hw; rewrite !orb_true_iff, !Z.eqb_eq in Hw; unfold is_slash; lia).
    cbn [negb]. apply leaves_site_slash. exists (w :: ws), c, r. split_and!; [done|by constructor|done].
Qed.

(** C19: where a sign-in may lead.  The sanitised destination stays on the site,
    unless the parameter is a slash, then tabs or newlines, then another slash
    or a backslash: the guard looks at the second unit, and the URL parser
    removes tabs and newlines. *)
Theorem next_path_stays (raw : option jstr) :
  leaves_site (sanitiseNextPath raw) = true <-> exists s, raw = Some s /\ disguised_authority s.
Proof. apply next_path_safe. Qed.

Example tab_leads_off_site :
  leaves_site (sanitiseNextPath (params_get (js "next") (parse_params (js "?next=/%09/evil.example/")))) = true.
Proof. by vm_compute. Qed.
