(* ===== verification/WebGate.v ===== *)
(** The web server's edge: apps/web/middleware.ts, the session gate with its
    Content-Security-Policy, and the routes under apps/web/app/api.

    Next.js is not part of the sources.  A request is what the code reads of
    it; a response is what the code sets on it.  Header names are in lower
    case, as [Headers] compares them. *)
From S2P Require Import Prelude Utf8 JsNumber Base64 Json A2A Effect Node Envelope ApiClient Browser Urls.

(** [Headers.set] and [Headers.get]. *)
Abbreviation Headers := (list (jstr * jstr)).

Definition headers_set (name value : jstr) (h : Headers) : Headers :=
  filter (fun kv => kv.1 <> name) h ++ [(name, value)].

Fixpoint headers_get (name : jstr) (h : Headers) : option jstr :=
  match h with
  | [] => None
  | (n, v) :: r => if jeqb n name then Some v else headers_get name r
  end.

Module Middleware.

Definition AUTH_COOKIE_NAME : jstr := js "nexusinbox_session".

Record NextRequest := Request {
  origin : jstr; pathname : jstr; search : jstr; session_cookie : option jstr; rq_headers : Headers
}.

(** [NextResponse.next] with the headers it forwards, or a redirect with the
    cookie it deletes. *)
Inductive NextResponse :=
| Next (forwarded : Headers) (headers : Headers)
| Redirect (location : jstr) (headers : Headers) (deleted : option jstr).

Definition isPublicPath (pathname : jstr) : bool :=
  bool_decide (pathname ∈ [js "/login"; js "/login/idkit"; js "/concept"; js "/privacy"; js "/terms"; js "/help"]) ||
  starts_with (js "/api/") pathname || starts_with (js "/_next/") pathname ||
  bool_decide (pathname ∈ [js "/favicon.ico"; js "/opengraph-image"; js "/twitter-image"; js "/icon"; js "/icon.svg";
                           js "/apple-icon"; js "/manifest.webmanifest"; js "/robots.txt"; js "/sitemap.xml"]).

(** [Date.now() / 1000 - 30]. *)
Definition expiry_limit (now : Z) : jnum :=
  match round64 (inject_Z now / 1000) with
  | Fin q => round64 (q - 30)
  | other => other
  end.

Definition isTokenExpired (token : jstr) (now : Z) : bool :=
  match split_on 46 token with
  | [_; payload; _] =>
    match (bin ← atob (replace_unit 95 47 (replace_unit 45 43 payload)); decoded ← json_parse bin; jprop decoded (js "exp")) with
    | Ok (JNum exp) => num_ltb exp (expiry_limit now)
    | _ => true
    end
  | _ => true
  end.

Definition UNSAFE_EVAL_PATHS : list jstr := [js "/login/idkit"].
Definition SAME_ORIGIN_FRAME_PATHS : list jstr := [js "/login/idkit"].

Section csp.
Context `{Env}.

Definition IS_DEV : bool := negb (match env_var (js "NODE_ENV") with Some v => jeqb v (js "production") | None => false end).

Definition script_src (nonce : jstr) (allowUnsafeEval : bool) : jstr :=
  js "script-src 'self' 'nonce-" ++ nonce ++ js "' 'strict-dynamic'" ++
  (if allowUnsafeEval then js " 'unsafe-eval'" else []).

Definition bridgeConnect : jstr := js "http://127.0.0.1:* http://[::1]:* http://localhost:*".
Definition r2Connect : jstr := js "https://*.r2.cloudflarestorage.com".

Definition connect_src : jstr :=
  (if IS_DEV then js "connect-src 'self' http://localhost:* ws://localhost:* "
   else js "connect-src 'self' " ++ default (js "wss://app.nexusinbox.ai/ws") (env_var (js "NEXT_PUBLIC_WS_URL")) ++ js " ")
  ++ bridgeConnect ++ js " " ++ r2Connect ++ js " https://bridge.worldcoin.org https://*.worldcoin.org https://*.world.org".

Definition buildCsp (nonce pathname : jstr) (isDev_ : option bool) : jstr :=
  let isDev := default IS_DEV isDev_ in
  let allowUnsafeEval := isDev || bool_decide (pathname ∈ UNSAFE_EVAL_PATHS) in
  let frameAncestors := if bool_decide (pathname ∈ SAME_ORIGIN_FRAME_PATHS) then js "frame-ancestors 'self'"
                        else js "frame-ancestors 'none'" in
  join_with (js "; ")
    [js "default-src 'self'"; js "base-uri 'self'"; js "object-src 'none'"; frameAncestors;
     js "frame-src 'self' https://bridge.worldcoin.org https://*.worldcoin.org https://*.world.org";
     js "form-action 'self'"; js "img-src 'self' data: blob: https://world-id-assets.com";
     js "font-src 'self' data: https://world-id-assets.com"; script_src nonce allowUnsafeEval;
     js "style-src 'self' 'unsafe-inline'"; connect_src].

Definition generateNonce : M jstr := bs ← get_random 16; mret (base64_encode bs).

Definition guard_headers (csp xFrameOptions : jstr) : Headers :=
  headers_set (js "x-frame-options") xFrameOptions (headers_set (js "content-security-policy") csp []).

Definition buildResponse (request : NextRequest) (nonce csp xFrameOptions : jstr) : NextResponse :=
  Next (headers_set (js "content-security-policy") csp (headers_set (js "x-nonce") nonce (rq_headers request)))
    (guard_headers csp xFrameOptions).

(** [new URL("/login", request.url)] with [next] as its query. *)
Definition login_url (request : NextRequest) : jstr :=
  origin request ++ js "/login?next=" ++ form_encode (pathname request ++ search request).

Definition middleware (request : NextRequest) : M NextResponse :=
  nonce ← generateNonce;
  let csp := buildCsp nonce (pathname request) None in
  let xFrameOptions := if bool_decide (pathname request ∈ SAME_ORIGIN_FRAME_PATHS) then js "SAMEORIGIN" else js "DENY" in
  let served := buildResponse request nonce csp xFrameOptions in
  let redirected deleted := Redirect (login_url request) (guard_headers csp xFrameOptions) deleted in
  if isPublicPath (pathname request) then mret served
  else
    match session_cookie request with
    | None | Some [] => mret (redirected None)
    | Some sessionValue =>
      now ← now_ms;
      mret (if isTokenExpired sessionValue now then redirected (Some AUTH_COOKIE_NAME) else served)
    end.

End csp.
End Middleware.

(** ** The routes under app/api *)
Module Routes.

(** What the handlers read of a request. *)
Record RouteRequest := RequestOf {
  rt_protocol : jstr; rt_cookie : option jstr; rt_origin : option jstr; rt_referer : option jstr; rt_text : jstr
}.

Record RouteResponse := ResponseOf { rt_status : Z; rt_body : jstr; rt_headers : Headers }.

(** The headers of an upstream answer, and the World SDK's signing function. *)
Class Upstream := {
  up_set_cookie : list Event -> Request -> list jstr;
  up_content_type : list Event -> Request -> option jstr;
  world_sign : list Event -> jstr -> jstr -> Z -> res jval
}.

(** [new Response(body, { status })]: some statuses allow no body. *)
Definition new_response (status : Z) (body contentType : jstr) : res RouteResponse :=
  if bool_decide (status ∈ [204; 205; 304]) then Throw (TypeError_ (js "Response constructor: Invalid response status code"))
  else if (status <? 200) || (599 <? status) then Throw (JsError (js "RangeError") (js "init[status] must be in the range of 200 to 599, inclusive."))
  else Ok (ResponseOf status body [(js "content-type", contentType)]).

Definition json_response (payload : jval) (status : Z) : res RouteResponse :=
  new_response status (json_stringify payload) (js "application/json").

Definition with_headers (h : Headers) (r : RouteResponse) : RouteResponse := ResponseOf (rt_status r) (rt_body r) h.

Definition NO_CACHE_HEADERS : Headers :=
  [(js "cache-control", js "no-store, no-cache, must-revalidate, max-age=0"); (js "pragma", js "no-cache"); (js "expires", js "0")].

Definition applyNoCache (r : RouteResponse) : RouteResponse :=
  with_headers (fold_left (fun h kv => headers_set kv.1 kv.2 h) NO_CACHE_HEADERS (rt_headers r)) r.

Definition append_header (name value : jstr) (r : RouteResponse) : RouteResponse :=
  with_headers (rt_headers r ++ [(name, value)]) r.

Definition append_cookies (cookies : list jstr) (r : RouteResponse) : RouteResponse :=
  fold_left (fun r cookie => if truthy_str cookie then append_header (js "set-cookie") cookie r else r) cookies r.

Section routes.
Context `{Env, Upstream}.

Definition env_or (name default_ : jstr) : jstr := default default_ (env_var name).

(** Evaluated when a route's module is loaded. *)
Definition apiOrigin : res jstr :=
  let production := match env_var (js "NODE_ENV") with Some v => jeqb v (js "production") | None => false end in
  let found := env_or (js "API_ORIGIN") (if production then [] else js "http://localhost:8080") in
  if truthy_str found then Ok found else Throw (Error_ (js "API_ORIGIN environment variable is required in production")).

Definition shouldUseSecureCookie (request : RouteRequest) : bool :=
  match env_var (js "AGENT_INBOX_COOKIE_SECURE") with
  | Some configured =>
    (jeqb configured (js "1") || jeqb (to_lower configured) (js "true")) || jeqb (rt_protocol request) (js "https:")
  | None => jeqb (rt_protocol request) (js "https:")
  end.

Definition cookieDomainAttr : jstr :=
  match trim <$> env_var (js "AGENT_INBOX_COOKIE_DOMAIN") with
  | Some ((_ :: _) as domain) => js "; Domain=" ++ domain
  | _ => []
  end.

Definition clearSessionCookie (request : RouteRequest) : jstr :=
  Middleware.AUTH_COOKIE_NAME ++ js "=; Path=/; HttpOnly; SameSite=Strict; Max-Age=0" ++
  (if shouldUseSecureCookie request then js "; Secure" else []) ++ cookieDomainAttr.

Definition forwarded (request : RouteRequest) : Headers :=
  match rt_origin request with Some ((_ :: _) as o) => [(js "origin", o)] | _ => [] end ++
  match rt_referer request with Some ((_ :: _) as r) => [(js "referer", r)] | _ => [] end.

(** The answer with its cookies and content type. *)
Definition upstream_fetch (rq : Request) : M (Response * list jstr * option jstr) :=
  r ← ask (EvFetch rq) (fun h =>
        match env_fetch h rq with
        | Ok response => Ok (response, up_set_cookie h rq, up_content_type h rq)
        | Throw e => Throw e
        end);
  lift r.

Definition json_or (r : Response) (fallback : jval) : jval :=
  match json_parse (rs_text r) with Ok v => v | Throw _ => fallback end.

(** auth/session [GET]. *)
Definition session_GET (request : RouteRequest) : M RouteResponse :=
  origin ← lift apiOrigin;
  upstream ← try_catch
    (u ← upstream_fetch (HttpRequest (js "GET") (origin ++ js "/auth/session")
           [(js "cookie", default [] (rt_cookie request))] NoBody); mret (Some u))
    (fun _ => mret None);
  match upstream with
  | None =>
    response ← lift (json_response (JObj [(js "authenticated", JBool false); (js "reason", JStr (js "upstream_unavailable"))]) 503);
    mret (applyNoCache (append_header (js "set-cookie") (clearSessionCookie request) response))
  | Some (answer, cookies, _) =>
    response ← lift (json_response (json_or answer (JObj [(js "authenticated", JBool (rs_ok answer))])) (rs_status answer));
    let response := append_cookies cookies response in
    let response := if rs_status answer =? 401 then append_header (js "set-cookie") (clearSessionCookie request) response
                    else response in
    mret (applyNoCache response)
  end.

(** auth/session [PATCH]. *)
Definition session_PATCH (request : RouteRequest) : M RouteResponse :=
  origin ← lift apiOrigin;
  upstream ← try_catch
    (u ← upstream_fetch (HttpRequest (js "PATCH") (origin ++ js "/auth/session")
           ([(js "content-type", js "application/json"); (js "cookie", default [] (rt_cookie request))] ++ forwarded request)
           (TextBody (rt_text request))); mret (Some u))
    (fun _ => mret None);
  match upstream with
  | None =>
    lift (json_response (JObj [(js "error", JStr (js "upstream_unavailable"));
                               (js "message", JStr (js "プロフィールサーバに接続できませんでした。"))]) 503)
  | Some (answer, cookies, _) =>
    response ← lift (json_response
      (json_or answer (JObj [(js "error", JStr (js "upstream_invalid"));
                             (js "message", JStr (js "サーバ応答を解釈できませんでした。"))])) (rs_status answer));
    mret (append_cookies cookies response)
  end.

(** auth/verify [POST]. *)
Definition verify_POST (request : RouteRequest) : M RouteResponse :=
  origin ← lift apiOrigin;
  '(answer, cookies, contentType_) ← upstream_fetch (HttpRequest (js "POST") (origin ++ js "/auth/verify")
    ([(js "content-type", js "application/json")] ++ forwarded request) (TextBody (rt_text request)));
  let contentType := default (js "application/json") contentType_ in
  response ← lift
    (if includes contentType (js "application/json") then
       match (v ← json_parse (rs_text answer); json_response v (rs_status answer)) with
       | Ok r => Ok r
       | Throw _ => new_response (rs_status answer) (rs_text answer) (js "application/json")
       end
     else new_response (rs_status answer) (rs_text answer)
            (if truthy_str contentType then contentType else js "text/plain; charset=utf-8"));
  mret (append_cookies cookies response).

Definition normalizeHexKey (raw : jstr) : jstr :=
  let trimmed := trim raw in
  if starts_with (js "0x") trimmed then drop 2 trimmed else trimmed.

(** world/request-config [GET]. *)
Definition request_config_GET : M RouteResponse :=
  let appId := env_or (js "WORLD_ID_APP_ID") [] in
  let action := env_or (js "WORLD_ID_ACTION") (js "login") in
  let rpId := env_or (js "WORLD_ID_RP_ID") [] in
  let signingKey := env_or (js "WORLD_ID_SIGNER_PRIVATE_KEY") [] in
  let no_cache r := with_headers (rt_headers r ++ NO_CACHE_HEADERS) r in
  if negb (truthy_str appId) || negb (truthy_str rpId) || negb (truthy_str signingKey) then
    r ← lift (json_response (JObj [(js "message", JStr
      (js "World ID config is incomplete. Set WORLD_ID_APP_ID, WORLD_ID_RP_ID, and WORLD_ID_SIGNER_PRIVATE_KEY."))]) 503);
    mret (no_cache r)
  else
    fun w =>
      (match (signature ← world_sign (w_trace w) (normalizeHexKey signingKey) action 300;
              nonce ← jprop signature (js "nonce");
              r ← json_response (JObj
                [(js "app_id", JStr appId); (js "action", JStr action);
                 (js "rp_context", JObj [(js "rp_id", JStr rpId); (js "nonce", nonce);
                    (js "created_at", jget signature (js "createdAt")); (js "expires_at", jget signature (js "expiresAt"));
                    (js "signature", jget signature (js "sig"))]);
                 (js "allow_legacy_proofs", JBool true)]) 200;
              Ok (no_cache r)) with
       | Ok r => Ok r
       | Throw _ =>
         r ← json_response (JObj [(js "message", JStr (js "Failed to generate RP signature for IDKit request."))]) 500;
         Ok (no_cache r)
       end, w).

End routes.
End Routes.

(** * Lemmas *)

(** ** Reading a policy (Content Security Policy) *)

(** The tokens of a policy's directives; of several directives with a name,
    the first counts. *)
Definition tokens (directive : jstr) : list jstr := filter (fun t => t <> []) (split_on 32 directive).
Definition csp_directives (csp : jstr) : list (list jstr) := map tokens (split_on 59 csp).

Fixpoint csp_sources (name : jstr) (directives : list (list jstr)) : option (list jstr) :=
  match directives with
  | [] => None
  | d :: r =>
    match d with
    | n :: sources => if jeqb n name then Some sources else csp_sources name r
    | [] => csp_sources name r
    end
  end.

(** The parts of a text joined with "; ", but for the last. *)
Lemma split_joined p l x : Forall (fun p => 59 ∉ p) (p :: l) -> exists last,
  split_on 59 (join_with (js "; ") (p :: l ++ [x])) = p :: map (cons 32) l ++ last.
Proof.
  revert p. induction l as [|q l IH]; intros p [Hp Hl]%Forall_cons.
  - exists (split_on 59 (32 :: x)). cbn [app join_with]. change (js "; ") with [59; 32]. cbn [app]. by rewrite split_on_app.
  - apply Forall_cons in Hl as [Hq Hl]. destruct (IH (32 :: q)) as [last E]; [constructor; [by apply not_elem_of_cons|done]|].
    exists last. change (join_with (js "; ") (p :: (q :: l) ++ [x])) with (p ++ 59 :: 32 :: join_with (js "; ") (q :: l ++ [x])).
    rewrite split_on_app by done. cbn [map app]. f_equal. rewrite <- E. by destruct l.
Qed.

Definition nonce_char (c : Z) : Prop := c ∉ [32; 59].

Lemma nonce_no nonce c : Forall nonce_char nonce -> c ∈ [32; 59] -> c ∉ nonce.
Proof. intros Hn Hc Hin. rewrite Forall_forall in Hn. by apply (Hn c Hin). Qed.

Lemma base64_nonce bs : bytes_ok bs -> Forall nonce_char (base64_encode bs).
Proof.
  intros Hb. apply Forall_forall. intros c Hc. unfold base64_encode in Hc.
  apply elem_of_app in Hc as [Hc|Hc].
  - apply list_elem_of_fmap in Hc as (v & -> & Hv). pose proof (sextets_range bs Hb) as Hr. rewrite Forall_forall in Hr.
    specialize (Hr v Hv). unfold nonce_char. rewrite !elem_of_cons, elem_of_nil. unfold b64_char. repeat case_match; lia.
  - unfold b64_pad in Hc. apply elem_of_replicate in Hc as [-> _]. unfold nonce_char. set_solver.
Qed.

Lemma tokens_space d : tokens (32 :: d) = tokens d.
Proof. done. Qed.

Lemma tokens_app a b : 32 ∉ a -> a <> [] -> tokens (a ++ 32 :: b) = a :: tokens b.
Proof. intros Ha Hne. unfold tokens. rewrite split_on_app by done. by rewrite filter_cons_True. Qed.

Lemma csp_step name d n sources r :
  tokens d = n :: sources -> csp_sources name (tokens d :: r) = if jeqb n name then Some sources else csp_sources name r.
Proof. by intros ->. Qed.

(** The next directive is a literal. *)
Ltac next_directive := erewrite csp_step by (vm_compute; reflexivity);
  match goal with |- context [jeqb ?a ?b] => let v := eval vm_compute in (jeqb a b) in change (jeqb a b) with v end; cbn [map].

Section policy.
Context `{Env}.
Variables (nonce pathname : jstr) (isDev : option bool).
Hypothesis nonce_plain : Forall nonce_char nonce.

Definition evaluates : bool := default Middleware.IS_DEV isDev || bool_decide (pathname = js "/login/idkit").

Lemma script_src_tokens ev :
  tokens (32 :: Middleware.script_src nonce ev) =
    [js "script-src"; js "'self'"; js "'nonce-" ++ nonce ++ js "'"; js "'strict-dynamic'"] ++
    (if ev then [js "'unsafe-eval'"] else []).
Proof.
  unfold Middleware.script_src.
  rewrite tokens_space.
  change (js "script-src 'self' 'nonce-" ++ ?x) with (js "script-src" ++ 32 :: js "'self'" ++ 32 :: js "'nonce-" ++ x).
  rewrite !tokens_app by (try done; apply (bool_decide_eq_true_1 (32 ∉ _)); by vm_compute).
  change (nonce ++ js "' 'strict-dynamic'" ++ ?x) with (nonce ++ (js "'" ++ 32 :: js "'strict-dynamic'" ++ x)).
  rewrite (app_assoc nonce), app_assoc, tokens_app.
  2: { rewrite !not_elem_of_app. split_and!; [|apply nonce_no; [done|set_solver]|]; apply (bool_decide_eq_true_1 (32 ∉ _)); by vm_compute. }
  2: { done. }
  destruct ev; by vm_compute (tokens _).
Qed.

Lemma policy_parts : exists last, csp_directives (Middleware.buildCsp nonce pathname isDev) =
  map tokens (js "default-src 'self'" :: map (cons 32)
      [js "base-uri 'self'"; js "object-src 'none'";
       if bool_decide (pathname = js "/login/idkit") then js "frame-ancestors 'self'" else js "frame-ancestors 'none'";
       js "frame-src 'self' https://bridge.worldcoin.org https://*.worldcoin.org https://*.world.org";
       js "form-action 'self'"; js "img-src 'self' data: blob: https://world-id-assets.com";
       js "font-src 'self' data: https://world-id-assets.com"; Middleware.script_src nonce evaluates;
       js "style-src 'self' 'unsafe-inline'"] ++ last).
Proof.
  unfold csp_directives, Middleware.buildCsp, evaluates.
  rewrite !(bool_decide_ext (pathname ∈ _) (pathname = js "/login/idkit")) by (unfold Middleware.UNSAFE_EVAL_PATHS, Middleware.SAME_ORIGIN_FRAME_PATHS; set_solver).
  match goal with |- context [join_with _ (?p :: ?l)] =>
    let l' := constr:(removelast l) in let l' := eval cbn [removelast] in l' in
    destruct (split_joined p l' Middleware.connect_src) as [last E] end.
  - repeat (apply Forall_cons; split); try (apply (bool_decide_eq_true_1 (59 ∉ _)); by vm_compute); [by destruct (bool_decide _); apply (bool_decide_eq_true_1 (59 ∉ _)); vm_compute| |constructor].
    unfold Middleware.script_src. rewrite !not_elem_of_app.
    split_and!; [|apply nonce_no; [done|set_solver]| |destruct (_ || _)]; apply (bool_decide_eq_true_1 (59 ∉ _)); by vm_compute.
  - exists last. f_equal. exact E.
Qed.

(** What the policy grants, directive by directive. *)
Lemma policy_sources :
  let d := csp_directives (Middleware.buildCsp nonce pathname isDev) in
  csp_sources (js "script-src") d
    = Some ([js "'self'"; js "'nonce-" ++ nonce ++ js "'"; js "'strict-dynamic'"] ++ (if evaluates then [js "'unsafe-eval'"] else [])) /\
  csp_sources (js "frame-ancestors") d
    = Some [if bool_decide (pathname = js "/login/idkit") then js "'self'" else js "'none'"] /\
  csp_sources (js "object-src") d = Some [js "'none'"] /\ csp_sources (js "base-uri") d = Some [js "'self'"].
Proof.
  intros d. destruct policy_parts as [last E]. unfold d. rewrite E.
  cbn [map app]. rewrite script_src_tokens.
  destruct (bool_decide (pathname = js "/login/idkit")) eqn:Ep; split_and!; repeat next_directive; reflexivity.
Qed.

End policy.

(** ** The gate *)

(** A token of three parts whose claims parse and do not expire before [limit]. *)
Definition live_token (token : jstr) (limit : jnum) : Prop :=
  exists header payload signature bin claims exp,
    split_on 46 token = [header; payload; signature] /\
    atob (replace_unit 95 47 (replace_unit 45 43 payload)) = Ok bin /\ json_parse bin = Ok claims /\
    jprop claims (js "exp") = Ok (JNum exp) /\ num_ltb exp limit = false.

Lemma isTokenExpired_spec token now :
  Middleware.isTokenExpired token now = false <-> live_token token (Middleware.expiry_limit now).
Proof.
  unfold Middleware.isTokenExpired, live_token. split.
  - destruct (split_on 46 token) as [|h [|p [|s [|]]]]; try done. intros E.
    destruct (atob _) as [bin|] eqn:Ea; [|done]. cbn [mbind res_bind] in E.
    destruct (json_parse bin) as [claims|] eqn:Ej; [|done]. cbn [mbind res_bind] in E.
    destruct (jprop claims _) as [[| | |exp| | |]|] eqn:Ep; try done. by exists h, p, s, bin, claims, exp.
  - intros (h & p & s & bin & claims & exp & -> & -> & Ej & Ep & El). cbn [mbind res_bind]. rewrite Ej. cbn [mbind res_bind].
    by rewrite Ep.
Qed.

(** A request that is let through. *)
Definition admitted `{Env} (q : Middleware.NextRequest) : Prop :=
  Middleware.isPublicPath (Middleware.pathname q) = true \/
  exists token h, Middleware.session_cookie q = Some token /\ token <> [] /\
    live_token token (Middleware.expiry_limit (env_now h)).

(** One that is not: no session, or one that has expired. *)
Definition turned_away `{Env} (q : Middleware.NextRequest) : Prop :=
  Middleware.isPublicPath (Middleware.pathname q) = false /\
  forall token, Middleware.session_cookie q = Some token -> token <> [] ->
    exists h, ~ live_token token (Middleware.expiry_limit (env_now h)).

(** The protection every response carries. *)
Definition guarded `{Env} (q : Middleware.NextRequest) (nonce : jstr) (h : Headers) : Prop :=
  let isolated := bool_decide (Middleware.pathname q = js "/login/idkit") in
  exists csp, headers_get (js "content-security-policy") h = Some csp /\
    csp_sources (js "script-src") (csp_directives csp) =
      Some ([js "'self'"; js "'nonce-" ++ nonce ++ js "'"; js "'strict-dynamic'"] ++
            (if Middleware.IS_DEV || isolated then [js "'unsafe-eval'"] else [])) /\
    csp_sources (js "frame-ancestors") (csp_directives csp) = Some [if isolated then js "'self'" else js "'none'"] /\
    headers_get (js "x-frame-options") h = Some (if isolated then js "SAMEORIGIN" else js "DENY").

Lemma guard_headers_guarded `{Env} q nonce :
  Forall nonce_char nonce ->
  guarded q nonce (Middleware.guard_headers (Middleware.buildCsp nonce (Middleware.pathname q) None)
    (if bool_decide (Middleware.pathname q ∈ Middleware.SAME_ORIGIN_FRAME_PATHS) then js "SAMEORIGIN" else js "DENY")).
Proof.
  intros Hn. destruct (policy_sources nonce (Middleware.pathname q) None Hn) as (H1 & H2 & _).
  eexists. split; [reflexivity|]. split; [exact H1|]. split; [exact H2|]. cbn.
  by rewrite (bool_decide_ext (_ ∈ _) (Middleware.pathname q = js "/login/idkit")) by (unfold Middleware.SAME_ORIGIN_FRAME_PATHS; set_solver).
Qed.

Lemma headers_get_app name h h' : headers_get name h = None -> headers_get name (h ++ h') = headers_get name h'.
Proof. induction h as [|[n v] h IH]; [done|]. cbn [app headers_get]. by destruct (jeqb n name). Qed.

Lemma headers_get_none name h : (forall v, (name, v) ∉ h) -> headers_get name h = None.
Proof.
  induction h as [|[n v] h IH]; [done|]. intros Hn. cbn [headers_get]. destruct (jeqb n name) eqn:E.
  - apply jeqb_true in E as ->. destruct (Hn v). by left.
  - apply IH. intros v' Hin. apply (Hn v'). by right.
Qed.

Lemma forwarded_nonce nonce csp h :
  headers_get (js "x-nonce") (headers_set (js "content-security-policy") csp (headers_set (js "x-nonce") nonce h)) = Some nonce.
Proof.
  unfold headers_set. rewrite filter_app, filter_cons_True by done. rewrite <- app_assoc. rewrite headers_get_app; [done|].
  apply headers_get_none. intros v. rewrite !list_elem_of_filter. cbn. tauto.
Qed.

Lemma redirect_location `{Env} q w location h deleted w' :
  Middleware.middleware q w = (Ok (Middleware.Redirect location h deleted), w') -> location = Middleware.login_url q.
Proof.
  unfold Middleware.middleware, Middleware.generateNonce, get_random, now_ms, ask, mbind, eff_bind, mret, eff_ret.
  destruct (Middleware.isPublicPath _); [done|]. destruct (Middleware.session_cookie q) as [[|u t]|]; try (by intros [= <-]).
  destruct (Middleware.isTokenExpired _ _); [by intros [= <-]|done].
Qed.


(** ** The session route *)

Definition header_values (name : jstr) (h : Headers) : list jstr := (filter (fun kv => kv.1 = name) h).*2.

Lemma header_values_app name h h' : header_values name (h ++ h') = header_values name h ++ header_values name h'.
Proof. unfold header_values. by rewrite filter_app, fmap_app. Qed.

Lemma header_values_set name n v h :
  header_values name (headers_set n v h) = if jeqb n name then [v] else header_values name h.
Proof.
  unfold headers_set. rewrite header_values_app. unfold header_values. rewrite list_filter_filter.
  destruct (jeqb n name) eqn:E.
  - apply jeqb_true in E as ->. rewrite filter_cons_True by done.
    rewrite (list_filter_iff _ (fun _ => False)) by naive_solver. by induction h.
  - assert (n <> name) as Hne by (intros ->; by rewrite jeqb_refl in E). rewrite filter_cons_False by done. cbn.
    rewrite app_nil_r. f_equal. apply list_filter_iff. naive_solver.
Qed.

Lemma append_cookies_values cookies r :
  header_values (js "set-cookie") (Routes.rt_headers (Routes.append_cookies cookies r)) =
    header_values (js "set-cookie") (Routes.rt_headers r) ++ filter (fun c => c <> []) cookies.
Proof.
  unfold Routes.append_cookies. revert r. induction cookies as [|c cookies IH]; intros r; [by rewrite app_nil_r|].
  cbn [fold_left]. rewrite IH. destruct c as [|u c]; [by rewrite filter_cons_False by (by intros [])|]. cbn [truthy_str].
  rewrite filter_cons_True by done. unfold Routes.append_header, Routes.with_headers. cbn [Routes.rt_headers].
  rewrite header_values_app, <- app_assoc. done.
Qed.

Lemma append_cookies_status cookies r : Routes.rt_status (Routes.append_cookies cookies r) = Routes.rt_status r.
Proof.
  unfold Routes.append_cookies. revert r. induction cookies as [|c cookies IH]; intros r; [done|].
  cbn [fold_left]. rewrite IH. by destruct (truthy_str c).
Qed.

(** Never cached, with these cookies. *)
Definition fresh_with (cookies : list jstr) (r : Routes.RouteResponse) : Prop :=
  header_values (js "set-cookie") (Routes.rt_headers r) = cookies /\
  Forall (fun kv => header_values kv.1 (Routes.rt_headers r) = [kv.2]) Routes.NO_CACHE_HEADERS.

Lemma no_cache_fresh r cookies :
  header_values (js "set-cookie") (Routes.rt_headers r) = cookies -> fresh_with cookies (Routes.applyNoCache r).
Proof.
  intros <-. unfold fresh_with, Routes.applyNoCache, Routes.NO_CACHE_HEADERS. cbn [fold_left fst snd Routes.rt_headers Routes.with_headers].
  rewrite !header_values_set. split; [done|]. repeat constructor; cbn [fst snd]; by rewrite !header_values_set.
Qed.

(** Statuses for which no response with a body can be made. *)
Definition bodyless (status : Z) : Prop := status ∈ [204; 205; 304] \/ status < 200 \/ 599 < status.

Lemma new_response_ok status body ty : ~ bodyless status ->
  Routes.new_response status body ty = Ok (Routes.ResponseOf status body [(js "content-type", ty)]).
Proof.
  intros Hs. unfold Routes.new_response, bodyless in *. rewrite bool_decide_eq_false_2 by tauto.
  rewrite (proj2 (Z.ltb_ge status 200)), (proj2 (Z.ltb_ge 599 status)) by lia. done.
Qed.

(** The session route.  Its answers are never cached; the cookies the API sets
    are passed on, and the session cookie is cleared, with the attributes it
    was set with, exactly when the API says 401 or cannot be reached. *)
Lemma session_route_answers `{Env, Routes.Upstream} request origin w :
  Routes.apiOrigin = Ok origin ->
  let rq := HttpRequest (js "GET") (origin ++ js "/auth/session")
    [(js "cookie", default [] (Routes.rt_cookie request))] NoBody in
  match env_fetch (w_trace w) rq with
  | Throw _ => exists r w', Routes.session_GET request w = (Ok r, w') /\
      Routes.rt_status r = 503 /\ fresh_with [Routes.clearSessionCookie request] r
  | Ok answer => ~ bodyless (rs_status answer) -> exists r w', Routes.session_GET request w = (Ok r, w') /\
      Routes.rt_status r = rs_status answer /\
      fresh_with (filter (fun c => c <> []) (Routes.up_set_cookie (w_trace w) rq) ++
        (if rs_status answer =? 401 then [Routes.clearSessionCookie request] else [])) r
  end.
Proof.
  intros Ho rq. unfold Routes.session_GET. rewrite Ho.
  destruct (env_fetch (w_trace w) rq) as [answer|e] eqn:E.
  - intros Hb. unfold Routes.upstream_fetch, ask, lift, try_catch, mbind, eff_bind, mret, eff_ret. fold rq. rewrite E.
    unfold Routes.json_response. rewrite new_response_ok by done. eexists _, _. split; [reflexivity|].
    set (r0 := Routes.ResponseOf _ _ _). destruct (rs_status answer =? 401); (split; [apply append_cookies_status|]).
    + apply no_cache_fresh. unfold Routes.append_header, Routes.with_headers. cbn [Routes.rt_headers].
      rewrite header_values_app. by rewrite append_cookies_values.
    + apply no_cache_fresh. rewrite append_cookies_values. by rewrite app_nil_r.
  - unfold Routes.upstream_fetch, ask, lift, try_catch, mbind, eff_bind, mret, eff_ret. fold rq. rewrite E.
    eexists _, _. split; [reflexivity|]. split; [done|]. by apply no_cache_fresh.
Qed.

(** A page asked for with a session that lives, and without one. *)
Definition compose_request (cookie : option jstr) : Middleware.NextRequest :=
  Middleware.Request (js "https://app.nexusinbox.ai") (js "/compose") (js "?to=a") cookie [].

