(* ===== verification/Login.v ===== *)
(** Signing in: apps/web/app/login/page.tsx, apps/web/app/login/idkit/page.tsx
    and apps/web/lib/world/idkit.ts.

    Two pages of one origin: the login page embeds the IDKit page as an iframe
    and listens to what it posts; on a phone it navigates to it instead.  The
    widget and its proofs are the IDKit package's: it calls [handleVerify] with
    any result, any number of times, at any moment, and [onSuccess] only after
    a call of it that did not throw.  The pages are state machines: a handler
    is a function on the page's state, and a step relation interleaves them
    with the answers of the server. *)
From S2P Require Import Prelude Utf8 JsNumber Base64 Json A2A Effect Node Envelope ApiClient Urls WebGate.

(** ** lib/world/idkit.ts *)

Definition toAuthVerifyRequest (result : jval) (action : jval) : jval :=
  JObj [(js "idkit_result", result); (js "action", action)].

(** The nullifier has type [string]; its text is what is compared. *)
Definition extractNullifierHash (result : jval) : res jval :=
  responses ← jprop result (js "responses");
  let first := match nullish_or responses (JArr []) with JArr (x :: _) => x | _ => JUndef end in
  if negb (jtruthy first) then Throw (Error_ (js "IDKit result has no responses."))
  else nullifier ← jprop first (js "nullifier"); Ok (nullish_or nullifier (JStr [])).

(** ** The messages between the pages *)

Inductive IdkitMessage :=
| auth_success
| auth_error (messageKey : jstr) (messageParams : option (list (jstr * jval)))
| auth_cancelled.

Definition message_val (m : IdkitMessage) : jval :=
  match m with
  | auth_success => JObj [(js "type", JStr (js "idkit/auth-success"))]
  | auth_error k p =>
    JObj ([(js "type", JStr (js "idkit/auth-error")); (js "messageKey", JStr k)] ++
          match p with Some p => [(js "messageParams", JObj p)] | None => [] end)
  | auth_cancelled => JObj [(js "type", JStr (js "idkit/auth-cancelled"))]
  end.

(** The destination both pages read from their own address. *)
Definition next_of (search : jstr) : jstr := sanitiseNextPath (params_get (js "next") (parse_params search)).

(** ** login/page.tsx *)
Module LoginPage.

(** [navigated]: the arguments of [window.location.assign], newest first. *)
Record Page := PageOf {
  finalizing : bool; statusText : jstr; iframeVisible : bool; nextPath : jstr; navigated : list jstr
}.

Record MessageEvent := EventOf { ev_origin : jstr; ev_from_iframe : bool; ev_data : jval }.

Section page.
(** The translations, and the page's own origin. *)
Variable t : jval -> jval -> jstr.
Variable own_origin : jstr.

Definition initial : Page := PageOf false [] false (js "/") [].

Definition on_mount (search : jstr) (p : Page) : Page :=
  PageOf (finalizing p) (statusText p) (iframeVisible p) (next_of search) (navigated p).

Definition isIdkitMessage (data : jval) : bool :=
  is_object data && match jget data (js "type") with JStr ty => starts_with (js "idkit/") ty | _ => false end.

Definition redirectToNext (p : Page) : Page :=
  if finalizing p then p
  else PageOf true (statusText p) (iframeVisible p) (nextPath p) (nextPath p :: navigated p).

Definition closeIframe (p : Page) : Page :=
  PageOf (finalizing p) (statusText p) false (nextPath p) (navigated p).
Definition setStatusText (s : jstr) (p : Page) : Page :=
  PageOf (finalizing p) s (iframeVisible p) (nextPath p) (navigated p).

(** The iframe element exists while it is visible. *)
Definition on_message (ev : MessageEvent) (p : Page) : Page :=
  if negb (jeqb (ev_origin ev) own_origin) then p
  else if negb (iframeVisible p) || negb (ev_from_iframe ev) then p
  else if negb (isIdkitMessage (ev_data ev)) then p
  else
    let ty := jget (ev_data ev) (js "type") in
    if jis ty (js "idkit/auth-success") then
      redirectToNext (closeIframe (setStatusText (t (JStr (js "auth.statusSuccess")) JUndef) p))
    else if jis ty (js "idkit/auth-error") then
      closeIframe (setStatusText (t (jget (ev_data ev) (js "messageKey")) (jget (ev_data ev) (js "messageParams"))) p)
    else if jis ty (js "idkit/auth-cancelled") then closeIframe p
    else p.

Definition on_key (key : jstr) (p : Page) : Page :=
  if iframeVisible p && jeqb key (js "Escape") then closeIframe p else p.

Definition on_overlay_click (on_itself : bool) (p : Page) : Page := if on_itself then closeIframe p else p.

Definition iframeSrc (nextPath : jstr) : res jstr :=
  encoded ← encodeURIComponent nextPath; Ok (js "/login/idkit?next=" ++ encoded).

(** [/Android|iPhone|iPad|iPod|Mobile/i.test(userAgent)]. *)
Definition is_mobile (userAgent : jstr) : bool :=
  existsb (includes (to_upper_ascii userAgent))
    [js "ANDROID"; js "IPHONE"; js "IPAD"; js "IPOD"; js "MOBILE"].

Definition handleOpenWidget (userAgent : jstr) (p : Page) : res Page :=
  src ← iframeSrc (nextPath p);
  let p := setStatusText (t (JStr (js "auth.statusVerifying")) JUndef) p in
  Ok (if is_mobile userAgent then
        PageOf (finalizing p) (statusText p) (iframeVisible p) (nextPath p) (src :: navigated p)
      else PageOf (finalizing p) (statusText p) true (nextPath p) (navigated p)).

Definition statusKind (p : Page) : jstr :=
  if jeqb (statusText p) (t (JStr (js "auth.statusSuccess")) JUndef) then js "ok"
  else if existsb (includes (statusText p)) [js "failed"; js "error"; js "Failed"; js "Error"; js "失敗"] then js "error"
  else js "idle".

End page.
End LoginPage.

(** ** login/idkit/page.tsx *)
Module IdkitPage.

Record WorldRequestConfig := Config {
  app_id : jval; action : jval; rp_context : jval; allow_legacy_proofs : jval
}.

Inductive Failure :=
| ApiFailure (message : jstr) (status : Z)
| ErrorFailure (message : jstr)
| OtherFailure.

(** The promise of an [authVerify] request. *)
Inductive Promise := Pending | Resolved | Rejected (why : Failure).

(** A running call of [handleVerify]: whether it made the request it awaits,
    and whether it has returned or thrown. *)
Record Call := CallOf { own : bool; awaits : nat; returned : option bool }.

Record Page := PageOf {
  standalone : bool; search : jstr;
  requestConfig : option WorldRequestConfig; widgetOpen : bool; succeeded : bool;
  inflight : option (jval * nat);
  posts : list IdkitMessage;       (** handed to the parent, newest first *)
  assigned : list jstr;            (** navigations of a standalone page, newest first *)
  promises : list (jval * Promise);  (** the requests of this page, in order *)
  calls : list Call
}.

Definition initial (standalone : bool) (search : jstr) : Page :=
  PageOf standalone search None false false None [] [] [] [].

(** Updates of single fields. *)
Definition set_widget (b : bool) (p : Page) : Page :=
  PageOf (standalone p) (search p) (requestConfig p) b (succeeded p) (inflight p) (posts p) (assigned p) (promises p) (calls p).
Definition set_config (c : WorldRequestConfig) (p : Page) : Page :=
  PageOf (standalone p) (search p) (Some c) (widgetOpen p) (succeeded p) (inflight p) (posts p) (assigned p) (promises p) (calls p).
Definition set_succeeded (p : Page) : Page :=
  PageOf (standalone p) (search p) (requestConfig p) (widgetOpen p) true (inflight p) (posts p) (assigned p) (promises p) (calls p).
Definition set_inflight (i : option (jval * nat)) (p : Page) : Page :=
  PageOf (standalone p) (search p) (requestConfig p) (widgetOpen p) (succeeded p) i (posts p) (assigned p) (promises p) (calls p).
Definition set_promises (l : list (jval * Promise)) (p : Page) : Page :=
  PageOf (standalone p) (search p) (requestConfig p) (widgetOpen p) (succeeded p) (inflight p) (posts p) (assigned p) l (calls p).
Definition set_calls (l : list Call) (p : Page) : Page :=
  PageOf (standalone p) (search p) (requestConfig p) (widgetOpen p) (succeeded p) (inflight p) (posts p) (assigned p) (promises p) l.
Definition post (m : IdkitMessage) (p : Page) : Page :=
  PageOf (standalone p) (search p) (requestConfig p) (widgetOpen p) (succeeded p) (inflight p) (m :: posts p) (assigned p) (promises p) (calls p).
Definition assign (url : jstr) (p : Page) : Page :=
  PageOf (standalone p) (search p) (requestConfig p) (widgetOpen p) (succeeded p) (inflight p) (posts p) (url :: assigned p) (promises p) (calls p).

Definition handleStandaloneOutcome (msg : IdkitMessage) (p : Page) : Page :=
  let next := next_of (search p) in
  match msg with
  | auth_success => assign next p
  | auth_error _ _ | auth_cancelled =>
    match encodeURIComponent next with
    | Ok encoded => assign (js "/login?next=" ++ encoded) p
    | Throw _ => p
    end
  end.

Definition postToParent (msg : IdkitMessage) (p : Page) : Page :=
  if standalone p then handleStandaloneOutcome msg p else post msg p.

(** The answer of /api/world/request-config. *)
Definition read_config `{Host} (fetched : res Response) : res WorldRequestConfig :=
  response ← fetched;
  payload ← match json_parse (rs_text response) with
            | Ok v => Ok v
            | Throw _ => Throw (Error_ (js "World ID config endpoint returned non-JSON (HTTP " ++ dec_of_Z (rs_status response) ++ js ")."))
            end;
  complete ← (if negb (rs_ok response) then Ok false
              else id ← jprop payload (js "app_id");
                   Ok (jtruthy id && jtruthy (jget payload (js "action")) && jtruthy (jget payload (js "rp_context"))));
  if complete : bool then
    Ok (Config (jget payload (js "app_id")) (jget payload (js "action")) (jget payload (js "rp_context"))
          (nullish_or (jget payload (js "allow_legacy_proofs")) (JBool true)))
  else
    message ← jprop payload (js "message");
    Throw (Error_ (js_string (nullish_or message
      (JStr (js "Failed to load World ID request config (HTTP " ++ dec_of_Z (rs_status response) ++ js ").")))))
  .

(** The effect that loads the configuration, once its answer is there. *)
Definition on_config `{Host} (fetched : res Response) (p : Page) : Page :=
  match read_config fetched with
  | Ok c => set_widget true (set_config c p)
  | Throw e =>
    let message := err_message e in
    postToParent
      (if truthy_str message then auth_error (js "auth.statusPrepFailed") (Some [(js "message", JStr message)])
       else auth_error (js "auth.statusPrepFailedGeneric") None) p
  end.

(** [a === b] on nullifiers. *)
Definition same_key (a b : jval) : bool :=
  match a, b with JStr s, JStr t => jeqb s t | _, _ => false end.

(** [handleVerify] up to its first [await]; it throws before it without a
    configuration or a nullifier. *)
Definition handleVerify (result : jval) (p : Page) : Page :=
  match requestConfig p, extractNullifierHash result with
  | Some config, Ok proofKey =>
    match inflight p with
    | Some (key, promise) =>
      if same_key key proofKey then set_calls (calls p ++ [CallOf false promise None]) p
      else
        let n := length (promises p) in
        set_calls (calls p ++ [CallOf true n None]) (set_inflight (Some (proofKey, n))
          (set_promises (promises p ++ [(toAuthVerifyRequest result (action config), Pending)]) p))
    | None =>
      let n := length (promises p) in
      set_calls (calls p ++ [CallOf true n None]) (set_inflight (Some (proofKey, n))
        (set_promises (promises p ++ [(toAuthVerifyRequest result (action config), Pending)]) p))
    end
  | _, _ => p
  end.

Definition failure_message (why : Failure) : IdkitMessage :=
  match why with
  | ApiFailure m s => auth_error (js "auth.statusAuthFailed") (Some [(js "message", JStr m); (js "status", JStr (dec_of_Z s))])
  | ErrorFailure m => auth_error (js "auth.statusAuthFailedMsg") (Some [(js "message", JStr m)])
  | OtherFailure => auth_error (js "auth.statusAuthFailedGeneric") None
  end.

(** [handleVerify] after its [await]. *)
Definition continueVerify (k : nat) (c : Call) (outcome : Promise) (p : Page) : Page :=
  let finish b := set_calls (<[k := CallOf (own c) (awaits c) (Some b)]> (calls p)) in
  match outcome with
  | Pending => p
  | Resolved => postToParent auth_success (set_succeeded (finish true p))
  | Rejected why =>
    if own c then postToParent (failure_message why) (set_inflight None (finish false p)) else finish false p
  end.

Definition onOpenChange (open : bool) (p : Page) : Page :=
  let p := set_widget open p in
  if negb open && negb (succeeded p) then postToParent auth_cancelled p else p.

Definition onSuccess (p : Page) : Page := postToParent auth_success (set_succeeded p).

Definition onError (failedByHostApp : bool) (errorCode : jstr) (p : Page) : Page :=
  if failedByHostApp then p
  else postToParent (auth_error (js "auth.idkitError") (Some [(js "code", JStr errorCode)])) p.

(** What can happen next on the page; the flag says whether the server has
    just accepted a proof. *)
Inductive step `{Host} : Page -> bool -> Page -> Prop :=
| configured fetched p : step p false (on_config fetched p)
| verifies result p : step p false (handleVerify result p)
| answered n request outcome p :
    promises p !! n = Some (request, Pending) -> outcome <> Pending ->
    step p (match outcome with Resolved => true | _ => false end) (set_promises (<[n := (request, outcome)]> (promises p)) p)
| continues k c request outcome p :
    calls p !! k = Some c -> returned c = None -> promises p !! awaits c = Some (request, outcome) -> outcome <> Pending ->
    step p false (continueVerify k c outcome p)
| opens open p : step p false (onOpenChange open p)
| succeeds k c p : calls p !! k = Some c -> returned c = Some true -> step p false (onSuccess p)
| fails failedByHostApp errorCode p : step p false (onError failedByHostApp errorCode p).

(** The states of a page that is loaded at an address. *)
Inductive reachable `{Host} (alone : bool) (at_ : jstr) : Page -> Prop :=
| loaded : reachable alone at_ (initial alone at_)
| moved p b q : reachable alone at_ p -> step p b q -> reachable alone at_ q.

End IdkitPage.

(** ** The two pages together

    [session] is whether the server has accepted a proof, which is when it sets
    the session cookie.  The iframe's page lives while the iframe is visible.
    Its posts reach the login page in any order, any number of times; every
    other window and frame may post anything. *)
Module SignIn.

Record System := SystemOf { parent : LoginPage.Page; child : option IdkitPage.Page; session : bool }.

Section system.
Context `{Host}.
Variable t : jval -> jval -> jstr.
Variables own_origin search : jstr.

Definition mounted (p : LoginPage.Page) (c : option IdkitPage.Page) : option IdkitPage.Page :=
  if negb (LoginPage.iframeVisible p) then None
  else match c with
       | Some c => Some c
       | None =>
         match LoginPage.iframeSrc (LoginPage.nextPath p) with
         | Ok src => Some (IdkitPage.initial false (location_search src))
         | Throw _ => None
         end
       end.

Definition parent_does (f : LoginPage.Page -> LoginPage.Page) (s : System) : System :=
  SystemOf (f (parent s)) (mounted (f (parent s)) (child s)) (session s).

Definition start : System := SystemOf (LoginPage.on_mount search LoginPage.initial) None false.

Inductive step : System -> System -> Prop :=
| hears_child s c m :
    child s = Some c -> m ∈ IdkitPage.posts c ->
    step s (parent_does (LoginPage.on_message t own_origin (LoginPage.EventOf own_origin true (message_val m))) s)
| hears_other s ev :
    LoginPage.ev_origin ev <> own_origin \/ LoginPage.ev_from_iframe ev = false ->
    step s (parent_does (LoginPage.on_message t own_origin ev) s)
| key_pressed s key : step s (parent_does (LoginPage.on_key key) s)
| overlay_clicked s on_itself : step s (parent_does (LoginPage.on_overlay_click on_itself) s)
| widget_opened s userAgent p :
    LoginPage.handleOpenWidget t userAgent (parent s) = Ok p -> step s (parent_does (fun _ => p) s)
| child_moves s c accepted c' :
    child s = Some c -> IdkitPage.step c accepted c' ->
    step s (SystemOf (parent s) (Some c') (session s || accepted)).

Inductive reachable : System -> Prop :=
| at_start : reachable start
| then_step s s' : reachable s -> step s s' -> reachable s'.

End system.
End SignIn.

(** * Lemmas *)

(** The server accepted a proof of this page. *)
Definition accepted (p : IdkitPage.Page) : Prop :=
  exists n rq, IdkitPage.promises p !! n = Some (rq, IdkitPage.Resolved).

(** What a standalone page may navigate to. *)
Definition allowed_destination (p : IdkitPage.Page) (url : jstr) : Prop :=
  let next := next_of (IdkitPage.search p) in
  (url = next /\ accepted p) \/
  (exists encoded, encodeURIComponent next = Ok encoded /\ url = js "/login?next=" ++ encoded).

(** Nothing says the sign-in succeeded before the server accepted a proof. *)
Record honest (p : IdkitPage.Page) : Prop := {
  honest_calls : Forall (fun c => IdkitPage.returned c = Some true -> accepted p) (IdkitPage.calls p);
  honest_succeeded : IdkitPage.succeeded p = true -> accepted p;
  honest_posts : auth_success ∈ IdkitPage.posts p -> accepted p;
  honest_assigned : Forall (allowed_destination p) (IdkitPage.assigned p)
}.

(** [q] is [p] with perhaps more accepted, and the same address. *)
Definition keeps (p q : IdkitPage.Page) : Prop :=
  (accepted p -> accepted q) /\ IdkitPage.search q = IdkitPage.search p /\ IdkitPage.standalone q = IdkitPage.standalone p.

Lemma allowed_keeps p q url : keeps p q -> allowed_destination p url -> allowed_destination q url.
Proof. intros (Ha & Hs & _). unfold allowed_destination. rewrite Hs. naive_solver. Qed.

(** A page that differs in other fields only. *)
Lemma honest_same p q :
  keeps p q ->
  IdkitPage.calls q = IdkitPage.calls p -> IdkitPage.succeeded q = IdkitPage.succeeded p ->
  IdkitPage.posts q = IdkitPage.posts p -> IdkitPage.assigned q = IdkitPage.assigned p -> honest p -> honest q.
Proof.
  intros Hk Ec Es Ep Ea [H1 H2 H3 H4]. pose proof (proj1 Hk) as Ha. split.
  - rewrite Ec. eapply Forall_impl; [exact H1|]. naive_solver.
  - rewrite Es. naive_solver.
  - rewrite Ep. naive_solver.
  - rewrite Ea. eapply Forall_impl; [exact H4|]. intros url. by apply allowed_keeps.
Qed.

Lemma report_honest m p :
  (m = auth_success -> accepted p) -> honest p ->
  honest (IdkitPage.postToParent m p) /\ keeps p (IdkitPage.postToParent m p) /\
  IdkitPage.promises (IdkitPage.postToParent m p) = IdkitPage.promises p.
Proof.
  intros Hm [H1 H2 H3 H4]. unfold IdkitPage.postToParent, IdkitPage.handleStandaloneOutcome.
  assert (forall url, allowed_destination p url -> honest (IdkitPage.assign url p)) as Hassign.
  { intros url Hu. split; [exact H1|exact H2|exact H3|]. by constructor. }
  destruct (IdkitPage.standalone p) eqn:Es.
  - destruct m; try destruct (encodeURIComponent _) eqn:E; split_and!; try done.
    all: try (apply Hassign; right; by eexists). apply Hassign. left. split; [done|]. by apply Hm.
  - split_and!; try done. split; [exact H1|exact H2| |exact H4]. intros [<- | Hin]%elem_of_cons; [by apply Hm|by apply H3].
Qed.

Lemma accepted_same p q : IdkitPage.promises q = IdkitPage.promises p -> accepted q <-> accepted p.
Proof. unfold accepted. by intros ->. Qed.

Lemma accepted_pending p q rq : IdkitPage.promises q = IdkitPage.promises p ++ [(rq, IdkitPage.Pending)] -> accepted q <-> accepted p.
Proof.
  unfold accepted. intros ->. split; intros (n & r & Hn).
  - apply lookup_snoc_Some in Hn as [[_ Hn]|[_ [=]]]. by exists n, r.
  - exists n, r. by apply lookup_app_l_Some.
Qed.

(** What a step of the page keeps. *)
Definition step_ok (p : IdkitPage.Page) (b : bool) (q : IdkitPage.Page) : Prop :=
  honest q /\ keeps p q /\ (accepted q -> accepted p \/ b = true).

Lemma step_ok_report m p b q :
  (m = auth_success -> accepted q) -> step_ok p b q -> step_ok p b (IdkitPage.postToParent m q).
Proof.
  intros Hm (Hq & Hk & Ha). destruct (report_honest m q Hm Hq) as (Hr & Hk' & Ep). split_and!; [done| |].
  - destruct Hk as (K1 & K2 & K3), Hk' as (L1 & L2 & L3). split_and!; [tauto|congruence|congruence].
  - intros HA. apply Ha. by apply (accepted_same q _ Ep).
Qed.

(** A step that touches neither the requests nor what was reported. *)
Lemma step_ok_quiet p q :
  honest p -> IdkitPage.promises q = IdkitPage.promises p -> IdkitPage.search q = IdkitPage.search p ->
  IdkitPage.standalone q = IdkitPage.standalone p -> IdkitPage.succeeded q = IdkitPage.succeeded p ->
  IdkitPage.posts q = IdkitPage.posts p -> IdkitPage.assigned q = IdkitPage.assigned p ->
  Forall (fun c => IdkitPage.returned c = Some true -> accepted p) (IdkitPage.calls q) -> step_ok p false q.
Proof.
  intros [H1 H2 H3 H4] Ep Es Est Esu Epo Ea Hc. pose proof (accepted_same p q Ep) as Hacc.
  assert (keeps p q) as Hk by (split_and!; [tauto|done|done]). split_and!; [|done|tauto]. split.
  - eapply Forall_impl; [exact Hc|]. naive_solver.
  - rewrite Esu. naive_solver.
  - rewrite Epo. naive_solver.
  - rewrite Ea. eapply Forall_impl; [exact H4|]. intros url. by apply allowed_keeps.
Qed.

Lemma handleVerify_ok result p : honest p -> step_ok p false (IdkitPage.handleVerify result p).
Proof.
  intros Hp. assert (step_ok p false p) as Hsame by (split_and!; [done|split_and!; done|tauto]).
  unfold IdkitPage.handleVerify. destruct (IdkitPage.requestConfig p); [|done]. destruct (extractNullifierHash result) as [key|]; [|done].
  assert (forall own n, Forall (fun c => IdkitPage.returned c = Some true -> accepted p)
    (IdkitPage.calls p ++ [IdkitPage.CallOf own n None])) as Hcalls.
  { intros own n. apply Forall_app. split; [apply Hp|]. by constructor. }
  assert (forall rq n i, step_ok p false (IdkitPage.set_calls (IdkitPage.calls p ++ [IdkitPage.CallOf true n None])
    (IdkitPage.set_inflight i (IdkitPage.set_promises (IdkitPage.promises p ++ [(rq, IdkitPage.Pending)]) p)))) as Hnew.
  { intros rq n i. set (q := IdkitPage.set_calls _ _).
    assert (accepted q <-> accepted p) as Hacc by by apply (accepted_pending p q rq).
    assert (keeps p q) as Hk by (split_and!; [tauto|done|done]). split_and!; [|done|tauto].
    destruct Hp as [H1 H2 H3 H4]. split; [|naive_solver|naive_solver|].
    - eapply Forall_impl; [apply Hcalls|]. naive_solver.
    - eapply Forall_impl; [exact H4|]. intros url. by apply allowed_keeps. }
  destruct (IdkitPage.inflight p) as [[k promise]|]; [destruct (IdkitPage.same_key k key)|]; [|apply Hnew|apply Hnew].
  apply step_ok_quiet; try done. apply Hcalls.
Qed.

Lemma answered_ok n rq outcome p :
  IdkitPage.promises p !! n = Some (rq, IdkitPage.Pending) -> honest p ->
  step_ok p (match outcome with IdkitPage.Resolved => true | _ => false end)
    (IdkitPage.set_promises (<[n := (rq, outcome)]> (IdkitPage.promises p)) p).
Proof.
  intros Hn [H1 H2 H3 H4]. set (q := IdkitPage.set_promises _ p).
  assert (accepted p -> accepted q) as Ha.
  { intros (m & r & Hm). exists m, r. change (IdkitPage.promises q) with (<[n := (rq, outcome)]> (IdkitPage.promises p)).
    assert (n <> m) as Hne by (intros ->; congruence). by rewrite list_lookup_insert_ne. }
  assert (keeps p q) as Hk by (split_and!; done). split_and!; [|done|].
  - split; [|naive_solver|naive_solver|].
    + eapply Forall_impl; [exact H1|]. naive_solver.
    + eapply Forall_impl; [exact H4|]. intros url. by apply allowed_keeps.
  - intros (m & r & Hm). change (IdkitPage.promises q) with (<[n := (rq, outcome)]> (IdkitPage.promises p)) in Hm.
    apply list_lookup_insert_Some in Hm as [(_ & [= _ Ho] & _)|[_ Hm]]; [right; by rewrite Ho|left; by exists m, r].
Qed.

Lemma finish_ok k c b p : honest p -> (b = true -> accepted p) ->
  step_ok p false (IdkitPage.set_calls (<[k := IdkitPage.CallOf (IdkitPage.own c) (IdkitPage.awaits c) (Some b)]> (IdkitPage.calls p)) p).
Proof.
  intros Hp Hb. apply step_ok_quiet; try done. apply Forall_insert; [apply Hp|]. intros [= ->]. by apply Hb.
Qed.

Lemma continueVerify_ok k c rq outcome p :
  IdkitPage.promises p !! IdkitPage.awaits c = Some (rq, outcome) -> honest p ->
  step_ok p false (IdkitPage.continueVerify k c outcome p).
Proof.
  intros Hn Hp. unfold IdkitPage.continueVerify. destruct outcome as [| |why].
  - split_and!; [done|split_and!; done|tauto].
  - assert (accepted p) as Ha by by exists (IdkitPage.awaits c), rq. apply step_ok_report; [done|].
    destruct (finish_ok k c true p Hp (fun _ => Ha)) as ([H1 H2 H3 H4] & Hk & Hacc). by split_and!; [split|..].
  - assert (step_ok p false (IdkitPage.set_calls (<[k := IdkitPage.CallOf (IdkitPage.own c) (IdkitPage.awaits c) (Some false)]> (IdkitPage.calls p)) p))
      as Hf by by apply finish_ok.
    destruct (IdkitPage.own c); [|exact Hf]. apply step_ok_report; [by destruct why|].
    destruct Hf as ([H1 H2 H3 H4] & Hk & Hacc). by split_and!; [split|..].
Qed.

Lemma idkit_step_ok `{Host} p b q : IdkitPage.step p b q -> honest p -> step_ok p b q.
Proof.
  intros Hs Hp. assert (forall p, honest p -> step_ok p false p) as Hrefl by (intros ??; split_and!; [done|split_and!; done|tauto]).
  destruct Hs as [fetched p|result p|n rq outcome p Hn Hne|k c rq outcome p Hk Hr Hn Hne|open p|k c p Hk Hr|failed code p].
  - unfold IdkitPage.on_config. destruct (IdkitPage.read_config fetched) as [c|e].
    + apply step_ok_quiet; try done. apply Hp.
    + apply step_ok_report; [by destruct (truthy_str _)|by apply Hrefl].
  - by apply handleVerify_ok.
  - by apply answered_ok.
  - by apply (continueVerify_ok k c rq outcome).
  - unfold IdkitPage.onOpenChange. assert (step_ok p false (IdkitPage.set_widget open p)) as Hw by (apply step_ok_quiet; try done; apply Hp).
    destruct (_ && _); [|exact Hw]. by apply step_ok_report.
  - unfold IdkitPage.onSuccess. assert (accepted p) as Ha.
    { destruct Hp as [H1 _ _ _]. rewrite Forall_forall in H1. apply (H1 c); [by eapply list_elem_of_lookup_2|done]. }
    apply step_ok_report; [done|]. destruct (Hrefl p Hp) as ([H1 H2 H3 H4] & Hk' & Hacc). by split_and!; [split|..].
  - unfold IdkitPage.onError. destruct failed; [by apply Hrefl|]. apply step_ok_report; [done|by apply Hrefl].
Qed.

(** ** The invariant of the two pages *)

Section sign_in.
Context `{Host}.
Variable t : jval -> jval -> jstr.
Variables own_origin search : jstr.

(** The navigations of the login page: to the IDKit page, on a phone, and at
    most once to the destination. *)
Definition navigations (p : LoginPage.Page) : Prop :=
  exists before after,
    LoginPage.navigated p = after ++ (if LoginPage.finalizing p then [LoginPage.nextPath p] else []) ++ before /\
    Forall (fun url => LoginPage.iframeSrc (LoginPage.nextPath p) = Ok url) (after ++ before).

Definition sound_child (s : SignIn.System) (c : IdkitPage.Page) : Prop :=
  honest c /\ IdkitPage.standalone c = false /\ (accepted c -> SignIn.session s = true).

Record sound (s : SignIn.System) : Prop := {
  sound_next : LoginPage.nextPath (SignIn.parent s) = next_of search;
  sound_final : LoginPage.finalizing (SignIn.parent s) = true -> SignIn.session s = true;
  sound_nav : navigations (SignIn.parent s);
  sound_frame : forall c, SignIn.child s = Some c -> sound_child s c
}.

(** The page [q] differs from [p] in what it shows only. *)
Definition shows (p q : LoginPage.Page) : Prop :=
  LoginPage.finalizing q = LoginPage.finalizing p /\ LoginPage.nextPath q = LoginPage.nextPath p /\
  LoginPage.navigated q = LoginPage.navigated p.

Lemma initial_honest src : honest (IdkitPage.initial false src) /\ ~ accepted (IdkitPage.initial false src).
Proof.
  split; [split; [constructor|done| |constructor]|].
  - by intros ?%elem_of_nil.
  - intros (n & rq & Hn). by destruct n.
Qed.

Lemma sound_mounted s p c : (forall c, SignIn.child s = Some c -> sound_child s c) ->
  SignIn.mounted p (SignIn.child s) = Some c -> sound_child s c.
Proof.
  intros Hc. unfold SignIn.mounted. destruct (negb _); [done|]. destruct (SignIn.child s) as [c'|] eqn:E.
  - intros [= <-]. by apply Hc.
  - destruct (LoginPage.iframeSrc _) as [src|]; [|done]. intros [= <-].
    destruct (initial_honest (location_search src)). by split_and!.
Qed.

(** A handler of the login page that at most shows something. *)
Lemma sound_shows f s : shows (SignIn.parent s) (f (SignIn.parent s)) -> sound s -> sound (SignIn.parent_does f s).
Proof.
  intros (Ef & En & Ena) [H1 H2 H3 H4]. split; cbn.
  - by rewrite En.
  - by rewrite Ef.
  - unfold navigations. by rewrite Ef, En, Ena.
  - intros c. by apply (sound_mounted s).
Qed.

(** The handler that goes to the destination. *)
Lemma sound_redirects f s p : shows (SignIn.parent s) p -> f (SignIn.parent s) = LoginPage.redirectToNext p ->
  SignIn.session s = true -> sound s -> sound (SignIn.parent_does f s).
Proof.
  intros (Ef & En & Ena) E Hses [H1 H2 (before & after & Hn & Hall) H4]. split; cbn; rewrite ?E.
  - unfold LoginPage.redirectToNext. destruct (LoginPage.finalizing p); cbn; by rewrite En.
  - done.
  - unfold LoginPage.redirectToNext, navigations. destruct (LoginPage.finalizing p) eqn:Ep.
    + exists before, after. by rewrite Ep, En, Ena, Hn, <- Ef.
    + cbn. exists (after ++ before), []. rewrite En, Ena, Hn, <- Ef. cbn. by split.
  - intros c Hc. by apply (sound_mounted s _ c H4 Hc).
Qed.

Lemma on_message_spec ev p :
  shows p (LoginPage.on_message t own_origin ev p) \/
  (LoginPage.ev_origin ev = own_origin /\ LoginPage.ev_from_iframe ev = true /\
   jget (LoginPage.ev_data ev) (js "type") = JStr (js "idkit/auth-success") /\
   exists p', shows p p' /\ LoginPage.on_message t own_origin ev p = LoginPage.redirectToNext p').
Proof.
  unfold LoginPage.on_message. destruct (jeqb (LoginPage.ev_origin ev) own_origin) eqn:Eo; [|by left]. apply jeqb_true in Eo.
  destruct (LoginPage.iframeVisible p); [|by left]. destruct (LoginPage.ev_from_iframe ev) eqn:Ei; [|by left].
  destruct (LoginPage.isIdkitMessage _); [|by left]. cbn [negb orb].
  destruct (jis _ (js "idkit/auth-success")) eqn:Et; [|by repeat case_match; left].
  right. split_and!; [done|done| |eexists; split; [|reflexivity]; done].
  unfold jis in Et. destruct (jget _ _); try done. by apply jeqb_true in Et as ->.
Qed.

Lemma sound_step s s' : SignIn.step t own_origin s s' -> sound s -> sound s'.
Proof.
  intros Hs Hsound. destruct Hs as [s c m Hc Hm|s ev Hev|s key|s on_itself|s ua p Ho|s c b c' Hc Hstep].
  - destruct (on_message_spec (LoginPage.EventOf own_origin true (message_val m)) (SignIn.parent s)) as [Hsh|(_ & _ & Hty & p & Hsh & E)].
    + by apply sound_shows.
    + apply (sound_redirects _ s p); [done|exact E| |done].
      destruct m; [|by vm_compute in Hty|by vm_compute in Hty].
      destruct (sound_frame s Hsound c Hc) as (Hh & _ & Hses). by apply Hses, (honest_posts c Hh).
  - destruct (on_message_spec ev (SignIn.parent s)) as [Hsh|(Eo & Ei & _)]; [by apply sound_shows|]. exfalso. destruct Hev; congruence.
  - apply sound_shows; [|done]. unfold LoginPage.on_key. by destruct (_ && _).
  - apply sound_shows; [|done]. by destruct on_itself.
  - unfold LoginPage.handleOpenWidget in Ho. apply res_bind_ok in Ho as (src & Esrc & Ho). injection Ho as <-.
    destruct (LoginPage.is_mobile ua); [|by apply sound_shows].
    destruct Hsound as [H1 H2 (before & after & Hn & Hall) H4]. split; cbn; [done|done| |intros c0; by apply (sound_mounted s)].
    exists before, (src :: after). cbn. rewrite Hn. split; [done|]. by constructor.
  - destruct Hsound as [H1 H2 H3 H4]. destruct (H4 c Hc) as (Hh & Hst & Hses).
    destruct (idkit_step_ok _ _ _ Hstep Hh) as (Hh' & (_ & _ & Est) & Hacc). split; cbn; [done| |done|].
    + intros Hf. by rewrite (H2 Hf).
    + intros c0 [= <-]. split_and!; [done|congruence|]. cbn. intros [Ha|Hb]%Hacc; [by rewrite Hses|rewrite Hb; apply orb_true_r].
Qed.

Lemma reachable_sound s : SignIn.reachable t own_origin search s -> sound s.
Proof.
  induction 1 as [|s s' _ IH Hs]; [|by eapply sound_step].
  split; cbn; [done|done| |done]. by exists [], [].
Qed.

End sign_in.

Lemma idkit_reachable `{Host} alone at_ p :
  IdkitPage.reachable alone at_ p -> honest p /\ IdkitPage.search p = at_.
Proof.
  induction 1 as [|p b q _ [IH Es] Hs].
  - split; [|done]. split; [constructor|done|by intros ?%elem_of_nil|constructor].
  - destruct (idkit_step_ok p b q Hs IH) as (Hq & (_ & Eq & _) & _). split; [done|congruence].
Qed.


(** ** Coming back to where one was sent from *)

Lemma next_of_encoded enc path s :
  reads_bytes enc -> reads_bytes (fun b => flat_map query_byte (enc b)) -> Forall query_safe path ->
  Forall unit_ok s -> is_well_formed s = true -> next_path_ok s = true \/ s = js "/" ->
  next_of (location_search (path ++ js "?next=" ++ flat_map enc (utf8_encode s))) = s.
Proof.
  intros He Hq Hp Hs Hw Hn. assert (s <> []) as Hne by (destruct Hn as [Hn | ->]; [by destruct s|done]).
  unfold next_of. rewrite next_of_reference by done. destruct s as [|u s]; [done|]. cbn [sanitiseNextPath].
  destruct Hn as [-> | ->]; [done|by vm_compute].
Qed.

(** C18: after signing in one is where one was going.  When the gate turns a
    request away, the login page it redirects to, and the IDKit page that in
    turn is loaded from there, both take the address of that request for the
    destination, character for character, if it starts with a single slash. *)
Theorem login_returns `{Env} (q : Middleware.NextRequest) (w w' : World) location h deleted :
  let s := Middleware.pathname q ++ Middleware.search q in
  Middleware.middleware q w = (Ok (Middleware.Redirect location h deleted), w') ->
  Forall unit_ok s -> is_well_formed s = true -> next_path_ok s = true \/ s = js "/" ->
  exists reference src, location = Middleware.origin q ++ reference /\
    LoginPage.nextPath (LoginPage.on_mount (location_search reference) LoginPage.initial) = s /\
    LoginPage.iframeSrc s = Ok src /\ next_of (location_search src) = s.
Proof.
  intros s E Hs Hw Hn.
  apply redirect_location in E as ->.
  exists (js "/login?next=" ++ form_encode s). eexists. split; [done|].
  unfold LoginPage.iframeSrc, encodeURIComponent. rewrite Hw. split_and!; [|reflexivity|].
  - apply (next_of_encoded form_byte (js "/login")); try done; [apply form_byte_reads|apply form_query_reads|].
    apply (bool_decide_eq_true_1 (Forall query_safe _)); by vm_compute.
  - apply (next_of_encoded component_byte (js "/login/idkit")); try done; [apply component_byte_reads|apply component_query_reads|].
    apply (bool_decide_eq_true_1 (Forall query_safe _)); by vm_compute.
Qed.

Example login_returns_witness :
  let _ := quiet_env in
  exists reference src, js "https://app.nexusinbox.ai/login?next=%2Fcompose%3Fto%3Da" = js "https://app.nexusinbox.ai" ++ reference /\
    LoginPage.nextPath (LoginPage.on_mount (location_search reference) LoginPage.initial) = js "/compose?to=a" /\
    LoginPage.iframeSrc (js "/compose?to=a") = Ok src /\ next_of (location_search src) = js "/compose?to=a".
Proof.
  intros en.
  destruct (Middleware.middleware (compose_request None) empty_world) as [[[f h|l h d]|e] w'] eqn:E.
  - exfalso. clear -E. vm_compute in E. discriminate.
  - assert (l = js "https://app.nexusinbox.ai/login?next=%2Fcompose%3Fto%3Da") as El
      by (clear -E; vm_compute in E; injection E as <- _ _; by vm_compute).
    rewrite <- El.
    assert (Middleware.pathname (compose_request None) ++ Middleware.search (compose_request None) = js "/compose?to=a") as Es by by vm_compute.
    assert (Middleware.origin (compose_request None) = js "https://app.nexusinbox.ai") as Eo by by vm_compute.
    destruct (login_returns (compose_request None) empty_world w' l h d E) as (reference & src & H).
    + apply forallb_units. by vm_compute.
    + by vm_compute.
    + left. by vm_compute.
    + rewrite Es in H. destruct H as (H1 & H2). exists reference, src.
      rewrite Eo in H1. split; [exact H1|exact H2].
  - exfalso. clear -E. vm_compute in E. discriminate.
Defined.

(** A run of the two pages that signs in. *)
Definition sample_config : jval :=
  JObj [(js "app_id", JStr (js "app_1")); (js "action", JStr (js "login")); (js "rp_context", JObj [])].
Definition sample_proof : jval := JObj [(js "responses", JArr [JObj [(js "nullifier", JStr (js "0x1"))]])].

(** What a signed-in system has done. *)
Definition signed_in (s : SignIn.System) : bool :=
  SignIn.session s && LoginPage.finalizing (SignIn.parent s) &&
  bool_decide (LoginPage.navigated (SignIn.parent s) = [js "/compose"]).

Definition sample_words (k p : jval) : jstr := js_string k.
Definition sample_origin : jstr := js "https://app.nexusinbox.ai".
Definition sample_search : jstr := js "?next=%2Fcompose".

Section sample.
Context `{Host}.

Definition sample_login : LoginPage.Page :=
  match LoginPage.handleOpenWidget sample_words (js "Mozilla/5.0 (X11)") (LoginPage.on_mount sample_search LoginPage.initial) with
  | Ok p => p
  | Throw _ => LoginPage.initial
  end.
Definition sample_opened : SignIn.System := SignIn.parent_does (fun _ => sample_login) (SignIn.start sample_search).
Definition child_of (s : SignIn.System) : IdkitPage.Page := default (IdkitPage.initial false []) (SignIn.child s).
Definition child_does (b : bool) (f : IdkitPage.Page -> IdkitPage.Page) (s : SignIn.System) : SignIn.System :=
  SignIn.SystemOf (SignIn.parent s) (Some (f (child_of s))) (SignIn.session s || b).

Definition sample_request : jval := toAuthVerifyRequest sample_proof (JStr (js "login")).
Definition sample_verifying : SignIn.System :=
  child_does false (IdkitPage.handleVerify sample_proof)
    (child_does false (IdkitPage.on_config (Ok (HttpResponse 200 (json_stringify sample_config)))) sample_opened).
Definition sample_verified : SignIn.System :=
  child_does false (IdkitPage.continueVerify 0 (IdkitPage.CallOf true 0 None) IdkitPage.Resolved)
    (child_does true (IdkitPage.set_promises [(sample_request, IdkitPage.Resolved)]) sample_verifying).
Definition sample_done : SignIn.System :=
  SignIn.parent_does (LoginPage.on_message sample_words sample_origin
    (LoginPage.EventOf sample_origin true (message_val auth_success))) sample_verified.

Lemma child_run s f b :
  SignIn.child s = Some (child_of s) -> IdkitPage.step (child_of s) b (f (child_of s)) ->
  SignIn.reachable sample_words sample_origin sample_search s ->
  SignIn.reachable sample_words sample_origin sample_search (child_does b f s).
Proof. intros Hc Hs Hr. eapply SignIn.then_step; [exact Hr|]. by apply (SignIn.child_moves _ _ s (child_of s)). Qed.

End sample.

Lemma sample_reachable : let _ := plain_host in SignIn.reachable sample_words sample_origin sample_search sample_done.
Proof.
  intros ho. apply (SignIn.then_step _ _ _ sample_verified).
  2: { apply (SignIn.hears_child _ _ _ (child_of sample_verified)); [by vm_compute|vm_compute; by left]. }
  apply child_run; [by vm_compute| |].
  { apply (IdkitPage.continues 0 _ sample_request); [by vm_compute..|done]. }
  apply child_run; [by vm_compute| |].
  { apply (IdkitPage.answered 0 sample_request IdkitPage.Resolved); [by vm_compute|done]. }
  apply child_run; [by vm_compute|apply IdkitPage.verifies|]. apply child_run; [by vm_compute|apply IdkitPage.configured|].
  eapply SignIn.then_step; [constructor|]. apply (SignIn.widget_opened _ _ _ (js "Mozilla/5.0 (X11)")). by vm_compute.
Qed.

