(* ===== verification/Views.v ===== *)
(** What the inbox shows: apps/web/lib/inbox/group-by-thread.ts,
    lib/agents/derive-mode.ts, lib/api/labels.ts and lib/format/messageTime.ts.

    Collation and the local time zone are the browser's: [Locale] holds them,
    and [LocaleLaws] says that [localeCompare] is an order. *)
From Stdlib Require Import Sorting.Sorted.
From S2P Require Import Prelude Utf8 JsNumber JsDate Json A2A.

Class Locale := {
  localeCompare : jstr -> jstr -> Z;
  local_date : Z -> Z * Z * Z;              (** year, month from 0, day, in the user's zone *)
  timezone_offset : Z -> Z;                 (** [getTimezoneOffset], in minutes *)
  locale_time : jstr -> Z -> jstr;          (** [toLocaleTimeString] with hours and minutes *)
  locale_date : jstr -> bool -> Z -> jstr   (** [toLocaleDateString], with the year or not *)
}.

Class LocaleLaws `{Locale} : Prop := {
  compare_flip a b : localeCompare a b <= 0 <-> 0 <= localeCompare b a;
  compare_trans a b c : localeCompare a b <= 0 -> localeCompare b c <= 0 -> localeCompare a c <= 0
}.

(** [l.sort(cmp)]: the stable sort. *)
Section sort.
Context {A : Type} (cmp : A -> A -> Z).

Fixpoint sort_insert (x : A) (l : list A) : list A :=
  match l with
  | [] => [x]
  | y :: r => if cmp x y <=? 0 then x :: l else y :: sort_insert x r
  end.

Definition sort (l : list A) : list A := foldr sort_insert [] l.

End sort.

(** ** group-by-thread.ts *)
Module Threads.

(** The fields of [MessageIndexEntry] that the views read. *)
Record MessageIndexEntry := Entry {
  id : jstr; thread_id : option jstr; created_at : jstr; status : jstr;
  sender_did : jstr; sender_label : option jstr; recipient_did : jstr; subject_encrypted : jstr;
  starred : bool; priority : jstr; trust_score : jnum;
  auto_reply_decision : option jstr; auto_reply_reason : option jstr; auto_reply_sent_at : option jstr
}.
Record ThreadGroup := Group { representative : MessageIndexEntry; messages : list MessageIndexEntry; count : nat; hasUnread : bool }.

Definition key_of (msg : MessageIndexEntry) : jstr := default (js "__singleton__:" ++ id msg) (thread_id msg).

(** [byKey]: a map in insertion order. *)
Fixpoint add_message (msg : MessageIndexEntry) (byKey : list (jstr * list MessageIndexEntry)) : list (jstr * list MessageIndexEntry) :=
  match byKey with
  | [] => [(key_of msg, [msg])]
  | (k, l) :: r => if jeqb k (key_of msg) then (k, l ++ [msg]) :: r else (k, l) :: add_message msg r
  end.

Section group.
Context `{Locale}.

Definition newest_first (a b : MessageIndexEntry) : Z := localeCompare (created_at b) (created_at a).

Definition group_of (l : list MessageIndexEntry) : list ThreadGroup :=
  let sorted := sort newest_first l in
  match sorted with
  | [] => []
  | m :: _ => [Group m sorted (length sorted) (existsb (fun m => jeqb (status m) (js "unread")) sorted)]
  end.

Definition groupMessagesByThread (ms : list MessageIndexEntry) : list ThreadGroup :=
  let byKey := fold_left (fun acc m => add_message m acc) ms [] in
  sort (fun a b => newest_first (representative a) (representative b)) (flat_map (fun kl => group_of kl.2) byKey).

End group.
End Threads.

(** ** derive-mode.ts *)
Module Mode.

Inductive AgentMode := standard | daemon_isolated | default_.
Record AgentCredential := Credential { aid : jstr; status : jstr; key_holder : jstr }.

Definition deriveAgentMode (aid_ : jstr) (credentials : list AgentCredential) : AgentMode :=
  let active := List.filter (fun c => jeqb (aid c) aid_ && jeqb (status c) (js "active")) credentials in
  if existsb (fun c => jeqb (key_holder c) (js "web_keystore")) active then standard
  else if existsb (fun c => jeqb (key_holder c) (js "signer_daemon")) active then daemon_isolated
  else default_.

End Mode.

(** ** labels.ts *)
Module Labels.

Record ContactEntry := Contact { did : jstr; person_name : jstr; agent_label : option jstr }.

Definition UNKNOWN : jstr := js "(不明な相手)".

(** [contactsByDid.get(did)]: the last contact with the did. *)
Definition indexContactsByDid (contacts : option (list ContactEntry)) : gmap jstr ContactEntry :=
  fold_left (fun m c => <[did c := c]> m) (default [] contacts) ∅.

Definition resolveParticipantLabel (did serverLabel : option jstr) (contactsByDid : option (gmap jstr ContactEntry)) : jstr :=
  match did with
  | None | Some [] => UNKNOWN
  | Some did =>
    match contactsByDid ≫= (fun m => m !! did) with
    | Some contact =>
      match trim <$> agent_label contact with
      | Some ((_ :: _) as label) => person_name contact ++ js "(" ++ label ++ js ")"
      | _ => person_name contact
      end
    | None =>
      match trim <$> serverLabel with
      | Some ((_ :: _) as trimmed) => trimmed
      | _ => if (length did <=? 18)%nat then did else take 12 did ++ js "…" ++ drop (length did - 4) did
      end
    end
  end.

End Labels.

(** ** messageTime.ts *)
Module Time.

Inductive Language := ja | en.

Section time.
Context `{Host, Locale}.

Definition padStart2 (s : jstr) : jstr := replicate (2 - length s) 48 ++ s.

Definition formatTime (date : Z) (locale : Language) : jstr :=
  locale_time (match locale with ja => js "ja-JP" | en => js "en-GB" end) date.

Definition formatMonthDay (date : Z) (locale : Language) : jstr :=
  match locale with
  | ja => let '(_, month, day) := local_date date in dec_of_Z (month + 1) ++ js "月" ++ dec_of_Z day ++ js "日"
  | en => locale_date (js "en-US") false date
  end.

Definition formatFullDate (date : Z) (locale : Language) : jstr :=
  match locale with
  | ja =>
    let '(y, month, day) := local_date date in
    dec_of_Z y ++ js "/" ++ padStart2 (dec_of_Z (month + 1)) ++ js "/" ++ padStart2 (dec_of_Z day)
  | en => locale_date (js "en-US") true date
  end.

Definition formatListTimestamp (isoText : jstr) (locale : Language) (now : Z) : jstr :=
  match date_parse isoText with
  | None => js "--:--"
  | Some date =>
    if bool_decide (local_date date = local_date now) then formatTime date locale
    else if (local_date date).1.1 =? (local_date now).1.1 then formatMonthDay date locale
    else formatFullDate date locale
  end.

End time.
End Time.

(** * Lemmas *)

Section sorting.
Context {A : Type} (cmp : A -> A -> Z).
Hypothesis total : forall a b, cmp a b <= 0 \/ cmp b a <= 0.
Hypothesis trans : forall a b c, cmp a b <= 0 -> cmp b c <= 0 -> cmp a c <= 0.

Definition ordered : list A -> Prop := StronglySorted (fun a b => cmp a b <= 0).

Lemma sort_insert_perm x l : sort_insert cmp x l ≡ₚ x :: l.
Proof.
  induction l as [|y l IH]; [done|]. cbn [sort_insert]. destruct (_ <=? _); [done|]. rewrite IH. apply Permutation_swap.
Qed.

Lemma sort_perm l : sort cmp l ≡ₚ l.
Proof. induction l as [|x l IH]; [done|]. cbn [sort foldr]. rewrite sort_insert_perm. by constructor. Qed.

Lemma sort_insert_ordered x l : ordered l -> ordered (sort_insert cmp x l).
Proof.
  unfold ordered. induction 1 as [|y l Hl IH Hy]; cbn [sort_insert]; [by repeat constructor|].
  destruct (Z.leb_spec (cmp x y) 0) as [Hc|Hc].
  - constructor; [by constructor|]. constructor; [done|]. eapply Forall_impl; [exact Hy|]. cbn. intros z Hz. by eapply trans.
  - constructor; [done|]. rewrite sort_insert_perm. constructor; [|done]. destruct (total x y); [lia|done].
Qed.

Lemma sort_ordered l : ordered (sort cmp l).
Proof. induction l as [|x l IH]; [constructor|]. by apply sort_insert_ordered. Qed.

End sorting.

Section threads.
Context `{Locale, !LocaleLaws}.
Implicit Types (byKey : list (jstr * list Threads.MessageIndexEntry)).

Lemma newest_total a b : Threads.newest_first a b <= 0 \/ Threads.newest_first b a <= 0.
Proof.
  unfold Threads.newest_first.
  destruct (Z.le_gt_cases (localeCompare (Threads.created_at b) (Threads.created_at a)) 0) as [Hl|Hl]; [by left|].
  right. apply compare_flip. lia.
Qed.

Lemma newest_trans a b c : Threads.newest_first a b <= 0 -> Threads.newest_first b c <= 0 -> Threads.newest_first a c <= 0.
Proof. unfold Threads.newest_first. intros H1 H2. by eapply compare_trans. Qed.

(** The map while the messages are read. *)
Definition keyed byKey : Prop :=
  NoDup byKey.*1 /\ Forall (fun kl => kl.2 <> [] /\ Forall (fun m => Threads.key_of m = kl.1) kl.2) byKey.

Lemma add_message_keys m byKey k : k ∈ (Threads.add_message m byKey).*1 <-> k = Threads.key_of m \/ k ∈ byKey.*1.
Proof.
  induction byKey as [|[k' l] r IH]; cbn [Threads.add_message]; [cbn; set_solver|].
  destruct (jeqb k' (Threads.key_of m)) eqn:E; [apply jeqb_true in E as ->; cbn; set_solver|].
  cbn [fmap list_fmap]. cbn. rewrite !elem_of_cons, IH. naive_solver.
Qed.

Lemma add_message_keyed m byKey : keyed byKey -> keyed (Threads.add_message m byKey).
Proof.
  intros [Hnd Hall]. induction byKey as [|[k l] r IH]; cbn [Threads.add_message].
  - split; [apply NoDup_singleton|]. repeat constructor; done.
  - apply Forall_cons in Hall as [[Hne Hk] Hall]. cbn in Hnd. apply NoDup_cons in Hnd as [Hni Hnd].
    destruct (jeqb k (Threads.key_of m)) eqn:E.
    + apply jeqb_true in E as ->. split; [by constructor|]. constructor; [|done]. split; [by destruct l|].
      apply Forall_app. split; [done|by constructor].
    + destruct (IH Hnd Hall) as [Hnd' Hall']. split; [|by constructor]. cbn. constructor; [|done].
      rewrite add_message_keys. intros [-> | Hin]; [by rewrite jeqb_refl in E|done].
Qed.

Lemma add_message_perm m byKey : concat (Threads.add_message m byKey).*2 ≡ₚ m :: concat byKey.*2.
Proof.
  induction byKey as [|[k l] r IH]; [done|]. cbn [Threads.add_message]. destruct (jeqb k _); cbn.
  - rewrite <- app_assoc. cbn. apply Permutation_sym, Permutation_middle.
  - rewrite IH. apply Permutation_sym, Permutation_middle.
Qed.

Lemma read_messages ms byKey : keyed byKey ->
  let r := fold_left (fun acc m => Threads.add_message m acc) ms byKey in
  keyed r /\ concat r.*2 ≡ₚ ms ++ concat byKey.*2.
Proof.
  revert byKey. induction ms as [|m ms IH]; intros byKey Hk; [by split|]. cbn [fold_left].
  destruct (IH (Threads.add_message m byKey)) as [H1 H2]; [by apply add_message_keyed|]. split; [exact H1|].
  rewrite H2, add_message_perm. apply Permutation_sym, Permutation_middle.
Qed.

(** What a group says of its messages. *)
Record group_ok (g : Threads.ThreadGroup) : Prop := {
  group_head : head (Threads.messages g) = Some (Threads.representative g);
  group_count : Threads.count g = length (Threads.messages g);
  group_unread : Threads.hasUnread g = true <-> Exists (fun m => Threads.status m = js "unread") (Threads.messages g);
  group_thread : Forall (fun m => Threads.key_of m = Threads.key_of (Threads.representative g)) (Threads.messages g);
  group_order : ordered Threads.newest_first (Threads.messages g)
}.

Lemma group_of_spec k l : l <> [] -> Forall (fun m => Threads.key_of m = k) l ->
  exists g, Threads.group_of l = [g] /\ group_ok g /\ Threads.messages g ≡ₚ l /\ Threads.key_of (Threads.representative g) = k.
Proof.
  intros Hne Hk. unfold Threads.group_of. pose proof (sort_perm Threads.newest_first l) as Hp.
  pose proof (sort_ordered Threads.newest_first newest_total newest_trans l) as Ho.
  destruct (sort Threads.newest_first l) as [|m r] eqn:E; [by apply Permutation_nil_l in Hp|].
  assert (Forall (fun x => Threads.key_of x = k) (m :: r)) as Hk' by by rewrite Hp.
  assert (Threads.key_of m = k) as Hm by by inversion Hk'.
  eexists. split; [reflexivity|]. split_and!; [|exact Hp|exact Hm]. split; [done|done| |cbn; by rewrite Hm|exact Ho].
  cbn [Threads.hasUnread Threads.messages]. rewrite existsb_exists, Exists_exists.
  setoid_rewrite <- list_elem_of_In. setoid_rewrite jeqb_true. done.
Qed.

Lemma groups_of_spec byKey : keyed byKey ->
  let gs := flat_map (fun kl => Threads.group_of kl.2) byKey in
  Forall group_ok gs /\ concat (map Threads.messages gs) ≡ₚ concat byKey.*2 /\
  map (fun g => Threads.key_of (Threads.representative g)) gs = byKey.*1.
Proof.
  intros [_ Hall]. induction Hall as [|[k l] r [Hne Hk] Hall (I1 & I2 & I3)]; [done|]. cbn in Hne, Hk.
  destruct (group_of_spec k l Hne Hk) as (g & E & Hg & Hp & Hkey). cbn. rewrite E. cbn. split_and!.
  - by constructor.
  - by rewrite Hp, I2.
  - by rewrite Hkey, I3.
Qed.

(** The list view.  Grouping loses and doubles no message; a group is one
    thread, newest message first, with its count and whether any is unread; no
    two groups are one thread, and they are shown by their newest message. *)
Theorem groups_partition (ms : list Threads.MessageIndexEntry) :
  let gs := Threads.groupMessagesByThread ms in
  concat (map Threads.messages gs) ≡ₚ ms /\ Forall group_ok gs /\
  NoDup (map (fun g => Threads.key_of (Threads.representative g)) gs) /\
  ordered (fun a b => Threads.newest_first (Threads.representative a) (Threads.representative b)) gs.
Proof.
  intros gs. unfold gs, Threads.groupMessagesByThread.
  destruct (read_messages ms []) as [Hk Hp]; [split; constructor|]. cbn in Hp. rewrite app_nil_r in Hp.
  destruct (groups_of_spec _ Hk) as (H1 & H2 & H3).
  match goal with |- context [sort ?c ?l] => pose proof (sort_perm c l) as Hs;
    assert (ordered c (sort c l)) as Ho by (apply sort_ordered; [intros ??; apply newest_total|intros ???; apply newest_trans]) end.
  split_and!; [| | |exact Ho].
  - etrans; [|exact Hp]. etrans; [|exact H2]. rewrite <- !flat_map_concat_map. by apply Permutation_flat_map.
  - by rewrite Hs.
  - pose proof (Permutation_map (fun g => Threads.key_of (Threads.representative g)) Hs) as Hm. rewrite Hm, H3. apply Hk.
Qed.

End threads.

(** A locale that orders texts by their length. *)
Definition plain_locale : Locale := {|
  localeCompare := fun a b => Z.of_nat (length a) - Z.of_nat (length b);
  local_date := fun _ => (1970, 0, 1); timezone_offset := fun _ => 0;
  locale_time := fun _ _ => []; locale_date := fun _ _ _ => []
|}.

#[global] Instance plain_locale_laws : LocaleLaws (H := plain_locale).
Proof. split; cbn; intros; lia. Qed.
