(* ===== verification/Propose.v ===== *)
(** Proposals and answers in the browser: apps/web/lib/protocol/candidateInput.ts,
    apps/web/app/compose/propose/page.tsx, and the response cards
    apps/web/app/_components/protocol/ScheduleNegotiationCard.tsx and
    TaskDelegationCard.tsx.

    A translated text is the translation [t] of its key and index; the
    mutation of TanStack Query that sends a message is an argument. *)
From S2P Require Import Prelude Base64 Utf8 JsNumber JsDate Json A2A Effect Node Envelope A2AReply ApiClient Browser WebKeystore WebEnvelope WebApi SendReply Views.

(** ** candidateInput.ts *)
Module Candidates.

Definition CANDIDATE_MAX_COUNT : nat := 20.

Record CandidateRow := Row { start : jstr; end_ : jstr }.

Section rows.
Context `{Host, Locale}.
Variable t : jstr -> option nat -> jstr.

(** "+09:00", for minutes east of UTC. *)
Definition offset_text (offsetMin : Z) : jstr :=
  let abs := Z.abs offsetMin in
  (if 0 <=? offsetMin then js "+" else js "-") ++
  Time.padStart2 (dec_of_Z (abs / 60)) ++ js ":" ++ Time.padStart2 (dec_of_Z (abs mod 60)).

Definition toIsoWithLocalOffset (datetimeLocal : jstr) : jstr :=
  if negb (truthy_str datetimeLocal) then []
  else
    let padded := if (length datetimeLocal =? 16)%nat then datetimeLocal ++ js ":00" else datetimeLocal in
    match date_parse padded with
    | None => []
    | Some d => padded ++ offset_text (- timezone_offset d)
    end.

(** [a <= b] on the results of [Date.parse]: false when either is [NaN]. *)
Definition time_leb (a b : option Z) : bool :=
  match a, b with Some a, Some b => a <=? b | _, _ => false end.

Definition candidate_val (s e : jstr) : jval := JObj [(js "start", JStr s); (js "end", JStr e)].

Fixpoint validate_from (i : nat) (rows : list CandidateRow) : jstr + list jval :=
  match rows with
  | [] => inr []
  | r :: rest =>
    if negb (truthy_str (start r)) || negb (truthy_str (end_ r)) then inl (t (js "a2a.counterValidationEmpty") (Some (S i)))
    else
      let s := toIsoWithLocalOffset (start r) in
      let e := toIsoWithLocalOffset (end_ r) in
      if negb (truthy_str s) || negb (truthy_str e) then inl (t (js "a2a.counterValidationInvalid") (Some (S i)))
      else if time_leb (date_parse e) (date_parse s) then inl (t (js "a2a.counterValidationOrder") (Some (S i)))
      else match validate_from (S i) rest with
           | inl err => inl err
           | inr candidates => inr (candidate_val s e :: candidates)
           end
  end.

(** The candidates, or the first error. *)
Definition validateCandidateRows (rows : list CandidateRow) : jstr + list jval :=
  match rows with
  | [] => inl (t (js "a2a.counterValidationNoCandidates") None)
  | _ => if (CANDIDATE_MAX_COUNT <? length rows)%nat then inl (t (js "a2a.counterValidationNoCandidates") None)
         else validate_from 0 rows
  end.

(** The rows of a form: added up to the cap, removed down to one. *)
Definition addRow (rows : list CandidateRow) : list CandidateRow :=
  if (CANDIDATE_MAX_COUNT <=? length rows)%nat then rows else rows ++ [Row [] []].
Definition removeRow (idx : nat) (rows : list CandidateRow) : list CandidateRow :=
  if (length rows <=? 1)%nat then rows else delete idx rows.
Definition updateRow (idx : nat) (at_start : bool) (value : jstr) (rows : list CandidateRow) : list CandidateRow :=
  alter (fun r => if at_start then Row value (end_ r) else Row (start r) value) idx rows.

End rows.
End Candidates.

(** ** compose/propose/page.tsx *)
Module ProposePage.

Inductive Kind := info | error | success.

Record Agent := AgentOf { ag_did : jstr; ag_label : jstr; ag_encryption_key : option jstr }.

(** What a render closes over, and what the handler changes. *)
Record Form := FormOf {
  apiAgents : list Agent; senderDid : jstr; recipientDid : jstr; eventTitle : jstr;
  rows : list Candidates.CandidateRow; deadline : jstr; note : jstr; hasSenderKey : bool
}.

Record Page := PageOf { p_browser : Browser; p_form : Form; p_status : option (Kind * jstr); p_pending : bool }.

Abbreviation PM := (eff Page).

Definition browser {A} (m : BM A) : PM A :=
  fun p => let '(r, b) := m (p_browser p) in (r, PageOf b (p_form p) (p_status p) (p_pending p)).
Definition setStatus (s : option (Kind * jstr)) : PM unit :=
  fun p => (Ok tt, PageOf (p_browser p) (p_form p) s (p_pending p)).
Definition setPending (b : bool) : PM unit :=
  fun p => (Ok tt, PageOf (p_browser p) (p_form p) (p_status p) b).

(** The interactive fields emptied; sender and recipient stay. *)
Definition reset_form (f : Form) : Form :=
  FormOf (apiAgents f) (senderDid f) (recipientDid f) [] [Candidates.Row [] []] [] [] (hasSenderKey f).
Definition resetFields : PM unit :=
  fun p => (Ok tt, PageOf (p_browser p) (reset_form (p_form p)) (p_status p) (p_pending p)).

Definition isAidIdentifier (value : jstr) : bool := starts_with (js "aid:ai:") value.

(** The sender once the agents are there. *)
Definition default_sender (agents : list Agent) (current : jstr) : jstr :=
  match agents with
  | [] => []
  | a :: _ => if truthy_str current && existsb (fun a => jeqb (ag_did a) current) agents then current else ag_did a
  end.

Section page.
Context `{Host, WebCrypto, Env, BrowserEnv, Locale}.
Variable t : jstr -> option nat -> jstr.
Variable sendMessage : WebApi.SeedMessage -> BM unit.

Definition submitDisabled (f : Form) (pending : bool) : bool :=
  pending || negb (truthy_str (senderDid f)) || negb (hasSenderKey f) ||
  negb (truthy_str (trim (recipientDid f))) || negb (truthy_str (trim (eventTitle f))).

Definition propose_payload (f : Form) (candidates : list jval) (responseDeadline : option jstr) : jval :=
  JObj ([(js "event_title", JStr (trim (eventTitle f))); (js "candidates", JArr candidates);
         (js "required_participants", JArr [])] ++
        match responseDeadline with Some d => [(js "response_deadline", JStr d)] | None => [] end).

(** The checks before anything is sent: the payload, or the error to show. *)
Definition checked_payload (f : Form) : jstr + jval :=
  match Candidates.validateCandidateRows t (rows f) with
  | inl err => inl err
  | inr candidates =>
    let iso := Candidates.toIsoWithLocalOffset (deadline f) in
    if truthy_str (deadline f) && negb (truthy_str iso) then inl (t (js "a2a.proposeValidationDeadline") None)
    else
      let payload := propose_payload f candidates (if truthy_str (deadline f) then Some iso else None) in
      match assertValidScheduleNegotiationPayload propose payload with
      | Ok _ => inr payload
      | Throw e => inl (err_message e)
      end
  end.

Definition find_agent (agents : list Agent) (did : jstr) : option Agent :=
  List.find (fun a => jeqb (ag_did a) did) agents.

(** The guarded part of [onSubmit]. *)
Definition send_proposal (f : Form) (payload : jval) : PM unit :=
  setStatus (Some (info, t (js "a2a.proposeStatusEncrypting") None)) ;;
  let recipientInput := trim (recipientDid f) in
  resolved ← (if isAidIdentifier recipientInput || starts_with (js "did:key:") recipientInput
              then browser (WebApi.resolveRecipient WebApi.defaultApiClient recipientInput) else mret JNull);
  let recipientAddress := nullish_or (optional_prop resolved (js "did")) (JStr recipientInput) in
  let recipientEncKey := nullish_or (optional_prop resolved (js "encryption_public_key"))
    (match find_agent (apiAgents f) recipientInput ≫= ag_encryption_key with Some k => JStr k | None => JUndef end) in
  if negb (jtruthy recipientEncKey) then
    setStatus (Some (error, t (js "a2a.proposeValidationNoEncKey") None)) ;; setPending false
  else
    signingPrivateKey ← browser (SigningKeyring.getSigningPrivateKey (senderDid f));
    match signingPrivateKey with
    | None => setStatus (Some (error, t (js "a2a.proposeKeyMissing") None)) ;; setPending false
    | Some signingPrivateKey =>
      id ← browser browser_uuidv7;
      let block := ProtocolBlock id schedule_negotiation propose None payload in
      let text := if truthy_str (trim (note f)) then trim (note f) else trim (eventTitle f) in
      let serialised := json_stringify (message_to_val text (Some block)) in
      contentKey ← browser (host WebText.generateContentKey);
      message ← browser
        (encSubject ← host (WebText.encryptEnvelopeText (trim (eventTitle f)) (Some contentKey));
         encBody ← host (WebText.encryptEnvelopeText serialised (Some contentKey));
         wrapped ← host (KeyWrap.wrapContentKeyForRecipient contentKey recipientEncKey);
         signature ← lift (Signature.signEnvelopePayload signingPrivateKey (JStr (senderDid f)) recipientAddress
           (WebText.serialized encSubject) (WebText.serialized encBody) (KeyWrap.wrappedKey wrapped) (WebText.et_nonce encBody));
         mret (WebApi.Seed (JStr (senderDid f)) recipientAddress (WebText.serialized encSubject)
           (WebText.serialized encBody) (KeyWrap.wrappedKey wrapped) (WebText.et_nonce encBody) signature
           JNull [] (Some A2A_CONTENT_TYPE) None));
      setStatus (Some (info, t (js "a2a.proposeStatusSending") None)) ;;
      browser (sendMessage message) ;;
      setStatus (Some (success, t (js "a2a.proposeStatusSent") None)) ;; resetFields
    end.

(** [onSubmit] of a render with the form [f]. *)
Definition onSubmit (f : Form) : PM unit :=
  setStatus None ;;
  match checked_payload f with
  | inl message => setStatus (Some (error, message))
  | inr payload =>
    setPending true ;;
    try_catch (send_proposal f payload) (fun err => setStatus (Some (error, err_message err))) ;;
    setPending false
  end.

End page.
End ProposePage.

(** ** The response cards *)
Module Cards.

Inductive Pending := idle | accepting | declining | countering | done_.
#[global] Instance pending_eq_dec : EqDecision Pending.
Proof. solve_decision. Defined.

(** [asked]: the replies handed to [onRespond], newest first, each with whether
    its promise has settled, and how. *)
Record Card := CardOf {
  pending : Pending; error : option jstr; counterOpen : bool; asked : list (A2ARespondPayload * option bool)
}.

Definition mounted : Card := CardOf idle None false [].

Definition busy (c : Card) : bool := negb (bool_decide (pending c = idle)).

(** [readOnly || expired || busy]; a task card has no deadline to expire. *)
Definition disabled (readOnly expired : bool) (c : Card) : bool := readOnly || expired || busy c.

(** A handler up to its [await], when there is an [onRespond]; the user may
    refuse the confirmation. *)
Definition respond (readOnly expired confirmed : bool) (p : Pending) (reply : A2ARespondPayload) (c : Card) : Card :=
  if disabled readOnly expired c then c
  else if negb confirmed then c
  else CardOf p None (counterOpen c) ((reply, None) :: asked c).

Definition onAccept (readOnly expired confirmed : bool) (candidate : jval) : Card -> Card :=
  respond readOnly expired confirmed accepting (Reply RAccept (Some candidate) None None None None).
Definition onDecline (readOnly expired confirmed : bool) : Card -> Card :=
  respond readOnly expired confirmed declining (Reply RDecline None None None None None).
Definition onCounterSubmit (readOnly expired confirmed : bool) (candidates : list jval) (reason : option jstr) : Card -> Card :=
  respond readOnly expired confirmed countering (Reply RCounter None (Some candidates) reason None None).

(** The task card's handlers. *)
Definition onAcceptTask (readOnly confirmed : bool) : Card -> Card :=
  respond readOnly false confirmed accepting (Reply RAccept None None None None None).
Definition onDeclineTask (readOnly confirmed : bool) : Card -> Card :=
  respond readOnly false confirmed declining (Reply RDecline None None None None None).

(** The rest of a handler, once the reply's promise settled. *)
Definition settle (n : nat) (reply : A2ARespondPayload) (failure : option jstr) (c : Card) : Card :=
  let asked' := <[n := (reply, Some (match failure with None => true | Some _ => false end))]> (asked c) in
  match failure with
  | None => CardOf done_ (error c) (match rp_action reply with RCounter => false | _ => counterOpen c end) asked'
  | Some message => CardOf idle (Some message) (counterOpen c) asked'
  end.

Definition toggleCounter (readOnly expired : bool) (c : Card) : Card :=
  if disabled readOnly expired c then c else CardOf (pending c) (error c) (negb (counterOpen c)) (asked c).
Definition cancelCounter (readOnly expired : bool) (c : Card) : Card :=
  if disabled readOnly expired c then c else CardOf (pending c) (error c) false (asked c).

(** The counter form's [handleSubmit]: the error it shows, or what it submits. *)
Definition handleSubmit `{Host, Locale} (t : jstr -> option nat -> jstr) (rows : list Candidates.CandidateRow) (reason : jstr)
    : jstr + (list jval * option jstr) :=
  match Candidates.validateCandidateRows t rows with
  | inl err => inl err
  | inr candidates => inr (candidates, if truthy_str (trim reason) then Some (trim reason) else None)
  end.

(** What can happen to a card.  The deadline may pass at any render. *)
Inductive step (readOnly : bool) : Card -> Card -> Prop :=
| accepts expired confirmed candidate c : step readOnly c (onAccept readOnly expired confirmed candidate c)
| declines expired confirmed c : step readOnly c (onDecline readOnly expired confirmed c)
| counters expired confirmed candidates reason c : step readOnly c (onCounterSubmit readOnly expired confirmed candidates reason c)
| accepts_task confirmed c : step readOnly c (onAcceptTask readOnly confirmed c)
| declines_task confirmed c : step readOnly c (onDeclineTask readOnly confirmed c)
| settles n reply failure c : asked c !! n = Some (reply, None) -> step readOnly c (settle n reply failure c)
| toggles expired c : step readOnly c (toggleCounter readOnly expired c)
| cancels expired c : step readOnly c (cancelCounter readOnly expired c).

Inductive reachable (readOnly : bool) : Card -> Prop :=
| at_mount : reachable readOnly mounted
| then_step c c' : reachable readOnly c -> step readOnly c c' -> reachable readOnly c'.

End Cards.

(** * Lemmas *)

(** ** The candidate form *)

Section candidates.
Context `{Host, Locale}.
Variable t : jstr -> option nat -> jstr.
Implicit Types (rows : list Candidates.CandidateRow).

Definition row_units (r : Candidates.CandidateRow) : Prop :=
  Forall unit_ok (Candidates.start r) /\ Forall unit_ok (Candidates.end_ r).

(** The candidate made of a row. *)
Definition candidate_of (r : Candidates.CandidateRow) (c : jval) : Prop :=
  let s := Candidates.toIsoWithLocalOffset (Candidates.start r) in
  let e := Candidates.toIsoWithLocalOffset (Candidates.end_ r) in
  s <> [] /\ e <> [] /\ c = Candidates.candidate_val s e /\ Candidates.time_leb (date_parse e) (date_parse s) = false.

Lemma truthy_nonempty s : negb (truthy_str s) = false -> s <> [].
Proof. by destruct s. Qed.

Lemma validate_from_spec i rows cs :
  Candidates.validate_from t i rows = inr cs -> Forall2 candidate_of rows cs.
Proof.
  revert i cs. induction rows as [|r rows IH]; intros i cs E; cbn [Candidates.validate_from] in E.
  - injection E as <-. constructor.
  - destruct (_ || _); [done|]. destruct (negb (truthy_str (Candidates.toIsoWithLocalOffset (Candidates.start r))) || _) eqn:En; [done|].
    apply orb_false_iff in En as [En1 En2]. destruct (Candidates.time_leb _ _) eqn:El; [done|].
    destruct (Candidates.validate_from t (S i) rows) as [|l] eqn:Er; [done|]. injection E as <-.
    constructor; [|by eapply IH]. split_and!; [by apply truthy_nonempty|by apply truthy_nonempty|done|done].
Qed.

Lemma validateCandidateRows_spec rows cs :
  Candidates.validateCandidateRows t rows = inr cs -> Forall2 candidate_of rows cs /\ (1 <= length cs <= 20)%nat.
Proof.
  unfold Candidates.validateCandidateRows. destruct rows as [|r rows]; [done|].
  destruct (Nat.ltb_spec Candidates.CANDIDATE_MAX_COUNT (length (r :: rows))) as [|Hl]; [done|].
  intros E%validate_from_spec. split; [done|]. apply Forall2_length in E. unfold Candidates.CANDIDATE_MAX_COUNT in Hl. cbn in *. lia.
Qed.

Lemma padStart2_ascii z : ascii_text (Time.padStart2 (dec_of_Z z)).
Proof. unfold Time.padStart2. apply Forall_app. split; [apply Forall_replicate; lia|apply dec_of_Z_ascii]. Qed.

Lemma iso_units s : Forall unit_ok s -> Forall unit_ok (Candidates.toIsoWithLocalOffset s).
Proof.
  intros Hs. unfold Candidates.toIsoWithLocalOffset. destruct (negb _); [constructor|].
  assert (Forall unit_ok (if (length s =? 16)%nat then s ++ js ":00" else s)) as Hp.
  { destruct (_ =? _)%nat; [|done]. apply Forall_app. split; [done|]. apply forallb_units. by vm_compute. }
  destruct (date_parse _) as [d|]; [|constructor]. apply Forall_app. split; [exact Hp|].
  unfold Candidates.offset_text. apply Forall_app. split; [destruct (_ <=? _); apply forallb_units; by vm_compute|].
  apply ascii_units. apply Forall_app. split; [apply padStart2_ascii|]. apply Forall_app. split; [|apply padStart2_ascii].
  apply (bool_decide_eq_true_1 (ascii_text _)). by vm_compute.
Qed.

Lemma json_str s : Forall unit_ok s -> json_okb (JStr s) = true.
Proof. intros Hs. cbn. apply forallb_forall. intros u Hu. rewrite Forall_forall in Hs. apply list_elem_of_In, Hs in Hu.
  unfold unit_ok in Hu. unfold unit_okb. apply andb_true_iff. rewrite Z.leb_le, Z.ltb_lt. lia. Qed.

Lemma candidate_val_json s e : Forall unit_ok s -> Forall unit_ok e -> json_okb (Candidates.candidate_val s e) = true.
Proof. intros Hs%json_str He%json_str. cbn in *. by rewrite Hs, He. Qed.

Lemma candidates_json rows cs : Forall2 candidate_of rows cs -> Forall row_units rows -> json_okb (JArr cs) = true.
Proof.
  intros H2 Hu. cbn. apply forallb_forall. intros c Hc. apply list_elem_of_In in Hc.
  apply list_elem_of_lookup in Hc as [i Hi]. eapply Forall2_lookup_r in H2 as (r & Hr & (_ & _ & -> & _)); [|exact Hi].
  eapply Forall_lookup_1 in Hu as [H1 H3]; [|exact Hr]. apply candidate_val_json; by apply iso_units.
Qed.

End candidates.

(** ** The cards *)

Section cards.
Implicit Types (c : Cards.Card).

Definition in_flight c : nat := length (filter (fun x : A2ARespondPayload * option bool => x.2 = None) (Cards.asked c)).
Definition accepted_replies c : nat := length (filter (fun x : A2ARespondPayload * option bool => x.2 = Some true) (Cards.asked c)).

Definition awaiting (p : Cards.Pending) : Prop := p = Cards.accepting \/ p = Cards.declining \/ p = Cards.countering.

(** A card shows what became of its replies. *)
Record card_ok (readOnly : bool) c : Prop := {
  ok_flight : (awaiting (Cards.pending c) /\ in_flight c = 1 \/ ~ awaiting (Cards.pending c) /\ in_flight c = 0)%nat;
  ok_done : (Cards.pending c = Cards.done_ /\ accepted_replies c = 1 \/ Cards.pending c <> Cards.done_ /\ accepted_replies c = 0)%nat;
  ok_read_only : readOnly = true -> Cards.asked c = []
}.

Lemma length_filter_insert {A} (P : A -> Prop) `{!forall x, Decision (P x)} (l : list A) n x y :
  l !! n = Some y ->
  (length (filter P (<[n := x]> l)) + (if decide (P y) then 1 else 0) = length (filter P l) + (if decide (P x) then 1 else 0))%nat.
Proof.
  revert n. induction l as [|z l IH]; intros [|n] Hn; try done; cbn in Hn.
  - injection Hn as ->. cbn. do 2 case_decide; cbn; lia.
  - specialize (IH n Hn). cbn. destruct (decide (P z)); cbn [length]; [|exact IH]. change (S (length (filter P (<[n:=x]> l))) + (if decide (P y) then 1 else 0) = S (length (filter P l)) + (if decide (P x) then 1 else 0))%nat. lia.
Qed.

Lemma respond_ok readOnly expired confirmed p reply c : awaiting p ->
  card_ok readOnly c -> card_ok readOnly (Cards.respond readOnly expired confirmed p reply c).
Proof.
  intros Hp [Hf Hd Hr]. unfold Cards.respond, Cards.disabled, Cards.busy.
  destruct readOnly; [by split|]. destruct expired; [by split|]. case_bool_decide as Hidle; [|by split]. destruct confirmed; [|by split].
  cbn [orb negb]. rewrite Hidle in *.
  assert (in_flight c = 0%nat) as F0 by (destruct Hf as [[[?|[?|?]] _]|[_ ?]]; done).
  assert (accepted_replies c = 0%nat) as A0 by (destruct Hd as [[? _]|[_ ?]]; done). split; [| |done].
  - left. split; [done|]. unfold in_flight in *. cbn [Cards.asked]. rewrite filter_cons_True by done. cbn. by rewrite F0.
  - right. split; [by destruct Hp as [-> |[-> | ->]]|]. unfold accepted_replies in *. cbn [Cards.asked]. by rewrite filter_cons_False.
Qed.

Lemma settle_ok readOnly n reply failure c : Cards.asked c !! n = Some (reply, None) ->
  card_ok readOnly c -> card_ok readOnly (Cards.settle n reply failure c).
Proof.
  intros Hn [Hf Hd Hr].
  pose proof (length_filter_insert (fun x : A2ARespondPayload * option bool => x.2 = None) _ n
    (reply, Some (match failure with None => true | Some _ => false end)) _ Hn) as L1.
  pose proof (length_filter_insert (fun x : A2ARespondPayload * option bool => x.2 = Some true) _ n
    (reply, Some (match failure with None => true | Some _ => false end)) _ Hn) as L2. cbn [snd] in L1, L2.
  rewrite decide_True, decide_False in L1 by done. rewrite (decide_False (P := None = Some true)) in L2 by done.
  unfold in_flight, accepted_replies in Hf, Hd.
  assert (awaiting (Cards.pending c)) as Ha by (destruct Hf as [[? _]|[_ F0]]; [done|lia]).
  assert (Cards.pending c <> Cards.done_) as Hnd by (by destruct Ha as [-> |[-> | ->]]).
  destruct Hf as [[_ F1]|[? _]]; [|done]. destruct Hd as [[? _]|[_ A0]]; [done|].
  split.
  - right. destruct failure; (split; [by intros [?|[?|?]]|]); unfold in_flight; cbn [Cards.settle Cards.asked]; lia.
  - destruct failure as [m|]; [right|left]; (split; [done|]); unfold accepted_replies; cbn [Cards.settle Cards.asked];
      [rewrite decide_False in L2 by done|rewrite decide_True in L2 by done]; lia.
  - intros Hro. rewrite (Hr Hro) in Hn. by rewrite lookup_nil in Hn.
Qed.

Lemma card_step_ok readOnly c c' : Cards.step readOnly c c' -> card_ok readOnly c -> card_ok readOnly c'.
Proof.
  unfold awaiting. intros Hs Hc. destruct Hs.
  all: try (apply respond_ok; [unfold awaiting; tauto|done]).
  - by apply settle_ok.
  - unfold Cards.toggleCounter. destruct (Cards.disabled _ _ _); [done|]. by destruct Hc; split.
  - unfold Cards.cancelCounter. destruct (Cards.disabled _ _ _); [done|]. by destruct Hc; split.
Qed.

(** A card answers once.  Whatever is clicked, confirmed and refused, and
    whenever its replies settle, a card has at most one reply under way, and
    none once one was sent; a read-only card hands none over. *)
Theorem card_answers_once readOnly c : Cards.reachable readOnly c ->
  (in_flight c + accepted_replies c <= 1)%nat /\ (readOnly = true -> Cards.asked c = []) /\
  (accepted_replies c = 1%nat -> forall expired, Cards.disabled readOnly expired c = true).
Proof.
  intros Hr. assert (card_ok readOnly c) as [Hf Hd Hro].
  { induction Hr as [|c c' _ IH Hs]; [|by eapply card_step_ok].
    split; [right; split; [by intros [?|[?|?]]|done]|by right|done]. }
  split_and!; [|done|].
  - destruct Hd as [[Hp ->]|[_ ->]]; destruct Hf as [[Ha ->]|[_ ->]]; try lia. rewrite Hp in Ha. by destruct Ha as [?|[?|?]].
  - intros Ha expired. destruct Hd as [[Hp _]|[_ A0]]; [|lia]. unfold Cards.disabled, Cards.busy. rewrite Hp. apply orb_true_r.
Qed.

End cards.

(** ** A proposal arrives *)

Section proposing.
Context `{Host, WebCrypto, !WebCryptoLaws, Env, !EnvLaws, BrowserEnv, Locale}.
Variable t : jstr -> option nat -> jstr.
Variable send : WebApi.SeedMessage -> BM unit.

Definition with_browser (b : Browser) (p : ProposePage.Page) : ProposePage.Page :=
  ProposePage.PageOf b (ProposePage.p_form p) (ProposePage.p_status p) (ProposePage.p_pending p).

Lemma propose_browser {A} (m : BM A) p r b : m (ProposePage.p_browser p) = (r, b) ->
  ProposePage.browser m p = (r, with_browser b p).
Proof. intros E. unfold ProposePage.browser. by rewrite E. Qed.

(** A checked payload meets the protocol's specification and carries the rows. *)
Lemma checked_payload_spec f payload : ProposePage.checked_payload t f = inr payload ->
  Forall row_units (ProposePage.rows f) -> Forall unit_ok (trim (ProposePage.eventTitle f)) ->
  Forall unit_ok (ProposePage.deadline f) ->
  valid_payload schedule_negotiation propose payload /\ json_okb payload = true /\ is_object payload = true /\
  exists cs, jget payload (js "candidates") = JArr cs /\ Forall2 candidate_of (ProposePage.rows f) cs.
Proof.
  unfold ProposePage.checked_payload. destruct (Candidates.validateCandidateRows t _) as [|cs] eqn:Ec; [done|].
  apply validateCandidateRows_spec in Ec as [Hcs _]. destruct (_ && _); [done|].
  set (d := if truthy_str (ProposePage.deadline f) then _ else None).
  destruct (assertValidScheduleNegotiationPayload _ _) as [[]|] eqn:Ea; [|done]. intros [= <-] Hrows Htitle Hdl.
  apply propose_spec in Ea. pose proof (candidates_json _ _ Hcs Hrows) as Hj.
  assert (forall d', d = Some d' -> Forall unit_ok d') as Hd.
  { unfold d. destruct (truthy_str _); [|done]. intros d' [= <-]. by apply iso_units. }
  split; [exact Ea|]. split; [|split; [done|by exists cs]]. unfold ProposePage.propose_payload.
  pose proof (json_str _ Htitle) as Ht. cbn in Hj, Ht.
  destruct d as [d'|]; [pose proof (json_str _ (Hd d' eq_refl)) as Hd'; cbn in Hd'|]; cbn; rewrite ?Ht, ?Hj, ?Hd'; by vm_compute.
Qed.

Lemma checked_payload_title f payload : ProposePage.checked_payload t f = inr payload ->
  jget payload (js "event_title") = JStr (trim (ProposePage.eventTitle f)).
Proof.
  unfold ProposePage.checked_payload. destruct (Candidates.validateCandidateRows t _); [done|]. destruct (_ && _); [done|].
  destruct (assertValidScheduleNegotiationPayload _ _); [|done]. by intros [= <-].
Qed.

Definition submitting (p : ProposePage.Page) (b : Browser) : ProposePage.Page :=
  ProposePage.PageOf b (ProposePage.p_form p) (Some (ProposePage.info, t (js "a2a.proposeStatusSending") None)) true.

(** A proposal reaches its recipient.  When the form's checks pass, the
    directory gives the public half of a key pair for the recipient, and the
    page holds the sender's signing key, submitting hands the mutation exactly
    one message; the recipient's key opens it to the title and to a valid
    schedule proposal with the form's candidates in order, in the user's own
    offset, and the signature verifies.  The form is emptied if and only if the
    mutation succeeds, and it is never left pending. *)
Theorem proposal_delivered (f : ProposePage.Form) (p : ProposePage.Page) (payload : jval)
    (resolved : list (jstr * jval)) (did : jstr) (priv signing : bytes) (b1 b2 : Browser) :
  ProposePage.checked_payload t f = inr payload ->
  Forall row_units (ProposePage.rows f) -> Forall unit_ok (ProposePage.deadline f) ->
  text_ok (trim (ProposePage.eventTitle f)) -> Forall unit_ok (trim (ProposePage.note f)) ->
  let input := trim (ProposePage.recipientDid f) in
  ProposePage.isAidIdentifier input || starts_with (js "did:key:") input = true ->
  WebApi.resolveRecipient WebApi.defaultApiClient input (ProposePage.p_browser p) = (Ok (JObj resolved), b1) ->
  jget (JObj resolved) (js "did") = JStr did -> jget (JObj resolved) (js "encryption_public_key") = public_key_val priv ->
  SigningKeyring.getSigningPrivateKey (ProposePage.senderDid f) b1 = (Ok (Some (PrivateKey Ed25519 signing)), b2) ->
  exists m b3 block summary,
    ProposePage.onSubmit t send f p =
      (let '(r, b4) := send m b3 in
       (Ok tt, match r with
               | Ok _ => ProposePage.PageOf b4 (ProposePage.reset_form (ProposePage.p_form p))
                           (Some (ProposePage.success, t (js "a2a.proposeStatusSent") None)) false
               | Throw e => ProposePage.PageOf b4 (ProposePage.p_form p) (Some (ProposePage.error, err_message e)) false
               end)) /\
    delivers m priv (trim (ProposePage.eventTitle f)) summary block /\ signed_by m signing /\
    block_type block = schedule_negotiation /\ block_action block = propose /\ block_reply_to block = None /\
    valid_payload schedule_negotiation propose (block_payload block) /\
    jget (block_payload block) (js "event_title") = JStr (trim (ProposePage.eventTitle f)) /\
    (exists cs, jget (block_payload block) (js "candidates") = JArr cs /\ Forall2 candidate_of (ProposePage.rows f) cs) /\
    WebApi.sm_senderDid m = JStr (ProposePage.senderDid f) /\ WebApi.sm_recipientDid m = JStr did.
Proof.
  intros Hc Hrows Hdl Htitle Hnote input Hin Hres Hdid Hkey Hsign.
  destruct (checked_payload_spec f payload Hc Hrows (proj1 Htitle) Hdl) as (Hv & Hj & Ho & Hcs).
  unfold ProposePage.onSubmit. erewrite bind_ok by reflexivity. rewrite Hc. erewrite bind_ok by reflexivity.
  assert (exists m b3 block summary,
    ProposePage.send_proposal t send f payload (ProposePage.PageOf (ProposePage.p_browser p) (ProposePage.p_form p) None true)
    = (ProposePage.browser (send m) ;; ProposePage.setStatus (Some (ProposePage.success, t (js "a2a.proposeStatusSent") None)) ;;
       ProposePage.resetFields) (submitting p b3) /\
    delivers m priv (trim (ProposePage.eventTitle f)) summary block /\ signed_by m signing /\
    block_type block = schedule_negotiation /\ block_action block = propose /\ block_reply_to block = None /\ block_payload block = payload /\
    WebApi.sm_senderDid m = JStr (ProposePage.senderDid f) /\ WebApi.sm_recipientDid m = JStr did)
    as (m & b3 & block & summary & E & Hd & Hs & K1 & K2 & K3 & K4 & K5 & K6).
  2: { exists m, b3, block, summary. split; [|rewrite K4; split_and!; try done; by eapply checked_payload_title].
       unfold try_catch, mbind, eff_bind in *. cbn [ProposePage.p_browser ProposePage.p_form ProposePage.p_status ProposePage.p_pending] in *. rewrite E. unfold ProposePage.browser. cbn [ProposePage.p_browser submitting].
       destruct (send m b3) as [[[]|e] b4]; reflexivity. }
  unfold ProposePage.send_proposal. erewrite bind_ok by reflexivity. cbv zeta. fold input. rewrite Hin.
  erewrite bind_ok by (apply propose_browser; exact Hres). cbn [optional_prop]. rewrite Hdid, Hkey. cbn [nullish_or].
  assert (jtruthy (public_key_val priv) = true) as Ht by (apply b64_nonempty_truthy; [apply key_public_bytes|eapply nonempty_length, key_public_length]).
  change (nullish_or (public_key_val priv) ?x) with (public_key_val priv).
  rewrite Ht. cbn [negb]. erewrite bind_ok by (apply propose_browser; exact Hsign).
  destruct (browser_uuidv7_ok b2) as (id & b3 & E3 & Hid & Hidu). erewrite bind_ok by (apply propose_browser; exact E3). cbv zeta.
  set (summary := if truthy_str (trim (ProposePage.note f)) then _ else _). set (block := ProtocolBlock _ _ _ _ payload).
  assert (Forall unit_ok summary) as Hsum by (unfold summary; destruct (truthy_str _); [done|apply Htitle]).
  assert (block_ok block /\ block_json_ok block) as Hb.
  { split; [|by split_and!]. split; [by apply uuid_test_nonempty|]. by split. }
  assert (text_ok (json_stringify (message_to_val summary (Some block)))) as Hraw by (apply json_text_ok, message_to_val_json; [done|apply Hb]).
  destruct (web_content_key (b_node b3)) as (k & w4 & E4 & Hk & Hkn).
  erewrite bind_ok by (apply propose_browser, host_ok; exact E4).
  edestruct (seal_message k (trim (ProposePage.eventTitle f)) (json_stringify (message_to_val summary (Some block))) priv signing
    (JStr (ProposePage.senderDid f)) (JStr did) JNull (Some A2A_CONTENT_TYPE) None (with_node w4 b3) (fun m b => (Ok m, b)))
    as (m & b5 & E5 & L5 & D5 & S5 & F1 & F2 & F3 & F4 & F5); [done|done|done|exact Hraw|].
  erewrite bind_ok by (apply propose_browser; exact E5). erewrite bind_ok by reflexivity.
  exists m, b5, block, summary. split; [reflexivity|]. split_and!; try done.
  eexists. split; [exact L5|]. split; [exact Hraw|]. split; [exact D5|]. rewrite F4. by apply (message_roundtrip summary (Some block)).
Qed.

End proposing.

(** A browser in Tokyo. *)
Definition tokyo_host : Host := {|
  host_base64_lenient := fun _ => [];
  host_date_parse := fun s => iso_time <$> parse_iso (s ++ js "+09:00")
|}.
Definition tokyo : Locale := {|
  localeCompare := fun a b => if str_ltb a b then -1 else if str_ltb b a then 1 else 0;
  local_date := fun ms => (year_of_day ((ms + 32400000) / 86400000), 0, 1);
  timezone_offset := fun _ => -540;
  locale_time := fun _ _ => []; locale_date := fun _ _ _ => []
|}.

Definition sample_form : ProposePage.Form :=
  ProposePage.FormOf [] (js "did:key:zV") (js " did:key:zP ") (js "Review ") 
    [Candidates.Row (js "2026-05-04T15:00") (js "2026-05-04T16:00")] [] [] true.

Definition sample_keys (key : jstr) (_ : option nat) : jstr := key.

Example proposal_delivered_witness :
  let _ := tokyo_host in let _ := tokyo in
  let _ := reply_env (json_stringify (JObj sample_directory)) in let _ := open_browser in
  exists m block summary, delivers m (replicate 32 9) (js "Review") summary block /\ signed_by m (replicate 32 5) /\
    jget (block_payload block) (js "candidates") =
      JArr [Candidates.candidate_val (js "2026-05-04T15:00:00+09:00") (js "2026-05-04T16:00:00+09:00")].
Proof.
  intros ho lo en br.
  pose (b := with_ring SigningRing (Ring {[js "did:key:zV" := PrivateKey Ed25519 (replicate 32 5)]} true) new_profile).
  pose (p := ProposePage.PageOf b sample_form None false).
  pose (send := fun m => WebApi.seedMessage WebApi.defaultApiClient m ;; mret tt).
  destruct (WebApi.resolveRecipient WebApi.defaultApiClient (trim (ProposePage.recipientDid sample_form)) b) as [r b1] eqn:E.
  assert (r = Ok (JObj sample_directory) /\
    SigningKeyring.getSigningPrivateKey (ProposePage.senderDid sample_form) b1 = (Ok (Some (PrivateKey Ed25519 (replicate 32 5))), b1)) as [-> E2].
  { vm_compute in E. injection E as <- <-. split; reflexivity. }
  destruct (ProposePage.checked_payload sample_keys sample_form) as [err|payload] eqn:Ec; [by vm_compute in Ec|].
  destruct (proposal_delivered sample_keys send sample_form p payload sample_directory (js "did:key:zP") (replicate 32 9) (replicate 32 5) b1 b1)
    as (m & b3 & block & summary & _ & D & S & _ & _ & _ & _ & _ & (cs & Hcs & F) & _).
  - exact Ec.
  - constructor; [split; apply forallb_units; by vm_compute|constructor].
  - apply forallb_units. by vm_compute.
  - apply (bool_decide_eq_true_1 (text_ok _)). by vm_compute.
  - apply forallb_units. by vm_compute.
  - by vm_compute.
  - exact E.
  - reflexivity.
  - reflexivity.
  - exact E2.
  - assert (trim (ProposePage.eventTitle sample_form) = js "Review") as Et by by vm_compute. rewrite Et in D.
    exists m, block, summary. split; [exact D|]. split; [exact S|]. rewrite Hcs.
    inversion F as [|r c rs cs' (_ & _ & -> & _) F']; subst. inversion F'; subst. by vm_compute.
Defined.
