(* ===== verification/Llm.v ===== *)
(** Drafts by the user's own language model: apps/web/lib/llm/llmAuth.ts,
    anthropicDraft.ts, and the compose page's use of them
    (apps/web/app/compose/page.tsx, runDraftGeneration).

    The name of an [AnthropicDraftError] is the class with its code. *)
From S2P Require Import Prelude Utf8 JsNumber Json JsDate A2A Effect Node Envelope ApiClient Browser WebKeystore WebEnvelope WebApi.

(** ** llmAuth.ts *)
Module LlmAuth.

Definition STORE : jstr := js "keys".
Definition RECORD_KEY : jstr := js "primary".
Definition DEFAULT_ANTHROPIC_MODEL : jstr := js "claude-haiku-4-5".

Record StoredLLMKey := LLMKey { provider : jstr; api_key : jstr; model : jstr; created_at : Z }.

(** The page and the record of the database "nexusinbox-llm". *)
Record Llm := LlmOf { l_browser : Browser; l_key : option StoredLLMKey }.

Abbreviation LM := (eff Llm).

Definition in_browser_ {A} (m : BM A) : LM A :=
  fun l => let '(r, b) := m (l_browser l) in (r, LlmOf b (l_key l)).
Definition set_key (k : option StoredLLMKey) : LM unit := fun l => (Ok tt, LlmOf (l_browser l) k).

Section auth.
Context `{Host, Env, BrowserEnv}.

Definition dbGet : LM (option StoredLLMKey) :=
  in_browser_ (idb_call (IdbGet STORE RECORD_KEY)) ;; l ← get_state; mret (l_key l).
Definition dbPut (entry : StoredLLMKey) : LM unit :=
  in_browser_ (idb_call (IdbPut STORE RECORD_KEY)) ;; set_key (Some entry).
Definition dbDelete : LM unit :=
  in_browser_ (idb_call (IdbDelete STORE RECORD_KEY)) ;; set_key None.

Definition saveLLMKey (provider_ : option jstr) (apiKey_ : jstr) (model_ : option jstr) : LM StoredLLMKey :=
  if negb isBrowser then raise (Error_ (js "LLM key storage requires a browser"))
  else
    let apiKey := trim apiKey_ in
    raise_if (negb (truthy_str apiKey)) (Error_ (js "API key is empty")) ;;
    now ← in_browser_ (host now_ms);
    let entry := LLMKey (default (js "anthropic") provider_) apiKey
      (match trim <$> model_ with Some ((_ :: _) as m) => m | _ => DEFAULT_ANTHROPIC_MODEL end) now in
    dbPut entry ;; mret entry.

Definition getLLMKey : LM (option StoredLLMKey) :=
  if negb isBrowser then mret None else try_catch dbGet (fun _ => mret None).

Definition isLLMConnected : LM bool :=
  entry ← getLLMKey;
  mret match entry with Some e => truthy_str (api_key e) | None => false end.

Definition disconnectLLM : LM unit :=
  if negb isBrowser then mret tt else try_catch dbDelete (fun _ => mret tt).

Definition getLLMKeyFingerprint : LM (option jstr) :=
  entry ← getLLMKey;
  mret match entry with
       | Some e => Some (js "•••" ++ drop (length (api_key e) - 4) (api_key e))
       | None => None
       end.

End auth.
End LlmAuth.

(** ** anthropicDraft.ts *)
Module Draft.

Definition ANTHROPIC_URL : jstr := js "https://api.anthropic.com/v1/messages".
Definition ANTHROPIC_VERSION : jstr := js "2023-06-01".
Definition DEFAULT_MAX_TOKENS : Z := 512.
Definition nl : jstr := [10].

Definition BASE_SYSTEM_PROMPT : jstr :=
  join_with nl
    [js "You are drafting a reply to an incoming message on the user's behalf.";
     js "The reply will be shown to the user for review and editing before sending.";
     [];
     js "- Be concise.";
     js "- Match the tone of the incoming message.";
     js "- Do not commit to specific actions (dates, payments, tasks) unless the incoming message clearly requested them.";
     js "- If the message is ambiguous, err on the side of asking a clarifying question.";
     js "- Write in the same language as the incoming message.";
     js "- Output only the reply text itself — no preamble, no explanation, no markdown code fences."].

Inductive DraftTone := formal | casual | brief | detailed.

Definition TONE_PROMPT_FRAGMENTS (tone : DraftTone) : jstr :=
  match tone with
  | formal => js "Use a formal, professional register. Avoid contractions and casual expressions."
  | casual => js "Use a casual, friendly tone. Contractions and informal phrasing are fine."
  | brief => js "Be very concise — aim for two sentences or fewer."
  | detailed => js "Be thorough — cover all relevant points with explicit reasoning, even if the reply runs longer."
  end.

Definition buildSystemPrompt (tone : option DraftTone) : jstr :=
  match tone with
  | None => BASE_SYSTEM_PROMPT
  | Some tone => BASE_SYSTEM_PROMPT ++ nl ++ js "- " ++ TONE_PROMPT_FRAGMENTS tone
  end.

(** The block has passed [isA2AProtocolBlock]; its payload is any object. *)
Record GenerateReplyDraftInput := DraftInput {
  incomingBody : jstr; incomingSubject : option jstr; protocolBlock : option jval;
  di_apiKey : jstr; di_model : jstr; tone : option DraftTone; maxTokens : option Z
}.

Definition AnthropicDraftError (code message : jstr) : jserror := JsError (js "AnthropicDraftError " ++ code) message.

Section draft.
Context `{Host}.

(** [v > 0] where [v] is read from JSON. *)
Definition positive (v : jval) : bool :=
  match v with
  | JNum n => num_ltb (num 0) n
  | JBool b => b
  | JUndef | JNull => false
  | _ => num_ltb (num 0) (number_of_string (js_string v))
  end.

Definition slot_line (s e : jval) : jstr := js "  - " ++ js_string s ++ js " → " ++ js_string e.

Fixpoint slot_lines (l : list jval) : res (list jstr) :=
  match l with
  | [] => Ok []
  | c :: r => s ← jprop c (js "start"); e ← jprop c (js "end"); rest ← slot_lines r; Ok (slot_line s e :: rest)
  end.

(** [if (candidates && candidates.length > 0) for (const c of candidates)]. *)
Definition candidate_lines (candidates : jval) : res (list jstr) :=
  let some lines := Ok (js "Proposed time slots:" :: lines) in
  match candidates with
  | JArr [] | JStr [] => Ok []
  | JArr l => lines ← slot_lines l; some lines
  | JStr s => some (map (fun _ => slot_line JUndef JUndef) (code_points s))
  | JObj _ => if positive (jget candidates (js "length")) then Throw (TypeError_ (js "payload.candidates is not iterable")) else Ok []
  | _ => Ok []
  end.

(** [if (payload?.k) lines.push(label + payload.k)]. *)
Definition labelled (label : jstr) (v : jval) : list jstr := if jtruthy v then [label ++ js_string v] else [].

Definition renderProtocolContext (block : jval) : res jstr :=
  let payload := jget block (js "payload") in
  if jis (jget block (js "type")) (js "schedule_negotiation") && jis (jget block (js "action")) (js "propose") then
    slots ← candidate_lines (jget payload (js "candidates"));
    Ok (join_with nl ([js "The sender proposed a meeting via a structured protocol."] ++
      labelled (js "Event: ") (jget payload (js "event_title")) ++ slots ++
      [js "Draft a short acceptance or polite decline. Reference the slot(s) explicitly if accepting."]))
  else if jis (jget block (js "type")) (js "task_delegation") && jis (jget block (js "action")) (js "delegate") then
    Ok (join_with nl ([js "The sender delegated a task via a structured protocol."] ++
      labelled (js "Task: ") (jget payload (js "title")) ++ labelled (js "Description: ") (jget payload (js "description")) ++
      labelled (js "Due: ") (jget payload (js "due_date")) ++ labelled (js "Priority: ") (jget payload (js "priority")) ++
      [js "Draft a short acceptance or polite decline with a brief reason."]))
  else Ok (js "The sender used a structured protocol we don't have a specific template for; draft a short generic acknowledgement.").

Definition buildUserMessage (input : GenerateReplyDraftInput) : res jstr :=
  content ← match protocolBlock input with
            | Some block => renderProtocolContext block
            | None => Ok (js "Incoming body:" ++ nl ++ incomingBody input)
            end;
  Ok (join_with (nl ++ nl)
    (match incomingSubject input with Some ((_ :: _) as s) => [js "Incoming subject: " ++ s] | _ => [] end ++
     [content; js "Please draft a short reply the user can review and edit before sending."])).

Definition text_chunk (item : jval) : jstr :=
  if jis (jget item (js "type")) (js "text") then match jget item (js "text") with JStr s => s | _ => [] end else [].

(** [None] is the [null] of an answer without text. *)
Definition extractTextFromAnthropicResponse (body : jval) : option jstr :=
  match jget body (js "content") with
  | JArr content =>
    match trim (concat (map text_chunk content)) with [] => None | t => Some t end
  | _ => None
  end.

Definition draft_request (input : GenerateReplyDraftInput) (userMessage : jstr) : Request :=
  HttpRequest (js "POST") ANTHROPIC_URL
    [(js "Content-Type", js "application/json"); (js "x-api-key", di_apiKey input);
     (js "anthropic-version", ANTHROPIC_VERSION); (js "anthropic-dangerous-direct-browser-access", js "true")]
    (TextBody (json_stringify (JObj
       [(js "model", JStr (di_model input)); (js "max_tokens", JNum (num (default DEFAULT_MAX_TOKENS (maxTokens input))));
        (js "system", JStr (buildSystemPrompt (tone input)));
        (js "messages", JArr [JObj [(js "role", JStr (js "user")); (js "content", JStr userMessage)]])]))).

Context `{Env, BrowserEnv}.

Definition generateReplyDraft (input : GenerateReplyDraftInput) : BM jstr :=
  userMessage ← lift (buildUserMessage input);
  resp ← try_catch (web_fetch (draft_request input userMessage))
           (fun e => raise (AnthropicDraftError (js "network") (err_message e)));
  let status := wr_status resp in
  raise_if (negb (wr_ok resp) && ((status =? 401) || (status =? 403)))
    (AnthropicDraftError (js "auth") (js "Anthropic rejected the API key")) ;;
  raise_if (negb (wr_ok resp) && (status =? 429))
    (AnthropicDraftError (js "rate_limit") (js "Anthropic rate limit exceeded")) ;;
  raise_if (negb (wr_ok resp)) (AnthropicDraftError (js "api_error") (js "Anthropic API returned " ++ dec_of_Z status)) ;;
  body ← lift match wr_json resp with
              | Ok v => Ok v
              | Throw _ => Throw (AnthropicDraftError (js "api_error") (js "response was not JSON"))
              end;
  match extractTextFromAnthropicResponse body with
  | None => raise (AnthropicDraftError (js "empty_response") (js "no text in response"))
  | Some text => mret (trim text)
  end.

End draft.
End Draft.

(** ** The compose page's prefill and drafts *)
Module DraftPage.

(** What the page reads of the message it answers. *)
Record Original := OriginalOf {
  o_sender_did : option jstr; o_recipient_did : jstr; o_encrypted_content : jstr; o_encrypted_key : jstr;
  o_subject_encrypted : option jstr; o_content_type : option jstr
}.

Inductive DraftStatus := idle | no_key | generating | done_ | error.

Record Page := PageOf {
  body : jstr; bodyEdited : bool; draftTone : option Draft.DraftTone; draftStatus : DraftStatus; draftError : option jstr;
  recipientDid : jstr; subject : jstr
}.

Section page.
Context `{Host, WebCrypto, Env, BrowserEnv}.

(** The text, unless it is empty or could not be decrypted. *)
Definition readable_text (decrypted : jstr) : jstr :=
  if truthy_str decrypted && negb (jeqb decrypted WebText.ENCRYPTED_PLACEHOLDER) then decrypted else [].

(** The reply's recipient and then its subject (read after an await), filled in
    where the user has written nothing; [None] is an original without a subject. *)
Definition prefill_recipient (sender : option jstr) (p : Page) : Page :=
  let recipient := if truthy_str (recipientDid p) then recipientDid p else default [] sender in
  PageOf (body p) (bodyEdited p) (draftTone p) (draftStatus p) (draftError p) recipient (subject p).
Definition prefill_subject (decryptedSubject : option jstr) (p : Page) : Page :=
  let base := match decryptedSubject with Some d => readable_text d | None => [] end in
  let filled := (if starts_with (js "Re:") base then [] else js "Re: ") ++ base in
  PageOf (body p) (bodyEdited p) (draftTone p) (draftStatus p) (draftError p) (recipientDid p)
    (if truthy_str (subject p) then subject p else filled).

Definition original_subject (data : Original) : BM (option jstr) :=
  match o_subject_encrypted data with
  | Some ((_ :: _) as s) =>
    d ← WebText.decryptEnvelopeText s (Some (o_encrypted_key data)) (Some (o_recipient_did data)); mret (Some d)
  | _ => mret None
  end.

(** The request for a draft: what the prompt is made of. *)
Definition draft_input (data : Original) (key : LlmAuth.StoredLLMKey) (tone : option Draft.DraftTone) : BM Draft.GenerateReplyDraftInput :=
  plaintext ← WebText.decryptEnvelopeText (o_encrypted_content data) (Some (o_encrypted_key data)) (Some (o_recipient_did data));
  let isReadable := readable_text plaintext in
  subjectText ← original_subject data;
  let subjectText := match readable_text <$> subjectText with Some ((_ :: _) as s) => Some s | _ => None end in
  let parsed := parseA2APayload isReadable (o_content_type data) in
  mret (Draft.DraftInput (match protocol parsed with Some _ => A2A.body parsed | None => isReadable end) subjectText (protocol parsed)
          (LlmAuth.api_key key) (LlmAuth.model key) tone None).

Definition error_code (e : jserror) : jstr :=
  let tag := js "AnthropicDraftError " in
  if starts_with tag (err_name e) then drop (length tag) (err_name e) else js "api_error".

(** [runDraftGeneration] between the two updates of the page: what came back. *)
Inductive Outcome := NoKey | Drafted (draft : jstr) | Failed (code : jstr).

Definition generate (data : Original) (tone : option Draft.DraftTone) : LlmAuth.LM Outcome :=
  llmKey ← LlmAuth.getLLMKey;
  match llmKey with
  | None => mret NoKey
  | Some key =>
    LlmAuth.in_browser_
      (input ← draft_input data key tone;
       try_catch (draft ← Draft.generateReplyDraft input; mret (Drafted draft)) (fun e => mret (Failed (error_code e))))
  end.

Definition draft_starts (p : Page) : Page :=
  PageOf (body p) (bodyEdited p) (draftTone p) generating None (recipientDid p) (subject p).

Definition draft_ends (tone : option Draft.DraftTone) (o : Outcome) (p : Page) : Page :=
  match o with
  | NoKey => PageOf (body p) (bodyEdited p) (draftTone p) no_key (draftError p) (recipientDid p) (subject p)
  | Drafted draft => PageOf draft false tone done_ (draftError p) (recipientDid p) (subject p)
  | Failed code => PageOf (body p) (bodyEdited p) (draftTone p) error (Some code) (recipientDid p) (subject p)
  end.

(** The body's text area. *)
Definition on_edit (text : jstr) (p : Page) : Page :=
  PageOf text true (draftTone p) (draftStatus p) (draftError p) (recipientDid p) (subject p).

(** A toolbar button: edits are replaced only after a confirmation. *)
Definition regenerates (confirmed : bool) (p : Page) : bool := negb (bodyEdited p) || confirmed.

End page.
End DraftPage.

(** * Lemmas *)

(** Nothing but the draft request, with the key in its header, leaves the page,
    and what comes back is not empty. *)
Theorem draft_goes_to_provider `{Host, Env, BrowserEnv} input b r b' :
  Draft.generateReplyDraft input b = (r, b') ->
  (w_trace (b_node b') = w_trace (b_node b) \/
   exists message, w_trace (b_node b') = EvFetch (Draft.draft_request input message) :: w_trace (b_node b)) /\
  (forall draft, r = Ok draft -> draft <> []).
Proof.
  unfold Draft.generateReplyDraft, lift, try_catch, web_fetch, host, ask, raise_if, lift, throw_if, raise, mbind, eff_bind, mret, eff_ret.
  destruct (Draft.buildUserMessage input) as [message|e]; [|intros [= <- <-]; split; [by left|done]]. cbn.
  destruct (env_fetch _ _) as [response|e]; [|intros [= <- <-]; split; [right; by exists message|done]].
  set (w := WResponse _ _ _). cbv beta iota zeta.
  destruct (negb (wr_ok w) && _); [intros [= <- <-]; split; [right; by exists message|done]|].
  destruct (negb (wr_ok w) && _); [intros [= <- <-]; split; [right; by exists message|done]|].
  destruct (negb (wr_ok w)); [intros [= <- <-]; split; [right; by exists message|done]|].
  destruct (wr_json w) as [v|e]; [|intros [= <- <-]; split; [right; by exists message|done]].
  destruct (Draft.extractTextFromAnthropicResponse v) as [text|] eqn:Ex; [|intros [= <- <-]; split; [right; by exists message|done]].
  intros [= <- <-]. split; [right; by exists message|]. intros draft [= <-].
  unfold Draft.extractTextFromAnthropicResponse in Ex. destruct (jget v (js "content")); try done.
  destruct (trim (concat _)) as [|c t] eqn:Et; [done|]. injection Ex as <-. rewrite <- Et.
  apply trim_trim_nonempty. by rewrite Et.
Qed.

(** Text typed while a draft is on its way is replaced by it: the confirmation
    is asked for when the draft is requested, not when it arrives. *)
Lemma draft_replaces_typed_text tone draft typed p :
  let shown := DraftPage.draft_ends tone (DraftPage.Drafted draft) (DraftPage.on_edit typed (DraftPage.draft_starts p)) in
  DraftPage.body shown = draft /\ DraftPage.bodyEdited shown = false.
Proof. done. Qed.

(** A failed draft leaves the text as it is, with its mark of being edited. *)
Lemma failed_draft_keeps_text tone o p : (forall d, o <> DraftPage.Drafted d) ->
  DraftPage.body (DraftPage.draft_ends tone o p) = DraftPage.body p /\
  DraftPage.bodyEdited (DraftPage.draft_ends tone o p) = DraftPage.bodyEdited p.
Proof. destruct o; naive_solver. Qed.
