(* ===== verification/Session.v ===== *)
(** The session's hooks: apps/web/lib/api/hooks.ts, the log-out button
    (app/_components/AuthLogoutButton.tsx) and the watch on the session
    (app/_components/AuthSessionStatus.tsx).

    The query client and its mutations are TanStack Query's: [QueryClient] is
    what the hooks use of it, and [QueryClientLaws] what its documentation says
    of them.  The cache is seen through the calls made on it. *)
From S2P Require Import Prelude Utf8 JsNumber Json Effect Node Envelope ApiClient Browser WebKeystore WebEnvelope WebApi Bridge BridgeSpec Llm.

(** ** Queries and mutations *)
Module Hooks.

Abbreviation QueryKey := (list jval).
Inductive CacheOp := Invalidate (key : QueryKey) | SetQueryData (key : QueryKey) (data : jval) | ClearCache.

Record AuditLogQuery := AuditQuery {
  credential_id : option jstr; aid : option jstr; event : option jstr; event_prefix : option jstr;
  limit : option jnum; offset : option jnum
}.

Definition or_null (o : option jstr) : jval := match o with Some s => JStr s | None => JNull end.
Definition str_field (name : jstr) (o : option jstr) : list (jstr * jval) := match o with Some s => [(name, JStr s)] | None => [] end.
Definition num_field (name : jstr) (o : option jnum) : list (jstr * jval) := match o with Some n => [(name, JNum n)] | None => [] end.

Definition list_query_val (q : WebApi.MessageListQuery) : jval :=
  JObj ([(js "agentDid", JStr (WebApi.agentDid q))] ++ str_field (js "status") (WebApi.q_status q)
        ++ str_field (js "priority") (WebApi.q_priority q) ++ str_field (js "folder") (WebApi.q_folder q)
        ++ str_field (js "threadId") (WebApi.q_threadId q) ++ num_field (js "page") (WebApi.q_page q)
        ++ num_field (js "perPage") (WebApi.q_perPage q)).
Definition audit_query_val (q : option AuditLogQuery) : jval :=
  match q with
  | None => JUndef
  | Some q => JObj (str_field (js "credential_id") (credential_id q) ++ str_field (js "aid") (aid q)
                    ++ str_field (js "event") (event q) ++ str_field (js "event_prefix") (event_prefix q)
                    ++ num_field (js "limit") (limit q) ++ num_field (js "offset") (offset q))
  end.

(** [queryKeys]. *)
Definition agentCredentials_key : QueryKey := [JStr (js "agent-credentials")].
Definition agents_key : QueryKey := [JStr (js "agents")].
Definition messages_key (q : WebApi.MessageListQuery) : QueryKey := [JStr (js "messages"); list_query_val q].
Definition messageContent_key (id : option jstr) : QueryKey := [JStr (js "message-content"); or_null id].
Definition messageAttachments_key (id : option jstr) : QueryKey := [JStr (js "message-attachments"); or_null id].
Definition blocks_key : QueryKey := [JStr (js "blocks")].
Definition contacts_key : QueryKey := [JStr (js "contacts")].
Definition authSession_key : QueryKey := [JStr (js "auth"); JStr (js "session")].
Definition status_key : QueryKey := [JStr (js "status")].
Definition auditLog_key (q : option AuditLogQuery) : QueryKey := [JStr (js "audit-log"); audit_query_val q].
Definition autoReplyPolicy_key (agentId : option jstr) : QueryKey := [JStr (js "auto-reply-policy"); or_null agentId].

(** What a hook passes to [useQuery]: its key, its function and [enabled]. *)
Record QueryHook := QueryOf { queryKey : QueryKey; queryFn : BM jval; enabled : bool }.

(** What a hook passes to [useMutation]: its function and, when it has
    succeeded with some data, what it does to the cache. *)
Record MutationHook := MutationOf { mutationFn : BM jval; onSuccess : jval -> list CacheOp }.

Section hooks.
Context `{Host, Env, BrowserEnv}.
Let c := WebApi.defaultApiClient.

Definition void (m : BM unit) : BM jval := m ;; mret JUndef.
Definition then_invalidate (key : QueryKey) (m : BM jval) : MutationHook := MutationOf m (fun _ => [Invalidate key]).
Definition messages_prefix : QueryKey := [JStr (js "messages")].
Definition content_prefix : QueryKey := [JStr (js "message-content")].

(** [Boolean(id)], and the function of a hook that throws without an id. *)
Definition has_id (id : option jstr) : bool := match id with Some i => truthy_str i | None => false end.
Definition with_id (message : jstr) (id : option jstr) (f : jstr -> BM jval) : BM jval :=
  match id with Some ((_ :: _) as i) => f i | _ => raise (Error_ message) end.

Definition useStatusQuery : QueryHook := QueryOf status_key (WebApi.getStatus c) true.
Definition useAuthSessionQuery : QueryHook := QueryOf authSession_key (WebApi.getAuthSession c) true.
Definition useUpdateProfileMutation (payload : jval) : MutationHook :=
  MutationOf (WebApi.updateAuthProfile c payload) (fun data => [SetQueryData authSession_key data]).
Definition useBlocksQuery : QueryHook := QueryOf blocks_key (WebApi.listBlocks c) true.
Definition useCreateBlockMutation (payload : jval) : MutationHook := then_invalidate blocks_key (WebApi.createBlock c payload).
Definition useBlockFromMessageMutation (messageId : jstr) (payload : jval) : MutationHook :=
  then_invalidate blocks_key (WebApi.blockFromMessage c messageId payload).
Definition useDeleteBlockMutation (id : jstr) : MutationHook := then_invalidate blocks_key (void (WebApi.deleteBlock c id)).
Definition useContactsQuery : QueryHook := QueryOf contacts_key (WebApi.listContacts c) true.
Definition useCreateContactMutation (payload : jval) : MutationHook := then_invalidate contacts_key (WebApi.createContact c payload).
Definition useUpdateContactMutation (id : jstr) (body : jval) : MutationHook := then_invalidate contacts_key (WebApi.updateContact c id body).
Definition useDeleteContactMutation (id : jstr) : MutationHook := then_invalidate contacts_key (void (WebApi.deleteContact c id)).
Definition useAgentsQuery : QueryHook := QueryOf agents_key (WebApi.listAgents c) true.
Definition useMessagesQuery (query : WebApi.MessageListQuery) : QueryHook := QueryOf (messages_key query) (WebApi.listMessages c query) true.
Definition useCreateAgentMutation (payload : jval) : MutationHook := then_invalidate agents_key (WebApi.createAgent c payload).
Definition useUpdateAgentMutation (id : jstr) (body : jval) : MutationHook := then_invalidate agents_key (WebApi.updateAgent c id body).
Definition useAgentCredentialsQuery : QueryHook := QueryOf agentCredentials_key (WebApi.listAgentCredentials c) true.
Definition useCreateAgentCredentialMutation (payload : jval) : MutationHook :=
  then_invalidate agentCredentials_key (WebApi.createAgentCredential c payload).
Definition useRevokeAgentCredentialMutation (id : jstr) : MutationHook :=
  then_invalidate agentCredentials_key (void (WebApi.revokeAgentCredential c id)).
Definition usePurgeAgentCredentialMutation (id : jstr) : MutationHook :=
  then_invalidate agentCredentials_key (void (WebApi.purgeAgentCredential c id)).
Definition useDeleteAgentMutation (id : jstr) : MutationHook :=
  MutationOf (void (WebApi.deleteAgent c id)) (fun _ => [Invalidate agents_key; Invalidate messages_prefix]).
Definition useEmergencyShutdownMutation (agentId : jstr) : MutationHook :=
  MutationOf (WebApi.emergencyShutdown c agentId)
    (fun _ => [Invalidate agentCredentials_key; Invalidate agents_key; Invalidate (auditLog_key None)]).
Definition useAutoReplyPolicyQuery (agentId : option jstr) : QueryHook :=
  QueryOf (autoReplyPolicy_key agentId) (with_id (js "agentId is required") agentId (WebApi.getAutoReplyPolicy c)) (has_id agentId).
Definition useUpdateAutoReplyPolicyMutation (agentId : option jstr) (payload : jval) : MutationHook :=
  MutationOf (with_id (js "agentId is required") agentId (fun a => WebApi.putAutoReplyPolicy c a payload))
    (fun data => if has_id agentId then [SetQueryData (autoReplyPolicy_key agentId) data; Invalidate (auditLog_key None)] else []).
Definition useDeleteAutoReplyPolicyMutation (agentId : option jstr) : MutationHook :=
  MutationOf (with_id (js "agentId is required") agentId (fun a => void (WebApi.deleteAutoReplyPolicy c a)))
    (fun _ => if has_id agentId then [Invalidate (autoReplyPolicy_key agentId); Invalidate (auditLog_key None)] else []).
Definition useSendMessageMutation (payload : WebApi.SeedMessage) : MutationHook := then_invalidate messages_prefix (WebApi.seedMessage c payload).
Definition useUpdateMessageStatusMutation (id status : jstr) : MutationHook :=
  MutationOf (WebApi.updateMessageStatus c id status) (fun _ => [Invalidate messages_prefix; Invalidate content_prefix]).
Definition useUpdateMessageFlagsMutation (id : jstr) (folder : option jstr) (starred : option bool) : MutationHook :=
  then_invalidate messages_prefix
    (WebApi.updateMessageFlags c id
       (JObj (str_field (js "folder") folder ++ match starred with Some b => [(js "starred", JBool b)] | None => [] end))).
Definition useDeleteMessageMutation (id : jstr) : MutationHook :=
  MutationOf (void (WebApi.deleteMessage c id)) (fun _ => [Invalidate messages_prefix; Invalidate content_prefix]).
Definition useAuthVerifyMutation (payload : jval) : MutationHook := MutationOf (WebApi.verifyAuth c payload) (fun _ => []).
Definition useMessageContentQuery (id : option jstr) : QueryHook :=
  QueryOf (messageContent_key id) (with_id (js "message id is required") id (WebApi.getMessageContent c)) (has_id id).
Definition useMessageAttachmentsQuery (id : option jstr) : QueryHook :=
  QueryOf (messageAttachments_key id) (with_id (js "message id is required") id (WebApi.listMessageAttachments c)) (has_id id).
Definition useAuditLogQuery (query : option AuditLogQuery) : QueryHook :=
  QueryOf (auditLog_key query)
    match query with
    | None => WebApi.listAuditLog c None None None None None None
    | Some q => WebApi.listAuditLog c (credential_id q) (aid q) (event q) (event_prefix q) (limit q) (offset q)
    end true.

End hooks.
End Hooks.

(** ** The tab, and logging out of it *)

(** The page with its LLM key, the calls on the query cache and the
    navigations, newest first; [router.refresh] is a visit of the empty path. *)
Record Tab := TabOf { t_llm : LlmAuth.Llm; t_cache : list Hooks.CacheOp; t_visits : list jstr }.

Abbreviation TM := (eff Tab).

Definition t_browser (t : Tab) : Browser := LlmAuth.l_browser (t_llm t).
Definition of_llm {A} (m : LlmAuth.LM A) : TM A :=
  fun t => let '(r, l) := m (t_llm t) in (r, TabOf l (t_cache t) (t_visits t)).
Definition of_browser {A} (m : BM A) : TM A := of_llm (LlmAuth.in_browser_ m).
Definition cache_ops (ops : list Hooks.CacheOp) : TM unit := fun t => (Ok tt, TabOf (t_llm t) (rev_append ops (t_cache t)) (t_visits t)).
Definition visit (path : jstr) : TM unit := fun t => (Ok tt, TabOf (t_llm t) (t_cache t) (path :: t_visits t)).

(** [useMutation(...).mutateAsync()]. *)
Class QueryClient := {
  mutateAsync : forall A, TM A -> (A -> TM unit) -> TM unit -> TM A
}.

(** The mutation runs, then [onSuccess] if it succeeded, then [onSettled]; the
    promise settles as the mutation did. *)
Class QueryClientLaws `{QueryClient} : Prop := {
  mutation_settles A (mutation : TM A) onSuccess onSettled t r t1 t2 t3 :
    mutation t = (r, t1) ->
    match r with Ok a => onSuccess a t1 = (Ok tt, t2) | Throw _ => t2 = t1 end ->
    onSettled t2 = (Ok tt, t3) ->
    mutateAsync A mutation onSuccess onSettled t = (r, t3)
}.

Module Logout.
Section logout.
Context `{Host, WebCrypto, Env, BrowserEnv, QueryClient}.

(** [useMutation(h).mutateAsync()]; only logging out has an [onSettled]. *)
Definition mutate_hook (h : Hooks.MutationHook) : TM jval :=
  mutateAsync _ (of_browser (Hooks.mutationFn h)) (fun data => cache_ops (Hooks.onSuccess h data)) (mret tt).

Definition useAuthLogoutMutation : TM jval :=
  mutateAsync _ (of_browser (WebApi.logoutAuth WebApi.defaultApiClient))
    (fun _ => cache_ops [Hooks.ClearCache])
    (of_browser TokenStore.clearAllBridgeTokens ;; of_llm LlmAuth.disconnectLLM).

(** [try { await mutateAsync() } finally { ... }]. *)
Definition handleLogout : TM unit := fun t =>
  let '(r, t) := useAuthLogoutMutation t in
  let '(_, t) := (visit (js "/login") ;; visit []) t in
  (match r with Ok _ => Ok tt | Throw e => Throw e end, t).

End logout.
End Logout.

(** ** AuthSessionStatus *)
Module SessionStatus.
Section status.
Context `{Host}.

(** The effect, with [redirectedRef]: where it goes, if it goes. *)
Definition session_effect (redirected isPending : bool) (data : option jval) (pathname currentSearch : jstr) : res (option jstr) :=
  if redirected || isPending then Ok None
  else match data with
  | None => Ok None
  | Some data =>
    authenticated ← jprop data (js "authenticated");
    if jtruthy authenticated then Ok None
    else
      let nextPath := if truthy_str currentSearch then pathname ++ js "?" ++ currentSearch else pathname in
      enc ← encodeURIComponent nextPath;
      Ok (Some (js "/login?next=" ++ enc))
  end.

End status.
End SessionStatus.

(** * Lemmas *)

(** No secret of the session is left in the tab. *)
Record session_cleared (t : Tab) : Prop := {
  no_bearer aid : b_local (t_browser t) !! TokenStore.storageKey (JStr aid) = None;
  no_nonce aid : b_session (t_browser t) !! TokenStore.nonceKey aid = None;
  no_llm_key : LlmAuth.l_key (t_llm t) = None
}.

Section cleared.
Context `{Host, WebCrypto, Env, BrowserEnv, !NeverRefuses}.

Lemma clear_all_ok b : exists b', TokenStore.clearAllBridgeTokens b = (Ok tt, b') /\ b_private b' = b_private b /\
  (forall aid, b_local b' !! TokenStore.storageKey (JStr aid) = None) /\
  (forall aid, b_session b' !! TokenStore.nonceKey aid = None) /\
  (forall k, k <> probe_key -> starts_with TokenStore.STORAGE_PREFIX k = false -> b_local b' !! k = b_local b !! k).
Proof.
  unfold TokenStore.clearAllBridgeTokens, TokenStore.isStorageAvailable, TokenStore.isSessionStorageAvailable.
  destruct (available_ok LocalStorage b) as (b1 & E1 & P1 & A1). erewrite bind_ok by exact E1.
  destruct (remove_prefix_ok LocalStorage TokenStore.STORAGE_PREFIX b1) as (b2 & E2 & P2 & I2 & _). erewrite bind_ok by exact E2.
  destruct (available_ok SessionStorage b2) as (b3 & E3 & P3 & A3). erewrite bind_ok by exact E3.
  destruct (remove_prefix_ok SessionStorage TokenStore.SESSION_NONCE_PREFIX b3) as (b4 & E4 & P4 & I4 & A4).
  exists b4. split; [exact E4|]. split; [congruence|].
  assert (forall k, k <> probe_key -> b_local b4 !! k = b_local b2 !! k) as Hl.
  { intros k Hk. pose proof (A4 LocalStorage) as B. cbn in B. rewrite B by done. exact (A3 LocalStorage k Hk). }
  cbn in I2, I4. split_and!.
  - intros aid. rewrite Hl, I2 by apply storage_not_probe. by rewrite storage_key_prefix.
  - intros aid. by rewrite I4, nonce_key_prefix.
  - intros k Hk Hp. rewrite Hl, I2 by done. rewrite Hp, andb_false_r. exact (A1 LocalStorage k Hk).
Qed.

Lemma disconnect_ok l : exists l', LlmAuth.disconnectLLM l = (Ok tt, l') /\ LlmAuth.l_key l' = None /\
  same_store (LlmAuth.l_browser l) (LlmAuth.l_browser l').
Proof.
  unfold LlmAuth.disconnectLLM, LlmAuth.dbDelete, LlmAuth.in_browser_, LlmAuth.set_key, try_catch, mbind, eff_bind.
  rewrite in_browser. cbn [negb]. rewrite idb_call_ok. eexists. split; [reflexivity|]. split; [done|]. apply noted_same.
Qed.

End cleared.

(** What a mutation through the client does to the tab. *)
Lemma mutate_hook_run `{QueryClient, !QueryClientLaws} h t :
  Logout.mutate_hook h t =
    (let '(r, b) := Hooks.mutationFn h (t_browser t) in
     (r, TabOf (LlmAuth.LlmOf b (LlmAuth.l_key (t_llm t)))
           (match r with Ok data => rev_append (Hooks.onSuccess h data) (t_cache t) | Throw _ => t_cache t end) (t_visits t))).
Proof.
  destruct (Hooks.mutationFn h (t_browser t)) as [r b] eqn:E. unfold Logout.mutate_hook.
  apply (mutation_settles _ _ _ _ _ _ (TabOf (LlmAuth.LlmOf b (LlmAuth.l_key (t_llm t))) (t_cache t) (t_visits t)) 
    (TabOf (LlmAuth.LlmOf b (LlmAuth.l_key (t_llm t)))
       (match r with Ok data => rev_append (Hooks.onSuccess h data) (t_cache t) | Throw _ => t_cache t end) (t_visits t))).
  - unfold of_browser, of_llm, LlmAuth.in_browser_. fold (t_browser t). by rewrite E.
  - by destruct r.
  - done.
Qed.

(** A call of the API changes no stored entry. *)
Lemma request_same_store `{Host, Env, BrowserEnv} c path method body auth : respects same_store (WebApi.request c path method body auth).
Proof.
  unfold WebApi.request. apply respects_bind; [apply _| |intros r; case_match; apply respects_lift, _].
  unfold web_fetch. apply respects_bind; [apply _| |intros r; apply respects_lift, _].
  intros b. unfold host, ask. cbn. split; [done|]. by intros [] k.
Qed.

(** What [onSettled] does after the request, whatever was done to the cache. *)
Lemma settles_clear `{Host, WebCrypto, Env, BrowserEnv, !NeverRefuses} cache t :
  exists t3, (of_browser TokenStore.clearAllBridgeTokens ;; of_llm LlmAuth.disconnectLLM)
      (TabOf (LlmAuth.LlmOf (WebApi.logoutAuth WebApi.defaultApiClient (t_browser t)).2 (LlmAuth.l_key (t_llm t))) cache (t_visits t)) = (Ok tt, t3) /\
    session_cleared t3 /\ b_private (t_browser t3) = b_private (t_browser t) /\ t_visits t3 = t_visits t.
Proof.
  pose proof (request_same_store WebApi.defaultApiClient (js "/auth/logout") (Some (js "POST")) (Some (JObj [])) false (t_browser t)) as [Hp _].
  change (WebApi.request _ _ _ _ _ (t_browser t)) with (WebApi.logoutAuth WebApi.defaultApiClient (t_browser t)) in Hp.
  set (b1 := (WebApi.logoutAuth _ _).2) in *.
  destruct (clear_all_ok b1) as (b2 & E2 & P2 & L2 & S2 & _).
  destruct (disconnect_ok (LlmAuth.LlmOf b2 (LlmAuth.l_key (t_llm t)))) as (l3 & E3 & K3 & P3 & A3). cbn [LlmAuth.l_browser] in *.
  exists (TabOf l3 cache (t_visits t)).
  split; [unfold mbind, eff_bind, of_browser, of_llm, LlmAuth.in_browser_; cbn; rewrite E2; cbn; by rewrite E3|].
  split; [|by rewrite <- Hp, <- P2, <- P3].
  split; [intros aid; exact (eq_trans (A3 LocalStorage _ (storage_not_probe _)) (L2 aid))|
          intros aid; exact (eq_trans (A3 SessionStorage _ (nonce_not_probe _)) (S2 aid))|exact K3].
Qed.

(** C13: Logging out.  However the server answers, or if it cannot be reached, the
    button leaves no bridge bearer, session nonce or model API key in the tab,
    keeps the private keys of the user's agents, and goes to the login page; its
    promise settles as the request did. *)
Theorem logout_clears_session `{Host, WebCrypto, Env, BrowserEnv, !NeverRefuses, QueryClient, !QueryClientLaws} (t : Tab) :
  exists t', (Logout.handleLogout t).2 = t' /\ session_cleared t' /\
    b_private (t_browser t') = b_private (t_browser t) /\
    t_visits t' = [] :: js "/login" :: t_visits t /\
    ((exists v, (WebApi.logoutAuth WebApi.defaultApiClient (t_browser t)).1 = Ok v) <-> (Logout.handleLogout t).1 = Ok tt).
Proof.
  destruct (settles_clear (match (WebApi.logoutAuth WebApi.defaultApiClient (t_browser t)).1 with
    | Ok _ => rev_append [Hooks.ClearCache] (t_cache t) | Throw _ => t_cache t end) t) as (t3 & E & Hc & Hp & Hv).
  unfold Logout.handleLogout.
  assert (Logout.useAuthLogoutMutation t = ((WebApi.logoutAuth WebApi.defaultApiClient (t_browser t)).1, t3)) as ->.
  { eapply (mutation_settles _ _ _ _ _ _ (TabOf (LlmAuth.LlmOf (WebApi.logoutAuth WebApi.defaultApiClient (t_browser t)).2
        (LlmAuth.l_key (t_llm t))) (t_cache t) (t_visits t))); [| |exact E];
      unfold of_browser, of_llm, LlmAuth.in_browser_, t_browser; by destruct (WebApi.logoutAuth _ _) as [[v|e] b1]. }
  cbn. eexists. split; [reflexivity|]. cbn [snd]. split_and!; [by destruct Hc|done|by rewrite <- Hv|].
  destruct (WebApi.logoutAuth _ _).1; naive_solver.
Qed.

(** A client that does just what is promised, and a paired tab. *)
Definition plain_client : QueryClient := {|
  mutateAsync := fun A mutation onSuccess onSettled t =>
    let '(r, t1) := mutation t in
    let t2 := match r with Ok a => (onSuccess a t1).2 | Throw _ => t1 end in
    (r, (onSettled t2).2)
|}.

#[global] Instance plain_client_laws : QueryClientLaws (H := plain_client).
Proof. split. intros A m ok settled t r t1 t2 t3 E1 E2 E3. cbn. rewrite E1. destruct r; [rewrite E2|subst t1]; cbn; by rewrite E3. Qed.

Definition paired_tab : Tab :=
  TabOf (LlmAuth.LlmOf
    (with_area SessionStorage {[TokenStore.nonceKey (js "a") := js "n1"]}
      (with_area LocalStorage {[TokenStore.storageKey (JStr (js "a")) := js "tok"]} new_profile))
    (Some (LlmAuth.LLMKey (js "anthropic") (js "sk-1") LlmAuth.DEFAULT_ANTHROPIC_MODEL 0))) [] [].

Example logout_clears_session_witness :
  let _ := plain_host in let _ := open_browser in let _ := reply_env (js "{}") in let _ := plain_client in
  exists t', (Logout.handleLogout paired_tab).2 = t' /\ session_cleared t' /\ t_visits t' = [[]; js "/login"] /\
    (Logout.handleLogout paired_tab).1 = Ok tt.
Proof.
  intros ho br en qc. destruct (logout_clears_session paired_tab) as (t' & E & Hc & _ & Hv & Hr).
  exists t'. split; [exact E|]. split; [exact Hc|]. split; [exact Hv|].
  apply Hr. eexists. vm_compute. reflexivity.
Defined.
