(* ===== verification/Inbox.v ===== *)
(** The inbox: apps/web/app/page.tsx.

    [Page] is the page's React state; a handler reads the page it was rendered
    with and updates the current one.  What the queries hold ([Data]) and the
    texts of the locale are arguments.  The effect that decrypts the visible
    rows is in [Preview], the column in [Shell], what is shown in [InboxView]. *)
From S2P Require Import Prelude Utf8 JsNumber Json JsDate A2A Effect Node Envelope ApiClient Browser WebKeystore WebEnvelope WebApi Bridge BridgeSpec Llm Session Views.

(** [toLowerCase], the whole of Unicode included. *)
Class CaseMap := toLowerCase : jstr -> jstr.

(** ** Views *)
Inductive ViewKey := inbox | starred_ | sent | drafts | all | spam | trash.
Inductive FilterType := FAll | FUnread | FStarred.

#[global] Instance view_eq_dec : EqDecision ViewKey.
Proof. solve_decision. Defined.

Definition view_name (v : ViewKey) : jstr :=
  match v with
  | inbox => js "inbox" | starred_ => js "starred" | sent => js "sent" | drafts => js "drafts"
  | all => js "all" | spam => js "spam" | trash => js "trash"
  end.
Definition validViewKeys : list ViewKey := [inbox; starred_; sent; drafts; all; spam; trash].

Definition resolveViewKey (raw : option jstr) : ViewKey :=
  match raw with
  | None | Some [] => inbox
  | Some raw => default inbox (List.find (fun v => jeqb (view_name v) raw) validViewKeys)
  end.

(** The fields of a view that are not texts; [priority] is left out by all. *)
Record ViewConfig := Config { folder : jstr; vc_filter : FilterType; activePath : jstr }.
Definition buildViewConfigs (v : ViewKey) : ViewConfig :=
  Config (view_name v) FAll (match v with inbox => js "/" | _ => js "/?view=" ++ view_name v end).

Definition filter_name (f : FilterType) : jstr :=
  match f with FAll => js "all" | FUnread => js "unread" | FStarred => js "starred" end.
Definition filterTabs : list FilterType := [FAll; FUnread; FStarred].

Record ThreadView := Thread {
  id : jstr; sender : jstr; senderDid : jstr; recipientDid : jstr; time : jstr; subject : jstr; encryptedSubject : jstr;
  preview : jstr; body : jstr; status : jstr; starred : bool; priority : jstr; trust : jnum; messageCount : nat
}.

(** What the queries hold. *)
Record Data := DataOf {
  messages : option (list Threads.MessageIndexEntry); total : option Z; contacts : option (list Labels.ContactEntry);
  locale : Time.Language; now : Z
}.

Record Page := PageOf {
  viewKey : ViewKey; selectedIds : list jstr; activeId : jstr; mobile_detail : bool; filter_ : FilterType;
  searchQuery : jstr; page : Z; localStars : gmap jstr bool; localStatus : gmap jstr jstr;
  subjectTextById : gmap jstr jstr; previewTextById : gmap jstr jstr; keyPresenceByDid : gmap jstr bool
}.

Section updates.
Implicit Types p : Page.
Definition set_selected l p := PageOf (viewKey p) l (activeId p) (mobile_detail p) (filter_ p) (searchQuery p) (page p)
  (localStars p) (localStatus p) (subjectTextById p) (previewTextById p) (keyPresenceByDid p).
Definition set_active i p := PageOf (viewKey p) (selectedIds p) i (mobile_detail p) (filter_ p) (searchQuery p) (page p)
  (localStars p) (localStatus p) (subjectTextById p) (previewTextById p) (keyPresenceByDid p).
Definition set_mobile d p := PageOf (viewKey p) (selectedIds p) (activeId p) d (filter_ p) (searchQuery p) (page p)
  (localStars p) (localStatus p) (subjectTextById p) (previewTextById p) (keyPresenceByDid p).
Definition set_filter f p := PageOf (viewKey p) (selectedIds p) (activeId p) (mobile_detail p) f (searchQuery p) (page p)
  (localStars p) (localStatus p) (subjectTextById p) (previewTextById p) (keyPresenceByDid p).
Definition set_search q p := PageOf (viewKey p) (selectedIds p) (activeId p) (mobile_detail p) (filter_ p) q (page p)
  (localStars p) (localStatus p) (subjectTextById p) (previewTextById p) (keyPresenceByDid p).
Definition set_page n p := PageOf (viewKey p) (selectedIds p) (activeId p) (mobile_detail p) (filter_ p) (searchQuery p) n
  (localStars p) (localStatus p) (subjectTextById p) (previewTextById p) (keyPresenceByDid p).
Definition set_stars m p := PageOf (viewKey p) (selectedIds p) (activeId p) (mobile_detail p) (filter_ p) (searchQuery p) (page p)
  m (localStatus p) (subjectTextById p) (previewTextById p) (keyPresenceByDid p).
Definition set_status m p := PageOf (viewKey p) (selectedIds p) (activeId p) (mobile_detail p) (filter_ p) (searchQuery p) (page p)
  (localStars p) m (subjectTextById p) (previewTextById p) (keyPresenceByDid p).
Definition set_subjects m p := PageOf (viewKey p) (selectedIds p) (activeId p) (mobile_detail p) (filter_ p) (searchQuery p) (page p)
  (localStars p) (localStatus p) m (previewTextById p) (keyPresenceByDid p).
Definition set_previews m p := PageOf (viewKey p) (selectedIds p) (activeId p) (mobile_detail p) (filter_ p) (searchQuery p) (page p)
  (localStars p) (localStatus p) (subjectTextById p) m (keyPresenceByDid p).
Definition set_presence m p := PageOf (viewKey p) (selectedIds p) (activeId p) (mobile_detail p) (filter_ p) (searchQuery p) (page p)
  (localStars p) (localStatus p) (subjectTextById p) (previewTextById p) m.
End updates.

(** [xs.includes(x)] on strings. *)
Definition includes (l : list jstr) (x : jstr) : bool := existsb (fun y => jeqb y x) l.

(** [s.includes(t)]. *)
Fixpoint str_includes (s t : jstr) : bool :=
  starts_with t s || match s with [] => false | _ :: r => str_includes r t end.

(** [new Set(xs)]: the distinct elements, in the order of their first. *)
Definition distinct (l : list jstr) : list jstr :=
  fold_left (fun acc x => if includes acc x then acc else acc ++ [x]) l [].

(** ** previewSnippet *)

(** [s.split(/\r?\n/)]. *)
Definition split_lines (s : jstr) : list jstr :=
  let parts := split_on 10 s in
  let n := length parts in
  imap (fun i line => if (S i =? n)%nat then line
                      else match reverse line with 13 :: r => reverse r | _ => line end) parts.

(** [s.replace(/\s+/g, X)] with a space for [X]. *)
Fixpoint collapse_spaces (in_run : bool) (s : jstr) : jstr :=
  match s with
  | [] => []
  | c :: r => if is_js_space c then (if in_run then [] else [32]) ++ collapse_spaces true r else c :: collapse_spaces false r
  end.

Definition previewSnippet (body : jstr) (maxChars : nat) : jstr :=
  let firstLine := default [] (List.find (fun line => truthy_str line) (map trim (split_lines body))) in
  let collapsed := trim (collapse_spaces false firstLine) in
  if (length collapsed =? 0)%nat then []
  else if (maxChars <? length collapsed)%nat then strip_suffix is_js_space (take maxChars collapsed) ++ js "…"
  else collapsed.

Definition PREVIEW_CHARS : nat := 140.
Definition PREVIEW_DECRYPT_CONCURRENCY : nat := 4.
Definition DASHBOARD_PER_PAGE : Z := 50.

(** ** Rows *)
Section rows.
Context `{Host, Locale, CaseMap}.
Variable t : jstr -> jstr.

Definition messages_query (p : Page) : WebApi.MessageListQuery :=
  WebApi.ListQuery (js "all") (Some (js "all")) None (Some (folder (buildViewConfigs (viewKey p)))) None
    (Some (num (page p))) (Some (num DASHBOARD_PER_PAGE)).

Definition thread_of_group (d : Data) (group : Threads.ThreadGroup) : ThreadView :=
  let m := Threads.representative group in
  Thread (Threads.id m)
    (Labels.resolveParticipantLabel (Some (Threads.sender_did m)) (Threads.sender_label m) (Some (Labels.indexContactsByDid (contacts d))))
    (Threads.sender_did m) (Threads.recipient_did m) (Time.formatListTimestamp (Threads.created_at m) (locale d) (now d))
    (t (js "inbox.decryptingSubject")) (Threads.subject_encrypted m) (t (js "inbox.bodyHidden")) (t (js "inbox.bodyDecryptPrompt"))
    (if Threads.hasUnread group then js "unread" else Threads.status m)
    (existsb Threads.starred (Threads.messages group)) (Threads.priority m) (Threads.trust_score m) (Threads.count group).

(** [apiThreads], which is also [baseThreads]: every row has the source api. *)
Definition apiThreads (d : Data) : list ThreadView :=
  map (thread_of_group d) (Threads.groupMessagesByThread (default [] (messages d))).

Definition derive (p : Page) (th : ThreadView) : ThreadView :=
  Thread (id th) (sender th) (senderDid th) (recipientDid th) (time th) (subject th) (encryptedSubject th) (preview th) (body th)
    (default (status th) (localStatus p !! id th)) (default (starred th) (localStars p !! id th)) (priority th) (trust th) (messageCount th).

Definition derivedThreads (d : Data) (p : Page) : list ThreadView := map (derive p) (apiThreads d).

Definition passes_filter (p : Page) (th : ThreadView) : bool :=
  match filter_ p with FUnread => jeqb (status th) (js "unread") | FStarred => starred th | FAll => true end.

Definition passes_search (p : Page) (th : ThreadView) : bool :=
  let keyword := toLowerCase (trim (searchQuery p)) in
  if negb (truthy_str keyword) then true
  else
    let subjectText := default (subject th) (subjectTextById p !! id th) in
    str_includes (toLowerCase (join_with [32] [sender th; subjectText; preview th])) keyword.

Definition filteredThreads (d : Data) (p : Page) : list ThreadView :=
  List.filter (passes_search p) (List.filter (passes_filter p) (derivedThreads d p)).

(** ** Paging *)

Definition totalPages (d : Data) : Z := Z.max 1 (- ((- default 0 (total d)) / DASHBOARD_PER_PAGE)).
Definition hasPrevPage (p : Page) : bool := 1 <? page p.
Definition hasNextPage (d : Data) (p : Page) : bool := page p <? totalPages d.

Definition goToPreviousPage (p : Page) (current : Page) : Page :=
  if hasPrevPage p then set_page (Z.max 1 (page current - 1)) current else current.
Definition goToNextPage (d : Data) (p : Page) (current : Page) : Page :=
  if hasNextPage d p then set_page (page current + 1) current else current.

(** ** Effects that keep the state in step *)

(** On a change of the view. *)
Definition view_effect (v : ViewKey) (p : Page) : Page := set_page 1 (set_filter (vc_filter (buildViewConfigs v)) p).

Definition active_effect (d : Data) (p : Page) : Page :=
  match filteredThreads d p with
  | [] => set_active [] p
  | first :: _ as l => if includes (map id l) (activeId p) then p else set_active (id first) p
  end.

Definition selection_effect (d : Data) (p : Page) : Page :=
  set_selected (List.filter (includes (map id (filteredThreads d p))) (selectedIds p)) p.

(** The recipients whose keys are looked for. *)
Definition presence_toCheck (d : Data) (p : Page) : list jstr :=
  List.filter (fun did => bool_decide (keyPresenceByDid p !! did = None))
    (distinct (List.filter truthy_str (map recipientDid (filteredThreads d p)))).

Definition presence_found (pairs : list (jstr * bool)) (p : Page) : Page :=
  set_presence (fold_left (fun m kv => <[kv.1 := kv.2]> m) pairs (keyPresenceByDid p)) p.

(** ** Selecting *)

Definition toggleSelect (i : jstr) (p : Page) : Page :=
  set_selected (if includes (selectedIds p) i then List.filter (fun x => negb (jeqb x i)) (selectedIds p) else selectedIds p ++ [i]) p.

Definition allVisibleSelected (d : Data) (p : Page) : bool :=
  let l := filteredThreads d p in
  negb (bool_decide (l = [])) && forallb (fun th => includes (selectedIds p) (id th)) l.

Definition toggleSelectAll (d : Data) (p : Page) : Page :=
  let visible := map id (filteredThreads d p) in
  if allVisibleSelected d p then set_selected (List.filter (fun i => negb (includes visible i)) (selectedIds p)) p
  else set_selected (distinct (selectedIds p ++ visible)) p.

End rows.

(** ** Handlers *)
Module Handlers.

(** The tab, the page, and what the handlers ask of the queries and the user:
    refetches, and the alerts shown. *)
Record Inbox := InboxOf { i_tab : Tab; i_page : Page; i_refetches : nat; i_alerts : list jstr }.

Abbreviation IM := (eff Inbox).

Definition tab {A} (m : TM A) : IM A :=
  fun s => let '(r, t') := m (i_tab s) in (r, InboxOf t' (i_page s) (i_refetches s) (i_alerts s)).
Definition on_page (f : Page -> Page) : IM unit := fun s => (Ok tt, InboxOf (i_tab s) (f (i_page s)) (i_refetches s) (i_alerts s)).
Definition refetch : IM unit := fun s => (Ok tt, InboxOf (i_tab s) (i_page s) (S (i_refetches s)) (i_alerts s)).
Definition alert (text : jstr) : IM unit := fun s => (Ok tt, InboxOf (i_tab s) (i_page s) (i_refetches s) (text :: i_alerts s)).

Section handlers.
Context `{Host, Locale, CaseMap, Env, BrowserEnv, QueryClient}.
Variable t : jstr -> jstr.
Variables (d : Data) (shown : Page).   (** what the handler was rendered with *)

(** [mutate]: the outcome is nobody's. *)
Definition mutate (h : Hooks.MutationHook) : IM unit :=
  try_catch (tab (Logout.mutate_hook h) ;; mret tt) (fun _ => mret tt).

(** One promise of [Promise.allSettled]: whether it was fulfilled. *)
Definition settled (h : Hooks.MutationHook) : IM bool :=
  try_catch (tab (Logout.mutate_hook h) ;; mret true) (fun _ => mret false).

Definition set_all {A} (ids : list jstr) (v : A) (m : gmap jstr A) : gmap jstr A :=
  fold_left (fun m i => <[i := v]> m) ids m.

Definition rows : list ThreadView := filteredThreads t d shown.
Definition is_row (i : jstr) : bool := existsb (fun th => jeqb (id th) i) rows.

(** [selectedIds.filter(visible)], in the order of selection. *)
Definition targetIds : list jstr := List.filter is_row (selectedIds shown).
(** [filteredThreads.filter(selected)], in the order of the rows. *)
Definition apiTargets : list jstr := List.filter (includes targetIds) (map id rows).

Definition handleOpenThread (i : jstr) : IM unit :=
  on_page (fun p => set_mobile true (set_active i p)) ;;
  match List.find (fun th => jeqb (id th) i) rows with
  | Some target =>
    if jeqb (status target) (js "unread") then
      on_page (fun p => set_status (<[i := js "read"]> (localStatus p)) p) ;;
      mutate (Hooks.useUpdateMessageStatusMutation i (js "read"))
    else mret tt
  | None => mret tt
  end.

Definition toggleStar (i : jstr) : IM unit :=
  let current := List.find (fun th => jeqb (id th) i) (apiThreads t d) in
  let nextStar := negb (default (match current with Some th => starred th | None => false end) (localStars shown !! i)) in
  on_page (fun p => set_stars (<[i := nextStar]> (localStars p)) p) ;;
  mutate (Hooks.useUpdateMessageFlagsMutation i None (Some nextStar)).

Definition bulkSetStar (nextStar : bool) : IM unit :=
  let targets := List.filter (includes (selectedIds shown)) (map id rows) in
  if (length targets =? 0)%nat then mret tt
  else
    eff_iter (fun i => mutate (Hooks.useUpdateMessageFlagsMutation i None (Some nextStar))) targets ;;
    on_page (fun p => set_stars (set_all targets nextStar (localStars p)) p).

(** What the bulk actions share: the rows are marked and deselected at once. *)
Definition mark_rows (status : jstr) : IM unit :=
  on_page (fun p => set_selected [] (set_status (set_all targetIds status (localStatus p)) p)).

Definition bulkMoveToFolder (folder : jstr) : IM unit :=
  if (length targetIds =? 0)%nat then mret tt
  else
    mark_rows (js "read") ;;
    eff_map (fun i => settled (Hooks.useUpdateMessageFlagsMutation i (Some folder) None)) apiTargets ;;
    refetch.

Definition bulkRestoreToInbox : IM unit := bulkMoveToFolder (js "inbox").

(** [proceed] is the user's answer to the confirmation. *)
Definition bulkDeleteForever (proceed : bool) : IM unit :=
  if (length targetIds =? 0)%nat then mret tt
  else if negb proceed then mret tt
  else
    mark_rows (js "archived") ;;
    results ← eff_map (fun i => settled (Hooks.useDeleteMessageMutation i)) apiTargets;
    (if existsb negb results then alert (t (js "inbox.deleteForeverFailed")) else mret tt) ;;
    refetch.

Definition bulkUpdateStatus (nextStatus : jstr) : IM unit :=
  if (length targetIds =? 0)%nat then mret tt
  else
    mark_rows nextStatus ;;
    if (length apiTargets =? 0)%nat then mret tt
    else
      eff_map (fun i => settled (Hooks.useUpdateMessageStatusMutation i nextStatus)) apiTargets ;;
      refetch.

End handlers.
End Handlers.

(** ** Stored preferences *)
Module Prefs.

Definition DASHBOARD_UI_PREFS_KEY : jstr := js "nexusinbox.dashboard.ui.v1".

Section prefs.
Context `{Host, Env, BrowserEnv}.

(** [Math.max(200, Math.min(800, w))]; a number read from JSON is not NaN. *)
Definition clamp_width (w : jnum) : jnum :=
  if num_ltb w (num 200) then num 200 else if num_ltb (num 800) w then num 800 else w.

(** What is read of the stored text; [None] is a field left as it is. *)
Record Stored := StoredOf { st_filter : option FilterType; st_search : option jstr; st_width : option jnum }.

Definition read_prefs (parsed : jval) : res Stored :=
  f ← jprop parsed (js "filter");
  Ok (StoredOf
        (if jtruthy f then List.find (fun tab => jis f (filter_name tab)) filterTabs else None)
        (match jget parsed (js "searchQuery") with JStr s => Some s | _ => None end)
        (match jget parsed (js "threadWidth") with JNum w => Some (clamp_width w) | _ => None end)).

Definition apply_prefs (s : Stored) (p : Page) : Page :=
  let p := match st_filter s with Some f => set_filter f p | None => p end in
  match st_search s with Some q => set_search q p | None => p end.

(** The first effect: text that is not what the page stores is removed. *)
Definition load_prefs (p : Page) (threadWidth : jnum) : BM (Page * jnum) :=
  if negb env_window then mret (p, threadWidth)
  else
    raw ← storage_getItem LocalStorage DASHBOARD_UI_PREFS_KEY;
    match raw with
    | None | Some [] => mret (p, threadWidth)
    | Some raw =>
      match (parsed ← json_parse raw; read_prefs parsed) with
      | Ok s => mret (apply_prefs s p, default threadWidth (st_width s))
      | Throw _ => storage_removeItem LocalStorage DASHBOARD_UI_PREFS_KEY ;; mret (p, threadWidth)
      end
    end.

Definition prefs_text (p : Page) (threadWidth : jnum) : jstr :=
  json_stringify (JObj [(js "filter", JStr (filter_name (filter_ p))); (js "searchQuery", JStr (searchQuery p));
                        (js "threadWidth", JNum threadWidth)]).

Definition store_prefs (p : Page) (threadWidth : jnum) : BM unit :=
  if negb env_window then mret tt
  else storage_setItem LocalStorage DASHBOARD_UI_PREFS_KEY (prefs_text p threadWidth).

End prefs.
End Prefs.

(** * Lemmas *)

(** The trace of the inbox, and the request that deletes a message. *)
Definition i_trace (s : Handlers.Inbox) : list Event := w_trace (b_node (t_browser (Handlers.i_tab s))).

Definition delete_request `{Env} (i : jstr) : option Event :=
  match encodeURIComponent i with
  | Ok eid => Some (EvFetch (HttpRequest (js "DELETE") (WebApi.DEFAULT_BASE_URL ++ js "/messages/" ++ eid) [] NoBody))
  | Throw _ => None
  end.

Section deleting.
Context `{Host, Locale, CaseMap, Env, BrowserEnv, QueryClient, !QueryClientLaws}.
Implicit Types s : Handlers.Inbox.

Lemma delete_call_trace i b :
  let '(r, b') := WebApi.deleteMessage WebApi.defaultApiClient i b in
  w_trace (b_node b') = (match delete_request i with Some e => e :: w_trace (b_node b) | None => w_trace (b_node b) end) /\
  (delete_request i = None -> exists e, r = Throw e).
Proof.
  unfold WebApi.deleteMessage, delete_request, WebApi.request_void, web_fetch, lift, host, ask, mbind, eff_bind.
  destruct (encodeURIComponent i) as [eid|e]; [|by split; [|intros _; eexists]]. cbn.
  destruct (env_fetch _ _) as [w|e]; cbn; (split; [done|discriminate]).
Qed.

(** One deletion: what it sends, and that it touches nothing else. *)
Lemma settled_delete i s :
  exists ok s', Handlers.settled (Hooks.useDeleteMessageMutation i) s = (Ok ok, s') /\
    i_trace s' = (match delete_request i with Some e => e :: i_trace s | None => i_trace s end) /\
    (delete_request i = None -> ok = false) /\
    Handlers.i_page s' = Handlers.i_page s /\ Handlers.i_refetches s' = Handlers.i_refetches s /\ Handlers.i_alerts s' = Handlers.i_alerts s.
Proof.
  pose proof (delete_call_trace i (t_browser (Handlers.i_tab s))) as Hd.
  unfold Handlers.settled, Handlers.tab, try_catch, mbind, eff_bind. rewrite mutate_hook_run.
  cbn [Hooks.mutationFn Hooks.useDeleteMessageMutation]. unfold Hooks.void, mbind, eff_bind.
  destruct (WebApi.deleteMessage _ i _) as [[u|e] b']; destruct Hd as [Ht Hn]; eexists _, _; (split; [reflexivity|]); cbn;
    (split; [exact Ht|]); (split; [|done]); [|done]. intros Hnone. destruct (Hn Hnone). discriminate.
Qed.

Lemma delete_all_run l s :
  exists oks s', eff_map (fun i => Handlers.settled (Hooks.useDeleteMessageMutation i)) l s = (Ok oks, s') /\
    i_trace s' = rev (omap delete_request l) ++ i_trace s /\ length oks = length l /\
    Handlers.i_page s' = Handlers.i_page s /\ Handlers.i_refetches s' = Handlers.i_refetches s /\ Handlers.i_alerts s' = Handlers.i_alerts s.
Proof.
  revert s. induction l as [|i l IH]; intros s; [by exists [], s|]. cbn [eff_map].
  destruct (settled_delete i s) as (ok & s1 & E1 & T1 & _ & P1 & R1 & A1).
  destruct (IH s1) as (oks & s2 & E2 & T2 & L2 & P2 & R2 & A2).
  exists (ok :: oks), s2. split; [erewrite bind_ok by exact E1; by erewrite bind_ok by exact E2|].
  rewrite T2, T1. split_and!; [|cbn; by rewrite L2|congruence..].
  cbn. destruct (delete_request i); [|done]. cbn. by rewrite <- app_assoc.
Qed.

Lemma set_all_lookup {A} l (v : A) m i : Handlers.set_all l v m !! i = if decide (i ∈ l) then Some v else m !! i.
Proof.
  unfold Handlers.set_all. revert m. induction l as [|x l IH]; intros m; cbn; [done|]. rewrite IH.
  destruct (decide (i ∈ l)) as [Hi|Hi]; [by rewrite decide_True by by right|].
  destruct (decide (i = x)) as [-> | Hn]; [by rewrite lookup_insert_eq, decide_True by by left|].
  rewrite lookup_insert_ne by done. rewrite decide_False; [done|]. by intros [?|?]%elem_of_cons.
Qed.

Lemma includes_spec l i : includes l i = true <-> i ∈ l.
Proof.
  unfold includes. rewrite existsb_exists. setoid_rewrite jeqb_true. split; [intros (x & Hx & ->); by apply list_elem_of_In|].
  intros Hi. exists i. by rewrite <- list_elem_of_In.
Qed.

Lemma targets_spec t d shown i :
  (i ∈ Handlers.targetIds t d shown <-> i ∈ selectedIds shown /\ i ∈ map id (filteredThreads t d shown)) /\
  (i ∈ Handlers.apiTargets t d shown <-> i ∈ Handlers.targetIds t d shown).
Proof.
  assert (forall j, Handlers.is_row t d shown j = true <-> j ∈ map id (filteredThreads t d shown)) as Hrow.
  { intros j. unfold Handlers.is_row. rewrite existsb_exists, list_elem_of_In, in_map_iff. setoid_rewrite jeqb_true. naive_solver. }
  assert (i ∈ Handlers.targetIds t d shown <-> i ∈ selectedIds shown /\ i ∈ map id (filteredThreads t d shown)) as Ht.
  { unfold Handlers.targetIds. rewrite list_elem_of_In, filter_In, <- list_elem_of_In. by rewrite Hrow. }
  split; [exact Ht|]. unfold Handlers.apiTargets. rewrite list_elem_of_In, filter_In, <- list_elem_of_In, includes_spec, Ht.
  unfold Handlers.rows. naive_solver.
Qed.

End deleting.

(** Deleting for ever.  Unless the user confirms, nothing happens at all.  A
    confirmed deletion sends one request per row that is both shown and
    selected, in the order of the rows, and no other; it deselects everything,
    marks exactly those rows as archived and asks for the list again, and it
    alerts the user at most once. *)
Theorem delete_forever_exact `{Host, Locale, CaseMap, Env, BrowserEnv, QueryClient, !QueryClientLaws}
    (t : jstr -> jstr) (d : Data) (shown : Page) (s : Handlers.Inbox) :
  let targets := Handlers.apiTargets t d shown in
  Handlers.bulkDeleteForever t d shown false s = (Ok tt, s) /\
  (forall i, i ∈ targets <-> i ∈ selectedIds shown /\ i ∈ map id (filteredThreads t d shown)) /\
  (targets <> [] -> exists s', Handlers.bulkDeleteForever t d shown true s = (Ok tt, s') /\
     i_trace s' = rev (omap delete_request targets) ++ i_trace s /\
     selectedIds (Handlers.i_page s') = [] /\
     (forall i, localStatus (Handlers.i_page s') !! i =
        if decide (i ∈ targets) then Some (js "archived") else localStatus (Handlers.i_page s) !! i) /\
     Handlers.i_refetches s' = S (Handlers.i_refetches s) /\
     (Handlers.i_alerts s' = Handlers.i_alerts s \/ Handlers.i_alerts s' = t (js "inbox.deleteForeverFailed") :: Handlers.i_alerts s)).
Proof.
  intros targets. split; [|split].
  - unfold Handlers.bulkDeleteForever. by destruct (_ =? 0)%nat.
  - intros i. destruct (targets_spec t d shown i) as [<- <-]. done.
  - intros Hne. unfold Handlers.bulkDeleteForever. destruct (Nat.eqb_spec (length (Handlers.targetIds t d shown)) 0) as [Hz|_].
    { apply nil_length_inv in Hz. destruct targets as [|i l] eqn:Et; [done|]. exfalso.
      assert (i ∈ Handlers.targetIds t d shown) as Hi by (apply targets_spec; fold targets; rewrite Et; by left).
      rewrite Hz in Hi. by apply not_elem_of_nil in Hi. }
    cbn [negb]. erewrite bind_ok by reflexivity. set (s1 := Handlers.InboxOf _ _ _ _).
    destruct (delete_all_run targets s1) as (oks & s2 & E2 & T2 & _ & P2 & R2 & A2). erewrite bind_ok by exact E2.
    assert (forall i, localStatus (Handlers.i_page s1) !! i =
        if decide (i ∈ targets) then Some (js "archived") else localStatus (Handlers.i_page s) !! i) as Hst.
    { intros i. cbn. rewrite set_all_lookup. destruct (targets_spec t d shown i) as [_ Hi].
      destruct (decide (i ∈ Handlers.targetIds t d shown)) as [Hy|Hy]; [by rewrite decide_True by by apply Hi|].
      rewrite decide_False; [done|]. intros Hx. by apply Hy, Hi. }
    destruct (existsb negb oks); eexists; (split; [reflexivity|]); cbn; rewrite P2, R2, A2; cbn; split_and!; auto.
Qed.

(** Two rows, one of them selected. *)
Definition demo_row (i : jstr) : Threads.MessageIndexEntry :=
  Threads.Entry i None (js "2026-01-01T00:00:00Z") (js "unread") (js "did:key:s") None (js "did:key:r") (js "x") false (js "normal") (num 1) None None None.
Definition demo_data : Data := DataOf (Some [demo_row (js "m1"); demo_row (js "m2")]) (Some 2) None Time.en 0.
Definition demo_page : Page := PageOf inbox [js "m2"] [] false FAll [] 1 ∅ ∅ ∅ ∅ ∅.

Example delete_forever_exact_witness :
  let _ := plain_host in let _ := plain_locale in let _ : CaseMap := fun s => s in let _ := reply_env [] in let _ := open_browser in
  let _ := plain_client in
  exists s', Handlers.bulkDeleteForever (fun k => k) demo_data demo_page true (Handlers.InboxOf paired_tab demo_page 0 []) = (Ok tt, s') /\
    i_trace s' = [EvFetch (HttpRequest (js "DELETE") (js "/api/messages/m2") [] NoBody)].
Proof.
  intros ho lo cm en br qc.
  destruct (delete_forever_exact (fun k => k) demo_data demo_page (Handlers.InboxOf paired_tab demo_page 0 [])) as (_ & _ & Hd).
  destruct Hd as (s' & E & T & _); [by vm_compute|]. exists s'. split; [exact E|]. rewrite T. vm_compute. reflexivity.
Defined.
