(* ===== verification/Preview.v ===== *)
(** The previews of the inbox's rows: the effect of apps/web/app/page.tsx that
    fetches and decrypts every visible row with four workers.

    It is a transition system: a run of the effect is a queue and its workers,
    which take their steps in any order; what a worker sets makes the page
    render, which cancels the run and starts another.  Every schedule ends, and
    when nothing is left to do every row that can have a preview has one. *)
From S2P Require Import Prelude Utf8 JsNumber Json JsDate A2A Effect Node Envelope ApiClient Browser WebKeystore WebEnvelope WebApi Bridge BridgeSpec Llm Session Views Inbox.

(** The fields of [MessageContentResponse] they read. *)
Record Content := ContentOf { encrypted_content : jstr; encrypted_key : jstr }.

(** A worker, where it waits. *)
Inductive Worker :=
| Looping                                           (** at [while (!cancelled)] *)
| Fetching (th : ThreadView)                        (** [await queryClient.fetchQuery] *)
| Decrypting (th : ThreadView) (content : Content)  (** [await Promise.all] *)
| Returned.

(** One run of the effect. *)
Record Run := RunOf { queue : list ThreadView; workers : list Worker }.

(** The page; the runs of the effect, the live one first and the cancelled ones
    after it; and whether the page must still render what the runs have set. *)
Record Pool := PoolOf { p_browser : Browser; p_page : Page; runs : list Run; dirty : bool }.

Inductive Event :=
| Advance (run worker : nat) (answer : res (option Content))  (** the answer matters to a [Fetching] worker *)
| Render.

Section pool.
Context `{Host, Locale, CaseMap, WebCrypto, Env, BrowserEnv}.
Variables (t : jstr -> jstr) (d : Data).

Definition wanted (p : Page) (th : ThreadView) : bool :=
  bool_decide (previewTextById p !! id th = None) && truthy_str (recipientDid th)
  && negb (bool_decide (keyPresenceByDid p !! recipientDid th = Some false)).

Definition pending (p : Page) : list ThreadView := List.filter (wanted p) (filteredThreads t d p).

(** The effect: the run before it is cancelled; without anything pending no
    worker starts. *)
Definition start (p : Page) : Run :=
  match pending p with [] => RunOf [] [] | l => RunOf l (replicate PREVIEW_DECRYPT_CONCURRENCY Looping) end.

(** After [await fetchQuery] failed. *)
Definition mark_failed (th : ThreadView) (p : Page) : Page :=
  match previewTextById p !! id th with
  | None => set_previews (<[id th := WebText.ENCRYPTED_PLACEHOLDER]> (previewTextById p)) p
  | Some _ => p
  end.

(** After [await Promise.all]. *)
Definition show (th : ThreadView) (subjectResult bodyResult : jstr) (p : Page) : Page :=
  let p := if jeqb subjectResult WebText.ENCRYPTED_PLACEHOLDER then p
           else set_subjects (<[id th := subjectResult]> (subjectTextById p)) p in
  set_previews (<[id th := if jeqb bodyResult WebText.ENCRYPTED_PLACEHOLDER then WebText.ENCRYPTED_PLACEHOLDER
                           else previewSnippet bodyResult PREVIEW_CHARS]> (previewTextById p)) p.

Definition decrypt (th : ThreadView) (content : Content) : BM (jstr * jstr) :=
  subjectResult ← WebText.decryptEnvelopeText (encryptedSubject th) (Some (encrypted_key content)) (Some (recipientDid th));
  bodyResult ← WebText.decryptEnvelopeText (encrypted_content content) (Some (encrypted_key content)) (Some (recipientDid th));
  mret (subjectResult, bodyResult).

(** The next step of a worker of a run: its run, and the pool without it. *)
Definition advance (cancelled : bool) (answer : res (option Content)) (w : Worker) (q : list ThreadView) (s : Pool)
    : option (Worker * list ThreadView * Pool) :=
  match w with
  | Returned => None
  | Looping =>
    if cancelled then Some (Returned, q, s)
    else match q with
    | [] => Some (Returned, q, s)
    | th :: q => Some (Fetching th, q, s)
    end
  | Fetching th =>
    match answer with
    | Throw _ =>
      if cancelled then Some (Looping, q, s)
      else Some (Looping, q, PoolOf (p_browser s) (mark_failed th (p_page s)) (runs s)
                   (dirty s || bool_decide (previewTextById (p_page s) !! id th = None)))
    | Ok None => Some (Returned, q, s)
    | Ok (Some content) => if cancelled then Some (Returned, q, s) else Some (Decrypting th content, q, s)
    end
  | Decrypting th content =>
    let '(r, b) := decrypt th content (p_browser s) in
    match r with
    | Throw _ => Some (Returned, q, PoolOf b (p_page s) (runs s) (dirty s))
    | Ok (subjectResult, bodyResult) =>
      if cancelled then Some (Returned, q, PoolOf b (p_page s) (runs s) (dirty s))
      else Some (Looping, q, PoolOf b (show th subjectResult bodyResult (p_page s)) (runs s) true)
    end
  end.

Definition step (e : Event) (s : Pool) : option Pool :=
  match e with
  | Render => if dirty s then Some (PoolOf (p_browser s) (p_page s) (start (p_page s) :: runs s) false) else None
  | Advance i j answer =>
    match runs s !! i with
    | None => None
    | Some run =>
      match workers run !! j with
      | None => None
      | Some w =>
        match advance (negb (i =? 0)%nat) answer w (queue run) s with
        | None => None
        | Some (w', q', s') =>
          Some (PoolOf (p_browser s') (p_page s') (<[i := RunOf q' (<[j := w']> (workers run))]> (runs s')) (dirty s'))
        end
      end
    end
  end.

Fixpoint steps (es : list Event) (s : Pool) : option Pool :=
  match es with
  | [] => Some s
  | e :: r => match step e s with Some s' => steps r s' | None => None end
  end.

(** The page when the effect has first run. *)
Definition opened (b : Browser) (p : Page) : Pool := PoolOf b p [start p] false.

End pool.

(** * Lemmas *)

(** Nothing is refused: decrypting does not throw. *)
Lemma decryptEnvelopeText_ok `{WebCrypto, Env, BrowserEnv, !NeverRefuses} text key did b :
  exists plain b', WebText.decryptEnvelopeText text key did b = (Ok plain, b').
Proof.
  assert (forall d b, exists k b', RecipientKeyring.getRecipientPrivateKey d b = (Ok k, b')) as Hk.
  { intros i b0. unfold RecipientKeyring.getRecipientPrivateKey, Ring.getPrivateKey.
    destruct (ensureMigration_total RecipientRing b0) as (b1 & E1 & _). erewrite bind_ok by exact E1.
    erewrite bind_ok by reflexivity. destruct (kr_memory _ !! i); [by eexists _, _|].
    unfold isKeystoreAvailable. rewrite in_browser. cbn [negb].
    erewrite bind_ok by (by rewrite secureLoadKey_run, idb_accepts). destruct (stored_key b1 _); by eexists _, _. }
  unfold WebText.decryptEnvelopeText, WebText.decryptEnvelopeTextWithState.
  destruct (CryptoPkg.parseEncryptedPayload text) as [parsed|]; [|by eexists _, _].
  unfold WebText.decodeWrappedContentKey.
  destruct key as [[|c key]|]; [by eexists _, _| |by eexists _, _].
  destruct (negb (starts_with _ _)); [by eexists _, _|]. destruct did as [[|c' did]|]; [by eexists _, _| |by eexists _, _].
  destruct (Hk (c' :: did) b) as (k & b1 & E1).
  unfold mbind, eff_bind. rewrite E1. by eexists _, _.
Qed.

(** ** The measure

    What is left to do: the steps the workers have before them, and a render for
    each row without a preview (and one if something is to be rendered). *)
Definition worker_weight (w : Worker) : nat :=
  match w with Returned => 0 | Looping => 1 | Decrypting _ _ => 2 | Fetching _ => 3 end.
Definition run_weight (r : Run) : nat := sum_list_with worker_weight (workers r).
Definition live_queue (rs : list Run) : nat := match rs with [] => 0 | r :: _ => length (queue r) end.
Definition weight (rs : list Run) : nat := 3 * live_queue rs + sum_list_with run_weight rs.

(** The rows a run has taken and not dealt with. *)
Definition flight (w : Worker) : list ThreadView := match w with Fetching th | Decrypting th _ => [th] | _ => [] end.
Definition in_hand (r : Run) : list ThreadView := queue r ++ flat_map flight (workers r).

(** [p'] has every preview [p] has. *)
Definition more_previews (p p' : Page) : Prop := forall i, previewTextById p !! i <> None -> previewTextById p' !! i <> None.

Lemma sum_insert {A} (f : A -> nat) l i x y : l !! i = Some x ->
  (sum_list_with f (<[i := y]> l) + f x = sum_list_with f l + f y)%nat.
Proof.
  revert i. induction l as [|z l IH]; intros [|i] E; [done..| |]; [injection E as ->; cbn; lia|].
  specialize (IH i E). change (f z + sum_list_with f (<[i := y]> l) + f x = f z + sum_list_with f l + f y)%nat. lia.
Qed.

#[global] Instance returned_dec (w : Worker) : Decision (w = Returned).
Proof. refine (match w with Returned => left eq_refl | _ => right _ end); discriminate. Defined.

Lemma flat_map_nil {A B} (f : A -> list B) l : (forall x, x ∈ l -> f x = []) -> flat_map f l = [].
Proof. induction l as [|x l IH]; intros Hl; [done|]. cbn. rewrite Hl, IH; [done|intros; apply Hl; by right|by left]. Qed.

Lemma elem_insert {A} (l : list A) i x y : y ∈ <[i := x]> l -> y = x \/ y ∈ l.
Proof.
  intros [k Hk]%list_elem_of_lookup. apply list_lookup_insert_Some in Hk as [(_ & <- & _)|[_ Hk]]; [by left|right].
  by apply list_elem_of_lookup_2 with k.
Qed.

Lemma in_hand_insert r j w w' q' th : workers r !! j = Some w ->
  th ∈ in_hand (RunOf q' (<[j := w']> (workers r))) -> th ∈ q' \/ th ∈ flight w' \/ th ∈ flat_map flight (workers r).
Proof.
  intros Hj [H|H]%elem_of_app; [by left|right].
  apply list_elem_of_In, in_flat_map in H as (x & Hx%list_elem_of_In & Hth%list_elem_of_In).
  apply elem_insert in Hx as [-> | Hx]; [by left|right]. apply list_elem_of_In, in_flat_map. exists x.
  by rewrite <- !list_elem_of_In.
Qed.

Lemma in_hand_put ws j w' th : (j < length ws)%nat -> th ∈ flight w' -> th ∈ flat_map flight (<[j := w']> ws).
Proof.
  intros Hj Hth. apply list_elem_of_In, in_flat_map. exists w'. rewrite <- !list_elem_of_In. split; [|done].
  by apply list_elem_of_insert.
Qed.

Lemma flight_kept ws j w w' th : ws !! j = Some w -> th ∈ flat_map flight ws ->
  th ∈ flat_map flight (<[j := w']> ws) \/ th ∈ flight w.
Proof.
  intros Hj (x & Hx%list_elem_of_In & Hth%list_elem_of_In)%list_elem_of_In%in_flat_map.
  apply list_elem_of_lookup in Hx as [k Hk]. destruct (decide (k = j)) as [-> | Hkj]; [right; congruence|left].
  apply list_elem_of_In, in_flat_map. exists x. rewrite <- !list_elem_of_In. split; [|done].
  apply list_elem_of_lookup_2 with k. by rewrite list_lookup_insert_ne.
Qed.

Section proofs.
Context `{Host, Locale, CaseMap, WebCrypto, Env, BrowserEnv}.
Variables (t : jstr -> jstr) (d : Data).

Definition undecided (p : Page) : nat :=
  length (List.filter (fun th => bool_decide (previewTextById p !! id th = None)) (apiThreads t d)).
Definition all_rows : nat := length (apiThreads t d).
Definition per_render : nat := 3 * all_rows + PREVIEW_DECRYPT_CONCURRENCY + 1.
Definition measure (s : Pool) : nat :=
  per_render * (undecided (p_page s) + (if dirty s then 1 else 0)) + weight (runs s).

Lemma undecided_more p p' : more_previews p p' -> (undecided p' <= undecided p)%nat.
Proof.
  intros Hm. unfold undecided. induction (apiThreads t d) as [|th l IH]; [done|]. cbn.
  case_bool_decide as E1; case_bool_decide as E2; cbn; [lia| |lia|lia]. by apply Hm in E2.
Qed.

Lemma undecided_fewer p p' i : more_previews p p' -> i ∈ map id (apiThreads t d) ->
  previewTextById p !! i = None -> previewTextById p' !! i <> None -> (undecided p' < undecided p)%nat.
Proof.
  intros Hm Hi Hp Hp'. apply list_elem_of_fmap in Hi as (th & -> & Hth). unfold undecided.
  pose proof (undecided_more p p' Hm) as Hle. unfold undecided in Hle.
  apply list_elem_of_split in Hth as (l1 & l2 & E). rewrite E, !List.filter_app, !length_app. cbn.
  rewrite bool_decide_false by done. rewrite bool_decide_true by done. cbn.
  assert (forall l, length (List.filter (fun th => bool_decide (previewTextById p' !! id th = None)) l)
    <= length (List.filter (fun th => bool_decide (previewTextById p !! id th = None)) l))%nat as Hl; [|pose proof (Hl l1); pose proof (Hl l2); lia].
  clear -Hm. induction l as [|th l IH]; [done|]. cbn.
  case_bool_decide as E1; case_bool_decide as E2; cbn; [lia| |lia|lia]. by apply Hm in E2.
Qed.

Lemma pending_rows p th : th ∈ pending t d p -> previewTextById p !! id th = None /\ id th ∈ map id (apiThreads t d).
Proof.
  unfold pending, filteredThreads, derivedThreads. rewrite !list_elem_of_In, !filter_In. intros [[[Hin _] _] Hw].
  unfold wanted in Hw. apply andb_true_iff in Hw as [[Hw _]%andb_true_iff _]. split; [by apply bool_decide_eq_true in Hw|].
  apply in_map_iff in Hin as (th0 & <- & Hin). cbn. by apply in_map.
Qed.

Lemma pending_length p : (length (pending t d p) <= all_rows)%nat.
Proof.
  unfold pending, filteredThreads, all_rows. etrans; [apply filter_length_le|]. etrans; [apply filter_length_le|].
  etrans; [apply filter_length_le|]. unfold derivedThreads. by rewrite length_map.
Qed.

Lemma start_weight p : (3 * length (queue (start t d p)) + run_weight (start t d p) < per_render)%nat.
Proof.
  pose proof (pending_length p) as Hl. unfold start, per_render, PREVIEW_DECRYPT_CONCURRENCY.
  destruct (pending t d p); cbn in *; [lia|]. unfold run_weight. cbn. lia.
Qed.

(** What a worker's step does. *)
Record advanced (cancelled : bool) (w w' : Worker) (q q' : list ThreadView) (s s' : Pool) : Prop := {
  adv_runs : runs s' = runs s;
  adv_weight : (worker_weight w' + 3 * length q' < worker_weight w + 3 * length q)%nat;
  adv_queue : q' = q \/ cancelled = false /\ w = Looping /\ exists th, q = th :: q' /\ w' = Fetching th;
  adv_hand : forall th, th ∈ flight w' -> th ∈ flight w \/ cancelled = false /\ head q = Some th;
  adv_page : p_page s' = p_page s /\ dirty s' = dirty s \/
    cancelled = false /\ dirty s' = true /\ more_previews (p_page s) (p_page s') /\
    exists th, th ∈ flight w /\ previewTextById (p_page s') !! id th <> None
}.

Lemma set_previews_more i v p : more_previews p (set_previews (<[i := v]> (previewTextById p)) p) /\
  previewTextById (set_previews (<[i := v]> (previewTextById p)) p) !! i <> None.
Proof. cbn. split; [intros k Hk; cbn; destruct (decide (k = i)) as [-> | Hn]; [by rewrite lookup_insert_eq|by rewrite lookup_insert_ne by done]|by rewrite lookup_insert_eq]. Qed.

Lemma show_more th sub bod p : more_previews p (show th sub bod p) /\ previewTextById (show th sub bod p) !! id th <> None.
Proof.
  unfold show. set (p1 := if jeqb sub _ then p else _).
  assert (previewTextById p1 = previewTextById p) as E by (unfold p1; by destruct (jeqb sub _)).
  match goal with |- context [set_previews (<[_ := ?v]> _) _] => destruct (set_previews_more (id th) v p1) as [Hm Hn] end.
  split; [|exact Hn]. intros k Hk. apply Hm. by rewrite E.
Qed.

(** A step that sets nothing and takes nothing from the queue. *)
Ltac still := split; cbn; [done|lia|by left|set_solver|by left].

Lemma advance_spec c ans w q s w' q' s' : advance c ans w q s = Some (w', q', s') -> advanced c w w' q q' s s'.
Proof.
  destruct w as [|th|th content|]; cbn [advance]; [| | |done].
  - destruct c; [intros [= <- <- <-]; by still|]. destruct q as [|th q]; intros [= <- <- <-]; [by still|].
    split; cbn; [done|lia|right; eauto| |by left]. intros th' ->%list_elem_of_singleton. by right.
  - destruct ans as [[content|]|e]; [destruct c|..].
    1-3: intros [= <- <- <-]; by still.
    destruct c; intros [= <- <- <-]; [by still|]. split; cbn; [done|lia|by left|set_solver|].
    unfold mark_failed. destruct (previewTextById (p_page s) !! id th) as [v|] eqn:E; cbn.
    + left. by rewrite orb_false_r.
    + right. rewrite orb_true_r.
      destruct (set_previews_more (id th) WebText.ENCRYPTED_PLACEHOLDER (p_page s)) as [Hm Hn].
      split_and!; try done. exists th. split; [by left|done].
  - destruct (decrypt th content (p_browser s)) as [[[sub bod]|e] b]; [|intros [= <- <- <-]; by still].
    destruct c; intros [= <- <- <-]; [by still|]. split; cbn; [done|lia|by left|set_solver|].
    right. destruct (show_more th sub bod (p_page s)) as [Hm Hn]. split_and!; try done. exists th. split; [by left|done].
Qed.

(** Until something is to be rendered, what the live run has in hand has no preview. *)
Definition fresh (s : Pool) : Prop :=
  dirty s = false -> forall r, head (runs s) = Some r -> forall th, th ∈ in_hand r ->
    previewTextById (p_page s) !! id th = None /\ id th ∈ map id (apiThreads t d).

Lemma start_in_hand p : in_hand (start t d p) = pending t d p.
Proof. unfold start, in_hand. destruct (pending t d p); [done|]. cbn. by rewrite app_nil_r. Qed.

Lemma weight_insert rs i j r w w' q' : rs !! i = Some r -> workers r !! j = Some w ->
  (weight (<[i := RunOf q' (<[j := w']> (workers r))]> rs) + worker_weight w + (if (i =? 0)%nat then 3 * length (queue r) else 0)
   = weight rs + worker_weight w' + (if (i =? 0)%nat then 3 * length q' else 0))%nat.
Proof.
  intros Hi Hj. unfold weight. pose proof (sum_insert run_weight rs i r (RunOf q' (<[j := w']> (workers r))) Hi) as S1.
  pose proof (sum_insert worker_weight (workers r) j w w' Hj) as S2. unfold run_weight in S1 at 2 4. cbn [workers] in S1.
  destruct rs as [|r0 rs]; [done|]. destruct i as [|i]; cbn in Hi |- *; [injection Hi as ->|]; cbn in S1; lia.
Qed.

Lemma step_measure e s s' : fresh s -> step t d e s = Some s' -> fresh s' /\ (measure s' < measure s)%nat.
Proof.
  intros Hf. destruct e as [i j ans|]; cbn [step].
  - destruct (runs s !! i) as [r|] eqn:Ei; [|done]. destruct (workers r !! j) as [w|] eqn:Ej; [|done].
    destruct (advance _ _ _ _ _) as [[[w' q'] s1]|] eqn:Ea; [|done]. intros [= <-].
    destruct (advance_spec _ _ _ _ _ _ _ _ Ea) as [Hr Hw Hq Hh Hp].
    pose proof (weight_insert (runs s) i j r w w' q' Ei Ej) as Wi.
    assert ((if (i =? 0)%nat then 0 else 3 * length q') = (if (i =? 0)%nat then 0 else 3 * length (queue r)))%nat as Hc.
    { destruct (i =? 0)%nat eqn:Ez; [done|]. destruct Hq as [-> | [Hc _]]; [done|]. by cbn in Hc. }
    assert (forall th, head (runs s) = Some r -> i = 0%nat -> th ∈ flight w -> th ∈ in_hand r) as Hfw.
    { intros th _ _ Hth. unfold in_hand. rewrite elem_of_app, !list_elem_of_In, in_flat_map. right. exists w.
      rewrite <- !list_elem_of_In. split; [by apply list_elem_of_lookup_2 with j|done]. }
    split.
    + intros Hd r0 Hr0 th Hth. cbn [dirty runs p_page] in *. destruct Hp as [[Hp Hdd] | (_ & Hdd & _)]; [|congruence].
      rewrite Hp. rewrite Hr in Hr0. destruct (runs s) as [|r1 rs] eqn:Ers; [done|]. destruct i as [|i]; cbn in Ei, Hr0.
      * injection Ei as ->. injection Hr0 as <-. apply (Hf ltac:(congruence) r); [by rewrite Ers|].
        apply (in_hand_insert r j w w' q' th Ej) in Hth as [Hth|[Hth|Hth]].
        -- unfold in_hand. apply elem_of_app. left. destruct Hq as [-> | (_ & _ & th0 & -> & _)]; [done|by right].
        -- apply Hh in Hth as [Hth|[_ Hth]]; [by apply Hfw|]. unfold in_hand. apply elem_of_app. left.
           destruct (queue r); [done|]. injection Hth as ->. by left.
        -- unfold in_hand. apply elem_of_app. by right.
      * injection Hr0 as <-. apply (Hf ltac:(congruence) r1); [by rewrite Ers|done].
    + unfold measure. cbn [p_page dirty runs]. rewrite Hr.
      assert (undecided (p_page s1) + (if dirty s1 then 1 else 0) <= undecided (p_page s) + (if dirty s then 1 else 0))%nat as Hu.
      { destruct Hp as [[-> ->] | (Hc0 & -> & Hm & th & Hth & Hn)]; [done|].
        pose proof (undecided_more _ _ Hm). destruct (dirty s) eqn:Hd; [lia|].
        apply negb_false_iff, Nat.eqb_eq in Hc0 as ->.
        assert (head (runs s) = Some r) as Hhd by by destruct (runs s).
        destruct (Hf Hd r Hhd th) as [F1 F2]; [by apply Hfw|].
        pose proof (undecided_fewer _ _ _ Hm F2 F1 Hn). lia. }
      pose proof (Nat.mul_le_mono_l _ _ per_render Hu). destruct (i =? 0)%nat; lia.
  - destruct (dirty s) eqn:Hd; [|done]. intros [= <-]. split.
    + intros _ r [= <-] th Hth. cbn [p_page]. rewrite start_in_hand in Hth. by apply pending_rows.
    + unfold measure. cbn [p_page dirty runs]. rewrite Hd. pose proof (start_weight (p_page s)) as Hs.
      assert (weight (start t d (p_page s) :: runs s) < per_render + weight (runs s))%nat; [|lia].
      unfold weight. destruct (runs s); cbn [live_queue sum_list_with]; lia.
Qed.

Lemma steps_measure es s s' : fresh s -> steps t d es s = Some s' -> fresh s' /\ (length es + measure s' <= measure s)%nat.
Proof.
  revert s. induction es as [|e es IH]; intros s Hf; cbn [steps]; [intros [= <-]; split; [done|cbn [length]; lia]|].
  destruct (step t d e s) as [s1|] eqn:E; [|done]. destruct (step_measure e s s1 Hf E) as [F1 M1].
  intros E2. destruct (IH s1 F1 E2) as [F2 M2]. split; [done|cbn [length]; lia].
Qed.

(** ** When nothing is left to do *)

Definition answered (e : Event) : Prop := match e with Advance _ _ (Ok None) => False | _ => True end.
Definition settled (s : Pool) : Prop := forall e, step t d e s = None.

(** Until something is to be rendered, the live run has every pending row in
    hand; a worker returns only from an empty queue. *)
Definition covered (s : Pool) : Prop :=
  exists r rs, runs s = r :: rs /\
    (dirty s = false -> forall th, th ∈ pending t d (p_page s) -> th ∈ in_hand r) /\
    (Returned ∈ workers r -> queue r = []) /\ (workers r = [] -> queue r = []).

Lemma start_covered b p rs dirt : dirt = false -> covered (PoolOf b p (start t d p :: rs) dirt).
Proof.
  intros _. eexists _, rs. split; [done|]. split; [intros _ th; by rewrite start_in_hand|]. unfold start.
  destruct (pending t d p); cbn; [by split|]. split; [|done]. set_solver.
Qed.

Lemma live_step `{!NeverRefuses} ans w q s w' q' s' : advance false ans w q s = Some (w', q', s') -> ans <> Ok None ->
  (w' = Returned -> q' = []) /\
  (dirty s' = false -> forall th, th ∈ flight w -> th ∈ flight w' \/ previewTextById (p_page s') !! id th <> None).
Proof.
  destruct w as [|th|th content|]; cbn [advance]; [| | |done].
  - destruct q as [|th q]; intros [= <- <- <-] _; (split; [done|set_solver]).
  - destruct ans as [[content|]|e]; [|done|]; intros [= <- <- <-] _; (split; [done|]); [set_solver|].
    cbn. intros [_ Hb]%orb_false_iff th' ->%list_elem_of_singleton. right. apply bool_decide_eq_false in Hb.
    unfold mark_failed. by destruct (previewTextById (p_page s) !! id th) eqn:E; [rewrite E|].
  - unfold decrypt.
    destruct (decryptEnvelopeText_ok (encryptedSubject th) (Some (encrypted_key content)) (Some (recipientDid th)) (p_browser s)) as (x & b1 & E1).
    destruct (decryptEnvelopeText_ok (encrypted_content content) (Some (encrypted_key content)) (Some (recipientDid th)) b1) as (y & b2 & E2).
    erewrite bind_ok by exact E1. erewrite bind_ok by exact E2. by intros [= <- <- <-] _.
Qed.

Lemma step_covered `{!NeverRefuses} e s s' : covered s -> answered e -> step t d e s = Some s' -> covered s'.
Proof.
  intros (r & rs & Ers & Hp & Hq & Hw) Ha. destruct e as [i j ans|]; cbn [step].
  2: { destruct (dirty s); [|done]. intros [= <-]. by apply start_covered. }
  rewrite Ers. destruct ((r :: rs) !! i) as [r0|] eqn:Ei; [|done]. destruct (workers r0 !! j) as [w|] eqn:Ej; [|done].
  destruct (advance _ _ _ _ _) as [[[w' q'] s1]|] eqn:Ea; [|done]. intros [= <-].
  destruct (advance_spec _ _ _ _ _ _ _ _ Ea) as [Hr _ Hqq _ Hpg]. rewrite Hr, Ers. destruct i as [|i]; cbn in Ei.
  2: { exists r, (<[i := RunOf q' (<[j := w']> (workers r0))]> rs). split; [done|]. cbn [dirty p_page].
       destruct Hpg as [[-> ->]|[? _]]; [by split_and!|done]. }
  injection Ei as <-. eexists _, rs. split; [reflexivity|]. cbn [dirty p_page queue workers].
  assert (ans <> Ok None) as Hn by by intros ->. destruct (live_step _ _ _ _ _ _ _ Ea Hn) as [L1 L2].
  assert (queue r = [] -> q' = []) as Hnil.
  { intros Hnil. destruct Hqq as [-> | (_ & _ & th & Hc & _)]; [done|congruence]. }
  split_and!.
  - intros Hd th Hth. destruct Hpg as [[Epg Edd] | (_ & Hd1 & _)]; [|congruence]. rewrite Epg in Hth.
    pose proof Hth as Hwant. apply pending_rows in Hwant as [Hnone _].
    apply Hp in Hth; [|congruence]. unfold in_hand in Hth. apply elem_of_app in Hth as [Hth|Hth].
    + destruct Hqq as [-> | (_ & _ & th0 & Hc & ->)]; [by apply elem_of_app; left|]. rewrite Hc in Hth.
      apply elem_of_cons in Hth as [-> | Hth]; [|by apply elem_of_app; left]. apply elem_of_app. right.
      apply in_hand_put; [by apply lookup_lt_Some in Ej|by left].
    + apply elem_of_app. right. apply (flight_kept _ _ _ w' _ Ej) in Hth as [Hth|Hth]; [done|].
      destruct (L2 Hd th Hth) as [Hin|Hsome]; [|by rewrite Epg in Hsome]. apply in_hand_put; [by apply lookup_lt_Some in Ej|done].
  - intros [Hin|Hin]%elem_insert; [by apply L1|by apply Hnil, Hq].
  - intros Hz. apply (f_equal length) in Hz. rewrite length_insert in Hz. apply lookup_lt_Some in Ej. cbn in Hz. lia.
Qed.

Lemma steps_covered `{!NeverRefuses} es s s' : covered s -> Forall answered es -> steps t d es s = Some s' -> covered s'.
Proof.
  revert s. induction es as [|e es IH]; intros s Hc Ha; cbn [steps]; [by intros [= <-]|]. apply Forall_cons in Ha as [Ha1 Ha].
  destruct (step t d e s) as [s1|] eqn:E; [|done]. apply IH; [|done]. by eapply step_covered.
Qed.

(** A worker that has not returned can take a step. *)
Lemma worker_moves c w q s : w <> Returned -> exists x, advance c (Throw (Error_ [])) w q s = Some x.
Proof.
  intros Hw. destruct w as [|th|th content|]; cbn [advance]; [| | |done].
  - destruct c; [by eexists|]. destruct q; by eexists.
  - destruct c; by eexists.
  - destruct (decrypt th content (p_browser s)) as [[[x y]|e] b]; [|by eexists]. destruct c; by eexists.
Qed.

Lemma moves_or_settled s : settled s \/ exists e s', answered e /\ step t d e s = Some s'.
Proof.
  destruct (dirty s) eqn:Hd; [right; exists Render; cbn; rewrite Hd; by eexists|].
  destruct (decide (Forall (fun r => Forall (fun w => w = Returned) (workers r)) (runs s))) as [Hall|Hnot]; [left|right].
  - intros [i j ans|]; cbn; [|by rewrite Hd]. destruct (runs s !! i) as [r|] eqn:Ei; [|done].
    destruct (workers r !! j) as [w|] eqn:Ej; [|done].
    rewrite Forall_lookup in Hall. specialize (Hall i r Ei). rewrite Forall_lookup in Hall. by rewrite (Hall j w Ej).
  - apply not_Forall_Exists in Hnot; [|apply _]. apply Exists_exists in Hnot as (r & Hr & Hnot).
    apply not_Forall_Exists in Hnot; [|apply _]. apply Exists_exists in Hnot as (w & Hw & Hne).
    apply list_elem_of_lookup in Hr as [i Hi]. apply list_elem_of_lookup in Hw as [j Hj].
    destruct (worker_moves (negb (i =? 0)%nat) w (queue r) s Hne) as [[[w' q'] s'] E].
    exists (Advance i j (Throw (Error_ []))). cbn. rewrite Hi, Hj, E. by eexists.
Qed.

Lemma settled_nothing_pending s : covered s -> settled s -> pending t d (p_page s) = [].
Proof.
  intros (r & rs & Ers & Hp & Hq & Hw) Hs. assert (dirty s = false) as Hd.
  { specialize (Hs Render). cbn in Hs. by destruct (dirty s). }
  assert (forall w, w ∈ workers r -> w = Returned) as Hall.
  { intros w [j Hj]%list_elem_of_lookup. destruct (decide (w = Returned)) as [|Hne]; [done|].
    destruct (worker_moves false w (queue r) s Hne) as [[[w' q'] s'] E].
    specialize (Hs (Advance 0 j (Throw (Error_ [])))). cbn [step] in Hs. rewrite Ers in Hs.
    change ((r :: rs) !! 0%nat) with (Some r) in Hs. cbv iota in Hs. rewrite Hj in Hs. change (negb _) with false in Hs.
    by rewrite E in Hs. }
  assert (in_hand r = []) as Hnil.
  { unfold in_hand. destruct (workers r) as [|w ws]; [by rewrite Hw|]. rewrite Hq.
    - cbn [app]. apply flat_map_nil. intros x Hx. by rewrite (Hall x Hx).
    - rewrite <- (Hall w); by left. }
  destruct (pending t d (p_page s)) as [|th l]; [done|]. exfalso. rewrite Hnil in Hp. specialize (Hp Hd th). set_solver.
Qed.

Lemma schedule_exists n s : fresh s -> (measure s <= n)%nat ->
  exists es s', Forall answered es /\ steps t d es s = Some s' /\ settled s'.
Proof.
  revert s. induction n as [|n IH]; intros s Hf Hn; destruct (moves_or_settled s) as [Hs|(e & s1 & Ha & E)].
  1, 3: by exists [], s.
  - destruct (step_measure e s s1 Hf E). lia.
  - destruct (step_measure e s s1 Hf E) as [F1 M1]. destruct (IH s1 F1 ltac:(lia)) as (es & s' & Hes & Es & Hs).
    exists (e :: es), s'. split; [by constructor|]. cbn [steps]. by rewrite E.
Qed.

Lemma opened_fresh b p : fresh (opened t d b p).
Proof. intros _ r [= <-] th Hth. cbn [p_page opened]. rewrite start_in_hand in Hth. by apply pending_rows. Qed.

End proofs.

(** C23: The previews of the inbox end, in every order of the workers, the answers
    and the renders: the number of steps has a bound that depends on the rows
    alone, some schedule reaches a state where nothing is left to do, and in
    every such state each row that could have a preview has one, provided the
    server answered no content request with [null]. *)
Theorem previews_settle `{Host, Locale, CaseMap, WebCrypto, Env, BrowserEnv, !NeverRefuses} (t : jstr -> jstr) (d : Data)
    (b : Browser) (p : Page) :
  let n := length (apiThreads t d) in
  (forall es s', steps t d es (opened t d b p) = Some s' -> (length es <= (3 * n + 5) * n + (3 * n + 4))%nat) /\
  (exists es s', Forall answered es /\ steps t d es (opened t d b p) = Some s' /\ settled t d s') /\
  (forall es s', Forall answered es -> steps t d es (opened t d b p) = Some s' -> settled t d s' ->
     pending t d (p_page s') = []).
Proof.
  intros n. split_and!.
  - intros es s' E. destruct (steps_measure t d es _ s' (opened_fresh t d b p) E) as [_ Hm].
    pose proof (start_weight t d p) as Hw. unfold measure, opened, weight in Hm. cbn [p_page dirty runs live_queue sum_list_with] in Hm.
    assert (undecided t d p <= n)%nat as Hu by apply filter_length_le.
    assert (per_render t d = 3 * n + 5)%nat as Hr by (unfold per_render, all_rows, PREVIEW_DECRYPT_CONCURRENCY; fold n; lia).
    rewrite Hr in Hw. rewrite Hr in Hm at 2. nia.
  - eapply schedule_exists; [apply opened_fresh|reflexivity].
  - intros es s' Ha E. apply settled_nothing_pending. refine (steps_covered t d es _ s' _ Ha E). by apply start_covered.
Qed.

Example previews_settle_witness :
  let _ := plain_host in let _ := plain_locale in let _ : CaseMap := fun s => s in let _ := reply_env (js "{}") in let _ := open_browser in
  (exists es s', Forall answered es /\ steps (fun k => k) demo_data es (opened (fun k => k) demo_data new_profile demo_page) = Some s' /\
    settled (fun k => k) demo_data s') /\
  forall es s', steps (fun k => k) demo_data es (opened (fun k => k) demo_data new_profile demo_page) = Some s' ->
    (length es <= 32)%nat.
Proof.
  intros ho lo cm en br. destruct (previews_settle (fun k => k) demo_data new_profile demo_page) as (H1 & H2 & _).
  split; [exact H2|]. intros es s' E. exact (H1 es s' E).
Defined.

(** A schedule with a failed fetch: both rows are decided after one render. *)
Example preview_schedule :
  let _ := plain_host in let _ := plain_locale in let _ : CaseMap := fun s => s in let _ := reply_env (js "{}") in let _ := open_browser in
  let fail : res (option Content) := Throw (Error_ []) in
  let content : res (option Content) := Ok (Some (ContentOf (js "text") [])) in
  let es := [Advance 0 0 fail; Advance 0 1 fail; Advance 0 1 fail; Render; Advance 1 0 content; Advance 0 0 fail; Advance 0 0 content;
             Advance 0 0 fail; Render] in
  exists s', steps (fun k => k) demo_data es (opened (fun k => k) demo_data new_profile demo_page) = Some s' /\
    previewTextById (p_page s') = <[js "m1" := WebText.ENCRYPTED_PLACEHOLDER]> {[js "m2" := WebText.ENCRYPTED_PLACEHOLDER]}.
Proof. eexists. split; vm_compute; reflexivity. Qed.
