(* ===== verification/Realtime.v ===== *)
(** The live updates: apps/web/app/_components/RealtimeSubscriber.tsx.

    The effect, its socket's callbacks and its timer as one state machine.
    Sockets and timers have identities, because a callback belongs to the socket
    it was given to while the refs hold only the last of each.  A socket that was
    closed still reports it, later; a timer that was cleared does not fire. *)
From S2P Require Import Prelude Utf8 JsNumber Json A2A Effect Node Envelope Session.

Module Realtime.

Inductive ConnectionState := idle | connecting | open | retrying | closed.

Definition MAX_BACKOFF_MS : Z := 30000.
Definition BASE_BACKOFF_MS : Z := 1000.

(** [s_sockets] are the sockets that have not reported their end, [s_timers]
    the timers that are set, with their delays. *)
Record Sub := SubOf {
  cancelledRef : bool; retryAttemptRef : nat; socketRef : option nat; retryTimerRef : option nat; connectionState : ConnectionState;
  s_sockets : list nat; s_timers : list (nat * Z); s_next : nat; s_invalidated : list Hooks.CacheOp
}.

Definition mounted : Sub := SubOf false 0 None None idle [] [] 0 [].

Section subscriber.
Context `{Host, Env}.

(** [typeof window], and the location the page was loaded from. *)
Variables (window : bool) (protocol host : jstr).

Definition buildWsUrl : option jstr :=
  if negb window then None
  else match env_var (js "NEXT_PUBLIC_WS_URL") with
  | Some override =>
    if truthy_str override && (0 <? length (trim override))%nat then Some (trim override)
    else Some ((if jeqb protocol (js "https:") then js "wss:" else js "ws:") ++ js "//" ++ host ++ js "/api/ws")
  | None => Some ((if jeqb protocol (js "https:") then js "wss:" else js "ws:") ++ js "//" ++ host ++ js "/api/ws")
  end.

Definition backoff (attempt : nat) : Z := Z.min (BASE_BACKOFF_MS * 2 ^ Z.of_nat attempt) MAX_BACKOFF_MS.

Definition scheduleReconnect (s : Sub) : Sub :=
  if cancelledRef s then s
  else SubOf false (S (retryAttemptRef s)) (socketRef s) (Some (s_next s)) retrying
         (s_sockets s) ((s_next s, backoff (retryAttemptRef s)) :: s_timers s) (S (s_next s)) (s_invalidated s).

(** [constructs] says whether [new WebSocket(url)] succeeds. *)
Definition connect (constructs : bool) (s : Sub) : Sub :=
  match buildWsUrl with
  | None | Some [] => s
  | Some _ =>
    let s := SubOf (cancelledRef s) (retryAttemptRef s) (socketRef s) (retryTimerRef s)
               (if (retryAttemptRef s =? 0)%nat then connecting else retrying) (s_sockets s) (s_timers s) (s_next s) (s_invalidated s) in
    if negb constructs then scheduleReconnect s
    else SubOf (cancelledRef s) (retryAttemptRef s) (Some (s_next s)) (retryTimerRef s) (connectionState s)
           (s_next s :: s_sockets s) (s_timers s) (S (s_next s)) (s_invalidated s)
  end.

(** The effect, for a session that is authenticated. *)
Definition setup (constructs : bool) (s : Sub) : Sub :=
  connect constructs (SubOf false (retryAttemptRef s) (socketRef s) (retryTimerRef s) (connectionState s)
                        (s_sockets s) (s_timers s) (s_next s) (s_invalidated s)).

Definition onopen (s : Sub) : Sub :=
  SubOf (cancelledRef s) 0 (socketRef s) (retryTimerRef s) open (s_sockets s) (s_timers s) (s_next s) (s_invalidated s).

(** [data] is [None] when the message is not text. *)
Definition onmessage (data : option jstr) (s : Sub) : Sub :=
  let parsed := match data with Some text => match json_parse text with Ok v => v | Throw _ => JNull end | None => JNull end in
  if jtruthy parsed && jis (jget parsed (js "event")) (js "new_message") then
    SubOf (cancelledRef s) (retryAttemptRef s) (socketRef s) (retryTimerRef s) (connectionState s) (s_sockets s) (s_timers s) (s_next s)
      (Hooks.Invalidate Hooks.messages_prefix :: s_invalidated s)
  else s.

Definition onclose (i : nat) (s : Sub) : Sub :=
  let s := SubOf (cancelledRef s) (retryAttemptRef s) None (retryTimerRef s) (connectionState s)
             (List.filter (fun j => negb (j =? i)%nat) (s_sockets s)) (s_timers s) (s_next s) (s_invalidated s) in
  if cancelledRef s then SubOf true (retryAttemptRef s) (socketRef s) (retryTimerRef s) closed (s_sockets s) (s_timers s) (s_next s) (s_invalidated s)
  else scheduleReconnect s.

(** The effect's cleanup: the timer of the ref is cleared; the socket of the ref
    is closed, which it reports later. *)
Definition cleanup (s : Sub) : Sub :=
  SubOf true 0 None None idle (s_sockets s)
    (match retryTimerRef s with Some i => List.filter (fun k => negb (k.1 =? i)%nat) (s_timers s) | None => s_timers s end)
    (s_next s) (s_invalidated s).

Inductive Happening :=
| Authenticated (constructs : bool) | SignedOut
| Fires (timer : nat) (constructs : bool)
| Opens (socket : nat) | Pushes (socket : nat) (data : option jstr) | Closes (socket : nat).

Definition has (l : list nat) (i : nat) : bool := existsb (Nat.eqb i) l.

(** What may happen to a socket or a timer happens to one that exists. *)
Definition step (e : Happening) (s : Sub) : option Sub :=
  match e with
  | Authenticated c => Some (setup c s)
  | SignedOut => Some (cleanup s)
  | Fires i c =>
    if has (map fst (s_timers s)) i then
      Some (connect c (SubOf (cancelledRef s) (retryAttemptRef s) (socketRef s) (retryTimerRef s) (connectionState s) (s_sockets s)
                         (List.filter (fun k => negb (k.1 =? i)%nat) (s_timers s)) (s_next s) (s_invalidated s)))
    else None
  | Opens i => if has (s_sockets s) i then Some (onopen s) else None
  | Pushes i data => if has (s_sockets s) i then Some (onmessage data s) else None
  | Closes i => if has (s_sockets s) i then Some (onclose i s) else None
  end.

(** The effect and its cleanup alternate. *)
Definition alternates (e : Happening) (s : Sub) : Prop :=
  match e with Authenticated _ => cancelledRef s = true \/ s_next s = 0%nat | SignedOut => cancelledRef s = false | _ => True end.

(** A new session starts when the socket of the last has reported its end. *)
Definition unhurried (e : Happening) (s : Sub) : Prop :=
  match e with Authenticated _ => s_sockets s = [] | _ => True end.

Inductive reachable : Sub -> Prop :=
| reach_mounted : reachable mounted
| reach_step e s s' : reachable s -> alternates e s -> unhurried e s -> step e s = Some s' -> reachable s'.

End subscriber.
End Realtime.

(** * Lemmas *)
Import Realtime.

Lemma backoff_bounds n : BASE_BACKOFF_MS <= backoff n <= MAX_BACKOFF_MS.
Proof. unfold backoff, BASE_BACKOFF_MS, MAX_BACKOFF_MS. pose proof (Z.pow_pos_nonneg 2 (Z.of_nat n)). lia. Qed.

(** The delays double from one second until they reach half a minute. *)
Lemma backoff_doubles n : backoff (S n) = Z.min (2 * backoff n) MAX_BACKOFF_MS.
Proof.
  unfold backoff. rewrite Nat2Z.inj_succ, Z.pow_succ_r by lia.
  pose proof (Z.pow_pos_nonneg 2 (Z.of_nat n)). unfold BASE_BACKOFF_MS, MAX_BACKOFF_MS. lia.
Qed.

Section single.
Context `{Host, Env}.
Variables (window : bool) (protocol host : jstr).

(** The socket or the timer of the session, and nothing else. *)
Definition one_line (s : Sub) : Prop :=
  s_next s <> 0%nat /\
  ((exists i, s_sockets s = [i] /\ s_timers s = [] /\ socketRef s = Some i) \/
   (exists i, s_sockets s = [] /\ s_timers s = [(i, backoff (pred (retryAttemptRef s)))] /\ retryTimerRef s = Some i /\ retryAttemptRef s <> 0%nat)).

Definition line_inv (s : Sub) : Prop :=
  if cancelledRef s then s_timers s = [] /\ (length (s_sockets s) <= 1)%nat
  else if buildWsUrl window protocol host then one_line s \/ (s_next s = 0%nat /\ s_sockets s = [] /\ s_timers s = [])
  else s_sockets s = [] /\ s_timers s = [].

Lemma url_nonempty u : buildWsUrl window protocol host = Some u -> u <> [].
Proof.
  unfold buildWsUrl. destruct (negb window); [done|]. destruct (env_var _) as [o|].
  - destruct (truthy_str o && _) eqn:E; [|by destruct (jeqb _ _); intros [= <-]].
    apply andb_true_iff in E as [_ E]. intros [= <-] Hz. by rewrite Hz in E.
  - by destruct (jeqb _ _); intros [= <-].
Qed.

Lemma connect_inv c s : cancelledRef s = false -> s_sockets s = [] -> s_timers s = [] ->
  line_inv (connect window protocol host c s).
Proof.
  intros Hc Hs Ht. unfold connect, line_inv. destruct (buildWsUrl window protocol host) as [[|x u]|] eqn:E.
  - by apply url_nonempty in E.
  - destruct c; cbn; unfold scheduleReconnect; cbn; rewrite ?Hc; cbn; rewrite ?Hc; left; (split; [done|]).
    + left. exists (s_next s). by rewrite Hs.
    + right. exists (s_next s). by rewrite Hs, Ht.
  - by rewrite Hc.
Qed.

Lemma has_single i j : has [i] j = true -> j = i.
Proof. unfold has. cbn. rewrite orb_false_r. by intros ->%Nat.eqb_eq. Qed.

Lemma has_nil i : has [] i = false.
Proof. done. Qed.

Lemma step_inv e s s' : line_inv s -> alternates e s -> unhurried e s -> step window protocol host e s = Some s' -> line_inv s'.
Proof.
  intros Hi Ha Hu. destruct e as [c| |i c|i|i data|i]; cbn [step alternates unhurried] in *.
  - intros [= <-]. apply connect_inv; [done|done|]. unfold line_inv in Hi. destruct (cancelledRef s); [apply Hi|].
    destruct Ha as [Ha|Ha]; [done|]. destruct (buildWsUrl _ _ _); [|apply Hi]. destruct Hi as [[Hn _]|Hi]; [done|apply Hi].
  - intros [= <-]. unfold line_inv in *. rewrite Ha in Hi. cbn. destruct (buildWsUrl _ _ _).
    + destruct Hi as [(_ & [(i & -> & -> & _)|(i & -> & -> & -> & _)])|(_ & -> & ->)]; cbn;
        rewrite ?Nat.eqb_refl; cbn; split; try lia; by destruct (retryTimerRef s).
    + destruct Hi as [-> ->]. split; [by destruct (retryTimerRef s)|cbn; lia].
  - destruct (has _ i) eqn:Eh; [|done]. intros [= <-]. unfold line_inv in Hi. destruct (cancelledRef s) eqn:Ec.
    { destruct Hi as [Hi _]. by rewrite Hi in Eh. }
    destruct (buildWsUrl _ _ _); [|by destruct Hi as [_ Hi]; rewrite Hi in Eh].
    destruct Hi as [(_ & [(k & _ & Ht & _)|(k & Hs & Ht & _)])|(_ & _ & Ht)]; rewrite Ht in Eh; [done| |done].
    apply has_single in Eh as ->. rewrite Ht. cbn [List.filter fst]. rewrite Nat.eqb_refl. cbn [negb]. by apply connect_inv.
  - destruct (has _ i) eqn:Eh; [|done]. intros [= <-]. unfold line_inv in *. cbn. destruct (cancelledRef s); [done|].
    destruct (buildWsUrl _ _ _); [|done].
    destruct Hi as [(Hn & [(k & Hs & Ht & Hr)|(k & Hs & _)])|(_ & Hs & _)]; [|by rewrite Hs in Eh..]. left. split; [done|]. left. by exists k.
  - destruct (has _ i) eqn:Eh; [|done]. intros [= <-]. unfold onmessage. by destruct (jtruthy _ && _).
  - destruct (has _ i) eqn:Eh; [|done]. intros [= <-]. unfold onclose, line_inv in *. cbn. destruct (cancelledRef s) eqn:Ec; cbn.
    { destruct Hi as [-> Hl]. split; [done|]. etrans; [apply filter_length_le|done]. }
    destruct (buildWsUrl _ _ _); [|by destruct Hi as [Hs _]; rewrite Hs in Eh].
    destruct Hi as [(Hn & [(k & Hs & Ht & Hr)|(k & Hs & _)])|(_ & Hs & _)]; [|by rewrite Hs in Eh..].
    rewrite Hs in Eh. apply has_single in Eh as ->. unfold scheduleReconnect. cbn. left. split; [done|]. right. exists (s_next s).
    rewrite Hs, Ht. cbn. by rewrite Nat.eqb_refl.
Qed.

End single.

(** C25: One line to the server.  When a new session starts only after the socket of
    the last one has reported its end, a live session has exactly one socket, or
    one timer that will open one after between a second and half a minute, and
    the refs name it; a session that has ended has no timer left. *)
Theorem realtime_one_line `{Host, Env} (window : bool) (protocol host : jstr) (s : Sub) :
  reachable window protocol host s ->
  if cancelledRef s then s_timers s = [] /\ (length (s_sockets s) <= 1)%nat
  else if buildWsUrl window protocol host
  then (s_next s = 0%nat /\ s_sockets s = [] /\ s_timers s = []) \/
       (exists i, s_sockets s = [i] /\ s_timers s = [] /\ socketRef s = Some i) \/
       (exists i delay, s_sockets s = [] /\ s_timers s = [(i, delay)] /\ retryTimerRef s = Some i /\
          BASE_BACKOFF_MS <= delay <= MAX_BACKOFF_MS)
  else s_sockets s = [] /\ s_timers s = [].
Proof.
  intros Hr. assert (line_inv window protocol host s) as Hi.
  { induction Hr as [|e s s' _ IH Ha Hu E]; [|by eapply step_inv]. unfold line_inv. cbn. destruct (buildWsUrl _ _ _); [by right|done]. }
  unfold line_inv in Hi. destruct (cancelledRef s); [done|]. destruct (buildWsUrl _ _ _); [|done].
  destruct Hi as [(_ & [Hi|(i & Hs & Ht & Hr' & _)])|Hi]; [by right; left| |by left]. right; right. exists i, (backoff (pred (retryAttemptRef s))).
  split_and!; try done; apply backoff_bounds.
Qed.

Example realtime_one_line_witness :
  let _ := plain_host in let _ := reply_env [] in
  exists s i delay, reachable true (js "https:") (js "app.example") s /\ s_timers s = [(i, delay)] /\ retryTimerRef s = Some i /\
    BASE_BACKOFF_MS <= delay <= MAX_BACKOFF_MS.
Proof.
  intros ho en. pose (s1 := setup true (js "https:") (js "app.example") true mounted). pose (s2 := onclose 0 s1).
  assert (reachable true (js "https:") (js "app.example") s2) as R.
  { apply (reach_step _ _ _ (Closes 0) s1); [|done..]. apply (reach_step _ _ _ (Authenticated true) mounted); [constructor|by right|done..]. }
  exists s2. destruct (realtime_one_line _ _ _ s2 R) as [(Hz & _)|[(i & Hs & _)|(i & delay & _ & Ht & Hr & Hd)]]; [done..|].
  by exists i, delay.
Defined.

(** A sign-in that does not wait: the end of the old socket, reported to a new
    session, makes it connect a second time, and signing out closes neither. *)
Example quick_sign_in_doubles :
  let _ := plain_host in let _ := reply_env [] in
  let go := fun e o => match o with Some s => step true (js "https:") (js "app.example") e s | None => None end in
  exists s, go (Fires 2 true) (go (Closes 0) (go (Authenticated true) (go SignedOut (go (Authenticated true) (Some mounted))))) = Some s /\
    s_sockets s = [3; 1]%nat /\ cancelledRef s = false.
Proof. eexists. split; vm_compute; [reflexivity|done]. Qed.
