(* ===== verification/AgentInbox.v ===== *)
(** The inbox of one agent: apps/web/app/agent/[did]/NexusInboxClient.tsx.

    [Address] is the search, folder and status kept in the URL, with the timer
    that delays what is typed; [AutoRun] is the effect that starts the auto-reply
    executor, whose run with the page's collaborators is in AutoReplyRun.v; the
    rest is the list.  What the page shows is in MailViews.v, with the column of
    Shell.v. *)
From S2P Require Import Prelude Utf8 JsNumber Json JsDate A2A Effect Node ApiClient Browser WebKeystore WebEnvelope WebApi Urls AutoReply Executor Llm Session Views Inbox.

(** ** The address *)

(** [params.set] and [params.delete]. *)
Definition params_delete (key : jstr) (params : list (jstr * jstr)) : list (jstr * jstr) :=
  List.filter (fun kv => negb (jeqb kv.1 key)) params.
Fixpoint params_set (key value : jstr) (params : list (jstr * jstr)) : list (jstr * jstr) :=
  match params with
  | [] => [(key, value)]
  | (k, v) :: r => if jeqb k key then (k, value) :: params_delete key r else (k, v) :: params_set key value r
  end.

Module Address.

Definition VISIBLE_FOLDERS : list jstr := [js "inbox"; js "sent"; js "archive"; js "starred"; js "all"].

Definition initialFolder (params : list (jstr * jstr)) : jstr :=
  match params_get (js "folder") params with
  | Some ((_ :: _) as v) => if includes VISIBLE_FOLDERS v then v else js "inbox"
  | _ => js "inbox"
  end.
(** Whether only unread messages are shown. *)
Definition initialStatus (params : list (jstr * jstr)) : bool :=
  match params_get (js "status") params with Some v => jeqb v (js "unread") | None => false end.
Definition initialQuery (params : list (jstr * jstr)) : jstr := default [] (params_get (js "q") params).

Definition status_name (unread : bool) : jstr := if unread then js "unread" else js "all".

(** What a control passes to [syncQueryToUrl]. *)
Record Change := ChangeOf { c_q : option jstr; c_folder : option jstr; c_status : option bool }.

(** The page: its state, [location.search], and the pending call of [apply]
    with the state it closed over. *)
Record View := ViewOf {
  folder : jstr; statusFilter : bool; searchQuery : jstr; v_search : jstr; urlSyncTimer : option (Change * (jstr * bool * jstr))
}.

Definition put (key value unset : jstr) (params : list (jstr * jstr)) : list (jstr * jstr) :=
  if truthy_str value && negb (jeqb value unset) then params_set key value params else params_delete key params.

Section address.
Variable pathname : jstr.

Definition next_params (next : Change) (closed : jstr * bool * jstr) (params : list (jstr * jstr)) : list (jstr * jstr) :=
  let '(f, s, q) := closed in
  put (js "status") (status_name (default s (c_status next))) (js "all")
    (put (js "folder") (default f (c_folder next)) (js "inbox")
       (put (js "q") (default q (c_q next)) [] params)).

(** [apply]: the path handed to [router.replace]. *)
Definition new_path (next : Change) (closed : jstr * bool * jstr) (search : jstr) : jstr :=
  let qs := url_search_params (next_params next closed (parse_params search)) in
  if truthy_str qs then pathname ++ js "?" ++ qs else pathname.

Definition apply (next : Change) (closed : jstr * bool * jstr) (v : View) : View :=
  ViewOf (folder v) (statusFilter v) (searchQuery v) (location_search (new_path next closed (v_search v))) None.

(** [closed] is the state of the render the handler belongs to; the caller has
    set the new state already. *)
Definition syncQueryToUrl (next : Change) (closed : jstr * bool * jstr) (v : View) : View :=
  match c_q next with
  | Some _ => ViewOf (folder v) (statusFilter v) (searchQuery v) (v_search v) (Some (next, closed))
  | None => apply next closed v
  end.

Definition state_of (v : View) : jstr * bool * jstr := (folder v, statusFilter v, searchQuery v).

Definition on_search (next : jstr) (v : View) : View :=
  syncQueryToUrl (ChangeOf (Some next) None None) (state_of v)
    (ViewOf (folder v) (statusFilter v) next (v_search v) (urlSyncTimer v)).
Definition on_folder (next : jstr) (v : View) : View :=
  syncQueryToUrl (ChangeOf None (Some next) None) (state_of v)
    (ViewOf next (statusFilter v) (searchQuery v) (v_search v) (urlSyncTimer v)).
Definition on_status (next : bool) (v : View) : View :=
  syncQueryToUrl (ChangeOf None None (Some next)) (state_of v)
    (ViewOf (folder v) next (searchQuery v) (v_search v) (urlSyncTimer v)).
Definition on_timer (v : View) : View :=
  match urlSyncTimer v with Some (next, closed) => apply next closed v | None => v end.

Definition opened (search : jstr) : View :=
  let params := parse_params search in ViewOf (initialFolder params) (initialStatus params) (initialQuery params) search None.

Inductive Act := Typed (text : jstr) | ChoseFolder (f : jstr) | ChoseStatus (unread : bool) | TimerFires.

Definition act (a : Act) (v : View) : View :=
  match a with
  | Typed text => on_search text v
  | ChoseFolder f => on_folder f v
  | ChoseStatus s => on_status s v
  | TimerFires => on_timer v
  end.

(** What the controls can give: text, and the folders of the list. *)
Definition act_ok (a : Act) : Prop :=
  match a with
  | Typed text => Forall unit_ok text /\ is_well_formed text = true
  | ChoseFolder f => f ∈ VISIBLE_FOLDERS
  | _ => True
  end.

End address.
End Address.

(** ** Starting the executor *)
Module AutoRun.

Definition hasEligible (messages : list MessageIndexEntry) : bool :=
  existsb (fun m =>
    if truthy_ostr (auto_reply_sent_at m) then false
    else match auto_reply_decision m with
    | Some auto_accept | Some auto_decline => true
    | Some queue_for_human => match auto_reply_reason m with Some r => jeqb r (js "calendar_unavailable") | None => false end
    | _ => false
    end) messages.

(** [executorRunningRef], and the runs that were started. *)
Record Runs := RunsOf { running : bool; started : nat }.

Definition executor_effect (currentAgent : bool) (messages : option (list MessageIndexEntry)) (r : Runs) : Runs :=
  if negb currentAgent || running r || negb (hasEligible (default [] messages)) then r
  else RunsOf true (S (started r)).

(** The [finally] of a run. *)
Definition run_ends (r : Runs) : Runs := RunsOf false (started r).

End AutoRun.

(** ** The list *)
Module AgentList.

Record Row := RowOf {
  id : jstr; sender : jstr; senderDid : jstr; recipientDid : jstr; subject : jstr; encryptedSubject : jstr; preview : jstr; time : jstr;
  unread : bool; trust : jnum; autoReplyDecision : option jstr; autoReplyReason : option jstr; autoReplySentAt : option jstr;
  messageCount : nat
}.

Record Page := PageOf { activeId : jstr; localRead : gmap jstr bool; subjectTextById : gmap jstr jstr; keyPresenceByDid : gmap jstr bool }.

Section list.
Context `{Host, Locale, CaseMap}.
Variable t : jstr -> jstr.

Definition row_of_group (d : Data) (group : Threads.ThreadGroup) : Row :=
  let m := Threads.representative group in
  RowOf (Threads.id m)
    (Labels.resolveParticipantLabel (Some (Threads.sender_did m)) (Threads.sender_label m) (Some (Labels.indexContactsByDid (contacts d))))
    (Threads.sender_did m) (Threads.recipient_did m) (t (js "inbox.decryptingSubject")) (Threads.subject_encrypted m)
    (t (js "inbox.bodyHidden")) (Time.formatListTimestamp (Threads.created_at m) (locale d) (now d)) (Threads.hasUnread group)
    (Threads.trust_score m) (Threads.auto_reply_decision m) (Threads.auto_reply_reason m) (Threads.auto_reply_sent_at m) (Threads.count group).

(** [apiThreads], which is also [baseThreads]. *)
Definition apiThreads (d : Data) : list Row := map (row_of_group d) (Threads.groupMessagesByThread (default [] (messages d))).

Definition read_here (p : Page) (r : Row) : Row :=
  RowOf (id r) (sender r) (senderDid r) (recipientDid r) (subject r) (encryptedSubject r) (preview r) (time r)
    (if default false (localRead p !! id r) then false else unread r) (trust r) (autoReplyDecision r) (autoReplyReason r)
    (autoReplySentAt r) (messageCount r).

Definition threads (d : Data) (p : Page) : list Row := map (read_here p) (apiThreads d).

Definition filteredThreads (d : Data) (searchQuery : jstr) (p : Page) : list Row :=
  let trimmedQuery := trim searchQuery in
  if negb (truthy_str trimmedQuery) then threads d p
  else
    let needle := toLowerCase trimmedQuery in
    List.filter (fun r =>
      match subjectTextById p !! id r with Some subject => str_includes (toLowerCase subject) needle | None => false end
      || str_includes (toLowerCase (sender r)) needle) (threads d p).

Definition active_effect (d : Data) (p : Page) : Page :=
  match threads d p with
  | [] => PageOf [] (localRead p) (subjectTextById p) (keyPresenceByDid p)
  | first :: _ as l =>
    if existsb (fun r => jeqb (id r) (activeId p)) l then p else PageOf (id first) (localRead p) (subjectTextById p) (keyPresenceByDid p)
  end.

Definition activeThread (d : Data) (p : Page) : option Row := List.find (fun r => jeqb (id r) (activeId p)) (threads d p).

(** [handleOpen]: the page, and whether the message is marked as read. *)
Definition open_row (r : Row) (p : Page) : Page := PageOf (id r) (<[id r := true]> (localRead p)) (subjectTextById p) (keyPresenceByDid p).

Context `{WebCrypto, Env, BrowserEnv, QueryClient}.

Definition handleOpen (r : Row) (p : Page) : TM Page :=
  let p := open_row r p in
  if unread r then
    try_catch (Logout.mutate_hook (Hooks.useUpdateMessageStatusMutation (id r) (js "read")) ;; mret p) (fun _ => mret p)
  else mret p.

(** The effect that decrypts the subject of the open row; [encryptedKey] is that
    of its content, once it is there. *)
Definition subject_effect (d : Data) (encryptedKey : option jstr) (p : Page) : BM Page :=
  match activeThread d p, encryptedKey with
  | Some r, Some ((_ :: _) as key) =>
    if negb (truthy_str (encryptedSubject r)) then mret p
    else
      decryptedSubject ← WebText.decryptEnvelopeText (encryptedSubject r) (Some key) (Some (recipientDid r));
      mret (if jeqb decryptedSubject WebText.ENCRYPTED_PLACEHOLDER then p
            else PageOf (activeId p) (localRead p) (<[id r := decryptedSubject]> (subjectTextById p)) (keyPresenceByDid p))
  | _, _ => mret p
  end.

(** The effect that looks for the recipients' keys. *)
Definition presence_toCheck (d : Data) (p : Page) : list jstr :=
  List.filter (fun did => bool_decide (keyPresenceByDid p !! did = None)) (distinct (List.filter truthy_str (map recipientDid (threads d p)))).
Definition presence_effect (d : Data) (p : Page) : BM Page :=
  pairs ← eff_map (fun did => has ← RecipientKeyring.hasRecipientPrivateKey did; mret (did, has)) (presence_toCheck d p);
  mret (PageOf (activeId p) (localRead p) (subjectTextById p) (fold_left (fun m kv => <[kv.1 := kv.2]> m) pairs (keyPresenceByDid p))).

(** Where the agent switcher goes, if it goes. *)
Definition handleAgentSwitch (did nextDid : jstr) : res (option jstr) :=
  if negb (truthy_str nextDid) || jeqb nextDid did then Ok None
  else enc ← encodeURIComponent nextDid; Ok (Some (js "/agent/" ++ enc)).

End list.
End AgentList.

(** * Lemmas *)

(** The page starts the executor exactly when the executor would find something
    to do. *)
Lemma hasEligible_exact ms : AutoRun.hasEligible ms = negb (bool_decide (eligibleMessages ms = [])).
Proof.
  unfold AutoRun.hasEligible, eligibleMessages. induction ms as [|m ms IH]; [done|]. cbn [existsb List.filter]. rewrite IH.
  assert ((if truthy_ostr (auto_reply_sent_at m) then false
           else match auto_reply_decision m with
           | Some auto_accept | Some auto_decline => true
           | Some queue_for_human => match auto_reply_reason m with Some r => jeqb r (js "calendar_unavailable") | None => false end
           | _ => false
           end) = eligible m) as ->.
  { unfold eligible. destruct (auto_reply_decision m) as [[]|]; by destruct (truthy_ostr _). }
  by destruct (eligible m).
Qed.

Definition pair_ok (kv : jstr * jstr) : Prop :=
  (Forall unit_ok kv.1 /\ is_well_formed kv.1 = true) /\ (Forall unit_ok kv.2 /\ is_well_formed kv.2 = true).

Lemma form_encode_bytes s : form_encode s = flat_map form_byte (utf8_encode s).
Proof. done. Qed.

(** What the form encoder writes, the URL parser leaves alone. *)
Lemma form_byte_fixed b : byte_ok b -> flat_map query_byte (form_byte b) = form_byte b.
Proof.
  intros Hb. assert (bool_decide (flat_map query_byte (form_byte b) = form_byte b) = true) as H; [|by apply bool_decide_eq_true in H].
  revert b Hb. apply forall_bytes. by vm_compute.
Qed.

Lemma form_encode_fixed s : Forall unit_ok s -> flat_map query_byte (form_encode s) = form_encode s.
Proof.
  intros Hs. rewrite form_encode_bytes, flat_map_flat_map. pose proof (utf8_encode_bytes s Hs) as Hb.
  induction Hb as [|b bs Hb _ IH]; [done|]. cbn [flat_map]. by rewrite form_byte_fixed, IH.
Qed.

Lemma form_encode_safe s : Forall unit_ok s -> Forall query_safe (form_encode s).
Proof. intros Hs. rewrite form_encode_bytes. apply encoded_safe; [apply form_byte_reads|by apply utf8_encode_bytes]. Qed.

Definition piece (kv : jstr * jstr) : jstr := form_encode kv.1 ++ js "=" ++ form_encode kv.2.

Lemma piece_props kv : pair_ok kv ->
  flat_map query_byte (piece kv) = piece kv /\ ascii_text (piece kv) /\ 35 ∉ piece kv /\ 38 ∉ piece kv /\ piece kv <> [] /\
  (let '(k, v) := split_first 61 (piece kv) in (form_decode k, form_decode v)) = kv.
Proof.
  intros [[Hk Wk] [Hv Wv]]. pose proof (form_encode_safe _ Hk) as Sk. pose proof (form_encode_safe _ Hv) as Sv. unfold piece.
  split_and!.
  - rewrite !flat_map_app, !form_encode_fixed by done. done.
  - apply Forall_app. split; [by apply safe_ascii|]. apply Forall_app. split; [|by apply safe_ascii].
    apply (bool_decide_eq_true_1 (ascii_text _)). by vm_compute.
  - rewrite !elem_of_app. intros [H|[H|H]]; [revert H; without|vm_compute in H; set_solver|revert H; without].
  - rewrite !elem_of_app. intros [H|[H|H]]; [revert H; without|vm_compute in H; set_solver|revert H; without].
  - by destruct (form_encode kv.1).
  - change (js "=" ++ form_encode kv.2) with (61 :: form_encode kv.2). rewrite split_first_app by without.
    rewrite !form_encode_bytes, (form_decode_encoded _ kv.1 form_byte_reads Hk Wk), (form_decode_encoded _ kv.2 form_byte_reads Hv Wv).
    by destruct kv.
Qed.

Lemma url_search_params_pieces l : url_search_params l = join_with [38] (map piece l).
Proof. done. Qed.

Lemma join_forall (P : Z -> Prop) c l : P c -> Forall (Forall P) l -> Forall P (join_with [c] l).
Proof.
  intros Hc. induction 1 as [|x l Hx _ IH]; [constructor|]. destruct l as [|y l]; [done|].
  cbn [join_with]. apply Forall_app. split; [done|]. apply Forall_app. by split; [repeat constructor|].
Qed.

Lemma join_fixed l : Forall pair_ok l -> flat_map query_byte (join_with [38] (map piece l)) = join_with [38] (map piece l).
Proof.
  induction 1 as [|kv l Hkv _ IH]; [done|]. destruct l as [|kv' l]; [by apply piece_props|].
  cbn [map join_with] in *. rewrite !flat_map_app, IH. by destruct (piece_props kv Hkv) as [-> _].
Qed.

(** A query that is built from pairs and put in the address is read back. *)
Lemma params_roundtrip path l : Forall query_safe path -> Forall pair_ok l -> l <> [] ->
  parse_params (location_search (path ++ js "?" ++ url_search_params l)) = l.
Proof.
  intros Hp Hl Hne. rewrite url_search_params_pieces.
  assert (forall (P : Z -> Prop), P 38 -> (forall kv, pair_ok kv -> Forall P (piece kv)) -> Forall P (join_with [38] (map piece l))) as Hj.
  { intros P Hc Hall. apply join_forall; [done|]. apply Forall_map. eapply Forall_impl; [exact Hl|]. intros kv Hkv. by apply Hall. }
  set (q := join_with [38] (map piece l)).
  assert (35 ∉ q) as Hq35.
  { assert (Forall (fun c => c <> 35) q) as H; [|rewrite Forall_forall in H; intros Hin; by apply (H 35)].
    apply Hj; [done|]. intros kv Hkv. apply Forall_forall. intros c Hc ->. destruct (piece_props kv Hkv) as (_ & _ & Hn & _). by apply Hn. }
  assert (q <> []) as Hqn.
  { unfold q. destruct l as [|kv l']; [done|]. apply Forall_cons in Hl as [Hkv _]. destruct (piece_props kv Hkv) as (_ & _ & _ & _ & Hn & _).
    cbn [map join_with]. destruct (map piece l'); [done|]. by destruct (piece kv). }
  unfold location_search. rewrite (split_first_none 35).
  2: { rewrite !elem_of_app. intros [H|[H|H]]; [revert H; without|vm_compute in H; set_solver|done]. }
  change (js "?" ++ q) with (63 :: q). rewrite split_first_app by without. 
  assert (exists c r, q = c :: r) as (c & r & Eq) by (destruct q; [done|eauto]). rewrite Eq. cbv iota. rewrite <- Eq.
  rewrite ascii_utf8 by (apply Hj; [done|]; intros kv Hkv; by apply piece_props).
  unfold q. rewrite join_fixed by done. unfold parse_params.
  rewrite split_on_join; [|by destruct l|apply Forall_map; eapply Forall_impl; [exact Hl|]; intros kv Hkv; by apply piece_props].
  clear -Hl. induction Hl as [|kv l Hkv _ IH]; [done|]. destruct (piece_props kv Hkv) as (_ & _ & _ & _ & Hn & Hd).
  cbn [map]. rewrite filter_cons_True by done. cbn [map]. by rewrite Hd, IH.
Qed.

Lemma get_delete key k ps : params_get k (params_delete key ps) = if jeqb k key then None else params_get k ps.
Proof.
  unfold params_delete. induction ps as [|[k' v'] ps IH]; cbn; [by destruct (jeqb k key)|].
  destruct (jeqb k' key) eqn:E; cbn; rewrite IH.
  - destruct (jeqb k key) eqn:E2; [done|]. destruct (jeqb k' k) eqn:E3; [|done].
    apply jeqb_true in E as ->. apply jeqb_true in E3 as ->. by rewrite jeqb_refl in E2.
  - destruct (jeqb k' k) eqn:E3; [|done]. apply jeqb_true in E3 as ->. by rewrite E.
Qed.

Lemma get_set key v k ps : params_get k (params_set key v ps) = if jeqb key k then Some v else params_get k ps.
Proof.
  induction ps as [|[k' v'] ps IH]; cbn; [done|]. destruct (jeqb k' key) eqn:E; cbn.
  - apply jeqb_true in E as ->. destruct (jeqb key k) eqn:E2; [done|]. rewrite get_delete.
    destruct (jeqb k key) eqn:E3; [|done]. apply jeqb_true in E3 as ->. by rewrite jeqb_refl in E2.
  - rewrite IH. destruct (jeqb k' k) eqn:E3; [|done]. apply jeqb_true in E3 as ->. destruct (jeqb key k) eqn:E2; [|done].
    apply jeqb_true in E2 as ->. by rewrite jeqb_refl in E.
Qed.

Lemma get_put key value unset k ps :
  params_get k (Address.put key value unset ps) =
    if jeqb key k then (if truthy_str value && negb (jeqb value unset) then Some value else None) else params_get k ps.
Proof.
  unfold Address.put. destruct (truthy_str value && _); [apply get_set|]. rewrite get_delete.
  destruct (jeqb key k) eqn:E; [apply jeqb_true in E as ->; by rewrite jeqb_refl|].
  destruct (jeqb k key) eqn:E2; [|done]. apply jeqb_true in E2 as ->. by rewrite jeqb_refl in E.
Qed.

Lemma delete_ok key ps : Forall pair_ok ps -> Forall pair_ok (params_delete key ps).
Proof.
  unfold params_delete. induction 1 as [|kv ps Hkv _ IH]; [constructor|]. cbn. destruct (jeqb _ _); cbn; [done|by constructor].
Qed.

Lemma set_ok key v ps : pair_ok (key, v) -> Forall pair_ok ps -> Forall pair_ok (params_set key v ps).
Proof.
  intros Hv. induction 1 as [|[k' v'] ps Hkv Hps IH]; cbn; [by apply Forall_singleton|]. destruct (jeqb k' key) eqn:E.
  - apply jeqb_true in E as ->. constructor; [done|by apply delete_ok].
  - by constructor.
Qed.

Lemma put_ok key v unset ps : pair_ok (key, v) -> Forall pair_ok ps -> Forall pair_ok (Address.put key v unset ps).
Proof. intros Hv Hps. unfold Address.put. destruct (truthy_str v && _); [by apply set_ok|by apply delete_ok]. Qed.

Definition text_wf (s : jstr) : Prop := Forall unit_ok s /\ is_well_formed s = true.

Lemma pair_key key v : text_wf key -> text_wf v -> pair_ok (key, v).
Proof. by split. Qed.

Lemma closed_wf s : bool_decide (Forall unit_ok s) && is_well_formed s = true -> text_wf s.
Proof. intros [H1 H2]%andb_true_iff. split; [by apply bool_decide_eq_true in H1|done]. Qed.

Lemma folder_wf f : f ∈ Address.VISIBLE_FOLDERS -> text_wf f /\ f <> [].
Proof.
  intros Hf. assert (Forall (fun f => text_wf f /\ f <> []) Address.VISIBLE_FOLDERS) as Hall.
  { repeat (apply Forall_cons; split; [split; [apply closed_wf; by vm_compute|discriminate]|]). apply Forall_nil_2. }
  rewrite Forall_forall in Hall. by apply Hall.
Qed.

Section address.
Variable pathname : jstr.
Hypothesis path_safe : Forall query_safe pathname.

(** The address says what the page shows. *)
Definition in_sync (v : Address.View) : Prop :=
  let params := parse_params (Address.v_search v) in
  Address.initialFolder params = Address.folder v /\ Address.initialStatus params = Address.statusFilter v /\
  Address.initialQuery params = Address.searchQuery v.

Definition address_ok (v : Address.View) : Prop :=
  Forall pair_ok (parse_params (Address.v_search v)) /\ Address.folder v ∈ Address.VISIBLE_FOLDERS /\ text_wf (Address.searchQuery v).

(** The parameters the page does not own. *)
Definition foreign (k : jstr) : Prop := k <> js "q" /\ k <> js "folder" /\ k <> js "status".

Lemma next_params_ok next f s q ps :
  default f (Address.c_folder next) ∈ Address.VISIBLE_FOLDERS -> text_wf (default q (Address.c_q next)) -> Forall pair_ok ps ->
  Forall pair_ok (Address.next_params next (f, s, q) ps).
Proof.
  intros Hf Hq Hps. unfold Address.next_params.
  repeat (apply put_ok; [apply pair_key; [apply closed_wf; by vm_compute|]|]); [|by apply folder_wf|done|done].
  destruct (default s _); apply closed_wf; by vm_compute.
Qed.

Lemma applied_search next f s q v :
  default f (Address.c_folder next) ∈ Address.VISIBLE_FOLDERS -> text_wf (default q (Address.c_q next)) ->
  Forall pair_ok (parse_params (Address.v_search v)) ->
  parse_params (Address.v_search (Address.apply pathname next (f, s, q) v)) =
  Address.next_params next (f, s, q) (parse_params (Address.v_search v)).
Proof.
  intros Hf Hq Hps. cbn [Address.apply Address.v_search]. unfold Address.new_path.
  pose proof (next_params_ok next f s q _ Hf Hq Hps) as Hok.
  destruct (Address.next_params _ _ _) as [|kv l] eqn:E.
  - cbn. unfold location_search. rewrite (split_first_none 35) by without. by rewrite (split_first_none 63) by without.
  - assert (truthy_str (url_search_params (kv :: l)) = true) as ->.
    { rewrite url_search_params_pieces. apply Forall_cons in Hok as [Hkv _]. destruct (piece_props kv Hkv) as (_ & _ & _ & _ & Hn & _).
      cbn [map join_with]. destruct (piece kv) as [|c r] eqn:Ep; [done|]. by destruct (map piece l). }
    by apply params_roundtrip.
Qed.

Lemma next_params_read next f s q ps :
  default f (Address.c_folder next) ∈ Address.VISIBLE_FOLDERS ->
  let ps' := Address.next_params next (f, s, q) ps in
  Address.initialFolder ps' = default f (Address.c_folder next) /\ Address.initialStatus ps' = default s (Address.c_status next) /\
  Address.initialQuery ps' = default q (Address.c_q next) /\ forall k, foreign k -> params_get k ps' = params_get k ps.
Proof.
  intros Hf ps'. unfold ps', Address.next_params, Address.initialFolder, Address.initialStatus, Address.initialQuery. rewrite !get_put. split_and!.
  - change (jeqb (js "status") (js "folder")) with false. rewrite jeqb_refl. cbv iota.
    assert (includes Address.VISIBLE_FOLDERS (default f (Address.c_folder next)) = true) as Hi by by apply includes_spec.
    revert Hi. destruct (folder_wf _ Hf) as [_ Hne]. revert Hne. generalize (default f (Address.c_folder next)) as g. clear.
    intros g Hne Hi. destruct (jeqb g (js "inbox")) eqn:E; [apply jeqb_true in E as ->; done|].
    destruct g as [|c r]; [done|]. cbn [truthy_str andb negb]. by rewrite Hi.
  - rewrite jeqb_refl. by destruct (default s _).
  - change (jeqb (js "status") (js "q")) with false. change (jeqb (js "folder") (js "q")) with false. rewrite jeqb_refl. cbv iota.
    by destruct (default q _).
  - intros k (H1 & H2 & H3). rewrite !get_put.
    assert (forall key, k <> key -> jeqb key k = false) as Hk by (intros key Hn; apply not_true_iff_false; rewrite jeqb_true; congruence).
    by rewrite !Hk.
Qed.

(** What holds between the acts. *)
Definition address_inv (v0 v : Address.View) : Prop :=
  address_ok v /\ (forall k, foreign k -> params_get k (parse_params (Address.v_search v)) = params_get k (parse_params (Address.v_search v0))) /\
  match Address.urlSyncTimer v with
  | None => in_sync v
  | Some (next, (f, s, _)) =>
    next = Address.ChangeOf (Some (Address.searchQuery v)) None None /\ f = Address.folder v /\ s = Address.statusFilter v
  end.

Lemma apply_inv v0 v next f s q :
  address_ok v -> (forall k, foreign k -> params_get k (parse_params (Address.v_search v)) = params_get k (parse_params (Address.v_search v0))) ->
  default f (Address.c_folder next) = Address.folder v -> default s (Address.c_status next) = Address.statusFilter v ->
  default q (Address.c_q next) = Address.searchQuery v ->
  address_inv v0 (Address.apply pathname next (f, s, q) v).
Proof.
  intros (Hps & Hf & Hq) Hk Ef Es Eq. rewrite <- Ef in Hf. rewrite <- Eq in Hq.
  pose proof (applied_search next f s q v Hf Hq Hps) as Ea. destruct (next_params_read next f s q (parse_params (Address.v_search v)) Hf) as (R1 & R2 & R3 & R4).
  split; [|split].
  - split; [rewrite Ea; by apply next_params_ok|]. cbn. by rewrite <- Ef, <- Eq.
  - intros k Hfk. rewrite Ea, R4 by done. by apply Hk.
  - cbn [Address.urlSyncTimer Address.apply]. unfold in_sync. rewrite Ea, R1, R2, R3. by rewrite Ef, Es, Eq.
Qed.

Lemma act_inv v0 a v : Address.act_ok a -> address_inv v0 v -> address_inv v0 (Address.act pathname a v).
Proof.
  intros Ha ((Hps & Hf & Hq) & Hk & Ht). destruct a as [text|f|s|]; cbn [Address.act].
  - split; [exact (conj Hps (conj Hf Ha))|]. by split.
  - apply apply_inv; [exact (conj Hps (conj Ha Hq))|done..].
  - apply apply_inv; [exact (conj Hps (conj Hf Hq))|done..].
  - unfold Address.on_timer. destruct (Address.urlSyncTimer v) as [[next [[f s] q]]|] eqn:Et.
    + destruct Ht as (-> & -> & ->). apply apply_inv; [exact (conj Hps (conj Hf Hq))|done..].
    + split; [exact (conj Hps (conj Hf Hq))|]. split; [done|]. by rewrite Et.
Qed.

End address.

(** C24: The address follows the page.  Whatever is typed and chosen, in any order
    and with the delayed write firing at any time: when no write is pending, a
    page opened at the address shows the same folder, status and search; when
    one is pending, its firing makes it so; and the parameters of others stay. *)
Theorem address_follows_page (pathname search : jstr) (acts : list Address.Act) :
  Forall query_safe pathname -> Forall pair_ok (parse_params search) -> Forall Address.act_ok acts ->
  let v := fold_left (fun v a => Address.act pathname a v) acts (Address.opened search) in
  let reopened v := Address.opened (Address.v_search v) in
  (Address.urlSyncTimer v = None -> Address.state_of (reopened v) = Address.state_of v) /\
  Address.state_of (reopened (Address.on_timer pathname v)) = Address.state_of v /\
  forall k, k <> js "q" -> k <> js "folder" -> k <> js "status" ->
    params_get k (parse_params (Address.v_search v)) = params_get k (parse_params search).
Proof.
  intros Hp Hs Ha v reopened.
  assert (address_inv (Address.opened search) v) as Hv.
  { unfold v. assert (address_inv (Address.opened search) (Address.opened search)) as H0.
    { split; [|by split]. split; [done|]. split; cbn.
      - unfold Address.initialFolder. destruct (params_get _ _) as [[|c r]|]; [by left| |by left].
        destruct (includes _ _) eqn:E; [by apply includes_spec|by left].
      - unfold Address.initialQuery. destruct (params_get (js "q") (parse_params search)) as [q|] eqn:E; [|by split].
        cbn. revert E. induction Hs as [|[k w] ps [_ Hw] _ IH]; cbn; [done|]. destruct (jeqb k _); [by intros [= <-]|done]. }
    revert H0. generalize (Address.opened search) at 2 4 as w. induction Ha as [|a acts Ha _ IH]; intros w Hw; [done|].
    cbn [fold_left]. apply IH. by apply act_inv. }
  pose proof (act_inv pathname Hp _ Address.TimerFires v I Hv) as Ht. cbn [Address.act] in Ht.
  assert (forall w, in_sync w -> Address.state_of (reopened w) = Address.state_of w) as Hsync.
  { intros w (E1 & E2 & E3). unfold reopened, Address.opened, Address.state_of. cbn. by rewrite E1, E2, E3. }
  split_and!.
  - intros Hn. apply Hsync. destruct Hv as (_ & _ & Hv). by rewrite Hn in Hv.
  - assert (Address.urlSyncTimer (Address.on_timer pathname v) = None /\ Address.state_of (Address.on_timer pathname v) = Address.state_of v) as [Hn <-].
    { unfold Address.on_timer. by destruct (Address.urlSyncTimer v) as [[? ?]|] eqn:E. }
    apply Hsync. destruct Ht as (_ & _ & Ht). by rewrite Hn in Ht.
  - intros k H1 H2 H3. destruct Hv as (_ & Hv & _). by apply Hv.
Qed.

Example address_follows_page_witness :
  let v := fold_left (fun v a => Address.act (js "/agent/a") a v) [Address.Typed (js "a b"); Address.TimerFires; Address.ChoseFolder (js "sent")]
             (Address.opened (js "?x=1")) in
  Address.state_of (Address.opened (Address.v_search v)) = (js "sent", false, js "a b") /\ Address.v_search v = js "?x=1&q=a+b&folder=sent".
Proof.
  intros v. destruct (address_follows_page (js "/agent/a") (js "?x=1") [Address.Typed (js "a b"); Address.TimerFires; Address.ChoseFolder (js "sent")])
    as (H1 & _ & _).
  - apply (bool_decide_eq_true_1 (Forall query_safe _)). by vm_compute.
  - assert (parse_params (js "?x=1") = [(js "x", js "1")]) as -> by by vm_compute.
    apply Forall_singleton, pair_key; apply closed_wf; by vm_compute.
  - apply Forall_cons; split; [apply closed_wf; by vm_compute|]. apply Forall_cons; split; [done|]. apply Forall_singleton. cbn. set_solver.
  - split; [exact (H1 eq_refl)|by vm_compute].
Defined.
