(* ===== verification/BridgePanel.v ===== *)
(** The bridge panel of apps/web/app/settings/agents/page.tsx: pairing this
    browser with an agent's Signer Daemon, and where the agent's keys are.

    The panel is kept when another agent is selected: [panel_aid] is the agent
    it shows, and every function takes the agent of the render it closes over.
    [window.confirm] answers [confirmed]; messages are translation keys. *)
From S2P Require Import Prelude Base64 Utf8 JsNumber Json JsDate A2A Effect Node Envelope ApiClient Browser WebKeystore WebEnvelope WebApi SendReply Bridge BridgeSpec Views Inbox.

Module Whereabouts.

(** [info] is for the runtime's key store, of which nothing is known here. *)
Inductive WhereaboutsStatus := checking | present | absent | info.

Section whereabouts.
Context `{Host, WebCrypto, Env, BrowserEnv}.

Definition found (b : bool) : WhereaboutsStatus := if b then present else absent.

Definition browserStatus (did : jstr) : BM WhereaboutsStatus :=
  try_catch
    (sig ← secureLoadKey (js "nexusinbox:signing-key:" ++ did);
     enc ← secureLoadKey (js "nexusinbox:recipient-key:" ++ did);
     mret (found (bool_decide (is_Some sig) || bool_decide (is_Some enc))))
    (fun _ => mret absent).

Definition daemonStatus (aid : jstr) : BM WhereaboutsStatus :=
  try_catch (token ← TokenStore.loadBridgeToken aid; mret (found (bool_decide (is_Some token)))) (fun _ => mret absent).

End whereabouts.
End Whereabouts.

(** ** The statistics of the automatic replies *)
Module ReplyStats.

Inductive AutoReplyStatBucket := auto_accept | auto_decline | queue_for_human | other.

#[global] Instance bucket_eq_dec : EqDecision AutoReplyStatBucket.
Proof. solve_decision. Defined.

Definition bucketForAction (action : jval) : AutoReplyStatBucket :=
  if jis action (js "auto_accept") then auto_accept
  else if jis action (js "auto_decline") then auto_decline
  else if jis action (js "queue_for_human") then queue_for_human
  else other.

(** [ev.detail?.decision?.action]. *)
Definition action_of (ev : jval) : jval := jget (jget (jget ev (js "detail")) (js "decision")) (js "action").

Definition counts (events : list jval) : AutoReplyStatBucket -> nat :=
  fold_left (fun c ev b => if decide (bucketForAction (action_of ev) = b) then S (c b) else c b) events (fun _ => O).

Definition latest (events : list jval) : list jval := take 5 events.

Definition truncateDid (did : jstr) : jstr :=
  if (24 <? length did)%nat then take 12 did ++ js "…" ++ drop (length did - 6) did else did.

End ReplyStats.

(** ** The panel *)
Module Panel.

Definition DEFAULT_BASE_URL : jstr := js "http://127.0.0.1:43417".

Definition sha256HexBrowser `{WebCrypto} (input : jstr) : jstr := flat_map hex_byte (sha256 (utf8_encode input)).

(** [None]: there is no [navigator]. *)
Definition guessDeviceLabel (userAgent : option jstr) : jstr :=
  match userAgent with
  | None => js "Paired browser"
  | Some ua =>
    let has := fun token => str_includes ua token in
    let browser := if has (js "Edg") then js "Edge" else if has (js "Firefox") then js "Firefox"
                   else if has (js "Chrome") then js "Chrome" else if has (js "Safari") then js "Safari" else js "Browser" in
    let platform := if has (js "Mac") then js "Mac" else if has (js "Win") then js "Windows"
                    else if has (js "Linux") then js "Linux" else if has (js "iPhone") || has (js "iPad") then js "iOS"
                    else if has (js "Android") then js "Android" else js "this device" in
    take 64 (browser ++ js " on " ++ platform)
  end.

Inductive Status := idle | pairing | probing | paired | offline | error (message : jstr).

Record Panel := PanelOf {
  baseUrl : jstr; storedTokenHash : option jstr; pairingCode : jstr; deviceLabel : jstr; status : Status;
  pairedSessions : list jval; policy : jval; advancedToken : jstr
}.

(** The page: the browser, the agent shown, and the panel. *)
Record State := StateOf { s_browser : Browser; panel_aid : jstr; s_panel : Panel }.

Abbreviation PM := (eff State).

Definition browser {A} (m : BM A) : PM A :=
  fun s => let '(r, b) := m (s_browser s) in (r, StateOf b (panel_aid s) (s_panel s)).
Definition set (f : Panel -> Panel) : PM unit := fun s => (Ok tt, StateOf (s_browser s) (panel_aid s) (f (s_panel s))).

Definition setBaseUrl v p := PanelOf v (storedTokenHash p) (pairingCode p) (deviceLabel p) (status p) (pairedSessions p) (policy p) (advancedToken p).
Definition setStoredTokenHash v p := PanelOf (baseUrl p) v (pairingCode p) (deviceLabel p) (status p) (pairedSessions p) (policy p) (advancedToken p).
Definition setPairingCode v p := PanelOf (baseUrl p) (storedTokenHash p) v (deviceLabel p) (status p) (pairedSessions p) (policy p) (advancedToken p).
Definition setStatus v p := PanelOf (baseUrl p) (storedTokenHash p) (pairingCode p) (deviceLabel p) v (pairedSessions p) (policy p) (advancedToken p).
Definition setPairedSessions v p := PanelOf (baseUrl p) (storedTokenHash p) (pairingCode p) (deviceLabel p) (status p) v (policy p) (advancedToken p).
Definition setPolicy v p := PanelOf (baseUrl p) (storedTokenHash p) (pairingCode p) (deviceLabel p) (status p) (pairedSessions p) v (advancedToken p).
Definition setAdvancedToken v p := PanelOf (baseUrl p) (storedTokenHash p) (pairingCode p) (deviceLabel p) (status p) (pairedSessions p) (policy p) v.

(** The panel as it is mounted. *)
Definition initial (userAgent : option jstr) : Panel := PanelOf DEFAULT_BASE_URL None [] (guessDeviceLabel userAgent) idle [] JNull [].

(** What [probe] answers. *)
Record Probed := ProbedOf { pr_sessions : list jval; pr_policy : jval; pr_status : Status }.

Section panel.
Context `{Host, WebCrypto, Env, BrowserEnv}.
Variable t : jstr -> jstr.
Variable toUpperCase : jstr -> jstr.

Definition probe (base token : jval) (nonce : option jstr) : BM Probed :=
  result ← BridgeClient.detect (BridgeClient.make base token nonce);
  mret match result with
       | BridgeClient.Available _ _ _ _ paired_sessions policy => ProbedOf paired_sessions policy paired
       | BridgeClient.StatusOffline => ProbedOf [] JNull offline
       | BridgeClient.StatusUnauthorized => ProbedOf [] JNull (error (t (js "agents.bridgeStatus.unauthorized")))
       | BridgeClient.StatusForbiddenOrigin => ProbedOf [] JNull (error (t (js "agents.bridgeStatus.forbidden_origin")))
       end.

Definition show_probed (r : Probed) (p : Panel) : Panel := setStatus (pr_status r) (setPolicy (pr_policy r) (setPairedSessions (pr_sessions r) p)).

(** An update of an effect, dropped once another agent is shown. *)
Definition set_unless_cancelled (aid : jstr) (f : Panel -> Panel) : PM unit :=
  fun s => (Ok tt, if bool_decide (panel_aid s = aid) then StateOf (s_browser s) (panel_aid s) (f (s_panel s)) else s).
Definition cancelled (aid : jstr) : PM bool := fun s => (Ok (negb (bool_decide (panel_aid s = aid))), s).

(** The effect of a change of agent: what it does at once, and its task. *)
Definition reset_panel (p : Panel) : Panel := PanelOf (baseUrl p) None [] (deviceLabel p) idle [] JNull [].

Definition load_task (aid : jstr) : PM unit :=
  existing ← browser (TokenStore.loadBridgeToken aid);
  c ← cancelled aid;
  match c, existing with
  | false, Some existing =>
    set (setBaseUrl (js_string (TokenStore.base_url existing))) ;;
    set_unless_cancelled aid (setStoredTokenHash (Some (sha256HexBrowser (js_string (TokenStore.token existing)))))
  | _, _ => mret tt
  end.

(** The effect that probes on its own. *)
Definition probe_task (aid : jstr) : PM unit :=
  existing ← browser (TokenStore.loadBridgeToken aid);
  c ← cancelled aid;
  match c, existing with
  | false, Some existing =>
    nonce ← browser (TokenStore.loadBridgeSessionNonce aid);
    result ← browser (probe (TokenStore.base_url existing) (TokenStore.token existing) nonce);
    set_unless_cancelled aid (show_probed result)
  | _, _ => mret tt
  end.

(** Another agent is selected: the panel shows it, and the effects run. *)
Definition select_agent (aid : jstr) : PM unit :=
  (fun s => (Ok tt, StateOf (s_browser s) aid (s_panel s))) ;;
  set reset_panel ;;
  if truthy_str aid then load_task aid ;; probe_task aid else mret tt.

Definition isGated (credentials : list Mode.AgentCredential) (s : State) : bool :=
  match Mode.deriveAgentMode (panel_aid s) credentials with
  | Mode.daemon_isolated => false
  | _ => bool_decide (storedTokenHash (s_panel s) = None)
  end.

(** ** The handlers, of a render that showed [aid] and [p] *)
Section handlers.
Variables (aid : jstr) (p : Panel).

Definition resolvedBase : jstr := let b := trim (baseUrl p) in if truthy_str b then b else DEFAULT_BASE_URL.
Definition code : jstr := toUpperCase (trim (pairingCode p)).

Definition pair_error (r : BridgeClient.BridgePairResult) : option jstr :=
  match r with
  | BridgeClient.Paired _ _ _ => None
  | BridgeClient.PairRejected _ => Some (js "agents.bridgePairRejected")
  | BridgeClient.PairOffline => Some (js "agents.bridgeStatus.offline")
  | BridgeClient.PairForbiddenOrigin => Some (js "agents.bridgeStatus.forbidden_origin")
  | BridgeClient.PairBadRequest _ => Some (js "agents.bridgePairBadRequest")
  | BridgeClient.PairDaemonError _ => Some (js "agents.bridgePairDaemonError")
  end.

(** [saveBridgeToken], with the fail-closed error caught: whether it saved. *)
Definition save_or_refuse (base token : jval) : PM bool :=
  try_catch (browser (TokenStore.saveBridgeToken (JStr aid) base token) ;; mret true)
    (fun err =>
       if jeqb (err_name err) (js "BridgeSecureStorageUnavailableError") then
         set (setStatus (error (t (js "agents.bridgeSecureStorageUnavailable")))) ;; mret false
       else raise err).

(** [submitPair] up to the daemon's answer, and after it. *)
Definition pair_request : PM (BridgeClient.BridgePairResult * jstr) :=
  set (setStatus pairing) ;;
  nonce ← browser TokenStore.generateBridgeSessionNonce;
  let label := trim (deviceLabel p) in
  result ← browser (BridgeClient.pair (BridgeClient.make (JStr resolvedBase) JNull None) code
                      (if truthy_str label then Some label else None) (Some nonce));
  mret (result, nonce).

Definition pair_answered (result : BridgeClient.BridgePairResult) (nonce : jstr) : PM unit :=
  match result with
  | BridgeClient.Paired token _ _ =>
    saved ← save_or_refuse (JStr resolvedBase) token;
    if negb saved then mret tt
    else
      browser (TokenStore.saveBridgeSessionNonce aid nonce) ;;
      set (setStoredTokenHash (Some (sha256HexBrowser (js_string token)))) ;;
      set (setPairingCode []) ;;
      set (setStatus probing) ;;
      probed ← browser (probe (JStr resolvedBase) token (Some nonce));
      set (show_probed probed)
  | _ => set (setStatus (error (t (default (js "agents.bridgePairDaemonError") (pair_error result)))))
  end.

Definition submitPair : PM unit :=
  if negb (truthy_str code) then mret tt
  else rn ← pair_request; pair_answered rn.1 rn.2.

Definition submitAdvanced : PM unit :=
  let token := trim (advancedToken p) in
  if negb (truthy_str token) then mret tt
  else
    saved ← save_or_refuse (JStr resolvedBase) (JStr token);
    if negb saved then mret tt
    else
      browser (TokenStore.clearBridgeSessionNonce aid) ;;
      set (setStoredTokenHash (Some (sha256HexBrowser token))) ;;
      set (setAdvancedToken []) ;;
      set (setStatus probing) ;;
      probed ← browser (probe (JStr resolvedBase) (JStr token) None);
      set (show_probed probed).

(** What both revocations do: the daemon's answer is not looked at. *)
Definition forget : PM unit :=
  browser (TokenStore.clearBridgeToken aid) ;;
  browser (TokenStore.clearBridgeSessionNonce aid) ;;
  set (fun p => setStatus idle (setPolicy JNull (setPairedSessions [] (setStoredTokenHash None p)))).

Definition stored_client (existing : TokenStore.BridgeTokenRecord) : PM BridgeClient.Client :=
  nonce ← browser (TokenStore.loadBridgeSessionNonce aid);
  mret (BridgeClient.make (TokenStore.base_url existing) (TokenStore.token existing) nonce).

Definition existing_token : PM (option TokenStore.BridgeTokenRecord) :=
  if truthy_str aid then browser (TokenStore.loadBridgeToken aid) else mret None.

Definition revokeThis : PM unit :=
  existing ← existing_token;
  match existing with
  | None => mret tt
  | Some existing =>
    client ← stored_client existing;
    browser (BridgeClient.revokeSession client) ;;
    forget
  end.

Definition revokeAll (confirmed : bool) : PM unit :=
  existing ← existing_token;
  match existing with
  | None => mret tt
  | Some existing =>
    if env_window && negb confirmed then mret tt
    else
      client ← stored_client existing;
      browser (BridgeClient.revokeAllSessions client) ;;
      forget
  end.

End handlers.
End panel.
End Panel.

(** * Lemmas *)

Import Panel.

Lemma web_fetch_same_store `{Env, BrowserEnv} rq : respects same_store (web_fetch rq).
Proof.
  unfold web_fetch. apply respects_bind; [apply _| |intros r; apply respects_lift, _].
  intros b. unfold host, ask. cbn. split; [done|]. by intros [] k.
Qed.

Lemma call_same_store `{Env, BrowserEnv} c method path headers body :
  respects same_store (BridgeClient.call c method path headers body).
Proof.
  unfold BridgeClient.call. apply respects_catch; [apply _| |intros err; case_match; [apply respects_ret|apply respects_lift]; apply _].
  apply respects_bind; [apply _|apply web_fetch_same_store|]. intros r. apply respects_ret, _.
Qed.

Lemma revoke_same_store `{Host, Env, BrowserEnv} c path : respects same_store (BridgeClient.deleteRevoke c path).
Proof.
  unfold BridgeClient.deleteRevoke. case_match; [apply respects_ret, _|].
  apply respects_bind; [apply _|apply call_same_store|]. intros r. apply respects_ret, _.
Qed.

Lemma probe_same_store `{Host, Env, BrowserEnv} t base token nonce : respects same_store (probe t base token nonce).
Proof.
  unfold probe, BridgeClient.detect. apply respects_bind; [apply _| |intros r; apply respects_ret, _].
  case_match; [apply respects_ret, _|].
  apply respects_bind; [apply _|apply call_same_store|]. intros r. apply respects_ret, _.
Qed.

(** What a page handler does to the browser when its browser call succeeds. *)
Lemma browser_ok {A} (m : BM A) s a b' : m (s_browser s) = (Ok a, b') -> browser m s = (Ok a, StateOf b' (panel_aid s) (s_panel s)).
Proof. intros E. unfold browser. by rewrite E. Qed.

(** The request of a pairing. *)
Definition pairing_request (base code : jstr) (label : option jstr) (nonce : jstr) : Request :=
  HttpRequest (js "POST") (base ++ js "/v1/pair") [(js "Content-Type", js "application/json")]
    (TextBody (json_stringify (BridgeClient.pair_body code label (Some nonce)))).

Definition pair_answer (tok label created : jstr) : jval :=
  JObj [(js "token", JStr tok); (js "device_label", JStr label); (js "created_at", JStr created)].

Definition label_of (p : Panel) : option jstr := let l := trim (deviceLabel p) in if truthy_str l then Some l else None.

Section pairing.
Context `{Host, WebCrypto, !WebCryptoLaws, Env, !EnvLaws, BrowserEnv, !NeverRefuses}.
Variable t : jstr -> jstr.

Lemma nonce_ok b : exists n b', TokenStore.generateBridgeSessionNonce b = (Ok n, b') /\ n <> [] /\ same_store b b'.
Proof.
  unfold TokenStore.generateBridgeSessionNonce. erewrite bind_ok by (apply host_ok; reflexivity).
  eexists _, _. split; [reflexivity|]. split; [|split; [done|by intros [] k]].
  rewrite web_toBase64Url. apply toBase64Url_nonempty; [apply random_bytes|]. by eapply nonempty_length, random_length.
Qed.

Lemma pair_answer_json tok label created :
  text_ok tok -> text_ok label -> text_ok created -> json_okb (pair_answer tok label created) = true.
Proof.
  intros [Ht%forallb_units _] [Hl%forallb_units _] [Hc%forallb_units _].
  cbn [json_okb pair_answer forallb fmap list_fmap fst snd]. by rewrite Ht, Hl, Hc.
Qed.

Lemma pair_granted base code label nonce tok name created b :
  text_ok tok -> tok <> [] -> text_ok name -> text_ok created ->
  (forall h, env_fetch h (pairing_request base code label nonce)
             = Ok (HttpResponse 200 (json_stringify (pair_answer tok name created)))) ->
  exists b', BridgeClient.pair (BridgeClient.make (JStr base) JNull None) code label (Some nonce) b
    = (Ok (BridgeClient.Paired (JStr tok) (JStr name) (JStr created)), b') /\ same_store b b'.
Proof.
  intros Ht Hn Hname Hcr Hf. unfold BridgeClient.pair.
  destruct (web_fetch_answer (pairing_request base code label nonce) _ b Hf) as (w & b1 & E & Hw & _).
  pose proof (web_fetch_same_store (pairing_request base code label nonce) b) as Hs. rewrite E in Hs.
  exists b1. split; [|exact Hs]. erewrite bind_ok.
  2: { unfold BridgeClient.call, try_catch. unfold BridgeClient.make. cbn [BridgeClient.baseUrl nullish_or js_string join_part].
       change (HttpRequest _ _ _ _) with (pairing_request base code label nonce). by erewrite bind_ok by exact E. }
  unfold wr_status, wr_ok, BridgeClient.safeJson, wr_json. rewrite Hw. cbn [rs_status rs_text rs_ok].
  rewrite json_stringify_roundtrip by by apply pair_answer_json.
  change (jget _ (js "token")) with (JStr tok). cbn [jtruthy].
  assert (truthy_str tok = true) as -> by by destruct tok. reflexivity.
Qed.

(** Storing what the daemon granted, whatever the probe then finds. *)
Lemma pair_answered_ok aid p tok name created nonce s st :
  refines s (s_browser st) -> aid <> [] -> Forall unit_ok aid -> Forall unit_ok (resolvedBase p) ->
  text_ok tok -> tok <> [] -> nonce <> [] ->
  exists st', (pair_answered t aid p (BridgeClient.Paired (JStr tok) name created) nonce st).2 = st' /\
    refines (PairingsOf (<[aid := (resolvedBase p, tok)]> (tokens s)) (<[aid := nonce]> (nonces s))) (s_browser st') /\
    storedTokenHash (s_panel st') = Some (sha256HexBrowser tok) /\ pairingCode (s_panel st') = [].
Proof.
  intros HR Ha Hua Hub Ht Htn Hnn. unfold pair_answered, save_or_refuse.
  assert (truthy_str aid = true) as Hta by by destruct aid.
  assert (truthy_str tok = true) as Htt by by destruct tok.
  assert (truthy_str nonce = true) as Htnn by by destruct nonce.
  destruct (save_sim s (s_browser st) aid (resolvedBase p) tok HR) as (b1 & E1 & R1); [done..|]. rewrite Hta, Htt in R1.
  erewrite bind_ok by (unfold try_catch; by erewrite bind_ok by (apply browser_ok, E1)). cbn [negb].
  destruct (save_nonce_sim _ b1 aid nonce R1) as (b2 & E2 & R2). rewrite Hta, Htnn in R2.
  erewrite bind_ok by (apply browser_ok, E2). cbn [tokens nonces] in R2.
  do 3 (erewrite bind_ok by reflexivity). cbn [s_browser s_panel panel_aid].
  set (st2 := StateOf b2 _ _). pose proof (probe_same_store t (JStr (resolvedBase p)) (JStr tok) (Some nonce) b2) as Hs.
  unfold mbind, eff_bind, browser. cbn [s_browser st2].
  destruct (probe t _ _ _ b2) as [[r|e] b3]; cbn [snd] in Hs; eexists; (split; [reflexivity|]); cbn;
    (split; [by eapply refines_same|done]).
Qed.

End pairing.

(** C15: pairing makes the bridged restore work.  When the daemon grants the code that was
    typed - the request carries the code, the label and a fresh nonce - the
    panel has stored the bearer and the nonce for its agent and for no other,
    whatever the probe that follows finds; and with what it has stored a
    confirmed restore in this tab shows exactly the sealed subject and body of
    a message whose content key the daemon unwraps, to expire five minutes
    later. *)
Theorem pairing_enables_restore `{Host, WebCrypto, !WebCryptoLaws, Env, !EnvLaws, BrowserEnv, !NeverRefuses}
    (t toUpperCase : jstr -> jstr) (aid tok name created : jstr) (p : Panel) (s : Pairings) (st : State) :
  refines s (s_browser st) -> aid <> [] -> Forall unit_ok aid -> Forall unit_ok (resolvedBase p) ->
  code toUpperCase p <> [] -> text_ok tok -> tok <> [] -> text_ok name -> text_ok created ->
  (forall h nonce, env_fetch h (pairing_request (resolvedBase p) (code toUpperCase p) (label_of p) nonce)
                   = Ok (HttpResponse 200 (json_stringify (pair_answer tok name created)))) ->
  exists nonce st', (submitPair t toUpperCase aid p st).2 = st' /\
    refines (PairingsOf (<[aid := (resolvedBase p, tok)]> (tokens s)) (<[aid := nonce]> (nonces s))) (s_browser st') /\
    storedTokenHash (s_panel st') = Some (sha256HexBrowser tok) /\ pairingCode (s_panel st') = [] /\
    forall ec ek se subj body ck,
      sealed_text ck body ec -> sealed_text ck subj se -> ascii_text ck -> ck <> [] -> text_ok subj -> text_ok body ->
      (forall h, env_fetch h (unwrap_request (resolvedBase p) tok nonce ek)
                 = Ok (HttpResponse 200 (json_stringify (JObj [(js "content_key", JStr ck)])))) ->
      exists now b', Restore.runRestore (Some aid) ec ek se true (s_browser st')
        = (Ok (Restore.Plaintext subj body (now + Restore.BRIDGED_PLAINTEXT_TTL_MS)), b').
Proof.
  intros HR Ha Hua Hub Hc Ht Htn Hname Hcr Hf. unfold submitPair.
  assert (truthy_str (code toUpperCase p) = true) as -> by by destruct (code toUpperCase p). cbn [negb].
  destruct (nonce_ok (s_browser st)) as (nonce & b1 & E1 & Hnn & S1).
  destruct (pair_granted (resolvedBase p) (code toUpperCase p) (label_of p) nonce tok name created b1) as (b2 & E2 & S2); [done..|].
  assert (exists st2, pair_request toUpperCase p st = (Ok (BridgeClient.Paired (JStr tok) (JStr name) (JStr created), nonce), st2) /\
          s_browser st2 = b2) as (st2 & E3 & Hb2).
  { unfold pair_request. erewrite bind_ok by reflexivity. erewrite bind_ok by (apply browser_ok, E1).
    erewrite bind_ok by (apply browser_ok, E2). by eexists. }
  erewrite bind_ok by exact E3. cbn [fst snd]. assert (refines s (s_browser st2)) as HR2.
  { rewrite Hb2. eapply refines_same; [exact S2|]. by eapply refines_same. }
  destruct (pair_answered_ok t aid p tok (JStr name) (JStr created) nonce s st2) as (st' & E & R & Hh & Hcode); [done..|].
  exists nonce, st'. split_and!; [exact E|exact R|exact Hh|exact Hcode|].
  intros ec ek se subj body ck Hec Hse Hck Hckn Hs Hb Hfetch.
  destruct (restore_shows _ (s_browser st') aid (resolvedBase p) tok nonce ec ek se subj body ck R)
    as (now & b' & E' & _); [done| | |done..|by exists now, b']; apply lookup_insert_eq.
Qed.

(** A daemon that grants any pairing, and unwraps. *)
Definition granting_daemon : Env := answering_env
  (fun _ rq => Ok (HttpResponse 200
     (json_stringify (if str_includes (rq_url rq) (js "/v1/pair")
                      then pair_answer (js "tok-1") (js "Laptop") (js "2026-06-01T00:00:00.000Z")
                      else JObj [(js "content_key", JStr (js "Y2s"))]))))
  (fun _ _ _ => Throw (Error_ (js "no gateway"))).

Definition typed_panel : Panel := setPairingCode (js " aibx-1234 ") (initial (Some (js "Mozilla/5.0 Firefox/126.0 Linux"))).

Example pairing_enables_restore_witness :
  let _ := plain_host in let _ := granting_daemon in let _ := open_browser in
  let aid := js "aid:ai:acme/bot" in
  exists st' ec se now b', (submitPair (fun s => s) to_upper_ascii aid typed_panel (StateOf new_profile aid typed_panel)).2 = st' /\
    pairingCode (s_panel st') = [] /\ storedTokenHash (s_panel st') = Some (sha256HexBrowser (js "tok-1")) /\
    Restore.runRestore (Some aid) ec (js "x25519v1:w") se true (s_browser st')
    = (Ok (Restore.Plaintext (js "Notes") (js "As promised.") (now + Restore.BRIDGED_PLAINTEXT_TTL_MS)), b').
Proof.
  intros ho en br aid. pose (s0 := PairingsOf ∅ ∅).
  assert (refines s0 new_profile) as R0 by (split; [done|]; split; intros a _; by rewrite ?lookup_empty).
  assert (text_ok (js "Notes") /\ text_ok (js "As promised.") /\ text_ok (js "tok-1") /\ text_ok (js "Laptop") /\
          text_ok (js "2026-06-01T00:00:00.000Z")) as (T1 & T2 & T3 & T4 & T5)
    by (split_and!; apply (bool_decide_eq_true_1 (text_ok _)); by vm_compute).
  destruct (pairing_enables_restore (fun s => s) to_upper_ascii aid (js "tok-1") (js "Laptop") (js "2026-06-01T00:00:00.000Z")
              typed_panel s0 (StateOf new_profile aid typed_panel) R0)
    as (nonce & st' & E & _ & Hh & Hc & Hrestore);
    [discriminate|apply forallb_units; by vm_compute..|by vm_compute|exact T3|discriminate|exact T4|exact T5|reflexivity|].
  destruct (web_encrypts (js "As promised.") (js "Y2s") empty_world (proj1 T2)) as (cb & w1 & _ & S1 & _).
  destruct (web_encrypts (js "Notes") (js "Y2s") w1 (proj1 T1)) as (cs & w2 & _ & S2 & _).
  destruct (Hrestore (WebText.serialized cb) (js "x25519v1:w") (WebText.serialized cs) (js "Notes") (js "As promised.") (js "Y2s"))
    as (now & b' & E'); [exact S1|exact S2| |discriminate|exact T1|exact T2|reflexivity|].
  - apply (bool_decide_eq_true_1 (ascii_text _)). by vm_compute.
  - exists st', (WebText.serialized cb), (WebText.serialized cs), now, b'.
    split; [exact E|]. split; [exact Hc|]. split; [exact Hh|exact E'].
Defined.

(** ** Revoking *)

Lemma respects_ok {A} (m : BM A) b : respects same_store m -> exists r b', m b = (r, b') /\ same_store b b'.
Proof. intros Hm. specialize (Hm b). destruct (m b) as [r b'] eqn:E. by exists r, b'. Qed.

Section revoking.
Context `{Host, WebCrypto, !WebCryptoLaws, Env, !EnvLaws, BrowserEnv, !NeverRefuses}.

Lemma forget_ok aid s st :
  refines s (s_browser st) -> truthy_str aid = true ->
  exists st', forget aid st = (Ok tt, st') /\
    refines (PairingsOf (delete aid (tokens s)) (delete aid (nonces s))) (s_browser st') /\
    storedTokenHash (s_panel st') = None /\ status (s_panel st') = idle.
Proof.
  intros HR Ha. unfold forget. destruct (clear_sim s _ aid HR) as (b1 & E1 & R1). rewrite Ha in R1.
  erewrite bind_ok by (apply browser_ok, E1).
  destruct (clear_nonce_sim _ _ aid R1) as (b2 & E2 & R2). rewrite Ha in R2.
  erewrite bind_ok by (apply browser_ok, E2). eexists. split; [reflexivity|]. by split.
Qed.

(** However the daemon answers, if the request returns at all, this browser
    forgets the pairing of this agent, and nothing of another's. *)
Lemma revokeThis_forgets aid s st :
  refines s (s_browser st) -> truthy_str aid = true -> is_Some (tokens s !! aid) ->
  exists r st', revokeThis aid st = (r, st') /\
    match r with
    | Ok _ => refines (PairingsOf (delete aid (tokens s)) (delete aid (nonces s))) (s_browser st') /\
              storedTokenHash (s_panel st') = None /\ status (s_panel st') = idle
    | Throw _ => refines s (s_browser st')
    end.
Proof.
  intros HR Ha [[base tok] Ht]. unfold revokeThis, existing_token. rewrite Ha.
  destruct (load_sim s _ aid HR) as (r & b1 & E1 & R1 & A). rewrite Ha, Ht in A. destruct r as [existing|]; [|done].
  erewrite bind_ok by (apply browser_ok, E1). unfold stored_client.
  destruct (load_nonce_sim s b1 aid R1) as (b2 & E2 & R2).
  erewrite bind_ok by (erewrite bind_ok by (apply browser_ok, E2); reflexivity).
  cbn [s_browser panel_aid s_panel]. set (c := BridgeClient.make _ _ _).
  destruct (respects_ok (BridgeClient.revokeSession c) b2 (revoke_same_store _ _)) as (r & b3 & E3 & S3).
  pose proof (refines_same s b2 b3 S3 R2) as R3. unfold mbind at 1, eff_bind, browser at 1. cbn [s_browser]. rewrite E3.
  destruct r as [v|e]; [|by eexists _, _].
  destruct (forget_ok aid s (StateOf b3 (panel_aid st) (s_panel st)) R3 Ha) as (st' & E4 & F). cbn [panel_aid s_panel] in *.
  by exists (Ok tt), st'.
Qed.

End revoking.

(** A daemon that is not running: its sessions stay, the browser forgets. *)
Example revoke_offline_forgets :
  let _ := plain_host in let _ := answering_env (fun _ _ => Throw (JsError (js "TypeError") (js "fetch failed"))) (fun _ _ _ => Ok JUndef) in
  let _ := open_browser in
  let a := js "aid:ai:acme/bot" in
  let st := StateOf (with_area LocalStorage {[TokenStore.storageKey (JStr a) := json_stringify (JObj [(js "aid", JStr a); (js "token", JStr (js "tok"))])]}
                       new_profile) a (initial None) in
  let '(r, st') := revokeThis a st in
  r = Ok tt /\ b_local (s_browser st') !! TokenStore.storageKey (JStr a) = None /\ status (s_panel st') = idle.
Proof. vm_compute. by split_and!. Qed.

(** Another agent is selected while the daemon answers: the panel of the other,
    which has no pairing, shows the pairing that was made. *)
Example answer_after_another_is_selected :
  let _ := plain_host in let _ := granting_daemon in let _ := open_browser in
  let a := js "aid:ai:acme/bot" in let other := js "aid:ai:acme/other" in
  let st := StateOf new_profile a typed_panel in
  let '(r, st) := (rn ← pair_request to_upper_ascii typed_panel; select_agent (fun s => s) other ;;
                   pair_answered (fun s => s) a typed_panel rn.1 rn.2) st in
  r = Ok tt /\ panel_aid st = other /\ isGated [] st = false /\ storedTokenHash (s_panel st) = Some (sha256HexBrowser (js "tok-1")) /\
  b_local (s_browser st) !! TokenStore.storageKey (JStr other) = None.
Proof. vm_compute. by split_and!. Qed.

(** The user agents of an Android phone and of an iPhone. *)
Example phone_labels :
  guessDeviceLabel (Some (js "Mozilla/5.0 (Linux; Android 14; Pixel 8) AppleWebKit/537.36 (KHTML, like Gecko) Chrome/125.0.0.0 Mobile Safari/537.36"))
  = js "Chrome on Linux" /\
  guessDeviceLabel (Some (js "Mozilla/5.0 (iPhone; CPU iPhone OS 17_5 like Mac OS X) AppleWebKit/605.1.15 (KHTML, like Gecko) Version/17.5 Mobile/15E148 Safari/604.1"))
  = js "Safari on Mac".
Proof. by vm_compute. Qed.

(** Every event is in one bucket. *)
Lemma counts_total events :
  (ReplyStats.counts events ReplyStats.auto_accept + ReplyStats.counts events ReplyStats.auto_decline
   + ReplyStats.counts events ReplyStats.queue_for_human + ReplyStats.counts events ReplyStats.other)%nat = length events.
Proof.
  unfold ReplyStats.counts. set (f := fun c ev b => _).
  enough (forall c, (fold_left f events c ReplyStats.auto_accept + fold_left f events c ReplyStats.auto_decline
    + fold_left f events c ReplyStats.queue_for_human + fold_left f events c ReplyStats.other
    = length events + (c ReplyStats.auto_accept + c ReplyStats.auto_decline + c ReplyStats.queue_for_human + c ReplyStats.other))%nat)
    as E by (rewrite E; cbn; lia).
  induction events as [|ev events IH]; intros c; [done|]. cbn [fold_left length]. rewrite IH. unfold f.
  destruct (ReplyStats.bucketForAction (ReplyStats.action_of ev)); repeat case_decide; try done; lia.
Qed.
