(* ===== verification/AgentSettings.v ===== *)
(** The agents' settings: apps/web/app/settings/agents/page.tsx (the page; its
    bridge panel is in BridgePanel.v) and apps/web/app/settings/agents/new/page.tsx.

    A message shown to the user is its translation key with its parameters.  A
    handler is given what its render closed over; [window.confirm] answers
    [confirmed]. *)
From S2P Require Import Prelude Base64 Utf8 JsNumber Json JsDate A2A Effect Node Envelope ApiClient Browser WebKeystore WebEnvelope WebApi SendReply Bridge BridgeSpec Llm Session Views.

Definition Message : Type := jstr * list (jstr * jval).
Definition msg (key : string) : Message := (js key, []).

Inductive Tone := info | error | success.
Abbreviation Banner := (option (Tone * Message)).

(** ** settings/agents/page.tsx *)
Module AgentsPage.

Record Agent := AgentOf {
  ag_id : jstr; ag_did : jstr; ag_aid : jstr; ag_label : jstr; ag_auto_reply : bool;
  ag_is_active : bool; ag_unread_count : jnum; ag_created_at : jstr
}.

Record AgentCredential := Credential {
  credential_id : jstr; cr_aid : jstr; cr_label : jstr; cr_status : jstr; key_holder : option jstr;
  enrollment_expires_at : option jstr; revoked_at : option jstr; last_used_at : option jstr
}.

Record CreatedCredentialNotice := Notice { credentialId : jval; enrollmentSecret : jval; n_aid : jval }.

Record Page := PageOf {
  activeDid : jstr; editingLabel : jstr; credLabel : jstr; createdCredential : option CreatedCredentialNotice;
  isEditing : bool; banner : Banner; showRevoked : bool; nowMs : Z
}.

Definition PURGE_GRACE_DAYS : Z := 7.

Definition set_did v p := PageOf v (editingLabel p) (credLabel p) (createdCredential p) (isEditing p) (banner p) (showRevoked p) (nowMs p).
Definition set_label v p := PageOf (activeDid p) v (credLabel p) (createdCredential p) (isEditing p) (banner p) (showRevoked p) (nowMs p).
Definition set_credLabel v p := PageOf (activeDid p) (editingLabel p) v (createdCredential p) (isEditing p) (banner p) (showRevoked p) (nowMs p).
Definition set_created v p := PageOf (activeDid p) (editingLabel p) (credLabel p) v (isEditing p) (banner p) (showRevoked p) (nowMs p).
Definition set_editing v p := PageOf (activeDid p) (editingLabel p) (credLabel p) (createdCredential p) v (banner p) (showRevoked p) (nowMs p).
Definition set_banner v p := PageOf (activeDid p) (editingLabel p) (credLabel p) (createdCredential p) (isEditing p) v (showRevoked p) (nowMs p).
Definition toggle_revoked p := PageOf (activeDid p) (editingLabel p) (credLabel p) (createdCredential p) (isEditing p) (banner p) (negb (showRevoked p)) (nowMs p).
Definition set_now v p := PageOf (activeDid p) (editingLabel p) (credLabel p) (createdCredential p) (isEditing p) (banner p) (showRevoked p) v.

Definition initial (now : Z) : Page := PageOf [] [] [] None false None false now.

Definition activeAgent (agents : list Agent) (p : Page) : option Agent :=
  match agents with
  | [] => None
  | first :: _ =>
    if truthy_str (activeDid p) then Some (default first (List.find (fun a => jeqb (ag_did a) (activeDid p)) agents))
    else Some first
  end.

(** The effect, and the dependencies whose change runs it. *)
Definition agent_effect (active : option Agent) (p : Page) : Page :=
  set_created None (set_label (match active with Some a => ag_label a | None => [] end) (set_editing false p)).
Definition effect_deps (active : option Agent) : option (jstr * jstr) := (fun a => (ag_did a, ag_label a)) <$> active.

Definition rerender (before after : list Agent) (p0 p : Page) : Page :=
  if decide (effect_deps (activeAgent before p0) = effect_deps (activeAgent after p)) then p
  else agent_effect (activeAgent after p) p.

(** ** The credentials *)

Definition isLive (s : jstr) : bool := jeqb s (js "active") || jeqb s (js "pending").
Definition allForAgent (aid : jstr) (l : list AgentCredential) : list AgentCredential := List.filter (fun c => jeqb (cr_aid c) aid) l.
Definition liveCreds (aid : jstr) (l : list AgentCredential) : list AgentCredential := List.filter (fun c => isLive (cr_status c)) (allForAgent aid l).
Definition deadCreds (aid : jstr) (l : list AgentCredential) : list AgentCredential :=
  List.filter (fun c => negb (isLive (cr_status c))) (allForAgent aid l).
Definition visibleCreds (aid : jstr) (l : list AgentCredential) (p : Page) : list AgentCredential :=
  if showRevoked p then liveCreds aid l ++ deadCreds aid l else liveCreds aid l.

Definition credential_mode (c : AgentCredential) : jstr :=
  let keyHolder := default (js "unknown") (key_holder c) in
  if jeqb keyHolder (js "signer_daemon") then js "agents.credModeDaemonIsolated"
  else if jeqb keyHolder (js "unknown") then js "agents.credModeUnknown" else js "agents.credModeStandard".

(** [Math.ceil(n / d)]. *)
Definition ceil_div (n d : Z) : Z := - ((- n) / d).

Section clock.
Context `{Host}.

Definition renderPendingStatus (expiresAtIso : option jstr) (nowMs : Z) : Message :=
  match expiresAtIso with
  | None | Some [] => msg "agents.credStatusPending"
  | Some iso =>
    match date_parse iso with
    | None => msg "agents.credStatusPending"
    | Some expMs =>
      let deltaMs := expMs - nowMs in
      if deltaMs <=? 0 then msg "agents.credExpired"
      else if deltaMs <? 60000 then
        (js "agents.credExpiresSoon", [(js "seconds", JNum (num (Z.max 1 (ceil_div deltaMs 1000))))])
      else (js "agents.credExpiresIn", [(js "minutes", JNum (num (ceil_div deltaMs 60000)))])
    end
  end.

Definition credential_status (c : AgentCredential) (nowMs : Z) : Message :=
  if jeqb (cr_status c) (js "active") then msg "agents.credStatusActive"
  else if jeqb (cr_status c) (js "pending") then renderPendingStatus (enrollment_expires_at c) nowMs
  else if jeqb (cr_status c) (js "revoked") then msg "agents.credStatusRevoked"
  else msg "agents.credStatusCompromised".

(** What is offered beside a dead credential. *)
Inductive Purge := NoPurge | PurgeIn (days : Z) | PurgeNow.

Definition DAY_MS : Z := 24 * 60 * 60 * 1000.

Definition purge_offer (c : AgentCredential) (nowMs : Z) : Purge :=
  if jeqb (cr_status c) (js "revoked") then
    match match revoked_at c with Some ((_ :: _) as r) => date_parse r | _ => None end with
    | None => NoPurge
    | Some revokedMs =>
      let remainingMs := PURGE_GRACE_DAYS * 24 * 60 * 60 * 1000 - (nowMs - revokedMs) in
      if 0 <? remainingMs then PurgeIn (ceil_div remainingMs DAY_MS) else PurgeNow
    end
  else NoPurge.

End clock.

(** ** The handlers *)

Record Settings := SettingsOf { st_tab : Tab; st_page : Page }.

Abbreviation SM := (eff Settings).

Definition tab {A} (m : TM A) : SM A := fun s => let '(r, t') := m (st_tab s) in (r, SettingsOf t' (st_page s)).
Definition on_page (f : Page -> Page) : SM unit := fun s => (Ok tt, SettingsOf (st_tab s) (f (st_page s))).
Definition setBanner (tone : Tone) (m : Message) : SM unit := on_page (set_banner (Some (tone, m))).

Section handlers.
Context `{Host, Env, BrowserEnv, QueryClient}.

(** [try { await mutateAsync() ...then } catch { banner }]. *)
Definition attempt (h : Hooks.MutationHook) (andThen : jval -> SM unit) (failed : Message) : SM unit :=
  try_catch (data ← tab (Logout.mutate_hook h); andThen data) (fun _ => setBanner error failed).

(** Of a render whose active agent was [active] and whose state was [p]. *)
Variables (active : option Agent) (p : Page).

Definition startEdit : SM unit :=
  match active with
  | None => mret tt
  | Some a => on_page (fun q => set_banner None (set_label (ag_label a) (set_editing true q)))
  end.
Definition cancelEdit : SM unit :=
  match active with None => mret tt | Some a => on_page (fun q => set_label (ag_label a) (set_editing false q)) end.

Definition handleSaveRename : SM unit :=
  match active with
  | None => mret tt
  | Some a =>
    let label := trim (editingLabel p) in
    if negb (truthy_str label) then setBanner error (msg "agents.bannerNameEmpty")
    else if jeqb label (ag_label a) then on_page (set_editing false)
    else
      attempt (Hooks.useUpdateAgentMutation (ag_id a) (JObj [(js "label", JStr label)]))
        (fun _ => on_page (set_editing false) ;; setBanner success (msg "agents.bannerNameUpdated"))
        (msg "agents.bannerNameFailed")
  end.

Definition handleToggleAutoReply : SM unit :=
  match active with
  | None => mret tt
  | Some a =>
    attempt (Hooks.useUpdateAgentMutation (ag_id a) (JObj [(js "auto_reply", JBool (negb (ag_auto_reply a)))]))
      (fun _ => setBanner success (if ag_auto_reply a then msg "agents.bannerAutoReplyOff" else msg "agents.bannerAutoReplyOn"))
      (msg "agents.bannerAutoReplyFailed")
  end.

Definition handleDelete (confirmed : bool) : SM unit :=
  match active with
  | None => mret tt
  | Some a =>
    if negb confirmed then mret tt
    else
      attempt (Hooks.useDeleteAgentMutation (ag_id a))
        (fun _ => on_page (set_did []) ;; setBanner success (msg "agents.bannerDeleted"))
        (msg "agents.bannerDeleteFailed")
  end.

(** [written]: whether the clipboard took the text. *)
Definition copyValue (written : bool) (successText : Message) : SM unit :=
  if written then setBanner success successText else setBanner error (msg "agents.bannerCopyFailed").

Definition revoke (c : AgentCredential) (confirmed : bool) : SM unit :=
  if negb confirmed then mret tt
  else
    attempt (Hooks.useRevokeAgentCredentialMutation (credential_id c))
      (fun _ => setBanner success (msg "agents.bannerCredRevoked")) (msg "agents.bannerCredRevokeFailed").

(** The error of a status: its name carries it. *)
Definition has_status (status : Z) (err : jserror) : bool := jeqb (err_name err) (err_name (WebApi.ApiError [] status)).

Definition purge (c : AgentCredential) (confirmed : bool) : SM unit :=
  if negb confirmed then mret tt
  else
    try_catch
      (tab (Logout.mutate_hook (Hooks.usePurgeAgentCredentialMutation (credential_id c))) ;;
       setBanner success (msg "agents.credPurgeSuccess"))
      (fun err => setBanner error (if has_status 409 err then msg "agents.credPurgeGraceError" else msg "agents.credPurgeFailed")).

Definition create_payload (a : Agent) (label : jstr) : jval := JObj [(js "agent_id", JStr (ag_id a)); (js "label", JStr label)].

Definition createCredential : SM unit :=
  match active with
  | None => mret tt
  | Some a =>
    let label := trim (credLabel p) in
    if negb (truthy_str label) then setBanner error (msg "agents.bannerCredNameEmpty")
    else
      attempt (Hooks.useCreateAgentCredentialMutation (create_payload a label))
        (fun result =>
           on_page (set_credLabel []) ;;
           secret ← lift (jprop result (js "enrollment_secret"));
           on_page (set_created
             (if jtruthy secret then Some (Notice (jget result (js "credential_id")) secret (jget result (js "aid"))) else None)) ;;
           setBanner success (msg "agents.bannerCredCreated"))
        (msg "agents.bannerCredCreateFailed")
  end.

Definition emergencyShutdown (confirmed : bool) : SM unit :=
  match active with
  | None => mret tt
  | Some a =>
    if negb confirmed then mret tt
    else
      attempt (Hooks.useEmergencyShutdownMutation (ag_id a))
        (fun result =>
           creds ← lift (jprop result (js "credentials_revoked"));
           setBanner success (js "agents.emergencyDone", [(js "creds", creds); (js "tokens", jget result (js "tokens_revoked"))]))
        (msg "agents.emergencyFailed")
  end.

End handlers.
End AgentsPage.

(** ** settings/agents/new/page.tsx *)
Module NewAgentPage.

(** [timers]: the pending calls of [setTimeout] that go to the settings. *)
Record Page := PageOf { n_tab : Tab; label : jstr; n_banner : Banner; timers : nat }.

Abbreviation NM := (eff Page).

Definition tab {A} (m : TM A) : NM A := fun p => let '(r, t') := m (n_tab p) in (r, PageOf t' (label p) (n_banner p) (timers p)).
Definition setBanner (tone : Tone) (m : Message) : NM unit := fun p => (Ok tt, PageOf (n_tab p) (label p) (Some (tone, m)) (timers p)).
Definition setLabel (l : jstr) : NM unit := fun p => (Ok tt, PageOf (n_tab p) l (n_banner p) (timers p)).
Definition later : NM unit := fun p => (Ok tt, PageOf (n_tab p) (label p) (n_banner p) (S (timers p))).

Section create.
Context `{Host, WebCrypto, Env, BrowserEnv, QueryClient}.

Definition create_payload (trimmed public_key encryption_key : jstr) : jval :=
  JObj [(js "label", JStr trimmed); (js "public_key", JStr public_key); (js "encryption_key", JStr encryption_key)].

(** A did has type [string]; its text is what the key rings keep. *)
Definition did_text (v : jval) : jstr := if jtruthy v then js_string v else [].

(** [shown]: the label of the render. *)
Definition handleCreate (shown : jstr) : NM unit :=
  let trimmed := trim shown in
  if negb (truthy_str trimmed) then setBanner error (msg "agentCreate.bannerEmpty")
  else
    setBanner info (msg "agentCreate.bannerCreating") ;;
    try_catch
      (signingKeyPair ← tab (of_browser SigningKeyring.generateEd25519SigningKeyPairMaterial);
       encryptionKeyPair ← tab (of_browser RecipientKeyring.generateX25519KeyPairMaterial);
       created ← tab (Logout.mutate_hook (Hooks.useCreateAgentMutation (create_payload trimmed signingKeyPair.1 encryptionKeyPair.1)));
       did ← lift (jprop created (js "did"));
       tab (of_browser (SigningKeyring.saveSigningPrivateKey (did_text did) signingKeyPair.2)) ;;
       tab (of_browser (RecipientKeyring.saveRecipientPrivateKey (did_text did) encryptionKeyPair.2)) ;;
       setBanner success (msg "agentCreate.bannerCreated") ;;
       setLabel [] ;;
       later)
      (fun _ => setBanner error (msg "agentCreate.bannerFailed")).

(** A timer fires. *)
Definition timer : NM unit :=
  fun p => match timers p with
           | O => (Ok tt, p)
           | S n => tab (visit (js "/settings/agents")) (PageOf (n_tab p) (label p) (n_banner p) n)
           end.

End create.
End NewAgentPage.

(** * Lemmas *)

Section rings.
Context `{WebCrypto, Env, BrowserEnv, !NeverRefuses}.

(** A key in the store is found by any later page. *)
Lemma reload_finds r did key b :
  stored_key b (Ring.storageKey r did) = Some key -> exists b', Ring.getPrivateKey r did (reload b) = (Ok (Some key), b').
Proof.
  intros Hs. destruct (ensureMigration_ok r (reload b)) as (b1 & E1 & M1 & K1 & _).
  destruct (getPrivateKey_ok r did (reload b) b1 key E1) as (b2 & E2 & _); [|by exists b2].
  right. split; [rewrite M1; by destruct r|]. by apply K1.
Qed.

Lemma save_key_ok r did key b :
  truthy_str did = true ->
  exists b', Ring.savePrivateKey r did key b = (Ok tt, b') /\
    (forall id, stored_key b' id = if decide (id = Ring.storageKey r did) then Some key else stored_key b id) /\
    w_trace (b_node b') = EvIdb (IdbPut STORE_PRIVATE_KEYS (Ring.storageKey r did)) :: w_trace (b_node b).
Proof.
  intros Ht. unfold Ring.savePrivateKey. rewrite Ht. cbn [negb]. erewrite bind_ok by reflexivity.
  unfold isKeystoreAvailable. rewrite in_browser. unfold try_catch. rewrite secureStoreKey_run, idb_accepts. cbv zeta.
  eexists. split; [reflexivity|]. split; [|done]. intros id. unfold stored_key. cbn. case_decide as Hd.
  - by rewrite Hd, lookup_insert_eq.
  - by rewrite lookup_insert_ne.
Qed.

Lemma rings_apart did : Ring.storageKey SigningRing did <> Ring.storageKey RecipientRing did.
Proof. unfold Ring.storageKey, ring_prefix. intros [=]. Qed.

End rings.

Lemma keypair_ok `{WebCrypto, Env, BrowserEnv} r b :
  exists priv b', Ring.generateKeyPairMaterial r b
    = (Ok (CoreB64.toBase64Url (key_public (ring_alg r) priv), PrivateKey (ring_alg r) priv), b') /\ reads b b'.
Proof.
  unfold Ring.generateKeyPairMaterial. erewrite bind_ok by (apply host_ok; reflexivity).
  eexists _, _. rewrite web_toBase64Url. split; [reflexivity|]. by eexists.
Qed.

(** The request that registers an agent. *)
Definition create_request `{Env} (trimmed public_key encryption_key : jstr) : Request :=
  HttpRequest (js "POST") (WebApi.DEFAULT_BASE_URL ++ js "/agents") [(js "Content-Type", js "application/json")]
    (TextBody (json_stringify (NewAgentPage.create_payload trimmed public_key encryption_key))).

Section create.
Context `{Host, WebCrypto, Env, BrowserEnv, QueryClient, !QueryClientLaws}.

Lemma tab_ok {A} (m : TM A) p a t' : m (NewAgentPage.n_tab p) = (Ok a, t') ->
  NewAgentPage.tab m p = (Ok a, NewAgentPage.PageOf t' (NewAgentPage.label p) (NewAgentPage.n_banner p) (NewAgentPage.timers p)).
Proof. intros E. unfold NewAgentPage.tab. by rewrite E. Qed.

Lemma of_browser_ok {A} (m : BM A) t a b' : m (t_browser t) = (Ok a, b') ->
  of_browser m t = (Ok a, TabOf (LlmAuth.LlmOf b' (LlmAuth.l_key (t_llm t))) (t_cache t) (t_visits t)).
Proof. intros E. unfold of_browser, of_llm, LlmAuth.in_browser_. fold (t_browser t). by rewrite E. Qed.

Lemma create_call_ok trimmed spub epub created b :
  json_okb created = true ->
  (forall h, env_fetch h (create_request trimmed spub epub) = Ok (HttpResponse 200 (json_stringify created))) ->
  exists b', WebApi.createAgent WebApi.defaultApiClient (NewAgentPage.create_payload trimmed spub epub) b = (Ok created, b') /\
    EvFetch (create_request trimmed spub epub) ∈ w_trace (b_node b') /\ b_private b' = b_private b.
Proof.
  intros Hj Hf. destruct (web_fetch_answer _ _ b Hf) as (w & b1 & E & Hw & Hlog).
  exists b1. split; [|split; [exact Hlog|]].
  - unfold WebApi.createAgent, WebApi.post, WebApi.request. erewrite bind_ok by exact E.
    unfold wr_ok, wr_json. rewrite Hw. cbn [rs_ok rs_status rs_text]. by rewrite json_stringify_roundtrip.
  - revert E. unfold web_fetch, host, ask, lift, mbind, eff_bind. by intros [= _ <-].
Qed.

End create.



(** A browser that refuses to store keys: the page says that all is well. *)
Example created_without_keys :
  let _ := plain_host in let _ := plain_client in
  let _ := refusing_browser (fun _ => None) (fun op => match op with IdbPut _ _ => Some (Error_ (js "quota")) | _ => None end) in
  let did := js "did:key:zNew" in
  let _ := reply_env (json_stringify (JObj [(js "did", JStr did)])) in
  let '(r, p') := NewAgentPage.handleCreate (js "Desk") (NewAgentPage.PageOf paired_tab (js "Desk") None 0) in
  NewAgentPage.n_banner p' = Some (success, msg "agentCreate.bannerCreated") /\
  (SigningKeyring.getSigningPrivateKey did (reload (t_browser (NewAgentPage.n_tab p')))).1 = Ok None.
Proof. vm_compute. by split. Qed.

(** ** The page *)

Import AgentsPage.

(** A request to confirm that is declined changes nothing. *)
Lemma declined_does_nothing `{Host, Env, BrowserEnv, QueryClient} active c s :
  handleDelete active false s = (Ok tt, s) /\ revoke c false s = (Ok tt, s) /\ purge c false s = (Ok tt, s) /\
  emergencyShutdown active false s = (Ok tt, s).
Proof. destruct active; by split_and!. Qed.

(** A purge is offered at once exactly when the seven days have passed since a
    revocation whose time is known. *)
Lemma purge_offer_exact `{Host} c now :
  purge_offer c now = PurgeNow <->
  cr_status c = js "revoked" /\ exists r at_, revoked_at c = Some r /\ r <> [] /\ date_parse r = Some at_ /\ at_ + 7 * DAY_MS <= now.
Proof.
  unfold purge_offer. destruct (jeqb_spec (cr_status c) (js "revoked")) as [Hs|Hs]; [|split; [done|intros [? _]; done]].
  change (PURGE_GRACE_DAYS * 24 * 60 * 60 * 1000) with (7 * DAY_MS). destruct (revoked_at c) as [[|u r]|]; [split; [done|naive_solver]| |split; [done|naive_solver]].
  destruct (date_parse (u :: r)) as [at_|] eqn:Ed; [|split; [done|naive_solver congruence]].
  destruct (Z.ltb_spec 0 (7 * DAY_MS - (now - at_))) as [Hz|Hz]; split; try done.
  - intros (_ & r' & a' & [= <-] & _ & Ed' & Hle). rewrite Ed in Ed'. injection Ed' as <-. lia.
  - intros _. split; [done|]. exists (u :: r), at_. split_and!; try done. lia.
Qed.

(** Before that, the days that remain are counted up: from one to seven. *)
Lemma purge_days_bounds `{Host} c now days at_ :
  purge_offer c now = PurgeIn days -> revoked_at c <> None ->
  (forall r, revoked_at c = Some r -> date_parse r = Some at_) -> at_ <= now -> 1 <= days <= 7.
Proof.
  unfold purge_offer. destruct (jeqb _ _); [|done]. intros Hp _ Hat Hle.
  destruct (revoked_at c) as [[|u r]|]; [done| |done]. rewrite (Hat _ eq_refl) in Hp. cbv zeta in Hp.
  destruct (Z.ltb_spec 0 (PURGE_GRACE_DAYS * 24 * 60 * 60 * 1000 - (now - at_))) as [Hz|Hz]; [|done].
  injection Hp as <-. unfold ceil_div, DAY_MS, PURGE_GRACE_DAYS in *.
  zdiv.
Qed.

(** The text of a pending credential: seconds from one to sixty, then minutes,
    and expired exactly from its moment on. *)
Lemma pending_text `{Host} iso exp now :
  date_parse iso = Some exp -> iso <> [] ->
  (now < exp /\ ((exists n, 1 <= n <= 60 /\ renderPendingStatus (Some iso) now = (js "agents.credExpiresSoon", [(js "seconds", JNum (num n))]))
                 \/ (exists n, 1 <= n /\ renderPendingStatus (Some iso) now = (js "agents.credExpiresIn", [(js "minutes", JNum (num n))]))))
  \/ (exp <= now /\ renderPendingStatus (Some iso) now = msg "agents.credExpired").
Proof.
  intros Ed Hn. unfold renderPendingStatus. destruct iso as [|u iso]; [done|]. rewrite Ed. cbv zeta.
  destruct (Z.leb_spec (exp - now) 0); [right; split; [lia|done]|left; split; [lia|]].
  destruct (Z.ltb_spec (exp - now) 60000).
  - left. exists (Z.max 1 (ceil_div (exp - now) 1000)). split; [|done]. unfold ceil_div. zdiv.
  - right. exists (ceil_div (exp - now) 60000). split; [|done]. unfold ceil_div. zdiv.
Qed.

(** The one-time secret of a credential is hidden by anything that changes the
    agent's name, and shown under whichever agent is selected when it comes. *)
Definition two_agents : list Agent := [AgentOf (js "1") (js "did:key:zA") (js "aid:a") (js "Desk") false true (num 0) (js "2026-05-01T00:00:00Z");
                                       AgentOf (js "2") (js "did:key:zB") (js "aid:b") (js "Home") false true (num 0) (js "2026-05-01T00:00:00Z")].
Definition renamed : list Agent := [AgentOf (js "1") (js "did:key:zA") (js "aid:a") (js "Office") false true (num 0) (js "2026-05-01T00:00:00Z");
                                    AgentOf (js "2") (js "did:key:zB") (js "aid:b") (js "Home") false true (num 0) (js "2026-05-01T00:00:00Z")].

Example rename_hides_secret :
  let p := set_created (Some (Notice (JStr (js "c1")) (JStr (js "s3cret")) (JStr (js "aid:a")))) (initial 0) in
  createdCredential (rerender two_agents renamed p p) = None.
Proof. by vm_compute. Qed.

Example secret_under_another_agent :
  let _ := plain_host in let _ := open_browser in let _ := plain_client in
  let _ := reply_env (json_stringify (JObj [(js "credential_id", JStr (js "c1")); (js "enrollment_secret", JStr (js "s3cret"));
                                             (js "aid", JStr (js "aid:a"))])) in
  let typed := set_credLabel (js "Laptop") (initial 0) in
  let selected := rerender two_agents two_agents typed (set_did (js "did:key:zB") typed) in
  let '(r, s) := createCredential (activeAgent two_agents typed) typed (SettingsOf paired_tab selected) in
  (ag_aid <$> activeAgent two_agents (st_page s)) = Some (js "aid:b") /\
  (n_aid <$> createdCredential (st_page s)) = Some (JStr (js "aid:a")).
Proof. vm_compute. by split. Qed.
