(* ===== verification/PolicyEditor.v ===== *)
(** The editor of an agent's automatic replies:
    apps/web/app/_components/AutoReplyPolicyPanel.tsx.

    The policy that comes from the server is JSON that nothing checks beyond
    its version and default action; the fields of a draft that are copied from
    it are values.  The theorem ties what the form says to what the evaluator
    (AutoReply.v) does with the policy that is saved. *)
From S2P Require Import Prelude Utf8 JsNumber Json Effect Node ApiClient Browser WebApi Llm Session Inbox A2A AutoReply.

Module Editor.

Record DraftProtocolAction := Action {
  enabled : bool; act : jval; min_trust_score : jstr; require_contact : jval; priority_at_most : jval;
  sender_in_allowlist : jstr; note_template : jval
}.
Record Draft := DraftOf { default_action : AutoReplyAction; schedule_propose : DraftProtocolAction; task_delegate : DraftProtocolAction }.

Definition ACTION_OPTIONS : list AutoReplyAction := [queue_for_human; auto_accept; auto_decline; auto_accept_if_free; delegate_to_llm].
Definition PRIORITY_OPTIONS : list jstr := [js "high"; js "normal"; js "low"; js "background"].

Definition action_val (a : AutoReplyAction) : jval := JStr (auto_action_name a).

Definition emptyProtocolAction : DraftProtocolAction :=
  Action false (action_val queue_for_human) [] (JBool false) (JStr []) [] (JStr []).

(** [isAutoReplyPolicy]: the default action of a policy that is one. *)
Definition isAutoReplyPolicy (p : jval) : option AutoReplyAction :=
  if is_object p && match jget p (js "v") with JNum n => num_eqb n (num 1) | _ => false end
  then match jget p (js "default_action") with
       | JStr s => List.find (fun a => jeqb (auto_action_name a) s) ACTION_OPTIONS
       | _ => None
       end
  else None.

(** [(value ?? []).join(sep)] of a value whose type is an array. *)
Definition join_lines (v : jval) : res jstr :=
  match v with
  | JUndef | JNull => Ok []
  | JArr l => Ok (join_with [10] (map join_part l))
  | _ => Throw (TypeError_ (js "join is not a function"))
  end.

Definition draftFromProtocolAction (a : jval) : res DraftProtocolAction :=
  if negb (jtruthy a) then Ok emptyProtocolAction
  else
    let conditions := jget a (js "conditions") in
    allowlist ← join_lines (jget conditions (js "sender_in_allowlist"));
    Ok (Action true (jget a (js "action"))
          (match jget conditions (js "min_trust_score") with JNum n => num_to_string n | _ => [] end)
          (nullish_or (jget conditions (js "require_contact")) (JBool false))
          (nullish_or (jget conditions (js "priority_at_most")) (JStr []))
          allowlist (nullish_or (jget a (js "note_template")) (JStr []))).

Definition draftFromPolicy (policy : jval) : res Draft :=
  let '(d, protocols) := match isAutoReplyPolicy policy with
                         | Some d => (d, jget policy (js "protocols"))
                         | None => (queue_for_human, JUndef)
                         end in
  schedule ← draftFromProtocolAction (jget (jget protocols (js "schedule_negotiation")) (js "propose"));
  task ← draftFromProtocolAction (jget (jget protocols (js "task_delegation")) (js "delegate"));
  Ok (DraftOf d schedule task).

Definition allowlist_lines (text : jstr) : list jstr := List.filter truthy_str (map trim (split_lines text)).

(** The conditions of an entry, in the order they are set. *)
Definition conditions_of (d : DraftProtocolAction) : res (list (jstr * jval)) :=
  trust ← (if truthy_str (trim (min_trust_score d)) then
             let n := number_of_string (min_trust_score d) in
             if num_is_finite n then Ok [(js "min_trust_score", JNum n)] else Throw (Error_ (js "min_trust_score"))
           else Ok []);
  let allowlist := allowlist_lines (sender_in_allowlist d) in
  Ok (trust ++ (if jtruthy (require_contact d) then [(js "require_contact", JBool true)] else [])
      ++ (if jtruthy (priority_at_most d) then [(js "priority_at_most", priority_at_most d)] else [])
      ++ (if bool_decide (allowlist = []) then [] else [(js "sender_in_allowlist", JArr (map JStr allowlist))])).

Definition protocolActionFromDraft (d : DraftProtocolAction) : res (option jval) :=
  if negb (enabled d) then Ok None
  else
    conditions ← conditions_of d;
    note ← as_string (note_template d);
    Ok (Some (JObj ([(js "action", act d)]
                    ++ (if bool_decide (conditions = []) then [] else [(js "conditions", JObj conditions)])
                    ++ (if truthy_str (trim note) then [(js "note_template", JStr note)] else [])))).

Definition policyFromDraft (d : Draft) : res jval :=
  schedule ← protocolActionFromDraft (schedule_propose d);
  task ← protocolActionFromDraft (task_delegate d);
  Ok (JObj ([(js "v", JNum (num 1)); (js "default_action", action_val (default_action d))]
            ++ match schedule, task with
               | None, None => []
               | _, _ =>
                 [(js "protocols",
                   JObj (match schedule with Some s => [(js "schedule_negotiation", JObj [(js "propose", s)])] | None => [] end
                         ++ match task with Some s => [(js "task_delegation", JObj [(js "delegate", s)])] | None => [] end))]
               end)).

(** The text [deepEqual] compares. *)
Definition action_draft_val (d : DraftProtocolAction) : jval :=
  JObj [(js "enabled", JBool (enabled d)); (js "action", act d); (js "min_trust_score", JStr (min_trust_score d));
        (js "require_contact", require_contact d); (js "priority_at_most", priority_at_most d);
        (js "sender_in_allowlist", JStr (sender_in_allowlist d)); (js "note_template", note_template d)].
Definition draft_val (d : Draft) : jval :=
  JObj [(js "default_action", action_val (default_action d)); (js "schedule_propose", action_draft_val (schedule_propose d));
        (js "task_delegate", action_draft_val (task_delegate d))].
Definition deepEqual (a b : jval) : bool := jeqb (json_stringify a) (json_stringify b).

(** ** The panel *)

Inductive Kind := info | ok | error.
Definition Message : Type := jstr * list (jstr * jval).
Definition msg (key : string) : Message := (js key, []).

(** The policy query's data, when there is some. *)
Record Response := ResponseOf { r_policy : jval; r_revision : jval }.

Record Panel := PanelOf { p_tab : Tab; draft : Draft; status : option (Kind * Message); refetches : nat }.

Abbreviation PM := (eff Panel).

Definition tab {A} (m : TM A) : PM A :=
  fun p => let '(r, t') := m (p_tab p) in (r, PanelOf t' (draft p) (status p) (refetches p)).
Definition setStatus (s : option (Kind * Message)) : PM unit := fun p => (Ok tt, PanelOf (p_tab p) (draft p) s (refetches p)).
Definition refetch : PM unit := fun p => (Ok tt, PanelOf (p_tab p) (draft p) (status p) (S (refetches p))).

Definition serverDraft (data : option Response) : res Draft :=
  draftFromPolicy (match data with Some r => nullish_or (r_policy r) (JObj []) | None => JObj [] end).

(** The effect of a new [serverDraft]. *)
Definition reset_effect (d : Draft) (p : Panel) : Panel := PanelOf (p_tab p) d (status p) (refetches p).

Definition revision (data : option Response) : jval :=
  match data with Some r => nullish_or (r_revision r) (JNum (num 0)) | None => JNum (num 0) end.

Definition dirty (d server : Draft) : bool := negb (deepEqual (draft_val d) (draft_val server)).

(** Whether the two buttons may be used. *)
Definition save_enabled (d server : Draft) (busy : bool) : bool := dirty d server && negb busy.
Definition reset_enabled (data : option Response) (busy : bool) : bool :=
  negb busy && negb (match revision data with JNum n => num_eqb n (num 0) | _ => false end).

(** The tests of an error for the class and for the status. *)
Definition is_api_error (err : jserror) : bool := starts_with (js "ApiError ") (err_name err).
Definition has_status (s : Z) (err : jserror) : bool := jeqb (err_name err) (err_name (WebApi.ApiError [] s)).

Section panel.
Context `{Host, Env, BrowserEnv, QueryClient}.
Variable agentId : option jstr.

Definition save_payload (policy revision : jval) : jval := JObj [(js "policy", policy); (js "revision", revision)].

Definition failed (err : jserror) : Message :=
  if is_api_error err then (js "agents.policySaveFailed", [(js "message", JStr (err_message err))])
  else msg "agents.policySaveFailedGeneric".

(** Of a render with the draft [d] and the answer [data]. *)
Definition handleSave (d : Draft) (data : option Response) : PM unit :=
  setStatus None ;;
  match policyFromDraft d with
  | Throw _ => setStatus (Some (error, msg "agents.policyInvalidTrustScore"))
  | Ok policy =>
    try_catch
      (tab (Logout.mutate_hook (Hooks.useUpdateAutoReplyPolicyMutation agentId (save_payload policy (revision data)))) ;;
       setStatus (Some (ok, msg "agents.policySaved")))
      (fun err =>
         if is_api_error err && has_status 409 err then setStatus (Some (error, msg "agents.policyConflict")) ;; refetch
         else setStatus (Some (error, failed err)))
  end.

Definition handleReset (confirmed : bool) : PM unit :=
  setStatus None ;;
  if env_window && negb confirmed then mret tt
  else
    try_catch
      (tab (Logout.mutate_hook (Hooks.useDeleteAutoReplyPolicyMutation agentId)) ;;
       setStatus (Some (ok, msg "agents.policyReset")))
      (fun err => setStatus (Some (error, failed err))).

End panel.
End Editor.

(** * What the form says *)

Import Editor.

(** The section of a message's protocol, when it has one and it is in use. *)
Definition section_of (d : Draft) (k : ProtocolKey) : option DraftProtocolAction :=
  let s := match key_type k with
           | schedule_negotiation => if jeqb (key_action k) (js "propose") then Some (schedule_propose d) else None
           | task_delegation => if jeqb (key_action k) (js "delegate") then Some (task_delegate d) else None
           end in
  match s with
  | Some s => if enabled s && bool_decide (is_Some (action_of (act s))) then Some s else None
  | None => None
  end.

Section form.
Context `{ObjectPrototype}.

(** The restrictions of a section, each in force only when it is filled in. *)
Definition form_allows (s : DraftProtocolAction) (ctx : EvaluationContext) : Prop :=
  (trim (min_trust_score s) <> [] -> num_ltb (trustScore ctx) (number_of_string (min_trust_score s)) = false) /\
  (jtruthy (require_contact s) = true -> isContact ctx = true) /\
  (forall cap, priority_at_most s = JStr cap -> cap <> [] ->
     exists m c, priorityRank (priority ctx) = Some m /\ priorityRank cap = Some c /\ rank_gtb m c = false) /\
  (allowlist_lines (sender_in_allowlist s) <> [] -> senderDid ctx ∈ allowlist_lines (sender_in_allowlist s)).

Definition form_permits (d : Draft) (ctx : EvaluationContext) (a : AutoReplyAction) : Prop :=
  match ctx_protocol ctx ≫= section_of d with
  | Some s => action_of (act s) = Some a /\ form_allows s ctx
  | None => default_action d = a
  end.

(** What the evaluator finds in the conditions that are saved. *)
Lemma conditions_found s c :
  conditions_of s = Ok c ->
  jget (JObj c) (js "min_trust_score")
    = (if truthy_str (trim (min_trust_score s)) then JNum (number_of_string (min_trust_score s)) else JUndef) /\
  jget (JObj c) (js "require_contact") = (if jtruthy (require_contact s) then JBool true else JUndef) /\
  jget (JObj c) (js "priority_at_most") = (if jtruthy (priority_at_most s) then priority_at_most s else JUndef) /\
  jget (JObj c) (js "sender_in_allowlist")
    = (if bool_decide (allowlist_lines (sender_in_allowlist s) = []) then JUndef
       else JArr (map JStr (allowlist_lines (sender_in_allowlist s)))).
Proof.
  unfold conditions_of. destruct (truthy_str (trim (min_trust_score s))); [destruct (num_is_finite _); [|done]|];
    cbn [mbind res_bind]; intros [= <-];
    destruct (jtruthy (require_contact s)), (jtruthy (priority_at_most s)), (bool_decide _); by split_and!.
Qed.

Lemma satisfied_form s c ctx : conditions_of s = Ok c -> satisfied (JObj c) ctx <-> form_allows s ctx.
Proof.
  intros Hc. destruct (conditions_found s c Hc) as (Ht & Hr & Hp & Ha). unfold satisfied, form_allows.
  rewrite Ht, Hr, Hp, Ha. clear Ht Hr Hp Ha.
  assert (forall l x, JStr x ∈ map JStr l <-> x ∈ l) as Hmap.
  { intros l x. rewrite !list_elem_of_In, in_map_iff. split; [by intros (y & [= ->] & Hy)|by exists x]. }
  split.
  - intros Hs. destruct (Hs eq_refl) as (Sp & St & Sr & Sa). split_and!.
    + intros Hn. apply St. by destruct (trim (min_trust_score s)).
    + intros Hn. apply Sr. by rewrite Hn.
    + intros cap Hcap Hn. apply Sp. rewrite Hcap. by destruct cap.
    + intros Hn. rewrite <- Hmap. apply Sa. by rewrite bool_decide_eq_false_2.
  - intros (St & Sr & Sp & Sa) _. split_and!.
    + intros cap. destruct (jtruthy (priority_at_most s)) eqn:E; [|done]. intros Hcap. apply Sp; [done|]. by intros ->; rewrite Hcap in E.
    + intros t. destruct (trim (min_trust_score s)) eqn:E; [done|]. intros [= <-]. by apply St.
    + destruct (jtruthy (require_contact s)); [auto|done].
    + intros l. case_bool_decide as E; [done|]. intros [= <-]. apply Hmap. by apply Sa.
Qed.

(** An entry that is saved, seen by the evaluator. *)
Lemma entry_found s v :
  protocolActionFromDraft s = Ok v ->
  (enabled s = false /\ v = None) \/
  exists o c, enabled s = true /\ v = Some (JObj o) /\ conditions_of s = Ok c /\ jget (JObj o) (js "action") = act s /\
    forall ctx, satisfied (jget (JObj o) (js "conditions")) ctx <-> satisfied (JObj c) ctx.
Proof.
  unfold protocolActionFromDraft. destruct (enabled s); cbn [negb]; [|intros [= <-]; by left].
  intros E. right. destruct (conditions_of s) as [c|e]; [|done]. cbn [mbind res_bind] in E.
  destruct (as_string (note_template s)) as [note|e]; [|done]. cbn [mbind res_bind] in E. injection E as <-.
  eexists _, c. split_and!; [done..|]. intros ctx.
  destruct c as [|kv c]; [|by destruct (truthy_str (trim note))].
  assert (satisfied (JObj []) ctx) as Hnil by by intros _; split_and!.
  destruct (truthy_str (trim note)); (split; [intros _; exact Hnil|]); by intros _ Hx.
Qed.

Lemma action_val_found a : action_of (action_val a) = Some a.
Proof. by destruct a. Qed.

(** The block of a protocol in a saved policy, and what an override in it is. *)
Definition block (name : jstr) (v : option jval) : jval := match v with Some e => JObj [(name, e)] | None => JUndef end.

Lemma block_override s v name ka :
  protocolActionFromDraft s = Ok v ->
  let found := if is_object (block name v) && is_object (jget (block name v) ka) then
                 match action_of (jget (jget (block name v) ka) (js "action")) with
                 | Some a => Some (a, jget (jget (block name v) ka) (js "conditions"))
                 | None => None
                 end
               else None in
  if jeqb ka name && enabled s && bool_decide (is_Some (action_of (act s))) then
    exists a conds c, found = Some (a, conds) /\ action_of (act s) = Some a /\
      conditions_of s = Ok c /\ forall ctx, satisfied conds ctx <-> satisfied (JObj c) ctx
  else found = None.
Proof.
  intros E. apply entry_found in E as [[-> ->]|(o & c & -> & -> & Hc & Ha & Hs)]; [intros found; rewrite andb_false_r; reflexivity|].
  cbv zeta. cbn [block].
  assert (jget (JObj [(name, JObj o)]) ka = if jeqb ka name then JObj o else JUndef) as ->
    by (unfold jget; cbn; by destruct (jeqb ka name)).
  destruct (jeqb ka name); cbn [andb is_object]; [|done]. rewrite Ha. destruct (action_of (act s)) as [a|]; [|done].
  rewrite bool_decide_eq_true_2 by by eexists. by exists a, (jget (JObj o) (js "conditions")), c.
Qed.

(** What the evaluator reads of a saved policy. *)
Lemma saved_policy_read d policy :
  policyFromDraft d = Ok policy ->
  exists sv tv, protocolActionFromDraft (schedule_propose d) = Ok sv /\ protocolActionFromDraft (task_delegate d) = Ok tv /\
    jget policy (js "v") = JNum (num 1) /\ jget policy (js "default_action") = action_val (default_action d) /\
    jget policy (js "default_conditions") = JUndef /\
    (is_object (jget policy (js "protocols")) = bool_decide (is_Some sv \/ is_Some tv)) /\
    jget (jget policy (js "protocols")) (js "schedule_negotiation") = block (js "propose") sv /\
    jget (jget policy (js "protocols")) (js "task_delegation") = block (js "delegate") tv.
Proof.
  unfold policyFromDraft. destruct (protocolActionFromDraft (schedule_propose d)) as [sv|]; [|done].
  destruct (protocolActionFromDraft (task_delegate d)) as [tv|]; [|done]. cbn [mbind res_bind]. intros [= <-].
  exists sv, tv. destruct sv, tv; by split_and!.
Qed.

Lemma saved_override d policy k :
  policyFromDraft d = Ok policy ->
  match section_of d k with
  | Some s => exists a conds c, override_of policy k = Some (a, conds) /\ action_of (act s) = Some a /\
                conditions_of s = Ok c /\ forall ctx, satisfied conds ctx <-> satisfied (JObj c) ctx
  | None => override_of policy k = None
  end.
Proof.
  intros (sv & tv & Es & Et & _ & _ & _ & Ho & Hs & Ht)%saved_policy_read.
  pose proof (block_override _ _ (js "propose") (key_action k) Es) as Bs.
  pose proof (block_override _ _ (js "delegate") (key_action k) Et) as Bt. cbv zeta in Bs, Bt.
  rewrite <- Hs in Bs. rewrite <- Ht in Bt. unfold override_of, section_of.
  destruct (is_object (jget policy (js "protocols"))) eqn:Eo; cbn [negb].
  2: { symmetry in Ho. apply bool_decide_eq_false in Ho. destruct sv; [exfalso; apply Ho; left; by eexists|].
       destruct tv; [exfalso; apply Ho; right; by eexists|]. apply entry_found in Es as [[Es _]|(? & ? & _ & [=] & _)].
       apply entry_found in Et as [[Et _]|(? & ? & _ & [=] & _)]. 
       clear Bs Bt. destruct (key_type k); (destruct (jeqb _ _); [|done]); by rewrite ?Es, ?Et. }
  destruct (key_type k); cbn [type_name]; [clear Bt; rename Bs into B|clear Bs; rename Bt into B]; clear - B;
    (destruct (is_object (jget (jget policy (js "protocols")) _)); cbn [negb andb] in *;
     [destruct (is_object (jget (jget (jget policy (js "protocols")) _) (key_action k))); cbn [negb] in *|]);
    destruct (jeqb _ _); cbn [andb] in B; try exact B; destruct (enabled _ && _); exact B.
Qed.

End form.


Definition plain_prototype : ObjectPrototype := {| inherited_gt := fun _ _ => false |}.

(** Accept from trusted contacts on a list; queue everything else. *)
Definition sample_draft : Draft :=
  DraftOf queue_for_human
    (Action true (action_val auto_accept) (js "0.5") (JBool true) (JStr (js "normal"))
       (js " did:key:zA " ++ [13; 10; 10] ++ js "did:key:zB") (JStr (js "Gladly.")))
    emptyProtocolAction.


(** ** Opening and saving *)

(** What a saved section looks like when it is opened again. *)
Definition tidy_section (s : DraftProtocolAction) : DraftProtocolAction :=
  if enabled s then
    Action true (act s)
      (if truthy_str (trim (min_trust_score s)) then num_to_string (number_of_string (min_trust_score s)) else [])
      (JBool (jtruthy (require_contact s))) (if jtruthy (priority_at_most s) then priority_at_most s else JStr [])
      (join_with [10] (allowlist_lines (sender_in_allowlist s)))
      (match note_template s with JStr n => if truthy_str (trim n) then JStr n else JStr [] | v => v end)
  else emptyProtocolAction.
Definition tidy (d : Draft) : Draft := DraftOf (default_action d) (tidy_section (schedule_propose d)) (tidy_section (task_delegate d)).

Lemma section_reopens s v : protocolActionFromDraft s = Ok v -> draftFromProtocolAction (default JUndef v) = Ok (tidy_section s).
Proof.
  unfold protocolActionFromDraft, tidy_section. destruct (enabled s); cbn [negb]; [|by intros [= <-]].
  destruct (conditions_of s) as [c|] eqn:Ec; [|done]. cbn [mbind res_bind]. destruct (note_template s) as [| | | |n| |]; try done.
  cbn [as_string mbind res_bind]. intros [= <-]. destruct (conditions_found s c Ec) as (Ht & Hr & Hp & Ha).
  match goal with |- context [JObj (?x :: ?r)] => set (o := x :: r) end.
  change (default JUndef (Some (JObj o))) with (JObj o). unfold draftFromProtocolAction. cbn [jtruthy negb].
  assert (forall key, jget (jget (JObj o) (js "conditions")) key = jget (JObj c) key) as Hc
    by (intros key; subst o; destruct c; by destruct (truthy_str (trim n))).
  rewrite !Hc, Ht, Hr, Hp, Ha.
  assert (jget (JObj o) (js "action") = act s) as -> by done.
  assert (nullish_or (jget (JObj o) (js "note_template")) (JStr []) = if truthy_str (trim n) then JStr n else JStr []) as ->
    by (subst o; destruct c; by destruct (truthy_str (trim n))).
  assert (join_lines (if bool_decide (allowlist_lines (sender_in_allowlist s) = []) then JUndef
                      else JArr (map JStr (allowlist_lines (sender_in_allowlist s))))
          = Ok (join_with [10] (allowlist_lines (sender_in_allowlist s)))) as ->.
  { case_bool_decide as E; [by rewrite E|]. cbn [join_lines]. rewrite map_map. do 2 f_equal. exact (map_id _). }
  cbn [mbind res_bind]. do 2 f_equal.
  - by destruct (truthy_str (trim (min_trust_score s))).
  - by destruct (jtruthy (require_contact s)).
  - destruct (jtruthy (priority_at_most s)) eqn:E; [|done]. by destruct (priority_at_most s).
Qed.

(** The editor shows again what was saved, tidied. *)
Lemma saved_draft_reopens d policy : policyFromDraft d = Ok policy -> draftFromPolicy policy = Ok (tidy d).
Proof.
  intros (sv & tv & Es & Et & Hv & Hd & _ & _ & Hs & Ht)%saved_policy_read. unfold draftFromPolicy.
  assert (isAutoReplyPolicy policy = Some (default_action d)) as ->.
  { unfold isAutoReplyPolicy. rewrite Hv, Hd. destruct policy as [| | | | | |o]; try done. by destruct (default_action d). }
  rewrite Hs, Ht.
  assert (forall name v, jget (block name v) name = default JUndef v) as Hb
    by (intros name [e|]; [unfold jget; cbn; by rewrite jeqb_refl|done]).
  rewrite !Hb, (section_reopens _ _ Es), (section_reopens _ _ Et). done.
Qed.

(** A policy of the server's that guards its default action, opened and saved
    as it is: strangers are now accepted. *)
Example saving_drops_default_conditions :
  let _ := plain_prototype in
  let policy := JObj [(js "v", JNum (num 1)); (js "default_action", JStr (js "auto_accept"));
                      (js "default_conditions", JObj [(js "require_contact", JBool true)])] in
  let stranger := EvalContext true (js "normal") (num 0) (js "did:key:zX") false None in
  action (evaluateAutoReplyPolicyClient policy stranger) = queue_for_human /\
  match draftFromPolicy policy with
  | Ok d => match policyFromDraft d with
            | Ok saved => action (evaluateAutoReplyPolicyClient saved stranger) = auto_accept
            | Throw _ => False
            end
  | Throw _ => False
  end.
Proof. by vm_compute. Qed.

(** An allowlist that is empty lets nobody through, and everybody once saved. *)
Example saving_opens_empty_allowlist :
  let _ := plain_prototype in
  let policy := JObj [(js "v", JNum (num 1)); (js "default_action", JStr (js "queue_for_human"));
      (js "protocols", JObj [(js "schedule_negotiation", JObj [(js "propose",
         JObj [(js "action", JStr (js "auto_accept")); (js "conditions", JObj [(js "sender_in_allowlist", JArr [])])])])])] in
  let stranger := EvalContext true (js "normal") (num 0) (js "did:key:zX") false (Some (Key schedule_negotiation (js "propose"))) in
  action (evaluateAutoReplyPolicyClient policy stranger) = queue_for_human /\
  match draftFromPolicy policy with
  | Ok d => match policyFromDraft d with
            | Ok saved => action (evaluateAutoReplyPolicyClient saved stranger) = auto_accept
            | Throw _ => False
            end
  | Throw _ => False
  end.
Proof. by vm_compute. Qed.

(** Saving touches the draft in no case; a conflict asks the server again, and
    nothing else does. *)
Lemma handleSave_outcome `{Host, WebCrypto, Env, BrowserEnv, QueryClient, !QueryClientLaws} agentId d data p policy :
  policyFromDraft d = Ok policy ->
  let '(r, t') := Logout.mutate_hook (Hooks.useUpdateAutoReplyPolicyMutation agentId (save_payload policy (revision data))) (p_tab p) in
  handleSave agentId d data p =
  (Ok tt, match r with
          | Ok _ => PanelOf t' (draft p) (Some (ok, msg "agents.policySaved")) (refetches p)
          | Throw err =>
            if has_status 409 err then PanelOf t' (draft p) (Some (error, msg "agents.policyConflict")) (S (refetches p))
            else PanelOf t' (draft p) (Some (error, failed err)) (refetches p)
          end).
Proof.
  intros Hp. unfold handleSave. destruct (Logout.mutate_hook _ _) as [r t'] eqn:E. erewrite bind_ok by reflexivity. rewrite Hp.
  unfold try_catch, mbind, eff_bind, tab. cbn [p_tab]. rewrite E. destruct r as [v|err]; [done|].
  assert (is_api_error err && has_status 409 err = has_status 409 err) as ->.
  { unfold is_api_error, has_status. destruct (jeqb_spec (err_name err) (err_name (WebApi.ApiError [] 409))) as [-> |]; [done|]. apply andb_false_r. }
  by destruct (has_status 409 err).
Qed.
