(* ===== verification/Conversation.v ===== *)
(** The conversation view: apps/web/app/_components/ConversationThread.tsx and
    protocol/ProtocolMessageRouter.tsx.  The attachment list is in
    AttachmentList.v, the restore itself in Bridge.v.

    [t] is the translation of a key.  The loops of the effects run to their end
    before the next event; [cancelled] says whether the effect was cancelled
    while it ran. *)
From Stdlib Require Import Sorting.Sorted.
From S2P Require Import Prelude Base64 Utf8 JsNumber Json JsDate Effect Node Envelope ApiClient Browser WebKeystore WebEnvelope WebApi A2A A2AReply SendReply Bridge Llm Session Views Visibility.

Module Thread.

Record Entry := EntryOf {
  e_id : jstr; e_created_at : jstr; e_sender_did : jstr; e_sender_label : option jstr; e_recipient_did : jstr;
  e_thread_id : option jstr; e_subject_encrypted : jstr; e_folder : jstr
}.

Record Content := ContentOf {
  encrypted_content : jstr; encrypted_key : jstr; c_sender_did : option jstr; c_recipient_did : option jstr;
  c_subject_encrypted : option jstr; c_thread_id : option jstr; c_content_type : option jstr
}.

(** [protocol]: a block that has passed the parser. *)
Record RenderableMessage := Rendered {
  entry : Entry; bodyText : jstr; subjectText : jstr; r_state : MessageVisibilityState; protocol : option jval
}.

(** What the component was given and has: the root, the answers of its
    queries, the contents it fetched and what it shows. *)
Record View := ViewOf {
  rootMessageId : jstr; rootContent : option Content; listed : option (list Entry);
  contents : gmap jstr Content; rendered : list RenderableMessage
}.

Definition set_contents (c : gmap jstr Content) (v : View) : View := ViewOf (rootMessageId v) (rootContent v) (listed v) c (rendered v).
Definition set_rendered (l : list RenderableMessage) (v : View) : View := ViewOf (rootMessageId v) (rootContent v) (listed v) (contents v) l.

Section thread.
Context `{Locale}.

Definition threadId (v : View) : option jstr := c ← rootContent v; c_thread_id c.

Definition oldest_first (a b : Entry) : Z := localeCompare (e_created_at a) (e_created_at b).

Definition members (v : View) : list Entry :=
  match threadId v, listed v with
  | Some (_ :: _), Some l => sort oldest_first l
  | _, _ => []
  end.

(** ** Fetching the contents *)

Definition missing (v : View) : list Entry :=
  List.filter (fun m => negb (jeqb (e_id m) (rootMessageId v)) && bool_decide (contents v !! e_id m = None)) (members v).

(** The members are fetched with [getMessageContent], whose answer is read as a
    [Content]; a failed fetch is [null].  The new record is a new object even
    when nothing was fetched: [None] is the effect that had nothing to do. *)
Definition fetch_effect (fetch : jstr -> BM Content) (v : View) : BM (option View) :=
  match missing v with
  | [] => mret None
  | l =>
    pairs ← eff_map (fun m => try_catch (data ← fetch (e_id m); mret (Some (e_id m, data))) (fun _ => mret None)) l;
    mret (Some (set_contents (fold_left (fun c pair => match pair with Some (i, data) => <[i := data]> c | None => c end) pairs (contents v)) v))
  end.

End thread.

(** ** Decrypting and showing *)
Section show.
Context `{Host, WebCrypto, Env, BrowserEnv, Locale}.
Variable t : jstr -> jstr.

Definition root_entry (v : View) (c : Content) (now_iso : jstr) : Entry :=
  EntryOf (rootMessageId v) now_iso (default [] (c_sender_did c)) None (default [] (c_recipient_did c)) (c_thread_id c)
    (default [] (c_subject_encrypted c)) (js "inbox").

Definition shown_entries (v : View) : BM (list Entry) :=
  match members v with
  | [] => match rootContent v with
          | Some c => now ← TokenStore.now_iso; mret [root_entry v c now]
          | None => mret []
          end
  | l => mret l
  end.

Definition content_of (v : View) (e : Entry) : option Content :=
  if jeqb (e_id e) (rootMessageId v) then rootContent v else contents v !! e_id e.

Definition outcome_of (s : WebText.DecryptState) : DecryptOutcome :=
  match s with
  | WebText.readable | WebText.passthrough | WebText.outcome_ok => ok
  | WebText.error => error
  | WebText.no_key => no_key
  end.

Definition subject_of (e : Entry) (c : Content) (state : MessageVisibilityState) : BM jstr :=
  match state with
  | readable =>
    s ← (if truthy_str (e_subject_encrypted e)
         then WebText.decryptEnvelopeText (e_subject_encrypted e) (Some (encrypted_key c)) (Some (e_recipient_did e))
         else mret []);
    mret (if jeqb s WebText.ENCRYPTED_PLACEHOLDER then [] else s)
  | unavailable_on_this_device => mret (t (js "inbox.unavailableOnThisDeviceSubject"))
  | decrypt_failed => mret (t (js "inbox.decryptFailedSubject"))
  | decrypting => mret (t (js "inbox.decryptingSubject"))
  end.

Definition render_message (e : Entry) (c : Content) : BM RenderableMessage :=
  bodyResult ← WebText.decryptEnvelopeTextWithState (encrypted_content c) (Some (encrypted_key c)) (Some (e_recipient_did e));
  hasKey ← RecipientKeyring.hasRecipientPrivateKey (e_recipient_did e);
  let state := deriveMessageState {| recipientKeyHolder := unknown; localHasPrivateKey := hasKey;
                                     decryptOutcome := outcome_of (WebText.state bodyResult) |} in
  subject ← subject_of e c state;
  let parsed := parseProtocolBody (WebText.text bodyResult) (c_content_type c) in
  mret match state with
       | readable => Rendered e (body parsed) subject state (A2A.protocol parsed)
       | unavailable_on_this_device => Rendered e (t (js "inbox.unavailableOnThisDeviceCardBody")) subject state None
       | decrypt_failed => Rendered e (t (js "inbox.decryptFailedCardBody")) subject state None
       | decrypting => Rendered e (t (js "inbox.bodyLoading")) subject state None
       end.

(** The loop: entries whose content is not there are left out. *)
Fixpoint render_all (v : View) (l : list Entry) : BM (list RenderableMessage) :=
  match l with
  | [] => mret []
  | e :: r =>
    match content_of v e with
    | None => render_all v r
    | Some c => m ← render_message e c; ms ← render_all v r; mret (m :: ms)
    end
  end.

Definition render_effect (cancelled : bool) (v : View) : BM View :=
  l ← shown_entries v;
  next ← render_all v l;
  mret (if cancelled then v else set_rendered next v).

(** [rendered[0]?.subjectText ?? t("common.noSubject")]. *)
Definition threadSubject (v : View) : jstr :=
  match rendered v with m :: _ => subjectText m | [] => t (js "common.noSubject") end.

(** ** Replying to a protocol message *)

(** A summary: a key, with the time of an accepted candidate. *)
Definition summariseReply (reply : A2ARespondPayload) : res (jstr * option jstr) :=
  match rp_action reply with
  | RAccept =>
    match selected_candidate reply with
    | Some c =>
      if jtruthy c then
        start ← jprop c (js "start");
        Ok (js "a2a.acceptedAt", Some (js_string start ++ js " – " ++ js_string (jget c (js "end"))))
      else Ok (js "a2a.taskAcceptedSummary", None)
    | None => Ok (js "a2a.taskAcceptedSummary", None)
    end
  | RDecline => Ok (js "a2a.declinedBadge", None)
  | RCounter => Ok (js "a2a.counterBadge", None)
  | RComplete => Ok (js "a2a.taskCompletedSummary", None)
  end.

Definition reply_subject (subjectText : jstr) : jstr :=
  if starts_with (js "Re:") subjectText then subjectText
  else js "Re: " ++ (if truthy_str subjectText then subjectText else t (js "common.noSubject")).

(** [t2] translates a summary. *)
Definition handleProtocolRespond (t2 : jstr * option jstr -> jstr) (e : Entry) (rootId : jstr) (protocolType : A2AProtocolType)
    (originalProtocolId subjectText : jstr) (reply : A2ARespondPayload) (sendMessage : WebApi.SeedMessage -> BM unit) : BM unit :=
  summary ← lift (summariseReply reply);
  sendProtocolReply
    (SendInput protocolType reply (JStr (default rootId (e_thread_id e))) originalProtocolId (reply_subject subjectText)
       (t2 summary) (e_recipient_did e) (e_sender_did e) None) sendMessage.

(** The card of a block, and whether it may be answered. *)
Inductive Card := ScheduleCard (readOnly : bool) | TaskCard (readOnly : bool).
Definition route (folder : jstr) (block : A2AProtocolBlock) (now : Z) : Card :=
  let canRespond := canRespondToProtocol folder block now in
  match block_type block with
  | schedule_negotiation => ScheduleCard (negb canRespond)
  | task_delegation => TaskCard (negb canRespond)
  end.

End show.

(** ** Blocking the sender *)
Module Block.

Inductive BlockLevel := l1_did | l2_identity | l3_stealth.
Definition level_name (l : BlockLevel) : jstr :=
  match l with l1_did => js "l1_did" | l2_identity => js "l2_identity" | l3_stealth => js "l3_stealth" end.
Definition confirmKey (l : BlockLevel) : jstr :=
  match l with l1_did => js "inbox.blockConfirmL1" | l2_identity => js "inbox.blockConfirmL2" | l3_stealth => js "inbox.blockConfirmL3" end.
Definition successKey (l : BlockLevel) : jstr :=
  match l with l1_did => js "inbox.blockSuccessL1" | l2_identity => js "inbox.blockSuccessL2" | l3_stealth => js "inbox.blockSuccessL3" end.

(** The panel: the message it is open for, and the status with whether it is a
    success. *)
Record Panel := PanelOf { b_tab : Tab; blockOpenFor : option jstr; blockStatus : option (bool * jstr) }.

Abbreviation KM := (eff Panel).

Definition tab {A} (m : TM A) : KM A := fun p => let '(r, t') := m (b_tab p) in (r, PanelOf t' (blockOpenFor p) (blockStatus p)).
Definition setBlockStatus (s : option (bool * jstr)) : KM unit := fun p => (Ok tt, PanelOf (b_tab p) (blockOpenFor p) s).
Definition setBlockOpenFor (o : option jstr) : KM unit := fun p => (Ok tt, PanelOf (b_tab p) o (blockStatus p)).

Definition toggle (messageId : jstr) : KM unit :=
  fun p => (Ok tt, PanelOf (b_tab p) (if bool_decide (blockOpenFor p = Some messageId) then None else Some messageId) None).

Definition status_shown (p : Panel) : option (bool * jstr) :=
  match blockOpenFor p with None => blockStatus p | Some _ => None end.

Section block.
Context `{Host, Env, BrowserEnv, QueryClient}.

Definition is_unregistered (err : jserror) : bool := jeqb (err_name err) (err_name (WebApi.ApiError [] 422)).

Definition confirmAndBlock (messageId : jstr) (level : BlockLevel) (confirmed : bool) : KM unit :=
  if env_window && negb confirmed then mret tt
  else
    try_catch
      (tab (Logout.mutate_hook (Hooks.useBlockFromMessageMutation messageId (JObj [(js "level", JStr (level_name level))]))) ;;
       setBlockStatus (Some (true, successKey level)) ;;
       setBlockOpenFor None)
      (fun err => setBlockStatus (Some (false, if is_unregistered err then js "inbox.blockFailSenderNotRegistered"
                                               else js "inbox.blockFailGeneric"))).

End block.
End Block.

(** ** The restore button *)
Module RestoreButton.

(** [plaintext] with its expiry, and the pending timer's delay. *)
Record Button := ButtonOf {
  aid : option jstr; tokenPresent : option bool; plaintext : option (jstr * jstr * Z); busy : bool; error : option jstr
}.

Definition initial : Button := ButtonOf None None None false None.

Section button.
Context `{Host, WebCrypto, Env, BrowserEnv}.

(** The effect of the recipient: the agent it belongs to, and its pairing. *)
Definition resolve_effect (recipientDid : jstr) (b : Button) : BM Button :=
  let absent := ButtonOf None (Some false) (plaintext b) (busy b) (error b) in
  if negb (truthy_str recipientDid) then mret absent
  else
    try_catch
      (resolved ← WebApi.resolveRecipient WebApi.defaultApiClient recipientDid;
       a ← lift (s ← jprop resolved (js "aid"); as_string s);
       stored ← TokenStore.loadBridgeToken a;
       mret (ButtonOf (Some a) (Some (bool_decide (is_Some stored))) (plaintext b) (busy b) (error b)))
      (fun _ => mret absent).

Definition visible (b : Button) : bool :=
  truthy_ostr (aid b) && match tokenPresent b with Some true => true | _ => false end.

(** The delay of the timer that clears the plaintext. *)
Definition clear_delay (expiresAt now : Z) : Z := Z.max 0 (expiresAt - now).

Definition clear (b : Button) : Button := ButtonOf (aid b) (tokenPresent b) None (busy b) (error b).
Definition on_visibility (hidden : bool) (b : Button) : Button := if hidden then clear b else b.

(** The click: [Restore.runRestore], and what it leaves on the button. *)
Definition click (encryptedContent encryptedKey subjectEncrypted : jstr) (confirmed : bool) (b : Button) : BM Button :=
  outcome ← Restore.runRestore (aid b) encryptedContent encryptedKey subjectEncrypted confirmed;
  mret match outcome with
       | Restore.NothingDone => b
       | Restore.RestoreError m => ButtonOf (aid b) (tokenPresent b) (plaintext b) (busy b) (Some m)
       | Restore.Plaintext s c expires => ButtonOf (aid b) (tokenPresent b) (Some (s, c, expires)) false None
       end.

End button.
End RestoreButton.

End Thread.

(** * Lemmas *)

Import Thread.

Section ready.
Context `{Host, WebCrypto, !WebCryptoLaws, Env, !EnvLaws, BrowserEnv}.

(** The page's key ring holds the key of a did. *)
Definition ring_holds (b : Browser) (did : jstr) (priv : bytes) : Prop :=
  kr_migrated (b_recipient b) = true /\ kr_memory (b_recipient b) !! did = Some (PrivateKey X25519 priv).

Lemma ring_get b did priv : ring_holds b did priv -> RecipientKeyring.getRecipientPrivateKey did b = (Ok (Some (PrivateKey X25519 priv)), b).
Proof.
  intros [Hm Hk]. unfold RecipientKeyring.getRecipientPrivateKey, Ring.getPrivateKey.
  erewrite bind_ok by (by apply (ensureMigration_done RecipientRing)). erewrite bind_ok by reflexivity.
  change (ring RecipientRing b) with (b_recipient b). by rewrite Hk.
Qed.

Lemma ring_has b did priv : truthy_str did = true -> ring_holds b did priv -> RecipientKeyring.hasRecipientPrivateKey did b = (Ok true, b).
Proof.
  intros Ht Hr. unfold RecipientKeyring.hasRecipientPrivateKey, Ring.hasPrivateKey. rewrite Ht. cbn [negb].
  erewrite bind_ok by (by apply ring_get). done.
Qed.

Context `{Locale}.
Variable t : jstr -> jstr.

(** What an entry with a sealed content is shown as. *)
Definition shown_as (e : Entry) (c : Content) (subj text : jstr) : RenderableMessage :=
  Rendered e (body (parseProtocolBody text (c_content_type c))) subj readable (A2A.protocol (parseProtocolBody text (c_content_type c))).

(** The content is sealed for a recipient of this browser. *)
Definition readable_here (b : Browser) (e : Entry) (c : Content) (subj text : jstr) : Prop :=
  truthy_str (e_recipient_did e) = true /\ text_ok subj /\ text_ok text /\ subj <> WebText.ENCRYPTED_PLACEHOLDER /\
  exists priv, ring_holds b (e_recipient_did e) priv /\
    sealed subj text priv (encrypted_content c) (encrypted_key c) (e_subject_encrypted e).

Lemma render_message_ok b e c subj text :
  readable_here b e c subj text -> render_message t e c b = (Ok (shown_as e c subj text), b).
Proof.
  intros (Hd & Hs & Ht & Hp & priv & Hr & k & Hw & Ha & Hn & Hc & Hsu). unfold render_message.
  pose proof (ring_get _ _ _ Hr) as Hget.
  erewrite bind_ok by (eapply browser_opens; done). erewrite bind_ok by (by apply (ring_has _ _ priv)).
  cbn [WebText.state outcome_of deriveMessageState decryptOutcome WebText.text subject_of].
  assert (truthy_str (e_subject_encrypted e) = true) as -> by (destruct Hsu as (p & -> & _); apply serialize_truthy).
  erewrite bind_ok.
  2: { erewrite bind_ok; [reflexivity|]. unfold WebText.decryptEnvelopeText. erewrite bind_ok by (eapply browser_opens; done).
       cbn [WebText.state WebText.text]. rewrite bool_decide_eq_true_2 by done. reflexivity. }
  assert (jeqb subj WebText.ENCRYPTED_PLACEHOLDER = false) as -> by by apply jeqb_false. done.
Qed.

(** A list of entries whose contents are all here. *)
Lemma render_all_ok b v (told : Entry -> jstr * jstr) l :
  (forall e, e ∈ l -> exists c, content_of v e = Some c /\ readable_here b e c (told e).1 (told e).2) ->
  exists ms, render_all t v l b = (Ok ms, b) /\ map entry ms = l /\
    forall m, m ∈ ms -> exists c, content_of v (entry m) = Some c /\ m = shown_as (entry m) c (told (entry m)).1 (told (entry m)).2.
Proof.
  induction l as [|e l IH]; intros Hl; cbn [render_all]; [exists []; split_and!; [done..|set_solver]|].
  destruct (Hl e) as (c & Hc & Hr); [set_solver|]. rewrite Hc. erewrite bind_ok by by apply render_message_ok.
  destruct IH as (ms & E & Em & Hm); [intros e' He'; apply Hl; set_solver|]. erewrite bind_ok by exact E.
  eexists. split; [reflexivity|]. split; [cbn; by rewrite Em|]. intros m [->|Hin]%elem_of_cons; [by exists c|by apply Hm].
Qed.

End ready.


(** A thread of two messages for one agent. *)
Definition note_to (i : jstr) (when subj : jstr) : Entry :=
  EntryOf i when (js "did:key:zA") None (js "did:key:zB") (Some (js "t1")) subj (js "inbox").


(** ** A content that cannot be fetched *)

(** The effect, run again as long as it leaves a new record of contents. *)
Fixpoint rounds `{Locale} (fetch : jstr -> BM Content) (n : nat) (v : View) : BM View :=
  match n with
  | O => mret v
  | S n => r ← fetch_effect fetch v; match r with None => mret v | Some v' => rounds fetch n v' end
  end.

(** It is asked for again and again: the effect never comes to rest. *)
Lemma failed_content_refetched `{Locale} (fetch : jstr -> BM Content) v m ev err n b :
  missing v = [m] -> (forall b, fetch (e_id m) b = (Throw err, noted ev b)) ->
  exists b', rounds fetch n v b = (Ok v, b') /\ w_trace (b_node b') = replicate n ev ++ w_trace (b_node b).
Proof.
  intros Hm Hf. revert b. induction n as [|n IH]; intros b; [by exists b|]. cbn [rounds].
  destruct (IH (noted ev b)) as (b' & E & T). exists b'.
  assert (fetch_effect fetch v b = (Ok (Some v), noted ev b)) as E1.
  { unfold fetch_effect. rewrite Hm. cbn [eff_map]. unfold try_catch, mbind, eff_bind. rewrite Hf. by destruct v. }
  split; [by erewrite bind_ok by exact E1|]. rewrite T. change (w_trace (b_node (noted ev b))) with (ev :: w_trace (b_node b)).
  change (ev :: w_trace (b_node b)) with ([ev] ++ w_trace (b_node b)). rewrite app_assoc.
  change (replicate (S n) ev) with ([ev] ++ replicate n ev). f_equal. clear. induction n as [|n IH]; [done|]. cbn in *. by rewrite IH.
Qed.

(** [getMessageContent] of a server that is out of reach. *)
Lemma content_out_of_reach `{Host, Env, BrowserEnv} (read : jval -> Content) i eid err b :
  encodeURIComponent i = Ok eid ->
  let rq := HttpRequest (js "GET") (WebApi.DEFAULT_BASE_URL ++ js "/messages/" ++ eid ++ js "/content")
              [(js "Content-Type", js "application/json")] NoBody in
  (forall h, env_fetch h rq = Throw err) ->
  (v ← WebApi.getMessageContent WebApi.defaultApiClient i; mret (read v)) b = (Throw err, noted (EvFetch rq) b).
Proof.
  intros He rq Hf. unfold WebApi.getMessageContent, WebApi.get, WebApi.request, web_fetch, host, ask, lift, mbind, eff_bind.
  rewrite He. cbn. by rewrite Hf.
Qed.

(** The status of a failed block is hidden by the panel it leaves open. *)
Example failed_block_not_shown :
  let _ := plain_host in let _ := open_browser in let _ := plain_client in
  let _ := answering_env (fun _ _ => Ok (HttpResponse 422 (js "{}"))) (fun _ _ _ => Ok JUndef) in
  let p := Block.PanelOf paired_tab (Some (js "m1")) None in
  let '(_, p') := Block.confirmAndBlock (js "m1") Block.l2_identity true p in
  Block.blockStatus p' = Some (false, js "inbox.blockFailSenderNotRegistered") /\ Block.status_shown p' = None.
Proof. vm_compute. by split. Qed.
