(* ===== verification/I18n.v ===== *)
(** The texts of the user interface: apps/web/lib/i18n/index.ts.

    The two dictionaries (the files of lib/i18n/locales) are arguments.  The
    parameters of a text are an association list; [inherited_text] is
    [String(vars[k])] for a [k] that [vars] inherits.  The browser is that of
    Browser.v: a page keeps the language in its state and the browser keeps the
    choice in localStorage. *)
From S2P Require Import Prelude JsNumber Json Effect Node Browser AutoReply WebKeystore Bridge BridgeSpec.

(** A value of [vars]: a string or a number. *)
Inductive Var := VStr (s : jstr) | VNum (n : jnum).
Definition var_string (v : Var) : jstr := match v with VStr s => s | VNum n => num_to_string n end.

Fixpoint var_get (k : jstr) (vars : list (jstr * Var)) : option Var :=
  match vars with
  | [] => None
  | (k', v) :: r => if jeqb k k' then Some v else var_get k r
  end.

Module I18n.

Definition STORAGE_KEY : jstr := js "nexusinbox-locale".

(** ** resolve *)

(** [cur[p]] of an object or an array, as far as it can lead to a string: the
    members its prototype gives it have no string in them. *)
Definition member (cur : jval) (p : jstr) : jval :=
  match cur with
  | JObj o => default JUndef (obj_get p o)
  | JArr l => default JUndef ((fun ix => ix.2) <$> List.find (fun ix => jeqb (dec_of_nonneg (Z.of_nat ix.1)) p) (imap pair l))
  | _ => JUndef
  end.

Fixpoint resolve_parts (parts : list jstr) (cur : jval) : option jval :=
  match parts with
  | [] => Some cur
  | p :: r => if is_object cur then resolve_parts r (member cur p) else None
  end.

Definition resolve (key : jstr) (obj : jval) : option jstr :=
  match resolve_parts (split_on 46 key) obj with Some (JStr s) => Some s | _ => None end.

(** ** interpolate *)

(** [\w]. *)
Definition is_word (c : Z) : bool :=
  is_digit c || ((65 <=? c) && (c <=? 90)) || ((97 <=? c) && (c <=? 122)) || (c =? 95).

(** A match of [/\{(\w+)\}/] at the head of the text: its name, and the rest. *)
Definition placeholder (s : jstr) : option (jstr * jstr) :=
  match s with
  | 123 :: r =>
    match span is_word r with
    | ((_ :: _) as k, 125 :: rest) => Some (k, rest)
    | _ => None
    end
  | _ => None
  end.

(** [template.replace(/\{(\w+)\}/g, f)]; every step shortens the text. *)
Fixpoint replace_placeholders (fuel : nat) (f : jstr -> jstr) (s : jstr) : jstr :=
  match fuel with
  | O => s
  | S fuel =>
    match s with
    | [] => []
    | c :: r =>
      match placeholder s with
      | Some (k, rest) => f k ++ replace_placeholders fuel f rest
      | None => c :: replace_placeholders fuel f r
      end
    end
  end.

Definition replace_all (f : jstr -> jstr) (s : jstr) : jstr := replace_placeholders (length s) f s.

Section texts.
Variable inherited_text : jstr -> jstr.

Definition var_text (vars : list (jstr * Var)) (k : jstr) : jstr :=
  match var_get k vars with
  | Some v => var_string v
  | None => if bool_decide (k ∈ object_prototype_keys) then inherited_text k else 123 :: k ++ [125]
  end.

Definition interpolate (template : jstr) (vars : option (list (jstr * Var))) : jstr :=
  match vars with
  | None => template
  | Some vars => replace_all (var_text vars) template
  end.

(** ** The provider *)

Variables (dict_en dict_ja : jval).

(** [translations[l]]; no key resolves in what the object inherits. *)
Definition translations (l : jstr) : option jval :=
  if jeqb l (js "en") then Some dict_en
  else if jeqb l (js "ja") then Some dict_ja
  else if bool_decide (l ∈ object_prototype_keys) then Some (JObj [])
  else None.

Definition t (locale key : jstr) (vars : option (list (jstr * Var))) : jstr :=
  match resolve key (default JUndef (translations locale)) with
  | Some val => interpolate val vars
  | None =>
    match resolve key dict_en with
    | Some fallback => interpolate fallback vars
    | None => key
    end
  end.

(** The page: its browser and the language in the provider's state. *)
Record Page := PageOf { browser : Browser; locale : jstr }.
Abbreviation PM := (eff Page).

Definition in_browser_ {A} (m : BM A) : PM A := fun p => let '(r, b) := m (browser p) in (r, PageOf b (locale p)).
Definition setLocaleState (l : jstr) : PM unit := fun p => (Ok tt, PageOf (browser p) l).

Definition opened (b : Browser) : Page := PageOf b (js "en").

Section provider.
Context `{BrowserEnv}.

(** The effect of the first render. *)
Definition hydrate : PM unit :=
  try_catch
    (stored ← in_browser_ (storage_getItem LocalStorage STORAGE_KEY);
     match stored with
     | Some ((_ :: _) as s) => if match translations s with Some d => jtruthy d | None => false end then setLocaleState s else mret tt
     | _ => mret tt
     end)
    (fun _ => mret tt).

Definition setLocale (l : jstr) : PM unit :=
  setLocaleState l ;;
  try_catch (in_browser_ (storage_setItem LocalStorage STORAGE_KEY l)) (fun _ => mret tt).

(** LanguageSwitcher.tsx: the other language, and the texts of its button. *)
Definition other_language (l : jstr) : jstr := if jeqb l (js "en") then js "ja" else js "en".
Definition toggle (rendered : Page) : PM unit := setLocale (other_language (locale rendered)).
Definition switcher_texts (l : jstr) : jstr * jstr * jstr :=
  if jeqb l (js "en") then (js "日本語に切り替え", js "日本語", js "JP") else (js "Switch to English", js "English", js "EN").

End provider.
End texts.
End I18n.

(** * Lemmas *)

(** ** Templates *)

(** A template as its author reads it: text without an opening brace, and
    placeholders. *)
Inductive Segment := Text (s : jstr) | Hole (k : jstr).
Definition segment_ok (g : Segment) : Prop :=
  match g with
  | Text s => 123 ∉ s
  | Hole k => k <> [] /\ Forall (fun c => I18n.is_word c = true) k
  end.
#[global] Instance segment_ok_dec g : base.Decision (segment_ok g).
Proof. destruct g; apply _. Defined.

Definition print_segment (g : Segment) : jstr := match g with Text s => s | Hole k => 123 :: k ++ [125] end.
Definition print_template (l : list Segment) : jstr := flat_map print_segment l.
Definition fill_segment (f : jstr -> jstr) (g : Segment) : jstr := match g with Text s => s | Hole k => f k end.
Definition fill (f : jstr -> jstr) (l : list Segment) : jstr := flat_map (fill_segment f) l.

Lemma placeholder_hole k r :
  k <> [] -> Forall (fun c => I18n.is_word c = true) k -> I18n.placeholder (123 :: k ++ 125 :: r) = Some (k, r).
Proof. intros Hk Hw. unfold I18n.placeholder. rewrite span_all by done. by destruct k. Qed.

Lemma placeholder_text c r : c <> 123 -> I18n.placeholder (c :: r) = None.
Proof. intros Hc. unfold I18n.placeholder. repeat case_match; congruence. Qed.

Lemma span_app p s a b : span p s = (a, b) -> s = a ++ b.
Proof.
  revert a b. induction s as [|c s IH]; intros a b; simpl; [by intros [= <- <-]|].
  destruct (p c); [|by intros [= <- <-]]. destruct (span p s) as [x y] eqn:E.
  intros [= <- <-]. simpl. f_equal. by apply IH.
Qed.

Lemma placeholder_shorter s k r : I18n.placeholder s = Some (k, r) -> (length r < length s)%nat.
Proof.
  unfold I18n.placeholder. destruct s as [|c s]; [done|].
  destruct (decide (c = 123)) as [-> |Hc]; [|intros E; exfalso; revert E; repeat case_match; congruence].
  destruct (span _ s) as [a b] eqn:E. apply span_app in E. subst s.
  destruct a as [|x a]; [done|]. destruct b as [|d b]; [done|].
  destruct (decide (d = 125)) as [-> |Hd]; [|intros E; exfalso; revert E; repeat case_match; congruence].
  intros [= <- <-]. rewrite length_cons, length_app. simpl. lia.
Qed.

(** The fuel of [replace_all] is enough. *)
Lemma replace_fuel f n m s : (length s <= n)%nat -> (length s <= m)%nat ->
  I18n.replace_placeholders n f s = I18n.replace_placeholders m f s.
Proof.
  revert m s. induction n as [|n IH]; intros m s Hn Hm.
  { destruct s; [by destruct m|simpl in Hn; lia]. }
  destruct m as [|m]; [destruct s; [done|simpl in Hm; lia]|].
  destruct s as [|c r]; [done|]. cbn [I18n.replace_placeholders].
  destruct (I18n.placeholder _) as [[k rest]|] eqn:E; simpl in Hn, Hm.
  - apply placeholder_shorter in E. simpl in E. f_equal. apply IH; lia.
  - f_equal. apply IH; lia.
Qed.

Lemma replace_all_nil f : I18n.replace_all f [] = [].
Proof. done. Qed.

Lemma replace_all_hole f k r : k <> [] -> Forall (fun c => I18n.is_word c = true) k ->
  I18n.replace_all f (123 :: k ++ 125 :: r) = f k ++ I18n.replace_all f r.
Proof.
  intros Hk Hw. unfold I18n.replace_all. rewrite length_cons. cbn [I18n.replace_placeholders].
  rewrite placeholder_hole by done. f_equal. apply replace_fuel; [|lia]. rewrite length_app. simpl. lia.
Qed.

Lemma replace_all_text f c r : c <> 123 -> I18n.replace_all f (c :: r) = c :: I18n.replace_all f r.
Proof. intros Hc. unfold I18n.replace_all. rewrite length_cons. cbn [I18n.replace_placeholders]. by rewrite placeholder_text. Qed.

(** Interpolation fills the holes of a template, each once: braces in the
    values are never read as holes. *)
Lemma interpolate_fills f l : Forall segment_ok l -> I18n.replace_all f (print_template l) = fill f l.
Proof.
  induction 1 as [|g l Hg _ IH]; [done|]. cbn [print_template fill flat_map].
  fold (print_template l). fold (fill f l). destruct g as [s|k]; cbn [print_segment fill_segment segment_ok] in *.
  - induction s as [|c s IHs]; [done|]. cbn [app].
    rewrite replace_all_text by (intros ->; apply Hg; left). f_equal. apply IHs. intros Hs. apply Hg. by right.
  - destruct Hg as [Hk Hw]. replace ((123 :: k ++ [125]) ++ print_template l) with (123 :: k ++ 125 :: print_template l)
      by (cbn; by rewrite <- app_assoc). rewrite replace_all_hole by done. by rewrite IH.
Qed.

Lemma interpolate_template inh vars l :
  Forall segment_ok l -> I18n.interpolate inh (print_template l) (Some vars) = fill (I18n.var_text inh vars) l.
Proof. apply interpolate_fills. Qed.

(** ** The language of a page *)

(** What the text of a key should be in a language: the template of that
    language, else the English one, filled; else the key. *)
Definition shown_text (inh : jstr -> jstr) (dict dict_en : jval) (key : jstr) (vars : list (jstr * Var)) (s : jstr) : Prop :=
  (forall l, I18n.resolve key dict = Some (print_template l) -> Forall segment_ok l -> s = fill (I18n.var_text inh vars) l) /\
  (I18n.resolve key dict = None ->
    forall l, I18n.resolve key dict_en = Some (print_template l) -> Forall segment_ok l -> s = fill (I18n.var_text inh vars) l) /\
  (I18n.resolve key dict = None -> I18n.resolve key dict_en = None -> s = key).

Lemma t_shows inh dict_en dict_ja l key vars :
  shown_text inh (default JUndef (I18n.translations dict_en dict_ja l)) dict_en key vars (I18n.t inh dict_en dict_ja l key (Some vars)).
Proof.
  unfold I18n.t. set (dict := default _ _). split_and!.
  - intros segs -> Hs. by apply interpolate_template.
  - intros -> segs -> Hs. by apply interpolate_template.
  - by intros -> ->.
Qed.

(** Whatever the browser answers, choosing a language does not fail, and this
    page speaks it. *)
Lemma setLocale_here `{BrowserEnv} l p : exists p', I18n.setLocale l p = (Ok tt, p') /\ I18n.locale p' = l.
Proof.
  unfold I18n.setLocale, mbind, eff_bind, I18n.setLocaleState, try_catch, I18n.in_browser_. cbn.
  destruct (storage_setItem _ _ _ _) as [[[]|e] b]; cbn; by eexists.
Qed.

Section kept.
Context `{BrowserEnv, !NeverRefuses}.

Lemma setLocale_stores l p :
  exists b, I18n.setLocale l p = (Ok tt, I18n.PageOf b l) /\ b_local b !! I18n.STORAGE_KEY = Some l.
Proof.
  destruct (setItem_ok LocalStorage I18n.STORAGE_KEY l (I18n.browser p)) as (b & E & _ & A & _).
  exists b. split; [|change (b_local b) with (area LocalStorage b); rewrite A; apply lookup_insert_eq].
  unfold I18n.setLocale, mbind, eff_bind, I18n.setLocaleState, try_catch, I18n.in_browser_. cbn. by rewrite E.
Qed.

Lemma hydrate_loads dict_en dict_ja b l d :
  b_local b !! I18n.STORAGE_KEY = Some l -> truthy_str l = true ->
  I18n.translations dict_en dict_ja l = Some d -> jtruthy d = true ->
  exists p, I18n.hydrate dict_en dict_ja (I18n.opened b) = (Ok tt, p) /\ I18n.locale p = l.
Proof.
  intros Hl Ht Hd Hj. unfold I18n.hydrate, try_catch, mbind, eff_bind, I18n.in_browser_. cbn [I18n.opened I18n.browser].
  rewrite getItem_ok. cbn [area]. rewrite Hl. destruct l as [|c r]; [done|]. rewrite Hd, Hj. by eexists.
Qed.

(** The language chosen with the switcher.  The page speaks the other language
    from then on, and so does every page opened later in the browser: a key's
    text is the template of that language with each hole filled once by its
    parameter (braces in a parameter are left alone, holes without a parameter
    stay), the English template when that language has none, and the key itself
    when neither has one. *)
Theorem chosen_language_shown inh dict_en dict_ja (p : I18n.Page) key vars :
  is_object dict_en = true -> is_object dict_ja = true ->
  exists p' later,
    I18n.toggle p p = (Ok tt, p') /\
    I18n.hydrate dict_en dict_ja (I18n.opened (reload (I18n.browser p'))) = (Ok tt, later) /\
    I18n.locale p' = I18n.locale later /\ I18n.locale p' <> I18n.locale p /\
    let dict := if jeqb (I18n.locale p) (js "en") then dict_ja else dict_en in
    shown_text inh dict dict_en key vars (I18n.t inh dict_en dict_ja (I18n.locale p') key (Some vars)) /\
    shown_text inh dict dict_en key vars (I18n.t inh dict_en dict_ja (I18n.locale later) key (Some vars)).
Proof.
  intros He Hj. unfold I18n.toggle. destruct (setLocale_stores (I18n.other_language (I18n.locale p)) p) as (b & E & S).
  set (l := I18n.other_language _) in *.
  assert (exists d, I18n.translations dict_en dict_ja l = Some d /\ jtruthy d = true /\ truthy_str l = true /\ l <> I18n.locale p /\
            d = if jeqb (I18n.locale p) (js "en") then dict_ja else dict_en) as (d & Hd & Ht & Hl & Hn & ->).
  { unfold l, I18n.other_language. destruct (jeqb_spec (I18n.locale p) (js "en")) as [-> | Hne].
    - exists dict_ja. split_and!; [done|by destruct dict_ja|done|done|done].
    - exists dict_en. split_and!; [done|by destruct dict_en|done|congruence|done]. }
  destruct (hydrate_loads dict_en dict_ja (reload b) l _ S Hl Hd Ht) as (later & E2 & L2).
  exists (I18n.PageOf b l), later. split_and!; [done|exact E2|done|done| |].
  - cbn [I18n.locale]. pose proof (t_shows inh dict_en dict_ja l key vars) as T. by rewrite Hd in T.
  - rewrite L2. pose proof (t_shows inh dict_en dict_ja l key vars) as T. by rewrite Hd in T.
Qed.
End kept.

(** A word of two small dictionaries. *)
Definition greeting (s : string) : jval := JObj [(js "home", JObj [(js "hello", JStr (js s))])].

Example chosen_language_shown_witness :
  let _ := open_browser in
  exists p' later,
    I18n.toggle (I18n.opened new_profile) (I18n.opened new_profile) = (Ok tt, p') /\
    I18n.hydrate (greeting "Hello {name}") (greeting "{name}-san") (I18n.opened (reload (I18n.browser p'))) = (Ok tt, later) /\
    I18n.t id (greeting "Hello {name}") (greeting "{name}-san") (I18n.locale later) (js "home.hello") (Some [(js "name", VStr (js "{x}"))]) = js "{x}-san".
Proof.
  intros env.
  destruct (chosen_language_shown id (greeting "Hello {name}") (greeting "{name}-san") (I18n.opened new_profile)
    (js "home.hello") [(js "name", VStr (js "{x}"))] eq_refl eq_refl) as (p' & later & E1 & E2 & _ & _ & _ & T & _).
  exists p', later. split_and!; [exact E1|exact E2|].
  rewrite (T [Hole (js "name"); Text (js "-san")]); [reflexivity|reflexivity|].
  apply (bool_decide_eq_true_1 _). by vm_compute.
Defined.

(** A key that no dictionary has is shown itself: the label of the mobile
    page's back button, [nav.back], is no key of the dictionaries. *)
Example missing_key_shown :
  I18n.t id (greeting "Hello") (greeting "やあ") (js "ja") (js "nav.back") None = js "nav.back".
Proof. reflexivity. Qed.
