(* ===== verification/Shell.v ===== *)
(** The frame around the pages: the resizable column
    (apps/web/lib/ui/useTwoColumnResize.ts), the sidebar, title and drawer
    (apps/web/app/_components/AppShell.tsx) and the page that leads to the first
    agent (apps/web/app/agent/page.tsx).

    A pointer position is a whole number of pixels.  [toUpperCase] is the
    argument [upper]. *)
From S2P Require Import Prelude JsNumber Json Effect Node ApiClient Browser WebKeystore Bridge BridgeSpec Views.

(** ** useTwoColumnResize.ts *)
Module TwoColumn.

Record Options := OptionsOf { storageKey : jstr; initialWidth : Z; min : Z; max : Z; readerMinWidth : Z }.

(** The defaults of an option that is not given. *)
Definition with_defaults (key : jstr) (initial mn mx reader : option Z) : Options :=
  OptionsOf key (default 360 initial) (default 220 mn) (default 800 mx) (default 540 reader).

(** [Number.parseInt(s, 10)]: [None] is [NaN]. *)
Definition parse_int (s : jstr) : option Z :=
  let s := drop_while is_js_space s in
  let '(neg, r) := match s with 45 :: r => (true, r) | 43 :: r => (false, r) | _ => (false, s) end in
  match span is_digit r with
  | ([], _) => None
  | (ds, _) => Some (if neg then - digits_value 0 ds else digits_value 0 ds)
  end.

(** The component: its state, the listeners of the presses that have not been
    released (where each started, and the width then) and the cursor. *)
Record Column := ColumnOf { browser : Browser; threadWidth : Z; drags : list (Z * Z); cursor : jstr }.

Abbreviation CM := (eff Column).

Definition in_browser_ {A} (m : BM A) : CM A :=
  fun c => let '(r, b) := m (browser c) in (r, ColumnOf b (threadWidth c) (drags c) (cursor c)).
Definition setThreadWidth (w : Z) : CM unit := fun c => (Ok tt, ColumnOf (browser c) w (drags c) (cursor c)).

Section column.
Context `{BrowserEnv}.
Variable o : Options.

Definition clamp (w : Z) : Z := Z.max (min o) (Z.min (max o) w).

(** The first effect.  A number of more digits than a double holds is not
    finite; any other large number is clamped. *)
Definition hydrate : CM unit :=
  if negb env_window then mret tt
  else
    raw ← in_browser_ (storage_getItem LocalStorage (storageKey o));
    match raw with
    | None | Some [] => mret tt
    | Some raw =>
      match parse_int raw with
      | Some parsed => if num_is_finite (round64 (parsed # 1)) then setThreadWidth (clamp parsed) else mret tt
      | None => mret tt
      end
    end.

(** The second effect, of a render with this width. *)
Definition persist (width : Z) : CM unit :=
  if negb env_window then mret tt
  else in_browser_ (storage_setItem LocalStorage (storageKey o) (dec_of_Z width)).

(** The render that follows a change of the state. *)
Definition rerender (before : Z) : CM unit :=
  c ← get_state; if threadWidth c =? before then mret tt else persist (threadWidth c).

Definition initial (b : Browser) : Column := ColumnOf b (initialWidth o) [] [].

(** Both effects of the first render, which closed over the initial width. *)
Definition mount : CM unit := hydrate ;; persist (initialWidth o) ;; rerender (initialWidth o).

Inductive Pointer := Down (clientX : Z) | Move (clientX : Z) | Up.

Definition startResize (width clientX : Z) : CM unit :=
  fun c => (Ok tt, ColumnOf (browser c) (threadWidth c) (drags c ++ [(clientX, width)]) (js "col-resize")).

(** Every listener hears of the move, in the order they were added. *)
Definition onMouseMove (clientX : Z) : CM unit :=
  fun c => (Ok tt, ColumnOf (browser c)
    (fold_left (fun _ d => clamp (d.2 + (clientX - d.1))) (drags c) (threadWidth c)) (drags c) (cursor c)).

Definition onMouseUp : CM unit :=
  fun c => (Ok tt, match drags c with [] => c | _ => ColumnOf (browser c) (threadWidth c) [] [] end).

Definition step (e : Pointer) : CM unit :=
  c ← get_state;
  match e with
  | Down x => startResize (threadWidth c) x
  | Move x => onMouseMove x ;; rerender (threadWidth c)
  | Up => onMouseUp
  end.

Definition layoutStyle (width : Z) : jstr :=
  dec_of_Z width ++ js "px 4px minmax(" ++ dec_of_Z (readerMinWidth o) ++ js "px, 1fr)".

End column.
End TwoColumn.

(** ** AppShell.tsx *)
Module AppShell.

Inductive CountKey := inboxUnread | agents | pending.
#[global] Instance CountKey_eq_dec : EqDecision CountKey.
Proof. solve_decision. Defined.

(** An entry, without its icon. *)
Record MailboxItem := Item { href : jstr; labelKey : jstr; countKey : option CountKey }.
Record MailboxSection := Section_ { section_id : jstr; titleKey : jstr; items : list MailboxItem }.

Definition mailItems : list MailboxItem :=
  [Item (js "/") (js "nav.inbox") (Some inboxUnread);
   Item (js "/?view=starred") (js "nav.starred") None;
   Item (js "/?view=sent") (js "nav.sent") None;
   Item (js "/?view=drafts") (js "nav.drafts") None;
   Item (js "/?view=all") (js "nav.allMail") None;
   Item (js "/?view=spam") (js "nav.spam") None;
   Item (js "/?view=trash") (js "nav.trash") None].

Definition workflowItems : list MailboxItem :=
  [Item (js "/agent") (js "nav.byAgent") (Some agents);
   Item (js "/pending") (js "nav.pending") (Some pending)].

Definition settingsItems : list MailboxItem :=
  [Item (js "/contacts") (js "nav.contacts") None;
   Item (js "/settings/blocks") (js "nav.blocks") None;
   Item (js "/settings/agents") (js "nav.agentSettings") None;
   Item (js "/settings/agents/new") (js "nav.createAgent") None;
   Item (js "/settings/audit") (js "nav.auditLog") None].

Definition mailboxSections : list MailboxSection :=
  [Section_ (js "mail") (js "nav.mail") mailItems;
   Section_ (js "workflow") (js "nav.workflow") workflowItems;
   Section_ (js "settings") (js "nav.settings") settingsItems].

Definition avatarInitial (upper : jstr -> jstr) (source : option jstr) (fallback : jstr) : jstr :=
  match source with
  | None | Some [] => fallback
  | Some s => match trim s with [] => fallback | c :: _ => upper [c] end
  end.

(** The effect that sets the title of the tab. *)
Definition document_title (title : jstr) : jstr :=
  if truthy_str title then title ++ js " · " ++ js "NexusInbox" else js "NexusInbox".

(** What the queries and the session have brought. *)
Record Data := DataOf {
  unread_total : option Z; agent_dids : option (list jstr); pending_total : option Z;
  display_name : option jstr; user_id : option jstr
}.

Definition counts (d : Data) (k : CountKey) : option Z :=
  match k with
  | inboxUnread => unread_total d
  | agents => (fun l => Z.of_nat (length l)) <$> agent_dids d
  | pending => pending_total d
  end.

Definition firstAgentDid (d : Data) : option jstr := match agent_dids d with Some (did :: _) => Some did | _ => None end.

Definition byAgentHref (d : Data) : res jstr :=
  match firstAgentDid d with
  | Some ((_ :: _) as did) => enc ← encodeURIComponent did; Ok (js "/agent/" ++ enc)
  | _ => Ok (js "/agent")
  end.

Definition avatarLabel (upper : jstr -> jstr) (d : Data) : jstr :=
  avatarInitial upper (match display_name d with Some n => Some n | None => user_id d end) (js "?").

Definition allHrefs : list jstr := flat_map (fun s => map href (items s)) mailboxSections.

Definition leads_to (activePath h : jstr) : bool := jeqb activePath h || starts_with (h ++ [47]) activePath.

Definition longest_first (a b : jstr) : Z := Z.of_nat (length b) - Z.of_nat (length a).

Definition activeHref (activePath : jstr) : option jstr :=
  head (sort longest_first (List.filter (leads_to activePath) allHrefs)).

(** A rendered entry: whether it is highlighted, the count beside it and where
    it leads. *)
Record Rendered := RenderedOf { r_active : bool; r_count : option Z; r_href : jstr; r_label : jstr }.

Definition render_item (d : Data) (activePath : jstr) (i : MailboxItem) : res Rendered :=
  byAgent ← byAgentHref d;
  let liveCount := match countKey i with Some k => counts d k | None => None end in
  Ok (RenderedOf (bool_decide (Some (href i) = activeHref activePath))
        (match liveCount with Some n => if 0 <? n then Some n else None | None => None end)
        (if jeqb (href i) (js "/agent") then byAgent else href i) (labelKey i)).

(** ** The drawer of narrow screens

    [saved] is the [previous] of the last run of the scroll effect. *)
Record Drawer := DrawerOf { mobileNavOpen : bool; overflow : jstr; saved : jstr; listening : bool }.

(** What the three effects do when the drawer opens or closes. *)
Definition scroll_effect (open : bool) (overflow_ : jstr) : jstr := if open then js "hidden" else overflow_.

Definition opened (overflow_ : jstr) : Drawer := DrawerOf false (scroll_effect false overflow_) overflow_ false.

Definition setMobileNavOpen (open : bool) (s : Drawer) : Drawer :=
  if Bool.eqb open (mobileNavOpen s) then s
  else
    let cleaned := saved s in
    DrawerOf open (scroll_effect open cleaned) cleaned open.

Inductive DrawerEvent := Hamburger | Backdrop | RouteChange | Key (key : jstr).

Definition drawer_step (s : Drawer) (e : DrawerEvent) : Drawer :=
  match e with
  | Hamburger => setMobileNavOpen (negb (mobileNavOpen s)) s
  | Backdrop => if mobileNavOpen s then setMobileNavOpen false s else s
  | RouteChange => setMobileNavOpen false s
  | Key key => if listening s && jeqb key (js "Escape") then setMobileNavOpen false s else s
  end.

(** The clean-up of the last scroll effect. *)
Definition unmount (s : Drawer) : jstr := saved s.

End AppShell.

(** ** agent/page.tsx *)
Module AgentIndex.

Inductive View := Blank | Failed | NoAgents.

(** Where the effect leads, and what is shown meanwhile. *)
Definition redirect_effect (isPending : bool) (dids : option (list jstr)) : res (option jstr) :=
  if isPending then Ok None
  else match dids with
  | Some (((_ :: _) as did) :: _) => enc ← encodeURIComponent did; Ok (Some (js "/agent/" ++ enc))
  | _ => Ok None
  end.

Definition view (isPending isError : bool) (dids : option (list jstr)) : View :=
  if isPending then Blank
  else if isError then Failed
  else match default [] dids with [] => NoAgents | _ => Blank end.

End AgentIndex.

(** * Lemmas *)

(** ** The column *)

Lemma parse_int_dec z : TwoColumn.parse_int (dec_of_Z z) = Some z.
Proof.
  assert (forall n, 0 <= n -> exists c r, dec_of_nonneg n = c :: r /\ 48 <= c <= 57) as Hh.
  { intros n Hn. destruct (Z.eq_dec n 0) as [-> | Hne]; [by eexists _, _|].
    destruct (dec_of_nonneg_head n) as (c & r & -> & Hc); [lia|]. exists c, r. split; [done|lia]. }
  assert (forall n, 0 <= n -> match span is_digit (dec_of_nonneg n) with ([], _) => None | (ds, _) => Some (digits_value 0 ds) end = Some n) as Hv.
  { intros n Hn. rewrite span_all_nil by by apply dec_of_nonneg_digits.
    destruct (Hh n Hn) as (c & r & E & _). pose proof (dec_of_nonneg_value n Hn) as V. rewrite E in *. by rewrite V. }
  unfold TwoColumn.parse_int, dec_of_Z. destruct (Z.ltb_spec z 0) as [Hz|Hz].
  - rewrite drop_while_none by done. specialize (Hv (- z) ltac:(lia)).
    destruct (span _ _) as [[|d ds] rest]; [done|]. assert (digits_value 0 (d :: ds) = - z) as -> by congruence. f_equal. lia.
  - destruct (Hh z Hz) as (c & r & E & Hc).
    assert (is_js_space c = false) as Hs.
    { unfold is_js_space. repeat (apply orb_false_iff; split); try apply andb_false_iff; lia. }
    specialize (Hv z Hz). rewrite E in *. rewrite drop_while_none by done.
    destruct (decide (c = 45)); [lia|]. destruct (decide (c = 43)); [lia|].
    repeat (case_match; simplify_eq; try lia); done.
Qed.

Section column.
Context `{BrowserEnv, !NeverRefuses}.
Variable o : TwoColumn.Options.

(** The options make sense: the pages use 220 to 800. *)
Definition sane_options : Prop :=
  TwoColumn.min o <= TwoColumn.initialWidth o <= TwoColumn.max o /\ safe_int (TwoColumn.min o) /\ safe_int (TwoColumn.max o).

(** Between two events: the width is in its bounds and is the stored one. *)
Record settled (c : TwoColumn.Column) : Prop := {
  width_bounds : TwoColumn.min o <= TwoColumn.threadWidth c <= TwoColumn.max o;
  width_stored : b_local (TwoColumn.browser c) !! TwoColumn.storageKey o = Some (dec_of_Z (TwoColumn.threadWidth c))
}.

Lemma window_here : env_window = true.
Proof. pose proof in_browser as E. unfold isBrowser in E. by apply andb_true_iff in E as [? _]. Qed.

Lemma persist_ok w c : exists b, TwoColumn.persist o w c = (Ok tt, TwoColumn.ColumnOf b (TwoColumn.threadWidth c) (TwoColumn.drags c) (TwoColumn.cursor c)) /\
  b_local b = <[TwoColumn.storageKey o := dec_of_Z w]> (b_local (TwoColumn.browser c)).
Proof.
  destruct (setItem_ok LocalStorage (TwoColumn.storageKey o) (dec_of_Z w) (TwoColumn.browser c)) as (b & E & _ & A & _).
  exists b. split; [|exact A]. unfold TwoColumn.persist. rewrite window_here. cbn [negb]. unfold TwoColumn.in_browser_. by rewrite E.
Qed.

Lemma rerender_settles before c :
  TwoColumn.min o <= TwoColumn.threadWidth c <= TwoColumn.max o ->
  (before = TwoColumn.threadWidth c -> b_local (TwoColumn.browser c) !! TwoColumn.storageKey o = Some (dec_of_Z before)) ->
  exists c', TwoColumn.rerender o before c = (Ok tt, c') /\ settled c' /\ TwoColumn.threadWidth c' = TwoColumn.threadWidth c /\
    TwoColumn.drags c' = TwoColumn.drags c.
Proof.
  intros Hw Hs. unfold TwoColumn.rerender, get_state, mbind, eff_bind. destruct (Z.eqb_spec (TwoColumn.threadWidth c) before) as [E|_].
  - exists c. split; [done|]. split; [|done]. split; [done|]. rewrite E. by apply Hs.
  - destruct (persist_ok (TwoColumn.threadWidth c) c) as (b & E & A). rewrite E. eexists. split; [done|]. split; [|done].
    split; cbn; [done|]. rewrite A. apply lookup_insert_eq.
Qed.

Lemma clamp_bounds w : TwoColumn.min o <= TwoColumn.max o -> TwoColumn.min o <= TwoColumn.clamp o w <= TwoColumn.max o.
Proof. unfold TwoColumn.clamp. lia. Qed.

Lemma clamp_inside w : TwoColumn.min o <= w <= TwoColumn.max o -> TwoColumn.clamp o w = w.
Proof. unfold TwoColumn.clamp. lia. Qed.

Lemma moves_bounds x ds w : TwoColumn.min o <= TwoColumn.max o -> TwoColumn.min o <= w <= TwoColumn.max o ->
  TwoColumn.min o <= fold_left (fun _ d => TwoColumn.clamp o (d.2 + (x - d.1))) ds w <= TwoColumn.max o.
Proof. intros Ho. revert w. induction ds as [|d ds IH]; intros w Hw; cbn; [done|]. by apply IH, clamp_bounds. Qed.

(** The width a page opens with: the stored one, within the bounds. *)
Definition opening_width (stored : option jstr) : Z :=
  match stored with
  | None | Some [] => TwoColumn.initialWidth o
  | Some raw =>
    match TwoColumn.parse_int raw with
    | Some v => if num_is_finite (round64 (v # 1)) then TwoColumn.clamp o v else TwoColumn.initialWidth o
    | None => TwoColumn.initialWidth o
    end
  end.

Lemma opening_bounds stored : sane_options -> TwoColumn.min o <= opening_width stored <= TwoColumn.max o.
Proof.
  intros [Hi _]. unfold opening_width. destruct stored as [[|x s]|]; [done| |done].
  destruct (TwoColumn.parse_int _); [|done]. destruct (num_is_finite _); [|done]. apply clamp_bounds. lia.
Qed.

Lemma hydrate_ok b : exists b',
  TwoColumn.hydrate o (TwoColumn.initial o b) = (Ok tt, TwoColumn.ColumnOf b' (opening_width (b_local b !! TwoColumn.storageKey o)) [] []) /\
  b_local b' = b_local b.
Proof.
  unfold TwoColumn.hydrate. rewrite window_here. cbn [negb].
  unfold TwoColumn.in_browser_, mbind, eff_bind, TwoColumn.initial. cbn [TwoColumn.browser]. rewrite getItem_ok. cbn [area].
  exists (noted (EvStorage (StGet LocalStorage (TwoColumn.storageKey o))) b). split; [|done].
  unfold opening_width. destruct (b_local b !! _) as [[|x s]|]; [done| |done].
  destruct (TwoColumn.parse_int _); [|done]. by destruct (num_is_finite _).
Qed.

Lemma mount_settles b : sane_options ->
  exists c, TwoColumn.mount o (TwoColumn.initial o b) = (Ok tt, c) /\ settled c /\
    TwoColumn.threadWidth c = opening_width (b_local b !! TwoColumn.storageKey o) /\ TwoColumn.drags c = [].
Proof.
  intros Hs. unfold TwoColumn.mount. destruct (hydrate_ok b) as (b1 & E1 & A1). erewrite bind_ok by exact E1.
  destruct (persist_ok (TwoColumn.initialWidth o) (TwoColumn.ColumnOf b1 (opening_width (b_local b !! TwoColumn.storageKey o)) [] [])) as (b2 & E2 & A2).
  erewrite bind_ok by exact E2. cbn [TwoColumn.threadWidth TwoColumn.drags TwoColumn.cursor] in *.
  eapply (rerender_settles (TwoColumn.initialWidth o)); cbn; [by apply opening_bounds|].
  intros _. rewrite A2. apply lookup_insert_eq.
Qed.

Lemma step_settles e c : sane_options -> settled c -> exists c', TwoColumn.step o e c = (Ok tt, c') /\ settled c'.
Proof.
  intros Hs Hc. destruct Hc as [Hw Hk]. unfold TwoColumn.step, get_state, mbind, eff_bind. destruct e as [x|x|].
  - by eexists.
  - unfold TwoColumn.onMouseMove. cbn [fst snd].
    match goal with |- context [TwoColumn.rerender o _ ?c1] =>
      assert (TwoColumn.min o <= TwoColumn.threadWidth c1 <= TwoColumn.max o) as Hb by (apply moves_bounds; [destruct Hs; lia|done]);
      destruct (rerender_settles (TwoColumn.threadWidth c) c1 Hb) as (c' & E & S & _); [done|by exists c'] end.
  - unfold TwoColumn.onMouseUp. destruct (TwoColumn.drags c); by eexists.
Qed.

Lemma steps_settle es c : sane_options -> settled c -> exists c', eff_iter (TwoColumn.step o) es c = (Ok tt, c') /\ settled c'.
Proof.
  intros Hs. revert c. induction es as [|e es IH]; intros c Hc; [by exists c|]. cbn [eff_iter].
  destruct (step_settles e c Hs Hc) as (c1 & E1 & S1). destruct (IH c1 S1) as (c2 & E2 & S2).
  exists c2. split; [by erewrite bind_ok by exact E1|done].
Qed.

(** The column of a two-column page.  Whatever was stored, and whatever the
    pointer does (presses that were never released included), the width stays in
    its bounds, and a page opened later has the width this one was left with. *)
Theorem column_width_kept (b : Browser) (es : list TwoColumn.Pointer) :
  sane_options ->
  exists c1 c2 later,
    TwoColumn.mount o (TwoColumn.initial o b) = (Ok tt, c1) /\
    eff_iter (TwoColumn.step o) es c1 = (Ok tt, c2) /\
    TwoColumn.min o <= TwoColumn.threadWidth c2 <= TwoColumn.max o /\
    TwoColumn.mount o (TwoColumn.initial o (reload (TwoColumn.browser c2))) = (Ok tt, later) /\
    TwoColumn.threadWidth later = TwoColumn.threadWidth c2.
Proof.
  intros Hs. destruct (mount_settles b Hs) as (c1 & E1 & S1 & _).
  destruct (steps_settle es c1 Hs S1) as (c2 & E2 & S2). destruct (mount_settles (reload (TwoColumn.browser c2)) Hs) as (c3 & E3 & _ & W3 & _).
  exists c1, c2, c3. destruct S2 as [Hw Hk]. split_and!; [exact E1|exact E2|tauto|tauto|exact E3|].
  rewrite W3. change (b_local (reload ?x)) with (b_local x). rewrite Hk. unfold opening_width.
  pose proof (parse_int_dec (TwoColumn.threadWidth c2)) as P. destruct (dec_of_Z _) as [|x s]; [done|]. rewrite P.
  rewrite round64_int by (destruct Hs as (? & ? & ?); unfold safe_int in *; lia). by apply clamp_inside.
Qed.
End column.

Definition contacts_column : TwoColumn.Options :=
  TwoColumn.with_defaults (js "nexusinbox.contacts.thread_width.v1") (Some 360) None None None.

Example column_width_kept_witness :
  let _ := open_browser in
  exists c1 c2 later,
    TwoColumn.mount contacts_column (TwoColumn.initial contacts_column new_profile) = (Ok tt, c1) /\
    eff_iter (TwoColumn.step contacts_column) [TwoColumn.Down 100; TwoColumn.Move 180; TwoColumn.Up; TwoColumn.Move 500] c1 = (Ok tt, c2) /\
    TwoColumn.mount contacts_column (TwoColumn.initial contacts_column (reload (TwoColumn.browser c2))) = (Ok tt, later) /\
    TwoColumn.threadWidth later = TwoColumn.threadWidth c2.
Proof.
  intros env.
  destruct (column_width_kept contacts_column new_profile [TwoColumn.Down 100; TwoColumn.Move 180; TwoColumn.Up; TwoColumn.Move 500])
    as (c1 & c2 & later & E1 & E2 & _ & E3 & W).
  - split; [by vm_compute|]. by split; vm_compute.
  - by exists c1, c2, later.
Defined.

(** A drag of eighty pixels, and one that leaves the bounds. *)
Example dragged_widths :
  let _ := open_browser in
  let run es := TwoColumn.threadWidth (snd (eff_iter (TwoColumn.step contacts_column) es (TwoColumn.initial contacts_column new_profile))) in
  run [TwoColumn.Down 100; TwoColumn.Move 180; TwoColumn.Up; TwoColumn.Move 500] = 440 /\ run [TwoColumn.Down 100; TwoColumn.Move 2000] = 800.
Proof. split; vm_compute; reflexivity. Qed.

(** A browser that refuses its storage makes the effect throw, so that the page
    is lost; the language and the sessions are read inside [try]. *)
Example refused_storage_throws :
  let _ := refusing_browser (fun _ => Some (JsError (js "SecurityError") (js "denied"))) (fun _ => None) in
  fst (TwoColumn.mount contacts_column (TwoColumn.initial contacts_column new_profile)) = Throw (JsError (js "SecurityError") (js "denied")).
Proof. reflexivity. Qed.

(** ** The highlighted entry *)

Lemma leads_to_prefix p h : AppShell.leads_to p h = true -> exists t, p = h ++ t.
Proof.
  unfold AppShell.leads_to. rewrite orb_true_iff, jeqb_true, starts_with_spec.
  intros [-> | [t ->]]; [exists []; by rewrite app_nil_r|]. exists (47 :: t). by rewrite <- app_assoc.
Qed.

(** Two entries that lead to a page and have the same length are one. *)
Lemma leads_to_unique p h h' :
  AppShell.leads_to p h = true -> AppShell.leads_to p h' = true -> length h = length h' -> h = h'.
Proof.
  intros [t Ht]%leads_to_prefix [t' Ht']%leads_to_prefix Hl. subst p.
  apply (f_equal (take (length h))) in Ht'. rewrite take_app_length, Hl, take_app_length in Ht'. done.
Qed.

Lemma longest_total a b : AppShell.longest_first a b <= 0 \/ AppShell.longest_first b a <= 0.
Proof. unfold AppShell.longest_first. lia. Qed.
Lemma longest_trans a b c : AppShell.longest_first a b <= 0 -> AppShell.longest_first b c <= 0 -> AppShell.longest_first a c <= 0.
Proof. unfold AppShell.longest_first. lia. Qed.

(** The entry highlighted on a page is the one entry that leads there and is
    more specific than every other that does; none is when none leads there. *)
Theorem active_entry_exact (p h : jstr) :
  AppShell.activeHref p = Some h <->
    h ∈ AppShell.allHrefs /\ AppShell.leads_to p h = true /\
    (forall h', h' ∈ AppShell.allHrefs -> AppShell.leads_to p h' = true -> h' <> h -> (length h' < length h)%nat).
Proof.
  unfold AppShell.activeHref. set (l := List.filter _ _).
  assert (forall x, x ∈ l <-> x ∈ AppShell.allHrefs /\ AppShell.leads_to p x = true) as Hl.
  { intros x. unfold l. rewrite !list_elem_of_In, filter_In. done. }
  pose proof (sort_perm AppShell.longest_first l) as Hp.
  pose proof (sort_ordered AppShell.longest_first longest_total longest_trans l) as Ho.
  split.
  - destruct (sort _ l) as [|x r] eqn:E; [done|]. cbn. intros [= ->].
    assert (h ∈ l) as Hh by (rewrite <- Hp; left). apply Hl in Hh as [Ha Hh]. split_and!; [done..|].
    intros h' Ha' Hh' Hne. assert (h' ∈ h :: r) as Hin by (rewrite Hp, Hl; done).
    apply elem_of_cons in Hin as [?|Hin]; [done|]. inversion_clear Ho as [|? ? _ Hall].
    rewrite Forall_forall in Hall. specialize (Hall h' Hin). cbn in Hall. unfold AppShell.longest_first in Hall.
    destruct (decide (length h' = length h)) as [He|He]; [|lia]. destruct Hne. by eapply leads_to_unique.
  - intros (Ha & Hh & Hmax). assert (h ∈ sort AppShell.longest_first l) as Hin by (rewrite Hp, Hl; done).
    destruct (sort _ l) as [|x r] eqn:E; [by apply elem_of_nil in Hin|]. cbn. f_equal.
    destruct (decide (x = h)) as [|Hne]; [done|].
    assert (x ∈ l) as [Hx1 Hx2]%Hl by (rewrite <- Hp; left). specialize (Hmax x Hx1 Hx2 Hne).
    apply elem_of_cons in Hin as [-> | Hin]; [done|]. inversion_clear Ho as [|? ? _ Hall].
    rewrite Forall_forall in Hall. specialize (Hall h Hin). cbn in Hall. unfold AppShell.longest_first in Hall. lia.
Qed.

(** The parent of a nested page is not highlighted, and a view of the inbox is. *)
Example highlighted_entries :
  AppShell.activeHref (js "/settings/agents/new") = Some (js "/settings/agents/new") /\
  AppShell.activeHref (js "/agent/did%3Akey%3Az1") = Some (js "/agent") /\
  AppShell.activeHref (js "/?view=sent") = Some (js "/?view=sent") /\ AppShell.activeHref (js "/help") = None.
Proof. repeat split; vm_compute; reflexivity. Qed.

(** ** The drawer *)

(** What the drawer keeps, and what the page behind it may do. *)
Definition drawer_ok (overflow0 : jstr) (s : AppShell.Drawer) : Prop :=
  AppShell.saved s = overflow0 /\ AppShell.listening s = AppShell.mobileNavOpen s /\
  AppShell.overflow s = if AppShell.mobileNavOpen s then js "hidden" else overflow0.

(** The page behind the drawer is locked exactly while the drawer is open, and
    leaving it restores what was there. *)
Lemma drawer_keeps overflow0 es :
  drawer_ok overflow0 (fold_left AppShell.drawer_step es (AppShell.opened overflow0)) /\
  AppShell.unmount (fold_left AppShell.drawer_step es (AppShell.opened overflow0)) = overflow0.
Proof.
  assert (forall s e, drawer_ok overflow0 s -> drawer_ok overflow0 (AppShell.drawer_step s e)) as Hs.
  { intros [o f sv l] e (H1 & H2 & H3). cbn in *. subst sv l f.
    destruct e as [| | |k], o; cbn; try done; unfold AppShell.setMobileNavOpen; cbn; try done.
    by destruct (jeqb k (js "Escape")). }
  assert (forall s, drawer_ok overflow0 s -> drawer_ok overflow0 (fold_left AppShell.drawer_step es s)) as Hr.
  { induction es as [|e es IH]; intros s H; [done|]. cbn. by apply IH, Hs. }
  specialize (Hr (AppShell.opened overflow0) ltac:(done)). split; [done|]. by destruct Hr.
Qed.

(** The link of the sidebar leads where the page it stands for would. *)
Lemma by_agent_skips_redirect d did rest h :
  AppShell.agent_dids d = Some (did :: rest) -> truthy_str did = true ->
  AppShell.byAgentHref d = Ok h <-> AgentIndex.redirect_effect false (AppShell.agent_dids d) = Ok (Some h).
Proof.
  intros Hd Ht. unfold AppShell.byAgentHref, AgentIndex.redirect_effect, AppShell.firstAgentDid. rewrite Hd.
  destruct did as [|c r]; [done|]. destruct (encodeURIComponent (c :: r)) as [enc|e]; cbn; naive_solver.
Qed.
