(* ===== verification/Contacts.v ===== *)
(** The address book: apps/web/app/contacts/page.tsx.

    A page is its state; a handler is given what its render closed over, and the
    effects run after every render whose dependencies changed ([settle]).  The
    messages of the page are translation keys or the text of an error. *)
From S2P Require Import Prelude Json Effect Node Envelope ApiClient Browser WebApi Urls WebKeystore Llm Session.

(** A page of the tab, with the state of one component. *)
Record Screen (P : Type) := ScreenOf { sc_tab : Tab; sc_page : P }.
Arguments ScreenOf {P} _ _.
Arguments sc_tab {P} _.
Arguments sc_page {P} _.

Section screen.
Context {P : Type}.

Definition in_tab {A} (m : TM A) : eff (Screen P) A := fun s => let '(r, t') := m (sc_tab s) in (r, ScreenOf t' (sc_page s)).
Definition on_page (f : P -> P) : eff (Screen P) unit := fun s => (Ok tt, ScreenOf (sc_tab s) (f (sc_page s))).

Definition mutate `{QueryClient} (h : Hooks.MutationHook) : eff (Screen P) jval := in_tab (Logout.mutate_hook h).

End screen.

(** The events of the platform so far, newest first. *)
Definition sc_trace {P} (s : Screen P) : list Event := w_trace (b_node (t_browser (sc_tab s))).

Module ContactsPage.

Record ContactEntry := Contact { id : jstr; did : jstr; person_name : jstr; agent_label : option jstr; note : option jstr }.
Record DraftState := Draft { d_did : jstr; d_person_name : jstr; d_agent_label : jstr; d_note : jstr }.

#[global] Instance ContactEntry_eq_dec : EqDecision ContactEntry.
Proof. solve_decision. Defined.
#[global] Instance DraftState_eq_dec : EqDecision DraftState.
Proof. solve_decision. Defined.

Definition emptyDraft : DraftState := Draft [] [] [] [].

(** [activeId]: "new" or an id.  The id of a created contact is whatever the
    server sent; [NotAString] holds its text. *)
Inductive ActiveId := New | Existing (id : jstr) | NotAString (text : jstr).
#[global] Instance ActiveId_eq_dec : EqDecision ActiveId.
Proof. solve_decision. Defined.

Definition active_of (v : jval) : ActiveId :=
  match v with JStr s => if jeqb s (js "new") then New else Existing s | _ => NotAString (js_string v) end.
Definition active_text (a : ActiveId) : jstr := match a with New => js "new" | Existing i => i | NotAString s => s end.

Inductive StatusKind := info | error | success.
Inductive StatusText := Key (key : jstr) | Raw (message : jstr).
Definition key (k : string) : StatusText := Key (js k).
#[global] Instance StatusKind_eq_dec : EqDecision StatusKind.
Proof. solve_decision. Defined.
#[global] Instance StatusText_eq_dec : EqDecision StatusText.
Proof. solve_decision. Defined.

Record Page := PageOf { activeId : ActiveId; draft : DraftState; status : option (StatusKind * StatusText); appliedPrefill : jstr }.
#[global] Instance Page_eq_dec : EqDecision Page.
Proof. solve_decision. Defined.

Definition set_active a p := PageOf a (draft p) (status p) (appliedPrefill p).
Definition set_draft d p := PageOf (activeId p) d (status p) (appliedPrefill p).
Definition set_status s p := PageOf (activeId p) (draft p) s (appliedPrefill p).
Definition set_applied s p := PageOf (activeId p) (draft p) (status p) s.

Definition initial : Page := PageOf New emptyDraft None [].

(** What a render is given: the address's [add] and the query. *)
Record Props := PropsOf { add : option jstr; contacts : list ContactEntry; isPending : bool }.
Definition prefillDid (r : Props) : jstr := match add r with Some a => trim a | None => [] end.

(** ** The two effects, of the render [p] *)

Definition prefill_effect (r : Props) (p : Page) (q : Page) : Page :=
  if negb (truthy_str (prefillDid r)) then q
  else if jeqb (appliedPrefill p) (prefillDid r) then q
  else if isPending r then q
  else
    set_applied (prefillDid r)
      match List.find (fun c => jeqb (did c) (prefillDid r)) (contacts r) with
      | Some existing => set_active (active_of (JStr (id existing))) q
      | None => set_draft (Draft (prefillDid r) [] [] []) (set_active New q)
      end.

Definition selected_contact (r : Props) (a : ActiveId) : option ContactEntry :=
  match a with Existing i => List.find (fun c => jeqb (id c) i) (contacts r) | _ => None end.

Definition draft_of (c : ContactEntry) : DraftState :=
  Draft (did c) (person_name c) (default [] (agent_label c)) (default [] (note c)).

Definition sync_effect (r : Props) (p : Page) (q : Page) : Page :=
  match activeId p with
  | New => q
  | a =>
    match selected_contact r a with
    | None => set_active New q
    | Some selected => set_draft (draft_of selected) q
    end
  end.

Definition prefill_deps (r : Props) (p : Page) := (prefillDid r, appliedPrefill p, contacts r, isPending r).
Definition sync_deps (r : Props) (p : Page) := (activeId p, contacts r).

(** After a render: each effect runs if its dependencies are new. *)
Definition commit (prev : option (Props * Page)) (r : Props) (p : Page) : Page :=
  let q :=
    match prev with
    | Some (r0, p0) => if decide (prefill_deps r0 p0 = prefill_deps r p) then p else prefill_effect r p p
    | None => prefill_effect r p p
    end in
  match prev with
  | Some (r0, p0) => if decide (sync_deps r0 p0 = sync_deps r p) then q else sync_effect r p q
  | None => sync_effect r p q
  end.

(** Renders until the effects leave the state alone. *)
Fixpoint settle_ (fuel : nat) (prev : option (Props * Page)) (r : Props) (p : Page) : Page :=
  match fuel with
  | O => p
  | S fuel => let q := commit prev r p in if decide (q = p) then p else settle_ fuel (Some (r, p)) r q
  end.

Definition settle := settle_ 4.

(** ** Handlers *)

Definition isEditing (p : Page) : bool := match activeId p with New => false | _ => true end.

Definition handleSelect (p : Page) (a : ActiveId) (q : Page) : Page :=
  let q := set_status None q in
  let q := match a with New => if isEditing p then set_draft emptyDraft q else q | _ => q end in
  set_active a q.

Definition setDid s q := set_draft (Draft s (d_person_name (draft q)) (d_agent_label (draft q)) (d_note (draft q))) q.
Definition setPersonName s q := set_draft (Draft (d_did (draft q)) s (d_agent_label (draft q)) (d_note (draft q))) q.
Definition setAgentLabel s q := set_draft (Draft (d_did (draft q)) (d_person_name (draft q)) s (d_note (draft q))) q.
Definition setNote s q := set_draft (Draft (d_did (draft q)) (d_person_name (draft q)) (d_agent_label (draft q)) s) q.

Abbreviation CM := (eff (Screen Page)).

Definition setStatus (kind : StatusKind) (text : StatusText) : CM unit := on_page (set_status (Some (kind, text))).

(** [x.length > 0 ? x : null]. *)
Definition text_or_null (s : jstr) : jval := if truthy_str s then JStr s else JNull.

Section handlers.
Context `{Host, Env, BrowserEnv, QueryClient}.

Definition update_body (personName agentLabel note : jstr) : jval :=
  JObj [(js "person_name", JStr personName); (js "agent_label", text_or_null agentLabel); (js "note", text_or_null note)].
Definition create_payload (did personName agentLabel note : jstr) : jval :=
  JObj [(js "did", JStr did); (js "person_name", JStr personName); (js "agent_label", text_or_null agentLabel); (js "note", text_or_null note)].

(** Of a render whose state was [p]. *)
Variable p : Page.

Definition handleSubmit : CM unit :=
  on_page (set_status None) ;;
  let did := trim (d_did (draft p)) in
  let personName := trim (d_person_name (draft p)) in
  let agentLabel := trim (d_agent_label (draft p)) in
  let note := trim (d_note (draft p)) in
  if negb (truthy_str personName) then setStatus error (key "contacts.validationName")
  else if negb (isEditing p) && negb (starts_with (js "did:key:") did) then setStatus error (key "contacts.validationDid")
  else
    try_catch
      (if isEditing p then
         mutate (Hooks.useUpdateContactMutation (active_text (activeId p)) (update_body personName agentLabel note)) ;;
         setStatus success (key "contacts.updated")
       else
         created ← mutate (Hooks.useCreateContactMutation (create_payload did personName agentLabel note));
         setStatus success (key "contacts.added") ;;
         newId ← lift (jprop created (js "id"));
         on_page (set_active (active_of newId)))
      (fun err => setStatus error (Raw (err_message err))).

(** [confirmed]: the answer of [window.confirm]. *)
Definition handleDelete (confirmed : bool) : CM unit :=
  if negb (isEditing p) then mret tt
  else if negb confirmed then mret tt
  else
    try_catch
      (mutate (Hooks.useDeleteContactMutation (active_text (activeId p))) ;;
       setStatus success (key "contacts.deleted") ;;
       on_page (set_active New))
      (fun err => setStatus error (Raw (err_message err))).

End handlers.
End ContactsPage.

(** * Lemmas *)

(** ** Requests of a page *)

(** A call of the API with a JSON body, as the platform sees it. *)
Definition api_event `{Env} (method path : jstr) (body : jval) : Event :=
  EvFetch (HttpRequest method (WebApi.DEFAULT_BASE_URL ++ path) [(js "Content-Type", js "application/json")] (TextBody (json_stringify body))).
Definition id_event `{Env} (method path : jstr) (i : jstr) (body : jval) : option Event :=
  match encodeURIComponent i with Ok eid => Some (api_event method (path ++ eid) body) | Throw _ => None end.

(** The request is the only thing a call adds to the trace. *)
Definition adds_event {A} (e : option Event) (m : BM A) : Prop :=
  forall b, w_trace (b_node (m b).2) = (match e with Some e => e :: w_trace (b_node b) | None => w_trace (b_node b) end) /\
    (e = None -> exists err, (m b).1 = Throw err).

Section requests.
Context `{Host, Env, BrowserEnv}.

Lemma request_adds path method body auth :
  adds_event (Some (api_event method path body)) (WebApi.request WebApi.defaultApiClient path (Some method) (Some body) auth).
Proof.
  intros b. split; [|done]. destruct auth; unfold WebApi.request, web_fetch, lift, host, ask, mbind, eff_bind; cbn;
    (destruct (env_fetch _ _); [|done]); by case_match.
Qed.

Lemma encoded_adds method path i body :
  adds_event (id_event method path i body)
    (eid ← lift (encodeURIComponent i); WebApi.request WebApi.defaultApiClient (path ++ eid) (Some method) (Some body) true).
Proof.
  intros b. unfold id_event. destruct (encodeURIComponent i) as [eid|err].
  - erewrite bind_ok by reflexivity. apply request_adds.
  - cbn. split; [done|]. intros _. by eexists.
Qed.

Context `{QueryClient, !QueryClientLaws}.

(** What a mutation does to the screen. *)
Lemma mutate_adds {P} (h : Hooks.MutationHook) e (s : Screen P) :
  adds_event e (Hooks.mutationFn h) ->
  exists s', mutate h s = ((Hooks.mutationFn h (t_browser (sc_tab s))).1, s') /\ sc_page s' = sc_page s /\
    sc_trace s' = (match e with Some e => e :: sc_trace s | None => sc_trace s end) /\
    (e = None -> exists err, (Hooks.mutationFn h (t_browser (sc_tab s))).1 = Throw err).
Proof.
  intros He. destruct (He (t_browser (sc_tab s))) as [Ht Hn]. unfold mutate, in_tab. rewrite mutate_hook_run.
  destruct (Hooks.mutationFn h _) as [r b]. eexists. split; [reflexivity|]. by split.
Qed.
End requests.

(** ** Trimming *)

Lemma trim_trim s : trim (trim s) = trim s.
Proof.
  unfold trim. pose proof (drop_while_head is_js_space s) as Hh. destruct (drop_while is_js_space s) as [|c r]; [done|].
  unfold strip_suffix. rewrite reverse_cons.
  destruct (drop_while_keeps is_js_space (reverse r) c [] Hh) as [a' Ha]. rewrite Ha, reverse_app. cbn [reverse rev_append app].
  change (reverse [c]) with [c]. cbn [app]. rewrite (drop_while_none is_js_space (c :: reverse a')) by done.
  rewrite reverse_cons, reverse_involutive, (drop_while_none is_js_space (a' ++ [c])); [by rewrite reverse_app|].
  pose proof (drop_while_head is_js_space (reverse r ++ [c])) as Hd. by rewrite Ha in Hd.
Qed.

Module ContactsFacts.
Import ContactsPage.

(** ** The effects come to rest *)

Lemma prefill_applied r p q : appliedPrefill p = prefillDid r -> prefill_effect r p q = q.
Proof. intros E. unfold prefill_effect. rewrite E, jeqb_refl. by destruct (negb _). Qed.

(** After a first run of the effect, another has nothing to do. *)
Lemma commit_second r p q : q = commit None r p \/ (exists prev, q = commit prev r p) ->
  commit (Some (r, p)) r q = if decide (activeId p = activeId q) then q else sync_effect r q q.
Proof.
  intros Hq.
  assert (appliedPrefill q = appliedPrefill p \/ appliedPrefill q = prefillDid r) as Ha.
  { assert (forall u v, appliedPrefill (sync_effect r u v) = appliedPrefill v) as Hs.
    { intros u v. unfold sync_effect. by destruct (activeId u); [|destruct (selected_contact _ _)..]. }
    assert (appliedPrefill (prefill_effect r p p) = appliedPrefill p \/ appliedPrefill (prefill_effect r p p) = prefillDid r) as Hp.
    { unfold prefill_effect. destruct (negb _); [by left|]. destruct (jeqb _ _); [by left|]. destruct (isPending r); [by left|]. by right. }
    destruct Hq as [-> | [prev ->]]; unfold commit; repeat case_match; rewrite ?Hs; auto. }
  unfold commit. unfold prefill_deps, sync_deps.
  assert ((if decide ((prefillDid r, appliedPrefill p, contacts r, isPending r) = (prefillDid r, appliedPrefill q, contacts r, isPending r))
           then q else prefill_effect r q q) = q) as ->.
  { case_decide as Hd; [done|]. apply prefill_applied. destruct Ha as [Ha|Ha]; [|done]. by rewrite Ha in Hd. }
  destruct (decide (activeId p = activeId q)) as [-> | Hn]; [by rewrite decide_True|].
  rewrite decide_False; [done|]. by intros [= ?].
Qed.

Lemma settle_stop f prev r p : commit prev r p = p -> settle_ (S f) prev r p = p.
Proof. intros E. cbn. by rewrite E, decide_True. Qed.
Lemma settle_go f prev r p : commit prev r p <> p -> settle_ (S f) prev r p = settle_ f (Some (r, p)) r (commit prev r p).
Proof. intros E. cbn. by rewrite decide_False. Qed.

(** The third render changes nothing. *)
Lemma commit_third prev r p : let q1 := commit prev r p in let q2 := commit (Some (r, p)) r q1 in commit (Some (r, q1)) r q2 = q2.
Proof.
  cbv zeta. set (q1 := commit prev r p). set (q2 := commit (Some (r, p)) r q1).
  rewrite (commit_second r q1 q2) by eauto. destruct (decide (activeId q1 = activeId q2)) as [|Nb]; [done|].
  assert (activeId q2 = New) as Hnew; [|unfold sync_effect; by rewrite Hnew].
  revert Nb. unfold q2. rewrite (commit_second r p q1) by eauto. destruct (decide _); [done|].
  unfold sync_effect. destruct (activeId q1) as [|i|i] eqn:E; [done|..]; (destruct (selected_contact _ _); cbn; [by rewrite ?E|done]).
Qed.

(** Three renders are enough for the effects to come to rest. *)
Lemma settle_ends n prev r p : settle_ (4 + n) prev r p = settle prev r p.
Proof.
  unfold settle. cbn [Nat.add]. set (q1 := commit prev r p).
  destruct (decide (q1 = p)) as [|N1]; [by rewrite !settle_stop|]. rewrite !(settle_go _ prev r p) by done. fold q1.
  destruct (decide (commit (Some (r, p)) r q1 = q1)) as [|N2]; [by rewrite !settle_stop|]. rewrite !(settle_go _ _ r q1) by done.
  by rewrite !settle_stop by apply commit_third.
Qed.

(** ** The link that adds a contact *)

(** Contacts are told apart by their ids, and none has the id "new". *)
Definition ids_ok (l : list ContactEntry) : Prop :=
  (forall c c', c ∈ l -> c' ∈ l -> id c = id c' -> c = c') /\ forall c, c ∈ l -> id c <> js "new".

Definition linked (r : Props) : option ContactEntry := List.find (fun c => jeqb (did c) (prefillDid r)) (contacts r).

(** The page a link opens, once the contacts are there. *)
Definition prefilled (r : Props) : Page :=
  match linked r with
  | Some c => PageOf (Existing (id c)) (draft_of c) None (prefillDid r)
  | None => PageOf New (Draft (prefillDid r) [] [] []) None (prefillDid r)
  end.

Lemma selected_self r c : ids_ok (contacts r) -> c ∈ contacts r -> selected_contact r (Existing (id c)) = Some c.
Proof.
  intros [Hu _] Hc. cbn. destruct (List.find _ _) as [c'|] eqn:E.
  - apply find_some in E as [Hin Hj%jeqb_true]. f_equal. by apply Hu; [apply list_elem_of_In| |].
  - apply find_none with (x := c) in E; [|by apply list_elem_of_In]. by rewrite jeqb_refl in E.
Qed.

Lemma linked_elem r c : linked r = Some c -> c ∈ contacts r /\ did c = prefillDid r.
Proof. intros [Hin Hj%jeqb_true]%find_some. split; [by apply list_elem_of_In|done]. Qed.

Lemma opens_prefilled r : prefillDid r <> [] -> isPending r = false -> ids_ok (contacts r) -> settle None r initial = prefilled r.
Proof.
  intros Hd Hp Hi. unfold settle.
  assert (commit None r initial = match linked r with
     | Some c => PageOf (Existing (id c)) emptyDraft None (prefillDid r) | None => prefilled r end) as E1.
  { unfold commit, prefill_effect, sync_effect, prefilled, linked. cbn [activeId initial appliedPrefill].
    destruct (prefillDid r) as [|x d] eqn:Ed; [done|]. cbn [truthy_str negb]. rewrite Hp.
    destruct (jeqb_spec [] (x :: d)) as [?|_]; [done|]. destruct (List.find _ _) as [c|] eqn:Ec; [|done].
    cbn. destruct (jeqb_spec (id c) (js "new")) as [En|_]; [|done].
    apply find_some in Ec as [Hin _]. destruct Hi as [_ Hn]. by destruct (Hn c); [apply list_elem_of_In|]. }
  rewrite settle_go by (rewrite E1; unfold prefilled; destruct (linked r); intros [=]; congruence).
  unfold prefilled in *. destruct (linked r) as [c|] eqn:El; rewrite E1.
  - set (q1 := PageOf _ emptyDraft _ _).
    assert (commit (Some (r, initial)) r q1 = PageOf (Existing (id c)) (draft_of c) None (prefillDid r)) as E2.
    { rewrite (commit_second r initial q1) by (left; by rewrite E1). rewrite decide_False by done.
      unfold sync_effect, q1. cbn [activeId]. apply linked_elem in El as [Hin _]. by rewrite (selected_self r c Hi Hin). }
    destruct (decide (PageOf (Existing (id c)) (draft_of c) None (prefillDid r) = q1)) as [Eq|Nq].
    + rewrite settle_stop by congruence. congruence.
    + rewrite settle_go by congruence. rewrite E2. apply settle_stop.
      pose proof (commit_third None r initial) as E3. cbv zeta in E3. rewrite E1 in E3. fold q1 in E3. by rewrite E2 in E3.
  - apply settle_stop. rewrite commit_second by (left; by rewrite E1). by rewrite decide_True.
Qed.

Section submit.
Context `{Host, Env, BrowserEnv, QueryClient, !QueryClientLaws}.

(** The request a submission of the page makes. *)
Definition submitted_event (p : Page) : option Event :=
  let did := trim (d_did (draft p)) in
  let personName := trim (d_person_name (draft p)) in
  let agentLabel := trim (d_agent_label (draft p)) in
  let note := trim (d_note (draft p)) in
  match activeId p with
  | New => Some (api_event (js "POST") (js "/contacts") (create_payload did personName agentLabel note))
  | a => id_event (js "PATCH") (js "/contacts/") (active_text a) (update_body personName agentLabel note)
  end.

(** A handler that makes one call and reports: the form stays, and a status is
    shown. *)
Lemma attempt_status (h : Hooks.MutationHook) e (s : Screen Page) (andThen : jval -> CM unit) :
  adds_event e (Hooks.mutationFn h) ->
  (forall v s2, sc_page s2 = sc_page s -> exists r s3 kind text, andThen v s2 = (r, s3) /\ (match r with Ok u => u = tt | Throw _ => True end) /\
     draft (sc_page s3) = draft (sc_page s2) /\ sc_trace s3 = sc_trace s2 /\ status (sc_page s3) = Some (kind, text)) ->
  exists s', try_catch (v ← mutate h; andThen v) (fun err => setStatus error (Raw (err_message err))) s = (Ok tt, s') /\
    draft (sc_page s') = draft (sc_page s) /\
    sc_trace s' = (match e with Some e => e :: sc_trace s | None => sc_trace s end) /\
    exists kind text, status (sc_page s') = Some (kind, text).
Proof.
  intros He Hthen. destruct (mutate_adds h e s He) as (s2 & E2 & P2 & T2 & _). unfold try_catch, mbind at 1, eff_bind at 1. rewrite E2.
  destruct (Hooks.mutationFn h _).1 as [v|err].
  - destruct (Hthen v s2 P2) as (r & s3 & kind & text & E3 & Hr & D3 & T3 & S3). rewrite E3. destruct r as [[]|err].
    + exists s3. split; [done|]. rewrite D3, T3, P2. by eauto.
    + eexists. split; [reflexivity|]. cbn. rewrite D3, P2. split; [done|]. split; [|by eauto]. unfold sc_trace in *. cbn. congruence.
  - eexists. split; [reflexivity|]. cbn. rewrite P2. split; [done|]. split; [done|]. by eauto.
Qed.

(** A form that passes the checks is sent, once, and stays as it was. *)
Lemma submit_sends p (s : Screen Page) :
  truthy_str (trim (d_person_name (draft p))) = true ->
  (isEditing p = false -> starts_with (js "did:key:") (trim (d_did (draft p))) = true) ->
  exists s', handleSubmit p s = (Ok tt, s') /\ draft (sc_page s') = draft (sc_page s) /\
    sc_trace s' = (match submitted_event p with Some e => e :: sc_trace s | None => sc_trace s end) /\
    exists kind text, status (sc_page s') = Some (kind, text).
Proof.
  intros Hn Hk. unfold handleSubmit. erewrite bind_ok by reflexivity. cbv zeta. rewrite Hn. cbn [negb].
  set (s1 := ScreenOf _ _).
  assert (negb (isEditing p) && negb (starts_with (js "did:key:") (trim (d_did (draft p)))) = false) as ->.
  { destruct (isEditing p); [done|]. by rewrite Hk. }
  assert (forall i, exists s', try_catch (mutate (Hooks.useUpdateContactMutation i (update_body (trim (d_person_name (draft p)))
      (trim (d_agent_label (draft p))) (trim (d_note (draft p))))) ;; setStatus success (key "contacts.updated"))
      (fun err => setStatus error (Raw (err_message err))) s1 = (Ok tt, s') /\ draft (sc_page s') = draft (sc_page s) /\
      sc_trace s' = (match id_event (js "PATCH") (js "/contacts/") i (update_body (trim (d_person_name (draft p)))
        (trim (d_agent_label (draft p))) (trim (d_note (draft p)))) with Some e => e :: sc_trace s | None => sc_trace s end) /\
      exists kind text, status (sc_page s') = Some (kind, text)) as Hup.
  { intros i. apply (attempt_status (Hooks.useUpdateContactMutation _ _) _ s1 _ (encoded_adds _ _ _ _)). intros v s2 P2.
    do 4 eexists. by split; [reflexivity|]. }
  unfold isEditing in *. unfold submitted_event. destruct (activeId p) as [|i|i]; [|apply Hup..].
  apply (attempt_status (Hooks.useCreateContactMutation _) _ s1 _ (request_adds _ _ _ _)). intros v s2 P2.
  unfold setStatus. erewrite bind_ok by reflexivity. destruct (jprop v (js "id")) as [i|err]; cbn; do 4 eexists; (by split; [reflexivity|]).
Qed.
End submit.

(** The link that adds a contact.  When its did is well formed and the contacts
    have come, the page comes to rest on the contact with that did, or else on
    the form for a new one with the did filled in; typing a name and submitting
    then makes one request: the update of that contact, which leaves its did
    alone, or the creation of a contact with the did of the link.  The form stays
    filled and a status is shown, whatever the server answers. *)
Theorem contact_link_saves `{Host, Env, BrowserEnv, QueryClient, !QueryClientLaws} (r : Props) (name : jstr) (t : Tab) :
  starts_with (js "did:key:") (prefillDid r) = true -> truthy_str (trim name) = true ->
  isPending r = false -> ids_ok (contacts r) ->
  let p := setPersonName name (settle None r initial) in
  exists s', handleSubmit p (ScreenOf t p) = (Ok tt, s') /\
    draft (sc_page s') = draft p /\ (exists kind text, status (sc_page s') = Some (kind, text)) /\
    match List.find (fun c => jeqb (did c) (prefillDid r)) (contacts r) with
    | Some c =>
      activeId p = Existing (id c) /\
      sc_trace s' = (match id_event (js "PATCH") (js "/contacts/") (id c)
                             (update_body (trim name) (trim (default [] (agent_label c))) (trim (default [] (note c)))) with
                     | Some e => e :: w_trace (b_node (t_browser t)) | None => w_trace (b_node (t_browser t)) end)
    | None =>
      activeId p = New /\
      sc_trace s' = api_event (js "POST") (js "/contacts") (create_payload (prefillDid r) (trim name) [] []) :: w_trace (b_node (t_browser t))
    end.
Proof.
  intros Hd Hn Hp Hi. assert (prefillDid r <> []) as Hne by (intros E; by rewrite E in Hd).
  rewrite (opens_prefilled r Hne Hp Hi). cbv zeta. fold (linked r). set (p := setPersonName name (prefilled r)).
  assert (trim (prefillDid r) = prefillDid r) as Htr by (unfold prefillDid; destruct (add r); [apply trim_trim|done]).
  assert (d_person_name (draft p) = name /\ activeId p = activeId (prefilled r)) as [Hname Hact] by done.
  destruct (submit_sends p (ScreenOf t p)) as (s' & E & D & T & S).
  - by rewrite Hname.
  - unfold isEditing, p, prefilled. destruct (linked r); [done|]. intros _. cbn -[trim]. by rewrite Htr.
  - exists s'. split; [done|]. split; [done|]. split; [done|]. unfold submitted_event in T. rewrite Hact in T.
    revert T. unfold p, prefilled. destruct (linked r) as [c|] eqn:El; cbn -[trim sc_trace]; intros T; (split; [done|]); [exact T|].
    by rewrite T, Htr.
Qed.

Definition alice : ContactEntry := Contact (js "c1") (js "did:key:z1") (js "Alice") None (Some (js "met in May")).

Example contact_link_saves_witness :
  let _ := plain_host in let _ := open_browser in let _ := reply_env (js "{}") in let _ := plain_client in
  exists s', handleSubmit (setPersonName (js "Alice B.") (prefilled (PropsOf (Some (js "did:key:z1 ")) [alice] false)))
      (ScreenOf paired_tab (setPersonName (js "Alice B.") (prefilled (PropsOf (Some (js "did:key:z1 ")) [alice] false)))) = (Ok tt, s') /\
    sc_trace s' = [api_event (js "PATCH") (js "/contacts/c1") (update_body (js "Alice B.") [] (js "met in May"))].
Proof.
  intros h env re cl.
  destruct (contact_link_saves (PropsOf (Some (js "did:key:z1 ")) [alice] false) (js "Alice B.") paired_tab) as (s' & E & _ & _ & _ & T).
  - reflexivity.
  - reflexivity.
  - reflexivity.
  - split; [|intros c [-> | []%elem_of_nil]%elem_of_cons; by vm_compute].
    by intros c c' [-> | []%elem_of_nil]%elem_of_cons [-> | []%elem_of_nil]%elem_of_cons.
  - exists s'. split; [exact E|exact T].
Defined.

(** ** What the handlers leave behind *)

(** A created contact is not in the list yet when the page selects it (the
    refetch is not awaited), so that the second effect deselects it, and the form
    for a new contact stays filled with what was just added. *)
Lemma created_contact_deselected r p i :
  activeId p = New -> (forall c, c ∈ contacts r -> id c <> i) ->
  settle (Some (r, p)) r (set_active (Existing i) p) = p.
Proof.
  intros Ha Hc. set (q := set_active (Existing i) p).
  assert (selected_contact r (Existing i) = None) as Hs.
  { cbn. destruct (List.find _ _) as [c|] eqn:E; [|done]. apply find_some in E as [Hin Hj%jeqb_true].
    by destruct (Hc c); [apply list_elem_of_In|]. }
  assert (commit (Some (r, p)) r q = p) as E1.
  { unfold commit. destruct (decide (prefill_deps r p = prefill_deps r q)) as [_|?]; [|done].
    destruct (decide (sync_deps r p = sync_deps r q)) as [E|_]; [apply (f_equal fst) in E; cbn in E; by rewrite Ha in E|]. unfold sync_effect, q. cbn [activeId set_active]. rewrite Hs. destruct p; cbn in *; by subst. }
  unfold settle. rewrite settle_go by (rewrite E1; unfold q; intros E; apply (f_equal activeId) in E; by rewrite Ha in E).
  rewrite E1. apply settle_stop. unfold commit. destruct (decide (prefill_deps r q = prefill_deps r p)) as [_|?]; [|done].
  unfold sync_effect. rewrite Ha. by destruct (decide _).
Qed.

(** A contact that was deleted stays in the form for a new one. *)
Example deleted_contact_stays :
  let _ := plain_host in let _ := open_browser in let _ := reply_env (js "{}") in let _ := plain_client in
  let r := PropsOf None [alice] false in
  let p := settle (Some (r, initial)) r (handleSelect initial (Existing (js "c1")) initial) in
  let s := snd (handleDelete p true (ScreenOf paired_tab p)) in
  let q := settle (Some (r, p)) (PropsOf None [] false) (sc_page s) in
  activeId q = New /\ draft q = draft_of alice.
Proof. vm_compute. by split. Qed.

(** A list that changes while a contact is edited, be it by another contact,
    overwrites what was typed. *)
Example refetch_discards_edits :
  let bob := Contact (js "c2") (js "did:key:z2") (js "Bob") None None in
  let r := PropsOf None [alice] false in
  let p := settle (Some (r, initial)) r (handleSelect initial (Existing (js "c1")) initial) in
  let typed := setNote (js "a long note") p in
  draft (settle (Some (r, p)) (PropsOf None [alice; bob] false) typed) = draft_of alice.
Proof. reflexivity. Qed.

End ContactsFacts.
