(* ===== verification/Settings.v ===== *)
(** The smaller pages of the account: apps/web/app/settings/blocks/page.tsx,
    apps/web/app/pending/page.tsx, apps/web/app/_components/DisplayNamePrompt.tsx
    and apps/web/app/settings/profile/ProfilePanel.tsx.

    A message is its translation key.  The length limits of the input fields are
    the browser's; the handlers check again what they send. *)
From S2P Require Import Prelude JsNumber Json JsDate Effect Node Envelope ApiClient Browser WebApi WebKeystore Llm Session Conversation Contacts.

(** ** settings/blocks/page.tsx *)
Module BlocksPage.
Import Thread.Block.

Definition level_label (l : BlockLevel) : jstr :=
  match l with l1_did => js "blocks.l1Label" | l2_identity => js "blocks.l2Label" | l3_stealth => js "blocks.l3Label" end.
Definition level_description (l : BlockLevel) : jstr :=
  match l with l1_did => js "blocks.l1Desc" | l2_identity => js "blocks.l2Desc" | l3_stealth => js "blocks.l3Desc" end.

Record Page := PageOf { level : BlockLevel; targetDid : jstr; targetWorldId : jstr; statusMessage : jstr }.
Definition initial : Page := PageOf l1_did [] [] [].

Definition setLevel v p := PageOf v (targetDid p) (targetWorldId p) (statusMessage p).
Definition setTargetDid v p := PageOf (level p) v (targetWorldId p) (statusMessage p).
Definition setTargetWorldId v p := PageOf (level p) (targetDid p) v (statusMessage p).
Definition setStatusMessage v p := PageOf (level p) (targetDid p) (targetWorldId p) v.

(** The card of a block: the badge of its target, and the target. *)
Record BlockEntry := Entry { id : jstr; b_level : BlockLevel; target_did : option jstr; target_world_id : option jstr }.
Definition targetBadge (b : BlockEntry) : option jstr :=
  if truthy_ostr (target_did b) then Some (js "blocks.targetDidBadge")
  else if truthy_ostr (target_world_id b) then Some (js "blocks.targetWorldIdBadge")
  else None.
Definition targetValue (b : BlockEntry) : jstr :=
  match target_did b with Some d => d | None => match target_world_id b with Some w => w | None => js "-" end end.

Abbreviation BM_ := (eff (Screen Page)).
Definition say (k : jstr) : BM_ unit := on_page (setStatusMessage k).

Section handlers.
Context `{Host, Env, BrowserEnv, QueryClient}.

(** Of a render whose state was [p]. *)
Variable p : Page.

Definition create_call (payload : jval) : BM_ unit :=
  mutate (Hooks.useCreateBlockMutation payload) ;;
  on_page (setTargetDid []) ;; on_page (setTargetWorldId []) ;; say (js "blocks.added").

Definition handleCreate : BM_ unit :=
  say [] ;;
  try_catch
    (match level p with
     | l1_did =>
       let did := trim (targetDid p) in
       if negb (truthy_str did) then say (js "blocks.validationDid")
       else create_call (JObj [(js "level", JStr (level_name (level p))); (js "target_did", JStr did)])
     | _ =>
       let wid := trim (targetWorldId p) in
       if negb (truthy_str wid) then say (js "blocks.validationWorldId")
       else create_call (JObj [(js "level", JStr (level_name (level p))); (js "target_world_id", JStr wid)])
     end)
    (fun _ => say (js "blocks.addFailed")).

Definition handleDelete (id : jstr) : BM_ unit :=
  say [] ;;
  try_catch
    (mutate (Hooks.useDeleteBlockMutation id) ;; say (js "blocks.removed"))
    (fun _ => say (js "blocks.removeFailed")).

End handlers.
End BlocksPage.

(** ** pending/page.tsx *)
Module PendingPage.

Record Page := PageOf { activeDid : jstr; statusMessage : jstr }.
Definition initial : Page := PageOf (js "all") [].

Definition selectedDid (p : Page) : jstr := if truthy_str (activeDid p) then activeDid p else js "all".

Definition messages_query (p : Page) : WebApi.MessageListQuery :=
  WebApi.ListQuery (selectedDid p) None None (Some (js "pending_approval")) None None (Some (num 100)).

(** [Math.round(score * 100)]. *)
Definition trust_percent (score : jnum) : jnum :=
  match score with
  | Fin q => match round64 (q * (100 # 1)) with
    | Fin x => let y := (x + (1 # 2))%Q in Fin (Qnum y / Zpos (Qden y) # 1)
    | n => n
    end
  | n => n
  end.

Abbreviation PM := (eff (Screen Page)).
Definition say (k : jstr) : PM unit := on_page (fun p => PageOf (activeDid p) k).

Section handlers.
Context `{Host, Env, BrowserEnv, QueryClient}.

Definition move_to (folder success failure : jstr) (id : jstr) : PM unit :=
  say [] ;;
  try_catch
    (mutate (Hooks.useUpdateMessageFlagsMutation id (Some folder) None) ;; say success)
    (fun _ => say failure).

Definition handleApprove : jstr -> PM unit := move_to (js "inbox") (js "pending.approved") (js "pending.approveFailed").
Definition handleReject : jstr -> PM unit := move_to (js "trash") (js "pending.rejected") (js "pending.rejectFailed").

End handlers.
End PendingPage.

(** ** The display name *)

(** The account as the session query gives it. *)
Record SessionUser := UserOf { user_id : jstr; display_name : option jstr; verification_level : option jstr; u_created_at : option jstr }.

Definition name_payload (name : jval) : jval := JObj [(js "display_name", name)].

(** DisplayNamePrompt.tsx: the overlay a user without a name gets. *)
Module DisplayNamePrompt.

Record Prompt := PromptOf { value : jstr; error : option ContactsPage.StatusText }.
Definition initial : Prompt := PromptOf [] None.

Definition needsName (authenticated : bool) (user : option SessionUser) : bool :=
  authenticated && match user with Some u => negb (truthy_ostr (display_name u)) | None => false end.

(** The effect of a change of [needsName]. *)
Definition needs_effect (needs : bool) (p : Prompt) : Prompt := if needs then p else initial.

Abbreviation DM := (eff (Screen Prompt)).
Definition setError (e : option ContactsPage.StatusText) : DM unit := on_page (fun p => PromptOf (value p) e).

Definition handleSubmit `{Host, Env, BrowserEnv, QueryClient} (p : Prompt) : DM unit :=
  let trimmed := trim (value p) in
  if (length trimmed =? 0)%nat then setError (Some (ContactsPage.key "onboarding.validationEmpty"))
  else if (64 <? length trimmed)%nat then setError (Some (ContactsPage.key "onboarding.validationTooLong"))
  else
    setError None ;;
    try_catch
      (mutate (Hooks.useUpdateProfileMutation (name_payload (JStr trimmed))) ;; mret tt)
      (fun err => setError (Some (ContactsPage.Raw (err_message err)))).

End DisplayNamePrompt.

(** ProfilePanel.tsx. *)
Module ProfilePanel.

Inductive Status := idle | success | error.
Record Panel := PanelOf { displayName : jstr; status : Status; errorMessage : option ContactsPage.StatusText }.
Definition initial : Panel := PanelOf [] idle None.

(** The effect of a change of the user or of the name. *)
Definition name_effect (user : option SessionUser) (p : Panel) : Panel :=
  PanelOf (match user with Some u => default [] (display_name u) | None => [] end) (status p) (errorMessage p).

Definition verificationLabel (level : option jstr) : ContactsPage.StatusText :=
  match level with
  | None => ContactsPage.key "profile.verificationUnknown"
  | Some l =>
    if jeqb l (js "orb") then ContactsPage.key "profile.verificationOrb"
    else if jeqb l (js "dev") then ContactsPage.key "profile.verificationBypass"
    else ContactsPage.Raw l
  end.

(** [shown] is [toLocaleString("ja-JP", ...)] of a time. *)
Definition formatDate `{Host} (shown : Z -> jstr) (iso : option jstr) : jstr :=
  match iso with
  | None | Some [] => js "—"
  | Some iso => match date_parse iso with Some t => shown t | None => iso end
  end.

Abbreviation PM := (eff (Screen Panel)).
Definition setOutcome (st : Status) (m : option ContactsPage.StatusText) : PM unit := on_page (fun p => PanelOf (displayName p) st m).

Definition handleSubmit `{Host, Env, BrowserEnv, QueryClient} (p : Panel) : PM unit :=
  setOutcome idle None ;;
  let trimmed := trim (displayName p) in
  if (64 <? length trimmed)%nat then setOutcome error (Some (ContactsPage.key "profile.validationTooLong"))
  else
    try_catch
      (mutate (Hooks.useUpdateProfileMutation (name_payload (if (length trimmed =? 0)%nat then JNull else JStr trimmed))) ;;
       setOutcome success None)
      (fun err => setOutcome error (Some (ContactsPage.Raw (err_message err)))).

End ProfilePanel.

(** * Lemmas *)

Section mutations.
Context `{Host, Env, BrowserEnv, QueryClient, !QueryClientLaws}.

(** A handler that makes one call and does [ok] or [failed]. *)
Lemma mutate_settles {P} (h : Hooks.MutationHook) e (s : Screen P) (ok : eff (Screen P) unit)
    (failed : jserror -> eff (Screen P) unit) (okP : P -> P) (failedP : jserror -> P -> P) :
  adds_event e (Hooks.mutationFn h) ->
  (forall s, ok s = (Ok tt, ScreenOf (sc_tab s) (okP (sc_page s)))) ->
  (forall err s, failed err s = (Ok tt, ScreenOf (sc_tab s) (failedP err (sc_page s)))) ->
  exists s', try_catch (mutate h ;; ok) failed s = (Ok tt, s') /\
    sc_trace s' = (match e with Some e => e :: sc_trace s | None => sc_trace s end) /\
    sc_page s' = match (Hooks.mutationFn h (t_browser (sc_tab s))).1 with Ok _ => okP | Throw err => failedP err end (sc_page s).
Proof.
  intros He Hok Hfailed. destruct (mutate_adds h e s He) as (s2 & E2 & P2 & T2 & _).
  unfold try_catch, mbind, eff_bind. rewrite E2. destruct (Hooks.mutationFn h _).1 as [v|err].
  - rewrite Hok. eexists. split; [reflexivity|]. cbn. rewrite P2. split; [exact T2|done].
  - rewrite Hfailed. eexists. split; [reflexivity|]. cbn. rewrite P2. split; [exact T2|done].
Qed.

(** ** Blocks *)
Import Thread.Block.

(** What the form asks to block, and the key it names the target with. *)
Definition block_target (p : BlocksPage.Page) : jstr * jstr :=
  match BlocksPage.level p with
  | l1_did => (js "target_did", trim (BlocksPage.targetDid p))
  | _ => (js "target_world_id", trim (BlocksPage.targetWorldId p))
  end.

(** Adding a block: nothing is sent without a target; otherwise one request
    names the level and the target of that level, and the form is cleared when
    the server took it and kept when it did not. *)
Theorem block_created_exact (p : BlocksPage.Page) (t : Tab) :
  exists s', BlocksPage.handleCreate p (ScreenOf t p) = (Ok tt, s') /\
    let '(name, target) := block_target p in
    let payload := JObj [(js "level", JStr (level_name (BlocksPage.level p))); (name, JStr target)] in
    if truthy_str target then
      sc_trace s' = api_event (js "POST") (js "/blocks") payload :: w_trace (b_node (t_browser t)) /\
      sc_page s' =
        (if is_ok (WebApi.createBlock WebApi.defaultApiClient payload (t_browser t)).1
         then BlocksPage.PageOf (BlocksPage.level p) [] [] (js "blocks.added")
         else BlocksPage.setStatusMessage (js "blocks.addFailed") p)
    else
      sc_trace s' = w_trace (b_node (t_browser t)) /\
      sc_page s' = BlocksPage.setStatusMessage (match BlocksPage.level p with l1_did => js "blocks.validationDid" | _ => js "blocks.validationWorldId" end) p.
Proof.
  assert (forall payload, exists s', try_catch (BlocksPage.create_call payload) (fun _ => BlocksPage.say (js "blocks.addFailed"))
      (ScreenOf t (BlocksPage.setStatusMessage [] p)) = (Ok tt, s') /\
      sc_trace s' = api_event (js "POST") (js "/blocks") payload :: w_trace (b_node (t_browser t)) /\
      sc_page s' = (if is_ok (WebApi.createBlock WebApi.defaultApiClient payload (t_browser t)).1
         then BlocksPage.PageOf (BlocksPage.level p) [] [] (js "blocks.added")
         else BlocksPage.setStatusMessage (js "blocks.addFailed") p)) as Hcall.
  { intros payload. unfold BlocksPage.create_call.
    destruct (mutate_settles (Hooks.useCreateBlockMutation payload) _ (ScreenOf t (BlocksPage.setStatusMessage [] p))
      (on_page (BlocksPage.setTargetDid []) ;; on_page (BlocksPage.setTargetWorldId []) ;; BlocksPage.say (js "blocks.added"))
      (fun _ => BlocksPage.say (js "blocks.addFailed"))
      (fun q => BlocksPage.setStatusMessage (js "blocks.added") (BlocksPage.setTargetWorldId [] (BlocksPage.setTargetDid [] q)))
      (fun _ => BlocksPage.setStatusMessage (js "blocks.addFailed")) (request_adds (js "/blocks") (js "POST") payload true))
      as (s' & E & T & Q); [done|done|].
    exists s'. split; [exact E|]. split; [exact T|]. rewrite Q. cbn [sc_tab].
    change (Hooks.mutationFn (Hooks.useCreateBlockMutation payload)) with (WebApi.createBlock WebApi.defaultApiClient payload).
    by destruct (WebApi.createBlock _ _ _).1. }
  unfold BlocksPage.handleCreate, block_target. unfold BlocksPage.say at 1. erewrite bind_ok by reflexivity.
  destruct (BlocksPage.level p) eqn:El;
    (match goal with |- context [truthy_str ?x] => destruct (truthy_str x) end); cbn [negb];
    first [apply Hcall|by eexists].
Qed.

(** ** Pending messages *)

(** The request that moves a message. *)
Definition move_event (i folder : jstr) : option Event :=
  match encodeURIComponent i with
  | Ok eid => Some (api_event (js "PATCH") (js "/messages/" ++ eid ++ js "/flags") (JObj [(js "folder", JStr folder)]))
  | Throw _ => None
  end.

Lemma flags_adds i folder : adds_event (move_event i folder) (Hooks.mutationFn (Hooks.useUpdateMessageFlagsMutation i (Some folder) None)).
Proof.
  intros b. unfold move_event. cbn [Hooks.mutationFn Hooks.useUpdateMessageFlagsMutation Hooks.then_invalidate].
  unfold WebApi.updateMessageFlags. destruct (encodeURIComponent i) as [eid|err].
  - erewrite bind_ok by reflexivity. apply request_adds.
  - cbn. split; [done|]. intros _. by eexists.
Qed.

(** A decision makes one request, and the page says whether the server did it. *)
Lemma move_settles folder success failure i (s : Screen PendingPage.Page) :
  exists s', PendingPage.move_to folder success failure i s = (Ok tt, s') /\
    sc_trace s' = (match move_event i folder with Some e => e :: sc_trace s | None => sc_trace s end) /\
    PendingPage.activeDid (sc_page s') = PendingPage.activeDid (sc_page s) /\
    PendingPage.statusMessage (sc_page s') =
      if is_ok (Hooks.mutationFn (Hooks.useUpdateMessageFlagsMutation i (Some folder) None) (t_browser (sc_tab s))).1 then success else failure.
Proof.
  unfold PendingPage.move_to. unfold PendingPage.say at 1. erewrite bind_ok by reflexivity.
  destruct (mutate_settles (Hooks.useUpdateMessageFlagsMutation i (Some folder) None) _
    (ScreenOf (sc_tab s) (PendingPage.PageOf (PendingPage.activeDid (sc_page s)) [])) (PendingPage.say success) (fun _ => PendingPage.say failure)
    (fun p => PendingPage.PageOf (PendingPage.activeDid p) success) (fun _ p => PendingPage.PageOf (PendingPage.activeDid p) failure)
    (flags_adds i folder)) as (s' & E & T & Q); [done|done|].
  exists s'. split; [exact E|]. split; [exact T|]. rewrite Q. cbn [sc_page sc_tab]. by destruct (Hooks.mutationFn _ _).1.
Qed.

(** Approving moves the message to the inbox and rejecting to the trash. *)
Lemma pending_decided i (s : Screen PendingPage.Page) :
  (exists s', PendingPage.handleApprove i s = (Ok tt, s') /\
     sc_trace s' = (match move_event i (js "inbox") with Some e => e :: sc_trace s | None => sc_trace s end)) /\
  (exists s', PendingPage.handleReject i s = (Ok tt, s') /\
     sc_trace s' = (match move_event i (js "trash") with Some e => e :: sc_trace s | None => sc_trace s end)).
Proof.
  split; [destruct (move_settles (js "inbox") (js "pending.approved") (js "pending.approveFailed") i s) as (s' & E & T & _)
         |destruct (move_settles (js "trash") (js "pending.rejected") (js "pending.rejectFailed") i s) as (s' & E & T & _)];
    exists s'; (split; [exact E|exact T]).
Qed.

(** ** Display names *)

(** The name a form may send: trimmed, and one to 64 code units long. *)
Definition name_ok (typed : jstr) (v : jval) : Prop :=
  exists n, v = JStr n /\ n = trim typed /\ (1 <= length n <= 64)%nat.

Definition name_event (v : jval) : Event := api_event (js "PATCH") (js "/auth/session") (name_payload v).

Lemma name_adds v : adds_event (Some (name_event v)) (Hooks.mutationFn (Hooks.useUpdateProfileMutation (name_payload v))).
Proof. apply request_adds. Qed.

(** Both forms for the display name make at most one request, for a name that is
    trimmed and fits; the profile sends no name for a blank one, the first
    prompt refuses it; a refused name leaves a message. *)
Theorem display_name_checked (typed : jstr) (t : Tab) (pe : option ContactsPage.StatusText) st em :
  (exists s', DisplayNamePrompt.handleSubmit (DisplayNamePrompt.PromptOf typed pe) (ScreenOf t (DisplayNamePrompt.PromptOf typed pe)) = (Ok tt, s') /\
    DisplayNamePrompt.value (sc_page s') = typed /\
    ((sc_trace s' = w_trace (b_node (t_browser t)) /\ is_Some (DisplayNamePrompt.error (sc_page s'))) \/
     exists v, sc_trace s' = name_event v :: w_trace (b_node (t_browser t)) /\ name_ok typed v)) /\
  (exists s', ProfilePanel.handleSubmit (ProfilePanel.PanelOf typed st em) (ScreenOf t (ProfilePanel.PanelOf typed st em)) = (Ok tt, s') /\
    ProfilePanel.displayName (sc_page s') = typed /\
    ((sc_trace s' = w_trace (b_node (t_browser t)) /\ ProfilePanel.status (sc_page s') = ProfilePanel.error) \/
     exists v, sc_trace s' = name_event v :: w_trace (b_node (t_browser t)) /\ (v = JNull /\ trim typed = [] \/ name_ok typed v))).
Proof.
  split.
  - unfold DisplayNamePrompt.handleSubmit. cbn [DisplayNamePrompt.value]. cbv zeta.
    destruct (Nat.eqb_spec (length (trim typed)) 0) as [Hl|Hl]; [eexists; split; [reflexivity|]; split; [done|]; left; by eexists|].
    destruct (Nat.ltb_spec 64 (length (trim typed))) as [Hm|Hm]; [eexists; split; [reflexivity|]; split; [done|]; left; by eexists|].
    unfold DisplayNamePrompt.setError at 1. erewrite bind_ok by reflexivity.
    destruct (mutate_adds (Hooks.useUpdateProfileMutation (name_payload (JStr (trim typed)))) _
      (ScreenOf t (DisplayNamePrompt.PromptOf typed None)) (name_adds _)) as (s2 & E2 & P2 & T2 & _).
    unfold try_catch, mbind, eff_bind. cbn [sc_tab sc_page DisplayNamePrompt.value] in *. rewrite E2.
    destruct (Hooks.mutationFn _ _).1; eexists; (split; [reflexivity|]); cbn [sc_page]; rewrite ?P2;
      (split; [done|]); right; eexists; (split; [exact T2|]); exists (trim typed); (split; [done|]); (split; [done|lia]).
  - unfold ProfilePanel.handleSubmit. unfold ProfilePanel.setOutcome at 1. erewrite bind_ok by reflexivity. cbn [ProfilePanel.displayName]. cbv zeta.
    destruct (Nat.ltb_spec 64 (length (trim typed))) as [Hm|Hm]; [eexists; split; [reflexivity|]; split; [done|]; by left|].
    set (v := if (length (trim typed) =? 0)%nat then JNull else JStr (trim typed)).
    destruct (mutate_settles (Hooks.useUpdateProfileMutation (name_payload v)) _ (ScreenOf t (ProfilePanel.PanelOf typed ProfilePanel.idle None))
      (ProfilePanel.setOutcome ProfilePanel.success None) (fun err => ProfilePanel.setOutcome ProfilePanel.error (Some (ContactsPage.Raw (err_message err))))
      (fun p => ProfilePanel.PanelOf (ProfilePanel.displayName p) ProfilePanel.success None)
      (fun err p => ProfilePanel.PanelOf (ProfilePanel.displayName p) ProfilePanel.error (Some (ContactsPage.Raw (err_message err)))) (name_adds v))
      as (s' & E & T & Q); [done|done|].
    exists s'. split; [exact E|]. split; [rewrite Q; by destruct (Hooks.mutationFn _ _).1|]. right. exists v. split; [exact T|].
    unfold v. destruct (trim typed) as [|x n] eqn:En; [by left|]. right. exists (x :: n). rewrite En. cbn in *. split; [done|]. split; [done|lia].
Qed.
End mutations.
