(* ===== verification/Integrations.v ===== *)
(** The integrations page: apps/web/app/integrations/IntegrationsPanel.tsx.

    A text is its translation key with its parameter, if it has one.  The cards
    for Google Calendar and for the assistant run over the states of Calendar.v
    and Llm.v; their handlers are awaited one after the other. *)
From S2P Require Import Prelude JsNumber Json JsDate Effect Node Envelope ApiClient Browser WebApi WebKeystore Bridge BridgeSpec Calendar Llm Session.

Inductive StatusKind := ok | warn | off.
Record Text := TextOf { t_key : jstr; t_param : option (jstr * jstr) }.
Definition text (k : string) : Text := TextOf (js k) None.

(** ** The service *)

Record ServiceStatus := StatusOf {
  service : jstr; version : jstr; storage_backend : jstr; world_id_verify_enabled : bool;
  database_configured : bool; database_connected : bool; websocket_enabled : bool
}.

Definition storageLabel (backend : jstr) : Text * Text :=
  if jeqb backend (js "localfs") then (text "integrations.storageLocalfs", text "integrations.storageLocalfsDesc")
  else if jeqb backend (js "gdrive") then (text "integrations.storageGdrive", text "integrations.storageGdriveDesc")
  else if jeqb backend (js "gdrive-mock") then (text "integrations.storageGdriveMock", text "integrations.storageGdriveMockDesc")
  else if jeqb backend (js "ipfs") then (text "integrations.storageIpfs", text "integrations.storageIpfsDesc")
  else if jeqb backend (js "s3") then (text "integrations.storageS3", text "integrations.storageS3Desc")
  else (TextOf (js "integrations.storageUnknown") (Some (js "backend", backend)), text "integrations.storageUnknownDesc").

Record Row := RowOf { r_title : Text; r_description : Text; r_kind : StatusKind; r_status : Text; r_detail : option Text }.

Definition world_id_row (s : ServiceStatus) : Row :=
  let enabled := world_id_verify_enabled s in
  RowOf (text "integrations.worldIdTitle") (text "integrations.worldIdDesc") (if enabled then ok else warn)
    (if enabled then text "integrations.worldIdConfigured" else text "integrations.worldIdNotConfigured")
    (Some (if enabled then text "integrations.worldIdDetailOk" else text "integrations.worldIdDetailMissing")).

(** The detail of the storage row is a text of its own, not a key. *)
Definition storage_row (s : ServiceStatus) : Row * jstr :=
  let storage := storageLabel (storage_backend s) in
  (RowOf storage.1 storage.2 ok (text "integrations.byosEnabled") None, js "backend = " ++ storage_backend s).

Definition database_row (s : ServiceStatus) : Row :=
  RowOf (text "integrations.pgTitle") (text "integrations.pgDesc")
    (if database_configured s then (if database_connected s then ok else warn) else off)
    (if database_configured s then
       (if database_connected s then text "integrations.pgConnected" else text "integrations.pgConfigured")
     else text "integrations.pgNotConfigured") None.

Definition websocket_row (s : ServiceStatus) : Row :=
  RowOf (text "integrations.wsTitle") (text "integrations.wsDesc") (if websocket_enabled s then ok else off)
    (if websocket_enabled s then text "integrations.wsEnabled" else text "integrations.wsDisabled") None.

(** What the panel shows. *)
Inductive Panel := Loading | Failed | Ready (world_id : Row) (storage : Row * jstr) (database websocket : Row) (agents : option nat).

Definition IntegrationsPanel (isPending isError : bool) (data : option ServiceStatus) (agentsPending : bool) (agents : option nat) : Panel :=
  if isPending then Loading
  else match data with
  | Some s =>
    if isError then Failed
    else Ready (world_id_row s) (storage_row s) (database_row s) (websocket_row s) (if agentsPending then None else Some (default 0%nat agents))
  | None => Failed
  end.

(** ** Google Calendar *)
Module GoogleCalendarCard.
Import GcalAuth.

Record Card := CardOf { c_cal : Calendar; connected : option bool; busy : bool; error : option jstr }.
Abbreviation KM := (eff Card).

Definition opened (c : Calendar) : Card := CardOf c None false None.

Definition in_cal {A} (m : CM A) : KM A :=
  fun k => let '(r, c) := m (c_cal k) in (r, CardOf c (connected k) (busy k) (error k)).
Definition setConnected (v : bool) : KM unit := fun k => (Ok tt, CardOf (c_cal k) (Some v) (busy k) (error k)).
Definition setBusy (v : bool) : KM unit := fun k => (Ok tt, CardOf (c_cal k) (connected k) v (error k)).
Definition setError (e : option jstr) : KM unit := fun k => (Ok tt, CardOf (c_cal k) (connected k) (busy k) e).

(** [try { m } finally { f }]. *)
Definition finally_ {S} (m f : eff S unit) : eff S unit :=
  fun s => let '(r, s1) := m s in let '(r', s2) := f s1 in (match r' with Ok _ => r | Throw e => Throw e end, s2).

Section card.
Context `{Host, Env, BrowserEnv, Gis}.

(** Also the effect of the first render. *)
Definition refresh : KM unit := live ← in_cal isCalendarConnected; setConnected live.

Definition onConnect : KM unit :=
  setError None ;; setBusy true ;;
  finally_
    (try_catch (in_cal requestCalendarToken ;; refresh) (fun e => setError (Some (err_message e))))
    (setBusy false).

Definition onDisconnect : KM unit :=
  setBusy true ;; finally_ (in_cal disconnectCalendar ;; refresh) (setBusy false).

Definition sdkMissing : bool := match calendarClientId with Some _ => false | None => true end.
Definition is_connected (k : Card) : bool := match connected k with Some c => c | None => false end.
Definition badge (k : Card) : StatusKind * Text :=
  if sdkMissing then (off, text "integrations.gcalNotConfigured")
  else if is_connected k then (ok, text "integrations.gcalConnected")
  else (warn, text "integrations.gcalDisconnected").

(** The button that is offered. *)
Inductive Button := Connect | Disconnect.
Definition button (k : Card) : option Button :=
  if sdkMissing then None else Some (if is_connected k then Disconnect else Connect).

End card.
End GoogleCalendarCard.

(** ** The assistant *)
Module AIAssistantCard.
Import LlmAuth.

Record Card := CardOf {
  c_llm : Llm; fingerprint : option jstr; model_ : option jstr; busy : bool; error : option jstr; editing : bool; draftKey : jstr
}.
Abbreviation KM := (eff Card).

Definition opened (l : Llm) : Card := CardOf l None None false None false [].

Definition in_llm {A} (m : LM A) : KM A :=
  fun k => let '(r, l) := m (c_llm k) in (r, CardOf l (fingerprint k) (model_ k) (busy k) (error k) (editing k) (draftKey k)).
Definition upd (f : Card -> Card) : KM unit := fun k => (Ok tt, f k).
Definition setFingerprint v : KM unit := upd (fun k => CardOf (c_llm k) v (model_ k) (busy k) (error k) (editing k) (draftKey k)).
Definition setModel v : KM unit := upd (fun k => CardOf (c_llm k) (fingerprint k) v (busy k) (error k) (editing k) (draftKey k)).
Definition setBusy v : KM unit := upd (fun k => CardOf (c_llm k) (fingerprint k) (model_ k) v (error k) (editing k) (draftKey k)).
Definition setError v : KM unit := upd (fun k => CardOf (c_llm k) (fingerprint k) (model_ k) (busy k) v (editing k) (draftKey k)).
Definition setEditing v : KM unit := upd (fun k => CardOf (c_llm k) (fingerprint k) (model_ k) (busy k) (error k) v (draftKey k)).
Definition setDraftKey v : KM unit := upd (fun k => CardOf (c_llm k) (fingerprint k) (model_ k) (busy k) (error k) (editing k) v).

Section card.
Context `{Host, Env, BrowserEnv}.

Definition refresh : KM unit :=
  fp ← in_llm getLLMKeyFingerprint;
  setFingerprint fp ;;
  if truthy_ostr fp then entry ← in_llm getLLMKey; setModel (model <$> entry) else setModel None.

(** Of a render whose draft was [draft]. *)
Definition onSave (draft : jstr) : KM unit :=
  setError None ;; setBusy true ;;
  GoogleCalendarCard.finally_
    (try_catch
      (in_llm (saveLLMKey None draft None) ;; setDraftKey [] ;; setEditing false ;; refresh)
      (fun e => setError (Some (err_message e))))
    (setBusy false).

Definition onDisconnect : KM unit :=
  setBusy true ;; GoogleCalendarCard.finally_ (in_llm disconnectLLM ;; refresh) (setBusy false).

Definition startUpdate : KM unit := setEditing true ;; setDraftKey [].
Definition cancelEdit : KM unit := setEditing false ;; setDraftKey [] ;; setError None.

Definition connected (k : Card) : bool := truthy_ostr (fingerprint k) && negb (editing k).
Definition badge (k : Card) : StatusKind * Text :=
  if connected k then (ok, text "integrations.aiConnected") else (warn, text "integrations.aiDisconnected").
Definition save_enabled (k : Card) : bool := negb (busy k) && negb (length (trim (draftKey k)) =? 0)%nat.

End card.
End AIAssistantCard.

(** * Lemmas *)

(** ** The assistant's card *)

#[local] Arguments LlmAuth.getLLMKey : simpl never.
#[local] Arguments LlmAuth.disconnectLLM : simpl never.
#[local] Arguments AIAssistantCard.refresh : simpl never.

Section assistant.
Context `{Host, Env, BrowserEnv, !NeverRefuses}.

Lemma getLLMKey_ok l : exists l', LlmAuth.getLLMKey l = (Ok (LlmAuth.l_key l), l') /\ LlmAuth.l_key l' = LlmAuth.l_key l.
Proof.
  unfold LlmAuth.getLLMKey, LlmAuth.dbGet, LlmAuth.in_browser_, try_catch, mbind, eff_bind. rewrite in_browser. cbn [negb].
  rewrite idb_call_ok. by eexists.
Qed.

Lemma disconnectLLM_ok l : exists l', LlmAuth.disconnectLLM l = (Ok tt, l') /\ LlmAuth.l_key l' = None.
Proof.
  unfold LlmAuth.disconnectLLM, LlmAuth.dbDelete, LlmAuth.in_browser_, LlmAuth.set_key, try_catch, mbind, eff_bind.
  rewrite in_browser. cbn [negb]. rewrite idb_call_ok. by eexists.
Qed.

Lemma saveLLMKey_ok draft l : truthy_str (trim draft) = true ->
  exists l' at_, LlmAuth.saveLLMKey None draft None l
      = (Ok (LlmAuth.LLMKey (js "anthropic") (trim draft) LlmAuth.DEFAULT_ANTHROPIC_MODEL at_), l') /\
    LlmAuth.l_key l' = Some (LlmAuth.LLMKey (js "anthropic") (trim draft) LlmAuth.DEFAULT_ANTHROPIC_MODEL at_).
Proof.
  intros Ht. unfold LlmAuth.saveLLMKey. rewrite in_browser. cbn [negb]. rewrite Ht. cbn [negb].
  erewrite bind_ok by reflexivity. unfold LlmAuth.dbPut, LlmAuth.in_browser_, LlmAuth.set_key, mbind, eff_bind, host, now_ms, mret, eff_ret. cbn.
  rewrite idb_call_ok. cbn. eexists _, _. by split.
Qed.

(** What the card shows of a stored key. *)
Definition key_fingerprint (k : jstr) : jstr := js "•••" ++ drop (length k - 4) k.

(** A card that shows the key that is stored, and nothing else of it. *)
Record card_shows (k : AIAssistantCard.Card) : Prop := {
  shows_fingerprint : AIAssistantCard.fingerprint k = (fun e => key_fingerprint (LlmAuth.api_key e)) <$> LlmAuth.l_key (AIAssistantCard.c_llm k);
  shows_model : AIAssistantCard.model_ k = LlmAuth.model <$> LlmAuth.l_key (AIAssistantCard.c_llm k)
}.

Lemma refresh_shows k : exists k', AIAssistantCard.refresh k = (Ok tt, k') /\ card_shows k' /\
  LlmAuth.l_key (AIAssistantCard.c_llm k') = LlmAuth.l_key (AIAssistantCard.c_llm k) /\
  AIAssistantCard.busy k' = AIAssistantCard.busy k /\ AIAssistantCard.error k' = AIAssistantCard.error k /\
  AIAssistantCard.editing k' = AIAssistantCard.editing k /\ AIAssistantCard.draftKey k' = AIAssistantCard.draftKey k.
Proof.
  unfold AIAssistantCard.refresh, AIAssistantCard.in_llm, LlmAuth.getLLMKeyFingerprint, mbind, eff_bind.
  destruct (getLLMKey_ok (AIAssistantCard.c_llm k)) as (l1 & E1 & K1). rewrite E1. cbn.
  destruct (LlmAuth.l_key (AIAssistantCard.c_llm k)) as [e|] eqn:Ek; cbn.
  - assert (forall x, truthy_str (js "•••" ++ x) = true) as -> by done. cbn. destruct (getLLMKey_ok l1) as (l2 & E2 & K2). rewrite E2. cbn. eexists. split; [reflexivity|].
    cbn. split; [|by rewrite K2, K1]. split; cbn; by rewrite K2, K1.
  - eexists. split; [reflexivity|]. cbn. split; [|by rewrite K1]. split; cbn; by rewrite K1.
Qed.

(** The card of the assistant.  Saving a key stores it trimmed and empties the
    field, and this card and every card opened later show its last four
    characters and the default model; disconnecting forgets it. *)
Theorem assistant_card_follows_key (draft : jstr) (k : AIAssistantCard.Card) :
  truthy_str (trim draft) = true ->
  exists k1, AIAssistantCard.onSave draft k = (Ok tt, k1) /\
    AIAssistantCard.fingerprint k1 = Some (key_fingerprint (trim draft)) /\ card_shows k1 /\
    AIAssistantCard.draftKey k1 = [] /\ AIAssistantCard.connected k1 = true /\ AIAssistantCard.busy k1 = false /\ AIAssistantCard.error k1 = None /\
    (exists later, AIAssistantCard.refresh (AIAssistantCard.opened (AIAssistantCard.c_llm k1)) = (Ok tt, later) /\
       AIAssistantCard.fingerprint later = AIAssistantCard.fingerprint k1 /\ AIAssistantCard.model_ later = AIAssistantCard.model_ k1) /\
    exists k2, AIAssistantCard.onDisconnect k1 = (Ok tt, k2) /\ LlmAuth.l_key (AIAssistantCard.c_llm k2) = None /\
      AIAssistantCard.fingerprint k2 = None /\ AIAssistantCard.connected k2 = false /\ AIAssistantCard.busy k2 = false.
Proof.
  intros Ht. unfold AIAssistantCard.onSave. erewrite bind_ok by reflexivity. erewrite bind_ok by reflexivity.
  cbn [AIAssistantCard.upd]. set (k0 := AIAssistantCard.CardOf _ _ _ _ _ _ _).
  destruct (saveLLMKey_ok draft (AIAssistantCard.c_llm k0) Ht) as (l1 & at_ & E1 & K1).
  unfold GoogleCalendarCard.finally_, try_catch. unfold AIAssistantCard.in_llm at 1. unfold mbind at 1, eff_bind at 1. rewrite E1.
  unfold AIAssistantCard.setDraftKey at 1. erewrite bind_ok by reflexivity. unfold AIAssistantCard.setEditing at 1. erewrite bind_ok by reflexivity.
  cbn. match goal with |- context [AIAssistantCard.refresh ?x] => destruct (refresh_shows x) as (k1 & E2 & [F1 M1] & L1 & _ & R1 & D1 & Y1) end.
  cbn in *. rewrite E2. cbn. rewrite K1 in L1. rewrite L1 in F1, M1. cbn in F1, M1.
  eexists. split; [reflexivity|]. cbn. split_and!; try done.
  - split; cbn; by rewrite L1, ?F1, ?M1.
  - unfold AIAssistantCard.connected. cbn. by rewrite F1, D1.
  - match goal with |- context [AIAssistantCard.refresh ?x] => destruct (refresh_shows x) as (k2 & E3 & [F2 M2] & L2 & _) end.
    exists k2. split; [exact E3|]. rewrite F2, M2, L2. cbn. by rewrite L1, F1, M1.
  - unfold AIAssistantCard.onDisconnect. erewrite bind_ok by reflexivity. cbn. unfold GoogleCalendarCard.finally_.
    unfold AIAssistantCard.in_llm at 1. unfold mbind at 1, eff_bind at 1. cbn.
    destruct (disconnectLLM_ok (AIAssistantCard.c_llm k1)) as (l2 & E3 & K2). rewrite E3.
    match goal with |- context [AIAssistantCard.refresh ?x] => destruct (refresh_shows x) as (k2 & E4 & [F2 M2] & L2 & _) end.
    cbn in *. rewrite E4. cbn. eexists. split; [reflexivity|]. cbn. rewrite K2 in L2. rewrite L2 in F2. split_and!; [done|done| |done].
    unfold AIAssistantCard.connected. cbn. by rewrite F2.
Qed.
End assistant.

(** ** The calendar's card *)

Section calendar_card.
Context `{Host, Env, BrowserEnv, GcalAuth.Gis}.

(** Whatever fails, a handler leaves the card ready for the next. *)
Lemma calendar_card_rests k :
  GoogleCalendarCard.busy (GoogleCalendarCard.onConnect k).2 = false /\ GoogleCalendarCard.busy (GoogleCalendarCard.onDisconnect k).2 = false.
Proof.
  unfold GoogleCalendarCard.onConnect, GoogleCalendarCard.onDisconnect, GoogleCalendarCard.finally_.
  split; repeat (erewrite bind_ok by reflexivity); by match goal with |- context [let '(_, _) := ?m in _] => destruct m end.
Qed.

(** The card calls a connection whose token has expired disconnected, and
    offers to connect only: the record stays, and the executor renews it. *)
Lemma expired_connection_stays `{!NeverRefuses} (c : GcalAuth.Calendar) tok :
  GcalAuth.c_token c = Some tok -> is_Some GcalAuth.calendarClientId ->
  (forall h, GcalAuth.expires_at tok - GcalAuth.REFRESH_MARGIN_MS <= env_now h) ->
  exists k, GoogleCalendarCard.refresh (GoogleCalendarCard.opened c) = (Ok tt, k) /\
    GoogleCalendarCard.button k = Some GoogleCalendarCard.Connect /\ GcalAuth.c_token (GoogleCalendarCard.c_cal k) = Some tok.
Proof.
  intros Hc [cid Hid] Hexp. unfold GoogleCalendarCard.refresh, GoogleCalendarCard.in_cal, mbind at 1, eff_bind at 1. cbn.
  assert (exists c', GcalAuth.isCalendarConnected c = (Ok false, c') /\ GcalAuth.c_token c' = Some tok) as (c' & E & T).
  { unfold GcalAuth.isCalendarConnected. rewrite in_browser. cbn [negb]. unfold try_catch.
    unfold GcalAuth.dbGet, GcalAuth.in_browser_, mbind, eff_bind. rewrite idb_call_ok. cbn. rewrite Hc. cbn.
    unfold mbind, eff_bind. match goal with |- context [GcalAuth.now_of ?x] => destruct (now_of_run x) as (h & c1 & E1 & T1) end.
    rewrite E1. cbn. specialize (Hexp h). destruct (Z.ltb_spec (env_now h) (GcalAuth.expires_at tok - GcalAuth.REFRESH_MARGIN_MS)); [lia|].
    eexists. split; [reflexivity|]. by rewrite T1. }
  rewrite E. eexists. split; [reflexivity|]. cbn. split; [|exact T].
  unfold GoogleCalendarCard.button, GoogleCalendarCard.sdkMissing. by rewrite Hid.
Qed.
End calendar_card.

(** Only a database that is configured and connected is shown as such. *)
Lemma database_row_kinds s :
  (r_kind (database_row s) = ok <-> database_configured s = true /\ database_connected s = true) /\
  (r_kind (database_row s) = off <-> database_configured s = false).
Proof. unfold database_row. destruct (database_configured s), (database_connected s); naive_solver. Qed.
