(* ===== verification/AuditPage.v ===== *)
(** The audit log page: apps/web/app/settings/audit/page.tsx.

    A text is its translation key.  The page's filters are its state, which the
    address fills once; every action is the handler of one control. *)
From S2P Require Import Prelude Utf8 JsNumber Json JsDate Effect Node Envelope ApiClient Browser Urls WebApi AutoReply WebKeystore Llm Session Contacts AgentInbox.

Module AuditLogPage.

Inductive Severity := info | warn | critical.
Record EventMeta := Meta { labelKey : jstr; severity : Severity; descriptionKey : jstr }.
Definition meta (label : string) (s : Severity) : EventMeta := Meta (js "audit." ++ js label) s (js "audit." ++ js label ++ js "Desc").

Definition EVENT_META : list (jstr * EventMeta) :=
  [(js "token_issued", meta "tokenIssued" info);
   (js "token_refreshed", meta "tokenRefreshed" info);
   (js "token_revoked", meta "tokenRevoked" warn);
   (js "credential_created", meta "credentialCreated" info);
   (js "credential_activated", meta "credentialActivated" info);
   (js "credential_revoked", meta "credentialRevoked" warn);
   (js "key_rotation_started", meta "keyRotationStarted" info);
   (js "credential_compromised", meta "credentialCompromised" critical);
   (js "refresh_reuse_detected", meta "refreshReuseDetected" critical);
   (js "agent_message_sent", meta "agentMessageSent" info);
   (js "emergency_shutdown", meta "emergencyShutdown" critical);
   (js "rate_limit_tripped", meta "rateLimitTripped" warn);
   (js "policy_violation", meta "policyViolation" warn);
   (js "bridged_decrypt", meta "bridgedDecrypt" info);
   (js "bridged_status", meta "bridgedStatus" info);
   (js "bridged_pair_requested", meta "bridgedPairRequested" info);
   (js "bridged_pair_succeeded", meta "bridgedPairSucceeded" info);
   (js "bridged_pair_failed", meta "bridgedPairFailed" warn);
   (js "bridged_pair_revoked", meta "bridgedPairRevoked" warn)].

Definition own_meta (event : jstr) : option EventMeta :=
  (fun kv => kv.2) <$> List.find (fun kv => jeqb kv.1 event) EVENT_META.

Definition severityColor (s : Severity) : jstr :=
  match s with info => js "#6b7280" | warn => js "#d97706" | critical => js "#dc2626" end.

(** [shown] is [toLocaleString("ja-JP", ...)] of a time, or of an invalid one. *)
Definition formatTimestamp `{Host} (shown : option Z -> jstr) (iso : jstr) : jstr := shown (date_parse iso).

(** ** The guide *)

Definition guide_sections : list (jstr * Severity * list jstr) :=
  [(js "audit.guideInfo", info,
    [js "token_issued"; js "token_refreshed"; js "credential_created"; js "credential_activated"; js "key_rotation_started"; js "agent_message_sent"]);
   (js "audit.guideWarn", warn, [js "token_revoked"; js "credential_revoked"; js "rate_limit_tripped"; js "policy_violation"]);
   (js "audit.guideCritical", critical, [js "refresh_reuse_detected"; js "credential_compromised"; js "emergency_shutdown"])].

(** The entries of a section: the event, its label and its description. *)
Definition guide_entries (events : list jstr) : list (jstr * jstr * jstr) :=
  omap (fun e => (fun m => (e, labelKey m, descriptionKey m)) <$> own_meta e) events.

(** ** An entry of the log *)

Record AuditLogEntry := Entry {
  id : jstr; credential_id : option jstr; aid : option jstr; event : jstr; detail : list (jstr * jval); created_at : jstr
}.

(** A text that is shown: the translation of a key, or itself. *)
Inductive Shown := Key (key : jstr) | Raw (s : jstr).

Record Card := CardOf {
  c_severity : Severity; c_label : Shown; c_description : option jstr; c_aid : option jstr; c_credential : option jstr;
  c_detail : option jstr; c_expanded : bool
}.

(** An event that the object literal inherits has no label key, and translating
    [undefined] throws. *)
Definition meta_of (event : jstr) : res EventMeta :=
  match own_meta event with
  | Some m => Ok m
  | None =>
    if bool_decide (event ∈ object_prototype_keys) then Throw (TypeError_ (js "Cannot read properties of undefined (reading 'split')"))
    else Ok (Meta event info [])
  end.

Definition render_entry (expandedId : option jstr) (entry : AuditLogEntry) : res Card :=
  m ← meta_of (event entry);
  Ok (CardOf (severity m) (if jeqb (labelKey m) (event entry) then Raw (event entry) else Key (labelKey m))
        (if truthy_str (descriptionKey m) then Some (descriptionKey m) else None)
        (if truthy_ostr (aid entry) then aid entry else None)
        (if truthy_ostr (credential_id entry) then (fun c => take 8 c ++ js "...") <$> credential_id entry else None)
        (if (length (detail entry) =? 0)%nat then None else Some (json_stringify_indent 2 (JObj (detail entry))))
        (bool_decide (expandedId = Some (id entry)))).

(** ** The filters *)

Record Filters := FiltersOf {
  eventFilter : jstr; aidFilter : jstr; presetPrefix : option jstr; page : Z; expandedId : option jstr
}.

Definition pageSize : Z := 30.

Definition opened (search : jstr) : Filters :=
  let params := parse_params search in
  FiltersOf (default [] (params_get (js "event") params)) (default [] (params_get (js "aid") params)) None 0 None.

Definition optional (s : jstr) : option jstr := if truthy_str s then Some s else None.

Definition query (f : Filters) : Hooks.AuditLogQuery :=
  Hooks.AuditQuery None (optional (aidFilter f)) (optional (eventFilter f))
    (if truthy_ostr (presetPrefix f) && negb (truthy_str (eventFilter f)) then presetPrefix f else None)
    (Some (num pageSize)) (Some (num (page f * pageSize))).

Definition totalPages (total : Z) : Z := - ((- total) / pageSize).

Definition bridged : jstr := js "bridged_".

Definition onEventChange (value : jstr) (f : Filters) : Filters :=
  FiltersOf value (aidFilter f) (if truthy_str value then None else presetPrefix f) 0 (expandedId f).

Definition togglePreset (f : Filters) : Filters :=
  if bool_decide (presetPrefix f = Some bridged) then FiltersOf (eventFilter f) (aidFilter f) None 0 (expandedId f)
  else FiltersOf [] (aidFilter f) (Some bridged) 0 (expandedId f).

Definition clearAid (f : Filters) : Filters := FiltersOf (eventFilter f) [] (presetPrefix f) 0 (expandedId f).

Definition toggleExpanded (i : jstr) (f : Filters) : Filters :=
  FiltersOf (eventFilter f) (aidFilter f) (presetPrefix f) (page f)
    (if bool_decide (expandedId f = Some i) then None else Some i).

(** The two buttons, with what disables them. *)
Definition previous (f : Filters) : Filters :=
  if page f =? 0 then f else FiltersOf (eventFilter f) (aidFilter f) (presetPrefix f) (Z.max 0 (page f - 1)) (expandedId f).
Definition next (total : Z) (f : Filters) : Filters :=
  if totalPages total - 1 <=? page f then f
  else FiltersOf (eventFilter f) (aidFilter f) (presetPrefix f) (page f + 1) (expandedId f).

(** What the pill of the agent shows. *)
Definition aid_pill (f : Filters) : option jstr :=
  if truthy_str (aidFilter f) then
    Some (if (28 <? length (aidFilter f))%nat
          then take 14 (aidFilter f) ++ js "…" ++ drop (length (aidFilter f) - 8) (aidFilter f)
          else aidFilter f)
  else None.

Inductive Action := Choose (event : jstr) | Preset | ClearAid | Previous | Next (total : Z) | Expand (i : jstr).

Definition act (f : Filters) (a : Action) : Filters :=
  match a with
  | Choose e => onEventChange e f
  | Preset => togglePreset f
  | ClearAid => clearAid f
  | Previous => previous f
  | Next total => next total f
  | Expand i => toggleExpanded i f
  end.

End AuditLogPage.

(** * Lemmas *)

Module AuditFacts.
Import AuditLogPage.

(** What the filters mean to the server: a pair for each that is set. *)
Definition sent_pairs (f : Filters) : list (jstr * jstr) :=
  (if truthy_str (aidFilter f) then [(js "aid", aidFilter f)] else [])
  ++ (if truthy_str (eventFilter f) then [(js "event", eventFilter f)]
      else match presetPrefix f with Some p => [(js "event_prefix", p)] | None => [] end)
  ++ [(js "limit", js "30")] ++ (if page f =? 0 then [] else [(js "offset", dec_of_Z (page f * 30))]).

(** The filters are texts, at most one of the two for events is on, and the page
    is one the log has had. *)
Record filters_ok (f : Filters) : Prop := {
  event_text : Forall unit_ok (eventFilter f) /\ is_well_formed (eventFilter f) = true;
  aid_text : Forall unit_ok (aidFilter f) /\ is_well_formed (aidFilter f) = true;
  preset_known : presetPrefix f = None \/ (presetPrefix f = Some bridged /\ eventFilter f = []);
  page_bounds : 0 <= page f /\ page f * 30 < 2 ^ 53
}.

Definition action_ok (a : Action) : Prop :=
  match a with
  | Choose e => e = [] \/ exists m, own_meta e = Some m
  | Next total => total < 2 ^ 53
  | _ => True
  end.

Definition text_okb (s : jstr) : bool := bool_decide (Forall unit_ok s) && is_well_formed s.

Lemma known_event_text e m : own_meta e = Some m -> Forall unit_ok e /\ is_well_formed e = true.
Proof.
  intros E. assert (forallb (fun kv => text_okb kv.1) EVENT_META = true) as Hall by by vm_compute.
  unfold own_meta in E. destruct (List.find _ _) as [kv|] eqn:F; [|done]. apply find_some in F as [Hin Hj%jeqb_true].
  rewrite forallb_forall in Hall. specialize (Hall kv Hin). rewrite Hj in Hall. unfold text_okb in Hall.
  apply andb_true_iff in Hall as [H1%bool_decide_eq_true_1 H2]. done.
Qed.

Lemma opened_ok search : Forall pair_ok (parse_params search) -> filters_ok (opened search).
Proof.
  intros Hp. assert (forall k, let v := default [] (params_get k (parse_params search)) in Forall unit_ok v /\ is_well_formed v = true) as Hg.
  { intros k. induction Hp as [|[k' v] l Hkv _ IH]; [split; [constructor|done]|]. cbn. destruct (jeqb k' k); [by destruct Hkv|exact IH]. }
  split; cbn; [apply Hg|apply Hg|by left|done].
Qed.

Lemma act_keeps f a : filters_ok f -> action_ok a -> filters_ok (act f a).
Proof.
  intros [He Ha Hp Hb] Hok. destruct a as [e| | | |total|i]; cbn [act] in *.
  - destruct Hok as [-> | [m Hm]].
    + split; cbn; [split; [constructor|done]|done| |done]. destruct Hp as [->|[-> _]]; [by left|by right].
    + pose proof (known_event_text e m Hm). split; cbn; [done|done| |done]. destruct e; [|by left].
      destruct Hp as [->|[-> _]]; [by left|by right].
  - unfold togglePreset. case_bool_decide; split; cbn; [done|done|by left|done|split; [constructor|done]|done|by right|done].
  - split; cbn; [done|split; [constructor|done]|done|done].
  - unfold previous. destruct (Z.eqb_spec (page f) 0); [done|]. split; cbn; [done..|]. lia.
  - unfold next. destruct (Z.leb_spec (totalPages total - 1) (page f)) as [|Hl]; [done|]. split; cbn; [done..|].
    cbn in Hok. unfold totalPages, pageSize in Hl. pose proof (Z.div_mod (- total) 30 ltac:(lia)). pose proof (Z.mod_pos_bound (- total) 30 ltac:(lia)). lia.
  - by split.
Qed.

Lemma reached_ok search acts : Forall pair_ok (parse_params search) -> Forall action_ok acts -> filters_ok (fold_left act acts (opened search)).
Proof.
  intros Hs Ha. pose proof (opened_ok search Hs) as Ho. revert Ho. generalize (opened search).
  induction Ha as [|a acts Ha _ IH]; intros f Hf; cbn; [done|]. by apply IH, act_keeps.
Qed.

Lemma query_pairs f : filters_ok f ->
  WebApi.audit_params (Hooks.credential_id (query f)) (Hooks.aid (query f)) (Hooks.event (query f)) (Hooks.event_prefix (query f))
    (Hooks.limit (query f)) (Hooks.offset (query f)) = sent_pairs f.
Proof.
  intros [_ _ Hp [Hb1 Hb2]]. unfold WebApi.audit_params, query, sent_pairs, optional. cbn [Hooks.credential_id Hooks.aid Hooks.event Hooks.event_prefix Hooks.limit Hooks.offset].
  assert (WebApi.num_param (js "limit") (Some (num pageSize)) = [(js "limit", js "30")]) as -> by by vm_compute.
  assert (WebApi.num_param (js "offset") (Some (num (page f * pageSize))) = (if page f =? 0 then [] else [(js "offset", dec_of_Z (page f * 30))])) as ->.
  { unfold WebApi.num_param, pageSize. cbn [jtruthy]. destruct (Z.eqb_spec (page f) 0) as [-> |Hn]; [done|].
    rewrite num_to_string_int by (unfold safe_int; lia). unfold num, num_truthy.
    assert (negb (Qeq_bool (page f * 30 # 1) 0) = true) as ->; [|done].
    apply negb_true_iff. unfold Qeq_bool. cbn -[Z.mul]. apply not_true_iff_false. intros ?%Zeq_bool_eq. lia. }
  cbn [WebApi.set_param app]. destruct (aidFilter f) as [|x a]; destruct (eventFilter f) as [|y e];
    (destruct Hp as [E | [E He]]; [|try discriminate He]); by rewrite ?E.
Qed.

Lemma ascii_wf s : ascii_text s -> Forall unit_ok s /\ is_well_formed s = true.
Proof. intros Hs. split; [by apply ascii_units|by apply ascii_well_formed]. Qed.

Lemma closed_ascii s : forallb (fun c => (0 <=? c) && (c <? 128)) s = true -> ascii_text s.
Proof. rewrite forallb_forall. intros Hs. apply Forall_forall. intros c Hc%list_elem_of_In. specialize (Hs c Hc). lia. Qed.

Lemma named_ok k v : forallb (fun c => (0 <=? c) && (c <? 128)) k = true -> Forall unit_ok v /\ is_well_formed v = true -> pair_ok (k, v).
Proof. intros Hk Hv. split; [by apply ascii_wf, closed_ascii|done]. Qed.

(** The text of every filter can be sent. *)
Lemma sent_pairs_ok f : filters_ok f -> Forall pair_ok (sent_pairs f).
Proof.
  intros [He Ha Hp _]. unfold sent_pairs. rewrite !Forall_app. split_and!.
  - destruct (truthy_str (aidFilter f)); constructor; [|constructor]. by apply named_ok; [vm_compute|].
  - destruct (truthy_str (eventFilter f)); [constructor; [|constructor]; by apply named_ok; [vm_compute|]|].
    destruct Hp as [-> | [-> _]]; constructor; [|constructor]. apply named_ok; [by vm_compute|]. by apply ascii_wf, closed_ascii; vm_compute.
  - constructor; [|constructor]. apply named_ok; [by vm_compute|]. by apply ascii_wf, closed_ascii; vm_compute.
  - destruct (page f =? 0); constructor; [|constructor]. apply named_ok; [by vm_compute|]. apply ascii_wf, dec_of_Z_ascii.
Qed.

(** The audit log's filters.  Wherever the page was linked from and whichever
    controls were used, the address it asks the server for, read back, says
    exactly what the controls show: the agent if one is set, the event or the
    bridge preset but never both, the page size, and the page's offset; and
    changing a filter goes back to the first page. *)
Theorem audit_filters_sent (search : jstr) (acts : list Action) :
  Forall pair_ok (parse_params search) -> Forall action_ok acts ->
  let f := fold_left act acts (opened search) in
  let q := query f in
  (eventFilter f = [] \/ presetPrefix f = None) /\
  parse_params (location_search (js "/agent-audit-log?" ++ url_search_params
     (WebApi.audit_params (Hooks.credential_id q) (Hooks.aid q) (Hooks.event q) (Hooks.event_prefix q) (Hooks.limit q) (Hooks.offset q))))
  = sent_pairs f /\
  (forall e, page (act f (Choose e)) = 0) /\ page (act f Preset) = 0 /\ page (act f ClearAid) = 0.
Proof.
  intros Hs Ha f q. pose proof (reached_ok search acts Hs Ha) as Hf. fold f in Hf.
  split; [destruct Hf as [_ _ [->|[_ ->]] _]; [by right|by left]|].
  split; [|split; [done|split; [unfold act, togglePreset; by case_bool_decide|done]]].
  unfold q. rewrite query_pairs by done. apply (params_roundtrip (js "/agent-audit-log")).
  - apply (bool_decide_eq_true_1 _). by vm_compute.
  - by apply sent_pairs_ok.
  - unfold sent_pairs. by destruct (truthy_str (aidFilter f)), (truthy_str (eventFilter f)); [..|destruct (presetPrefix f)].
Qed.
End AuditFacts.
