(* ===== verification/CardViews.v ===== *)
(** What the cards of protocol messages show:
    apps/web/app/_components/protocol/ScheduleNegotiationCard.tsx,
    TaskDelegationCard.tsx and the router of ProtocolMessageRouter.tsx.  The
    handlers of the cards are in Propose.v.

    A card is the data React is given.  The payload has passed the parser only,
    which checks that it is an object; rendering it may throw, and takes the page
    with it.  A text of the interface is its key with its parameter; [shown] is
    [toLocaleString] of a time. *)
From S2P Require Import Prelude Utf8 JsNumber Json JsDate Effect Node Envelope A2A A2AReply Urls Views Propose Llm.

(** A text of the interface. *)
Record Said := Say { s_key : jstr; s_param : option (jstr * jstr) }.
Definition say (k : string) : Said := Say (js k) None.
Definition say_with (k p : string) (v : jstr) : Said := Say (js k) (Some (js p, v)).

(** ** React and JavaScript on untyped values *)

(** A child of an element: its texts; an object is no valid child. *)
Fixpoint child (v : jval) : res (list jstr) :=
  match v with
  | JUndef | JNull | JBool _ => Ok []
  | JNum n => Ok [num_to_string n]
  | JStr s => Ok [s]
  | JArr l =>
    (fix children (l : list jval) : res (list jstr) :=
       match l with
       | [] => Ok []
       | x :: r => a ← child x; b ← children r; Ok (a ++ b)
       end) l
  | JObj _ => Throw (Error_ (js "Objects are not valid as a React child"))
  end.

(** [{v ? <p>{v}</p> : null}]. *)
Definition child_if (v : jval) : res (option (list jstr)) :=
  if jtruthy v then c ← child v; Ok (Some c) else Ok None.

Fixpoint map_res {A} (f : jval -> res A) (l : list jval) : res (list A) :=
  match l with
  | [] => Ok []
  | x :: r => a ← f x; b ← map_res f r; Ok (a :: b)
  end.

(** [v.map(f)]. *)
Definition js_map {A} (f : jval -> res A) (v : jval) : res (list A) :=
  match v with
  | JArr l => map_res f l
  | JUndef => Throw (TypeError_ (js "Cannot read properties of undefined (reading 'map')"))
  | JNull => Throw (TypeError_ (js "Cannot read properties of null (reading 'map')"))
  | _ => Throw (TypeError_ (js "map is not a function"))
  end.

(** [v.length]. *)
Definition js_length (v : jval) : res jval :=
  match v with
  | JArr l => Ok (JNum (num (Z.of_nat (length l))))
  | JStr s => Ok (JNum (num (Z.of_nat (length s))))
  | _ => jprop v (js "length")
  end.

Section views.
Context `{Host}.
Variable shown : Z -> jstr.

(** [formatTimestamp] as it is used, in a template or as a parameter. *)
Definition formatTimestamp (iso : jval) : jstr :=
  match date_parse (js_string iso) with Some ms => shown ms | None => js_string iso end.

Definition formatCandidate (c : jval) : res jstr :=
  s ← jprop c (js "start");
  e ← jprop c (js "end");
  Ok (formatTimestamp s ++ js " – " ++ formatTimestamp e).

(** ** The views *)

(** A candidate in a list: its [dateTime] and its text. *)
Definition candidate_item (c : jval) : res (jval * jstr) :=
  s ← jprop c (js "start");
  label ← formatCandidate c;
  Ok (s, label).

Definition body_child (bodyText : jstr) : option jstr := if truthy_str bodyText then Some bodyText else None.

Record ProposeView := Propose {
  p_title : list jstr; p_expired : bool; p_body : option jstr; p_candidates : list (jval * jstr); p_disabled : bool;
  p_deadline : option Said; p_participants : option Said; p_counter_button : Said; p_counter_open : bool;
  p_done : bool; p_error : option jstr
}.

Definition is_expired (payload : jval) (now : Z) : bool :=
  let deadline := jget payload (js "response_deadline") in
  isProposeExpired (if jtruthy deadline then Some (js_string deadline) else None) now.

Definition render_propose (payload : jval) (bodyText : jstr) (readOnly : bool) (now : Z) (c : Cards.Card) : res ProposeView :=
  let expired := is_expired payload now in
  title ← child (jget payload (js "event_title"));
  items ← js_map candidate_item (jget payload (js "candidates"));
  let deadline := jget payload (js "response_deadline") in
  count ← js_length (jget payload (js "required_participants"));
  Ok (Propose title expired (body_child bodyText) items (Cards.disabled readOnly expired c)
        (if jtruthy deadline then Some (say_with "a2a.deadline" "time" (formatTimestamp deadline)) else None)
        (if Draft.positive count then Some (say_with "a2a.participantsAnnounced" "count" (js_string count)) else None)
        (if Cards.counterOpen c then say "a2a.counterButtonClose" else say "a2a.counterButton") (Cards.counterOpen c)
        (bool_decide (Cards.pending c = Cards.done_)) (match Cards.error c with Some (_ :: _ as e) => Some e | _ => None end)).

(** A record of an outcome: its label, its badge, and what it adds. *)
Record OutcomeView := Outcome {
  o_kind : Said; o_badge : Said; o_body : option jstr; o_said : option Said; o_text : option (list jstr); o_candidates : list (jval * jstr)
}.

Definition render_accept (payload : jval) (bodyText : jstr) : res OutcomeView :=
  at_ ← formatCandidate (jget payload (js "selected_candidate"));
  Ok (Outcome (say "a2a.scheduleNegotiationLabel") (say "a2a.acceptedBadge") (body_child bodyText)
        (Some (say_with "a2a.acceptedAt" "time" at_)) None []).

Definition reason_said (k : string) (payload : jval) : option Said :=
  let reason := jget payload (js "reason") in
  if jtruthy reason then Some (say_with k "reason" (js_string reason)) else None.

Definition render_decline (kind : string) (payload : jval) (bodyText : jstr) : OutcomeView :=
  Outcome (say kind) (say "a2a.declinedBadge") (body_child bodyText) (reason_said "a2a.declineReason" payload) None [].

Definition render_counter (payload : jval) (bodyText : jstr) : res OutcomeView :=
  items ← js_map candidate_item (jget payload (js "candidates"));
  Ok (Outcome (say "a2a.scheduleNegotiationLabel") (say "a2a.counterBadge") (body_child bodyText)
        (reason_said "a2a.counterReason" payload) None items).

Record DelegateView := Delegate {
  d_title : list jstr; d_priority : option (jstr * jstr); d_body : option jstr; d_description : option (list jstr);
  d_due : option Said; d_disabled : bool; d_done : bool; d_error : option jstr
}.

(** The badge of the priority: its class and the key of its text. *)
Definition priority_badge (payload : jval) : option (jstr * jstr) :=
  let priority := jget payload (js "priority") in
  if jtruthy priority then
    Some (js "ai-protocol-badge ai-protocol-badge--priority ai-protocol-badge--priority-" ++ js_string priority,
          js "a2a.taskPriority." ++ js_string priority)
  else None.

Definition render_delegate (payload : jval) (bodyText : jstr) (readOnly : bool) (c : Cards.Card) : res DelegateView :=
  title ← child (jget payload (js "title"));
  description ← child_if (jget payload (js "description"));
  let due := jget payload (js "due_date") in
  Ok (Delegate title (priority_badge payload) (body_child bodyText) description
        (if jtruthy due then Some (say_with "a2a.taskDueDate" "time" (formatTimestamp due)) else None)
        (Cards.disabled readOnly false c) (bool_decide (Cards.pending c = Cards.done_))
        (match Cards.error c with Some (_ :: _ as e) => Some e | _ => None end)).

Definition render_task_accept (payload : jval) (bodyText : jstr) : res OutcomeView :=
  note ← child_if (jget payload (js "note"));
  Ok (Outcome (say "a2a.taskDelegationLabel") (say "a2a.taskAcceptedBadge") (body_child bodyText) None note []).

Definition render_complete (payload : jval) (bodyText : jstr) : OutcomeView :=
  let result := jget payload (js "result") in
  Outcome (say "a2a.taskDelegationLabel") (say "a2a.taskCompletedBadge") (body_child bodyText)
    (if jtruthy result then Some (say_with "a2a.taskCompleteResult" "result" (js_string result)) else None) None [].

(** ** The cards and the router *)

Inductive CardView :=
| ProposeCard (v : ProposeView) | OutcomeCard (v : OutcomeView) | DelegateCard (v : DelegateView) | NoCard | StubCard (bodyText : jstr).

Definition ScheduleNegotiationCard (protocol : A2AProtocolBlock) (bodyText : jstr) (readOnly : bool) (now : Z) (c : Cards.Card) : res CardView :=
  let payload := block_payload protocol in
  match block_action protocol with
  | propose => v ← render_propose payload bodyText readOnly now c; Ok (ProposeCard v)
  | accept => v ← render_accept payload bodyText; Ok (OutcomeCard v)
  | decline => Ok (OutcomeCard (render_decline "a2a.scheduleNegotiationLabel" payload bodyText))
  | counter => v ← render_counter payload bodyText; Ok (OutcomeCard v)
  | _ => Ok NoCard
  end.

Definition TaskDelegationCard (protocol : A2AProtocolBlock) (bodyText : jstr) (readOnly : bool) (c : Cards.Card) : res CardView :=
  let payload := block_payload protocol in
  match block_action protocol with
  | delegate => v ← render_delegate payload bodyText readOnly c; Ok (DelegateCard v)
  | accept => v ← render_task_accept payload bodyText; Ok (OutcomeCard v)
  | decline => Ok (OutcomeCard (render_decline "a2a.taskDelegationLabel" payload bodyText))
  | complete => Ok (OutcomeCard (render_complete payload bodyText))
  | _ => Ok (StubCard bodyText)
  end.

Definition ProtocolMessageRouter (protocol : A2AProtocolBlock) (bodyText folder : jstr) (now : Z) (c : Cards.Card) : res CardView :=
  let readOnly := negb (canRespondToProtocol folder protocol now) in
  match block_type protocol with
  | schedule_negotiation => ScheduleNegotiationCard protocol bodyText readOnly now c
  | task_delegation => TaskDelegationCard protocol bodyText readOnly c
  end.

End views.

(** * Lemmas *)

(** ** What a valid block shows *)

Section shows.
Context `{Host}.
Variable shown : Z -> jstr.

(** A candidate as it should appear. *)
Definition candidate_shown (c : jval) (label : jstr) : Prop :=
  exists s e a b, jget c (js "start") = JStr s /\ jget c (js "end") = JStr e /\ date_parse s = Some a /\ date_parse e = Some b /\
    label = shown a ++ js " – " ++ shown b.

Definition item_shown (c : jval) (item : jval * jstr) : Prop := jget c (js "start") = item.1 /\ candidate_shown c item.2.

(** An optional text of the payload, shown when it is not empty. *)
Definition reason_shown_as (k param : string) (v : jval) (said : option Said) : Prop :=
  match v with JStr ((_ :: _) as r) => said = Some (say_with k param r) | _ => said = None end.
Definition reason_shown (k : string) : jval -> option Said -> Prop := reason_shown_as k "reason".

(** An optional text that is shown as it is when it is not empty. *)
Definition text_shown (v : jval) (o : option (list jstr)) : Prop :=
  match v with JStr ((_ :: _) as s) => o = Some [s] | _ => o = None end.

(** What the card of a block should tell. *)
Definition tells (block : A2AProtocolBlock) (folder : jstr) (now : Z) (c : Cards.Card) (v : CardView) : Prop :=
  let p := block_payload block in
  match block_type block, block_action block with
  | schedule_negotiation, propose =>
    exists w title l, v = ProposeCard w /\ jget p (js "event_title") = JStr title /\ p_title w = [title] /\
      jget p (js "candidates") = JArr l /\ Forall2 item_shown l (p_candidates w) /\
      (p_disabled w = false <-> canRespondToProtocol folder block now = true /\ is_expired p now = false /\ Cards.busy c = false)
  | schedule_negotiation, accept =>
    exists w label, v = OutcomeCard w /\ o_badge w = say "a2a.acceptedBadge" /\ o_said w = Some (say_with "a2a.acceptedAt" "time" label) /\ candidate_shown (jget p (js "selected_candidate")) label
  | schedule_negotiation, counter =>
    exists w l, v = OutcomeCard w /\ o_badge w = say "a2a.counterBadge" /\ jget p (js "candidates") = JArr l /\ Forall2 item_shown l (o_candidates w) /\
      reason_shown "a2a.counterReason" (jget p (js "reason")) (o_said w)
  | _, decline => exists w, v = OutcomeCard w /\ o_badge w = say "a2a.declinedBadge" /\ reason_shown "a2a.declineReason" (jget p (js "reason")) (o_said w)
  | task_delegation, delegate =>
    exists w title, v = DelegateCard w /\ jget p (js "title") = JStr title /\ d_title w = [title] /\
      (d_disabled w = false <-> canRespondToProtocol folder block now = true /\ Cards.busy c = false)
  | task_delegation, accept => exists w, v = OutcomeCard w /\ o_badge w = say "a2a.taskAcceptedBadge" /\ text_shown (jget p (js "note")) (o_text w)
  | task_delegation, complete =>
    exists w, v = OutcomeCard w /\ o_badge w = say "a2a.taskCompletedBadge" /\ reason_shown_as "a2a.taskCompleteResult" "result" (jget p (js "result")) (o_said w)
  | _, _ => False
  end.

Lemma formatTimestamp_valid s a : date_parse s = Some a -> formatTimestamp shown (JStr s) = shown a.
Proof. intros E. unfold formatTimestamp. cbn [js_string join_part]. by rewrite E. Qed.

Lemma formatCandidate_valid c : valid_candidate c -> exists label, formatCandidate shown c = Ok label /\ candidate_shown c label.
Proof.
  intros (s & e & a & b & Es & Ee & _ & _ & Ea & Eb & _). unfold formatCandidate.
  rewrite (jprop_defined c (js "start")) by (by rewrite Es). rewrite (jprop_defined c (js "end")) by (by rewrite Ee). cbn.
  rewrite Es, Ee. rewrite (formatTimestamp_valid s a Ea), (formatTimestamp_valid e b Eb).
  eexists. split; [reflexivity|]. by exists s, e, a, b.
Qed.

Lemma candidate_item_valid c : valid_candidate c -> exists item, candidate_item shown c = Ok item /\ item_shown c item.
Proof.
  intros Hc. destruct (formatCandidate_valid c Hc) as (label & El & Hl). unfold candidate_item.
  destruct Hc as (s & e & a & b & Es & _). rewrite (jprop_defined c (js "start")) by (by rewrite Es). cbn. rewrite El. cbn.
  eexists. by split.
Qed.

Lemma candidates_valid v : valid_candidates v -> exists l items, v = JArr l /\ js_map (candidate_item shown) v = Ok items /\ Forall2 item_shown l items.
Proof.
  intros (l & -> & _ & Hl). exists l. cbn [js_map]. induction Hl as [|c l Hc _ IH]; [by exists []|].
  destruct (candidate_item_valid c Hc) as (item & E & Hi). destruct IH as (items & _ & E2 & H2). exists (item :: items).
  cbn [map_res]. rewrite E. cbn. rewrite E2. cbn. split; [done|]. split; [done|]. by constructor.
Qed.

Lemma reason_valid k payload : optional a_string (jget payload (js "reason")) -> reason_shown k (jget payload (js "reason")) (reason_said k payload).
Proof. intros [E|[s E]]; unfold reason_shown, reason_shown_as, reason_said; rewrite E; [done|]. by destruct s. Qed.

Lemma child_if_valid n v : optional (string_upto n) v -> exists o, child_if v = Ok o /\ text_shown v o.
Proof.
  intros [-> | (s & -> & _)]; unfold child_if; cbn; [by eexists|]. by destruct s as [|x s]; cbn; eexists.
Qed.

Lemma propose_tells block bodyText folder now c :
  block_type block = schedule_negotiation -> block_action block = propose -> valid_payload schedule_negotiation propose (block_payload block) ->
  exists v, ProtocolMessageRouter shown block bodyText folder now c = Ok v /\ tells block folder now c v.
Proof.
  intros Et Ea (Ht & Hc & [ps Hp] & _). unfold ProtocolMessageRouter, tells. rewrite Et. unfold ScheduleNegotiationCard. rewrite Ea.
  unfold render_propose. destruct Ht as (title & Et' & _). rewrite Et'. cbn [child].
  destruct (candidates_valid _ Hc) as (l & items & El & Em & Hl). rewrite El in *. rewrite Hp.
  unfold mbind, res_bind. rewrite Em. cbn [js_length]. eexists. split; [reflexivity|].
  eexists _, title, l. split; [reflexivity|]. cbn [p_title p_candidates p_disabled]. split_and!; [done|done|done|exact Hl|].
  unfold Cards.disabled. destruct (canRespondToProtocol _ _ _), (is_expired _ _), (Cards.busy c); naive_solver.
Qed.

Lemma schedule_outcome_tells block bodyText folder now c :
  block_type block = schedule_negotiation -> block_action block <> propose -> valid_payload schedule_negotiation (block_action block) (block_payload block) ->
  exists v, ProtocolMessageRouter shown block bodyText folder now c = Ok v /\ tells block folder now c v.
Proof.
  intros Et Ha Hv. unfold ProtocolMessageRouter, tells. rewrite Et. unfold ScheduleNegotiationCard.
  destruct (block_action block); try done; cbn [valid_payload] in Hv.
  - destruct (formatCandidate_valid _ Hv) as (label & El & Hl). unfold render_accept. rewrite El. eexists. split; [reflexivity|].
    eexists _, label. by split_and!.
  - eexists. split; [reflexivity|]. eexists. split_and!; [reflexivity|done|]. by apply reason_valid.
  - destruct Hv as [Hc Hr]. destruct (candidates_valid _ Hc) as (l & items & El & Em & Hl). unfold render_counter. unfold mbind, res_bind. rewrite Em.
    eexists. split; [reflexivity|]. eexists _, l. split_and!; [reflexivity|done|done|exact Hl|]. by apply reason_valid.
Qed.

Lemma task_tells block bodyText folder now c :
  block_type block = task_delegation -> valid_payload task_delegation (block_action block) (block_payload block) ->
  exists v, ProtocolMessageRouter shown block bodyText folder now c = Ok v /\ tells block folder now c v.
Proof.
  intros Et Hv. unfold ProtocolMessageRouter, tells. rewrite Et. unfold TaskDelegationCard.
  destruct (block_action block); try done; cbn [valid_payload] in Hv.
  - destruct (child_if_valid _ _ Hv) as (o & Eo & Ho). unfold render_task_accept. rewrite Eo. eexists. split; [reflexivity|].
    eexists. split_and!; [reflexivity|done|exact Ho].
  - eexists. split; [reflexivity|]. eexists. split_and!; [reflexivity|done|]. by apply reason_valid.
  - destruct Hv as ((title & Et' & _) & _ & Hd & _ & _). destruct (child_if_valid _ _ Hd) as (o & Eo & _).
    unfold render_delegate. rewrite Et'. cbn [child]. unfold mbind, res_bind. rewrite Eo. eexists. split; [reflexivity|].
    eexists _, title. split; [reflexivity|]. cbn [d_title d_disabled]. split_and!; [done|done|].
    unfold Cards.disabled. destruct (canRespondToProtocol _ _ _), (Cards.busy c); naive_solver.
  - eexists. split; [reflexivity|]. eexists. split_and!; [reflexivity|done|].
    unfold render_complete. cbn [o_said]. destruct Hv as [-> | (s & -> & _)]; [done|]. by destruct s.
Qed.

Lemma valid_block_tells block bodyText folder now c : assertValidA2APayload block = Ok tt ->
  exists v, ProtocolMessageRouter shown block bodyText folder now c = Ok v /\ tells block folder now c v.
Proof.
  intros Hv%payload_spec. destruct (block_type block) eqn:Et; [|by apply task_tells].
  destruct (decide (block_action block = propose)) as [Ea|Ea]; [|by apply schedule_outcome_tells].
  rewrite Ea in Hv. by apply propose_tells.
Qed.
End shows.

(** C35: The cards of protocol messages.  A block the validators accept is always
    shown: its title, each candidate with the times it names, an accepted slot, a
    reason, a note or a result, and buttons that work exactly while the message
    may be answered.  The parser of received messages checks less: it lets blocks
    through whose card throws, and takes the page of the reader with it. *)
Theorem valid_card_shows `{Host} (shown : Z -> jstr) (block : A2AProtocolBlock) (bodyText folder : jstr) (now : Z) (c : Cards.Card) :
  (assertValidA2APayload block = Ok tt ->
     exists v, ProtocolMessageRouter shown block bodyText folder now c = Ok v /\ tells shown block folder now c v) /\
  (exists raw b, parseA2APayload raw (Some A2A_CONTENT_TYPE) = ParsedBody [] (Some (block_to_val b)) false /\
     exists e, ProtocolMessageRouter shown b [] folder now c = Throw e).
Proof.
  split.
  - by apply valid_block_tells.
  - set (b := ProtocolBlock (js "p1") schedule_negotiation propose None (JObj [])).
    exists (serializeA2APayload (message_to_val [] (Some b))), b. split; [by vm_compute|]. by eexists.
Qed.

(** A meeting proposed at two times. *)
Definition sample_proposal : A2AProtocolBlock :=
  let slot s e := JObj [(js "start", JStr (js s)); (js "end", JStr (js e))] in
  ProtocolBlock (js "p1") schedule_negotiation propose None
    (JObj [(js "event_title", JStr (js "Planning"));
           (js "candidates", JArr [slot "2026-05-04T10:00:00Z" "2026-05-04T10:30:00Z"; slot "2026-05-05T10:00:00Z" "2026-05-05T11:00:00Z"]);
           (js "required_participants", JArr [])]).

Example valid_card_shows_witness :
  let _ := plain_host in
  exists v, ProtocolMessageRouter dec_of_Z sample_proposal [] (js "inbox") 0 Cards.mounted = Ok v /\
    tells dec_of_Z sample_proposal (js "inbox") 0 Cards.mounted v.
Proof.
  intros h. apply (proj1 (valid_card_shows dec_of_Z sample_proposal [] (js "inbox") 0 Cards.mounted)). by vm_compute.
Defined.
