(* ===== verification/ComposeHints.v ===== *)
(** What apps/web/app/compose/page.tsx keeps up to date while the form is filled:
    the sender, whether its signing key is here, the hint for the recipient's
    mode, and the memoised reason why the form cannot be sent.

    An effect that was replaced is cancelled: its timer does not fire, and the
    answer it waits for is ignored. *)
From S2P Require Import Prelude JsNumber Json Effect Node Browser WebKeystore WebApi Compose.

Module ComposeHints.

(** ** The default sender *)

Definition sender_effect (agents : list Agent) (current : jstr) : jstr :=
  match agents with
  | [] => []
  | first :: _ => if truthy_str current && existsb (fun a => jeqb (ag_did a) current) agents then current else ag_did first
  end.

(** ** The sender's key

    [asked]: the lookups that are under way, each with the run that started it. *)
Record KeyCheck := KeyCheckOf { senderDid_ : jstr; hasKey : bool; run : nat; asked : list (nat * jstr) }.

(** The effect of a change of the sender; a run of it asks the key ring
    ([hasSigningPrivateKeyMaterial]). *)
Definition key_effect (did : jstr) (k : KeyCheck) : KeyCheck :=
  if jeqb did (senderDid_ k) then k
  else if negb (truthy_str did) then KeyCheckOf did false (S (run k)) (asked k)
  else KeyCheckOf did (hasKey k) (S (run k)) (asked k ++ [(S (run k), did)]).

Definition key_answered (n : nat) (result : bool) (k : KeyCheck) : KeyCheck :=
  match asked k !! n with
  | None => k
  | Some (r, _) => KeyCheckOf (senderDid_ k) (if (r =? run k)%nat then result else hasKey k) (run k) (delete n (asked k))
  end.

(** ** The recipient's mode *)

Inductive Mode := web_keystore | signer_daemon | unknown | other (v : jval).

(** [resolved.key_holder ?? "unknown"]. *)
Definition mode_of (resolved : jval) : res Mode :=
  holder ← jprop resolved (js "key_holder");
  Ok match holder with
     | JUndef | JNull => unknown
     | v => if jis v (js "web_keystore") then web_keystore else if jis v (js "signer_daemon") then signer_daemon
            else if jis v (js "unknown") then unknown else other v
     end.

(** The state of the effect: its run, whether its timer is waiting and the
    lookups under way.  [said_of] is the address the mode was found for. *)
Record Hint := HintOf {
  recipientDid_ : jstr; recipientMode : option Mode; h_run : nat; waiting : bool; lookups : list (nat * jstr); said_of : option jstr
}.

Definition plausible (input : jstr) : bool := truthy_str input && (isAidIdentifier input || starts_with (js "did:key:") input).

(** The effect; its timer is set for 350 ms. *)
Definition hint_effect (did : jstr) (h : Hint) : Hint :=
  if plausible (trim did) then HintOf did (recipientMode h) (S (h_run h)) true (lookups h) (said_of h)
  else HintOf did None (S (h_run h)) false (lookups h) None.

Definition mounted (did : jstr) : Hint := hint_effect did (HintOf did None 0 false [] None).

Definition on_change (did : jstr) (h : Hint) : Hint := if jeqb did (recipientDid_ h) then h else hint_effect did h.

Definition timer_fires (h : Hint) : Hint :=
  if waiting h then
    HintOf (recipientDid_ h) (recipientMode h) (h_run h) false (lookups h ++ [(h_run h, trim (recipientDid_ h))]) (said_of h)
  else h.

(** The answer of a lookup, [Throw] when it was refused. *)
Definition lookup_answered (n : nat) (answer : res jval) (h : Hint) : Hint :=
  match lookups h !! n with
  | None => h
  | Some (r, input) =>
    let rest := delete n (lookups h) in
    if (r =? h_run h)%nat then
      match (resolved ← answer; mode_of resolved) with
      | Ok m => HintOf (recipientDid_ h) (Some m) (h_run h) (waiting h) rest (Some input)
      | Throw _ => HintOf (recipientDid_ h) None (h_run h) (waiting h) rest None
      end
    else HintOf (recipientDid_ h) (recipientMode h) (h_run h) (waiting h) rest (said_of h)
  end.

Inductive hint_step : Hint -> Hint -> Prop :=
| types did h : hint_step h (on_change did h)
| fires h : hint_step h (timer_fires h)
| answers n answer h : hint_step h (lookup_answered n answer h).

(** ** The memoised reason *)

Definition readiness_deps (f : Form) (attachments : list AttachmentDraft) :=
  (length (apiAgents f), senderDid f, selectedSender f, recipientDid f, selectedRecipient f, subject f, f_body f,
   attachmentsTotalSize attachments, hasSenderPrivateKey f).

#[global] Instance Agent_eq_dec : EqDecision Agent.
Proof. solve_decision. Defined.

(** [useMemo]: the value of the last computation, if no dependency changed. *)
Definition memo_readiness (last : option (_ * option jstr)) (f : Form) (attachments : list AttachmentDraft) : option jstr :=
  match last with
  | Some (deps, value) => if decide (deps = readiness_deps f attachments) then value else readinessMessage f attachments
  | None => readinessMessage f attachments
  end.

Definition canSubmit (shown : option jstr) (sendPending : bool) : bool := bool_decide (shown = None) && negb sendPending.

End ComposeHints.

(** * Lemmas *)

Module ComposeHintsFacts.
Import ComposeHints.

(** The sender is always one of the agents, and a choice that still exists is kept. *)
Lemma sender_is_agent agents current :
  (agents = [] -> sender_effect agents current = []) /\
  (agents <> [] -> exists a, a ∈ agents /\ ag_did a = sender_effect agents current) /\
  (truthy_str current = true -> (exists a, a ∈ agents /\ ag_did a = current) -> sender_effect agents current = current).
Proof.
  destruct agents as [|first agents]; [split_and!; [done|done|intros _ (a & Ha & _); by apply elem_of_nil in Ha]|].
  unfold sender_effect. split_and!; [done| |].
  - intros _. destruct (truthy_str current && _) eqn:E; [|exists first; by split; [left|]].
    apply andb_true_iff in E as [_ (a & Ha & Hd%jeqb_true)%existsb_exists]. exists a. by rewrite list_elem_of_In.
  - intros -> (a & Ha & Hd). assert (existsb (fun a => jeqb (ag_did a) current) (first :: agents) = true) as ->; [|done].
    apply existsb_exists. exists a. split; [by apply list_elem_of_In|by apply jeqb_true].
Qed.

(** ** The hint *)

(** Lookups belong to runs so far, that of the present run to the present
    address; and when nothing is under way the hint is about that address. *)
Record hint_ok (h : Hint) : Prop := {
  hint_runs r input : (r, input) ∈ lookups h -> (r <= h_run h)%nat /\ (r = h_run h -> waiting h = false /\ input = trim (recipientDid_ h) /\ plausible input = true);
  hint_waiting : waiting h = true -> plausible (trim (recipientDid_ h)) = true;
  hint_plausible : recipientMode h <> None -> plausible (trim (recipientDid_ h)) = true;
  hint_settled : waiting h = false -> (forall i, (h_run h, i) ∉ lookups h) -> recipientMode h = None \/ said_of h = Some (trim (recipientDid_ h))
}.

Inductive reached : Hint -> Prop :=
| at_mount did : reached (mounted did)
| after h h' : reached h -> hint_step h h' -> reached h'.

Lemma delete_elem {A} (l : list A) n x y : l !! n = Some y -> x <> y -> x ∈ l -> x ∈ delete n l.
Proof.
  intros Hn Hxy Hx. rewrite delete_take_drop. rewrite <- (take_drop_middle l n y Hn) in Hx.
  apply elem_of_app in Hx as [Hx|Hx]; [by apply elem_of_app; left|]. apply elem_of_cons in Hx as [->|Hx]; [done|].
  by apply elem_of_app; right.
Qed.

Lemma delete_elem_inv {A} (l : list A) n x : x ∈ delete n l -> x ∈ l.
Proof.
  rewrite delete_take_drop. intros [Hx|Hx]%elem_of_app.
  - rewrite <- (take_drop n l). apply elem_of_app. by left.
  - rewrite <- (take_drop (S n) l). apply elem_of_app. by right.
Qed.

Lemma effect_keeps did h : (forall r i, (r, i) ∈ lookups h -> (r <= h_run h)%nat) -> hint_ok (hint_effect did h).
Proof.
  intros Hr. unfold hint_effect. destruct (plausible (trim did)) eqn:Ep; split; cbn; try done.
  - intros r i Hin%Hr. split; [lia|]. intros ->. lia.
  - intros r i Hin%Hr. split; [lia|]. intros ->. lia.
  - by left.
Qed.

Lemma step_keeps h h' : hint_ok h -> hint_step h h' -> hint_ok h'.
Proof.
  intros Hok Hstep. pose proof Hok as [Hr Hw0 Hp Hs]. destruct Hstep as [did h|h|n answer h].
  - unfold on_change. destruct (jeqb_spec did (recipientDid_ h)); [exact Hok|]. apply effect_keeps. intros r i Hin. by apply Hr in Hin as [? _].
  - unfold timer_fires. destruct (waiting h) eqn:Ew; [|exact Hok]. split; cbn; [|done|done|].
    + intros r i [Hin|Hin%list_elem_of_singleton]%elem_of_app.
      * destruct (Hr r i Hin) as [Hle He]. split; [done|]. intros E. destruct (He E) as [? _]. congruence.
      * injection Hin as -> ->. split; [done|]. intros _. split; [done|]. split; [done|]. by apply Hw0.
    + intros _ Hno. exfalso. apply (Hno (trim (recipientDid_ h))). apply elem_of_app. right. by apply list_elem_of_singleton.
  - unfold lookup_answered. destruct (lookups h !! n) as [[r input]|] eqn:El; [|exact Hok].
    pose proof (list_elem_of_lookup_2 _ _ _ El) as Hin. destruct (Nat.eqb_spec r (h_run h)) as [-> | Hne].
    + destruct (Hr _ _ Hin) as [_ He]. destruct (He eq_refl) as (Hw & -> & Hpl).
      destruct (mbind _ answer) as [m|e]; (split; cbn; [intros r i Hd%delete_elem_inv; by apply Hr|done|done|]); [by right|by left].
    + split; cbn; [intros r' i Hd%delete_elem_inv; by apply Hr|done|done|].
      intros Hw Hno. apply Hs; [done|]. intros i Hi. apply (Hno i). apply (delete_elem _ n _ (r, input)); [done|congruence|done].
Qed.

(** The recipient's hint.  However the address is edited and whenever the timers
    fire and the lookups are answered, a hint is only shown beside an address that
    looks like one, and once no lookup for it is under way it is the one found
    for that address.  (Until then the hint of the address before may stay.) *)
Theorem recipient_hint_settles h : reached h ->
  (recipientMode h <> None -> plausible (trim (recipientDid_ h)) = true) /\
  (waiting h = false -> (forall i, (h_run h, i) ∉ lookups h) -> recipientMode h = None \/ said_of h = Some (trim (recipientDid_ h))).
Proof.
  intros Hh. assert (hint_ok h) as [_ _ Hp Hs]; [|done]. induction Hh as [did|h h' _ IH Hstep]; [|by eapply step_keeps].
  apply effect_keeps. intros r i Hin. by apply elem_of_nil in Hin.
Qed.

(** The hint of one address beside another. *)
Example hint_of_another_address :
  let h := lookup_answered 0 (Ok (JObj [(js "key_holder", JStr (js "web_keystore"))])) (timer_fires (mounted (js "did:key:zAlice"))) in
  recipientMode (on_change (js "did:key:zBob") h) = Some web_keystore.
Proof. by vm_compute. Qed.

(** ** The button while attachments are uploaded *)

Lemma uploading_size id l : attachmentsTotalSize (map_draft id (with_status uploading) l) = attachmentsTotalSize l.
Proof. unfold attachmentsTotalSize, map_draft. induction l as [|a l IH]; [done|]. cbn. rewrite IH. by destruct (jeqb (d_id a) id). Qed.

(** The reason depends on the state of the attachments, but is computed again
    only when their total size changes: when an upload starts the form could
    not be sent, and the button stays enabled. *)
Theorem upload_not_noticed (f : Form) (attachments : list AttachmentDraft) (a : AttachmentDraft) :
  readinessMessage f attachments = None -> a ∈ attachments ->
  let started := map_draft (d_id a) (with_status uploading) attachments in
  readinessMessage f started = Some (js "compose.statusUploadingAttachments") /\
  canSubmit (memo_readiness (Some (readiness_deps f attachments, readinessMessage f attachments)) f started) false = true.
Proof.
  intros Hr Ha started.
  assert (existsb (fun a => bool_decide (d_status a = uploading)) started = true) as Hu.
  { apply existsb_exists. exists (with_status uploading a). split; [|by apply bool_decide_eq_true_2].
    apply in_map_iff. exists a. rewrite jeqb_refl. split; [done|by apply list_elem_of_In]. }
  split.
  - unfold readinessMessage in *. rewrite Hu. unfold started. rewrite uploading_size. cbv zeta in *.
    repeat match type of Hr with
    | (if ?b then Some _ else _) = None => destruct b; [discriminate Hr|]
    | match ?o with Some _ => _ | None => Some _ end = None => destruct o; [|discriminate Hr]
    end. done.
  - unfold memo_readiness, canSubmit. rewrite decide_True; [by rewrite Hr|]. unfold readiness_deps, started. by rewrite uploading_size.
Qed.
End ComposeHintsFacts.
