(* ===== verification/InboxView.v ===== *)
(** What the inbox page shows: the rows, the toolbar, the reader and the first
    steps of apps/web/app/page.tsx, and the copy buttons of
    apps/web/app/_components/ConversationThread.tsx.

    The state and the handlers are those of Inbox.v; the previews are filled by
    the workers of Preview.v.  The theorem follows a message from the server to
    its row. *)
From S2P Require Import Prelude Utf8 JsNumber Json JsDate A2A Effect Node Envelope ApiClient Browser WebKeystore WebEnvelope WebApi Bridge BridgeSpec Llm Session Views Inbox Conversation Preview.

(** ** The list *)
Module Rows.

(** The subject of a row, or the notice that its key is elsewhere. *)
Inductive SubjectNode := Unavailable (badge notice : jstr) | Subject (s : jstr).

Record RowView := RowOf {
  r_id : jstr; r_active : bool; r_unread : bool; r_checked : bool; r_sender : jstr; r_count : option nat; r_time : jstr;
  r_subject : SubjectNode; r_preview : jstr; r_starred : bool
}.

Inductive ListPane := ListLoading | ListEmpty (view : ViewKey) | ListRows (rows : list RowView).

Section rows.
Context `{Host, Locale, CaseMap}.
Variable t : jstr -> jstr.

Definition activeThread (d : Data) (p : Page) : option ThreadView :=
  List.find (fun th => jeqb (id th) (activeId p)) (filteredThreads t d p).

Definition keyKnownMissing (p : Page) (th : ThreadView) : bool :=
  truthy_str (recipientDid th) && bool_decide (keyPresenceByDid p !! recipientDid th = Some false).

Definition subjectNode (p : Page) (th : ThreadView) : SubjectNode :=
  if keyKnownMissing p th
  then Unavailable (t (js "inbox.unavailableOnThisDeviceBadge")) (t (js "inbox.unavailableOnThisDeviceSubject"))
  else Subject (default (subject th) (subjectTextById p !! id th)).

Definition previewNode (p : Page) (th : ThreadView) : jstr :=
  if keyKnownMissing p th then t (js "inbox.unavailableOnThisDevicePreview")
  else match previewTextById p !! id th with
  | None => preview th
  | Some resolvedPreview =>
    if jeqb resolvedPreview WebText.ENCRYPTED_PLACEHOLDER then t (js "inbox.previewUnavailable")
    else if (length resolvedPreview =? 0)%nat then t (js "inbox.previewEmpty")
    else resolvedPreview
  end.

Definition row (d : Data) (p : Page) (th : ThreadView) : RowView :=
  RowOf (id th) (match activeThread d p with Some a => jeqb (id a) (id th) | None => false end)
    (jeqb (status th) (js "unread")) (includes (selectedIds p) (id th)) (sender th)
    (if (1 <? messageCount th)%nat then Some (messageCount th) else None) (time th)
    (subjectNode p th) (previewNode p th) (starred th).

Definition list_pane (isLoading : bool) (d : Data) (p : Page) : ListPane :=
  if isLoading then ListLoading
  else match filteredThreads t d p with
  | [] => ListEmpty (viewKey p)
  | l => ListRows (map (row d p) l)
  end.

End rows.
End Rows.

(** ** The toolbar *)
Module Toolbar.

Inductive Button := MarkRead | Archive | MoveToTrash | ReportSpam | Restore | DeleteForever | AddStar | RemoveStar.

(** The mutations that are under way. *)
Record Busy := BusyOf { statusPending : bool; flagsPending : bool; deletePending : bool }.

(** The buttons of a view, in their order. *)
Definition buttons (v : ViewKey) : list Button :=
  [MarkRead]
  ++ (match v with spam | trash => [] | _ => [Archive; MoveToTrash; ReportSpam] end)
  ++ (match v with spam | trash | all => [Restore] | _ => [] end)
  ++ (match v with trash => [DeleteForever] | _ => [] end)
  ++ [AddStar; RemoveStar].

Definition restore_title (v : ViewKey) : jstr := match v with spam => js "inbox.notSpam" | _ => js "inbox.moveToInbox" end.

Section toolbar.
Context `{Host, Locale, CaseMap, Env, BrowserEnv, QueryClient}.
Variable t : jstr -> jstr.
Variables (d : Data) (shown : Page).

Definition selectedCount : nat :=
  length (List.filter (fun th => includes (selectedIds shown) (id th)) (filteredThreads t d shown)).

Definition disabled (w : Busy) (b : Button) : bool :=
  (selectedCount =? 0)%nat
  || match b with
     | MarkRead | Archive => statusPending w
     | MoveToTrash | ReportSpam | Restore => flagsPending w
     | DeleteForever => deletePending w
     | AddStar | RemoveStar => false
     end.

(** [proceed]: the answer to the confirmation of the deletion. *)
Definition onClick (proceed : bool) (b : Button) : Handlers.IM unit :=
  match b with
  | MarkRead => Handlers.bulkUpdateStatus t d shown (js "read")
  | Archive => Handlers.bulkUpdateStatus t d shown (js "archived")
  | MoveToTrash => Handlers.bulkMoveToFolder t d shown (js "trash")
  | ReportSpam => Handlers.bulkMoveToFolder t d shown (js "spam")
  | Restore => Handlers.bulkRestoreToInbox t d shown
  | DeleteForever => Handlers.bulkDeleteForever t d shown proceed
  | AddStar => Handlers.bulkSetStar t d shown true
  | RemoveStar => Handlers.bulkSetStar t d shown false
  end.

End toolbar.

(** The numbers beside the buttons of the pages. *)
Definition pagination_label `{Host, Locale, CaseMap} (t : jstr -> jstr) (d : Data) (p : Page) : Z * Z * Z :=
  (page p, totalPages d, match total d with Some n => n | None => Z.of_nat (length (apiThreads t d)) end).

End Toolbar.

(** ** The reader *)
Module Reader.

Inductive Action := Reply | AiDraftApprove | Forward | AddContact.
Inductive Pane := Open (th : ThreadView) (actions : list Action) | WelcomeNoAgents | WelcomeNoMessages (aid : jstr) | NoBody.

(** Where an action leads. *)
Definition href (th : ThreadView) (a : Action) : res jstr :=
  let of_id (before : string) (after : jstr) := enc ← encodeURIComponent (id th); Ok (js before ++ enc ++ after) in
  match a with
  | Reply => of_id "/compose?reply=" []
  | AiDraftApprove => of_id "/compose?reply=" (js "&ai=1")
  | Forward => of_id "/compose?forward=" []
  | AddContact => enc ← encodeURIComponent (senderDid th); Ok (js "/contacts?add=" ++ enc)
  end.

(** Where the first steps lead. *)
Definition createAgent_href : jstr := js "/settings/agents/new".
Definition openHelp_href : jstr := js "/help".
Definition manageAgents_href : jstr := js "/settings/agents".
Definition selfSend_href (aid : jstr) : res jstr := enc ← encodeURIComponent aid; Ok (js "/compose?to=" ++ enc).

Definition knownContact (d : Data) (did : jstr) : bool := existsb (fun c => jeqb (Labels.did c) did) (default [] (contacts d)).

Section reader.
Context `{Host, Locale, CaseMap}.
Variable t : jstr -> jstr.

(** [aids]: those of the user's agents, when they are known. *)
Definition pane (d : Data) (p : Page) (aids : option (list jstr)) : Pane :=
  match Rows.activeThread t d p with
  | Some th =>
    Open th ([Reply; AiDraftApprove; Forward]
             ++ if truthy_str (senderDid th) && negb (knownContact d (senderDid th)) then [AddContact] else [])
  | None =>
    match viewKey p, aids with
    | inbox, Some [] => WelcomeNoAgents
    | inbox, Some (((_ :: _) as aid) :: _) => if default 0 (total d) =? 0 then WelcomeNoMessages aid else NoBody
    | _, _ => NoBody
    end
  end.

Context `{WebCrypto, Env, BrowserEnv}.

(** The page with the text of the open message, which nothing shows. *)
Record Opened := OpenedOf { o_browser : Browser; o_page : Page; activeBodyText : jstr }.
Abbreviation OM := (eff Opened).

Definition in_browser {A} (m : BM A) : OM A := fun o => let '(r, b) := m (o_browser o) in (r, OpenedOf b (o_page o) (activeBodyText o)).
Definition setActiveBodyText (s : jstr) : OM unit := fun o => (Ok tt, OpenedOf (o_browser o) (o_page o) s).
Definition on_page (f : Page -> Page) : OM unit := fun o => (Ok tt, OpenedOf (o_browser o) (f (o_page o)) (activeBodyText o)).

(** The query for the content of the open message. *)
Record ContentQuery := QueryOf { data : option Content; isLoading : bool }.

Definition activeBody (th : option ThreadView) (q : ContentQuery) : jstr :=
  match th with
  | None => []
  | Some _ =>
    match data q with
    | Some c => encrypted_content c
    | None => if isLoading q then t (js "inbox.bodyLoading") else t (js "inbox.bodyFailed")
    end
  end.

Definition activeEncryptedKey (th : option ThreadView) (q : ContentQuery) : option jstr :=
  match th with None => None | Some _ => encrypted_key <$> data q end.

(** The two effects of the open message; [cancelled]: another render has
    replaced the effect while it waited. *)
Definition body_effect (cancelled : bool) (th : option ThreadView) (q : ContentQuery) : OM unit :=
  match th with
  | None => if cancelled then mret tt else setActiveBodyText []
  | Some a =>
    decrypted ← in_browser (WebText.decryptEnvelopeText (activeBody th q) (activeEncryptedKey th q) (Some (recipientDid a)));
    if cancelled then mret tt
    else setActiveBodyText (if jeqb decrypted WebText.ENCRYPTED_PLACEHOLDER then t (js "inbox.encryptedPlaceholder") else decrypted)
  end.

Definition subject_effect (cancelled : bool) (th : option ThreadView) (q : ContentQuery) : OM unit :=
  match th with
  | None => mret tt
  | Some a =>
    match activeEncryptedKey th q with
    | None | Some [] => mret tt
    | Some key =>
      if negb (truthy_str (encryptedSubject a)) then mret tt
      else
        decryptedSubject ← in_browser (WebText.decryptEnvelopeText (encryptedSubject a) (Some key) (Some (recipientDid a)));
        if cancelled then mret tt
        else if jeqb decryptedSubject WebText.ENCRYPTED_PLACEHOLDER then mret tt
        else on_page (fun p => set_subjects (<[id a := decryptedSubject]> (subjectTextById p)) p)
    end
  end.

End reader.
End Reader.

(** ** Copying to the clipboard

    The button says that it copied until a timer fires; timers are not
    cancelled. *)
Module CopyButton.

Record Copy := CopyOf { copied : bool; timers : nat }.
Definition initial : Copy := CopyOf false 0.

(** [written]: the clipboard is there and took the text. *)
Definition copy (written : bool) (c : Copy) : Copy := if written then CopyOf true (S (timers c)) else c.
Definition timer_fires (c : Copy) : Copy := match timers c with O => c | S n => CopyOf false n end.

(** The prompt the runtime button copies, as its key with its parameters. *)
Definition runtime_prompt (messageId recipient : jstr) : jstr * list (jstr * jstr) :=
  (js "inbox.openInRuntimePromptTemplate",
   [(js "messageId", messageId); (js "recipientDid", if truthy_str recipient then recipient else js "(unknown)")]).

End CopyButton.

(** * Lemmas *)

Section told.
Context `{Host, Locale, CaseMap, WebCrypto, !WebCryptoLaws, Env, !EnvLaws, BrowserEnv}.
Variables (t : jstr -> jstr) (d : Data).
(** The contents the server holds, and what was written in them. *)
Variables (content : jstr -> Content) (told : jstr -> jstr * jstr).

(** The message of a row is sealed for a key of this browser, and its texts are
    not mistaken for a failure. *)
Definition sealed_row (b : Browser) (th : ThreadView) : Prop :=
  let '(subj, text) := told (id th) in
  truthy_str (recipientDid th) = true /\ text_ok subj /\ text_ok text /\
  subj <> WebText.ENCRYPTED_PLACEHOLDER /\ text <> WebText.ENCRYPTED_PLACEHOLDER /\
  previewSnippet text PREVIEW_CHARS <> WebText.ENCRYPTED_PLACEHOLDER /\
  exists priv, ring_holds b (recipientDid th) priv /\
    sealed subj text priv (encrypted_content (content (id th))) (encrypted_key (content (id th))) (encryptedSubject th).

(** The server answers a request for a content with the content. *)
Definition fetched (s : Pool) (e : Event) : Prop :=
  answered e /\
  match e with
  | Advance i j ans => forall r th, runs s !! i = Some r -> workers r !! j = Some (Fetching th) -> ans = Ok (Some (content (id th)))
  | Render => True
  end.

(** A schedule in which it does. *)
Inductive served : Pool -> list Event -> Pool -> Prop :=
| served_nil s : served s [] s
| served_cons s e s1 es s' : fetched s e -> step t d e s = Some s1 -> served s1 es s' -> served s (e :: es) s'.

Lemma served_steps s es s' : served s es s' -> Forall answered es /\ steps t d es s = Some s'.
Proof.
  induction 1 as [s|s e s1 es s' [Ha _] E _ [IH1 IH2]]; [done|]. split; [by constructor|]. cbn [steps]. by rewrite E.
Qed.

Lemma decrypt_told b th : sealed_row b th -> decrypt th (content (id th)) b = (Ok (told (id th)), b).
Proof.
  unfold sealed_row. destruct (told (id th)) as [subj text].
  intros (Hd & Hs & Ht & _ & _ & _ & priv & Hr & k & Hw & Ha & Hn & Hc & Hsu).
  pose proof (ring_get _ _ _ Hr) as Hget. unfold decrypt, WebText.decryptEnvelopeText.
  erewrite bind_ok by (erewrite bind_ok by (by eapply browser_opens); reflexivity).
  by erewrite bind_ok by (erewrite bind_ok by (by eapply browser_opens); reflexivity).
Qed.

(** ** The invariant: what has been shown is what was written *)

Definition told_worker (b : Browser) (w : Worker) : Prop :=
  match w with Fetching th => sealed_row b th | Decrypting th c => sealed_row b th /\ c = content (id th) | _ => True end.

Definition told_run (b : Browser) (r : Run) : Prop := Forall (sealed_row b) (queue r) /\ Forall (told_worker b) (workers r).

Definition told_page (p : Page) : Prop := forall i v, previewTextById p !! i = Some v ->
  v = previewSnippet (told i).2 PREVIEW_CHARS /\ subjectTextById p !! i = Some (told i).1.

Definition told_pool (b : Browser) (presence : gmap jstr bool) (s : Pool) : Prop :=
  p_browser s = b /\ keyPresenceByDid (p_page s) = presence /\ told_page (p_page s) /\ Forall (told_run b) (runs s).

(** Filtering and the marks of the page change nothing of what is sealed. *)
Lemma shown_row (P : ThreadView -> Prop) p th :
  (forall th, P th -> P (derive p th)) -> (forall th, th ∈ apiThreads t d -> P th) -> th ∈ filteredThreads t d p -> P th.
Proof.
  intros Hder HP. unfold filteredThreads, derivedThreads. rewrite list_elem_of_In, !filter_In. intros [[Hin _] _].
  apply in_map_iff in Hin as (th0 & <- & Hin%list_elem_of_In). by apply Hder, HP.
Qed.

Lemma start_told b p : (forall th, th ∈ apiThreads t d -> sealed_row b th) -> told_run b (start t d p).
Proof.
  intros Hall.
  assert (Forall (sealed_row b) (pending t d p)) as Hp.
  { apply Forall_forall. intros th [Hth%list_elem_of_In _]%list_elem_of_In%filter_In.
    apply (shown_row (sealed_row b) p th); [by intros th0|done|exact Hth]. }
  unfold start. destruct (pending t d p); split; cbn; try done. repeat constructor.
Qed.

Lemma show_told p th : told_page p -> (told (id th)).1 <> WebText.ENCRYPTED_PLACEHOLDER -> (told (id th)).2 <> WebText.ENCRYPTED_PLACEHOLDER ->
  told_page (show th (told (id th)).1 (told (id th)).2 p).
Proof.
  intros Hp Ns Nt i v. unfold show. apply jeqb_false in Ns as ->. apply jeqb_false in Nt as ->. cbn.
  destruct (decide (i = id th)) as [-> | Hi]; [rewrite !lookup_insert_eq; by intros [= <-]|].
  rewrite !lookup_insert_ne by done. apply Hp.
Qed.

Lemma advance_told b presence c ans w q s w' q' s' :
  told_pool b presence s -> told_worker b w -> Forall (sealed_row b) q ->
  (forall th, w = Fetching th -> ans = Ok (Some (content (id th)))) ->
  advance c ans w q s = Some (w', q', s') ->
  told_pool b presence s' /\ told_worker b w' /\ Forall (sealed_row b) q'.
Proof.
  intros Hs Hw Hq Hans. destruct w as [|th|th c0|]; cbn [advance]; [| | |done].
  - destruct c; [by intros [= <- <- <-]|]. destruct Hq as [|th q Hth Hq]; by intros [= <- <- <-].
  - rewrite (Hans th eq_refl). destruct c; by intros [= <- <- <-].
  - destruct Hw as [Hth ->], Hs as (Hb & Hpr & Hpg & Hr). rewrite Hb, (decrypt_told b th Hth).
    rewrite (surjective_pairing (told (id th))). destruct c; intros [= <- <- <-]; [by split_and!|].
    split_and!; [|done..]. split_and!; [done| | |done].
    + rewrite <- Hpr. cbn. unfold show. by destruct (jeqb _ _).
    + unfold sealed_row in Hth. destruct (told (id th)) as [subj text] eqn:E.
      pose proof (show_told (p_page s) th Hpg) as Hsh. rewrite E in Hsh. by apply Hsh; apply Hth.
Qed.

Lemma step_told b presence e s s' : (forall th, th ∈ apiThreads t d -> sealed_row b th) ->
  told_pool b presence s -> fetched s e -> step t d e s = Some s' -> told_pool b presence s'.
Proof.
  intros Hall Hs [_ Hf]. destruct e as [i j ans|]; cbn [step].
  - destruct (runs s !! i) as [r|] eqn:Ei; [|done]. destruct (workers r !! j) as [w|] eqn:Ej; [|done].
    destruct (advance _ _ _ _ _) as [[[w' q'] s1]|] eqn:Ea; [|done]. intros [= <-].
    assert (told_run b r) as [Hq Hw] by (destruct Hs as (_ & _ & _ & Hr); by apply (Forall_lookup_1 _ _ _ _ Hr Ei)).
    eapply advance_told in Ea as ((Hb & Hp & Hpg & Hr) & Hw' & Hq'); [|done|by apply (Forall_lookup_1 _ _ _ _ Hw Ej)|done|].
    2: { intros th ->. by apply (Hf r). }
    split_and!; [done..|]. cbn. apply Forall_insert; [done|]. split; [done|]. by apply Forall_insert.
  - destruct (dirty s); [|done]. intros [= <-]. destruct Hs as (Hb & Hp & Hpg & Hr). split_and!; [done..|].
    constructor; [by apply start_told|done].
Qed.

Lemma served_told b presence s es s' : (forall th, th ∈ apiThreads t d -> sealed_row b th) ->
  served s es s' -> told_pool b presence s -> told_pool b presence s'.
Proof. intros Hall Hsv. induction Hsv as [|s e s1 es s' Hf E _ IH]; [done|]. intros Hs. apply IH. by eapply step_told. Qed.

(** ** Such a schedule exists *)

Lemma advance_any c ans ans' w q s x : advance c ans w q s = Some x -> exists y, advance c ans' w q s = Some y.
Proof.
  destruct w as [|th|th c0|]; cbn [advance]; [eauto| |eauto|done]. intros _.
  destruct ans' as [[c1|]|e]; destruct c; by eexists.
Qed.

Lemma fetched_step e s s' : answered e -> step t d e s = Some s' -> exists e' s'', fetched s e' /\ step t d e' s = Some s''.
Proof.
  intros Ha. destruct e as [i j ans|]; cbn [step]; [|by exists Render, s'].
  destruct (runs s !! i) as [r|] eqn:Ei; [|done]. destruct (workers r !! j) as [w|] eqn:Ej; [|done].
  destruct (advance _ _ _ _ _) as [x|] eqn:Ea; [|done]. intros _.
  set (ans' := match w with Fetching th => Ok (Some (content (id th))) | _ => Throw (Error_ []) end).
  destruct (advance_any _ _ ans' _ _ _ _ Ea) as ([[w' q'] s1] & E).
  exists (Advance i j ans'). cbn [step]. rewrite Ei, Ej, E. eexists. split; [split|reflexivity].
  - unfold ans'. by destruct w.
  - cbn. intros r' th Er Ew. rewrite Ei in Er. injection Er as <-. rewrite Ej in Ew. by injection Ew as ->.
Qed.

Lemma served_exists n s : fresh t d s -> (measure t d s <= n)%nat -> exists es s', served s es s' /\ settled t d s'.
Proof.
  revert s. induction n as [|n IH]; intros s Hf Hn; destruct (moves_or_settled t d s) as [Hs|(e0 & s0 & Ha & E0)].
  1, 3: exists [], s; split; [constructor|done].
  all: destruct (fetched_step e0 s s0 Ha E0) as (e & s1 & He & E).
  all: destruct (step_measure t d e s s1 Hf E) as [F1 M1].
  - lia.
  - destruct (IH s1 F1 ltac:(lia)) as (es & s' & Hes & Hs). exists (e :: es), s'. split; [by econstructor|done].
Qed.

(** The subject of the open message is the one of its row. *)
Lemma open_subject_told b th p text : sealed_row b th ->
  exists o', Reader.subject_effect false (Some th) (Reader.QueryOf (Some (content (id th))) false) (Reader.OpenedOf b p text) = (Ok tt, o') /\
    Reader.o_browser o' = b /\ Reader.o_page o' = set_subjects (<[id th := (told (id th)).1]> (subjectTextById p)) p.
Proof.
  unfold sealed_row. destruct (told (id th)) as [subj body_].
  intros (Hd & Hs & Ht & Hp & _ & _ & priv & Hr & k & Hw & Ha & Hn & Hc & Hsu).
  unfold Reader.subject_effect. cbn [Reader.activeEncryptedKey Reader.data fmap option_fmap option_map].
  assert (truthy_str (encryptedSubject th) = true) as -> by (destruct Hsu as (x & -> & _); apply serialize_truthy).
  assert (exists c0 key, encrypted_key (content (id th)) = c0 :: key) as (c0 & key & Ek)
    by (destruct Hw as (? & ? & ? & ? & ? & -> & _); by eexists _, _).
  rewrite Ek. cbn [negb]. erewrite bind_ok.
  2: { unfold Reader.in_browser, WebText.decryptEnvelopeText. cbn [Reader.o_browser]. rewrite <- Ek.
       erewrite bind_ok by (eapply browser_opens; try done; by apply ring_get). reflexivity. }
  cbn [WebText.state WebText.text]. rewrite bool_decide_eq_true_2 by done. apply jeqb_false in Hp as ->.
  by eexists.
Qed.

End told.

(** * Properties *)

(** The preview a row should have. *)
Definition preview_line (t : jstr -> jstr) (text : jstr) : jstr :=
  match previewSnippet text PREVIEW_CHARS with [] => t (js "inbox.previewEmpty") | snippet => snippet end.


(** Two messages for one agent of this browser. *)
Definition sealed_entry (i subj : jstr) : Threads.MessageIndexEntry :=
  Threads.Entry i None (js "2026-01-01T00:00:00Z") (js "unread") (js "did:key:zA") None (js "did:key:zB") subj false (js "normal") (num 1) None None None.


(** The preview of a protocol message is the first line of its JSON (its quotes
    shown here as apostrophes). *)
Example protocol_preview_is_json :
  let quotes c := if c =? 34 then 39 else c in
  map quotes (previewSnippet (serializeA2APayload (message_to_val (js "Shall we meet?") None)) PREVIEW_CHARS)
  = js "{'v':1,'body':'Shall we meet?'}".
Proof. vm_compute. reflexivity. Qed.

(** ** The toolbar *)

Lemma nothing_selected_disabled `{Host, Locale, CaseMap} (t : jstr -> jstr) (d : Data) (shown : Page) w b :
  (forall th, th ∈ filteredThreads t d shown -> id th ∉ selectedIds shown) -> Toolbar.disabled t d shown w b = true.
Proof.
  intros Hn. unfold Toolbar.disabled, Toolbar.selectedCount.
  replace (List.filter _ _) with (@nil ThreadView); [done|]. symmetry.
  induction (filteredThreads t d shown) as [|th l IH]; [done|]. cbn.
  assert (includes (selectedIds shown) (id th) = false) as ->.
  { apply not_true_is_false. unfold includes. intros (y & Hy%list_elem_of_In & ->%jeqb_true)%existsb_exists. apply (Hn th); [by left|done]. }
  apply IH. intros th' Hin. apply Hn. by right.
Qed.

(** Messages are destroyed from the trash alone. *)
Lemma delete_from_trash v : Toolbar.DeleteForever ∈ Toolbar.buttons v <-> v = trash.
Proof. destruct v; cbn; rewrite ?elem_of_cons, ?elem_of_nil; naive_solver. Qed.
