(* ===== verification/ConversationView.v ===== *)
(** What the conversation shows: the markup of
    apps/web/app/_components/ConversationThread.tsx over the state of
    Conversation.v, with the protocol cards of CardViews.v inside.

    A text of the interface is given by the translation [t]; [shown_time] is
    [toLocaleString] of a message's date, [upper] is [toUpperCase]; every card has
    a state of its own. *)
From S2P Require Import Prelude Utf8 JsNumber Json JsDate Effect Node Envelope A2A A2AReply ApiClient Browser WebKeystore WebEnvelope WebApi SendReply Bridge BridgeSpec Urls Views Propose Llm Session Visibility Conversation CardViews.

Module Display.
Import Conversation.Thread.

(** The card of a message that cannot be read here.  The runtime button is given
    the message and its recipient; the restore button the sealed texts too. *)
Record UnavailableCard := UnavailableOf {
  u_badge : option jstr; u_title : jstr; u_body : jstr; u_runtime : option (jstr * jstr);
  u_restore : option (jstr * jstr * jstr * jstr); u_copies : list jstr; u_help : option jstr
}.

(** [protocol], [lines], or why there is no text. *)
Inductive BodyView := ProtocolBody (v : CardView) | Lines (l : list jstr) | StillDecrypting (s : jstr) | CannotRead (c : UnavailableCard).

Record Article := ArticleOf {
  a_id : jstr; a_sender : jstr; a_avatar : jstr; a_latest : bool; a_subject : option jstr; a_time : jstr;
  a_add_contact : option jstr; a_can_block : bool; a_block_panel : bool; a_block_status : option (bool * jstr);
  a_body : BodyView; a_attachments : option (jstr * jstr * jstr)
}.

Inductive Pane := Waiting | Thread_ (subject : jstr) (count : nat) (articles : list Article).

Section display.
Context `{Host, Locale}.
Variables (t : jstr -> jstr) (shown : Z -> jstr) (shown_time : option Z -> jstr) (upper : jstr -> jstr).

Definition MessageUnavailableCard (state : MessageVisibilityState) (messageId recipientDid encryptedContent encryptedKey subjectEncrypted : jstr)
    : UnavailableCard :=
  let isDaemon := match state with unavailable_on_this_device => true | _ => false end in
  UnavailableOf
    (if isDaemon then Some (t (js "inbox.unavailableOnThisDeviceBadge")) else None)
    (if isDaemon then t (js "inbox.unavailableOnThisDeviceCardTitle") else t (js "inbox.decryptFailedCardTitle"))
    (if isDaemon then t (js "inbox.unavailableOnThisDeviceCardBody") else t (js "inbox.decryptFailedCardBody"))
    (if isDaemon then Some (messageId, recipientDid) else None)
    (if isDaemon then Some (recipientDid, encryptedContent, encryptedKey, subjectEncrypted) else None)
    (messageId :: if truthy_str recipientDid then [recipientDid] else [])
    (if isDaemon then Some (js "/help#help-modes") else None).

Definition body_view (v : View) (now : Z) (card : Cards.Card) (m : RenderableMessage) : res BodyView :=
  let e := entry m in
  let sealed_part (f : Content -> jstr) := match content_of v e with Some c => f c | None => [] end in
  match r_state m with
  | readable =>
    match protocol m ≫= block_of_val with
    | Some block => c ← ProtocolMessageRouter shown block (bodyText m) (e_folder e) now card; Ok (ProtocolBody c)
    | None => Ok (Lines (map (fun line => if truthy_str line then line else js " ") (split_on 10 (bodyText m))))
    end
  | decrypting => Ok (StillDecrypting (bodyText m))
  | state =>
    Ok (CannotRead (MessageUnavailableCard state (e_id e) (e_recipient_did e)
                      (sealed_part encrypted_content) (sealed_part encrypted_key) (e_subject_encrypted e)))
  end.

(** What the page around the messages holds: the contacts and the block panel. *)
Record Around := AroundOf { contacts : option (list Labels.ContactEntry); block : Block.Panel }.

Definition knownContact (x : Around) (did : jstr) : bool := existsb (fun c => jeqb (Labels.did c) did) (default [] (contacts x)).

Definition article (v : View) (x : Around) (now : Z) (cards : jstr -> Cards.Card) (latest : bool) (m : RenderableMessage) : res Article :=
  let e := entry m in
  let did := e_sender_did e in
  let senderLabel := Labels.resolveParticipantLabel (Some did) (e_sender_label e) (Some (Labels.indexContactsByDid (contacts x))) in
  link ← (if truthy_str did && negb (knownContact x did)
          then enc ← encodeURIComponent did; Ok (Some (js "/contacts?add=" ++ enc)) else Ok None);
  b ← body_view v now (cards (e_id e)) m;
  Ok (ArticleOf (e_id e) senderLabel (upper (match senderLabel with c :: _ => [c] | [] => js "?" end)) latest
        (if jeqb (subjectText m) (threadSubject t v) then None else Some (subjectText m))
        (shown_time (date_parse (e_created_at e))) link (truthy_str did)
        (bool_decide (Block.blockOpenFor (block x) = Some (e_id e))) (Block.status_shown (block x)) b
        (match r_state m with
         | readable => Some (e_id e, e_recipient_did e, match content_of v e with Some c => encrypted_key c | None => [] end)
         | _ => None
         end)).

(** The articles in their order; one that throws takes the page with it. *)
Fixpoint articles (v : View) (x : Around) (now : Z) (cards : jstr -> Cards.Card) (l : list RenderableMessage) : res (list Article) :=
  match l with
  | [] => Ok []
  | m :: r =>
    a ← article v x now cards (match r with [] => true | _ => false end) m;
    rest ← articles v x now cards r;
    Ok (a :: rest)
  end.

Definition pane (isLoading : bool) (v : View) (x : Around) (now : Z) (cards : jstr -> Cards.Card) : res Pane :=
  if isLoading then Ok Waiting
  else match rendered v with
  | [] => Ok Waiting
  | l => shown_articles ← articles v x now cards l; Ok (Thread_ (threadSubject t v) (length l) shown_articles)
  end.

End display.
End Display.

(** The levels of a block, as the panel offers them. *)
Definition block_choices : list (Conversation.Thread.Block.BlockLevel * jstr * jstr) :=
  [(Conversation.Thread.Block.l1_did, js "inbox.blockLevelL1", js "inbox.blockLevelL1Desc");
   (Conversation.Thread.Block.l2_identity, js "inbox.blockLevelL2", js "inbox.blockLevelL2Desc");
   (Conversation.Thread.Block.l3_stealth, js "inbox.blockLevelL3", js "inbox.blockLevelL3Desc")].

(** * Lemmas *)

Section displayed.
Context `{Host, Locale, WebCrypto, !WebCryptoLaws, Env, !EnvLaws, BrowserEnv}.
Variables (t : jstr -> jstr) (shown : Z -> jstr).

(** An entry of a conversation with the sealed texts of a sent message. *)
Record carries (e : Conversation.Thread.Entry) (c : Conversation.Thread.Content) (m : WebApi.SeedMessage) : Prop := {
  car_content : Conversation.Thread.encrypted_content c = WebApi.sm_encryptedContent m;
  car_key : Conversation.Thread.encrypted_key c = WebApi.sm_encryptedKey m;
  car_subject : Conversation.Thread.e_subject_encrypted e = WebApi.sm_subjectEncrypted m;
  car_type : Conversation.Thread.c_content_type c = WebApi.sm_contentType m;
  car_recipient : JStr (Conversation.Thread.e_recipient_did e) = WebApi.sm_recipientDid m
}.

(** A protocol message that was delivered is displayed as its card. *)
Lemma delivered_displayed m did priv subj summary block (b : Browser) e c v now card :
  delivers m priv subj summary block -> text_ok subj -> subj <> WebText.ENCRYPTED_PLACEHOLDER ->
  assertValidA2APayload block = Ok tt ->
  carries e c m -> WebApi.sm_recipientDid m = JStr did -> truthy_str did = true -> ring_holds b did priv ->
  exists msg w, Conversation.Thread.render_message t e c b = (Ok msg, b) /\
    Conversation.Thread.subjectText msg = subj /\
    Display.body_view t shown v now card msg = Ok (Display.ProtocolBody w) /\
    tells shown block (Conversation.Thread.e_folder e) now card w.
Proof.
  intros (raw & Hse & Hraw & _ & Hp) Hs Hph Hv [C1 C2 C3 C4 C5] Hdid Ht Hr. rewrite Hdid in C5. injection C5 as C5.
  assert (readable_here b e c subj raw) as Hrd.
  { split_and!; rewrite ?C5; try done. exists priv. by rewrite C1, C2, C3. }
  eexists. destruct (valid_block_tells shown block (body (parseProtocolBody raw (Conversation.Thread.c_content_type c)))
                       (Conversation.Thread.e_folder e) now card Hv) as (w & Ew & Tw).
  exists w. split; [by apply render_message_ok|]. split; [done|]. split; [|done].
  unfold shown_as, Display.body_view. unfold parseProtocolBody in *. rewrite C4, Hp in Ew |- *.
  cbn -[block_of_val block_to_val ProtocolMessageRouter] in Ew |- *. rewrite block_val_ok. by rewrite Ew.
Qed.

End displayed.

(** * Properties *)


