(* ===== verification/Links.v ===== *)
(** The links between the pages: what a page puts in an address with
    [encodeURIComponent] and what the page it leads to reads back
    (apps/web/app/page.tsx, app/compose/page.tsx, app/contacts/page.tsx,
    app/settings/agents/page.tsx, app/settings/audit/page.tsx and the sidebar of
    app/_components/AppShell.tsx). *)
From S2P Require Import Prelude Utf8 JsNumber Json JsDate A2A Effect Node Envelope ApiClient Browser WebKeystore WebApi Urls Compose Llm Session Views Inbox Conversation Preview InboxView Contacts AuditPage Shell.

(** ** What the pages read *)

(** compose/page.tsx: the mode, the message and whether a draft is asked for. *)
Record Opening := OpeningOf { op_mode : ComposeMode; op_replyToId : option jstr; op_forwardFromId : option jstr; op_aiDraft : bool }.

Definition compose_opened (search : jstr) : Opening :=
  let params := parse_params search in
  let replyToId := sanitiseUuidParam (params_get (js "reply") params) in
  let forwardFromId := sanitiseUuidParam (params_get (js "forward") params) in
  OpeningOf (match replyToId with Some _ => reply | None => match forwardFromId with Some _ => forward | None => new_message end end)
    replyToId forwardFromId (bool_decide (params_get (js "ai") params = Some (js "1"))).

(** contacts/page.tsx: the parameter [add]. *)
Definition contacts_add (search : jstr) : option jstr := params_get (js "add") (parse_params search).

(** page.tsx: the view. *)
Definition inbox_view (search : jstr) : ViewKey := resolveViewKey (params_get (js "view") (parse_params search)).

(** settings/agents/page.tsx: the link from an agent's automatic replies to the
    audit log. *)
Definition audit_href (aid : jstr) : res jstr :=
  enc ← encodeURIComponent aid; Ok (js "/settings/audit?event=auto_reply_evaluated&aid=" ++ enc).

(** * Lemmas *)

(** ** A query built from encoded values is read back *)

Definition link_piece (enc : Z -> jstr) (kv : jstr * jstr) : jstr := kv.1 ++ 61 :: flat_map enc (utf8_encode kv.2).

Definition key_ok (k : jstr) : Prop := k <> [] /\ Forall query_safe k /\ form_decode k = k /\ flat_map query_byte k = k.
Definition value_ok (v : jstr) : Prop := Forall unit_ok v /\ is_well_formed v = true.
Definition link_ok (kv : jstr * jstr) : Prop := key_ok kv.1 /\ value_ok kv.2.

#[global] Instance key_ok_dec k : base.Decision (key_ok k).
Proof. unfold key_ok. apply _. Defined.

Lemma link_piece_safe enc kv c : reads_bytes enc -> link_ok kv -> c ∈ [35; 38; 63] -> c ∉ link_piece enc kv.
Proof.
  intros He [(_ & Hk & _) [Hu _]] Hc. assert (c ∈ [35; 38; 61; 63]) as Hc' by set_solver.
  unfold link_piece. rewrite elem_of_app, elem_of_cons. intros [H|[->|H]].
  - by apply (safe_without kv.1 c Hc' Hk).
  - set_solver.
  - refine (safe_without _ c Hc' _ H). apply encoded_safe; [done|by apply utf8_encode_bytes].
Qed.

Lemma link_piece_ascii enc kv : reads_bytes enc -> link_ok kv -> ascii_text (link_piece enc kv).
Proof.
  intros He [(_ & Hk & _) [Hu _]]. unfold link_piece. apply Forall_app. split; [by apply safe_ascii|].
  constructor; [lia|]. apply safe_ascii, encoded_safe; [done|by apply utf8_encode_bytes].
Qed.

Lemma link_piece_decoded enc kv : reads_bytes enc -> link_ok kv ->
  (let '(k, v) := split_first 61 (link_piece enc kv) in (form_decode k, form_decode v)) = kv.
Proof.
  intros He [(_ & Hk & Hd & _) [Hu Hw]]. unfold link_piece. rewrite split_first_app by (apply safe_without; [set_solver|done]).
  rewrite Hd, form_decode_encoded by done. by destruct kv.
Qed.

Lemma link_pieces_written enc l : Forall link_ok l ->
  flat_map query_byte (join_with [38] (map (link_piece enc) l)) = join_with [38] (map (link_piece (fun b => flat_map query_byte (enc b))) l).
Proof.
  assert (forall kv, link_ok kv -> flat_map query_byte (link_piece enc kv) = link_piece (fun b => flat_map query_byte (enc b)) kv) as Hp.
  { intros kv [(_ & _ & _ & Hq) _]. unfold link_piece. rewrite flat_map_app, Hq. cbn [flat_map]. by rewrite flat_map_flat_map. }
  induction 1 as [|kv l Hkv Hl IH]; [done|]. destruct l as [|kv' l]; [by apply Hp|].
  cbn [map join_with] in *. by rewrite !flat_map_app, IH, Hp.
Qed.

Lemma join_pieces (P : Z -> Prop) enc l : P 38 -> (forall kv, link_ok kv -> Forall P (link_piece enc kv)) -> Forall link_ok l ->
  Forall P (join_with [38] (map (link_piece enc) l)).
Proof.
  intros Hc Hp. induction 1 as [|kv l Hkv Hl IH]; [constructor|]. destruct l as [|kv' l]; [by apply Hp|].
  cbn [map join_with] in *. apply Forall_app. split; [by apply Hp|]. apply Forall_app. split; [by repeat constructor|done].
Qed.

Lemma join_pieces_nonempty enc l : Forall link_ok l -> l <> [] -> exists c r, join_with [38] (map (link_piece enc) l) = c :: r.
Proof.
  destruct l as [|kv l]; [done|]. intros [[(Hn & _) _] _]%Forall_cons _. unfold link_piece. destruct kv as [[|c k] v]; [done|].
  cbn. destruct l; by eexists _, _.
Qed.

Lemma pieces_parsed enc l : reads_bytes enc -> Forall link_ok l -> l <> [] ->
  parse_params (63 :: join_with [38] (map (link_piece enc) l)) = l.
Proof.
  intros He Hl Hne. unfold parse_params. rewrite split_on_join; [|by destruct l|].
  2: { apply Forall_map. eapply Forall_impl; [exact Hl|]. intros kv Hkv. apply link_piece_safe; [done|done|set_solver]. }
  clear Hne. induction Hl as [|kv l Hkv Hl IH]; [done|]. cbn [map].
  rewrite filter_cons_True by (destruct Hkv as [(Hn & _) _]; unfold link_piece; by destruct (kv.1)).
  cbn [map]. by rewrite link_piece_decoded, IH.
Qed.

(** The parameters of a link whose values went through [encodeURIComponent]. *)
Lemma link_read path l : Forall query_safe path -> Forall link_ok l -> l <> [] ->
  parse_params (location_search (path ++ 63 :: join_with [38] (map (link_piece component_byte) l))) = l.
Proof.
  intros Hp Hl Hne. unfold location_search. set (q := join_with [38] (map (link_piece component_byte) l)).
  pose proof component_byte_reads as He.
  assert (35 ∉ q) as H35.
  { assert (Forall (fun c => c <> 35) q) as Hf; [|rewrite Forall_forall in Hf; intros Hin; by apply (Hf 35)].
    apply join_pieces; [done| |done]. intros kv Hkv. apply Forall_forall. intros c Hc ->. revert Hc.
    apply link_piece_safe; [done|done|set_solver]. }
  rewrite (split_first_none 35).
  2: { rewrite elem_of_app, elem_of_cons. intros [H|[H|H]]; [|done|done]. revert H. apply safe_without; [set_solver|done]. }
  rewrite split_first_app by (apply safe_without; [set_solver|done]).
  destruct (join_pieces_nonempty component_byte l Hl Hne) as (c & r & Eq). fold q in Eq. rewrite Eq, <- Eq.
  rewrite ascii_utf8 by (apply join_pieces; [lia|intros; by apply link_piece_ascii|done]).
  unfold q. rewrite link_pieces_written by done. apply pieces_parsed; [exact component_query_reads|done|done].
Qed.

Lemma encoded_component s : is_well_formed s = true -> encodeURIComponent s = Ok (flat_map component_byte (utf8_encode s)).
Proof. intros Hw. unfold encodeURIComponent. by rewrite Hw. Qed.

Lemma uuid_value i : uuid_test i = true -> value_ok i.
Proof.
  intros Hu. apply AuditFacts.ascii_wf. eapply Forall_impl; [by apply uuid_test_units|].
  intros c [Hc|Hc]; cbn; [|lia]. unfold is_hex, hex_val, is_digit in Hc.
  destruct ((48 <=? c) && (c <=? 57)) eqn:E1; [lia|]. destruct ((97 <=? c) && (c <=? 102)) eqn:E2; [lia|].
  destruct ((65 <=? c) && (c <=? 70)) eqn:E3; [lia|done].
Qed.

(** A lookup among parameters with known names. *)
Ltac get_params :=
  cbn [params_get];
  repeat match goal with |- context [jeqb (js ?a) (js ?b)] =>
    let v := eval vm_compute in (jeqb (js a) (js b)) in change (jeqb (js a) (js b)) with v; cbv iota
  end.

(** Links of one value, and the link that asks for a draft. *)
Lemma link_of_one path key v : Forall query_safe path -> link_ok (key, v) ->
  exists enc, encodeURIComponent v = Ok enc /\ parse_params (location_search (path ++ 63 :: key ++ 61 :: enc)) = [(key, v)].
Proof.
  intros Hp Hk. eexists. split; [by apply encoded_component, (proj2 Hk)|].
  rewrite <- (link_read path [(key, v)]); [done|done| |done]. by apply Forall_singleton.
Qed.

Lemma link_of_two path key v key' v' : Forall query_safe path -> link_ok (key, v) -> link_ok (key', v') ->
  exists enc enc', encodeURIComponent v = Ok enc /\ encodeURIComponent v' = Ok enc' /\
    parse_params (location_search (path ++ 63 :: key ++ 61 :: enc ++ 38 :: key' ++ 61 :: enc')) = [(key, v); (key', v')].
Proof.
  intros Hp Hk Hk'. eexists _, _. split; [by apply encoded_component, (proj2 Hk)|]. split; [by apply encoded_component, (proj2 Hk')|].
  rewrite <- (link_read path [(key, v); (key', v')]); [|done| |done].
  2: { apply Forall_cons. split; [done|]. by apply Forall_singleton. }
  cbn [map join_with]. unfold link_piece. cbn [fst snd]. by rewrite <- !app_assoc.
Qed.

(** * Properties *)

(** The links of the pages arrive.  From the reader of a message: replying,
    drafting, forwarding and adding the sender lead to pages that read back the
    message or the sender they were given, and from an agent's settings to the
    audit log of that agent; every view of the sidebar leads to itself and is
    highlighted there.  The link of the first steps that should address a message
    to oneself arrives as an empty message: its parameter is read by nobody. *)
Theorem links_arrive (th : ThreadView) (aid : jstr) :
  uuid_test (id th) = true -> value_ok (senderDid th) -> value_ok aid ->
  (exists u, Reader.href th Reader.Reply = Ok u /\ compose_opened (location_search u) = OpeningOf reply (Some (id th)) None false) /\
  (exists u, Reader.href th Reader.AiDraftApprove = Ok u /\ compose_opened (location_search u) = OpeningOf reply (Some (id th)) None true) /\
  (exists u, Reader.href th Reader.Forward = Ok u /\ compose_opened (location_search u) = OpeningOf forward None (Some (id th)) false) /\
  (exists u, Reader.href th Reader.AddContact = Ok u /\ contacts_add (location_search u) = Some (senderDid th)) /\
  (exists u, audit_href aid = Ok u /\
     AuditLogPage.opened (location_search u) = AuditLogPage.FiltersOf (js "auto_reply_evaluated") aid None 0 None) /\
  (forall v, inbox_view (location_search (Inbox.activePath (buildViewConfigs v))) = v /\
     AppShell.activeHref (Inbox.activePath (buildViewConfigs v)) = Some (Inbox.activePath (buildViewConfigs v))) /\
  (exists u, Reader.selfSend_href aid = Ok u /\ compose_opened (location_search u) = OpeningOf new_message None None false).
Proof.
  intros Hu Hd Ha. pose proof (uuid_value _ Hu) as Hi.
  assert (forall k, key_ok k -> Forall query_safe k) as Hks by (intros k Hk; apply Hk).
  assert (key_ok (js "reply") /\ key_ok (js "forward") /\ key_ok (js "ai") /\ key_ok (js "add") /\ key_ok (js "event") /\ key_ok (js "aid") /\ key_ok (js "to"))
    as (K1 & K2 & K3 & K4 & K5 & K6 & K7) by (split_and!; apply (bool_decide_eq_true_1 (key_ok _)); by vm_compute).
  assert (Forall query_safe (js "/compose") /\ Forall query_safe (js "/contacts") /\ Forall query_safe (js "/settings/audit"))
    as (P1 & P2 & P3) by (split_and!; apply (bool_decide_eq_true_1 (Forall query_safe _)); by vm_compute).
  assert (sanitiseUuidParam (Some (id th)) = Some (id th)) as Hs by (unfold sanitiseUuidParam; rewrite Hu; by destruct (id th)).
  assert (value_ok (js "1") /\ value_ok (js "auto_reply_evaluated")) as [V1 V2] by (split; apply AuditFacts.ascii_wf; by apply (bool_decide_eq_true_1 (ascii_text _)); vm_compute).
  split_and!.
  - destruct (link_of_one (js "/compose") (js "reply") (id th)) as (enc & E & Q); [done|by split|].
    unfold Reader.href. rewrite E. eexists. split; [reflexivity|]. rewrite app_nil_r.
    change (js "/compose?reply=" ++ enc) with (js "/compose" ++ 63 :: js "reply" ++ 61 :: enc).
    unfold compose_opened. rewrite Q. get_params. rewrite Hs. by vm_compute.
  - destruct (link_of_two (js "/compose") (js "reply") (id th) (js "ai") (js "1")) as (enc & enc' & E & E' & Q); [done|by split|by split|].
    unfold Reader.href. rewrite E. eexists. split; [reflexivity|]. assert (enc' = js "1") as -> by (vm_compute in E'; by injection E').
    change (js "/compose?reply=" ++ enc ++ js "&ai=1") with (js "/compose" ++ 63 :: js "reply" ++ 61 :: enc ++ 38 :: js "ai" ++ 61 :: js "1").
    unfold compose_opened. rewrite Q. get_params. rewrite Hs. by vm_compute.
  - destruct (link_of_one (js "/compose") (js "forward") (id th)) as (enc & E & Q); [done|by split|].
    unfold Reader.href. rewrite E. eexists. split; [reflexivity|]. rewrite app_nil_r.
    change (js "/compose?forward=" ++ enc) with (js "/compose" ++ 63 :: js "forward" ++ 61 :: enc).
    unfold compose_opened. rewrite Q. get_params. rewrite Hs. by vm_compute.
  - destruct (link_of_one (js "/contacts") (js "add") (senderDid th)) as (enc & E & Q); [done|by split|].
    unfold Reader.href. rewrite E. eexists. split; [reflexivity|].
    change (js "/contacts?add=" ++ enc) with (js "/contacts" ++ 63 :: js "add" ++ 61 :: enc). unfold contacts_add. rewrite Q. by get_params.
  - destruct (link_of_two (js "/settings/audit") (js "event") (js "auto_reply_evaluated") (js "aid") aid) as (enc & enc' & E & E' & Q); [done|by split|by split|].
    unfold audit_href. rewrite E'. eexists. split; [reflexivity|]. assert (enc = js "auto_reply_evaluated") as -> by (vm_compute in E; by injection E).
    change (js "/settings/audit?event=auto_reply_evaluated&aid=" ++ enc') with
      (js "/settings/audit" ++ 63 :: js "event" ++ 61 :: js "auto_reply_evaluated" ++ 38 :: js "aid" ++ 61 :: enc').
    unfold AuditLogPage.opened. rewrite Q. by get_params.
  - intros v. destruct v; split; by vm_compute.
  - destruct (link_of_one (js "/compose") (js "to") aid) as (enc & E & Q); [done|by split|].
    unfold Reader.selfSend_href. rewrite E. eexists. split; [reflexivity|].
    change (js "/compose?to=" ++ enc) with (js "/compose" ++ 63 :: js "to" ++ 61 :: enc). unfold compose_opened. rewrite Q. by get_params.
Qed.

(** From a message to a contact: the button of the reader, the page it leads to,
    a name, and one request that saves the sender's address under that name. *)
Theorem reader_adds_contact `{Host, Env, BrowserEnv, QueryClient, !QueryClientLaws}
    (th : ThreadView) (l : list ContactsPage.ContactEntry) (name : jstr) (t : Tab) :
  value_ok (senderDid th) -> starts_with (js "did:key:") (trim (senderDid th)) = true -> truthy_str (trim name) = true ->
  ContactsFacts.ids_ok l -> (forall c, c ∈ l -> ContactsPage.did c <> trim (senderDid th)) ->
  exists u, Reader.href th Reader.AddContact = Ok u /\
    let r := ContactsPage.PropsOf (contacts_add (location_search u)) l false in
    let p := ContactsPage.setPersonName name (ContactsPage.settle None r ContactsPage.initial) in
    exists s', ContactsPage.handleSubmit p (ScreenOf t p) = (Ok tt, s') /\
      sc_trace s' = api_event (js "POST") (js "/contacts") (ContactsPage.create_payload (trim (senderDid th)) (trim name) [] [])
                      :: w_trace (b_node (t_browser t)).
Proof.
  intros Hv Hd Hn Hi Hl.
  destruct (link_of_one (js "/contacts") (js "add") (senderDid th)) as (enc & E & Q).
  { apply (bool_decide_eq_true_1 (Forall query_safe _)); by vm_compute. }
  { split; [apply (bool_decide_eq_true_1 (key_ok _)); by vm_compute|done]. }
  unfold Reader.href. rewrite E. eexists. split; [reflexivity|].
  change (js "/contacts?add=" ++ enc) with (js "/contacts" ++ 63 :: js "add" ++ 61 :: enc).
  assert (contacts_add (location_search (js "/contacts" ++ 63 :: js "add" ++ 61 :: enc)) = Some (senderDid th)) as ->
    by (unfold contacts_add; rewrite Q; by get_params).
  set (r := ContactsPage.PropsOf (Some (senderDid th)) l false).
  destruct (ContactsFacts.contact_link_saves r name t) as (s' & Es & _ & _ & Hs); [done..|].
  exists s'. split; [exact Es|]. revert Hs.
  destruct (List.find _ _) as [c|] eqn:Ef; [|by intros [_ Ht]].
  apply List.find_some in Ef as [Hin Hc%jeqb_true]. exfalso. by apply (Hl c); [apply list_elem_of_In|].
Qed.

Example reader_adds_contact_witness :
  let _ := plain_host in let _ := reply_env (js "{}") in let _ := open_browser in let _ := plain_client in
  let th := Thread (js "m1") (js "Bob") (js "did:key:zB") (js "did:key:zA") [] [] [] [] [] (js "read") false (js "normal") (num 1) 1 in
  exists u (s' : Screen ContactsPage.Page), Reader.href th Reader.AddContact = Ok u /\ u = js "/contacts?add=did%3Akey%3AzB" /\
    sc_trace s' = [api_event (js "POST") (js "/contacts") (ContactsPage.create_payload (js "did:key:zB") (js "Bob") [] [])].
Proof.
  intros ho en br qc th.
  destruct (reader_adds_contact th [] (js "Bob") paired_tab) as (u & Eu & s' & Es & Ht).
  - apply AuditFacts.ascii_wf. by apply (bool_decide_eq_true_1 (ascii_text _)); vm_compute.
  - by vm_compute.
  - by vm_compute.
  - split; set_solver.
  - set_solver.
  - exists u, s'. split; [exact Eu|]. split; [by injection Eu as <-; vm_compute|]. exact Ht.
Defined.

(** The audit log of an agent's automatic replies is opened with an event the
    list of events does not offer: the choice shows all events while the query
    asks for one. *)
Example linked_event_not_offered :
  AuditLogPage.own_meta (js "auto_reply_evaluated") = None /\
  match audit_href (js "aid:ai:1") with
  | Ok u => AuditLogPage.query (AuditLogPage.opened (location_search u)) =
              Hooks.AuditQuery None (Some (js "aid:ai:1")) (Some (js "auto_reply_evaluated")) None (Some (num 30)) (Some (num 0))
  | Throw _ => False
  end.
Proof. by vm_compute. Qed.
