(* ===== verification/Negotiation.v ===== *)
(** Answering a proposal, from card to card: the buttons of
    apps/web/app/_components/protocol/ScheduleNegotiationCard.tsx and
    TaskDelegationCard.tsx with the form of a counter-proposal, wired by
    ConversationThread.tsx to the sending of a reply, and what the proposer's
    conversation shows of it; and the view of the page a proposal is made on.

    The pieces are those of Propose.v (the handlers), Conversation.v
    ([handleProtocolRespond]), SendReply.v (the message) and ConversationView.v
    (the display). *)
From S2P Require Import Compose Prelude Utf8 JsNumber Json JsDate Effect Node Envelope A2A A2AReply ApiClient Browser WebKeystore WebEnvelope WebApi SendReply Urls Views Propose Conversation CardViews ConversationView.

(** ** The form of a counter-proposal *)
Module Counter.
Import Candidates.

Record Form := FormOf { rows : list CandidateRow; reason : jstr; formError : option jstr }.

Definition mounted : Form := FormOf [Row [] []] [] None.

(** [setRows] and [setReason]. *)
Definition with_rows (g : list CandidateRow -> list CandidateRow) (f : Form) : Form := FormOf (g (rows f)) (reason f) (formError f).
Definition with_reason (s : jstr) (f : Form) : Form := FormOf (rows f) s (formError f).

(** [handleSubmit]: the form after it, and what it hands to the card. *)
Definition submit `{Host, Locale} (t : jstr -> option nat -> jstr) (f : Form) : Form * option (list jval * option jstr) :=
  match Cards.handleSubmit t (rows f) (reason f) with
  | inl err => (FormOf (rows f) (reason f) (Some err), None)
  | inr sent => (FormOf (rows f) (reason f) None, Some sent)
  end.

(** What can happen to the form; its controls are off while the card is. *)
Inductive step `{Host, Locale} (t : jstr -> option nat -> jstr) (f : Form) : Form -> Prop :=
| adds : step t f (with_rows addRow f)
| removes i : step t f (with_rows (removeRow i) f)
| edits i at_start value : step t f (with_rows (updateRow i at_start value) f)
| explains s : step t f (with_reason s f)
| submits : step t f (submit t f).1.

Inductive reachable `{Host, Locale} (t : jstr -> option nat -> jstr) : Form -> Prop :=
| at_mount : reachable t mounted
| then_step f f' : reachable t f -> step t f f' -> reachable t f'.

(** A row as it is shown: its two texts and whether it can be removed. *)
Record FormView := ViewOf {
  v_rows : list (jstr * jstr * bool); v_enabled : bool; v_can_add : bool; v_reason : jstr; v_error : option jstr
}.

Definition view (disabled : bool) (f : Form) : FormView :=
  ViewOf (map (fun r => (start r, end_ r, (1 <? length (rows f))%nat)) (rows f)) (negb disabled)
    (negb (disabled || (CANDIDATE_MAX_COUNT <=? length (rows f))%nat)) (reason f)
    (match formError f with Some (_ :: _ as e) => Some e | _ => None end).

End Counter.

(** ** The page of a proposal: apps/web/app/compose/propose/page.tsx *)
Module ProposeForm.
Import ProposePage.

(** The agents, then the contacts, each did once. *)
Definition recipientOptions (agents : list Agent) (contacts : list Compose.Contact) : list (jstr * jstr) :=
  Compose.add_options ∅
    (map (fun a => (ag_did a, ag_label a)) agents ++ map (fun c => (Compose.co_did c, Compose.contact_label c)) contacts).

(** What the page shows of its form: the senders and whether one can be chosen,
    the recipients, the rows with their buttons, the status with its class, and
    the button with its label. *)
Record FormView := ViewOf {
  v_senders : list (jstr * jstr); v_can_choose : bool; v_recipients : list (jstr * jstr); v_fields_enabled : bool;
  v_rows : list (jstr * jstr * bool); v_can_add : bool; v_status : option (jstr * jstr); v_can_submit : bool; v_submit : jstr
}.

Definition badge_class (k : Kind) : jstr := match k with success => js "badge ok" | error => js "badge error" | info => js "badge " end.

Definition view (t : jstr -> option nat -> jstr) (contacts : list Compose.Contact) (f : Form) (p : Page) : FormView :=
  let pending := p_pending p in
  ViewOf (map (fun a => (ag_did a, ag_label a)) (apiAgents f))
    (negb (pending || match apiAgents f with [] => true | _ => false end))
    (recipientOptions (apiAgents f) contacts) (negb pending)
    (map (fun r => (Candidates.start r, Candidates.end_ r, (1 <? length (rows f))%nat)) (rows f))
    (negb (pending || (Candidates.CANDIDATE_MAX_COUNT <=? length (rows f))%nat))
    (match p_status p with Some (k, message) => Some (badge_class k, message) | None => None end)
    (negb (submitDisabled f pending))
    (if pending then t (js "a2a.proposeStatusSending") None else t (js "a2a.proposeSubmit") None).

End ProposeForm.

(** ** The buttons of a card *)
Module Answer.

(** What a card that awaits an answer offers; [Accept i] is the button of the
    candidate [i], or of the task. *)
Inductive Press := Accept (i : nat) | Decline | CounterWith (rows : list Candidates.CandidateRow) (reason : jstr).

Section answer.
Context `{Host, Locale}.
Variables (t1 : jstr -> option nat -> jstr) (block : A2AProtocolBlock).

Definition candidate_at (i : nat) : option jval :=
  match jget (block_payload block) (js "candidates") with JArr l => l !! i | _ => None end.

(** The handler of a button up to its [await]. *)
Definition press (readOnly : bool) (now : Z) (confirmed : bool) (p : Press) (c : Cards.Card) : Cards.Card :=
  let expired := is_expired (block_payload block) now in
  match block_type block, block_action block, p with
  | schedule_negotiation, propose, Accept i =>
    match candidate_at i with Some cand => Cards.onAccept readOnly expired confirmed cand c | None => c end
  | schedule_negotiation, propose, Decline => Cards.onDecline readOnly expired confirmed c
  | schedule_negotiation, propose, CounterWith rows reason =>
    match Cards.handleSubmit t1 rows reason with
    | inr (candidates, reason) => Cards.onCounterSubmit readOnly expired confirmed candidates reason c
    | inl _ => c
    end
  | task_delegation, delegate, Accept _ => Cards.onAcceptTask readOnly confirmed c
  | task_delegation, delegate, Decline => Cards.onDeclineTask readOnly confirmed c
  | _, _, _ => c
  end.

(** The whole handler: when it handed a reply to [onRespond], the card settles
    with the reply's promise. *)
Definition answer (onRespond : A2ARespondPayload -> BM unit) (readOnly : bool) (now : Z) (confirmed : bool) (p : Press) (c : Cards.Card)
    (b : Browser) : Cards.Card * Browser :=
  let c1 := press readOnly now confirmed p c in
  match Cards.asked c1 with
  | (asked, None) :: rest =>
    if (length rest =? length (Cards.asked c))%nat then
      let '(r, b') := onRespond asked b in
      (Cards.settle 0 asked (match r with Ok _ => None | Throw e => Some (err_message e) end) c1, b')
    else (c1, b)
  | _ => (c1, b)
  end.

End answer.

(** [onRespond] as the conversation passes it to the card of a message. *)
Definition onRespond `{Host, WebCrypto, Env, BrowserEnv, Locale} (t : jstr -> jstr) (t2 : jstr * option jstr -> jstr) (rootId : jstr)
    (m : Conversation.Thread.RenderableMessage) (block : A2AProtocolBlock) (sendMessage : WebApi.SeedMessage -> BM unit)
    (reply : A2ARespondPayload) : BM unit :=
  Conversation.Thread.handleProtocolRespond t t2 (Conversation.Thread.entry m) rootId (block_type block) (block_id block)
    (Conversation.Thread.subjectText m) reply sendMessage.

End Answer.

(** * Lemmas *)

(** ** The form *)

Lemma form_rows_bounded `{Host, Locale} t f : Counter.reachable t f -> (1 <= length (Counter.rows f) <= Candidates.CANDIDATE_MAX_COUNT)%nat.
Proof.
  induction 1 as [|f f' _ IH Hs]; [by vm_compute; split; repeat constructor|].
  destruct Hs; cbn [Counter.with_rows Counter.with_reason Counter.rows]; try done.
  - unfold Candidates.addRow. destruct (Nat.leb_spec Candidates.CANDIDATE_MAX_COUNT (length (Counter.rows f))); [done|].
    rewrite length_app. cbn. lia.
  - unfold Candidates.removeRow. destruct (Nat.leb_spec (length (Counter.rows f)) 1); [done|].
    destruct (decide (i < length (Counter.rows f))%nat) as [Hi|Hi].
    + rewrite length_delete by (by apply lookup_lt_is_Some_2). lia.
    + rewrite delete_take_drop, length_app, length_take, length_drop. lia.
  - unfold Candidates.updateRow. by rewrite length_alter.
  - unfold Counter.submit. by destruct (Cards.handleSubmit _ _ _).
Qed.

(** ** The text of a date is ASCII *)

Lemma eat_digits_prefix n acc s v r : eat_digits n acc s = Some (v, r) -> ascii_text r -> ascii_text s.
Proof.
  revert acc s. induction n as [|n IH]; intros acc s E Hr; cbn in E; [by destruct s; injection E as <- <-|].
  destruct s as [|c s]; [done|]. destruct (is_digit c) eqn:Ed; [|done].
  constructor; [|by eapply IH]. unfold is_digit in Ed. lia.
Qed.

Lemma eat_prefix c s r : eat c s = Some r -> 0 <= c < 128 -> ascii_text r -> ascii_text s.
Proof.
  destruct s as [|d s]; [done|]. cbn. destruct (Z.eqb_spec c d) as [<-|]; [|done]. intros [= <-] Hc Hr. by constructor.
Qed.

Lemma span_prefix (s d r : jstr) : span is_digit s = (d, r) -> ascii_text r -> ascii_text s.
Proof.
  revert d. induction s as [|c s IH]; intros d E Hr; [constructor|]. cbn in E.
  destruct (is_digit c) eqn:Ed; [|by injection E as <- <-].
  destruct (span is_digit s) as [d' r'] eqn:Es. injection E as <- <-. constructor; [unfold is_digit in Ed; lia|by eapply IH].
Qed.

Lemma eat_fraction_prefix s d r : eat_fraction s = Some (d, r) -> ascii_text r -> ascii_text s.
Proof.
  unfold eat_fraction. destruct (eat 46 s) as [s'|] eqn:E; [|by intros [= <- <-]].
  destruct (span is_digit s') as [[|c d'] r'] eqn:Es; [done|]. intros [= <- <-] Hr.
  eapply eat_prefix; [exact E|lia|by eapply span_prefix].
Qed.

Lemma eat_offset_cons c d r : eat_offset (c :: d :: r) =
  if (c =? 43) || (c =? 45) then
    '(h, r) ← eat_digits 2 0 (d :: r); r ← eat 58 r; '(m, r) ← eat_digits 2 0 r;
    match r with [] => Some (if c =? 45 then -1 else 1, h, m) | _ => None end
  else None.
Proof. destruct c as [|p|p]; try reflexivity. do 7 (destruct p as [p|p|]; try reflexivity). Qed.

Lemma eat_offset_ascii s x : eat_offset s = Some x -> ascii_text s.
Proof.
  destruct s as [|c [|d r]]; [done| |].
  - intros E. constructor; [|constructor]. destruct (decide (0 <= c < 128)) as [|Hc]; [done|]. exfalso.
    destruct c as [|p|p]; [done| |done]. cbn in E. repeat case_match; lia || done.
  - rewrite eat_offset_cons. destruct (_ || _) eqn:Ec; [|done]. mred.
    destruct (eat_digits 2 0 (d :: r)) as [[h r1]|] eqn:E1; [|done]. destruct (eat 58 r1) as [r2|] eqn:E2; [|done].
    destruct (eat_digits 2 0 r2) as [[m r3]|] eqn:E3; [|done]. destruct r3; [|done]. intros _.
    constructor; [lia|]. eapply eat_digits_prefix; [exact E1|]. eapply eat_prefix; [exact E2|lia|].
    eapply eat_digits_prefix; [exact E3|constructor].
Qed.

Lemma iso_ascii s : ISO8601_WITH_TZ s = true -> ascii_text s.
Proof.
  unfold ISO8601_WITH_TZ, parse_iso. mred.
  repeat match goal with |- context [match ?x with Some _ => _ | None => None end] =>
    let E := fresh "E" in destruct x as [[? ?]|] eqn:E || destruct x as [?|] eqn:E; [|done] end.
  intros _.
  repeat first [eapply eat_offset_ascii; eassumption | eapply eat_digits_prefix; [eassumption|]
               |eapply eat_prefix; [eassumption|lia|] | eapply eat_fraction_prefix; [eassumption|]].
Qed.

(** ** The reply of a button *)

Section answering.
Context `{Host, Locale}.
Variables (t1 : jstr -> option nat -> jstr) (shown : Z -> jstr) (block : A2AProtocolBlock).

(** The reply a button stands for, in a block that awaits one. *)
Definition reply_of (p : Answer.Press) : option A2ARespondPayload :=
  match block_type block, block_action block, p with
  | schedule_negotiation, propose, Answer.Accept i => cand ← Answer.candidate_at block i; Some (Reply RAccept (Some cand) None None None None)
  | schedule_negotiation, propose, Answer.CounterWith rows reason =>
    match Cards.handleSubmit t1 rows reason with
    | inr (candidates, reason) => Some (Reply RCounter None (Some candidates) reason None None)
    | inl _ => None
    end
  | schedule_negotiation, propose, Answer.Decline | task_delegation, delegate, Answer.Decline =>
    Some (Reply RDecline None None None None None)
  | task_delegation, delegate, Answer.Accept _ => Some (Reply RAccept None None None None None)
  | _, _, _ => None
  end.

(** The candidates of a counter-proposal meet the protocol, and its reason is a
    text; the form checks the order of the times only. *)
Definition press_ok (p : Answer.Press) : Prop :=
  match p with
  | Answer.CounterWith rows reason =>
    Forall unit_ok (trim reason) /\ forall cs, Candidates.validateCandidateRows t1 rows = inr cs -> Forall valid_candidate cs
  | _ => True
  end.

(** A button that works hands over its reply. *)
Lemma press_asks now p c reply : reply_of p = Some reply ->
  (block_action block = propose -> is_expired (block_payload block) now = false) -> Cards.busy c = false ->
  exists pnd, Answer.press t1 block false now true p c = Cards.CardOf pnd None (Cards.counterOpen c) ((reply, None) :: Cards.asked c).
Proof.
  intros Er Hx Hb. unfold reply_of, Answer.press in *.
  unfold Cards.onAccept, Cards.onDecline, Cards.onCounterSubmit, Cards.onAcceptTask, Cards.onDeclineTask, Cards.respond, Cards.disabled.
  rewrite Hb. cbn [orb negb].
  destruct (block_type block), (block_action block), p; try done; try rewrite (Hx eq_refl);
    try (destruct (Answer.candidate_at block i); [|done]); try (destruct (Cards.handleSubmit _ _ _) as [|[cs r]]; [done|]);
    injection Er as <-; by eexists.
Qed.

Lemma candidate_at_valid i cand : assertValidA2APayload block = Ok tt -> block_type block = schedule_negotiation -> block_action block = propose ->
  Answer.candidate_at block i = Some cand -> valid_candidate cand.
Proof.
  intros Hv%payload_spec Et Ea Ei. rewrite Et, Ea in Hv. destruct Hv as (_ & (l & El & _ & Hl) & _).
  unfold Answer.candidate_at in Ei. rewrite El in Ei. by eapply Forall_lookup_1.
Qed.

Lemma handleSubmit_spec rows reason cs r : Cards.handleSubmit t1 rows reason = inr (cs, r) ->
  Candidates.validateCandidateRows t1 rows = inr cs /\ r = (if truthy_str (trim reason) then Some (trim reason) else None).
Proof. unfold Cards.handleSubmit. destruct (Candidates.validateCandidateRows t1 rows); [done|]. by intros [= <- <-]. Qed.

(** The protocol allows it. *)
Lemma reply_of_ok p reply : assertValidA2APayload block = Ok tt -> press_ok p -> reply_of p = Some reply ->
  reply_ok (block_type block) reply.
Proof.
  intros Hv Hp Er. unfold reply_of in Er.
  destruct (block_type block) eqn:Et, (block_action block) eqn:Ea, p; try done; try (injection Er as <-; done).
  - destruct (Answer.candidate_at block i) as [cand|] eqn:Ei; [|done]. injection Er as <-. exists cand. split; [done|]. by eapply candidate_at_valid.
  - destruct (Cards.handleSubmit _ _ _) as [|[cs r]] eqn:Es; [done|]. injection Er as <-. apply handleSubmit_spec in Es as [Ec _].
    exists cs. split; [done|]. split; [by apply validateCandidateRows_spec in Ec as [_ ?]|]. by apply Hp.
Qed.

(** ** The payload of the reply *)

Definition same_times (c c' : jval) : Prop := jget c' (js "start") = jget c (js "start") /\ jget c' (js "end") = jget c (js "end").

Lemma copy_candidate_exact c : valid_candidate c ->
  exists c', copy_candidate c = Ok c' /\ json_okb c' = true /\ same_times c c'.
Proof.
  intros Hc. destruct (copy_candidate_spec c Hc) as (c' & E & _ & Hs & He). exists c'. split; [done|]. split; [|done].
  destruct Hc as (s & e & _ & _ & Es & Ee & Is & Ie & _). unfold copy_candidate in E.
  rewrite jprop_defined in E by (by rewrite Es). cbn in E. rewrite Es, Ee in E. injection E as <-.
  apply candidate_val_json; apply ascii_units; by apply iso_ascii.
Qed.

Lemma copy_candidates_exact l : Forall valid_candidate l ->
  exists l', copy_candidates l = Ok l' /\ json_okb (JArr l') = true /\ Forall2 same_times l l'.
Proof.
  induction 1 as [|c l Hc _ IH]; [by exists []|]. destruct (copy_candidate_exact c Hc) as (c' & Ec & Jc & Sc).
  destruct IH as (l' & El & Jl & Sl). exists (c' :: l'). cbn [copy_candidates]. rewrite Ec. mred. rewrite El. mred.
  split; [done|]. split; [|by constructor]. cbn in Jl |- *. by rewrite Jc.
Qed.

Lemma opt_member_json k v : json_okb (JStr k) = true -> optional_units v -> json_okb (JObj (opt_member k v)) = true.
Proof.
  intros Hk Hv. destruct v as [s|]; [|done]. apply forallb_units in Hv. cbn in Hk |- *. by rewrite Hk, Hv.
Qed.

Lemma reply_payload_json r payload : reply_ok (block_type block) r ->
  optional_units (rp_reason r) -> optional_units (rp_note r) -> optional_units (rp_result r) ->
  buildReplyPayload (block_type block) r = Ok payload -> json_okb payload = true.
Proof.
  unfold reply_ok, buildReplyPayload, buildScheduleReplyPayload, buildTaskReplyPayload. intros Hr H1 H2 H3 E.
  destruct (block_type block), (rp_action r); try done; try (injection E as <-; by apply opt_member_json).
  - destruct Hr as (c & Ec & Hc). rewrite Ec in E. destruct (copy_candidate_exact c Hc) as (c' & E' & J & _). rewrite E' in E.
    injection E as <-. cbn. by rewrite J.
  - destruct Hr as (l & El & _ & Hl). rewrite El in E. destruct (copy_candidates_exact l Hl) as (l' & E' & J & _). rewrite E' in E.
    injection E as <-. cbn in J. destruct (rp_reason r) as [s|]; [|cbn; by rewrite J].
    apply forallb_units in H1. cbn. by rewrite J, H1.
Qed.

(** What the answer to a proposal should tell its sender. *)
Definition answer_told (p : Answer.Press) (v : CardView) : Prop :=
  exists w, v = OutcomeCard w /\
  match block_type block, p with
  | schedule_negotiation, Answer.Accept i =>
    exists cand label, Answer.candidate_at block i = Some cand /\ candidate_shown shown cand label /\
      o_badge w = say "a2a.acceptedBadge" /\ o_said w = Some (say_with "a2a.acceptedAt" "time" label)
  | schedule_negotiation, Answer.CounterWith rows reason =>
    exists cs, Forall2 candidate_of rows cs /\ Forall2 (item_shown shown) cs (o_candidates w) /\
      o_badge w = say "a2a.counterBadge" /\
      o_said w = if truthy_str (trim reason) then Some (say_with "a2a.counterReason" "reason" (trim reason)) else None
  | task_delegation, Answer.Accept _ => o_badge w = say "a2a.taskAcceptedBadge" /\ o_text w = None
  | _, Answer.Decline => o_badge w = say "a2a.declinedBadge" /\ o_said w = None
  | _, _ => False
  end.

Lemma shown_same c c' label : same_times c c' -> candidate_shown shown c' label -> candidate_shown shown c label.
Proof. intros [Hs He] (s & e & a & b & Es & Ee & R). exists s, e, a, b. by rewrite <- Hs, <- He. Qed.

Lemma items_same l l' items : Forall2 same_times l l' -> Forall2 (item_shown shown) l' items -> Forall2 (item_shown shown) l items.
Proof.
  intros H1. revert items. induction H1 as [|c c' l l' Hc _ IH]; intros items H2; inversion H2 as [|? item ? ? [Hi Hl]]; subst; constructor; [|by apply IH].
  split; [by rewrite <- Hi; destruct Hc as [-> _]|by eapply shown_same].
Qed.

Lemma answer_tells p reply payload ab folder now card w :
  assertValidA2APayload block = Ok tt -> press_ok p -> reply_of p = Some reply ->
  buildReplyPayload (block_type block) reply = Ok payload ->
  block_type ab = block_type block -> block_action ab = reply_action (rp_action reply) -> block_payload ab = payload ->
  tells shown ab folder now card w -> answer_told p w.
Proof.
  intros Hv Hp Er Eb Et Ea Epay T. unfold tells in T. rewrite Et, Ea, Epay in T. unfold answer_told.
  unfold reply_of in Er. unfold buildReplyPayload, buildScheduleReplyPayload, buildTaskReplyPayload in Eb.
  destruct (block_type block) eqn:Ty, (block_action block) eqn:Ac, p; try done.
  - destruct (Answer.candidate_at block i) as [cand|] eqn:Ei; [|done]. injection Er as <-. cbn [rp_action selected_candidate] in Eb.
    destruct (copy_candidate_exact cand) as (c' & Ec & _ & Sc); [by eapply candidate_at_valid|].
    rewrite Ec in Eb. injection Eb as <-. destruct T as (v & label & -> & Hb & Hs & Hl). exists v. split; [done|].
    exists cand, label. split_and!; [done| |done|done]. by eapply shown_same.
  - injection Er as <-. injection Eb as <-. destruct T as (v & -> & Hb & Hs). exists v. split_and!; done.
  - destruct (Cards.handleSubmit _ _ _) as [|[cs r]] eqn:Es; [done|]. injection Er as <-. apply handleSubmit_spec in Es as [Hcs ->].
    cbn [rp_action rp_candidates rp_reason] in Eb. destruct Hp as [_ Hp]. specialize (Hp cs Hcs).
    destruct (copy_candidates_exact cs Hp) as (l' & El & _ & Sl). rewrite El in Eb. injection Eb as <-.
    destruct T as (v & l & -> & Hb & Hl & Hi & Hr). injection Hl as <-. exists v. split; [done|]. exists cs.
    apply validateCandidateRows_spec in Hcs as [Hcs _]. split_and!; [done|by eapply items_same|done|].
    by destruct (trim reason).
  - injection Er as <-. injection Eb as <-. destruct T as (v & -> & Hb & Hs). exists v. split_and!; done.
  - injection Er as <-. injection Eb as <-. destruct T as (v & -> & Hb & Hs). exists v. split_and!; done.
Qed.

Lemma reply_of_type p reply : reply_of p = Some reply -> block_type block = schedule_negotiation -> block_action block = propose.
Proof. unfold reply_of. intros Er Et. rewrite Et in Er. by destruct (block_action block). Qed.

(** A proposal that may be answered has not expired. *)
Lemma answerable_fresh folder now : canRespondToProtocol folder block now = true -> block_type block = schedule_negotiation ->
  is_expired (block_payload block) now = false.
Proof.
  unfold canRespondToProtocol, is_expired. destruct (jeqb folder (js "sent")); [done|]. intros E Et. rewrite Et in E.
  destruct (negb (bool_decide _)); [done|]. by apply negb_true_iff in E.
Qed.

Lemma summary_ok p reply : assertValidA2APayload block = Ok tt -> reply_of p = Some reply ->
  exists s, Conversation.Thread.summariseReply reply = Ok s.
Proof.
  intros Hv Er. unfold reply_of in Er.
  destruct (block_type block) eqn:Et, (block_action block) eqn:Ea, p; try done; try (injection Er as <-; by eexists).
  - destruct (Answer.candidate_at block i) as [cand|] eqn:Ei; [|done]. injection Er as <-.
    destruct (candidate_at_valid i cand Hv Et Ea Ei) as (s & e & _ & _ & Es & _).
    unfold Conversation.Thread.summariseReply. cbn [rp_action selected_candidate]. rewrite jprop_defined by (by rewrite Es).
    destruct (jtruthy cand); by eexists.
  - destruct (Cards.handleSubmit _ _ _) as [|[cs r]]; [done|]. injection Er as <-. by eexists.
Qed.

Lemma reply_of_units p reply : press_ok p -> reply_of p = Some reply ->
  optional_units (rp_reason reply) /\ rp_note reply = None /\ rp_result reply = None.
Proof.
  intros Hp Er. unfold reply_of in Er.
  destruct (block_type block), (block_action block), p; try done; try (injection Er as <-; done).
  - destruct (Answer.candidate_at block i) as [cand|]; [|done]. by injection Er as <-.
  - destruct (Cards.handleSubmit _ _ _) as [|[cs r]] eqn:Es; [done|]. injection Er as <-. apply handleSubmit_spec in Es as [_ ->].
    cbn. destruct Hp as [Hr _]. by destruct (truthy_str _).
Qed.

End answering.

Lemma reply_subject_re t s : Conversation.Thread.reply_subject t s <> WebText.ENCRYPTED_PLACEHOLDER.
Proof.
  unfold Conversation.Thread.reply_subject. destruct (starts_with (js "Re:") s) eqn:E; intros Heq; [by rewrite Heq in E|done].
Qed.

(** Nothing is sent when the message may not be answered, while an answer is
    under way or was sent, or when the confirmation was refused. *)
Theorem answer_refused `{Host, Locale} t1 block onRespond readOnly now confirmed p c b :
  readOnly = true \/ Cards.busy c = true \/ confirmed = false -> Answer.answer t1 block onRespond readOnly now confirmed p c b = (c, b).
Proof.
  intros Hn.
  assert (forall expired pnd reply, Cards.respond readOnly expired confirmed pnd reply c = c) as Hr.
  { intros expired pnd reply. unfold Cards.respond, Cards.disabled.
    destruct Hn as [-> | [-> | ->]]; [done|by rewrite orb_true_r|by destruct (_ || _)]. }
  assert (Answer.press t1 block readOnly now confirmed p c = c) as Hp.
  { unfold Answer.press. destruct (block_type block), (block_action block), p; try done; try apply Hr.
    - destruct (Answer.candidate_at block i); [apply Hr|done].
    - destruct (Cards.handleSubmit _ _ _) as [|[cs r]]; [done|apply Hr]. }
  unfold Answer.answer. rewrite Hp. destruct (Cards.asked c) as [|[asked [x|]] rest]; [done..|].
  destruct (Nat.eqb_spec (length rest) (length ((asked, @None bool) :: rest))) as [El|]; [cbn in El; lia|done].
Qed.

(** * Properties *)

(** C5: From the button to the proposer's screen.  In a conversation that shows
    a valid proposal or task which may be answered, a button that is pressed
    and confirmed sends one message: from the recipient of the proposal to its
    sender, in its thread, signed, in answer to its id, sealed for the key the
    directory gives.  Wherever that message turns up in a conversation of a
    browser with the proposer's key, it is shown as the answer that was given:
    the accepted candidate with the times the proposal named, the candidates
    of a counter-proposal with its reason, or the refusal.  The card is done
    exactly when the message was sent, and can be used again otherwise. *)
Theorem answer_displayed `{Host, Locale, WebCrypto, !WebCryptoLaws, Env, !EnvLaws, BrowserEnv}
    (t : jstr -> jstr) (t1 : jstr -> option nat -> jstr) (t2 : jstr * option jstr -> jstr) (send : WebApi.SeedMessage -> BM unit)
    (rootId : jstr) (msg : Conversation.Thread.RenderableMessage) (block : A2AProtocolBlock) (p : Answer.Press) (reply : A2ARespondPayload)
    (card : Cards.Card) (now : Z) (resolved : list (jstr * jval)) (did : jstr) (priv signing : bytes) (b b1 b2 : Browser) :
  let e := Conversation.Thread.entry msg in
  let subj := Conversation.Thread.reply_subject t (Conversation.Thread.subjectText msg) in
  let readOnly := negb (canRespondToProtocol (Conversation.Thread.e_folder e) block now) in
  assertValidA2APayload block = Ok tt -> Forall unit_ok (block_id block) ->
  readOnly = false -> Cards.busy card = false -> reply_of t1 block p = Some reply -> press_ok t1 p ->
  text_ok subj -> (forall s, Forall unit_ok (t2 s)) ->
  WebApi.resolveRecipient WebApi.defaultApiClient (Conversation.Thread.e_sender_did e) b = (Ok (JObj resolved), b1) ->
  jget (JObj resolved) (js "did") = JStr did -> truthy_str did = true ->
  jget (JObj resolved) (js "encryption_public_key") = public_key_val priv ->
  SigningKeyring.getSigningPrivateKey (Conversation.Thread.e_recipient_did e) b1 = (Ok (Some (PrivateKey Ed25519 signing)), b2) ->
  exists m b3 summary ab,
    (let '(r, b4) := send m b3 in
     exists card', Answer.answer t1 block (Answer.onRespond t t2 rootId msg block send) readOnly now true p card b = (card', b4) /\
       match r with
       | Ok _ => Cards.pending card' = Cards.done_
       | Throw err => Cards.pending card' = Cards.idle /\ Cards.error card' = Some (err_message err)
       end) /\
    delivers m priv subj summary ab /\ block_reply_to ab = Some (block_id block) /\ signed_by m signing /\
    WebApi.sm_senderDid m = JStr (Conversation.Thread.e_recipient_did e) /\ WebApi.sm_recipientDid m = JStr did /\
    WebApi.sm_threadId m = JStr (default rootId (Conversation.Thread.e_thread_id e)) /\
    forall (texts : jstr -> jstr) (shown : Z -> jstr) (b' : Browser) e' c' v now' there,
      carries e' c' m -> ring_holds b' did priv ->
      exists msg' w, Conversation.Thread.render_message texts e' c' b' = (Ok msg', b') /\
        Conversation.Thread.subjectText msg' = subj /\
        Display.body_view texts shown v now' there msg' = Ok (Display.ProtocolBody w) /\ answer_told shown block p w.
Proof.
  intros e subj readOnly Hv Hid Hro Hbusy Er Hp Hs Ht2 Hres Hdid Ht Hkey Hsign.
  pose proof (reply_of_ok t1 block p reply Hv Hp Er) as Hok. destruct (reply_of_units t1 block p reply Hp Er) as (U1 & U2 & U3).
  destruct (proj1 (reply_payload_spec _ _) Hok) as (payload & Epay & Hvp & _).
  assert (json_okb payload = true) as Hj by (eapply reply_payload_json; [exact Hok|exact U1|by rewrite U2|by rewrite U3|exact Epay]).
  destruct (summary_ok t1 block p reply Hv Er) as [s Esum].
  set (input := SendInput (block_type block) reply (JStr (default rootId (Conversation.Thread.e_thread_id e))) (block_id block) subj (t2 s)
                  (Conversation.Thread.e_recipient_did e) (Conversation.Thread.e_sender_did e) None).
  destruct (protocol_reply_delivered input send resolved did priv signing payload b b1 b2 Hres Hdid Hkey Hsign Epay Hj Hs (Ht2 s) Hid)
    as (m & b3 & ab & E & D & S & Bt & Ba & Br & Bp & _ & Fs & Fr & Ft & _).
  destruct (press_asks t1 block now p card reply Er) as [pnd Ep]; [|exact Hbusy|].
  { intros Ea. destruct (block_type block) eqn:Et.
    - eapply answerable_fresh; [|exact Et]. subst readOnly. by apply negb_false_iff.
    - unfold reply_of in Er. by rewrite Et, Ea in Er. }
  exists m, b3, (t2 s), ab. split_and!; try done.
  - unfold Answer.answer. rewrite Hro, Ep. cbn [Cards.asked]. rewrite Nat.eqb_refl.
    unfold Answer.onRespond, Conversation.Thread.handleProtocolRespond.
    erewrite bind_ok by (by rewrite Esum). fold e subj input. rewrite E. destruct (send m b3) as [[[]|err] b4]; by eexists.
  - intros texts shown b' e' c' v now' there Hcar Hring.
    assert (assertValidA2APayload ab = Ok tt) as Hval by (apply payload_spec; by rewrite Bt, Ba, Bp).
    destruct (delivered_displayed texts shown m did priv subj (t2 s) ab b' e' c' v now' there D Hs (reply_subject_re _ _) Hval Hcar Fr Ht Hring)
      as (msg' & w & Em & Es & Ew & T). exists msg', w. split_and!; try done. by eapply answer_tells.
Qed.

(** The second time of the sample proposal is accepted. *)
Definition sample_message : Conversation.Thread.RenderableMessage :=
  Conversation.Thread.Rendered
    (Conversation.Thread.EntryOf (js "m1") (js "2026-05-01T00:00:00Z") (js "did:key:zP") None (js "did:key:zV") (Some (js "t1")) [] (js "inbox"))
    (js "Planning") (js "Planning") Visibility.readable (Some (block_to_val sample_proposal)).

Example answer_displayed_witness :
  let _ := plain_host in let _ := tokyo in
  let _ := reply_env (json_stringify (JObj sample_directory)) in let _ := open_browser in
  let there := with_ring RecipientRing (Ring {[js "did:key:zP" := PrivateKey X25519 (replicate 32 9)]} true) new_profile in
  exists m e c msg w, carries e c m /\ signed_by m (replicate 32 5) /\
    Conversation.Thread.render_message (fun k => k) e c there = (Ok msg, there) /\
    Display.body_view (fun k => k) dec_of_Z (Conversation.Thread.ViewOf [] None None ∅ []) 0 Cards.mounted msg = Ok (Display.ProtocolBody (OutcomeCard w)) /\
    o_said w = Some (say_with "a2a.acceptedAt" "time" (js "1777975200000 – 1777978800000")).
Proof.
  intros ho lo en br there.
  pose (b := with_ring SigningRing (Ring {[js "did:key:zV" := PrivateKey Ed25519 (replicate 32 5)]} true) new_profile).
  pose (send := fun m => WebApi.seedMessage WebApi.defaultApiClient m ;; mret tt).
  destruct (WebApi.resolveRecipient WebApi.defaultApiClient (js "did:key:zP") b) as [r b1] eqn:E.
  assert (r = Ok (JObj sample_directory) /\
    SigningKeyring.getSigningPrivateKey (js "did:key:zV") b1 = (Ok (Some (PrivateKey Ed25519 (replicate 32 5))), b1)) as [-> E2].
  { vm_compute in E. injection E as <- <-. split; reflexivity. }
  destruct (Answer.candidate_at sample_proposal 1) as [cand|] eqn:Ec; [|done].
  destruct (answer_displayed (fun k => k) (fun k _ => k) (fun _ => js "Accepted") send (js "m1") sample_message sample_proposal (Answer.Accept 1)
    (Reply RAccept (Some cand) None None None None) Cards.mounted 0 sample_directory (js "did:key:zP") (replicate 32 9) (replicate 32 5) b b1 b1)
    as (m & b3 & summary & ab & _ & _ & _ & S & _ & Hm & _ & D).
  - by vm_compute.
  - apply forallb_units. by vm_compute.
  - by vm_compute.
  - by vm_compute.
  - unfold reply_of. cbn [block_type block_action sample_proposal]. by rewrite Ec.
  - done.
  - apply (bool_decide_eq_true_1 (text_ok _)). by vm_compute.
  - intros s. apply forallb_units. by vm_compute.
  - exact E.
  - reflexivity.
  - reflexivity.
  - reflexivity.
  - exact E2.
  - set (e := Conversation.Thread.EntryOf (js "m2") (js "2026-05-02T00:00:00Z") (js "did:key:zV") None (js "did:key:zP") None
                (WebApi.sm_subjectEncrypted m) (js "inbox")).
    set (c := Conversation.Thread.ContentOf (WebApi.sm_encryptedContent m) (WebApi.sm_encryptedKey m) None None None None (WebApi.sm_contentType m)).
    assert (carries e c m) as Hcar by (split; try reflexivity; by rewrite Hm).
    destruct (D (fun k => k) dec_of_Z there e c (Conversation.Thread.ViewOf [] None None ∅ []) 0 Cards.mounted Hcar)
      as (msg & w & Em & _ & Ew & (w' & -> & cand' & label & Ec' & Hl & _ & Hsaid)); [by split|].
    exists m, e, c, msg, w'. split; [exact Hcar|]. split; [exact S|]. split; [exact Em|]. split; [exact Ew|].
    rewrite Hsaid. destruct Hl as (s & e' & a & a' & Es & Ee & Ea & Ea' & ->).
    vm_compute in Ec'. injection Ec' as <-. vm_compute in Es, Ee. injection Es as <-. injection Ee as <-.
    vm_compute in Ea, Ea'. injection Ea as <-. injection Ea' as <-. by vm_compute.
Defined.
