(* ===== verification/AgentViews.v ===== *)
(** What the agents' settings show: the markup of
    apps/web/app/settings/agents/page.tsx over the state of AgentSettings.v, with
    the panels of BridgePanel.v.

    A text of the interface is a [Message]: its key with its parameters;
    [shown_time] and [shown_date] are [toLocaleString] and [toLocaleDateString].
    Styles are left out, except where a colour is all that tells a state. *)
From S2P Require Import Prelude Utf8 JsNumber Json JsDate A2A Effect Node Envelope ApiClient Browser WebKeystore WebApi SendReply Bridge Urls Views Propose Conversation CardViews Session AgentSettings BridgePanel Links.

Definition msg_with (key param : string) (v : jval) : Message := (js key, [(js param, v)]).

(** ** The badges and the panels above the editor *)
Module ModeViews.
Import AgentsPage.

(** The badge of a credential: its label and its tooltip, both read out. *)
Definition CredentialModeBadge (keyHolder : jstr) : Message * Message :=
  if jeqb keyHolder (js "signer_daemon") then (msg "agents.credModeDaemonIsolated", msg "agents.credModeDaemonIsolatedTooltip")
  else if jeqb keyHolder (js "unknown") then (msg "agents.credModeUnknown", msg "agents.credModeUnknownTooltip")
  else (msg "agents.credModeStandard", msg "agents.credModeStandardTooltip").

(** A credential as [deriveAgentMode] reads it. *)
Definition mode_credential (c : AgentCredential) : Mode.AgentCredential :=
  Mode.Credential (cr_aid c) (cr_status c) (default [] (key_holder c)).
Definition agent_mode (aid : jstr) (l : list AgentCredential) : Mode.AgentMode := Mode.deriveAgentMode aid (map mode_credential l).

(** The panel: the name of the mode and its description. *)
Definition AgentModePanel (aid : jstr) (credentials : list AgentCredential) : Message * Message :=
  match agent_mode aid credentials with
  | Mode.daemon_isolated => (msg "agents.modeDaemonIsolatedName", msg "agents.modeDaemonIsolatedDesc")
  | Mode.standard => (msg "agents.modeStandardName", msg "agents.modeStandardDesc")
  | Mode.default_ => (msg "agents.modeDefaultName", msg "agents.modeDefaultDesc")
  end.

End ModeViews.

Module WhereaboutsView.
Import Whereabouts.

(** A row: its label, its message and its indicator. *)
Record Row := RowOf { w_label : Message; w_message : Message; w_indicator : jstr }.

Definition indicator (s : WhereaboutsStatus) : jstr :=
  match s with checking => js "…" | present => js "✓" | absent => js "—" | info => js "◯" end.

Definition WhereaboutsRow (label : Message) (s : WhereaboutsStatus) (message : Message) : Row := RowOf label message (indicator s).

Definition truncatedDid (did : jstr) : jstr :=
  if (24 <? length did)%nat then take 16 did ++ js "…" ++ drop (length did - 8) did else did.

(** [if checking, if present, else]. *)
Definition said_of {A} (s : WhereaboutsStatus) (c p a : A) : A := match s with checking => c | present => p | _ => a end.

Definition panel (did : jstr) (browserStatus daemonStatus : WhereaboutsStatus) : Message * list Row :=
  (msg_with "agents.whereaboutsCaption" "did" (JStr (truncatedDid did)),
   [WhereaboutsRow (msg "agents.whereaboutsBrowserLabel") browserStatus
      (said_of browserStatus (msg "agents.whereaboutsBrowserChecking") (msg "agents.whereaboutsBrowserPresent") (msg "agents.whereaboutsBrowserAbsent"));
    WhereaboutsRow (msg "agents.whereaboutsDaemonLabel") daemonStatus
      (said_of daemonStatus (msg "agents.whereaboutsDaemonChecking") (msg "agents.whereaboutsDaemonPaired") (msg "agents.whereaboutsDaemonUnpaired"));
    WhereaboutsRow (msg "agents.whereaboutsRuntimeLabel") info (msg "agents.whereaboutsRuntimeHint")]).

End WhereaboutsView.

(** ** The automatic replies of an agent *)
Module StatsView.
Import ReplyStats.

(** [tone]: neutral, ok, warn or muted. *)
Record StatCell := Cell { c_label : Message; c_count : jval; c_tone : jstr }.

(** A decision: its action, its time and its line, in parts. *)
Record Decision := DecisionOf { d_action : jval; d_time : jstr; d_line : list Message }.

Record Statistics := StatsOf { s_cells : list StatCell; s_latest : option (Message * list Decision); s_rest : option Message; s_audit : jstr }.

Inductive View := Loading | Failed | NoData | Shown (s : Statistics).

Section view.
Variable shown_time : jval -> jstr.

(** [new Date(ev.created_at).toLocaleString()] is [shown_time]. *)
Definition decision (ev : jval) : Decision :=
  let detail := jget ev (js "detail") in
  let decision_ := jget detail (js "decision") in
  let sender_did := jget detail (js "sender_did") in
  let reason := jget decision_ (js "reason") in
  let message_id := jget detail (js "message_id") in
  DecisionOf (nullish_or (jget decision_ (js "action")) (JStr (js "other"))) (shown_time (jget ev (js "created_at")))
    (msg_with "agents.autoReplyDecisionFrom" "sender"
       (JStr (match sender_did with JStr ((_ :: _) as did) => truncateDid did | _ => js "—" end)) ::
     (if jtruthy reason then [msg_with "agents.autoReplyDecisionReason" "reason" reason] else []) ++
     (match message_id with JStr ((_ :: _) as i) => [msg_with "agents.autoReplyDecisionMessage" "messageId" (JStr (take 8 i))] | _ => [] end)).

Definition text_of_nat (n : nat) : jval := JStr (dec_of_Z (Z.of_nat n)).
Definition num_of_nat (n : nat) : jval := JNum (num (Z.of_nat n)).

Definition cells (total : Z) (events : list jval) : list StatCell :=
  let stats := counts events in
  [Cell (msg "agents.autoReplyStatTotal") (JNum (num total)) (js "neutral");
   Cell (msg "agents.autoReplyStatAutoAccept") (num_of_nat (stats auto_accept)) (js "ok");
   Cell (msg "agents.autoReplyStatAutoDecline") (num_of_nat (stats auto_decline)) (js "warn");
   Cell (msg "agents.autoReplyStatQueueForHuman") (num_of_nat (stats queue_for_human)) (js "muted")] ++
  (if (0 <? stats other)%nat then [Cell (msg "agents.autoReplyStatOther") (num_of_nat (stats other)) (js "muted")] else []).

(** The answer of the audit log: pending, failed, or its events and total. *)
Definition panel (aid : jstr) (pending failed : bool) (events : list jval) (total : Z) : res View :=
  if pending then Ok Loading
  else if failed then Ok Failed
  else if total =? 0 then Ok NoData
  else
    href ← audit_href aid;
    let latest := latest events in
    Ok (Shown (StatsOf (cells total events)
      (match latest with
       | [] => None
       | _ => Some (msg_with "agents.autoReplyVisibilityLatest" "count" (text_of_nat (length latest)), map decision latest)
       end)
      (if Z.of_nat (length latest) <? total then
         Some (js "agents.autoReplyShowingLatest", [(js "limit", text_of_nat (length latest)); (js "total", JStr (dec_of_Z total))])
       else None) href)).

End view.
End StatsView.

(** ** The bridge panel *)
Module BridgeView.
Import Panel.

(** A session: its label, whether it is this browser's, and its times. *)
Record SessionRow := SessionOf { ses_label : list jstr; ses_this : bool; ses_times : list Message; ses_shared : bool }.

(** The pairing form: the button and the error. *)
Record PairView := PairOf { pv_can_pair : bool; pv_button : Message; pv_error : option jstr }.

(** [se_empty]: what is said when there are no sessions; the quota with whether
    it is shown as a warning. *)
Record SessionsView := SessionsOf {
  se_status : Message + jstr; se_rows : list SessionRow; se_empty : option Message; se_quota : option (Message * bool)
}.

Record PanelView := ViewOf { v_pair : option PairView; v_sessions : option SessionsView; v_toggle : Message; v_advanced : option bool }.

(** [0.8] and a product of the machine. *)
Definition four_fifths : Q := 3602879701896397 # 4503599627370496.
Definition times_four_fifths (n : jnum) : jnum := match n with Fin q => round64 (q * four_fifths) | n => n end.
Definition math_floor (n : jnum) : jnum := match n with Fin q => Fin ((Qnum q / Z.pos (Qden q)) # 1) | n => n end.
Definition math_max_1 (n : jnum) : jnum := match n with NaN => NaN | n => if num_ltb n (num 1) then num 1 else n end.
Definition num_geb (a b : jnum) : bool := match a, b with NaN, _ | _, NaN => false | _, _ => negb (num_ltb a b) end.

(** The counts of a policy have type [number]; anything else is taken for [NaN]. *)
Definition count_of (policy : jval) (k : string) : jnum := match jget policy (js k) with JNum n => n | _ => NaN end.

Definition near_cap (policy : jval) : bool :=
  num_geb (count_of policy "bridged_decrypts_per_day_used")
    (math_max_1 (math_floor (times_four_fifths (count_of policy "bridged_decrypts_per_day_max")))).

Definition quota (policy : jval) : option (Message * bool) :=
  if jtruthy policy then
    Some ((js "agents.bridgeQuota",
           [(js "dayUsed", jget policy (js "bridged_decrypts_per_day_used")); (js "dayMax", jget policy (js "bridged_decrypts_per_day_max"));
            (js "minUsed", jget policy (js "bridged_decrypts_per_min_used")); (js "minMax", jget policy (js "bridged_decrypts_per_min_max"))]),
          near_cap policy)
  else None.

Definition session_row (storedTokenHash : option jstr) (session : jval) : res SessionRow :=
  id ← jprop session (js "id");
  label ← child (jget session (js "device_label"));
  let shared := jtruthy (jget session (js "shared_secret")) in
  Ok (SessionOf label (match storedTokenHash with Some ((_ :: _) as h) => jis id h | _ => false end)
        (msg_with "agents.bridgeSessionsCreated" "at" (jget session (js "created_at")) ::
         if shared then [] else [msg_with "agents.bridgeSessionsLastUsed" "at" (jget session (js "last_used_at"))]) shared).

(** The status in the corner: a text of the interface, or the error's. *)
Definition status_text (s : Status) : Message + jstr :=
  match s with
  | paired => inl (msg "agents.bridgeStatusOk")
  | offline => inl (msg "agents.bridgeStatus.offline")
  | error message => inr message
  | probing => inl (msg "agents.bridgeBtnChecking")
  | _ => inr []
  end.

(** [None]: the panel is hidden. *)
Definition panel (mode : Mode.AgentMode) (showAdvanced : bool) (p : Panel) : res (option PanelView) :=
  let hasStored := bool_decide (is_Some (storedTokenHash p)) in
  if match mode with Mode.daemon_isolated => false | _ => negb hasStored end then Ok None
  else
    sessions ← (if hasStored then
                  rows ← map_res (session_row (storedTokenHash p)) (pairedSessions p);
                  Ok (Some (SessionsOf (status_text (status p)) rows
                        (match pairedSessions p with
                         | [] => Some (match status p with offline => msg "agents.bridgeSessionsOffline" | _ => msg "agents.bridgeSessionsEmpty" end)
                         | _ => None
                         end) (quota (policy p))))
                else Ok None);
    let is_pairing := match status p with pairing => true | _ => false end in
    Ok (Some (ViewOf
      (if hasStored then None
       else Some (PairOf (truthy_str (trim (pairingCode p)) && negb is_pairing)
                    (if is_pairing then msg "agents.bridgePairBusy" else msg "agents.bridgePairBtn")
                    (match status p with error message => Some message | _ => None end)))
      sessions (if showAdvanced then msg "agents.bridgeAdvancedHide" else msg "agents.bridgeAdvancedShow")
      (if showAdvanced then Some (truthy_str (trim (advancedToken p))) else None))).

End BridgeView.

(** ** The page *)
Module PageView.
Import AgentsPage.

(** A card of the list: its agent, whether it is the selected one, and its line. *)
Record ListItem := ItemOf { i_did : jstr; i_label : jstr; i_active : bool; i_unread : Message; i_auto_reply : Message }.

Definition list_pane (agents : list Agent) (p : Page) : option (list ListItem) :=
  match agents with
  | [] => None
  | _ => Some (imap (fun index a =>
           ItemOf (ag_did a) (ag_label a)
             (match activeAgent agents p with Some active => jeqb (ag_did active) (ag_did a) | None => (index =? 0)%nat end)
             (msg_with "agents.unread" "count" (JNum (ag_unread_count a)))
             (if ag_auto_reply a then msg "agents.autoReplyOn" else msg "agents.autoReplyOff")) agents)
  end.

(** The header: the field of a new name, or the name; whether its buttons work. *)
Inductive Header := Editing (label : jstr) (enabled : bool) | Named (label : jstr).

Definition header (updating : bool) (a : Agent) (p : Page) : Header :=
  if isEditing p then Editing (editingLabel p) (negb updating) else Named (ag_label a).

Section reader.
Context `{Host}.
Variable shown_date : option Z -> jstr.

(** The texts of the overview, and what its buttons copy. *)
Definition overview (a : Agent) : list Message * list (jstr * Message) :=
  ((if truthy_str (ag_aid a) then [msg_with "agents.agentId" "aid" (JStr (ag_aid a)); msg "agents.agentIdHelp"] else []) ++
   [msg_with "agents.currentDid" "did" (JStr (ag_did a)); msg "agents.currentDidHelp";
    msg_with "agents.unreadCount" "count" (JNum (ag_unread_count a));
    msg_with "agents.createdAt" "date" (JStr (shown_date (date_parse (ag_created_at a))));
    if ag_is_active a then msg "agents.statusActive" else msg "agents.statusStopped"],
   (if truthy_str (ag_aid a) then [(ag_aid a, msg "agents.bannerAidCopied")] else []) ++ [(ag_did a, msg "agents.bannerDidCopied")]).

(** A row of the credentials: what it says and which buttons it has. *)
Record CredentialRow := RowOf {
  r_id : jstr; r_label : jstr; r_badge : Message * Message; r_short : Message; r_status : Message; r_used : option Message;
  r_faded : bool; r_revoke : option bool; r_purge : Purge; r_purge_enabled : bool
}.

Definition credential_row (revoking purging : bool) (now : Z) (c : AgentCredential) : CredentialRow :=
  let isDead := negb (isLive (cr_status c)) in
  RowOf (credential_id c) (cr_label c) (ModeViews.CredentialModeBadge (default (js "unknown") (key_holder c)))
    (msg_with "agents.credIdShort" "id" (JStr (take 8 (credential_id c)))) (credential_status c now)
    (match last_used_at c with
     | Some ((_ :: _) as at_) => Some (msg_with "agents.credLastUsed" "date" (JStr (shown_date (date_parse at_))))
     | _ => None
     end)
    isDead (if isDead then None else Some (negb revoking)) (purge_offer c now) (negb purging).

(** The rows, or why there are none; the button that shows the dead ones. *)
Definition credentials_view (revoking purging : bool) (aid : jstr) (l : list AgentCredential) (p : Page)
    : (list CredentialRow + Message) * option Message :=
  (match visibleCreds aid l p with
   | [] => inr (match allForAgent aid l with [] => msg "agents.credEmpty" | _ => msg "agents.credEmptyLive" end)
   | rows => inl (map (credential_row revoking purging (nowMs p)) rows)
   end,
   match deadCreds aid l with
   | [] => None
   | dead => Some (if showRevoked p then msg "agents.credHideRevoked"
                   else msg_with "agents.credShowRevoked" "count" (JNum (num (Z.of_nat (length dead)))))
   end).

(** The notice of a new credential: its texts, and what its buttons copy. *)
Definition notice (p : Page) : option (Message * list (jval * Message)) :=
  match createdCredential p with
  | Some n => Some (msg_with "agents.enrollmentAid" "aid" (n_aid n),
                [(credentialId n, msg "agents.bannerCredIdCopied"); (enrollmentSecret n, msg "agents.bannerEnrollmentSecretCopied")])
  | None => None
  end.

(** A button with a mutation: its label, and whether it works. *)
Definition mutation_button (pending : bool) (busy label : Message) : Message * bool := (if pending then busy else label, negb pending).

(** What the mutations of the page are doing. *)
Record Busy := BusyOf { updating : bool; revoking : bool; purging : bool; creating : bool; shutting_down : bool; deleting : bool }.

Record Reader := ReaderOf {
  rd_header : Header; rd_aid : option jstr; rd_did : jstr; rd_banner : option Message; rd_overview : list Message * list (jstr * Message);
  rd_mode : Message * Message; rd_whereabouts : option (Message * list WhereaboutsView.Row); rd_bridge : option BridgeView.PanelView;
  rd_auto_reply : Message * bool; rd_statistics : StatsView.View;
  rd_credentials : (list CredentialRow + Message) * option Message; rd_create : Message * bool; rd_notice : option (Message * list (jval * Message));
  rd_emergency : Message * bool; rd_delete : Message * bool
}.

(** What the panels inside the reader hold. *)
Record Panels := PanelsOf {
  pn_browser : Whereabouts.WhereaboutsStatus; pn_daemon : Whereabouts.WhereaboutsStatus; pn_bridge : Panel.Panel; pn_advanced : bool;
  pn_statistics : res StatsView.View
}.

Definition reader (a : Agent) (credentials : list AgentCredential) (x : Panels) (busy : Busy) (p : Page) : res Reader :=
  bridge ← BridgeView.panel (ModeViews.agent_mode (ag_aid a) credentials) (pn_advanced x) (pn_bridge x);
  statistics ← pn_statistics x;
  Ok (ReaderOf (header (updating busy) a p) (if truthy_str (ag_aid a) then Some (ag_aid a) else None) (ag_did a) (snd <$> banner p)
        (overview a) (ModeViews.AgentModePanel (ag_aid a) credentials)
        (if truthy_str (ag_did a) then Some (WhereaboutsView.panel (ag_did a) (pn_browser x) (pn_daemon x)) else None) bridge
        (if ag_auto_reply a then msg "agents.autoReplyDisableBtn" else msg "agents.autoReplyEnableBtn", negb (updating busy)) statistics
        (credentials_view (revoking busy) (purging busy) (ag_aid a) credentials p)
        (mutation_button (creating busy) (msg "agents.credCreating") (msg "agents.credNewBtn")) (notice p)
        (mutation_button (shutting_down busy) (msg "agents.emergencyRunning") (msg "agents.emergencyBtn"))
        (mutation_button (deleting busy) (msg "agents.deleting") (msg "agents.deleteBtn"))).

(** [None]: no agent is selected. *)
Definition reader_pane (agents : list Agent) (credentials : list AgentCredential) (x : Panels) (busy : Busy) (p : Page) : res (option Reader) :=
  match activeAgent agents p with
  | Some a => r ← reader a credentials x busy p; Ok (Some r)
  | None => Ok None
  end.

End reader.
End PageView.

(** * Lemmas *)

Import AgentsPage.

Lemma activeAgent_in agents p a : activeAgent agents p = Some a -> a ∈ agents.
Proof.
  unfold activeAgent. destruct agents as [|first rest]; [done|]. destruct (truthy_str (activeDid p)); [|intros [= <-]; by left].
  destruct (List.find (fun a => jeqb (ag_did a) (activeDid p)) (first :: rest)) as [b|] eqn:E; intros [= <-]; [|by left]. apply find_some in E as [E _]. by apply list_elem_of_In.
Qed.

Lemma activeAgent_some agents p : agents <> [] -> exists a, activeAgent agents p = Some a.
Proof. intros Hn. unfold activeAgent. destruct agents; [done|]. destruct (truthy_str (activeDid p)); by eexists. Qed.

Lemma list_pane_marks agents p a : activeAgent agents p = Some a ->
  exists items, PageView.list_pane agents p = Some items /\ map PageView.i_did items = map ag_did agents /\
    forall i, i ∈ items -> (PageView.i_active i = true <-> PageView.i_did i = ag_did a).
Proof.
  intros Ha. unfold PageView.list_pane. destruct agents as [|first rest] eqn:Ea; [done|]. rewrite <- Ea in *. clear first rest Ea.
  eexists. split; [reflexivity|]. split.
  - apply list_eq. intros i. change (map PageView.i_did) with (fmap (M:=list) PageView.i_did). change (map ag_did) with (fmap (M:=list) ag_did).
    rewrite !list_lookup_fmap, list_lookup_imap. by destruct (agents !! i).
  - intros i (n & b & -> & _)%elem_of_lookup_imap. cbn. rewrite Ha. rewrite jeqb_true. split; congruence.
Qed.

(** The credentials that have a row. *)
Lemma visible_exact aid l p c :
  c ∈ visibleCreds aid l p <-> c ∈ l /\ cr_aid c = aid /\ (isLive (cr_status c) = true \/ showRevoked p = true).
Proof.
  unfold visibleCreds, liveCreds, deadCreds, allForAgent.
  assert (forall (f : AgentCredential -> bool) m, c ∈ List.filter f m <-> c ∈ m /\ f c = true) as Hf.
  { intros f m. rewrite !list_elem_of_In. apply filter_In. }
  destruct (showRevoked p); rewrite ?elem_of_app, !Hf, jeqb_true, ?negb_true_iff; destruct (isLive (cr_status c)); naive_solver.
Qed.

(** ** The bridge *)

(** A session the daemon lists as its type says. *)
Definition session_ok (s : jval) : Prop := is_object s = true /\ exists label, jget s (js "device_label") = JStr label.

(** A session is marked as this browser's exactly when its id is the hash of
    the stored token. *)
Definition session_told (stored : option jstr) (s : jval) (row : BridgeView.SessionRow) : Prop :=
  jget s (js "device_label") = JStr (concat (BridgeView.ses_label row)) /\
  (BridgeView.ses_this row = true <-> exists h, stored = Some h /\ h <> [] /\ jget s (js "id") = JStr h).

Lemma session_row_told stored s : session_ok s -> exists row, BridgeView.session_row stored s = Ok row /\ session_told stored s row.
Proof.
  intros [Ho [label El]]. unfold BridgeView.session_row.
  assert (jprop s (js "id") = Ok (jget s (js "id"))) as -> by by destruct s.
  mred. rewrite El. cbn [child]. eexists. split; [reflexivity|]. split; [cbn; by rewrite El, app_nil_r|]. cbn.
  destruct stored as [[|u h]|]; [split; [done|naive_solver]| |split; [done|naive_solver]].
  rewrite jis_true. naive_solver.
Qed.

Lemma session_rows_told stored l : Forall session_ok l ->
  exists rows, map_res (BridgeView.session_row stored) l = Ok rows /\ Forall2 (session_told stored) l rows.
Proof.
  induction 1 as [|s l Hs _ IH]; [by exists []|]. destruct (session_row_told stored s Hs) as (row & E & T). destruct IH as (rows & E2 & T2).
  exists (row :: rows). cbn [map_res]. rewrite E. mred. rewrite E2. split; [done|by constructor].
Qed.

(** The panel is shown for an isolated agent, and to whoever holds a token. *)
Lemma bridge_panel_shown mode adv p : Forall session_ok (Panel.pairedSessions p) ->
  exists v, BridgeView.panel mode adv p = Ok v /\
    (v = None <-> mode <> Mode.daemon_isolated /\ Panel.storedTokenHash p = None) /\
    forall w, v = Some w ->
      (is_Some (BridgeView.v_pair w) <-> Panel.storedTokenHash p = None) /\
      (forall sv, BridgeView.v_sessions w = Some sv -> Forall2 (session_told (Panel.storedTokenHash p)) (Panel.pairedSessions p) (BridgeView.se_rows sv)) /\
      (is_Some (BridgeView.v_sessions w) <-> is_Some (Panel.storedTokenHash p)).
Proof.
  intros Hs. unfold BridgeView.panel. destruct (session_rows_told (Panel.storedTokenHash p) _ Hs) as (rows & Er & Tr).
  destruct (Panel.storedTokenHash p) as [h|] eqn:Eh.
  - rewrite bool_decide_true by done. cbn [negb].
    replace (match mode with Mode.daemon_isolated => false | _ => false end) with false by (by destruct mode).
    rewrite Er. mred. eexists. split; [reflexivity|]. split; [naive_solver|]. intros w [= <-]. cbn.
    split; [split; [by intros [? ?]|done]|]. split; [by intros sv [= <-]|]. split; by intros _; eexists.
  - rewrite bool_decide_false by (by intros [? ?]). cbn [negb].
    destruct mode; [by eexists; split; [reflexivity|]; split; [naive_solver|]| |by eexists; split; [reflexivity|]; split; [naive_solver|]].
    mred. eexists. split; [reflexivity|]. split; [naive_solver|]. intros w [= <-]. cbn. split; [split; [done|by intros _; eexists]|].
    split; [done|]. split; by intros [? ?].
Qed.

(** The warning of the quota, for the caps a daemon has: from four fifths on. *)
Lemma near_cap_small : forall m u, 0 <= m <= 1000 -> 0 <= u <= 2000 ->
  let policy := JObj [(js "bridged_decrypts_per_day_used", JNum (num u)); (js "bridged_decrypts_per_day_max", JNum (num m))] in
  BridgeView.near_cap policy = (Z.max 1 (4 * m / 5) <=? u).
Proof.
  intros m u Hm Hu. cbv zeta. unfold BridgeView.near_cap, BridgeView.count_of. cbn [jget].
  assert (forallb (fun m => match BridgeView.math_max_1 (BridgeView.math_floor (BridgeView.times_four_fifths (num m))) with
                            | Fin (n # 1) => n =? Z.max 1 (4 * m / 5) | _ => false end) (map Z.of_nat (seq 0 1001)) = true) as Hall by by vm_compute.
  rewrite forallb_forall in Hall. specialize (Hall m).
  assert (In m (map Z.of_nat (seq 0 1001))) as Hin.
  { apply in_map_iff. exists (Z.to_nat m). split; [lia|]. apply in_seq. lia. }
  specialize (Hall Hin). change (jget (JObj _) (js "bridged_decrypts_per_day_used")) with (JNum (num u)).
  change (jget (JObj _) (js "bridged_decrypts_per_day_max")) with (JNum (num m)).
  destruct (BridgeView.math_max_1 _) as [| |[n [ | | ]]]; try done. apply Z.eqb_eq in Hall as ->.
  unfold BridgeView.num_geb, num. cbn [num_ltb]. rewrite negb_involutive.
  apply eq_true_iff_eq. rewrite Qle_bool_iff, Z.leb_le. unfold Qle. cbn. lia.
Qed.

(** ** The statistics *)

(** The four counts add up to the events that were read. *)
Lemma counts_sum events :
  let c := ReplyStats.counts events in
  (c ReplyStats.auto_accept + c ReplyStats.auto_decline + c ReplyStats.queue_for_human + c ReplyStats.other = length events)%nat.
Proof.
  unfold ReplyStats.counts. cbv zeta.
  set (f := fun (c : ReplyStats.AutoReplyStatBucket -> nat) ev b => if decide (ReplyStats.bucketForAction (ReplyStats.action_of ev) = b) then S (c b) else c b).
  set (total c := (c ReplyStats.auto_accept + c ReplyStats.auto_decline + c ReplyStats.queue_for_human + c ReplyStats.other)%nat).
  assert (forall c, total (fold_left f events c) = (total c + length events)%nat) as Hg; [|by apply (Hg (fun _ => O))].
  induction events as [|ev l IH]; intros c; cbn [fold_left length]; [lia|]. rewrite IH. subst f total. cbv beta.
  destruct (ReplyStats.bucketForAction (ReplyStats.action_of ev)); repeat (case_decide; try done); lia.
Qed.

(** * Properties *)

Definition rows_of (v : (list PageView.CredentialRow + Message) * option Message) : list PageView.CredentialRow :=
  match v.1 with inl rows => rows | inr _ => [] end.

Lemma credential_rows `{Host} shown_date revoking purging aid l p row :
  row ∈ rows_of (PageView.credentials_view shown_date revoking purging aid l p) <->
  exists c, c ∈ l /\ cr_aid c = aid /\ (isLive (cr_status c) = true \/ showRevoked p = true) /\
    row = PageView.credential_row shown_date revoking purging (nowMs p) c.
Proof.
  assert (rows_of (PageView.credentials_view shown_date revoking purging aid l p) =
    map (PageView.credential_row shown_date revoking purging (nowMs p)) (visibleCreds aid l p)) as ->.
  { unfold rows_of, PageView.credentials_view. cbn [fst]. by destruct (visibleCreds aid l p). }
  rewrite list_elem_of_In, in_map_iff. setoid_rewrite <- list_elem_of_In. setoid_rewrite visible_exact. naive_solver.
Qed.

(** The agents' page shows one agent, and tells the same of it everywhere.
    With agents there and a daemon that lists its sessions as typed, the page is
    shown; the list marks the agent of the reader and no other did; the bridge
    panel is hidden exactly when the mode's badge does not say isolated and no
    token is stored, and marks as this browser's the sessions with the stored
    token's hash; the credentials listed are the agent's own, the dead ones
    only on demand; a credential can be revoked exactly while it is pending or
    active, and purged exactly when seven days have passed since it was
    revoked. *)
Theorem agents_page_shows `{Host} (shown_date : option Z -> jstr) (agents : list Agent) (credentials : list AgentCredential)
    (x : PageView.Panels) (busy : PageView.Busy) (p : Page) (st : StatsView.View) :
  agents <> [] -> PageView.pn_statistics x = Ok st -> Forall session_ok (Panel.pairedSessions (PageView.pn_bridge x)) ->
  exists a r, PageView.reader_pane shown_date agents credentials x busy p = Ok (Some r) /\
    a ∈ agents /\ PageView.rd_did r = ag_did a /\
    (exists items, PageView.list_pane agents p = Some items /\ map PageView.i_did items = map ag_did agents /\
       forall i, i ∈ items -> (PageView.i_active i = true <-> PageView.i_did i = PageView.rd_did r)) /\
    (PageView.rd_bridge r = None <->
       fst (PageView.rd_mode r) <> msg "agents.modeDaemonIsolatedName" /\ Panel.storedTokenHash (PageView.pn_bridge x) = None) /\
    (forall v sv, PageView.rd_bridge r = Some v -> BridgeView.v_sessions v = Some sv ->
       Forall2 (session_told (Panel.storedTokenHash (PageView.pn_bridge x))) (Panel.pairedSessions (PageView.pn_bridge x)) (BridgeView.se_rows sv)) /\
    forall row, row ∈ rows_of (PageView.rd_credentials r) <->
      exists c, c ∈ credentials /\ cr_aid c = ag_aid a /\ (isLive (cr_status c) = true \/ showRevoked p = true) /\
        row = PageView.credential_row shown_date (PageView.revoking busy) (PageView.purging busy) (nowMs p) c /\
        (PageView.r_revoke row = None <-> isLive (cr_status c) = false) /\
        (PageView.r_purge row = PurgeNow <->
           cr_status c = js "revoked" /\
           exists t at_, revoked_at c = Some t /\ t <> [] /\ date_parse t = Some at_ /\ at_ + 7 * DAY_MS <= nowMs p).
Proof.
  intros Hn Hst Hs. destruct (activeAgent_some agents p Hn) as [a Ha].
  destruct (bridge_panel_shown (ModeViews.agent_mode (ag_aid a) credentials) (PageView.pn_advanced x) (PageView.pn_bridge x) Hs)
    as (v & Ev & Hnone & Hv).
  eexists a, _. split; [unfold PageView.reader_pane; rewrite Ha; unfold PageView.reader; rewrite Ev; mred; rewrite Hst; reflexivity|].
  split; [by eapply activeAgent_in|]. split; [done|]. split; [by apply list_pane_marks|]. split_and!.
  - cbn [PageView.rd_bridge PageView.rd_mode]. rewrite Hnone. unfold ModeViews.AgentModePanel.
    by destruct (ModeViews.agent_mode _ _); cbn [fst]; split; intros [? ?]; split.
  - cbn [PageView.rd_bridge]. intros w sv -> Hsv. destruct (Hv w eq_refl) as (_ & T & _). by apply T.
  - intros row. cbn [PageView.rd_credentials]. rewrite credential_rows. apply exist_proper. intros c.
    split; [|naive_solver]. intros (Hc & Hca & Hl & ->). split_and!; [done..| |].
    + cbn. destruct (isLive (cr_status c)); by split.
    + cbn. apply purge_offer_exact.
Qed.

(** An isolated agent, with this browser paired and one credential revoked. *)
Example agents_page_shows_witness :
  let _ := plain_host in
  let cred i s r := Credential (js i) (js "aid:a") (js i) (js s) (Some (js "signer_daemon")) None r None in
  let l := [cred "c1" "active" None; cred "c2" "revoked" (Some (js "2026-05-01T00:00:00Z"))] in
  let session := JObj [(js "id", JStr (js "abc")); (js "device_label", JStr (js "Firefox on Linux"))] in
  let x := PageView.PanelsOf Whereabouts.present Whereabouts.present
             (Panel.PanelOf Panel.DEFAULT_BASE_URL (Some (js "abc")) [] [] Panel.paired [session] JNull []) false (Ok StatsView.NoData) in
  let p := toggle_revoked (initial 1800000000000) in
  exists r, PageView.reader_pane (fun _ => []) two_agents l x (PageView.BusyOf false false false false false false) p = Ok (Some r) /\
    PageView.rd_bridge r <> None /\ map PageView.r_id (rows_of (PageView.rd_credentials r)) = [js "c1"; js "c2"] /\
    map PageView.r_purge (rows_of (PageView.rd_credentials r)) = [NoPurge; PurgeNow].
Proof.
  intros h cred l session x p.
  destruct (agents_page_shows (fun _ => []) two_agents l x (PageView.BusyOf false false false false false false) p StatsView.NoData)
    as (a & r & E & _ & _ & _ & Hb & _).
  - done.
  - reflexivity.
  - constructor; [split; [done|by eexists]|constructor].
  - exists r. split; [exact E|]. split; [intros Hr; apply Hb in Hr as [_ Hr]; by vm_compute in Hr|].
    vm_compute in E. injection E as <-. by split.
Defined.
