(* ===== verification/PageViews.v ===== *)
(** What the smaller pages show: the markup of
    apps/web/app/settings/audit/page.tsx, _components/AutoReplyPolicyPanel.tsx,
    settings/blocks/page.tsx, settings/profile/ProfilePanel.tsx, contacts/page.tsx,
    pending/page.tsx, integrations/IntegrationsPanel.tsx and login/page.tsx over
    the states of AuditPage.v, PolicyEditor.v, Settings.v, Contacts.v,
    Integrations.v and Login.v.

    A text of the interface is its key, with its parameters where it has some.
    Of the audit log, the icons and the colours are left out. *)
From S2P Require Import Prelude Utf8 JsNumber Json JsDate Effect Node Envelope ApiClient Browser Urls WebApi WebKeystore AutoReply Llm Session Views PolicyEditor Contacts AgentInbox Conversation Settings Calendar Integrations Login AuditPage.

(** ** The audit log *)
Module AuditView.
Import AuditLogPage.

(** The choices of events: their values and their keys. *)
Definition options : list (jstr * jstr) := ([], js "audit.allEvents") :: map (fun kv => (kv.1, labelKey kv.2)) EVENT_META.

(** A [select] whose value is none of its options shows the first one. *)
Definition chosen (value : jstr) : jstr :=
  match List.find (fun o => jeqb o.1 value) options with Some o => o.2 | None => js "audit.allEvents" end.

(** The first occurrence of [pattern] in [s] removed. *)
Fixpoint remove_first (pattern s : jstr) : jstr :=
  if starts_with pattern s then drop (length pattern) s
  else match s with [] => [] | c :: r => c :: remove_first pattern r end.

(** [items n] is the translation of "common.items" with the count [n]. *)
Definition count_text (items : Z -> jstr) (total : Z) : jstr :=
  dec_of_Z total ++ js " " ++ remove_first (dec_of_Z total ++ js " ") (items total).

(** The guide: closed, or its sections with their entries. *)
Definition guide (open : bool) : option (list (jstr * Severity * list (jstr * jstr * jstr))) :=
  if open then Some (map (fun s => (s.1, guide_entries s.2)) guide_sections) else None.

(** A card as it is shown: its warning sign, its texts, and the button of its
    description with the description when it is open. *)
Record CardView := CardOf {
  v_warning : bool; v_label : Shown; v_time : jstr; v_aid : option jstr; v_credential : option jstr; v_detail : option jstr;
  v_more : option (jstr * option jstr)
}.

Definition card_view (time : jstr) (c : Card) : CardView :=
  CardOf (match c_severity c with critical => true | _ => false end) (c_label c) time (c_aid c) (c_credential c) (c_detail c)
    (match c_description c with
     | Some d => Some (if c_expanded c then (js "audit.guideClose", Some d) else (js "audit.guideOpen", None))
     | None => None
     end).

(** The pages: the current one and their number, and whether the buttons work. *)
Record Pages := PagesOf { g_page : Z; g_total : Z; g_previous : bool; g_next : bool }.

Definition pagination (total : Z) (f : Filters) : option Pages :=
  if 1 <? totalPages total then
    Some (PagesOf (page f + 1) (totalPages total) (negb (page f =? 0)) (negb (totalPages total - 1 <=? page f)))
  else None.

Record View := ViewOf {
  v_chosen : jstr; v_preset : bool; v_count : jstr; v_pill : option jstr; v_loading : bool; v_failed : bool; v_empty : bool;
  v_cards : list CardView; v_pages : option Pages
}.

Section view.
Context `{Host}.
Variables (items : Z -> jstr) (shown : option Z -> jstr).

Fixpoint cards (expandedId : option jstr) (events : list AuditLogEntry) : res (list CardView) :=
  match events with
  | [] => Ok []
  | e :: r => c ← render_entry expandedId e; l ← cards expandedId r; Ok (card_view (formatTimestamp shown (created_at e)) c :: l)
  end.

(** [isLoading] and [isError] of the query, and its data, if there is some. *)
Definition view (isLoading isError : bool) (data : option (list AuditLogEntry * Z)) (f : Filters) : res View :=
  let events := match data with Some d => d.1 | None => [] end in
  let total := match data with Some d => d.2 | None => 0 end in
  l ← cards (expandedId f) events;
  Ok (ViewOf (chosen (eventFilter f)) (bool_decide (presetPrefix f = Some bridged)) (count_text items total) (aid_pill f)
        isLoading isError (negb isLoading && match events with [] => true | _ => false end) l (pagination total f)).

End view.
End AuditView.

(** ** The form of the automatic replies *)
Module PolicyForm.
Import Editor.

(** The controls of an entry, and of the form. *)
Inductive FieldEdit :=
| set_enabled (v : bool) | set_action (a : AutoReplyAction) | set_trust (s : jstr) | set_contact (v : bool)
| set_priority (s : jstr) | set_allowlist (s : jstr) | set_note (s : jstr).

Definition edit_field (e : FieldEdit) (d : DraftProtocolAction) : DraftProtocolAction :=
  match e with
  | set_enabled v => Action v (act d) (min_trust_score d) (require_contact d) (priority_at_most d) (sender_in_allowlist d) (note_template d)
  | set_action a => Action (enabled d) (action_val a) (min_trust_score d) (require_contact d) (priority_at_most d) (sender_in_allowlist d) (note_template d)
  | set_trust s => Action (enabled d) (act d) s (require_contact d) (priority_at_most d) (sender_in_allowlist d) (note_template d)
  | set_contact v => Action (enabled d) (act d) (min_trust_score d) (JBool v) (priority_at_most d) (sender_in_allowlist d) (note_template d)
  | set_priority s => Action (enabled d) (act d) (min_trust_score d) (require_contact d) (JStr s) (sender_in_allowlist d) (note_template d)
  | set_allowlist s => Action (enabled d) (act d) (min_trust_score d) (require_contact d) (priority_at_most d) s (note_template d)
  | set_note s => Action (enabled d) (act d) (min_trust_score d) (require_contact d) (priority_at_most d) (sender_in_allowlist d) (JStr s)
  end.

Inductive Edit := set_default (a : AutoReplyAction) | edit_schedule (e : FieldEdit) | edit_task (e : FieldEdit).

Definition edit (e : Edit) (d : Draft) : Draft :=
  match e with
  | set_default a => DraftOf a (schedule_propose d) (task_delegate d)
  | edit_schedule e => DraftOf (default_action d) (edit_field e (schedule_propose d)) (task_delegate d)
  | edit_task e => DraftOf (default_action d) (schedule_propose d) (edit_field e (task_delegate d))
  end.

(** An entry: its box, and its fields when it is on. *)
Record Fields := FieldsOf { f_action : jval; f_trust : jstr; f_contact : bool; f_priority : jval; f_allowlist : jstr; f_note : jval }.

Definition ProtocolActionFieldset (d : DraftProtocolAction) : option Fields :=
  if enabled d then
    Some (FieldsOf (act d) (min_trust_score d) (jtruthy (require_contact d)) (priority_at_most d) (sender_in_allowlist d) (note_template d))
  else None.

Record Loaded := LoadedOf {
  l_default : AutoReplyAction; l_schedule : option Fields; l_task : option Fields; l_enabled : bool; l_can_save : bool; l_save : jstr;
  l_can_reset : bool; l_revision : Message; l_updated : option Message; l_status : option (bool * Message)
}.

Inductive Body := Loading | LoadFailed | Ready (l : Loaded).

(** [None]: no agent.  [updated_at] is the time of the last save, as shown. *)
Definition view (agentId : jstr) (masterEnabled isLoading isError : bool) (data : option Response) (updated_at : option jstr)
    (updating deleting : bool) (server : Draft) (p : Panel) : option (bool * Body) :=
  if negb (truthy_str agentId) then None
  else
    let busy := updating || deleting in
    Some (negb masterEnabled,
      if isLoading then Loading else if isError then LoadFailed
      else Ready (LoadedOf (default_action (draft p)) (ProtocolActionFieldset (schedule_propose (draft p)))
             (ProtocolActionFieldset (task_delegate (draft p))) (negb busy) (save_enabled (draft p) server busy)
             (if updating then js "common.saving" else js "common.save") (reset_enabled data busy)
             (js "agents.policyRevisionLabel", [(js "revision", revision data)])
             ((fun time => (js "agents.policyUpdatedAt", [(js "time", JStr time)])) <$> updated_at)
             ((fun s => (match s.1 with error => true | _ => false end, s.2)) <$> status p))).

End PolicyForm.

(** ** The blocks *)
Module BlocksView.
Import BlocksPage.

(** A card: its level, its target with a badge, and its time. *)
Record CardView := CardOf { c_level : jstr; c_badge : option jstr; c_target : jstr; c_time : jstr; c_can_delete : bool }.

(** The form: the level with its description, and the one target it asks for. *)
Record View := ViewOf {
  v_cards : option (list CardView); v_level : jstr * jstr; v_target : jstr * jstr; v_can_add : bool; v_status : option jstr
}.

Definition card (time : BlockEntry -> jstr) (deleting : bool) (b : BlockEntry) : CardView :=
  CardOf (level_label (b_level b)) (targetBadge b) (targetValue b) (time b) (negb deleting).

(** [time b] is [toLocaleString] of the block's date; [None] for the list when
    there are no blocks. *)
Definition view (time : BlockEntry -> jstr) (creating deleting : bool) (blocks : list BlockEntry) (p : Page) : View :=
  ViewOf (match blocks with [] => None | _ => Some (map (card time deleting) blocks) end)
    (level_label (level p), level_description (level p))
    (match level p with
     | Thread.Block.l1_did => (js "blocks.didTitle", targetDid p)
     | _ => (js "blocks.worldIdTitle", targetWorldId p)
     end) (negb creating) (if truthy_str (statusMessage p) then Some (statusMessage p) else None).

End BlocksView.

(** ** The profile *)
Module ProfileView.
Import ProfilePanel.

Record Account := AccountOf { a_id : jstr; a_method : ContactsPage.StatusText; a_since : jstr }.

(** The name's form: its field, its button, and what became of the last save. *)
Record NameForm := FormOf { n_value : jstr; n_can_save : bool; n_button : jstr; n_saved : bool; n_error : option ContactsPage.StatusText }.

Inductive View := Waiting | LoggedOut | LoggedIn (account : Account) (form : NameForm).

(** The session query: pending, or whether it says authenticated, and its user. *)
Definition view `{Host} (shown : Z -> jstr) (isPending authenticated : bool) (user : option SessionUser) (updating : bool) (p : Panel) : View :=
  if isPending then Waiting
  else match user with
  | Some u =>
    if authenticated then
      LoggedIn (AccountOf (user_id u) (verificationLabel (verification_level u)) (formatDate shown (u_created_at u)))
        (FormOf (displayName p) (negb updating) (if updating then js "profile.saving" else js "profile.saveBtn")
           (match status p with success => true | _ => false end)
           (match status p with
            | error => Some (match errorMessage p with Some m => m | None => ContactsPage.key "profile.error" end)
            | _ => None
            end))
    else LoggedOut
  | None => LoggedOut
  end.

End ProfileView.

(** ** The contacts *)
Module ContactsView.
Import ContactsPage.

(** A card of the list: whether it is the active one, and its lines. *)
Record CardView := CardOf { c_id : jstr; c_active : bool; c_name : jstr; c_line : jstr; c_note : option jstr }.

Definition card (a : ActiveId) (c : ContactEntry) : CardView :=
  CardOf (id c) (jeqb (active_text a) (id c)) (person_name c)
    ((match agent_label c with Some ((_ :: _) as l) => l ++ js " · " | _ => [] end) ++ did c)
    (match note c with Some ((_ :: _) as n) => Some n | _ => None end).

Record View := ViewOf {
  v_new_active : bool; v_cards : option (list CardView); v_title : jstr; v_draft : DraftState; v_did_enabled : bool;
  v_status : option (StatusKind * StatusText); v_delete : option (jstr * bool); v_submit : jstr; v_can_submit : bool
}.

Definition view (contacts : list ContactEntry) (saving deleting : bool) (p : Page) : View :=
  let editing := isEditing p in
  ViewOf (jeqb (active_text (activeId p)) (js "new"))
    (match contacts with [] => None | _ => Some (map (card (activeId p)) contacts) end)
    (if editing then js "contacts.formEditTitle" else js "contacts.formNewTitle") (draft p) (negb editing) (status p)
    (if editing then Some (if deleting then js "contacts.deleting" else js "contacts.deleteBtn", negb deleting) else None)
    (if saving then js "contacts.savingBtn" else if editing then js "contacts.saveBtn" else js "contacts.addBtn") (negb saving).

End ContactsView.

(** ** The messages that wait for approval *)
Module PendingView.
Import PendingPage.

Record CardView := CardOf { c_id : jstr; c_subject : jstr; c_sender : jstr; c_trust : jnum; c_category : option jstr; c_time : jstr; c_enabled : bool }.

Inductive Body := Loading | Failed | Empty | Cards (l : list CardView).

Record View := ViewOf { v_selected : jstr; v_count : nat; v_meta : jstr; v_body : Body; v_status : option jstr }.

(** The subject is shown as it was sent.  [noSubject] is a text, [category] the
    [ai_category] of a message and [time] is [formatListTimestamp]. *)
Definition card (noSubject : jstr) (category : Threads.MessageIndexEntry -> option jstr) (time : jstr -> jstr) (updating : bool)
    (m : Threads.MessageIndexEntry) : CardView :=
  CardOf (Threads.id m) (if truthy_str (Threads.subject_encrypted m) then Threads.subject_encrypted m else noSubject)
    (WebApi.formatParticipant (Threads.sender_label m) (Threads.sender_did m)) (trust_percent (Threads.trust_score m))
    (match category m with Some ((_ :: _) as c) => Some c | _ => None end) (time (Threads.created_at m)) (negb updating).

Definition view (noSubject : jstr) (category : Threads.MessageIndexEntry -> option jstr) (time : jstr -> jstr)
    (isLoading isError updating : bool) (pending : list Threads.MessageIndexEntry) (p : Page) : View :=
  ViewOf (selectedDid p) (length pending)
    (if truthy_str (selectedDid p) then js "pending.descSelected" else js "pending.descUnselected")
    (if isLoading then Loading else if isError then Failed
     else match pending with [] => Empty | _ => Cards (map (card noSubject category time updating) pending) end)
    (if truthy_str (statusMessage p) then Some (statusMessage p) else None).

End PendingView.

(** ** The integrations *)
Module IntegrationsView.

Section calendar.
Context `{Host, Env, BrowserEnv, Gis}.
Import GoogleCalendarCard.

(** The card: its badge, and its button with the error, or that the client id
    is missing. *)
Definition calendar_view (k : Card) : (StatusKind * Text) * (option (Button * bool * option jstr)) :=
  (badge k,
   match button k with
   | Some b => Some (b, negb (busy k), match error k with Some ((_ :: _) as e) => Some e | _ => None end)
   | None => None
   end).

End calendar.

Import AIAssistantCard.

(** Connected, with the fingerprint and the model; or the field of a key. *)
Inductive AssistantView :=
| Connected (fingerprint : option jstr) (model : option jstr) (enabled : bool)
| KeyField (typed : jstr) (can_save : bool) (can_cancel : option bool) (error : option jstr).

Definition assistant_view (k : Card) : (StatusKind * Text) * AssistantView :=
  (badge k,
   if connected k then
     Connected (fingerprint k) (match model_ k with Some ((_ :: _) as m) => Some m | _ => None end) (negb (busy k))
   else
     KeyField (draftKey k) (save_enabled k) (if editing k then Some (negb (busy k)) else None)
       (match error k with Some ((_ :: _) as e) => Some e | _ => None end)).

End IntegrationsView.

(** ** Signing in *)
Module LoginView.
Import LoginPage.

Inductive Locale_ := en | ja.
Definition toggleLocale (l : Locale_) : Locale_ := match l with en => ja | ja => en end.

(** The button of the widget, with whether it can be pressed; the status with its
    kind; and the links at the foot. *)
Definition cta (t : jval -> jval -> jstr) (p : Page) : jstr * bool :=
  (if iframeVisible p then t (JStr (js "auth.verifying")) JUndef else t (JStr (js "auth.connectWorldId")) JUndef, negb (iframeVisible p)).
Definition status_line (t : jval -> jval -> jstr) (p : Page) : jstr * jstr :=
  (statusKind t p, if truthy_str (statusText p) then statusText p else [160]).
Definition foot_links : list (jstr * jstr) :=
  [(js "/concept", js "auth.conceptLink"); (js "/help", js "legal.helpLink"); (js "/privacy", js "legal.privacyLink");
   (js "/terms", js "legal.termsLink")].

(** The button of the language with its label, the iframe's address while it is
    there, and the rest. *)
Record View := ViewOf {
  v_language : jstr * jstr; v_iframe : option jstr; v_cta : jstr * bool; v_status : jstr * jstr; v_links : list (jstr * jstr)
}.

Definition view (t : jval -> jval -> jstr) (l : Locale_) (p : Page) : res View :=
  src ← iframeSrc (nextPath p);
  Ok (ViewOf (match l with en => (js "JP", js "日本語に切り替え") | ja => (js "EN", js "Switch to English") end)
        (if iframeVisible p then Some src else None) (cta t p) (status_line t p) foot_links).

End LoginView.

(** * Lemmas *)

(** ** The audit log *)

Section audit.
Import AuditLogPage.

(** The choice shows the filter when the page knows the event; a filter from an
    address that it does not know shows as no filter at all. *)
Lemma chosen_exact value :
  AuditView.chosen value = match own_meta value with Some m => labelKey m | None => js "audit.allEvents" end.
Proof.
  unfold AuditView.chosen, AuditView.options, own_meta. cbn [List.find fst]. destruct (jeqb_spec [] value) as [<-|_]; [by vm_compute|].
  induction EVENT_META as [|[k m] l IH]; [done|]. cbn. by destruct (jeqb k value).
Qed.

(** The two buttons work exactly when they turn the page. *)
Lemma pages_turn total f g : AuditView.pagination total f = Some g ->
  (AuditView.g_previous g = true <-> previous f <> f) /\ (AuditView.g_next g = true <-> next total f <> f) /\
  AuditView.g_page g = page f + 1 /\ (0 <= page f < totalPages total -> 1 <= AuditView.g_page g <= AuditView.g_total g).
Proof.
  unfold AuditView.pagination. destruct (1 <? totalPages total); [|done]. intros [= <-]. cbn.
  unfold previous, next. destruct f as [e a pr pg ex]; cbn [page].
  split; [|split; [|split; [done|lia]]].
  - destruct (Z.eqb_spec pg 0); [by split|]. split; [|done]. intros _ [=]. lia.
  - destruct (Z.leb_spec (totalPages total - 1) pg); [by split|]. split; [|done]. intros _ [=]. lia.
Qed.

(** Every entry of the server's answer gets a card, in order, unless one of the
    events is a name the object literal inherits. *)
Lemma cards_shown `{Host} shown exp events :
  Forall (fun e => event e ∉ object_prototype_keys) events ->
  exists l, AuditView.cards shown exp events = Ok l /\
    Forall2 (fun e v => AuditView.v_warning v = true <-> exists m, own_meta (event e) = Some m /\ severity m = critical) events l.
Proof.
  induction 1 as [|e events He _ IH]; [by exists []|]. destruct IH as (l & El & F). cbn [AuditView.cards].
  unfold render_entry, meta_of. destruct (own_meta (event e)) as [m|] eqn:Em.
  - mred. rewrite El. eexists. split; [reflexivity|]. constructor; [|done]. cbn [AuditView.card_view AuditView.v_warning c_severity]. rewrite Em.
    split; [intros Hw; exists m; split; [done|]; by destruct (severity m)|by intros (m' & [= <-] & ->)].
  - rewrite (bool_decide_false (event e ∈ object_prototype_keys)) by exact He. mred. rewrite El. eexists. split; [reflexivity|]. constructor; [|done]. cbn [AuditView.card_view AuditView.v_warning c_severity]. rewrite Em. cbn [labelKey severity]. split; [done|by intros (? & ? & _)].
Qed.

End audit.

(** ** The form of the automatic replies *)

Section policy.
Import Editor.

(** What the form shows of a section is what was last put into it, and the
    other section is left alone. *)
Lemma edits_apart d es :
  let d' := fold_left (fun d e => PolicyForm.edit e d) es d in
  schedule_propose d' = fold_left (fun s e => PolicyForm.edit_field e s)
    (omap (fun e => match e with PolicyForm.edit_schedule f => Some f | _ => None end) es) (schedule_propose d) /\
  task_delegate d' = fold_left (fun s e => PolicyForm.edit_field e s)
    (omap (fun e => match e with PolicyForm.edit_task f => Some f | _ => None end) es) (task_delegate d).
Proof. revert d. induction es as [|e es IH]; intros d; [done|]. destruct (IH (PolicyForm.edit e d)) as [Hs Ht]. by destruct e. Qed.

(** An entry that is off is neither shown nor saved, whatever its fields hold. *)
Lemma hidden_not_saved d : PolicyForm.ProtocolActionFieldset d = None <-> protocolActionFromDraft d = Ok None.
Proof.
  unfold PolicyForm.ProtocolActionFieldset, protocolActionFromDraft. destruct (enabled d); [|done]. split; [done|].
  cbn [negb]. destruct (conditions_of d) as [c|]; [|done]. mred. by destruct (as_string (note_template d)).
Qed.

End policy.

(** ** The contacts *)

(** One tile is marked: the new one, or the contact that is being edited. *)
Lemma one_tile_marked contacts saving deleting p :
  Forall (fun c => ContactsPage.id c <> js "new") contacts ->
  (match ContactsPage.activeId p with ContactsPage.NotAString _ => False | ContactsPage.Existing i => i <> js "new" | _ => True end) ->
  let v := ContactsView.view contacts saving deleting p in
  (ContactsView.v_new_active v = true <-> ContactsPage.activeId p = ContactsPage.New) /\
  ContactsView.v_did_enabled v = ContactsView.v_new_active v /\
  forall l, ContactsView.v_cards v = Some l ->
    Forall2 (fun c w => ContactsView.c_active w = true <-> ContactsPage.activeId p = ContactsPage.Existing (ContactsPage.id c)) contacts l.
Proof.
  intros Hc Ha v. subst v. unfold ContactsView.view. cbn. split; [|split].
  - destruct (ContactsPage.activeId p) as [|i|s]; cbn; rewrite jeqb_true; [done| |done]. split; [|done]. congruence.
  - unfold ContactsPage.isEditing. destruct (ContactsPage.activeId p) as [|i|s]; cbn; [done| |done].
    destruct (jeqb_spec i (js "new")); [done|done].
  - intros l. destruct contacts as [|c0 cs] eqn:Ec; [done|]. rewrite <- Ec in *. clear Ec c0 cs. intros [= <-].
    induction Hc as [|c cs Hn _ IH]; constructor; [|done]. cbn. rewrite jeqb_true.
    destruct (ContactsPage.activeId p) as [|i|s]; cbn; [|split; [by intros ->|by intros [= ->]]|done]. split; [congruence|done].
Qed.

(** ** The assistant *)

(** Once it is connected, the card tells the fingerprint and the model, and
    nothing that depends on the key. *)
Lemma connected_hides_key k k' :
  AIAssistantCard.connected k = true -> AIAssistantCard.fingerprint k' = AIAssistantCard.fingerprint k ->
  AIAssistantCard.model_ k' = AIAssistantCard.model_ k -> AIAssistantCard.busy k' = AIAssistantCard.busy k ->
  AIAssistantCard.editing k' = AIAssistantCard.editing k -> IntegrationsView.assistant_view k' = IntegrationsView.assistant_view k.
Proof.
  unfold IntegrationsView.assistant_view, AIAssistantCard.badge, AIAssistantCard.connected. intros Hc -> -> -> ->. by rewrite Hc.
Qed.

(** ** Signing in *)

(** The widget can be opened exactly while its frame is not there. *)
Lemma login_one_frame t l p v : LoginView.view t l p = Ok v ->
  ((LoginView.v_cta v).2 = true <-> LoginView.v_iframe v = None) /\ (LoginPage.iframeVisible p = true <-> LoginView.v_iframe v <> None).
Proof.
  unfold LoginView.view. destruct (LoginPage.iframeSrc _) as [src|]; [|done]. mred. intros [= <-]. cbn. by destruct (LoginPage.iframeVisible p).
Qed.
