(* ===== verification/AutoReplyRun.v ===== *)
(** The auto-reply executor at work: the effect of
    apps/web/app/agent/[did]/NexusInboxClient.tsx that runs it with the
    browser's own collaborators.

    Executor.v leaves its collaborators to a class, as the source injects them:
    each answers as a function of the trace of what was asked before.  Here that
    class is filled as the page fills it.  The executor awaits every call, so the
    browser a call finds is the one its predecessors left; [browser_after]
    computes it from the trace.  The theorem follows a proposal from the server
    through the policy to the answer in its sender's conversation. *)
From S2P Require Import Prelude Utf8 JsNumber Json JsDate A2A Effect Node Envelope AutoReply A2AReply Executor ApiClient Browser WebKeystore WebEnvelope WebApi SendReply Calendar Urls Views Session Inbox AgentInbox Propose Conversation CardViews ConversationView Negotiation.

(** ** The collaborators *)
Module Wiring.
Section wiring.
Context `{Host, WebCrypto, Env, BrowserEnv}.

(** The answer of the server, read by the executor; a field that is not a text is
    read as an empty one. *)
Definition text_prop (v : jval) (k : jstr) : jstr := match jget v k with JStr s => s | _ => [] end.
Definition content_read (v : jval) : res MessageContent :=
  match v with
  | JUndef | JNull => Throw (TypeError_ (js "Cannot read properties of undefined"))
  | _ => Ok (Content (match jget v (js "content_type") with JStr s => Some s | _ => None end)
               (text_prop v (js "encrypted_content")) (text_prop v (js "encrypted_key")))
  end.

Definition fetch_content (id : jstr) : BM MessageContent :=
  v ← WebApi.getMessageContent WebApi.defaultApiClient id; lift (content_read v).

Definition open_text (ciphertext encryptedKey recipientDid : jstr) : BM jstr :=
  WebText.decryptEnvelopeText ciphertext (Some encryptedKey) (Some recipientDid).

(** The candidates are those of a checked block: an array unless its sender wrote
    something else, which has no [flatMap]. *)
Definition freebusy (gcalToken : jstr) (candidates : jval) : BM jval :=
  match candidates with
  | JArr l => Freebusy.findFirstFreeCandidate l gcalToken
  | JStr [] => mret JNull
  | _ =>
    match jget candidates (js "length") with
    | JNum n => if num_eqb n (num 0) then mret JNull else raise (TypeError_ (js "candidates.flatMap is not a function"))
    | _ => raise (TypeError_ (js "candidates.flatMap is not a function"))
    end
  end.

Definition seed (payload : WebApi.SeedMessage) : BM unit := WebApi.seedMessage WebApi.defaultApiClient payload ;; mret tt.

Definition send (input : ProtocolReplyInput) : BM unit :=
  SendReply.sendProtocolReply
    (SendInput (ri_protocolType input) (ri_reply input) (JStr (ri_threadId input)) (ri_originalProtocolId input)
       (ri_subject input) (ri_bodySummary input) (ri_viewerAgentDid input) (ri_proposerDid input) (Some (ri_autoReplyOrigin input)))
    seed.

Definition mark (id : jstr) (replyMessageId : option jstr) : BM unit :=
  WebApi.markAutoReplySent WebApi.defaultApiClient id replyMessageId ;; mret tt.

(** What a call does to the browser.  The page does not listen to the progress,
    and gives no sink for the id of a reply. *)
Definition call (gcalToken : option jstr) (e : XEvent) : BM unit :=
  match e with
  | XContent id => fetch_content id ;; mret tt
  | XDecrypt c k did => open_text c k did ;; mret tt
  | XFreebusy candidates => match gcalToken with Some token => freebusy token candidates ;; mret tt | None => mret tt end
  | XSend input => send input
  | XMark id replyMessageId => mark id replyMessageId
  | XProgress _ => mret tt
  end.

Fixpoint browser_after (gcalToken : option jstr) (b0 : Browser) (t : list XEvent) : Browser :=
  match t with [] => b0 | e :: r => (call gcalToken e (browser_after gcalToken b0 r)).2 end.

Definition collaborators (gcalToken : option jstr) (knownContactDids : list jstr) (b0 : Browser) : Collaborators := {|
  Executor.getMessageContent := fun t id => (fetch_content id (browser_after gcalToken b0 t)).1;
  Executor.decrypt := fun t c k did => (open_text c k did (browser_after gcalToken b0 t)).1;
  Executor.calendarFreebusy := (fun token t candidates => (freebusy token candidates (browser_after gcalToken b0 t)).1) <$> gcalToken;
  Executor.sendProtocolReply := fun t input => ((send input (browser_after gcalToken b0 t)).1, None);
  Executor.markAutoReplySent := fun t id r => (mark id r (browser_after gcalToken b0 t)).1;
  Executor.is_contact := includes knownContactDids
|}.

End wiring.
End Wiring.

(** ** The run *)
Module AutoReplyRun.

(** The agent whose inbox is shown, with the queries the effect reads. *)
Record Inputs := InputsOf {
  in_did : jstr; in_auto_reply : bool; in_policy : jval; in_contacts : list jstr; in_messages : option (list MessageIndexEntry)
}.

Import GcalAuth.

(** The page: the browser with its calendar, the guard against a second run, what
    was done to the query cache, and what the last run asked for. *)
Record Page := PageOf {
  p_calendar : Calendar; p_runs : AutoRun.Runs; p_cache : list Hooks.CacheOp; p_asked : list XEvent
}.

Abbreviation PM := (eff Page).

Definition in_calendar {A} (m : CM A) : PM A :=
  fun p => let '(r, c) := m (p_calendar p) in (r, PageOf c (p_runs p) (p_cache p) (p_asked p)).

Section run.
Context `{Host, WebCrypto, Env, BrowserEnv, Gis, ObjectPrototype}.

(** [gcalEntry?.access_token ?? null], where an empty token is no token either. *)
Definition token_of (gcalEntry : option StoredCalendarToken) : option jstr :=
  match gcalEntry with Some e => if truthy_str (access_token e) then Some (access_token e) else None | None => None end.

(** The call of the executor; a run's promises are the page's calls. *)
Definition execute (gcalToken : option jstr) (contacts : list jstr) (input : ExecutorInput) (messages : list MessageIndexEntry) : PM unit :=
  fun p =>
    let b0 := c_browser (p_calendar p) in
    let _ := Wiring.collaborators gcalToken contacts b0 in
    let '(r, t) := runAutoReplyExecutor input messages [] in
    let c := p_calendar p in
    (r, PageOf (CalendarOf (Wiring.browser_after gcalToken b0 t) (c_token c) (c_loaded c) (c_revoked c)) (p_runs p) (p_cache p) t).

Definition invalidate : PM unit :=
  fun p => (Ok tt, PageOf (p_calendar p) (p_runs p) (Hooks.Invalidate Hooks.messages_prefix :: p_cache p) (p_asked p)).

(** The body of the run.  [cancelled_early], [cancelled]: the effect was cleaned
    up before the key was read, and before the executor returned. *)
Definition run (cancelled_early cancelled : bool) (i : Inputs) : PM unit :=
  signingKey ← in_calendar (in_browser_ (SigningKeyring.getSigningPrivateKey (in_did i)));
  if cancelled_early : bool then mret tt
  else
    gcalEntry ← in_calendar getCalendarToken;
    execute (token_of gcalEntry) (in_contacts i)
      (RunInput (in_did i) (bool_decide (signingKey <> None)) (in_policy i) (in_auto_reply i)) (default [] (in_messages i)) ;;
    if cancelled : bool then mret tt else invalidate.

(** The effect, with the [finally] of its run.  [currentAgent]: the agent of the
    address is one of the user's. *)
Definition effect (currentAgent cancelled_early cancelled : bool) (i : Inputs) : PM unit :=
  fun p =>
    let started := AutoRun.executor_effect currentAgent (in_messages i) (p_runs p) in
    if (AutoRun.started started =? AutoRun.started (p_runs p))%nat then (Ok tt, p)
    else
      let '(r, p') := run cancelled_early cancelled i (PageOf (p_calendar p) started (p_cache p) (p_asked p)) in
      (r, PageOf (p_calendar p') (AutoRun.run_ends (p_runs p')) (p_cache p') (p_asked p')).

End run.
End AutoReplyRun.

(** * Lemmas *)

Lemma iter_app {S A} (f : A -> eff S unit) l1 l2 s s1 : eff_iter f l1 s = (Ok tt, s1) -> eff_iter f (l1 ++ l2) s = eff_iter f l2 s1.
Proof.
  revert s. induction l1 as [|x l1 IH]; intros s E; [by injection E as ->|]. cbn [app eff_iter] in E |- *.
  apply bind_inv in E as ([] & s2 & E1 & E2). erewrite bind_ok by exact E1. by apply IH.
Qed.

(** ** A step that sends *)

Section sends.
Context `{ObjectPrototype, Collaborators}.

(** The answer the decision on a block comes to, in a run that has asked for [t];
    the calendar is asked first where it must be. *)
Definition decides (input : ExecutorInput) (entry : MessageIndexEntry) (block : A2AProtocolBlock) (t : list XEvent)
    (a : AutoReplyAction) (reply : A2ARespondPayload) (evs : list XEvent) : Prop :=
  match action (final_decision input entry block) with
  | auto_decline => a = auto_decline /\ reply = decline_reply /\ evs = []
  | auto_accept => a = auto_accept /\ reply_choice block true None reply /\ evs = []
  | auto_accept_if_free =>
    a = auto_accept /\ block_type block = schedule_negotiation /\
    exists l free ask, jget (block_payload block) (js "candidates") = JArr l /\ calendarFreebusy = Some ask /\ ask t (JArr l) = Ok free /\
      free ∈ l /\ jtruthy free = true /\ evs = [XFreebusy (JArr l)] /\
      reply = Reply RAccept (Some (JObj [(js "start", jget free (js "start")); (js "end", jget free (js "end"))])) None None None None
  | _ => False
  end.

(** What the step does once it has sent. *)
Definition settled_by (entry : MessageIndexEntry) (a : AutoReplyAction) (t : list XEvent) (sent : res unit * option jstr) (rest : list XEvent) : Prop :=
  match sent with
  | (Throw e, _) => rest = [XProgress (Failed (m_id entry) e)]
  | (Ok _, rid) =>
    match markAutoReplySent t (m_id entry) rid with
    | Ok _ => rest = [XProgress (SentReply (m_id entry) a); XMark (m_id entry) rid]
    | Throw e => rest = [XProgress (Failed (m_id entry) e); XMark (m_id entry) rid]
    end
  end.

Definition caught (entry : MessageIndexEntry) (m : X unit) : X unit := try_catch m (fun error => progress (Failed (m_id entry) error)).

Lemma dispatch_sends input entry block a candidate reply t :
  reply_choice block (bool_decide (a = auto_accept)) candidate reply ->
  let si := reply_input input entry block reply in
  exists rest, caught entry (dispatch_reply input entry block a candidate) t = (Ok tt, rest ++ XSend si :: t) /\
    settled_by entry a (XSend si :: t) (Executor.sendProtocolReply t si) rest.
Proof.
  intros Hc si. unfold caught, try_catch, dispatch_reply.
  assert ((match block_type block with
           | schedule_negotiation => scheduleReplyPayload (bool_decide (a = auto_accept)) (block_payload block) candidate
           | task_delegation => Ok (Some (taskReplyPayload (bool_decide (a = auto_accept)))) end) = Ok (Some reply)) as E.
  { unfold reply_choice in Hc. destruct (block_type block); [exact Hc|]. by rewrite Hc. }
  erewrite bind_ok by (unfold lift; rewrite E; reflexivity). cbv beta iota. fold si. unfold settled_by.
  assert (send_reply si t = ((match Executor.sendProtocolReply t si with (Ok _, id) => Ok id | (Throw e, _) => Throw e end), XSend si :: t)) as Es by done.
  destruct (Executor.sendProtocolReply t si) as [[u|e] rid].
  2: { rewrite (bind_throw _ _ _ _ _ Es). exists [XProgress (Failed (m_id entry) e)]. by split. }
  erewrite bind_ok by exact Es.
  assert (mark_sent (m_id entry) rid (XSend si :: t) = (markAutoReplySent (XSend si :: t) (m_id entry) rid, XMark (m_id entry) rid :: XSend si :: t))
    as Em by done.
  destruct (markAutoReplySent _ _ _) as [[]|e].
  - erewrite bind_ok by exact Em. by eexists [_; _].
  - rewrite (bind_throw _ _ _ _ _ Em). by eexists [_; _].
Qed.

Lemma process_sends input entry t content plaintext block a reply evs :
  let t2 := XDecrypt (mc_encrypted_content content) (mc_encrypted_key content) (viewerAgentDid input) :: XContent (m_id entry) :: t in
  let si := reply_input input entry block reply in
  getMessageContent t (m_id entry) = Ok content -> mc_content_type content = Some A2A_CONTENT_TYPE ->
  decrypt (XContent (m_id entry) :: t) (mc_encrypted_content content) (mc_encrypted_key content) (viewerAgentDid input) = Ok plaintext ->
  parsed_block plaintext = Some block -> decides input entry block t2 a reply evs ->
  exists rest, process_entry input entry t = (Ok tt, rest ++ XSend si :: evs ++ t2) /\
    settled_by entry a (XSend si :: evs ++ t2) (Executor.sendProtocolReply (evs ++ t2) si) rest.
Proof.
  intros t2 si Hg Hct Hd Hp Hdec.
  assert (process_entry input entry t = caught entry (act_on input entry block) t2) as ->.
  { unfold process_entry, caught, try_catch. erewrite bind_ok by (unfold get_content, xask; rewrite Hg; reflexivity).
    rewrite bool_decide_eq_true_2 by done. cbn [negb].
    erewrite bind_ok by (unfold decrypt_content, xask; rewrite Hd; reflexivity). by rewrite Hp. }
  unfold decides in Hdec. unfold act_on. cbv zeta. destruct (action (final_decision input entry block)); try done.
  - destruct Hdec as (-> & Hc & ->). by apply dispatch_sends.
  - destruct Hdec as (-> & -> & ->). apply dispatch_sends. unfold reply_choice. by destruct (block_type block).
  - destruct Hdec as (-> & Ht & l & free & ask & El & Ef & Ea & _ & Hv & -> & ->).
    set (c := JObj _) in *.
    assert (resolve_calendar entry block t2 = (Ok (Some c), XFreebusy (JArr l) :: t2)) as Er.
    { unfold resolve_calendar, try_catch. rewrite Ht, Ef, El. cbv zeta iota.
      erewrite bind_ok by (unfold xask; rewrite Ea; reflexivity). by rewrite Hv. }
    destruct (dispatch_sends input entry block auto_accept (Some c) (Reply RAccept (Some c) None None None None) (XFreebusy (JArr l) :: t2))
      as (rest & E & Hs).
    { unfold reply_choice, scheduleReplyPayload. by rewrite Ht. }
    exists rest. split; [|exact Hs]. unfold caught, try_catch in E |- *. by erewrite bind_ok by exact Er.
Qed.

End sends.

(** ** What the answer says *)

Section told.
Context `{Host}.

(** A block that asks for an answer. *)
Definition asks (block : A2AProtocolBlock) : Prop :=
  match block_type block, block_action block with
  | schedule_negotiation, propose | task_delegation, delegate => True
  | _, _ => False
  end.

(** The answers the executor gives to one. *)
Definition auto_answer (block : A2AProtocolBlock) (reply : A2ARespondPayload) : Prop :=
  reply = decline_reply \/
  match block_type block with
  | task_delegation => reply = Reply RAccept None None None None None
  | schedule_negotiation =>
    exists l cand c, jget (block_payload block) (js "candidates") = JArr l /\ cand ∈ l /\ same_times cand c /\ valid_candidate c /\
      reply = Reply RAccept (Some c) None None None None
  end.

Lemma proposal_candidates block : assertValidA2APayload block = Ok tt -> asks block -> block_type block = schedule_negotiation ->
  exists cand l, jget (block_payload block) (js "candidates") = JArr (cand :: l) /\ Forall valid_candidate (cand :: l).
Proof.
  intros Hv%payload_spec Ha Et. unfold asks in Ha. rewrite Et in Hv, Ha. destruct (block_action block); try done.
  destruct Hv as (_ & (l & El & Hn & Hl) & _). destruct l as [|cand l]; [cbn in Hn; lia|]. by exists cand, l.
Qed.

Lemma candidate_truthy c : valid_candidate c -> jtruthy c = true.
Proof. intros (s & e & a & b & Es & _). by destruct c. Qed.

Lemma same_times_valid c c' : same_times c c' -> valid_candidate c -> valid_candidate c'.
Proof. intros [Hs He] Hc. unfold valid_candidate in *. by rewrite Hs, He. Qed.

Lemma decides_answer `{ObjectPrototype, Collaborators} input entry block t a reply evs :
  assertValidA2APayload block = Ok tt -> asks block -> decides input entry block t a reply evs -> auto_answer block reply.
Proof.
  intros Hv Ha Hd. unfold decides in Hd. unfold auto_answer.
  destruct (action (final_decision input entry block)); try done.
  - destruct Hd as (_ & Hc & _). right. unfold reply_choice in Hc. destruct (block_type block) eqn:Et; [|exact Hc].
    destruct (proposal_candidates block Hv Ha Et) as (cand & l & El & Hl). apply Forall_cons in Hl as [Hcand Hl].
    unfold scheduleReplyPayload in Hc. cbn [negb] in Hc.
    assert (jtruthy (block_payload block) = true) as Hp by (by destruct (block_payload block)).
    rewrite Hp in Hc. unfold pickScheduleCandidate in Hc. rewrite jprop_defined in Hc by (by rewrite El).
    rewrite El in Hc. cbn [first_of mbind] in Hc.
    assert (match cand with JUndef => JNull | x => x end = cand) as Ec by (by destruct Hcand as (s & e & x & y & Es & _); destruct cand).
    cbn in Hc. rewrite Ec in Hc. rewrite (candidate_truthy cand Hcand) in Hc. injection Hc as <-.
    exists (cand :: l), cand, cand. split_and!; [done|by left|done|done|done].
  - left. by destruct Hd as (_ & -> & _).
  - right. destruct Hd as (_ & Et & l & free & ask & El & _ & _ & Hin & _ & _ & ->). rewrite Et.
    destruct (proposal_candidates block Hv Ha Et) as (cand & l' & El' & Hl). rewrite El in El'. injection El' as ->.
    rewrite Forall_forall in Hl. specialize (Hl free Hin).
    assert (same_times free (JObj [(js "start", jget free (js "start")); (js "end", jget free (js "end"))])) as Hsame by done.
    eexists _, free, _. split_and!; [done|done|exact Hsame|by eapply same_times_valid|done].
Qed.

Lemma answer_ok block reply : auto_answer block reply -> reply_ok (block_type block) reply.
Proof.
  intros [-> | Hr]; [by destruct (block_type block)|]. destruct (block_type block); [|by subst reply].
  destruct Hr as (l & cand & c & _ & _ & _ & Hc & ->). by exists c.
Qed.

Lemma answer_units block reply : auto_answer block reply ->
  optional_units (rp_reason reply) /\ rp_note reply = None /\ rp_result reply = None.
Proof.
  intros [-> | Hr].
  - split; [|done]. apply forallb_units. by vm_compute.
  - destruct (block_type block); [|by subst reply]. by destruct Hr as (l & cand & c & _ & _ & _ & _ & ->).
Qed.

(** What the sender of the proposal reads in the answer. *)
Definition auto_told (shown : Z -> jstr) (reply : A2ARespondPayload) (w : CardView) : Prop :=
  exists v, w = OutcomeCard v /\
  match rp_action reply, selected_candidate reply with
  | RDecline, _ =>
    o_badge v = say "a2a.declinedBadge" /\ o_said v = Some (say_with "a2a.declineReason" "reason" DEFAULT_DECLINE_REASON)
  | _, Some c =>
    exists label, candidate_shown shown c label /\ o_badge v = say "a2a.acceptedBadge" /\ o_said v = Some (say_with "a2a.acceptedAt" "time" label)
  | _, None => o_badge v = say "a2a.taskAcceptedBadge"
  end.

Lemma auto_tells shown block reply payload ab folder now card w :
  auto_answer block reply -> buildReplyPayload (block_type block) reply = Ok payload ->
  block_type ab = block_type block -> block_action ab = reply_action (rp_action reply) -> block_payload ab = payload ->
  tells shown ab folder now card w -> auto_told shown reply w.
Proof.
  intros Hr Eb Et Ea Epay T. unfold tells in T. rewrite Et, Ea, Epay in T. unfold auto_told.
  unfold buildReplyPayload, buildScheduleReplyPayload, buildTaskReplyPayload in Eb. destruct Hr as [-> | Hr].
  - destruct (block_type block); injection Eb as <-; destruct T as (v & -> & Hb & Hs); exists v; by split_and!.
  - destruct (block_type block).
    + destruct Hr as (l & cand & c & _ & _ & _ & Hc & ->). cbn [rp_action selected_candidate reply_action] in Eb, T |- *.
      destruct (copy_candidate_exact c Hc) as (c' & Ec & _ & Sc). rewrite Ec in Eb. injection Eb as <-.
      destruct T as (v & label & -> & Hb & Hs & Hl). exists v. split; [done|]. exists label. split_and!; [|done|done]. by eapply shown_same.
    + subst reply. injection Eb as <-. destruct T as (v & -> & Hb & _). by exists v.
Qed.

End told.

(** ** A run that is lost

    The effect is cleaned up when the messages, the contacts or the policy change.
    If that happens while the signing key is read, the run that was started asks
    for nothing, and the effect that replaces it finds it running and starts none:
    what was to be answered waits for the next change. *)
Lemma overtaken_run_lost `{Host, WebCrypto, Env, BrowserEnv, GcalAuth.Gis, ObjectPrototype} (i i' : AutoReplyRun.Inputs)
    (p : AutoReplyRun.Page) early late cancelled k c1 :
  AutoRun.running (AutoReplyRun.p_runs p) = false -> eligibleMessages (default [] (AutoReplyRun.in_messages i)) <> [] ->
  GcalAuth.in_browser_ (SigningKeyring.getSigningPrivateKey (AutoReplyRun.in_did i)) (AutoReplyRun.p_calendar p) = (Ok k, c1) ->
  let started := AutoRun.executor_effect true (AutoReplyRun.in_messages i) (AutoReplyRun.p_runs p) in
  let waiting := AutoReplyRun.PageOf (AutoReplyRun.p_calendar p) started (AutoReplyRun.p_cache p) (AutoReplyRun.p_asked p) in
  AutoReplyRun.effect true early late i' waiting = (Ok tt, waiting) /\
  exists p', AutoReplyRun.effect true true cancelled i p = (Ok tt, p') /\ AutoRun.running (AutoReplyRun.p_runs p') = false /\
    AutoReplyRun.p_asked p' = AutoReplyRun.p_asked p /\ AutoReplyRun.p_cache p' = AutoReplyRun.p_cache p.
Proof.
  intros Hrun Hel Hk started waiting.
  assert (started = AutoRun.RunsOf true (S (AutoRun.started (AutoReplyRun.p_runs p)))) as Es.
  { unfold started, AutoRun.executor_effect. by rewrite Hrun, hasEligible_exact, bool_decide_eq_false_2. }
  split.
  - unfold waiting. rewrite Es. unfold AutoReplyRun.effect. cbn. by rewrite Nat.eqb_refl.
  - unfold AutoReplyRun.effect. fold started. rewrite Es. cbn [AutoRun.started].
    destruct (Nat.eqb_spec (S (AutoRun.started (AutoReplyRun.p_runs p))) (AutoRun.started (AutoReplyRun.p_runs p))) as [|_]; [lia|].
    unfold AutoReplyRun.run. erewrite bind_ok by (unfold AutoReplyRun.in_calendar; cbn [AutoReplyRun.p_calendar]; rewrite Hk; reflexivity).
    by eexists.
Qed.

(** * Properties *)

Section delivered.
Context `{Host, WebCrypto, !WebCryptoLaws, Env, !EnvLaws, BrowserEnv, GcalAuth.Gis, ObjectPrototype}.
Import AutoReplyRun.

(** What was fetched is a proposal, sealed for a key of this browser. *)
Definition proposal_here (b : Browser) (did : jstr) (content : MessageContent) (summary : jstr) (block : A2AProtocolBlock) : Prop :=
  truthy_str did = true /\ mc_content_type content = Some A2A_CONTENT_TYPE /\ Forall unit_ok summary /\
  block_ok block /\ block_json_ok block /\ assertValidA2APayload block = Ok tt /\ asks block /\
  exists priv subj se, ring_holds b did priv /\
    sealed subj (json_stringify (message_to_val summary (Some block))) priv (mc_encrypted_content content) (mc_encrypted_key content) se.

(** Its sender is in the directory under [pdid], and this agent can sign. *)
Definition can_answer (b : Browser) (did proposer pdid : jstr) (ppriv signing : bytes) : Prop :=
  truthy_str pdid = true /\
  exists resolved b1 b2, WebApi.resolveRecipient WebApi.defaultApiClient proposer b = (Ok (JObj resolved), b1) /\
    jget (JObj resolved) (js "did") = JStr pdid /\ jget (JObj resolved) (js "encryption_public_key") = public_key_val ppriv /\
    SigningKeyring.getSigningPrivateKey did b1 = (Ok (Some (PrivateKey Ed25519 signing)), b2).

(** The executor's input for an agent whose signing key is here. *)
Definition input_of (i : Inputs) : ExecutorInput := RunInput (in_did i) true (in_policy i) (in_auto_reply i).

Lemma parsed_message summary block : Forall unit_ok summary -> block_ok block -> block_json_ok block ->
  parsed_block (json_stringify (message_to_val summary (Some block))) = Some block.
Proof.
  intros Hs Hb Hj. unfold parsed_block. rewrite (message_roundtrip summary (Some block)) by done. cbn. apply block_val_ok.
Qed.

Lemma opens_here b did content summary block : proposal_here b did content summary block ->
  Wiring.open_text (mc_encrypted_content content) (mc_encrypted_key content) did b
  = (Ok (json_stringify (message_to_val summary (Some block))), b).
Proof.
  intros (Hd & _ & Hs & _ & Hj & _ & _ & priv & subj & se & Hr & k & Hw & Ha & Hn & Hc & _).
  assert (text_ok (json_stringify (message_to_val summary (Some block)))) as Ht by (by apply json_text_ok, message_to_val_json).
  unfold Wiring.open_text, WebText.decryptEnvelopeText.
  by erewrite bind_ok by (eapply browser_opens; try done; by apply ring_get).
Qed.

(** The effect starts a run that comes to nothing else than the executor's. *)
Lemma effect_runs (i : Inputs) (p : Page) cancelled k c1 tok c2 :
  AutoRun.running (p_runs p) = false -> eligibleMessages (default [] (in_messages i)) <> [] ->
  GcalAuth.in_browser_ (SigningKeyring.getSigningPrivateKey (in_did i)) (p_calendar p) = (Ok (Some k), c1) ->
  GcalAuth.getCalendarToken c1 = (Ok tok, c2) ->
  let gcal := token_of tok in
  let _ := Wiring.collaborators gcal (in_contacts i) (GcalAuth.c_browser c2) in
  forall t, runAutoReplyExecutor (input_of i) (default [] (in_messages i)) [] = (Ok tt, t) ->
  exists p', effect true false cancelled i p = (Ok tt, p') /\ p_asked p' = t /\ AutoRun.running (p_runs p') = false /\
    p_cache p' = (if cancelled then [] else [Hooks.Invalidate Hooks.messages_prefix]) ++ p_cache p /\
    GcalAuth.c_browser (p_calendar p') = Wiring.browser_after gcal (GcalAuth.c_browser c2) t.
Proof.
  intros Hrun Hel Hk Ht gcal co t Et. unfold effect, AutoRun.executor_effect. rewrite Hrun, hasEligible_exact.
  rewrite bool_decide_eq_false_2 by done. cbn [negb orb AutoRun.started].
  destruct (Nat.eqb_spec (S (AutoRun.started (p_runs p))) (AutoRun.started (p_runs p))) as [|_]; [lia|].
  unfold run. erewrite bind_ok by (unfold in_calendar; cbn [p_calendar]; rewrite Hk; reflexivity).
  cbv iota. erewrite bind_ok by (unfold in_calendar; cbn [p_calendar]; rewrite Ht; reflexivity).
  erewrite bind_ok.
  2: { unfold execute. cbn [p_calendar p_runs p_cache]. rewrite bool_decide_eq_true_2 by done. fold gcal co (input_of i). rewrite Et. reflexivity. }
  destruct cancelled; by eexists.
Qed.

(** The step of an entry whose proposal is here; what is to be sent is asked for
    in the browser the reading left. *)
Lemma step_sends (gcal : option jstr) (contacts : list jstr) (b0 : Browser) (i : Inputs) entry t1 content b2 summary block a reply evs :
  let co := Wiring.collaborators gcal contacts b0 in
  let after := Wiring.browser_after gcal b0 in
  let t2 := XDecrypt (mc_encrypted_content content) (mc_encrypted_key content) (in_did i) :: XContent (m_id entry) :: t1 in
  let si := reply_input (input_of i) entry block reply in
  Wiring.fetch_content (m_id entry) (after t1) = (Ok content, b2) -> proposal_here b2 (in_did i) content summary block ->
  decides (H0:=co) (input_of i) entry block t2 a reply evs ->
  exists rest, process_entry (H0:=co) (input_of i) entry t1 = (Ok tt, rest ++ XSend si :: evs ++ t2) /\
    settled_by (H0:=co) entry a (XSend si :: evs ++ t2) ((Wiring.send si (after (evs ++ t2))).1, None) rest.
Proof.
  intros co after t2 si Hfetch Hhere Hdec. pose proof (opens_here _ _ _ _ _ Hhere) as Hopen. destruct Hhere as (Hd & Hct & Hsum & Hbo & Hbj & _).
  assert (((Wiring.fetch_content (m_id entry) ;; mret tt) (after t1)).2 = b2) as Eb by (by erewrite bind_ok by exact Hfetch).
  apply (process_sends (H0:=co) (input_of i) entry t1 content (json_stringify (message_to_val summary (Some block))) block a reply evs).
  - cbn. fold after. by rewrite Hfetch.
  - done.
  - change ((Wiring.open_text (mc_encrypted_content content) (mc_encrypted_key content) (in_did i)
               ((Wiring.fetch_content (m_id entry) ;; mret tt) (after t1)).2).1 = Ok (json_stringify (message_to_val summary (Some block)))).
    by rewrite Eb, Hopen.
  - by apply parsed_message.
  - exact Hdec.
Qed.

(** Sending came to [seedMessage], and recording follows it. *)
Lemma sent_settled (gcal : option jstr) (contacts : list jstr) (b0 : Browser) entry a si t m b3 rest :
  let after := Wiring.browser_after gcal b0 in
  Wiring.send si (after t) = Wiring.seed m b3 ->
  settled_by (H0:=Wiring.collaborators gcal contacts b0) entry a (XSend si :: t) ((Wiring.send si (after t)).1, None) rest ->
  let '(r, b4) := WebApi.seedMessage WebApi.defaultApiClient m b3 in
  after (XSend si :: t) = b4 /\
  match r with
  | Throw e => rest = [XProgress (Failed (m_id entry) e)]
  | Ok _ =>
    match (WebApi.markAutoReplySent WebApi.defaultApiClient (m_id entry) None b4).1 with
    | Throw e => rest = [XProgress (Failed (m_id entry) e); XMark (m_id entry) None]
    | Ok _ => rest = [XProgress (SentReply (m_id entry) a); XMark (m_id entry) None]
    end
  end.
Proof.
  intros after Es Hset. assert (after (XSend si :: t) = (Wiring.seed m b3).2) as Eaft by (by rewrite <- Es).
  unfold settled_by in Hset. rewrite Es in Hset.
  change (markAutoReplySent (XSend si :: t) (m_id entry) None) with ((Wiring.mark (m_id entry) None (after (XSend si :: t))).1) in Hset.
  rewrite Eaft in Hset |- *. revert Hset. unfold Wiring.seed, Wiring.mark, mbind, eff_bind. clear.
  destruct (WebApi.seedMessage WebApi.defaultApiClient m b3) as [[v|e] b4]; cbn; [|done].
  by destruct (WebApi.markAutoReplySent _ _ _ b4) as [[]].
Qed.

End delivered.


(** A server with one message, the sample proposal of CardViews.v sealed for the
    agent; its sender is in the directory. *)
Definition proposal_message : SendTextMessageInput :=
  TextMessage (JStr (js "did:key:zP")) (JStr (js "did:key:zV")) (public_key_val (replicate 32 7)) (replicate 32 6)
    (JStr (js "Planning")) (JStr (json_stringify (message_to_val (js "Shall we meet?") (Some sample_proposal)))) JUndef JUndef.

Definition proposal_content : MessageContent :=
  let _ := plain_host in let _ := quiet_env in
  match (Core.buildEncryptedTextEnvelope proposal_message empty_world).1 with
  | Ok e => Content (Some A2A_CONTENT_TYPE) (Envelope.encrypted_content e) (Envelope.encrypted_key e)
  | Throw _ => Content None [] []
  end.

Lemma proposal_sealed : exists se, mc_content_type proposal_content = Some A2A_CONTENT_TYPE /\
  sealed (js "Planning") (json_stringify (message_to_val (js "Shall we meet?") (Some sample_proposal))) (replicate 32 7)
    (mc_encrypted_content proposal_content) (mc_encrypted_key proposal_content) se.
Proof.
  unfold proposal_content. set (ho := plain_host). set (en := quiet_env).
  assert (Forall unit_ok (js "Planning") /\ Forall unit_ok (js "Shall we meet?")) as [U1 U2] by (split; apply forallb_units; by vm_compute).
  assert (block_json_ok sample_proposal) as Hb by (split_and!; [apply forallb_units; by vm_compute|done|by vm_compute]).
  destruct (build_text_envelope proposal_message (replicate 32 7) empty_world) as (x & w' & E & S & _);
    [reflexivity|exact U1|exact (proj1 (json_text_ok _ (message_to_val_json _ (Some _) U2 Hb)))|].
  rewrite E. eexists. split; [reflexivity|exact S].
Qed.

Definition proposal_body : jstr :=
  json_stringify (JObj [(js "encrypted_content", JStr (mc_encrypted_content proposal_content));
                        (js "encrypted_key", JStr (mc_encrypted_key proposal_content)); (js "content_type", JStr A2A_CONTENT_TYPE)]).

Definition proposal_env : Env :=
  answering_env
    (fun _ rq => Ok (HttpResponse 200 (if str_includes (rq_url rq) (js "/content") then proposal_body else json_stringify (JObj sample_directory))))
    (fun _ _ _ => Ok JUndef).

#[global] Instance proposal_laws : EnvLaws (H := proposal_env) := answering_laws _ _.

Definition silent_gis : GcalAuth.Gis :=
  {| GcalAuth.gis_load_error := fun _ => false; GcalAuth.gis_exposes := true;
     GcalAuth.gis_answer := fun _ _ => GcalAuth.Response [] 0 [] None |}.

Definition proposal_entry : MessageIndexEntry :=
  IndexEntry (js "m1") (js "did:key:zP") (Some (js "t1")) (js "normal") (num 1) (Some auto_accept) (Some (js "default_match")) None.

Definition accepting_agent : AutoReplyRun.Inputs :=
  AutoReplyRun.InputsOf (js "did:key:zV") true (policy accepting_input) [js "did:key:zP"] (Some [proposal_entry]).

Definition first_slot : jval :=
  JObj [(js "start", JStr (js "2026-05-04T10:00:00Z")); (js "end", JStr (js "2026-05-04T10:30:00Z"))].

