(* ===== verification/MailViews.v ===== *)
(** What the pages for mail show: the inbox of one agent
    (apps/web/app/agent/[did]/NexusInboxClient.tsx, over the state of
    AgentInbox.v) and the compose page (apps/web/app/compose/page.tsx, over those
    of Compose.v, ComposeHints.v and Llm.v), with the width of the agent inbox's
    list and the effect that asks for the first draft.

    A text of the interface is its key with its parameters; the colours are left
    out where a state stands for them. *)
From S2P Require Import Prelude Utf8 JsNumber Json JsDate A2A Effect Node Envelope ApiClient Browser WebKeystore WebApi Urls Views Llm Session Inbox Preview InboxView Compose ComposeHints AgentInbox Links.

Record Text := TextOf { t_key : jstr; t_params : list (jstr * jstr) }.
Definition text (k : string) : Text := TextOf (js k) [].
Definition keyed (prefix : string) (k : jstr) : Text := TextOf (js prefix ++ k) [].

(** A child of an element: a text of the interface, or one of the data. *)
Inductive Shown := Said (x : Text) | Data_ (s : jstr).

(** ** The inbox of an agent *)
Module AgentInboxView.
Import AgentList.

Record Agent := AgentOf { ag_did : jstr; ag_label : jstr; ag_unread_count : option Z }.

(** The agent switcher: its value and its options, unless there is one agent. *)
Definition option_label (a : Agent) : jstr :=
  let unread := default 0 (ag_unread_count a) in
  ag_label a ++ (if 0 <? unread then js " (" ++ dec_of_Z unread ++ js ")" else []).
Definition switcher (agents : list Agent) (did : jstr) : option (jstr * list (jstr * jstr)) :=
  if (1 <? length agents)%nat then Some (did, map (fun a => (ag_did a, option_label a)) agents) else None.

(** [agents.find((a) => a.did === did)]. *)
Definition currentAgent (agents : list Agent) (did : jstr) : option Agent := List.find (fun a => jeqb (ag_did a) did) agents.
Definition title (agents : list Agent) (did : jstr) : Shown :=
  match currentAgent agents did with Some a => Data_ (ag_label a) | None => Said (text "agentView.inboxTitle") end.
Definition activePath (did : jstr) : res jstr := enc ← encodeURIComponent did; Ok (js "/agent/" ++ enc).

(** The toolbar above the list. *)
Definition folder_options : list (jstr * Text) := map (fun f => (f, keyed "agentView.folder." f)) Address.VISIBLE_FOLDERS.
Definition status_options : list (jstr * Text) := [(js "all", text "agentView.status.all"); (js "unread", text "agentView.status.unread")].

Definition isFiltering (searchQuery : jstr) : bool := (0 <? length (trim searchQuery))%nat.

(** What the list asks the server for: the first fifty messages of the folder. *)
Definition messages_query (did : jstr) (a : Address.View) : WebApi.MessageListQuery :=
  WebApi.ListQuery did (Some (Address.status_name (Address.statusFilter a))) None (Some (Address.folder a)) None (Some (num 1)) (Some (num 50)).

(** What is said of the automatic reply. *)
Inductive Tone := Accepted | Declined | Neutral.
Inductive AutoBadge :=
| SentBadge (tooltip sentAt : Text)
| DecisionBadge (tooltip : option Text) (tone : Tone) (said : list Shown).

(** The lines of a row under its sender; [Unavailable]: its key is elsewhere. *)
Inductive RowBody :=
| Unavailable (badge subject preview : Text)
| Readable (subject preview : jstr) (badge : option AutoBadge).

Record RowView := RowViewOf { rv_id : jstr; rv_active : bool; rv_sender : jstr; rv_count : option nat; rv_time : jstr; rv_body : RowBody }.

Inductive ListPane :=
| NothingFound (said : Text)      (** with a button that clears the search *)
| NoThreads
| Rows (rows : list RowView).

Definition reason_text (reason : jstr) : Text := keyed "inbox.autoReply.reason." reason.

Section view.
Context `{Host, Locale, CaseMap}.
Variables (t : jstr -> jstr) (d : Data).

Definition keyKnownMissing (p : Page) (r : Row) : bool :=
  truthy_str (recipientDid r) && bool_decide (keyPresenceByDid p !! recipientDid r = Some false).

Definition present (o : option jstr) : option jstr := match o with Some ((_ :: _) as s) => Some s | _ => None end.

Definition auto_badge (r : Row) : option AutoBadge :=
  match present (autoReplySentAt r), present (autoReplyDecision r) with
  | Some sentAt, _ =>
    Some (SentBadge (text "inbox.autoReply.sentTooltip")
            (TextOf (js "inbox.autoReply.sentAt") [(js "time", Time.formatListTimestamp sentAt (locale d) (now d))]))
  | None, Some decision =>
    Some (DecisionBadge (reason_text <$> present (autoReplyReason r))
            (if jeqb decision (js "auto_accept") then Accepted else if jeqb decision (js "auto_decline") then Declined else Neutral)
            (Said (keyed "inbox.autoReply.decision." decision) ::
             match present (autoReplyReason r) with Some reason => [Data_ (js " · "); Said (reason_text reason)] | None => [] end))
  | None, None => None
  end.

Definition row_body (p : Page) (r : Row) : RowBody :=
  if keyKnownMissing p r
  then Unavailable (text "inbox.unavailableOnThisDeviceBadge") (text "inbox.unavailableOnThisDeviceSubject") (text "inbox.unavailableOnThisDevicePreview")
  else Readable (default (subject r) (subjectTextById p !! id r)) (preview r) (auto_badge r).

Definition row_view (p : Page) (r : Row) : RowView :=
  RowViewOf (id r) (match activeThread t d p with Some a => jeqb (id a) (id r) | None => false end) (sender r)
    (if (1 <? messageCount r)%nat then Some (messageCount r) else None) (time r) (row_body p r).

Definition hitCount (searchQuery : jstr) (p : Page) : option Text :=
  if isFiltering searchQuery
  then Some (TextOf (js "agentView.search.hits") [(js "count", dec_of_Z (Z.of_nat (length (filteredThreads t d searchQuery p))))])
  else None.

Definition list_pane (searchQuery : jstr) (p : Page) : ListPane :=
  match filteredThreads t d searchQuery p with
  | [] =>
    if isFiltering searchQuery then NothingFound (TextOf (js "agentView.search.empty") [(js "query", trim searchQuery)]) else NoThreads
  | l => Rows (map (row_view p) l)
  end.

(** The reader: the conversation of the open row, with its buttons. *)
Inductive Pane := Open (root : jstr) (actions : list Reader.Action) | NoBody.

Definition pane (p : Page) : Pane :=
  match activeThread t d p with
  | Some r =>
    Open (id r) ([Reader.Reply; Reader.AiDraftApprove; Reader.Forward]
                 ++ if truthy_str (senderDid r) && negb (Reader.knownContact d (senderDid r)) then [Reader.AddContact] else [])
  | None => NoBody
  end.

(** Where they lead. *)
Definition href (r : Row) (a : Reader.Action) : res jstr :=
  match a with
  | Reader.Reply => enc ← encodeURIComponent (id r); Ok (js "/compose?reply=" ++ enc)
  | Reader.AiDraftApprove => enc ← encodeURIComponent (id r); Ok (js "/compose?reply=" ++ enc ++ js "&ai=1")
  | Reader.Forward => enc ← encodeURIComponent (id r); Ok (js "/compose?forward=" ++ enc)
  | Reader.AddContact => enc ← encodeURIComponent (senderDid r); Ok (js "/contacts?add=" ++ enc)
  end.

(** The whole page; [failed]: the query for the messages, or marking one as read. *)
Record View := ViewOf {
  w_title : Shown; w_path : res jstr; w_switcher : option (jstr * list (jstr * jstr)); w_search : jstr; w_folder : jstr; w_status : jstr;
  w_hits : option Text; w_list : ListPane; w_reader : Pane; w_error : option Text
}.

Definition view (agents : list Agent) (did : jstr) (failed : bool) (a : Address.View) (p : Page) : View :=
  ViewOf (title agents did) (activePath did) (switcher agents did) (Address.searchQuery a) (Address.folder a)
    (Address.status_name (Address.statusFilter a)) (hitCount (Address.searchQuery a) p) (list_pane (Address.searchQuery a) p) (pane p)
    (if failed then Some (text "inbox.fetchError") else None).

End view.

(** The button that clears the search. *)
Definition clear (pathname : jstr) (a : Address.View) : Address.View := Address.on_search pathname [] a.

End AgentInboxView.

(** ** The width of its list

    [startResizeThread]: every press adds its own listeners until the button is
    released. *)
Module ThreadColumn.

Record Column := ColumnOf { threadWidth : Z; drags : list (Z * Z); resizing : bool }.
Definition mounted : Column := ColumnOf 380 [] false.

Definition press (clientX : Z) (c : Column) : Column := ColumnOf (threadWidth c) ((clientX, threadWidth c) :: drags c) true.

(** A pointer move reaches the listeners in the order they were added. *)
Definition move (clientX : Z) (c : Column) : Column :=
  ColumnOf (fold_right (fun d _ => Z.max 200 (Z.min 800 (d.2 + (clientX - d.1)))) (threadWidth c) (drags c)) (drags c) (resizing c).
Definition release (c : Column) : Column := match drags c with [] => c | _ => ColumnOf (threadWidth c) [] false end.

Inductive step : Column -> Column -> Prop :=
| pressed x c : step c (press x c)
| moved x c : step c (move x c)
| released c : step c (release c).

Inductive reachable : Column -> Prop :=
| at_mount : reachable mounted
| then_step c c' : reachable c -> step c c' -> reachable c'.

End ThreadColumn.

(** ** The compose page *)
Module ComposeView.
Import ComposeHints.

(** [n.toFixed(1)] of [bytes / unit], for a [unit] that is a power of two: the
    quotient is exact, and a tie goes up. *)
Definition tenths (bytes unit : Z) : Z := (20 * bytes + unit) / (2 * unit).
Definition to_fixed1 (bytes unit : Z) : jstr := dec_of_Z (tenths bytes unit / 10) ++ js "." ++ dec_of_Z (tenths bytes unit mod 10).
Definition formatBytes (bytes : Z) : jstr :=
  if bytes <? 1024 then dec_of_Z bytes ++ js " B"
  else if bytes <? 1024 * 1024 then to_fixed1 bytes 1024 ++ js " KB"
  else to_fixed1 bytes (1024 * 1024) ++ js " MB".

(** The subject the page starts with. *)
Definition initial_subject (mode : ComposeMode) : jstr := match mode with forward => js "Fwd: " | _ => [] end.

(** The effect that asks for the first draft: whether it was asked for, and
    whether this run asks. *)
Definition first_draft (o : Opening) (attempted bodyEdited loaded : bool) : bool * bool :=
  match op_mode o with
  | reply => if op_aiDraft o && negb attempted && negb bodyEdited && loaded then (true, true) else (attempted, false)
  | _ => (attempted, false)
  end.

Definition headerLabel (o : Opening) : Text :=
  match op_mode o with
  | reply => if op_aiDraft o then text "compose.aiDraftEdit" else text "compose.replyMessage"
  | forward => text "compose.forwardMessage"
  | new_message => text "compose.newMessage"
  end.

(** The id in the banner. *)
Definition context (o : Opening) : option jstr := match op_replyToId o with Some i => Some i | None => op_forwardFromId o end.

(** The status line: what a handler said, or why the form cannot be sent. *)
Definition pageStatus (status : option Status) (readiness : option jstr) : Status :=
  match status, readiness with
  | Some s, _ => s
  | None, Some m => StatusOf info m
  | None, None => StatusOf info (js "compose.infoE2E")
  end.

(** ** The draft's banner and its buttons *)

Definition tone_name (tone : option Draft.DraftTone) : jstr :=
  match tone with
  | None => js "default"
  | Some Draft.formal => js "formal" | Some Draft.casual => js "casual" | Some Draft.brief => js "brief" | Some Draft.detailed => js "detailed"
  end.
Definition tones : list (option Draft.DraftTone) := [None; Some Draft.formal; Some Draft.casual; Some Draft.brief; Some Draft.detailed].

Record Banner := BannerOf { bn_said : jstr; bn_tone : option Text; bn_warning : bool; bn_settings : bool }.

(** [None] while nothing happened; the tone is a parameter of the text. *)
Definition AIDraftBanner (status : DraftPage.DraftStatus) (error : option jstr) (tone : option Draft.DraftTone) : option Banner :=
  match status with
  | DraftPage.idle => None
  | DraftPage.no_key => Some (BannerOf (js "compose.aiDraftNoKey") None false true)
  | DraftPage.generating => Some (BannerOf (js "compose.aiDraftGenerating") None false false)
  | DraftPage.done_ =>
    Some match tone with
         | Some _ => BannerOf (js "compose.aiDraftDoneWithTone") (Some (keyed "compose.aiDraftTone." (tone_name tone))) true false
         | None => BannerOf (js "compose.aiDraftDone") None true false
         end
  | DraftPage.error =>
    Some (BannerOf (js "compose.aiDraftError." ++ match error with Some ((_ :: _) as e) => e | _ => js "api_error" end) None false false)
  end.

(** The buttons of the tones, each with its key and whether it is marked. *)
Record Toolbar := ToolbarOf { tb_tones : list (Text * bool); tb_disabled : bool; tb_editedHint : bool }.

Definition AIDraftToolbar (tone : option Draft.DraftTone) (busy bodyEdited : bool) : Toolbar :=
  ToolbarOf (map (fun x => (keyed "compose.aiDraftTone." (tone_name x), jeqb (tone_name x) (tone_name tone))) tones) busy bodyEdited.

Definition toolbar_shown (status : DraftPage.DraftStatus) : bool :=
  match status with DraftPage.done_ | DraftPage.generating | DraftPage.error => true | _ => false end.

Definition draft_view (o : Opening) (p : DraftPage.Page) : option (option Banner * option Toolbar) :=
  match op_mode o, op_aiDraft o with
  | reply, true =>
    Some (AIDraftBanner (DraftPage.draftStatus p) (DraftPage.draftError p) (DraftPage.draftTone p),
          if toolbar_shown (DraftPage.draftStatus p)
          then Some (AIDraftToolbar (DraftPage.draftTone p)
                       (match DraftPage.draftStatus p with DraftPage.generating => true | _ => false end) (DraftPage.bodyEdited p))
          else None)
  | _, _ => None
  end.

(** A press of a button of the toolbar: the tone it asks a draft for; [None] is
    the button that asks again. *)
Definition on_toolbar (picked : option (option Draft.DraftTone)) (confirmed : bool) (p : DraftPage.Page) : option (option Draft.DraftTone) :=
  if DraftPage.regenerates confirmed p then Some match picked with Some tone => tone | None => DraftPage.draftTone p end else None.

(** ** The form *)

Record Item := ItemOf { it_id : jstr; it_name : jstr; it_size : jstr; it_remove : Text }.
Definition item (a : AttachmentDraft) : Item :=
  ItemOf (d_id a) (d_name a) (formatBytes (d_size a)) (TextOf (js "compose.attachRemoveLabel") [(js "name", d_name a)]).

Definition recipient_hint (mode : option Mode) : option Text :=
  match mode with
  | Some signer_daemon => Some (text "compose.recipientModeDaemonIsolatedHint")
  | Some web_keystore => Some (text "compose.recipientModeStandardHint")
  | _ => None
  end.

Record View := ViewOf {
  v_header : Text; v_context : option jstr; v_senders : list (jstr * Shown); v_senderDisabled : bool; v_senderHelp : bool;
  v_recipients : list (jstr * jstr); v_hint : option Text; v_subject : jstr; v_draft : option (option Banner * option Toolbar); v_body : jstr;
  v_size : Text; v_items : list Item; v_status : Status; v_clearDisabled : bool; v_sendDisabled : bool; v_send : Text
}.

(** The sender's options; its placeholder is alone. *)
Definition sender_options (agents : list Compose.Agent) : list (jstr * Shown) :=
  match agents with
  | [] => [([], Said (text "compose.fromEmpty"))]
  | l => map (fun a => (Compose.ag_did a, Data_ (Compose.ag_label a ++ js " — " ++ Compose.ag_did a))) l
  end.

Definition view (o : Opening) (f : Form) (contacts : list Compose.Contact) (mode : option Mode) (attachments : list AttachmentDraft)
    (status : option Status) (readiness : option jstr) (draft : DraftPage.Page) (isPending : bool) : View :=
  ViewOf (headerLabel o) (context o) (sender_options (apiAgents f)) (bool_decide (length (apiAgents f) = 0%nat))
    (bool_decide (is_Some (selectedSender f))) (recipientOptions (apiAgents f) contacts) (recipient_hint mode) (Compose.subject f)
    (draft_view o draft) (f_body f)
    (TextOf (js "compose.attachSize") [(js "size", formatBytes (attachmentsTotalSize attachments)); (js "max", formatBytes MAX_ATTACHMENT_TOTAL_BYTES)])
    (map item attachments) (pageStatus status readiness) isPending (negb (canSubmit readiness isPending))
    (if isPending then text "compose.sending" else text "compose.sendBtn").

(** The button that clears the form. *)
Definition on_clear : PM unit :=
  fun p => (Ok tt, Compose.PageOf (p_browser p) [] None [] (p_intents p)).

End ComposeView.

(** * Lemmas *)

Section agent_inbox.
Context `{Host, Locale, CaseMap}.
Variables (t : jstr -> jstr) (d : Data).
Import AgentList AgentInboxView.

(** What the list of an agent's inbox shows.  A search that finds nothing says so
    and names what was searched for; otherwise there is a row for each thread that
    is found, in their order, as many as the toolbar counts. *)
Theorem agent_list_shows (searchQuery : jstr) (p : Page) :
  match list_pane t d searchQuery p with
  | NothingFound x => isFiltering searchQuery = true /\ filteredThreads t d searchQuery p = [] /\ t_params x = [(js "query", trim searchQuery)]
  | NoThreads => isFiltering searchQuery = false /\ threads t d p = []
  | AgentInboxView.Rows rows =>
    rows <> [] /\ map rv_id rows = map id (filteredThreads t d searchQuery p) /\
    forall x, hitCount t d searchQuery p = Some x -> t_params x = [(js "count", dec_of_Z (Z.of_nat (length rows)))]
  end.
Proof.
  unfold list_pane, hitCount. destruct (filteredThreads t d searchQuery p) as [|r l] eqn:E.
  - destruct (isFiltering searchQuery) eqn:Ef; [by split_and!|]. split; [done|].
    unfold filteredThreads in E. unfold isFiltering in Ef. by destruct (trim searchQuery).
  - split; [done|]. split; [by rewrite map_map|]. intros x. destruct (isFiltering searchQuery); [|done]. intros [= <-]. cbn. by rewrite length_map.
Qed.

(** A subject is decrypted when its message is opened, and searched only then:
    before any was, a search finds the senders alone. *)
Lemma unopened_subjects_not_found searchQuery p : subjectTextById p = ∅ -> isFiltering searchQuery = true ->
  filteredThreads t d searchQuery p = List.filter (fun r => str_includes (toLowerCase (sender r)) (toLowerCase (trim searchQuery))) (threads t d p).
Proof.
  intros Hs Hf. unfold filteredThreads, isFiltering in *. destruct (trim searchQuery); [done|]. cbn [truthy_str negb].
  apply filter_ext. intros r. by rewrite Hs, lookup_empty.
Qed.

(** Nothing of a message whose key is known to be elsewhere is shown, and only of
    such a message. *)
Lemma missing_key_hides p r : (exists x y z, row_body d p r = Unavailable x y z) <-> keyKnownMissing p r = true.
Proof. unfold row_body. destruct (keyKnownMissing p r); [split; [done|by eexists _, _, _]|]. split; [by intros (x & y & z & ?)|done]. Qed.

(** An automatic reply that was sent is shown as sent, whatever was decided. *)
Lemma sent_badge_first r s : autoReplySentAt r = Some s -> truthy_str s = true -> exists x y, auto_badge d r = Some (SentBadge x y).
Proof. unfold auto_badge. intros -> Hs. destruct s; [done|]. by eexists _, _. Qed.

(** Clearing the search brings the whole list back, and the address follows when
    its timer fires. *)
Lemma clear_shows_all pathname a p :
  let a' := clear pathname a in
  Address.searchQuery a' = [] /\ Address.folder a' = Address.folder a /\ filteredThreads t d (Address.searchQuery a') p = threads t d p /\
  hitCount t d (Address.searchQuery a') p = None /\ Address.urlSyncTimer a' <> None.
Proof. by split_and!. Qed.

(** The sender is offered as a contact unless it is one. *)
Lemma unknown_sender_offered p r actions : pane t d p = Open (id r) actions -> activeThread t d p = Some r ->
  (Reader.AddContact ∈ actions <-> truthy_str (senderDid r) = true /\ Reader.knownContact d (senderDid r) = false).
Proof.
  unfold pane. intros E Ea. rewrite Ea in E. injection E as <-.
  destruct (truthy_str (senderDid r)), (Reader.knownContact d (senderDid r)); cbn; rewrite ?elem_of_cons, ?elem_of_nil; naive_solver.
Qed.

End agent_inbox.

(** The buttons of its reader lead where those of the inbox lead. *)
Lemma agent_href_same (r : AgentList.Row) th a : AgentList.id r = Inbox.id th -> AgentList.senderDid r = Inbox.senderDid th ->
  AgentInboxView.href r a = Reader.href th a.
Proof. unfold AgentInboxView.href, Reader.href. intros -> ->. destruct a; [|done| |done]; destruct (encodeURIComponent _); cbn; by rewrite ?app_nil_r. Qed.

(** The width of the list stays where it was chosen to be. *)
Lemma column_bounded c : ThreadColumn.reachable c -> 200 <= ThreadColumn.threadWidth c <= 800.
Proof.
  induction 1 as [|c c' _ IH Hstep]; [cbn; lia|]. destruct Hstep as [x c|x c|c]; [done| |by destruct c as [w [|]]].
  destruct c as [w [|d l] r]; cbn [ThreadColumn.move ThreadColumn.threadWidth ThreadColumn.drags fold_right] in *; lia.
Qed.

(** ** The compose page *)

(** A size is shown to the nearest tenth of its unit. *)
Lemma tenths_nearest bytes unit : 0 < unit -> 0 <= bytes -> 2 * Z.abs (10 * bytes - unit * ComposeView.tenths bytes unit) <= unit.
Proof.
  intros Hu Hb. unfold ComposeView.tenths. pose proof (Z.div_mod (20 * bytes + unit) (2 * unit) ltac:(lia)) as E.
  pose proof (Z.mod_pos_bound (20 * bytes + unit) (2 * unit) ltac:(lia)). nia.
Qed.

Example sizes_shown :
  map ComposeView.formatBytes [0; 1023; 1024; 1536; 5242880; 26214400] = [js "0 B"; js "1023 B"; js "1.0 KB"; js "1.5 KB"; js "5.0 MB"; js "25.0 MB"].
Proof. by vm_compute. Qed.

(** Rounding can reach the next unit. *)
Example size_of_a_megabyte : ComposeView.formatBytes 1048575 = js "1024.0 KB".
Proof. by vm_compute. Qed.

(** The first draft is asked for once. *)
Lemma first_draft_once o attempted bodyEdited loaded :
  let '(attempted', asks) := ComposeView.first_draft o attempted bodyEdited loaded in
  (asks = true -> attempted = false /\ attempted' = true /\ op_mode o = reply /\ op_aiDraft o = true /\ bodyEdited = false) /\
  (attempted = true -> asks = false /\ attempted' = true).
Proof.
  unfold ComposeView.first_draft. destruct (op_mode o), (op_aiDraft o), attempted, bodyEdited, loaded; cbn; split; try done; intros; by split_and!.
Qed.

(** One tone is marked in the toolbar. *)
Lemma one_tone_marked tone busy bodyEdited :
  length (List.filter snd (ComposeView.tb_tones (ComposeView.AIDraftToolbar tone busy bodyEdited))) = 1%nat.
Proof. by destruct tone as [[]|]. Qed.

(** Typed text is not replaced by the toolbar without a confirmation. *)
Lemma edits_need_confirmation picked p : DraftPage.bodyEdited p = true -> ComposeView.on_toolbar picked false p = None.
Proof. unfold ComposeView.on_toolbar, DraftPage.regenerates. by intros ->. Qed.

(** A button that cannot send says why, unless a handler said something since; and
    an open button stands for a form that is ready. *)
Theorem send_button_explained o f contacts mode attachments status readiness draft isPending :
  let w := ComposeView.view o f contacts mode attachments status readiness draft isPending in
  (ComposeView.v_sendDisabled w = false <-> readiness = None /\ isPending = false) /\
  (ComposeView.v_sendDisabled w = true -> isPending = false -> status = None ->
   exists m, readiness = Some m /\ ComposeView.v_status w = StatusOf info m).
Proof.
  cbn. unfold ComposeHints.canSubmit. destruct readiness as [m|], isPending; cbn; split; try (split; [done|by intros [? ?]]); try done.
  - intros _ _ ->. by exists m.
Qed.

(** Clearing keeps what else was chosen and what the server was asked for. *)
Lemma clear_clears p : exists p', ComposeView.on_clear p = (Ok tt, p') /\ p_body p' = [] /\ p_attachments p' = [] /\ p_status p' = None /\
  p_browser p' = p_browser p.
Proof. by eexists. Qed.
