(* ===== verification/ShellViews.v ===== *)
(** What surrounds the mail: the frame of every page
    (apps/web/app/_components/AppShell.tsx over Shell.v), the first steps and the
    toolbar of the inbox (apps/web/app/page.tsx over Inbox.v), and from
    apps/web/app/_components/ConversationThread.tsx the restore button (over
    Conversation.v), the copy buttons and the attachments with their downloads
    (over AttachmentList.v).

    A text of the interface is its key with its parameters; icons and colours are
    left out. *)
From S2P Require Import Prelude Utf8 JsNumber Json JsDate A2A Effect Node Envelope ApiClient Browser WebKeystore WebEnvelope WebApi AttachmentList Bridge BridgeSpec Compose Urls Views Llm Session Inbox Preview Conversation Shell CardViews InboxView MailViews.

(** ** The frame *)
Module ShellView.
Import AppShell.

(** What a page hands to the frame. *)
Record Props := PropsOf { title : jstr; activePath : jstr; rightAction : bool; searchValue : option jstr; searchPlaceholder : option jstr }.

(** A section of the sidebar with its entries. *)
Record SectionView := SectionOf { sv_title : jstr; sv_items : list Rendered }.

Record View := ViewOf {
  v_documentTitle : jstr; v_drawerOpen : bool; v_backdrop : bool; v_sections : list SectionView; v_search : option jstr; v_placeholder : Shown;
  v_action : bool; v_tooltip : Shown; v_avatar : jstr
}.

Fixpoint all_ok {A B} (f : A -> res B) (l : list A) : res (list B) :=
  match l with [] => Ok [] | x :: r => y ← f x; ys ← all_ok f r; Ok (y :: ys) end.

Definition section_view (d : Data) (activePath : jstr) (s : MailboxSection) : res SectionView :=
  l ← all_ok (render_item d activePath) (items s); Ok (SectionOf (titleKey s) l).

(** [user?.display_name ?? user?.id ?? t("topbar.profile")]. *)
Definition avatarTooltip (d : Data) : Shown :=
  match display_name d, user_id d with
  | Some n, _ => Data_ n
  | None, Some i => Data_ i
  | None, None => Said (text "topbar.profile")
  end.

(** Where the fixed links lead: the brand, the pill and the icons of the bar. *)
Definition brand_href : jstr := js "/".
Definition compose_href : jstr := js "/compose".
Definition topbar_hrefs : list (jstr * jstr) :=
  [(js "topbar.help", js "/help"); (js "topbar.settings", js "/settings/agents"); (js "topbar.apps", js "/integrations");
   (js "topbar.profile", js "/settings/profile")].

(** What the frame asks the server to count: one message of a page of one, for
    its total. *)
Definition unread_query : WebApi.MessageListQuery :=
  WebApi.ListQuery (js "all") (Some (js "unread")) None (Some (js "inbox")) None (Some (num 1)) (Some (num 1)).
Definition pending_query : WebApi.MessageListQuery :=
  WebApi.ListQuery (js "all") None None (Some (js "pending_approval")) None (Some (num 1)) (Some (num 1)).

Definition view (upper : jstr -> jstr) (d : Data) (s : Drawer) (p : Props) : res View :=
  sections ← all_ok (section_view d (activePath p)) mailboxSections;
  Ok (ViewOf (document_title (title p)) (mobileNavOpen s) (mobileNavOpen s) sections (searchValue p)
        (match searchPlaceholder p with Some x => Data_ x | None => Said (text "topbar.searchPlaceholder") end)
        (rightAction p) (avatarTooltip d) (avatarLabel upper d)).

End ShellView.

(** ** The inbox before the first message, and its toolbar *)
Module InboxPage.

(** The steps of [WelcomeNoAgents]: each with its button, if it has one. *)
Record Step := StepOf { s_title : Text; s_desc : Text; s_button : option (Text * jstr) }.

Inductive Welcome :=
| NoAgents (title desc : Text) (steps : list Step)
| NoMessages (title desc : Text) (aid : jstr) (copyLabel : Text) (selfSend moreAgents : Text * res jstr).

Definition WelcomeNoAgents : Welcome :=
  NoAgents (text "inbox.welcomeTitle") (text "inbox.welcomeDesc")
    [StepOf (text "inbox.welcomeStep1Title") (text "inbox.welcomeStep1Desc") (Some (text "inbox.welcomeStep1Cta", Reader.createAgent_href));
     StepOf (text "inbox.welcomeStep2Title") (text "inbox.welcomeStep2Desc") None;
     StepOf (text "inbox.welcomeStep3Title") (text "inbox.welcomeStep3Desc") (Some (text "inbox.welcomeStep3Cta", Reader.openHelp_href))].

Definition WelcomeNoMessages (aid : jstr) (c : CopyButton.Copy) : Welcome :=
  NoMessages (text "inbox.noMessagesTitle") (text "inbox.noMessagesDesc") aid
    (if CopyButton.copied c then text "inbox.noMessagesCopied" else text "inbox.noMessagesCopyAid")
    (text "inbox.noMessagesSelfSend", Reader.selfSend_href aid) (text "inbox.noMessagesMoreAgents", Ok Reader.manageAgents_href).

Section page.
Context `{Host, Locale, CaseMap}.
Variables (t : jstr -> jstr) (d : Data).

Definition welcome (p : Page) (aids : option (list jstr)) (c : CopyButton.Copy) : option Welcome :=
  match Reader.pane t d p aids with
  | Reader.WelcomeNoAgents => Some WelcomeNoAgents
  | Reader.WelcomeNoMessages aid => Some (WelcomeNoMessages aid c)
  | _ => None
  end.

(** The toolbar: the box that selects every row, the buttons, how many rows are
    selected, the filters, and the pages. *)
Record Bar := BarOf {
  b_all : bool; b_buttons : list (Toolbar.Button * bool); b_selected : option Text; b_filters : list (FilterType * bool);
  b_pages : Text; b_total : Text; b_previous : bool; b_next : bool; b_refused : option Text
}.

Definition count_param (n : Z) : list (jstr * jstr) := [(js "count", dec_of_Z n)].

Definition same_filter (a b : FilterType) : bool := jeqb (filter_name a) (filter_name b).

Definition bar (w : Toolbar.Busy) (failed : bool) (p : Page) : Bar :=
  let n := Toolbar.selectedCount t d p in
  let '(pg, pages, total_) := Toolbar.pagination_label t d p in
  BarOf (allVisibleSelected t d p) (map (fun b => (b, negb (Toolbar.disabled t d p w b))) (Toolbar.buttons (viewKey p)))
    (if (0 <? n)%nat then Some (TextOf (js "inbox.selectedCount") (count_param (Z.of_nat n))) else None)
    (map (fun f => (f, same_filter f (filter_ p))) filterTabs)
    (TextOf (js "inbox.pageOf") [(js "page", dec_of_Z pg); (js "totalPages", dec_of_Z pages)])
    (TextOf (js "inbox.totalCount") (count_param total_)) (1 <? pg) (hasNextPage d p)
    (if failed then Some (text "inbox.fetchError") else None).

End page.

(** The back button of the reader on a narrow screen. *)
Definition back (p : Page) : Page := set_mobile false p.

End InboxPage.

(** ** In the conversation *)
Module CopyView.
Import CopyButton.

(** [OpenInRuntimeButton] and [CopyValueButton]: the label, and what a press hands
    to the clipboard. *)
Definition OpenInRuntimeButton (messageId recipient : jstr) (c : Copy) : Text * Text :=
  let '(key, params) := runtime_prompt messageId recipient in
  (if copied c then text "inbox.openInRuntimePromptCopied" else text "inbox.openInRuntimeAction", TextOf key params).
Definition CopyValueButton (value label copiedLabel : jstr) (c : Copy) : jstr * jstr := (if copied c then copiedLabel else label, value).

End CopyView.

Module RestoreView.
Import Thread.RestoreButton.

(** A line of the plaintext; an empty one keeps its height with a no-break space. *)
Definition line (l : jstr) : jstr := if truthy_str l then l else [160].

Record PlaintextView := PlainOf { pv_subject : option jstr; pv_lines : list jstr }.
Record View := ViewOf { v_label : Text; v_disabled : bool; v_clear : bool; v_error : option jstr; v_plaintext : option PlaintextView }.

(** [None]: there is no pairing for the message's agent. *)
Definition view (b : Button) : option View :=
  if visible b then
    Some (ViewOf
      (if busy b then text "inbox.bridgedRestoreBusy"
       else match plaintext b with Some _ => text "inbox.bridgedRestoreAgain" | None => text "inbox.bridgedRestoreAction" end)
      (busy b) (bool_decide (is_Some (plaintext b))) (match error b with Some e => if truthy_str e then Some e else None | None => None end)
      (match plaintext b with
       | Some (subject, body, _) => Some (PlainOf (if truthy_str subject then Some subject else None) (map line (split_on 10 body)))
       | None => None
       end))
  else None.

End RestoreView.

(** The attachments: one download is remembered at a time. *)
Module Chips.

Record Chips := ChipsOf { busyId : option jstr; statusById : gmap jstr jstr }.
Definition mounted : Chips := ChipsOf None ∅.

(** [handleDownload] around the download: what it does at once, and when its
    promise settled ([Some Downloaded] hands the file to the browser). *)
Definition starts (att : DecryptedAttachment) (c : Chips) : Chips :=
  match da_metadata att with
  | Some m => if jtruthy m then ChipsOf (Some (da_id att)) (<[da_id att := js "inbox.attachmentDownloading"]> (statusById c)) else c
  | None => c
  end.
Definition ends (att : DecryptedAttachment) (o : DownloadOutcome) (c : Chips) : Chips :=
  ChipsOf None
    match o with
    | Downloaded _ _ _ => delete (da_id att) (statusById c)
    | IntegrityFailed => <[da_id att := js "inbox.attachmentIntegrityFailed"]> (statusById c)
    | DecryptFailed => <[da_id att := js "inbox.attachmentDecryptFailed"]> (statusById c)
    end.

Inductive Chip :=
| Unreadable (said : jstr)
| File (name size : list jstr) (disabled : bool) (status : option jstr).

Section chips.
(** The size of a number that is not whole, or of another value. *)
Variable other_size : jval -> jstr.

Definition whole (v : jval) : option Z := match v with JNum (Fin q) => if (Qden q =? 1)%positive then Some (Qnum q) else None | _ => None end.
Definition size_text (v : jval) : jstr := match whole v with Some n => ComposeView.formatBytes n | None => other_size v end.

(** The metadata is JSON another client wrote: its name may not be a text. *)
Definition chip (c : Chips) (att : DecryptedAttachment) : res Chip :=
  match da_metadata att with
  | Some m =>
    if jtruthy m then
      name ← child (jget m (js "filename"));
      Ok (File name [size_text (jget m (js "plaintext_size_bytes"))] (bool_decide (busyId c = Some (da_id att))) (statusById c !! da_id att))
    else Ok (Unreadable (default (js "inbox.attachmentDecryptFailed") (da_error att)))
  | None => Ok (Unreadable (default (js "inbox.attachmentDecryptFailed") (da_error att)))
  end.

(** [None] until the list is there, and for a message without attachments. *)
Definition view (loaded : bool) (decrypted : list DecryptedAttachment) (c : Chips) : res (option (list Chip)) :=
  if negb loaded || match decrypted with [] => true | _ => false end then Ok None
  else l ← ShellView.all_ok (chip c) decrypted; Ok (Some l).

End chips.
End Chips.

(** * Lemmas *)

Lemma all_ok_map {A B} (f : A -> res B) l r : ShellView.all_ok f l = Ok r -> Forall2 (fun x y => f x = Ok y) l r.
Proof.
  revert r. induction l as [|x l IH]; intros r; cbn; [by intros [= <-]|]. destruct (f x) as [y|] eqn:E; [|done]. cbn.
  destruct (ShellView.all_ok f l) as [ys|]; [|done]. intros [= <-]. constructor; [done|]. by apply IH.
Qed.

Lemma all_ok_total {A B} (f : A -> res B) l : Forall (fun x => exists y, f x = Ok y) l -> exists r, ShellView.all_ok f l = Ok r.
Proof. induction 1 as [|x l [y E] _ [r IH]]; [by exists []|]. cbn. rewrite E. cbn. rewrite IH. by eexists. Qed.

(** The frame of a page shows: its sections are those of the sidebar, each with
    its entries in order, and exactly the entry of the page is highlighted.  Only
    an identifier that is no Unicode text keeps the frame from being shown. *)
Theorem frame_shows upper d s p : (forall did, AppShell.firstAgentDid d = Some did -> is_well_formed did = true) ->
  exists v, ShellView.view upper d s p = Ok v /\
    map ShellView.sv_title (ShellView.v_sections v) = map AppShell.titleKey AppShell.mailboxSections /\
    map (fun x => map AppShell.r_label (ShellView.sv_items x)) (ShellView.v_sections v)
      = map (fun x => map AppShell.labelKey (AppShell.items x)) AppShell.mailboxSections /\
    (forall x r, x ∈ ShellView.v_sections v -> r ∈ ShellView.sv_items x -> AppShell.r_active r = true ->
       exists i, AppShell.labelKey i = AppShell.r_label r /\ Some (AppShell.href i) = AppShell.activeHref (ShellView.activePath p)).
Proof.
  intros Hw. assert (exists a, AppShell.byAgentHref d = Ok a) as [a Ha].
  { unfold AppShell.byAgentHref. destruct (AppShell.firstAgentDid d) as [did|] eqn:E; [|by eexists].
    destruct did as [|c did]; [by eexists|]. unfold encodeURIComponent. rewrite (Hw _ eq_refl). by eexists. }
  assert (forall i, exists r, AppShell.render_item d (ShellView.activePath p) i = Ok r /\ AppShell.r_label r = AppShell.labelKey i /\
            (AppShell.r_active r = true -> Some (AppShell.href i) = AppShell.activeHref (ShellView.activePath p))) as Hi.
  { intros i. unfold AppShell.render_item. rewrite Ha. eexists. split; [reflexivity|]. split; [done|]. apply bool_decide_eq_true. }
  assert (forall x, exists y, ShellView.section_view d (ShellView.activePath p) x = Ok y) as Hs.
  { intros x. unfold ShellView.section_view. destruct (all_ok_total (AppShell.render_item d (ShellView.activePath p)) (AppShell.items x)) as [l El].
    - apply Forall_forall. intros i _. destruct (Hi i) as (r & E & _). by exists r.
    - rewrite El. by eexists. }
  destruct (all_ok_total (ShellView.section_view d (ShellView.activePath p)) AppShell.mailboxSections) as [l El].
  { apply Forall_forall. intros x _. apply Hs. }
  pose proof (all_ok_map _ _ _ El) as Hl.
  assert (Forall2 (fun x y => ShellView.sv_title y = AppShell.titleKey x /\
            Forall2 (fun i r => AppShell.render_item d (ShellView.activePath p) i = Ok r) (AppShell.items x) (ShellView.sv_items y))
            AppShell.mailboxSections l) as Hl2.
  { eapply Forall2_impl; [exact Hl|]. intros x y. unfold ShellView.section_view.
    destruct (ShellView.all_ok _ (AppShell.items x)) as [r|] eqn:E; [|done]. intros [= <-]. split; [done|by apply all_ok_map]. }
  unfold ShellView.view. rewrite El. eexists. split; [reflexivity|]. cbn [ShellView.v_sections]. clear El Hl.
  assert (forall xs ys, Forall2 (fun i r => AppShell.render_item d (ShellView.activePath p) i = Ok r) xs ys ->
            map AppShell.r_label ys = map AppShell.labelKey xs) as Hlab.
  { induction 1 as [|i r xs ys E _ IH]; [done|]. destruct (Hi i) as (r' & E' & L & _). rewrite E in E'. injection E' as <-. cbn. by rewrite L, IH. }
  split_and!.
  - induction Hl2 as [|x y xs ys [E _] _ IH]; [done|]. cbn. by rewrite E, IH.
  - induction Hl2 as [|x y xs ys [_ E] _ IH]; [done|]. cbn. by rewrite (Hlab _ _ E), IH.
  - intros y r Hy Hr Hact. destruct (list_elem_of_lookup_1 _ _ Hy) as [k Hk]. destruct (Forall2_lookup_r _ _ _ _ _ Hl2 Hk) as (x & _ & _ & Hf).
    destruct (list_elem_of_lookup_1 _ _ Hr) as [m Hm]. destruct (Forall2_lookup_r _ _ _ _ _ Hf Hm) as (i & _ & E).
    destruct (Hi i) as (r' & E' & L & A). rewrite E in E'. injection E' as <-. exists i. by split; [|apply A].
Qed.

(** A pair of buttons of the pages works where there is a page to go to. *)
Lemma bar_pages `{Host, Locale, CaseMap} t d w failed p : 1 <= page p <= totalPages d ->
  (InboxPage.b_previous (InboxPage.bar t d w failed p) = true <-> 2 <= page p) /\
  (InboxPage.b_next (InboxPage.bar t d w failed p) = true <-> page p + 1 <= totalPages d).
Proof. intros Hp. unfold InboxPage.bar. cbn. unfold hasNextPage. rewrite !Z.ltb_lt. lia. Qed.

(** One filter is marked. *)
Lemma one_filter_marked `{Host, Locale, CaseMap} t d w failed p :
  map fst (List.filter snd (InboxPage.b_filters (InboxPage.bar t d w failed p))) = [filter_ p].
Proof. cbn. by destruct (filter_ p). Qed.

(** No plaintext is shown without a pairing, or after it was cleared. *)
Lemma restored_text_hidden b : Thread.RestoreButton.visible b = false \/ Thread.RestoreButton.plaintext b = None ->
  forall v, RestoreView.view b = Some v -> RestoreView.v_plaintext v = None.
Proof. unfold RestoreView.view. intros Hb v. destruct (Thread.RestoreButton.visible b); [|done]. intros [= <-]. cbn. destruct Hb as [Hb|Hb]; [done|by rewrite Hb]. Qed.

(** ** The downloads *)

(** A download ends with its chip enabled, and says what failed. *)
Lemma download_ends att o c : let c' := Chips.ends att o c in
  Chips.busyId c' = None /\
  Chips.statusById c' !! da_id att = match o with
    | Downloaded _ _ _ => None
    | IntegrityFailed => Some (js "inbox.attachmentIntegrityFailed")
    | DecryptFailed => Some (js "inbox.attachmentDecryptFailed")
    end /\
  forall i, i <> da_id att -> Chips.statusById c' !! i = Chips.statusById c !! i.
Proof.
  split; [done|]. destruct o; cbn; rewrite ?lookup_delete_eq, ?lookup_insert_eq; (split; [done|]); intros i Hi.
  - by apply lookup_delete_ne.
  - by apply lookup_insert_ne.
  - by apply lookup_insert_ne.
Qed.

(** A second download enables the chip of the first, which is still under way. *)
Example second_download_frees_first :
  let att i := Decrypted (js i) (num 1) (Some (JObj [])) None in
  let c := Chips.starts (att "b") (Chips.starts (att "a") Chips.mounted) in
  Chips.busyId c = Some (js "b") /\ Chips.statusById c !! js "a" = Some (js "inbox.attachmentDownloading").
Proof. by vm_compute. Qed.
