(* ===== verification/Help.v ===== *)
(** The help page: apps/web/app/help/page.tsx.

    A visitor who is not signed in sees the basics in a shell of their own, and
    the tutorial's links lead through the login page; a user sees the advanced
    cards too.  [t] is the translation of a key; the samples of code are arguments,
    and the icons are left out. *)
From S2P Require Import Prelude Utf8 JsNumber Json A2A Effect Node Envelope ApiClient Urls WebGate Login PageViews.

(** ** Texts with emphasis *)

(** What [.] does not match in a regular expression. *)
Definition is_line_terminator (c : Z) : bool := (c =? 10) || (c =? 13) || (c =? 8232) || (c =? 8233).

(** The shortest text before the next two stars, of the rest [s] of a span. *)
Fixpoint span_end (s : jstr) : option jstr :=
  match s with
  | [] => None
  | c :: r =>
    if starts_with [42; 42] s then Some []
    else if is_line_terminator c then None else (fun b => c :: b) <$> span_end r
  end.

(** A match of [\*\*(.+?)\*\*] at the start of [s]: its group. *)
Definition bold_at (s : jstr) : option jstr :=
  match s with
  | a :: b :: c :: r =>
    if (a =? 42) && (b =? 42) && negb (is_line_terminator c) then (fun g => c :: g) <$> span_end r else None
  | _ => None
  end.

(** [text.split(...)]: the texts between the matches and their groups in turn.
    [skip] units of [s] belong to the last match. *)
Fixpoint split_bold (skip : nat) (acc s : jstr) {struct s} : list jstr :=
  match s with
  | [] => [acc]
  | c :: r =>
    match skip with
    | S k => split_bold k acc r
    | O =>
      match bold_at s with
      | Some b => acc :: b :: split_bold (3 + length b) [] r
      | None => split_bold 0 (acc ++ [c]) r
      end
    end
  end.

(** A part of a text and whether it is emphasised: those with odd index are. *)
Fixpoint emphasise (strong : bool) (parts : list jstr) : list (bool * jstr) :=
  match parts with [] => [] | p :: r => (strong, p) :: emphasise (negb strong) r end.
Definition RichText (text : jstr) : list (bool * jstr) := emphasise false (split_bold 0 [] text).

(** [s.split(sep)] for a separator of at least one unit. *)
Fixpoint split_text (sep : jstr) (skip : nat) (acc s : jstr) {struct s} : list jstr :=
  match s with
  | [] => [acc]
  | c :: r =>
    match skip with
    | S k => split_text sep k acc r
    | O => if starts_with sep s then acc :: split_text sep (length sep - 1) [] r else split_text sep 0 (acc ++ [c]) r
    end
  end.

(** [s.replace(/^\d+\.\s*/, nothing)]. *)
Definition unnumbered (s : jstr) : jstr :=
  match s with
  | c :: _ =>
    if is_digit c then
      match drop_while is_digit s with
      | d :: r => if d =? 46 then drop_while is_js_space r else s
      | [] => s
      end
    else s
  | [] => s
  end.

(** ** The page *)
Module HelpPage.

Record Step := StepOf { titleKey : jstr; bodyKey : jstr; href : option jstr; hrefLabelKey : option jstr }.
Definition step (n : string) (path : string) : Step :=
  StepOf (js "help.step" ++ js n ++ js "Title") (js "help.step" ++ js n ++ js "Body") (Some (js path))
    (Some (js "help.step" ++ js n ++ js "Link")).
Definition tutorialSteps : list Step :=
  [step "1" "/login"; step "2" "/settings/agents"; step "3" "/compose"; step "4" "/"; step "5" "/settings/profile"].

Record GlossaryItem := ItemOf { termKey : jstr; descriptionKey : jstr }.
Definition items (l : list (string * string)) : list GlossaryItem := map (fun p => ItemOf (js p.1) (js p.2)) l.
Definition blockGlossary : list GlossaryItem :=
  items [("help.l1Term", "help.l1Desc"); ("help.l2Term", "help.l2Desc"); ("help.l3Term", "help.l3Desc")]%string.
Definition conceptGlossary : list GlossaryItem :=
  items [("help.aidTerm", "help.aidDesc"); ("help.didTerm", "help.didDesc"); ("help.byosTerm", "help.byosDesc");
         ("help.trustTerm", "help.trustDesc"); ("help.zkTerm", "help.zkDesc"); ("help.purgeTerm", "help.purgeDesc")]%string.
Definition mcpSafetyItems : list GlossaryItem :=
  items [("help.mcpSafety1Term", "help.mcpSafety1Desc"); ("help.mcpSafety2Term", "help.mcpSafety2Desc");
         ("help.mcpSafety3Term", "help.mcpSafety3Desc"); ("help.mcpSafety4Term", "help.mcpSafety4Desc");
         ("help.mcpSafety5Term", "help.mcpSafety5Desc"); ("help.mcpSafety6Term", "help.mcpSafety6Desc")]%string.
Definition mcpFaqItems : list GlossaryItem :=
  items [("help.mcpFaqQ1", "help.mcpFaqA1"); ("help.mcpFaqQ2", "help.mcpFaqA2"); ("help.mcpFaqQ3", "help.mcpFaqA3")]%string.

Record CodeSample := SampleOf { s_titleKey : jstr; descKey : jstr; code : jstr }.

(** [sessionQuery.data?.authenticated === true]. *)
Definition isAuthenticated (data : option jval) : bool :=
  match data with Some v => match jget v (js "authenticated") with JBool b => b | _ => false end | None => false end.

Section view.
Variable t : jstr -> jstr.
Definition rich (key : string) : list (bool * jstr) := RichText (t (js key)).

(** A link of a step, with its label, and whether it bears the lock. *)
Record StepView := StepShown { n_ : nat; s_title : jstr; s_body : list (bool * jstr); s_link : option (jstr * jstr * bool) }.

Definition showLockBadge (authenticated : bool) (s : Step) : bool :=
  negb authenticated && negb (bool_decide (href s = Some (js "/login"))) && truthy_ostr (href s).

Definition targetHref (authenticated : bool) (s : Step) : res (option jstr) :=
  match href s with
  | Some h => if showLockBadge authenticated s then enc ← encodeURIComponent h; Ok (Some (js "/login?next=" ++ enc)) else Ok (Some h)
  | None => Ok None
  end.

Definition step_view (authenticated : bool) (i : nat) (s : Step) : res StepView :=
  target ← targetHref authenticated s;
  Ok (StepShown (S i) (unnumbered (t (titleKey s))) (RichText (t (bodyKey s)))
        (match target, hrefLabelKey s with
         | Some ((_ :: _) as u), Some ((_ :: _) as l) => Some (u, t l ++ js " →", showLockBadge authenticated s)
         | _, _ => None
         end)).

Fixpoint steps_from (authenticated : bool) (i : nat) (l : list Step) : res (list StepView) :=
  match l with
  | [] => Ok []
  | s :: r => v ← step_view authenticated i s; vs ← steps_from authenticated (S i) r; Ok (v :: vs)
  end.
Definition steps_view (authenticated : bool) : res (list StepView) := steps_from authenticated 0 tutorialSteps.

Definition GlossaryList (l : list GlossaryItem) : list (jstr * list (bool * jstr)) :=
  map (fun i => (t (termKey i), RichText (t (descriptionKey i)))) l.

(** What a card holds below its title and description. *)
Inductive Block :=
| Steps (l : list StepView)
| Paragraph (title : jstr) (text : list (bool * jstr)) (list_ : list (jstr * list (bool * jstr)))
| Terms (l : list (jstr * list (bool * jstr)))
| Notice                            (** the fixed sentence on the paths of the API *)
| Sample (title : jstr) (text : list (bool * jstr)) (code : option jstr).

Record Card := CardOf { testid : jstr; open : bool; c_title : jstr; c_text : list (bool * jstr); blocks : list Block }.

Definition card (id : string) (open : bool) (title text : string) (l : list Block) : Card :=
  CardOf (js id) open (t (js title)) (rich text) l.
Definition paragraph (title text : string) : Block := Paragraph (t (js title)) (rich text) [].
Definition summary (title text : string) : Block := Paragraph (t (js title)) [(true, t (js text))] [].

Definition basic_cards (steps : list StepView) : list Card :=
  [card "help-tutorial" true "help.tutorialTitle" "help.tutorialDesc" [Steps steps];
   card "help-modes" false "help.modesTitle" "help.modesDesc"
     [summary "help.modeAName" "help.modeASummary"; summary "help.modeBName" "help.modeBSummary"];
   card "help-mcp-samples" false "help.mcpSectionTitle" "help.mcpSectionDesc"
     [paragraph "help.mcpIntroTitle" "help.mcpIntroDesc";
      Paragraph (t (js "help.mcpSafetyTitle")) (rich "help.mcpSafetyIntro") (GlossaryList mcpSafetyItems);
      Paragraph (t (js "help.mcpFaqTitle")) [] (GlossaryList mcpFaqItems)];
   card "help-block-glossary" false "help.blockLevelsTitle" "help.blockLevelsDesc" [Terms (GlossaryList blockGlossary)];
   card "help-concept-glossary" false "help.glossaryTitle" "help.glossaryDesc" [Terms (GlossaryList conceptGlossary)]].

Variables mcpSteps codeSamples : list CodeSample.

Definition step_code (s : CodeSample) : option jstr :=
  let codeBlock := if jeqb (s_titleKey s) (js "help.mcpStep4Title") then t (js "help.mcpStep4Code") else code s in
  if truthy_str codeBlock then Some codeBlock else None.

Definition advanced_cards : list Card :=
  [card "help-modes-advanced" false "help.modesAdvancedTitle" "help.modesAdvancedDesc"
     [paragraph "help.modeAName" "help.modeADetail"; paragraph "help.modeBName" "help.modeBDetail";
      paragraph "help.daemonIsolatedMessageTitle" "help.daemonIsolatedMessageDetail";
      paragraph "help.bridgedRestoreTitle" "help.bridgedRestoreDetail"];
   card "help-mcp-setup" false "help.mcpSetupTitle" "help.mcpSetupDesc"
     (map (fun s => Sample (t (s_titleKey s)) (RichText (t (descKey s))) (step_code s)) mcpSteps);
   card "help-api-samples" false "help.apiSectionTitle" "help.apiSectionDesc"
     (Notice :: map (fun s => Sample (t (s_titleKey s)) (RichText (t (descKey s))) (Some (code s))) codeSamples)].

(** The card in their place: its title, its items, and its link with its label. *)
Record Locked := LockedOf { l_title : jstr; l_items : list jstr; l_link : jstr * jstr }.
Definition locked : Locked :=
  LockedOf (t (js "help.advancedLockedTitle")) (split_text (js " / ") 0 [] (t (js "help.advancedLockedItems")))
    (js "/login?next=/help", t (js "help.signInToView") ++ js " →").

(** The shell of a visitor: the brand's link, the language button with its label,
    the link to sign in, and the footer. *)
Inductive Locale_ := en | ja.
Definition toggleLocale (l : Locale_) : Locale_ := match l with en => ja | ja => en end.
Record PublicShell := PublicOf { p_brand : jstr; p_language : jstr * jstr; p_signin : jstr * jstr; p_footer : list (jstr * jstr) }.
Definition PublicHelpShell (l : Locale_) : PublicShell :=
  PublicOf (js "/concept") (match l with en => (js "JA", js "日本語に切り替え") | ja => (js "EN", js "Switch to English") end)
    (js "/login?next=/help", t (js "help.signInCta"))
    [(js "/concept", t (js "legal.conceptLink")); (js "/privacy", t (js "legal.privacyLink")); (js "/terms", t (js "legal.termsLink"))].

(** [inl]: the title and the path of [AppShell]. *)
Record View := ViewOf {
  v_frame : (jstr * jstr) + PublicShell; v_tag : option jstr; v_title : jstr; v_subtitle : jstr;
  v_intro : option (list (bool * jstr)); v_basics : jstr * list (bool * jstr) * list Card;
  v_advanced : jstr * list (bool * jstr) * (list Card + Locked)
}.

Definition view (data : option jval) (l : Locale_) : res View :=
  let auth := isAuthenticated data in
  steps ← steps_view auth;
  Ok (ViewOf (if auth then inl (t (js "help.title"), js "/help") else inr (PublicHelpShell l))
        (if auth then None else Some (t (js "help.publicIntroTag"))) (t (js "help.title")) (t (js "help.subtitle"))
        (if auth then None else Some (rich "help.publicIntroBody"))
        (t (js "help.basicsGroupTitle"), rich "help.basicsGroupDesc", basic_cards steps)
        (t (js "help.advancedGroupTitle"), rich (if auth then "help.advancedGroupDescAuth" else "help.advancedGroupDescPublic"),
         if auth then inl advanced_cards else inr locked)).

End view.
End HelpPage.

(** * Lemmas *)

(** ** Emphasis *)

(** The text the parts of [split_bold] come from. *)
Fixpoint unsplit (parts : list jstr) : jstr :=
  match parts with
  | p :: b :: r => p ++ [42; 42] ++ b ++ [42; 42] ++ unsplit r
  | p :: _ => p
  | [] => []
  end.

Lemma span_end_spec s : forall b, span_end s = Some b ->
  exists r, s = b ++ [42; 42] ++ r /\ Forall (fun c => is_line_terminator c = false) b.
Proof.
  induction s as [|c s IH]; intros b; [done|]. cbn [span_end]. destruct (starts_with [42; 42] (c :: s)) eqn:E.
  - intros [= <-]. apply starts_with_spec in E as [r E]. exists r. by split.
  - destruct (is_line_terminator c) eqn:Ec; [done|]. destruct (span_end s) as [b'|]; [|done]. intros [= <-].
    destruct (IH b' eq_refl) as (r & -> & Hb). exists r. split; [done|]. by constructor.
Qed.

Lemma bold_at_spec s b : bold_at s = Some b ->
  exists r, s = [42; 42] ++ b ++ [42; 42] ++ r /\ b <> [] /\ Forall (fun c => is_line_terminator c = false) b.
Proof.
  destruct s as [|x [|y [|c s]]]; try done. cbn [bold_at]. destruct ((x =? 42) && (y =? 42) && _) eqn:E; [|done].
  destruct (span_end s) as [g|] eqn:Es; [|done]. intros [= <-]. apply span_end_spec in Es as (r & -> & Hg).
  bool_to_prop. subst. exists r. split; [done|]. split; [done|]. by constructor.
Qed.

Lemma split_bold_rest s : forall k acc, (k <= length s)%nat -> unsplit (split_bold k acc s) = acc ++ drop k s.
Proof.
  induction s as [|c s IH]; intros k acc Hk; cbn [split_bold].
  - rewrite drop_nil. by rewrite app_nil_r.
  - destruct k as [|k]; [|apply IH; cbn in Hk; lia]. destruct (bold_at (c :: s)) as [b|] eqn:E.
    + apply bold_at_spec in E as (r & E & _). assert (s = [42] ++ b ++ [42; 42] ++ r) as Es by (by injection E).
      cbn [unsplit]. rewrite IH by (rewrite Es, !length_app; cbn; lia). f_equal. cbn [app drop]. rewrite E. cbn [app]. do 2 f_equal.
      f_equal. rewrite Es. change ([42] ++ b ++ [42; 42] ++ r) with (42 :: b ++ [42; 42] ++ r).
      replace (3 + length b)%nat with (S (length (b ++ [42; 42]))) by (rewrite length_app; cbn; lia).
      cbn [skipn]. by rewrite app_assoc, drop_app_length.
    + rewrite IH by lia. by rewrite <- app_assoc.
Qed.

(** Every other part is a match: not empty, and of one line. *)
Fixpoint parts_ok (parts : list jstr) : Prop :=
  match parts with
  | p :: b :: r => b <> [] /\ Forall (fun c => is_line_terminator c = false) b /\ parts_ok r
  | [p] => True
  | [] => False
  end.

Lemma split_bold_parts s : forall k acc, parts_ok (split_bold k acc s).
Proof.
  induction s as [|c s IH]; intros k acc; cbn [split_bold]; [done|]. destruct k as [|k]; [|apply IH].
  destruct (bold_at (c :: s)) as [b|] eqn:E; [|apply IH]. apply bold_at_spec in E as (r & _ & Hn & Hb).
  cbn [parts_ok]. split; [done|]. split; [done|]. apply IH.
Qed.

(** The emphasis loses nothing: with the stars put back around what is set in
    bold the text is what it was, and no bold span is empty or breaks a line. *)
Theorem emphasis_complete text :
  let parts := split_bold 0 [] text in
  unsplit parts = text /\ parts_ok parts /\ (RichText text).*2 = parts.
Proof.
  cbv zeta. split; [by rewrite split_bold_rest by lia|]. split; [apply split_bold_parts|]. unfold RichText.
  generalize false. induction (split_bold 0 [] text) as [|p r IH]; intros b; [done|]. cbn. by rewrite IH.
Qed.

Lemma split_bold_skip s : forall k acc, (k <= length s)%nat -> split_bold k acc s = split_bold 0 acc (drop k s).
Proof.
  induction s as [|c s IH]; intros k acc Hk; [by rewrite drop_nil|]. destruct k as [|k]; [done|]. cbn [split_bold drop]. cbn in Hk.
  apply IH. lia.
Qed.

Lemma split_bold_plain p : forall acc s, 42 ∉ p -> split_bold 0 acc (p ++ s) = split_bold 0 (acc ++ p) s.
Proof.
  induction p as [|c p IH]; intros acc s Hp; [by rewrite app_nil_r|]. apply not_elem_of_cons in Hp as [Hc Hp].
  cbn [app split_bold]. assert (bold_at (c :: p ++ s) = None) as ->.
  { cbn [bold_at]. destruct (p ++ s) as [|y [|z r]]; try done. by destruct (Z.eqb_spec c 42). }
  rewrite IH by done. by rewrite <- app_assoc.
Qed.

(** A span: some text of one line without stars. *)
Definition span_ok (b : jstr) : Prop := b <> [] /\ 42 ∉ b /\ Forall (fun c => is_line_terminator c = false) b.

Lemma span_end_found b r : 42 ∉ b -> Forall (fun c => is_line_terminator c = false) b -> span_end (b ++ [42; 42] ++ r) = Some b.
Proof.
  induction b as [|c b IH]; intros Hs Hl; [done|]. apply not_elem_of_cons in Hs as [Hc Hs]. apply Forall_cons in Hl as [Hcl Hl].
  cbn [app span_end]. assert (starts_with [42; 42] (c :: b ++ 42 :: 42 :: r) = false) as ->.
  { apply not_true_is_false. intros [x E]%starts_with_spec. by injection E as ->. }
  rewrite Hcl. cbn [app] in IH. by rewrite IH.
Qed.

Lemma split_bold_match acc c s b : bold_at (c :: s) = Some b -> split_bold 0 acc (c :: s) = acc :: b :: split_bold (3 + length b) [] s.
Proof. intros E. cbn [split_bold]. by rewrite E. Qed.

Lemma split_bold_span acc b r : span_ok b -> split_bold 0 acc ([42; 42] ++ b ++ [42; 42] ++ r) = acc :: b :: split_bold 0 [] r.
Proof.
  intros (Hn & Hs & Hl). destruct b as [|c b]; [done|]. apply not_elem_of_cons in Hs as [Hc Hs]. apply Forall_cons in Hl as [Hcl Hl].
  assert (bold_at ([42; 42] ++ (c :: b) ++ [42; 42] ++ r) = Some (c :: b)) as E.
  { change ([42; 42] ++ (c :: b) ++ [42; 42] ++ r) with (42 :: 42 :: c :: (b ++ [42; 42] ++ r)). cbn [bold_at].
    rewrite Hcl, span_end_found by done. done. }
  change ([42; 42] ++ (c :: b) ++ [42; 42] ++ r) with (42 :: (42 :: c :: b ++ [42; 42] ++ r)) in *. rewrite (split_bold_match _ _ _ _ E).
  do 2 f_equal. assert (42 :: c :: b ++ [42; 42] ++ r = (42 :: c :: b ++ [42; 42]) ++ r) as -> by (cbn [app]; by rewrite <- app_assoc).
  assert ((3 + length (c :: b))%nat = length (42 :: c :: b ++ [42; 42])) as -> by (cbn; rewrite length_app; cbn; lia).
  rewrite split_bold_skip by (rewrite length_app; lia). by rewrite drop_app_length.
Qed.

(** What is written with spans between plain texts is shown so. *)
Theorem emphasis_shown (l : list (jstr * jstr)) (tail : jstr) :
  Forall (fun pb => 42 ∉ pb.1 /\ span_ok pb.2) l -> 42 ∉ tail ->
  RichText (flat_map (fun pb => pb.1 ++ [42; 42] ++ pb.2 ++ [42; 42]) l ++ tail)
  = flat_map (fun pb => [(false, pb.1); (true, pb.2)]) l ++ [(false, tail)].
Proof.
  intros Hl Ht. unfold RichText. induction Hl as [|[p b] l [Hp Hb] Hl IH].
  - cbn [flat_map app]. rewrite <- (app_nil_r tail) at 1. by rewrite split_bold_plain.
  - cbn [flat_map fst snd]. rewrite <- !app_assoc, split_bold_plain, split_bold_span by done.
    cbn [app emphasise negb]. by rewrite <- IH.
Qed.

(** ** The links *)

Import HelpPage.

(** The lock is on the links the session gate would turn a visitor away from; they
    lead through the login page, which sends on to the page of the step.  Those of
    a user lead there directly.  What the shell of a visitor links to is public. *)
Theorem help_links_arrive (t : jstr -> jstr) (auth : bool) (s : Step) :
  In s tutorialSteps ->
  exists h u, href s = Some h /\ targetHref auth s = Ok (Some u) /\
    showLockBadge auth s = negb auth && negb (Middleware.isPublicPath h) /\
    (if showLockBadge auth s then next_of (location_search u) = h else u = h) /\
    (forall l x, In x (p_footer (PublicHelpShell t l)) -> Middleware.isPublicPath x.1 = true) /\
    next_of (location_search (locked t).(l_link).1) = js "/help" /\ Middleware.isPublicPath (js "/help") = true.
Proof.
  intros Hs. assert (forall l x, In x (p_footer (PublicHelpShell t l)) -> Middleware.isPublicPath x.1 = true) as Hf.
  { intros l x. cbn [PublicHelpShell p_footer In]. intros [<-|[<-|[<-|[]]]]; by vm_compute. }
  assert (next_of (location_search (locked t).(l_link).1) = js "/help") as Hl by by vm_compute.
  destruct auth; cbn [In tutorialSteps] in Hs; destruct Hs as [<-|[<-|[<-|[<-|[<-|[]]]]]];
    (eexists _, _; split; [reflexivity|]; split; [vm_compute; reflexivity|]; split; [by vm_compute|]; split; [by vm_compute|]; done).
Qed.

(** A visitor sees the cards of the basics that a user sees, up to the links of
    the tutorial, and none of the advanced ones. *)
Theorem help_basics_public (t : jstr -> jstr) mcp api data l :
  exists v, view t mcp api data l = Ok v /\
    map testid (v_basics v).2 = map js ["help-tutorial"; "help-modes"; "help-mcp-samples"; "help-block-glossary"; "help-concept-glossary"]%string /\
    (forall v', view t mcp api None l = Ok v' -> tail (v_basics v').2 = tail (v_basics v).2) /\
    (if isAuthenticated data then (v_advanced v).2 = inl (advanced_cards t mcp api) /\ v_tag v = None
     else (v_advanced v).2 = inr (locked t) /\ v_frame v = inr (PublicHelpShell t l)).
Proof.
  assert (forall auth i ss, Forall (fun s => In s tutorialSteps) ss -> exists vs, steps_from t auth i ss = Ok vs) as Hv.
  { intros auth i ss Hss. revert i. induction Hss as [|s ss Hs _ IH]; intros i; [by eexists|]. cbn [steps_from]. unfold step_view.
    destruct (help_links_arrive t auth s Hs) as (h & u & _ & -> & _). mred. destruct (IH (S i)) as [vs ->]. mred. by eexists. }
  assert (forall auth, exists vs, steps_view t auth = Ok vs) as Hall.
  { intros auth. apply Hv. by apply Forall_forall; intros s; rewrite list_elem_of_In. }
  unfold view. destruct (Hall (isAuthenticated data)) as [vs ->]. mred. eexists. split; [reflexivity|].
  cbn [v_basics v_advanced v_tag v_frame fst snd]. split; [done|]. split.
  - intros v'. destruct (Hall (isAuthenticated None)) as [vs' ->]. mred. by intros [= <-].
  - by destruct (isAuthenticated data).
Qed.

(** The links at the foot of the login page need no session. *)
Lemma login_links_public l : In l LoginView.foot_links -> Middleware.isPublicPath l.1 = true.
Proof. intros [<-|[<-|[<-|[<-|[]]]]]; by vm_compute. Qed.
