(* ===== verification/TsTypes.v ===== *)
(** TypeScript's types as data.

    [Ty] is the part of TypeScript the declarations of the program use, and
    [has_type] decides whether a value has a type, for values JSON denotes.  An
    object type is open, as TypeScript's are: a value may have further properties;
    [exact] forbids them, as the compiler forbids them in an object literal.  An
    optional property may be missing or [undefined]. *)
From S2P Require Import Prelude Utf8 JsNumber Json A2A.

Unset Elimination Schemes.
Inductive Ty :=
| TUnknown | TString | TNumber | TBoolean | TNull
| TLit (s : string)
| TNumLit (n : Z)
| TArray (t : Ty)
| TRecord (t : Ty)
| TObject (fields : list (string * bool * Ty))
| TUnion (l : list Ty).
Set Elimination Schemes.

Definition Ty_ind (P : Ty -> Prop) (Hunk : P TUnknown) (Hs : P TString) (Hn : P TNumber) (Hb : P TBoolean) (Hnull : P TNull)
  (Hl : forall s, P (TLit s)) (Hz : forall n, P (TNumLit n)) (Ha : forall t, P t -> P (TArray t)) (Hr : forall t, P t -> P (TRecord t))
  (Ho : forall fs, Forall (fun f => P f.2) fs -> P (TObject fs)) (Hu : forall l, Forall P l -> P (TUnion l)) : forall t, P t :=
  fix F (t : Ty) : P t :=
    match t with
    | TUnknown => Hunk | TString => Hs | TNumber => Hn | TBoolean => Hb | TNull => Hnull
    | TLit s => Hl s | TNumLit n => Hz n
    | TArray t => Ha t (F t)
    | TRecord t => Hr t (F t)
    | TObject fs => Ho fs ((fix G (fs : list (string * bool * Ty)) : Forall (fun f => P f.2) fs :=
                              match fs with [] => Forall_nil_2 _ | f :: r => Forall_cons_2 _ _ _ (F f.2) (G r) end) fs)
    | TUnion l => Hu l ((fix G (l : list Ty) : Forall P l :=
                           match l with [] => Forall_nil_2 _ | t :: r => Forall_cons_2 _ _ _ (F t) (G r) end) l)
    end.

Definition req (k : string) (t : Ty) : string * bool * Ty := (k, false, t).
Definition opt (k : string) (t : Ty) : string * bool * Ty := (k, true, t).
Definition TNever : Ty := TUnion [].
Definition texts (l : list string) : Ty := TUnion (map TLit l).
Definition or_null (t : Ty) : Ty := TUnion [t; TNull].

Definition is_number (v : jval) : bool := match v with JNum _ => true | _ => false end.
Definition is_boolean (v : jval) : bool := match v with JBool _ => true | _ => false end.

Definition known_key {A} (fs : list (string * bool * A)) (k : jstr) : bool := existsb (fun f => jeqb k (js f.1.1)) fs.

Fixpoint has_type (exact : bool) (t : Ty) (v : jval) {struct t} : bool :=
  match t with
  | TUnknown => true
  | TString => is_string v
  | TNumber => is_number v
  | TBoolean => is_boolean v
  | TNull => is_null v
  | TLit s => jis v (js s)
  | TNumLit n => match v with JNum m => num_eqb m (num n) | _ => false end
  | TArray t => match v with JArr l => forallb (has_type exact t) l | _ => false end
  | TRecord t => match v with JObj o => forallb (fun kv => has_type exact t kv.2) o | _ => false end
  | TObject fs =>
    match v with
    | JObj o =>
      forallb (fun f => match obj_get (js f.1.1) o with
                        | None => f.1.2
                        | Some x => (f.1.2 && is_undefined x) || has_type exact f.2 x
                        end) fs
      && (negb exact || forallb (fun kv => known_key fs kv.1) o)
    | _ => false
    end
  | TUnion l => existsb (fun t => has_type exact t v) l
  end.

(** * Lemmas *)

Lemma exact_open t : forall v, has_type true t v = true -> has_type false t v = true.
Proof.
  induction t as [| | | | | | |t IH|t IH|fs IH|l IH] using Ty_ind; intros v; cbn [has_type]; try done.
  - destruct v; try done. rewrite !forallb_forall. auto.
  - destruct v; try done. rewrite !forallb_forall. auto.
  - destruct v as [| | | | | |o]; try done. rewrite !andb_true_iff, !forallb_forall. intros [Hf _]. split; [|done].
    intros f Hin. specialize (Hf f Hin). destruct (obj_get _ o) as [x|]; [|done].
    apply orb_true_iff in Hf. apply orb_true_iff. destruct Hf as [Hf|Hf]; [by left|right].
    rewrite Forall_forall in IH. apply IH; [by apply list_elem_of_In|done].
  - rewrite !existsb_exists. intros (t & Hin & Ht). exists t. split; [done|].
    rewrite Forall_forall in IH. apply IH; [by apply list_elem_of_In|done].
Qed.

Lemma has_type_object e fs v : has_type e (TObject fs) v = true -> exists o, v = JObj o.
Proof. destruct v; try done. eauto. Qed.

(** The field of an object: of its type, or missing when it is optional. *)
Lemma typed_field e fs v k b t :
  has_type e (TObject fs) v = true -> In (k, b, t) fs ->
  has_type e t (jget v (js k)) = true \/ b = true /\ jget v (js k) = JUndef.
Proof.
  destruct v as [| | | | | |o]; try done. cbn [has_type]. rewrite andb_true_iff, forallb_forall. intros [Hf _] Hin.
  specialize (Hf _ Hin). cbn in Hf. unfold jget. cbn [jprop]. destruct (obj_get (js k) o) as [x|]; [|by right].
  apply orb_true_iff in Hf as [Hf|Hf]; [|by left]. apply andb_true_iff in Hf as [Hb Hx]. destruct x; try done. by right.
Qed.

Lemma typed_string v : is_string v = true -> exists s, v = JStr s.
Proof. destruct v; try done. eauto. Qed.
Lemma typed_number v : is_number v = true -> exists n, v = JNum n.
Proof. destruct v; try done. eauto. Qed.

(** A value of a union of literals is one of the texts. *)
Lemma typed_texts e l v : has_type e (texts l) v = true <-> exists s, In s l /\ v = JStr (js s).
Proof.
  unfold texts. cbn [has_type]. rewrite existsb_exists. split.
  - intros (t & Hin & Ht). apply in_map_iff in Hin as (s & <- & Hs). cbn [has_type] in Ht. destruct v; try done.
    cbn in Ht. apply jeqb_true in Ht as ->. eauto.
  - intros (s & Hs & ->). exists (TLit s). split; [by apply in_map|]. cbn. apply jeqb_refl.
Qed.

(** An array of the declared type maps to the texts of its elements. *)
Lemma typed_strings e v : has_type e (TArray TString) v = true -> exists l, v = JArr (map JStr l).
Proof.
  destruct v as [| | | | |l|]; try done. cbn [has_type]. induction l as [|x l IH]; [by exists []|]. cbn [forallb].
  rewrite andb_true_iff. intros [Hx Hl]. apply typed_string in Hx as [s ->]. destruct (IH Hl) as [r E]. injection E as ->.
  by exists (s :: r).
Qed.

(** Decides the comparisons of property names. *)
Ltac property_names :=
  repeat match goal with
  | |- context [jeqb (js ?a) (js ?b)] =>
    let r := eval vm_compute in (jeqb (js a) (js b)) in change (jeqb (js a) (js b)) with r
  end.

(** Reduces the type of an object whose properties are written out to the types
    of the properties. *)
Ltac object_step :=
  cbn [has_type forallb existsb obj_get fst snd req opt known_key negb orb andb app];
  unfold req, opt; cbn [obj_get fst snd]; property_names; cbn [negb orb andb fst snd is_string is_number is_boolean is_null is_undefined].
Ltac object_type := repeat (progress object_step).

Lemma strings_typed e l : has_type e (TArray TString) (JArr (map JStr l)) = true.
Proof. cbn [has_type]. apply forallb_forall. intros x Hin. by apply in_map_iff in Hin as (s & <- & _). Qed.
