(* ===== verification/CoreTypes.v ===== *)
(** The types of the core package: packages/core/src/a2a.ts and index.ts.

    The payloads of a protocol are declared as TypeScript types and checked by
    validators; the theorem says what a payload that passed them is known to be.
    [Payload] gives the type of each action's payload.  It is one type with the
    declared one but for the participants of a proposal, whose elements nothing
    checks. *)
From S2P Require Import Prelude Utf8 JsNumber Json A2A Effect Node Envelope ApiClient Gateway TsTypes.

(** ** a2a.ts *)
Module Payloads.

Definition Iso8601WithTimezone : Ty := TString.
Definition ScheduleCandidate : Ty := TObject [req "start" Iso8601WithTimezone; req "end" Iso8601WithTimezone].
Definition ScheduleProposePayload : Ty :=
  TObject [req "event_title" TString; req "candidates" (TArray ScheduleCandidate); req "required_participants" (TArray TString);
           opt "response_deadline" Iso8601WithTimezone].
Definition ScheduleAcceptPayload : Ty := TObject [req "selected_candidate" ScheduleCandidate].
Definition ScheduleDeclinePayload : Ty := TObject [opt "reason" TString].
Definition ScheduleCounterPayload : Ty := TObject [req "candidates" (TArray ScheduleCandidate); opt "reason" TString].
Definition ScheduleNegotiationPayload : Ty :=
  TUnion [ScheduleProposePayload; ScheduleAcceptPayload; ScheduleDeclinePayload; ScheduleCounterPayload].

Definition TaskPriority : Ty := texts ["high"; "normal"; "low"]%string.
Definition TaskDelegatePayload : Ty :=
  TObject [req "title" TString; opt "description" TString; opt "due_date" Iso8601WithTimezone; opt "priority" TaskPriority].
Definition TaskAcceptPayload : Ty := TObject [opt "note" TString].
Definition TaskDeclinePayload : Ty := TObject [opt "reason" TString].
Definition TaskCompletePayload : Ty := TObject [opt "result" TString].
Definition TaskDelegationPayload : Ty := TUnion [TaskDelegatePayload; TaskAcceptPayload; TaskDeclinePayload; TaskCompletePayload].

Definition A2AProtocolType : Ty := texts ["schedule_negotiation"; "task_delegation"]%string.
Definition A2AProtocolAction : Ty := texts ["propose"; "accept"; "decline"; "counter"; "delegate"; "complete"]%string.

(** The block and the message, over the type of the payload. *)
Definition block_with (payload : Ty) : Ty :=
  TObject [req "id" TString; req "type" A2AProtocolType; req "action" A2AProtocolAction; req "reply_to" (or_null TString);
           req "payload" payload].
Definition message_with (payload : Ty) : Ty := TObject [req "v" (TNumLit 1); req "body" TString; opt "protocol" (block_with payload)].
Definition A2AProtocolBlock : Ty := block_with (TUnion [ScheduleNegotiationPayload; TaskDelegationPayload]).
Definition A2AMessagePayload : Ty := message_with (TUnion [ScheduleNegotiationPayload; TaskDelegationPayload]).

(** A proposal as far as its validator looks. *)
Definition CheckedProposal : Ty :=
  TObject [req "event_title" TString; req "candidates" (TArray ScheduleCandidate); req "required_participants" (TArray TUnknown);
           opt "response_deadline" Iso8601WithTimezone].

(** The payload of an action; [TNever] where the protocol has no such action. *)
Definition Payload (t : A2A.A2AProtocolType) (a : A2A.A2AProtocolAction) : Ty :=
  match t, a with
  | schedule_negotiation, propose => CheckedProposal
  | schedule_negotiation, accept => ScheduleAcceptPayload
  | schedule_negotiation, decline => ScheduleDeclinePayload
  | schedule_negotiation, counter => ScheduleCounterPayload
  | task_delegation, delegate => TaskDelegatePayload
  | task_delegation, accept => TaskAcceptPayload
  | task_delegation, decline => TaskDeclinePayload
  | task_delegation, complete => TaskCompletePayload
  | _, _ => TNever
  end.

End Payloads.

(** ** index.ts *)
Module CoreApi.

Definition AgentKeyHolder : Ty := texts ["web_keystore"; "signer_daemon"; "unknown"]%string.
Definition RecipientResolution : Ty :=
  TObject [opt "input" TString; req "aid" TString; req "did" TString; opt "label" (or_null TString);
           opt "signing_public_key" TString; opt "encryption_public_key" TString; opt "key_holder" AgentKeyHolder].
Definition MessageIndexEntry : Ty :=
  TObject [req "id" TString; req "sender_did" TString; opt "sender_label" (or_null TString); req "recipient_did" TString;
           opt "recipient_label" (or_null TString); opt "thread_id" (or_null TString); req "subject_encrypted" TString;
           req "status" TString; req "priority" TString; opt "ai_category" (or_null TString); req "created_at" TString;
           req "trust_score" TNumber; req "folder" TString; req "starred" TBoolean].
Definition MessageListResponse : Ty :=
  TObject [req "messages" (TArray MessageIndexEntry); req "total" TNumber; req "page" TNumber; req "per_page" TNumber].
Definition MessageContentResponse : Ty :=
  TObject [req "encrypted_content" TString; req "encrypted_key" TString; req "nonce" TString; opt "sender_did" TString;
           opt "recipient_did" TString; opt "subject_encrypted" TString; opt "thread_id" (or_null TString)].
Definition SendMessageResponse : Ty := TObject [req "message_id" TString; req "status" TString].
Definition CreateAttachmentIntentResponse : Ty :=
  TObject [req "attachment_id" TString; req "upload_url" TString; req "upload_method" TString; req "upload_expires_at" TString;
           req "required_headers" (TRecord TString); req "max_ciphertext_size_bytes" TNumber].
Definition CompleteAttachmentResponse : Ty := TObject [req "attachment_id" TString; req "status" TString].
Definition AttachmentMetadataPlain : Ty :=
  TObject [req "filename" TString; req "mime" TString; req "plaintext_size_bytes" TNumber;
           req "cipher_algorithm" (TLit "aes-gcm-256"); req "cipher_nonce" TString; req "sha256_plaintext" TString;
           req "attachment_key_wraps" (TArray (TObject [req "recipient_did" TString; req "wrapped_key" TString]))].
Definition ActivateAgentCredentialResponse : Ty :=
  TObject [req "aid" TString; req "did" TString; req "credential_id" TString; req "status" TString].
Definition AgentCredentialSummary : Ty :=
  TObject [req "credential_id" TString; req "aid" TString; req "label" TString; req "status" TString;
           req "allowed_scopes" (TArray TString); opt "enrollment_secret" (or_null TString);
           opt "enrollment_expires_at" (or_null TString); req "created_at" TString; opt "activated_at" (or_null TString);
           opt "last_used_at" (or_null TString); opt "revoked_at" (or_null TString); req "key_holder" AgentKeyHolder].
Definition AgentAuthTokenResponse : Ty :=
  TObject [req "access_token" TString; req "refresh_token" TString; req "token_type" (texts ["Bearer"; "DPoP"]%string);
           req "expires_in" TNumber; req "scope" TString].
Definition GatewayWhoAmI : Ty := TObject [req "aid" TString; req "did" TString; opt "agent_ref" (or_null TString)].
Definition SendEnvelope : Ty :=
  TObject [req "encrypted_content" TString; req "encrypted_key" TString; req "nonce" TString; opt "signature" TString;
           req "metadata" (TObject [req "subject_encrypted" TString; opt "thread_id" (or_null TString); opt "content_type" TString;
                                    opt "has_attachments" TBoolean])].

End CoreApi.

(** * Lemmas *)

(** A property of an object that was read is there. *)
Lemma read_property o k s : jget (JObj o) (js k) = s -> s <> JUndef -> obj_get (js k) o = Some s.
Proof. unfold jget. cbn [jprop]. destruct (obj_get (js k) o); [by intros ->|by intros <- []]. Qed.

(** An optional property holds: it is missing, [undefined] or of its type. *)
Lemma optional_property o k t :
  (jget (JObj o) (js k) = JUndef \/ has_type false t (jget (JObj o) (js k)) = true) ->
  match obj_get (js k) o with None => true | Some x => is_undefined x || has_type false t x end = true.
Proof.
  unfold jget. cbn [jprop]. destruct (obj_get (js k) o) as [x|]; [|done]. intros [-> | ->]; [done|]. by rewrite orb_true_r.
Qed.

(** A string that was read has type [string], whatever its content. *)
Lemma typed_optional P o k t :
  (forall v, P v -> has_type false t v = true) -> optional P (jget (JObj o) (js k)) ->
  match obj_get (js k) o with None => true | Some x => is_undefined x || has_type false t x end = true.
Proof. intros HP [Hu|Hv]; apply optional_property; [by left|right; auto]. Qed.

Lemma typed_a_string v : a_string v -> has_type false TString v = true.
Proof. by intros [s ->]. Qed.
Lemma typed_upto n v : string_upto n v -> has_type false TString v = true.
Proof. by intros (s & -> & _). Qed.
Lemma typed_nonblank v : nonblank v -> has_type false TString v = true.
Proof. by intros (s & -> & _). Qed.

Section checked.
Context `{Host}.
Import Payloads.

Lemma typed_timestamp v : valid_timestamp v -> has_type false TString v = true.
Proof. by intros (s & a & -> & _). Qed.

Lemma typed_candidate c : valid_candidate c -> has_type false ScheduleCandidate c = true.
Proof.
  intros (s & e & a & b & Es & Ee & _). destruct c as [| | | | | |o]; try (by discriminate Es).
  apply read_property in Es, Ee; try done. unfold ScheduleCandidate. cbn [has_type forallb req fst snd negb orb andb].
  unfold req. cbn [fst snd]. by rewrite Es, Ee.
Qed.

Lemma typed_candidates v : valid_candidates v -> has_type false (TArray ScheduleCandidate) v = true.
Proof.
  intros (l & -> & _ & Hl). cbn [has_type]. apply forallb_forall. intros c Hin. apply typed_candidate.
  rewrite Forall_forall in Hl. by apply Hl, list_elem_of_In.
Qed.

Lemma typed_priority v : one_of [js "high"; js "normal"; js "low"] v -> has_type false TaskPriority v = true.
Proof.
  intros (s & -> & Hs). apply typed_texts. apply list_elem_of_In in Hs. cbn [In] in Hs.
  destruct Hs as [<-|[<-|[<-|[]]]]; eexists; (split; [|reflexivity]); cbn; tauto.
Qed.
End checked.

Section theorem.
Context `{Host}.
Import Payloads.

(** What the validators accept has the type of its action. *)
Lemma payload_typed t a o : valid_payload t a (JObj o) -> has_type false (Payload t a) (JObj o) = true.
Proof.
  destruct t, a; cbn [valid_payload Payload]; try done.
  - intros (Ht & Hc & (l & Hl) & Hd). destruct Ht as (s & Es & _). apply read_property in Es; [|done].
    apply typed_candidates in Hc. assert (obj_get (js "candidates") o = Some (jget (JObj o) (js "candidates"))) as Ec
      by (apply read_property; [done|by intros E; rewrite E in Hc]).
    apply read_property in Hl; [|done]. apply (typed_optional _ _ _ TString typed_timestamp) in Hd.
    unfold CheckedProposal. object_type. rewrite Es, Ec, Hl. unfold Iso8601WithTimezone. rewrite Hd.
    cbn [has_type is_string] in *. rewrite Hc. by rewrite (proj2 (forallb_forall _ l)).
  - intros Hc. apply typed_candidate in Hc.
    assert (obj_get (js "selected_candidate") o = Some (jget (JObj o) (js "selected_candidate"))) as Ec
      by (apply read_property; [done|by intros E; rewrite E in Hc]).
    unfold ScheduleAcceptPayload. object_type. by rewrite Ec, Hc.
  - intros Hr. apply (typed_optional _ _ _ TString typed_a_string) in Hr. unfold ScheduleDeclinePayload. object_type. cbn [has_type] in Hr. by rewrite Hr.
  - intros [Hc Hr]. apply typed_candidates in Hc. apply (typed_optional _ _ _ TString typed_a_string) in Hr.
    assert (obj_get (js "candidates") o = Some (jget (JObj o) (js "candidates"))) as Ec
      by (apply read_property; [done|by intros E; rewrite E in Hc]).
    unfold ScheduleCounterPayload. object_type. rewrite Ec. cbn [has_type] in *. by rewrite Hc, Hr.
  - intros Hn. apply (typed_optional _ _ _ TString (typed_upto 2000)) in Hn. unfold TaskAcceptPayload. object_type. cbn [has_type] in Hn. by rewrite Hn.
  - intros Hr. apply (typed_optional _ _ _ TString typed_a_string) in Hr. unfold TaskDeclinePayload. object_type. cbn [has_type] in Hr. by rewrite Hr.
  - intros (Ht & _ & Hd & Hdue & Hp). destruct Ht as (s & Es & _). apply read_property in Es; [|done].
    apply (typed_optional _ _ _ TString (typed_upto 4000)) in Hd. apply (typed_optional _ _ _ TString typed_timestamp) in Hdue.
    apply (typed_optional _ _ _ TaskPriority typed_priority) in Hp.
    unfold TaskDelegatePayload, Iso8601WithTimezone. object_type. rewrite Es. cbn [has_type is_string] in *. by rewrite Hd, Hdue, Hp.
  - intros Hr. apply (typed_optional _ _ _ TString (typed_upto 4000)) in Hr. unfold TaskCompletePayload. object_type. cbn [has_type] in Hr. by rewrite Hr.
Qed.

(** A property that was read with a type. *)
Lemma typed_property o k t :
  has_type false t (jget (JObj o) (js k)) = true -> jget (JObj o) (js k) <> JUndef ->
  match obj_get (js k) o with Some x => has_type false t x | None => false end = true.
Proof. intros Ht Hn. by rewrite (read_property o k _ eq_refl Hn). Qed.

(** What a block that was read as one is known to be, whatever its payload. *)
Lemma block_typed v b payload :
  block_of_val v = Some b -> block_payload b <> JUndef -> has_type false payload (block_payload b) = true ->
  has_type false (block_with payload) v = true.
Proof.
  unfold block_of_val. intros Hb Hn Hp.
  destruct (jget v (js "id")) as [| | | |i| |] eqn:Ei; try discriminate Hb. mred.
  destruct v as [| | | | | |o]; try (by discriminate Ei). unfold mbind, option_bind in Hb.
  destruct (type_of_val (jget (JObj o) (js "type"))) as [t|] eqn:Et; [|done].
  destruct (action_of_val (jget (JObj o) (js "action"))) as [a|] eqn:Ea; [|done].
  destruct (reply_to_of_val (jget (JObj o) (js "reply_to"))) as [r|] eqn:Er; [|done].
  injection Hb as <-. cbn [block_payload] in *.
  assert (has_type false A2AProtocolType (jget (JObj o) (js "type")) = true) as Tt.
  { destruct (jget (JObj o) (js "type")) as [| | | |s| |]; try done. apply typed_texts. unfold type_of_val in Et. cbn [jis] in Et. revert Et.
    repeat match goal with |- context [jeqb s ?l] => destruct (jeqb_spec s l) as [-> |]; [eexists; split; [|reflexivity]; cbn; tauto|] end.
    done. }
  assert (has_type false A2AProtocolAction (jget (JObj o) (js "action")) = true) as Ta.
  { destruct (jget (JObj o) (js "action")) as [| | | |s| |]; try done. apply typed_texts. unfold action_of_val in Ea. cbn [jis] in Ea. revert Ea.
    repeat match goal with |- context [jeqb s ?l] => destruct (jeqb_spec s l) as [-> |]; [eexists; split; [|reflexivity]; cbn; tauto|] end.
    done. }
  assert (has_type false (or_null TString) (jget (JObj o) (js "reply_to")) = true) as Tr
    by (destruct (jget (JObj o) (js "reply_to")); done).
  apply read_property in Ei; [|done].
  apply typed_property in Tt; [|intros E; by rewrite E in Et]. apply typed_property in Ta; [|intros E; by rewrite E in Ea].
  apply typed_property in Tr; [|intros E; by rewrite E in Er]. apply typed_property in Hp; [|done].
  unfold block_with. object_type. rewrite Ei. cbn [has_type existsb] in Tr.
  destruct (obj_get (js "type") o), (obj_get (js "action") o), (obj_get (js "reply_to") o), (obj_get (js "payload") o); try done.
  cbn [has_type existsb is_string]. by rewrite Tt, Ta, Tr, Hp.
Qed.

(** C39: The types of protocol messages are earned.  A block the parser returns has
    the declared fields around an object as its payload, and one the validators
    accept has the payload of its action, but for the participants of a proposal,
    whose elements nothing checks; an array may stand for a payload without
    required fields. *)
Theorem checked_block_typed raw ct v :
  protocol (parseA2APayload raw ct) = Some v ->
  has_type false (block_with TUnknown) v = true /\
  exists b, block_of_val v = Some b /\ action_of_type (block_type b) (block_action b) = true /\
    (assertValidA2APayload b = Ok tt ->
     has_type false (block_with (Payload (block_type b) (block_action b))) v = true \/ exists l, block_payload b = JArr l).
Proof.
  unfold parseA2APayload. destruct (isA2AContentType ct); cbn [negb]; [|done]. destruct (json_parse raw) as [x|e]; [|done].
  destruct (isA2AMessagePayload x); cbn [negb]; [|done]. cbn [protocol].
  destruct (isA2AProtocolBlock (jget x (js "protocol"))) eqn:Eg; [|by rewrite andb_false_r]. rewrite andb_true_r.
  destruct (jtruthy _); [|done]. intros [= <-]. apply block_guard_spec in Eg as (b & Eb & Hok). destruct Hok as (_ & Ha & Ho).
  split; [apply (block_typed _ b); try done; by destruct (block_payload b)|].
  exists b. split; [exact Eb|]. split; [exact Ha|]. rewrite payload_spec. intros Hv.
  destruct (block_payload b) as [| | | | |l|o] eqn:Ep; try done; [right; by exists l|left].
  apply (block_typed _ b); rewrite ?Ep; try done. by apply payload_typed.
Qed.

End theorem.

(** A proposal whose participants are a number passes every check. *)
Definition odd_proposal : A2A.A2AProtocolBlock :=
  ProtocolBlock (js "p1") schedule_negotiation propose None
    (JObj [(js "event_title", JStr (js "Sync"));
           (js "candidates", JArr [JObj [(js "start", JStr (js "2026-05-04T10:00:00Z")); (js "end", JStr (js "2026-05-04T10:30:00Z"))]]);
           (js "required_participants", JArr [JNum (num 7)])]).

Example checked_block_typed_witness :
  let _ := plain_host in
  let v := block_to_val odd_proposal in
  protocol (parseA2APayload (json_stringify (message_to_val (js "See you") (Some odd_proposal))) (Some A2A_CONTENT_TYPE)) = Some v /\
  assertValidA2APayload odd_proposal = Ok tt /\
  has_type false (Payloads.block_with (Payloads.Payload schedule_negotiation propose)) v = true /\
  has_type false Payloads.A2AProtocolBlock v = true /\ has_type false Payloads.ScheduleProposePayload (block_payload odd_proposal) = false.
Proof.
  intros ho v. assert (protocol (parseA2APayload (json_stringify (message_to_val (js "See you") (Some odd_proposal))) (Some A2A_CONTENT_TYPE)) = Some v) as E
    by (by vm_compute).
  assert (assertValidA2APayload odd_proposal = Ok tt) as Hv by (by vm_compute).
  split; [exact E|]. split; [exact Hv|]. split; [|split; [by vm_compute|by vm_compute]].
  destruct (checked_block_typed _ _ _ E) as (_ & b & Eb & _ & Hb).
  assert (block_of_val v = Some odd_proposal) as Eo by (by vm_compute). rewrite Eo in Eb. injection Eb as <-.
  destruct (Hb Hv) as [T|[l El]]; [exact T|by vm_compute in El].
Defined.

(** ** What the clients send *)

Lemma envelope_typed e :
  is_string (thread_id e) || is_null (thread_id e) || is_undefined (thread_id e) = true ->
  has_type true CoreApi.SendEnvelope (envelope_to_val e) = true.
Proof.
  intros Ht. unfold envelope_to_val, CoreApi.SendEnvelope. destruct (signature e) as [sig|]; cbn [app]; object_type; cbn [existsb has_type];
    destruct (thread_id e); try discriminate Ht; by vm_compute.
Qed.

Lemma metadata_typed name mime size nonce sha wraps :
  has_type true CoreApi.AttachmentMetadataPlain (ApiClient.attachment_metadata name mime size nonce sha wraps) = true.
Proof.
  assert (forall (l : list (jstr * jstr)),
    has_type true (TArray (TObject [req "recipient_did" TString; req "wrapped_key" TString]))
      (JArr (map (fun kv => JObj [(js "recipient_did", JStr kv.1); (js "wrapped_key", JStr kv.2)]) l)) = true) as Hw.
  { intros l. cbn [has_type]. apply forallb_forall. intros x Hin. by apply in_map_iff in Hin as (kv & <- & _). }
  specialize (Hw wraps). revert Hw. unfold ApiClient.attachment_metadata, CoreApi.AttachmentMetadataPlain. object_type. intros Hw. by rewrite Hw.
Qed.
