(* ===== verification/ApiTypes.v ===== *)
(** The types of the web client's API: apps/web/lib/api/types.ts.

    The server's answers reach the pages unchecked; the types say what the pages
    count on.  They are terms of the language of TsTypes.v.

    The theorems say that what the pages send has the declared type, with no
    property the type lacks, and that the readers of untyped values succeed on
    values of the declared type. *)
From S2P Require Import Prelude Utf8 JsNumber Json JsDate A2A Effect Node ApiClient Browser WebKeystore WebApi Llm Session Views AutoReply Envelope Compose AttachmentList Executor AutoReplyRun Inbox AgentInbox AgentSettings Contacts Conversation Settings Login PolicyEditor PageViews TsTypes.

Module Types.

Definition MessagePriority : Ty := texts ["high"; "normal"; "low"; "background"]%string.
Definition MessageStatus : Ty := texts ["unread"; "read"; "archived"]%string.
Definition folders : list string := ["inbox"; "sent"; "drafts"; "archive"; "spam"; "trash"; "pending_approval"]%string.
Definition MessageFolder : Ty := texts folders.
Definition MessageFolderQuery : Ty := TUnion [MessageFolder; TLit "starred"; TLit "all"].

(** *** Session *)

Definition AuthVerifyRequest : Ty := TObject [req "idkit_result" (TRecord TUnknown); req "action" TString].
Definition AuthSessionUser : Ty :=
  TObject [req "id" TString; req "display_name" (or_null TString); req "verification_level" TString; req "created_at" TString].
Definition AuthVerifyResponse : Ty :=
  TObject [req "user" (TObject [req "id" TString; req "display_name" (or_null TString); req "verification_level" TString;
                                req "created_at" TString])].
Definition AuthLogoutResponse : Ty := TObject [req "success" TBoolean].
Definition AuthSessionResponse : Ty := TObject [req "authenticated" TBoolean; opt "user" AuthSessionUser].
Definition UpdateProfileRequest : Ty := TObject [req "display_name" (or_null TString)].
Definition StatusResponse : Ty :=
  TObject [req "service" TString; req "version" TString; req "storage_backend" TString; req "database_configured" TBoolean;
           req "database_connected" TBoolean; req "auto_purge_enabled" TBoolean; req "websocket_enabled" TBoolean;
           req "world_id_verify_enabled" TBoolean].

(** *** Agents and credentials *)

Definition Agent : Ty :=
  TObject [req "id" TString; req "aid" TString; req "did" TString; req "label" TString; opt "public_key" TString;
           opt "encryption_key" TString; req "is_active" TBoolean; req "auto_reply" TBoolean; req "unread_count" TNumber;
           req "created_at" TString].
Definition AgentsResponse : Ty := TObject [req "agents" (TArray Agent)].
Definition CreateAgentRequest : Ty := TObject [req "label" TString; req "public_key" TString; req "encryption_key" TString].
Definition CreateAgentResponse : Ty := TObject [req "id" TString; req "aid" TString; req "did" TString].

Definition KeyHolder : Ty := texts ["web_keystore"; "signer_daemon"; "unknown"]%string.
Definition AgentCredential : Ty :=
  TObject [req "credential_id" TString; req "aid" TString; req "label" TString;
           req "status" (texts ["pending"; "active"; "revoked"; "compromised"]%string);
           req "allowed_scopes" (TArray TString); opt "enrollment_secret" (or_null TString);
           opt "enrollment_expires_at" (or_null TString); req "created_at" TString; opt "activated_at" (or_null TString);
           opt "last_used_at" (or_null TString); opt "revoked_at" (or_null TString); opt "key_holder" KeyHolder].
Definition AgentCredentialsResponse : Ty := TObject [req "credentials" (TArray AgentCredential)].
Definition CreateAgentCredentialRequest : Ty := TObject [req "agent_id" TString; req "label" TString; opt "scopes" (TArray TString)].
Definition RecipientResolutionResponse : Ty :=
  TObject [req "input" TString; req "aid" TString; req "did" TString; req "label" (or_null TString);
           req "signing_public_key" TString; req "encryption_public_key" TString; opt "key_holder" KeyHolder].
Definition AgentAuthTokenResponse : Ty :=
  TObject [req "access_token" TString; req "refresh_token" TString; req "token_type" (texts ["Bearer"; "DPoP"]%string);
           req "expires_in" TNumber; req "scope" TString].
Definition AgentAuthRefreshRequest : Ty := TObject [req "refresh_token" TString].
Definition UpdateAgentRequest : Ty := TObject [opt "label" TString; opt "auto_reply" TBoolean].
Definition UpdateAgentResponse : Ty := TObject [req "id" TString; req "label" TString; req "auto_reply" TBoolean].

(** *** Messages *)

Definition AutoReplyDecision : Ty :=
  texts ["queue_for_human"; "auto_accept"; "auto_decline"; "auto_accept_if_free"; "delegate_to_llm"]%string.
Definition MessageIndexEntry : Ty :=
  TObject [req "id" TString; req "sender_did" TString; req "sender_label" (or_null TString); req "recipient_did" TString;
           req "recipient_label" (or_null TString); req "thread_id" (or_null TString); req "subject_encrypted" TString;
           req "status" MessageStatus; req "priority" MessagePriority; req "ai_category" (or_null TString); req "created_at" TString;
           req "trust_score" TNumber; req "folder" MessageFolder; req "starred" TBoolean;
           opt "auto_reply_decision" AutoReplyDecision; opt "auto_reply_reason" TString; opt "auto_reply_sent_at" TString].
Definition MarkAutoReplySentRequest : Ty := TObject [opt "reply_message_id" TString].
Definition MarkAutoReplySentResponse : Ty := TObject [req "id" TString; req "auto_reply_sent_at" TString].
Definition UpdateMessageFlagsRequest : Ty := TObject [opt "folder" MessageFolder; opt "starred" TBoolean].
Definition UpdateMessageFlagsResponse : Ty := TObject [req "id" TString; req "folder" MessageFolder; req "starred" TBoolean].
Definition MessageListResponse : Ty :=
  TObject [req "messages" (TArray MessageIndexEntry); req "total" TNumber; req "page" TNumber; req "per_page" TNumber].
Definition MessageContentResponse : Ty :=
  TObject [req "encrypted_content" TString; req "encrypted_key" TString; req "nonce" TString; opt "sender_did" TString;
           opt "recipient_did" TString; opt "subject_encrypted" TString; opt "thread_id" (or_null TString);
           opt "content_type" (or_null TString)].
Definition MessageListQuery : Ty :=
  TObject [req "agentDid" TString; opt "status" (texts ["unread"; "read"; "all"]%string); opt "priority" MessagePriority;
           opt "folder" MessageFolderQuery; opt "threadId" TString; opt "page" TNumber; opt "perPage" TNumber].

(** *** Attachments *)

Definition CreateAttachmentIntentRequest : Ty :=
  TObject [opt "sender_did" TString; opt "draft_id" TString; req "ciphertext_size_bytes" TNumber].
Definition CreateAttachmentIntentResponse : Ty :=
  TObject [req "attachment_id" TString; req "upload_url" TString; req "upload_method" TString; req "upload_expires_at" TString;
           req "required_headers" (TRecord TString); req "max_ciphertext_size_bytes" TNumber].
Definition CompleteAttachmentResponse : Ty := TObject [req "attachment_id" TString; req "status" TString].
Definition MessageAttachmentSummary : Ty :=
  TObject [req "attachment_id" TString; req "metadata_encrypted" TString; req "metadata_nonce" TString;
           req "ciphertext_size_bytes" TNumber].
Definition ListMessageAttachmentsResponse : Ty := TObject [req "attachments" (TArray MessageAttachmentSummary)].
Definition AttachmentDownloadUrlResponse : Ty := TObject [req "download_url" TString; req "expires_at" TString].
Definition AttachmentMetadataPlain : Ty :=
  TObject [req "filename" TString; req "mime" TString; req "plaintext_size_bytes" TNumber;
           req "cipher_algorithm" (TLit "aes-gcm-256"); req "cipher_nonce" TString;
           req "attachment_key_wraps" (TArray (TObject [req "recipient_did" TString; req "wrapped_key" TString]));
           req "sha256_plaintext" TString].
Definition OutboundAttachmentRef : Ty :=
  TObject [req "attachment_id" TString; req "metadata_encrypted" TString; req "metadata_nonce" TString].

(** *** Blocks and contacts *)

Definition BlockLevel : Ty := texts ["l1_did"; "l2_identity"; "l3_stealth"]%string.
Definition BlockEntry : Ty :=
  TObject [req "id" TString; req "level" BlockLevel; req "target_did" (or_null TString); req "target_world_id" (or_null TString);
           req "created_at" TString].
Definition BlocksResponse : Ty := TObject [req "blocks" (TArray BlockEntry)].
Definition CreateBlockRequest : Ty := TObject [req "level" BlockLevel; opt "target_did" TString; opt "target_world_id" TString].
Definition CreateBlockResponse : Ty := TObject [req "id" TString].
Definition BlockFromMessageRequest : Ty := TObject [req "level" BlockLevel].
Definition BlockFromMessageResponse : Ty :=
  TObject [req "id" TString; req "level" BlockLevel; req "target_did" (or_null TString); req "target_world_id" (or_null TString)].
Definition ContactEntry : Ty :=
  TObject [req "id" TString; req "did" TString; req "person_name" TString; req "agent_label" (or_null TString);
           req "note" (or_null TString); req "created_at" TString; req "updated_at" TString].
Definition ContactsResponse : Ty := TObject [req "contacts" (TArray ContactEntry)].
Definition CreateContactRequest : Ty :=
  TObject [req "did" TString; req "person_name" TString; opt "agent_label" (or_null TString); opt "note" (or_null TString)].
Definition CreateContactResponse : Ty := TObject [req "id" TString].
Definition UpdateContactRequest : Ty :=
  TObject [opt "person_name" TString; opt "agent_label" (or_null TString); opt "note" (or_null TString)].

(** *** The audit log *)

Definition AuditLogEntry : Ty :=
  TObject [req "id" TString; req "credential_id" (or_null TString); req "aid" (or_null TString); req "event" TString;
           req "detail" (TRecord TUnknown); req "created_at" TString].
Definition AuditLogResponse : Ty := TObject [req "events" (TArray AuditLogEntry); req "total" TNumber].
Definition AuditLogQuery : Ty :=
  TObject [opt "credential_id" TString; opt "aid" TString; opt "event" TString; opt "event_prefix" TString; opt "limit" TNumber;
           opt "offset" TNumber].
Definition EmergencyShutdownResponse : Ty :=
  TObject [req "agent_id" TString; req "aid" TString; req "credentials_revoked" TNumber; req "tokens_revoked" TNumber].

(** *** Automatic replies *)

Definition AutoReplyAction : Ty :=
  texts ["queue_for_human"; "auto_accept"; "auto_decline"; "auto_accept_if_free"; "delegate_to_llm"]%string.
Definition AutoReplyPriorityValue : Ty := texts ["high"; "normal"; "low"; "background"]%string.
Definition AutoReplyConditions : Ty :=
  TObject [opt "min_trust_score" TNumber; opt "require_contact" TBoolean; opt "priority_at_most" AutoReplyPriorityValue;
           opt "sender_in_allowlist" (TArray TString)].
Definition AutoReplyProtocolAction : Ty :=
  TObject [req "action" AutoReplyAction; opt "conditions" AutoReplyConditions; opt "note_template" TString].
Definition AutoReplyPolicy : Ty :=
  TObject [req "v" (TNumLit 1); req "default_action" AutoReplyAction;
           opt "protocols" (TObject [opt "schedule_negotiation" (TObject [opt "propose" AutoReplyProtocolAction]);
                                     opt "task_delegation" (TObject [opt "delegate" AutoReplyProtocolAction])])].
Definition AutoReplyPolicyResponse : Ty :=
  TObject [req "agent_id" TString; req "schema_version" (TNumLit 1); req "revision" TNumber;
           req "policy" (TUnion [AutoReplyPolicy; TRecord TNever]); req "updated_at" (or_null TString)].
Definition PutAutoReplyPolicyRequest : Ty := TObject [req "policy" AutoReplyPolicy; opt "revision" TNumber].

End Types.

(** ** Drafts of a policy *)

(** An entry of the policy form whose fields have the types the form declares. *)
Definition typed_section (d : Editor.DraftProtocolAction) : bool :=
  has_type true Types.AutoReplyAction (Editor.act d) && is_boolean (Editor.require_contact d)
  && has_type true (TUnion [TLit EmptyString; Types.AutoReplyPriorityValue]) (Editor.priority_at_most d) && is_string (Editor.note_template d).
Definition typed_draft (d : Editor.Draft) : bool := typed_section (Editor.schedule_propose d) && typed_section (Editor.task_delegate d).

(** The minimum trust of an entry that is on is not a number. *)
Definition bad_trust (d : Editor.DraftProtocolAction) : bool :=
  Editor.enabled d && truthy_str (trim (Editor.min_trust_score d))
  && negb (num_is_finite (number_of_string (Editor.min_trust_score d))).

(** The choices of the form's priority control. *)
Definition edit_ok (e : PolicyForm.Edit) : bool :=
  match e with
  | PolicyForm.edit_schedule (PolicyForm.set_priority s) | PolicyForm.edit_task (PolicyForm.set_priority s) =>
    existsb (jeqb s) ([] :: Editor.PRIORITY_OPTIONS)
  | _ => true
  end.

(** ** The calls of the client *)

(** The bodies lib/api/client.ts sends, by method and path: [at_] is the path, or
    what precedes an id and what follows it.  The types are those of the client's
    parameters, or of the body it builds. *)
Record Endpoint := Call { c_method : string; at_ : string * option string; c_body : Ty }.

Module Client.
Definition StatusBody : Ty := TObject [req "status" (texts ["read"; "archived"]%string)].
Definition SeedBody : Ty :=
  TObject [req "sender_did" TString; req "recipient_did" TString;
           req "envelope" (TObject [req "encrypted_content" TString; req "encrypted_key" TString; req "nonce" TString;
                                    req "signature" TString; req "metadata" (TRecord TUnknown)]);
           opt "attachment_ids" (TArray TString); opt "attachments" (TArray Types.OutboundAttachmentRef)].

Definition calls : list Endpoint := [
  Call "POST" ("/agents", None) Types.CreateAgentRequest;
  Call "PATCH" ("/agents/", Some EmptyString) Types.UpdateAgentRequest;
  Call "POST" ("/agent-credentials", None) Types.CreateAgentCredentialRequest;
  Call "POST" ("/agent-auth/refresh", None) Types.AgentAuthRefreshRequest;
  Call "POST" ("/agents/", Some "/emergency-shutdown") (TObject []);
  Call "PUT" ("/agents/", Some "/auto-reply-policy") Types.PutAutoReplyPolicyRequest;
  Call "PATCH" ("/messages/", Some EmptyString) StatusBody;
  Call "PATCH" ("/messages/", Some "/flags") Types.UpdateMessageFlagsRequest;
  Call "PATCH" ("/messages/", Some "/auto-reply-sent") Types.MarkAutoReplySentRequest;
  Call "POST" ("/messages", None) SeedBody;
  Call "POST" ("/attachments/intents", None) Types.CreateAttachmentIntentRequest;
  Call "POST" ("/attachments/", Some "/complete") (TObject [req "ciphertext_size_bytes" TNumber]);
  Call "POST" ("/blocks", None) Types.CreateBlockRequest;
  Call "POST" ("/blocks/from-message/", Some EmptyString) Types.BlockFromMessageRequest;
  Call "POST" ("/contacts", None) Types.CreateContactRequest;
  Call "PATCH" ("/contacts/", Some EmptyString) Types.UpdateContactRequest;
  Call "POST" ("/auth/verify", None) Types.AuthVerifyRequest;
  Call "PATCH" ("/auth/session", None) Types.UpdateProfileRequest;
  Call "POST" ("/auth/logout", None) (TObject [])
]%string.
End Client.

(** A request that carries no body, or that the client declares, with a body of
    the declared type and no further property. *)
Definition call_url (base : jstr) (c : Endpoint) (eid : jstr) : jstr :=
  base ++ js (at_ c).1 ++ match (at_ c).2 with Some after => eid ++ js after | None => [] end.
Definition declared_call (base : jstr) (rq : Request) : Prop :=
  rq_body rq = NoBody \/
  exists c eid v, In c Client.calls /\ rq_method rq = js (c_method c) /\ rq_url rq = call_url base c eid /\
    rq_body rq = TextBody (json_stringify v) /\ has_type true (c_body c) v = true.

(** What a run adds to the trace, in a state that holds a browser. *)
Definition sent_declared `{Env} (e : Event) : Prop :=
  match e with EvFetch rq => declared_call WebApi.DEFAULT_BASE_URL rq | _ => True end.
Definition sends_declared `{Env} {S} (browser_of : S -> Browser) (s s' : S) : Prop :=
  exists evs, w_trace (b_node (browser_of s')) = evs ++ w_trace (b_node (browser_of s)) /\ Forall sent_declared evs.

(** A handler of a page whose tab is [tab_of] sends only what is declared. *)
Definition page_declares `{Env} {S A} (tab_of : S -> Tab) (m : eff S A) : Prop :=
  respects (sends_declared (fun s => t_browser (tab_of s))) m.

(** * Lemmas *)

(** A folder may be asked for wherever it may be stored. *)
Lemma folder_may_be_asked e v : has_type e Types.MessageFolder v = true -> has_type e Types.MessageFolderQuery v = true.
Proof. intros H. unfold Types.MessageFolderQuery. cbn [has_type existsb]. by rewrite H. Qed.

(** ** The policy form *)

Section policy.
Import Editor.

Lemma action_typed (a : AutoReplyAction) : has_type true Types.AutoReplyAction (action_val a) = true.
Proof. by destruct a. Qed.

(** A default action of the declared type is one of the form's choices. *)
Lemma policy_recognised e v :
  has_type e Types.AutoReplyPolicy v = true ->
  exists a, isAutoReplyPolicy v = Some a /\ jget v (js "default_action") = action_val a.
Proof.
  intros H. destruct (has_type_object _ _ _ H) as [o Ho]. unfold isAutoReplyPolicy.
  destruct (typed_field _ _ _ "v" false (TNumLit 1) H) as [Hv|[[=] _]]; [cbn; auto|].
  destruct (typed_field _ _ _ "default_action" false Types.AutoReplyAction H) as [Ha|[[=] _]]; [cbn; auto|].
  cbn [has_type] in Hv. rewrite Hv. replace (is_object v) with true by (by rewrite Ho). cbn [andb].
  apply typed_texts in Ha as (s & Hs & ->). cbn [In] in Hs.
  destruct Hs as [<-|[<-|[<-|[<-|[<-|[]]]]]]; eexists; by vm_compute.
Qed.

Lemma entry_draft_typed e a :
  has_type e Types.AutoReplyProtocolAction a = true \/ a = JUndef ->
  exists d, draftFromProtocolAction a = Ok d /\ typed_section d = true.
Proof.
  intros [H| ->]; [|by eexists]. destruct (has_type_object _ _ _ H) as [o Ho].
  unfold draftFromProtocolAction. assert (jtruthy a = true) as -> by by rewrite Ho. cbn [negb].
  destruct (typed_field _ _ _ "action" false Types.AutoReplyAction H) as [Ha|[[=] _]]; [cbn; auto|].
  pose proof (typed_field _ _ _ "note_template" true TString H ltac:(cbn; auto)) as Hn.
  assert (has_type e Types.AutoReplyConditions (jget a (js "conditions")) = true \/ jget a (js "conditions") = JUndef) as Hc
    by (destruct (typed_field _ _ _ "conditions" true Types.AutoReplyConditions H) as [Hc|[_ Hc]]; [cbn; auto|by left|by right]).
  set (c := jget a (js "conditions")) in *. clearbody c.
  assert (forall k t, In (opt k t) [opt "min_trust_score" TNumber; opt "require_contact" TBoolean;
                                    opt "priority_at_most" Types.AutoReplyPriorityValue; opt "sender_in_allowlist" (TArray TString)] ->
            has_type e t (jget c (js k)) = true \/ jget c (js k) = JUndef) as Hf.
  { intros k t Hin. destruct Hc as [Hc| ->]; [|by right].
    destruct (typed_field _ _ _ k true t Hc Hin) as [?|[_ ?]]; [by left|by right]. }
  assert (exists l, join_lines (jget c (js "sender_in_allowlist")) = Ok l) as [l ->].
  { destruct (Hf "sender_in_allowlist"%string (TArray TString)) as [Hl| ->]; [cbn; auto| |by eexists].
    apply typed_strings in Hl as [l ->]. by eexists. }
  mred. eexists. split; [done|]. unfold typed_section. cbn [act require_contact priority_at_most note_template].
  rewrite !andb_true_iff. repeat split.
  - apply typed_texts. apply typed_texts in Ha. exact Ha.
  - destruct (Hf "require_contact"%string TBoolean) as [Hb| ->]; [cbn; auto| |done]. by destruct (jget c (js "require_contact")).
  - destruct (Hf "priority_at_most"%string Types.AutoReplyPriorityValue) as [Hp| ->]; [cbn; auto| |done].
    apply typed_texts in Hp as (s & Hs & ->). cbn [nullish_or has_type existsb].
    assert (has_type true Types.AutoReplyPriorityValue (JStr (js s)) = true) as -> by (apply typed_texts; eauto).
    by rewrite orb_true_r.
  - destruct Hn as [Hn|[_ ->]]; [|done]. cbn [has_type] in Hn. by destruct (jget a (js "note_template")).
Qed.

(** What the server sends under its declared type, the form reads. *)
Lemma draft_typed e v :
  has_type e (TUnion [Types.AutoReplyPolicy; TRecord TNever]) v = true ->
  exists d, draftFromPolicy v = Ok d /\ typed_draft d = true.
Proof.
  cbn [has_type existsb]. rewrite orb_false_r, orb_true_iff. intros [H|H].
  - destruct (policy_recognised _ _ H) as (a & Ea & _). unfold draftFromPolicy. rewrite Ea.
    set (p := jget v (js "protocols")).
    assert (forall k k' b, In (opt k (TObject [opt k' Types.AutoReplyProtocolAction]))
              [opt "schedule_negotiation" (TObject [opt "propose" Types.AutoReplyProtocolAction]);
               opt "task_delegation" (TObject [opt "delegate" Types.AutoReplyProtocolAction])] -> b = true ->
              has_type e Types.AutoReplyProtocolAction (jget (jget p (js k)) (js k')) = true \/ jget (jget p (js k)) (js k') = JUndef) as Hk.
    { intros k k' b Hin _. destruct (typed_field _ _ _ "protocols" true _ H (or_intror (or_intror (or_introl eq_refl)))) as [Hp|[_ Hp]];
        fold p in Hp; [|rewrite Hp; by right].
      destruct (typed_field _ _ _ k true _ Hp Hin) as [Hs|[_ ->]]; [|by right].
      destruct (typed_field _ _ _ k' true _ Hs (or_introl eq_refl)) as [Hx|[_ Hx]]; [by left|by right]. }
    destruct (entry_draft_typed _ _ (Hk "schedule_negotiation"%string "propose"%string true ltac:(cbn; auto) eq_refl)) as (s & -> & Ts).
    destruct (entry_draft_typed _ _ (Hk "task_delegation"%string "delegate"%string true ltac:(cbn; auto) eq_refl)) as (t & -> & Tt).
    mred. eexists. split; [done|]. unfold typed_draft. cbn. by rewrite Ts, Tt.
  - destruct v as [| | | | | |[|[k x] o]]; try done. by eexists.
Qed.

Lemma edits_typed es : forall d, typed_draft d = true -> forallb edit_ok es = true ->
  typed_draft (fold_left (fun d e => PolicyForm.edit e d) es d) = true.
Proof.
  induction es as [|e es IH]; intros d Hd; [done|]. cbn [forallb fold_left]. rewrite andb_true_iff. intros [He Hes].
  apply IH; [|done]. unfold typed_draft in *. apply andb_true_iff in Hd as [Hs Ht].
  assert (forall f s, match f with PolicyForm.set_priority s => existsb (jeqb s) ([] :: PRIORITY_OPTIONS) | _ => true end = true ->
                      typed_section s = true -> typed_section (PolicyForm.edit_field f s) = true) as Hf.
  { intros f s Hok T. unfold typed_section in *. rewrite !andb_true_iff in *. destruct T as [[[Ta Tc] Tp] Tn].
    destruct f; cbn [PolicyForm.edit_field act require_contact priority_at_most note_template]; try done.
    - by rewrite action_typed.
    - repeat split; try done. apply existsb_exists in Hok as (x & Hin & Hx). apply jeqb_true in Hx as ->.
      cbn [In PRIORITY_OPTIONS] in Hin. destruct Hin as [<-|[<-|[<-|[<-|[<-|[]]]]]]; done. }
  destruct e as [a|f|f]; cbn [PolicyForm.edit schedule_propose task_delegate].
  - by rewrite Hs, Ht.
  - rewrite (Hf f); [done| |done]. by destruct f.
  - rewrite (Hf f _ ltac:(by destruct f) Ht). by rewrite Hs.
Qed.

End policy.

(** ** What is sent *)

Section saved.
Import Editor.

Definition property (k : string) (v : option jval) : list (jstr * jval) := match v with Some v => [(js k, v)] | None => [] end.

Lemma object_of_conditions trust contact priority allow :
  (forall v, trust = Some v -> has_type true TNumber v = true) ->
  (forall v, contact = Some v -> has_type true TBoolean v = true) ->
  (forall v, priority = Some v -> has_type true Types.AutoReplyPriorityValue v = true) ->
  (forall v, allow = Some v -> has_type true (TArray TString) v = true) ->
  has_type true Types.AutoReplyConditions
    (JObj (property "min_trust_score" trust ++ property "require_contact" contact
           ++ property "priority_at_most" priority ++ property "sender_in_allowlist" allow)) = true.
Proof.
  intros Ht Hc Hp Ha. unfold Types.AutoReplyConditions.
  assert (forall t o, (forall v, o = Some v -> has_type true t v = true) -> match o with Some v => has_type true t v = true | None => True end) as Hall
    by (intros t [v|] H; auto).
  apply Hall in Ht, Hc, Hp, Ha. clear Hall.
  destruct trust as [t|], contact as [c|], priority as [p|], allow as [a|]; cbn [property app]; object_type;
    cbn [has_type] in Ht, Hc, Ha; try rewrite Ht; try rewrite Hc; try rewrite Hp; try rewrite Ha;
    by rewrite ?orb_true_r.
Qed.

(** The conditions of an entry, as the object that is sent. *)
Lemma conditions_typed d :
  typed_section d = true ->
  if truthy_str (trim (min_trust_score d)) && negb (num_is_finite (number_of_string (min_trust_score d)))
  then exists e, conditions_of d = Throw e
  else exists l, conditions_of d = Ok l /\ has_type true Types.AutoReplyConditions (JObj l) = true.
Proof.
  intros T. unfold typed_section in T. rewrite !andb_true_iff in T. destruct T as [[[_ Tc] Tp] _].
  assert (exists contact, (if jtruthy (require_contact d) then [(js "require_contact", JBool true)] else []) = property "require_contact" contact
                          /\ forall v, contact = Some v -> has_type true TBoolean v = true) as (contact & Ec & Hc).
  { destruct (jtruthy (require_contact d)); [exists (Some (JBool true))|exists None]; split; try done. by intros v [= <-]. }
  assert (exists priority, (if jtruthy (priority_at_most d) then [(js "priority_at_most", priority_at_most d)] else [])
                             = property "priority_at_most" priority
                          /\ forall v, priority = Some v -> has_type true Types.AutoReplyPriorityValue v = true) as (priority & Ep & Hp).
  { cbn [has_type existsb] in Tp. rewrite orb_false_r in Tp. apply orb_true_iff in Tp as [Tp|Tp].
    - destruct (priority_at_most d); try done. cbn in Tp. apply jeqb_true in Tp as ->. exists None. done.
    - destruct (jtruthy (priority_at_most d)); [exists (Some (priority_at_most d))|exists None]; split; try done. by intros v [= <-]. }
  set (lines := allowlist_lines (sender_in_allowlist d)).
  assert (exists allow, (if bool_decide (lines = []) then [] else [(js "sender_in_allowlist", JArr (map JStr lines))])
                             = property "sender_in_allowlist" allow
                          /\ forall v, allow = Some v -> has_type true (TArray TString) v = true) as (allow & Ea & Ha).
  { destruct (bool_decide (lines = [])); [exists None|exists (Some (JArr (map JStr lines)))]; split; try done.
    intros v [= <-]. apply strings_typed. }
  unfold conditions_of. fold lines. destruct (truthy_str (trim (min_trust_score d))); cbn [andb].
  - destruct (num_is_finite (number_of_string (min_trust_score d))) eqn:E; cbn [negb].
    + mred. eexists. split; [done|]. rewrite Ec, Ep, Ea.
      apply (object_of_conditions (Some (JNum (number_of_string (min_trust_score d))))); try done. by intros v [= <-].
    + mred. by eexists.
  - mred. eexists. split; [done|]. rewrite Ec, Ep, Ea. by apply (object_of_conditions None).
Qed.

Lemma entry_saved d :
  typed_section d = true ->
  if bad_trust d then exists e, protocolActionFromDraft d = Throw e
  else exists v, protocolActionFromDraft d = Ok v /\
       forall a, v = Some a -> has_type true Types.AutoReplyProtocolAction a = true.
Proof.
  intros T. pose proof (conditions_typed d T) as C. unfold bad_trust, protocolActionFromDraft.
  unfold typed_section in T. rewrite !andb_true_iff in T. destruct T as [[[Ta _] _] Tn].
  destruct (enabled d); cbn [andb negb]; [|by eexists].
  destruct (truthy_str _ && _); [destruct C as [e ->]; by eexists|]. destruct C as (l & -> & Hl). mred.
  destruct (typed_string _ Tn) as [note ->]. cbn [as_string]. mred. eexists. split; [done|]. intros a [= <-].
  unfold Types.AutoReplyProtocolAction.
  destruct (bool_decide (l = [])), (truthy_str (trim note)); cbn [app]; object_type;
    rewrite ?Ta, ?Hl; cbn [andb orb]; by rewrite ?orb_true_r.
Qed.

Lemma policy_saved d :
  typed_draft d = true ->
  if bad_trust (schedule_propose d) || bad_trust (task_delegate d) then exists e, policyFromDraft d = Throw e
  else exists p, policyFromDraft d = Ok p /\ has_type true Types.AutoReplyPolicy p = true.
Proof.
  unfold typed_draft. rewrite andb_true_iff. intros [Hs Ht]. apply entry_saved in Hs, Ht. unfold policyFromDraft.
  destruct (bad_trust (schedule_propose d)); cbn [orb]; [destruct Hs as [e ->]; by eexists|]. destruct Hs as (s & -> & Ts). mred.
  destruct (bad_trust (task_delegate d)); [destruct Ht as [e ->]; by eexists|]. destruct Ht as (t & -> & Tt). mred.
  eexists. split; [done|]. unfold Types.AutoReplyPolicy. pose proof (action_typed (default_action d)) as Hd.
  destruct s as [s|], t as [t|]; cbn [app]; object_type; rewrite ?Hd, ?(Ts _ eq_refl), ?(Tt _ eq_refl), ?num_eqb_int; cbn [andb orb];
    by rewrite ?orb_true_r, ?andb_true_r.
Qed.

(** A policy the server sends under its declared type can be edited, and what is
    saved has the declared type again; only a minimum trust that is not a number
    stops it. *)
Lemma edited_policy_typed resp es :
  has_type false Types.AutoReplyPolicyResponse resp = true -> forallb edit_ok es = true ->
  let data := Some (ResponseOf (jget resp (js "policy")) (jget resp (js "revision"))) in
  exists d, serverDraft data = Ok d /\ typed_draft d = true /\
    let d' := fold_left (fun d e => PolicyForm.edit e d) es d in
    if bad_trust (schedule_propose d') || bad_trust (task_delegate d') then exists e, policyFromDraft d' = Throw e
    else exists p, policyFromDraft d' = Ok p /\
         has_type true Types.PutAutoReplyPolicyRequest (save_payload p (revision data)) = true.
Proof.
  intros Hr He. cbv zeta.
  destruct (typed_field _ _ _ "policy" false (TUnion [Types.AutoReplyPolicy; TRecord TNever]) Hr) as [Hp|[[=] _]]; [cbn; auto|].
  destruct (typed_field _ _ _ "revision" false TNumber Hr) as [Hn|[[=] _]]; [cbn; auto|].
  destruct (typed_number _ Hn) as [n En]. destruct (draft_typed _ _ Hp) as (d & Ed & Td). exists d. split; [|split; [exact Td|]].
  - unfold serverDraft. cbn [r_policy]. destruct (jget resp (js "policy")); try done.
  - pose proof (policy_saved _ (edits_typed es d Td He)) as S. destruct (_ || _); [exact S|].
    destruct S as (p & Ep & Tp). exists p. split; [exact Ep|]. unfold save_payload, revision, Types.PutAutoReplyPolicyRequest. cbn [r_revision].
    rewrite En. cbn [nullish_or]. object_type. by rewrite Tp.
Qed.

End saved.

(** ** Runs that send what is declared *)

Section sends.
Context `{Host, Env, BrowserEnv}.

#[export] Instance sends_declared_preorder {S} (browser_of : S -> Browser) : PreOrder (sends_declared browser_of).
Proof.
  split.
  - intros s. by exists [].
  - intros s1 s2 s3 (e1 & E1 & F1) (e2 & E2 & F2). exists (e2 ++ e1). rewrite E2, E1, app_assoc. split; [done|]. by apply Forall_app.
Qed.

Abbreviation quiet := (sends_declared (fun b : Browser => b)).

(** The pieces of a call. *)
Lemma sends_fetch rq : declared_call WebApi.DEFAULT_BASE_URL rq -> respects quiet (web_fetch rq).
Proof.
  intros Hd b. exists [EvFetch rq]. unfold web_fetch, host, ask, mbind, eff_bind. cbn.
  destruct (env_fetch (w_trace (b_node b)) rq); cbn; (split; [done|by constructor]).
Qed.

Lemma sends_request path method body auth :
  declared_call WebApi.DEFAULT_BASE_URL (HttpRequest (default (js "GET") method) (WebApi.DEFAULT_BASE_URL ++ path) []
     (match body with Some b => TextBody (json_stringify b) | None => NoBody end)) ->
  respects quiet (WebApi.request WebApi.defaultApiClient path method body auth).
Proof.
  intros Hd. unfold WebApi.request. apply respects_bind; [apply _| |].
  - apply sends_fetch. destruct Hd as [Hd|(c & eid & v & ? & ? & ? & ? & ?)]; [by left|right]. by exists c, eid, v.
  - intros r. destruct (negb (wr_ok r)); apply respects_lift, _.
Qed.

Lemma sends_void path method ct message : respects quiet (WebApi.request_void WebApi.defaultApiClient path method ct message).
Proof.
  unfold WebApi.request_void. apply respects_bind; [apply _|apply sends_fetch; by left|]. intros r. apply respects_lift, _.
Qed.

Lemma sends_encoded {A} i (f : jstr -> BM A) : (forall eid, respects quiet (f eid)) -> respects quiet (eid ← lift (encodeURIComponent i); f eid).
Proof. intros Hf. apply respects_bind; [apply _|apply respects_lift, _|done]. Qed.


(** The calls whose body the caller gives. *)
Definition declares (h : Hooks.MutationHook) : Prop := respects quiet (Hooks.mutationFn h).

End sends.

Lemma call_url_bare base m p t eid : call_url base (Call m (p, Some EmptyString) t) eid = base ++ js p ++ eid.
Proof. unfold call_url. cbn [at_ fst snd]. by rewrite (app_nil_r eid : eid ++ js EmptyString = eid). Qed.

(** Finds the declaration of a call whose path ends in the id [eid]. *)
Ltac declared_at n eid := right; exists (nth n Client.calls (Call EmptyString (EmptyString, None) TUnknown)), eid; eexists;
  split; [cbn; tauto|split; [reflexivity|split; [cbn [nth Client.calls]|split; [reflexivity|]]]].

Section hooks.
Context `{Host, Env, BrowserEnv}.

Lemma declares_create_agent v : has_type true Types.CreateAgentRequest v = true -> declares (Hooks.useCreateAgentMutation v).
Proof. intros Hv. apply sends_request. declared_at 0%nat (@nil Z); [done|exact Hv]. Qed.

Lemma declares_verify v : has_type true Types.AuthVerifyRequest v = true -> declares (Hooks.useAuthVerifyMutation v).
Proof. intros Hv. apply sends_request. declared_at 16%nat (@nil Z); [done|exact Hv]. Qed.
Lemma declares_profile v : has_type true Types.UpdateProfileRequest v = true -> declares (Hooks.useUpdateProfileMutation v).
Proof. intros Hv. apply sends_request. declared_at 17%nat (@nil Z); [done|exact Hv]. Qed.
Lemma declares_block v : has_type true Types.CreateBlockRequest v = true -> declares (Hooks.useCreateBlockMutation v).
Proof. intros Hv. apply sends_request. declared_at 12%nat (@nil Z); [done|exact Hv]. Qed.
Lemma declares_contact v : has_type true Types.CreateContactRequest v = true -> declares (Hooks.useCreateContactMutation v).
Proof. intros Hv. apply sends_request. declared_at 14%nat (@nil Z); [done|exact Hv]. Qed.
Lemma declares_credential v : has_type true Types.CreateAgentCredentialRequest v = true -> declares (Hooks.useCreateAgentCredentialMutation v).
Proof. intros Hv. apply sends_request. declared_at 2%nat (@nil Z); [done|exact Hv]. Qed.

Lemma declares_update_agent i v : has_type true Types.UpdateAgentRequest v = true -> declares (Hooks.useUpdateAgentMutation i v).
Proof. intros Hv. apply sends_encoded. intros eid. apply sends_request. declared_at 1%nat eid; [by rewrite call_url_bare|exact Hv]. Qed.
Lemma declares_update_contact i v : has_type true Types.UpdateContactRequest v = true -> declares (Hooks.useUpdateContactMutation i v).
Proof. intros Hv. apply sends_encoded. intros eid. apply sends_request. declared_at 15%nat eid; [by rewrite call_url_bare|exact Hv]. Qed.
Lemma declares_block_sender i v : has_type true Types.BlockFromMessageRequest v = true -> declares (Hooks.useBlockFromMessageMutation i v).
Proof. intros Hv. apply sends_encoded. intros eid. apply sends_request. declared_at 13%nat eid; [by rewrite call_url_bare|exact Hv]. Qed.
Lemma declares_shutdown i : declares (Hooks.useEmergencyShutdownMutation i).
Proof. apply sends_encoded. intros eid. apply sends_request. by declared_at 4%nat eid. Qed.

Lemma declares_status i st : In st [js "read"; js "archived"] -> declares (Hooks.useUpdateMessageStatusMutation i st).
Proof.
  intros Hs. apply sends_encoded. intros eid. apply sends_request. declared_at 6%nat eid; [by rewrite call_url_bare|].
  cbn [In] in Hs. by destruct Hs as [<-|[<-|[]]].
Qed.

Lemma declares_folder i folder : In folder (map js Types.folders) -> declares (Hooks.useUpdateMessageFlagsMutation i (Some folder) None).
Proof.
  intros Hf. apply sends_encoded. intros eid. apply sends_request. declared_at 7%nat eid; [done|]. cbn [c_body nth Client.calls app Hooks.str_field].
  assert (has_type true Types.MessageFolder (JStr folder) = true) as T.
  { apply typed_texts. apply in_map_iff in Hf as (s & <- & Hs). by exists s. }
  unfold Types.UpdateMessageFlagsRequest. object_type. by rewrite T.
Qed.

Lemma declares_star i b : declares (Hooks.useUpdateMessageFlagsMutation i None (Some b)).
Proof. apply sends_encoded. intros eid. apply sends_request. by declared_at 7%nat eid. Qed.

Lemma declares_policy a v : has_type true Types.PutAutoReplyPolicyRequest v = true -> declares (Hooks.useUpdateAutoReplyPolicyMutation a v).
Proof.
  intros Hv. unfold declares. destruct a as [[|c a]|]; try by apply respects_lift, _. apply sends_encoded. intros eid. apply sends_request.
  declared_at 5%nat eid; [done|exact Hv].
Qed.

(** The calls without a body. *)
Lemma sends_voided (m : BM unit) : respects (sends_declared (fun b => b)) m -> respects (sends_declared (fun b => b)) (Hooks.void m).
Proof. intros Hm. apply respects_bind; [apply _|exact Hm|]. intros _. apply respects_ret, _. Qed.

Lemma declares_delete_block i : declares (Hooks.useDeleteBlockMutation i).
Proof. apply sends_voided, sends_encoded. intros eid. apply sends_void. Qed.
Lemma declares_delete_contact i : declares (Hooks.useDeleteContactMutation i).
Proof. apply sends_voided, sends_encoded. intros eid. apply sends_void. Qed.
Lemma declares_revoke i : declares (Hooks.useRevokeAgentCredentialMutation i).
Proof. apply sends_voided, sends_encoded. intros eid. apply sends_void. Qed.
Lemma declares_purge i : declares (Hooks.usePurgeAgentCredentialMutation i).
Proof. apply sends_voided, sends_encoded. intros eid. apply sends_void. Qed.
Lemma declares_delete_agent i : declares (Hooks.useDeleteAgentMutation i).
Proof. apply sends_voided, sends_encoded. intros eid. apply sends_void. Qed.
Lemma declares_delete_message i : declares (Hooks.useDeleteMessageMutation i).
Proof. apply sends_voided, sends_encoded. intros eid. apply sends_void. Qed.
Lemma declares_delete_policy a : declares (Hooks.useDeleteAutoReplyPolicyMutation a).
Proof.
  unfold declares. destruct a as [[|c a]|]; try by apply respects_lift, _. apply sends_voided, sends_encoded. intros eid. apply sends_void.
Qed.

Lemma sends_mark i r : respects (sends_declared (fun b => b)) (WebApi.markAutoReplySent WebApi.defaultApiClient i r).
Proof.
  apply sends_encoded. intros eid. apply sends_request. declared_at 8%nat eid; [done|]. destruct r as [[|c r]|]; done.
Qed.

End hooks.

(** ** The pages *)

Section pages.
Context `{Host, WebCrypto, Env, BrowserEnv, QueryClient, !QueryClientLaws}.

Lemma sends_mutation h : declares h -> respects (sends_declared t_browser) (Logout.mutate_hook h).
Proof.
  intros Hh t. rewrite mutate_hook_run. destruct (Hh (t_browser t)) as (evs & E & F). destruct (Hooks.mutationFn h (t_browser t)) as [r b].
  by exists evs.
Qed.

(** A page runs what its tab runs. *)
Lemma sends_tab {S A} (tab_of : S -> Tab) (m : TM A) (m' : eff S A) :
  (forall s, tab_of (m' s).2 = (m (tab_of s)).2) ->
  respects (sends_declared t_browser) m -> respects (sends_declared (fun s => t_browser (tab_of s))) m'.
Proof. intros Htab Hm s. destruct (Hm (tab_of s)) as (evs & E & F). exists evs. by rewrite Htab. Qed.

(** What does not touch the browser sends nothing. *)
Lemma sends_nothing {S A} (browser_of : S -> Browser) (m : eff S A) :
  (forall s, browser_of (m s).2 = browser_of s) -> respects (sends_declared browser_of) m.
Proof. intros Hm s. exists []. by rewrite Hm. Qed.

Lemma sends_screen {P} h : declares h -> respects (sends_declared (fun s : Screen P => t_browser (sc_tab s))) (in_tab (Logout.mutate_hook h)).
Proof. intros Hh. apply (sends_tab sc_tab (Logout.mutate_hook h)), sends_mutation, Hh. intros s. unfold in_tab. by destruct (Logout.mutate_hook h _). Qed.
Lemma sends_settings h : declares h -> respects (sends_declared (fun s => t_browser (AgentsPage.st_tab s))) (AgentsPage.tab (Logout.mutate_hook h)).
Proof. intros Hh. apply (sends_tab AgentsPage.st_tab (Logout.mutate_hook h)), sends_mutation, Hh. intros s. unfold AgentsPage.tab. by destruct (Logout.mutate_hook h _). Qed.
Lemma sends_policy h : declares h -> respects (sends_declared (fun s => t_browser (Editor.p_tab s))) (Editor.tab (Logout.mutate_hook h)).
Proof. intros Hh. apply (sends_tab Editor.p_tab (Logout.mutate_hook h)), sends_mutation, Hh. intros s. unfold Editor.tab. by destruct (Logout.mutate_hook h _). Qed.
Lemma sends_block_menu h : declares h -> respects (sends_declared (fun s => t_browser (Thread.Block.b_tab s))) (Thread.Block.tab (Logout.mutate_hook h)).
Proof. intros Hh. apply (sends_tab Thread.Block.b_tab (Logout.mutate_hook h)), sends_mutation, Hh. intros s. unfold Thread.Block.tab. by destruct (Logout.mutate_hook h _). Qed.
Lemma sends_inbox h : declares h -> respects (sends_declared (fun s => t_browser (Handlers.i_tab s))) (Handlers.tab (Logout.mutate_hook h)).
Proof. intros Hh. apply (sends_tab Handlers.i_tab (Logout.mutate_hook h)), sends_mutation, Hh. intros s. unfold Handlers.tab. by destruct (Logout.mutate_hook h _). Qed.

End pages.

(** Follows a handler to its calls; what is left are their declarations. *)
Ltac sends :=
  repeat (lazymatch goal with |- respects _ _ => first
  [ apply respects_ret, _ | apply respects_lift, _
  | apply respects_bind; [apply _| |intros ?]
  | apply respects_catch; [apply _| |intros ?]
  | apply respects_iter; [apply _|intros ?]
  | apply respects_map; [apply _|intros ?]
  | apply sends_screen | apply sends_settings | apply sends_policy | apply sends_block_menu | apply sends_inbox
  | apply sends_nothing; done
  | match goal with |- respects _ (match ?x with _ => _ end) => destruct x eqn:? end ] end).

Section handlers.
Context `{Host, WebCrypto, Env, BrowserEnv, QueryClient, !QueryClientLaws}.

Lemma blocks_send p : respects (sends_declared (fun s => t_browser (sc_tab s))) (BlocksPage.handleCreate p).
Proof.
  unfold BlocksPage.handleCreate, BlocksPage.create_call, BlocksPage.say, mutate. sends; by apply declares_block.
Qed.

Lemma text_or_null_typed s : has_type true (or_null TString) (ContactsPage.text_or_null s) = true.
Proof. unfold ContactsPage.text_or_null. by destruct (truthy_str s). Qed.

Lemma contacts_send p :
  respects (sends_declared (fun s => t_browser (sc_tab s))) (ContactsPage.handleSubmit p) /\
  forall confirmed, respects (sends_declared (fun s => t_browser (sc_tab s))) (ContactsPage.handleDelete p confirmed).
Proof.
  split; [unfold ContactsPage.handleSubmit|intros confirmed; unfold ContactsPage.handleDelete];
    unfold ContactsPage.setStatus, mutate; sends.
  - apply declares_update_contact. unfold ContactsPage.update_body, Types.UpdateContactRequest. object_type.
    by rewrite !text_or_null_typed, !orb_true_r.
  - apply declares_contact. unfold ContactsPage.create_payload, Types.CreateContactRequest. object_type.
    by rewrite !text_or_null_typed, !orb_true_r.
  - apply declares_delete_contact.
Qed.

Lemma pending_sends i :
  respects (sends_declared (fun s => t_browser (sc_tab s))) (PendingPage.handleApprove i) /\
  respects (sends_declared (fun s => t_browser (sc_tab s))) (PendingPage.handleReject i).
Proof.
  split; [unfold PendingPage.handleApprove|unfold PendingPage.handleReject]; unfold PendingPage.move_to, PendingPage.say, mutate; sends;
    apply declares_folder; cbn; tauto.
Qed.

Lemma names_send p q :
  respects (sends_declared (fun s => t_browser (sc_tab s))) (DisplayNamePrompt.handleSubmit p) /\
  respects (sends_declared (fun s => t_browser (sc_tab s))) (ProfilePanel.handleSubmit q).
Proof.
  split; [unfold DisplayNamePrompt.handleSubmit, DisplayNamePrompt.setError|unfold ProfilePanel.handleSubmit, ProfilePanel.setOutcome];
    unfold mutate; sends; apply declares_profile; [done|by case_match].
Qed.

Lemma settings_send active p c confirmed :
  let R := sends_declared (fun s => t_browser (AgentsPage.st_tab s)) in
  respects R (AgentsPage.handleSaveRename active p) /\ respects R (AgentsPage.handleToggleAutoReply active) /\
  respects R (AgentsPage.handleDelete active confirmed) /\ respects R (AgentsPage.createCredential active p) /\
  respects R (AgentsPage.revoke c confirmed) /\ respects R (AgentsPage.purge c confirmed) /\
  respects R (AgentsPage.emergencyShutdown active confirmed).
Proof.
  cbv zeta. unfold AgentsPage.handleSaveRename, AgentsPage.handleToggleAutoReply, AgentsPage.handleDelete, AgentsPage.createCredential,
    AgentsPage.revoke, AgentsPage.purge, AgentsPage.emergencyShutdown, AgentsPage.attempt, AgentsPage.setBanner, AgentsPage.on_page.
  split_and!; sends; lazymatch goal with
  | |- declares (Hooks.useUpdateAgentMutation _ _) => by apply declares_update_agent
  | |- declares (Hooks.useCreateAgentCredentialMutation _) => by apply declares_credential
  | |- declares (Hooks.useDeleteAgentMutation _) => apply declares_delete_agent
  | |- declares (Hooks.useRevokeAgentCredentialMutation _) => apply declares_revoke
  | |- declares (Hooks.usePurgeAgentCredentialMutation _) => apply declares_purge
  | |- _ => apply declares_shutdown
  end.
Qed.

Lemma block_menu_sends i level confirmed :
  respects (sends_declared (fun s => t_browser (Thread.Block.b_tab s))) (Thread.Block.confirmAndBlock i level confirmed).
Proof.
  unfold Thread.Block.confirmAndBlock, Thread.Block.setBlockStatus, Thread.Block.setBlockOpenFor. sends.
  apply declares_block_sender. by destruct level.
Qed.

Lemma inbox_sends `{Locale, CaseMap} t d shown i b folder status proceed :
  In folder (map js Types.folders) -> In status [js "read"; js "archived"] ->
  let R := sends_declared (fun s => t_browser (Handlers.i_tab s)) in
  respects R (Handlers.handleOpenThread t d shown i) /\ respects R (Handlers.toggleStar t d shown i) /\
  respects R (Handlers.bulkSetStar t d shown b) /\ respects R (Handlers.bulkMoveToFolder t d shown folder) /\
  respects R (Handlers.bulkDeleteForever t d shown proceed) /\ respects R (Handlers.bulkUpdateStatus t d shown status).
Proof.
  intros Hf Hs. cbv zeta. unfold Handlers.handleOpenThread, Handlers.toggleStar, Handlers.bulkSetStar, Handlers.bulkMoveToFolder,
    Handlers.bulkDeleteForever, Handlers.bulkUpdateStatus, Handlers.mark_rows, Handlers.on_page, Handlers.refetch, Handlers.alert.
  split_and!; sends;
    lazymatch goal with
    | |- declares (Hooks.useUpdateMessageStatusMutation _ status) => by apply declares_status
    | |- declares (Hooks.useUpdateMessageStatusMutation _ _) => apply declares_status; by left
    | |- declares (Hooks.useDeleteMessageMutation _) => apply declares_delete_message
    | |- declares (Hooks.useUpdateMessageFlagsMutation _ None _) => apply declares_star
    | |- _ => by apply declares_folder
    end.
Qed.

Lemma agent_inbox_sends r p : respects (sends_declared t_browser) (AgentList.handleOpen r p).
Proof.
  unfold AgentList.handleOpen. destruct (AgentList.unread r); [|apply respects_ret, _].
  apply respects_catch; [apply _| |intros e; apply respects_ret, _].
  apply respects_bind; [apply _| |intros v; apply respects_ret, _]. apply sends_mutation, declares_status. by left.
Qed.

Lemma policy_sends a d data :
  has_type true TNumber (Editor.revision data) = true -> typed_draft d = true ->
  respects (sends_declared (fun s => t_browser (Editor.p_tab s))) (Editor.handleSave a d data).
Proof.
  intros Hn Td. pose proof (policy_saved d Td) as Hp. unfold Editor.handleSave, Editor.setStatus, Editor.refetch.
  destruct (Editor.policyFromDraft d) as [p|e] eqn:Ep; sends. apply declares_policy.
  destruct (_ || _); [by destruct Hp|]. destruct Hp as (p' & [= <-] & Tp). unfold Editor.save_payload, Types.PutAutoReplyPolicyRequest.
  object_type. rewrite Tp. cbn [has_type] in Hn. by rewrite Hn, !orb_true_r.
Qed.

Lemma policy_reset_sends a confirmed :
  respects (sends_declared (fun s => t_browser (Editor.p_tab s))) (Editor.handleReset a confirmed).
Proof. unfold Editor.handleReset, Editor.setStatus, Editor.refetch. sends. apply declares_delete_policy. Qed.

(** Keys are made and stored without a request. *)
Lemma sends_ask {A} e (f : list Event -> A) : (forall rq, e <> EvFetch rq) -> respects (sends_declared (fun b : Browser => b)) (host (ask e f)).
Proof. intros He b. exists [e]. split; [done|]. constructor; [|done]. destruct e; try done. by edestruct He. Qed.

Lemma sends_local {A} (m : BM A) : (forall b, b_node (m b).2 = b_node b) -> respects (sends_declared (fun b => b)) m.
Proof. intros Hm b. exists []. by rewrite Hm. Qed.

Ltac sends_locally r :=
  repeat first [ apply respects_ret, _ | apply respects_lift, _ | apply respects_bind; [apply _| |intros ?] | apply respects_catch; [apply _| |intros ?]
               | by apply sends_ask | apply sends_local; intros b; by destruct r
               | match goal with |- respects _ (match ?x with _ => _ end) => destruct x end ].

Lemma key_made_sends r : respects (sends_declared (fun b => b)) (Ring.generateKeyPairMaterial r).
Proof. unfold Ring.generateKeyPairMaterial, generate_key. sends_locally r. Qed.
Lemma key_saved_sends r did key : respects (sends_declared (fun b => b)) (Ring.savePrivateKey r did key).
Proof. unfold Ring.savePrivateKey, secureStoreKey, idb_call, refusable, Ring.remember. sends_locally r. Qed.

Lemma sends_of_browser {A} (m : BM A) : respects (sends_declared (fun b => b)) m -> respects (sends_declared t_browser) (of_browser m).
Proof.
  intros Hm t. destruct (Hm (t_browser t)) as (evs & E & F). exists evs. split; [|done]. unfold of_browser, of_llm, LlmAuth.in_browser_, t_browser in *.
  by destruct (m (LlmAuth.l_browser (t_llm t))).
Qed.

Lemma sends_new_agent {A} (m : TM A) :
  respects (sends_declared t_browser) m -> respects (sends_declared (fun s => t_browser (NewAgentPage.n_tab s))) (NewAgentPage.tab m).
Proof. intros Hm. apply (sends_tab NewAgentPage.n_tab m); [|exact Hm]. intros s. unfold NewAgentPage.tab. by destruct (m _). Qed.

Lemma new_agent_sends shown : respects (sends_declared (fun s => t_browser (NewAgentPage.n_tab s))) (NewAgentPage.handleCreate shown).
Proof.
  unfold NewAgentPage.handleCreate, NewAgentPage.setBanner, NewAgentPage.setLabel, NewAgentPage.later.
  repeat first [ apply respects_ret, _ | apply respects_lift, _ | apply respects_bind; [apply _| |intros ?]
               | apply respects_catch; [apply _| |intros ?] | apply sends_new_agent, sends_of_browser, key_made_sends
               | apply sends_new_agent, sends_of_browser, key_saved_sends
               | apply sends_nothing; done | apply sends_new_agent, sends_mutation, declares_create_agent; done
               | match goal with |- respects _ (match ?x with _ => _ end) => destruct x end ].
Qed.
End handlers.

(** ** Messages and attachments *)

(** The body of a message whose parties and attachments have text ids. *)
Lemma seed_typed p :
  is_string (WebApi.sm_senderDid p) = true -> is_string (WebApi.sm_recipientDid p) = true ->
  forallb (fun a => is_string (WebApi.oa_id a)) (WebApi.sm_attachments p) = true ->
  has_type true Client.SeedBody (WebApi.seed_body p) = true.
Proof.
  intros Hs Hr Ha. unfold WebApi.seed_body, Client.SeedBody.
  assert (has_type true (TRecord TUnknown) (WebApi.seed_metadata p) = true) as Hm.
  { unfold WebApi.seed_metadata. cbn [has_type]. apply forallb_forall. by intros x _. }
  set (m := WebApi.seed_metadata p) in *. clearbody m.
  assert (has_type true (TArray TString) (JArr (map WebApi.oa_id (WebApi.sm_attachments p))) = true) as Hi.
  { cbn [has_type]. rewrite forallb_forall in *. intros x Hx. apply in_map_iff in Hx as (a & <- & Hin). by apply Ha. }
  assert (has_type true (TArray Types.OutboundAttachmentRef) (JArr (map WebApi.outbound_to_val (WebApi.sm_attachments p))) = true) as Ho.
  { cbn [has_type]. rewrite forallb_forall in *. intros x Hx. apply in_map_iff in Hx as (a & <- & Hin). specialize (Ha a Hin).
    unfold WebApi.outbound_to_val, Types.OutboundAttachmentRef. object_type. by rewrite Ha, ?orb_true_r. }
  remember (WebApi.sm_attachments p) as l eqn:El. clear El Ha.
  assert (forall v w, has_type true (TArray TString) v = true -> has_type true (TArray Types.OutboundAttachmentRef) w = true ->
            forall extra, (extra = [] \/ extra = [(js "attachment_ids", v); (js "attachments", w)]) ->
            has_type true Client.SeedBody
              (JObj ([(js "sender_did", WebApi.sm_senderDid p); (js "recipient_did", WebApi.sm_recipientDid p);
                      (js "envelope",
                       JObj [(js "encrypted_content", JStr (WebApi.sm_encryptedContent p)); (js "encrypted_key", JStr (WebApi.sm_encryptedKey p));
                             (js "nonce", JStr (WebApi.sm_nonce p)); (js "signature", JStr (WebApi.sm_signature p)); (js "metadata", m)])] ++ extra)) = true) as Hall.
  { intros v w Hv Hw extra He. unfold Client.SeedBody. cbn [has_type] in Hm, Hv. destruct He as [-> | ->]; object_type; rewrite Hs, Hr, Hm; [done|].
    rewrite Hv. cbn [has_type] in Hw. by rewrite Hw, !orb_true_r. }
  destruct l as [|a l]; [apply (Hall _ _ Hi Ho []); by left|].
  apply (Hall _ _ Hi Ho). by right.
Qed.

(** What the compose page seals as an attachment's metadata, and asks an upload for. *)
Lemma attachment_typed att nonce recipient rwrap sender swrap sha :
  is_string recipient = true ->
  has_type true Types.AttachmentMetadataPlain (Compose.attachment_metadata att nonce recipient rwrap sender swrap sha) = true.
Proof.
  intros Hr. destruct (typed_string _ Hr) as [r ->]. unfold Compose.attachment_metadata, Types.AttachmentMetadataPlain. object_type. done.
Qed.

(** ** Answers *)

(** The executor reads an answer of the declared type without loss. *)
Lemma content_typed v :
  has_type false Types.MessageContentResponse v = true ->
  exists c, Wiring.content_read v = Ok c /\
    jget v (js "encrypted_content") = JStr (mc_encrypted_content c) /\ jget v (js "encrypted_key") = JStr (mc_encrypted_key c) /\
    (forall t, mc_content_type c = Some t <-> jget v (js "content_type") = JStr t).
Proof.
  intros Hv. destruct (has_type_object _ _ _ Hv) as [o ->].
  destruct (typed_field _ _ _ "encrypted_content" false TString Hv) as [Hc|[[=] _]]; [cbn; auto|]. destruct (typed_string _ Hc) as [c Ec].
  destruct (typed_field _ _ _ "encrypted_key" false TString Hv) as [Hk|[[=] _]]; [cbn; auto|]. destruct (typed_string _ Hk) as [k Ek].
  unfold Wiring.content_read, Wiring.text_prop. rewrite Ec, Ek. eexists. split; [reflexivity|]. cbn [mc_encrypted_content mc_encrypted_key mc_content_type].
  split; [done|]. split; [done|]. intros t. destruct (jget (JObj o) (js "content_type")); split; intros E; congruence.
Qed.


Definition sample_response : jval :=
  JObj [(js "agent_id", JStr (js "ag1")); (js "schema_version", JNum (num 1)); (js "revision", JNum (num 3));
        (js "policy", JObj [(js "v", JNum (num 1)); (js "default_action", JStr (js "auto_decline"));
                            (js "protocols", JObj [(js "schedule_negotiation", JObj [(js "propose",
                               JObj [(js "action", JStr (js "auto_accept"));
                                     (js "conditions", JObj [(js "sender_in_allowlist", JArr [JStr (js "did:key:zB")])])])])])]);
        (js "updated_at", JNull)].
Definition sample_edits : list PolicyForm.Edit :=
  [PolicyForm.edit_schedule (PolicyForm.set_trust (js "0.5")); PolicyForm.edit_schedule (PolicyForm.set_priority (js "normal"));
   PolicyForm.edit_task (PolicyForm.set_enabled true)].

